(* ===== verification/_CoqProject ===== *)
-Q . S2P
Prelude.v
PyStr.v
Sha256.v
PyVal.v
PyDecimal.v
Calendar.v
Models.v
Memory.v
Tables.v
Redaction.v
AuditTrail.v
AuditFacts.v
Identity.v
Companies.v
CompanyFacts.v
CompanyRuns.v
JobPolicies.v
JobEngine.v
JobLifecycle.v
JobGuarantees.v
JobRuns.v
Artifacts.v
ArtifactFacts.v
ArtifactRuns.v
Documents.v
DocumentFacts.v
Simulation.v
Ingestion.v
IngestionFacts.v
IngestionGuarantees.v
Certificates.v
CertificateFacts.v
CertificateRuns.v
Collection.v
CollectionFacts.v
CollectionGuarantees.v
CollectionRuns.v
Sessions.v
SessionFacts.v
SessionGuarantees.v
SessionRuns.v
Retention.v
RetentionFacts.v
Deletion.v
DeletionFacts.v
DeletionGuarantees.v
DeletionCompletion.v
DeletionEffects.v
IngestionProtocol.v
IngestionRuns.v
DeletionRuns.v
NFeDistribution.v
NFeDistributionFacts.v
AdnDistribution.v
AdnDistributionFacts.v
DistributionRuns.v
FollowUp.v
FollowUpService.v
FollowUpFacts.v
FollowUpGuarantees.v
FollowUpRuns.v
Rendering.v
RenderingFacts.v
RenderingGuarantees.v
RenderingRuns.v
