(* ===== verification/Prelude.v ===== *)
(** * NFX INOV: verification of the backend's core logic

    The backend (src/backend/nfx, Django) collects Brazilian fiscal documents
    for registered companies.  A request for collection becomes one execution
    per document family and one durable job each; workers claim jobs under a
    lease and classify what a handler answers; a fiscal adapter's response is
    one page, whose units are stored as artifacts (an object store behind a
    relational reference), persisted as documents with their evidence, and whose
    position advances a checkpoint.  Certificates are kept encrypted and opened
    by workers.  Every decision leaves an event in an append-only, hash-chained
    audit trail.  This library models those services from their Python source
    and proves what makes them correct.

    ** How the code is read

    [Models] is the schema and the world a service runs in: a record [DB] of
    tables (finite maps from primary key to row), the clock, the generator of
    identifiers, whether the database answers, what its typed columns give back
    ([columns]: [inet] for addresses, [jsonb] for documents), and the object store,
    of a type [B] left open.  A service is a computation of the monad [M B] (Prelude): it
    takes the world and returns a value or the Python exception, and the world
    after it.  [atomic] is [transaction.atomic()]: an exception restores the
    database and nothing else.  A query is a filter over rows; a constraint, a
    check or a column width is tested by the [create]/[save] of the service, which
    raises [IntegrityError] or [DataError].  Interleaving is between
    transactions: theorems about "any sequence" range over lists of operations or
    over the reflexive transitive closure of a step relation, with time and the
    connection changing in between.  Row locks are not modelled beyond that, apart
    from [claim_next], which takes the set of rows that other workers have locked.

    Machine widths appear where the database has them: integer columns are [Z]
    with their range tested, text columns have their width.  Instants are
    microseconds since the epoch.  Strings are sequences of code points below
    256; text outside Latin-1 is not modelled.

    ** Files

    - [Prelude]: results, the state and error monad with its rules, record
      update, tables and queries, shared tactics and hints.
    - [PyStr], [PyVal], [Sha256]: what the sources use of the standard library:
      strings, classes of the regular expressions, UUIDs, JSON, dates, URLs,
      [hashlib.sha256]; [PyDecimal]: [decimal.Decimal] under the default context,
      and what reading, adding and printing do to amounts in cents.
    - [Models]: every module's models.py that the services below touch;
      [Tables]: lemmas on keyed tables and ordered queries; [Calendar]: lemmas on
      civil dates.
    - [Redaction] (infrastructure/redaction.py), [AuditTrail]
      (audit/services.py), what an altered trail keeps in [AuditFacts], [Identity]
      (identity/policy.py).
    - [Sessions] (identity/services.py), the invariant of its tables and how each
      operation moves them in [SessionFacts], theorems in [SessionGuarantees].
    - [Companies] (companies/services.py and the paging of companies/views.py),
      theorems in [CompanyFacts].
    - [JobPolicies] (jobs/policy.py), [JobEngine] (jobs/services.py,
      jobs/handlers.py), the abstract [lifecycle] and the refinement in
      [JobLifecycle], theorems in [JobGuarantees].
    - [Artifacts] (artifacts/storage.py), theorems in [ArtifactFacts].
    - [Documents] (documents/services.py), theorems in [DocumentFacts].
    - [Simulation] (adapters/simulation.py), [Ingestion]
      (collection/ingestion.py), frames and the invariant of its tables in
      [IngestionFacts], theorems on each operation in [IngestionGuarantees], on
      interleavings of all of them with deletions in [IngestionProtocol].
    - [Certificates] (certificates/services.py), theorems in [CertificateFacts].
    - [Collection] (collection/services.py and the bridge at the end of
      collection/ingestion.py), the invariant of its tables in
      [CollectionFacts], theorems in [CollectionGuarantees].
    - [Retention] (retention/services.py), theorems in [RetentionFacts];
      [Deletion] (retention/deletion.py), the life cycle of an operation and the
      logic its commands are reasoned about with in [DeletionFacts], theorems in
      [DeletionGuarantees], the exact change a completion makes in
      [DeletionCompletion], and what the commands do to the tables of ingestion,
      follow-up and rendering in [DeletionEffects].
    - [Memory]: what a process keeps between calls (counters, simulators), and the
      two shapes the simulators have: one history per key, answers replayed.
    - [NFeDistribution] (adapters/nfe.py to line 431), [AdnDistribution]
      (adapters/adn.py): the boundary in front of a fiscal transport and its
      simulator, theorems in [NFeDistributionFacts], [AdnDistributionFacts].
    - [FollowUp] (adapters/nfe.py, lines 434 to 1152): the values, scenarios,
      simulators and adapters of what follows an NF-e; [FollowUpService] (from
      line 1155): the service and its job handlers, the life of a manifestation
      and the frames in [FollowUpFacts], theorems in [FollowUpGuarantees].
    - [Rendering] (documents/rendering.py): the PDF of a document, its row, job
      and artifact; what the XML decides in [RenderingFacts], the table, what is
      stored and what is reused in [RenderingGuarantees].
    - [DistributionRuns], [FollowUpRuns], [RenderingRuns], [JobRuns], [ArtifactRuns], [IngestionRuns], [CompanyRuns],
      [CertificateRuns], [CollectionRuns], [SessionRuns],
      [DeletionRuns]: concrete runs, evaluated, to which the theorems are applied; they show the hypotheses can hold together.

    ** Interfaces

    What lies outside src/ is a parameter.  [External] (Models) is the boto3
    client and the time-zone database, with the laws of a key-value store;
    [ObjectStore] (Artifacts) is the protocol the artifact service is written
    against, whose laws the S3 adapter discharges; [FiscalAdapter] (Simulation)
    is the adapter protocol; [Cryptography] (Certificates) is the PKCS#12 parser
    and AES-GCM, with the law that opening undoes sealing; [PasswordHasher]
    (Sessions) is Django's hasher and e-mail validator, with the law that a
    password checks against its own encoding; [Signer] (Retention) is Django's
    signer, and [Heap] the order in which the database returns rows nobody
    ordered; [XmlParser] (FollowUp) is ElementTree's parser, of which only the
    root's tag is used; [XmlTree] (Rendering) is the same parser with the tree it
    gives, and its serializer; [PdfLibrary] is BrazilFiscalReport.  [Holds] (Memory) lets an object of the process stand
    next to the bucket in the world; the law is that what is put there is found
    there.  The runs instantiate all of them.

    ** What the theorems show

    - Jobs: every operation refines [lifecycle]; the table's invariant over any
      run; exclusive leases, durability, contracts of claiming, enqueueing,
      finalising; a worker's turn makes progress.
    - Ingestion: finished pages are final and complete, and a checkpoint has walked
      along finished pages that are there; a settled unit is durable; failures
      never advance; replays change nothing.
    - Collections: executions follow their life cycle under any operations, one
      active per company and family; a request starts everything or nothing; a
      job and its execution end in matching states.
    - Artifacts and certificates: what is stored is what is read; a failed
      replacement never costs a company its current certificate.
    - Companies: the CNPJ against the registry's rule; the list's pages visit each
      row once; versions prevent lost updates; the company life cycle.
    - Documents: the decision table of persistence, replays, the invariant.
    - Audit and redaction: the chain verifies after any appends the columns give
      back unchanged, and not behind one they change; tampering is found behind any
      row that keeps its digest; no secret field survives redaction.
    - Retention and deletion: when retention ends, against the rule; each document's
      state, reason and date, against a decision table; the pages of the list; a document goes only when due,
      by an operation recorded for what was previewed, and the operation's
      completion is one exact change; a lost checkpoint blocks it for good.
    - Adapters: an accepted page is the transport's answer within the request's
      limits, and ingestion stores it; each flow, and each actor and flow of the
      ADN, is served as if it were alone; answers are replayed.
    - Follow-up: a complete XML is kept only after a completed science job that
      permitted it, and such a job queues it; manifestations have one row per key,
      keep their order, stop moving once settled (a deletion takes the document
      from them, nothing else), and answer what they record.
    - Rendering: a stored PDF is the library's output for the source whose digest
      was verified; one rendering per identity, each with a job of its own, until a
      deletion takes it with its document; what is intact is reused; the retention rule keeps the total of the amounts it moves;
      the XML's situation never reaches the PDF, against the specification.
    - Policies and authorization: the most specific policy; nested roles.
    - Sessions and users: an ended session never identifies anyone again; a live
      one does, exactly; an administrator always remains; a created account logs
      in; guessing a password waits; the tables stay well formed.

    ** Bounds and fuel

    Four functions take fuel: the walks over the company and retention pages (more
    than the number of rows to visit suffices, [walk_companies_complete],
    [walk_retention_complete]), the digits
    of a number (one step per binary digit, of which there are at least as many as
    decimal ones) and the search for CNPJ candidates in a certificate's name (the
    length of the name; each step takes a character).  Enqueueing tries twice, as the source does.  Every other loop
    runs over a list.

    ** Not modelled

    Views, serialisation to HTTP, metrics endpoints and observability (glue and
    counters), structured log lines, the layout of a PDF (the library), the
    consultation queries and status lists (documents/consultation.py, status.py),
    exports and backup (archives written to and read from files), the operations
    dashboard and the process infrastructure.  The
    simulators' locks are not modelled: their calls are one after the other.  A NUL
    character in a text column, which PostgreSQL refuses, is not modelled.  The
    theorems on interleavings of whole services run each service to its end, or to
    the exception that ends it, before the next one.  Two
    logins of one subject at the same instant are one after the other here; in the
    source they may read the same throttle row. *)

From stdpp Require Import base decidable list gmap strings.
From Stdlib Require Import ZArith Lia.

#[global] Set Default Goal Selector "!".
#[global] Set Warnings "-postfix-notation-not-level-1,-register-all".

#[global] Set Default Proof Using "Type".

Declare Scope nfx_scope.
Delimit Scope nfx_scope with nfx.
#[global] Open Scope nfx_scope.

(** ** Results of Python code: a value, or a raised exception *)

Inductive result (E A : Type) : Type :=
| Ok (a : A)
| Err (e : E).
Arguments Ok {E A} a.
Arguments Err {E A} e.

Definition is_ok {E A} (r : result E A) : bool := match r with Ok _ => true | Err _ => false end.

Lemma Ok_inj {E A} (a b : A) : @Ok E A a = Ok b -> a = b.
Proof. congruence. Qed.

(** A pure computation that may raise, then the next one. *)
Definition and_then {E A B} (r : result E A) (k : A -> result E B) : result E B :=
  match r with Ok a => k a | Err e => Err e end.

Lemma and_then_inv {E A B} (r : result E A) (k : A -> result E B) b :
  and_then r k = Ok b -> exists a, r = Ok a /\ k a = Ok b.
Proof. destruct r; [eauto | done]. Qed.

Notation "'check*' x ':=' r 'in' k" := (and_then r (fun x => k))
  (at level 10, x name, r at level 100, k at level 200) : nfx_scope.

(** ** The state and exception monad

    A Python function that reads and writes the database and may raise is an
    [ST S E A]: the state survives an exception, as it does in Python; a
    transaction (see [Models.atomic]) is what rolls it back. *)

Definition ST (S E A : Type) : Type := S -> result E A * S.

Section monad.
Context {S E : Type}.

Definition ret {A} (a : A) : ST S E A := fun s => (Ok a, s).

Definition throw {A} (e : E) : ST S E A := fun s => (Err e, s).

Definition bind {A B} (m : ST S E A) (k : A -> ST S E B) : ST S E B :=
  fun s => match m s with
           | (Ok a, s') => k a s'
           | (Err e, s') => (Err e, s')
           end.

Definition gets {A} (f : S -> A) : ST S E A := fun s => (Ok (f s), s).

Definition modify (f : S -> S) : ST S E unit := fun s => (Ok tt, f s).

(** [try: m  except: h] - the handler re-raises what it does not catch. *)
Definition try_except {A} (m : ST S E A) (h : E -> ST S E A) : ST S E A :=
  fun s => match m s with
           | (Ok a, s') => (Ok a, s')
           | (Err e, s') => h e s'
           end.

(** [if not b: raise e] *)
Definition require (b : bool) (e : E) : ST S E unit := if b then ret tt else throw e.

Definition of_option {A} (o : option A) (e : E) : ST S E A :=
  match o with Some a => ret a | None => throw e end.

Definition lift_result {A} (r : result E A) : ST S E A :=
  match r with Ok a => ret a | Err e => throw e end.

(** [for x in xs: f(x)], collecting what each iteration returns. *)
Fixpoint for_each {A B} (xs : list A) (f : A -> ST S E B) : ST S E (list B) :=
  match xs with
  | [] => ret []
  | x :: rest => bind (f x) (fun b => bind (for_each rest f) (fun bs => ret (b :: bs)))
  end.

(** [for x in xs: acc = f(acc, x)] *)
Fixpoint fold_each {A B} (xs : list A) (f : B -> A -> ST S E B) (acc : B) : ST S E B :=
  match xs with
  | [] => ret acc
  | x :: rest => bind (f acc x) (fun acc' => fold_each rest f acc')
  end.

End monad.

Notation "'let*' x ':=' m 'in' k" := (bind m (fun x => k))
  (at level 10, x name, m at level 100, k at level 200,
   format "'[v' 'let*'  x  ':='  m  'in' '/' k ']'") : nfx_scope.
Notation "'let*' ' p ':=' m 'in' k" := (bind m (fun x => match x with p => k end))
  (at level 10, p pattern, m at level 100, k at level 200) : nfx_scope.
Notation "m ';;;' k" := (bind m (fun _ => k)) (at level 100, right associativity) : nfx_scope.

(** ** Hoare triples over the monad

    [hoare P m Q R]: run from a state in [P], [m] ends in [Q a] when it returns
    [a] and in [R e] when it raises [e].  Every [ST] computation terminates. *)

Definition hoare {S E A} (P : S -> Prop) (m : ST S E A)
  (Q : A -> S -> Prop) (R : E -> S -> Prop) : Prop :=
  forall s, P s -> match m s with (Ok a, s') => Q a s' | (Err e, s') => R e s' end.

(** [m] keeps the invariant [I], whether it returns or raises. *)
Definition preserves {S E A} (I : S -> Prop) (m : ST S E A) : Prop :=
  forall s, I s -> I (m s).2.

Section hoare_rules.
Context {S E : Type}.

Lemma hoare_ret {A} (a : A) (P : S -> Prop) (Q : A -> S -> Prop) (R : E -> S -> Prop) :
  (forall s, P s -> Q a s) -> hoare P (ret a) Q R.
Proof. intros H s Hs. apply H, Hs. Qed.

Lemma hoare_throw {A} (e : E) (P : S -> Prop) (Q : A -> S -> Prop) (R : E -> S -> Prop) :
  (forall s, P s -> R e s) -> hoare P (throw e) Q R.
Proof. intros H s Hs. apply H, Hs. Qed.

Lemma hoare_bind {A B} (m : ST S E A) (k : A -> ST S E B) P Q' (Q : B -> S -> Prop) R :
  hoare P m Q' R -> (forall a, hoare (Q' a) (k a) Q R) -> hoare P (bind m k) Q R.
Proof.
  intros Hm Hk s Hs. unfold bind. specialize (Hm s Hs).
  destruct (m s) as [[a|e] s']; [apply Hk, Hm | exact Hm].
Qed.

Lemma hoare_conseq {A} (m : ST S E A) P P' (Q Q' : A -> S -> Prop) (R R' : E -> S -> Prop) :
  hoare P' m Q' R' -> (forall s, P s -> P' s) ->
  (forall a s, Q' a s -> Q a s) -> (forall e s, R' e s -> R e s) -> hoare P m Q R.
Proof.
  intros Hm HP HQ HR s Hs. specialize (Hm s (HP s Hs)).
  destruct (m s) as [[a|e] s']; [apply HQ, Hm | apply HR, Hm].
Qed.

Lemma preserves_hoare {A} (I : S -> Prop) (m : ST S E A) :
  preserves I m <-> hoare I m (fun _ => I) (fun _ => I).
Proof.
  split.
  - intros H s Hs. specialize (H s Hs). by destruct (m s) as [[a|e] s'].
  - intros H s Hs. specialize (H s Hs). by destruct (m s) as [[a|e] s'].
Qed.

Lemma preserves_ret {A} (I : S -> Prop) (a : A) : preserves (E:=E) I (ret a).
Proof. by intros s Hs. Qed.

Lemma preserves_throw {A} (I : S -> Prop) (e : E) : preserves (A:=A) I (throw e).
Proof. by intros s Hs. Qed.

Lemma preserves_gets {A} (I : S -> Prop) (f : S -> A) : preserves (E:=E) I (gets f).
Proof. by intros s Hs. Qed.

Lemma preserves_modify (I : S -> Prop) (f : S -> S) :
  (forall s, I s -> I (f s)) -> preserves (E:=E) I (modify f).
Proof. intros H s Hs. apply H, Hs. Qed.

Lemma preserves_bind {A B} (I : S -> Prop) (m : ST S E A) (k : A -> ST S E B) :
  preserves I m -> (forall a, preserves I (k a)) -> preserves I (bind m k).
Proof.
  intros Hm Hk s Hs. unfold bind. specialize (Hm s Hs).
  destruct (m s) as [[a|e] s']; [apply (Hk a), Hm | exact Hm].
Qed.

Lemma preserves_try {A} (I : S -> Prop) (m : ST S E A) (h : E -> ST S E A) :
  preserves I m -> (forall e, preserves I (h e)) -> preserves I (try_except m h).
Proof.
  intros Hm Hh s Hs. unfold try_except. specialize (Hm s Hs).
  destruct (m s) as [[a|e] s']; [exact Hm | apply (Hh e), Hm].
Qed.

Lemma preserves_require (I : S -> Prop) (b : bool) (e : E) : preserves I (require b e).
Proof. by destruct b; intros s Hs. Qed.

Lemma preserves_of_option {A} (I : S -> Prop) (o : option A) (e : E) : preserves I (of_option o e).
Proof. by destruct o; intros s Hs. Qed.

Lemma preserves_lift {A} (I : S -> Prop) (r : result E A) : preserves I (lift_result r).
Proof. by destruct r; intros s Hs. Qed.

Lemma preserves_for_each {A B} (I : S -> Prop) (xs : list A) (f : A -> ST S E B) :
  (forall x, preserves I (f x)) -> preserves I (for_each xs f).
Proof.
  intros Hf. induction xs as [|x xs IH]; simpl; [apply preserves_ret|].
  apply preserves_bind; [apply Hf|]. intros b.
  apply preserves_bind; [apply IH|]. intros bs. apply preserves_ret.
Qed.

Lemma preserves_fold_each {A B} (I : S -> Prop) (xs : list A) (f : B -> A -> ST S E B) acc :
  (forall b x, preserves I (f b x)) -> preserves I (fold_each xs f acc).
Proof.
  intros Hf. revert acc. induction xs as [|x xs IH]; intros acc; simpl; [apply preserves_ret|].
  apply preserves_bind; [apply Hf|]. intros b. apply IH.
Qed.

(** Symbolic execution. *)
Lemma bind_ok {A B} (m : ST S E A) (k : A -> ST S E B) s a s' :
  m s = (Ok a, s') -> bind m k s = k a s'.
Proof. intros H. unfold bind. by rewrite H. Qed.

Lemma bind_err {A B} (m : ST S E A) (k : A -> ST S E B) s e s' :
  m s = (Err e, s') -> bind m k s = (Err e, s').
Proof. intros H. unfold bind. by rewrite H. Qed.

Lemma bind_inv {A B} (m : ST S E A) (k : A -> ST S E B) s r s' :
  bind m k s = (Ok r, s') -> exists a s1, m s = (Ok a, s1) /\ k a s1 = (Ok r, s').
Proof. unfold bind. destruct (m s) as [[a|e] s1]; [eauto | done]. Qed.

Lemma bind_assoc {A B C} (m : ST S E A) (k : A -> ST S E B) (h : B -> ST S E C) s :
  bind (bind m k) h s = bind m (fun a => bind (k a) h) s.
Proof. unfold bind. by destruct (m s) as [[a|e] s']. Qed.

(** A run is its answer and its last state. *)
Lemma ran {A} (m : result E A * S) (r : result E A) : m.1 = r -> m = (r, m.2).
Proof. destruct m; cbn. by intros ->. Qed.

(** What a run that returns went through. *)
Implicit Types s : S.

Lemma ret_inv {A} (a b : A) s (s' : S) : ret (E:=E) a s = (Ok b, s') -> b = a /\ s' = s.
Proof. by intros [= <- <-]. Qed.

Lemma throw_inv {A} (e : E) s (b : A) (s' : S) : throw e s = (Ok b, s') -> False.
Proof. done. Qed.

Lemma gets_inv {A} (f : S -> A) s a (s' : S) : gets (E:=E) f s = (Ok a, s') -> a = f s /\ s' = s.
Proof. by intros [= <- <-]. Qed.

Lemma modify_inv (f : S -> S) s u (s' : S) : modify (E:=E) f s = (Ok u, s') -> s' = f s.
Proof. by intros [= _ <-]. Qed.

Lemma require_inv (b : bool) (e : E) s u (s' : S) : require b e s = (Ok u, s') -> b = true /\ s' = s.
Proof. destruct b; [by intros [= _ <-] | done]. Qed.

Lemma of_option_inv {A} (o : option A) (e : E) s a (s' : S) : of_option o e s = (Ok a, s') -> o = Some a /\ s' = s.
Proof. destruct o; [by intros [= <- <-] | done]. Qed.

Lemma lift_inv {A} (r : result E A) s a (s' : S) : lift_result r s = (Ok a, s') -> r = Ok a /\ s' = s.
Proof. destruct r; [by intros [= <- <-] | done]. Qed.

Lemma try_inv {A} (m : ST S E A) (h : E -> ST S E A) s a (s' : S) :
  try_except m h s = (Ok a, s') ->
  m s = (Ok a, s') \/ exists e s1, m s = (Err e, s1) /\ h e s1 = (Ok a, s').
Proof. unfold try_except. destruct (m s) as [[b|e] s1]; [by left | right; eauto]. Qed.

End hoare_rules.

Create HintDb nfx.
#[export] Hint Resolve preserves_ret preserves_throw preserves_gets preserves_require
  preserves_of_option preserves_lift : nfx.

(** Walk a computation, keeping an invariant: one rule per monadic operation,
    a case split per test; what is left are the writes. *)
Ltac preserve :=
  repeat first
    [ match goal with |- forall _, _ => intros ? end
    | progress eauto 2 with nfx
    | apply preserves_bind
    | apply preserves_try
    | apply preserves_for_each
    | apply preserves_fold_each
    | match goal with
      | |- preserves _ (match ?x with _ => _ end) => destruct x
      end ].

(** Take apart a run that returned. *)
Ltac invert_run :=
  repeat match goal with
  | H : bind _ _ _ = (Ok _, _) |- _ => apply bind_inv in H; destruct H as (? & ? & ? & H)
  | H : ret _ _ = (Ok _, _) |- _ => apply ret_inv in H; destruct H as [? ?]; subst
  | H : throw _ _ = (Ok _, _) |- _ => destruct (throw_inv _ _ _ _ H)
  | H : gets _ _ = (Ok _, _) |- _ => apply gets_inv in H; destruct H as [? ?]; subst
  | H : require _ _ _ = (Ok _, _) |- _ => apply require_inv in H; destruct H as [? ?]; subst
  | H : of_option _ _ _ = (Ok _, _) |- _ => apply of_option_inv in H; destruct H as [? ?]; subst
  | H : lift_result _ _ = (Ok _, _) |- _ => apply lift_inv in H; destruct H as [? ?]; subst
  end.

(** Unfold the monad and run. *)
Ltac run :=
  unfold require, of_option, lift_result;
  unfold bind, ret, throw, gets, modify, try_except; cbn beta iota zeta.

(** ** Functional record update

    [r <| f := v |>] and [r <| f ::= g |>]; a record [R] has an instance of
    [Eta R], its eta-expansion, and the setter of a projection is found from it. *)

Class Eta (R : Type) : Type := eta : R -> R.

Class Setter {R T : Type} (proj : R -> T) : Type := upd : (T -> T) -> R -> R.
Arguments upd {R T} proj {_} _ _ /.

Ltac solve_setter :=
  match goal with
  | |- @Setter ?R ?T ?p =>
      let inst := constr:(_ : Eta R) in
      let f := fresh "f" in
      let r := fresh "r" in
      unfold Setter; intros f r;
      let e := eval hnf in (inst r) in
      let e' := eval pattern (p r) in e in
      match e' with
      | ?h _ => let t := eval cbv beta in (h (f (p r))) in exact t
      end
  end.

#[export] Hint Extern 1 (Setter _) => solve_setter : typeclass_instances.

Notation "r <| p ::= g |>" := (upd p g r)
  (at level 12, p at next level, left associativity) : nfx_scope.
Notation "r <| p := v |>" := (upd p (fun _ => v) r)
  (at level 12, p at next level, left associativity) : nfx_scope.

(** ** Tables and queries

    A database table is a [gmap N R] from primary keys to rows; a query is a
    filter over its rows, [first] under an ordering, a count. *)

Section tables.
Context {R : Type}.

Definition rows (t : gmap N R) : list R := (map_to_list t).*2.

Definition select (p : R -> bool) (t : gmap N R) : list R := filter (fun r => p r = true) (rows t).

Definition exists_row (p : R -> bool) (t : gmap N R) : bool :=
  match select p t with [] => false | _ => true end.

(** [QuerySet.update]: every row the filter matches. *)
Definition update_where (p : R -> bool) (f : R -> R) (t : gmap N R) : gmap N R :=
  (fun r => if p r then f r else r) <$> t.

(** The least row of a list under a boolean preorder, the earliest of equals. *)
Fixpoint first_by (le : R -> R -> bool) (l : list R) : option R :=
  match l with
  | [] => None
  | r :: rest => match first_by le rest with
                 | None => Some r
                 | Some r' => if le r r' then Some r else Some r'
                 end
  end.

(** Insertion sort under the same kind of order ([order_by]). *)
Fixpoint insert_by (le : R -> R -> bool) (r : R) (l : list R) : list R :=
  match l with
  | [] => [r]
  | r' :: rest => if le r r' then r :: l else r' :: insert_by le r rest
  end.

Definition sort_by (le : R -> R -> bool) (l : list R) : list R := foldr (insert_by le) [] l.

Lemma elem_of_rows (t : gmap N R) r : r ∈ rows t <-> exists i, t !! i = Some r.
Proof.
  unfold rows. rewrite list_elem_of_fmap. split.
  - intros [[i r'] [-> Hir]]. exists i. by apply elem_of_map_to_list.
  - intros [i Hi]. exists (i, r). split; [done|]. by apply elem_of_map_to_list.
Qed.

Lemma elem_of_select p (t : gmap N R) r :
  r ∈ select p t <-> p r = true /\ exists i, t !! i = Some r.
Proof. unfold select. by rewrite list_elem_of_filter, elem_of_rows. Qed.

Lemma exists_row_true p (t : gmap N R) :
  exists_row p t = true <-> exists i r, t !! i = Some r /\ p r = true.
Proof.
  unfold exists_row. split.
  - destruct (select p t) as [|r l] eqn:Hs; [done|]. intros _.
    assert (r ∈ select p t) as [Hp [i Hi]]%elem_of_select by (rewrite Hs; left).
    eauto.
  - intros (i & r & Hi & Hp).
    assert (r ∈ select p t) as Hin by (apply elem_of_select; eauto).
    destruct (select p t); [by apply not_elem_of_nil in Hin | done].
Qed.

Lemma exists_row_false p (t : gmap N R) :
  exists_row p t = false <-> forall i r, t !! i = Some r -> p r = false.
Proof.
  split.
  - intros H i r Hi. destruct (p r) eqn:Hp; [|done].
    assert (exists_row p t = true) by (apply exists_row_true; eauto). congruence.
  - intros H. destruct (exists_row p t) eqn:He; [|done].
    apply exists_row_true in He as (i & r & Hi & Hp). rewrite (H i r Hi) in Hp. done.
Qed.

Lemma lookup_update_where p f (t : gmap N R) i :
  update_where p f t !! i = (fun r => if p r then f r else r) <$> t !! i.
Proof. unfold update_where. by rewrite lookup_fmap. Qed.

Lemma first_by_elem le (l : list R) r : first_by le l = Some r -> r ∈ l.
Proof.
  revert r. induction l as [|x l IH]; intros r; simpl; [done|].
  destruct (first_by le l) as [y|]; [|intros [= ->]; left].
  destruct (le x y); intros [= ->]; [left | right; by apply IH].
Qed.

Lemma first_by_None le (l : list R) : first_by le l = None <-> l = [].
Proof.
  destruct l as [|x l]; simpl; [done|].
  destruct (first_by le l) as [y|]; [destruct (le x y)|]; done.
Qed.

(** [first_by] returns a minimum of a total preorder. *)
Lemma first_by_minimal le (l : list R) r :
  (forall a b, le a b = true \/ le b a = true) ->
  (forall a b c, le a b = true -> le b c = true -> le a c = true) ->
  first_by le l = Some r -> forall x, x ∈ l -> le r x = true.
Proof.
  intros Htot Htrans. revert r. induction l as [|y l IH]; intros r; simpl; [done|].
  destruct (first_by le l) as [m|] eqn:Hm.
  - intros Hr x Hx.
    assert (forall z, z ∈ l -> le m z = true) as Hmin by (intros; by apply IH).
    destruct (le y m) eqn:Hym; injection Hr as <-; apply elem_of_cons in Hx as [->|Hx].
    + by destruct (Htot y y).
    + eauto.
    + destruct (Htot y m) as [H|H]; congruence.
    + by apply Hmin.
  - intros [= ->] x Hx. apply first_by_None in Hm as ->.
    apply list_elem_of_singleton in Hx as ->. by destruct (Htot r r).
Qed.

End tables.

(** [min]/[max] style comparisons on ordering keys. *)
Definition by_key {R} (key : R -> Z) (a b : R) : bool := Z.leb (key a) (key b).

Lemma by_key_total {R} (key : R -> Z) (a b : R) : by_key key a b = true \/ by_key key b a = true.
Proof. unfold by_key. rewrite !Z.leb_le. lia. Qed.

Lemma by_key_trans {R} (key : R -> Z) (a b c : R) :
  by_key key a b = true -> by_key key b c = true -> by_key key a c = true.
Proof. unfold by_key. rewrite !Z.leb_le. lia. Qed.

(** ** Small tactics and lemmas shared by the components *)

(** Booleans as propositions, in hypotheses and goal. *)
Ltac bools :=
  repeat match goal with
  | H : _ && _ = true |- _ => apply andb_true_iff in H; destruct H
  | H : negb _ = true |- _ => apply negb_true_iff in H
  | H : negb _ = false |- _ => apply negb_false_iff in H
  | H : bool_decide _ = true |- _ => apply bool_decide_eq_true in H
  | H : bool_decide _ = false |- _ => apply bool_decide_eq_false in H
  | H : Z.leb _ _ = true |- _ => apply Z.leb_le in H
  | H : Z.leb _ _ = false |- _ => apply Z.leb_gt in H
  | H : Z.ltb _ _ = true |- _ => apply Z.ltb_lt in H
  | H : Z.ltb _ _ = false |- _ => apply Z.ltb_ge in H
  | H : Z.eqb _ _ = true |- _ => apply Z.eqb_eq in H
  | H : Z.eqb _ _ = false |- _ => apply Z.eqb_neq in H
  | H : _ || _ = false |- _ => apply orb_false_iff in H; destruct H
  end.

(** Split on the innermost test of the goal. *)
Ltac case_goal :=
  match goal with
  | |- context [match ?x with _ => _ end] =>
      lazymatch x with
      | context [match _ with _ => _ end] => fail
      | _ => destruct x eqn:?
      end
  end.

Definition opt_default {A} (d : A) (o : option A) : A := match o with Some a => a | None => d end.

Definition is_some {A} (o : option A) : bool := match o with Some _ => true | None => false end.

Lemma is_some_true {A} (o : option A) : is_some o = true <-> is_Some o.
Proof. destruct o; simpl; split; intros H; try done. Qed.

(** [x or y] of Python on strings. *)
Definition str_or (x y : string) : string := match x with EmptyString => y | _ => x end.

Definition str_nonempty (s : string) : bool := match s with EmptyString => false | _ => true end.
