(* ===== verification/PyStr.v ===== *)
(** * Python strings, bytes, UUIDs and integers

    A Python [str] is a [string] whose characters are read as the code points
    U+0000 to U+00FF; [bytes] use the same type, character for byte.  Only what
    the sources under src/backend/nfx use of the standard library is here: case
    mapping, character classes, stripping, joining, the shapes of the regular
    expressions, decimal and hexadecimal integers, and [uuid.UUID]. *)

From Stdlib Require Import ZArith Ascii String Lia.
From stdpp Require Import base decidable list gmap strings.
From S2P Require Import Prelude.

Local Open Scope N_scope.

(** ** Characters *)

Definition code (c : ascii) : N := N_of_ascii c.
Definition chr (n : N) : ascii := ascii_of_N n.

Definition in_range (lo hi : N) (c : ascii) : bool := (lo <=? code c) && (code c <=? hi).

Definition is_digit (c : ascii) : bool := in_range 48 57 c.
Definition is_upper (c : ascii) : bool := in_range 65 90 c.
Definition is_lower (c : ascii) : bool := in_range 97 122 c.
Definition is_alpha (c : ascii) : bool := is_upper c || is_lower c.
Definition is_lower_hex (c : ascii) : bool := is_digit c || in_range 97 102 c.

Definition char_in (set : string) (c : ascii) : bool :=
  existsb (Ascii.eqb c) (String.list_ascii_of_string set).

(** [str.isalnum] on one character: ASCII letters and digits, and the letters
    and numerals of U+0080..U+00FF. *)
Definition is_alnum (c : ascii) : bool :=
  is_alpha c || is_digit c ||
  existsb (N.eqb (code c)) [170; 178; 179; 181; 185; 186; 188; 189; 190] ||
  in_range 192 214 c || in_range 216 246 c || in_range 248 255 c.

(** [str.isspace] on one character: what [str.strip] removes. *)
Definition is_space (c : ascii) : bool :=
  in_range 9 13 c || in_range 28 32 c || (code c =? 133) || (code c =? 160).

(** [str.upper]: U+00DF becomes two letters; U+00B5 and U+00FF, whose capitals
    lie above U+00FF, are left as they are. *)
Definition upper_char (c : ascii) : string :=
  if is_lower c then String (chr (code c - 32)) EmptyString
  else if code c =? 223 then "SS"%string
  else if (in_range 224 246 c || in_range 248 254 c) then String (chr (code c - 32)) EmptyString
  else String c EmptyString.

Definition lower_ascii (c : ascii) : ascii := if is_upper c then chr (code c + 32) else c.

(** ** Strings *)

Definition chars (s : string) : list ascii := String.list_ascii_of_string s.
Definition of_chars (l : list ascii) : string := String.string_of_list_ascii l.

Definition slen (s : string) : Z := Z.of_nat (String.length s).

Fixpoint upper (s : string) : string :=
  match s with EmptyString => EmptyString | String c r => (upper_char c ++ upper r)%string end.

Fixpoint smap (f : ascii -> ascii) (s : string) : string :=
  match s with EmptyString => EmptyString | String c r => String (f c) (smap f r) end.

Definition lower_ascii_str (s : string) : string := smap lower_ascii s.

Fixpoint sfilter (p : ascii -> bool) (s : string) : string :=
  match s with
  | EmptyString => EmptyString
  | String c r => if p c then String c (sfilter p r) else sfilter p r
  end.

Fixpoint sall (p : ascii -> bool) (s : string) : bool :=
  match s with EmptyString => true | String c r => p c && sall p r end.

Fixpoint lstrip_by (p : ascii -> bool) (s : string) : string :=
  match s with
  | EmptyString => EmptyString
  | String c r => if p c then lstrip_by p r else s
  end.

Definition srev (s : string) : string := of_chars (rev (chars s)).

Definition rstrip_by (p : ascii -> bool) (s : string) : string := srev (lstrip_by p (srev s)).

Definition lstrip (s : string) : string := lstrip_by is_space s.
Definition strip (s : string) : string := rstrip_by is_space (lstrip_by is_space s).

Fixpoint starts_with (p s : string) : bool :=
  match p, s with
  | EmptyString, _ => true
  | String a p', String b s' => Ascii.eqb a b && starts_with p' s'
  | _, EmptyString => false
  end.

Definition ends_with (p s : string) : bool := starts_with (srev p) (srev s).

(** [p in s] *)
Fixpoint contains (p s : string) : bool :=
  starts_with p s || match s with EmptyString => false | String _ r => contains p r end.

(** [re.search("a|b|...", s, re.I)] for ASCII words. *)
Definition search_ci (words : list string) (s : string) : bool :=
  existsb (fun w => contains w (lower_ascii_str s)) words.

(** [s[:n]] *)
Definition stake (n : nat) (s : string) : string := String.substring 0 n s.

(** [sep.join(parts)] *)
Fixpoint join (sep : string) (parts : list string) : string :=
  match parts with
  | [] => EmptyString
  | [p] => p
  | p :: rest => (p ++ sep ++ join sep rest)%string
  end.

(** ** Regular expressions

    [re_rep c lo hi]: fullmatch of [[c]{lo,hi}]; [re_head h c lo hi]: fullmatch
    of [[h][c]{lo,hi}]. *)

Definition re_rep (c : ascii -> bool) (lo hi : nat) (s : string) : bool :=
  sall c s && (Nat.leb lo (String.length s)) && (Nat.leb (String.length s) hi).

Definition re_head (h c : ascii -> bool) (lo hi : nat) (s : string) : bool :=
  match s with EmptyString => false | String x r => h x && re_rep c lo hi r end.

(** [^[0-9a-f]{64}$] *)
Definition is_hex64 (s : string) : bool := re_rep is_lower_hex 64 64 s.

(** ** Integers as text *)

Definition digit_char (d : N) : ascii :=
  if d <? 10 then chr (48 + d) else chr (87 + d).

Fixpoint digits_go (fuel : nat) (base n : N) (acc : string) : string :=
  match fuel with
  | O => acc
  | S f =>
      let acc' := String (digit_char (n mod base)) acc in
      if n / base =? 0 then acc' else digits_go f base (n / base) acc'
  end.

(** [str(n)]: the fuel is one step per binary digit, at least the decimal ones. *)
Definition str_of_N (n : N) : string := digits_go (S (N.to_nat (N.log2 n))) 10 n EmptyString.

Definition str_of_Z (z : Z) : string :=
  if (z <? 0)%Z then String "-" (str_of_N (Z.to_N (- z))) else str_of_N (Z.to_N z).

(** Fixed-width digits, most significant first: ["%0<w>x"]. *)
Fixpoint fixed_digits (w : nat) (base n : N) : list N :=
  match w with
  | O => []
  | S w' => fixed_digits w' base (n / base) ++ [n mod base]
  end.

Definition fixed_str (w : nat) (base n : N) : string :=
  of_chars (map digit_char (fixed_digits w base n)).

Definition digit_value (c : ascii) : option N :=
  if is_digit c then Some (code c - 48)
  else if in_range 97 122 c then Some (code c - 87)
  else if in_range 65 90 c then Some (code c - 55)
  else None.

Fixpoint digits_value (base : N) (acc : N) (l : list ascii) : option N :=
  match l with
  | [] => Some acc
  | c :: r => match digit_value c with
              | Some d => if d <? base then digits_value base (acc * base + d) r else None
              | None => None
              end
  end.

(** [int(s, base)] without sign: digits, single underscores between them. *)
Fixpoint digits_value_us (base : N) (acc : N) (last_digit : bool) (l : list ascii) : option N :=
  match l with
  | [] => if last_digit then Some acc else None
  | c :: r =>
      if Ascii.eqb c "_" then (if last_digit then digits_value_us base acc false r else None)
      else match digit_value c with
           | Some d => if d <? base then digits_value_us base (acc * base + d) true r else None
           | None => None
           end
  end.

(** [int(s, 16)]: surrounding blanks, a sign, a [0x] prefix. *)
Definition int_base16 (s : string) : option Z :=
  let t := strip s in
  let '(neg, t) := match t with
                   | String "-" r => (true, r)
                   | String "+" r => (false, r)
                   | _ => (false, t)
                   end in
  let v := match t with
           | String "0" (String x r) =>
               if Ascii.eqb x "x" || Ascii.eqb x "X"
               then digits_value_us 16 0 true (match r with EmptyString => [Ascii.zero] | _ => chars r end)
               else digits_value_us 16 0 false (chars t)
           | _ => digits_value_us 16 0 false (chars t)
           end in
  match v with
  | Some n => Some (if neg then (- Z.of_N n)%Z else Z.of_N n)
  | None => None
  end.

(** ** uuid.UUID *)

(** [str(u)]: 32 hexadecimal digits, dashes after the 8th, 12th, 16th and 20th. *)
Definition uuid_hex (u : N) : string := fixed_str 32 16 u.

Definition uuid_str (u : N) : string :=
  let h := uuid_hex u in
  (String.substring 0 8 h ++ "-" ++ String.substring 8 4 h ++ "-" ++ String.substring 12 4 h
   ++ "-" ++ String.substring 16 4 h ++ "-" ++ String.substring 20 12 h)%string.

(** [s.replace(w, "")] for a word without self-overlap. *)
Fixpoint remove_go (skip : nat) (w s : string) : string :=
  match s with
  | EmptyString => EmptyString
  | String c r =>
      match skip with
      | S k => remove_go k w r
      | O => if starts_with w s then remove_go (Nat.pred (String.length w)) w r
             else String c (remove_go 0 w r)
      end
  end.
Definition sremove (w s : string) : string := remove_go 0 w s.

Definition strip_chars (set s : string) : string :=
  rstrip_by (char_in set) (lstrip_by (char_in set) s).

(** [UUID(s)]: [None] is the [ValueError]. *)
Definition parse_uuid (s : string) : option N :=
  let h := sremove "-" (strip_chars "{}" (sremove "uuid:" (sremove "urn:" s))) in
  if Nat.eqb (String.length h) 32 then
    match int_base16 h with
    | Some z => if (0 <=? z)%Z && (z <? 2 ^ 128)%Z then Some (Z.to_N z) else None
    | None => None
    end
  else None.

(** A field annotated [UUID | str]. *)
Inductive uuid_ref : Type :=
| RefUuid (u : N)
| RefStr (s : string).

(** [str(value)] *)
Definition ref_str (r : uuid_ref) : string :=
  match r with RefUuid u => uuid_str u | RefStr s => s end.

(** [UUID(str(value))] *)
Definition uuid_of (r : uuid_ref) : option N := parse_uuid (ref_str r).

(** ** utf-8 *)

(** [s.encode()] *)
Fixpoint encode_utf8 (s : string) : string :=
  match s with
  | EmptyString => EmptyString
  | String c r =>
      if code c <? 128 then String c (encode_utf8 r)
      else String (chr (192 + code c / 64)) (String (chr (128 + code c mod 64)) (encode_utf8 r))
  end.

(** ** Facts *)

Lemma append_cons c s t : (String c s ++ t)%string = String c (s ++ t)%string.
Proof. reflexivity. Qed.

Lemma append_nil t : (EmptyString ++ t)%string = t.
Proof. reflexivity. Qed.

Lemma length_append (a b : string) : String.length (a ++ b)%string = (String.length a + String.length b)%nat.
Proof. induction a as [|c a IH]; [done|]. rewrite append_cons. cbn. by rewrite IH. Qed.

Lemma length_stake n (s : string) : (n <= String.length s)%nat -> String.length (stake n s) = n.
Proof.
  unfold stake. revert s. induction n as [|n IH]; intros [|c s] Hn; cbn in *; [done..|lia|]. by rewrite IH by lia.
Qed.

Lemma chars_of_chars l : chars (of_chars l) = l.
Proof. apply list_ascii_of_string_of_list_ascii. Qed.

Lemma of_chars_chars s : of_chars (chars s) = s.
Proof. apply string_of_list_ascii_of_string. Qed.

Lemma length_of_chars l : String.length (of_chars l) = length l.
Proof. induction l as [|c l IH]; simpl; [done | by rewrite IH]. Qed.

Lemma of_chars_app l1 l2 : of_chars (l1 ++ l2)%list = (of_chars l1 ++ of_chars l2)%string.
Proof. induction l1 as [|c l1 IH]; simpl; [done | by rewrite IH, append_cons]. Qed.

Lemma sall_of_chars p l : sall p (of_chars l) = forallb p l.
Proof. induction l as [|c l IH]; simpl; [done | by rewrite IH]. Qed.

Lemma forallb_Forall {A} (p : A -> bool) l : forallb p l = true <-> Forall (fun x => p x = true) l.
Proof. rewrite Forall_forall, forallb_forall. by setoid_rewrite list_elem_of_In. Qed.

Lemma sall_app p a b : sall p (a ++ b)%string = sall p a && sall p b.
Proof. induction a as [|c a IH]; [done|]. rewrite append_cons. simpl. by rewrite IH, andb_assoc. Qed.

Lemma sall_impl (p q : ascii -> bool) s :
  (forall c, p c = true -> q c = true) -> sall p s = true -> sall q s = true.
Proof.
  intros Hpq. induction s as [|c s IH]; simpl; [done|].
  intros [Hc Hs]%andb_true_iff. by rewrite (Hpq _ Hc), IH.
Qed.

Lemma lstrip_by_none p s : sall (fun c => negb (p c)) s = true -> lstrip_by p s = s.
Proof.
  destruct s as [|c s]; simpl; [done|]. intros [Hc _]%andb_true_iff.
  apply negb_true_iff in Hc. by rewrite Hc.
Qed.

Lemma srev_involutive s : srev (srev s) = s.
Proof. unfold srev. by rewrite chars_of_chars, rev_involutive, of_chars_chars. Qed.

Lemma sall_srev p s : sall p s = true -> sall p (srev s) = true.
Proof.
  unfold srev. rewrite sall_of_chars. rewrite <-(of_chars_chars s) at 1.
  rewrite sall_of_chars, !forallb_forall. intros H x Hx. apply H. by apply in_rev.
Qed.

Lemma rstrip_by_none p s : sall (fun c => negb (p c)) s = true -> rstrip_by p s = s.
Proof.
  intros H. unfold rstrip_by. rewrite lstrip_by_none by (by apply sall_srev).
  apply srev_involutive.
Qed.

Lemma sremove_absent a w s :
  sall (fun c => negb (Ascii.eqb a c)) s = true -> sremove (String a w) s = s.
Proof.
  unfold sremove. induction s as [|c s IH]; [done|]. cbn.
  intros [Hc Hs]%andb_true_iff. apply negb_true_iff in Hc. rewrite Hc. cbn.
  f_equal. by apply IH.
Qed.

Lemma sremove_char_app a s t :
  sremove (String a EmptyString) (s ++ t)%string =
  (sremove (String a EmptyString) s ++ sremove (String a EmptyString) t)%string.
Proof.
  unfold sremove. induction s as [|c s IH]; [done|]. rewrite append_cons. cbn.
  destruct (Ascii.eqb a c); cbn; by rewrite ?append_cons, IH.
Qed.

(** *** Hexadecimal digits *)

Lemma digit_char_hex d : d < 16 -> is_lower_hex (digit_char d) = true.
Proof. intros H. destruct d as [|p]; [done|]. do 4 (destruct p as [p|p|]; try done); lia. Qed.

Lemma digit_value_char d : d < 16 -> digit_value (digit_char d) = Some d.
Proof. intros H. destruct d as [|p]; [done|]. do 4 (destruct p as [p|p|]; try done); lia. Qed.

Lemma fixed_digits_lt w base n : 0 < base -> Forall (fun d => d < base) (fixed_digits w base n).
Proof.
  intros Hb. revert n. induction w as [|w IH]; intros n; simpl; [constructor|].
  apply Forall_app. split; [apply IH|]. repeat constructor. apply N.mod_lt. lia.
Qed.

Lemma length_fixed_digits w base n : length (fixed_digits w base n) = w.
Proof. revert n. induction w as [|w IH]; intros n; simpl; [done|]. rewrite length_app, IH. simpl. lia. Qed.

Lemma hex_char_cases (Q : ascii -> Prop) :
  (forall d, d < 16 -> Q (digit_char d)) -> forall c, is_lower_hex c = true -> Q c.
Proof.
  intros HQ c Hc.
  assert (exists d, d < 16 /\ c = digit_char d) as (d & Hd & ->); [|by apply HQ].
  destruct c as [[] [] [] [] [] [] [] []]; try discriminate Hc;
    (eexists; split; [|symmetry;
       match goal with
       | |- digit_char ?d = ?c => let v := eval vm_compute in (digit_value c) in
                                  match v with Some ?n => unify d n end
       end; reflexivity]; reflexivity).
Qed.

Lemma hex_upto c (p : ascii -> bool) :
  (forall d, d < 16 -> p (digit_char d) = true) -> is_lower_hex c = true -> p c = true.
Proof. intros H. by apply (hex_char_cases (fun c => p c = true)). Qed.

(** A test that holds of the sixteen digits, checked by computation. *)
Lemma hex_all (p : ascii -> bool) :
  forallb p (map digit_char [0;1;2;3;4;5;6;7;8;9;10;11;12;13;14;15]) = true ->
  forall c, is_lower_hex c = true -> p c = true.
Proof.
  intros Hp. apply hex_char_cases. intros d Hd.
  rewrite forallb_forall in Hp. apply Hp, in_map.
  destruct d as [|q]; [simpl; tauto|]. do 4 (destruct q as [q|q|]; try (simpl; tauto); try lia).
Qed.

Lemma uuid_hex_digits u : sall is_lower_hex (uuid_hex u) = true.
Proof.
  unfold uuid_hex, fixed_str. rewrite sall_of_chars, forallb_Forall, Forall_map.
  eapply Forall_impl; [apply (fixed_digits_lt 32 16 u); lia|].
  intros d Hd. by apply digit_char_hex.
Qed.

Lemma length_uuid_hex u : String.length (uuid_hex u) = 32%nat.
Proof. unfold uuid_hex, fixed_str. by rewrite length_of_chars, length_map, length_fixed_digits. Qed.

Lemma digits_value_us_eq base acc b l :
  forallb (fun c => negb (Ascii.eqb c "_")) l = true -> (l <> [] \/ b = true) ->
  digits_value_us base acc b l = digits_value base acc l.
Proof.
  revert acc b. induction l as [|c l IH]; intros acc b Hl Hb; simpl.
  - destruct Hb as [Hb|Hb]; [done | by subst].
  - simpl in Hl. apply andb_true_iff in Hl as [Hc Hl]. apply negb_true_iff in Hc. rewrite Hc.
    destruct (digit_value c) as [d|]; [|done]. destruct (d <? base); [|done].
    apply IH; [done | by right].
Qed.

Lemma digits_value_app base acc l1 l2 :
  digits_value base acc (l1 ++ l2) =
  match digits_value base acc l1 with Some a => digits_value base a l2 | None => None end.
Proof.
  revert acc. induction l1 as [|c l1 IH]; intros acc; simpl; [done|].
  destruct (digit_value c) as [d|]; [|done]. destruct (d <? base); [apply IH | done].
Qed.

Lemma digits_value_fixed w n acc :
  digits_value 16 acc (map digit_char (fixed_digits w 16 n)) =
  Some (acc * 16 ^ N.of_nat w + n mod 16 ^ N.of_nat w).
Proof.
  revert n. induction w as [|w IH]; intros n.
  - simpl. f_equal. change (16 ^ N.of_nat 0) with 1. rewrite N.mod_1_r. lia.
  - cbn [fixed_digits]. rewrite map_app, digits_value_app, IH. cbn [map digits_value].
    assert (n mod 16 < 16) as Hlt by (apply N.mod_lt; lia).
    rewrite digit_value_char by done. apply N.ltb_lt in Hlt as ->. f_equal.
    rewrite Nat2N.inj_succ, N.pow_succ_r'.
    rewrite (N.Div0.mod_mul_r n 16 (16 ^ N.of_nat w)). ring.
Qed.

Lemma substring_parts (l : list ascii) :
  length l = 32%nat ->
  (String.substring 0 8 (of_chars l) ++ String.substring 8 4 (of_chars l) ++
   String.substring 12 4 (of_chars l) ++ String.substring 16 4 (of_chars l) ++
   String.substring 20 12 (of_chars l))%string = of_chars l.
Proof. intros H. do 32 (destruct l as [|? l]; [discriminate H|]). by destruct l. Qed.

Lemma sall_substring p n m s : sall p s = true -> sall p (String.substring n m s) = true.
Proof.
  revert n m. induction s as [|c s IH]; intros n m H.
  - by destruct n, m.
  - simpl in H. apply andb_true_iff in H as [Hc Hs].
    destruct n as [|n]; [destruct m as [|m]; simpl; [done|]; by rewrite Hc, IH | by apply IH].
Qed.

Lemma int_base16_hex l :
  length l = 32%nat -> forallb is_lower_hex l = true ->
  int_base16 (of_chars l) = match digits_value 16 0 l with Some n => Some (Z.of_N n) | None => None end.
Proof.
  intros Hlen Hall. unfold int_base16.
  assert (strip (of_chars l) = of_chars l) as ->.
  { assert (sall (fun c => negb (is_space c)) (of_chars l) = true) as Hns.
    { rewrite sall_of_chars. apply forallb_forall. intros c Hc. rewrite forallb_forall in Hall.
      by apply (hex_all (fun c => negb (is_space c))), Hall. }
    unfold strip. rewrite lstrip_by_none by done. by apply rstrip_by_none. }
  destruct l as [|c0 [|c1 l]]; try discriminate Hlen.
  assert (forallb (fun c => negb (Ascii.eqb c "_")) (c0 :: c1 :: l) = true) as Hus.
  { apply forallb_forall. intros c Hc. rewrite forallb_forall in Hall.
    by apply (hex_all (fun c => negb (Ascii.eqb c "_"))), Hall. }
  rewrite <-(digits_value_us_eq 16 0 false (c0 :: c1 :: l)) by (done || by left).
  simpl in Hall. apply andb_true_iff in Hall as [H0 [H1 _]%andb_true_iff].
  assert ((Ascii.eqb c1 "x" || Ascii.eqb c1 "X") = false) as Hx.
  { apply negb_true_iff. by apply (hex_all (fun c => negb (Ascii.eqb c "x" || Ascii.eqb c "X"))). }
  cbn [of_chars String.string_of_list_ascii].
  destruct c0 as [[] [] [] [] [] [] [] []]; try discriminate H0; rewrite ?Hx;
    cbn [chars list_ascii_of_string]; rewrite ?list_ascii_of_string_of_list_ascii; reflexivity.
Qed.

(** [UUID(str(u)) == u]: a UUID survives being written and read back. *)
Lemma parse_uuid_str u : u < 2 ^ 128 -> parse_uuid (uuid_str u) = Some u.
Proof.
  intros Hu. pose proof (uuid_hex_digits u) as Hhex. pose proof (length_uuid_hex u) as Hlen.
  set (ok := fun c => is_lower_hex c || Ascii.eqb c "-").
  assert (sall ok (uuid_str u) = true) as Hok.
  { unfold uuid_str. rewrite !sall_app.
    assert (forall n m, sall ok (String.substring n m (uuid_hex u)) = true) as Hs.
    { intros n m. apply sall_substring. revert Hhex. apply sall_impl. intros c Hc.
      unfold ok. by rewrite Hc. }
    rewrite !Hs. done. }
  assert (forall q, (forall c, is_lower_hex c = true -> q c = true) -> q "-"%char = true ->
                    sall q (uuid_str u) = true) as Hq.
  { intros q Hq Hd. revert Hok. apply sall_impl. intros c [Hc|Hc]%orb_true_iff; [by apply Hq|].
    apply Ascii.eqb_eq in Hc as ->. done. }
  unfold parse_uuid.
  rewrite (sremove_absent "u" "rn:") by (apply Hq; [by apply hex_all | done]).
  rewrite (sremove_absent "u" "uid:") by (apply Hq; [by apply hex_all | done]).
  assert (strip_chars "{}" (uuid_str u) = uuid_str u) as ->.
  { unfold strip_chars. rewrite lstrip_by_none by (apply Hq; [by apply hex_all | done]).
    apply rstrip_by_none. apply Hq; [by apply hex_all | done]. }
  assert (sremove "-" (uuid_str u) = uuid_hex u) as ->.
  { assert (forall n m, sremove "-" (String.substring n m (uuid_hex u))
                        = String.substring n m (uuid_hex u)) as Hs.
    { intros n m. apply sremove_absent, sall_substring. revert Hhex. apply sall_impl.
      by apply hex_all. }
    unfold uuid_str. rewrite !sremove_char_app, !Hs. cbn [sremove remove_go starts_with].
    unfold uuid_hex, fixed_str in *. rewrite length_of_chars in Hlen.
    rewrite <-(substring_parts _ Hlen) at 6. done. }
  rewrite Hlen. cbn [Nat.eqb]. unfold uuid_hex, fixed_str.
  rewrite int_base16_hex, digits_value_fixed.
  - change (16 ^ N.of_nat 32) with (2 ^ 128). rewrite N.mod_small by done.
    rewrite N.mul_0_l, N.add_0_l.
    assert ((0 <=? Z.of_N u)%Z && (Z.of_N u <? 2 ^ 128)%Z = true) as ->.
    { apply andb_true_iff. rewrite Z.leb_le, Z.ltb_lt. lia. }
    by rewrite N2Z.id.
  - by rewrite length_map, length_fixed_digits.
  - rewrite <-sall_of_chars. exact Hhex.
Qed.

Lemma uuid_of_uuid u : u < 2 ^ 128 -> uuid_of (RefUuid u) = Some u.
Proof. apply parse_uuid_str. Qed.

Lemma parse_uuid_lt s u : parse_uuid s = Some u -> u < 2 ^ 128.
Proof.
  unfold parse_uuid. destruct (Nat.eqb _ 32); [|done]. destruct (int_base16 _) as [z|]; [|done].
  destruct ((0 <=? z)%Z && (z <? 2 ^ 128)%Z) eqn:Hz; [|done]. intros [= <-].
  apply andb_true_iff in Hz as [H1%Z.leb_le H2%Z.ltb_lt]. lia.
Qed.

#[export] Hint Resolve uuid_of_uuid : nfx.
