(* ===== verification/Sha256.v ===== *)
(** * SHA-256 ([hashlib.sha256])

    The digest the sources take of artifacts, synthetic units and audit
    events, as an executable function from bytes to the lower-case
    hexadecimal text [hexdigest] returns. *)

From Stdlib Require Import ZArith Ascii String Lia.
From stdpp Require Import base decidable list gmap strings.
From S2P Require Import Prelude PyStr.

Module Sha256.
Local Open Scope N_scope.

Definition word_max : N := 4294967296.
Definition mask : N := word_max - 1.
Definition add32 (a b : N) : N := N.land (a + b) mask.
Definition rotr (x n : N) : N := N.lor (N.shiftr x n) (N.land (N.shiftl x (32 - n)) mask).
Definition not32 (x : N) : N := N.lxor x mask.

Definition ch (x y z : N) : N := N.lxor (N.land x y) (N.land (not32 x) z).
Definition maj (x y z : N) : N := N.lxor (N.lxor (N.land x y) (N.land x z)) (N.land y z).
Definition bsig0 (x : N) : N := N.lxor (N.lxor (rotr x 2) (rotr x 13)) (rotr x 22).
Definition bsig1 (x : N) : N := N.lxor (N.lxor (rotr x 6) (rotr x 11)) (rotr x 25).
Definition ssig0 (x : N) : N := N.lxor (N.lxor (rotr x 7) (rotr x 18)) (N.shiftr x 3).
Definition ssig1 (x : N) : N := N.lxor (N.lxor (rotr x 17) (rotr x 19)) (N.shiftr x 10).

(** The constants, from their definition: the first 32 bits of the fractional
    parts of the cube (and square) roots of the first primes. *)
Definition is_prime (n : N) : bool :=
  forallb (fun d => negb (n mod (N.of_nat d) =? 0)) (seq 2 (N.to_nat n - 2)).

Definition primes : list N := Eval vm_compute in List.filter is_prime (map N.of_nat (seq 2 310)).

(** The greatest [r] below [2 ^ bits] with [r ^ k <= n]. *)
Definition root (k : N) (bits : nat) (n : N) : N :=
  foldr (fun b r => let r' := r + 2 ^ N.of_nat b in if r' ^ k <=? n then r' else r) 0 (seq 0 bits).

Definition root_fraction (k p : N) : N := root k 40 (p * 2 ^ (32 * k)) mod word_max.

Definition round_constants : list N := Eval vm_compute in map (root_fraction 3) primes.

Definition initial_state : list N := Eval vm_compute in map (root_fraction 2) (take 8 primes).

(** The message, a one bit, zeros, the length in bits over eight bytes. *)
Definition pad (l : list N) : list N :=
  let n := N.of_nat (length l) in
  let zeros := (119 - n mod 64) mod 64 in
  l ++ [128] ++ replicate (N.to_nat zeros) 0 ++ fixed_digits 8 256 (8 * n).

Fixpoint words (l : list N) : list N :=
  match l with
  | a :: b :: c :: d :: rest => (a * 16777216 + b * 65536 + c * 256 + d) :: words rest
  | _ => []
  end.

(** The schedule, newest word first: each step reads the 16 words before it. *)
Fixpoint extend (steps : nat) (r : list N) : list N :=
  match steps with
  | O => r
  | S k =>
      let w := add32 (add32 (ssig1 (nth 1 r 0)) (nth 6 r 0))
                     (add32 (ssig0 (nth 14 r 0)) (nth 15 r 0)) in
      extend k (w :: r)
  end.

Definition round (s : list N) (kw : N * N) : list N :=
  match s with
  | [a; b; c; d; e; f; g; h] =>
      let t1 := add32 (add32 (add32 h (bsig1 e)) (ch e f g)) (add32 kw.1 kw.2) in
      let t2 := add32 (bsig0 a) (maj a b c) in
      [add32 t1 t2; a; b; c; add32 d t1; e; f; g]
  | _ => s
  end.

Definition compress (s block : list N) : list N :=
  let w := rev (extend 48 (rev block)) in
  zip_with add32 s (foldl round s (zip round_constants w)).

Fixpoint blocks (fuel : nat) (s l : list N) : list N :=
  match fuel with
  | O => s
  | S k => match l with [] => s | _ => blocks k (compress s (take 16 l)) (drop 16 l) end
  end.

(** [hashlib.sha256(data).hexdigest()] *)
Definition hexdigest (data : string) : string :=
  let l := pad (map code (chars data)) in
  let ws := words l in
  of_chars (concat (map (fun x => map digit_char (fixed_digits 8 16 x))
                        (take 8 (blocks (length ws) initial_state ws ++ initial_state)))).

End Sha256.

Definition sha256 (data : string) : string := Sha256.hexdigest data.

(** FIPS 180-2 test vectors. *)
Example sha256_abc :
  sha256 "abc" = "ba7816bf8f01cfea414140de5dae2223b00361a396177a9cb410ff61f20015ad"%string.
Proof. vm_compute. reflexivity. Qed.

Example sha256_two_blocks :
  sha256 "abcdbcdecdefdefgefghfghighijhijkijkljklmklmnlmnomnopnopq"
  = "248d6a61d20638b8e5c026930c3e6039a33ce45964ff2167f6ecedd419db06c1"%string.
Proof. vm_compute. reflexivity. Qed.

Lemma concat_digits_hex (l : list N) :
  sall is_lower_hex (of_chars (concat (map (fun x => map digit_char (fixed_digits 8 16 x)) l)))
  = true.
Proof.
  rewrite sall_of_chars. apply forallb_forall. intros c Hc.
  apply in_concat in Hc as (d & Hd & Hc). apply in_map_iff in Hd as (x & <- & _).
  apply in_map_iff in Hc as (v & <- & Hv). apply digit_char_hex.
  pose proof (fixed_digits_lt 8 16 x ltac:(lia)) as Hlt. rewrite Forall_forall in Hlt.
  by apply Hlt, list_elem_of_In.
Qed.

Lemma length_concat_digits (l : list N) :
  length (concat (map (fun x => map digit_char (fixed_digits 8 16 x)) l)) = (8 * length l)%nat.
Proof.
  induction l as [|x l IH]; [done|]. cbn [map concat].
  rewrite length_app, IH, length_map, length_fixed_digits. cbn [length]. lia.
Qed.

(** Every digest has the shape the sources check: 64 lower-case hex digits. *)
Lemma sha256_hex64 data : is_hex64 (sha256 data) = true.
Proof.
  unfold is_hex64, re_rep, sha256, Sha256.hexdigest. cbv zeta. rewrite concat_digits_hex.
  rewrite length_of_chars, length_concat_digits, length_take, length_app. cbn [length Sha256.initial_state].
  rewrite Nat.min_l by lia. done.
Qed.

#[global] Opaque sha256.
