(* ===== verification/PyVal.v ===== *)
(** * Python values, JSON, dates and URLs

    The values that travel in job payloads, handler results and audit
    contexts; [json.dumps] as the audit chain uses it; [datetime.isoformat];
    and [urllib.parse] as far as the redaction boundary looks into a URL. *)

From Stdlib Require Import ZArith Ascii String Lia.
From stdpp Require Import base decidable list gmap strings.
From S2P Require Import Prelude PyStr.

(** ** Values

    Dictionaries are association lists in insertion order with text keys;
    a float is the text of its [repr]; [VExc] is an exception instance, by the
    name of its class; [VOther] any other object, by its [str]. *)

Inductive pyval : Type :=
| VNone
| VBool (b : bool)
| VInt (z : Z)
| VFloat (repr : string)
| VStr (s : string)
| VBytes (s : string)
| VList (l : list pyval)
| VTuple (l : list pyval)
| VDict (d : list (string * pyval))
| VExc (class_name : string)
| VOther (text : string).

Section pyval_ind.
Variable P : pyval -> Prop.
Hypothesis Hnone : P VNone.
Hypothesis Hbool : forall b, P (VBool b).
Hypothesis Hint : forall z, P (VInt z).
Hypothesis Hfloat : forall r, P (VFloat r).
Hypothesis Hstr : forall s, P (VStr s).
Hypothesis Hbytes : forall s, P (VBytes s).
Hypothesis Hlist : forall l, Forall P l -> P (VList l).
Hypothesis Htuple : forall l, Forall P l -> P (VTuple l).
Hypothesis Hdict : forall d, Forall (fun kv => P kv.2) d -> P (VDict d).
Hypothesis Hexc : forall n, P (VExc n).
Hypothesis Hother : forall t, P (VOther t).

Fixpoint pyval_deep_ind (v : pyval) : P v :=
  let fix go l : Forall P l :=
    match l with [] => Forall_nil_2 _ | x :: r => Forall_cons_2 _ _ _ (pyval_deep_ind x) (go r) end in
  let fix god d : Forall (fun kv => P kv.2) d :=
    match d with [] => Forall_nil_2 _ | kv :: r => Forall_cons_2 _ _ _ (pyval_deep_ind kv.2) (god r) end in
  match v with
  | VNone => Hnone | VBool b => Hbool b | VInt z => Hint z | VFloat r => Hfloat r
  | VStr s => Hstr s | VBytes s => Hbytes s
  | VList l => Hlist l (go l) | VTuple l => Htuple l (go l) | VDict d => Hdict d (god d)
  | VExc n => Hexc n | VOther t => Hother t
  end.
End pyval_ind.

(** A Python dictionary with text keys. *)
Abbreviation pydict := (list (string * pyval)).

(** [d.get(k)] *)
Fixpoint dget (d : pydict) (k : string) : option pyval :=
  match d with
  | [] => None
  | (k', v) :: r => if String.eqb k' k then Some v else dget r k
  end.

(** [d[k] = v]: in place when the key is there, at the end otherwise. *)
Fixpoint dset (d : pydict) (k : string) (v : pyval) : pydict :=
  match d with
  | [] => [(k, v)]
  | (k', v') :: r => if String.eqb k' k then (k', v) :: r else (k', v') :: dset r k v
  end.

(** An optional text as a value. *)
Definition vstr_opt (o : option string) : pyval := match o with Some s => VStr s | None => VNone end.

(** [bool(v)] *)
Definition truthy (v : pyval) : bool :=
  match v with
  | VNone => false
  | VBool b => b
  | VInt z => negb (z =? 0)%Z
  | VFloat r => negb (String.eqb r "0.0" || String.eqb r "-0.0")
  | VStr s | VBytes s => str_nonempty s
  | VList l | VTuple l => match l with [] => false | _ => true end
  | VDict d => match d with [] => false | _ => true end
  | VExc _ | VOther _ => true
  end.

(** ** json.dumps(value, ensure_ascii=False, sort_keys=True, separators=(",", ":"), default=str) *)

Definition quote_char : ascii := ascii_of_N 34.
Definition backslash : ascii := ascii_of_N 92.

Definition json_escape_char (c : ascii) : string :=
  let n := N_of_ascii c in
  let esc x := String backslash (String x EmptyString) in
  if Ascii.eqb c quote_char then esc quote_char
  else if Ascii.eqb c backslash then esc backslash
  else if N.eqb n 8 then esc "b"%char else if N.eqb n 9 then esc "t"%char
  else if N.eqb n 10 then esc "n"%char else if N.eqb n 12 then esc "f"%char
  else if N.eqb n 13 then esc "r"%char
  else if N.ltb n 32 then String backslash (String "u" (fixed_str 4 16 n))
  else String c EmptyString.

Fixpoint json_escape (s : string) : string :=
  match s with EmptyString => EmptyString | String c r => (json_escape_char c ++ json_escape r)%string end.

Definition json_string (s : string) : string :=
  String quote_char (json_escape s ++ String quote_char EmptyString)%string.

Definition key_le {A} (a b : string * A) : bool := String.leb a.1 b.1.

Fixpoint json_dumps (v : pyval) : string :=
  match v with
  | VNone => "null"%string
  | VBool true => "true"%string
  | VBool false => "false"%string
  | VInt z => str_of_Z z
  | VFloat r => r
  | VStr s => json_string s
  | VList l | VTuple l => ("[" ++ join "," (map json_dumps l) ++ "]")%string
  | VDict d =>
      let members := map (fun kv => (kv.1, json_dumps kv.2)) d in
      ("{" ++ join "," (map (fun kv => (json_string kv.1 ++ ":" ++ kv.2)%string)
                            (sort_by key_le members)) ++ "}")%string
  | VBytes s => json_string s
  | VExc n => json_string n
  | VOther t => json_string t
  end.

(** What [json.dumps(value)] takes without a [default]: a JSONField column raises
    [TypeError] on anything else, a datetime for one. *)
Fixpoint json_storable (v : pyval) : bool :=
  match v with
  | VNone | VBool _ | VInt _ | VFloat _ | VStr _ => true
  | VList l | VTuple l => forallb json_storable l
  | VDict d => forallb (fun kv => json_storable kv.2) d
  | VBytes _ | VExc _ | VOther _ => false
  end.

(** ** Instants

    A timezone-aware [datetime] is an instant, in microseconds since the Unix
    epoch; a naive one has no instant, only its wall-clock fields. *)

Inductive datetime : Type :=
| Aware (instant : Z)
| Naive (wall : Z).

Definition is_naive (d : datetime) : bool := match d with Naive _ => true | Aware _ => false end.
Definition is_aware (d : datetime) : bool := negb (is_naive d).

Definition instant (d : datetime) : Z := match d with Aware t | Naive t => t end.

Definition second : Z := 1000000.
Definition seconds (n : Z) : Z := n * second.
Definition hours (n : Z) : Z := seconds (n * 3600).
Definition days (n : Z) : Z := hours (n * 24).

(** The civil date of a day number (days since 1970-01-01): year, month, day. *)
Definition civil_of_day (d : Z) : Z * Z * Z :=
  let z := (d + 719468)%Z in
  let era := (z / 146097)%Z in
  let doe := (z - era * 146097)%Z in
  let yoe := ((doe - doe / 1460 + doe / 36524 - doe / 146096) / 365)%Z in
  let doy := (doe - (365 * yoe + yoe / 4 - yoe / 100))%Z in
  let mp := ((5 * doy + 2) / 153)%Z in
  let dd := (doy - (153 * mp + 2) / 5 + 1)%Z in
  let mm := if Z.ltb mp 10 then (mp + 3)%Z else (mp - 9)%Z in
  let yy := (yoe + era * 400)%Z in
  ((if Z.leb mm 2 then yy + 1 else yy)%Z, mm, dd).

Definition two (n : Z) : string := fixed_str 2 10 (Z.to_N n).

(** [d.isoformat(sep)] of an aware UTC datetime; [str(d)] is the one with a blank. *)
Definition isoformat_sep (sep : string) (t : Z) : string :=
  let day := (t / 86400000000)%Z in
  let tod := (t mod 86400000000)%Z in
  let '(y, m, d) := civil_of_day day in
  let us := (tod mod 1000000)%Z in
  let s := (tod / 1000000)%Z in
  (fixed_str 4 10 (Z.to_N y) ++ "-" ++ two m ++ "-" ++ two d ++ sep ++
   two (s / 3600) ++ ":" ++ two (s / 60 mod 60) ++ ":" ++ two (s mod 60) ++
   (if Z.eqb us 0 then "" else "." ++ fixed_str 6 10 (Z.to_N us)) ++ "+00:00")%string.

Definition isoformat (t : Z) : string := isoformat_sep "T" t.
Definition datetime_str (t : Z) : string := isoformat_sep " " t.

Example isoformat_epoch : isoformat 0 = "1970-01-01T00:00:00+00:00"%string.
Proof. reflexivity. Qed.

Example isoformat_leap : isoformat 1709210096000007 = "2024-02-29T12:34:56.000007+00:00"%string.
Proof. vm_compute. reflexivity. Qed.

(** ** Civil dates: [datetime.date] as a day number *)

Definition is_leap (y : Z) : bool :=
  Z.eqb (y mod 4) 0 && (negb (Z.eqb (y mod 100) 0) || Z.eqb (y mod 400) 0).

Definition days_in_month (y m : Z) : Z :=
  if Z.eqb m 2 then (if is_leap y then 29 else 28)%Z
  else if Z.eqb m 4 || Z.eqb m 6 || Z.eqb m 9 || Z.eqb m 11 then 30%Z else 31%Z.

Definition day_of_civil (y m d : Z) : Z :=
  let y := if Z.leb m 2 then (y - 1)%Z else y in
  let era := (y / 400)%Z in
  let yoe := (y - era * 400)%Z in
  let mp := if Z.ltb 2 m then (m - 3)%Z else (m + 9)%Z in
  let doy := ((153 * mp + 2) / 5 + d - 1)%Z in
  let doe := (yoe * 365 + yoe / 4 - yoe / 100 + doy)%Z in
  (era * 146097 + doe - 719468)%Z.

Definition within (lo hi x : Z) : bool := Z.leb lo x && Z.leb x hi.

(** [date(y, m, d)] *)
Definition date_of (y m d : Z) : option Z :=
  if within 1 9999 y && within 1 12 m && within 1 (days_in_month y m) d then Some (day_of_civil y m d) else None.

(** [date.isoformat()] *)
Definition date_isoformat (day : Z) : string :=
  let '(y, m, d) := civil_of_day day in (fixed_str 4 10 (Z.to_N y) ++ "-" ++ two m ++ "-" ++ two d)%string.

(** Monday is 0; day 0 was a Thursday. *)
Definition weekday (day : Z) : Z := ((day + 3) mod 7)%Z.

(** [date.fromisocalendar(y, week, day)] *)
Definition date_of_week (y week d : Z) : option Z :=
  let first := day_of_civil y 1 1 in
  let long_year := Z.eqb (weekday first) 3 || (Z.eqb (weekday first) 2 && is_leap y) in
  if within 1 9999 y && within 1 (if long_year then 53 else 52) week && within 1 7 d then
    let monday := (first - weekday first + if Z.ltb 3 (weekday first) then 7 else 0)%Z in
    let day := (monday + (week - 1) * 7 + d - 1)%Z in
    if within (day_of_civil 1 1 1) (day_of_civil 9999 12 31) day then Some day else None
  else None.

(** [n] ASCII digits at the front of [s], and the rest. *)
Fixpoint take_digits (n : nat) (acc : Z) (s : string) : option (Z * string) :=
  match n with
  | O => Some (acc, s)
  | S k => match s with
           | String c r => if is_digit c then take_digits k (acc * 10 + Z.of_N (N_of_ascii c - 48))%Z r else None
           | EmptyString => None
           end
  end.

(** The separator that must follow, when one is used. *)
Definition take_separator (used : bool) (s : string) : option string :=
  if used then match s with String "-" r => Some r | _ => None end else Some s.

(** [date.fromisoformat(s)]: a calendar date or an ISO week date, with separators
    everywhere or nowhere; [None] is [ValueError]. *)
Definition date_fromisoformat (s : string) : option Z :=
  if negb (Nat.eqb (String.length s) 7 || Nat.eqb (String.length s) 8 || Nat.eqb (String.length s) 10) then None else
  match take_digits 4 0 s with
  | None => None
  | Some (y, r) =>
      let '(sep, r) := match r with String "-" r' => (true, r') | _ => (false, r) end in
      match r with
      | String "W" r =>
          match take_digits 2 0 r with
          | None => None
          | Some (week, EmptyString) => date_of_week y week 1
          | Some (week, r) =>
              match take_separator sep r with
              | None => None
              | Some r => match take_digits 1 0 r with
                          | Some (d, EmptyString) => date_of_week y week d
                          | _ => None
                          end
              end
          end
      | _ =>
          match take_digits 2 0 r with
          | None => None
          | Some (m, r) =>
              match take_separator sep r with
              | None => None
              | Some r => match take_digits 2 0 r with
                          | Some (d, EmptyString) => date_of y m d
                          | _ => None
                          end
              end
          end
      end
  end.

Example date_calendar : option_map date_isoformat (date_fromisoformat "2024-02-29") = Some "2024-02-29"%string.
Proof. vm_compute. reflexivity. Qed.

Example date_week : option_map date_isoformat (date_fromisoformat "2020-W53-7") = Some "2021-01-03"%string.
Proof. vm_compute. reflexivity. Qed.

Example date_none : date_fromisoformat "2023-02-29" = None.
Proof. vm_compute. reflexivity. Qed.

(** ** urllib.parse *)

Module Url.
Local Open Scope string_scope.

(** [s.partition(c)]: before, whether found, after. *)
Fixpoint partition (c : ascii) (s : string) : string * bool * string :=
  match s with
  | EmptyString => (EmptyString, false, EmptyString)
  | String x r => if Ascii.eqb x c then (EmptyString, true, r)
                  else let '(a, f, b) := partition c r in (String x a, f, b)
  end.

(** [s.rpartition(c)] *)
Definition rpartition (c : ascii) (s : string) : string * bool * string :=
  let '(a, f, b) := partition c (srev s) in
  if f then (srev b, true, srev a) else (EmptyString, false, s).

(** [s.split(c)] *)
Fixpoint split_go (c : ascii) (acc : string) (s : string) : list string :=
  match s with
  | EmptyString => [srev acc]
  | String x r => if Ascii.eqb x c then srev acc :: split_go c EmptyString r
                  else split_go c (String x acc) r
  end.
Definition split (c : ascii) (s : string) : list string := split_go c EmptyString s.

(** The text before the first character of a set, and the rest. *)
Fixpoint span (stop : ascii -> bool) (s : string) : string * string :=
  match s with
  | EmptyString => (EmptyString, EmptyString)
  | String x r => if stop x then (EmptyString, s) else let '(a, b) := span stop r in (String x a, b)
  end.

Definition is_hex (c : ascii) : bool := is_lower_hex c || in_range 65 70 c.

Definition valid_octet (s : string) : bool :=
  sall is_digit s && str_nonempty s && Nat.leb (String.length s) 3 &&
  (negb (starts_with "0" s) || Nat.eqb (String.length s) 1) &&
  match digits_value 10 0 (chars s) with Some n => N.leb n 255 | None => false end.

Definition valid_ipv4 (s : string) : bool :=
  let parts := split "." s in Nat.eqb (length parts) 4 && forallb valid_octet parts.

Definition valid_hextet (s : string) : bool :=
  str_nonempty s && sall is_hex s && Nat.leb (String.length s) 4.

Definition empty_at (parts : list string) (i : nat) : bool :=
  match nth_error parts i with Some s => negb (str_nonempty s) | None => false end.

(** [ipaddress.IPv6Address(s)] accepts [s]. *)
Definition valid_ipv6 (s : string) : bool :=
  let '(addr, has_scope, scope) := partition "%" s in
  if has_scope && (negb (str_nonempty scope) || contains "%" scope) then false else
  if negb (str_nonempty addr) || contains "/" addr then false else
  let parts := split ":" addr in
  if Nat.ltb (length parts) 3 then false else
  let lastp := List.last parts EmptyString in
  let v4 := contains "." lastp in
  if v4 && negb (valid_ipv4 lastp) then false else
  let parts := if v4 then (removelast parts ++ ["0"; "0"])%list else parts in
  let n := length parts in
  if Nat.ltb 9 n then false else
  let skips := List.filter (empty_at parts) (seq 1 (n - 2)) in
  match skips with
  | [] => Nat.eqb n 8 && forallb valid_hextet parts
  | [k] =>
      let hi := if empty_at parts 0 then Nat.pred k else k in
      let lo := if empty_at parts (n - 1) then (n - k - 2)%nat else (n - k - 1)%nat in
      (negb (empty_at parts 0) || Nat.eqb hi 0) &&
      (negb (empty_at parts (n - 1)) || Nat.eqb lo 0) &&
      Nat.leb (hi + lo) 7 &&
      forallb valid_hextet (take hi parts) && forallb valid_hextet (drop (n - lo) parts)
  | _ => false
  end.

(** [_check_bracketed_host]: IPvFuture or an IPv6 address. *)
Definition valid_bracketed_host (h : string) : bool :=
  match h with
  | String "v" r =>
      let '(ver, dot, rest) := partition "." r in
      dot && str_nonempty ver && sall is_hex ver && str_nonempty rest
  | _ => valid_ipv6 h
  end.

Record parts : Type := Parts { scheme : string; netloc : string; path : string; query : string }.

Definition scheme_char (c : ascii) : bool := is_alpha c || is_digit c || char_in "+-." c.

(** [urlsplit(url)]: [None] is the [ValueError]. *)
Definition urlsplit (url : string) : option parts :=
  let url := lstrip_by (in_range 0 32) url in
  let url := sfilter (fun c => negb (existsb (N.eqb (code c)) [9; 10; 13]%N)) url in
  let '(pre, colon, post) := partition ":" url in
  let is_scheme := colon && match pre with String c _ => is_alpha c | _ => false end
                         && sall scheme_char pre in
  let sch := if is_scheme then lower_ascii_str pre else EmptyString in
  let rest := if is_scheme then post else url in
  let '(net, rest) := if starts_with "//" rest
                      then span (char_in "/?#") (String.substring 2 (String.length rest) rest)
                      else (EmptyString, rest) in
  let opening := contains "[" net in
  let closing := contains "]" net in
  if negb (Bool.eqb opening closing) then None else
  let host := let '(_, _, b) := partition "[" net in let '(h, _, _) := partition "]" b in h in
  if opening && negb (valid_bracketed_host host) then None else
  let '(rest, _, _) := partition "#" rest in
  let '(p, _, q) := partition "?" rest in
  Some (Parts sch net p q).

(** [parsed.username or parsed.password] *)
Definition has_userinfo (u : parts) : bool :=
  let '(info, at_, _) := rpartition "@" (netloc u) in
  let '(user, _, password) := partition ":" info in
  at_ && (str_nonempty user || str_nonempty password).

(** [unquote], byte for byte. *)
Fixpoint unquote_go (skip : nat) (s : string) : string :=
  match s with
  | EmptyString => EmptyString
  | String c r =>
      match skip with
      | S k => unquote_go k r
      | O =>
          match c, r with
          | "%"%char, String a (String b _) =>
              if is_hex a && is_hex b then
                match digits_value 16 0 [a; b] with
                | Some n => String (chr n) (unquote_go 2 r)
                | None => String c (unquote_go 0 r)
                end
              else String c (unquote_go 0 r)
          | _, _ => String c (unquote_go 0 r)
          end
      end
  end.
Definition unquote (s : string) : string := unquote_go 0 s.

(** The keys of [parse_qsl(query, keep_blank_values=True)]. *)
Definition query_keys (q : string) : list string :=
  let fields := List.filter str_nonempty (split "&" q) in
  map (fun f => let '(k, _, _) := partition "=" f in
                unquote (smap (fun c => if Ascii.eqb c "+" then " "%char else c) k)) fields.

(** [urlunsplit((scheme, netloc, path, query, ""))] for a non-empty scheme and netloc. *)
Definition urlunsplit (u : parts) : string :=
  let p := if str_nonempty (path u) && negb (starts_with "/" (path u))
           then "/" ++ path u else path u in
  scheme u ++ ":" ++ "//" ++ netloc u ++ p ++
  (if str_nonempty (query u) then "?" ++ query u else "").

End Url.
