(* ===== verification/PyDecimal.v ===== *)
(** * decimal.Decimal

    What the sources use of it: construction from text, addition in the default
    context (28 digits, half even, InvalidOperation and Overflow trapped) and the
    format [".2f"]; and that amounts in cents are added and written exactly. *)

From Stdlib Require Import ZArith Ascii String Lia.
From stdpp Require Import base decidable list gmap strings.
From S2P Require Import Prelude PyStr PyVal.

Local Open Scope string_scope.

(** [(-1)^neg * coeff * 10^exp], the infinities, and the NaNs with their payload. *)
Inductive decimal : Type :=
| DFinite (neg : bool) (coeff : N) (exp : Z)
| DInfinity (neg : bool)
| DNaN (neg signaling : bool) (payload : N).

Definition DECIMAL_ZERO : decimal := DFinite false 0 0.

(** The default context, and the widest one of the C library. *)
Definition PREC : Z := 28.
Definition EMAX : Z := 999999.
Definition EMIN : Z := -999999.
Definition ETINY : Z := EMIN - (PREC - 1).
Definition MAX_EMAX : Z := 999999999999999999.
Definition MIN_ETINY : Z := - MAX_EMAX - (MAX_EMAX - 1).

Definition ten (k : Z) : N := N.pow 10 (Z.to_N k).

(** The number of decimal digits; one for zero. *)
Definition ndigits (n : N) : Z := slen (str_of_N n).

(** ** Decimal(text) *)

(** A run of ASCII digits, and the rest. *)
Fixpoint digit_run (s : string) : string * string :=
  match s with
  | String c r => if is_digit c then let '(a, b) := digit_run r in (String c a, b) else (EmptyString, s)
  | EmptyString => (EmptyString, EmptyString)
  end.

Definition number (digits : string) : N := opt_default 0%N (digits_value 10 0 (chars digits)).

(** An exponent part, with nothing after it; no exponent is zero. *)
Definition exponent_part (s : string) : option Z :=
  match s with
  | EmptyString => Some 0%Z
  | String e r =>
      if Ascii.eqb e "e" then
        let '(neg, r) := match r with String "-" r' => (true, r') | String "+" r' => (false, r') | _ => (false, r) end in
        let '(ds, rest) := digit_run r in
        if str_nonempty ds && negb (str_nonempty rest)
        then Some (if neg then (- Z.of_N (number ds))%Z else Z.of_N (number ds)) else None
      else None
  end.

(** The conversion is exact or invalid. *)
Definition exact_finite (neg : bool) (coeff : N) (exp : Z) : option decimal :=
  if Z.leb (exp + ndigits coeff - 1) MAX_EMAX && Z.leb MIN_ETINY exp then Some (DFinite neg coeff exp) else None.

Definition nan_payload (neg signaling : bool) (digits : string) : option decimal :=
  if sall is_digit digits then Some (DNaN neg signaling (number digits)) else None.

Definition unsigned_decimal (neg : bool) (s : string) : option decimal :=
  if String.eqb s "inf" || String.eqb s "infinity" then Some (DInfinity neg)
  else if starts_with "nan" s then nan_payload neg false (String.substring 3 (String.length s) s)
  else if starts_with "snan" s then nan_payload neg true (String.substring 4 (String.length s) s)
  else
    let '(whole, r) := digit_run s in
    let '(fraction, r) := match r with String "." r' => digit_run r' | _ => (EmptyString, r) end in
    if str_nonempty (whole ++ fraction) then
      match exponent_part r with
      | Some e => exact_finite neg (number (whole ++ fraction)) (e - slen fraction)
      | None => None
      end
    else None.

(** [Decimal(s)]; [None] is [InvalidOperation]. *)
Definition decimal_of_str (s : string) : option decimal :=
  let s := lower_ascii_str (sfilter (fun c => negb (Ascii.eqb c "_")) (strip s)) in
  match s with
  | String "-" r => unsigned_decimal true r
  | String "+" r => unsigned_decimal false r
  | _ => unsigned_decimal false s
  end.

(** ** Rounding and addition *)

(** [c / 10^k], to the nearest, ties to even. *)
Definition round_half_even (c : N) (k : Z) : N :=
  let q := N.div c (ten k) in
  let r := N.modulo c (ten k) in
  match N.compare (2 * r) (ten k) with
  | Lt => q
  | Gt => N.succ q
  | Eq => if N.even q then q else N.succ q
  end.

Definition in_emax (neg : bool) (coeff : N) (exp : Z) : option decimal :=
  if Z.leb (exp + ndigits coeff - 1) EMAX then Some (DFinite neg coeff exp) else None.

(** A result in the context; [None] is [Overflow]. *)
Definition finalized_decimal (neg : bool) (coeff : N) (exp : Z) : option decimal :=
  if N.eqb coeff 0 then Some (DFinite neg 0 (Z.max ETINY (Z.min EMAX exp)))
  else if Z.ltb (exp + ndigits coeff - 1) EMIN then
    if Z.ltb exp ETINY then Some (DFinite neg (round_half_even coeff (ETINY - exp)) ETINY)
    else Some (DFinite neg coeff exp)
  else if Z.ltb PREC (ndigits coeff) then
    let k := (ndigits coeff - PREC)%Z in
    let q := round_half_even coeff k in
    if N.eqb q (ten PREC) then in_emax neg (ten (PREC - 1)) (exp + k + 1) else in_emax neg q (exp + k)
  else in_emax neg coeff exp.

Definition signed (neg : bool) (n : N) : Z := if neg then (- Z.of_N n)%Z else Z.of_N n.

(** [a + b]; [None] is a trapped signal. *)
Definition decimal_add (a b : decimal) : option decimal :=
  match a, b with
  | DNaN _ true _, _ | _, DNaN _ true _ => None
  | DNaN s _ p, _ | _, DNaN s _ p => Some (DNaN s false (N.modulo p (ten PREC)))
  | DInfinity s, DInfinity t => if Bool.eqb s t then Some a else None
  | DInfinity _, _ => Some a
  | _, DInfinity _ => Some b
  | DFinite s c e, DFinite t d f =>
      let low := Z.min e f in
      let v := (signed s (c * ten (e - low)) + signed t (d * ten (f - low)))%Z in
      finalized_decimal (if Z.eqb v 0 then s && t else Z.ltb v 0) (Z.abs_N v) low
  end.

(** [sum(values, Decimal("0"))] *)
Definition decimal_sum (l : list decimal) : option decimal :=
  fold_left (fun acc d => match acc with Some a => decimal_add a d | None => None end) l (Some DECIMAL_ZERO).

(** ** f"{d:.2f}" *)

(** An amount of cents: the units, a point, two digits. *)
Definition cents_str (n : N) : string := str_of_N (N.div n 100) ++ "." ++ fixed_str 2 10 (N.modulo n 100).

Definition minus (neg : bool) : string := if neg then "-" else "".

Definition format_2f (d : decimal) : string :=
  match d with
  | DFinite neg c e => minus neg ++ cents_str (if Z.leb (-2) e then (c * ten (e + 2))%N else round_half_even c (-2 - e))
  | DInfinity neg => minus neg ++ "Infinity"
  | DNaN neg signaling p => minus neg ++ (if signaling then "sNaN" else "NaN") ++ (if N.eqb p 0 then "" else str_of_N p)
  end.

Example decimal_sum_cents :
  option_map format_2f (decimal_of_str "10.005" ≫= fun d => decimal_of_str " 1_000.1 " ≫= fun e => decimal_sum [d; e]) = Some "1010.10".
Proof. vm_compute. reflexivity. Qed.

Example decimal_ties : (option_map format_2f (decimal_of_str "-0.004"), option_map format_2f (decimal_of_str "2.5E-2")) =
  (Some "-0.00", Some "0.02").
Proof. vm_compute. reflexivity. Qed.

Example decimal_rejects : map decimal_of_str ["1,5"; ""; "."; "0x1"; "1e"] = [None; None; None; None; None].
Proof. vm_compute. reflexivity. Qed.

Example decimal_specials :
  (option_map format_2f (decimal_of_str "-Infinity"), option_map format_2f (decimal_of_str "NaN7"),
   decimal_of_str "inf" ≫= fun d => decimal_of_str "-inf" ≫= fun e => decimal_sum [d; e]) = (Some "-Infinity", Some "NaN7", None).
Proof. vm_compute. reflexivity. Qed.

(** ** Amounts in cents *)

Lemma append_end (s : string) : s ++ "" = s.
Proof. induction s as [|c s IH]; [done|]. by rewrite append_cons, IH. Qed.

Lemma fixed_str_succ w n acc :
  fixed_str (S w) 10 n ++ acc = fixed_str w 10 (n / 10)%N ++ String (digit_char (n mod 10)%N) acc.
Proof.
  unfold fixed_str. cbn [fixed_digits]. rewrite map_app, of_chars_app. cbn [map].
  generalize (of_chars (map digit_char (fixed_digits w 10 (n / 10)))). intros s.
  induction s as [|c s IH]; [done|]. rewrite !append_cons. by rewrite IH.
Qed.

(** The digits written are those of a fixed width, the least one. *)
Lemma digits_go_text fuel n acc :
  (n < 2 ^ N.of_nat (S fuel))%N ->
  exists w, digits_go (S fuel) 10 n acc = fixed_str (S w) 10 n ++ acc /\ (n < 10 ^ N.of_nat (S w))%N /\ (w = O \/ 10 ^ N.of_nat w <= n)%N.
Proof.
  revert n acc. induction fuel as [|fuel IH]; intros n acc Hn.
  - change (2 ^ N.of_nat 1)%N with 2%N in Hn. exists O. rewrite fixed_str_succ. unfold digits_go.
    rewrite N.div_small by lia. split; [done|]. split; [change (10 ^ N.of_nat 1)%N with 10%N; lia|by left].
  - change (digits_go (S (S fuel)) 10 n acc) with
      (if N.eqb (n / 10) 0 then String (digit_char (n mod 10)) acc
       else digits_go (S fuel) 10 (n / 10) (String (digit_char (n mod 10)) acc)).
    destruct (N.eqb_spec (n / 10) 0) as [Hz|Hnz].
    + exists O. rewrite fixed_str_succ. split; [by rewrite Hz|]. apply N.div_small_iff in Hz; [|done].
      split; [change (10 ^ N.of_nat 1)%N with 10%N; lia|by left].
    + destruct (IH (n / 10)%N (String (digit_char (n mod 10)) acc)) as (w & He & Hlt & Hge).
      { apply N.Div0.div_lt_upper_bound. rewrite (Nat2N.inj_succ (S fuel)), N.pow_succ_r' in Hn. lia. }
      exists (S w). rewrite fixed_str_succ. split; [exact He|].
      rewrite (Nat2N.inj_succ (S w)), N.pow_succ_r'. pose proof (N.div_mod n 10 ltac:(done)) as Hdm. pose proof (N.mod_lt n 10 ltac:(done)) as Hm.
      revert Hdm Hm Hlt Hge Hnz. generalize (n / 10)%N (n mod 10)%N. intros q r Hdm Hm Hlt Hge Hnz.
      split; [lia|]. right. rewrite Nat2N.inj_succ, N.pow_succ_r'. destruct Hge as [->|Hge]; [change (10 ^ N.of_nat 0)%N with 1%N; lia|lia].
Qed.

Lemma str_of_N_text n :
  exists w, str_of_N n = fixed_str (S w) 10 n /\ (n < 10 ^ N.of_nat (S w))%N /\ (w = O \/ 10 ^ N.of_nat w <= n)%N.
Proof.
  unfold str_of_N. destruct (digits_go_text (N.to_nat (N.log2 n)) n EmptyString) as (w & He & H).
  - rewrite Nat2N.inj_succ, N2Nat.id. destruct (N.eq_dec n 0%N) as [->|]; [cbn; lia|]. apply N.log2_spec. lia.
  - exists w. split; [|exact H]. rewrite He. apply append_end.
Qed.

Lemma length_fixed_str w n : String.length (fixed_str w 10 n) = w.
Proof. unfold fixed_str. by rewrite length_of_chars, length_map, length_fixed_digits. Qed.

Lemma ndigits_le n (k : nat) : (0 < k)%nat -> (n < 10 ^ N.of_nat k)%N -> (ndigits n <= Z.of_nat k)%Z.
Proof.
  intros Hk Hn. unfold ndigits, slen. destruct (str_of_N_text n) as (w & -> & _ & Hw). rewrite length_fixed_str.
  destruct Hw as [->|Hw]; [lia|]. assert (N.of_nat w < N.of_nat k)%N; [|lia].
  apply (N.pow_lt_mono_r_iff 10); lia.
Qed.

Lemma digit_char_digit d : (d < 10)%N -> is_digit (digit_char d) = true.
Proof. intros H. destruct d as [|p]; [done|]. do 4 (destruct p as [p|p|]; try done); lia. Qed.

Lemma fixed_str_digits w n : sall is_digit (fixed_str w 10 n) = true.
Proof.
  unfold fixed_str. rewrite sall_of_chars. apply forallb_Forall. apply Forall_fmap.
  eapply Forall_impl; [apply (fixed_digits_lt w 10 n); lia|]. intros d Hd. by apply digit_char_digit.
Qed.

Lemma digits_value_text w n acc :
  digits_value 10 acc (map digit_char (fixed_digits w 10 n)) = Some (acc * 10 ^ N.of_nat w + n mod 10 ^ N.of_nat w)%N.
Proof.
  revert n. induction w as [|w IH]; intros n.
  - simpl. f_equal. change (10 ^ N.of_nat 0)%N with 1%N. rewrite N.mod_1_r. lia.
  - cbn [fixed_digits]. rewrite map_app, digits_value_app, IH. cbn [map digits_value].
    assert (n mod 10 < 10)%N as Hlt by (apply N.mod_lt; lia).
    rewrite digit_value_char by lia. apply N.ltb_lt in Hlt as ->. f_equal.
    rewrite Nat2N.inj_succ, N.pow_succ_r', (N.Div0.mod_mul_r n 10 (10 ^ N.of_nat w)). ring.
Qed.

Lemma digit_run_all (s t : string) :
  sall is_digit s = true -> match t with String c _ => is_digit c = false | EmptyString => True end -> digit_run (s ++ t) = (s, t).
Proof.
  intros Hs Ht. induction s as [|c s IH].
  - rewrite append_nil. destruct t as [|c t]; [done|]. cbn. by rewrite Ht.
  - cbn [sall] in Hs. apply andb_true_iff in Hs as [Hc Hs]. rewrite append_cons. cbn [digit_run]. by rewrite Hc, IH.
Qed.

Lemma number_cents n : number (str_of_N (n / 100) ++ fixed_str 2 10 (n mod 100)) = n.
Proof.
  unfold number. destruct (str_of_N_text (n / 100)) as (w & -> & Hw & _). unfold fixed_str.
  rewrite <-of_chars_app, chars_of_chars, digits_value_app, digits_value_text. rewrite digits_value_text. cbn [opt_default].
  rewrite (N.mod_small (n / 100)) by done. change (10 ^ N.of_nat 2)%N with 100%N.
  rewrite N.Div0.mod_mod. pose proof (N.div_mod n 100 ltac:(done)). lia.
Qed.

(** Characters of an amount: not blank, not an underscore, not a capital. *)
Definition amount_char (c : ascii) : bool := is_digit c || Ascii.eqb c ".".

Lemma amount_char_kept c : amount_char c = true -> is_space c = false /\ Ascii.eqb c "_" = false /\ lower_ascii c = c.
Proof. destruct c as [[] [] [] [] [] [] [] []]; cbn; intros H; try discriminate H; done. Qed.

Lemma amount_kept s :
  sall amount_char s = true -> lower_ascii_str (sfilter (fun c => negb (Ascii.eqb c "_")) (strip s)) = s.
Proof.
  intros Hs. unfold strip. rewrite lstrip_by_none.
  2: { eapply sall_impl; [|exact Hs]. intros c Hc. by destruct (amount_char_kept c Hc) as (-> & _). }
  rewrite rstrip_by_none.
  2: { eapply sall_impl; [|exact Hs]. intros c Hc. by destruct (amount_char_kept c Hc) as (-> & _). }
  unfold lower_ascii_str. induction s as [|c s IH]; [done|]. cbn [sall] in Hs. apply andb_true_iff in Hs as [Hc Hs].
  destruct (amount_char_kept c Hc) as (_ & Hu & Hl). cbn [sfilter]. rewrite Hu. cbn [negb smap]. by rewrite Hl, IH.
Qed.

Lemma digit_amount s : sall is_digit s = true -> sall amount_char s = true.
Proof. apply sall_impl. intros c Hc. unfold amount_char. by rewrite Hc. Qed.

Lemma first_digit (c : ascii) (s : string) : is_digit c = true ->
  c <> "-"%char /\ c <> "+"%char /\ c <> "i"%char /\ c <> "n"%char /\ c <> "s"%char.
Proof. intros H. repeat split; intros ->; done. Qed.

Lemma unsigned_amount (c : ascii) (r f : string) :
  is_digit c = true -> sall is_digit r = true -> sall is_digit f = true ->
  unsigned_decimal false (String c r ++ "." ++ f) = exact_finite false (number (String c r ++ f)) (- slen f).
Proof.
  intros Hc Hr Hf. unfold unsigned_decimal.
  assert (digit_run (String c r ++ "." ++ f) = (String c r, "." ++ f)) as ->.
  { apply digit_run_all; [|done]. cbn [sall]. by rewrite Hc. }
  rewrite append_cons. cbn [String.eqb starts_with].
  assert (forall x, is_digit x = false -> Ascii.eqb c x = false) as Hx.
  { intros x Hx. apply Ascii.eqb_neq. intros ->. congruence. }
  rewrite !Hx by done. rewrite !(Ascii.eqb_sym _ c), !Hx by done. cbn [orb andb].
  change ("." ++ f) with (String "." f). cbv iota. rewrite <-(append_end f) at 1.
  rewrite (digit_run_all f "" Hf) by done. cbn [exponent_part]. by rewrite append_cons.
Qed.

Lemma ten_pos k : (0 < ten k)%N.
Proof. unfold ten. lia. Qed.

(** An amount of cents is read back as it was written. *)
Lemma decimal_of_cents n : (n < 10 ^ 28)%N -> decimal_of_str (cents_str n) = Some (DFinite false n (-2)).
Proof.
  intros Hn. unfold decimal_of_str, cents_str. destruct (str_of_N_text (n / 100)) as (w & Hs & Hw & _).
  assert (sall is_digit (str_of_N (n / 100)) = true) as Hd by (rewrite Hs; apply fixed_str_digits).
  rewrite amount_kept.
  2: { rewrite sall_app, (digit_amount _ Hd). change (sall amount_char (fixed_str 2 10 (n mod 100)) = true).
       apply digit_amount, fixed_str_digits. }
  pose proof (number_cents n) as Hnum. pose proof (length_fixed_str (S w) (n / 100)) as Hlen. rewrite <-Hs in Hlen.
  destruct (str_of_N (n / 100)) as [|c r]; [done|]. cbn [sall] in Hd. apply andb_true_iff in Hd as [Hc Hr].
  pose proof (unsigned_amount c r (fixed_str 2 10 (n mod 100)) Hc Hr (fixed_str_digits 2 _)) as Hu.
  assert (match (String c r ++ "." ++ fixed_str 2 10 (n mod 100))%string with
          | String "-" r0 => unsigned_decimal true r0
          | String "+" r0 => unsigned_decimal false r0
          | _ => unsigned_decimal false (String c r ++ "." ++ fixed_str 2 10 (n mod 100))
          end = unsigned_decimal false (String c r ++ "." ++ fixed_str 2 10 (n mod 100))) as ->.
  { rewrite append_cons. destruct c as [[] [] [] [] [] [] [] []]; cbn in Hc; try discriminate Hc; done. }
  rewrite Hu, Hnum. unfold slen. rewrite length_fixed_str. unfold exact_finite.
  pose proof (ndigits_le n 28 ltac:(lia) Hn). rewrite (proj2 (Z.leb_le _ _)) by (unfold MAX_EMAX; lia). done.
Qed.

(** Amounts of cents add without rounding. *)
Lemma add_cents a b :
  (a + b < 10 ^ 28)%N -> decimal_add (DFinite false a (-2)) (DFinite false b (-2)) = Some (DFinite false (a + b) (-2)).
Proof.
  intros Hab. unfold decimal_add. rewrite Z.min_id. change (ten (-2 - -2)) with 1%N. rewrite !N.mul_1_r. cbn [signed andb].
  assert (Z.of_N a + Z.of_N b = Z.of_N (a + b))%Z as -> by lia.
  assert ((if Z.eqb (Z.of_N (a + b)) 0 then false else Z.ltb (Z.of_N (a + b)) 0) = false) as ->.
  { destruct (Z.eqb _ 0); [done|]. apply Z.ltb_ge. lia. }
  rewrite Zabs2N.id. unfold finalized_decimal. destruct (N.eqb_spec (a + b) 0) as [->|Hne]; [done|].
  pose proof (ndigits_le (a + b) 28 ltac:(lia) Hab).
  assert (0 <= ndigits (a + b))%Z by (unfold ndigits, slen; lia).
  rewrite (proj2 (Z.ltb_ge _ _)) by (unfold EMIN; lia). rewrite (proj2 (Z.ltb_ge _ _)) by (unfold PREC; lia).
  unfold in_emax. by rewrite (proj2 (Z.leb_le _ _)) by (unfold EMAX; lia).
Qed.

Lemma add_zero_cents a : (a < 10 ^ 28)%N -> decimal_add DECIMAL_ZERO (DFinite false a (-2)) = Some (DFinite false a (-2)).
Proof. intros Ha. exact (add_cents 0 a Ha). Qed.

Lemma format_cents n : format_2f (DFinite false n (-2)) = cents_str n.
Proof. cbn [format_2f minus]. rewrite append_nil. change (ten (-2 + 2)) with 1%N. by rewrite N.mul_1_r. Qed.
