(* ===== verification/Calendar.v ===== *)
(** * Civil dates

    A day number is the date it is converted to, and how far dates of different
    years are apart. *)

From Stdlib Require Import ZArith Lia.
From stdpp Require Import base decidable list gmap strings.
From S2P Require Import Prelude PyVal.

Local Open Scope Z_scope.

(** The year of the era and the day of the year, March first. *)
Lemma year_of_era doe : 0 <= doe < 146097 -> let yoe := (doe - doe/1460 + doe/36524 - doe/146096)/365 in
  0 <= yoe <= 399 /\ 0 <= doe - (365*yoe + yoe/4 - yoe/100) <= 365.
Proof. intros H yoe. subst yoe. Z.to_euclidean_division_equations. lia. Qed.

Lemma leap_day doe : 0 <= doe < 146097 -> let yoe := (doe - doe/1460 + doe/36524 - doe/146096)/365 in
  doe - (365*yoe + yoe/4 - yoe/100) = 365 -> (yoe + 1) mod 4 = 0 /\ ((yoe + 1) mod 100 <> 0 \/ (yoe + 1) mod 400 = 0).
Proof. intros H yoe. subst yoe. Z.to_euclidean_division_equations. lia. Qed.

(** The month that a day of the year, March first, falls into. *)
Lemma month_of_day doy : 0 <= doy <= 365 -> let mp := (5 * doy + 2) / 153 in let d := doy - (153 * mp + 2) / 5 + 1 in
  0 <= mp <= 11 /\ 1 <= d /\
  d <= (if Z.eqb mp 11 then if Z.eqb doy 365 then 29 else 28 else if Z.eqb mp 1 || Z.eqb mp 3 || Z.eqb mp 6 || Z.eqb mp 8 then 30 else 31).
Proof.
  intros H mp d. assert (0 <= mp <= 11) as Hmp by (subst mp d; Z.to_euclidean_division_equations; lia). split; [done|].
  assert (153 * mp <= 5 * doy + 2 < 153 * mp + 153) as Hk by (subst mp d; clear Hmp; Z.to_euclidean_division_equations; lia).
  assert (d = doy - (153 * mp + 2) / 5 + 1) as Hd by reflexivity. clearbody mp d.
  assert (mp = 0 \/ mp = 1 \/ mp = 2 \/ mp = 3 \/ mp = 4 \/ mp = 5 \/ mp = 6 \/ mp = 7 \/ mp = 8 \/ mp = 9 \/ mp = 10 \/ mp = 11) as Hc by lia.
  destruct (Z.eqb_spec doy 365); repeat destruct Hc as [->|Hc]; try subst mp; cbn [Z.eqb Pos.eqb orb]; Z.to_euclidean_division_equations; lia.
Qed.

Lemma civil_spec v y m d : civil_of_day v = (y, m, d) ->
  1 <= m <= 12 /\ 1 <= d <= days_in_month y m /\ day_of_civil y m d = v.
Proof.
  unfold civil_of_day. set (z := v + 719468). assert (v = z - 719468) as Hv by lia. clearbody z.
  pose proof (Z.div_mod z 146097 ltac:(lia)) as Hz. pose proof (Z.mod_pos_bound z 146097 ltac:(lia)) as Hdoe.
  set (era := z / 146097) in *. replace (z - era * 146097) with (z mod 146097) by lia. set (doe := z mod 146097) in *.
  pose proof (year_of_era doe Hdoe) as Hyear. pose proof (leap_day doe Hdoe) as Hleap. cbn zeta in *.
  set (yoe := (doe - doe/1460 + doe/36524 - doe/146096)/365) in *. set (doy := doe - (365*yoe + yoe/4 - yoe/100)) in *.
  assert (doe = 365*yoe + yoe/4 - yoe/100 + doy) as Hdoy by lia. clearbody era doe yoe doy. destruct Hyear as [Hy Hy2].
  destruct (month_of_day doy Hy2) as (Hmp & Hd & Hlen). cbn zeta in *. set (mp := (5 * doy + 2) / 153) in *.
  set (dd := doy - (153 * mp + 2) / 5 + 1) in *. assert (doy = (153 * mp + 2) / 5 + dd - 1) as Hdd by lia. clearbody mp dd.
  assert ((yoe + era * 400) / 400 = era) as Hera by (clear -Hy; Z.to_euclidean_division_equations; lia).
  intros [= <- <- <-]. destruct (Z.ltb_spec mp 10) as [Hlt|Hge].
  - destruct (Z.leb_spec (mp + 3) 2); [lia|]. split; [lia|]. split.
    + split; [done|]. revert Hlen. unfold days_in_month.
      repeat match goal with |- context [Z.eqb ?a ?b] => destruct (Z.eqb_spec a b) end; cbn; lia.
    + unfold day_of_civil. destruct (Z.leb_spec (mp + 3) 2); [lia|]. destruct (Z.ltb_spec 2 (mp + 3)); [|lia].
      rewrite Hera. replace (yoe + era * 400 - era * 400) with yoe by lia. replace (mp + 3 - 3) with mp by lia. lia.
  - destruct (Z.leb_spec (mp - 9) 2); [|lia]. split; [lia|]. split.
    + split; [done|]. revert Hlen. unfold days_in_month, is_leap.
      replace (yoe + era * 400 + 1) with ((yoe + 1) + (era * 100) * 4) by lia. rewrite Z.mod_add by lia.
      replace ((yoe + 1) + (era * 100) * 4) with ((yoe + 1) + (era * 4) * 100) by lia. rewrite Z.mod_add by lia.
      replace ((yoe + 1) + (era * 4) * 100) with ((yoe + 1) + era * 400) by lia. rewrite Z.mod_add by lia.
      repeat match goal with |- context [Z.eqb ?a ?b] => destruct (Z.eqb_spec a b) end; cbn; lia.
    + unfold day_of_civil. destruct (Z.leb_spec (mp - 9) 2); [|lia]. destruct (Z.ltb_spec 2 (mp - 9)); [lia|].
      replace (yoe + era * 400 + 1 - 1) with (yoe + era * 400) by lia.
      rewrite Hera. replace (yoe + era * 400 - era * 400) with yoe by lia. replace (mp - 9 + 9) with mp by lia. lia.
Qed.

(** Days as a sum: whole years since March of year 0, and the day of the year. *)
Definition march_year (y m : Z) : Z := if Z.leb m 2 then y - 1 else y.
Definition march_month (m : Z) : Z := if Z.ltb 2 m then m - 3 else m + 9.

Lemma day_of_civil_sum y m d :
  let Y := march_year y m in
  day_of_civil y m d = 365 * Y + Y / 4 - Y / 100 + Y / 400 + (153 * march_month m + 2) / 5 + d - 1 - 719468.
Proof.
  unfold day_of_civil, march_year, march_month. set (Y := if Z.leb m 2 then y - 1 else y). set (mp := if Z.ltb 2 m then _ else _).
  cbv zeta. clearbody Y mp. Z.to_euclidean_division_equations. lia.
Qed.

(** A date lies in its year. *)
Lemma date_in_year y m d :
  1 <= m <= 12 -> 1 <= d <= days_in_month y m -> day_of_civil y 1 1 <= day_of_civil y m d < day_of_civil (y + 1) 1 1.
Proof.
  intros Hm Hd. rewrite !day_of_civil_sum. unfold march_year, march_month. cbv zeta. cbn [Z.leb Z.ltb Z.compare Pos.compare Pos.compare_cont].
  replace (y + 1 - 1) with y by lia.
  assert (m = 1 \/ m = 2 \/ m = 3 \/ m = 4 \/ m = 5 \/ m = 6 \/ m = 7 \/ m = 8 \/ m = 9 \/ m = 10 \/ m = 11 \/ m = 12) as Hc by lia.
  unfold days_in_month, is_leap in Hd.
  destruct (Z.eqb_spec (y mod 4) 0), (Z.eqb_spec (y mod 100) 0), (Z.eqb_spec (y mod 400) 0);
    repeat destruct Hc as [->|Hc]; try subst m; cbn in Hd |- *; Z.to_euclidean_division_equations; lia.
Qed.

(** Eleven years later, on the same day or the last of its month. *)
Lemma eleven_years y m d :
  1 <= m <= 12 -> 1 <= d <= days_in_month y m ->
  4015 <= day_of_civil (y + 11) m (Z.min d (days_in_month (y + 11) m)) - day_of_civil y m d <= 4018.
Proof.
  intros Hm Hd. rewrite !day_of_civil_sum. unfold march_year. cbv zeta. set (k := (153 * march_month m + 2) / 5). clearbody k.
  assert (d - 1 <= Z.min d (days_in_month (y + 11) m) <= d) as Hmin.
  { revert Hd. unfold days_in_month. repeat case_match; lia. }
  set (d2 := Z.min d _) in *. clearbody d2. destruct (Z.leb m 2); Z.to_euclidean_division_equations; lia.
Qed.

(** The first of January, five to six years after a date's year ends. *)
Lemma sixth_january y m d :
  1 <= m <= 12 -> 1 <= d <= days_in_month y m ->
  1826 <= day_of_civil (y + 6) 1 1 - day_of_civil y m d <= 2192.
Proof.
  intros Hm Hd. destruct (date_in_year y m d Hm Hd) as [H1 H2].
  assert (1825 <= day_of_civil (y + 6) 1 1 - day_of_civil (y + 1) 1 1 /\ day_of_civil (y + 6) 1 1 - day_of_civil y 1 1 <= 2192) as [H3 H4].
  { rewrite !day_of_civil_sum. unfold march_year. cbv zeta. cbn [Z.leb Z.compare Pos.compare Pos.compare_cont]. Z.to_euclidean_division_equations. lia. }
  lia.
Qed.
