(* ===== verification/Models.v ===== *)
(** * The Django schema (nfx/models.py) and the world the services run in

    One module per [TextChoices] class, one record per model, the database as
    a record of tables, the exceptions the sources raise, and the world: the
    database, the clock, the UUID generator, the object store behind boto3.

    An instant column is a [Z] (microseconds since the epoch, [USE_TZ = True]);
    a UUID is an [N]; a foreign key is the key of the row it names, and an
    automatic integer key is drawn from the same generator as the UUIDs.  Unique
    constraints, check constraints and column widths are in the [create] and
    [save] of each service; a foreign key is checked there when the row it names
    may be missing (no service modelled here deletes a row another one names). *)

From Stdlib Require Import ZArith Ascii String Lia.
From stdpp Require Import base decidable list gmap strings.
From S2P Require Import Prelude PyStr PyVal.

Local Open Scope string_scope.

(** The member of a choices class with a given value. *)
Definition find_value {A} (value : A -> string) (values : list A) (s : string) : option A :=
  List.find (fun x => String.eqb (value x) s) values.

(** ** Choices *)

(** jobs/models.py: [JobState] *)
Module JobState.
Variant t : Set := QUEUED | RUNNING | COMPLETED | BLOCKED.
#[global] Instance eq_dec : EqDecision t.
Proof. solve_decision. Defined.
Definition values : list t := [QUEUED; RUNNING; COMPLETED; BLOCKED].
Definition value (x : t) : string :=
  match x with
  | QUEUED => "queued"
  | RUNNING => "running"
  | COMPLETED => "completed"
  | BLOCKED => "blocked"
  end.
Definition of_value (s : string) : option t := find_value value values s.
End JobState.

(** jobs/models.py: [JobOutcomeKind] *)
Module JobOutcomeKind.
Variant t : Set := SUCCESS | TEMPORARY | COOLDOWN | PERMANENT | PARTIAL.
#[global] Instance eq_dec : EqDecision t.
Proof. solve_decision. Defined.
Definition values : list t := [SUCCESS; TEMPORARY; COOLDOWN; PERMANENT; PARTIAL].
Definition value (x : t) : string :=
  match x with
  | SUCCESS => "success"
  | TEMPORARY => "temporary"
  | COOLDOWN => "cooldown"
  | PERMANENT => "permanent"
  | PARTIAL => "partial"
  end.
Definition of_value (s : string) : option t := find_value value values s.
End JobOutcomeKind.

(** companies/models.py: [CompanyStatus] *)
Module CompanyStatus.
Variant t : Set := REGISTERED | ACTIVE | DEACTIVATED.
#[global] Instance eq_dec : EqDecision t.
Proof. solve_decision. Defined.
Definition values : list t := [REGISTERED; ACTIVE; DEACTIVATED].
Definition value (x : t) : string :=
  match x with
  | REGISTERED => "cadastrada"
  | ACTIVE => "ativa"
  | DEACTIVATED => "desativada"
  end.
Definition of_value (s : string) : option t := find_value value values s.
End CompanyStatus.

(** companies/models.py: [FlowFamily] *)
Module FlowFamily.
Variant t : Set := NFE | NFSE.
#[global] Instance eq_dec : EqDecision t.
Proof. solve_decision. Defined.
Definition values : list t := [NFE; NFSE].
Definition value (x : t) : string :=
  match x with
  | NFE => "nfe"
  | NFSE => "nfse"
  end.
Definition of_value (s : string) : option t := find_value value values s.
End FlowFamily.

(** companies/models.py: [FlowState] *)
Module FlowState.
Variant t : Set := ENABLED | PAUSED.
#[global] Instance eq_dec : EqDecision t.
Proof. solve_decision. Defined.
Definition values : list t := [ENABLED; PAUSED].
Definition value (x : t) : string :=
  match x with
  | ENABLED => "habilitado"
  | PAUSED => "pausado"
  end.
Definition of_value (s : string) : option t := find_value value values s.
End FlowState.

(** companies/models.py: [AdnCoverageStatus] *)
Module AdnCoverageStatus.
Variant t : Set := AVAILABLE | NONE | UNKNOWN.
#[global] Instance eq_dec : EqDecision t.
Proof. solve_decision. Defined.
Definition values : list t := [AVAILABLE; NONE; UNKNOWN].
Definition value (x : t) : string :=
  match x with
  | AVAILABLE => "available"
  | NONE => "none"
  | UNKNOWN => "unknown"
  end.
Definition of_value (s : string) : option t := find_value value values s.
End AdnCoverageStatus.

(** companies/models.py: [EnrichmentStatus] *)
Module EnrichmentStatus.
Variant t : Set := SUCCESS | EMPTY | NOT_FOUND | TIMEOUT | UNAVAILABLE | MALFORMED.
#[global] Instance eq_dec : EqDecision t.
Proof. solve_decision. Defined.
Definition values : list t := [SUCCESS; EMPTY; NOT_FOUND; TIMEOUT; UNAVAILABLE; MALFORMED].
Definition value (x : t) : string :=
  match x with
  | SUCCESS => "sucesso"
  | EMPTY => "vazio"
  | NOT_FOUND => "nao_encontrado"
  | TIMEOUT => "timeout"
  | UNAVAILABLE => "indisponivel"
  | MALFORMED => "malformado"
  end.
Definition of_value (s : string) : option t := find_value value values s.
End EnrichmentStatus.

(** certificates/models.py: [CertificateState] *)
Module CertificateState.
Variant t : Set := PENDING | CURRENT | REPLACED | STORAGE_FAILED.
#[global] Instance eq_dec : EqDecision t.
Proof. solve_decision. Defined.
Definition values : list t := [PENDING; CURRENT; REPLACED; STORAGE_FAILED].
Definition value (x : t) : string :=
  match x with
  | PENDING => "pending"
  | CURRENT => "current"
  | REPLACED => "replaced"
  | STORAGE_FAILED => "storage_failed"
  end.
Definition of_value (s : string) : option t := find_value value values s.
End CertificateState.

(** collection/models.py: [CollectionScope] *)
Module CollectionScope.
Variant t : Set := COMPLETE | NFE | NFSE.
#[global] Instance eq_dec : EqDecision t.
Proof. solve_decision. Defined.
Definition values : list t := [COMPLETE; NFE; NFSE].
Definition value (x : t) : string :=
  match x with
  | COMPLETE => "completa"
  | NFE => "nfe"
  | NFSE => "nfse"
  end.
Definition of_value (s : string) : option t := find_value value values s.
End CollectionScope.

(** collection/models.py: [CollectionOrigin] *)
Module CollectionOrigin.
Variant t : Set := AUTOMATIC | MANUAL | RETRY.
#[global] Instance eq_dec : EqDecision t.
Proof. solve_decision. Defined.
Definition values : list t := [AUTOMATIC; MANUAL; RETRY].
Definition value (x : t) : string :=
  match x with
  | AUTOMATIC => "automatica"
  | MANUAL => "manual"
  | RETRY => "retry"
  end.
Definition of_value (s : string) : option t := find_value value values s.
End CollectionOrigin.

(** collection/models.py: [CollectionExecutionState] *)
Module CollectionExecutionState.
Variant t : Set := QUEUED | RUNNING | CONCLUDED | EMPTY | PARTIAL | RETRYING | COOLDOWN | BLOCKED | FAILED.
#[global] Instance eq_dec : EqDecision t.
Proof. solve_decision. Defined.
Definition values : list t := [QUEUED; RUNNING; CONCLUDED; EMPTY; PARTIAL; RETRYING; COOLDOWN; BLOCKED; FAILED].
Definition value (x : t) : string :=
  match x with
  | QUEUED => "queued"
  | RUNNING => "running"
  | CONCLUDED => "concluded"
  | EMPTY => "empty"
  | PARTIAL => "partial"
  | RETRYING => "retrying"
  | COOLDOWN => "cooldown"
  | BLOCKED => "blocked"
  | FAILED => "failed"
  end.
Definition of_value (s : string) : option t := find_value value values s.
End CollectionExecutionState.

(** collection/models.py: [InitialCollectionRequestState] *)
Module InitialCollectionRequestState.
Variant t : Set := QUEUED | CONSUMED | BLOCKED.
#[global] Instance eq_dec : EqDecision t.
Proof. solve_decision. Defined.
Definition values : list t := [QUEUED; CONSUMED; BLOCKED].
Definition value (x : t) : string :=
  match x with
  | QUEUED => "queued"
  | CONSUMED => "consumed"
  | BLOCKED => "blocked"
  end.
Definition of_value (s : string) : option t := find_value value values s.
End InitialCollectionRequestState.

(** collection/models.py: [IngestionPageState] *)
Module IngestionPageState.
Variant t : Set := PENDING | COMPLETE | EMPTY | NO_COVERAGE | UNAVAILABLE | RETRY | COOLDOWN | BLOCKED | PARTIAL | FAILED.
#[global] Instance eq_dec : EqDecision t.
Proof. solve_decision. Defined.
Definition values : list t := [PENDING; COMPLETE; EMPTY; NO_COVERAGE; UNAVAILABLE; RETRY; COOLDOWN; BLOCKED; PARTIAL; FAILED].
Definition value (x : t) : string :=
  match x with
  | PENDING => "pending"
  | COMPLETE => "complete"
  | EMPTY => "empty"
  | NO_COVERAGE => "no_coverage"
  | UNAVAILABLE => "unavailable"
  | RETRY => "retry"
  | COOLDOWN => "cooldown"
  | BLOCKED => "blocked"
  | PARTIAL => "partial"
  | FAILED => "failed"
  end.
Definition of_value (s : string) : option t := find_value value values s.
End IngestionPageState.

(** collection/models.py: [ReceivedUnitState] *)
Module ReceivedUnitState.
Variant t : Set := PENDING | PERSISTED | REPLAY | QUARANTINE | CONFLICT | FAILED.
#[global] Instance eq_dec : EqDecision t.
Proof. solve_decision. Defined.
Definition values : list t := [PENDING; PERSISTED; REPLAY; QUARANTINE; CONFLICT; FAILED].
Definition value (x : t) : string :=
  match x with
  | PENDING => "pending"
  | PERSISTED => "persisted"
  | REPLAY => "replay"
  | QUARANTINE => "quarantine"
  | CONFLICT => "conflict"
  | FAILED => "failed"
  end.
Definition of_value (s : string) : option t := find_value value values s.
End ReceivedUnitState.

(** collection/models.py: [IngestionOutcome] *)
Module IngestionOutcome.
Variant t : Set := SUCCESS | VALID_EMPTY | NO_COVERAGE | UNAVAILABLE | TEMPORARY_FAILURE | COOLDOWN | PERMANENT_FAILURE | MALFORMED | UNKNOWN | PARTIAL | QUARANTINE | CONFLICT.
#[global] Instance eq_dec : EqDecision t.
Proof. solve_decision. Defined.
Definition values : list t := [SUCCESS; VALID_EMPTY; NO_COVERAGE; UNAVAILABLE; TEMPORARY_FAILURE; COOLDOWN; PERMANENT_FAILURE; MALFORMED; UNKNOWN; PARTIAL; QUARANTINE; CONFLICT].
Definition value (x : t) : string :=
  match x with
  | SUCCESS => "success"
  | VALID_EMPTY => "valid_empty"
  | NO_COVERAGE => "no_coverage"
  | UNAVAILABLE => "unavailable"
  | TEMPORARY_FAILURE => "temporary_failure"
  | COOLDOWN => "cooldown"
  | PERMANENT_FAILURE => "permanent_failure"
  | MALFORMED => "malformed"
  | UNKNOWN => "unknown"
  | PARTIAL => "partial"
  | QUARANTINE => "quarantine"
  | CONFLICT => "conflict"
  end.
Definition of_value (s : string) : option t := find_value value values s.
End IngestionOutcome.

(** collection/models.py: [IngestionRecovery] *)
Module IngestionRecovery.
Variant t : Set := NONE | RETRY | COOLDOWN | BLOCKED | QUARANTINE | CONFLICT_REVIEW | RECONCILE.
#[global] Instance eq_dec : EqDecision t.
Proof. solve_decision. Defined.
Definition values : list t := [NONE; RETRY; COOLDOWN; BLOCKED; QUARANTINE; CONFLICT_REVIEW; RECONCILE].
Definition value (x : t) : string :=
  match x with
  | NONE => "none"
  | RETRY => "retry"
  | COOLDOWN => "cooldown"
  | BLOCKED => "blocked"
  | QUARANTINE => "quarantine"
  | CONFLICT_REVIEW => "conflict_review"
  | RECONCILE => "reconcile"
  end.
Definition of_value (s : string) : option t := find_value value values s.
End IngestionRecovery.

(** artifacts/models.py: [ArtifactState] *)
Module ArtifactState.
Variant t : Set := PENDING | FINALIZED | MISSING | DIVERGENT.
#[global] Instance eq_dec : EqDecision t.
Proof. solve_decision. Defined.
Definition values : list t := [PENDING; FINALIZED; MISSING; DIVERGENT].
Definition value (x : t) : string :=
  match x with
  | PENDING => "pending"
  | FINALIZED => "finalized"
  | MISSING => "missing"
  | DIVERGENT => "divergent"
  end.
Definition of_value (s : string) : option t := find_value value values s.
End ArtifactState.

(** documents/models.py: [DocumentFamily] *)
Module DocumentFamily.
Variant t : Set := NFE | NFSE.
#[global] Instance eq_dec : EqDecision t.
Proof. solve_decision. Defined.
Definition values : list t := [NFE; NFSE].
Definition value (x : t) : string :=
  match x with
  | NFE => "nfe"
  | NFSE => "nfse"
  end.
Definition of_value (s : string) : option t := find_value value values s.
End DocumentFamily.

(** documents/models.py: [DocumentState] *)
Module DocumentState.
Variant t : Set := PERSISTED | CONFLICT.
#[global] Instance eq_dec : EqDecision t.
Proof. solve_decision. Defined.
Definition values : list t := [PERSISTED; CONFLICT].
Definition value (x : t) : string :=
  match x with
  | PERSISTED => "persisted"
  | CONFLICT => "conflict"
  end.
Definition of_value (s : string) : option t := find_value value values s.
End DocumentState.

(** documents/models.py: [DocumentSituation] *)
Module DocumentSituation.
Variant t : Set := AUTHORIZED | CANCELLED | UNKNOWN.
#[global] Instance eq_dec : EqDecision t.
Proof. solve_decision. Defined.
Definition values : list t := [AUTHORIZED; CANCELLED; UNKNOWN].
Definition value (x : t) : string :=
  match x with
  | AUTHORIZED => "authorized"
  | CANCELLED => "cancelled"
  | UNKNOWN => "unknown"
  end.
Definition of_value (s : string) : option t := find_value value values s.
End DocumentSituation.

(** documents/models.py: [DocumentRelationship] *)
Module DocumentRelationship.
Variant t : Set := EVENT | SUBSTITUTION.
#[global] Instance eq_dec : EqDecision t.
Proof. solve_decision. Defined.
Definition values : list t := [EVENT; SUBSTITUTION].
Definition value (x : t) : string :=
  match x with
  | EVENT => "event"
  | SUBSTITUTION => "substitution"
  end.
Definition of_value (s : string) : option t := find_value value values s.
End DocumentRelationship.

(** documents/models.py: [NFeManifestationState] *)
Module NFeManifestationState.
Variant t : Set := QUEUED | ACCEPTED | DENIED | RETRY | COOLDOWN | BLOCKED | QUARANTINED | CONFLICT.
#[global] Instance eq_dec : EqDecision t.
Proof. solve_decision. Defined.
Definition values : list t := [QUEUED; ACCEPTED; DENIED; RETRY; COOLDOWN; BLOCKED; QUARANTINED; CONFLICT].
Definition value (x : t) : string :=
  match x with
  | QUEUED => "queued"
  | ACCEPTED => "accepted"
  | DENIED => "denied"
  | RETRY => "retry"
  | COOLDOWN => "cooldown"
  | BLOCKED => "blocked"
  | QUARANTINED => "quarantined"
  | CONFLICT => "conflict"
  end.
Definition of_value (s : string) : option t := find_value value values s.
End NFeManifestationState.

(** identity/models.py: [Role] *)
Module Role.
Variant t : Set := ADMINISTRATOR | OPERATOR | VIEWER.
#[global] Instance eq_dec : EqDecision t.
Proof. solve_decision. Defined.
Definition values : list t := [ADMINISTRATOR; OPERATOR; VIEWER].
Definition value (x : t) : string :=
  match x with
  | ADMINISTRATOR => "administrador"
  | OPERATOR => "operador"
  | VIEWER => "visualizador"
  end.
Definition of_value (s : string) : option t := find_value value values s.
End Role.
(** ** Rows *)

(** documents/models.py: [DocumentRenderState] *)
Module DocumentRenderState.
Variant t : Set := PENDING | FINALIZED | FAILED | UNSUPPORTED | MISSING | DIVERGENT.
#[global] Instance eq_dec : EqDecision t.
Proof. solve_decision. Defined.
Definition values : list t := [PENDING; FINALIZED; FAILED; UNSUPPORTED; MISSING; DIVERGENT].
Definition value (x : t) : string :=
  match x with
  | PENDING => "pending"
  | FINALIZED => "finalized"
  | FAILED => "failed"
  | UNSUPPORTED => "unsupported"
  | MISSING => "missing"
  | DIVERGENT => "divergent"
  end.
Definition of_value (s : string) : option t := find_value value values s.
End DocumentRenderState.

(** exports/models.py: [ExportState] *)
Module ExportState.
Variant t : Set := PENDING | PROCESSING | COMPLETE | PARTIAL | FAILED | AVAILABLE | EXPIRED | EXCLUDED.
#[global] Instance eq_dec : EqDecision t.
Proof. solve_decision. Defined.
Definition values : list t := [PENDING; PROCESSING; COMPLETE; PARTIAL; FAILED; AVAILABLE; EXPIRED; EXCLUDED].
Definition value (x : t) : string :=
  match x with
  | PENDING => "pending"
  | PROCESSING => "processing"
  | COMPLETE => "complete"
  | PARTIAL => "partial"
  | FAILED => "failed"
  | AVAILABLE => "available"
  | EXPIRED => "expired"
  | EXCLUDED => "excluded"
  end.
Definition of_value (s : string) : option t := find_value value values s.
End ExportState.

(** exports/models.py: [ExportItemState] *)
Module ExportItemState.
Variant t : Set := PENDING | INCLUDED | MISSING | DIVERGENT | FAILED | EXCLUDED.
#[global] Instance eq_dec : EqDecision t.
Proof. solve_decision. Defined.
Definition values : list t := [PENDING; INCLUDED; MISSING; DIVERGENT; FAILED; EXCLUDED].
Definition value (x : t) : string :=
  match x with
  | PENDING => "pending"
  | INCLUDED => "included"
  | MISSING => "missing"
  | DIVERGENT => "divergent"
  | FAILED => "failed"
  | EXCLUDED => "excluded"
  end.
Definition of_value (s : string) : option t := find_value value values s.
End ExportItemState.

(** retention/models.py: [DeletionOperationState] *)
Module DeletionOperationState.
Variant t : Set := PENDING | EXECUTING | RECOVERY_REQUIRED | FAILED | COMPLETED.
#[global] Instance eq_dec : EqDecision t.
Proof. solve_decision. Defined.
Definition values : list t := [PENDING; EXECUTING; RECOVERY_REQUIRED; FAILED; COMPLETED].
Definition value (x : t) : string :=
  match x with
  | PENDING => "pending"
  | EXECUTING => "executing"
  | RECOVERY_REQUIRED => "recovery_required"
  | FAILED => "failed"
  | COMPLETED => "completed"
  end.
Definition of_value (s : string) : option t := find_value value values s.
End DeletionOperationState.

(** retention/models.py: [DeletionItemState] *)
Module DeletionItemState.
Variant t : Set := PENDING | RUNNING | COMPLETED | RECOVERY_REQUIRED | FAILED.
#[global] Instance eq_dec : EqDecision t.
Proof. solve_decision. Defined.
Definition values : list t := [PENDING; RUNNING; COMPLETED; RECOVERY_REQUIRED; FAILED].
Definition value (x : t) : string :=
  match x with
  | PENDING => "pending"
  | RUNNING => "running"
  | COMPLETED => "completed"
  | RECOVERY_REQUIRED => "recovery_required"
  | FAILED => "failed"
  end.
Definition of_value (s : string) : option t := find_value value values s.
End DeletionItemState.

(** retention/models.py: [DeletionItemKind] *)
Module DeletionItemKind.
Variant t : Set := DOCUMENT | EVENT | EVIDENCE | EVENT_EVIDENCE | RENDER | ARTIFACT.
#[global] Instance eq_dec : EqDecision t.
Proof. solve_decision. Defined.
Definition values : list t := [DOCUMENT; EVENT; EVIDENCE; EVENT_EVIDENCE; RENDER; ARTIFACT].
Definition value (x : t) : string :=
  match x with
  | DOCUMENT => "document"
  | EVENT => "event"
  | EVIDENCE => "evidence"
  | EVENT_EVIDENCE => "event_evidence"
  | RENDER => "render"
  | ARTIFACT => "artifact"
  end.
Definition of_value (s : string) : option t := find_value value values s.
End DeletionItemKind.

(** jobs/models.py: a versioned retry policy *)
Record JobPolicy : Type := MkJobPolicy {
  pol_id : N;
  pol_source_scope : string;
  pol_flow_scope : string;
  pol_version : Z;
  pol_valid_from : Z;
  pol_valid_until : option Z;
  pol_retry_limit : Z;
  pol_backoff_initial_seconds : Z;
  pol_backoff_cap_seconds : Z;
  pol_jitter_seconds : Z;
  pol_cooldown_seconds : Z;
  pol_created_at : Z;
  pol_updated_at : Z }.
#[export] Instance eta_JobPolicy : Eta JobPolicy := fun r => MkJobPolicy
  (pol_id r) (pol_source_scope r) (pol_flow_scope r) (pol_version r) (pol_valid_from r)
  (pol_valid_until r) (pol_retry_limit r) (pol_backoff_initial_seconds r)
  (pol_backoff_cap_seconds r) (pol_jitter_seconds r) (pol_cooldown_seconds r)
  (pol_created_at r) (pol_updated_at r).

(** jobs/models.py: a unit of background work and its lease; [effective_policy] is the policy row's key *)
Record Job : Type := MkJob {
  job_id : N;
  job_effective_policy : option N;
  job_job_type : string;
  job_logical_target : string;
  job_payload : pyval;
  job_priority : Z;
  job_idempotency_key : string;
  job_scheduled_at : Z;
  job_attempt_count : Z;
  job_last_attempt_at : option Z;
  job_state : JobState.t;
  job_lease_owner : option string;
  job_lease_issued_at : option Z;
  job_lease_expires_at : option Z;
  job_safe_result : option pyval;
  job_safe_error : string;
  job_last_outcome : option JobOutcomeKind.t;
  job_cooldown_until : option Z;
  job_blocked_at : option Z;
  job_blocked_reason : string;
  job_created_at : Z;
  job_updated_at : Z;
  job_completed_at : option Z }.
#[export] Instance eta_Job : Eta Job := fun r => MkJob
  (job_id r) (job_effective_policy r) (job_job_type r) (job_logical_target r) (job_payload
  r) (job_priority r) (job_idempotency_key r) (job_scheduled_at r) (job_attempt_count r)
  (job_last_attempt_at r) (job_state r) (job_lease_owner r) (job_lease_issued_at r)
  (job_lease_expires_at r) (job_safe_result r) (job_safe_error r) (job_last_outcome r)
  (job_cooldown_until r) (job_blocked_at r) (job_blocked_reason r) (job_created_at r)
  (job_updated_at r) (job_completed_at r).

(** companies/models.py *)
Record Company : Type := MkCompany {
  co_id : N;
  co_cnpj : string;
  co_legal_name : string;
  co_status : CompanyStatus.t;
  co_first_collection_at : option Z;
  co_deactivation_reason : option string;
  co_deactivated_at : option Z;
  co_version : Z;
  co_created_at : Z;
  co_updated_at : Z }.
#[export] Instance eta_Company : Eta Company := fun r => MkCompany
  (co_id r) (co_cnpj r) (co_legal_name r) (co_status r) (co_first_collection_at r)
  (co_deactivation_reason r) (co_deactivated_at r) (co_version r) (co_created_at r)
  (co_updated_at r).

(** companies/models.py: one collection flow of a company *)
Record CompanyFlow : Type := MkCompanyFlow {
  fl_id : N;
  fl_company : N;
  fl_family : FlowFamily.t;
  fl_state : FlowState.t;
  fl_collection_state : string;
  fl_last_attempt_at : option Z;
  fl_last_success_at : option Z;
  fl_next_scheduled_at : option Z;
  fl_cooldown_until : option Z;
  fl_blocked_reason : string;
  fl_safe_error : string;
  fl_progress_current : Z;
  fl_progress_total : Z;
  fl_active_execution : option N;
  fl_updated_at : Z }.
#[export] Instance eta_CompanyFlow : Eta CompanyFlow := fun r => MkCompanyFlow
  (fl_id r) (fl_company r) (fl_family r) (fl_state r) (fl_collection_state r)
  (fl_last_attempt_at r) (fl_last_success_at r) (fl_next_scheduled_at r) (fl_cooldown_until
  r) (fl_blocked_reason r) (fl_safe_error r) (fl_progress_current r) (fl_progress_total r)
  (fl_active_execution r) (fl_updated_at r).

(** companies/models.py: one check of the ADN coverage of a company *)
Record AdnCoverageSnapshot : Type := MkAdnCoverageSnapshot {
  ad_id : N;
  ad_company : N;
  ad_source : string;
  ad_status : AdnCoverageStatus.t;
  ad_verified_at : Z;
  ad_evidence_reference : string;
  ad_policy_version : string }.
#[export] Instance eta_AdnCoverageSnapshot : Eta AdnCoverageSnapshot := fun r => MkAdnCoverageSnapshot
  (ad_id r) (ad_company r) (ad_source r) (ad_status r) (ad_verified_at r) (ad_evidence_reference r)
  (ad_policy_version r).

(** companies/models.py: one answer of the public registry *)
Record EnrichmentSnapshot : Type := MkEnrichmentSnapshot {
  es_id : N;
  es_company : N;
  es_source : string;
  es_requested_cnpj : string;
  es_obtained_at : Z;
  es_status : EnrichmentStatus.t;
  es_public_non_authoritative : bool;
  es_payload : pyval;
  es_error_code : string }.
#[export] Instance eta_EnrichmentSnapshot : Eta EnrichmentSnapshot := fun r => MkEnrichmentSnapshot
  (es_id r) (es_company r) (es_source r) (es_requested_cnpj r) (es_obtained_at r) (es_status r)
  (es_public_non_authoritative r) (es_payload r) (es_error_code r).

(** certificates/models.py *)
Record Certificate : Type := MkCertificate {
  cert_id : N;
  cert_company : N;
  cert_artifact : option N;
  cert_encrypted_data_key : string;
  cert_data_key_nonce : string;
  cert_encrypted_password : string;
  cert_password_nonce : string;
  cert_fingerprint_sha256 : string;
  cert_certificate_cnpj : string;
  cert_not_before : Z;
  cert_not_after : Z;
  cert_state : CertificateState.t;
  cert_key_version : Z;
  cert_created_at : Z;
  cert_activated_at : option Z;
  cert_replaced_at : option Z;
  cert_updated_at : Z }.
#[export] Instance eta_Certificate : Eta Certificate := fun r => MkCertificate
  (cert_id r) (cert_company r) (cert_artifact r) (cert_encrypted_data_key r)
  (cert_data_key_nonce r) (cert_encrypted_password r) (cert_password_nonce r)
  (cert_fingerprint_sha256 r) (cert_certificate_cnpj r) (cert_not_before r) (cert_not_after
  r) (cert_state r) (cert_key_version r) (cert_created_at r) (cert_activated_at r)
  (cert_replaced_at r) (cert_updated_at r).

(** collection/models.py: the handoff from a valid certificate *)
Record InitialCollectionRequest : Type := MkInitialCollectionRequest {
  icr_id : N;
  icr_company : N;
  icr_certificate : N;
  icr_kind : string;
  icr_state : InitialCollectionRequestState.t;
  icr_idempotency_key : string;
  icr_created_at : Z;
  icr_processed_at : option Z;
  icr_safe_error : string }.
#[export] Instance eta_InitialCollectionRequest : Eta InitialCollectionRequest := fun r => MkInitialCollectionRequest
  (icr_id r) (icr_company r) (icr_certificate r) (icr_kind r) (icr_state r)
  (icr_idempotency_key r) (icr_created_at r) (icr_processed_at r) (icr_safe_error r).

(** collection/models.py: the operational record of one company/family collection *)
Record CollectionExecution : Type := MkCollectionExecution {
  ex_id : N;
  ex_company : N;
  ex_family : FlowFamily.t;
  ex_requested_scope : CollectionScope.t;
  ex_origin : CollectionOrigin.t;
  ex_requester : option string;
  ex_retry_of : option N;
  ex_job : option N;
  ex_effective_policy : option N;
  ex_state : CollectionExecutionState.t;
  ex_outcome : IngestionOutcome.t;
  ex_recovery : IngestionRecovery.t;
  ex_correlation_id : string;
  ex_safe_summary : pydict;
  ex_safe_error : string;
  ex_started_at : option Z;
  ex_finished_at : option Z;
  ex_created_at : Z;
  ex_updated_at : Z }.
#[export] Instance eta_CollectionExecution : Eta CollectionExecution := fun r => MkCollectionExecution
  (ex_id r) (ex_company r) (ex_family r) (ex_requested_scope r) (ex_origin r) (ex_requester
  r) (ex_retry_of r) (ex_job r) (ex_effective_policy r) (ex_state r) (ex_outcome r)
  (ex_recovery r) (ex_correlation_id r) (ex_safe_summary r) (ex_safe_error r) (ex_started_at
  r) (ex_finished_at r) (ex_created_at r) (ex_updated_at r).

(** collection/models.py: the durable continuation position of one scope *)
Record IngestionCheckpoint : Type := MkIngestionCheckpoint {
  cp_id : N;
  cp_company : N;
  cp_family : string;
  cp_flow : string;
  cp_cursor : string;
  cp_nsu : string;
  cp_last_page : option N;
  cp_created_at : Z;
  cp_updated_at : Z }.
#[export] Instance eta_IngestionCheckpoint : Eta IngestionCheckpoint := fun r => MkIngestionCheckpoint
  (cp_id r) (cp_company r) (cp_family r) (cp_flow r) (cp_cursor r) (cp_nsu r) (cp_last_page
  r) (cp_created_at r) (cp_updated_at r).

(** collection/models.py: one adapter response *)
Record IngestionPage : Type := MkIngestionPage {
  pg_id : N;
  pg_company : N;
  pg_execution : option N;
  pg_family : string;
  pg_flow : string;
  pg_page_key : string;
  pg_request_cursor : string;
  pg_request_nsu : string;
  pg_next_cursor : string;
  pg_next_nsu : string;
  pg_adapter_outcome : string;
  pg_coverage : string;
  pg_state : IngestionPageState.t;
  pg_outcome : IngestionOutcome.t;
  pg_recovery : IngestionRecovery.t;
  pg_safe_error : string;
  pg_unit_count : Z;
  pg_finalized_at : option Z;
  pg_created_at : Z;
  pg_updated_at : Z }.
#[export] Instance eta_IngestionPage : Eta IngestionPage := fun r => MkIngestionPage
  (pg_id r) (pg_company r) (pg_execution r) (pg_family r) (pg_flow r) (pg_page_key r)
  (pg_request_cursor r) (pg_request_nsu r) (pg_next_cursor r) (pg_next_nsu r)
  (pg_adapter_outcome r) (pg_coverage r) (pg_state r) (pg_outcome r) (pg_recovery r)
  (pg_safe_error r) (pg_unit_count r) (pg_finalized_at r) (pg_created_at r) (pg_updated_at
  r).

(** collection/models.py: a bounded unit reference *)
Record ReceivedUnit : Type := MkReceivedUnit {
  un_id : N;
  un_page : N;
  un_company : N;
  un_family : string;
  un_flow : string;
  un_identity : string;
  un_kind : string;
  un_parent_identity : string;
  un_content_hash : string;
  un_artifact : option N;
  un_document : option N;
  un_event : option N;
  un_state : ReceivedUnitState.t;
  un_outcome : IngestionOutcome.t;
  un_recovery : IngestionRecovery.t;
  un_safe_reason : string;
  un_attempts : Z;
  un_first_seen_at : Z;
  un_last_attempt_at : option Z;
  un_terminal_at : option Z;
  un_updated_at : Z }.
#[export] Instance eta_ReceivedUnit : Eta ReceivedUnit := fun r => MkReceivedUnit
  (un_id r) (un_page r) (un_company r) (un_family r) (un_flow r) (un_identity r) (un_kind r)
  (un_parent_identity r) (un_content_hash r) (un_artifact r) (un_document r) (un_event r)
  (un_state r) (un_outcome r) (un_recovery r) (un_safe_reason r) (un_attempts r)
  (un_first_seen_at r) (un_last_attempt_at r) (un_terminal_at r) (un_updated_at r).

(** artifacts/models.py: the relational reference to one object-store key *)
Record Artifact : Type := MkArtifact {
  art_id : N;
  art_logical_class : string;
  art_logical_key : string;
  art_object_key : string;
  art_digest_algorithm : string;
  art_digest : string;
  art_size_bytes : option Z;
  art_declared_mime_type : string;
  art_detected_mime_type : string;
  art_state : ArtifactState.t;
  art_version : Z;
  art_safe_error : string;
  art_created_at : Z;
  art_finalized_at : option Z;
  art_updated_at : Z }.
#[export] Instance eta_Artifact : Eta Artifact := fun r => MkArtifact
  (art_id r) (art_logical_class r) (art_logical_key r) (art_object_key r)
  (art_digest_algorithm r) (art_digest r) (art_size_bytes r) (art_declared_mime_type r)
  (art_detected_mime_type r) (art_state r) (art_version r) (art_safe_error r)
  (art_created_at r) (art_finalized_at r) (art_updated_at r).

(** documents/models.py: fiscal identity and metadata *)
Record Document : Type := MkDocument {
  doc_id : N;
  doc_company : N;
  doc_family : string;
  doc_role : string;
  doc_category : string;
  doc_source : string;
  doc_flow : string;
  doc_identity_kind : string;
  doc_normalized_identity : string;
  doc_identity_key : string;
  doc_emitted_at : Z;
  doc_authorized_at : option Z;
  doc_competence : Z;
  doc_situation : string;
  doc_state : DocumentState.t;
  doc_origin_execution_ref : string;
  doc_correlation_id : string;
  doc_created_at : Z;
  doc_updated_at : Z }.
#[export] Instance eta_Document : Eta Document := fun r => MkDocument
  (doc_id r) (doc_company r) (doc_family r) (doc_role r) (doc_category r) (doc_source r)
  (doc_flow r) (doc_identity_kind r) (doc_normalized_identity r) (doc_identity_key r)
  (doc_emitted_at r) (doc_authorized_at r) (doc_competence r) (doc_situation r) (doc_state
  r) (doc_origin_execution_ref r) (doc_correlation_id r) (doc_created_at r) (doc_updated_at
  r).

(** documents/models.py: an immutable reference to an original artifact *)
Record DocumentEvidence : Type := MkDocumentEvidence {
  ev_id : N;
  ev_document : N;
  ev_artifact : N;
  ev_digest : string;
  ev_size_bytes : Z;
  ev_conflicting : bool;
  ev_created_at : Z }.
#[export] Instance eta_DocumentEvidence : Eta DocumentEvidence := fun r => MkDocumentEvidence
  (ev_id r) (ev_document r) (ev_artifact r) (ev_digest r) (ev_size_bytes r) (ev_conflicting
  r) (ev_created_at r).

(** documents/models.py: an event or substitution attached to its parent *)
Record DocumentEvent : Type := MkDocumentEvent {
  de_id : N;
  de_parent_document : N;
  de_family : string;
  de_role : string;
  de_category : string;
  de_source : string;
  de_flow : string;
  de_identity_kind : string;
  de_normalized_identity : string;
  de_identity_key : string;
  de_occurred_at : Z;
  de_situation : string;
  de_relationship_type : string;
  de_state : DocumentState.t;
  de_origin_execution_ref : string;
  de_correlation_id : string;
  de_created_at : Z }.
#[export] Instance eta_DocumentEvent : Eta DocumentEvent := fun r => MkDocumentEvent
  (de_id r) (de_parent_document r) (de_family r) (de_role r) (de_category r) (de_source r)
  (de_flow r) (de_identity_kind r) (de_normalized_identity r) (de_identity_key r)
  (de_occurred_at r) (de_situation r) (de_relationship_type r) (de_state r)
  (de_origin_execution_ref r) (de_correlation_id r) (de_created_at r).

(** documents/models.py *)
Record DocumentEventEvidence : Type := MkDocumentEventEvidence {
  dee_id : N;
  dee_event : N;
  dee_artifact : N;
  dee_digest : string;
  dee_size_bytes : Z;
  dee_conflicting : bool;
  dee_created_at : Z }.
#[export] Instance eta_DocumentEventEvidence : Eta DocumentEventEvidence := fun r => MkDocumentEventEvidence
  (dee_id r) (dee_event r) (dee_artifact r) (dee_digest r) (dee_size_bytes r)
  (dee_conflicting r) (dee_created_at r).

(** documents/models.py: the durable result of one manifestation *)
Record NFeManifestation : Type := MkNFeManifestation {
  mf_id : N;
  mf_company : N;
  mf_document : option N;
  mf_target_document_id : N;
  mf_flow : string;
  mf_manifestation_type : string;
  mf_source : string;
  mf_policy_reference : string;
  mf_certificate_reference : string;
  mf_correlation_id : string;
  mf_idempotency_reference : string;
  mf_idempotency_key : string;
  mf_state : NFeManifestationState.t;
  mf_outcome : string;
  mf_result_code : string;
  mf_safe_result : pydict;
  mf_submitted_at : option Z;
  mf_job : option N;
  mf_requested_at : Z;
  mf_completed_at : option Z;
  mf_updated_at : Z }.
#[export] Instance eta_NFeManifestation : Eta NFeManifestation := fun r => MkNFeManifestation
  (mf_id r) (mf_company r) (mf_document r) (mf_target_document_id r) (mf_flow r)
  (mf_manifestation_type r) (mf_source r) (mf_policy_reference r) (mf_certificate_reference
  r) (mf_correlation_id r) (mf_idempotency_reference r) (mf_idempotency_key r) (mf_state r)
  (mf_outcome r) (mf_result_code r) (mf_safe_result r) (mf_submitted_at r) (mf_job r)
  (mf_requested_at r) (mf_completed_at r) (mf_updated_at r).

(** audit/models.py: the head of the single audit stream *)
Record AuditChain : Type := MkAuditChain {
  ac_last_sequence : Z;
  ac_last_hash : string;
  ac_updated_at : Z }.
#[export] Instance eta_AuditChain : Eta AuditChain := fun r => MkAuditChain
  (ac_last_sequence r) (ac_last_hash r) (ac_updated_at r).

(** audit/models.py *)
Record AuditEvent : Type := MkAuditEvent {
  ae_id : N;
  ae_sequence : Z;
  ae_occurred_at : Z;
  ae_actor_id : option N;
  ae_actor_role : string;
  ae_ip_address : option string;
  ae_action : string;
  ae_entity_type : string;
  ae_entity_id : string;
  ae_result : string;
  ae_reason : string;
  ae_correlation_id : string;
  ae_context : pyval;
  ae_previous_hash : string;
  ae_event_hash : string }.
#[export] Instance eta_AuditEvent : Eta AuditEvent := fun r => MkAuditEvent
  (ae_id r) (ae_sequence r) (ae_occurred_at r) (ae_actor_id r) (ae_actor_role r)
  (ae_ip_address r) (ae_action r) (ae_entity_type r) (ae_entity_id r) (ae_result r)
  (ae_reason r) (ae_correlation_id r) (ae_context r) (ae_previous_hash r) (ae_event_hash r).

(** identity/models.py *)
Record User : Type := MkUser {
  us_id : N;
  us_email : string;
  us_name : string;
  us_role : Role.t;
  us_password_hash : string;
  us_active : bool;
  us_revocation_version : Z;
  us_version : Z;
  us_created_at : Z;
  us_updated_at : Z }.
#[export] Instance eta_User : Eta User := fun r => MkUser
  (us_id r) (us_email r) (us_name r) (us_role r) (us_password_hash r) (us_active r)
  (us_revocation_version r) (us_version r) (us_created_at r) (us_updated_at r).

(** identity/models.py *)
Record IdentitySession : Type := MkIdentitySession {
  se_id : N;
  se_token_hash : string;
  se_user : N;
  se_revocation_version : Z;
  se_created_at : Z;
  se_last_activity_at : Z;
  se_expires_at : Z;
  se_revoked_at : option Z;
  se_ip_address : option string;
  se_user_agent_hash : string }.
#[export] Instance eta_IdentitySession : Eta IdentitySession := fun r => MkIdentitySession
  (se_id r) (se_token_hash r) (se_user r) (se_revocation_version r) (se_created_at r)
  (se_last_activity_at r) (se_expires_at r) (se_revoked_at r) (se_ip_address r)
  (se_user_agent_hash r).

(** identity/models.py: failed logins of one subject, keyed by its digest *)
Record LoginThrottle : Type := MkLoginThrottle {
  th_subject_hash : string;
  th_failures : Z;
  th_next_allowed_at : Z;
  th_updated_at : Z }.
#[export] Instance eta_LoginThrottle : Eta LoginThrottle := fun r => MkLoginThrottle
  (th_subject_hash r) (th_failures r) (th_next_allowed_at r) (th_updated_at r).

(** documents/models.py: a derived PDF *)
Record DocumentRender : Type := MkDocumentRender {
  rn_id : N;
  rn_document : N;
  rn_source_artifact : N;
  rn_artifact : option N;
  rn_pdf_type : string;
  rn_representation : string;
  rn_renderer_id : string;
  rn_renderer_version : string;
  rn_source_digest : string;
  rn_digest : string;
  rn_size_bytes : option Z;
  rn_mime_type : string;
  rn_state : DocumentRenderState.t;
  rn_safe_error : string;
  rn_safe_result : pydict;
  rn_correlation_id : string;
  rn_job : option N;
  rn_created_at : Z;
  rn_updated_at : Z;
  rn_finalized_at : option Z }.
#[export] Instance eta_DocumentRender : Eta DocumentRender := fun r => MkDocumentRender
  (rn_id r) (rn_document r) (rn_source_artifact r) (rn_artifact r) (rn_pdf_type r)
  (rn_representation r) (rn_renderer_id r) (rn_renderer_version r) (rn_source_digest r)
  (rn_digest r) (rn_size_bytes r) (rn_mime_type r) (rn_state r) (rn_safe_error r)
  (rn_safe_result r) (rn_correlation_id r) (rn_job r) (rn_created_at r) (rn_updated_at r)
  (rn_finalized_at r).

(** exports/models.py: a frozen, temporary export request *)
Record Export : Type := MkExport {
  xp_id : N;
  xp_requester : N;
  xp_filter_snapshot : pydict;
  xp_selection_snapshot : pydict;
  xp_expected_count : Z;
  xp_produced_count : Z;
  xp_expected_bytes : Z;
  xp_produced_bytes : Z;
  xp_state : ExportState.t;
  xp_safe_result : pydict;
  xp_safe_error : string;
  xp_idempotency_key : string;
  xp_expires_at : Z;
  xp_job : option N;
  xp_zip_artifact : option N;
  xp_created_at : Z;
  xp_updated_at : Z;
  xp_completed_at : option Z }.
#[export] Instance eta_Export : Eta Export := fun r => MkExport
  (xp_id r) (xp_requester r) (xp_filter_snapshot r) (xp_selection_snapshot r)
  (xp_expected_count r) (xp_produced_count r) (xp_expected_bytes r)
  (xp_produced_bytes r) (xp_state r) (xp_safe_result r) (xp_safe_error r)
  (xp_idempotency_key r) (xp_expires_at r) (xp_job r) (xp_zip_artifact r)
  (xp_created_at r) (xp_updated_at r) (xp_completed_at r).

(** exports/models.py: one frozen reference of an export *)
Record ExportItem : Type := MkExportItem {
  xi_id : N;
  xi_export : N;
  xi_document : option N;
  xi_artifact : option N;
  xi_digest : string;
  xi_size_bytes : Z;
  xi_content_type : string;
  xi_sequence : Z;
  xi_state : ExportItemState.t;
  xi_archive_path : string;
  xi_safe_error : string;
  xi_created_at : Z;
  xi_updated_at : Z }.
#[export] Instance eta_ExportItem : Eta ExportItem := fun r => MkExportItem
  (xi_id r) (xi_export r) (xi_document r) (xi_artifact r) (xi_digest r) (xi_size_bytes r)
  (xi_content_type r) (xi_sequence r) (xi_state r) (xi_archive_path r) (xi_safe_error r)
  (xi_created_at r) (xi_updated_at r).

(** retention/models.py: the intent and checkpoint of one document's deletion *)
Record DeletionOperation : Type := MkDeletionOperation {
  op_id : N;
  op_target_document_id : N;
  op_actor : option N;
  op_job : option N;
  op_scope_hash : string;
  op_scope_version : string;
  op_reason : string;
  op_correlation_id : string;
  op_state : DeletionOperationState.t;
  op_current_step : string;
  op_checkpoint : pydict;
  op_safe_error : string;
  op_result_code : string;
  op_requested_at : Z;
  op_started_at : option Z;
  op_completed_at : option Z;
  op_updated_at : Z }.
#[export] Instance eta_DeletionOperation : Eta DeletionOperation := fun r => MkDeletionOperation
  (op_id r) (op_target_document_id r) (op_actor r) (op_job r) (op_scope_hash r)
  (op_scope_version r) (op_reason r) (op_correlation_id r) (op_state r) (op_current_step r)
  (op_checkpoint r) (op_safe_error r) (op_result_code r) (op_requested_at r)
  (op_started_at r) (op_completed_at r) (op_updated_at r).

(** retention/models.py: one item of an operation's deletion set *)
Record DeletionItem : Type := MkDeletionItem {
  di_id : N;
  di_operation : N;
  di_kind : DeletionItemKind.t;
  di_target_id : N;
  di_artifact_id : option N;
  di_digest_prefix : string;
  di_expected_size_bytes : option Z;
  di_expected_version : option Z;
  di_state : DeletionItemState.t;
  di_attempts : Z;
  di_safe_error : string;
  di_created_at : Z;
  di_updated_at : Z;
  di_completed_at : option Z }.
#[export] Instance eta_DeletionItem : Eta DeletionItem := fun r => MkDeletionItem
  (di_id r) (di_operation r) (di_kind r) (di_target_id r) (di_artifact_id r)
  (di_digest_prefix r) (di_expected_size_bytes r) (di_expected_version r) (di_state r)
  (di_attempts r) (di_safe_error r) (di_created_at r) (di_updated_at r) (di_completed_at r).

(** ** Exceptions

    The classes the sources raise or catch, with the message where the code
    reads it; [StoreFailure] stands for any exception of boto3. *)

Inductive exn : Type :=
| IntegrityError | DataError | OperationalError | TransactionManagementError | DoesNotExist | MultipleObjectsReturned
| ValidationError
| ValueError (msg : string) | TypeError | KeyError (key : string) | AssertionError | ArithmeticError
| AuditUnavailable | MissingAuditReason
| JobEngineError (msg : string) | InvalidJobPayload (msg : string)
| InvalidTransition (msg : string) | LeaseLost
| InvalidPolicy (msg : string) | PolicyNotFound | AmbiguousPolicy
| ArtifactError (msg : string) | ArtifactNotReadable | ArtifactTooLarge | ArtifactConflict (msg : string)
| ArtifactDeletionMissing | ArtifactDeletionDivergent | ArtifactDeletionFailed
| StoreFailure
| InvalidDocumentInput (msg : string)
| IngestionError (msg : string) | IngestionPositionError (msg : string)
| CollectionError (code msg : string) | CollectionExecutionQueryError (msg : string)
| CompanyError (msg : string) | InvalidCnpj | DuplicateCompanyCnpj | CompanyVersionConflict | CompanyCnpjImmutable
| CompanyNotFound | CompanyInactive | InvalidCompanyFlow | CompanyListQueryError (msg : string)
| CertificateError (msg : string) | CertificateNotFound | CertificateAccessDenied | CertificateTooLarge
| CertificateUnreadable | CertificateWrongPassword | CertificateExpired | CertificateCnpjMismatch
| CertificateAlreadyAssigned | CertificateStorageFailure | CertificateInventoryQueryError (msg : string)
| ScenarioValidationError (msg : string) | ScenarioExecutionError (msg : string)
| NFeDistributionError (msg : string) | NFeFollowUpError (msg : string) | AdnDistributionError (msg : string)
| UserAdministrationError (msg : string) | UserVersionConflict | DuplicateUserEmail | LastAdministrator
| RuntimeError (msg : string)
| InvalidRetentionParams (msg : string)
| ProtectedError | DeletionError (code msg : string) | DeletionNotEligible (code : string)
| RenderAccessDenied | RenderUnsupported (msg : string) | RenderUnavailable (msg : string) | RenderTemporaryFailure (msg : string)
| InvalidDocumentListParams (msg : string) | BackupError (code : string) | OSError
| InvalidConsultationParams (msg : string) | ExportError (msg : string) | ExportAccessDenied | ExportTemporaryFailure (code : string).

(** [isinstance(exc, ArtifactError)] *)
Definition is_ArtifactError (e : exn) : bool :=
  match e with
  | ArtifactError _ | ArtifactNotReadable | ArtifactTooLarge | ArtifactConflict _
  | ArtifactDeletionMissing | ArtifactDeletionDivergent | ArtifactDeletionFailed => true
  | _ => false
  end.

(** [isinstance(exc, CertificateError)] *)
Definition is_CertificateError (e : exn) : bool :=
  match e with
  | CertificateError _ | CertificateNotFound | CertificateAccessDenied | CertificateTooLarge
  | CertificateUnreadable | CertificateWrongPassword | CertificateExpired | CertificateCnpjMismatch
  | CertificateAlreadyAssigned | CertificateStorageFailure => true
  | _ => false
  end.

(** ** The database *)

Record DB : Type := MkDB {
  policies : gmap N JobPolicy;
  jobs : gmap N Job;
  companies : gmap N Company;
  flows : gmap N CompanyFlow;
  adn_coverage : gmap N AdnCoverageSnapshot;
  enrichment : gmap N EnrichmentSnapshot;
  certificates : gmap N Certificate;
  initial_requests : gmap N InitialCollectionRequest;
  executions : gmap N CollectionExecution;
  checkpoints : gmap N IngestionCheckpoint;
  pages : gmap N IngestionPage;
  units : gmap N ReceivedUnit;
  artifacts : gmap N Artifact;
  documents : gmap N Document;
  evidence : gmap N DocumentEvidence;
  events : gmap N DocumentEvent;
  event_evidence : gmap N DocumentEventEvidence;
  manifestations : gmap N NFeManifestation;
  renders : gmap N DocumentRender;
  exports : gmap N Export;
  export_items : gmap N ExportItem;
  users : gmap N User;
  sessions : gmap N IdentitySession;
  throttles : gmap string LoginThrottle;
  deletions : gmap N DeletionOperation;
  deletion_items : gmap N DeletionItem;
  audit_chain : option AuditChain;
  audit_events : list AuditEvent }.

#[export] Instance eta_DB : Eta DB := fun d => MkDB
  (policies d) (jobs d) (companies d) (flows d) (adn_coverage d) (enrichment d) (certificates d) (initial_requests d)
  (executions d) (checkpoints d) (pages d) (units d) (artifacts d) (documents d)
  (evidence d) (events d) (event_evidence d) (manifestations d)
  (renders d) (exports d) (export_items d) (users d) (sessions d) (throttles d) (deletions d) (deletion_items d) (audit_chain d) (audit_events d).

Definition empty_db : DB :=
  MkDB ∅ ∅ ∅ ∅ ∅ ∅ ∅ ∅ ∅ ∅ ∅ ∅ ∅ ∅ ∅ ∅ ∅ ∅ ∅ ∅ ∅ ∅ ∅ ∅ ∅ ∅ None [].

(** ** Third-party code: the boto3 client and the time-zone database

    [B] is whatever the bucket holds.  A reply is the value, the provider's
    404, or an exception; a write returns the new bucket, or [None] when it
    raises. *)

Inductive s3_reply (A : Type) : Type :=
| Found (a : A)
| NotFound
| Unreachable.
Arguments Found {A} a.
Arguments NotFound {A}.
Arguments Unreachable {A}.

(** What [head_object] reports: ContentLength, Metadata["sha256"], ContentType. *)
Record s3_head_info : Type := MkHead {
  head_length : Z; head_sha256 : option string; head_content_type : option string }.

Class External (B : Type) : Type := {
  upload_fileobj : string -> string -> string -> string -> B -> option B;
  head_object : string -> B -> s3_reply s3_head_info;
  get_object : string -> B -> s3_reply string;
  list_objects : string -> B -> option (list string);
  delete_object : string -> B -> option B;
  (** offset of America/Sao_Paulo at an instant, in microseconds *)
  local_offset : Z -> Z }.

(** The documented contract of the object store the theorems rely on: a
    successful upload is readable under its key, unchanged, with its metadata,
    and touches no other key; likewise a deletion. *)
Class ExternalLaws (B : Type) `{External B} : Prop := {
  head_uploaded : forall k body ct sha b b',
    upload_fileobj k body ct sha b = Some b' ->
    head_object k b' = Found (MkHead (slen body) (Some sha) (Some ct));
  get_uploaded : forall k body ct sha b b',
    upload_fileobj k body ct sha b = Some b' -> get_object k b' = Found body;
  head_other : forall k k' body ct sha b b',
    upload_fileobj k body ct sha b = Some b' -> k <> k' -> head_object k' b' = head_object k' b;
  get_other : forall k k' body ct sha b b',
    upload_fileobj k body ct sha b = Some b' -> k <> k' -> get_object k' b' = get_object k' b;
  head_deleted : forall k b b', delete_object k b = Some b' -> head_object k b' = NotFound;
  head_deleted_other : forall k k' b b',
    delete_object k b = Some b' -> k <> k' -> head_object k' b' = head_object k' b;
  get_deleted_other : forall k k' b b',
    delete_object k b = Some b' -> k <> k' -> get_object k' b' = get_object k' b }.

(** ** The world

    [clock] is what [timezone.now()] returns; it moves between operations and
    during a handler, not within one database operation.  [next_uuid] is the
    value [uuid4()] returns next: the generator never repeats itself.
    [online] says whether PostgreSQL can be reached.  [columns] is what its
    columns of a type of their own give back for the value written to them, [None]
    when they refuse it: [inet] normalises addresses (an IPv6 address is lowered
    and compressed), [jsonb] numbers and refuses some texts. *)

Record Columns : Type := MkColumns { inet : string -> option string; jsonb : pyval -> option pyval }.

(** Columns that keep whatever is written. *)
Definition verbatim : Columns := MkColumns Some Some.

Record World (B : Type) : Type := MkWorld {
  db : DB;
  clock : Z;
  next_uuid : N;
  online : bool;
  columns : Columns;
  bucket : B }.
Arguments MkWorld {B}.
Arguments db {B}.
Arguments clock {B}.
Arguments next_uuid {B}.
Arguments online {B}.
Arguments columns {B}.
Arguments bucket {B}.

#[export] Instance eta_World {B} : Eta (World B) := fun w =>
  MkWorld (db w) (clock w) (next_uuid w) (online w) (columns w) (bucket w).

(** A Python function of the services. *)
Definition M (B A : Type) : Type := ST (World B) exn A.

Section world.
Context {B : Type}.

Definition timezone_now : M B Z := gets clock.

Definition uuid4 : M B N := fun w => (Ok (next_uuid w), w <| next_uuid ::= N.succ |>).

(** A query, and a write, of the database. *)
Definition query {A} (f : DB -> A) : M B A := gets (fun w => f (db w)).
Definition write (f : DB -> DB) : M B unit := modify (fun w => w <| db ::= f |>).

(** [with transaction.atomic()]: an exception restores the database (and only
    the database); without a connection the block is not entered. *)
Definition atomic {A} (m : M B A) : M B A := fun w =>
  if online w then
    match m w with
    | (Ok a, w') => (Ok a, w')
    | (Err e, w') => (Err e, w' <| db := db w |>)
    end
  else (Err OperationalError, w).

(** One statement outside a block: its own transaction. *)
Definition autocommit {A} (m : M B A) : M B A := atomic m.

Lemma preserves_atomic {A} (I : World B -> Prop) (m : M B A) :
  (forall w w', I w -> I w' -> I (w' <| db := db w |>)) -> preserves I m -> preserves I (atomic m).
Proof.
  intros Hroll Hm w Hw. unfold atomic. destruct (online w); [|done].
  specialize (Hm w Hw). destruct (m w) as [[a|e] w']; [done|]. by apply Hroll.
Qed.

(** An invariant of the database alone. *)
Definition on_db (I : DB -> Prop) (w : World B) : Prop := I (db w).

Lemma on_db_atomic {A} (I : DB -> Prop) (m : M B A) :
  preserves (on_db I) m -> preserves (on_db I) (atomic m).
Proof. intros Hm. apply preserves_atomic; [|done]. by intros w w' Hw _. Qed.

Lemma on_db_query {A} (I : DB -> Prop) (f : DB -> A) : preserves (on_db I) (query f).
Proof. by intros w Hw. Qed.

Lemma on_db_now (I : DB -> Prop) : preserves (on_db I) timezone_now.
Proof. by intros w Hw. Qed.

Lemma on_db_uuid4 (I : DB -> Prop) : preserves (on_db I) uuid4.
Proof. by intros w Hw. Qed.

Lemma on_db_write (I : DB -> Prop) (f : DB -> DB) :
  (forall d, I d -> I (f d)) -> preserves (on_db I) (write f).
Proof. intros H w Hw. apply H, Hw. Qed.

Lemma atomic_offline {A} (m : M B A) w : online w = false -> atomic m w = (Err OperationalError, w).
Proof. intros Ho. unfold atomic. by rewrite Ho. Qed.

Lemma atomic_ok {A} (m : M B A) w a w' :
  online w = true -> m w = (Ok a, w') -> atomic m w = (Ok a, w').
Proof. intros Ho Hm. unfold atomic. by rewrite Ho, Hm. Qed.

Lemma atomic_err {A} (m : M B A) w e w' :
  online w = true -> m w = (Err e, w') -> atomic m w = (Err e, w' <| db := db w |>).
Proof. intros Ho Hm. unfold atomic. by rewrite Ho, Hm. Qed.

(** An invariant of the database and of what [uuid4] has handed out survives
    a rollback when later identifiers keep it. *)
Definition uuid_from (n : N) (w : World B) : Prop := (n <= next_uuid w)%N.

Definition rollback_stable (I : World B -> Prop) : Prop :=
  forall w w', I w -> (next_uuid w <= next_uuid w')%N -> I (w' <| db := db w |>).

Lemma preserves_atomic_uuid {A} (I : World B -> Prop) (m : M B A) :
  rollback_stable I -> (forall n, preserves (uuid_from n) m) -> preserves I m -> preserves I (atomic m).
Proof.
  intros Hst Hu Hm w Hw. unfold atomic. destruct (online w); [|done].
  specialize (Hm w Hw). specialize (Hu (next_uuid w) w (N.le_refl _)).
  destruct (m w) as [[a|e] w']; [done|]. by apply Hst.
Qed.

Lemma uuid_from_atomic {A} n (m : M B A) : preserves (uuid_from n) m -> preserves (uuid_from n) (atomic m).
Proof. apply preserves_atomic. by intros w w' _ Hw'. Qed.

Lemma uuid_from_query {A} n (f : DB -> A) : preserves (uuid_from n) (query f).
Proof. by intros w Hw. Qed.

Lemma uuid_from_write n (f : DB -> DB) : preserves (uuid_from n) (write f).
Proof. by intros w Hw. Qed.

Lemma uuid_from_now n : preserves (uuid_from n) timezone_now.
Proof. by intros w Hw. Qed.

Lemma uuid_from_uuid4 n : preserves (uuid_from n) uuid4.
Proof. intros w Hw. unfold uuid_from in *. cbn. lia. Qed.

(** A transaction that raises leaves the database as it was. *)
Lemma atomic_rollback {A} (m : M B A) w e w' : atomic m w = (Err e, w') -> db w' = db w.
Proof.
  unfold atomic. destruct (online w); [|by intros [= _ <-]].
  destruct (m w) as [[a|e'] w1]; intros [= _ <-]. done.
Qed.

Lemma query_inv {A} (f : DB -> A) w a w' : query f w = (Ok a, w') -> a = f (db w) /\ w' = w.
Proof. by intros [= <- <-]. Qed.

Lemma write_inv (f : DB -> DB) w u w' : write f w = (Ok u, w') -> w' = w <| db ::= f |>.
Proof. by intros [= _ <-]. Qed.

Lemma now_inv w t w' : timezone_now w = (Ok t, w') -> t = clock w /\ w' = w.
Proof. by intros [= <- <-]. Qed.

Lemma uuid4_inv w u w' : uuid4 w = (Ok u, w') -> u = next_uuid w /\ w' = w <| next_uuid ::= N.succ |>.
Proof. by intros [= <- <-]. Qed.

Lemma atomic_inv {A} (m : M B A) w a w' : atomic m w = (Ok a, w') -> online w = true /\ m w = (Ok a, w').
Proof. unfold atomic. destruct (online w); [|done]. by destruct (m w) as [[b|e] w1]; intros [= <- <-]. Qed.

(** An operation that changes no table, and one that changes none when it
    raises. *)
Definition readonly {A} (m : M B A) : Prop := forall w, db (m w).2 = db w.
Definition all_or_nothing {A} (m : M B A) : Prop := forall w e w', m w = (Err e, w') -> db w' = db w.

Lemma readonly_ret {A} (a : A) : readonly (ret a).
Proof. done. Qed.
Lemma readonly_throw {A} (e : exn) : readonly (throw (A:=A) e).
Proof. done. Qed.
Lemma readonly_query {A} (f : DB -> A) : readonly (query f).
Proof. done. Qed.
Lemma readonly_now : readonly timezone_now.
Proof. done. Qed.
Lemma readonly_uuid4 : readonly uuid4.
Proof. done. Qed.
Lemma readonly_require b e : readonly (require b e).
Proof. by destruct b. Qed.
Lemma readonly_of_option {A} (o : option A) e : readonly (of_option o e).
Proof. by destruct o. Qed.
Lemma readonly_lift {A} (r : result exn A) : readonly (lift_result r).
Proof. by destruct r. Qed.
Lemma readonly_bind {A C} (m : M B A) (k : A -> M B C) :
  readonly m -> (forall a, readonly (k a)) -> readonly (bind m k).
Proof.
  intros Hm Hk w. unfold bind. specialize (Hm w). destruct (m w) as [[a|e] w1]; cbn in *; [by rewrite Hk | done].
Qed.
Lemma readonly_atomic {A} (m : M B A) : readonly m -> readonly (atomic m).
Proof.
  intros Hm w. unfold atomic. destruct (online w); [|done]. specialize (Hm w). by destruct (m w) as [[a|e] w1].
Qed.

Lemma aon_readonly {A} (m : M B A) : readonly m -> all_or_nothing m.
Proof. intros Hm w e w' H. specialize (Hm w). by rewrite H in Hm. Qed.
Lemma aon_atomic {A} (m : M B A) : all_or_nothing (atomic m).
Proof. intros w e w'. apply atomic_rollback. Qed.
Lemma aon_bind {A C} (m : M B A) (k : A -> M B C) :
  readonly m -> (forall a, all_or_nothing (k a)) -> all_or_nothing (bind m k).
Proof.
  intros Hm Hk w e w'. unfold bind. specialize (Hm w). destruct (m w) as [[a|x] w1]; cbn in *.
  - intros H. by rewrite (Hk _ _ _ _ H).
  - by intros [= _ <-].
Qed.
Lemma aon_then {A C} (m : M B A) (k : A -> C) : all_or_nothing m -> all_or_nothing (bind m (fun a => ret (k a))).
Proof.
  intros Hm w e w'. unfold bind. destruct (m w) as [[a|x] w1] eqn:He; [done|].
  intros [= _ <-]. by eapply Hm.
Qed.
Lemma aon_try {A} (m : M B A) (h : exn -> M B A) :
  all_or_nothing m -> (forall e, all_or_nothing (h e)) -> all_or_nothing (try_except m h).
Proof.
  intros Hm Hh w e w'. unfold try_except. destruct (m w) as [[a|x] w1] eqn:He; [done|].
  intros H. rewrite (Hh _ _ _ _ H). by eapply Hm.
Qed.

(** ** Frames: how an operation may move the world

    [moves R m]: every run of [m], returning or raising, relates the world
    before to the world after by the preorder [R]. *)

Definition moves {A} (R : relation (World B)) (m : M B A) : Prop := forall w, R w (m w).2.

Section moves.
Context (R : relation (World B)) `{!PreOrder R}.

Lemma moves_pure {A} (m : M B A) : (forall w, (m w).2 = w) -> moves R m.
Proof using Type*. intros Hm w. rewrite Hm. reflexivity. Qed.

Lemma moves_bind {A C} (m : M B A) (k : A -> M B C) : moves R m -> (forall a, moves R (k a)) -> moves R (bind m k).
Proof using Type*.
  intros Hm Hk w. unfold bind. specialize (Hm w). destruct (m w) as [[a|e] w1]; cbn in *; [|done].
  etrans; [exact Hm | apply Hk].
Qed.

Lemma moves_try {A} (m : M B A) (h : exn -> M B A) :
  moves R m -> (forall e, moves R (h e)) -> moves R (try_except m h).
Proof using Type*.
  intros Hm Hh w. unfold try_except. specialize (Hm w). destruct (m w) as [[a|e] w1]; cbn in *; [done|].
  etrans; [exact Hm | apply Hh].
Qed.

Lemma moves_atomic {A} (m : M B A) :
  (forall w w', R w w' -> R w (w' <| db := db w |>)) -> moves R m -> moves R (atomic m).
Proof using Type*.
  intros Hr Hm w. unfold atomic. destruct (online w); [|reflexivity].
  specialize (Hm w). destruct (m w) as [[a|e] w1]; [done | by apply Hr].
Qed.

Lemma moves_fold_each {A C} (xs : list A) (f : C -> A -> M B C) acc :
  (forall c x, moves R (f c x)) -> moves R (fold_each xs f acc).
Proof using Type*.
  intros Hf. revert acc. induction xs as [|x xs IH]; intros acc; cbn; [by apply moves_pure|].
  apply moves_bind; [apply Hf | intros; apply IH].
Qed.

Lemma moves_for_each {A C} (xs : list A) (f : A -> M B C) : (forall x, moves R (f x)) -> moves R (for_each xs f).
Proof using Type*.
  intros Hf. induction xs as [|x xs IH]; cbn; [by apply moves_pure|].
  apply moves_bind; [apply Hf|]. intros b. apply moves_bind; [apply IH|]. intros. by apply moves_pure.
Qed.

Lemma moves_run {A} (m : M B A) w r w' : moves R m -> m w = (r, w') -> R w w'.
Proof using Type. intros Hm Hr. specialize (Hm w). by rewrite Hr in Hm. Qed.

End moves.

(** Time, connection and bucket stay; identifiers are only consumed. *)
Definition env_grows (w w' : World B) : Prop :=
  clock w' = clock w /\ online w' = online w /\ bucket w' = bucket w /\ (next_uuid w <= next_uuid w')%N.

#[export] Instance env_grows_preorder : PreOrder env_grows.
Proof.
  split.
  - intros w. repeat split. lia.
  - intros a b c (H1 & H2 & H3 & H4) (G1 & G2 & G3 & G4). repeat split; try congruence. lia.
Qed.

Lemma env_grows_rollback w w' : env_grows w w' -> env_grows w (w' <| db := db w |>).
Proof. done. Qed.

Lemma env_atomic {A} (m : M B A) : moves env_grows m -> moves env_grows (atomic m).
Proof. apply moves_atomic; [apply _ | exact env_grows_rollback]. Qed.

Lemma env_write (f : DB -> DB) : moves env_grows (write f).
Proof. intros w. repeat split. cbn. lia. Qed.

Lemma env_uuid4 : moves env_grows uuid4.
Proof. intros w. repeat split. cbn. lia. Qed.

(** A frame survives the rollback of a transaction. *)
Class RollsBack (R : relation (World B)) : Prop :=
  rolls_back : forall w w', R w w' -> R w (w' <| db := db w |>).

Lemma moves_transaction {A} (R : relation (World B)) `{!PreOrder R, !RollsBack R} (m : M B A) :
  moves R m -> moves R (atomic m).
Proof. apply moves_atomic; [apply _ | exact rolls_back]. Qed.

(** What an operation leaves alone: [f] of the database, the clock, the
    connection; identifiers are only consumed. *)
Definition keeps {T} (f : DB -> T) (w w' : World B) : Prop :=
  f (db w') = f (db w) /\ clock w' = clock w /\ online w' = online w /\ (next_uuid w <= next_uuid w')%N.

#[export] Instance keeps_preorder {T} (f : DB -> T) : PreOrder (keeps f).
Proof.
  split.
  - intros w. repeat split. lia.
  - intros a b c (H1 & H2 & H3 & H4) (G1 & G2 & G3 & G4). repeat split; try congruence. lia.
Qed.

#[export] Instance keeps_rolls_back {T} (f : DB -> T) : RollsBack (keeps f).
Proof. by intros w w' (H1 & H2 & H3 & H4). Qed.

Lemma keeps_write {T} (f : DB -> T) (g : DB -> DB) : (forall d, f (g d) = f d) -> moves (keeps f) (write g).
Proof. intros H w. split; [apply H|]. repeat split. cbn. lia. Qed.

Lemma keeps_uuid4 {T} (f : DB -> T) : moves (keeps f) uuid4.
Proof. intros w. repeat split. cbn. lia. Qed.

(** The rules at one world, where what was read is still known. *)
Lemma moved_query {A C} (R : relation (World B)) (f : DB -> A) (k : A -> M B C) w :
  R w (k (f (db w)) w).2 -> R w (bind (query f) k w).2.
Proof. done. Qed.

Lemma moved_autoquery {A C} (R : relation (World B)) (f : DB -> A) (k : A -> M B C) w0 w :
  R w0 w -> R w0 (k (f (db w)) w).2 -> R w0 (bind (autocommit (query f)) k w).2.
Proof. intros Hw Hk. unfold bind, autocommit, atomic. by destruct (online w). Qed.

Lemma moved_ret {A C} (R : relation (World B)) (a : A) (k : A -> M B C) w0 w :
  R w0 (k a w).2 -> R w0 (bind (ret a) k w).2.
Proof. done. Qed.

Lemma moved_now {C} (R : relation (World B)) (k : Z -> M B C) w0 w :
  R w0 (k (clock w) w).2 -> R w0 (bind timezone_now k w).2.
Proof. done. Qed.

Lemma moved_require {C} (R : relation (World B)) b e (k : unit -> M B C) w0 w :
  R w0 w -> (b = true -> R w0 (k tt w).2) -> R w0 (bind (require b e) k w).2.
Proof. intros Hw Hk. destruct b; [by apply Hk | exact Hw]. Qed.

Lemma moved_lift {A C} (R : relation (World B)) (r : result exn A) (k : A -> M B C) w0 w :
  R w0 w -> (forall a, r = Ok a -> R w0 (k a w).2) -> R w0 (bind (lift_result r) k w).2.
Proof. intros Hw Hk. destruct r; [by apply Hk | exact Hw]. Qed.

Lemma moved_option {A C} (R : relation (World B)) (o : option A) e (k : A -> M B C) w0 w :
  R w0 w -> (forall a, o = Some a -> R w0 (k a w).2) -> R w0 (bind (of_option o e) k w).2.
Proof. intros Hw Hk. destruct o; [by apply Hk | exact Hw]. Qed.

Lemma moved_ok {A C} (R : relation (World B)) (m : M B A) (k : A -> M B C) w0 w a w1 :
  m w = (Ok a, w1) -> R w0 (k a w1).2 -> R w0 (bind m k w).2.
Proof. intros Hm. unfold bind. by rewrite Hm. Qed.

Lemma moved_bind {A C} (R : relation (World B)) `{!PreOrder R} (m : M B A) (k : A -> M B C) w0 w :
  R w0 (m w).2 -> (forall a, moves R (k a)) -> R w0 (bind m k w).2.
Proof.
  intros Hm Hk. unfold bind. destruct (m w) as [[a|e] w1]; cbn in *; [|done]. etrans; [exact Hm | apply Hk].
Qed.

End world.

(** One read or test of an operation, keeping what it says. *)
Ltac read_step :=
  lazymatch goal with
  | |- _ _ (bind (query _) _ _).2 => apply moved_query
  | |- _ _ (bind (ret _) _ _).2 => apply moved_ret
  | |- _ _ (bind timezone_now _ _).2 => apply moved_now
  | |- _ _ (bind (require _ _) _ _).2 => apply moved_require; [reflexivity | intros ?]
  | |- _ _ (bind (lift_result _) _ _).2 => apply moved_lift; [reflexivity | intros ? ?]
  | |- _ _ (bind (of_option _ _) _ _).2 => apply moved_option; [reflexivity | intros ? ?]
  | |- _ _ (ret _ _).2 => reflexivity
  | |- _ _ (throw _ _).2 => reflexivity
  end.

(** Walk an operation that moves the world only by [env_grows]. *)
Create HintDb env discriminated.
#[export] Hint Constants Opaque : env.
#[export] Hint Resolve env_write env_uuid4 : env.
Ltac env_tac :=
  repeat match goal with
  | |- forall _, _ => intros ?
  | |- moves _ (bind _ _) => apply moves_bind; [apply _|..]
  | |- moves _ (try_except _ _) => apply moves_try; [apply _|..]
  | |- moves _ (atomic _) => apply env_atomic
  | |- moves _ (autocommit _) => apply env_atomic
  | |- moves _ (fold_each _ _ _) => apply moves_fold_each; [apply _|..]
  | |- moves _ (for_each _ _) => apply moves_for_each; [apply _|..]
  | |- moves _ (match ?x with _ => _ end) => destruct x
  | |- moves _ (ret _) => by apply moves_pure; [apply _|]
  | |- moves _ (throw _) => by apply moves_pure; [apply _|]
  | |- moves _ (query _) => by apply moves_pure; [apply _|]
  | |- moves _ (gets _) => by apply moves_pure; [apply _|]
  | |- moves _ timezone_now => by apply moves_pure; [apply _|]
  | |- moves _ (require ?b _) => by apply moves_pure; [apply _|]; destruct b
  | |- moves _ (of_option ?o _) => by apply moves_pure; [apply _|]; destruct o
  | |- moves _ (lift_result ?o) => by apply moves_pure; [apply _|]; destruct o
  | _ => solve [eauto 2 with env]
  end.

(** Walk an operation that stays within a frame; the database [frames] holds the
    operations already shown to. *)
Create HintDb frames discriminated.
#[export] Hint Constants Opaque : frames.
#[export] Hint Resolve keeps_uuid4 : frames.
Ltac frame_tac :=
  repeat match goal with
  | |- forall _, _ => intros ?
  | |- moves _ (bind _ _) => apply moves_bind; [apply _|..]
  | |- moves _ (try_except _ _) => apply moves_try; [apply _|..]
  | |- moves _ (atomic _) => apply moves_transaction; [apply _..|]
  | |- moves _ (autocommit _) => apply moves_transaction; [apply _..|]
  | |- moves _ (fold_each _ _ _) => apply moves_fold_each; [apply _|..]
  | |- moves _ (for_each _ _) => apply moves_for_each; [apply _|..]
  | |- moves _ (match ?x with _ => _ end) => destruct x
  | |- moves (keeps _) (write _) => apply keeps_write; by intros
  | |- moves _ (ret _) => by apply moves_pure; [apply _|]
  | |- moves _ (throw _) => by apply moves_pure; [apply _|]
  | |- moves _ (query _) => by apply moves_pure; [apply _|]
  | |- moves _ (gets _) => by apply moves_pure; [apply _|]
  | |- moves _ timezone_now => by apply moves_pure; [apply _|]
  | |- moves _ (require ?b _) => by apply moves_pure; [apply _|]; destruct b
  | |- moves _ (of_option ?o _) => by apply moves_pure; [apply _|]; destruct o
  | |- moves _ (lift_result ?o) => by apply moves_pure; [apply _|]; destruct o
  | _ => solve [eauto 2 with frames]
  end.

Create HintDb effects.
#[export] Hint Resolve readonly_ret readonly_throw readonly_query readonly_now readonly_uuid4 readonly_require
  readonly_of_option readonly_lift readonly_bind readonly_atomic aon_atomic : effects.
#[export] Hint Extern 5 (all_or_nothing _) => apply aon_readonly : effects.

(** Show that an operation is all-or-nothing: reads, then one transaction. *)
Ltac all_or_nothing_tac :=
  repeat match goal with
  | |- forall _, _ => intros ?
  | |- all_or_nothing (atomic _) => apply aon_atomic
  | |- all_or_nothing (autocommit _) => apply aon_atomic
  | |- all_or_nothing (bind _ (fun a => ret _)) => apply aon_then
  | |- all_or_nothing (bind _ _) => apply aon_bind
  | |- all_or_nothing (try_except _ _) => apply aon_try
  | |- all_or_nothing (match ?x with _ => _ end) => destruct x
  | |- readonly (match ?x with _ => _ end) => destruct x
  | |- readonly (autocommit _) => apply readonly_atomic
  | |- readonly (bind _ _) => apply readonly_bind
  | _ => solve [eauto 3 with effects]
  end.

(** Take apart a run of database operations that returned. *)
Ltac invert_db :=
  repeat (invert_run; match goal with
  | H : query _ _ = (Ok _, _) |- _ => apply query_inv in H; destruct H as [? ?]; subst
  | H : write _ _ = (Ok _, _) |- _ => apply write_inv in H; subst
  | H : timezone_now _ = (Ok _, _) |- _ => apply now_inv in H; destruct H as [? ?]; subst
  | H : uuid4 _ = (Ok _, _) |- _ => apply uuid4_inv in H; destruct H as [? ?]; subst
  | H : atomic _ _ = (Ok _, _) |- _ => apply atomic_inv in H; destruct H as [? H]
  | H : autocommit _ _ = (Ok _, _) |- _ => apply atomic_inv in H; destruct H as [? H]
  end); invert_run.

#[export] Hint Resolve on_db_query on_db_now on_db_uuid4 : nfx.
#[export] Hint Resolve on_db_atomic : nfx.
#[export] Hint Resolve uuid_from_query uuid_from_write uuid_from_now uuid_from_uuid4 uuid_from_atomic : nfx.

(** Run the primitives of the world. *)
Ltac exec := unfold timezone_now, uuid4, query, write; run; cbn.

(** A world rebuilt from its own fields. *)
Ltac same_world := cbn; match goal with w : World _ |- _ => destruct w; cbn in *; congruence end.

(** Replace or add the row under its key. *)
Definition put {R} (k : N) (r : R) (t : gmap N R) : gmap N R := <[k := r]> t.

(** A concrete bucket for the witnesses: a finite map of objects. *)
Module MemoryBucket.
Record object : Type := MkObject { obj_body : string; obj_type : string; obj_sha : string }.
Definition t : Type := gmap string object.

#[global] Instance external : External t := {|
  upload_fileobj k body ct sha b := Some (<[k := MkObject body ct sha]> b);
  head_object k b := match (b : gmap string object) !! k with
                     | Some o => Found (MkHead (slen (obj_body o)) (Some (obj_sha o)) (Some (obj_type o)))
                     | None => NotFound
                     end;
  get_object k b := match (b : gmap string object) !! k with
                    | Some o => Found (obj_body o)
                    | None => NotFound
                    end;
  list_objects p b := Some (List.filter (starts_with p) (map_to_list (b : gmap string object)).*1);
  delete_object k b := Some (delete k (b : gmap string object));
  local_offset _ := (- hours 3)%Z |}.

#[global] Instance external_laws : ExternalLaws t.
Proof.
  split; cbn.
  - intros k body ct sha b b' [= <-]. by rewrite lookup_insert_eq.
  - intros k body ct sha b b' [= <-]. by rewrite lookup_insert_eq.
  - intros k k' body ct sha b b' [= <-] Hne. by rewrite lookup_insert_ne.
  - intros k k' body ct sha b b' [= <-] Hne. by rewrite lookup_insert_ne.
  - intros k b b' [= <-]. by rewrite lookup_delete_eq.
  - intros k k' b b' [= <-] Hne. by rewrite lookup_delete_ne.
  - intros k k' b b' [= <-] Hne. by rewrite lookup_delete_ne.
Qed.

Definition world (d : DB) (now : Z) (next : N) : World t := MkWorld d now next true verbatim ∅.
End MemoryBucket.
