(* ===== verification/Memory.v ===== *)
(** * What a process keeps in memory

    Counters, and the objects of a Python process next to the database: [B] of a
    [World] holds the bucket, and here also a value of type [S] that the process
    keeps between calls.  A rollback does not touch it. *)

From Stdlib Require Import ZArith Ascii String Lia.
From stdpp Require Import base decidable list gmap strings.
From S2P Require Import Prelude PyStr PyVal Models.

Local Open Scope string_scope.

(** ** [collections.Counter] *)

Abbreviation Counter := (gmap string Z).

Definition counted (c : Counter) (k : string) : Z := opt_default 0%Z (c !! k).
Definition bump (k : string) (c : Counter) : Counter := <[k := (counted c k + 1)%Z]> c.

Lemma counted_bump k k' c : counted (bump k c) k' = (counted c k' + if decide (k = k') then 1 else 0)%Z.
Proof.
  unfold counted, bump. destruct (decide (k = k')) as [->|Hn].
  - by rewrite lookup_insert_eq.
  - rewrite lookup_insert_ne by done. lia.
Qed.

(** ** Objects of the process *)

Class Holds (B S : Type) : Type := { held : B -> S; hold : S -> B -> B }.

Class HoldsLaws (B S : Type) `{Holds B S} : Prop := {
  held_hold : forall s b, held (hold s b) = s;
  hold_hold : forall s s' b, hold s (hold s' b) = hold s b }.

#[export] Instance holds_pair {B S} : Holds (B * S) S := {| held := snd; hold := fun s p => (p.1, s) |}.
#[export] Instance holds_pair_laws {B S} : HoldsLaws (B * S) S.
Proof. by split. Qed.

Section memory.
Context {B S : Type} `{Holds B S}.

(** A method of such an object. *)
Definition in_memory {A} (m : ST S exn A) : M B A := fun w =>
  let '(r, s) := m (held (bucket w)) in (r, w <| bucket ::= hold s |>).

Lemma in_memory_only {A} (m : ST S exn A) w : exists b, (in_memory m w).2 = w <| bucket := b |>.
Proof. unfold in_memory. destruct (m (held (bucket w))) as [r s]. by eexists. Qed.

Lemma in_memory_db {A} (m : ST S exn A) w : db (in_memory m w).2 = db w.
Proof. unfold in_memory. by destruct (m (held (bucket w))) as [r s]. Qed.

Lemma in_memory_result {A} (m : ST S exn A) w : (in_memory m w).1 = (m (held (bucket w))).1.
Proof. unfold in_memory. by destruct (m (held (bucket w))) as [r s]. Qed.
End memory.

(** The store keeps working when a value is held next to its bucket. *)
#[export] Instance external_pair {B S} `{!External B} : External (B * S) := {|
  upload_fileobj := fun k body ct sha b => option_map (fun x => (x, b.2)) (upload_fileobj k body ct sha b.1);
  head_object := fun k b => head_object k b.1;
  get_object := fun k b => get_object k b.1;
  list_objects := fun p b => list_objects p b.1;
  delete_object := fun k b => option_map (fun x => (x, b.2)) (delete_object k b.1);
  local_offset := local_offset (B:=B) |}.

#[export] Instance external_pair_laws {B S} `{!External B, !ExternalLaws B} : ExternalLaws (B * S).
Proof.
  split; cbn; intros *; try (destruct (upload_fileobj _ _ _ _ _) eqn:Hu; [|done]; intros [= <-]; cbn);
    try (destruct (delete_object _ _) eqn:Hd; [|done]; intros [= <-]; cbn).
  - by eapply head_uploaded.
  - by eapply get_uploaded.
  - by eapply head_other.
  - by eapply get_other.
  - by eapply head_deleted.
  - by eapply head_deleted_other.
  - by eapply get_deleted_other.
Qed.

(** ** Objects that keep one history per key

    A simulator serves requests of several scopes from one object.  It is a
    family of independent machines when every request acts on the history of its
    own scope as the machine [own] of that scope does, and leaves the others. *)

(** What a sequence of calls answers, an exception being an answer. *)
Fixpoint answers {S E Q A} (step : Q -> ST S E A) (qs : list Q) : S -> list (result E A) * S := fun s =>
  match qs with
  | [] => ([], s)
  | q :: rest => let '(r, s') := step q s in let '(rs, s'') := answers step rest s' in (r :: rs, s'')
  end.

(** The answers given to one scope. *)
Definition answers_of {S E Q A K} `{EqDecision K} (scope : Q -> K) (step : Q -> ST S E A) (k : K) (qs : list Q) (s : S) :
    list (result E A) :=
  (filter (fun p => scope p.1 = k) (zip qs (answers step qs s).1)).*2.

Class Histories {S H E Q A K : Type} (scope : Q -> K) (step : Q -> ST S E A) (own : Q -> ST H E A)
    (sees : K -> S -> H -> Prop) : Prop := {
  own_history q s h : sees (scope q) s h -> (step q s).1 = (own q h).1 /\ sees (scope q) (step q s).2 (own q h).2;
  other_history q k s h : scope q <> k -> sees k s h -> sees k (step q s).2 h }.

Lemma answers_of_histories {S H E Q A K} `{EqDecision K} (scope : Q -> K) (step : Q -> ST S E A) (own : Q -> ST H E A)
    (sees : K -> S -> H -> Prop) `{!Histories scope step own sees} k qs s h :
  sees k s h -> answers_of scope step k qs s = (answers own (filter (fun q => scope q = k) qs) h).1.
Proof.
  unfold answers_of. revert s h. induction qs as [|q qs IH]; intros s h Hs; [done|].
  cbn [answers]. destruct (step q s) as [r s'] eqn:Hq. destruct (answers step qs s') as [rs s''] eqn:Hr.
  cbn [fst zip zip_with]. destruct (decide (scope q = k)) as [Hk|Hk].
  - rewrite !filter_cons_True by done. cbn [answers fmap list_fmap].
    subst k. destruct (own_history q s h Hs) as [H1 H2]. rewrite Hq in H1, H2. cbn in H1, H2.
    destruct (own q h) as [r' h']. cbn in H1, H2. subst r'. specialize (IH _ _ H2). rewrite Hr in IH. cbn [fst] in IH.
    destruct (answers own _ h') as [rs' h'']. cbn in IH |- *. by rewrite IH.
  - rewrite !filter_cons_False by done. specialize (IH s' h). rewrite Hr in IH. apply IH.
    pose proof (other_history q k s h Hk Hs) as Ho. by rewrite Hq in Ho.
Qed.

(** ** Objects that replay their answers *)

(** [step] answers from [table] when it has an answer under the key of the
    request, and otherwise enters what it returns. *)
Class Replaying {S E Q A K : Type} `{EqDecision K} (step : Q -> ST S E A) (key : Q -> K) (table : S -> K -> option A) : Prop := {
  replay_hit q s r : table s (key q) = Some r -> step q s = (Ok r, s);
  replay_miss q s k : table s (key q) = None ->
    table (step q s).2 k = match (step q s).1 with
                           | Ok r => if decide (k = key q) then Some r else table s k
                           | Err _ => table s k
                           end }.

Section replaying.
Context {S E Q A K : Type} `{EqDecision K} (step : Q -> ST S E A) (key : Q -> K) (table : S -> K -> option A)
  `{!Replaying step key table}.

Lemma replay_kept k r q s : table s k = Some r -> table (step q s).2 k = Some r.
Proof using EqDecision0 Replaying0 key.
  intros Hk. destruct (table s (key q)) as [r0|] eqn:Hq.
  - by rewrite (replay_hit q s r0 Hq).
  - rewrite (replay_miss q s k Hq). destruct (_.1); [|done]. rewrite decide_False; [done|]. intros ->. congruence.
Qed.

Lemma replay_kept_all k r qs s : table s k = Some r -> table (answers step qs s).2 k = Some r.
Proof using EqDecision0 Replaying0 key.
  revert s. induction qs as [|q qs IH]; intros s Hk; [done|]. cbn [answers].
  pose proof (replay_kept k r q s Hk) as Hn. destruct (step q s) as [r0 s1].
  specialize (IH s1 Hn). by destruct (answers _ qs s1).
Qed.

(** What has been answered stays entered. *)
Lemma replay_answered q s r s' qs : step q s = (Ok r, s') -> table (answers step qs s').2 (key q) = Some r.
Proof using EqDecision0 Replaying0 key.
  intros Hs. apply replay_kept_all. destruct (table s (key q)) as [r0|] eqn:Hq.
  - rewrite (replay_hit q s r0 Hq) in Hs. by injection Hs as <- <-.
  - pose proof (replay_miss q s (key q) Hq) as Hm. rewrite Hs in Hm. cbn in Hm. by rewrite decide_True in Hm.
Qed.
End replaying.
