(* ===== verification/Tables.v ===== *)
(** * Keyed tables

    What the tables of every component share: rows stored under their own
    primary key, drawn from the generator, and a unique constraint; the queries
    that look one row up; and how each write keeps this. *)

From Stdlib Require Import ZArith Ascii String Lia.
From stdpp Require Import base decidable list gmap strings sorting.
From S2P Require Import Prelude PyStr PyVal Models.

(** [.first()] and [.get()] under an ordering column; unique rows have one answer. *)
Definition first_where {R} (key : R -> Z) (p : R -> bool) (t : gmap N R) : option R :=
  first_by (by_key key) (select p t).

(** A query's answer with one of its rows set apart. *)
Lemma select_delete {R} (p : R -> bool) (t : gmap N R) i r :
  t !! i = Some r -> p r = true -> select p t ≡ₚ r :: select p (delete i t).
Proof.
  intros Hi Hp. unfold select, rows. rewrite <-(insert_delete_id t i r Hi) at 1.
  rewrite map_to_list_insert by apply lookup_delete_eq. cbn [fmap list_fmap snd]. by rewrite filter_cons_True.
Qed.

Lemma first_where_None {R} (key : R -> Z) p (t : gmap N R) :
  first_where key p t = None -> forall i r, t !! i = Some r -> p r = false.
Proof.
  unfold first_where. intros Hn%first_by_None i r Hi. destruct (p r) eqn:Hp; [|done].
  assert (r ∈ select p t) as Hin by (apply elem_of_select; eauto). rewrite Hn in Hin. by apply not_elem_of_nil in Hin.
Qed.

Lemma first_where_Some {R} (key : R -> Z) p (t : gmap N R) r :
  first_where key p t = Some r -> p r = true /\ exists i, t !! i = Some r.
Proof. unfold first_where. intros Hf%first_by_elem. by apply elem_of_select in Hf. Qed.

(** ** Rows under their own key, and a unique constraint *)

Section keyed.
Context {R K : Type} (id : R -> N) (key : R -> K).
Implicit Types (t : gmap N R) (r : R).

Definition keyed (n : N) t : Prop :=
  (forall i r, t !! i = Some r -> id r = i /\ (i < n)%N) /\
  (forall i j r s, t !! i = Some r -> t !! j = Some s -> key r = key s -> i = j).

Lemma keyed_mono n m t : (n <= m)%N -> keyed n t -> keyed m t.
Proof. intros Hnm [H1 H2]. split; [|done]. intros i r Hi. destruct (H1 _ _ Hi). split; [done|lia]. Qed.

Lemma keyed_fresh n t : keyed n t -> t !! n = None.
Proof. intros [H _]. destruct (t !! n) as [r|] eqn:Hn; [|done]. destruct (H _ _ Hn). lia. Qed.

Lemma keyed_new n t r :
  keyed n t -> id r = n -> (forall i s, t !! i = Some s -> key s <> key r) -> keyed (N.succ n) (put n r t).
Proof.
  intros [H1 H2] Hid Hkey. unfold put. split.
  - intros i s. destruct (decide (n = i)) as [<-|Hne]; [rewrite lookup_insert_eq; intros [= <-]; split; [done|lia]|].
    rewrite lookup_insert_ne by done. intros Hi. destruct (H1 _ _ Hi). split; [done|lia].
  - intros i j s s'. rewrite !lookup_insert_Some.
    intros [[<- <-]|[_ Hi]] [[<- <-]|[_ Hj]] He; [done|by destruct (Hkey _ _ Hj)|by destruct (Hkey _ _ Hi)|eauto].
Qed.

Lemma keyed_same n t r r0 : keyed n t -> t !! id r = Some r0 -> key r = key r0 -> keyed n (put (id r) r t).
Proof.
  intros [H1 H2] Hr Hk. unfold put. split.
  - intros i s. rewrite lookup_insert_Some. intros [[<- <-]|[_ Hi]]; [|eauto]. split; [done|]. by destruct (H1 _ _ Hr).
  - intros i j s s'. rewrite !lookup_insert_Some.
    intros [[<- <-]|[_ Hi]] [[<- <-]|[_ Hj]] He; [done|apply (H2 _ _ _ _ Hr Hj); congruence|
      apply (H2 _ _ _ _ Hi Hr); congruence|eauto].
Qed.

Lemma keyed_update n t p f :
  (forall r, id (f r) = id r /\ key (f r) = key r) -> keyed n t -> keyed n (update_where p f t).
Proof.
  intros Hf [H1 H2].
  assert (forall i r, update_where p f t !! i = Some r -> exists r0, t !! i = Some r0 /\ id r = id r0 /\ key r = key r0) as Hl.
  { intros i r. rewrite lookup_update_where. destruct (t !! i) as [r0|]; [|done]. cbn. intros [= <-].
    exists r0. split; [done|]. destruct (p r0); [apply Hf|done]. }
  split.
  - intros i r (r0 & Hi & -> & _)%Hl. eauto.
  - intros i j r s (r0 & Hi & _ & ->)%Hl (s0 & Hj & _ & ->)%Hl. eauto.
Qed.

End keyed.

Lemma first_where_unique {R K} (id : R -> N) (key : R -> K) (col : R -> Z) n p (t : gmap N R) i r :
  keyed id key n t -> t !! i = Some r -> p r = true -> (forall s, p s = true -> key s = key r) ->
  first_where col p t = Some r.
Proof.
  intros [_ Hu] Hi Hp Hk. destruct (first_where col p t) as [s|] eqn:Hf.
  - apply first_where_Some in Hf as [Hs [j Hj]]. assert (j = i) as -> by (eapply Hu; eauto). congruence.
  - by rewrite (first_where_None _ _ _ Hf _ _ Hi) in Hp.
Qed.

(** ** Ordered queries and pages *)

Lemma filter_all {R} (p : R -> bool) (l : list R) :
  (forall x, x ∈ l -> p x = true) -> filter (fun x => p x = true) l = l.
Proof.
  induction l as [|x l IH]; intros H; [done|]. rewrite filter_cons, decide_True by (apply H; left).
  f_equal. apply IH. intros y Hy. apply H. by right.
Qed.

Section ordered.
Context {R : Type} (le : R -> R -> bool).
Hypothesis le_total : forall a b, le a b = true \/ le b a = true.
Hypothesis le_trans : forall a b c, le a b = true -> le b c = true -> le a c = true.
Implicit Types (l : list R) (t : gmap N R).
#[local] Abbreviation sorted := (StronglySorted (fun a b => le a b = true)).

Lemma insert_by_perm r l : insert_by le r l ≡ₚ r :: l.
Proof. induction l as [|x l IH]; simpl; [done|]. destruct (le r x); [done|]. rewrite IH. apply Permutation_swap. Qed.

Lemma sort_by_perm l : sort_by le l ≡ₚ l.
Proof. induction l as [|x l IH]; simpl; [done|]. by rewrite insert_by_perm, IH. Qed.

Lemma sort_by_sorted l : sorted (sort_by le l).
Proof using le_total le_trans.
  induction l as [|x l IH]; simpl; [constructor|].
  induction IH as [|y r Hr IHr Hy]; simpl; [by repeat constructor|].
  destruct (le x y) eqn:Hxy.
  - constructor; [by constructor|]. constructor; [done|]. eapply Forall_impl; [exact Hy|]. intros z. by apply le_trans.
  - constructor; [done|]. rewrite insert_by_perm. constructor; [|done]. destruct (le_total x y); congruence.
Qed.

Lemma sorted_filter (q : R -> bool) l : sorted l -> sorted (filter (fun r => q r = true) l).
Proof.
  intros Hl. induction Hl as [|x r Hr IH Hx]; [constructor|]. rewrite filter_cons. case_decide; [|done].
  constructor; [done|]. apply Forall_forall. intros y [_ Hy]%list_elem_of_filter. rewrite Forall_forall in Hx. auto.
Qed.

(** A narrower query filters the wider one, when no two rows tie. *)
Lemma sort_by_select (p q : R -> bool) t :
  (forall a b, a ∈ rows t -> b ∈ rows t -> le a b = true -> le b a = true -> a = b) ->
  sort_by le (select (fun r => p r && q r) t) = filter (fun r => q r = true) (sort_by le (select p t)).
Proof using le_total le_trans.
  intros Hanti.
  assert (select (fun r => p r && q r) t = filter (fun r => q r = true) (select p t)) as Hs.
  { unfold select. rewrite list_filter_filter. apply list_filter_iff. intros x. rewrite andb_true_iff. tauto. }
  eapply (StronglySorted_unique_strong (fun a b => le a b = true)).
  - intros a b Ha Hb. apply Hanti.
    + rewrite sort_by_perm in Ha. by apply list_elem_of_filter in Ha as [_ Ha].
    + apply list_elem_of_filter in Hb as [_ Hb]. rewrite sort_by_perm in Hb. by apply list_elem_of_filter in Hb as [_ Hb].
  - apply sort_by_sorted.
  - apply sorted_filter, sort_by_sorted.
  - rewrite sort_by_perm, Hs. apply filter_Permutation. by rewrite sort_by_perm.
Qed.

End ordered.

Lemma nth_error_lookup_at {A} (l : list A) n : nth_error l n = l !! n.
Proof. revert n. induction l as [|x l IH]; intros [|n]; cbn; done. Qed.

(** ** Rows ordered by their key, and what is left after a cursor *)

Section by_key_order.
Context {R : Type} (id : R -> N).
Implicit Types (l : list R) (t : gmap N R).

Definition id_le (a b : R) : bool := N.leb (id a) (id b).
Definition id_lt (a b : R) : Prop := (id a < id b)%N.

Lemma id_le_total a b : id_le a b = true \/ id_le b a = true.
Proof. unfold id_le. rewrite !N.leb_le. lia. Qed.

Lemma id_le_trans a b c : id_le a b = true -> id_le b c = true -> id_le a c = true.
Proof. unfold id_le. rewrite !N.leb_le. lia. Qed.

Definition stored (t : gmap N R) : Prop := forall i r, t !! i = Some r -> id r = i.

Lemma row_by_id t a b : stored t -> a ∈ rows t -> b ∈ rows t -> id a = id b -> a = b.
Proof.
  intros Ht [i Hi]%elem_of_rows [j Hj]%elem_of_rows He. rewrite (Ht _ _ Hi), (Ht _ _ Hj) in He. congruence.
Qed.

Lemma NoDup_rows t : stored t -> NoDup (rows t).
Proof.
  intros Ht. unfold rows. apply NoDup_fmap_2_strong; [|apply NoDup_map_to_list].
  intros [i x] [j y] Hi%elem_of_map_to_list Hj%elem_of_map_to_list. cbn. intros <-. by rewrite <-(Ht _ _ Hi), <-(Ht _ _ Hj).
Qed.

Lemma ordered_rows p t : stored t -> StronglySorted id_lt (sort_by id_le (select p t)).
Proof.
  intros Ht. assert (NoDup (sort_by id_le (select p t))) as Hnd.
  { rewrite sort_by_perm. unfold select. by apply NoDup_filter, NoDup_rows. }
  assert (forall x, x ∈ sort_by id_le (select p t) -> x ∈ rows t) as Hin.
  { intros x. rewrite sort_by_perm. intros [_ Hi]%elem_of_select. by apply elem_of_rows. }
  pose proof (sort_by_sorted id_le id_le_total id_le_trans (select p t)) as Hs.
  induction Hs as [|x l Hs IH Hx]; [constructor|]. apply NoDup_cons in Hnd as [Hne Hnd].
  constructor; [apply IH; [done|intros; apply Hin; by right]|]. rewrite Forall_forall in Hx |- *. intros y Hy.
  specialize (Hx y Hy). unfold id_le in Hx. apply N.leb_le in Hx. unfold id_lt.
  destruct (decide (id x = id y)) as [He|]; [|lia]. destruct Hne. rewrite (row_by_id t x y); [done|done|apply Hin; by left|apply Hin; by right|done].
Qed.

(** What is left of an ordered list after its [n]-th row. *)
Lemma drop_after l n x :
  StronglySorted id_lt l -> l !! n = Some x -> filter (fun c => N.ltb (id x) (id c) = true) l = drop (S n) l.
Proof.
  intros Hs. revert n. induction Hs as [|y l Hs IH Hy]; intros n Hn; [done|]. rewrite Forall_forall in Hy. unfold id_lt in Hy.
  rewrite filter_cons. destruct n as [|n]; cbn in Hn.
  - injection Hn as ->. rewrite decide_False by (rewrite N.ltb_irrefl; done). cbn [drop].
    apply filter_all. intros z Hz. by apply N.ltb_lt, Hy.
  - rewrite decide_False; [by apply IH|]. rewrite N.ltb_lt. specialize (Hy _ (list_elem_of_lookup_2 _ _ _ Hn)). lia.
Qed.

(** A query with a cursor is what follows the cursor in the query without. *)
Lemma query_after p q t :
  stored t -> sort_by id_le (select (fun r => p r && q r) t) = filter (fun r => q r = true) (sort_by id_le (select p t)).
Proof.
  intros Ht. apply sort_by_select; [exact id_le_total|exact id_le_trans|].
  intros a b Ha Hb. unfold id_le. rewrite !N.leb_le. intros. apply (row_by_id t); [done..|lia].
Qed.

End by_key_order.
