(* ===== verification/Redaction.v ===== *)
(** * The redaction boundary (infrastructure/redaction.py)

    What audit contexts and log fields pass through before they are stored. *)

From Stdlib Require Import ZArith Ascii String Lia.
From stdpp Require Import base decidable list gmap strings.
From S2P Require Import Prelude PyStr PyVal.

Local Open Scope string_scope.

Definition REDACTED : string := "[REDACTED]".

(** [_SENSITIVE_KEY.search] *)
Definition _SENSITIVE_KEY (k : string) : bool :=
  search_ci ["password"; "secret"; "pfx"; "key"; "token"; "cookie"; "authorization"; "xml"; "pdf"] k.

(** [_SENSITIVE_QUERY.search] *)
Definition _SENSITIVE_QUERY (k : string) : bool :=
  search_ci ["password"; "secret"; "token"; "key"; "cookie"; "authorization"] k.

(** A value that looks like a document: the first test of [_redact_string]. *)
Definition is_markup (s : string) : bool :=
  starts_with "%PDF" s || starts_with "<?xml" (lstrip s) || starts_with "<" (lstrip s).

Definition _redact_string (value : string) : string :=
  if is_markup value then REDACTED else
  match Url.urlsplit value with
  | None => value
  | Some parsed =>
      if negb (str_nonempty (Url.scheme parsed)) || negb (str_nonempty (Url.netloc parsed)) then value
      else if Url.has_userinfo parsed then REDACTED
      else if existsb _SENSITIVE_QUERY (Url.query_keys (Url.query parsed)) then
        Url.urlunsplit (Url.Parts (Url.scheme parsed) (Url.netloc parsed) (Url.path parsed) REDACTED)
      else value
  end.

(** [redact]; a Python set never occurs in a context and has no value here. *)
Fixpoint redact (value : pyval) : pyval :=
  match value with
  | VExc name => VDict [("error_class", VStr name)]
  | VDict d => VDict (map (fun kv => (kv.1, if _SENSITIVE_KEY kv.1 then VStr REDACTED else redact kv.2)) d)
  | VTuple l => VTuple (map redact l)
  | VList l => VList (map redact l)
  | VBytes _ => VStr REDACTED
  | VStr s => VStr (_redact_string s)
  | _ => value
  end.

(** What the boundary promises: under a sensitive key only the marker, no
    bytes, no exception, no text that looks like XML, HTML or PDF. *)
Fixpoint safe_output (value : pyval) : bool :=
  match value with
  | VExc _ | VBytes _ => false
  | VDict d => forallb (fun kv => if _SENSITIVE_KEY kv.1
                                  then match kv.2 with VStr s => String.eqb s REDACTED | _ => false end
                                  else safe_output kv.2) d
  | VTuple l | VList l => forallb safe_output l
  | VStr s => negb (is_markup s)
  | _ => true
  end.

Lemma lower_ascii_alpha c : is_alpha c = true -> is_lower (lower_ascii c) = true.
Proof. destruct c as [[] [] [] [] [] [] [] []]; intros H; (discriminate H || reflexivity). Qed.

Lemma scheme_head (s : string) p :
  Url.urlsplit s = Some p -> str_nonempty (Url.scheme p) = true ->
  exists c r, Url.scheme p = String c r /\ is_lower c = true.
Proof.
  unfold Url.urlsplit. cbv zeta.
  destruct (Url.partition _ _) as [[pre colon] post].
  match goal with |- context [if ?b then lower_ascii_str pre else _] => destruct b eqn:Hb end.
  - bools. intros Hsp _. exists (lower_ascii (match pre with String c _ => c | _ => "a"%char end)).
    destruct pre as [|c pre]; [done|]. exists (smap lower_ascii pre).
    repeat case_match; try discriminate Hsp; injection Hsp as <-; cbn [Url.scheme];
      (split; [done | by apply lower_ascii_alpha]).
  - intros Hsp Hne. exfalso. repeat case_match; try discriminate Hsp; by injection Hsp as <-.
Qed.

Lemma lower_head_not_markup c r : is_lower c = true -> is_markup (String c r) = false.
Proof. destruct c as [[] [] [] [] [] [] [] []]; intros H; (discriminate H || reflexivity). Qed.

Lemma redact_string_safe s : is_markup (_redact_string s) = false.
Proof.
  unfold _redact_string. destruct (is_markup s) eqn:Hm; [done|].
  destruct (Url.urlsplit s) as [p|] eqn:Hp; [|done].
  destruct (str_nonempty (Url.scheme p)) eqn:Hs; [|done].
  destruct (str_nonempty (Url.netloc p)) eqn:Hn; cbn [negb orb]; [|done].
  destruct (Url.has_userinfo p); [done|].
  destruct (existsb _ _); [|done].
  destruct (scheme_head s p Hp Hs) as (c & r & Hsch & Hc).
  unfold Url.urlunsplit. cbn [Url.scheme]. rewrite Hsch, append_cons. by apply lower_head_not_markup.
Qed.

(** The class name of an exception is a Python identifier. *)
Fixpoint class_names_ok (v : pyval) : bool :=
  match v with
  | VExc n => match n with String c _ => is_alpha c || Ascii.eqb c "_" | _ => false end
  | VDict d => forallb (fun kv => class_names_ok kv.2) d
  | VList l | VTuple l => forallb class_names_ok l
  | _ => true
  end.

Lemma identifier_not_markup c r : is_alpha c || Ascii.eqb c "_" = true -> is_markup (String c r) = false.
Proof. destruct c as [[] [] [] [] [] [] [] []]; intros H; (discriminate H || reflexivity). Qed.

Lemma redact_safe_list l :
  Forall (fun v => class_names_ok v = true -> safe_output (redact v) = true) l ->
  forallb class_names_ok l = true -> forallb safe_output (map redact l) = true.
Proof.
  intros IH Hn. apply forallb_forall. intros x Hx. apply in_map_iff in Hx as (y & <- & Hy).
  rewrite Forall_forall in IH. rewrite forallb_forall in Hn.
  apply IH; [by apply list_elem_of_In | by apply Hn].
Qed.

(** Nothing that looks like a document survives redaction: whatever the value
    (exception class names being identifiers), no text, list item or field of
    the redacted value is markup or a PDF, no bytes are left, and every field
    whose name is sensitive holds only the placeholder. *)
Theorem redact_safe_output (v : pyval) : class_names_ok v = true -> safe_output (redact v) = true.
Proof.
  induction v as [| | | | | |l IH|l IH|d IH|n|] using pyval_deep_ind; intros Hn; try reflexivity.
  - cbn. by rewrite redact_string_safe.
  - by apply redact_safe_list.
  - by apply redact_safe_list.
  - cbn [redact safe_output]. apply forallb_forall. intros x Hx.
    apply in_map_iff in Hx as (y & <- & Hy). cbn [fst snd].
    destruct (_SENSITIVE_KEY y.1); [reflexivity|].
    rewrite Forall_forall in IH. cbn [class_names_ok] in Hn. rewrite forallb_forall in Hn.
    apply (IH y); [by apply list_elem_of_In | by apply Hn].
  - cbn in Hn. destruct n as [|c n]; [done|].
    change (negb (is_markup (String c n)) && true = true). by rewrite identifier_not_markup.
Qed.

#[global] Arguments redact : simpl never.

Definition sample_context : pyval :=
  VDict [("token", VStr "abc"); ("note", VStr " <nfe/>"); ("error", VExc "ValueError"); ("units", VInt 3)].

Lemma redact_safe_output_witness :
  redact sample_context = VDict [("token", VStr REDACTED); ("note", VStr REDACTED);
                                 ("error", VDict [("error_class", VStr "ValueError")]); ("units", VInt 3)] /\
  safe_output (redact sample_context) = true.
Proof. split; [vm_compute; reflexivity|]. apply (redact_safe_output sample_context). reflexivity. Defined.
