(* ===== verification/AuditTrail.v ===== *)
(** * The append-only audit trail (audit/services.py)

    One global chain: every event carries the digest of the previous one, and
    [AuditVerifier.verify] recomputes the digests from the stored rows. *)

From Stdlib Require Import ZArith Ascii String Lia.
From stdpp Require Import base decidable list gmap strings.
From S2P Require Import Prelude PyStr PyVal Sha256 Models Redaction.

Local Open Scope string_scope.

Definition GENESIS_HASH : string := of_chars (replicate 64 "0"%char).

Definition REQUIRES_REASON : list string :=
  ["user.deactivate"; "company.deactivate"; "user.password_reset"; "user.role_change"; "document.delete"].

Definition str_in (s : string) (l : list string) : bool := existsb (String.eqb s) l.

(** [_canonical] *)
Definition _canonical (fields : pydict) : string := json_dumps (VDict fields).

Definition _event_payload (sequence : Z) (occurred_at : Z) (actor_id : option N)
    (actor_role : string) (ip_address : option string) (action entity_type entity_id result reason
     correlation_id : string) (context : pyval) (previous_hash : string) : pydict :=
  [("v", VInt 1);
   ("sequence", VInt sequence);
   ("occurred_at", VStr (isoformat occurred_at));
   ("actor_id", match actor_id with Some u => VStr (uuid_str u) | None => VNone end);
   ("actor_role", VStr actor_role);
   ("ip_address", vstr_opt ip_address);
   ("action", VStr action);
   ("entity_type", VStr entity_type);
   ("entity_id", VStr entity_id);
   ("result", VStr result);
   ("reason", VStr reason);
   ("correlation_id", VStr correlation_id);
   ("context", context);
   ("previous_hash", VStr previous_hash)].

Definition event_hash (fields : pydict) : string := sha256 (encode_utf8 (_canonical fields)).

(** The keyword arguments of [AuditService.append]. *)
Record AuditInput : Type := MkAuditInput {
  ai_action : string; ai_entity_type : string; ai_result : string;
  ai_actor_id : option uuid_ref; ai_actor_role : string; ai_ip_address : option string;
  ai_entity_id : string; ai_reason : string; ai_correlation_id : string; ai_context : pydict }.

#[export] Instance eta_AuditInput : Eta AuditInput := fun r => MkAuditInput
  (ai_action r) (ai_entity_type r) (ai_result r) (ai_actor_id r) (ai_actor_role r)
  (ai_ip_address r) (ai_entity_id r) (ai_reason r) (ai_correlation_id r) (ai_context r).

(** The defaults of the optional arguments. *)
Definition audit_input (action entity_type result : string) : AuditInput :=
  MkAuditInput action entity_type result None "" None "" "" "" [].

(** Column widths of nfx_audit_event: a wider text is a [DataError]. *)
Definition audit_row_fits (e : AuditEvent) : bool :=
  Nat.leb (String.length (ae_actor_role e)) 16 && Nat.leb (String.length (ae_action e)) 128 &&
  Nat.leb (String.length (ae_entity_type e)) 64 && Nat.leb (String.length (ae_entity_id e)) 255 &&
  Nat.leb (String.length (ae_result e)) 32 && Nat.leb (String.length (ae_reason e)) 1000 &&
  Nat.leb (String.length (ae_correlation_id e)) 128.

(** [ip_address or None] *)
Definition ip_or_None (ip : option string) : option string :=
  match ip with Some EmptyString | None => None | Some s => Some s end.

(** [UUID(str(actor_id)) if actor_id else None] *)
Definition parse_actor (a : option uuid_ref) : result exn (option N) :=
  match a with
  | None | Some (RefStr EmptyString) => Ok None
  | Some r => match uuid_of r with
              | Some u => Ok (Some u)
              | None => Err (ValueError "badly formed hexadecimal UUID string")
              end
  end.

Definition initial_chain (now : Z) : AuditChain := MkAuditChain 0 GENESIS_HASH now.

(** The row an event is read back as: the address through its [inet] column
    (GenericIPAddressField), the context through its [jsonb] column. *)
Definition stored_event (c : Columns) (e : AuditEvent) : option AuditEvent :=
  match match ae_ip_address e with Some s => option_map Some (inet c s) | None => Some None end, jsonb c (ae_context e) with
  | Some ip, Some context => Some (e <| ae_ip_address := ip |> <| ae_context := context |>)
  | _, _ => None
  end.

(** [AuditEvent.objects.create]: a context the plain JSON encoder takes, an
    address, bounded columns, unique sequence and hash. *)
Definition create_event (c : Columns) (e : AuditEvent) (d : DB) : Models.exn + DB :=
  if negb (json_storable (ae_context e)) then inl TypeError
  else if negb (audit_row_fits e) then inl DataError
  else match stored_event c e with
       | None => inl DataError
       | Some row =>
           if existsb (fun x => Z.eqb (ae_sequence x) (ae_sequence e) ||
                                String.eqb (ae_event_hash x) (ae_event_hash e)) (audit_events d)
           then inl IntegrityError
           else inr (d <| audit_events ::= fun l => (l ++ [row])%list |>)
       end.

Section service.
Context {B : Type}.

Definition insert_event (e : AuditEvent) : M B unit := fun w =>
  match create_event (columns w) e (db w) with
  | inl x => (Err x, w)
  | inr d => (Ok tt, w <| db := d |>)
  end.

(** The transaction of [append]. *)
Definition append_locked (a : AuditInput) (safe_context : pyval) (actor : option N) : M B AuditEvent :=
  let* occurred_at := timezone_now in
  write (fun d => d <| audit_chain ::= fun c => Some (opt_default (initial_chain occurred_at) c) |>) ;;;
  let* c := query audit_chain in
  let* chain := of_option c DoesNotExist in
  let* id := uuid4 in
  let sequence := (ac_last_sequence chain + 1)%Z in
  let ip := ip_or_None (ai_ip_address a) in
  let reason := strip (ai_reason a) in
  let payload := _event_payload sequence occurred_at actor (ai_actor_role a) ip (ai_action a)
                   (ai_entity_type a) (ai_entity_id a) (ai_result a) reason
                   (ai_correlation_id a) safe_context (ac_last_hash chain) in
  let digest := event_hash payload in
  let event := MkAuditEvent id sequence occurred_at actor (ai_actor_role a) ip (ai_action a)
                 (ai_entity_type a) (ai_entity_id a) (ai_result a) reason
                 (ai_correlation_id a) safe_context (ac_last_hash chain) digest in
  insert_event event ;;;
  write (fun d => d <| audit_chain ::= option_map (fun c =>
           if Z.eqb (ac_last_sequence c) (ac_last_sequence chain)
           then c <| ac_last_sequence := sequence |> <| ac_last_hash := digest |> else c) |>) ;;;
  ret event.

(** [AuditService().append] *)
Definition append (a : AuditInput) : M B AuditEvent :=
  if str_in (ai_action a) REQUIRES_REASON && negb (str_nonempty (strip (ai_reason a)))
  then throw MissingAuditReason
  else
    let safe_context := redact (VDict (ai_context a)) in
    let* actor := lift_result (parse_actor (ai_actor_id a)) in
    try_except (atomic (append_locked a safe_context actor))
      (fun e => match e with MissingAuditReason => throw MissingAuditReason
                           | _ => throw AuditUnavailable end).

End service.

#[global] Arguments create_event : simpl never.
#[global] Arguments append_locked : simpl never.
#[global] Arguments append : simpl never.

(** ** Reading the trail *)

Record AuditFilter : Type := MkAuditFilter {
  af_actor_id : option string; af_action : option string;
  af_entity_type : option string; af_result : option string }.

(** [if wanted: events = events.filter(column=wanted)] *)
Definition filter_opt (wanted : option string) (column : string) : bool :=
  match wanted with Some (String _ _ as s) => String.eqb column s | _ => true end.

Definition actor_matches (wanted : option string) (e : AuditEvent) : bool :=
  match wanted with
  | Some (String _ _ as s) =>
      match parse_uuid s, ae_actor_id e with Some u, Some v => N.eqb u v | _, _ => false end
  | _ => true
  end.

Definition by_sequence : AuditEvent -> AuditEvent -> bool := by_key ae_sequence.

(** [AuditService().list]: a page of events after [cursor] and the next cursor. *)
Definition list_events (cursor limit : Z) (f : AuditFilter) (d : DB)
    : result exn (list AuditEvent * option Z) :=
  if match af_actor_id f with
     | Some (String _ _ as s) => negb (is_some (parse_uuid s)) | _ => false
     end then Err ValidationError else
  let limit := Z.min (Z.max limit 1) 100 in
  let events := List.filter (fun e => Z.ltb cursor (ae_sequence e) && actor_matches (af_actor_id f) e &&
                                 filter_opt (af_action f) (ae_action e) &&
                                 filter_opt (af_entity_type f) (ae_entity_type e) &&
                                 filter_opt (af_result f) (ae_result e))
                       (sort_by by_sequence (audit_events d)) in
  let rows := take (Z.to_nat (limit + 1)) events in
  let next_cursor := if Z.ltb limit (Z.of_nat (length rows))
                     then option_map ae_sequence (nth_error rows (Z.to_nat limit)) else None in
  Ok (take (Z.to_nat limit) rows, next_cursor).

Record IntegrityReport : Type := MkReport {
  valid : bool; checked : Z; issue : option string; report_sequence : option Z }.

(** What [verify] recomputes for one row. *)
Definition row_payload (row : AuditEvent) (previous_hash : string) : pydict :=
  _event_payload (ae_sequence row) (ae_occurred_at row) (ae_actor_id row) (ae_actor_role row)
    (ae_ip_address row) (ae_action row) (ae_entity_type row) (ae_entity_id row) (ae_result row)
    (ae_reason row) (ae_correlation_id row) (ae_context row) previous_hash.

Fixpoint verify_from (rows : list AuditEvent) (previous_hash : string) (expected : Z) (total : Z)
    : IntegrityReport :=
  match rows with
  | [] => MkReport true total None None
  | row :: rest =>
      if negb (Z.eqb (ae_sequence row) expected)
      then MkReport false (expected - 1) (Some "sequence") (Some (ae_sequence row))
      else if negb (String.eqb (ae_previous_hash row) previous_hash) ||
              negb (String.eqb (ae_event_hash row) (event_hash (row_payload row previous_hash)))
      then MkReport false (expected - 1) (Some "hash") (Some (ae_sequence row))
      else verify_from rest (ae_event_hash row) (expected + 1) total
  end.

(** [AuditVerifier().verify(events)] *)
Definition verify (events : option (list AuditEvent)) (d : DB) : IntegrityReport :=
  let rows := match events with Some l => l | None => sort_by by_sequence (audit_events d) end in
  verify_from rows GENESIS_HASH 1 (Z.of_nat (length rows)).

(** ** Facts *)

(** A pair of different texts with the same digest. *)
Definition sha256_collision : Prop := exists x y, x <> y /\ sha256 x = sha256 y.

(** The text the digest of a row is taken of. *)
Definition canonical_text (row : AuditEvent) (previous_hash : string) : string :=
  encode_utf8 (_canonical (row_payload row previous_hash)).

(** Follow a chain of rows from a hash and a sequence number: where it ends,
    if every row is where and what it claims to be. *)
Fixpoint follow (rows : list AuditEvent) (previous_hash : string) (expected : Z) : option (string * Z) :=
  match rows with
  | [] => Some (previous_hash, expected)
  | row :: rest =>
      if Z.eqb (ae_sequence row) expected && String.eqb (ae_previous_hash row) previous_hash &&
         String.eqb (ae_event_hash row) (event_hash (row_payload row previous_hash))
      then follow rest (ae_event_hash row) (expected + 1)
      else None
  end.

(** The invariant of the trail: the stored rows follow from genesis to the head. *)
Definition trail_ok (d : DB) : Prop :=
  match audit_chain d with
  | None => audit_events d = []
  | Some c => follow (audit_events d) GENESIS_HASH 1 = Some (ac_last_hash c, ac_last_sequence c + 1)%Z
  end.

Lemma follow_app rows1 rows2 h n :
  follow (rows1 ++ rows2) h n =
  match follow rows1 h n with Some (h', n') => follow rows2 h' n' | None => None end.
Proof.
  revert h n. induction rows1 as [|r rows1 IH]; intros h n; [done|]. cbn [app follow].
  destruct (_ && _ && _); [apply IH | done].
Qed.

Lemma verify_follow rows h n total :
  valid (verify_from rows h n total) = is_some (follow rows h n).
Proof.
  revert h n. induction rows as [|r rows IH]; intros h n; [done|]. cbn [verify_from follow].
  destruct (Z.eqb _ _); [|done]. destruct (String.eqb (ae_previous_hash r) h); [|done].
  destruct (String.eqb _ _); [apply IH | done].
Qed.

Lemma verify_checked rows h n total :
  valid (verify_from rows h n total) = true -> checked (verify_from rows h n total) = total.
Proof.
  revert h n. induction rows as [|r rows IH]; intros h n; [done|]. cbn [verify_from].
  destruct (negb _); [done|]. destruct (_ || _); [done | apply IH].
Qed.

Lemma follow_sequence rows h n h' n' :
  follow rows h n = Some (h', n') -> n' = (n + Z.of_nat (length rows))%Z.
Proof.
  revert h n. induction rows as [|r rows IH]; intros h n; cbn [follow].
  - intros [= <- <-]. cbn. lia.
  - destruct (_ && _ && _); [|done]. intros H. apply IH in H. cbn [length]. lia.
Qed.

Lemma follow_lower rows h n h' n' r :
  follow rows h n = Some (h', n') -> r ∈ rows -> (n <= ae_sequence r)%Z.
Proof.
  revert h n. induction rows as [|x rows IH]; intros h n; cbn [follow].
  - intros _ Hr. by apply not_elem_of_nil in Hr.
  - destruct (_ && _ && _) eqn:Hc; [|done]. intros H Hr. bools.
    apply elem_of_cons in Hr as [->|Hr]; [lia|]. pose proof (IH _ _ H Hr). lia.
Qed.

Lemma insert_by_front {R} (le : R -> R -> bool) r l :
  (forall x, x ∈ l -> le r x = true) -> insert_by le r l = r :: l.
Proof. destruct l as [|x l]; [done|]. intros H. cbn. by rewrite (H x) by left. Qed.

(** The rows of an intact trail are already in sequence order. *)
Lemma follow_sorted rows h n h' n' :
  follow rows h n = Some (h', n') -> sort_by by_sequence rows = rows.
Proof.
  revert h n. induction rows as [|x rows IH]; intros h n; cbn [follow]; [done|].
  destruct (_ && _ && _) eqn:Hc; [|done]. intros H. bools.
  change (insert_by by_sequence x (sort_by by_sequence rows) = x :: rows).
  rewrite (IH _ _ H). apply insert_by_front. intros y Hy.
  pose proof (follow_lower _ _ _ _ _ _ H Hy). unfold by_sequence, by_key. apply Z.leb_le. lia.
Qed.

Lemma trail_ok_verifies d :
  trail_ok d -> verify None d = MkReport true (Z.of_nat (length (audit_events d))) None None.
Proof.
  intros Hok. unfold verify.
  assert (exists h n, follow (audit_events d) GENESIS_HASH 1 = Some (h, n)) as (h & n & Hf).
  { unfold trail_ok in Hok. destruct (audit_chain d); [eauto|]. rewrite Hok. cbn. eauto. }
  rewrite (follow_sorted _ _ _ _ _ Hf). revert Hf. generalize (Z.of_nat (length (audit_events d))).
  intros total. clear. revert h n. generalize GENESIS_HASH as h0, 1%Z as n0.
  induction (audit_events d) as [|r rows IH]; intros h0 n0 h n; [done|]. cbn [follow verify_from].
  destruct (Z.eqb _ _); [|done]. destruct (String.eqb (ae_previous_hash r) h0); [|done].
  destruct (String.eqb _ _); [apply IH | done].
Qed.

(** What an append may touch: the two audit tables. *)
Definition audit_frame (d d' : DB) : Prop :=
  exists c l, d' = d <| audit_chain := c |> <| audit_events := l |>.

#[export] Instance audit_frame_preorder : PreOrder audit_frame.
Proof.
  split.
  - intros d. exists (audit_chain d), (audit_events d). by destruct d.
  - intros d1 d2 d3 (c & l & ->) (c' & l' & ->). by exists c', l'.
Qed.

(** A property of the other tables. *)
Definition audit_blind (I : DB -> Prop) : Prop := forall d d', audit_frame d d' -> I d -> I d'.

Section append_facts.
Context {B : Type}.
Implicit Types w : World B.

(** The rest of the world is as it was, apart from the UUID generator. *)
Definition same_env w w' : Prop :=
  clock w' = clock w /\ online w' = online w /\ columns w' = columns w /\ bucket w' = bucket w.

Lemma create_event_ok c e d d' :
  create_event c e d = inr d' ->
  json_storable (ae_context e) = true /\ audit_row_fits e = true /\
  exists row, stored_event c e = Some row /\ d' = d <| audit_events ::= fun l => (l ++ [row])%list |>.
Proof.
  unfold create_event. destruct (json_storable _); [|done]. destruct (audit_row_fits e); [|done]. cbn [negb].
  destruct (stored_event c e) as [row|]; [|done]. destruct (existsb _ _); [done|]. intros [= <-]. split_and!; [done..|]. by exists row.
Qed.

(** The event the transaction of [append] builds. *)
Definition built_event (a : AuditInput) (ctx : pyval) (actor : option N) (chain : AuditChain) w : AuditEvent :=
  let sequence := (ac_last_sequence chain + 1)%Z in
  MkAuditEvent (next_uuid w) sequence (clock w) actor (ai_actor_role a) (ip_or_None (ai_ip_address a))
    (ai_action a) (ai_entity_type a) (ai_entity_id a) (ai_result a) (strip (ai_reason a))
    (ai_correlation_id a) ctx (ac_last_hash chain)
    (event_hash (_event_payload sequence (clock w) actor (ai_actor_role a) (ip_or_None (ai_ip_address a))
                   (ai_action a) (ai_entity_type a) (ai_entity_id a) (ai_result a) (strip (ai_reason a))
                   (ai_correlation_id a) ctx (ac_last_hash chain))).

Definition chain_of w : AuditChain := opt_default (initial_chain (clock w)) (audit_chain (db w)).

(** The transaction, run: one row more and the head moved to it, or an error. *)
Lemma append_locked_run a ctx actor w :
  let chain := chain_of w in
  let e := built_event a ctx actor chain w in
  let d1 := db w <| audit_chain := Some chain |> in
  append_locked a ctx actor w =
  match create_event (columns w) e d1 with
  | inl x => (Err x, w <| next_uuid ::= N.succ |> <| db := d1 |>)
  | inr d => (Ok e, w <| next_uuid ::= N.succ |> <| db := d
                      <| audit_chain := Some (chain <| ac_last_sequence := (ac_last_sequence chain + 1)%Z |>
                                                    <| ac_last_hash := ae_event_hash e |>) |> |>)
  end.
Proof.
  intros chain e d1. unfold append_locked, insert_event. exec.
  change (opt_default (initial_chain (clock w)) (audit_chain (db w))) with chain.
  match goal with |- context [create_event ?c ?x ?y] => change (create_event c x y) with (create_event (columns w) e d1) end.
  destruct (create_event (columns w) e d1) as [x|d] eqn:Hc; [done|].
  apply create_event_ok in Hc as (_ & _ & row & _ & ->). cbn. by rewrite Z.eqb_refl.
Qed.

(** An append that returns: what it built, and the row it left. *)
Lemma append_inv a w e w' :
  append a w = (Ok e, w') ->
  audit_row_fits e = true /\ json_storable (redact (VDict (ai_context a))) = true /\
  exists actor row, parse_actor (ai_actor_id a) = Ok actor /\
    e = built_event a (redact (VDict (ai_context a))) actor (chain_of w) w /\ stored_event (columns w) e = Some row /\
    db w' = db w <| audit_chain := Some (chain_of w <| ac_last_sequence := ae_sequence e |> <| ac_last_hash := ae_event_hash e |>) |>
                 <| audit_events ::= fun l => (l ++ [row])%list |>.
Proof.
  unfold append. destruct (_ && _); [done|].
  destruct (parse_actor (ai_actor_id a)) as [actor|x] eqn:Ha; run; [|done].
  unfold atomic. cbn beta iota. destruct (online w) eqn:Ho; [|done].
  pose proof (append_locked_run a (redact (VDict (ai_context a))) actor w) as Hr. cbv zeta in Hr. rewrite Hr. clear Hr.
  destruct (create_event _ _ _) as [x|d] eqn:Hc; [by destruct x|]. apply create_event_ok in Hc as (Hj & Hf & row & Hrow & ->).
  intros [= <- <-]. split; [exact Hf|]. split; [exact Hj|]. by exists actor, row.
Qed.

Lemma append_run a w r w' :
  append a w = (r, w') ->
  same_env w w' /\
  match r with
  | Ok e => exists actor row, parse_actor (ai_actor_id a) = Ok actor /\
      e = built_event a (redact (VDict (ai_context a))) actor (chain_of w) w /\ stored_event (columns w) e = Some row /\
      db w' = db w <| audit_chain := Some (chain_of w <| ac_last_sequence := ae_sequence e |>
                                                     <| ac_last_hash := ae_event_hash e |>) |>
                   <| audit_events ::= fun l => (l ++ [row])%list |>
  | Err _ => db w' = db w
  end.
Proof.
  intros H. assert (same_env w w' /\ (forall x, r = Err x -> db w' = db w)) as [He Hd].
  { revert H. unfold append. destruct (_ && _); [by intros [= <- <-]|].
    destruct (parse_actor (ai_actor_id a)) as [actor|x] eqn:Ha; run; [|by intros [= <- <-]].
    unfold atomic. cbn beta iota. destruct (online w) eqn:Ho; [|by intros [= <- <-]].
    pose proof (append_locked_run a (redact (VDict (ai_context a))) actor w) as Hr. cbv zeta in Hr. rewrite Hr. clear Hr.
    destruct (create_event _ _ _) as [x|d]; [destruct x|]; intros [= <- <-]; split; try done; by repeat split. }
  split; [done|]. destruct r as [e|x]; [|by apply (Hd x)]. by destruct (append_inv _ _ _ _ H) as (_ & _ & ?).
Qed.

(** What was appended fits its columns. *)
Lemma append_fits a w e w' : append a w = (Ok e, w') -> audit_row_fits e = true.
Proof. by intros (? & _)%append_inv. Qed.

(** What was appended could be encoded. *)
Lemma append_storable a w e w' : append a w = (Ok e, w') -> json_storable (redact (VDict (ai_context a))) = true.
Proof. by intros (_ & ? & _)%append_inv. Qed.

Lemma append_frame a w r w' : append a w = (r, w') -> audit_frame (db w) (db w').
Proof.
  intros [_ H]%append_run. destruct r as [e|x].
  - destruct H as (actor & row & _ & _ & _ & ->). eexists _, _. reflexivity.
  - rewrite H. reflexivity.
Qed.

Lemma preserves_append (I : DB -> Prop) a :
  audit_blind I -> preserves (on_db I) (append (B:=B) a).
Proof.
  intros HI w Hw. destruct (append a w) as [r w'] eqn:Ha. apply append_frame in Ha.
  exact (HI _ _ Ha Hw).
Qed.

(** What the columns accept of an event comes back with the text it was written with. *)
Definition comes_back (c : Columns) (a : AuditInput) : Prop :=
  (forall s t, ip_or_None (ai_ip_address a) = Some s -> inet c s = Some t -> t = s) /\
  (forall v, jsonb c (redact (VDict (ai_context a))) = Some v -> json_dumps v = json_dumps (redact (VDict (ai_context a)))).

Lemma json_members (d1 d2 : pydict) :
  map (fun kv => (kv.1, json_dumps kv.2)) d1 = map (fun kv => (kv.1, json_dumps kv.2)) d2 -> json_dumps (VDict d1) = json_dumps (VDict d2).
Proof. intros H. cbn [json_dumps]. by rewrite H. Qed.

Lemma text_comes_back a w e row :
  e = built_event a (redact (VDict (ai_context a))) (ae_actor_id e) (chain_of w) w -> comes_back (columns w) a ->
  stored_event (columns w) e = Some row -> forall h, canonical_text row h = canonical_text e h.
Proof.
  intros He [Hip Hctx] Hrow h. unfold canonical_text. f_equal. unfold _canonical. apply json_members.
  assert (exists ip ctx, row = e <| ae_ip_address := ip |> <| ae_context := ctx |> /\ ip = ae_ip_address e /\
    json_dumps ctx = json_dumps (ae_context e)) as (ip & ctx & -> & -> & Hj).
  { unfold stored_event in Hrow.
    assert (ae_context e = redact (VDict (ai_context a)) /\ ae_ip_address e = ip_or_None (ai_ip_address a)) as [Ec Ei] by (by rewrite He).
    rewrite <-Ei in Hip. rewrite <-Ec in Hctx.
    destruct (ae_ip_address e) as [s|].
    - destruct (inet (columns w) s) as [t|] eqn:Ht; [|done]. destruct (jsonb _ _) as [v|] eqn:Hv; [|done]. cbn in Hrow. injection Hrow as <-.
      eexists _, _. split; [reflexivity|]. split; [by rewrite (Hip s t)|by apply Hctx].
    - destruct (jsonb _ _) as [v|] eqn:Hv; [|done]. injection Hrow as <-. eexists _, _. split; [reflexivity|]. split; [done|by apply Hctx]. }
  unfold row_payload, _event_payload. cbn [map fst snd ae_sequence ae_occurred_at ae_actor_id ae_actor_role ae_ip_address ae_action
    ae_entity_type ae_entity_id ae_result ae_reason ae_correlation_id ae_context upd eta eta_AuditEvent]. by rewrite Hj.
Qed.

(** The head an intact trail, or an empty one, is followed to. *)
Lemma trail_ok_follow w :
  trail_ok (db w) -> follow (audit_events (db w)) GENESIS_HASH 1 = Some (ac_last_hash (chain_of w), ac_last_sequence (chain_of w) + 1)%Z.
Proof. unfold trail_ok, chain_of. destruct (audit_chain (db w)); [done|]. by intros ->. Qed.

(** A row is its event but for the address and the context. *)
Lemma stored_shape c e row : stored_event c e = Some row -> exists ip context, row = e <| ae_ip_address := ip |> <| ae_context := context |>.
Proof.
  unfold stored_event. destruct (match ae_ip_address e with Some s => _ | None => _ end) as [ip|]; [|done].
  destruct (jsonb c _) as [context|]; [|done]. intros [= <-]. by exists ip, context.
Qed.

Lemma stored_fields c e row : stored_event c e = Some row ->
  ae_sequence row = ae_sequence e /\ ae_previous_hash row = ae_previous_hash e /\ ae_event_hash row = ae_event_hash e.
Proof. by intros (ip & context & ->)%stored_shape. Qed.

Lemma append_trail_ok a w : comes_back (columns w) a -> trail_ok (db w) -> trail_ok (db (append a w).2).
Proof.
  intros Hback Hok. destruct (append a w) as [r w'] eqn:Ha. apply append_run in Ha as [_ Ha]. cbn [snd].
  destruct r as [e|x]; [|by rewrite Ha]. destruct Ha as (actor & row & _ & He & Hrow & ->).
  pose proof (trail_ok_follow w Hok) as Hf.
  assert (canonical_text row (ac_last_hash (chain_of w)) = canonical_text e (ac_last_hash (chain_of w))) as Htext
    by (by apply (text_comes_back a w); [rewrite He|..]).
  apply stored_fields in Hrow as (Hseq & Hprev & Hhash).
  unfold trail_ok. cbn [audit_chain audit_events upd]. rewrite follow_app, Hf. cbn [follow].
  rewrite Hseq, Hprev, Hhash. unfold event_hash. change (encode_utf8 (_canonical (row_payload row ?h))) with (canonical_text row h).
  rewrite Htext, He. cbn [ae_sequence ae_previous_hash built_event]. rewrite Z.eqb_refl, String.eqb_refl.
  unfold canonical_text, row_payload, built_event.
  cbn [ae_sequence ae_occurred_at ae_actor_id ae_actor_role ae_ip_address ae_action ae_entity_type
       ae_entity_id ae_result ae_reason ae_correlation_id ae_context ae_event_hash].
  unfold event_hash. by rewrite String.eqb_refl.
Qed.

(** The sequence numbers count the rows, whatever the columns made of them. *)
Definition numbered (d : DB) : Prop :=
  (forall k e, audit_events d !! k = Some e -> ae_sequence e = (Z.of_nat k + 1)%Z) /\
  match audit_chain d with
  | None => audit_events d = []
  | Some c => ac_last_sequence c = Z.of_nat (length (audit_events d))
  end.

Lemma follow_numbers rows h n h' n' : follow rows h n = Some (h', n') ->
  forall k e, rows !! k = Some e -> ae_sequence e = (Z.of_nat k + n)%Z.
Proof.
  revert h n. induction rows as [|r rows IH]; intros h n; cbn [follow]; [done|].
  destruct (_ && _ && _) eqn:Hc; [|done]. intros H k e. bools. destruct k as [|k]; cbn.
  - intros [= <-]. lia.
  - intros He. rewrite (IH _ _ H k e He). lia.
Qed.

Lemma trail_ok_numbered d : trail_ok d -> numbered d.
Proof.
  unfold trail_ok, numbered. destruct (audit_chain d) as [c|].
  - intros Hf. split; [exact (follow_numbers _ _ _ _ _ Hf)|]. apply follow_sequence in Hf. lia.
  - intros ->. by split.
Qed.

Lemma append_events a w :
  exists l, audit_events (db (append a w).2) = (audit_events (db w) ++ l)%list /\ (numbered (db w) -> numbered (db (append a w).2)).
Proof.
  destruct (append a w) as [r w'] eqn:Ha. apply append_run in Ha as [_ Ha]. cbn [snd].
  destruct r as [e|x]; [|exists []; by rewrite app_nil_r, Ha]. destruct Ha as (actor & row & _ & He & Hrow & ->).
  apply stored_fields in Hrow as (Hseq & _ & _). exists [row]. split; [done|]. intros [Hn Hc]. unfold numbered.
  cbn [audit_events audit_chain upd].
  assert (ae_sequence row = (Z.of_nat (length (audit_events (db w))) + 1)%Z) as Hlast.
  { rewrite Hseq, He. cbn. unfold chain_of. destruct (audit_chain (db w)) as [c|]; cbn; [by rewrite Hc|by rewrite Hc]. }
  split.
  - intros k x [Hk|[Hle Hk]]%lookup_app_Some; [by apply Hn|]. apply list_lookup_singleton_Some in Hk as [Hk <-]. rewrite Hlast. lia.
  - change (ae_sequence e = Z.of_nat (length (audit_events (db w) ++ [row]))). rewrite <-Hseq, Hlast, length_app. cbn. lia.
Qed.

Lemma numbered_sorted rows n :
  (forall k e, rows !! k = Some e -> ae_sequence e = (Z.of_nat k + n)%Z) -> sort_by by_sequence rows = rows.
Proof.
  revert n. induction rows as [|r rows IH]; intros n H; [done|].
  change (insert_by by_sequence r (sort_by by_sequence rows) = r :: rows). rewrite (IH (n + 1)%Z).
  - apply insert_by_front. intros x [k Hk]%list_elem_of_lookup. unfold by_sequence, by_key. apply Z.leb_le.
    rewrite (H 0%nat r eq_refl), (H (S k) x Hk). lia.
  - intros k e He. rewrite (H (S k) e He). lia.
Qed.

Lemma env_append a : moves env_grows (append (B:=B) a).
Proof.
  intros w. destruct (append a w) as [r w'] eqn:Ha. pose proof (append_run _ _ _ _ Ha) as [(Hc & Ho & _ & Hb) _].
  repeat split; [done..|]. revert Ha. unfold append. destruct (_ && _); [intros [= _ <-]; cbn; lia|].
  destruct (parse_actor (ai_actor_id a)) as [actor|x]; run; [|intros [= _ <-]; cbn; lia].
  unfold atomic. cbn beta iota. destruct (online w); [|intros [= _ <-]; cbn; lia].
  pose proof (append_locked_run a (redact (VDict (ai_context a))) actor w) as Hr. cbv zeta in Hr. rewrite Hr.
  destruct (create_event _ _ _) as [x|d]; [destruct x|]; intros [= _ <-]; cbn; lia.
Qed.

(** An append leaves every other table alone. *)
Lemma keeps_append {T} (f : DB -> T) a :
  (forall d d', audit_frame d d' -> f d' = f d) -> moves (keeps f) (append (B:=B) a).
Proof.
  intros Hf w. destruct (env_append a w) as (Hc & Ho & _ & Hu).
  repeat split; [|done..]. apply Hf. destruct (append a w) as [r w'] eqn:Ha. by eapply append_frame.
Qed.

End append_facts.

#[export] Hint Resolve env_append : env.
#[export] Hint Extern 1 (moves (keeps _) (append _)) =>
  apply keeps_append; intros ? ? (? & ? & ->); reflexivity : frames.

(** ** Properties *)

(** Any number of appends, whatever each of them is asked to record and
    whether it succeeds or fails. *)
Definition appends {B} (l : list AuditInput) (w : World B) : World B :=
  foldl (fun w a => (append a w).2) w l.

Lemma append_columns {B} a (w : World B) : columns (append a w).2 = columns w.
Proof. destruct (append a w) as [r w'] eqn:Ha. by apply append_run in Ha as [(_ & _ & ? & _) _]. Qed.

Lemma appends_trail_ok {B} l (w : World B) : Forall (comes_back (columns w)) l -> trail_ok (db w) -> trail_ok (db (appends l w)).
Proof.
  revert w. induction l as [|a l IH]; intros w Hl Hw; [done|]. apply Forall_cons in Hl as [Ha Hl].
  apply IH; [by rewrite append_columns|by apply append_trail_ok].
Qed.

Lemma appends_events {B} l (w : World B) :
  exists r, audit_events (db (appends l w)) = (audit_events (db w) ++ r)%list /\ (numbered (db w) -> numbered (db (appends l w))).
Proof.
  revert w. induction l as [|a l IH]; intros w; [exists []; by rewrite app_nil_r|].
  destruct (append_events a w) as (r1 & H1 & N1). destruct (IH (append a w).2) as (r2 & H2 & N2). exists (r1 ++ r2)%list.
  split; [|by intros ?%N1%N2]. change (appends (a :: l) w) with (appends l (append a w).2). by rewrite H2, H1, app_assoc.
Qed.

Lemma verify_app rows rest h n h' n' total :
  follow rows h n = Some (h', n') -> verify_from (rows ++ rest) h n total = verify_from rest h' n' total.
Proof.
  revert h n. induction rows as [|r rows IH]; intros h n; cbn [follow]; [by intros [= -> ->]|].
  destruct (_ && _ && _) eqn:Hc; [|done]. intros H. bools. cbn [app verify_from].
  repeat match goal with Hb : String.eqb ?x ?y = true |- _ => rewrite Hb; clear Hb end.
  match goal with Hs : ae_sequence r = n |- _ => rewrite Hs, Z.eqb_refl end. cbn [negb orb]. by apply IH.
Qed.


Definition sample_input : AuditInput :=
  audit_input "document.persisted" "document" "persisted"
    <| ai_entity_id := "d-1" |> <| ai_context := [("family", VStr "nfe"); ("xml", VStr "<a/>")] |>.

(** Columns that rewrite one address, as [inet] does. *)
Definition lowering : Columns := MkColumns (fun s => Some (if String.eqb s "2001:DB8::1" then "2001:db8::1" else s)) Some.
Definition audit_world (c : Columns) : World unit := MkWorld empty_db 1700000000000000 7 true c tt.
Definition ipv6_input : AuditInput := sample_input <| ai_ip_address := Some "2001:DB8::1" |>.
Definition ipv6_event : AuditEvent :=
  Eval vm_compute in match (append ipv6_input (audit_world lowering)).1 with
                     | Ok e => e
                     | Err _ => MkAuditEvent 0 0 0 None "" None "" "" "" "" "" "" VNone "" ""
                     end.

Lemma sample_comes_back : comes_back lowering sample_input.
Proof. split; [by intros s t [=]|]. intros v Hv. change (Some (redact (VDict (ai_context sample_input))) = Some v) in Hv. congruence. Qed.


(** An append records exactly one event, or nothing at all.  On success the
    event carries the redacted context and is linked to the previous head, and what
    the columns make of it is the new last row; on failure every table is as it was.  In both cases the
    rest of the database, the clock and the object store are untouched. *)
Theorem append_exact {B} (a : AuditInput) (w w' : World B) (r : result exn AuditEvent) :
  append a w = (r, w') ->
  audit_frame (db w) (db w') /\ same_env w w' /\
  match r with
  | Ok e => (exists row, stored_event (columns w) e = Some row /\ audit_events (db w') = (audit_events (db w) ++ [row])%list) /\
            ae_context e = redact (VDict (ai_context a)) /\
            ae_sequence e = (ac_last_sequence (chain_of w) + 1)%Z /\
            ae_previous_hash e = ac_last_hash (chain_of w) /\
            ae_event_hash e = event_hash (row_payload e (ae_previous_hash e)) /\
            audit_chain (db w') = Some (chain_of w <| ac_last_sequence := ae_sequence e |>
                                                   <| ac_last_hash := ae_event_hash e |>)
  | Err _ => db w' = db w
  end.
Proof.
  intros Ha. split; [by eapply append_frame|]. apply append_run in Ha as [He Ha].
  split; [done|]. destruct r as [e|x]; [|done].
  destruct Ha as (actor & row & _ & -> & Hrow & ->). split; [by exists row|]. repeat split.
Qed.

Lemma append_exact_witness :
  let w := MemoryBucket.world empty_db 1700000000000000 7 in
  exists e w', append sample_input w = (Ok e, w') /\
    audit_events (db w') = ([] ++ [e])%list /\
    ae_context e = VDict [("family", VStr "nfe"); ("xml", VStr REDACTED)].
Proof.
  cbv zeta. eexists _, _.
  assert (forall r w', append sample_input (MemoryBucket.world empty_db 1700000000000000 7) = (r, w') ->
          match r with Ok e => audit_events (db w') = ([] ++ [e])%list | Err _ => True end) as H.
  { intros r w' Ha. destruct (append_exact sample_input _ w' r Ha) as (_ & _ & H). destruct r as [e|x]; [|done].
    destruct H as [(row & Hrow & ->) _]. destruct e. unfold stored_event in Hrow. cbn in Hrow. by destruct ae_ip_address; injection Hrow as <-. }
  split; [vm_compute; reflexivity|].
  split; [|vm_compute; reflexivity].
  specialize (H _ _ eq_refl). vm_compute in H |- *. exact H.
Defined.

Lemma follow_cons_inv row rest h n r :
  follow (row :: rest) h n = Some r ->
  ae_sequence row = n /\ ae_previous_hash row = h /\
  ae_event_hash row = sha256 (canonical_text row h) /\
  follow rest (ae_event_hash row) (n + 1) = Some r.
Proof.
  cbn [follow]. destruct (_ && _ && _) eqn:Hc; [|done]. intros H. bools.
  repeat split; [done | by apply String.eqb_eq | by apply String.eqb_eq | done].
Qed.

Definition sample_trail : list AuditEvent :=
  audit_events (db (appends [sample_input; sample_input] (MemoryBucket.world empty_db 1700000000000000 7))).

Definition sample_row (k : nat) : AuditEvent :=
  nth k sample_trail (MkAuditEvent 0 0 0 None "" None "" "" "" "" "" "" VNone "" "").

(** What [verify] cannot see: it never compares the rows with the recorded
    head of the chain, so every prefix of an intact trail is again reported
    valid - deleting the newest events leaves no trace in its report. *)
Theorem truncation_undetected (rows : list AuditEvent) (k : nat) (d : DB) :
  valid (verify (Some rows) d) = true -> valid (verify (Some (take k rows)) d) = true.
Proof.
  unfold verify. rewrite !verify_follow, !is_some_true. intros [[h n] Hr].
  rewrite <-(take_drop k rows), follow_app in Hr.
  destruct (follow (take k rows) GENESIS_HASH 1) as [p|]; [by exists p | done].
Qed.

Lemma truncation_undetected_witness :
  length sample_trail = 2%nat /\ valid (verify (Some (take 1 sample_trail)) empty_db) = true.
Proof.
  split; [vm_compute; reflexivity|]. apply (truncation_undetected sample_trail 1). vm_compute. reflexivity.
Defined.

(** Nor does it see a newest row replaced by one with a digest of its own. *)
Theorem forged_newest_row_verifies (rows : list AuditEvent) (row forged : AuditEvent) (d : DB) :
  valid (verify (Some (rows ++ [row])%list) d) = true ->
  ae_sequence forged = ae_sequence row -> ae_previous_hash forged = ae_previous_hash row ->
  ae_event_hash forged = event_hash (row_payload forged (ae_previous_hash forged)) ->
  valid (verify (Some (rows ++ [forged])%list) d) = true.
Proof.
  unfold verify. rewrite !verify_follow, !is_some_true, !follow_app. intros [p Hp] Hs Hprev Hh.
  destruct (follow rows GENESIS_HASH 1) as [[h n]|]; [|done]. apply follow_cons_inv in Hp as (Hn & Hq & _ & _).
  cbn [follow]. rewrite Hs, Hn, Z.eqb_refl, Hprev, Hq, String.eqb_refl, Hh, Hprev, Hq, String.eqb_refl. by eexists.
Qed.

Lemma forged_newest_row_verifies_witness :
  sample_trail = [sample_row 0; sample_row 1] /\
  let forged := sample_row 1 <| ae_actor_role := "administrador" |> in
  valid (verify (Some ([sample_row 0] ++ [forged <| ae_event_hash := event_hash (row_payload forged (ae_previous_hash forged)) |>])%list) empty_db) = true.
Proof.
  split; [vm_compute; reflexivity|].
  apply (forged_newest_row_verifies [sample_row 0] (sample_row 1)); vm_compute; reflexivity.
Defined.
