(* ===== verification/AuditFacts.v ===== *)
(** * Tampering with the audit trail

    The digest of the previous row can be read off the text a row's digest is taken
    of, so that a row that keeps its digest vouches for every row before it. *)

From Stdlib Require Import ZArith Ascii String Lia.
From stdpp Require Import base decidable list gmap strings.
From S2P Require Import Prelude PyStr PyVal Sha256 Models AuditTrail.

Local Open Scope string_scope.

(** ** Quotes in JSON texts *)

(** Every quote is preceded by a backslash; [p] is what comes before. *)
Fixpoint escaped (p : ascii) (l : list ascii) : bool :=
  match l with
  | [] => true
  | c :: r => (negb (Ascii.eqb c quote_char) || Ascii.eqb p backslash) && escaped c r
  end.

Lemma escaped_any p l : escaped " " l = true -> escaped p l = true.
Proof.
  destruct l as [|c l]; [done|]. cbn [escaped]. by destruct (Ascii.eqb c quote_char).
Qed.

Lemma escaped_app p l1 l2 : escaped p l1 = true -> escaped " " l2 = true -> escaped p (l1 ++ l2)%list = true.
Proof.
  revert p. induction l1 as [|c l1 IH]; intros p; cbn [app]; [intros _; apply escaped_any|]. cbn [escaped].
  intros [Hc H1]%andb_true_iff H2. rewrite Hc. by apply IH.
Qed.

Lemma escaped_lookup l p i : escaped p l = true -> l !! S i = Some quote_char -> l !! i = Some backslash.
Proof.
  revert p i. induction l as [|c l IH]; intros p i; [done|]. cbn [escaped]. intros [_ H]%andb_true_iff.
  destruct i as [|i]; [|by eapply IH]. destruct l as [|c' l]; [done|]. cbn [escaped] in H. intros [= ->].
  apply andb_true_iff in H as [H _]. rewrite Ascii.eqb_refl in H. cbn [negb orb] in H. by apply Ascii.eqb_eq in H as ->.
Qed.

Lemma escaped_head l : escaped " " l = true -> l !! 0%nat <> Some quote_char.
Proof. destruct l as [|c l]; [done|]. cbn [escaped]. intros H [= ->]. by rewrite Ascii.eqb_refl in H. Qed.

(** The last quote that no backslash precedes splits a text in one way. *)
Lemma last_quote_shorter l1 l2 c1 c2 :
  escaped " " c1 = true -> last l2 <> Some backslash ->
  (l1 ++ quote_char :: c1 = l2 ++ quote_char :: c2)%list -> (length l2 <= length l1)%nat.
Proof.
  intros He Hl H. destruct (decide (length l2 <= length l1)%nat) as [?|Hlt]; [done|exfalso].
  set (k := (length l2 - length l1 - 1)%nat).
  assert (forall n, (l1 ++ quote_char :: c1)%list !! (length l1 + S n)%nat = c1 !! n) as Hright.
  { intros n. rewrite lookup_app_r by lia. by replace (length l1 + S n - length l1)%nat with (S n) by lia. }
  assert (c1 !! k = Some quote_char) as Hq.
  { rewrite <-Hright, H. replace (length l1 + S k)%nat with (length l2) by lia.
    rewrite lookup_app_r by lia. by rewrite Nat.sub_diag. }
  destruct k as [|k'] eqn:Hk; [by apply (escaped_head c1)|]. apply (escaped_lookup _ _ _ He) in Hq.
  apply Hl. rewrite last_lookup. rewrite <-Hright, H in Hq. rewrite lookup_app_l in Hq by lia.
  by replace (pred (length l2)) with (length l1 + S k')%nat by lia.
Qed.

Lemma last_quote l1 l2 c1 c2 :
  escaped " " c1 = true -> escaped " " c2 = true -> last l1 <> Some backslash -> last l2 <> Some backslash ->
  (l1 ++ quote_char :: c1 = l2 ++ quote_char :: c2)%list -> l1 = l2 /\ c1 = c2.
Proof.
  intros E1 E2 L1 L2 H.
  pose proof (last_quote_shorter _ _ _ _ E1 L2 H). pose proof (last_quote_shorter _ _ _ _ E2 L1 (eq_sym H)).
  apply app_inj_1 in H as [-> [= ->]]; [done|lia].
Qed.

(** ** The text of a row *)

Lemma chars_app s t : chars (s ++ t) = (chars s ++ chars t)%list.
Proof. induction s as [|c s IH]; [done|]. rewrite append_cons. change (c :: chars (s ++ t) = c :: (chars s ++ chars t))%list. by rewrite IH. Qed.

Lemma encode_app s t : encode_utf8 (s ++ t) = encode_utf8 s ++ encode_utf8 t.
Proof. induction s as [|c s IH]; [done|]. rewrite append_cons. cbn [encode_utf8]. rewrite IH. by destruct (code c <? 128)%N. Qed.

Definition text (s : string) : list ascii := chars (encode_utf8 s).

Lemma text_app s t : text (s ++ t) = (text s ++ text t)%list.
Proof. unfold text. by rewrite encode_app, chars_app. Qed.

Lemma text_json_string s : text (json_string s) = (quote_char :: text (json_escape s) ++ [quote_char])%list.
Proof. unfold json_string. change (quote_char :: text (json_escape s ++ String quote_char "") = quote_char :: text (json_escape s) ++ [quote_char])%list. by rewrite text_app. Qed.

Lemma escaped_char c : escaped " " (text (json_escape_char c)) = true.
Proof. by destruct c as [[] [] [] [] [] [] [] []]; vm_compute. Qed.

Lemma escaped_text s : escaped " " (text (json_escape s)) = true.
Proof.
  induction s as [|c s IH]; [done|]. change (json_escape (String c s)) with (json_escape_char c ++ json_escape s).
  rewrite text_app. apply escaped_app; [apply escaped_char|exact IH].
Qed.

(** A quoted text before a known end is read off from the right. *)
Lemma read_back X1 X2 s1 s2 R :
  last X1 <> Some backslash -> last X2 <> Some backslash ->
  (X1 ++ text (json_string s1) ++ R = X2 ++ text (json_string s2) ++ R)%list ->
  X1 = X2 /\ text (json_escape s1) = text (json_escape s2).
Proof.
  intros L1 L2 H. apply last_quote; [apply escaped_text..|exact L1|exact L2|]. rewrite !text_json_string in H.
  apply (app_inv_tail (quote_char :: R)).
  assert (forall X s, (X ++ quote_char :: text (json_escape s)) ++ quote_char :: R = X ++ (quote_char :: text (json_escape s) ++ [quote_char]) ++ R)%list as E.
  { intros X s. rewrite <-!app_assoc. cbn [app]. by rewrite <-app_assoc. }
  by rewrite !E.
Qed.

(** The end of a row's text, from the previous digest on. *)
Definition colon : string := ":".
Definition key_text (k : string) : string := "," ++ json_string k ++ colon.

Definition row_end (sequence : Z) : string := key_text "sequence" ++ str_of_Z sequence ++ key_text "v" ++ "1" ++ "}".

Lemma sapp_assoc (a b c : string) : a ++ (b ++ c) = (a ++ b) ++ c.
Proof. induction a as [|x a IH]; [done|]. rewrite !append_cons. by rewrite IH. Qed.

Lemma sorted_members (a b c d e f g h i j k l m n : string) :
  sort_by key_le [("v", a); ("sequence", b); ("occurred_at", c); ("actor_id", d); ("actor_role", e); ("ip_address", f); ("action", g);
    ("entity_type", h); ("entity_id", i); ("result", j); ("reason", k); ("correlation_id", l); ("context", m); ("previous_hash", n)] =
  [("action", g); ("actor_id", d); ("actor_role", e); ("context", m); ("correlation_id", l); ("entity_id", i); ("entity_type", h);
    ("ip_address", f); ("occurred_at", c); ("previous_hash", n); ("reason", k); ("result", j); ("sequence", b); ("v", a)].
Proof. vm_compute. reflexivity. Qed.

Lemma row_text row h : exists L,
  canonical_text row h = encode_utf8 (L ++ colon ++ json_string h ++ key_text "reason" ++ json_string (ae_reason row) ++
    key_text "result" ++ json_string (ae_result row) ++ row_end (ae_sequence row)).
Proof.
  eexists. unfold canonical_text. f_equal. unfold _canonical, row_payload, _event_payload. cbn [json_dumps map fst snd].
  rewrite sorted_members. cbn [map join fst snd]. unfold row_end, key_text, colon. rewrite !sapp_assoc. reflexivity.
Qed.

Lemma last_colon s : last (text (s ++ colon)) <> Some backslash.
Proof. rewrite text_app, last_app. done. Qed.

Lemma read_string A A' s s' R :
  text ((A ++ colon) ++ json_string s ++ R) = text ((A' ++ colon) ++ json_string s' ++ R) ->
  text (A ++ colon) = text (A' ++ colon) /\ text (json_escape s) = text (json_escape s').
Proof. rewrite !(text_app (_ ++ colon)), !(text_app (json_string _)). apply read_back; apply last_colon. Qed.

Lemma hex_text s : sall is_lower_hex s = true -> text (json_escape s) = chars s.
Proof.
  induction s as [|c s IH]; [done|]. cbn [sall]. intros [Hc Hs]%andb_true_iff.
  change (json_escape (String c s)) with (json_escape_char c ++ json_escape s). rewrite text_app, (IH Hs).
  change (chars (String c s)) with ([c] ++ chars s)%list. f_equal.
  revert Hc. clear. by destruct c as [[] [] [] [] [] [] [] []]; vm_compute.
Qed.

(** Rows of one sequence number with the same text have the same previous digest. *)
Lemma previous_of_text row row' h h' :
  ae_sequence row = ae_sequence row' -> is_hex64 h = true -> is_hex64 h' = true ->
  canonical_text row h = canonical_text row' h' -> h = h'.
Proof.
  intros Hs Hh Hh' He. destruct (row_text row h) as [L HL], (row_text row' h') as [L' HL']. rewrite HL, HL', Hs in He. clear HL HL'.
  apply (f_equal chars) in He. change (chars (encode_utf8 ?x)) with (text x) in He. unfold key_text in He.
  assert (forall (x y z : string), x ++ y ++ z = (x ++ y) ++ z) as E by (intros; apply sapp_assoc).
  set (R := row_end _) in He. rewrite !E in He. rewrite <-!(E _ _ R) in He. apply read_string in He as [He _].
  rewrite <-!(E _ (json_string "result") colon), <-!(E _ "," _), <-!(E _ (json_string (ae_reason _)) _) in He.
  apply read_string in He as [He _].
  rewrite <-!(E _ _ colon), <-!(E _ (json_string h) _), <-!(E _ (json_string h') _) in He. apply read_string in He as [_ He].
  unfold is_hex64, re_rep in Hh, Hh'. rewrite !andb_true_iff in Hh, Hh'. rewrite !hex_text in He by tauto.
  apply (f_equal of_chars) in He. by rewrite !of_chars_chars in He.
Qed.

(** ** Tampering *)

Lemma follow_row rows h n p i x : follow rows h n = Some p -> rows !! i = Some x ->
  ae_sequence x = (n + Z.of_nat i)%Z /\ ae_event_hash x = sha256 (canonical_text x (ae_previous_hash x)).
Proof.
  revert h n i. induction rows as [|y rows IH]; intros h n i Hf Hx; [done|]. apply follow_cons_inv in Hf as (Hn & Hp & Hh & Hf).
  destruct i as [|i].
  - injection Hx as <-. rewrite Hp. split; [lia|done].
  - destruct (IH _ _ i Hf Hx) as [H1 H2]. split; [lia|done].
Qed.

Lemma follow_link rows h n p i x y :
  follow rows h n = Some p -> rows !! i = Some x -> rows !! S i = Some y -> ae_previous_hash y = ae_event_hash x.
Proof.
  revert h n i. induction rows as [|z rows IH]; intros h n i Hf Hx Hy; [done|]. apply follow_cons_inv in Hf as (_ & _ & _ & Hf).
  destruct i as [|i]; [|by eapply IH]. injection Hx as <-. destruct rows as [|z' rows]; [done|]. injection Hy as <-.
  by apply follow_cons_inv in Hf as (_ & ? & _).
Qed.

(** Two trails followed to rows of one digest agree in the digest of every row before. *)
Lemma follow_agree rows rows' h n p p' j i x x' r r' :
  follow rows h n = Some p -> follow rows' h n = Some p' -> rows !! i = Some x -> rows' !! i = Some x' ->
  rows !! (i + j)%nat = Some r -> rows' !! (i + j)%nat = Some r' -> ae_event_hash r = ae_event_hash r' ->
  ae_event_hash x = ae_event_hash x' \/ sha256_collision.
Proof.
  intros Hf Hf'. revert i x x'. induction j as [|j IH]; intros i x x' Hx Hx' Hr Hr' He.
  - rewrite Nat.add_0_r in *. left. congruence.
  - assert (exists y y', rows !! S i = Some y /\ rows' !! S i = Some y') as (y & y' & Hy & Hy').
    { assert (is_Some (rows !! S i) /\ is_Some (rows' !! S i)) as [[y ?] [y' ?]]; [|by exists y, y'].
      split; apply lookup_lt_is_Some; [apply lookup_lt_Some in Hr|apply lookup_lt_Some in Hr']; lia. }
    rewrite <-Nat.add_succ_comm in Hr, Hr'. destruct (IH (S i) y y' Hy Hy' Hr Hr' He) as [Hh|?]; [|by right].
    destruct (follow_row _ _ _ _ _ _ Hf Hy) as [Hs Eh], (follow_row _ _ _ _ _ _ Hf' Hy') as [Hs' Eh'].
    destruct (decide (canonical_text y (ae_previous_hash y) = canonical_text y' (ae_previous_hash y'))) as [Ht|Hne].
    + left. rewrite <-(follow_link _ _ _ _ _ _ _ Hf Hx Hy), <-(follow_link _ _ _ _ _ _ _ Hf' Hx' Hy').
      apply (previous_of_text y y'); [by rewrite Hs, Hs'| | |exact Ht].
      * rewrite (follow_link _ _ _ _ _ _ _ Hf Hx Hy). destruct (follow_row _ _ _ _ _ _ Hf Hx) as [_ ->]. apply sha256_hex64.
      * rewrite (follow_link _ _ _ _ _ _ _ Hf' Hx' Hy'). destruct (follow_row _ _ _ _ _ _ Hf' Hx') as [_ ->]. apply sha256_hex64.
    + right. exists (canonical_text y (ae_previous_hash y)), (canonical_text y' (ae_previous_hash y')). split; [done|congruence].
Qed.


(** The first of two events is given another role, with a digest of its own; the
    second is as it was. *)
Definition forged_row : AuditEvent :=
  Eval vm_compute in
    let row := sample_row 0 <| ae_actor_role := "administrador" |> in
    row <| ae_event_hash := event_hash (row_payload row (ae_previous_hash row)) |>.

