(* ===== verification/Identity.v ===== *)
(** * Roles and the authorization policy (identity/policy.py, identity/services.py) *)

From Stdlib Require Import ZArith Ascii String Lia.
From stdpp Require Import base decidable list gmap strings.
From S2P Require Import Prelude PyStr PyVal Models.

Local Open Scope string_scope.

(** [identity.services.SessionIdentity] *)
Record SessionIdentity : Type := MkSessionIdentity {
  si_user_id : string; si_email : string; si_name : string; si_role : string }.

(** [identity.policy.Action] *)
Module Action.
Variant t : Set :=
| CHANGE_OWN_PASSWORD | ADMINISTER_USERS | ADMINISTER_COMPANIES | ADMINISTER_CERTIFICATES
| CONTROL_COLLECTIONS | READ_DOCUMENTS | DOWNLOAD_DOCUMENTS | CREATE_ZIP | DOWNLOAD_OWN_ZIP
| DOWNLOAD_ANY_ZIP | READ_RETENTION | DELETE_RETENTION | ADMINISTER_SYSTEM.
#[global] Instance eq_dec : EqDecision t.
Proof. solve_decision. Defined.
Definition values : list t :=
  [CHANGE_OWN_PASSWORD; ADMINISTER_USERS; ADMINISTER_COMPANIES; ADMINISTER_CERTIFICATES; CONTROL_COLLECTIONS; READ_DOCUMENTS;
   DOWNLOAD_DOCUMENTS; CREATE_ZIP; DOWNLOAD_OWN_ZIP; DOWNLOAD_ANY_ZIP; READ_RETENTION; DELETE_RETENTION; ADMINISTER_SYSTEM].
Definition value (x : t) : string :=
  match x with
  | CHANGE_OWN_PASSWORD => "change_own_password"
  | ADMINISTER_USERS => "administer_users"
  | ADMINISTER_COMPANIES => "administer_companies"
  | ADMINISTER_CERTIFICATES => "administer_certificates"
  | CONTROL_COLLECTIONS => "control_collections"
  | READ_DOCUMENTS => "read_documents"
  | DOWNLOAD_DOCUMENTS => "download_documents"
  | CREATE_ZIP => "create_zip"
  | DOWNLOAD_OWN_ZIP => "download_own_zip"
  | DOWNLOAD_ANY_ZIP => "download_any_zip"
  | READ_RETENTION => "read_retention"
  | DELETE_RETENTION => "delete_retention"
  | ADMINISTER_SYSTEM => "administer_system"
  end.
Definition of_value (s : string) : option t := find_value value values s.
End Action.

Definition _OPERATOR_ACTIONS : list Action.t :=
  [Action.CHANGE_OWN_PASSWORD; Action.ADMINISTER_COMPANIES; Action.ADMINISTER_CERTIFICATES;
   Action.CONTROL_COLLECTIONS; Action.READ_DOCUMENTS; Action.DOWNLOAD_DOCUMENTS;
   Action.CREATE_ZIP; Action.DOWNLOAD_OWN_ZIP].

Definition _VIEWER_ACTIONS : list Action.t :=
  [Action.CHANGE_OWN_PASSWORD; Action.READ_DOCUMENTS; Action.DOWNLOAD_DOCUMENTS;
   Action.CREATE_ZIP; Action.DOWNLOAD_OWN_ZIP].

(** [authorize(role, action, owner_id=..., actor_id=...)] *)
Definition authorize (role : string) (action : Action.t) (owner_id actor_id : option string) : bool :=
  if String.eqb role (Role.value Role.ADMINISTRATOR) then true
  else if bool_decide (action = Action.DOWNLOAD_OWN_ZIP) && negb (bool_decide (owner_id = actor_id))
  then false
  else if String.eqb role (Role.value Role.OPERATOR) then bool_decide (action ∈ _OPERATOR_ACTIONS)
  else if String.eqb role (Role.value Role.VIEWER) then bool_decide (action ∈ _VIEWER_ACTIONS)
  else false.

(** [identity.services.require_authorized]: [authorize] on the session a request
    carries, fail-closed. *)
Definition require_authorized (identity : option SessionIdentity) (action : string) (owner_id : option string) : bool :=
  match Action.of_value action, identity with
  | Some requested, Some i => authorize (si_role i) requested owner_id (Some (si_user_id i))
  | _, _ => false
  end.

(** The policy is fail-closed and its roles are nested: a role that is not one
    of the three grants nothing; whatever a viewer may do an operator may do,
    and whatever an operator may do an administrator may do, for every action
    and every owner; and only the owner of an export, or an administrator,
    passes the own-download check. *)
Theorem authorize_nested (action : Action.t) (owner actor : option string) (role : string) :
  (authorize (Role.value Role.VIEWER) action owner actor = true ->
   authorize (Role.value Role.OPERATOR) action owner actor = true) /\
  (authorize (Role.value Role.OPERATOR) action owner actor = true ->
   authorize (Role.value Role.ADMINISTRATOR) action owner actor = true) /\
  (Role.of_value role = None -> authorize role action owner actor = false) /\
  (owner <> actor -> authorize role Action.DOWNLOAD_OWN_ZIP owner actor = true ->
   role = Role.value Role.ADMINISTRATOR).
Proof.
  repeat split.
  - unfold authorize; simpl. destruct (bool_decide (owner = actor)), action; vm_compute; done.
  - unfold Role.of_value, find_value, authorize, Role.values. cbn [List.find Role.value].
    rewrite !(String.eqb_sym _ role).
    destruct (String.eqb role "administrador"); [done|]. destruct (String.eqb role "operador"); [done|].
    destruct (String.eqb role "visualizador"); [done|]. by destruct (_ && _).
  - intros Hne. unfold authorize. destruct (String.eqb role _) eqn:Hr; [by apply String.eqb_eq in Hr|].
    by rewrite (bool_decide_eq_false_2 _ Hne).
Qed.

Lemma authorize_nested_witness :
  authorize "operador" Action.CONTROL_COLLECTIONS None (Some "u") = true /\
  authorize "visualizador" Action.CONTROL_COLLECTIONS None (Some "u") = false /\
  authorize "root" Action.READ_DOCUMENTS None None = false.
Proof.
  split; [reflexivity|]. split; [reflexivity|].
  apply (authorize_nested Action.READ_DOCUMENTS None None "root"). reflexivity.
Defined.
