(* ===== verification/Companies.v ===== *)
(** * Companies (companies/services.py, companies/models.py)

    The lifecycle of a company and of its collection flows, the normalisation
    of the CNPJ, the evidence of ADN coverage and of the public registry, and
    the bounded list the dashboard pages through (companies/views.py).  Error
    messages are written without accents; nothing reads them. *)

From Stdlib Require Import ZArith Ascii String Lia.
From stdpp Require Import base decidable list gmap strings.
From S2P Require Import Prelude PyStr PyVal Models Tables AuditTrail Identity.

Local Open Scope string_scope.

(** ** CNPJ *)

(** [re.sub(r"[.\-/\s]", "", value).upper()] *)
Definition cnpj_noise (c : ascii) : bool := char_in ".-/" c || is_space c.

Definition strip_cnpj (value : string) : string := upper (sfilter (fun c => negb (cnpj_noise c)) value).

Definition cnpj_char (c : ascii) : bool := is_upper c || is_digit c.

(** [_CNPJ_CHARS.fullmatch] *)
Definition _CNPJ_CHARS (s : string) : bool := str_nonempty s && sall cnpj_char s.

Definition digit (c : ascii) : Z := Z.of_N (code c) - 48.

(** [sum(int(digit) * weight for digit, weight in zip(s, weights))] *)
Fixpoint weighted (s : string) (weights : list Z) : Z :=
  match s, weights with
  | String c r, w :: ws => digit c * w + weighted r ws
  | _, _ => 0
  end%Z.

Definition FIRST_WEIGHTS : list Z := [5; 4; 3; 2; 9; 8; 7; 6; 5; 4; 3; 2]%Z.
Definition SECOND_WEIGHTS : list Z := [6; 5; 4; 3; 2; 9; 8; 7; 6; 5; 4; 3; 2]%Z.

Definition check_digit (total : Z) : Z := (11 - total mod 11) mod 10.

(** The two check digits of the first twelve. *)
Definition check_digits (base : string) : string :=
  let first_digit := check_digit (weighted base FIRST_WEIGHTS) in
  let second := weighted (base ++ str_of_Z first_digit) SECOND_WEIGHTS in
  str_of_Z first_digit ++ str_of_Z (check_digit second).

Definition one_character (s : string) : bool :=
  match s with EmptyString => false | String c r => sall (Ascii.eqb c) r end.

Definition normalize_cnpj (value : string) : result exn string :=
  let normalized := strip_cnpj value in
  if negb (_CNPJ_CHARS normalized) then Err InvalidCnpj
  else if sall is_digit normalized then
    if negb (Nat.eqb (String.length normalized) 14) || one_character normalized then Err InvalidCnpj
    else if negb (String.eqb (String.substring 12 2 normalized) (check_digits (stake 12 normalized)))
    then Err InvalidCnpj
    else Ok normalized
  else Ok normalized.

(** ** The list filter *)

Definition COMPANY_LIFECYCLE_STATUS_FILTERS : list (string * list CompanyStatus.t) :=
  [("active", [CompanyStatus.ACTIVE]); ("inactive", [CompanyStatus.REGISTERED; CompanyStatus.DEACTIVATED])].

Definition COMPANY_LIST_QUERY_KEYS : list string := ["lifecycle"; "status"; "search"; "limit"; "cursor"].
Definition MAX_COMPANY_LIST_SEARCH_LENGTH : Z := 255.
Definition MAX_COMPANY_LIST_ROWS : Z := 100.

Fixpoint assoc {A} (key : string) (l : list (string * A)) : option A :=
  match l with
  | [] => None
  | (k, v) :: r => if String.eqb k key then Some v else assoc key r
  end.

Record CompanyListFilter : Type := MkCompanyListFilter {
  cf_lifecycle : option string; cf_status : option CompanyStatus.t; cf_search : option string;
  cf_limit : Z; cf_cursor : option N }.

(** The property [statuses]; the lifecycle of a normalised filter is a key of the table. *)
Definition statuses (f : CompanyListFilter) : option (list CompanyStatus.t) :=
  match cf_lifecycle f with
  | Some l => assoc l COMPANY_LIFECYCLE_STATUS_FILTERS
  | None => option_map (fun s => [s]) (cf_status f)
  end.

(** A request's query string (with [getlist]), or a plain mapping. *)
Inductive Query : Type :=
| QueryDict (params : list (string * list pyval))
| PlainDict (params : pydict).

Definition query_keys (q : Query) : list string :=
  match q with QueryDict p => map fst p | PlainDict p => map fst p end.

Definition _company_query_values (q : Query) (key : string) : list pyval :=
  match q with
  | QueryDict p => opt_default [] (assoc key p)
  | PlainDict p => match assoc key p with
                   | Some (VList l) | Some (VTuple l) => l
                   | Some VNone | None => []
                   | Some v => [v]
                   end
  end.

Definition list_error {A} (msg : string) : result exn A := Err (CompanyListQueryError msg).

(** [None] and the Python [None] are the same here. *)
Definition _company_query_single (q : Query) (key : string) : result exn pyval :=
  match _company_query_values q key with
  | [] => Ok VNone
  | [v] => Ok v
  | _ => list_error "company list parameter is repeated"
  end.

(** [int(str(value))]: base ten, blanks around, a sign, single underscores. *)
Definition int_of_str (s : string) : option Z :=
  let t := strip s in
  let '(neg, t) := match t with
                   | String "-" r => (true, r)
                   | String "+" r => (false, r)
                   | _ => (false, t)
                   end in
  match digits_value_us 10 0 false (chars t) with
  | Some n => if Nat.leb (String.length (sfilter is_digit t)) 4300
              then Some (if neg then (- Z.of_N n)%Z else Z.of_N n) else None
  | None => None
  end.

Definition int_of_value (v : pyval) : option Z :=
  match v with
  | VInt z => Some z
  | VStr s | VOther s => int_of_str s
  | _ => None
  end.

(** [value in (None, "")] *)
Definition none_or_empty (v : pyval) : bool :=
  match v with VNone | VStr EmptyString => true | _ => false end.

Definition list_lifecycle (v : pyval) : result exn (option string) :=
  match v with
  | VNone => Ok None
  | VStr s => if is_some (assoc s COMPANY_LIFECYCLE_STATUS_FILTERS) then Ok (Some s)
              else list_error "company lifecycle filter is invalid"
  | _ => list_error "company lifecycle filter is invalid"
  end.

Definition list_status (v : pyval) : result exn (option CompanyStatus.t) :=
  if none_or_empty v then Ok None else
  match v with
  | VStr s => match CompanyStatus.of_value s with
              | Some st => Ok (Some st)
              | None => list_error "company status filter is invalid"
              end
  | _ => list_error "company status filter is invalid"
  end.

Definition list_search (v : pyval) : result exn (option string) :=
  if none_or_empty v then Ok None else
  match v with
  | VStr s =>
      let search := strip s in
      if Z.ltb MAX_COMPANY_LIST_SEARCH_LENGTH (slen search) || negb (sall (fun c => N.leb 32 (code c)) search)
      then list_error "company search is invalid"
      else Ok (if str_nonempty search then Some search else None)
  | _ => list_error "company search is invalid"
  end.

Definition list_limit (v : pyval) : result exn Z :=
  match (match v with VNone => Some 50%Z | _ => int_of_value v end) with
  | Some limit => Ok (Z.min (Z.max limit 1) MAX_COMPANY_LIST_ROWS)
  | None => list_error "company limit is invalid"
  end.

Definition list_cursor (v : pyval) : result exn (option N) :=
  if none_or_empty v then Ok None else
  match v with
  | VStr s => match parse_uuid s with
              | Some u => Ok (Some u)
              | None => list_error "company cursor is invalid"
              end
  | _ => list_error "company cursor is invalid"
  end.

Definition normalize_company_list_filter (q : Query) : result exn CompanyListFilter :=
  if negb (forallb (fun k => str_in k COMPANY_LIST_QUERY_KEYS) (query_keys q))
  then list_error "unsupported company list parameter"
  else
    check* lifecycle_value := _company_query_single q "lifecycle" in
    check* lifecycle := list_lifecycle lifecycle_value in
    check* status_value := _company_query_single q "status" in
    check* status := list_status status_value in
    if is_some lifecycle && is_some status then list_error "company filters conflict" else
    check* search_value := _company_query_single q "search" in
    check* search := list_search search_value in
    check* limit_value := _company_query_single q "limit" in
    check* limit := list_limit limit_value in
    check* cursor_value := _company_query_single q "cursor" in
    check* cursor := list_cursor cursor_value in
    Ok (MkCompanyListFilter lifecycle status search limit cursor).

Definition company_queryset_for_lifecycle (lifecycle : string) (d : DB) : result exn (list Company) :=
  match assoc lifecycle COMPANY_LIFECYCLE_STATUS_FILTERS with
  | Some ss => Ok (select (fun c => bool_decide (co_status c ∈ ss)) (companies d))
  | None => list_error "company lifecycle filter is invalid"
  end.

(** ** The services *)

Definition company_width (c : Company) : bool :=
  Nat.leb (String.length (co_cnpj c)) 64 && Nat.leb (String.length (co_legal_name c)) 255 &&
  match co_deactivation_reason c with Some r => Nat.leb (String.length r) 1000 | None => true end &&
  Z.leb (co_version c) 2147483647.

(** nfx_company_deactivated_reason_ck *)
Definition company_check (c : Company) : bool :=
  negb (bool_decide (co_status c = CompanyStatus.DEACTIVATED)) ||
  match co_deactivation_reason c with Some r => str_nonempty r | None => false end.

Definition cnpj_taken (c : Company) (d : DB) : bool :=
  exists_row (fun x => String.eqb (co_cnpj x) (co_cnpj c) && negb (N.eqb (co_id x) (co_id c))) (companies d).

Definition new_company (id : N) (now : Z) (cnpj name : string) : Company :=
  MkCompany id cnpj name CompanyStatus.REGISTERED None None None 1 now now.

Definition new_flow (id : N) (now : Z) (company : N) (family : FlowFamily.t) : CompanyFlow :=
  MkCompanyFlow id company family FlowState.ENABLED "idle" None None None None "" "" 0 0 None now.

Definition flow_of (company : N) (family : FlowFamily.t) (f : CompanyFlow) : bool :=
  N.eqb (fl_company f) company && bool_decide (fl_family f = family).

Definition vdatetime_opt (t : option Z) : pyval :=
  match t with Some t => VOther (datetime_str t) | None => VNone end.

(** The ["after"] member of [_context]. *)
Definition company_fields (c : Company) : pyval :=
  VDict [("cnpj", VStr (co_cnpj c)); ("legal_name", VStr (co_legal_name c));
         ("status", VStr (CompanyStatus.value (co_status c)));
         ("first_collection_at", vdatetime_opt (co_first_collection_at c));
         ("version", VInt (co_version c))].

Definition _context (c : Company) : pydict := [("after", company_fields c)].

(** [_context(after)] with [before] under its own key. *)
Definition change_context (before after : Company) : pydict :=
  [("after", company_fields after); ("before", company_fields before)].

Definition company_audit (action : string) (actor : SessionIdentity) (company : N) (ip reason : string)
    (context : pydict) : AuditInput :=
  MkAuditInput action "company" "success" (Some (RefStr (si_user_id actor))) (si_role actor) (Some ip)
    (uuid_str company) reason "" context.

(** [_SAFE_ADN_REFERENCE.fullmatch] *)
Definition adn_char (c : ascii) : bool := is_alpha c || is_digit c || char_in "_.:/-" c.
Definition _SAFE_ADN_REFERENCE (s : string) : bool := re_rep adn_char 1 128 s.

(** nfx_adn_coverage_source_ck and the other checks, and the column widths. *)
Definition adn_fits (a : AdnCoverageSnapshot) : bool :=
  Nat.leb (String.length (ad_source a)) 64 && Nat.leb (String.length (ad_evidence_reference a)) 128 &&
  Nat.leb (String.length (ad_policy_version a)) 128.

Definition adn_check (a : AdnCoverageSnapshot) : bool :=
  re_rep adn_char 1 64 (ad_source a) && re_rep adn_char 1 128 (ad_policy_version a) &&
  (negb (str_nonempty (ad_evidence_reference a)) || re_rep adn_char 1 128 (ad_evidence_reference a)).

(** adapters/opencnpj.py: [OpenCnpjResponse] *)
Record OpenCnpjResponse : Type := MkOpenCnpjResponse {
  oc_status : string; oc_payload : pyval; oc_error_code : string }.

(** What a client's [fetch] does: an answer, another object, or an exception
    (by the name of its class). *)
Inductive fetched : Type :=
| Response (r : OpenCnpjResponse)
| Raw (v : pyval)
| RaisedTimeout (class_name : string)
| RaisedFileNotFound (class_name : string)
| Raised (class_name : string).

Definition is_container (v : pyval) : bool := match v with VDict _ | VList _ => true | _ => false end.

Definition bare (status error_code : string) : OpenCnpjResponse := MkOpenCnpjResponse status VNone error_code.

Definition _normalize_response (r : OpenCnpjResponse) : OpenCnpjResponse :=
  if String.eqb (oc_status r) "success" && negb (is_container (oc_payload r))
  then bare "malformed" "conteudo_invalido" else r.

Definition _normalize_raw (v : pyval) : OpenCnpjResponse :=
  match v with
  | VDict _ => MkOpenCnpjResponse "success" v ""
  | VNone => bare "empty" ""
  | _ => bare "malformed" "resposta_nao_json"
  end.

Definition settle_fetch (f : fetched) : OpenCnpjResponse :=
  match f with
  | Response r => _normalize_response r
  | Raw v => _normalize_raw v
  | RaisedTimeout n => bare "timeout" n
  | RaisedFileNotFound n => bare "not_found" n
  | Raised n => bare "unavailable" n
  end.

Definition status_map (s : string) : EnrichmentStatus.t :=
  opt_default EnrichmentStatus.UNAVAILABLE
    (assoc s [("success", EnrichmentStatus.SUCCESS); ("empty", EnrichmentStatus.EMPTY);
              ("not_found", EnrichmentStatus.NOT_FOUND); ("timeout", EnrichmentStatus.TIMEOUT);
              ("unavailable", EnrichmentStatus.UNAVAILABLE); ("malformed", EnrichmentStatus.MALFORMED)]).

(** Status and payload as they are stored. *)
Definition enrichment_outcome (r : OpenCnpjResponse) : EnrichmentStatus.t * pyval :=
  let status := status_map (oc_status r) in
  let payload := if decide (status = EnrichmentStatus.SUCCESS) then oc_payload r else VDict [] in
  if bool_decide (status = EnrichmentStatus.SUCCESS) && negb (is_container payload)
  then (EnrichmentStatus.MALFORMED, VDict []) else (status, payload).

Section services.
Context {B : Type}.

Definition _require_company_access (actor : SessionIdentity) : M B unit :=
  require (authorize (si_role actor) Action.ADMINISTER_COMPANIES None (Some (si_user_id actor)))
    (CompanyError "Acesso de empresa necessario.").

Definition _validated_name (value : string) : M B string :=
  require (str_nonempty (strip value)) (CompanyError "Razao social obrigatoria.") ;;; ret (strip value).

Definition _validated_reason (value : string) : M B string :=
  require (str_nonempty (strip value)) (CompanyError "Motivo obrigatorio.") ;;; ret (strip value).

Definition _company (company_id : uuid_ref) : M B Company :=
  let* id := of_option (uuid_of company_id) ValidationError in
  let* row := query (fun d => companies d !! id) in
  of_option row CompanyNotFound.

(** [Company.objects.create] and [company.save]: widths, the unique CNPJ, the check. *)
Definition save_company (c : Company) : M B unit :=
  require (company_width c) DataError ;;;
  let* taken := query (cnpj_taken c) in
  require (negb taken && company_check c) IntegrityError ;;;
  write (fun d => d <| companies ::= put (co_id c) c |>).

Definition save_flow (f : CompanyFlow) : M B unit :=
  write (fun d => d <| flows ::= put (fl_id f) f |>).

Definition create_flow (company : N) (family : FlowFamily.t) : M B unit :=
  let* id := uuid4 in
  let* now := timezone_now in
  let* taken := query (fun d => exists_row (flow_of company family) (flows d)) in
  require (negb taken) IntegrityError ;;;
  save_flow (new_flow id now company family).

Definition audit (a : AuditInput) : M B unit := let* _ := append a in ret tt.

(** A handler of one class of exceptions. *)
Definition except_integrity {A} (m : M B A) (e : exn) : M B A :=
  try_except m (fun x => match x with IntegrityError => throw e | _ => throw x end).

Definition create_company (actor : SessionIdentity) (cnpj legal_name ip_address : string) : M B Company :=
  _require_company_access actor ;;;
  let* normalized := lift_result (normalize_cnpj cnpj) in
  let* name := _validated_name legal_name in
  except_integrity
    (atomic (
       let* id := uuid4 in
       let* now := timezone_now in
       let company := new_company id now normalized name in
       save_company company ;;;
       for_each FlowFamily.values (create_flow id) ;;;
       audit (company_audit "company.create" actor id ip_address "" (_context company)) ;;;
       ret company))
    DuplicateCompanyCnpj.

Definition update_company (actor : SessionIdentity) (company_id : string) (version : Z) (legal_name : string)
    (cnpj : option string) (ip_address : string) : M B Company :=
  _require_company_access actor ;;;
  let* name := _validated_name legal_name in
  atomic (
    let* company := _company (RefStr company_id) in
    require (Z.eqb (co_version company) version) CompanyVersionConflict ;;;
    let* normalized := match cnpj with
                       | None => ret (co_cnpj company)
                       | Some c => lift_result (normalize_cnpj c)
                       end in
    require (negb (is_some (co_first_collection_at company) && negb (String.eqb normalized (co_cnpj company))))
      CompanyCnpjImmutable ;;;
    let* now := timezone_now in
    let changed := company <| co_cnpj := normalized |> <| co_legal_name := name |>
                           <| co_version ::= Z.succ |> <| co_updated_at := now |> in
    except_integrity (save_company changed) DuplicateCompanyCnpj ;;;
    audit (company_audit "company.update" actor (co_id company) ip_address "" (change_context company changed)) ;;;
    ret changed).

Definition deactivate_company (actor : SessionIdentity) (company_id reason ip_address : string) : M B Company :=
  _require_company_access actor ;;;
  let* reason := _validated_reason reason in
  atomic (
    let* company := _company (RefStr company_id) in
    let* now := timezone_now in
    let changed := company <| co_status := CompanyStatus.DEACTIVATED |> <| co_deactivation_reason := Some reason |>
                           <| co_deactivated_at := Some now |> <| co_version ::= Z.succ |> <| co_updated_at := now |> in
    save_company changed ;;;
    audit (company_audit "company.deactivate" actor (co_id company) ip_address reason (change_context company changed)) ;;;
    ret changed).

Definition activate_company (actor : SessionIdentity) (company_id ip_address : string) : M B Company :=
  _require_company_access actor ;;;
  atomic (
    let* company := _company (RefStr company_id) in
    let* now := timezone_now in
    let changed := company <| co_status := CompanyStatus.ACTIVE |> <| co_version ::= Z.succ |>
                           <| co_updated_at := now |> in
    save_company changed ;;;
    audit (company_audit "company.activate" actor (co_id company) ip_address "" (change_context company changed)) ;;;
    ret changed).

Definition get_flow (company : N) (family : FlowFamily.t) : M B CompanyFlow :=
  let* found := query (fun d => select (flow_of company family) (flows d)) in
  match found with
  | [f] => ret f
  | [] => throw DoesNotExist
  | _ => throw MultipleObjectsReturned
  end.

Definition set_flow_state (actor : SessionIdentity) (company_id family state ip_address : string) : M B CompanyFlow :=
  _require_company_access actor ;;;
  let* family := of_option (FlowFamily.of_value family) InvalidCompanyFlow in
  let* state := of_option (FlowState.of_value state) InvalidCompanyFlow in
  atomic (
    let* company := _company (RefStr company_id) in
    require (bool_decide (co_status company = CompanyStatus.ACTIVE)) CompanyInactive ;;;
    let* flow := get_flow (co_id company) family in
    let* now := timezone_now in
    let changed := flow <| fl_state := state |> <| fl_updated_at := now |> in
    save_flow changed ;;;
    audit (MkAuditInput "company.flow_change" "company_flow" "success" (Some (RefStr (si_user_id actor)))
             (si_role actor) (Some ip_address) (str_of_N (fl_id flow)) "" ""
             [("company_id", VStr (uuid_str (co_id company))); ("family", VStr (FlowFamily.value family));
              ("before", VStr (FlowState.value (fl_state flow))); ("after", VStr (FlowState.value state))]) ;;;
    ret changed).

Definition mark_first_collection (company_id : uuid_ref) (collected_at : option Z) : M B Company :=
  atomic (
    let* company := _company company_id in
    match co_first_collection_at company with
    | Some _ => ret company
    | None =>
        let* now := timezone_now in
        let changed := company <| co_first_collection_at := Some (opt_default now collected_at) |>
                               <| co_version ::= Z.succ |> <| co_updated_at := now |> in
        save_company changed ;;;
        ret changed
    end).

Definition can_execute_flow (company_id : uuid_ref) (family : string) (certificate_valid : bool) : M B bool :=
  match FlowFamily.of_value family with
  | None => ret false
  | Some fam =>
      if negb certificate_valid then ret false else
      let* id := of_option (uuid_of company_id) ValidationError in
      let* row := autocommit (query (fun d => companies d !! id)) in
      match row with
      | Some c =>
          if bool_decide (co_status c = CompanyStatus.ACTIVE)
          then autocommit (query (fun d =>
                 exists_row (fun f => flow_of id fam f && bool_decide (fl_state f = FlowState.ENABLED)) (flows d)))
          else ret false
      | None => ret false
      end
  end.

(** Two transactions: the snapshot, then its audit event. *)
Definition record_adn_coverage (company_id : uuid_ref) (source status policy_version evidence_reference : string)
    (verified_at : option Z) : M B AdnCoverageSnapshot :=
  require (_SAFE_ADN_REFERENCE source) (CompanyError "ADN coverage source is invalid.") ;;;
  require (_SAFE_ADN_REFERENCE policy_version) (CompanyError "ADN coverage policy is invalid.") ;;;
  require (negb (str_nonempty evidence_reference) || _SAFE_ADN_REFERENCE evidence_reference)
    (CompanyError "ADN coverage evidence is invalid.") ;;;
  let* normalized := of_option (AdnCoverageStatus.of_value status) (CompanyError "ADN coverage status is invalid.") in
  let* company := autocommit (_company company_id) in
  let* id := uuid4 in
  let* now := timezone_now in
  let snapshot := MkAdnCoverageSnapshot id (co_id company) source normalized (opt_default now verified_at)
                    evidence_reference policy_version in
  autocommit (
    require (adn_fits snapshot) DataError ;;;
    require (adn_check snapshot) IntegrityError ;;;
    write (fun d => d <| adn_coverage ::= put id snapshot |>)) ;;;
  audit (MkAuditInput "adn.coverage" "adn_coverage" (AdnCoverageStatus.value normalized) None "system" None
           (uuid_str id) "" ""
           [("company_id", VStr (uuid_str (co_id company))); ("source", VStr source);
            ("status", VStr (AdnCoverageStatus.value normalized)); ("policy_version", VStr policy_version);
            ("evidence_reference", VStr evidence_reference)]) ;;;
  ret snapshot.

(** [duration_ms] is what the performance counter measured, as Python prints it. *)
Definition request_enrichment (actor : SessionIdentity) (company_id : string) (fetch : string -> fetched)
    (duration_ms ip_address : string) : M B EnrichmentSnapshot :=
  _require_company_access actor ;;;
  let* company := autocommit (_company (RefStr company_id)) in
  let response := settle_fetch (fetch (co_cnpj company)) in
  let '(status, payload) := enrichment_outcome response in
  atomic (
    let* id := uuid4 in
    let* now := timezone_now in
    let snapshot := MkEnrichmentSnapshot id (co_id company) "opencnpj" (co_cnpj company) now status true payload
                      (oc_error_code response) in
    require (json_storable payload) TypeError ;;;
    require (Nat.leb (String.length (oc_error_code response)) 64) DataError ;;;
    write (fun d => d <| enrichment ::= put id snapshot |>) ;;;
    audit (MkAuditInput "company.enrichment" "company" (EnrichmentStatus.value status)
             (Some (RefStr (si_user_id actor))) (si_role actor) (Some ip_address) (uuid_str (co_id company)) "" ""
             [("source", VStr "opencnpj"); ("status", VStr (EnrichmentStatus.value status));
              ("duration_ms", VFloat duration_ms)]) ;;;
    ret snapshot).

End services.

(** ** The list the dashboard pages through

    [icontains] is PostgreSQL's case-insensitive containment. *)

Section listing.
Context (icontains : string -> string -> bool).

Definition matches (f : CompanyListFilter) (c : Company) : bool :=
  match statuses f with Some ss => bool_decide (co_status c ∈ ss) | None => true end &&
  match cf_search f with
  | Some s => icontains (co_legal_name c) s || icontains (co_cnpj c) s
  | None => true
  end.

Definition after_cursor (f : CompanyListFilter) (c : Company) : bool :=
  match cf_cursor f with Some u => N.ltb u (co_id c) | None => true end.

Definition by_id (a b : Company) : bool := N.leb (co_id a) (co_id b).

Definition company_list_queryset (f : CompanyListFilter) (apply_cursor : bool) (d : DB) : list Company :=
  sort_by by_id (select (fun c => matches f c && (negb apply_cursor || after_cursor f c)) (companies d)).

(** companies/views.py, [companies]: the answer to one list request. *)
Record CompanyPage : Type := MkCompanyPage {
  cpg_companies : list Company; cpg_total : nat; cpg_limit : Z; cpg_truncated : bool;
  cpg_next_cursor : option string }.

Definition company_page (f : CompanyListFilter) (d : DB) : CompanyPage :=
  let limit := Z.to_nat (cf_limit f) in
  let total := length (company_list_queryset f false d) in
  let rows := take (S limit) (company_list_queryset f true d) in
  let truncated := Nat.ltb limit (length rows) in
  MkCompanyPage (take limit rows) total (cf_limit f) truncated
    (if truncated then option_map (fun c => uuid_str (co_id c)) (nth_error rows (Nat.pred limit)) else None).

End listing.

#[global] Arguments save_company : simpl never.
#[global] Arguments save_flow : simpl never.
#[global] Arguments create_company : simpl never.
#[global] Arguments update_company : simpl never.
#[global] Arguments deactivate_company : simpl never.
#[global] Arguments activate_company : simpl never.
#[global] Arguments set_flow_state : simpl never.
#[global] Arguments mark_first_collection : simpl never.
#[global] Arguments record_adn_coverage : simpl never.
#[global] Arguments request_enrichment : simpl never.
#[global] Arguments company_list_queryset : simpl never.

Example normalize_known : normalize_cnpj "11.222.333/0001-81" = Ok "11222333000181".
Proof. reflexivity. Qed.
