(* ===== verification/CompanyFacts.v ===== *)
(** * What the company services guarantee

    The CNPJ a company is stored under, the pages of the list, and the
    lifecycle of companies and flows as a refinement of an abstract state
    machine. *)

From Stdlib Require Import ZArith Ascii String Lia.
From stdpp Require Import base decidable list gmap strings sorting relations.
From S2P Require Import Prelude PyStr PyVal Models Tables Redaction AuditTrail Identity Companies.

Local Open Scope string_scope.

(** ** CNPJ *)

Lemma cnpj_char_kept c : cnpj_char c = true -> cnpj_noise c = false /\ upper_char c = String c EmptyString.
Proof. destruct c as [[] [] [] [] [] [] [] []]; intros H; (discriminate H || done). Qed.

Lemma strip_cnpj_kept s : sall cnpj_char s = true -> strip_cnpj s = s.
Proof.
  unfold strip_cnpj. induction s as [|c s IH]; [done|]. cbn [sall sfilter].
  intros [[Hn Hu]%cnpj_char_kept Hs]%andb_true_iff. rewrite Hn. cbn [negb upper]. by rewrite Hu, (IH Hs).
Qed.

Lemma substring_split n m s : String.length s = (n + m)%nat -> s = stake n s ++ String.substring n m s.
Proof.
  unfold stake. revert n. induction s as [|c s IH]; intros [|n] Hl; cbn in *; try done; try lia.
  - by destruct m.
  - destruct m as [|m]; [lia|]. rewrite append_nil. f_equal. clear IH. injection Hl as Hl. subst m.
    induction s as [|d s IH]; cbn; [done|]. by f_equal.
  - rewrite append_cons. f_equal. apply IH. lia.
Qed.

(** What normalises to [n] is read back as [n]. *)
Lemma normalize_fixed value n :
  normalize_cnpj value = Ok n -> n = strip_cnpj value /\ _CNPJ_CHARS n = true /\ normalize_cnpj n = Ok n.
Proof.
  unfold normalize_cnpj. set (s := strip_cnpj value).
  destruct (_CNPJ_CHARS s) eqn:Hc; cbn [negb]; [|done].
  assert (strip_cnpj s = s) as Hs by (apply strip_cnpj_kept; unfold _CNPJ_CHARS in Hc; by bools).
  intros Hn. assert (n = s) as -> by (by repeat case_match; simplify_eq). by rewrite Hs, Hc.
Qed.

(** A normalised CNPJ is a fixed point of the normalisation: capital letters and
    digits only, without separators, and - when it is numeric - fourteen
    digits, not all the same, that end in the two check digits computed from
    the first twelve. *)
Theorem normalize_cnpj_canonical (value n : string) :
  normalize_cnpj value = Ok n ->
  normalize_cnpj n = Ok n /\ _CNPJ_CHARS n = true /\
  (sall is_digit n = true ->
   String.length n = 14%nat /\ one_character n = false /\ n = stake 12 n ++ check_digits (stake 12 n)).
Proof.
  intros H. destruct (normalize_fixed _ _ H) as (_ & Hc & Hf). split_and!; [done..|]. intros Hd. revert Hf.
  unfold normalize_cnpj. rewrite strip_cnpj_kept by (unfold _CNPJ_CHARS in Hc; by bools). rewrite Hc, Hd. cbn [negb].
  destruct (negb (Nat.eqb (String.length n) 14) || one_character n) eqn:Hl; [done|].
  destruct (String.eqb_spec (String.substring 12 2 n) (check_digits (stake 12 n))) as [He|]; [|done]. intros _.
  bools. apply Nat.eqb_eq in H0. split_and!; [done..|]. rewrite <-He. by apply substring_split.
Qed.

Lemma normalize_cnpj_canonical_witness :
  normalize_cnpj "11.222.333/0001-81" = Ok "11222333000181" /\
  normalize_cnpj "11222333000181" = Ok "11222333000181".
Proof.
  split; [reflexivity|]. apply (normalize_cnpj_canonical "11.222.333/0001-81" "11222333000181"). reflexivity.
Defined.

(** The registry's rule: the digits, from the right, are weighted 2 to 9 over and
    over; a remainder below two gives zero. *)
Definition registry_total (s : string) : Z :=
  foldr Z.add 0%Z (imap (fun i c => digit c * (2 + Z.of_nat (i mod 8)))%Z (rev (chars s))).

Lemma registry_first s : String.length s = 12%nat -> weighted s FIRST_WEIGHTS = registry_total s.
Proof.
  intros Hl. unfold registry_total. do 12 (destruct s as [|? s]; [discriminate Hl|]). destruct s; [|discriminate Hl]. cbn. lia.
Qed.

Lemma registry_second s : String.length s = 13%nat -> weighted s SECOND_WEIGHTS = registry_total s.
Proof.
  intros Hl. unfold registry_total. do 13 (destruct s as [|? s]; [discriminate Hl|]). destruct s; [|discriminate Hl]. cbn. lia.
Qed.

Definition official_digit (total : Z) : Z := (if total mod 11 <? 2 then 0 else 11 - total mod 11)%Z.

(** The two digits the registry issues for the first twelve. *)
Definition official_digits (base : string) : string :=
  let first_digit := official_digit (registry_total base) in
  str_of_Z first_digit ++ str_of_Z (official_digit (registry_total (base ++ str_of_Z first_digit))).

(** The remainders the two rules are computed from. *)
Definition first_remainder (base : string) : Z := (registry_total base mod 11)%Z.
Definition second_remainder (base : string) : Z :=
  (registry_total (base ++ str_of_Z (official_digit (registry_total base))) mod 11)%Z.

Lemma check_digit_bounds total :
  (0 <= check_digit total <= 9)%Z /\ (0 <= official_digit total <= 9)%Z /\
  (total mod 11 <> 0 -> check_digit total = official_digit total)%Z /\
  (total mod 11 = 0 -> check_digit total = 1 /\ official_digit total = 0)%Z.
Proof.
  unfold check_digit, official_digit. pose proof (Z.mod_pos_bound total 11 ltac:(lia)).
  split; [pose proof (Z.mod_pos_bound (11 - total mod 11) 10 ltac:(lia)); lia|].
  split; [destruct (Z.ltb_spec (total mod 11) 2); lia|]. split.
  - intros Hne. destruct (Z.ltb_spec (total mod 11) 2) as [Hlt|Hge].
    + by replace (total mod 11)%Z with 1%Z by lia.
    + apply Z.mod_small. lia.
  - intros ->. done.
Qed.

Lemma digit_str d : (0 <= d <= 9)%Z -> exists c, str_of_Z d = String c EmptyString.
Proof.
  intros H. assert (d = 0 \/ d = 1 \/ d = 2 \/ d = 3 \/ d = 4 \/ d = 5 \/ d = 6 \/ d = 7 \/ d = 8 \/ d = 9)%Z as Hd by lia.
  by repeat destruct Hd as [->|Hd]; [eexists..|subst; eexists].
Qed.

Lemma append_cancel (b x y : string) : b ++ x = b ++ y <-> x = y.
Proof. split; [|congruence]. induction b as [|c b IH]; [done|]. rewrite !append_cons. intros [= H]. auto. Qed.

(** On fourteen digits the normalisation is the comparison of the last two. *)
Lemma normalize_numeric s :
  String.length s = 14%nat -> sall is_digit s = true -> one_character s = false ->
  normalize_cnpj s = if String.eqb (String.substring 12 2 s) (check_digits (stake 12 s)) then Ok s else Err InvalidCnpj.
Proof.
  intros Hl Hd Ho.
  assert (sall cnpj_char s = true) as Hc.
  { eapply sall_impl; [|done]. intros c H. unfold cnpj_char. by rewrite H, orb_true_r. }
  unfold normalize_cnpj. rewrite strip_cnpj_kept by done. unfold _CNPJ_CHARS. rewrite Hc, Hd, Hl, Ho.
  destruct s; [done|]. cbn [str_nonempty andb negb orb Nat.eqb]. by destruct (String.eqb _ _).
Qed.

(** Fourteen times the same digit is refused. *)
Lemma normalize_one_character s :
  String.length s = 14%nat -> sall is_digit s = true -> one_character s = true -> normalize_cnpj s = Err InvalidCnpj.
Proof.
  intros Hl Hd Ho.
  assert (sall cnpj_char s = true) as Hc.
  { eapply sall_impl; [|done]. intros c H. unfold cnpj_char. by rewrite H, orb_true_r. }
  unfold normalize_cnpj. rewrite strip_cnpj_kept by done. unfold _CNPJ_CHARS. rewrite Hc, Hd, Hl, Ho.
  by destruct s.
Qed.

(** The two rules agree exactly when no remainder is zero. *)
Lemma check_digits_official base :
  String.length base = 12%nat ->
  check_digits base = official_digits base <-> (first_remainder base <> 0 /\ second_remainder base <> 0)%Z.
Proof.
  intros Hl. unfold check_digits, official_digits, first_remainder, second_remainder. cbv zeta. rewrite registry_first by done.
  destruct (check_digit_bounds (registry_total base)) as (Hc & Ho & Hne & Heq).
  destruct (decide (registry_total base mod 11 = 0)%Z) as [Hz|Hz].
  - destruct (Heq Hz) as [-> ->]. split; [intros [=] | by intros [[] _]].
  - rewrite (Hne Hz). set (base2 := base ++ _). rewrite append_cancel.
    assert (String.length base2 = 13%nat) as Hl2.
    { destruct (digit_str _ Ho) as [c Hd]. subst base2. rewrite Hd, length_append, Hl. done. }
    rewrite registry_second by done. destruct (check_digit_bounds (registry_total base2)) as (_ & _ & Hne2 & Heq2).
    destruct (decide (registry_total base2 mod 11 = 0)%Z) as [Hz2|Hz2].
    + destruct (Heq2 Hz2) as [-> ->]. split; [done | by intros [_ []]].
    + by rewrite (Hne2 Hz2).
Qed.

(** The rule the program follows: the registry's, except that a remainder of zero
    gives the digit 1. *)
Definition accepted_digit (total : Z) : Z := (if total mod 11 =? 0 then 1 else official_digit total)%Z.

Definition accepted_digits (base : string) : string :=
  let first_digit := accepted_digit (registry_total base) in
  str_of_Z first_digit ++ str_of_Z (accepted_digit (registry_total (base ++ str_of_Z first_digit))).

Lemma check_digit_accepted total : check_digit total = accepted_digit total.
Proof.
  unfold accepted_digit. destruct (check_digit_bounds total) as (_ & _ & Hne & Heq).
  destruct (Z.eqb_spec (total mod 11) 0) as [Hz|Hz]; [by apply Heq|by apply Hne].
Qed.

Lemma check_digits_accepted base : String.length base = 12%nat -> check_digits base = accepted_digits base.
Proof.
  intros Hl. unfold check_digits, accepted_digits. cbv zeta. rewrite registry_first, check_digit_accepted by done.
  destruct (check_digit_bounds (registry_total base)) as (Hb & _). rewrite check_digit_accepted in Hb.
  destruct (digit_str _ Hb) as [c Hd]. rewrite registry_second, check_digit_accepted; [done|]. by rewrite Hd, length_append, Hl.
Qed.

(** C36 What the check of a numeric CNPJ accepts: fourteen digits are accepted exactly
    when they are not all the same and the last two are those of the program's rule -
    the registry's (the digits weighted 2 to 9 cyclically from the right, modulo 11,
    a remainder below two giving 0) except that a remainder of zero gives 1 - and are
    refused with [InvalidCnpj] otherwise. The two rules give the same digits exactly
    when neither remainder is zero; where one is, the number the registry issues is
    refused and one it does not issue is accepted. *)
Theorem cnpj_registry_equivalence (s : string) :
  String.length s = 14%nat -> sall is_digit s = true ->
  let base := stake 12 s in
  (normalize_cnpj s = Ok s <-> one_character s = false /\ s = base ++ accepted_digits base) /\
  (normalize_cnpj s <> Ok s -> normalize_cnpj s = Err InvalidCnpj) /\
  (accepted_digits base = official_digits base <-> first_remainder base <> 0 /\ second_remainder base <> 0)%Z.
Proof.
  intros Hl Hd base. assert (String.length base = 12%nat) as Hb by (apply length_stake; lia).
  rewrite <-(check_digits_accepted base Hb). split_and!; [| |by apply check_digits_official].
  - destruct (one_character s) eqn:Ho; [rewrite normalize_one_character by done; split; [done|by intros []]|].
    rewrite (normalize_numeric s) by done. fold base.
    assert (s = base ++ String.substring 12 2 s) as Hs by (by apply substring_split).
    assert (s = base ++ check_digits base <-> String.substring 12 2 s = check_digits base) as ->
      by (rewrite Hs at 1; apply append_cancel).
    destruct (String.eqb_spec (String.substring 12 2 s) (check_digits base));
      (split; [|by intros []]); done.
  - destruct (one_character s) eqn:Ho; [by rewrite normalize_one_character|].
    rewrite (normalize_numeric s) by done. by destruct (String.eqb _ _).
Qed.

(** The head office of Petrobras is registered under a number whose first sum is
    a multiple of eleven: the number is refused, and another one accepted. *)
Lemma cnpj_registry_equivalence_witness :
  normalize_cnpj "11222333000181" = Ok "11222333000181" /\ accepted_digits "112223330001" = official_digits "112223330001" /\
  official_digits "330001670001" = "01" /\ normalize_cnpj "33000167000101" = Err InvalidCnpj /\
  normalize_cnpj "33000167000110" = Ok "33000167000110" /\ normalize_cnpj "00000000000000" <> Ok "00000000000000".
Proof.
  split_and!.
  - by apply (cnpj_registry_equivalence "11222333000181").
  - by apply (cnpj_registry_equivalence "11222333000181").
  - reflexivity.
  - by apply (cnpj_registry_equivalence "33000167000101").
  - by apply (cnpj_registry_equivalence "33000167000110").
  - intros H. by apply (cnpj_registry_equivalence "00000000000000") in H as [? ?].
Defined.

(** ** The pages of the list *)

Section pages.
Context (icontains : string -> string -> bool).
Implicit Types (f : CompanyListFilter) (d : DB).

Definition with_cursor f (c : option N) : CompanyListFilter :=
  MkCompanyListFilter (cf_lifecycle f) (cf_status f) (cf_search f) (cf_limit f) c.

(** A client that follows [next_cursor] until there is none. *)
Fixpoint walk_companies (fuel : nat) f d : option (list Company) :=
  match fuel with
  | O => None
  | S n =>
      let page := company_page icontains f d in
      match cpg_next_cursor page with
      | None => Some (cpg_companies page)
      | Some s => match list_cursor (VStr s) with
                  | Ok c => option_map (app (cpg_companies page)) (walk_companies n (with_cursor f c) d)
                  | Err _ => None
                  end
      end
  end.

Definition stored_by_id d : Prop :=
  forall i c, companies d !! i = Some c -> co_id c = i /\ (i < 2 ^ 128)%N.

Lemma companies_stored d : stored_by_id d -> stored co_id (companies d).
Proof. intros Hd i c Hi. by apply Hd. Qed.

Lemma queryset_cursor f d : stored_by_id d ->
  company_list_queryset icontains f true d =
  filter (fun c => after_cursor f c = true) (company_list_queryset icontains f false d).
Proof.
  intros Hd. unfold company_list_queryset. cbn [negb orb].
  rewrite (query_after co_id (matches icontains f) (after_cursor f)) by (by apply companies_stored).
  f_equal. f_equal. apply list_filter_iff. intros c. by rewrite andb_true_r.
Qed.

Lemma queryset_ok f b d : stored_by_id d ->
  StronglySorted (id_lt co_id) (company_list_queryset icontains f b d) /\
  (forall x, x ∈ company_list_queryset icontains f b d -> x ∈ rows (companies d)) /\
  NoDup (company_list_queryset icontains f b d).
Proof.
  intros Hd. unfold company_list_queryset.
  split; [by apply ordered_rows, companies_stored|]. split.
  - intros x. rewrite sort_by_perm. intros [_ Hi]%elem_of_select. by apply elem_of_rows.
  - rewrite sort_by_perm. unfold select. by apply NoDup_filter, (NoDup_rows co_id), companies_stored.
Qed.

(** One page: the first rows after the cursor; a next cursor names the last of
    them, and what it starts from is exactly the rest. *)
Lemma page_step f d : stored_by_id d -> (1 <= cf_limit f)%Z ->
  let n := Z.to_nat (cf_limit f) in
  let l := company_list_queryset icontains f true d in
  let page := company_page icontains f d in
  cpg_companies page = take n l /\
  if Nat.leb (length l) n then cpg_next_cursor page = None
  else exists x, l !! Nat.pred n = Some x /\ cpg_next_cursor page = Some (uuid_str (co_id x)) /\ (co_id x < 2 ^ 128)%N /\
       company_list_queryset icontains (with_cursor f (Some (co_id x))) true d = drop n l.
Proof.
  intros Hd Hn n l page. subst page. unfold company_page. fold n l. cbn [cpg_companies cpg_next_cursor].
  assert (1 <= n)%nat as Hn1 by lia. split; [rewrite take_take; f_equal; lia|].
  rewrite length_take. destruct (Nat.leb_spec (length l) n) as [Hle|Hgt].
  - by rewrite (proj2 (Nat.ltb_ge _ _)) by lia.
  - rewrite (proj2 (Nat.ltb_lt _ _)) by lia.
    destruct (lookup_lt_is_Some_2 l (Nat.pred n)) as [x Hx]; [lia|].
    exists x. split; [done|].
    assert (nth_error (take (S n) l) (Nat.pred n) = Some x) as ->.
    { rewrite nth_error_lookup_at, lookup_take by lia. by rewrite decide_True by lia. }
    destruct (queryset_ok f true d Hd) as (Hs & Hr & Hnd). fold l in Hs, Hr, Hnd.
    split; [done|]. split.
    { apply list_elem_of_lookup_2, Hr, elem_of_rows in Hx as [i Hi]. by destruct (Hd _ _ Hi) as [-> ?]. }
    replace (drop n l) with (drop (S (Nat.pred n)) l) by (f_equal; lia).
    rewrite <-(drop_after co_id l (Nat.pred n) x) by done.
    subst l. rewrite !queryset_cursor by done. rewrite list_filter_filter.
    apply list_filter_iff. intros c. unfold after_cursor, with_cursor. cbn [cf_cursor].
    rewrite queryset_cursor in Hx by done. apply list_elem_of_lookup_2, list_elem_of_filter in Hx as [Hx _].
    unfold after_cursor in Hx. destruct (cf_cursor f); rewrite !N.ltb_lt; [apply N.ltb_lt in Hx; lia | intuition lia].
Qed.

(** Following [next_cursor] ends, and lists every matching company once, in
    order: the pages put together are the whole query, whatever the page size. *)
Theorem walk_companies_complete f d (fuel : nat) :
  stored_by_id d -> (1 <= cf_limit f)%Z -> (length (company_list_queryset icontains f true d) < fuel)%nat ->
  walk_companies fuel f d = Some (company_list_queryset icontains f true d) /\
  NoDup (company_list_queryset icontains f true d) /\
  (forall c, c ∈ company_list_queryset icontains f true d <->
             (exists i, companies d !! i = Some c) /\ matches icontains f c = true /\ after_cursor f c = true).
Proof.
  intros Hd Hn Hfuel. split; [|split; [by apply queryset_ok|]].
  - revert f Hn Hfuel. induction fuel as [|fuel IH]; intros f Hn Hfuel; [lia|]. cbn [walk_companies].
    destruct (page_step f d Hd Hn) as [-> Hstep]. revert Hstep. destruct (Nat.leb_spec (length (company_list_queryset icontains f true d)) (Z.to_nat (cf_limit f))) as [Hle|Hgt].
    + intros ->. by rewrite take_ge.
    + intros (x & Hx & -> & Hlt & Hrest). unfold list_cursor.
      rewrite parse_uuid_str by done. destruct (none_or_empty _) eqn:He.
      { exfalso. by destruct (uuid_str (co_id x)) eqn:Hu; [pose proof (parse_uuid_str _ Hlt) as Hp; rewrite Hu in Hp|]. }
      rewrite IH; [|done|].
      * cbn [option_map]. rewrite Hrest. by rewrite take_drop.
      * rewrite Hrest, length_drop. lia.
  - intros c. unfold company_list_queryset. rewrite sort_by_perm, elem_of_select, andb_true_iff. cbn [negb orb]. tauto.
Qed.

End pages.

(** ** The lifecycle of a company

    The abstract machine: what one operation may do to one company.  Every step
    counts one version; identity and creation never change, the first
    collection is recorded once, and from then on the CNPJ is fixed. *)

Inductive lifecycle_step (now : Z) (c : Company) : Company -> Prop :=
| step_update cnpj name :
    cnpj = co_cnpj c \/ (normalize_cnpj cnpj = Ok cnpj /\ co_first_collection_at c = None) ->
    name <> "" ->
    lifecycle_step now c (c <| co_cnpj := cnpj |> <| co_legal_name := name |> <| co_version ::= Z.succ |> <| co_updated_at := now |>)
| step_deactivate reason :
    reason <> "" ->
    lifecycle_step now c (c <| co_status := CompanyStatus.DEACTIVATED |> <| co_deactivation_reason := Some reason |>
      <| co_deactivated_at := Some now |> <| co_version ::= Z.succ |> <| co_updated_at := now |>)
| step_activate :
    lifecycle_step now c (c <| co_status := CompanyStatus.ACTIVE |> <| co_version ::= Z.succ |> <| co_updated_at := now |>)
| step_collect at_ :
    co_first_collection_at c = None ->
    lifecycle_step now c (c <| co_first_collection_at := Some at_ |> <| co_version ::= Z.succ |> <| co_updated_at := now |>).

(** A company as [create_company] registers it. *)
Definition registered (c : Company) : Prop :=
  exists id now cnpj name, c = new_company id now cnpj name /\ normalize_cnpj cnpj = Ok cnpj /\ name <> "".

Definition fl_scope (f : CompanyFlow) := (fl_company f, fl_family f).

(** One company per CNPJ, one flow per company and family, every company with
    both flows, a deactivated one with its reason, columns within their widths. *)
Definition companies_ok (n : N) (d : DB) : Prop :=
  keyed co_id co_cnpj n (companies d) /\ keyed fl_id fl_scope n (flows d) /\
  (forall i f, flows d !! i = Some f -> is_Some (companies d !! fl_company f)) /\
  (forall i c, companies d !! i = Some c -> company_check c = true /\ company_width c = true) /\
  (forall i c fam, companies d !! i = Some c -> exists j f, flows d !! j = Some f /\ fl_scope f = (i, fam)).

(** What an operation may do to the companies of a well-formed database. *)
Definition follows {B} (w w' : World B) : Prop :=
  (next_uuid w <= next_uuid w')%N /\ clock w' = clock w /\ online w' = online w /\
  (companies_ok (next_uuid w) (db w) ->
   companies_ok (next_uuid w') (db w') /\
   (forall i c, companies (db w) !! i = Some c ->
      exists c', companies (db w') !! i = Some c' /\ rtc (lifecycle_step (clock w)) c c') /\
   (forall i c', companies (db w') !! i = Some c' -> companies (db w) !! i = None ->
      exists c, registered c /\ rtc (lifecycle_step (clock w)) c c')).

Section lifecycle.
Context {B : Type}.
Implicit Types w : World B.

Lemma companies_ok_mono n m d : (n <= m)%N -> companies_ok n d -> companies_ok m d.
Proof. intros Hnm (H1 & H2 & H3). split; [by eapply keyed_mono|]. split; [by eapply keyed_mono|done]. Qed.

(** Nothing of the companies or flows changes. *)
Lemma follows_still w w' : keeps (fun d => (companies d, flows d)) w w' -> follows w w'.
Proof.
  intros ([= Hc Hf] & Hk & Ho & Hn). split_and!; [done..|]. intros Hok. rewrite Hc. split_and!.
  - unfold companies_ok. rewrite Hc, Hf. by apply (companies_ok_mono (next_uuid w)).
  - intros i c Hi. exists c. split; [done|reflexivity].
  - congruence.
Qed.

#[export] Instance follows_preorder : PreOrder (follows (B:=B)).
Proof.
  split.
  - intros w. apply follows_still. reflexivity.
  - intros w1 w2 w3 (Hn & Hk & Ho & H12) (Hn' & Hk' & Ho' & H23). split_and!; [lia|congruence..|].
    intros Hok. destruct (H12 Hok) as (Hok2 & Hs & Hb). destruct (H23 Hok2) as (Hok3 & Hs' & Hb'). rewrite Hk in *.
    split_and!; [done|..].
    + intros i c (c2 & Hi2 & Hr)%Hs. apply Hs' in Hi2 as (c3 & Hi3 & Hr3). exists c3. split; [done|]. by etrans.
    + intros i c3 Hi3 Hnone. destruct (companies (db w2) !! i) as [c2|] eqn:Hi2; [|by apply (Hb' i)].
      destruct (Hb _ _ Hi2 Hnone) as (c & Hreg & Hr). apply Hs' in Hi2 as (c3' & Hi3' & Hr3).
      exists c. split; [done|]. etrans; [exact Hr|]. congruence.
Qed.

#[export] Instance follows_rolls_back : RollsBack (follows (B:=B)).
Proof.
  intros w w' (Hn & Hk & Ho & _). apply follows_still. by split_and!.
Qed.

Lemma follows_audit a : moves follows (audit (B:=B) a).
Proof.
  intros w. apply follows_still. unfold audit.
  apply (moves_bind (keeps (fun d => (companies d, flows d)))); [|intros; by apply moves_pure; [apply _|]].
  apply keeps_append. intros d d' (c & l & ->). done.
Qed.

(** Saving a row the machine allows. *)
Lemma follows_save w i0 c0 c :
  companies (db w) !! i0 = Some c0 -> lifecycle_step (clock w) c0 c -> follows w (save_company c w).2.
Proof.
  intros Hc0 Hstep. unfold save_company, require.
  destruct (company_width c) eqn:Hw; [|reflexivity]. exec.
  destruct (negb (cnpj_taken c (db w)) && company_check c) eqn:Hck; [|reflexivity]. cbn.
  apply andb_true_iff in Hck as [Ht%negb_true_iff Hck].
  split_and!; [done..|]. intros (H1 & H2 & H3 & H4 & H5). cbn.
  assert (i0 = co_id c) as -> by (destruct (proj1 H1 _ _ Hc0) as [<- _]; by destruct Hstep).
  split_and!.
  - unfold companies_ok, put. cbn. split_and!; [split|done|..].
    + intros i x. rewrite lookup_insert_Some. intros [[<- <-]|[_ Hi]]; [|by apply H1]. split; [done|]. by apply H1 in Hc0 as [_ ?].
    + intros i j x y. rewrite !lookup_insert_Some. unfold cnpj_taken in Ht. rewrite exists_row_false in Ht.
      intros [[<- <-]|[Hni Hi]] [[<- <-]|[Hnj Hj]] Heq; [done| | |by eapply H1].
      * specialize (Ht _ _ Hj). rewrite Heq, String.eqb_refl in Ht. cbn in Ht. apply negb_false_iff, N.eqb_eq in Ht.
        apply H1 in Hj as [<- _]. done.
      * specialize (Ht _ _ Hi). rewrite Heq, String.eqb_refl in Ht. cbn in Ht. apply negb_false_iff, N.eqb_eq in Ht.
        apply H1 in Hi as [<- _]. done.
    + intros i f Hf. rewrite lookup_insert_is_Some. destruct (decide (co_id c = fl_company f)); [by left|right].
      split; [done|]. by eapply H3.
    + intros i x. rewrite lookup_insert_Some. intros [[<- <-]|[_ Hi]]; [done|by eapply H4].
    + intros i x fam. rewrite lookup_insert_Some. intros [[<- <-]|[_ Hi]]; by eapply H5.
  - intros i x Hi. unfold put. destruct (decide (co_id c = i)) as [<-|Hne].
    + rewrite lookup_insert_eq. exists c. split; [done|]. apply rtc_once. congruence.
    + rewrite lookup_insert_ne by done. exists x. split; [done|reflexivity].
  - intros i x. unfold put. rewrite lookup_insert_Some. intros [[<- <-]|[_ Hi]] Hn; congruence.
Qed.

Lemma read_company_inv ref w c w' :
  _company (B:=B) ref w = (Ok c, w') -> w' = w /\ exists i, uuid_of ref = Some i /\ companies (db w) !! i = Some c.
Proof. unfold _company. intros H. invert_db. eauto. Qed.

(** Read the company, then go on knowing its row. *)
Lemma moved_company {C} ref (k : Company -> M B C) w :
  (forall i c, companies (db w) !! i = Some c -> follows w (k c w).2) -> follows w (bind (_company ref) k w).2.
Proof.
  intros Hk. unfold _company. rewrite bind_assoc. read_step. rewrite bind_assoc. read_step. read_step. by eapply Hk.
Qed.

Lemma follows_save_as w i0 c0 c e :
  companies (db w) !! i0 = Some c0 -> lifecycle_step (clock w) c0 c -> follows w (except_integrity (save_company c) e w).2.
Proof.
  intros Hi Hs. pose proof (follows_save w i0 c0 c Hi Hs) as H. unfold except_integrity, try_except.
  destruct (save_company c w) as [[u|x] w1]; [exact H|]. by destruct x.
Qed.

Lemma follows_save_flow w i f0 f :
  flows (db w) !! i = Some f0 -> fl_id f = fl_id f0 -> fl_scope f = fl_scope f0 -> follows w (save_flow f w).2.
Proof.
  intros Hf Hid Hs. unfold save_flow. split_and!; [done..|]. intros (H1 & H2 & H3 & H4 & H5). cbn.
  destruct (proj1 H2 _ _ Hf) as [Hi _]. split_and!; [|intros j c Hj; exists c; split; [done|reflexivity]|intros j c Hj Hn; congruence].
  unfold companies_ok. cbn. split_and!; [done|..].
  - apply (keyed_same fl_id fl_scope _ _ f f0); [done|congruence|done].
  - unfold put. intros j g. rewrite lookup_insert_Some. intros [[<- <-]|[_ Hj]]; [|by eapply H3].
    injection Hs as -> _. by eapply H3.
  - done.
  - intros j c fam Hj. destruct (H5 _ _ fam Hj) as (j' & g & Hg & Hsc). unfold put.
    destruct (decide (fl_id f = j')) as [<-|Hne].
    + exists (fl_id f), f. rewrite lookup_insert_eq. split; [done|].
      assert (g = f0) as -> by congruence. congruence.
    + exists j', g. by rewrite lookup_insert_ne.
Qed.

Ltac follow_tac :=
  repeat match goal with
  | |- follows _ (bind (_company _) _ _).2 => apply moved_company; intros ? ? ?
  | |- follows _ (bind (_require_company_access _) _ _).2 => unfold _require_company_access
  | |- follows _ (bind (_validated_name _) _ _).2 => unfold _validated_name; rewrite bind_assoc
  | |- follows _ (bind (_validated_reason _) _ _).2 => unfold _validated_reason; rewrite bind_assoc
  | |- follows _ (atomic _ _).2 => apply (moves_transaction follows); intros ?
  | |- follows _ (bind (audit _) _ _).2 => apply moved_bind; [apply _|apply follows_audit|]
  | |- follows _ (bind (save_company _) _ _).2 => apply moved_bind; [apply _|eapply follows_save; [eassumption|]|]
  | |- follows _ (bind (except_integrity (save_company _) _) _ _).2 =>
      apply moved_bind; [apply _|eapply follows_save_as; [eassumption|]|]
  | |- moves _ _ => intros ?
  | _ => progress read_step
  | _ => intros ?
  end.

Lemma str_nonempty_neq s : str_nonempty s = true -> s <> "".
Proof. by intros H ->. Qed.

Lemma follows_update actor id version name cnpj ip : moves follows (update_company (B:=B) actor id version name cnpj ip).
Proof.
  intros w. unfold update_company. destruct cnpj as [cnpj|].
  all: follow_tac; apply step_update; [|by apply str_nonempty_neq].
  - match goal with H : negb (_ && _) = true |- _ => apply negb_true_iff, andb_false_iff in H as [Hf|He] end.
    + right. match goal with H : normalize_cnpj _ = Ok _ |- _ => destruct (normalize_fixed _ _ H) as (_ & _ & ->) end.
      split; [done|]. by destruct (co_first_collection_at _).
    + left. by apply negb_false_iff, String.eqb_eq in He.
  - by left.
Qed.

Lemma follows_deactivate actor id reason ip : moves follows (deactivate_company (B:=B) actor id reason ip).
Proof. intros w. unfold deactivate_company. follow_tac. apply step_deactivate. by apply str_nonempty_neq. Qed.

Lemma follows_activate actor id ip : moves follows (activate_company (B:=B) actor id ip).
Proof. intros w. unfold activate_company. follow_tac. apply step_activate. Qed.

Lemma follows_collect id at_ : moves follows (mark_first_collection (B:=B) id at_).
Proof.
  intros w. unfold mark_first_collection. follow_tac.
  match goal with c : Company |- _ => destruct (co_first_collection_at c) eqn:Hf end; follow_tac. by apply step_collect.
Qed.

Lemma get_flow_inv company fam w f w' :
  get_flow (B:=B) company fam w = (Ok f, w') -> w' = w /\ exists i, flows (db w) !! i = Some f.
Proof.
  unfold get_flow. intros H. invert_db. destruct (select _ _) as [|g [|g' l]] eqn:Hs; [done| |done].
  invert_run. split; [done|]. assert (g ∈ select (flow_of company fam) (flows (db w))) as Hg by (rewrite Hs; left).
  by apply elem_of_select in Hg as [_ ?].
Qed.

Lemma follows_set_flow actor id fam st ip : moves follows (set_flow_state (B:=B) actor id fam st ip).
Proof.
  intros w. unfold set_flow_state. follow_tac. unfold bind at 1. destruct (get_flow _ _ _) as [[f|e] w1] eqn:Hf.
  - apply get_flow_inv in Hf as (-> & k & Hk). follow_tac. apply moved_bind; [apply _| |intros ?; follow_tac].
    eapply follows_save_flow; [exact Hk|done|done].
  - unfold get_flow, bind, query, gets in Hf. by destruct (select _ _) as [|g [|g' l]]; injection Hf as _ <-.
Qed.

(** The operations that touch neither table. *)
Lemma follows_keeping {A} (m : M B A) : moves (keeps (fun d => (companies d, flows d))) m -> moves follows m.
Proof. intros Hm w. apply follows_still, Hm. Qed.

Lemma follows_coverage id src st pol ev at_ : moves follows (record_adn_coverage (B:=B) id src st pol ev at_).
Proof. apply follows_keeping. unfold record_adn_coverage, _company, audit. frame_tac. Qed.

Lemma follows_enrichment actor id fetch ms ip : moves follows (request_enrichment (B:=B) actor id fetch ms ip).
Proof. apply follows_keeping. unfold request_enrichment, _company, audit, _require_company_access. frame_tac. Qed.

Lemma create_flow_inv company fam w u w' :
  create_flow (B:=B) company fam w = (Ok u, w') ->
  exists_row (flow_of company fam) (flows (db w)) = false /\
  w' = w <| next_uuid ::= N.succ |> <| db ::= fun d => d <| flows ::= put (next_uuid w) (new_flow (next_uuid w) (clock w) company fam) |> |>.
Proof. unfold create_flow, save_flow. intros H. invert_db. bools. by destruct w. Qed.

Lemma saveread_company_inv c w u w' :
  save_company (B:=B) c w = (Ok u, w') ->
  company_width c = true /\ company_check c = true /\ cnpj_taken c (db w) = false /\
  w' = w <| db ::= fun d => d <| companies ::= put (co_id c) c |> |>.
Proof. unfold save_company. intros H. invert_db. bools. done. Qed.

(** The tables after a registration. *)
Definition with_company (id : N) (now : Z) (cnpj name : string) (d : DB) : DB :=
  d <| companies ::= put id (new_company id now cnpj name) |>
    <| flows ::= fun t => put (N.succ (N.succ id)) (new_flow (N.succ (N.succ id)) now id FlowFamily.NFSE)
                            (put (N.succ id) (new_flow (N.succ id) now id FlowFamily.NFE) t) |>.

Lemma with_company_ok id now cnpj name d :
  companies_ok id d -> cnpj_taken (new_company id now cnpj name) d = false ->
  company_width (new_company id now cnpj name) = true ->
  companies_ok (N.succ (N.succ (N.succ id))) (with_company id now cnpj name d).
Proof.
  intros (H1 & H2 & H3 & H4 & H5) Ht Hw. set (c := new_company id now cnpj name) in *.
  pose proof (keyed_fresh _ _ _ _ H1) as Hfresh. unfold cnpj_taken in Ht. rewrite exists_row_false in Ht.
  assert (forall i f, flows d !! i = Some f -> fl_company f <> id) as Hnof.
  { intros i f Hf He. destruct (H3 _ _ Hf) as [x Hx]. congruence. }
  unfold with_company, companies_ok. cbn. split_and!.
  - apply (keyed_mono co_id co_cnpj (N.succ id)); [lia|]. apply keyed_new; [done..|]. intros i x Hi He.
    specialize (Ht _ _ Hi). rewrite He, String.eqb_refl in Ht. cbn in Ht. apply negb_false_iff, N.eqb_eq in Ht.
    destruct (proj1 H1 _ _ Hi). unfold c in Ht. cbn in Ht. lia.
  - apply (keyed_new fl_id fl_scope (N.succ (N.succ id))); [|done|].
    + apply (keyed_new fl_id fl_scope (N.succ id)); [|done|].
      * eapply keyed_mono; [|exact H2]. lia.
      * intros i f Hf [= He _]. by apply (Hnof _ _ Hf).
    + unfold put. intros i f. rewrite lookup_insert_Some. intros [[<- <-]|[_ Hf]] [= He]. by apply (Hnof _ _ Hf).
  - unfold put. intros i f. rewrite !lookup_insert_Some, lookup_insert_is_Some.
    intros [[<- <-]|[_ [[<- <-]|[_ Hf]]]]; [by left..|]. right. split; [|by eapply H3]. intros He. by apply (Hnof _ _ Hf).
  - unfold put. intros i x. rewrite lookup_insert_Some. intros [[<- <-]|[_ Hi]]; [done|by eapply H4].
  - unfold put. intros i x fam. rewrite lookup_insert_Some. intros [[<- <-]|[Hne Hi]].
    + destruct fam; [exists (N.succ id), (new_flow (N.succ id) now id FlowFamily.NFE) |
                     exists (N.succ (N.succ id)), (new_flow (N.succ (N.succ id)) now id FlowFamily.NFSE)];
        rewrite !lookup_insert_Some; (split; [|reflexivity]); [right; split; [lia|by left] | by left].
    + destruct (H5 _ _ fam Hi) as (j & f & Hf & Hs). exists j, f. split; [|done].
      destruct (proj1 H2 _ _ Hf). rewrite !lookup_insert_ne by lia. done.
Qed.

(** What the transaction of [create_company] leaves when it commits. *)
Lemma follows_registered w cnpj name a u w' :
  normalize_cnpj cnpj = Ok cnpj -> name <> "" ->
  (save_company (new_company (next_uuid w) (clock w) cnpj name) ;;;
   for_each FlowFamily.values (create_flow (next_uuid w)) ;;;
   audit a) (w <| next_uuid ::= N.succ |>) = (Ok u, w') ->
  follows w w'.
Proof.
  intros Hc Hn H. apply bind_inv in H as (u1 & w1 & (Hw & _ & Ht & ->)%saveread_company_inv & H).
  apply bind_inv in H as (u2 & w2 & Hf & Ha). cbn [FlowFamily.values for_each] in Hf. invert_run.
  match goal with H : create_flow _ _ _ = _ |- _ => apply create_flow_inv in H as [_ ->] end.
  match goal with H : create_flow _ _ _ = _ |- _ => apply create_flow_inv in H as [_ ->] end.
  eapply (moves_run follows) in Ha; [|apply follows_audit]. etrans; [clear Ha | exact Ha].
  cbn. split_and!; [cbn; lia|done..|]. intros Hok. destruct w as [d now id on cs b]; cbn in *.
  split_and!.
  - by apply (with_company_ok id now cnpj name d).
  - intros i y Hi. exists y. split; [|reflexivity]. unfold put. rewrite lookup_insert_ne; [done|].
    intros <-. destruct Hok as (H1 & _). by rewrite (keyed_fresh _ _ _ _ H1) in Hi.
  - unfold put. intros i y. rewrite lookup_insert_Some. intros [[<- <-]|[_ Hi]]; [|congruence]. intros _.
    eexists. split; [|reflexivity]. by exists id, now, cnpj, name.
Qed.

Lemma follows_create actor cnpj name ip : moves follows (create_company (B:=B) actor cnpj name ip).
Proof.
  intros w. unfold create_company. follow_tac.
  match goal with H : normalize_cnpj _ = Ok ?x |- _ => destruct (normalize_fixed _ _ H) as (_ & _ & Hn) end.
  unfold except_integrity. match goal with |- follows _ (try_except ?m _ _).2 => set (body := m) end.
  assert (moves env_grows body) as He.
  { unfold body, save_company, save_flow, create_flow, save_flow, audit. env_tac. }
  specialize (He w). unfold try_except. destruct (body w) as [[c|e] w1] eqn:Hb.
  - unfold body in Hb. apply atomic_inv in Hb as [_ Hb]. invert_db.
    eapply follows_registered; [exact Hn|by apply str_nonempty_neq|].
    unfold bind.
    match goal with H : save_company ?c ?v = _ |- context [save_company ?c' ?v'] =>
      change (save_company c' v') with (save_company c v); rewrite H end.
    match goal with H : for_each _ _ _ = _ |- _ => rewrite H end. eassumption.
  - pose proof (atomic_rollback (B:=B) _ _ _ _ Hb) as Hd. cbn in He. destruct He as (Hk & Ho & _ & Hu).
    apply follows_still.
    assert (keeps (fun d => (companies d, flows d)) w w1) as Hs by (split_and!; [by rewrite Hd|done..]). by destruct e.
Qed.

(** ** Any sequence of company operations *)

Inductive CompanyCommand : Type :=
| CreateCompany (actor : SessionIdentity) (cnpj legal_name ip : string)
| UpdateCompany (actor : SessionIdentity) (id : string) (version : Z) (legal_name : string) (cnpj : option string) (ip : string)
| DeactivateCompany (actor : SessionIdentity) (id reason ip : string)
| ActivateCompany (actor : SessionIdentity) (id ip : string)
| SetFlow (actor : SessionIdentity) (id family state ip : string)
| MarkFirst (id : uuid_ref) (at_ : option Z)
| Coverage (id : uuid_ref) (source status policy evidence : string) (at_ : option Z)
| Enrich (actor : SessionIdentity) (id : string) (fetch : string -> fetched) (ms ip : string).

(** What is left of an operation is its effect; its answer is the caller's. *)
Definition run_company (c : CompanyCommand) (w : World B) : World B :=
  match c with
  | CreateCompany a n l ip => (create_company a n l ip w).2
  | UpdateCompany a i v l n ip => (update_company a i v l n ip w).2
  | DeactivateCompany a i r ip => (deactivate_company a i r ip w).2
  | ActivateCompany a i ip => (activate_company a i ip w).2
  | SetFlow a i f s ip => (set_flow_state a i f s ip w).2
  | MarkFirst i t => (mark_first_collection i t w).2
  | Coverage i s st p e t => (record_adn_coverage i s st p e t w).2
  | Enrich a i f ms ip => (request_enrichment a i f ms ip w).2
  end.

Lemma follows_command c w : follows w (run_company c w).
Proof.
  destruct c; [apply follows_create|apply follows_update|apply follows_deactivate|apply follows_activate|
    apply follows_set_flow|apply follows_collect|apply follows_coverage|apply follows_enrichment].
Qed.

(** What no step of the lifecycle takes back. *)
Definition permanent (c c' : Company) : Prop :=
  co_id c' = co_id c /\ co_created_at c' = co_created_at c /\ (c' = c \/ (co_version c < co_version c')%Z) /\
  (forall t, co_first_collection_at c = Some t -> co_first_collection_at c' = Some t /\ co_cnpj c' = co_cnpj c).

Lemma lifecycle_permanent now c c' : rtc (lifecycle_step now) c c' -> permanent c c'.
Proof.
  induction 1 as [c|c c1 c2 Hs _ (H1 & H2 & H3 & H4)]; [split_and!; auto|].
  assert (co_id c1 = co_id c /\ co_created_at c1 = co_created_at c /\ co_version c1 = Z.succ (co_version c) /\
          forall t, co_first_collection_at c = Some t -> co_first_collection_at c1 = Some t /\ co_cnpj c1 = co_cnpj c)
    as (G1 & G2 & G3 & G4).
  { destruct Hs as [cnpj name [->|[_ Hf]] _| | |at_ Hf]; split_and!; try done; intros t Ht; congruence. }
  split_and!; [congruence..|right; destruct H3 as [->|]; lia|].
  intros t (Ht & <-)%G4. by apply H4.
Qed.

Lemma follows_all (commands : list CompanyCommand) w : follows w (foldl (fun w c => run_company c w) w commands).
Proof.
  revert w. induction commands as [|c l IH]; intros w; [reflexivity|]. cbn. etrans; [apply follows_command | apply IH].
Qed.

(** C10 A company is only ever moved along its lifecycle: through any operations,
    successful or refused, the tables stay well formed; every company that was
    there is still there, reached by lifecycle steps, so its version grows with
    every change and neither the first collection nor, after it, the CNPJ
    changes; every new company was registered with a normalised CNPJ. *)
Theorem companies_follow_lifecycle (commands : list CompanyCommand) w :
  companies_ok (next_uuid w) (db w) ->
  let w' := foldl (fun w c => run_company c w) w commands in
  companies_ok (next_uuid w') (db w') /\
  (forall i c, companies (db w) !! i = Some c ->
     exists c', companies (db w') !! i = Some c' /\ rtc (lifecycle_step (clock w)) c c' /\ permanent c c') /\
  (forall i c', companies (db w') !! i = Some c' -> companies (db w) !! i = None ->
     exists c, registered c /\ rtc (lifecycle_step (clock w)) c c').
Proof.
  intros Hok w'. destruct (follows_all commands w) as (_ & _ & _ & H). destruct (H Hok) as (H1 & H2 & H3).
  split_and!; [done| |done]. intros i c (c' & Hi & Hr)%H2. exists c'. split_and!; [done..|by eapply lifecycle_permanent].
Qed.

Lemma stale_version actor id version name cnpj ip w i c :
  authorize (si_role actor) Action.ADMINISTER_COMPANIES None (Some (si_user_id actor)) = true ->
  str_nonempty (strip name) = true -> online w = true -> uuid_of (RefStr id) = Some i ->
  companies (db w) !! i = Some c -> co_version c <> version ->
  update_company (B:=B) actor id version name cnpj ip w = (Err CompanyVersionConflict, w).
Proof.
  intros Ha Hn Ho Hid Hi Hv. unfold update_company, _require_company_access, _validated_name, _company.
  rewrite Ha, Hn, Hid. apply Z.eqb_neq in Hv. run. unfold query, gets, atomic. rewrite Ho, Hi, Hv. by destruct w.
Qed.

Lemma audited_inv a w u w' :
  audit (B:=B) a w = (Ok u, w') ->
  json_storable (redact (VDict (ai_context a))) = true /\ online w' = online w /\ companies (db w') = companies (db w).
Proof.
  unfold audit. intros H. apply bind_inv in H as (e & w1 & He & [_ ->]%ret_inv).
  split; [by eapply append_storable|].
  assert (moves (keeps companies) (append (B:=B) a)) as Hk by frame_tac.
  eapply (moves_run (keeps companies)) in He; [|exact Hk]. by destruct He as (? & ? & ? & ?).
Qed.

Lemma except_integrity_inv {A} (m : M B A) x w a w' : except_integrity m x w = (Ok a, w') -> m w = (Ok a, w').
Proof. unfold except_integrity, try_except. destruct (m w) as [[b|e] w1]; [done|]. by destruct e. Qed.

Lemma updated_version actor id version name cnpj ip w c w' :
  update_company (B:=B) actor id version name cnpj ip w = (Ok c, w') ->
  exists i, online w = true /\ online w' = online w /\ uuid_of (RefStr id) = Some i /\
    (exists c0, companies (db w) !! i = Some c0 /\ co_id c = co_id c0 /\ co_version c = Z.succ version) /\
    companies (db w') !! co_id c = Some c.
Proof.
  unfold update_company, _require_company_access, _validated_name. intros H.
  apply bind_inv in H as (? & ? & [_ ->]%require_inv & H). rewrite bind_assoc in H.
  apply bind_inv in H as (? & ? & [_ ->]%require_inv & H). apply bind_inv in H as (n & ? & [-> ->]%ret_inv & H).
  apply atomic_inv in H as [Ho H]. apply bind_inv in H as (c0 & ? & (-> & i & Hid & Hi)%read_company_inv & H).
  apply bind_inv in H as (? & ? & [Hv ->]%require_inv & H). apply Z.eqb_eq in Hv.
  apply bind_inv in H as (cn & w1 & Hcn & H).
  assert (w1 = w) as -> by (by destruct cnpj; invert_db).
  apply bind_inv in H as (? & ? & [_ ->]%require_inv & H). apply bind_inv in H as (now & ? & [-> ->]%now_inv & H).
  apply bind_inv in H as (? & w2 & (Hw & _ & _ & ->)%except_integrity_inv%saveread_company_inv & H).
  apply bind_inv in H as (? & w3 & Ha & [-> ->]%ret_inv). apply audited_inv in Ha as (_ & Hon & Hc).
  exists i. cbn [co_id upd]. split_and!; [done|done|done| |].
  - exists c0. cbn. by rewrite Hv.
  - rewrite Hc. cbn. unfold put. by rewrite lookup_insert_eq.
Qed.

(** No update is lost: once an update made against a version has been accepted,
    every other update against that version is refused without effect, whatever
    was done to the companies in between. *)
Theorem no_lost_update actor id version name cnpj ip w c w1 (commands : list CompanyCommand)
    (actor2 : SessionIdentity) (name2 : string) (cnpj2 : option string) (ip2 : string) :
  companies_ok (next_uuid w) (db w) ->
  update_company actor id version name cnpj ip w = (Ok c, w1) ->
  authorize (si_role actor2) Action.ADMINISTER_COMPANIES None (Some (si_user_id actor2)) = true ->
  str_nonempty (strip name2) = true ->
  let w2 := foldl (fun w c => run_company c w) w1 commands in
  update_company actor2 id version name2 cnpj2 ip2 w2 = (Err CompanyVersionConflict, w2).
Proof.
  intros Hok Hu Ha Hn w2. pose proof (follows_update actor id version name cnpj ip w) as Hf. rewrite Hu in Hf.
  destruct (updated_version _ _ _ _ _ _ _ _ _ Hu) as (i & Ho & Ho1 & Hid & (c0 & Hi & Hci & Hv) & Hrow).
  destruct Hf as (_ & _ & _ & [Hok1 _]%(fun f => f Hok)).
  destruct (follows_all commands w1) as (_ & _ & Ho2 & (_ & Hs & _)%(fun f => f Hok1)).
  assert (co_id c = i) as Hci'. { destruct Hok as [[Hk _] _]. rewrite Hci. by destruct (Hk _ _ Hi). }
  rewrite Hci' in Hrow. destruct (Hs _ _ Hrow) as (c2 & Hi2 & Hr2). apply lifecycle_permanent in Hr2 as (_ & _ & Hv2 & _).
  eapply stale_version; [done|done|unfold w2; by rewrite Ho2, Ho1|exact Hid|exact Hi2|]. destruct Hv2 as [->|]; lia.
Qed.

(** A context that carries a datetime is refused by the audit's JSON column. *)
Lemma collected_context c c' t :
  co_first_collection_at c' = Some t -> json_storable (redact (VDict (change_context c c'))) = false.
Proof. intros Ht. unfold change_context, company_fields. rewrite Ht. reflexivity. Qed.

Lemma audit_refused a w u w' : json_storable (redact (VDict (ai_context a))) = false -> audit (B:=B) a w <> (Ok u, w').
Proof. intros Hj H. apply audited_inv in H as [? _]. congruence. Qed.

(** An all-or-nothing operation that cannot succeed changes nothing. *)
Lemma refused_leaves {A} (m : M B A) w :
  all_or_nothing m -> (forall a w', m w = (Ok a, w') -> False) -> exists e w', m w = (Err e, w') /\ db w' = db w.
Proof. intros Ha Hn. destruct (m w) as [[a|e] w'] eqn:Hm; [by destruct (Hn _ _ eq_refl)|]. exists e, w'. split; [done|by eapply Ha]. Qed.

(** From its first collection on a company can no longer be administered: the
    audit context of every change carries the instant of that collection, which
    the audit's JSON column cannot hold, so updating, deactivating and activating
    it all fail, and nothing changes. *)
Theorem collected_company_frozen (id : string) i c t w :
  uuid_of (RefStr id) = Some i -> companies (db w) !! i = Some c -> co_first_collection_at c = Some t ->
  (forall actor version name cnpj ip, exists e w',
     update_company actor id version name cnpj ip w = (Err e, w') /\ db w' = db w) /\
  (forall actor reason ip, exists e w', deactivate_company actor id reason ip w = (Err e, w') /\ db w' = db w) /\
  (forall actor ip, exists e w', activate_company actor id ip w = (Err e, w') /\ db w' = db w).
Proof.
  intros Hid Hi Ht.
  assert (forall w1 c0, _company (B:=B) (RefStr id) w = (Ok c0, w1) -> w1 = w /\ c0 = c) as Hrow.
  { intros w1 c0 H. apply read_company_inv in H as (-> & j & Hj & Hc). split; [done|]. congruence. }
  split_and!; intros; apply refused_leaves;
    unfold update_company, deactivate_company, activate_company, _require_company_access, _validated_name, _validated_reason;
    try solve [all_or_nothing_tac].
  all: intros a w' H; invert_db;
    match goal with H : _company _ _ = _ |- _ => apply Hrow in H as [-> ->] end;
    match goal with H : audit _ _ = _ |- _ => eapply audit_refused in H; [done|by apply (collected_context _ _ t)] end.
Qed.

End lifecycle.
