(* ===== verification/CompanyRuns.v ===== *)
(** * A concrete run of the company services

    Two companies are registered; the theorems of [CompanyFacts] are applied
    along the run. *)

From Stdlib Require Import ZArith Ascii String Lia.
From stdpp Require Import base decidable list gmap strings sorting relations.
From S2P Require Import Prelude PyStr PyVal Models Tables AuditTrail Identity Companies CompanyFacts.

Local Open Scope string_scope.

Definition admin : SessionIdentity := MkSessionIdentity (uuid_str 7) "admin@example.org" "Admin" "administrador".

Definition c_start : World unit := MkWorld empty_db (seconds 5) 100 true verbatim tt.

Definition registering : list CompanyCommand :=
  [CreateCompany admin "11.222.333/0001-81" "First Ltda" "10.0.0.1";
   CreateCompany admin "04.252.011/0001-10" "Second SA" "10.0.0.1"].

Definition c_two : World unit := foldl (fun w c => run_company c w) c_start registering.

Lemma c_start_ok : companies_ok (next_uuid c_start) (db c_start).
Proof. unfold companies_ok, keyed. cbn -[lookup]. split_and!; intros *; rewrite ?lookup_empty; try done; by intros ? [=]. Qed.

Lemma c_two_ok : companies_ok (next_uuid c_two) (db c_two).
Proof.
  destruct (follows_all registering c_start) as (_ & _ & _ & H). exact (proj1 (H c_start_ok)).
Qed.

Lemma companies_follow_lifecycle_witness :
  length (rows (companies (db c_two))) = 2%nat /\
  companies_ok (next_uuid c_two) (db c_two) /\
  (forall i c', companies (db c_two) !! i = Some c' -> companies (db c_start) !! i = None ->
     exists c, registered c /\ rtc (lifecycle_step (clock c_start)) c c').
Proof.
  split; [vm_compute; reflexivity|].
  destruct (companies_follow_lifecycle registering c_start c_start_ok) as (H1 & _ & H3). by split.
Defined.

(** The first company, and its row after one update. *)
Definition first_id : string := uuid_str 100.

Definition updating (version : Z) : M unit Company := update_company admin first_id version "First Sociedade" None "10.0.0.1".

Definition no_company : Company := new_company 0 0 "" "".
Definition first_updated : Company := opt_default no_company (companies (db (updating 1 c_two).2) !! 100%N).

Lemma no_lost_update_witness :
  co_version first_updated = 2%Z /\
  updating 1 (run_company (ActivateCompany admin first_id "10.0.0.1") (updating 1 c_two).2) =
  (Err CompanyVersionConflict, run_company (ActivateCompany admin first_id "10.0.0.1") (updating 1 c_two).2).
Proof.
  split; [vm_compute; reflexivity|].
  apply (no_lost_update admin first_id 1 "First Sociedade" None "10.0.0.1" c_two first_updated (updating 1 c_two).2
    [ActivateCompany admin first_id "10.0.0.1"] admin "First Sociedade" None "10.0.0.1" c_two_ok);
    [apply ran; vm_compute; reflexivity | vm_compute; reflexivity | vm_compute; reflexivity].
Defined.

(** After its first collection the company is still there and cannot be changed. *)
Definition c_collected : World unit := (mark_first_collection (RefStr first_id) None c_two).2.
Definition collected : Company := opt_default no_company (companies (db c_collected) !! 100%N).

Lemma collected_company_frozen_witness :
  exists e w', deactivate_company admin first_id "encerrada" "10.0.0.1" c_collected = (Err e, w') /\ db w' = db c_collected.
Proof.
  destruct (collected_company_frozen first_id 100 collected (seconds 5) c_collected) as (_ & H & _);
    [vm_compute; reflexivity..|]. exact (H admin "encerrada" "10.0.0.1").
Defined.

(** Two pages of one company each. *)
Definition one_by_one : CompanyListFilter := MkCompanyListFilter (Some "inactive") None None 1 None.
Definition contains_text (text part : string) : bool := contains part text.

Lemma walk_companies_complete_witness :
  option_map (map co_cnpj) (walk_companies contains_text 3 one_by_one (db c_two)) = Some ["11222333000181"; "04252011000110"] /\
  NoDup (company_list_queryset contains_text one_by_one true (db c_two)).
Proof.
  assert (stored_by_id (db c_two)) as Hd.
  { intros i c Hi. destruct c_two_ok as [[H _] _]. destruct (H _ _ Hi) as [He Hlt]. split; [done|].
    eapply N.lt_trans; [exact Hlt|]. vm_compute. reflexivity. }
  split; [vm_compute; reflexivity|].
  apply (walk_companies_complete contains_text one_by_one (db c_two) 3 Hd); [done|]. vm_compute. lia.
Defined.
