(* ===== verification/JobPolicies.v ===== *)
(** * Versioned job policies (jobs/policy.py)

    Validation, creation and selection of the retry policy a job keeps for its
    lifetime. *)

From Stdlib Require Import ZArith Ascii String Lia.
From stdpp Require Import base decidable list gmap strings.
From S2P Require Import Prelude PyStr PyVal Models.

Local Open Scope string_scope.

Definition scope_char (c : ascii) : bool := is_lower c || is_digit c || char_in "_.:-" c.

#[export] Instance JobPolicy_eq_dec : EqDecision JobPolicy.
Proof. solve_decision. Defined.

(** [_SCOPE.fullmatch] *)
Definition _SCOPE (s : string) : bool := String.eqb s "*" || re_head is_lower scope_char 0 63 s.

(** The keyword arguments of [create_policy]. *)
Record PolicyInput : Type := MkPolicyInput {
  pi_source_scope : string; pi_flow_scope : string; pi_version : Z;
  pi_valid_from : datetime; pi_valid_until : option datetime; pi_retry_limit : Z;
  pi_backoff_initial_seconds : Z; pi_backoff_cap_seconds : Z;
  pi_jitter_seconds : Z; pi_cooldown_seconds : Z }.

(** The defaults: three retries, one second up to one hour, no jitter. *)
Definition policy_input (source flow : string) (version : Z) (from : datetime) : PolicyInput :=
  MkPolicyInput source flow version from None 3 1 3600 0 0.

Definition _validate_policy_values (p : PolicyInput) : result exn unit :=
  if negb (_SCOPE (pi_source_scope p)) || negb (_SCOPE (pi_flow_scope p))
  then Err (InvalidPolicy "source and flow scopes must be safe identifiers or *")
  else if Z.ltb (pi_version p) 1 then Err (InvalidPolicy "policy version must be positive")
  else if is_naive (pi_valid_from p) ||
          match pi_valid_until p with Some u => is_naive u | None => false end
  then Err (InvalidPolicy "policy validity must be timezone-aware")
  else if match pi_valid_until p with Some u => Z.leb (instant u) (instant (pi_valid_from p)) | None => false end
  then Err (InvalidPolicy "policy validity interval is empty")
  else if Z.ltb (pi_retry_limit p) 0 || Z.ltb (pi_backoff_initial_seconds p) 1 ||
          Z.ltb (pi_backoff_cap_seconds p) 1
  then Err (InvalidPolicy "policy timing values are invalid")
  else if Z.ltb (pi_backoff_cap_seconds p) (pi_backoff_initial_seconds p)
  then Err (InvalidPolicy "backoff cap must not be below the initial delay")
  else if Z.ltb (pi_jitter_seconds p) 0 || Z.ltb (pi_cooldown_seconds p) 0
  then Err (InvalidPolicy "policy timing values are invalid")
  else Ok tt.

(** The range of a PositiveIntegerField, checked by [full_clean]. *)
Definition positive_integer (z : Z) : bool := Z.leb 0 z && Z.leb z 2147483647.

Definition same_scope_version (p q : JobPolicy) : bool :=
  String.eqb (pol_source_scope p) (pol_source_scope q) &&
  String.eqb (pol_flow_scope p) (pol_flow_scope q) && Z.eqb (pol_version p) (pol_version q).

(** [policy.full_clean(validate_unique=True)]: field ranges, the unique
    (source, flow, version) constraint and the check constraints. *)
Definition policy_full_clean (p : JobPolicy) (d : DB) : bool :=
  Nat.leb (String.length (pol_source_scope p)) 100 && Nat.leb (String.length (pol_flow_scope p)) 100 &&
  positive_integer (pol_version p) && positive_integer (pol_retry_limit p) &&
  positive_integer (pol_backoff_initial_seconds p) && positive_integer (pol_backoff_cap_seconds p) &&
  positive_integer (pol_jitter_seconds p) && positive_integer (pol_cooldown_seconds p) &&
  negb (exists_row (same_scope_version p) (policies d)) &&
  match pol_valid_until p with Some u => Z.ltb (pol_valid_from p) u | None => true end &&
  Z.leb (pol_backoff_initial_seconds p) (pol_backoff_cap_seconds p) &&
  Z.ltb 0 (pol_backoff_initial_seconds p) && Z.ltb 0 (pol_backoff_cap_seconds p).

Section service.
Context {B : Type}.

(** [JobPolicy.save(force_insert=True)]: a published policy is immutable. *)
Definition save_policy (p : JobPolicy) : M B unit :=
  let* existing := query (fun d => policies d !! pol_id p) in
  if is_some existing then throw (ValueError "job policies are immutable")
  else write (fun d => d <| policies ::= put (pol_id p) p |>).

Definition create_policy (i : PolicyInput) : M B JobPolicy :=
  lift_result (_validate_policy_values i) ;;;
  let* id := uuid4 in
  let* now := timezone_now in
  let policy := MkJobPolicy id (pi_source_scope i) (pi_flow_scope i) (pi_version i)
                  (instant (pi_valid_from i)) (option_map instant (pi_valid_until i))
                  (pi_retry_limit i) (pi_backoff_initial_seconds i) (pi_backoff_cap_seconds i)
                  (pi_jitter_seconds i) (pi_cooldown_seconds i) now now in
  let* clean := query (policy_full_clean policy) in
  if negb clean then throw (InvalidPolicy "policy validation failed")
  else save_policy policy ;;; ret policy.

End service.

(** ** Selection *)

(** The rows [select_policy] filters: scope equal or [*], in force at [at]. *)
Definition covers (source flow : string) (at_ : Z) (p : JobPolicy) : bool :=
  (String.eqb (pol_source_scope p) source || String.eqb (pol_source_scope p) "*") &&
  (String.eqb (pol_flow_scope p) flow || String.eqb (pol_flow_scope p) "*") &&
  Z.leb (pol_valid_from p) at_ &&
  match pol_valid_until p with None => true | Some u => Z.ltb at_ u end.

Definition b2n (b : bool) : nat := if b then 1 else 0.

Definition specificity (source flow : string) (p : JobPolicy) : nat :=
  b2n (String.eqb (pol_source_scope p) source) + b2n (String.eqb (pol_flow_scope p) flow).

Definition max_specificity (source flow : string) (l : list JobPolicy) : nat :=
  foldr (fun p n => Nat.max (specificity source flow p) n) 0%nat l.

Definition select_policy_in (source flow : string) (at_ : datetime) (d : DB) : result exn JobPolicy :=
  if negb (_SCOPE source) || negb (_SCOPE flow)
  then Err (InvalidPolicy "source and flow must be safe identifiers")
  else if is_naive at_ then Err (InvalidPolicy "policy selection time must be timezone-aware")
  else
    let candidates := select (covers source flow (instant at_)) (policies d) in
    match candidates with
    | [] => Err PolicyNotFound
    | _ =>
        let best := max_specificity source flow candidates in
        match List.filter (fun p => Nat.eqb (specificity source flow p) best) candidates with
        | [p] => Ok p
        | _ => Err (AmbiguousPolicy)
        end
    end.

Definition select_policy {B} (source flow : string) (at_ : datetime) : M B JobPolicy :=
  let* r := query (select_policy_in source flow at_) in lift_result r.

(** ** Facts *)

Lemma max_specificity_ge source flow l p :
  p ∈ l -> (specificity source flow p <= max_specificity source flow l)%nat.
Proof.
  induction l as [|x l IH]; intros Hp; [by apply not_elem_of_nil in Hp|].
  change (max_specificity source flow (x :: l))
    with (Nat.max (specificity source flow x) (max_specificity source flow l)).
  apply elem_of_cons in Hp as [->|Hp]; [lia|]. specialize (IH Hp). lia.
Qed.

Lemma max_specificity_reached source flow l :
  l <> [] -> exists p, p ∈ l /\ specificity source flow p = max_specificity source flow l.
Proof.
  induction l as [|x l IH]; intros Hne; [done|].
  change (max_specificity source flow (x :: l))
    with (Nat.max (specificity source flow x) (max_specificity source flow l)).
  destruct l as [|y l]; [exists x; split; [left | symmetry; apply Nat.max_0_r]|].
  destruct IH as (p & Hp & Hs); [done|].
  destruct (Nat.max_spec (specificity source flow x) (max_specificity source flow (y :: l))) as [[_ Hm]|[_ Hm]].
  - exists p. split; [by right|]. by rewrite Hm.
  - exists x. split; [left | by rewrite Hm].
Qed.

Lemma filter_unique {A} (f : A -> bool) (l : list A) (x : A) :
  NoDup l -> x ∈ l -> f x = true -> (forall y, y ∈ l -> f y = true -> y = x) -> List.filter f l = [x].
Proof.
  induction l as [|y l IH]; intros Hnd Hx Hfx Hu; [by apply not_elem_of_nil in Hx|].
  apply NoDup_cons in Hnd as [Hy Hnd]. cbn. destruct (f y) eqn:Hfy.
  - assert (y = x) as -> by (apply Hu; [left | done]). f_equal.
    destruct (List.filter f l) as [|z l'] eqn:Hfl; [done|].
    assert (In z (List.filter f l)) as [Hz Hfz]%filter_In by (rewrite Hfl; by left).
    apply list_elem_of_In in Hz. assert (z = x) as -> by (apply Hu; [by right | done]). done.
  - apply elem_of_cons in Hx as [->|Hx]; [congruence|]. apply IH; [done..|].
    intros z Hz Hfz. apply Hu; [by right | done].
Qed.

(** Rows keyed by their own id. *)
Definition keyed {R} (key : R -> N) (t : gmap N R) : Prop := forall i r, t !! i = Some r -> key r = i.

Lemma keyed_NoDup_rows {R} (key : R -> N) (t : gmap N R) : keyed key t -> NoDup (rows t).
Proof.
  intros Hk. unfold rows. apply NoDup_fmap_2_strong; [|apply NoDup_map_to_list].
  intros [i x] [j y] Hi Hj Hxy. cbn in Hxy. subst y.
  apply elem_of_map_to_list in Hi, Hj. f_equal. rewrite <-(Hk _ _ Hi). by apply Hk.
Qed.

Lemma NoDup_select {R} (key : R -> N) p (t : gmap N R) : keyed key t -> NoDup (select p t).
Proof. intros Hk. apply NoDup_filter. by eapply keyed_NoDup_rows. Qed.

Lemma keyed_put {R} (key : R -> N) (t : gmap N R) r : keyed key t -> keyed key (put (key r) r t).
Proof.
  intros Hk i x. unfold put. rewrite lookup_insert. case_decide as He; [|apply Hk].
  intros [= <-]. done.
Qed.

Lemma by_id_update {R} (key : R -> N) (t : gmap N R) p f :
  (forall r, key (f r) = key r) -> keyed key t -> keyed key (update_where p f t).
Proof.
  intros Hf Hk i r. rewrite lookup_update_where, fmap_Some.
  intros (x & Hx & ->). rewrite <-(Hk _ _ Hx). by destruct (p x).
Qed.

(** Policy selection is deterministic and picks the most specific policy: it
    returns [p] exactly when [p] covers the source, the flow and the instant,
    and every other covering policy is strictly less specific (exact scopes
    before wildcards).  No covering policy is [PolicyNotFound]; a tie at the
    top is [AmbiguousPolicy]; those are the only outcomes for valid scopes and
    an aware time. *)
Theorem select_policy_most_specific (source flow : string) (at_ : Z) (d : DB) :
  keyed pol_id (policies d) -> _SCOPE source = true -> _SCOPE flow = true ->
  (forall p, select_policy_in source flow (Aware at_) d = Ok p <->
     (exists i, policies d !! i = Some p) /\ covers source flow at_ p = true /\
     forall i q, policies d !! i = Some q -> covers source flow at_ q = true -> q <> p ->
                 (specificity source flow q < specificity source flow p)%nat) /\
  (select_policy_in source flow (Aware at_) d = Err PolicyNotFound <->
     forall i q, policies d !! i = Some q -> covers source flow at_ q = false) /\
  (forall e, select_policy_in source flow (Aware at_) d = Err e -> e = PolicyNotFound \/ e = AmbiguousPolicy).
Proof.
  intros Hk Hs Hf. unfold select_policy_in. rewrite Hs, Hf. cbn [negb orb is_naive instant].
  set (P := covers source flow at_). set (l := select P (policies d)).
  assert (forall q, q ∈ l <-> P q = true /\ exists i, policies d !! i = Some q) as Hl
    by (intros q; apply elem_of_select).
  assert (NoDup l) as Hnd by (by eapply NoDup_select).
  destruct (decide (l = [])) as [Hnil|Hne].
  - rewrite Hnil. split; [|split].
    + intros p. split; [done|]. intros (Hi & Hp & _).
      assert (p ∈ l) as Hin by (by apply Hl). rewrite Hnil in Hin. by apply not_elem_of_nil in Hin.
    + split; [|done]. intros _ i q Hq. destruct (P q) eqn:HPq; [|done].
      assert (q ∈ l) as Hin by (apply Hl; eauto). rewrite Hnil in Hin. by apply not_elem_of_nil in Hin.
    + intros e [= <-]. by left.
  - set (best := max_specificity source flow l).
    set (top := List.filter (fun p => Nat.eqb (specificity source flow p) best) l).
    assert ((match l with [] => Err PolicyNotFound | _ :: _ =>
              match top with [p] => Ok p | _ => Err AmbiguousPolicy end end) =
            (match top with [p] => Ok p | _ => Err AmbiguousPolicy end : result exn JobPolicy)) as ->
      by (by destruct l).
    assert (forall q, q ∈ top <-> q ∈ l /\ specificity source flow q = best) as Htop.
    { intros q. unfold top. rewrite !list_elem_of_In, filter_In, Nat.eqb_eq. done. }
    split; [|split].
    + intros p. split.
      * destruct top as [|q [|q' rest]] eqn:Ht; try done. intros [= ->].
        destruct (proj1 (Htop p)) as [Hp Hbest]; [left|]. apply Hl in Hp as [HP Hi].
        split; [done|]. split; [done|]. intros i q Hq HPq Hne'.
        assert (q ∈ l) as Hql by (apply Hl; eauto).
        pose proof (max_specificity_ge source flow l q Hql).
        destruct (decide (specificity source flow q = best)) as [He|He]; [|unfold best in *; lia].
        assert (q ∈ [p]) as Hqp by (by apply Htop). by apply list_elem_of_singleton in Hqp.
      * intros (Hi & HP & Hmax).
        assert (p ∈ l) as Hp by (by apply Hl).
        assert (specificity source flow p = best) as Hbest.
        { destruct (max_specificity_reached source flow l Hne) as (m & Hm & Hsm).
          destruct (decide (m = p)) as [->|Hmp]; [done|].
          apply Hl in Hm as [HPm [j Hj]]. pose proof (Hmax j m Hj HPm Hmp).
          pose proof (max_specificity_ge source flow l p Hp). unfold best. lia. }
        unfold top. rewrite (filter_unique _ l p); [done|done|done|by apply Nat.eqb_eq|].
        intros y Hy Hby%Nat.eqb_eq. destruct (decide (y = p)); [done|].
        apply Hl in Hy as [HPy [j Hj]]. pose proof (Hmax j y Hj HPy ltac:(done)). lia.
    + split; [by destruct top as [|? [|]]|]. intros Hnone. exfalso.
      destruct (max_specificity_reached source flow l Hne) as (m & Hm & _).
      apply Hl in Hm as [HPm [j Hj]]. rewrite (Hnone j m Hj) in HPm. done.
    + intros e. destruct top as [|? [|]]; intros [= <-]; by right.
Qed.

Definition sample_policy (id : N) (source flow : string) : JobPolicy :=
  MkJobPolicy id source flow 1 0 None 3 1 3600 0 60 0 0.

Definition sample_policies : DB :=
  empty_db <| policies := <[1%N := sample_policy 1 "*" "*"]>
                          (<[2%N := sample_policy 2 "synthetic" "nfe"]> ∅) |>.

Lemma select_policy_most_specific_witness :
  select_policy_in "synthetic" "nfe" (Aware 5) sample_policies = Ok (sample_policy 2 "synthetic" "nfe") /\
  select_policy_in "synthetic" "nfse" (Aware 5) sample_policies = Ok (sample_policy 1 "*" "*") /\
  (forall e, select_policy_in "synthetic" "nfe" (Aware 5) sample_policies = Err e ->
             e = PolicyNotFound \/ e = AmbiguousPolicy).
Proof.
  split; [vm_compute; reflexivity|]. split; [vm_compute; reflexivity|].
  apply (select_policy_most_specific "synthetic" "nfe" 5 sample_policies); [|reflexivity..].
  intros i r. cbn. rewrite !lookup_insert, lookup_empty. repeat case_decide; subst; intros [= <-]; reflexivity.
Defined.
