(* ===== verification/JobEngine.v ===== *)
(** * The durable job engine (jobs/services.py, jobs/handlers.py, jobs/models.py)

    Enqueueing, leases, the classified finalisation of a handler's result, the
    worker and the scheduler.  The abstract specification is [lifecycle], the
    transitions one job may make; [engine_refines_lifecycle] shows that every
    operation of the engine moves every row along it and nothing else. *)

From Stdlib Require Import ZArith Ascii String Lia.
From stdpp Require Import base decidable list gmap strings relations.
From S2P Require Import Prelude PyStr PyVal Models JobPolicies.

Local Open Scope string_scope.

(** ** Safe values *)

Definition safe_key_char (c : ascii) : bool := is_alpha c || is_digit c || char_in "_.-" c.

Definition _SAFE_KEY (k : string) : bool := re_head is_alpha safe_key_char 0 127 k.

Definition _FORBIDDEN (k : string) : bool :=
  search_ci ["pfx"; "pem"; "xml"; "pdf"; "token"; "credential"; "password"; "secret"; "private";
             "content"; "binary"; "blob"] k.

Definition _SAFE_ERROR (s : string) : bool :=
  re_head is_lower (fun c => is_lower c || is_digit c || char_in "_.-" c) 0 63 s.

(** A text that may not travel in a job: markup or a PDF. *)
Definition unsafe_text (s : string) : bool := starts_with "<" (lstrip s) || starts_with "%PDF" s.

Fixpoint _validate_safe_value (path : string) (value : pyval) : result exn pyval :=
  match value with
  | VDict d =>
      let fix items (d : pydict) : result exn pydict :=
        match d with
        | [] => Ok []
        | (name, item) :: rest =>
            if negb (_SAFE_KEY name) || _FORBIDDEN name
            then Err (InvalidJobPayload ("unsafe field at " ++ path))
            else match _validate_safe_value (path ++ "." ++ name) item with
                 | Err e => Err e
                 | Ok v => match items rest with Err e => Err e | Ok r => Ok ((name, v) :: r) end
                 end
        end in
      match items d with Err e => Err e | Ok d' => Ok (VDict d') end
  | VList l =>
      let fix items (l : list pyval) : result exn (list pyval) :=
        match l with
        | [] => Ok []
        | item :: rest =>
            match _validate_safe_value (path ++ "[]") item with
            | Err e => Err e
            | Ok v => match items rest with Err e => Err e | Ok r => Ok (v :: r) end
            end
        end in
      match items l with Err e => Err e | Ok l' => Ok (VList l') end
  | VStr s => if unsafe_text s then Err (InvalidJobPayload ("unsafe value at " ++ path)) else Ok value
  | VNone | VBool _ | VInt _ | VFloat _ => Ok value
  | VBytes _ | VTuple _ | VExc _ | VOther _ => Err (InvalidJobPayload ("unsupported value at " ++ path))
  end.

Definition _safe_error_code (value : string) : string :=
  if _SAFE_ERROR value then value else "handler_failed".

(** ** Handler results (jobs/handlers.py) *)

Record HandlerOutcome : Type := MkHandlerOutcome {
  ho_kind : string; ho_result : pydict; ho_error_code : string; ho_cooldown_until : option datetime }.

Definition outcome_success (result : pydict) : HandlerOutcome :=
  MkHandlerOutcome (JobOutcomeKind.value JobOutcomeKind.SUCCESS) result "" None.
Definition outcome_temporary (error_code : string) (result : pydict) : HandlerOutcome :=
  MkHandlerOutcome (JobOutcomeKind.value JobOutcomeKind.TEMPORARY) result error_code None.
Definition outcome_cooldown (until : option datetime) (error_code : string) (result : pydict) : HandlerOutcome :=
  MkHandlerOutcome (JobOutcomeKind.value JobOutcomeKind.COOLDOWN) result error_code until.
Definition outcome_permanent (error_code : string) (result : pydict) : HandlerOutcome :=
  MkHandlerOutcome (JobOutcomeKind.value JobOutcomeKind.PERMANENT) result error_code None.
Definition outcome_partial (error_code : string) (result : pydict) : HandlerOutcome :=
  MkHandlerOutcome (JobOutcomeKind.value JobOutcomeKind.PARTIAL) result error_code None.

(** [HandlerOutcome | Mapping | None] *)
Inductive handler_result : Type :=
| Outcome (o : HandlerOutcome)
| Mapping (m : option pydict).

(** ** The engine *)

(** The clock of the engine is the world's; [jitter_source] is what the random
    source answers for a bound. *)
Record JobEngine : Type := MkJobEngine { lease_duration : Z; jitter_source : Z -> Z }.

Definition new_engine (lease : Z) (jitter : Z -> Z) : result exn JobEngine :=
  if Z.leb lease 0 then Err (ValueError "lease_duration must be positive") else Ok (MkJobEngine lease jitter).

(** The arguments of [enqueue]. *)
Record Enqueue : Type := MkEnqueue {
  en_job_type : string; en_logical_target : string; en_payload : pydict; en_idempotency_key : string;
  en_priority : Z; en_scheduled_at : option datetime; en_policy : option JobPolicy;
  en_policy_source : option string; en_policy_flow : option string }.

Definition active_state (s : JobState.t) : bool :=
  match s with JobState.QUEUED | JobState.RUNNING => true | _ => false end.

(** The rows the partial unique constraint covers. *)
Definition unfinished (s : JobState.t) : bool :=
  match s with JobState.COMPLETED => false | _ => true end.

Definition active_with_key (key : string) (j : Job) : bool :=
  String.eqb (job_idempotency_key j) key && active_state (job_state j).

Definition unfinished_with_key (key : string) (j : Job) : bool :=
  String.eqb (job_idempotency_key j) key && unfinished (job_state j).

(** Column widths of [Job]. *)
Definition int32 (z : Z) : bool := Z.leb (-2147483648) z && Z.leb z 2147483647.
Definition width (n : nat) (s : string) : bool := Nat.leb (String.length s) n.

Definition new_job (id : N) (now : Z) (r : Enqueue) (payload : pyval) (due : Z) (policy : option JobPolicy) : Job :=
  MkJob id (option_map pol_id policy) (en_job_type r) (en_logical_target r) payload (en_priority r)
    (en_idempotency_key r) due 0 None JobState.QUEUED None None None None "" None None None "" now now None.

Definition expired (now : Z) (j : Job) : bool :=
  match job_state j, job_lease_expires_at j with
  | JobState.RUNNING, Some t => Z.leb t now
  | _, _ => false
  end.

(** The [update] of [reclaim_expired], [recover] and [claim]. *)
Definition requeue (now : Z) (j : Job) : Job :=
  j <| job_state := JobState.QUEUED |> <| job_scheduled_at := now |> <| job_lease_owner := None |>
    <| job_lease_issued_at := None |> <| job_lease_expires_at := None |>
    <| job_safe_error := "lease_expired" |> <| job_updated_at := now |>.

Definition expire_leases (now : Z) (d : DB) : DB :=
  d <| jobs ::= update_where (expired now) (requeue now) |>.

(** Queued, due, and not locked by another transaction. *)
Definition claimable (now : Z) (locked : gset N) (j : Job) : bool :=
  match job_state j with JobState.QUEUED => true | _ => false end &&
  Z.leb (job_scheduled_at j) now && negb (bool_decide (job_id j ∈ locked)).

(** [order_by("-priority", "scheduled_at", "created_at")] *)
Definition claim_le (a b : Job) : bool :=
  if Z.eqb (job_priority a) (job_priority b)
  then if Z.eqb (job_scheduled_at a) (job_scheduled_at b)
       then Z.leb (job_created_at a) (job_created_at b)
       else Z.ltb (job_scheduled_at a) (job_scheduled_at b)
  else Z.ltb (job_priority b) (job_priority a).

Definition leased (now until : Z) (owner : string) (j : Job) : Job :=
  j <| job_state := JobState.RUNNING |> <| job_lease_owner := Some owner |>
    <| job_lease_issued_at := Some now |> <| job_lease_expires_at := Some until |>
    <| job_last_attempt_at := Some now |> <| job_attempt_count ::= Z.succ |> <| job_updated_at := now |>.

Definition is_running (j : Job) : bool := match job_state j with JobState.RUNNING => true | _ => false end.

(** [filter(id=..., state=RUNNING, lease_owner=owner, lease_expires_at__gt=now)] *)
Definition lease_held (now : Z) (owner : string) (j : Job) : bool :=
  is_running j &&
  match job_lease_owner j with Some o => String.eqb o owner | None => false end &&
  match job_lease_expires_at j with Some t => Z.ltb now t | None => false end.

Definition clear_lease (j : Job) : Job :=
  j <| job_lease_owner := None |> <| job_lease_issued_at := None |> <| job_lease_expires_at := None |>.

Definition clear_block (j : Job) : Job :=
  j <| job_cooldown_until := None |> <| job_blocked_at := None |> <| job_blocked_reason := "" |>.

Definition block (now : Z) (reason : string) (j : Job) : Job :=
  j <| job_state := JobState.BLOCKED |> <| job_completed_at := None |> <| job_blocked_at := Some now |>
    <| job_blocked_reason := reason |>.

Section engine.
Context {B : Type} (engine : JobEngine).

Definition job_row (id : N) : M B (option Job) := query (fun d => jobs d !! id).

(** [Job.save]: the policy captured at enqueue time is immutable. *)
Definition save_job (j : Job) : M B unit :=
  let* existing := job_row (job_id j) in
  match existing with
  | Some old =>
      if decide (job_effective_policy old = job_effective_policy j)
      then write (fun d => d <| jobs ::= put (job_id j) j |>)
      else throw (ValueError "effective job policies are immutable")
  | None => write (fun d => d <| jobs ::= put (job_id j) j |>)
  end.

(** [Job.objects.create] against the column widths and the partial unique
    constraint. *)
Definition create_job (r : Enqueue) (payload : pyval) (due : Z) (policy : option JobPolicy) : M B Job :=
  let* id := uuid4 in
  let* now := timezone_now in
  let job := new_job id now r payload due policy in
  require (width 100 (en_job_type r) && width 255 (en_logical_target r) &&
           width 255 (en_idempotency_key r) && int32 (en_priority r)) DataError ;;;
  let* taken := query (fun d => exists_row (unfinished_with_key (en_idempotency_key r)) (jobs d)) in
  require (negb taken) IntegrityError ;;;
  save_job job ;;;
  ret job.

Fixpoint enqueue_tries (tries : nat) (r : Enqueue) (payload : pyval) (due : Z) (policy : option JobPolicy) : M B Job :=
  match tries with
  | O => throw (JobEngineError "could not resolve active idempotency key")
  | S n =>
      try_except
        (atomic (
           let* existing := query (fun d => first_by (by_key (fun j => Z.of_N (job_id j)))
                                              (select (active_with_key (en_idempotency_key r)) (jobs d))) in
           match existing with
           | Some job => ret job
           | None => create_job r payload due policy
           end))
        (fun e => match e with
                  | IntegrityError => enqueue_tries n r payload due policy
                  | _ => throw e
                  end)
  end.

Definition policy_in_force (at_ : Z) (p : JobPolicy) : bool :=
  Z.leb (pol_valid_from p) at_ && match pol_valid_until p with None => true | Some u => Z.ltb at_ u end.

Definition enqueue (r : Enqueue) : M B Job :=
  let* safe_payload := lift_result (_validate_safe_value "payload" (VDict (en_payload r))) in
  let* now := timezone_now in
  let due_at := opt_default (Aware now) (en_scheduled_at r) in
  require (is_aware due_at) (ValueError "scheduled_at must be timezone-aware") ;;;
  require (str_nonempty (en_job_type r) && str_nonempty (en_logical_target r) &&
           str_nonempty (en_idempotency_key r))
    (ValueError "job_type, logical_target, and idempotency_key are required") ;;;
  require (negb (is_some (en_policy r) && (is_some (en_policy_source r) || is_some (en_policy_flow r))))
    (ValueError "use policy or policy scope, not both") ;;;
  require (Bool.eqb (is_some (en_policy_source r)) (is_some (en_policy_flow r)))
    (ValueError "policy_source and policy_flow must be provided together") ;;;
  let* policy :=
    match en_policy_source r, en_policy_flow r with
    | Some source, Some flow =>
        let* p := autocommit (select_policy source flow due_at) in ret (Some p)
    | _, _ => ret (en_policy r)
    end in
  require (match policy with Some p => policy_in_force (instant due_at) p | None => true end)
    (ValueError "policy is not valid at the scheduled time") ;;;
  enqueue_tries 2 r safe_payload (instant due_at) policy.

Definition count_expired (now : Z) (d : DB) : nat := length (select (expired now) (jobs d)).

Definition reclaim_expired : M B nat :=
  let* now := timezone_now in
  atomic (let* n := query (count_expired now) in write (expire_leases now) ;;; ret n).

Definition queued_due (now : Z) (j : Job) : bool :=
  match job_state j with JobState.QUEUED => true | _ => false end && Z.leb (job_scheduled_at j) now.

Definition recover : M B (nat * nat) :=
  let* now := timezone_now in
  atomic (
    let* reclaimed := query (count_expired now) in
    write (expire_leases now) ;;;
    let* due := query (fun d => length (select (queued_due now) (jobs d))) in
    ret (reclaimed, due)).

Definition claim (locked : gset N) (owner : string) : M B (option Job) :=
  require (str_nonempty owner && str_nonempty (strip owner)) (ValueError "owner is required") ;;;
  let* now := timezone_now in
  atomic (
    write (expire_leases now) ;;;
    let* job := query (fun d => first_by claim_le (select (claimable now locked) (jobs d))) in
    match job with
    | None => ret None
    | Some j =>
        let j' := leased now (now + lease_duration engine)%Z owner j in
        require (width 128 owner && positive_integer (job_attempt_count j')) DataError ;;;
        save_job j' ;;;
        ret (Some j')
    end).

(** The guarded [update] both [_lease_update] and [finalize] issue: the number
    of rows it changed, as a boolean. *)
Definition update_held (id : N) (owner : string) (now : Z) (fields : Job -> Job) : M B bool :=
  let* row := job_row id in
  match row with
  | Some j =>
      if lease_held now owner j
      then write (fun d => d <| jobs ::= put id (fields j <| job_updated_at := now |>) |>) ;;; ret true
      else ret false
  | None => ret false
  end.

Definition get_job (id : N) : M B Job :=
  let* row := job_row id in of_option row DoesNotExist.

Definition _lease_update (id : N) (owner : string) (fields : Job -> Job) : M B Job :=
  let* now := timezone_now in
  atomic (
    let* updated := update_held id owner now fields in
    if updated then get_job id
    else
      let* row := job_row id in
      if match row with Some j => is_running j | None => false end
      then throw LeaseLost
      else throw (InvalidTransition "job is not running")).

Definition renew (id : N) (owner : string) : M B Job :=
  let* now := timezone_now in
  _lease_update id owner (fun j => j <| job_lease_expires_at := Some (now + lease_duration engine)%Z |>).

Definition complete_fields (now : Z) (safe_result : pyval) (j : Job) : Job :=
  clear_block (clear_lease j) <| job_state := JobState.COMPLETED |> <| job_safe_result := Some safe_result |>
    <| job_safe_error := "" |> <| job_completed_at := Some now |>
    <| job_last_outcome := Some JobOutcomeKind.SUCCESS |>.

Definition complete (id : N) (owner : string) (result : option pydict) : M B Job :=
  let* safe_result := lift_result (_validate_safe_value "result" (VDict (opt_default [] result))) in
  let* now := timezone_now in
  _lease_update id owner (complete_fields now safe_result).

Definition _retry_delay (job : Job) (policy : JobPolicy) : Z :=
  let exponent := Z.max 0 (job_attempt_count job - 1) in
  let base_seconds := Z.min (pol_backoff_cap_seconds policy) (pol_backoff_initial_seconds policy * 2 ^ exponent) in
  let jitter := jitter_source engine (pol_jitter_seconds policy) in
  let jitter := Z.max (- pol_jitter_seconds policy) (Z.min (pol_jitter_seconds policy) jitter) in
  seconds (Z.min (pol_backoff_cap_seconds policy) (Z.max 0 (base_seconds + jitter))).

Definition _cooldown_due (outcome : HandlerOutcome) (policy : JobPolicy) (now : Z) : result exn Z :=
  let due_at :=
    match ho_cooldown_until outcome with
    | None => if Z.eqb (pol_cooldown_seconds policy) 0 then None
              else Some (Aware (now + seconds (pol_cooldown_seconds policy))%Z)
    | Some due => Some due
    end in
  match due_at with
  | Some (Aware t) =>
      if Z.leb t now
      then Err (InvalidTransition "cooldown outcome requires a future timezone-aware deadline") else Ok t
  | _ => Err (InvalidTransition "cooldown outcome requires a future timezone-aware deadline")
  end.

(** The field values of a classified result: the branches of [finalize]. *)
Definition finalize_fields (kind : JobOutcomeKind.t) (outcome : HandlerOutcome) (safe_result : pyval)
    (error_code : string) (policy : option JobPolicy) (now : Z) (job : Job) : result exn (Job -> Job) :=
  let common j := clear_block (clear_lease j) <| job_safe_result := Some safe_result |>
                    <| job_safe_error := error_code |> <| job_last_outcome := Some kind |> in
  match kind with
  | JobOutcomeKind.SUCCESS =>
      Ok (fun j => common j <| job_state := JobState.COMPLETED |> <| job_completed_at := Some now |>)
  | JobOutcomeKind.PERMANENT => Ok (fun j => block now error_code (common j))
  | _ =>
      match policy with
      | None => Ok (fun j => block now "policy_required" (common j) <| job_safe_error := "policy_required" |>)
      | Some policy =>
          if Z.ltb (pol_retry_limit policy) (job_attempt_count job)
          then Ok (fun j => block now "retry_exhausted" (common j) <| job_safe_error := "retry_exhausted" |>)
          else
            let due_at := (now + _retry_delay job policy)%Z in
            let requeued due j := common j <| job_state := JobState.QUEUED |> <| job_scheduled_at := due |>
                                    <| job_completed_at := None |> in
            match kind with
            | JobOutcomeKind.COOLDOWN =>
                match _cooldown_due outcome policy now with
                | Err e => Err e
                | Ok due_at => Ok (fun j => requeued due_at j <| job_cooldown_until := Some due_at |>)
                end
            | _ => Ok (requeued due_at)
            end
      end
  end.

Definition finalize (id : N) (owner : string) (outcome : HandlerOutcome) : M B Job :=
  let* kind := of_option (JobOutcomeKind.of_value (ho_kind outcome)) (InvalidTransition "unknown handler outcome") in
  let* safe_result := lift_result (_validate_safe_value "result" (VDict (ho_result outcome))) in
  let error_code := _safe_error_code (str_or (ho_error_code outcome) (ho_kind outcome)) in
  let* now := timezone_now in
  atomic (
    let* row := job_row id in
    match row with
    | None => throw (InvalidTransition "job is not running")
    | Some job =>
        require (is_running job) (InvalidTransition "job is not running") ;;;
        require (lease_held now owner job) LeaseLost ;;;
        let* policy := query (fun d => job_effective_policy job ≫= fun p => policies d !! p) in
        let* fields := lift_result (finalize_fields kind outcome safe_result error_code policy now job) in
        let* updated := update_held id owner now fields in
        require updated LeaseLost ;;;
        get_job id
    end).

Definition fail_fields (due : Z) (error_code : string) (j : Job) : Job :=
  clear_block (clear_lease j) <| job_state := JobState.QUEUED |> <| job_scheduled_at := due |>
    <| job_safe_result := None |> <| job_safe_error := _safe_error_code error_code |>
    <| job_completed_at := None |> <| job_last_outcome := Some JobOutcomeKind.TEMPORARY |>.

Definition fail (id : N) (owner error_code : string) (scheduled_at : option datetime) : M B Job :=
  let* now := timezone_now in
  let due_at := opt_default (Aware now) scheduled_at in
  require (is_aware due_at) (ValueError "scheduled_at must be timezone-aware") ;;;
  _lease_update id owner (fail_fields (instant due_at) error_code).

(** ** Worker and scheduler *)

Definition handler : Type := Job -> M B handler_result.

(** The registry [_HANDLERS]. *)
Definition registry : Type := gmap string handler.

Definition register_handler (job_type : string) (h : handler) (r : registry) : result exn registry :=
  if str_nonempty (strip job_type) then Ok (<[job_type := h]> r) else Err (ValueError "job_type is required").
Definition unregister_handler (job_type : string) (r : registry) : registry := delete job_type r.
Definition clear_handlers (r : registry) : registry := ∅.
Definition get_handler (job_type : string) (r : registry) : option handler := r !! job_type.

(** Hand a failed attempt back: through the policy, or by an immediate retry. *)
Definition give_back (job : Job) (owner error_code : string) : M B unit :=
  (if is_some (job_effective_policy job)
   then finalize (job_id job) owner (outcome_temporary error_code [])
   else fail (job_id job) owner error_code None) ;;; ret tt.

Definition catch (caught : exn -> bool) (m : M B unit) : M B unit :=
  try_except m (fun e => if caught e then ret tt else throw e).

Definition is_LeaseLost (e : exn) : bool := match e with LeaseLost => true | _ => false end.
Definition is_OperationalError (e : exn) : bool := match e with OperationalError => true | _ => false end.

Definition run_handler (handlers : registry) (owner : string) (job : Job) : M B unit :=
  match get_handler (job_job_type job) handlers with
  | None => catch is_LeaseLost (give_back job owner "handler_not_registered")
  | Some h =>
      try_except
        (let* result := h job in
         match result with
         | Outcome o => finalize (job_id job) owner o
         | Mapping m => complete (job_id job) owner m
         end ;;; ret tt)
        (fun e => match e with
                  | LeaseLost | OperationalError => ret tt
                  | _ => catch (fun e => is_LeaseLost e || is_OperationalError e)
                           (give_back job owner "handler_failed")
                  end)
  end.

(** [process_one]: whether a job was taken. *)
Definition process_one (handlers : registry) (locked : gset N) (owner : string) : M B bool :=
  let* claimed :=
    try_except (claim locked owner)
      (fun e => if is_OperationalError e then ret None else throw e) in
  match claimed with
  | None => ret false
  | Some job => run_handler handlers owner job ;;; ret true
  end.

(** One iteration per element of [turns], while [should_continue()] holds: the
    rows other transactions have locked when it claims, and what the rest of
    the world does during its sleep. *)
Definition run_worker_loop (handlers : registry) (owner : string) (heartbeat : M B unit)
    (turns : list (gset N * (World B -> World B))) : M B unit :=
  fold_each turns (fun _ turn =>
    process_one handlers turn.1 owner ;;;
    catch is_OperationalError heartbeat ;;;
    modify turn.2) tt.

Definition run_scheduler_loop (heartbeat : M B unit) (initial_processor : M B nat)
    (pauses : list (World B -> World B)) : M B unit :=
  fold_each pauses (fun _ pause =>
    catch is_OperationalError (initial_processor ;;; ret tt) ;;;
    catch is_OperationalError (recover ;;; ret tt) ;;;
    catch is_OperationalError heartbeat ;;;
    modify pause) tt.

End engine.

#[global] Arguments handler B : clear implicits.
#[global] Arguments registry B : clear implicits.
#[global] Arguments create_job : simpl never.
#[global] Arguments enqueue_tries : simpl never.
#[global] Arguments enqueue : simpl never.
#[global] Arguments claim : simpl never.
#[global] Arguments recover : simpl never.
#[global] Arguments reclaim_expired : simpl never.
#[global] Arguments _lease_update : simpl never.
#[global] Arguments finalize : simpl never.
#[global] Arguments complete : simpl never.
#[global] Arguments renew : simpl never.
#[global] Arguments fail : simpl never.
#[global] Arguments process_one : simpl never.
