(* ===== verification/JobLifecycle.v ===== *)
(** * What the job engine guarantees

    The abstract specification of a job's life, the refinement of it by
    [JobEngine], the invariant of the job table over any interleaving of
    operations, and the contracts of claiming, finalising, enqueueing and
    running a handler. *)

From Stdlib Require Import ZArith Ascii String Lia.
From stdpp Require Import base decidable list gmap strings relations.
From S2P Require Import Prelude PyStr PyVal Models JobPolicies JobEngine.

Local Open Scope string_scope.

(** ** The abstract specification *)

(** What no operation may change while a job is given back. *)
Definition same_work (a b : Job) : Prop :=
  job_id a = job_id b /\ job_effective_policy a = job_effective_policy b /\
  job_job_type a = job_job_type b /\ job_logical_target a = job_logical_target b /\
  job_payload a = job_payload b /\ job_priority a = job_priority b /\
  job_idempotency_key a = job_idempotency_key b /\ job_created_at a = job_created_at b /\
  job_attempt_count a = job_attempt_count b.

Definition no_lease (j : Job) : Prop :=
  job_lease_owner j = None /\ job_lease_issued_at j = None /\ job_lease_expires_at j = None.

(** A job that was given back at [now]. *)
Definition closed (now : Z) (j : Job) : Prop :=
  no_lease j /\
  match job_state j with
  | JobState.RUNNING => False
  | JobState.QUEUED => job_completed_at j = None /\ job_blocked_at j = None
  | JobState.COMPLETED => job_completed_at j = Some now /\ job_blocked_at j = None
  | JobState.BLOCKED => job_completed_at j = None /\ job_blocked_at j = Some now
  end.

(** [actor]: the job and the owner on whose behalf the operation runs, if any. *)
Inductive lifecycle (now : Z) (actor : option (N * string)) : Job -> Job -> Prop :=
| lc_expire j :
    expired now j = true -> lifecycle now actor j (requeue now j)
| lc_claim j until owner :
    queued_due now j = true -> (now < until)%Z -> lifecycle now actor j (leased now until owner j)
| lc_renew j until owner :
    actor = Some (job_id j, owner) -> lease_held now owner j = true -> (now < until)%Z ->
    lifecycle now actor j (j <| job_lease_expires_at := Some until |> <| job_updated_at := now |>)
| lc_close j j' owner :
    actor = Some (job_id j, owner) -> lease_held now owner j = true ->
    same_work j j' -> closed now j' -> lifecycle now actor j j'.

Definition fresh_job (j : Job) : Prop :=
  job_state j = JobState.QUEUED /\ no_lease j /\ job_completed_at j = None /\ job_blocked_at j = None /\
  job_attempt_count j = 0%Z.

(** One operation on the table: every row moves along the lifecycle, none
    disappears, and at most one row appears, with a key no unfinished job has. *)
Record table_step (now : Z) (actor : option (N * string)) (t t' : gmap N Job) : Prop := {
  ts_moved : forall i j, t !! i = Some j ->
    exists j', t' !! i = Some j' /\ rtc (lifecycle now actor) j j';
  ts_added : forall i j', t !! i = None -> t' !! i = Some j' ->
    fresh_job j' /\ job_id j' = i /\
    forall k j, t !! k = Some j -> unfinished_with_key (job_idempotency_key j') j = false;
  ts_one : forall i k, t !! i = None -> t !! k = None -> is_Some (t' !! i) -> is_Some (t' !! k) -> i = k }.

Lemma table_step_refl now actor t : table_step now actor t t.
Proof.
  split.
  - intros i j Hj. exists j. split; [done | apply rtc_refl].
  - intros i j' Hn Hs. congruence.
  - intros i k Hi Hk [j Hj] _. congruence.
Qed.

(** One row moves. *)
Lemma table_step_put now actor t i j j' :
  t !! i = Some j -> rtc (lifecycle now actor) j j' -> table_step now actor t (put i j' t).
Proof.
  intros Hj Hm. unfold put. split.
  - intros k x Hx. destruct (decide (k = i)) as [->|Hne].
    + rewrite lookup_insert_eq. exists j'. split; [done|]. congruence.
    + rewrite lookup_insert_ne by done. exists x. split; [done | apply rtc_refl].
  - intros k x Hn. destruct (decide (k = i)) as [->|Hne]; [congruence|].
    rewrite lookup_insert_ne by done. congruence.
  - intros k l Hk Hl [x Hx] _. destruct (decide (k = i)) as [->|Hne]; [congruence|].
    rewrite lookup_insert_ne in Hx by done. congruence.
Qed.

(** Every expired lease moves. *)
Lemma table_step_expire now actor t : table_step now actor t (update_where (expired now) (requeue now) t).
Proof.
  split.
  - intros i j Hj. rewrite lookup_update_where, Hj. cbn. eexists. split; [done|].
    destruct (expired now j) eqn:He; [|apply rtc_refl]. apply rtc_once. by constructor.
  - intros i j' Hn. rewrite lookup_update_where, Hn. done.
  - intros i k Hi _ [x Hx]. rewrite lookup_update_where, Hi in Hx. done.
Qed.

(** Moves of one operation compose. *)
Lemma table_step_moves now actor t1 t2 t3 :
  table_step now actor t1 t2 -> (forall i, t1 !! i = None -> t2 !! i = None) ->
  table_step now actor t2 t3 -> (forall i, t2 !! i = None -> t3 !! i = None) -> table_step now actor t1 t3.
Proof.
  intros H12 Hn12 H23 Hn23. split.
  - intros i j Hj. destruct (ts_moved _ _ _ _ H12 i j Hj) as (x & Hx & Hjx).
    destruct (ts_moved _ _ _ _ H23 i x Hx) as (y & Hy & Hxy).
    exists y. split; [done | by etrans].
  - intros i j Hn Hs. rewrite Hn23 in Hs; [done | by apply Hn12].
  - intros i k Hi _ [x Hx]. rewrite Hn23 in Hx; [done | by apply Hn12].
Qed.

(** ** The operations *)

Inductive Op : Type :=
| OpEnqueue (r : Enqueue)
| OpReclaim
| OpRecover
| OpClaim (locked : gset N) (owner : string)
| OpRenew (id : N) (owner : string)
| OpComplete (id : N) (owner : string) (result : option pydict)
| OpFinalize (id : N) (owner : string) (outcome : HandlerOutcome)
| OpFail (id : N) (owner error_code : string) (scheduled_at : option datetime).

Definition op_actor (op : Op) : option (N * string) :=
  match op with
  | OpRenew id owner | OpComplete id owner _ | OpFinalize id owner _ | OpFail id owner _ _ => Some (id, owner)
  | _ => None
  end.

Section engine.
Context {B : Type} (e : JobEngine).

Definition run_op (op : Op) : M B unit :=
  match op with
  | OpEnqueue r => enqueue r ;;; ret tt
  | OpReclaim => reclaim_expired ;;; ret tt
  | OpRecover => recover ;;; ret tt
  | OpClaim locked owner => claim e locked owner ;;; ret tt
  | OpRenew id owner => renew e id owner ;;; ret tt
  | OpComplete id owner result => complete id owner result ;;; ret tt
  | OpFinalize id owner outcome => finalize e id owner outcome ;;; ret tt
  | OpFail id owner code due => fail id owner code due ;;; ret tt
  end.

(** The world between the operations: time passes and the database comes and
    goes; an operation runs as one transaction. *)
Inductive step : World B -> World B -> Prop :=
| step_op op w : step w (run_op op w).2
| step_tick w t : (clock w <= t)%Z -> step w (w <| clock := t |>)
| step_network w b : step w (w <| online := b |>).

(** ** The invariant of the job table *)

Definition job_ok (j : Job) : Prop :=
  (0 <= job_attempt_count j)%Z /\
  match job_state j with
  | JobState.RUNNING =>
      is_Some (job_lease_owner j) /\
      (exists i u, job_lease_issued_at j = Some i /\ job_lease_expires_at j = Some u /\ (i < u)%Z) /\
      (1 <= job_attempt_count j)%Z /\ job_completed_at j = None /\ job_blocked_at j = None
  | JobState.QUEUED => no_lease j /\ job_completed_at j = None /\ job_blocked_at j = None
  | JobState.COMPLETED => no_lease j /\ is_Some (job_completed_at j) /\ job_blocked_at j = None
  | JobState.BLOCKED => no_lease j /\ job_completed_at j = None /\ is_Some (job_blocked_at j)
  end.

(** [nfx_job_active_idempotency_uq] *)
Definition keys_unique (t : gmap N Job) : Prop :=
  forall i k a b, t !! i = Some a -> t !! k = Some b ->
    unfinished (job_state a) = true -> unfinished (job_state b) = true ->
    job_idempotency_key a = job_idempotency_key b -> i = k.

Record table_ok (t : gmap N Job) : Prop := {
  tok_keyed : keyed job_id t;
  tok_rows : forall i j, t !! i = Some j -> job_ok j;
  tok_keys : keys_unique t }.

Definition issued_by (now : Z) (j : Job) : Prop := forall t, job_lease_issued_at j = Some t -> (t <= now)%Z.

(** Leases in the table were issued in the past: the clock only advances. *)
Definition job_inv (w : World B) : Prop :=
  table_ok (jobs (db w)) /\
  (forall i, is_Some (jobs (db w) !! i) -> (i < next_uuid w)%N) /\
  forall i j, jobs (db w) !! i = Some j -> issued_by (clock w) j.


(** ** What each operation does to the table *)


(** [w] with another job table. *)
Definition with_jobs (t : gmap N Job) (w : World B) : World B := w <| db ::= fun d => d <| jobs := t |> |>.

Lemma lease_update_effect id owner fields (w : World B) :
  (_lease_update id owner fields w).2 = w \/
  exists j, online w = true /\ jobs (db w) !! id = Some j /\ lease_held (clock w) owner j = true /\
    let j' := fields j <| job_updated_at := clock w |> in
    _lease_update id owner fields w = (Ok j', with_jobs (put id j' (jobs (db w))) w).
Proof.
  unfold _lease_update, update_held, get_job, job_row, atomic. exec.
  destruct (online w) eqn:Ho; [|by left].
  destruct (jobs (db w) !! id) as [j|] eqn:Hj.
  - destruct (lease_held (clock w) owner j) eqn:Hl.
    + right. exists j. do 3 (split; [done|]). cbn. unfold put. rewrite lookup_insert_eq. done.
    + left. cbn. rewrite Hj. destruct (is_running j); same_world.
  - left. cbn. rewrite Hj. same_world.
Qed.

Lemma finalize_effect id owner outcome (w : World B) :
  (finalize e id owner outcome w).2 = w \/
  exists kind safe fields j, online w = true /\ jobs (db w) !! id = Some j /\
    lease_held (clock w) owner j = true /\
    JobOutcomeKind.of_value (ho_kind outcome) = Some kind /\
    _validate_safe_value "result" (VDict (ho_result outcome)) = Ok safe /\
    finalize_fields e kind outcome safe (_safe_error_code (str_or (ho_error_code outcome) (ho_kind outcome)))
      (job_effective_policy j ≫= fun p => policies (db w) !! p) (clock w) j = Ok fields /\
    let j' := fields j <| job_updated_at := clock w |> in
    finalize e id owner outcome w = (Ok j', with_jobs (put id j' (jobs (db w))) w).
Proof.
  unfold finalize, of_option.
  destruct (JobOutcomeKind.of_value (ho_kind outcome)) as [kind|] eqn:Hk; [|by left].
  destruct (_validate_safe_value _ _) as [safe|x] eqn:Hs; [|by left].
  unfold update_held, get_job, job_row, atomic. exec.
  destruct (online w) eqn:Ho; [|by left].
  destruct (jobs (db w) !! id) as [j|] eqn:Hj; [|left; same_world].
  destruct (is_running j) eqn:Hr; [|left; same_world].
  destruct (lease_held (clock w) owner j) eqn:Hl; [|left; same_world].
  destruct (finalize_fields _ _ _ _ _ _ _ _) as [fields|x] eqn:Hf; [|left; same_world].
  right. exists kind, safe, fields, j. do 6 (split; [done|]).
  cbn. rewrite Hj. cbn. rewrite Hl. cbn. unfold put. by rewrite lookup_insert_eq.
Qed.

(** What [claim] sees: the table after expired leases are taken back. *)
Definition swept (w : World B) : gmap N Job := update_where (expired (clock w)) (requeue (clock w)) (jobs (db w)).

Definition next_claim (locked : gset N) (w : World B) : option Job :=
  first_by claim_le (select (claimable (clock w) locked) (swept w)).

Definition taken (owner : string) (w : World B) (j : Job) : Job :=
  leased (clock w) (clock w + lease_duration e) owner j.

Lemma claim_offline locked owner (w : World B) :
  online w = false -> str_nonempty owner && str_nonempty (strip owner) = true ->
  claim e locked owner w = (Err OperationalError, w).
Proof.
  intros Ho Hown. unfold claim. rewrite Hown. unfold require, bind, ret, timezone_now, gets. cbn beta iota.
  by rewrite atomic_offline.
Qed.

Lemma swept_keyed w : keyed job_id (jobs (db w)) -> keyed job_id (swept w).
Proof. apply by_id_update. done. Qed.

Lemma claim_effect locked owner (w : World B) :
  keyed job_id (jobs (db w)) -> online w = true -> str_nonempty owner && str_nonempty (strip owner) = true ->
  claim e locked owner w =
  match next_claim locked w with
  | None => (Ok None, with_jobs (swept w) w)
  | Some j =>
      if width 128 owner && positive_integer (Z.succ (job_attempt_count j))
      then (Ok (Some (taken owner w j)), with_jobs (put (job_id j) (taken owner w j) (swept w)) w)
      else (Err DataError, w)
  end.
Proof.
  destruct w as [d now nu on cs b]. cbn [online db]. intros Hk -> Hown. unfold claim. rewrite Hown.
  unfold save_job, job_row, atomic, expire_leases, next_claim, swept, taken. exec.
  destruct (first_by _ _) as [j|] eqn:Hn; [|done].
  destruct (width 128 owner && positive_integer (Z.succ (job_attempt_count j))) eqn:Hw; cbn; [|done].
  apply first_by_elem, elem_of_select in Hn as [_ [i Hi]].
  pose proof (swept_keyed (MkWorld d now nu true cs b) Hk i j Hi) as Hid. cbn in Hi. rewrite Hid, Hi.
  by rewrite decide_True by done.
Qed.

(** The first active row with a key. *)
Definition active_row (key : string) (w : World B) : option Job :=
  first_by (by_key (fun j => Z.of_N (job_id j))) (select (active_with_key key) (jobs (db w))).

Definition key_taken (key : string) (w : World B) : bool := exists_row (unfinished_with_key key) (jobs (db w)).

Definition row_fits (r : Enqueue) : bool :=
  width 100 (en_job_type r) && width 255 (en_logical_target r) && width 255 (en_idempotency_key r) &&
  int32 (en_priority r).

Definition enqueued (r : Enqueue) (payload : pyval) (due : Z) (policy : option JobPolicy) (w : World B) : Job :=
  new_job (next_uuid w) (clock w) r payload due policy.

Definition with_uuid (n : N) (w : World B) : World B := w <| next_uuid := n |>.

(** The first try: what the transaction does. *)
Lemma enqueue_tries_S n r payload due policy (w : World B) :
  jobs (db w) !! next_uuid w = None ->
  enqueue_tries (S n) r payload due policy w =
  if online w then
    match active_row (en_idempotency_key r) w with
    | Some j => (Ok j, w)
    | None =>
        if row_fits r then
          if key_taken (en_idempotency_key r) w
          then enqueue_tries n r payload due policy (with_uuid (N.succ (next_uuid w)) w)
          else let j := enqueued r payload due policy w in
               (Ok j, with_uuid (N.succ (next_uuid w)) (with_jobs (put (next_uuid w) j (jobs (db w))) w))
        else (Err DataError, with_uuid (N.succ (next_uuid w)) w)
    end
  else (Err OperationalError, w).
Proof.
  destruct w as [d now nu on cs b]. cbn [db next_uuid online]. intros Hf. change (enqueue_tries (S n) r payload due policy)
    with (try_except (atomic (
           let* existing := query (fun d => first_by (by_key (fun j => Z.of_N (job_id j)))
                                              (select (active_with_key (en_idempotency_key r)) (jobs d))) in
           match existing with
           | Some job => ret job
           | None => create_job r payload due policy
           end))
        (fun e => match e with
                  | IntegrityError => enqueue_tries (B:=B) n r payload due policy
                  | _ => throw e
                  end)).
  unfold create_job, save_job, job_row, atomic, active_row, key_taken, row_fits, enqueued. exec.
  destruct on; [|done].
  destruct (first_by _ _) as [j|]; [done|]. cbn.
  destruct (width 100 _ && _ && _ && _); cbn; [|done].
  destruct (exists_row _ _); cbn; [done|]. by rewrite Hf.
Qed.

(** The validated arguments of an enqueue that reaches the database. *)
Lemma enqueue_effect r (w : World B) :
  (exists x, enqueue r w = (Err x, w)) \/
  exists safe due policy,
    _validate_safe_value "payload" (VDict (en_payload r)) = Ok safe /\
    due = opt_default (Aware (clock w)) (en_scheduled_at r) /\
    is_aware due = true /\
    str_nonempty (en_job_type r) && str_nonempty (en_logical_target r) &&
      str_nonempty (en_idempotency_key r) = true /\
    enqueue r w = enqueue_tries 2 r safe (instant due) policy w.
Proof.
  unfold enqueue, require, lift_result.
  destruct (_validate_safe_value _ _) as [safe|x]; [|left; eexists; reflexivity].
  unfold timezone_now, bind, gets, ret, throw. cbn beta iota zeta.
  destruct (is_aware _) eqn:Ha; [|left; eexists; reflexivity]. cbn beta iota zeta.
  destruct (str_nonempty _ && _ && _) eqn:Hn; [|left; eexists; reflexivity]. cbn beta iota zeta.
  destruct (negb (_ && _)); [|left; eexists; reflexivity]. cbn beta iota zeta.
  destruct (Bool.eqb _ _); [|left; eexists; reflexivity]. cbn beta iota zeta.
  destruct (en_policy_source r) as [source|].
  - destruct (en_policy_flow r) as [flow|].
    + unfold autocommit, atomic, select_policy, query, gets, bind, lift_result, ret, throw.
      destruct (online w); [|left; eexists; reflexivity]. cbn beta iota zeta.
      destruct (select_policy_in _ _ _ _) as [p|x]; cbn beta iota zeta.
      * destruct (policy_in_force _ p); [|left; eexists; reflexivity].
        right. exists safe, (opt_default (Aware (clock w)) (en_scheduled_at r)), (Some p). done.
      * left. exists x. destruct w; reflexivity.
    + destruct (match en_policy r with Some p => _ | None => true end); [|left; eexists; reflexivity].
      right. exists safe, (opt_default (Aware (clock w)) (en_scheduled_at r)), (en_policy r). done.
  - destruct (match en_policy r with Some p => _ | None => true end); [|left; eexists; reflexivity].
    right. exists safe, (opt_default (Aware (clock w)) (en_scheduled_at r)), (en_policy r). done.
Qed.

(** ** Refinement *)

(** What an operation changes besides the job table: identifiers are consumed. *)
Definition op_frame (w w' : World B) : Prop :=
  clock w' = clock w /\ online w' = online w /\ bucket w' = bucket w /\ (next_uuid w <= next_uuid w')%N /\
  db w' = db w <| jobs := jobs (db w') |>.

Lemma op_frame_same w : op_frame w w.
Proof. destruct w as [[] ?????]. unfold op_frame. cbn. repeat split; lia. Qed.

Lemma op_frame_jobs t w : op_frame w (with_jobs t w).
Proof. unfold op_frame. cbn. repeat split; lia. Qed.

Lemma op_frame_uuid n w : (next_uuid w <= n)%N -> op_frame w (with_uuid n w).
Proof. destruct w as [[] ?????]. unfold op_frame. cbn. repeat split; lia. Qed.

Lemma op_frame_trans w1 w2 w3 : op_frame w1 w2 -> op_frame w2 w3 -> op_frame w1 w3.
Proof.
  intros (Hc & Ho & Hb & Hn & Hd) (Hc' & Ho' & Hb' & Hn' & Hd'). unfold op_frame.
  rewrite Hc', Ho', Hb', Hd', Hd. cbn. repeat split; [done..|lia].
Qed.

Definition op_step (op : Op) (w w' : World B) : Prop :=
  op_frame w w' /\ table_step (clock w) (op_actor op) (jobs (db w)) (jobs (db w')) /\
  forall i, jobs (db w) !! i = None -> is_Some (jobs (db w') !! i) -> (i < next_uuid w')%N.

Lemma op_step_same op w : op_step op w w.
Proof.
  split; [apply op_frame_same|]. split; [apply table_step_refl|]. intros i Hn [j Hj]. congruence.
Qed.

Lemma with_jobs_step op t (w : World B) :
  table_step (clock w) (op_actor op) (jobs (db w)) t -> (forall i, jobs (db w) !! i = None -> t !! i = None) ->
  op_step op w (with_jobs t w).
Proof.
  intros Ht Hnew. split; [apply op_frame_jobs|]. split; [exact Ht|].
  intros i Hn [j Hj]. cbn in Hj. rewrite Hnew in Hj by done. done.
Qed.

Lemma put_no_new (t : gmap N Job) k j' : is_Some (t !! k) -> forall i, t !! i = None -> put k j' t !! i = None.
Proof. intros [x Hx] i Hi. unfold put. rewrite lookup_insert_ne; [done|]. intros ->. congruence. Qed.

Lemma update_no_new (t : gmap N Job) p f i : t !! i = None -> update_where p f t !! i = None.
Proof. intros Hi. by rewrite lookup_update_where, Hi. Qed.

(** The rows an operation adds have the identifiers it drew. *)
Lemma table_step_new now actor t i j :
  t !! i = None -> fresh_job j -> job_id j = i ->
  (forall k x, t !! k = Some x -> unfinished_with_key (job_idempotency_key j) x = false) ->
  table_step now actor t (put i j t).
Proof.
  intros Hn Hf Hid Hu. unfold put. split.
  - intros k x Hx. destruct (decide (k = i)) as [->|Hne]; [congruence|].
    rewrite lookup_insert_ne by done. exists x. split; [done | apply rtc_refl].
  - intros k x Hk. destruct (decide (k = i)) as [->|Hne].
    + rewrite lookup_insert_eq. intros [= <-]. done.
    + rewrite lookup_insert_ne by done. congruence.
  - intros k l Hk Hl [x Hx] [y Hy]. destruct (decide (k = i)) as [->|Hne].
    + destruct (decide (l = i)) as [->|Hne']; [done|]. rewrite lookup_insert_ne in Hy by done. congruence.
    + rewrite lookup_insert_ne in Hx by done. congruence.
Qed.

Lemma enqueue_tries_step n op r safe due policy (w : World B) :
  jobs (db w) !! next_uuid w = None -> (forall i, is_Some (jobs (db w) !! i) -> (i < next_uuid w)%N) ->
  op_step op w (enqueue_tries n r safe due policy w).2.
Proof.
  revert w. induction n as [|n IH]; intros w Hf Hlt; [apply op_step_same|].
  rewrite enqueue_tries_S by done. destruct (online w); [|apply op_step_same].
  destruct (active_row _ w); [apply op_step_same|].
  assert (op_step op w (with_uuid (N.succ (next_uuid w)) w)) as Hdraw.
  { split; [apply op_frame_uuid; lia|]. split; [apply table_step_refl|]. intros i Hn [j Hj]. cbn in Hj. congruence. }
  destruct (row_fits r); [|done].
  destruct (key_taken _ w) eqn:Ht.
  - assert (op_step op (with_uuid (N.succ (next_uuid w)) w)
              (enqueue_tries n r safe due policy (with_uuid (N.succ (next_uuid w)) w)).2) as [Hfr Hrest].
    { apply IH; cbn.
      - destruct (jobs (db w) !! N.succ (next_uuid w)) eqn:Hx; [|done].
        assert (N.succ (next_uuid w) < next_uuid w)%N by (apply Hlt; eauto). lia.
      - intros i Hi. specialize (Hlt i Hi). lia. }
    split; [|exact Hrest]. eapply op_frame_trans; [apply Hdraw | exact Hfr].
  - split; [|split].
    + eapply op_frame_trans; [apply op_frame_jobs | apply op_frame_uuid; cbn; lia].
    + apply table_step_new; [done|by repeat split|done|]. intros k x Hx.
      unfold key_taken in Ht. rewrite exists_row_false in Ht. by eapply Ht.
    + intros i Hn [j Hj]. cbn in Hj |- *. unfold put in Hj.
      destruct (decide (i = next_uuid w)) as [->|Hne]; [lia|].
      rewrite lookup_insert_ne in Hj by done. congruence.
Qed.

(** Giving a job back closes it. *)
Lemma complete_fields_closed now safe j :
  same_work j (complete_fields now safe j <| job_updated_at := now |>) /\
  closed now (complete_fields now safe j <| job_updated_at := now |>).
Proof. by repeat split. Qed.

Lemma fail_fields_closed now due code j :
  same_work j (fail_fields due code j <| job_updated_at := now |>) /\
  closed now (fail_fields due code j <| job_updated_at := now |>).
Proof. by repeat split. Qed.

Lemma finalize_fields_closed kind outcome safe code policy now j fields :
  finalize_fields e kind outcome safe code policy now j = Ok fields ->
  same_work j (fields j <| job_updated_at := now |>) /\ closed now (fields j <| job_updated_at := now |>).
Proof.
  unfold finalize_fields. destruct kind; try (intros [= <-]; by repeat split);
    (destruct policy as [p|]; [|intros [= <-]; by repeat split]);
    (destruct (Z.ltb _ _); [intros [= <-]; by repeat split|]).
  - intros [= <-]. by repeat split.
  - destruct (_cooldown_due _ _ _); [|done]. intros [= <-]. by repeat split.
  - intros [= <-]. by repeat split.
Qed.

Lemma close_step op id owner j j' (w : World B) :
  keyed job_id (jobs (db w)) -> jobs (db w) !! id = Some j -> lease_held (clock w) owner j = true ->
  op_actor op = Some (id, owner) -> same_work j j' /\ closed (clock w) j' ->
  op_step op w (with_jobs (put id j' (jobs (db w))) w).
Proof.
  intros Hk Hj Hl Ha [Hs Hc]. apply with_jobs_step; [|apply put_no_new; eauto].
  eapply table_step_put; [done|]. apply rtc_once. apply lc_close with owner; [|done..].
  by rewrite (Hk _ _ Hj).
Qed.

Lemma run_op_snd {A} (m : M B A) w : ((m ;;; ret tt) w).2 = (m w).2.
Proof. unfold bind. by destruct (m w) as [[a|x] w']. Qed.

Lemma claim_step locked owner (w : World B) :
  (0 < lease_duration e)%Z -> keyed job_id (jobs (db w)) ->
  op_step (OpClaim locked owner) w (claim e locked owner w).2.
Proof.
  intros Hd Hk. destruct (str_nonempty owner && str_nonempty (strip owner)) eqn:Hown.
  2: { unfold claim. rewrite Hown. apply op_step_same. }
  destruct (online w) eqn:Ho.
  2: { rewrite claim_offline by done. apply op_step_same. }
  rewrite claim_effect by done. destruct (next_claim locked w) as [j|] eqn:Hn.
  2: { apply with_jobs_step; [apply table_step_expire|]. intros. by apply update_no_new. }
  destruct (width 128 owner && _); [|apply op_step_same].
  apply first_by_elem, elem_of_select in Hn as [Hc [i Hi]].
  rewrite (swept_keyed w Hk i j Hi). apply with_jobs_step.
  2: { intros k Hkn. apply put_no_new; [eauto|]. by apply update_no_new. }
  apply table_step_moves with (swept w).
  - apply table_step_expire.
  - intros k Hkn. by apply update_no_new.
  - eapply table_step_put; [exact Hi|]. apply rtc_once. apply lc_claim; [|lia].
    unfold claimable in Hc. unfold queued_due. by apply andb_true_iff in Hc as [-> _].
  - intros k Hkn. apply put_no_new; eauto.
Qed.

Lemma lease_op_step op id owner fields (w : World B) :
  keyed job_id (jobs (db w)) ->
  (forall j, jobs (db w) !! id = Some j -> lease_held (clock w) owner j = true ->
     op_step op w (with_jobs (put id (fields j <| job_updated_at := clock w |>) (jobs (db w))) w)) ->
  op_step op w (_lease_update id owner fields w).2.
Proof.
  intros Hk Hc. destruct (lease_update_effect id owner fields w) as [->|(j & _ & Hj & Hl & He)];
    [apply op_step_same|]. cbn in He. rewrite He. by apply Hc.
Qed.

(** Every operation of the engine refines the abstract lifecycle. *)
Lemma run_op_step op (w : World B) :
  (0 < lease_duration e)%Z -> keyed job_id (jobs (db w)) ->
  (forall i, is_Some (jobs (db w) !! i) -> (i < next_uuid w)%N) -> op_step op w (run_op op w).2.
Proof.
  intros Hd Hk Hlt. destruct op as [r| | |locked owner|id owner|id owner result|id owner o|id owner code due];
    cbn [run_op]; rewrite run_op_snd.
  - destruct (enqueue_effect r w) as [[x ->]|(safe & due & policy & _ & _ & _ & _ & ->)]; [apply op_step_same|].
    apply enqueue_tries_step; [|done]. destruct (jobs (db w) !! next_uuid w) eqn:Hx; [|done].
    assert (next_uuid w < next_uuid w)%N by (apply Hlt; eauto). lia.
  - unfold reclaim_expired, atomic. exec. destruct (online w) eqn:Ho; [|apply op_step_same].
    split; [unfold op_frame; cbn; rewrite Ho; repeat split; lia|]. split; [apply table_step_expire|].
    intros i Hn [j Hj]. cbn in Hj. by rewrite update_no_new in Hj.
  - unfold recover, atomic. exec. destruct (online w) eqn:Ho; [|apply op_step_same].
    split; [unfold op_frame; cbn; rewrite Ho; repeat split; lia|]. split; [apply table_step_expire|].
    intros i Hn [j Hj]. cbn in Hj. by rewrite update_no_new in Hj.
  - by apply claim_step.
  - unfold renew. exec. apply lease_op_step; [done|]. intros j Hj Hl.
    apply with_jobs_step; [|apply put_no_new; eauto]. eapply table_step_put; [done|]. apply rtc_once.
    apply (lc_renew _ _ _ _ owner); [cbn; by rewrite (Hk _ _ Hj)|done|lia].
  - unfold complete, lift_result. destruct (_validate_safe_value _ _) as [safe|x]; [|apply op_step_same]. exec.
    apply lease_op_step; [done|]. intros j Hj Hl. eapply close_step; [done..|]. apply complete_fields_closed.
  - destruct (finalize_effect id owner o w) as [->|(kind & safe & fields & j & Ho & Hj & Hl & _ & _ & Hf & He)];
      [apply op_step_same|].
    cbn zeta in He. rewrite He. eapply close_step; [done..|]. by eapply finalize_fields_closed.
  - unfold fail, require. exec. destruct (is_aware _); [|apply op_step_same]. cbn.
    apply lease_op_step; [done|]. intros j Hj Hl. eapply close_step; [done..|]. apply fail_fields_closed.
Qed.

End engine.
