(* ===== verification/JobGuarantees.v ===== *)
(** * Guarantees of the job engine

    The properties that follow from the lifecycle refinement, over any
    interleaving of engine operations, passing time and lost connections; and
    the functional contracts of claiming, finalising, enqueueing, recovery and
    of running a handler. *)

From Stdlib Require Import ZArith Ascii String Lia.
From stdpp Require Import base decidable list gmap strings relations.
From S2P Require Import Prelude PyStr PyVal Models JobPolicies JobEngine JobLifecycle.

Local Open Scope string_scope.

(** ** Enqueueing touches no table but the jobs *)

Lemma keeps_enqueue {B T} (f : DB -> T) r :
  (forall d g, f (d <| jobs ::= g |>) = f d) -> moves (keeps f) (enqueue (B:=B) r).
Proof.
  intros Hf. assert (forall g, moves (keeps f) (write (B:=B) (fun d => d <| jobs ::= g |>))) as Hw
    by (intros g; apply keeps_write; intros d; apply Hf).
  assert (forall n payload due policy, moves (keeps f) (enqueue_tries (B:=B) n r payload due policy)) as Ht.
  { induction n as [|n IH]; intros payload due policy; [apply moves_pure; [apply _|]; intros w; reflexivity|]. unfold enqueue_tries. fold (@enqueue_tries B).
    unfold create_job, save_job, job_row. frame_tac; solve [apply Hw | apply IH]. }
  unfold enqueue, select_policy. frame_tac.
Qed.

Lemma env_enqueue {B} r : moves env_grows (enqueue (B:=B) r).
Proof.
  assert (forall n payload due policy, moves env_grows (enqueue_tries (B:=B) n r payload due policy)) as Ht.
  { induction n as [|n IH]; intros payload due policy; [by apply moves_pure; [apply _|]|]. unfold enqueue_tries. fold (@enqueue_tries B).
    unfold create_job, save_job, job_row. env_tac. }
  unfold enqueue, select_policy. env_tac.
Qed.

#[export] Hint Resolve env_enqueue : env.

(** ** Facts about one job *)

Definition sound_at (now : Z) (j : Job) : Prop := job_ok j /\ issued_by now j.

Definition final (j : Job) : Prop := job_state j = JobState.COMPLETED \/ job_state j = JobState.BLOCKED.

Lemma lifecycle_final now actor j j' : lifecycle now actor j j' -> ~ final j.
Proof.
  intros Hl [Hf|Hf]; destruct Hl as [j He|j u o Hq|j u o _ Hh _|j j' o _ Hh _ _];
    unfold expired, queued_due, lease_held, is_running in *; by rewrite Hf in *.
Qed.

(** What no lifecycle step changes, and what it only lets grow. *)
Record continues (a b : Job) : Prop := {
  cont_id : job_id b = job_id a;
  cont_key : job_idempotency_key b = job_idempotency_key a;
  cont_policy : job_effective_policy b = job_effective_policy a;
  cont_type : job_job_type b = job_job_type a;
  cont_target : job_logical_target b = job_logical_target a;
  cont_payload : job_payload b = job_payload a;
  cont_priority : job_priority b = job_priority a;
  cont_attempts : (job_attempt_count a <= job_attempt_count b)%Z;
  cont_unfinished : unfinished (job_state b) = true -> unfinished (job_state a) = true }.

#[export] Instance continues_preorder : PreOrder continues.
Proof.
  split.
  - intros j. by split.
  - intros a b c [] []. split; first [congruence | lia | tauto].
Qed.

Lemma held_running now owner j : lease_held now owner j = true -> job_state j = JobState.RUNNING.
Proof. unfold lease_held, is_running. by destruct (job_state j). Qed.

Lemma expired_running now j : expired now j = true -> job_state j = JobState.RUNNING.
Proof. unfold expired. by destruct (job_state j). Qed.

Lemma due_queued now j : queued_due now j = true -> job_state j = JobState.QUEUED.
Proof. unfold queued_due. by destruct (job_state j). Qed.

Lemma lifecycle_continues now actor j j' : lifecycle now actor j j' -> continues j j'.
Proof.
  intros [x He|x u o Hq|x u o _ Hh _|x y o _ Hh Hs _].
  - apply expired_running in He. split; cbn; try done. by rewrite He.
  - apply due_queued in Hq. split; cbn; try done; [lia|]. by rewrite Hq.
  - split; cbn; done || lia.
  - apply held_running in Hh. destruct Hs as (?&?&?&?&?&?&?&?&?). split; try congruence; [lia|].
    by rewrite Hh.
Qed.

Lemma lifecycle_sound now actor j j' : lifecycle now actor j j' -> sound_at now j -> sound_at now j'.
Proof.
  intros Hl [Hok Hi]. destruct Hl as [j He|j u o Hq Hu|j u o _ Hh Hu|j j' o _ Hh Hs [Hn Hc]].
  - apply expired_running in He. unfold job_ok in Hok. rewrite He in Hok.
    split; [|done]. destruct Hok as (Ha & _ & _ & _ & Hc & Hb). by repeat split.
  - apply due_queued in Hq. unfold job_ok in Hok. rewrite Hq in Hok. destruct Hok as (Ha & _ & Hc & Hb).
    split.
    + split; [cbn; lia|]. cbn. split; [done|]. split; [eauto|]. split; [lia | done].
    + intros t [= <-]. lia.
  - pose proof (held_running _ _ _ Hh) as Hr. unfold job_ok in Hok. rewrite Hr in Hok.
    destruct Hok as (Ha & Ho & (i & x & Hii & Hx & Hix) & Hc).
    split; [|done]. split; [done|]. cbn. rewrite Hr. split; [done|]. split; [|done].
    exists i, u. specialize (Hi i Hii). repeat split; [done|lia].
  - destruct Hs as (?&?&?&?&?&?&?&?&Hatt). destruct Hok as [Ha _].
    split; [split; [lia|]|].
    + destruct (job_state j'); [|done|..]; destruct Hc as [-> ->]; done.
    + intros t. destruct Hn as (_ & -> & _). done.
Qed.

Lemma rtc_preserves {A} (R : relation A) (P : A -> Prop) x y :
  (forall a b, R a b -> P a -> P b) -> rtc R x y -> P x -> P y.
Proof. intros Hstep. induction 1; eauto. Qed.

Lemma rtc_continues now actor j j' : rtc (lifecycle now actor) j j' -> continues j j'.
Proof.
  induction 1 as [|x y z Hxy _ IH]; [reflexivity|]. etrans; [by eapply lifecycle_continues | done].
Qed.

Lemma rtc_final now actor j j' : rtc (lifecycle now actor) j j' -> final j -> j' = j.
Proof. intros [|x y z Hxy _] Hf; [done|]. by destruct (lifecycle_final _ _ _ _ Hxy). Qed.

(** ** Facts about the table *)

Lemma table_step_ok now actor t t' :
  table_step now actor t t' -> table_ok t -> (forall i j, t !! i = Some j -> issued_by now j) ->
  table_ok t' /\ forall i j, t' !! i = Some j -> issued_by now j.
Proof.
  intros Hs Hok Hi.
  assert (forall i j', t' !! i = Some j' -> job_id j' = i /\ sound_at now j') as Hrow.
  { intros i j' Hj'. destruct (t !! i) as [j|] eqn:Hj.
    - destruct (ts_moved _ _ _ _ Hs i j Hj) as (x & Hx & Hm). assert (x = j') as -> by congruence.
      split; [rewrite (cont_id _ _ (rtc_continues _ _ _ _ Hm)); by apply (tok_keyed _ Hok)|].
      eapply (rtc_preserves _ (sound_at now)); [apply lifecycle_sound | exact Hm |].
      split; [by eapply (tok_rows _ Hok) | by eapply Hi].
    - destruct (ts_added _ _ _ _ Hs i j' Hj Hj') as ((Hq & (Ho & Hii & Hu) & Hc & Hb & Ha) & Hid & _).
      split; [done|]. split; [|intros t0; by rewrite Hii].
      split; [lia|]. rewrite Hq. by repeat split. }
  split; [|intros i j Hj; by apply Hrow in Hj as [_ [_ ?]]].
  split.
  - intros i j Hj. by apply Hrow in Hj as [? _].
  - intros i j Hj. by apply Hrow in Hj as [_ [? _]].
  - intros i k a b Ha Hb Hua Hub Hkey.
    destruct (t !! i) as [a0|] eqn:Ha0; destruct (t !! k) as [b0|] eqn:Hb0.
    + destruct (ts_moved _ _ _ _ Hs i a0 Ha0) as (x & Hx & Hm). assert (x = a) as -> by congruence.
      destruct (ts_moved _ _ _ _ Hs k b0 Hb0) as (y & Hy & Hm'). assert (y = b) as -> by congruence.
      apply rtc_continues in Hm, Hm'. eapply (tok_keys _ Hok); [exact Ha0 | exact Hb0 | ..].
      * by apply Hm.
      * by apply Hm'.
      * rewrite <-(cont_key _ _ Hm), <-(cont_key _ _ Hm'). done.
    + exfalso. destruct (ts_moved _ _ _ _ Hs i a0 Ha0) as (x & Hx & Hm). assert (x = a) as -> by congruence.
      destruct (ts_added _ _ _ _ Hs k b Hb0 Hb) as (_ & _ & Hfree). specialize (Hfree i a0 Ha0).
      apply rtc_continues in Hm. unfold unfinished_with_key in Hfree.
      rewrite <-(cont_key _ _ Hm), Hkey, String.eqb_refl, (cont_unfinished _ _ Hm Hua) in Hfree. done.
    + exfalso. destruct (ts_moved _ _ _ _ Hs k b0 Hb0) as (y & Hy & Hm). assert (y = b) as -> by congruence.
      destruct (ts_added _ _ _ _ Hs i a Ha0 Ha) as (_ & _ & Hfree). specialize (Hfree k b0 Hb0).
      apply rtc_continues in Hm. unfold unfinished_with_key in Hfree.
      rewrite <-(cont_key _ _ Hm), <-Hkey, String.eqb_refl, (cont_unfinished _ _ Hm Hub) in Hfree. done.
    + by apply (ts_one _ _ _ _ Hs i k).
Qed.

Section engine.
Context {B : Type} (e : JobEngine).

Lemma run_op_inv op (w : World B) : (0 < lease_duration e)%Z -> job_inv w -> job_inv (run_op e op w).2.
Proof.
  intros Hd (Hok & Hlt & Hi).
  destruct (run_op_step e op w Hd (tok_keyed _ Hok) Hlt) as ((Hc & _ & _ & Hn & _) & Hts & Hnew).
  destruct (table_step_ok _ _ _ _ Hts Hok Hi) as [Hok' Hi']. split; [done|]. split.
  - intros i Hsome. destruct (jobs (db w) !! i) as [j|] eqn:Hj; [|by apply Hnew].
    assert (i < next_uuid w)%N by (apply Hlt; eauto). lia.
  - rewrite Hc. exact Hi'.
Qed.

Lemma step_inv (w w' : World B) : (0 < lease_duration e)%Z -> step e w w' -> job_inv w -> job_inv w'.
Proof.
  intros Hd [op x|x t Ht|x b] Hinv; [by apply run_op_inv|..]; destruct Hinv as (Hok & Hlt & Hi).
  - split; [done|]. split; [done|]. intros i j Hj u Hu. specialize (Hi i j Hj u Hu). cbn. lia.
  - done.
Qed.

Lemma reach_inv (w w' : World B) : (0 < lease_duration e)%Z -> rtc (step e) w w' -> job_inv w -> job_inv w'.
Proof. intros Hd. induction 1 as [|x y z Hxy _ IH]; [done|]. intros Hx. by apply IH, (step_inv x). Qed.

Lemma reach_clock (w w' : World B) :
  (0 < lease_duration e)%Z -> job_inv w -> rtc (step e) w w' -> (clock w <= clock w')%Z.
Proof.
  intros Hd Hinv Hr. revert Hinv. induction Hr as [|x y z Hxy _ IH]; [lia|]. intros Hinv.
  specialize (IH (step_inv x y Hd Hxy Hinv)). destruct Hxy as [op x|x t Ht|x b]; cbn in *; [|lia..].
  destruct Hinv as (Hok & Hlt & _).
  destruct (run_op_step e op x Hd (tok_keyed _ Hok) Hlt) as ((Hc & _) & _). lia.
Qed.

(** One step of the world, off the engine's operations as well. *)
Lemma step_row (w w' : World B) i j :
  (0 < lease_duration e)%Z -> job_inv w -> step e w w' -> jobs (db w) !! i = Some j ->
  exists j', jobs (db w') !! i = Some j' /\ continues j j' /\ (final j -> j' = j).
Proof.
  intros Hd (Hok & Hlt & _) Hs Hj. destruct Hs as [op x|x t Ht|x b].
  - destruct (run_op_step e op x Hd (tok_keyed _ Hok) Hlt) as (_ & Hts & _).
    destruct (ts_moved _ _ _ _ Hts i j Hj) as (j' & Hj' & Hm). exists j'. split; [done|].
    split; [by eapply rtc_continues | by eapply rtc_final].
  - by exists j.
  - by exists j.
Qed.

(** Steps that do not act for [owner] on job [i]. *)
Inductive step_except (i : N) (owner : string) : World B -> World B -> Prop :=
| except_op op w : op_actor op <> Some (i, owner) -> step_except i owner w (run_op e op w).2
| except_tick w t : (clock w <= t)%Z -> step_except i owner w (w <| clock := t |>)
| except_network w b : step_except i owner w (w <| online := b |>).

Lemma step_except_step i owner w w' : step_except i owner w w' -> step e w w'.
Proof. intros [op x _|x t Ht|x b]; by constructor. Qed.

Definition leased_to (owner : string) (until : Z) (j : Job) : Prop :=
  job_state j = JobState.RUNNING /\ job_lease_owner j = Some owner /\ job_lease_expires_at j = Some until.

Lemma leased_no_move now actor owner until j j' :
  leased_to owner until j -> (now < until)%Z -> actor <> Some (job_id j, owner) ->
  ~ lifecycle now actor j j'.
Proof.
  intros (Hs & Ho & Hu) Hlt Ha Hl. destruct Hl as [j He|j u o Hq|j u o -> Hh _|j j' o -> Hh _ _].
  - unfold expired in He. rewrite Hs, Hu in He. bools. lia.
  - apply due_queued in Hq. congruence.
  - unfold lease_held in Hh. rewrite Ho in Hh. bools. apply String.eqb_eq in H1. congruence.
  - unfold lease_held in Hh. rewrite Ho in Hh. bools. apply String.eqb_eq in H1. congruence.
Qed.

Lemma lease_kept i owner until j (w w' : World B) :
  (0 < lease_duration e)%Z -> job_inv w -> jobs (db w) !! i = Some j -> leased_to owner until j ->
  step_except i owner w w' -> (clock w < until)%Z -> jobs (db w') !! i = Some j.
Proof.
  intros Hd (Hok & Hlt & _) Hj Hl Hs Hc. destruct Hs as [op x Ha|x t Ht|x b]; [|done..].
  destruct (run_op_step e op x Hd (tok_keyed _ Hok) Hlt) as (_ & Hts & _).
  destruct (ts_moved _ _ _ _ Hts i j Hj) as (j' & Hj' & Hm).
  destruct Hm as [|a b c Hab _]; [done|]. exfalso.
  eapply leased_no_move; [exact Hl|exact Hc| |exact Hab]. by rewrite (tok_keyed _ Hok i a Hj).
Qed.

End engine.

Lemma reach_row {B} (e : JobEngine) (w w' : World B) i j :
  (0 < lease_duration e)%Z -> job_inv w -> rtc (step e) w w' -> jobs (db w) !! i = Some j ->
  exists j', jobs (db w') !! i = Some j' /\ continues j j' /\ (final j -> j' = j).
Proof.
  intros Hd Hinv Hr. revert j Hinv. induction Hr as [x|x y z Hxy _ IH]; intros j Hinv Hj.
  - exists j. by split; [|split].
  - destruct (step_row e x y i j Hd Hinv Hxy Hj) as (k & Hk & Hjk & Hf).
    destruct (IH k (step_inv e x y Hd Hxy Hinv) Hk) as (l & Hl & Hkl & Hf').
    exists l. split; [done|]. split; [by etrans|]. intros Hfin. rewrite (Hf Hfin) in Hf'. by apply Hf'.
Qed.

Lemma job_inv_empty {B} (w : World B) : jobs (db w) = ∅ -> job_inv w.
Proof.
  intros He. split; [|split].
  - rewrite He. split; intros ? ?; by rewrite lookup_empty.
  - intros i [j Hj]. by rewrite He, lookup_empty in Hj.
  - intros i j Hj. by rewrite He, lookup_empty in Hj.
Qed.

(** ** Safety over any run *)

(** C2 Refinement: on a sound job table, every operation of the engine
    (enqueue, reclaim, recover, claim, renew, complete, finalize, fail),
    whatever its arguments and whether it returns or raises, moves each row
    only along the abstract lifecycle - expiry of a lapsed lease, claim of a due
    queued job, renewal or closing by the owner of an unexpired lease - deletes
    no row, adds at most one (queued, without lease, under a key no unfinished
    job uses and a fresh identifier) and touches nothing but the job table. *)
Theorem engine_refines_lifecycle {B} (e : JobEngine) (op : Op) (w : World B) :
  (0 < lease_duration e)%Z -> job_inv w -> op_step op w (run_op e op w).2.
Proof. intros Hd (Hok & Hlt & _). by apply run_op_step; [|apply tok_keyed|]. Qed.

(** The job table is well formed in every reachable world: from an empty
    table, after any sequence of engine operations interleaved with time and
    lost connections, running jobs and only they carry a lease (issued before it
    expires and not in the future), [completed_at] and [blocked_at] are set
    exactly in their states, attempts are counted from zero, rows sit under
    their own identifiers, and no two unfinished jobs share an idempotency key
    (so the database's constraints are never what stops an operation). *)
Theorem jobs_invariant {B} (e : JobEngine) (w w' : World B) :
  (0 < lease_duration e)%Z -> jobs (db w) = ∅ -> rtc (step e) w w' -> job_inv w'.
Proof.
  intros Hd He Hr. eapply reach_inv; [done..|]. by apply job_inv_empty.
Qed.

(** Jobs are durable and their contract is immutable: along any run a job is
    never lost; its key, type, target, payload, priority and the policy captured
    at enqueue never change; its attempt count never decreases; and once it is
    completed or blocked its row never changes again. *)
Theorem jobs_durable {B} (e : JobEngine) (w w' : World B) (i : N) (j : Job) :
  (0 < lease_duration e)%Z -> job_inv w -> rtc (step e) w w' -> jobs (db w) !! i = Some j ->
  exists j', jobs (db w') !! i = Some j' /\ continues j j' /\ (final j -> j' = j).
Proof. intros. by eapply reach_row. Qed.

(** C27 A lease is exclusive: while the lease of [owner] on a running job has not
    expired, no other worker, scheduler or client changes that job in any way -
    whatever operations they run, in any order and with any arguments. *)
Theorem lease_exclusive {B} (e : JobEngine) (w w' : World B) (i : N) (owner : string) (until : Z) (j : Job) :
  (0 < lease_duration e)%Z -> job_inv w -> jobs (db w) !! i = Some j -> leased_to owner until j ->
  rtc (step_except e i owner) w w' -> (clock w' < until)%Z -> jobs (db w') !! i = Some j.
Proof.
  intros Hd Hinv Hj Hl Hr Hc.
  assert (forall x y : World B, rtc (step_except e i owner) x y -> rtc (step e) x y) as Hsub.
  { intros x y. apply rtc_subrel. apply step_except_step. }
  revert Hinv Hj. induction Hr as [x|x y z Hxy Hyz IH]; intros Hinv Hj; [done|].
  pose proof (step_inv e x y Hd (step_except_step e i owner x y Hxy) Hinv) as Hy.
  pose proof (reach_clock e y z Hd Hy (Hsub _ _ Hyz)) as Hyc.
  pose proof (reach_clock e x y Hd Hinv (rtc_once _ _ (step_except_step e i owner x y Hxy))) as Hxc.
  apply IH; [done..|]. eapply lease_kept; [exact Hd|exact Hinv|exact Hj|exact Hl|exact Hxy|lia].
Qed.

(** ** Safe payloads and results *)

(** What may travel in a job: nested dictionaries with safe keys, lists, and
    scalars that are not markup or PDF text. *)
Fixpoint safe_value (v : pyval) : bool :=
  match v with
  | VDict d => forallb (fun kv => _SAFE_KEY kv.1 && negb (_FORBIDDEN kv.1) && safe_value kv.2) d
  | VList l => forallb safe_value l
  | VStr s => negb (unsafe_text s)
  | VNone | VBool _ | VInt _ | VFloat _ => true
  | VBytes _ | VTuple _ | VExc _ | VOther _ => false
  end.

Definition is_payload_error {A} (r : result exn A) : Prop := exists msg, r = Err (InvalidJobPayload msg).

(** The payload filter accepts exactly the safe values and returns them
    unchanged; anything else - an unsafe or forbidden field name at any depth,
    markup, PDF text, bytes or a foreign object - is [InvalidJobPayload]. *)
Theorem safe_value_filter (v : pyval) : forall path,
  (_validate_safe_value path v = Ok v /\ safe_value v = true) \/
  (is_payload_error (_validate_safe_value path v) /\ safe_value v = false).
Proof.
  induction v as [|b|z|r|s|s|l IH|l IH|d IH|n|t] using pyval_deep_ind; intros path; try (by left);
    try (by right; split; [eexists; reflexivity|]).
  - cbn. destruct (unsafe_text s); [right; split; [eexists; reflexivity | done] | by left].
  - cbn [_validate_safe_value safe_value].
    set (items := (fix items (l : list pyval) : result exn (list pyval) := _)).
    assert ((items l = Ok l /\ forallb safe_value l = true) \/ (is_payload_error (items l) /\ forallb safe_value l = false)) as Hl.
    { induction IH as [|x l Hx _ IHl]; [by left|]. cbn [items forallb].
      destruct (Hx (path ++ "[]")) as [[-> ->]|[[m ->] ->]]; [|right; split; [eexists; reflexivity | done]].
      fold items. destruct IHl as [[-> ->]|[[m ->] ->]]; [by left | right; split; [eexists; reflexivity | done]]. }
    destruct Hl as [[-> ->]|[[m ->] ->]]; [by left | right; split; [eexists; reflexivity | done]].
  - cbn [_validate_safe_value safe_value].
    set (items := (fix items (d : pydict) : result exn pydict := _)).
    set (ok := fun kv : string * pyval => _SAFE_KEY kv.1 && negb (_FORBIDDEN kv.1) && safe_value kv.2).
    assert ((items d = Ok d /\ forallb ok d = true) \/ (is_payload_error (items d) /\ forallb ok d = false)) as Hl.
    { induction IH as [|[k x] d Hx _ IHd]; [by left|]. cbn [items forallb]. fold items. unfold ok at 1 3. cbn [fst snd] in *.
      destruct (_SAFE_KEY k); [|right; split; [eexists; reflexivity | done]].
      destruct (_FORBIDDEN k); [right; split; [eexists; reflexivity | done]|]. cbn [negb orb andb].
      destruct (Hx (path ++ "." ++ k)) as [[-> ->]|[[m ->] ->]]; [|right; split; [eexists; reflexivity | done]].
      destruct IHd as [[-> ->]|[[m ->] ->]]; [by left | right; split; [eexists; reflexivity | done]]. }
    destruct Hl as [[-> ->]|[[m ->] ->]]; [by left | right; split; [eexists; reflexivity | done]].
Qed.

(** ** Claiming *)

Lemma claim_le_total a b : claim_le a b = true \/ claim_le b a = true.
Proof.
  unfold claim_le. rewrite (Z.eqb_sym (job_priority b)), (Z.eqb_sym (job_scheduled_at b)).
  destruct (Z.eqb_spec (job_priority a) (job_priority b)); [|rewrite !Z.ltb_lt; lia].
  destruct (Z.eqb_spec (job_scheduled_at a) (job_scheduled_at b)); [rewrite !Z.leb_le; lia | rewrite !Z.ltb_lt; lia].
Qed.

(** The order of claims, in arithmetic. *)
Lemma claim_le_spec a b :
  claim_le a b = true <->
  (job_priority b < job_priority a \/
   job_priority a = job_priority b /\
   (job_scheduled_at a < job_scheduled_at b \/
    job_scheduled_at a = job_scheduled_at b /\ job_created_at a <= job_created_at b))%Z.
Proof.
  unfold claim_le.
  destruct (Z.eqb_spec (job_priority a) (job_priority b)); [|rewrite Z.ltb_lt; lia].
  destruct (Z.eqb_spec (job_scheduled_at a) (job_scheduled_at b)); [rewrite Z.leb_le; lia | rewrite Z.ltb_lt; lia].
Qed.

Lemma claim_le_trans a b c : claim_le a b = true -> claim_le b c = true -> claim_le a c = true.
Proof. rewrite !claim_le_spec. lia. Qed.

Definition good_owner (owner : string) : bool :=
  str_nonempty owner && str_nonempty (strip owner) && width 128 owner.

(** No attempt counter is about to leave its 32-bit column. *)
Definition attempts_fit {B} (w : World B) : Prop :=
  forall i j, jobs (db w) !! i = Some j -> (0 <= job_attempt_count j < 2147483647)%Z.

Lemma swept_attempts {B} (w : World B) i j :
  attempts_fit w -> swept w !! i = Some j -> positive_integer (Z.succ (job_attempt_count j)) = true.
Proof.
  intros Ha Hj. unfold swept in Hj. rewrite lookup_update_where in Hj.
  destruct (jobs (db w) !! i) as [x|] eqn:Hx; [|done]. cbn in Hj. specialize (Ha i x Hx).
  assert (job_attempt_count j = job_attempt_count x) as -> by (destruct (expired _ x); injection Hj as <-; done).
  unfold positive_integer. rewrite andb_true_iff, !Z.leb_le. lia.
Qed.

Lemma claim_holds {B} (e : JobEngine) (locked : gset N) (owner : string) (w : World B) :
  job_inv w -> online w = true -> good_owner owner = true -> attempts_fit w ->
  (claim e locked owner w = (Ok None, with_jobs (swept w) w) /\
   forall i x, swept w !! i = Some x -> claimable (clock w) locked x = false) \/
  exists j, swept w !! job_id j = Some j /\ claimable (clock w) locked j = true /\
    (forall i x, swept w !! i = Some x -> claimable (clock w) locked x = true -> claim_le j x = true) /\
    let j' := leased (clock w) (clock w + lease_duration e) owner j in
    claim e locked owner w = (Ok (Some j'), with_jobs (<[job_id j := j']> (swept w)) w).
Proof.
  intros (Hok & _) Ho Hown Ha. unfold good_owner in Hown. bools.
  rewrite claim_effect; [|apply Hok|done|by rewrite H, H1].
  destruct (next_claim locked w) as [j|] eqn:Hn.
  - right. exists j. pose proof Hn as Hmin.
    apply first_by_elem, elem_of_select in Hn as [Hc [i Hi]].
    pose proof (swept_keyed w (tok_keyed _ Hok) i j Hi) as Hid. subst i.
    split; [done|]. split; [done|]. split.
    + intros k x Hx Hcx. eapply first_by_minimal; [apply claim_le_total|apply claim_le_trans|exact Hmin|].
      apply elem_of_select. eauto.
    + by rewrite H0, (swept_attempts w _ _ Ha Hi).
  - left. split; [done|]. intros i x Hx. apply first_by_None in Hn.
    destruct (claimable (clock w) locked x) eqn:Hcx; [|done].
    assert (x ∈ select (claimable (clock w) locked) (swept w)) as Hin by (apply elem_of_select; eauto).
    rewrite Hn in Hin. by apply not_elem_of_nil in Hin.
Qed.

(** Claiming: with the database reachable and a proper owner, [claim] first
    takes back every lapsed lease, then leases to the owner the first claimable
    job (queued, due, not locked elsewhere) by descending priority, then due
    time, then creation time, counting the attempt and setting the expiry one
    lease duration ahead, and leaves every other job alone; it answers [None]
    only when no job is claimable; it never raises. *)
Theorem claim_contract {B} (e : JobEngine) (locked : gset N) (owner : string) (w : World B) :
  job_inv w -> online w = true -> good_owner owner = true -> attempts_fit w ->
  (claim e locked owner w = (Ok None, with_jobs (swept w) w) /\
   forall i x, swept w !! i = Some x -> claimable (clock w) locked x = false) \/
  exists j, swept w !! job_id j = Some j /\ claimable (clock w) locked j = true /\
    (forall i x, swept w !! i = Some x -> claimable (clock w) locked x = true -> claim_le j x = true) /\
    let j' := leased (clock w) (clock w + lease_duration e) owner j in
    claim e locked owner w = (Ok (Some j'), with_jobs (<[job_id j := j']> (swept w)) w).
Proof. apply claim_holds. Qed.

(** ** Finalising *)

(** The values [create_policy] lets through. *)
Definition policy_timing (p : JobPolicy) : Prop :=
  (0 <= pol_retry_limit p /\ 1 <= pol_backoff_initial_seconds p <= pol_backoff_cap_seconds p /\
   0 <= pol_jitter_seconds p /\ 0 <= pol_cooldown_seconds p)%Z.

(** The nominal exponential delay, capped. *)
Definition nominal_delay (p : JobPolicy) (attempts : Z) : Z :=
  Z.min (pol_backoff_cap_seconds p) (pol_backoff_initial_seconds p * 2 ^ (attempts - 1)).

(** The delay stays within the jitter of the nominal one, never negative and
    never past the cap, whatever the random source answers. *)
Lemma retry_delay_window (e : JobEngine) (j : Job) (p : JobPolicy) :
  policy_timing p -> (1 <= job_attempt_count j)%Z ->
  let d := nominal_delay p (job_attempt_count j) in
  (seconds (Z.max 0 (d - pol_jitter_seconds p)) <= _retry_delay e j p <=
   seconds (Z.min (pol_backoff_cap_seconds p) (d + pol_jitter_seconds p)))%Z.
Proof.
  intros (Hr & Hb & Hj & Hc) Ha. unfold _retry_delay, nominal_delay, seconds, second.
  rewrite (Z.max_r 0 (job_attempt_count j - 1)) by lia.
  assert (0 < 2 ^ (job_attempt_count j - 1))%Z by (apply Z.pow_pos_nonneg; lia).
  assert (0 < pol_backoff_initial_seconds p * 2 ^ (job_attempt_count j - 1))%Z by nia.
  cbn zeta. set (x := (pol_backoff_initial_seconds p * 2 ^ (job_attempt_count j - 1))%Z) in *.
  set (r := jitter_source e (pol_jitter_seconds p)). split; apply Z.mul_le_mono_nonneg_r; lia.
Qed.

(** The deadline of a cooldown outcome. *)
Definition cooldown_deadline (o : HandlerOutcome) (p : JobPolicy) (now : Z) : option Z :=
  match ho_cooldown_until o with
  | Some (Aware t) => if Z.ltb now t then Some t else None
  | Some (Naive _) => None
  | None => if Z.eqb (pol_cooldown_seconds p) 0 then None else Some (now + seconds (pol_cooldown_seconds p))%Z
  end.

Lemma cooldown_due_spec (o : HandlerOutcome) (p : JobPolicy) (now : Z) :
  (0 <= pol_cooldown_seconds p)%Z ->
  match cooldown_deadline o p now with
  | Some t => _cooldown_due o p now = Ok t /\ (now < t)%Z
  | None => exists m, _cooldown_due o p now = Err (InvalidTransition m)
  end.
Proof.
  intros Hc. unfold cooldown_deadline, _cooldown_due.
  destruct (ho_cooldown_until o) as [[t|t]|]; [| eexists; reflexivity |].
  - destruct (Z.ltb_spec now t); destruct (Z.leb_spec t now); try lia; [done | eexists; reflexivity].
  - destruct (Z.eqb_spec (pol_cooldown_seconds p) 0); [eexists; reflexivity|].
    unfold seconds, second. destruct (Z.leb_spec (now + pol_cooldown_seconds p * 1000000) now); [lia | split; [done|lia]].
Qed.

Lemma cooldown_due_err (o : HandlerOutcome) (p : JobPolicy) (now : Z) x :
  _cooldown_due o p now = Err x -> exists m, x = InvalidTransition m.
Proof.
  unfold _cooldown_due. destruct (match ho_cooldown_until o with Some due => _ | None => _ end) as [[t|t]|].
  - destruct (Z.leb t now); intros [= <-]; eauto.
  - intros [= <-]; eauto.
  - intros [= <-]; eauto.
Qed.

(** What the row must look like when an attempt is over. *)
Definition settled (kind : JobOutcomeKind.t) (o : HandlerOutcome) (policy : option JobPolicy) (now : Z) (j j' : Job) : Prop :=
  let code := _safe_error_code (str_or (ho_error_code o) (ho_kind o)) in
  let blocked reason := job_state j' = JobState.BLOCKED /\ job_blocked_reason j' = reason /\ job_safe_error j' = reason in
  job_last_outcome j' = Some kind /\
  match kind with
  | JobOutcomeKind.SUCCESS => job_state j' = JobState.COMPLETED
  | JobOutcomeKind.PERMANENT => blocked code
  | _ =>
      match policy with
      | None => blocked "policy_required"
      | Some p =>
          if Z.ltb (pol_retry_limit p) (job_attempt_count j) then blocked "retry_exhausted"
          else
            job_state j' = JobState.QUEUED /\ job_safe_error j' = code /\
            match kind with
            | JobOutcomeKind.COOLDOWN =>
                cooldown_deadline o p now = Some (job_scheduled_at j') /\
                job_cooldown_until j' = Some (job_scheduled_at j')
            | _ =>
                let d := nominal_delay p (job_attempt_count j) in
                (now + seconds (Z.max 0 (d - pol_jitter_seconds p)) <= job_scheduled_at j' <=
                 now + seconds (Z.min (pol_backoff_cap_seconds p) (d + pol_jitter_seconds p)))%Z
            end
      end
  end.

Lemma finalize_fields_settled (e : JobEngine) kind o safe policy now j fields :
  (1 <= job_attempt_count j)%Z -> (forall p, policy = Some p -> policy_timing p) ->
  finalize_fields e kind o safe (_safe_error_code (str_or (ho_error_code o) (ho_kind o))) policy now j = Ok fields ->
  settled kind o policy now j (fields j <| job_updated_at := now |>).
Proof.
  intros Ha Hp. unfold finalize_fields, settled.
  destruct kind; try (intros [= <-]; by repeat split);
    (destruct policy as [p|]; [specialize (Hp p eq_refl)|intros [= <-]; by repeat split]);
    (destruct (Z.ltb _ _); [intros [= <-]; by repeat split|]).
  1, 3: intros [= <-]; split; [done|]; split; [done|]; split; [done|];
    pose proof (retry_delay_window e j p Hp Ha); cbn in *; lia.
  pose proof (cooldown_due_spec o p now ltac:(apply Hp)) as Hcd.
  destruct (cooldown_deadline o p now) as [t|].
  - destruct Hcd as [-> Ht]. intros [= <-]. by repeat split.
  - destruct Hcd as [m ->]. done.
Qed.

(** Only a cooldown without a usable deadline stops a held attempt. *)
Definition no_deadline (kind : JobOutcomeKind.t) (o : HandlerOutcome) (policy : option JobPolicy) (now : Z) (j : Job) : bool :=
  match kind, policy with
  | JobOutcomeKind.COOLDOWN, Some p =>
      Z.leb (job_attempt_count j) (pol_retry_limit p) && negb (is_some (cooldown_deadline o p now))
  | _, _ => false
  end.

Lemma finalize_fields_defined (e : JobEngine) kind o safe code policy now j :
  (forall p, policy = Some p -> policy_timing p) ->
  if no_deadline kind o policy now j
  then exists m, finalize_fields e kind o safe code policy now j = Err (InvalidTransition m)
  else exists fields, finalize_fields e kind o safe code policy now j = Ok fields.
Proof.
  intros Hp. unfold no_deadline, finalize_fields.
  destruct kind; try (eexists; reflexivity); (destruct policy as [p|]; [|eexists; reflexivity]);
    try (destruct (Z.ltb _ _); eexists; reflexivity).
  specialize (Hp p eq_refl). pose proof (cooldown_due_spec o p now ltac:(apply Hp)) as Hcd.
  destruct (Z.ltb_spec (pol_retry_limit p) (job_attempt_count j)); destruct (Z.leb_spec (job_attempt_count j) (pol_retry_limit p)); try lia; cbn.
  - eexists; reflexivity.
  - destruct (cooldown_deadline o p now); [destruct Hcd as [-> _] | destruct Hcd as [m ->]]; eexists; reflexivity.
Qed.

Lemma finalize_held {B} (e : JobEngine) id owner o kind safe j (w : World B) :
  online w = true -> jobs (db w) !! id = Some j -> lease_held (clock w) owner j = true ->
  JobOutcomeKind.of_value (ho_kind o) = Some kind ->
  _validate_safe_value "result" (VDict (ho_result o)) = Ok safe ->
  finalize e id owner o w =
  match finalize_fields e kind o safe (_safe_error_code (str_or (ho_error_code o) (ho_kind o)))
          (job_effective_policy j ≫= fun p => policies (db w) !! p) (clock w) j with
  | Ok fields => let j' := fields j <| job_updated_at := clock w |> in
                 (Ok j', with_jobs (put id j' (jobs (db w))) w)
  | Err x => (Err x, w)
  end.
Proof.
  destruct w as [d now nu on cs b]. cbn [online db clock]. intros -> Hj Hl Hk Hs. unfold finalize. rewrite Hk, Hs.
  unfold update_held, get_job, job_row, atomic. exec. rewrite Hj.
  assert (is_running j = true) as Hr by (unfold lease_held in Hl; by bools).
  rewrite Hr, Hl. cbn. destruct (finalize_fields _ _ _ _ _ _ _ _) as [fields|x]; cbn; [|done].
  rewrite Hj. cbn. rewrite Hl. cbn. unfold put. by rewrite lookup_insert_eq.
Qed.

(** The refusals, before anything is written. *)
Lemma finalize_refused {B} (e : JobEngine) id owner o (w : World B) :
  online w = true ->
  match jobs (db w) !! id with Some j => is_running j = false | None => True end ->
  exists x, finalize e id owner o w = (Err x, w) /\
    (x = InvalidTransition "unknown handler outcome" \/ x = InvalidTransition "job is not running" \/
     exists m, x = InvalidJobPayload m).
Proof.
  intros Ho Hr. unfold finalize.
  destruct (JobOutcomeKind.of_value (ho_kind o)); [|eexists; split; [reflexivity | by left]].
  destruct (safe_value_filter (VDict (ho_result o)) "result") as [[-> _]|[[m ->] _]];
    [|eexists; split; [reflexivity | by right; right; eexists]].
  exists (InvalidTransition "job is not running"). split; [|by right; left].
  unfold job_row, atomic. exec. rewrite Ho. destruct (jobs (db w) !! id) as [j|]; [rewrite Hr|]; same_world.
Qed.

(** Finalising a held attempt settles it by the class of the result: success
    completes, a permanent failure blocks with its code; a temporary or partial
    failure blocks without a policy or when the policy's retries are used up,
    and otherwise queues the job again after the capped exponential delay, within
    the jitter and never past the cap; a cooldown waits exactly until its
    deadline, given or taken from the policy.  A cooldown without a future
    aware deadline is refused and changes nothing.  No other job changes. *)
Theorem finalize_settles {B} (e : JobEngine) (w : World B) (id : N) (owner : string) (o : HandlerOutcome)
    (kind : JobOutcomeKind.t) (j : Job) :
  job_inv w -> online w = true -> jobs (db w) !! id = Some j -> lease_held (clock w) owner j = true ->
  JobOutcomeKind.of_value (ho_kind o) = Some kind -> safe_value (VDict (ho_result o)) = true ->
  (forall i p, policies (db w) !! i = Some p -> policy_timing p) ->
  let policy := job_effective_policy j ≫= fun p => policies (db w) !! p in
  if no_deadline kind o policy (clock w) j
  then exists m, finalize e id owner o w = (Err (InvalidTransition m), w)
  else exists j', finalize e id owner o w = (Ok j', with_jobs (<[id := j']> (jobs (db w))) w) /\
         same_work j j' /\ closed (clock w) j' /\ settled kind o policy (clock w) j j'.
Proof.
  intros (Hok & _) Ho Hj Hl Hk Hs Hp policy.
  assert (forall p, policy = Some p -> policy_timing p) as Hpol.
  { intros p. unfold policy. destruct (job_effective_policy j) as [i|]; [|done]. cbn. apply Hp. }
  destruct (safe_value_filter (VDict (ho_result o)) "result") as [[Hv _]|[_ Hv]]; [|congruence].
  rewrite (finalize_held e id owner o kind _ j w Ho Hj Hl Hk Hv). fold policy.
  pose proof (finalize_fields_defined e kind o (VDict (ho_result o))
    (_safe_error_code (str_or (ho_error_code o) (ho_kind o))) policy (clock w) j Hpol) as Hdef.
  destruct (no_deadline _ _ _ _ _).
  - destruct Hdef as [m ->]. by exists m.
  - destruct Hdef as [fields Hf]. rewrite Hf. eexists. split; [reflexivity|].
    destruct (finalize_fields_closed e _ _ _ _ _ _ _ _ Hf) as [Hsw Hcl]. split; [done|]. split; [done|].
    eapply finalize_fields_settled; [|exact Hpol|exact Hf].
    pose proof (tok_rows _ Hok id j Hj) as [_ Hrow]. rewrite (held_running _ _ _ Hl) in Hrow. apply Hrow.
Qed.

(** ** Enqueueing *)

(** A request the argument checks let through: safe payload, required fields,
    an aware due time, and a policy object in force (or none). *)
Definition well_formed (now : Z) (r : Enqueue) : bool :=
  safe_value (VDict (en_payload r)) &&
  is_aware (opt_default (Aware now) (en_scheduled_at r)) &&
  (str_nonempty (en_job_type r) && str_nonempty (en_logical_target r) && str_nonempty (en_idempotency_key r)) &&
  negb (is_some (en_policy_source r)) && negb (is_some (en_policy_flow r)) &&
  match en_policy r with
  | Some p => policy_in_force (instant (opt_default (Aware now) (en_scheduled_at r))) p
  | None => true
  end.

Lemma enqueue_well_formed {B} r (w : World B) :
  well_formed (clock w) r = true ->
  enqueue r w = enqueue_tries 2 r (VDict (en_payload r)) (instant (opt_default (Aware (clock w)) (en_scheduled_at r)))
                  (en_policy r) w.
Proof.
  intros Hwf. unfold well_formed in Hwf.
  apply andb_true_iff in Hwf as [Hwf Hpol]. apply andb_true_iff in Hwf as [Hwf Hfl].
  apply andb_true_iff in Hwf as [Hwf Hsrc]. apply andb_true_iff in Hwf as [Hwf Hne].
  apply andb_true_iff in Hwf as [Hsafe Haw].
  destruct (en_policy_source r) eqn:Hs; [done|]. destruct (en_policy_flow r) eqn:Hf; [done|].
  destruct (safe_value_filter (VDict (en_payload r)) "payload") as [[Hv _]|[_ Hv]]; [|congruence].
  unfold enqueue, lift_result, require, timezone_now, bind, gets, ret. rewrite Hv. cbn beta iota zeta.
  rewrite Haw, Hne, Hs, Hf. cbn [is_some orb andb negb Bool.eqb].
  rewrite andb_false_r. cbn [negb]. by rewrite Hpol.
Qed.

Lemma active_unfinished key j : active_with_key key j = true -> unfinished_with_key key j = true.
Proof.
  unfold active_with_key, unfinished_with_key. destruct (String.eqb _ _); [|done]. by destruct (job_state j).
Qed.

Lemma active_row_unique {B} (w : World B) key i j :
  job_inv w -> jobs (db w) !! i = Some j -> active_with_key key j = true -> active_row key w = Some j.
Proof.
  intros (Hok & _) Hj Ha. destruct (active_row key w) as [x|] eqn:Hx.
  - apply first_by_elem, elem_of_select in Hx as [Hax [k Hk]]. f_equal.
    apply active_unfinished in Ha, Hax. unfold unfinished_with_key in *. bools.
    apply String.eqb_eq in H, H1.
    assert (k = i) as -> by (eapply (tok_keys _ Hok); [exact Hk|exact Hj|done|done|congruence]). congruence.
  - apply first_by_None in Hx.
    assert (j ∈ select (active_with_key key) (jobs (db w))) as Hin by (apply elem_of_select; eauto).
    rewrite Hx in Hin. by apply not_elem_of_nil in Hin.
Qed.

Lemma fresh_uuid {B} (w : World B) : job_inv w -> jobs (db w) !! next_uuid w = None.
Proof.
  intros (_ & Hlt & _). destruct (jobs (db w) !! next_uuid w) eqn:Hx; [|done].
  assert (next_uuid w < next_uuid w)%N by (apply Hlt; eauto). lia.
Qed.

Lemma no_active_row {B} (w : World B) key :
  (forall i j, jobs (db w) !! i = Some j -> active_with_key key j = false) -> active_row key w = None.
Proof.
  intros Hnone. destruct (active_row key w) as [x|] eqn:Hx; [|done].
  apply first_by_elem, elem_of_select in Hx as [Hax [k Hk]]. rewrite (Hnone k x Hk) in Hax. done.
Qed.

(** A taken key the retry loop cannot resolve: both tries fail. *)
Lemma enqueue_tries_taken {B} r safe due policy (w : World B) :
  job_inv w -> online w = true -> active_row (en_idempotency_key r) w = None -> row_fits r = true ->
  key_taken (en_idempotency_key r) w = true ->
  enqueue_tries 2 r safe due policy w =
  (Err (JobEngineError "could not resolve active idempotency key"), with_uuid (N.succ (N.succ (next_uuid w))) w).
Proof.
  intros Hinv Ho Ha Hf Ht. rewrite enqueue_tries_S, Ho, Ha, Hf, Ht by (by apply fresh_uuid).
  assert (forall n, active_row (en_idempotency_key r) (with_uuid n w) = None) as Ha' by done.
  assert (forall n, key_taken (en_idempotency_key r) (with_uuid n w) = true) as Ht' by done.
  assert (online (with_uuid (N.succ (next_uuid w)) w) = true) as Ho' by done.
  rewrite enqueue_tries_S, Ho', Ha', Hf, Ht'; [reflexivity|]. cbn.
  destruct (jobs (db w) !! N.succ (next_uuid w)) eqn:Hx; [|done]. destruct Hinv as (_ & Hlt & _).
  assert (N.succ (next_uuid w) < next_uuid w)%N by (apply Hlt; eauto). lia.
Qed.

(** The job an enqueue returns is in the table, under the key asked for. *)
Lemma enqueue_result {B} r (w w1 : World B) j :
  job_inv w -> well_formed (clock w) r = true -> enqueue r w = (Ok j, w1) ->
  jobs (db w1) !! job_id j = Some j /\ job_idempotency_key j = en_idempotency_key r.
Proof.
  intros Hinv Hwf He. rewrite enqueue_well_formed in He by done.
  destruct (online w) eqn:Ho; [|rewrite enqueue_tries_S, Ho in He by (by apply fresh_uuid); done].
  destruct (active_row (en_idempotency_key r) w) as [x|] eqn:Hx.
  { rewrite enqueue_tries_S, Ho, Hx in He by (by apply fresh_uuid). injection He as -> <-.
    apply first_by_elem, elem_of_select in Hx as [Hax [k Hk]].
    rewrite (tok_keyed _ (proj1 Hinv) k j Hk). split; [done|].
    unfold active_with_key in Hax. bools. by apply String.eqb_eq. }
  destruct (row_fits r) eqn:Hf; [|rewrite enqueue_tries_S, Ho, Hx, Hf in He by (by apply fresh_uuid); done].
  destruct (key_taken (en_idempotency_key r) w) eqn:Ht.
  - by rewrite enqueue_tries_taken in He.
  - rewrite enqueue_tries_S, Ho, Hx, Hf, Ht in He by (by apply fresh_uuid). injection He as <- <-.
    cbn. unfold put. by rewrite lookup_insert_eq.
Qed.

(** Enqueueing a well-formed request: when a queued or running job has the
    key, that job is returned and nothing changes; otherwise, when no unfinished
    job has the key and the columns are wide enough, exactly one job is added -
    queued, due at the requested time (now by default), carrying the request's
    payload and policy and no attempt yet. *)
Theorem enqueue_contract {B} (r : Enqueue) (w : World B) :
  job_inv w -> online w = true -> well_formed (clock w) r = true ->
  (forall i j, jobs (db w) !! i = Some j -> active_with_key (en_idempotency_key r) j = true ->
     enqueue r w = (Ok j, w)) /\
  ((forall i j, jobs (db w) !! i = Some j -> unfinished_with_key (en_idempotency_key r) j = false) ->
   row_fits r = true ->
   exists j, enqueue r w = (Ok j, with_uuid (N.succ (next_uuid w)) (with_jobs (<[job_id j := j]> (jobs (db w))) w)) /\
     jobs (db w) !! job_id j = None /\ fresh_job j /\
     job_scheduled_at j = instant (opt_default (Aware (clock w)) (en_scheduled_at r)) /\
     job_job_type j = en_job_type r /\ job_logical_target j = en_logical_target r /\
     job_payload j = VDict (en_payload r) /\ job_priority j = en_priority r /\
     job_idempotency_key j = en_idempotency_key r /\
     job_effective_policy j = option_map pol_id (en_policy r)).
Proof.
  intros Hinv Ho Hwf. pose proof (fresh_uuid w Hinv) as Hfresh.
  rewrite enqueue_well_formed by done. rewrite enqueue_tries_S, Ho by done. split.
  - intros i j Hj Ha. by rewrite (active_row_unique w _ i j).
  - intros Hnone Hfit. rewrite no_active_row, Hfit.
    + assert (key_taken (en_idempotency_key r) w = false) as -> by (apply exists_row_false; exact Hnone).
      eexists (enqueued r _ _ _ w). split; [reflexivity|]. by repeat split.
    + intros i j Hj. specialize (Hnone i j Hj). destruct (active_with_key _ j) eqn:Ha; [|done].
      apply active_unfinished in Ha. congruence.
Qed.

(** A blocked job makes its key unusable: a well-formed request under the key
    of a blocked job (with no queued or running job of that key) is rejected
    with "could not resolve active idempotency key" after both tries, and the
    database is left as it was.  The lookup covers queued and running jobs only
    while the unique constraint also covers blocked ones, so the retry "that
    observes the concurrent insert" can never succeed. *)
Theorem enqueue_blocked_key {B} (r : Enqueue) (w : World B) (i : N) (j : Job) :
  job_inv w -> online w = true -> well_formed (clock w) r = true -> row_fits r = true ->
  jobs (db w) !! i = Some j -> job_state j = JobState.BLOCKED -> job_idempotency_key j = en_idempotency_key r ->
  exists w', enqueue r w = (Err (JobEngineError "could not resolve active idempotency key"), w') /\ db w' = db w.
Proof.
  intros Hinv Ho Hwf Hfit Hj Hb Hkey. rewrite enqueue_well_formed by done.
  eexists. split; [apply enqueue_tries_taken; try done|done].
  - apply no_active_row. intros k x Hx. destruct (active_with_key _ x) eqn:Ha; [|done].
    pose proof (active_unfinished _ _ Ha) as Hu. unfold active_with_key, unfinished_with_key in *. bools.
    apply String.eqb_eq in H. assert (k = i) as ->
      by (eapply (tok_keys _ (proj1 Hinv)); [exact Hx|exact Hj|done|by rewrite Hb|congruence]).
    assert (x = j) as -> by congruence. by rewrite Hb in H2.
  - apply exists_row_true. exists i, j. split; [done|].
    unfold unfinished_with_key. by rewrite Hkey, Hb, String.eqb_refl.
Qed.

(** Enqueueing is idempotent over time: once a request has produced a job,
    every later well-formed request with the same key returns that job, as it
    then is, and changes nothing, for as long as the job stays queued or
    running, whatever the engine did in between. *)
Theorem enqueue_idempotent {B} (e : JobEngine) (r r' : Enqueue) (w w1 w2 : World B) (j j2 : Job) :
  (0 < lease_duration e)%Z -> job_inv w -> well_formed (clock w) r = true -> enqueue r w = (Ok j, w1) ->
  rtc (step e) w1 w2 -> jobs (db w2) !! job_id j = Some j2 -> active_state (job_state j2) = true ->
  online w2 = true -> well_formed (clock w2) r' = true -> en_idempotency_key r' = en_idempotency_key r ->
  enqueue r' w2 = (Ok j2, w2).
Proof.
  intros Hd Hinv Hwf He Hr Hj2 Hact Ho2 Hwf' Hkey.
  assert (job_inv w1) as Hinv1.
  { pose proof (run_op_inv e (OpEnqueue r) w Hd Hinv) as H. cbn in H. unfold bind, ret in H. by rewrite He in H. }
  destruct (enqueue_result r w w1 j Hinv Hwf He) as [Hj1 Hk1].
  destruct (reach_row e w1 w2 _ j Hd Hinv1 Hr Hj1) as (x & Hx & Hc & _). assert (x = j2) as -> by congruence.
  assert (job_inv w2) as Hinv2 by (by eapply reach_inv).
  rewrite enqueue_well_formed by done. rewrite enqueue_tries_S, Ho2 by (by apply fresh_uuid).
  rewrite (active_row_unique w2 _ _ j2 Hinv2 Hj2); [done|].
  unfold active_with_key. by rewrite Hact, (cont_key _ _ Hc), Hk1, Hkey, String.eqb_refl.
Qed.

(** ** Recovery *)

Lemma update_where_off (now : Z) (t : gmap N Job) i j :
  update_where (expired now) (requeue now) t !! i = Some j -> expired now j = false.
Proof.
  rewrite lookup_update_where. destruct (t !! i) as [x|]; [|done]. cbn.
  destruct (expired now x) eqn:He; intros [= <-]; [reflexivity | done].
Qed.

(** Recovery: with the database reachable, [recover] leaves no lapsed lease
    (every job still running holds an unexpired one), makes exactly the jobs
    whose lease had lapsed claimable again at once, leaves all others alone, and
    reports how many it took back and how many queued jobs are due. *)
Theorem recover_contract {B} (w : World B) :
  job_inv w -> online w = true ->
  exists w', recover w = (Ok (count_expired (clock w) (db w), length (select (queued_due (clock w)) (jobs (db w')))), w') /\
    (forall i j', jobs (db w') !! i = Some j' -> is_running j' = true ->
       exists t, job_lease_expires_at j' = Some t /\ (clock w < t)%Z) /\
    (forall i j, jobs (db w) !! i = Some j ->
       if expired (clock w) j
       then jobs (db w') !! i = Some (requeue (clock w) j) /\ claimable (clock w) ∅ (requeue (clock w) j) = true
       else jobs (db w') !! i = Some j).
Proof.
  intros (Hok & _) Ho. exists (with_jobs (swept w) w). split; [|split].
  - destruct w as [d now nu on cs b]. cbn in Ho. subst on. reflexivity.
  - cbn. intros i j' Hj' Hr. pose proof (update_where_off _ _ _ _ Hj') as Hne.
    unfold swept in Hj'. rewrite lookup_update_where in Hj'.
    destruct (jobs (db w) !! i) as [x|] eqn:Hx; [|done]. cbn in Hj'.
    destruct (expired (clock w) x); injection Hj' as <-; [cbn in Hr; done|].
    pose proof (tok_rows _ Hok i x Hx) as [_ Hrow]. unfold expired, is_running in *.
    destruct (job_state x); try done. destruct Hrow as (_ & (a & u & _ & Hu & _) & _).
    rewrite Hu in Hne. bools. eauto.
  - intros i j Hj. cbn. unfold swept. rewrite lookup_update_where, Hj. cbn.
    destruct (expired (clock w) j); [|done]. split; [done|].
    unfold claimable. cbn. rewrite Z.leb_refl. by rewrite bool_decide_eq_false_2 by set_solver.
Qed.

(** ** Running a handler *)

(** What the worker relies on: when the handler is done, however it ends, the
    worker's lease on the job is untouched and unexpired and the database is
    reachable. *)
Definition keeps_lease {B} (e : JobEngine) (h : handler B) : Prop :=
  forall j w, online w = true -> jobs (db w) !! job_id j = Some j ->
    let w' := (h j w).2 in
    online w' = true /\ jobs (db w') !! job_id j = Some j /\
    (clock w <= clock w' < clock w + lease_duration e)%Z.

Lemma lease_update_held {B} id owner fields j (w : World B) :
  online w = true -> jobs (db w) !! id = Some j -> lease_held (clock w) owner j = true ->
  let j' := fields j <| job_updated_at := clock w |> in
  _lease_update id owner fields w = (Ok j', with_jobs (put id j' (jobs (db w))) w).
Proof.
  destruct w as [d now nu on cs b]. cbn [online db clock]. intros -> Hj Hl.
  unfold _lease_update, update_held, get_job, job_row, atomic. exec. rewrite Hj, Hl. cbn.
  unfold put. by rewrite lookup_insert_eq.
Qed.

(** The row is given back. *)
Definition given_back {B} (id : N) (w : World B) : Prop :=
  exists j now, jobs (db w) !! id = Some j /\ closed now j.

Lemma given_back_put {B} id now j (w : World B) :
  closed now j -> given_back id (with_jobs (put id j (jobs (db w))) w).
Proof. intros Hc. exists j, now. split; [apply lookup_insert_eq | done]. Qed.

Lemma give_back_ok {B} (e : JobEngine) j owner code (w : World B) :
  online w = true -> jobs (db w) !! job_id j = Some j -> lease_held (clock w) owner j = true ->
  exists w', give_back e j owner code w = (Ok tt, w') /\ given_back (job_id j) w'.
Proof.
  intros Ho Hj Hl. unfold give_back, bind. destruct (is_some (job_effective_policy j)).
  - rewrite (finalize_held e _ owner _ JobOutcomeKind.TEMPORARY (VDict []) j w) by done.
    destruct (finalize_fields _ _ _ _ _ _ _ _) as [fields|x] eqn:Hf.
    + eexists. split; [reflexivity|]. eapply given_back_put.
      by apply (finalize_fields_closed e _ _ _ _ _ _ _ _ Hf).
    + exfalso. cbn in Hf. destruct (_ ≫= _) as [p|]; [|done]. by destruct (Z.ltb _ _).
  - unfold fail, require. exec. rewrite (lease_update_held _ owner _ j) by done.
    eexists. split; [reflexivity|]. eapply given_back_put. apply fail_fields_closed.
Qed.

Lemma give_back_caught {B} (e : JobEngine) j owner code (w : World B) :
  online w = true -> jobs (db w) !! job_id j = Some j -> lease_held (clock w) owner j = true ->
  exists w', catch (fun x => is_LeaseLost x || is_OperationalError x) (give_back e j owner code) w = (Ok tt, w') /\
    given_back (job_id j) w'.
Proof.
  intros Ho Hj Hl. destruct (give_back_ok e j owner code w Ho Hj Hl) as (w' & He & Hg).
  exists w'. unfold catch, try_except. by rewrite He.
Qed.

(** Handing in the result of a handler under a live lease: settled, or refused
    for its content with the world unchanged. *)
Lemma hand_in_ok {B} (e : JobEngine) j owner (r : handler_result) (w : World B) :
  online w = true -> jobs (db w) !! job_id j = Some j -> lease_held (clock w) owner j = true ->
  let m := match r with
           | Outcome o => finalize e (job_id j) owner o
           | Mapping m => complete (job_id j) owner m
           end in
  (exists j' w', m w = (Ok j', w') /\ given_back (job_id j) w') \/
  (exists x, m w = (Err x, w) /\ is_LeaseLost x = false /\ is_OperationalError x = false).
Proof.
  intros Ho Hj Hl. destruct r as [o|m]; cbn zeta beta.
  - destruct (JobOutcomeKind.of_value (ho_kind o)) as [kind|] eqn:Hk.
    2: { right. unfold finalize. rewrite Hk. by eexists. }
    destruct (safe_value_filter (VDict (ho_result o)) "result") as [[Hv _]|[[msg Hv] _]].
    2: { right. unfold finalize. rewrite Hk, Hv. by eexists. }
    rewrite (finalize_held e _ owner o kind _ j w Ho Hj Hl Hk Hv).
    destruct (finalize_fields _ _ _ _ _ _ _ _) as [fields|x] eqn:Hf.
    + left. do 2 eexists. split; [reflexivity|]. eapply given_back_put.
      by apply (finalize_fields_closed e _ _ _ _ _ _ _ _ Hf).
    + right. exists x. split; [done|]. unfold finalize_fields in Hf.
      destruct kind; try done; (destruct (_ ≫= _) as [p|]; [|done]); destruct (Z.ltb _ _); try done.
      destruct (_cooldown_due o p (clock w)) as [t|y] eqn:Hy; [done|].
      apply cooldown_due_err in Hy as [m ->]. by injection Hf as <-.
  - unfold complete, lift_result.
    destruct (safe_value_filter (VDict (opt_default [] m)) "result") as [[-> _]|[[msg ->] _]];
      [|right; by eexists].
    left. exec. rewrite (lease_update_held _ owner _ j) by done.
    do 2 eexists. split; [reflexivity|]. eapply given_back_put. apply complete_fields_closed.
Qed.

(** The handler registered for a job hung on to a vanished database or lease. *)
Definition gave_up {B} (r : result exn handler_result * World B) : Prop :=
  match r.1 with Err LeaseLost | Err OperationalError => True | _ => False end.

Lemma run_handler_ok {B} (e : JobEngine) (handlers : registry B) owner j (w : World B) :
  online w = true -> jobs (db w) !! job_id j = Some j ->
  job_state j = JobState.RUNNING -> job_lease_owner j = Some owner ->
  job_lease_expires_at j = Some (clock w + lease_duration e)%Z -> (0 < lease_duration e)%Z ->
  (forall h, get_handler (job_job_type j) handlers = Some h -> keeps_lease e h) ->
  exists w', run_handler e handlers owner j w = (Ok tt, w') /\
    (given_back (job_id j) w' \/
     exists h, get_handler (job_job_type j) handlers = Some h /\ gave_up (h j w) /\ w' = (h j w).2).
Proof.
  intros Ho Hj Hs How Hex Hd Hk.
  assert (forall now, (now < clock w + lease_duration e)%Z -> lease_held now owner j = true) as Hheld.
  { intros now Hn. unfold lease_held, is_running. rewrite Hs, How, Hex, String.eqb_refl. cbn. by apply Z.ltb_lt. }
  unfold run_handler. destruct (get_handler _ handlers) as [h|] eqn:Hh.
  - specialize (Hk h eq_refl j w Ho Hj). cbn zeta in Hk. unfold try_except, bind.
    destruct (h j w) as [r w2] eqn:Hrun. cbn [snd] in Hk. destruct Hk as (Ho2 & Hj2 & Hc2).
    assert (lease_held (clock w2) owner j = true) as Hl2 by (apply Hheld; lia).
    destruct r as [r|x].
    + destruct (hand_in_ok e j owner r w2 Ho2 Hj2 Hl2) as [(j' & w' & He & Hg)|(x & He & Hx & Hx')].
      * exists w'. destruct r; cbn in He |- *; rewrite He; by eauto.
      * destruct (give_back_caught e j owner "handler_failed" w2 Ho2 Hj2 Hl2) as (w' & Hc & Hg).
        exists w'. split; [|by left].
        assert ((match x with LeaseLost | OperationalError => ret tt
                 | _ => catch (fun e => is_LeaseLost e || is_OperationalError e) (give_back e j owner "handler_failed") end) w2
                = (Ok tt, w')) as Hx2 by (by destruct x).
        destruct r; cbn in He |- *; rewrite He; exact Hx2.
    + destruct (give_back_caught e j owner "handler_failed" w2 Ho2 Hj2 Hl2) as (w' & Hc & Hg).
      destruct x; try (exists w'; by eauto).
      all: exists w2; split; [done|]; right; exists h; unfold gave_up; by rewrite Hrun.
  - destruct (give_back_ok e j owner "handler_not_registered" w Ho Hj (Hheld (clock w) ltac:(lia))) as (w' & He & Hg).
    exists w'. unfold catch, try_except. rewrite He. by eauto.
Qed.

Lemma fail_refused {B} id owner code (w : World B) j :
  online w = true -> jobs (db w) !! id = Some j -> is_running j = false ->
  fail id owner code None w = (Err (InvalidTransition "job is not running"), w).
Proof.
  destruct w as [d now nu on cs b]. cbn [online db]. intros -> Hj Hr.
  unfold fail, require, _lease_update, update_held, job_row, atomic. exec. rewrite Hj.
  unfold lease_held. rewrite Hr. cbn. by rewrite Hj, Hr.
Qed.

Lemma give_back_refused {B} (e : JobEngine) j j2 owner code (w : World B) :
  online w = true -> jobs (db w) !! job_id j = Some j2 -> is_running j2 = false ->
  give_back e j owner code w = (Err (InvalidTransition "job is not running"), w).
Proof.
  intros Ho Hj Hr. unfold give_back, bind. destruct (is_some (job_effective_policy j)).
  - unfold finalize, job_row, atomic. destruct w as [d now nu on cs b]. cbn in Ho, Hj. subst on. exec.
    by rewrite Hj, Hr.
  - by rewrite (fail_refused _ owner code w j2).
Qed.

Lemma hand_in_refused {B} (e : JobEngine) id owner (r : handler_result) (w : World B) j2 :
  online w = true -> jobs (db w) !! id = Some j2 -> is_running j2 = false ->
  exists x, match r with
            | Outcome o => finalize e id owner o
            | Mapping m => complete id owner m
            end w = (Err x, w) /\ is_LeaseLost x = false /\ is_OperationalError x = false.
Proof.
  intros Ho Hj Hr. destruct r as [o|m].
  - destruct (finalize_refused e id owner o w Ho) as (x & -> & Hx); [by rewrite Hj|].
    exists x. split; [done|]. by destruct Hx as [->|[->|[m ->]]].
  - unfold complete, lift_result.
    destruct (safe_value_filter (VDict (opt_default [] m)) "result") as [[-> _]|[[msg ->] _]]; [|by eexists].
    exists (InvalidTransition "job is not running"). split; [|done].
    destruct w as [d now nu on cs b]. cbn in Ho, Hj. subst on.
    unfold _lease_update, update_held, job_row, atomic. exec. rewrite Hj.
    unfold lease_held. rewrite Hr. cbn. by rewrite Hj, Hr.
Qed.

Lemma run_handler_refused {B} (e : JobEngine) (handlers : registry B) owner j h r (w1 w2 : World B) j2 :
  get_handler (job_job_type j) handlers = Some h -> h j w1 = (r, w2) ->
  r <> Err LeaseLost -> r <> Err OperationalError ->
  online w2 = true -> jobs (db w2) !! job_id j = Some j2 -> job_state j2 = JobState.QUEUED ->
  run_handler e handlers owner j w1 = (Err (InvalidTransition "job is not running"), w2).
Proof.
  intros Hh Hr Hne Hne' Ho Hj Hs. assert (is_running j2 = false) as Hrun by (unfold is_running; by rewrite Hs).
  unfold run_handler. rewrite Hh. unfold try_except, bind. rewrite Hr.
  assert (catch (fun x => is_LeaseLost x || is_OperationalError x) (give_back e j owner "handler_failed") w2
          = (Err (InvalidTransition "job is not running"), w2)) as Hgb.
  { unfold catch, try_except. by rewrite (give_back_refused e j j2 owner _ w2 Ho Hj Hrun). }
  destruct r as [r|x].
  - destruct (hand_in_refused e (job_id j) owner r w2 j2 Ho Hj Hrun) as (x & Hx & Hl & Hop).
    destruct r; cbn in Hx |- *; rewrite Hx; destruct x; done.
  - destruct x; done.
Qed.

(** C38 The worker makes progress and survives its handlers: with the database
    reachable, the attempt counters within their column and handlers that keep the
    lease alive - whatever they return, raise or do to other data - [process_one]
    never raises; it answers [False]
    only when no job is claimable; otherwise the job it claimed has been given
    back (completed, queued again or blocked, without a lease), unless the
    handler itself raised [LeaseLost] or [OperationalError], when the lease is
    left to expire. *)
Theorem process_one_progress {B} (e : JobEngine) (handlers : registry B) (locked : gset N) (owner : string) (w : World B) :
  (0 < lease_duration e)%Z -> job_inv w -> online w = true -> good_owner owner = true -> attempts_fit w ->
  (forall t h, get_handler t handlers = Some h -> keeps_lease e h) ->
  (exists w', process_one e handlers locked owner w = (Ok false, w') /\
     forall i x, jobs (db w') !! i = Some x -> claimable (clock w) locked x = false) \/
  exists j w1 w', claim e locked owner w = (Ok (Some j), w1) /\ process_one e handlers locked owner w = (Ok true, w') /\
    (given_back (job_id j) w' \/
     exists h, get_handler (job_job_type j) handlers = Some h /\ gave_up (h j w1) /\ w' = (h j w1).2).
Proof.
  intros Hd Hinv Ho Hown Ha Hh. unfold process_one, try_except, bind.
  destruct (claim_holds e locked owner w Hinv Ho Hown Ha) as [[Hc Hnone]|(j & Hj & _ & _ & Hc)].
  - left. exists (with_jobs (swept w) w). rewrite Hc. split; [done | exact Hnone].
  - right. cbn zeta in Hc. set (j' := leased _ _ _ j) in *. rewrite Hc.
    set (w1 := with_jobs _ w). destruct (run_handler_ok e handlers owner j' w1) as (w' & Hr & Hg).
    + exact Ho.
    + apply lookup_insert_eq.
    + done.
    + done.
    + done.
    + done.
    + intros h. apply Hh.
    + exists j', w1, w'. split; [done|]. rewrite Hr. by split.
Qed.

(** A reclaimed job takes the worker down: when the lease lapses while the
    handler runs and the scheduler takes the job back before the handler hands
    in its result (or raises anything but [LeaseLost] and [OperationalError]),
    both the result and the fallback are refused with [InvalidTransition], which
    [process_one] does not catch: it escapes and ends the worker's loop. *)
Theorem process_one_reclaimed {B} (e : JobEngine) (handlers : registry B) (locked : gset N) (owner : string)
    (w w1 w2 : World B) (j j2 : Job) (h : handler B) (r : result exn handler_result) :
  claim e locked owner w = (Ok (Some j), w1) -> get_handler (job_job_type j) handlers = Some h ->
  h j w1 = (r, w2) -> r <> Err LeaseLost -> r <> Err OperationalError ->
  online w2 = true -> jobs (db w2) !! job_id j = Some j2 -> job_state j2 = JobState.QUEUED ->
  process_one e handlers locked owner w = (Err (InvalidTransition "job is not running"), w2).
Proof.
  intros Hc Hh Hr Hne Hne' Ho Hj2 Hs. unfold process_one, try_except, bind. rewrite Hc.
  rewrite (run_handler_refused e handlers owner j h r w1 w2 j2); done.
Qed.
