(* ===== verification/JobRuns.v ===== *)
(** * A concrete run of the job engine

    A job is enqueued, claimed by one worker, contended, settled, blocked and
    reclaimed; each theorem of [JobGuarantees] is applied along the run. *)

From Stdlib Require Import ZArith Ascii String Lia.
From stdpp Require Import base decidable list gmap strings relations.
From S2P Require Import Prelude PyStr PyVal Models JobPolicies JobEngine JobLifecycle JobGuarantees.

Local Open Scope string_scope.

Definition sample_engine : JobEngine := MkJobEngine (seconds 30) (fun _ => 0%Z).

Definition sample_request : Enqueue :=
  MkEnqueue "collection.run" "company-7" [("execution_id", VStr "e-1")] "collect-7" 0 None
    (Some (sample_policy 9 "*" "*")) None None.

(** A world with one policy, at second 1. *)
Definition w_start : World MemoryBucket.t :=
  MemoryBucket.world (empty_db <| policies := {[9%N := sample_policy 9 "*" "*"]} |>) (seconds 1) 1.

Definition sample_job : Job :=
  new_job 1 (seconds 1) sample_request (VDict (en_payload sample_request)) (seconds 1) (en_policy sample_request).

Definition w_queued : World MemoryBucket.t := (run_op sample_engine (OpEnqueue sample_request) w_start).2.
Definition w_running : World MemoryBucket.t := (run_op sample_engine (OpClaim ∅ "worker-a") w_queued).2.
Definition running_job : Job := leased (seconds 1) (seconds 31) "worker-a" sample_job.

Lemma lease_positive : (0 < lease_duration sample_engine)%Z.
Proof. reflexivity. Qed.

Lemma sound_start : job_inv w_start.
Proof. by apply job_inv_empty. Qed.

Lemma sound_queued : job_inv w_queued.
Proof. apply run_op_inv; [exact lease_positive | exact sound_start]. Qed.

Lemma sound_running : job_inv w_running.
Proof. apply run_op_inv; [exact lease_positive | exact sound_queued]. Qed.

Lemma row_running : jobs (db w_running) !! 1%N = Some running_job.
Proof. vm_compute. reflexivity. Qed.

Lemma sample_timing i p : policies (db w_running) !! i = Some p -> policy_timing p.
Proof.
  assert (policies (db w_running) = {[9%N := sample_policy 9 "*" "*"]}) as -> by (vm_compute; reflexivity).
  rewrite lookup_singleton. case_decide; [|done]. intros [= <-].
  unfold policy_timing. cbn. lia.
Qed.

Lemma sample_attempts (w : World MemoryBucket.t) (k : N) (x : Job) :
  jobs (db w) = {[k := x]} -> (0 <= job_attempt_count x < 2147483647)%Z -> attempts_fit w.
Proof. intros He Hx i j. rewrite He, lookup_singleton. case_decide; [|done]. by intros [= <-]. Qed.

Lemma engine_refines_lifecycle_witness :
  job_inv w_queued /\ op_step (OpClaim ∅ "worker-a") w_queued w_running /\ jobs (db w_running) !! 1%N = Some running_job.
Proof.
  split; [exact sound_queued|]. split; [|exact row_running].
  apply (engine_refines_lifecycle sample_engine (OpClaim ∅ "worker-a") w_queued); [exact lease_positive | exact sound_queued].
Defined.

Lemma jobs_invariant_witness : is_Some (jobs (db w_running) !! 1%N) /\ job_inv w_running.
Proof.
  split; [exists running_job; exact row_running|].
  apply (jobs_invariant sample_engine w_start w_running); [exact lease_positive | reflexivity |].
  eapply rtc_l; [apply step_op|]. apply rtc_once. apply step_op.
Defined.

Lemma jobs_durable_witness :
  exists j', jobs (db w_running) !! 1%N = Some j' /\ continues sample_job j' /\ (final sample_job -> j' = sample_job).
Proof.
  apply (jobs_durable sample_engine w_queued w_running 1 sample_job);
    [exact lease_positive | exact sound_queued | | vm_compute; reflexivity].
  apply rtc_once. apply step_op.
Defined.

(** Another worker claims, fails to complete the job, and the scheduler runs. *)
Definition w_contended : World MemoryBucket.t :=
  (run_op sample_engine (OpComplete 1 "worker-b" None) (run_op sample_engine OpRecover w_running).2).2.

Lemma lease_exclusive_witness : jobs (db w_contended) !! 1%N = Some running_job.
Proof.
  apply (lease_exclusive sample_engine w_running w_contended 1 "worker-a" (seconds 31) running_job);
    [exact lease_positive | exact sound_running | exact row_running | by repeat split | | reflexivity].
  apply rtc_l with (run_op sample_engine OpRecover w_running).2.
  - apply (except_op sample_engine 1 "worker-a" OpRecover w_running). done.
  - apply rtc_once. unfold w_contended.
    apply (except_op sample_engine 1 "worker-a" (OpComplete 1 "worker-b" None)
             (run_op sample_engine OpRecover w_running).2). done.
Defined.

Lemma safe_value_filter_examples :
  safe_value (VDict (en_payload sample_request)) = true /\
  safe_value (VDict [("nested", VDict [("pfx_data", VStr "x")])]) = false /\
  safe_value (VStr "  <nfe/>") = false.
Proof. vm_compute. done. Qed.

Lemma claim_contract_witness :
  good_owner "worker-a" = true /\
  ((claim sample_engine ∅ "worker-a" w_queued = (Ok None, with_jobs (swept w_queued) w_queued) /\
    forall i x, swept w_queued !! i = Some x -> claimable (clock w_queued) ∅ x = false) \/
   exists j, swept w_queued !! job_id j = Some j /\ claimable (clock w_queued) ∅ j = true /\
    (forall i x, swept w_queued !! i = Some x -> claimable (clock w_queued) ∅ x = true -> claim_le j x = true) /\
    let j' := leased (clock w_queued) (clock w_queued + lease_duration sample_engine) "worker-a" j in
    claim sample_engine ∅ "worker-a" w_queued = (Ok (Some j'), with_jobs (<[job_id j := j']> (swept w_queued)) w_queued)).
Proof.
  split; [reflexivity|].
  apply (claim_contract sample_engine ∅ "worker-a" w_queued); [exact sound_queued | reflexivity | reflexivity |].
  apply (sample_attempts _ 1 sample_job); [vm_compute; reflexivity | cbn; lia].
Defined.

Lemma finalize_settles_witness :
  no_deadline JobOutcomeKind.TEMPORARY (outcome_temporary "official_unavailable" []) (Some (sample_policy 9 "*" "*"))
    (seconds 1) running_job = false /\
  exists j', finalize sample_engine 1 "worker-a" (outcome_temporary "official_unavailable" []) w_running
               = (Ok j', with_jobs (<[1%N := j']> (jobs (db w_running))) w_running) /\
    same_work running_job j' /\ closed (seconds 1) j' /\
    settled JobOutcomeKind.TEMPORARY (outcome_temporary "official_unavailable" []) (Some (sample_policy 9 "*" "*"))
      (seconds 1) running_job j'.
Proof.
  split; [reflexivity|].
  apply (finalize_settles sample_engine w_running 1 "worker-a" (outcome_temporary "official_unavailable" [])
           JobOutcomeKind.TEMPORARY running_job);
    [exact sound_running | reflexivity | exact row_running | reflexivity | reflexivity | reflexivity | exact sample_timing].
Defined.

Lemma enqueue_contract_witness :
  enqueue sample_request w_running = (Ok running_job, w_running).
Proof.
  apply (enqueue_contract sample_request w_running sound_running eq_refl eq_refl) with (i := 1%N);
    [exact row_running | reflexivity].
Defined.

(** The job fails permanently. *)
Definition w_blocked : World MemoryBucket.t :=
  (run_op sample_engine (OpFinalize 1 "worker-a" (outcome_permanent "certificate_invalid" [])) w_running).2.

Definition blocked_job : Job :=
  match jobs (db w_blocked) !! 1%N with Some j => j | None => sample_job end.

Lemma enqueue_blocked_key_witness :
  job_state blocked_job = JobState.BLOCKED /\
  exists w', enqueue sample_request w_blocked =
    (Err (JobEngineError "could not resolve active idempotency key"), w') /\ db w' = db w_blocked.
Proof.
  split; [vm_compute; reflexivity|].
  apply (enqueue_blocked_key sample_request w_blocked 1 blocked_job);
    [|vm_compute; reflexivity..].
  apply run_op_inv; [exact lease_positive | exact sound_running].
Defined.

Lemma enqueue_idempotent_witness : enqueue sample_request w_running = (Ok running_job, w_running).
Proof.
  apply (enqueue_idempotent sample_engine sample_request sample_request w_start w_queued w_running sample_job running_job);
    [exact lease_positive | exact sound_start | reflexivity | vm_compute; reflexivity | | exact row_running
    | reflexivity | reflexivity | reflexivity | reflexivity].
  apply rtc_once. apply step_op.
Defined.

(** Time passes the lease. *)
Definition w_lapsed : World MemoryBucket.t := w_running <| clock := seconds 60 |>.

Lemma sound_lapsed : job_inv w_lapsed.
Proof.
  apply (step_inv sample_engine w_running); [exact lease_positive | | exact sound_running].
  apply step_tick. vm_compute. done.
Qed.

Lemma recover_contract_witness :
  expired (clock w_lapsed) running_job = true /\
  exists w', recover w_lapsed = (Ok (count_expired (clock w_lapsed) (db w_lapsed),
                                     length (select (queued_due (clock w_lapsed)) (jobs (db w')))), w') /\
    (forall i j', jobs (db w') !! i = Some j' -> is_running j' = true ->
       exists t, job_lease_expires_at j' = Some t /\ (clock w_lapsed < t)%Z) /\
    (forall i j, jobs (db w_lapsed) !! i = Some j ->
       if expired (clock w_lapsed) j
       then jobs (db w') !! i = Some (requeue (clock w_lapsed) j) /\ claimable (clock w_lapsed) ∅ (requeue (clock w_lapsed) j) = true
       else jobs (db w') !! i = Some j).
Proof. split; [reflexivity|]. apply (recover_contract w_lapsed); [exact sound_lapsed | reflexivity]. Defined.

(** A handler that takes ten seconds and succeeds, and one that outlives its
    lease while the scheduler recovers the job. *)
Definition quick_handler : handler MemoryBucket.t := fun _ =>
  modify (fun w => w <| clock ::= fun t => (t + seconds 10)%Z |>) ;;; ret (Mapping (Some [("units", VInt 3)])).

Definition slow_handler : handler MemoryBucket.t := fun _ =>
  modify (fun w => w <| clock ::= fun t => (t + seconds 60)%Z |>) ;;; recover ;;; ret (Mapping None).

Lemma quick_handler_keeps : keeps_lease sample_engine quick_handler.
Proof.
  intros j w Ho Hj. unfold quick_handler. cbn. split; [done|]. split; [done|].
  unfold seconds, second. lia.
Qed.

Definition quick_registry : registry MemoryBucket.t :=
  ({["collection.run" := quick_handler]} : gmap string (handler MemoryBucket.t)).
Definition slow_registry : registry MemoryBucket.t :=
  ({["collection.run" := slow_handler]} : gmap string (handler MemoryBucket.t)).

Lemma process_one_progress_witness :
  (exists w', process_one sample_engine quick_registry ∅ "worker-a" w_queued = (Ok false, w') /\
     forall i x, jobs (db w') !! i = Some x -> claimable (clock w_queued) ∅ x = false) \/
  exists j w1 w', claim sample_engine ∅ "worker-a" w_queued = (Ok (Some j), w1) /\
    process_one sample_engine quick_registry ∅ "worker-a" w_queued = (Ok true, w') /\
    (given_back (job_id j) w' \/
     exists h, get_handler (job_job_type j) quick_registry = Some h /\ gave_up (h j w1) /\ w' = (h j w1).2).
Proof.
  apply (process_one_progress sample_engine quick_registry ∅ "worker-a" w_queued);
    [exact lease_positive | exact sound_queued | reflexivity | reflexivity | |].
  - apply (sample_attempts _ 1 sample_job); [vm_compute; reflexivity | cbn; lia].
  - intros t h Hh. unfold get_handler, quick_registry, registry in Hh. apply lookup_singleton_Some in Hh as [_ <-].
    exact quick_handler_keeps.
Defined.

Definition w_reclaimed : World MemoryBucket.t := (slow_handler running_job w_running).2.
Definition reclaimed_job : Job := requeue (seconds 61) running_job.

Lemma process_one_reclaimed_witness :
  process_one sample_engine slow_registry ∅ "worker-a" w_queued =
  (Err (InvalidTransition "job is not running"), w_reclaimed).
Proof.
  apply (process_one_reclaimed sample_engine slow_registry ∅ "worker-a" w_queued w_running w_reclaimed
           running_job reclaimed_job slow_handler (Ok (Mapping None)));
    [vm_compute; reflexivity | reflexivity | reflexivity | done | done | reflexivity | vm_compute; reflexivity | reflexivity].
Defined.
