(* ===== verification/Artifacts.v ===== *)
(** * Artifact storage (artifacts/storage.py, artifacts/models.py)

    The object-store port, its S3 adapter over boto3, and the service that
    keeps a relational reference to every object: pending, uploaded, verified,
    finalised. *)

From Stdlib Require Import ZArith Ascii String Lia.
From stdpp Require Import base decidable list gmap strings.
From S2P Require Import Prelude PyStr Sha256 PyVal Models.

Local Open Scope string_scope.

Definition DEFAULT_MAX_SIZE_BYTES : Z := 50 * 1024 * 1024.

Record ObjectMetadata : Type := MkObjectMetadata {
  om_size_bytes : Z; om_digest : string; om_content_type : string }.

Record ReconciliationReport : Type := MkReconciliation {
  rr_pending : nat; rr_missing : nat; rr_divergent : nat; rr_orphan_objects : nat }.

Record ArtifactMetrics : Type := MkMetrics {
  am_pending : nat; am_pending_older_than_limit : nat; am_missing : nat; am_divergent : nat;
  am_orphan_objects : nat }.

(** ** The port

    [ObjectStore] is the protocol the service is written against; a stream is
    the list of its chunks, which need not be bytes. *)

Class ObjectStore (B : Type) : Type := {
  write_stream : string -> list pyval -> string -> Z -> M B ObjectMetadata;
  head : string -> M B (option ObjectMetadata);
  read : string -> M B (option string);
  list_keys : string -> M B (list string);
  delete : string -> M B unit }.

(** An operation that changes the bucket only. *)
Definition bucket_only {B A} (m : M B A) : Prop := forall w, exists b, (m w).2 = w <| bucket := b |>.

(** The bytes of a stream, when all its chunks are bytes. *)
Fixpoint stream_bytes (chunks : list pyval) : option string :=
  match chunks with
  | [] => Some ""
  | VBytes b :: rest => option_map (fun r => b ++ r) (stream_bytes rest)
  | _ :: _ => None
  end.

(** What the service relies on: an accepted write is what a later read finds,
    reading changes nothing, and keys do not interfere. *)
Class ObjectStoreLaws (B : Type) `{ObjectStore B} : Prop := {
  write_bucket_only : forall k chunks ct limit, bucket_only (write_stream k chunks ct limit);
  delete_bucket_only : forall k, bucket_only (delete k);
  head_pure : forall k w, (head k w).2 = w;
  read_pure : forall k w, (read k w).2 = w;
  list_pure : forall p w, (list_keys p w).2 = w;
  head_local : forall k w w', bucket w = bucket w' -> (head k w).1 = (head k w').1;
  read_local : forall k w w', bucket w = bucket w' -> (read k w).1 = (read k w').1;
  list_local : forall p w w', bucket w = bucket w' -> (list_keys p w).1 = (list_keys p w').1;
  write_accepted : forall k chunks ct limit w m w',
    write_stream k chunks ct limit w = (Ok m, w') ->
    exists body, stream_bytes chunks = Some body /\ (slen body <= Z.max 0 limit)%Z /\
      m = MkObjectMetadata (slen body) (sha256 body) ct /\
      head k w' = (Ok (Some m), w') /\ read k w' = (Ok (Some body), w');
  write_elsewhere : forall k k' chunks ct limit w m w',
    write_stream k chunks ct limit w = (Ok m, w') -> k <> k' ->
    (head k' w').1 = (head k' w).1 /\ (read k' w').1 = (read k' w).1;
  delete_gone : forall k w w', delete k w = (Ok tt, w') -> head k w' = (Ok None, w');
  (** a deletion makes no other object appear *)
  delete_missing : forall k k' w, (head k' w).1 = Ok None -> (head k' (delete k w).2).1 = Ok None }.

(** ** The S3 adapter *)

Section s3.
Context {B : Type} `{External B}.

(** The staging loop: bytes and their number, or the first objection. *)
Fixpoint stage (chunks : list pyval) (maximum_size size : Z) (staged : string) : result exn (Z * string) :=
  match chunks with
  | [] => Ok (size, staged)
  | VBytes chunk :: rest =>
      let size := (size + slen chunk)%Z in
      if Z.ltb maximum_size size then Err ArtifactTooLarge
      else stage rest maximum_size size (staged ++ chunk)
  | _ :: _ => Err (ArtifactError "Artifact stream must contain bytes")
  end.

Definition s3_write_stream (object_key : string) (chunks : list pyval) (content_type : string)
    (maximum_size : Z) : M B ObjectMetadata :=
  let* '(size, staged) := lift_result (stage chunks maximum_size 0 "") in
  let digest := sha256 staged in
  let* b := gets bucket in
  let* b' := of_option (upload_fileobj object_key staged content_type digest b) StoreFailure in
  modify (fun w => w <| bucket := b' |>) ;;;
  ret (MkObjectMetadata size digest content_type).

Definition s3_head (object_key : string) : M B (option ObjectMetadata) :=
  let* b := gets bucket in
  match head_object object_key b with
  | NotFound => ret None
  | Unreachable => throw StoreFailure
  | Found h =>
      ret (Some (MkObjectMetadata (head_length h) (opt_default "" (head_sha256 h))
                   (opt_default "application/octet-stream" (head_content_type h))))
  end.

Definition s3_read (object_key : string) : M B (option string) :=
  let* b := gets bucket in
  match get_object object_key b with
  | NotFound => ret None
  | Unreachable => throw StoreFailure
  | Found body => ret (Some body)
  end.

Definition s3_list_keys (prefix : string) : M B (list string) :=
  let* b := gets bucket in of_option (list_objects prefix b) StoreFailure.

Definition s3_delete (object_key : string) : M B unit :=
  let* b := gets bucket in
  let* b' := of_option (delete_object object_key b) StoreFailure in
  modify (fun w => w <| bucket := b' |>).

(** [S3ObjectStore] implements the port. *)
#[global] Instance S3ObjectStore : ObjectStore B := {|
  write_stream := s3_write_stream; head := s3_head; read := s3_read;
  list_keys := s3_list_keys; delete := s3_delete |}.

End s3.

(** ** The service *)

Definition SHA256 : string := "sha256".
Definition object_prefix : string := "artifacts/".

Definition object_key_of (id : N) : string := object_prefix ++ uuid_hex id ++ "/v1".

(** [artifact.digest == written.digest and artifact.size_bytes == written.size_bytes] *)
Definition same_content (a : Artifact) (m : ObjectMetadata) : bool :=
  String.eqb (art_digest a) (om_digest m) && bool_decide (art_size_bytes a = Some (om_size_bytes m)).

Definition is_finalized (a : Artifact) : bool := bool_decide (art_state a = ArtifactState.FINALIZED).
Definition is_pending (a : Artifact) : bool := bool_decide (art_state a = ArtifactState.PENDING).

Definition finalized_key (key : string) (a : Artifact) : bool :=
  String.eqb (art_logical_key a) key && is_finalized a.

(** [len(payload) == size_bytes and sha256(payload) == digest] *)
Definition payload_matches (a : Artifact) (payload : string) : bool :=
  bool_decide (art_size_bytes a = Some (slen payload)) && String.eqb (sha256 payload) (art_digest a).

(** The rows that protect an artifact from deletion. *)
Definition artifact_referenced (id : N) (d : DB) : bool :=
  exists_row (fun e => N.eqb (ev_artifact e) id) (evidence d) ||
  exists_row (fun e => N.eqb (dee_artifact e) id) (event_evidence d) ||
  exists_row (fun r => N.eqb (rn_source_artifact r) id || bool_decide (rn_artifact r = Some id)) (renders d) ||
  exists_row (fun c => bool_decide (cert_artifact c = Some id)) (certificates d) ||
  exists_row (fun u => bool_decide (un_artifact u = Some id)) (units d) ||
  exists_row (fun x => bool_decide (xp_zip_artifact x = Some id)) (exports d) ||
  exists_row (fun x => bool_decide (xi_artifact x = Some id)) (export_items d).

Section service.
Context {B : Type} `{ObjectStore B} (maximum_size : Z).

Definition get_artifact (id : N) : M B Artifact :=
  let* row := query (fun d => artifacts d !! id) in of_option row DoesNotExist.

Definition put_artifact (a : Artifact) : M B unit := write (fun d => d <| artifacts ::= put (art_id a) a |>).

(** [artifact.save()] under the partial unique constraint on finalised keys. *)
Definition save_artifact (a : Artifact) : M B unit :=
  let* taken := query (fun d => exists_row (fun x => finalized_key (art_logical_key a) x && negb (N.eqb (art_id x) (art_id a)))
                                  (artifacts d)) in
  require (negb (is_finalized a && taken)) IntegrityError ;;;
  put_artifact a.

Definition new_artifact (id : N) (now : Z) (logical_class logical_key declared_mime_type : string) : Artifact :=
  MkArtifact id logical_class logical_key (object_key_of id) SHA256 "" None declared_mime_type ""
    ArtifactState.PENDING 1 "" now None now.

Definition begin (logical_class logical_key declared_mime_type : string) : M B Artifact :=
  require (str_nonempty logical_class && str_nonempty logical_key && str_nonempty declared_mime_type)
    (ArtifactError "Artifact class, logical key, and MIME type are required") ;;;
  require (Nat.leb (String.length logical_class) 64 && Nat.leb (String.length logical_key) 255 &&
           Nat.leb (String.length declared_mime_type) 255)
    (ArtifactError "Artifact metadata exceeds its configured limit") ;;;
  let* artifact_id := uuid4 in
  let* now := timezone_now in
  autocommit (
    let a := new_artifact artifact_id now logical_class logical_key declared_mime_type in
    let* taken := query (fun d => exists_row (fun x => String.eqb (art_object_key x) (art_object_key a)) (artifacts d)) in
    require (negb taken) IntegrityError ;;;
    put_artifact a ;;;
    ret a).

Definition finalized_row (now : Z) (written verified : ObjectMetadata) (a : Artifact) : Artifact :=
  a <| art_digest_algorithm := SHA256 |> <| art_digest := om_digest written |>
    <| art_size_bytes := Some (om_size_bytes written) |> <| art_detected_mime_type := om_content_type verified |>
    <| art_state := ArtifactState.FINALIZED |> <| art_finalized_at := Some now |> <| art_safe_error := "" |>
    <| art_updated_at := now |>.

Definition _finalize (artifact_id : N) (written verified : ObjectMetadata) : M B Artifact :=
  try_except
    (atomic (
       let* artifact := get_artifact artifact_id in
       if is_finalized artifact then
         if same_content artifact written then ret artifact
         else throw (ArtifactConflict "Finalized artifact metadata conflicts with retry")
       else
         require (is_pending artifact) (ArtifactError "Artifact cannot be finalized from its current state") ;;;
         let* now := timezone_now in
         let a := finalized_row now written verified artifact in
         save_artifact a ;;;
         ret a))
    (fun e => match e with
              | IntegrityError =>
                  let* existing := autocommit (
                    let* artifact := get_artifact artifact_id in
                    query (fun d => first_by (by_key (fun a => Z.of_N (art_id a)))
                                      (select (finalized_key (art_logical_key artifact)) (artifacts d)))) in
                  match existing with
                  | Some a =>
                      if same_content a written then ret a
                      else throw (ArtifactConflict "A different finalized artifact already owns this logical key")
                  | None => throw (ArtifactConflict "A different finalized artifact already owns this logical key")
                  end
              | _ => throw e
              end).

Definition transmit (artifact_id : N) (chunks : list pyval) : M B Artifact :=
  let* artifact := autocommit (get_artifact artifact_id) in
  require (is_pending artifact) (ArtifactError "Only a pending artifact can receive bytes") ;;;
  try_except
    (let* written := write_stream (art_object_key artifact) chunks (art_declared_mime_type artifact) maximum_size in
     let* verified := head (art_object_key artifact) in
     match verified with
     | Some v =>
         if Z.eqb (om_size_bytes v) (om_size_bytes written) && String.eqb (om_digest v) (om_digest written)
         then _finalize artifact_id written v
         else throw (ArtifactError "Object storage integrity verification failed")
     | None => throw (ArtifactError "Object storage integrity verification failed")
     end)
    (fun e => if is_ArtifactError e then throw e else throw (ArtifactError "Object storage write failed")).

(** [_mark_problem]: only a finalised row changes. *)
Definition _mark_problem (id : N) (state : ArtifactState.t) (error : string) : M B unit :=
  let* now := timezone_now in
  autocommit (
    write (fun d => d <| artifacts ::= fun t =>
      match t !! id with
      | Some a => if is_finalized a
                  then put id (a <| art_state := state |> <| art_safe_error := error |> <| art_updated_at := now |>) t
                  else t
      | None => t
      end |>)).

Definition open_verified (artifact_id : N) : M B string :=
  let* artifact := autocommit (get_artifact artifact_id) in
  require (is_finalized artifact) ArtifactNotReadable ;;;
  let* stream := read (art_object_key artifact) in
  match stream with
  | None =>
      _mark_problem artifact_id ArtifactState.MISSING "Object missing from storage" ;;;
      throw ArtifactNotReadable
  | Some payload =>
      if payload_matches artifact payload then ret payload
      else
        _mark_problem artifact_id ArtifactState.DIVERGENT "Object integrity diverged" ;;;
        throw ArtifactNotReadable
  end.

Definition read_verified (artifact_id : N) : M B string :=
  let* artifact := autocommit (get_artifact artifact_id) in
  require (is_finalized artifact) ArtifactNotReadable ;;;
  let* stream := read (art_object_key artifact) in
  match stream with
  | None => throw ArtifactNotReadable
  | Some payload => if payload_matches artifact payload then ret payload else throw ArtifactNotReadable
  end.

Definition delete_temporary (artifact_id : N) (logical_class : string) : M B unit :=
  atomic (
    let* artifact := get_artifact artifact_id in
    require (String.eqb (art_logical_class artifact) logical_class)
      (ArtifactError "Only temporary artifacts can be deleted") ;;;
    delete (art_object_key artifact) ;;;
    let* protected := query (artifact_referenced artifact_id) in
    require (negb protected) IntegrityError ;;;
    write (fun d => d <| artifacts ::= base.delete artifact_id |>)).

Definition delete_for_deletion (artifact_id : N) (expected_digest_prefix : string)
    (expected_size_bytes expected_version : Z) : M B unit :=
  atomic (
    let* row := query (fun d => artifacts d !! artifact_id) in
    match row with
    | None => throw ArtifactDeletionMissing
    | Some artifact =>
        require (is_finalized artifact && Z.eqb (art_version artifact) expected_version &&
                 bool_decide (art_size_bytes artifact = Some expected_size_bytes) &&
                 starts_with expected_digest_prefix (art_digest artifact)) ArtifactDeletionDivergent ;;;
        let* metadata := try_except (head (art_object_key artifact)) (fun _ => throw ArtifactDeletionFailed) in
        match metadata with
        | None => throw ArtifactDeletionMissing
        | Some m =>
            require (same_content artifact m) ArtifactDeletionDivergent ;;;
            try_except (delete (art_object_key artifact)) (fun _ => throw ArtifactDeletionFailed)
        end
    end).

(** [set(values_list("object_key", flat=True))] *)
Definition referenced_keys (d : DB) : list string := map art_object_key (rows (artifacts d)).

Definition orphans (referenced keys : list string) : nat :=
  length (List.filter (fun k => negb (existsb (String.eqb k) referenced)) keys).

Definition count_state (s : ArtifactState.t) (d : DB) : nat :=
  length (select (fun a => bool_decide (art_state a = s)) (artifacts d)).

(** One iteration of the reconciliation loop: (missing, divergent) so far. *)
Definition reconcile_one (counts : nat * nat) (artifact : Artifact) : M B (nat * nat) :=
  let* metadata := head (art_object_key artifact) in
  match metadata with
  | None =>
      _mark_problem (art_id artifact) ArtifactState.MISSING "Object missing from storage" ;;;
      ret (S counts.1, counts.2)
  | Some m =>
      if same_content artifact m then ret counts
      else
        _mark_problem (art_id artifact) ArtifactState.DIVERGENT "Object integrity diverged" ;;;
        ret (counts.1, S counts.2)
  end.

Definition reconcile : M B ReconciliationReport :=
  let* referenced := autocommit (query referenced_keys) in
  let* keys := list_keys object_prefix in
  let orphan_objects := orphans referenced keys in
  let* pending := autocommit (query (count_state ArtifactState.PENDING)) in
  let* finalized := autocommit (query (fun d => select is_finalized (artifacts d))) in
  let* '(missing, divergent) := fold_each finalized reconcile_one (0, 0)%nat in
  ret (MkReconciliation pending missing divergent orphan_objects).

Definition metrics (pending_age : Z) : M B ArtifactMetrics :=
  let* now := timezone_now in
  let threshold := (now - pending_age)%Z in
  let* d := autocommit (query (fun d => d)) in
  let* keys := list_keys object_prefix in
  ret (MkMetrics
         (count_state ArtifactState.PENDING d)
         (length (select (fun a => is_pending a && Z.ltb (art_created_at a) threshold) (artifacts d)))
         (count_state ArtifactState.MISSING d)
         (count_state ArtifactState.DIVERGENT d)
         (orphans (referenced_keys d) keys)).

End service.

#[global] Arguments begin : simpl never.
#[global] Arguments transmit : simpl never.
#[global] Arguments _mark_problem : simpl never.
#[global] Arguments get_artifact : simpl never.
#[global] Arguments _finalize : simpl never.
#[global] Arguments open_verified : simpl never.
#[global] Arguments read_verified : simpl never.
#[global] Arguments delete_temporary : simpl never.
#[global] Arguments delete_for_deletion : simpl never.
#[global] Arguments reconcile : simpl never.
#[global] Arguments metrics : simpl never.

(** ** The S3 adapter keeps the contract *)

Section s3_laws.
Context {B : Type} `{!External B} {laws : ExternalLaws B}.

Lemma append_assoc_str (a b c : string) : ((a ++ b) ++ c = a ++ (b ++ c))%string.
Proof. induction a as [|x a IH]; [done|]. by rewrite !append_cons, IH. Qed.

Lemma slen_app (a b : string) : slen (a ++ b) = (slen a + slen b)%Z.
Proof.
  unfold slen. induction a as [|x a IH]; [done|]. rewrite append_cons. cbn [String.length]. lia.
Qed.

Lemma append_empty_r (a : string) : (a ++ "")%string = a.
Proof. induction a as [|x a IH]; [done|]. by rewrite append_cons, IH. Qed.

Lemma stage_spec chunks limit size staged n body :
  stage chunks limit size staged = Ok (n, body) -> size = slen staged -> (size <= Z.max 0 limit)%Z ->
  exists rest, stream_bytes chunks = Some rest /\ body = (staged ++ rest)%string /\ n = slen body /\ (n <= Z.max 0 limit)%Z.
Proof.
  revert size staged. induction chunks as [|c chunks IH]; intros size staged; cbn [stage stream_bytes].
  - intros [= <- <-] -> Hle. exists "". by rewrite append_empty_r.
  - destruct c; try done. destruct (Z.ltb_spec limit (size + slen s)); [done|].
    intros Hs -> Hle. destruct (IH _ _ Hs) as (rest & -> & -> & -> & Hn); [by rewrite slen_app|lia|].
    exists (s ++ rest). by rewrite append_assoc_str in *.
Qed.

Lemma s3_write_inv k chunks ct limit (w w' : World B) m :
  s3_write_stream k chunks ct limit w = (Ok m, w') ->
  exists size body b', stage chunks limit 0 "" = Ok (size, body) /\
    upload_fileobj k body ct (sha256 body) (bucket w) = Some b' /\
    m = MkObjectMetadata size (sha256 body) ct /\ w' = w <| bucket := b' |>.
Proof.
  unfold s3_write_stream. destruct (stage chunks limit 0 "") as [[size body]|x]; [|done]. run.
  destruct (upload_fileobj _ _ _ _ _) as [b'|] eqn:Hu; [|done].
  intros [= <- <-]. exists size, body, b'. by repeat split.
Qed.

#[global] Instance S3ObjectStore_laws : ObjectStoreLaws B.
Proof using laws.
  split.
  - intros k chunks ct limit w. cbn. unfold s3_write_stream.
    destruct (stage chunks limit 0 "") as [[size body]|x]; [|exists (bucket w); by destruct w].
    run. destruct (upload_fileobj _ _ _ _ _) as [b'|]; [by exists b' | exists (bucket w); by destruct w].
  - intros k w. cbn. unfold s3_delete. run.
    destruct (delete_object _ _) as [b'|]; [by exists b' | exists (bucket w); by destruct w].
  - intros k w. cbn. unfold s3_head. run. by destruct (head_object _ _).
  - intros k w. cbn. unfold s3_read. run. by destruct (get_object _ _).
  - intros k w. cbn. unfold s3_list_keys. run. by destruct (list_objects _ _).
  - intros k w w' Hb. cbn. unfold s3_head. run. rewrite Hb. by destruct (head_object _ _).
  - intros k w w' Hb. cbn. unfold s3_read. run. rewrite Hb. by destruct (get_object _ _).
  - intros p w w' Hb. cbn. unfold s3_list_keys. run. rewrite Hb. by destruct (list_objects _ _).
  - intros k chunks ct limit w m w' (size & body & b' & Hs & Hu & -> & ->)%s3_write_inv.
    apply stage_spec in Hs as (rest & Hst & -> & -> & Hle); [|done|cbn; lia].
    exists rest. split; [done|]. split; [done|]. split; [done|]. split; cbn.
    + unfold s3_head. run. cbn. by rewrite (head_uploaded _ _ _ _ _ _ Hu).
    + unfold s3_read. run. cbn. by rewrite (get_uploaded _ _ _ _ _ _ Hu).
  - intros k k' chunks ct limit w m w' (size & body & b' & Hs & Hu & -> & ->)%s3_write_inv Hne.
    split; cbn.
    + unfold s3_head. run. cbn. rewrite (head_other _ _ _ _ _ _ _ Hu Hne). by destruct (head_object _ _).
    + unfold s3_read. run. cbn. rewrite (get_other _ _ _ _ _ _ _ Hu Hne). by destruct (get_object _ _).
  - intros k w w'. cbn. unfold s3_delete, s3_head. run.
    destruct (delete_object _ _) as [b'|] eqn:Hd; [|done]. intros [= <-]. cbn. by rewrite (head_deleted _ _ _ Hd).
  - intros k k' w. cbn. unfold s3_delete, s3_head. run. destruct (delete_object k _) as [b'|] eqn:Hd; [|done]. cbn.
    destruct (decide (k = k')) as [<-|Hne]; [by rewrite (head_deleted _ _ _ Hd)|rewrite (head_deleted_other _ _ _ _ Hd Hne); by destruct (head_object k' _)].
Qed.

End s3_laws.
