(* ===== verification/ArtifactFacts.v ===== *)
(** * What artifact storage guarantees

    The service of [Artifacts] against the contract of its object store:
    round trip, verified reads, the invariant of the artifact table,
    reconciliation and guarded deletion; then the theorems on the S3 adapter
    over an in-memory bucket. *)

From Stdlib Require Import ZArith Ascii String Lia.
From stdpp Require Import base decidable list gmap strings relations.
From S2P Require Import Prelude PyStr Sha256 PyVal Models Artifacts.
From S2P Require Import JobPolicies.

Local Open Scope string_scope.

(** ** The invariant *)

(** What a row records, by its state. *)
Definition artifact_row_ok (a : Artifact) : Prop :=
  art_object_key a = object_key_of (art_id a) /\ art_version a = 1%Z /\
  match art_state a with
  | ArtifactState.PENDING => art_digest a = "" /\ art_size_bytes a = None /\ art_finalized_at a = None
  | _ => is_hex64 (art_digest a) = true /\ art_digest_algorithm a = SHA256 /\
         (exists n, art_size_bytes a = Some n /\ (0 <= n)%Z) /\ is_Some (art_finalized_at a)
  end.

Record artifacts_ok (t : gmap N Artifact) : Prop := {
  aok_keyed : keyed art_id t;
  aok_rows : forall i a, t !! i = Some a -> artifact_row_ok a;
  aok_one : forall i k a b, t !! i = Some a -> t !! k = Some b ->
    is_finalized a = true -> is_finalized b = true -> art_logical_key a = art_logical_key b -> i = k }.

Definition artifact_inv {B} (w : World B) : Prop :=
  artifacts_ok (artifacts (db w)) /\ forall i, is_Some (artifacts (db w) !! i) -> (i < next_uuid w)%N.

(** [w] with another artifact table. *)
Definition with_artifacts {B} (t : gmap N Artifact) (w : World B) : World B :=
  w <| db ::= fun d => d <| artifacts := t |> |>.

Lemma is_finalized_true a : is_finalized a = true <-> art_state a = ArtifactState.FINALIZED.
Proof. unfold is_finalized. by rewrite bool_decide_eq_true. Qed.

Lemma is_pending_true a : is_pending a = true <-> art_state a = ArtifactState.PENDING.
Proof. unfold is_pending. by rewrite bool_decide_eq_true. Qed.

Lemma pending_not_finalized a : is_pending a = true -> is_finalized a = false.
Proof. unfold is_pending, is_finalized. rewrite bool_decide_eq_true, bool_decide_eq_false. by intros ->. Qed.

Lemma same_content_true a m :
  same_content a m = true <-> art_digest a = om_digest m /\ art_size_bytes a = Some (om_size_bytes m).
Proof. unfold same_content. rewrite andb_true_iff, String.eqb_eq, bool_decide_eq_true. done. Qed.

Section service.
Context {B : Type} `{!ObjectStore B} {laws : ObjectStoreLaws B} (maximum_size : Z).

(** Another finalised artifact has the key. *)
Definition key_owned (a : Artifact) (w : World B) : bool :=
  exists_row (fun x => finalized_key (art_logical_key a) x && negb (N.eqb (art_id x) (art_id a))) (artifacts (db w)).

Definition key_owner (key : string) (w : World B) : option Artifact :=
  first_by (by_key (fun a => Z.of_N (art_id a))) (select (finalized_key key) (artifacts (db w))).

Definition conflict : exn := ArtifactConflict "A different finalized artifact already owns this logical key".

Lemma get_artifact_run id (w : World B) :
  get_artifact id w = match artifacts (db w) !! id with Some a => (Ok a, w) | None => (Err DoesNotExist, w) end.
Proof. unfold get_artifact. run. unfold query. run. by destruct (artifacts (db w) !! id). Qed.

Lemma autocommit_pure {A} (m : M B A) (w : World B) :
  (m w).2 = w -> autocommit m w = if online w then m w else (Err OperationalError, w).
Proof.
  intros Hm. unfold autocommit, atomic. destruct (online w) eqn:Ho; [|done].
  destruct (m w) as [[a|e] w'] eqn:Hr; cbn in Hm; subst w'; [done|]. f_equal. destruct w; cbn in *; congruence.
Qed.

Lemma committed_query {A} (f : DB -> A) (w : World B) :
  online w = true -> autocommit (query f) w = (Ok (f (db w)), w).
Proof. intros Ho. rewrite autocommit_pure by done. by rewrite Ho. Qed.

Lemma get_committed id (w : World B) :
  online w = true -> autocommit (get_artifact id) w =
  match artifacts (db w) !! id with Some a => (Ok a, w) | None => (Err DoesNotExist, w) end.
Proof.
  intros Ho. rewrite autocommit_pure; rewrite get_artifact_run; [by rewrite Ho|].
  by destruct (artifacts (db w) !! id).
Qed.

(** [_finalize] on a pending row. *)
Lemma finalize_pending id written verified a (w : World B) :
  online w = true -> artifacts (db w) !! id = Some a -> is_pending a = true -> art_id a = id ->
  _finalize id written verified w =
  if key_owned a w
  then match key_owner (art_logical_key a) w with
       | Some x => if same_content x written then (Ok x, w) else (Err conflict, w)
       | None => (Err conflict, w)
       end
  else let a' := finalized_row (clock w) written verified a in
       (Ok a', with_artifacts (put id a' (artifacts (db w))) w).
Proof.
  destruct w as [d now nu on cs b]. cbn [online db]. intros -> Ha Hp Hid.
  pose proof (pending_not_finalized a Hp) as Hf.
  unfold _finalize, get_artifact, save_artifact, put_artifact, key_owned, key_owner, autocommit, atomic. exec.
  rewrite Ha. cbn. rewrite Hf, Hp. cbn.
  assert (is_finalized (finalized_row now written verified a) = true) as -> by done. cbn [andb].
  destruct (exists_row _ (artifacts d)); cbn.
  - rewrite ?Ha. cbn. destruct (first_by _ _) as [x|]; cbn; [|done]. by destruct (same_content x written).
  - by rewrite Hid.
Qed.

(** [transmit] on a pending row, step by step. *)
Lemma transmit_pending id chunks a (w : World B) :
  online w = true -> artifacts (db w) !! id = Some a -> is_pending a = true -> art_id a = id ->
  match write_stream (art_object_key a) chunks (art_declared_mime_type a) maximum_size w with
  | (Ok m, w1) =>
      db w1 = db w /\ online w1 = true /\ clock w1 = clock w /\ next_uuid w1 = next_uuid w /\
      transmit maximum_size id chunks w =
      (if key_owned a w
       then match key_owner (art_logical_key a) w with
            | Some x => if same_content x m then (Ok x, w1) else (Err conflict, w1)
            | None => (Err conflict, w1)
            end
       else let a' := finalized_row (clock w) m m a in
            (Ok a', with_artifacts (put id a' (artifacts (db w))) w1))
  | (Err e, w1) =>
      db w1 = db w /\
      transmit maximum_size id chunks w =
      (Err (if is_ArtifactError e then e else ArtifactError "Object storage write failed"), w1)
  end.
Proof using laws.
  intros Ho Ha Hp Hid. unfold transmit, bind. rewrite get_committed, Ha by done.
  rewrite Hp. cbn [require ret]. unfold try_except, bind.
  destruct (write_bucket_only (art_object_key a) chunks (art_declared_mime_type a) maximum_size w) as [b Hb].
  destruct (write_stream _ _ _ _ w) as [[m|e] w1] eqn:Hw; cbn [snd] in Hb.
  - destruct (write_accepted _ _ _ _ _ _ _ Hw) as (body & Hs & Hle & -> & Hh & Hr).
    rewrite Hh. cbn beta iota. cbn [om_size_bytes om_digest]. rewrite Z.eqb_refl, String.eqb_refl. cbn [andb].
    subst w1. do 4 (split; [done|]). rewrite (finalize_pending id _ _ a); [|done..].
    unfold key_owned, key_owner. cbn [db upd].
    destruct (exists_row _ _); [|done]. destruct (first_by _ _) as [x|]; [|done].
    by destruct (same_content x _).
  - subst w1. split; [done|]. by destruct (is_ArtifactError e).
Qed.

(** Reading, with the state of the world spelled out. *)
Lemma read_verified_run id (w : World B) :
  online w = true ->
  read_verified id w =
  (match artifacts (db w) !! id with
   | None => Err DoesNotExist
   | Some a =>
       if is_finalized a then
         match (read (art_object_key a) w).1 with
         | Err e => Err e
         | Ok (Some payload) => if payload_matches a payload then Ok payload else Err ArtifactNotReadable
         | Ok None => Err ArtifactNotReadable
         end
       else Err ArtifactNotReadable
   end, w).
Proof using laws.
  intros Ho. unfold read_verified, bind. rewrite get_committed by done.
  destruct (artifacts (db w) !! id) as [a|]; [|done]. unfold require. destruct (is_finalized a); [|done].
  cbn [ret]. unfold ret at 1. pose proof (read_pure (art_object_key a) w) as Hp.
  destruct (read (art_object_key a) w) as [[[payload|]|e] w']; cbn in Hp |- *; subst w'; [|done..].
  by destruct (payload_matches a payload).
Qed.

Lemma key_owner_some key (w : World B) x :
  artifact_inv w -> key_owner key w = Some x ->
  artifacts (db w) !! art_id x = Some x /\ is_finalized x = true /\ art_logical_key x = key.
Proof.
  intros [Hok _] Hx. apply first_by_elem, elem_of_select in Hx as [Hf [i Hi]].
  rewrite (aok_keyed _ Hok i x Hi). unfold finalized_key in Hf. bools. by rewrite String.eqb_eq in *.
Qed.

(** ** Preservation of the invariant *)

Lemma artifact_inv_rollback : rollback_stable (B:=B) artifact_inv.
Proof. intros w w' [Hok Hlt] Hn. split; [done|]. intros i Hi. specialize (Hlt i Hi). cbn in *. lia. Qed.

Lemma bucket_only_preserves {A} (m : M B A) : bucket_only m -> preserves artifact_inv m.
Proof. intros Hb w Hw. destruct (Hb w) as [b ->]. exact Hw. Qed.

Lemma bucket_only_uuid {A} n (m : M B A) : bucket_only m -> preserves (uuid_from n) m.
Proof. intros Hb w Hw. destruct (Hb w) as [b ->]. exact Hw. Qed.

Lemma pure_bucket_only {A} (m : M B A) : (forall w, (m w).2 = w) -> bucket_only m.
Proof. intros Hm w. exists (bucket w). rewrite Hm. by destruct w. Qed.

Lemma inv_autocommit {A} (m : M B A) :
  (forall n, preserves (uuid_from n) m) -> preserves artifact_inv m -> preserves artifact_inv (autocommit m).
Proof. apply preserves_atomic_uuid, artifact_inv_rollback. Qed.

Lemma inv_query {A} (f : DB -> A) : preserves (S:=World B) artifact_inv (query f).
Proof. by intros w Hw. Qed.

Lemma inv_write_artifacts (f : gmap N Artifact -> gmap N Artifact) :
  (forall t, artifacts_ok t -> artifacts_ok (f t)) -> (forall t i, is_Some (f t !! i) -> is_Some (t !! i)) ->
  preserves (S:=World B) artifact_inv (write (fun d => d <| artifacts ::= f |>)).
Proof.
  intros Hf Hi w [Hok Hlt]. split; [by apply Hf|]. intros i Hsome. apply Hlt. by eapply Hi.
Qed.

End service.

Lemma put_ok (t : gmap N Artifact) i a a' :
  artifacts_ok t -> t !! i = Some a -> art_id a' = i -> artifact_row_ok a' ->
  (is_finalized a' = true -> forall k b, t !! k = Some b -> is_finalized b = true ->
     art_logical_key b = art_logical_key a' -> k = i) ->
  artifacts_ok (put i a' t).
Proof.
  intros Hok Ha Hid Hrow Hown. unfold put. split.
  - intros k x. rewrite lookup_insert. case_decide as He; [intros [= <-]; congruence | apply Hok].
  - intros k x. rewrite lookup_insert. case_decide as He; [by intros [= <-] | apply Hok].
  - intros k l x y. rewrite !lookup_insert. repeat case_decide; subst; try congruence.
    + intros [= <-] Hy Hfx Hfy Hkey. symmetry. by eapply Hown.
    + intros Hx [= <-] Hfx Hfy Hkey. by eapply Hown.
    + by apply Hok.
Qed.

(** A finalised row that turns out to be missing or divergent. *)
Definition marked (now : Z) (state : ArtifactState.t) (error : string) (a : Artifact) : Artifact :=
  a <| art_state := state |> <| art_safe_error := error |> <| art_updated_at := now |>.

Definition mark (now : Z) (state : ArtifactState.t) (error : string) (id : N) (t : gmap N Artifact) : gmap N Artifact :=
  match t !! id with
  | Some a => if is_finalized a then put id (marked now state error a) t else t
  | None => t
  end.

Lemma mark_ok now state error id t :
  state = ArtifactState.MISSING \/ state = ArtifactState.DIVERGENT -> artifacts_ok t ->
  artifacts_ok (mark now state error id t).
Proof.
  intros Hs Hok. unfold mark. destruct (t !! id) as [a|] eqn:Ha; [|done].
  destruct (is_finalized a) eqn:Hf; [|done]. apply is_finalized_true in Hf.
  eapply put_ok; [done|exact Ha|exact (aok_keyed _ Hok _ _ Ha)| |].
  - pose proof (aok_rows _ Hok _ _ Ha) as (Hk & Hv & Hrow). rewrite Hf in Hrow.
    destruct Hs as [-> | ->]; (split; [exact Hk|]; split; [exact Hv | exact Hrow]).
  - intros Hf'. exfalso. apply is_finalized_true in Hf'. cbn in Hf'. destruct Hs; congruence.
Qed.

Lemma mark_dom now state error id t i : is_Some (mark now state error id t !! i) -> is_Some (t !! i).
Proof.
  unfold mark. destruct (t !! id) as [a|] eqn:Ha; [|done]. destruct (is_finalized a); [|done].
  unfold put. rewrite lookup_insert. case_decide; subst; [by rewrite Ha | done].
Qed.

Create HintDb artifact.

(** ** Frames: what the artifact operations leave alone *)

Section frames.
Context {B : Type} `{!ObjectStore B} {laws : ObjectStoreLaws B}.
Context {T : Type} (f : DB -> T).
Hypothesis blind : forall d g, f (d <| artifacts ::= g |>) = f d.

Lemma keeps_bucket_only {A} (m : M B A) : bucket_only m -> moves (keeps f) m.
Proof using Type. intros Hm w. destruct (Hm w) as [b ->]. repeat split. cbn. lia. Qed.

Lemma keeps_put_artifact a : moves (keeps f) (put_artifact (B:=B) a).
Proof using blind. apply keeps_write. intros d. apply blind. Qed.

Lemma keeps_store_write k chunks ct limit : moves (keeps f) (write_stream k chunks ct limit).
Proof using laws. apply keeps_bucket_only, write_bucket_only. Qed.

Lemma keeps_store_head k : moves (keeps f) (head (B:=B) k).
Proof using laws. apply moves_pure; [apply _|]. apply head_pure. Qed.

Lemma keeps_store_read k : moves (keeps f) (read (B:=B) k).
Proof using laws. apply moves_pure; [apply _|]. apply read_pure. Qed.

#[local] Hint Resolve keeps_put_artifact keeps_store_write keeps_store_head keeps_store_read : frames.

Lemma keeps_begin a b c : moves (keeps f) (begin (B:=B) a b c).
Proof using blind. unfold begin. frame_tac. Qed.

Lemma keeps_finalize id written verified : moves (keeps f) (_finalize (B:=B) id written verified).
Proof using blind. unfold _finalize, get_artifact, save_artifact. frame_tac. Qed.

#[local] Hint Resolve keeps_finalize : frames.

Lemma keeps_transmit limit id chunks : moves (keeps f) (transmit (B:=B) limit id chunks).
Proof using laws blind. unfold transmit, get_artifact. frame_tac. Qed.

Lemma keeps_mark id st e : moves (keeps f) (_mark_problem (B:=B) id st e).
Proof using blind. unfold _mark_problem. apply moves_bind; [apply _|frame_tac|]. intros now. apply moves_transaction; [apply _..|]. apply keeps_write. intros d. apply blind. Qed.

#[local] Hint Resolve keeps_mark : frames.

Lemma keeps_open id : moves (keeps f) (open_verified (B:=B) id).
Proof using laws blind. unfold open_verified, get_artifact. frame_tac. Qed.

Lemma delete_for_deletion_bucket_only id prefix size version :
  bucket_only (delete_for_deletion (B:=B) id prefix size version).
Proof using laws.
  intros w. assert (exists b, w = w <| bucket := b |>) as Hnone by (exists (bucket w); by destruct w).
  assert (forall w', (exists b, w' = w <| bucket := b |>) -> exists b, w' <| db := db w |> = w <| bucket := b |>) as Hroll.
  { intros w' [b ->]. by exists b. }
  unfold delete_for_deletion, atomic. destruct (online w); [|done].
  unfold bind, query, gets, require, try_except. destruct (artifacts (db w) !! id) as [a|]; [|by apply Hroll].
  destruct (_ && _); cbn beta iota zeta; [|by apply Hroll]. unfold ret, throw; cbn beta iota zeta.
  pose proof (head_pure (art_object_key a) w) as Hp.
  destruct (head (art_object_key a) w) as [[[m|]|e] w1]; cbn in Hp; subst w1; [|by apply Hroll..].
  destruct (same_content a m); [|by apply Hroll]. cbn beta iota zeta.
  destruct (delete_bucket_only (art_object_key a) w) as [b Hb].
  destruct (delete (art_object_key a) w) as [[[]|e] w2]; cbn in Hb; subst w2; [by exists b | apply Hroll; by exists b].
Qed.

Lemma keeps_delete_for_deletion id prefix size version :
  moves (keeps f) (delete_for_deletion (B:=B) id prefix size version).
Proof using laws. apply keeps_bucket_only, delete_for_deletion_bucket_only. Qed.

End frames.

#[export] Hint Resolve keeps_begin keeps_transmit keeps_open keeps_delete_for_deletion : frames.

Section invariant.
Context {B : Type} `{!ObjectStore B} {laws : ObjectStoreLaws B} (maximum_size : Z).

Lemma inv_mark id state error :
  state = ArtifactState.MISSING \/ state = ArtifactState.DIVERGENT ->
  preserves (S:=World B) artifact_inv (_mark_problem id state error).
Proof.
  intros Hs. unfold _mark_problem. apply preserves_bind; [by intros w Hw|]. intros now.
  apply inv_autocommit; [intros n; apply uuid_from_write|].
  apply (inv_write_artifacts (mark now state error id)).
  - intros t. by apply mark_ok.
  - intros t i. apply mark_dom.
Qed.

Lemma inv_head k : preserves artifact_inv (head (B:=B) k).
Proof using laws. apply bucket_only_preserves, pure_bucket_only, head_pure. Qed.
Lemma inv_read k : preserves artifact_inv (read (B:=B) k).
Proof using laws. apply bucket_only_preserves, pure_bucket_only, read_pure. Qed.
Lemma inv_list p : preserves artifact_inv (list_keys (B:=B) p).
Proof using laws. apply bucket_only_preserves, pure_bucket_only, list_pure. Qed.
Lemma inv_delete k : preserves artifact_inv (delete (B:=B) k).
Proof using laws. apply bucket_only_preserves, delete_bucket_only. Qed.
Lemma uuid_head n k : preserves (uuid_from n) (head (B:=B) k).
Proof using laws. apply bucket_only_uuid, pure_bucket_only, head_pure. Qed.
Lemma uuid_delete n k : preserves (uuid_from n) (delete (B:=B) k).
Proof using laws. apply bucket_only_uuid, delete_bucket_only. Qed.

Lemma inv_get id : preserves (S:=World B) artifact_inv (get_artifact id).
Proof. intros w Hw. rewrite get_artifact_run. by destruct (artifacts (db w) !! id). Qed.

Lemma uuid_get n id : preserves (S:=World B) (uuid_from n) (get_artifact id).
Proof. intros w Hw. rewrite get_artifact_run. by destruct (artifacts (db w) !! id). Qed.

Lemma inv_committed_get id : preserves (S:=World B) artifact_inv (autocommit (get_artifact id)).
Proof. apply inv_autocommit; [intros n; apply uuid_get | apply inv_get]. Qed.

Lemma inv_committed_query {A} (f : DB -> A) : preserves (S:=World B) artifact_inv (autocommit (query f)).
Proof. apply inv_autocommit; [intros n; apply uuid_from_query | apply inv_query]. Qed.

Lemma inv_rows_delete id : preserves (S:=World B) artifact_inv (write (fun d => d <| artifacts ::= base.delete id |>)).
Proof.
  apply inv_write_artifacts.
  - intros t Hok. split.
    + intros i a Ha. apply lookup_delete_Some in Ha as [_ Ha]. by apply Hok.
    + intros i a Ha. apply lookup_delete_Some in Ha as [_ Ha]. by eapply (aok_rows _ Hok).
    + intros i k a b Ha Hb. apply lookup_delete_Some in Ha as [_ Ha]. apply lookup_delete_Some in Hb as [_ Hb].
      by apply Hok.
  - intros t i [a Ha]. apply lookup_delete_Some in Ha as [_ Ha]. eauto.
Qed.

#[local] Hint Resolve inv_head inv_read inv_list inv_delete inv_committed_get inv_committed_query inv_get inv_query
  uuid_head uuid_delete uuid_get uuid_from_query uuid_from_write inv_rows_delete : artifact.

Ltac walk := repeat
  match goal with
  | |- forall _, _ => intros ?
  | |- preserves _ (bind _ _) => apply preserves_bind
  | |- preserves _ (try_except _ _) => apply preserves_try
  | |- preserves _ (_mark_problem _ _ _) => apply inv_mark; by eauto
  | |- preserves _ (match ?x with _ => _ end) => destruct x
  | _ => solve [eauto 2 with artifact nfx]
  end.

Lemma inv_open id : preserves artifact_inv (open_verified (B:=B) id).
Proof using laws. unfold open_verified. walk. Qed.

Lemma inv_delete_temporary id cls : preserves artifact_inv (delete_temporary (B:=B) id cls).
Proof using laws.
  unfold delete_temporary. apply inv_autocommit; walk.
Qed.

Lemma inv_delete_for_deletion id prefix size version :
  preserves artifact_inv (delete_for_deletion (B:=B) id prefix size version).
Proof using laws. unfold delete_for_deletion. apply inv_autocommit; walk. Qed.

Lemma inv_reconcile : preserves artifact_inv (reconcile (B:=B)).
Proof using laws.
  unfold reconcile, reconcile_one. walk. apply preserves_fold_each. walk.
Qed.

End invariant.

Section properties.
Context {B : Type} `{!ObjectStore B} {laws : ObjectStoreLaws B} (maximum_size : Z).

(** ** Uploading *)

Lemma finalized_row_ok now m a :
  artifact_row_ok a -> (exists body, om_digest m = sha256 body) -> (0 <= om_size_bytes m)%Z ->
  artifact_row_ok (finalized_row now m m a).
Proof.
  intros (Hk & Hv & _) [body Hd] Hs. split; [exact Hk|]. split; [exact Hv|]. cbn. rewrite Hd.
  split; [apply sha256_hex64|]. split; [done|]. split; [by eexists | by eexists].
Qed.

Lemma transmit_holds id chunks a (w : World B) :
  artifact_inv w -> online w = true -> artifacts (db w) !! id = Some a -> is_pending a = true ->
  match transmit maximum_size id chunks w with
  | (Ok r, w') =>
      exists body, stream_bytes chunks = Some body /\ (slen body <= Z.max 0 maximum_size)%Z /\
        is_finalized r = true /\ art_logical_key r = art_logical_key a /\
        art_digest r = sha256 body /\ art_size_bytes r = Some (slen body) /\
        artifacts (db w') = <[art_id r := r]> (artifacts (db w)) /\
        (art_id r = id -> read_verified id w' = (Ok body, w')) /\
        artifact_inv w'
  | (Err e, w') => is_ArtifactError e = true /\ db w' = db w /\ artifact_inv w'
  end.
Proof using laws.
  intros Hinv Ho Ha Hp. pose proof Hinv as [Hok Hlt].
  assert (art_id a = id) as Hid by (by apply (aok_keyed _ Hok)).
  pose proof (transmit_pending maximum_size id chunks a w Ho Ha Hp Hid) as Ht.
  destruct (write_stream _ _ _ _ w) as [[m|e] w1] eqn:Hw.
  2: { destruct Ht as [Hdb ->]. destruct (write_bucket_only (art_object_key a) chunks (art_declared_mime_type a) maximum_size w) as [b Hb].
       rewrite Hw in Hb. cbn in Hb. subst w1. split; [by destruct (is_ArtifactError e) eqn:He|]. by split. }
  destruct (write_accepted _ _ _ _ _ _ _ Hw) as (body & Hs & Hle & -> & Hh & Hr).
  destruct Ht as (Hdb & Ho1 & Hc1 & Hn1 & ->).
  assert (artifact_inv w1) as Hinv1 by (unfold artifact_inv; by rewrite Hdb, Hn1).
  destruct (key_owned a w) eqn:Hown.
  - destruct (key_owner (art_logical_key a) w) as [x|] eqn:Hx; [|by rewrite Hdb].
    apply key_owner_some in Hx as (Hix & Hfx & Hkx); [|done].
    destruct (same_content x _) eqn:Hsame; [|by rewrite Hdb].
    apply same_content_true in Hsame as [Hd Hsz]. exists body. do 6 (split; [done|]).
    split; [by rewrite Hdb, insert_id|]. split; [|done].
    intros He. rewrite He in Hix. apply pending_not_finalized in Hp. congruence.
  - assert (artifact_row_ok (finalized_row (clock w) (MkObjectMetadata (slen body) (sha256 body) (art_declared_mime_type a))
        (MkObjectMetadata (slen body) (sha256 body) (art_declared_mime_type a)) a)) as Hrow.
    { apply finalized_row_ok; [by eapply (aok_rows _ Hok)|by eexists|]. cbn. unfold slen. lia. }
    exists body. do 6 (split; [done|]). cbn [art_id finalized_row upd]. rewrite Hid.
    split; [done|]. split.
    + intros _. rewrite read_verified_run by done. cbn [db with_artifacts upd artifacts]. unfold put. rewrite lookup_insert_eq.
      replace (is_finalized _) with true by done.
      rewrite (read_local _ _ w1) by done. cbn [art_object_key finalized_row upd]. rewrite Hr. cbn [fst].
      unfold payload_matches. cbn. by rewrite bool_decide_eq_true_2, String.eqb_refl by done.
    + split.
      * eapply put_ok; [done|exact Ha|exact Hid|exact Hrow|].
        intros _ k y Hy Hfy Hky. destruct (decide (k = id)) as [|Hne]; [done|]. exfalso.
        unfold key_owned in Hown. rewrite exists_row_false in Hown. specialize (Hown k y Hy).
        unfold finalized_key in Hown. rewrite Hfy, Hky, (aok_keyed _ Hok _ _ Hy), Hid in Hown. cbn in Hown.
        rewrite String.eqb_refl in Hown. cbn in Hown. apply N.eqb_neq in Hne. by rewrite Hne in Hown.
      * intros i Hi. cbn in Hi |- *. rewrite Hn1. apply Hlt. unfold put in Hi. rewrite lookup_insert in Hi.
        case_decide; subst; [by rewrite Ha | done].
Qed.

Lemma begin_inv cls key mime (w w' : World B) a :
  begin cls key mime w = (Ok a, w') ->
  online w' = true /\ artifacts (db w') !! art_id a = Some a /\ is_pending a = true /\
  artifacts (db w') = put (art_id a) a (artifacts (db w)) /\ art_logical_key a = key /\ bucket w' = bucket w.
Proof. unfold begin, put_artifact. intros H. invert_db. split; [done|]. split; [apply lookup_insert_eq|done]. Qed.

(** Without a finalised rival for its key, the row transmitted is the row begun. *)
Lemma transmit_own id chunks a (w : World B) r w' :
  artifact_inv w -> online w = true -> artifacts (db w) !! id = Some a -> is_pending a = true -> key_owned a w = false ->
  transmit maximum_size id chunks w = (Ok r, w') -> art_id r = id.
Proof using laws.
  intros [Hok _] Ho Ha Hp Hown Ht. assert (art_id a = id) as Hid by (by apply (aok_keyed _ Hok)).
  pose proof (transmit_pending maximum_size id chunks a w Ho Ha Hp Hid) as H. rewrite Hown, Ht in H.
  destruct (write_stream _ _ _ _ w) as [[m|e] w1]; [|by destruct H].
  destruct H as (_ & _ & _ & _ & [= -> _]). exact Hid.
Qed.

(** What was read once is opened later, over the same rows and the same bucket. *)
Lemma open_verified_later id body (w w' : World B) :
  online w = true -> online w' = true -> bucket w' = bucket w -> artifacts (db w') = artifacts (db w) ->
  read_verified id w = (Ok body, w) -> open_verified id w' = (Ok body, w').
Proof using laws.
  intros Ho Ho' Hb Ha. rewrite read_verified_run by done. unfold open_verified, bind. rewrite get_committed, Ha by done.
  destruct (artifacts (db w) !! id) as [a|]; [|by intros [=]]. unfold require. destruct (is_finalized a); [|by intros [=]].
  cbn [ret]. unfold ret at 1. pose proof (read_pure (art_object_key a) w') as Hp.
  rewrite (read_local (art_object_key a) w w') by done.
  destruct (read (art_object_key a) w') as [[[payload|]|e] w2]; cbn in Hp |- *; subst w2; [|by intros [=]..].
  by destruct (payload_matches a payload); intros [= ->].
Qed.

Lemma inv_transmit id chunks : preserves artifact_inv (transmit (B:=B) maximum_size id chunks).
Proof using laws.
  intros w Hw. destruct (online w) eqn:Ho.
  - destruct (artifacts (db w) !! id) as [a|] eqn:Ha.
    + destruct (is_pending a) eqn:Hp.
      * pose proof (transmit_holds id chunks a w Hw Ho Ha Hp) as Ht.
        destruct (transmit maximum_size id chunks w) as [[r|e] w']; [|by apply Ht].
        by destruct Ht as (body & _ & _ & _ & _ & _ & _ & _ & _ & Hinv).
      * unfold transmit, bind. rewrite get_committed, Ha by done. unfold require. by rewrite Hp.
    + unfold transmit, bind. by rewrite get_committed, Ha by done.
  - unfold transmit, bind, autocommit. by rewrite atomic_offline.
Qed.

Lemma inv_begin cls key mime : preserves artifact_inv (begin (B:=B) cls key mime).
Proof.
  intros w Hinv. pose proof Hinv as [Hok Hlt]. unfold begin, require.
  destruct (_ && _ && _); [|done]. destruct (_ && _ && _); [|done].
  unfold bind, ret, uuid4, timezone_now, gets. cbn beta iota zeta.
  set (w1 := w <| next_uuid ::= N.succ |>).
  assert (artifact_inv w1) as Hinv1.
  { split; [done|]. intros i Hi. specialize (Hlt i Hi). cbn. lia. }
  unfold autocommit, atomic. change (online w1) with (online w). destruct (online w); [|done].
  unfold query, gets, throw, put_artifact, write, modify. cbn beta iota zeta.
  destruct (negb _); cbn beta iota zeta; [|exact Hinv1].
  assert (artifacts (db w) !! next_uuid w = None) as Hfresh.
  { destruct (artifacts (db w) !! next_uuid w) eqn:Hx; [|done].
    assert (next_uuid w < next_uuid w)%N by (apply Hlt; eauto). lia. }
  split; cbn.
  - split.
    + intros k x. unfold put. rewrite lookup_insert. case_decide; [by intros [= <-] | apply Hok].
    + intros k x. unfold put. rewrite lookup_insert. case_decide; [intros [= <-]; by repeat split | apply Hok].
    + intros k l x y. unfold put. rewrite !lookup_insert. repeat case_decide; subst; try congruence.
      * by intros [= <-].
      * by intros _ [= <-].
      * apply Hok.
  - intros i. unfold put. rewrite lookup_insert. case_decide; [intros _; lia|]. intros Hi. specialize (Hlt i Hi). lia.
Qed.

(** ** Runs *)

Inductive ArtifactOp : Type :=
| Begin (logical_class logical_key mime : string)
| Transmit (id : N) (chunks : list pyval)
| OpenVerified (id : N)
| ReadVerified (id : N)
| DeleteTemporary (id : N) (logical_class : string)
| DeleteForDeletion (id : N) (prefix : string) (size version : Z)
| Reconcile.

Definition run_artifact_op (op : ArtifactOp) : M B unit :=
  match op with
  | Begin cls key mime => begin cls key mime ;;; ret tt
  | Transmit id chunks => transmit maximum_size id chunks ;;; ret tt
  | OpenVerified id => open_verified id ;;; ret tt
  | ReadVerified id => read_verified id ;;; ret tt
  | DeleteTemporary id cls => delete_temporary id cls
  | DeleteForDeletion id prefix size version => delete_for_deletion id prefix size version
  | Reconcile => reconcile ;;; ret tt
  end.

(** Operations, time, lost connections and whatever happens in the bucket. *)
Inductive artifact_step : World B -> World B -> Prop :=
| as_op op w : artifact_step w (run_artifact_op op w).2
| as_env w t b bk : artifact_step w (w <| clock := t |> <| online := b |> <| bucket := bk |>).

Lemma inv_read_verified id : preserves artifact_inv (read_verified (B:=B) id).
Proof using laws.
  intros w Hw. destruct (online w) eqn:Ho.
  - by rewrite read_verified_run.
  - unfold read_verified, bind, autocommit. by rewrite atomic_offline.
Qed.

Lemma artifact_step_inv w w' : artifact_step w w' -> artifact_inv w -> artifact_inv w'.
Proof using laws.
  intros [op x|x t b bk]; [|done]. intros Hinv.
  destruct op; cbn [run_artifact_op]; try apply preserves_bind; try done;
    try (intros ?; apply preserves_ret).
  - apply inv_begin.
  - apply inv_transmit.
  - by apply inv_open.
  - apply inv_read_verified.
  - by apply inv_delete_temporary.
  - by apply inv_delete_for_deletion.
  - by apply inv_reconcile.
Qed.

End properties.

Section reconciliation.
Context {B : Type} `{!ObjectStore B} {laws : ObjectStoreLaws B}.

(** What the store says about a finalised row, and the row it should become. *)
Definition lost (a : Artifact) (w : World B) : bool :=
  match (head (art_object_key a) w).1 with Ok None => true | _ => false end.

Definition diverged (a : Artifact) (w : World B) : bool :=
  match (head (art_object_key a) w).1 with Ok (Some m) => negb (same_content a m) | _ => false end.

Definition verdict (w : World B) (a : Artifact) : Artifact :=
  if lost a w then marked (clock w) ArtifactState.MISSING "Object missing from storage" a
  else if diverged a w then marked (clock w) ArtifactState.DIVERGENT "Object integrity diverged" a
  else a.

Definition store_reachable (w : World B) : Prop :=
  (forall k, is_ok (head k w).1 = true) /\ forall p, is_ok (list_keys p w).1 = true.

Lemma mark_problem_run id state error a (w : World B) :
  online w = true -> artifacts (db w) !! id = Some a -> is_finalized a = true ->
  _mark_problem id state error w =
  (Ok tt, with_artifacts (<[id := marked (clock w) state error a]> (artifacts (db w))) w).
Proof.
  destruct w as [d now nu on cs b]. cbn [online db]. intros -> Ha Hf.
  unfold _mark_problem, autocommit, atomic. exec. by rewrite Ha, Hf.
Qed.

Lemma reconcile_one_run counts a (w : World B) :
  online w = true -> is_ok (head (art_object_key a) w).1 = true ->
  artifacts (db w) !! art_id a = Some a -> is_finalized a = true ->
  exists w', reconcile_one counts a w =
      (Ok ((if lost a w then S counts.1 else counts.1), (if diverged a w then S counts.2 else counts.2)), w') /\
    w' = with_artifacts (<[art_id a := verdict w a]> (artifacts (db w))) w.
Proof using laws.
  intros Ho Hh Ha Hf. unfold reconcile_one, verdict, lost, diverged, bind.
  pose proof (head_pure (art_object_key a) w) as Hp.
  assert (with_artifacts (<[art_id a := a]> (artifacts (db w))) w = w) as Hsame.
  { destruct w as [[] ?????]. cbn in Ha |- *. rewrite insert_id by done. done. }
  destruct (head (art_object_key a) w) as [[[m|]|e] w1]; cbn in Hp, Hh |- *; subst w1; [| |done].
  - destruct (same_content a m); cbn; [exists w; rewrite Hsame; by destruct counts|].
    rewrite (mark_problem_run _ _ _ a) by done. by eexists.
  - rewrite (mark_problem_run _ _ _ a) by done. by eexists.
Qed.

Definition count_if (p : Artifact -> bool) (l : list Artifact) : nat := length (List.filter p l).

Lemma reconcile_fold l counts (w : World B) :
  online w = true -> store_reachable w -> NoDup (map art_id l) ->
  (forall a, a ∈ l -> artifacts (db w) !! art_id a = Some a /\ is_finalized a = true) ->
  exists w', fold_each l reconcile_one counts w =
      (Ok ((counts.1 + count_if (fun a => lost a w) l)%nat, (counts.2 + count_if (fun a => diverged a w) l)%nat), w') /\
    (exists t, w' = with_artifacts t w) /\
    (forall a, a ∈ l -> artifacts (db w') !! art_id a = Some (verdict w a)) /\
    (forall i, i ∉ map art_id l -> artifacts (db w') !! i = artifacts (db w) !! i).
Proof using laws.
  revert counts w. induction l as [|a l IH]; intros counts w Ho Hreach Hnd Hin; cbn [fold_each map].
  - exists w. split; [unfold ret; destruct counts; cbn; by rewrite !Nat.add_0_r|].
    split; [exists (artifacts (db w)); by destruct w as [[] ?????]|]. split; [|done].
    intros a Ha. by apply not_elem_of_nil in Ha.
  - apply NoDup_cons in Hnd as [Hna Hnd]. destruct (Hin a) as [Ha Hf]; [left|].
    destruct (reconcile_one_run counts a w Ho (proj1 Hreach _) Ha Hf) as (w1 & Hrun & Hw1).
    assert (bucket w1 = bucket w) as Hb by (by subst w1).
    assert (forall k, (head k w1).1 = (head k w).1) as Hheads by (intros k; by apply head_local).
    destruct (IH ((if lost a w then S counts.1 else counts.1), (if diverged a w then S counts.2 else counts.2)) w1)
      as (w2 & Hfold & [t Ht] & Hrows & Hrest).
    + by subst w1.
    + split; [intros k; rewrite Hheads; apply Hreach|]. intros p. subst w1.
      rewrite <-(list_local p w) by done. apply Hreach.
    + done.
    + intros x Hx. subst w1. cbn. rewrite lookup_insert_ne; [apply Hin; by right|].
      intros He. apply Hna. rewrite He. apply list_elem_of_fmap. eauto.
    + exists w2. split.
      { unfold bind. rewrite Hrun, Hfold. cbn [fst snd]. unfold count_if. cbn [List.filter].
        assert (forall x, lost x w1 = lost x w) as Hlost by (intros x; unfold lost; by rewrite Hheads).
        assert (forall x, diverged x w1 = diverged x w) as Hdiv by (intros x; unfold diverged; by rewrite Hheads).
        rewrite (List.filter_ext _ _ Hlost), (List.filter_ext _ _ Hdiv).
        destruct (lost a w), (diverged a w); cbn; repeat f_equal; lia. }
      split; [exists t; by subst w1 w2|]. split.
      * intros x [->|Hx]%elem_of_cons.
        -- rewrite Hrest by done. subst w1. cbn. by rewrite lookup_insert_eq.
        -- rewrite (Hrows x Hx). unfold verdict, lost, diverged. rewrite !Hheads. by subst w1.
      * intros i Hi. apply not_elem_of_cons in Hi as [Hia Hi]. rewrite Hrest by done. subst w1. cbn.
        by rewrite lookup_insert_ne.
Qed.

End reconciliation.

(** ** The guarantees *)

Lemma artifact_inv_empty {B} (w : World B) : artifacts (db w) = ∅ -> artifact_inv w.
Proof.
  intros He. split; [rewrite He; split; intros ? ?; by rewrite lookup_empty|].
  intros i [x Hx]. by rewrite He, lookup_empty in Hx.
Qed.

Section guarantees.
Context {B : Type} `{!ObjectStore B} {laws : ObjectStoreLaws B}.

(** C32 Upload round trip: transmitting to a pending artifact either fails with an
    artifact error and leaves the database untouched (nothing half-written is
    ever visible), or returns a finalised artifact of the same logical key whose
    recorded digest and size are those of exactly the bytes sent, at most the
    size limit; when that is the artifact itself, reading it back verifies and
    returns those bytes. *)
Theorem transmit_roundtrip (limit : Z) (id : N) (chunks : list pyval) (a : Artifact) (w : World B) :
  artifact_inv w -> online w = true -> artifacts (db w) !! id = Some a -> is_pending a = true ->
  match transmit limit id chunks w with
  | (Ok r, w') =>
      exists body, stream_bytes chunks = Some body /\ (slen body <= Z.max 0 limit)%Z /\
        is_finalized r = true /\ art_logical_key r = art_logical_key a /\
        art_digest r = sha256 body /\ art_size_bytes r = Some (slen body) /\
        artifacts (db w') = <[art_id r := r]> (artifacts (db w)) /\
        (art_id r = id -> read_verified id w' = (Ok body, w')) /\
        artifact_inv w'
  | (Err e, w') => is_ArtifactError e = true /\ db w' = db w /\ artifact_inv w'
  end.
Proof using laws. apply transmit_holds. Qed.

(** A logical key has one content: when another artifact is already finalised
    under the key, an accepted upload never replaces it - it answers that very
    artifact when the bytes are the same and [ArtifactConflict] when they
    differ - and the artifact table does not change. *)
Theorem transmit_conflict (limit : Z) (id : N) (chunks : list pyval) (a x : Artifact) (k : N) (w w1 : World B)
    (m : ObjectMetadata) :
  artifact_inv w -> online w = true -> artifacts (db w) !! id = Some a -> is_pending a = true ->
  artifacts (db w) !! k = Some x -> is_finalized x = true -> art_logical_key x = art_logical_key a ->
  write_stream (art_object_key a) chunks (art_declared_mime_type a) limit w = (Ok m, w1) ->
  transmit limit id chunks w =
    (if same_content x m then Ok x else Err conflict, w1) /\ db w1 = db w.
Proof using laws.
  intros Hinv Ho Ha Hp Hx Hfx Hkey Hw. pose proof Hinv as [Hok _].
  pose proof (transmit_pending limit id chunks a w Ho Ha Hp (aok_keyed _ Hok _ _ Ha)) as Ht.
  rewrite Hw in Ht. destruct Ht as (Hdb & _ & _ & _ & ->). split; [|done].
  assert (art_id x <> art_id a) as Hne.
  { rewrite (aok_keyed _ Hok _ _ Hx), (aok_keyed _ Hok _ _ Ha). intros ->.
    apply pending_not_finalized in Hp. congruence. }
  assert (key_owned a w = true) as ->.
  { apply exists_row_true. exists k, x. split; [done|]. unfold finalized_key.
    rewrite Hfx, Hkey, String.eqb_refl. apply N.eqb_neq in Hne. by rewrite Hne. }
  destruct (key_owner (art_logical_key a) w) as [y|] eqn:Hy.
  - apply key_owner_some in Hy as (Hy & Hfy & Hky); [|done].
    assert (y = x) as ->; [|by destruct (same_content x m)].
    assert (art_id y = k) as <- by (eapply (aok_one _ Hok); [exact Hy|exact Hx|done|done|congruence]). congruence.
  - apply first_by_None in Hy.
    assert (x ∈ select (finalized_key (art_logical_key a)) (artifacts (db w))) as Hin.
    { apply elem_of_select. split; [unfold finalized_key; by rewrite Hkey, Hfx, String.eqb_refl | eauto]. }
    rewrite Hy in Hin. by apply not_elem_of_nil in Hin.
Qed.

(** Verified reading: [read_verified] changes nothing, and whatever the object
    store answers - stale, truncated or forged - the bytes it returns are those
    of a finalised artifact: their length and SHA-256 are the recorded ones. *)
Theorem read_verified_sound (id : N) (w : World B) :
  (read_verified id w).2 = w /\
  forall payload, (read_verified id w).1 = Ok payload ->
    exists a, artifacts (db w) !! id = Some a /\ is_finalized a = true /\
      art_size_bytes a = Some (slen payload) /\ art_digest a = sha256 payload.
Proof using laws.
  destruct (online w) eqn:Ho.
  2: { unfold read_verified, bind, autocommit. by rewrite atomic_offline. }
  rewrite read_verified_run by done. split; [done|]. intros payload. cbn.
  destruct (artifacts (db w) !! id) as [a|]; [|done]. destruct (is_finalized a) eqn:Hf; [|done].
  destruct (read _ _).1 as [[p|]|e]; [|done..]. destruct (payload_matches a p) eqn:Hm; [|done].
  intros [= ->]. exists a. split; [done|]. split; [done|].
  unfold payload_matches in Hm. bools. split; [done|]. by apply String.eqb_eq in H0.
Qed.

(** The artifact table is well formed in every reachable world: whatever
    sequence of uploads, reads, deletions and reconciliations runs, and whatever
    happens to the bucket meanwhile, every row beyond pending records a SHA-256
    digest, a size and a finalisation time, pending rows record nothing yet, the
    object key is the opaque one of the row, and at most one artifact is
    finalised per logical key. *)
Theorem artifacts_invariant (limit : Z) (w w' : World B) :
  artifacts (db w) = ∅ -> rtc (artifact_step limit) w w' -> artifact_inv w'.
Proof using laws.
  intros He Hr. assert (artifact_inv w) as Hinv by (by apply artifact_inv_empty).
  clear He. induction Hr as [|x y z Hxy _ IH]; [done|]. by apply IH, (artifact_step_inv limit x).
Qed.

(** Reconciliation is exact: with the database and the store reachable, after
    [reconcile] every finalised artifact the store no longer has is marked
    missing, every one whose size or digest there differs is marked divergent,
    every other artifact is as it was, and the report counts exactly those, the
    pending rows and the objects no row refers to. *)
Theorem reconcile_exact (w : World B) :
  artifact_inv w -> online w = true -> store_reachable w ->
  exists w' keys, list_keys object_prefix w = (Ok keys, w) /\
    reconcile w = (Ok (MkReconciliation (count_state ArtifactState.PENDING (db w))
                         (count_if (fun a => lost a w) (select is_finalized (artifacts (db w))))
                         (count_if (fun a => diverged a w) (select is_finalized (artifacts (db w))))
                         (orphans (referenced_keys (db w)) keys)), w') /\
    (forall i a, artifacts (db w) !! i = Some a ->
       artifacts (db w') !! i = Some (if is_finalized a then verdict w a else a)) /\
    (forall i, artifacts (db w) !! i = None -> artifacts (db w') !! i = None).
Proof using laws.
  intros [Hok _] Ho Hreach. set (l := select is_finalized (artifacts (db w))).
  assert (forall a, a ∈ l <-> is_finalized a = true /\ artifacts (db w) !! art_id a = Some a) as Hl.
  { intros a. unfold l. rewrite elem_of_select. split; intros [Hf Hi]; (split; [done|]); [|eauto].
    destruct Hi as [i Hi]. by rewrite (aok_keyed _ Hok i a Hi). }
  destruct (reconcile_fold l (0, 0)%nat w Ho Hreach) as (w' & Hfold & _ & Hrows & Hrest).
  { apply NoDup_fmap_2_strong; [|by eapply NoDup_select, aok_keyed].
    intros x y [_ Hx]%Hl [_ Hy]%Hl He. rewrite He in Hx. congruence. }
  { intros a Ha. by apply Hl in Ha as [? ?]. }
  pose proof (list_pure object_prefix w) as Hp. pose proof (proj2 Hreach object_prefix) as Hlo.
  destruct (list_keys object_prefix w) as [[keys|e] w1] eqn:Hk; cbn in Hp, Hlo; [|done]. subst w1.
  exists w', keys. split; [done|]. split.
  - unfold reconcile, bind. rewrite committed_query by done. rewrite Hk.
    do 2 (rewrite committed_query by done). cbn beta iota. fold l. by rewrite Hfold.
  - split.
    + intros i a Ha. pose proof (aok_keyed _ Hok i a Ha) as <-. destruct (is_finalized a) eqn:Hf.
      * apply Hrows, Hl. by split.
      * rewrite Hrest; [done|]. intros Hin. apply list_elem_of_fmap in Hin as (x & He & [Hfx Hx]%Hl).
        rewrite <-He in Hx. congruence.
    + intros i Hi. rewrite Hrest; [done|]. intros Hin. apply list_elem_of_fmap in Hin as (x & He & [Hfx Hx]%Hl).
      rewrite <-He in Hx. congruence.
Qed.

(** Guarded deletion: [delete_for_deletion] never changes the database; it
    reports success only after the artifact was finalised with the expected
    version, size and digest prefix and the stored object still had the recorded
    size and digest, and then the object is gone; when it reports the object
    missing or divergent, the bucket is untouched too. *)
Theorem delete_for_deletion_guarded (id : N) (prefix : string) (size version : Z) (w : World B) :
  let r := delete_for_deletion id prefix size version w in
  db r.2 = db w /\
  (r.1 = Ok tt ->
     exists a m, artifacts (db w) !! id = Some a /\ is_finalized a = true /\ art_version a = version /\
       art_size_bytes a = Some size /\ starts_with prefix (art_digest a) = true /\
       head (art_object_key a) w = (Ok (Some m), w) /\ same_content a m = true /\
       head (art_object_key a) r.2 = (Ok None, r.2)) /\
  (r.1 = Err ArtifactDeletionMissing \/ r.1 = Err ArtifactDeletionDivergent -> r.2 = w).
Proof using laws.
  cbn zeta. unfold delete_for_deletion, atomic. destruct (online w) eqn:Ho; [|by repeat split].
  assert (w <| db := db w |> = w) as Hsame by (by destruct w).
  unfold bind, query, gets, require. destruct (artifacts (db w) !! id) as [a|] eqn:Ha; cbn beta iota zeta;
    [|unfold throw; rewrite Hsame; by repeat split].
  destruct (is_finalized a && _ && _ && _) eqn:Hg; cbn beta iota zeta; unfold ret, throw; cbn beta iota zeta;
    [|rewrite Hsame; by repeat split].
  pose proof (head_pure (art_object_key a) w) as Hp. unfold try_except.
  destruct (head (art_object_key a) w) as [[[m|]|e] w1] eqn:Hh; cbn in Hp; subst w1; cbn beta iota zeta.
  2: rewrite Hsame; by repeat split.
  2: rewrite Hsame; by repeat split.
  destruct (same_content a m) eqn:Hm; cbn beta iota zeta; [|rewrite Hsame; by repeat split].
  destruct (delete_bucket_only (art_object_key a) w) as [b Hb].
  destruct (delete (art_object_key a) w) as [[[]|e] w2] eqn:Hd; cbn in Hb; subst w2; cbn [fst snd].
  - split; [done|]. split; [|by intros [?|?]]. intros _. exists a, m. bools.
    do 2 (split; [done|]). do 2 (split; [lia || done|]). split; [done|]. split; [done|]. split; [done|].
    by apply (delete_gone _ w).
  - split; [done|]. split; [done|]. by intros [?|?].
Qed.

End guarantees.
