(* ===== verification/ArtifactRuns.v ===== *)
(** * A concrete run of artifact storage

    Two artifacts under one key are begun over the S3 adapter and an in-memory
    bucket; one is uploaded, read, diverges and is deleted; each theorem of
    [ArtifactFacts] is applied along the run. *)

From Stdlib Require Import ZArith Ascii String Lia.
From stdpp Require Import base decidable list gmap strings relations.
From S2P Require Import Prelude PyStr Sha256 PyVal Models Artifacts ArtifactFacts.

Local Open Scope string_scope.

Definition limit : Z := DEFAULT_MAX_SIZE_BYTES.

Definition a_start : World MemoryBucket.t := MemoryBucket.world empty_db (seconds 5) 1.

Definition a_begun : World MemoryBucket.t :=
  (run_artifact_op limit (Begin "fiscal_xml" "nfe:35-7" "application/xml")
    (run_artifact_op limit (Begin "fiscal_xml" "nfe:35-7" "application/xml") a_start).2).2.

Definition sample_chunks : list pyval := [VBytes "<nfe>"; VBytes "7</nfe>"].

Definition a_uploaded : World MemoryBucket.t := (run_artifact_op limit (Transmit 1 sample_chunks) a_begun).2.

Definition pending_artifact (id : N) : Artifact :=
  new_artifact id (seconds 5) "fiscal_xml" "nfe:35-7" "application/xml".

Definition sample_metadata : ObjectMetadata :=
  MkObjectMetadata 12 (sha256 "<nfe>7</nfe>") "application/xml".

Definition stored_artifact : Artifact :=
  finalized_row (seconds 5) sample_metadata sample_metadata (pending_artifact 1).

Lemma inv_start : artifact_inv a_start.
Proof. by apply artifact_inv_empty. Qed.

Lemma inv_op op (w : World MemoryBucket.t) : artifact_inv w -> artifact_inv (run_artifact_op limit op w).2.
Proof. apply (artifact_step_inv limit w). apply as_op. Qed.

Lemma inv_begun : artifact_inv a_begun.
Proof. unfold a_begun. do 2 apply inv_op. exact inv_start. Qed.

Lemma inv_uploaded : artifact_inv a_uploaded.
Proof. unfold a_uploaded. apply inv_op. exact inv_begun. Qed.

Lemma row_begun : artifacts (db a_begun) !! 1%N = Some (pending_artifact 1).
Proof. vm_compute. reflexivity. Qed.

Lemma row_uploaded : artifacts (db a_uploaded) !! 1%N = Some stored_artifact.
Proof. vm_compute. reflexivity. Qed.

Lemma transmit_roundtrip_witness :
  artifacts (db a_begun) !! 1%N = Some (pending_artifact 1) /\
  match transmit limit 1 sample_chunks a_begun with
  | (Ok r, w') =>
      exists body, stream_bytes sample_chunks = Some body /\ (slen body <= Z.max 0 limit)%Z /\
        is_finalized r = true /\ art_logical_key r = art_logical_key (pending_artifact 1) /\
        art_digest r = sha256 body /\ art_size_bytes r = Some (slen body) /\
        artifacts (db w') = <[art_id r := r]> (artifacts (db a_begun)) /\
        (art_id r = 1%N -> read_verified 1 w' = (Ok body, w')) /\
        artifact_inv w'
  | (Err e, w') => is_ArtifactError e = true /\ db w' = db a_begun /\ artifact_inv w'
  end.
Proof.
  split; [exact row_begun|].
  apply (transmit_roundtrip limit 1 sample_chunks (pending_artifact 1) a_begun);
    [exact inv_begun | reflexivity | exact row_begun | reflexivity].
Defined.

(** The second artifact of the key, other bytes. *)
Definition a_second : World MemoryBucket.t :=
  (write_stream (object_key_of 2) [VBytes "other"] "application/xml" limit a_uploaded).2.

Definition other_metadata : ObjectMetadata := MkObjectMetadata 5 (sha256 "other") "application/xml".

Lemma transmit_conflict_witness :
  same_content stored_artifact other_metadata = false /\
  transmit limit 2 [VBytes "other"] a_uploaded =
    (if same_content stored_artifact other_metadata then Ok stored_artifact else Err conflict, a_second) /\
  db a_second = db a_uploaded.
Proof.
  split; [vm_compute; reflexivity|].
  apply (transmit_conflict limit 2 [VBytes "other"] (pending_artifact 2) stored_artifact 1 a_uploaded a_second other_metadata);
    [exact inv_uploaded | reflexivity | vm_compute; reflexivity | reflexivity | exact row_uploaded | reflexivity
    | reflexivity | vm_compute; reflexivity].
Defined.

Lemma read_verified_sound_witness :
  (read_verified 1 a_uploaded).1 = Ok "<nfe>7</nfe>" /\
  (read_verified 1 a_uploaded).2 = a_uploaded /\
  forall payload, (read_verified 1 a_uploaded).1 = Ok payload ->
    exists a, artifacts (db a_uploaded) !! 1%N = Some a /\ is_finalized a = true /\
      art_size_bytes a = Some (slen payload) /\ art_digest a = sha256 payload.
Proof. split; [vm_compute; reflexivity|]. exact (read_verified_sound 1 a_uploaded). Defined.

Lemma artifacts_invariant_witness : is_Some (artifacts (db a_uploaded) !! 1%N) /\ artifact_inv a_uploaded.
Proof.
  split; [exists stored_artifact; exact row_uploaded|].
  apply (artifacts_invariant limit a_start a_uploaded); [reflexivity|].
  unfold a_uploaded, a_begun. eapply rtc_l; [apply as_op|]. eapply rtc_l; [apply as_op|]. apply rtc_once. apply as_op.
Defined.

(** Somebody empties the bucket. *)
Definition a_emptied : World MemoryBucket.t := a_uploaded <| bucket := ∅ |>.

Lemma reachable_memory (w : World MemoryBucket.t) : store_reachable w.
Proof.
  split; [|done]. intros k. cbn. unfold s3_head. run. cbn.
  by destruct ((bucket w : gmap string MemoryBucket.object) !! k).
Qed.

Lemma reconcile_exact_witness :
  lost stored_artifact a_emptied = true /\
  exists w' keys, list_keys object_prefix a_emptied = (Ok keys, a_emptied) /\
    reconcile a_emptied = (Ok (MkReconciliation (count_state ArtifactState.PENDING (db a_emptied))
                         (count_if (fun a => lost a a_emptied) (select is_finalized (artifacts (db a_emptied))))
                         (count_if (fun a => diverged a a_emptied) (select is_finalized (artifacts (db a_emptied))))
                         (orphans (referenced_keys (db a_emptied)) keys)), w') /\
    (forall i a, artifacts (db a_emptied) !! i = Some a ->
       artifacts (db w') !! i = Some (if is_finalized a then verdict a_emptied a else a)) /\
    (forall i, artifacts (db a_emptied) !! i = None -> artifacts (db w') !! i = None).
Proof.
  split; [vm_compute; reflexivity|].
  apply (reconcile_exact a_emptied); [exact inv_uploaded | reflexivity | apply reachable_memory].
Defined.

Lemma delete_for_deletion_guarded_witness :
  let r := delete_for_deletion 1 (stake 12 (sha256 "<nfe>7</nfe>")) 12 1 a_uploaded in
  r.1 = Ok tt /\
  db r.2 = db a_uploaded /\
  (r.1 = Ok tt ->
     exists a m, artifacts (db a_uploaded) !! 1%N = Some a /\ is_finalized a = true /\ art_version a = 1%Z /\
       art_size_bytes a = Some 12%Z /\ starts_with (stake 12 (sha256 "<nfe>7</nfe>")) (art_digest a) = true /\
       head (art_object_key a) a_uploaded = (Ok (Some m), a_uploaded) /\ same_content a m = true /\
       head (art_object_key a) r.2 = (Ok None, r.2)) /\
  (r.1 = Err ArtifactDeletionMissing \/ r.1 = Err ArtifactDeletionDivergent -> r.2 = a_uploaded).
Proof.
  split; [vm_compute; reflexivity|].
  exact (delete_for_deletion_guarded 1 (stake 12 (sha256 "<nfe>7</nfe>")) 12 1 a_uploaded).
Defined.
