(* ===== verification/Documents.v ===== *)
(** * Fiscal document persistence (documents/services.py, documents/models.py)

    Validation and identity of a received document or event, its persistence
    with original evidence, replay and conflict detection, and the audit record
    of each decision. *)

From Stdlib Require Import ZArith Ascii String Lia.
From stdpp Require Import base decidable list gmap strings.
From S2P Require Import Prelude PyStr PyVal Models AuditTrail.

Local Open Scope string_scope.

Definition reference_char (c : ascii) : bool := is_alpha c || is_digit c || char_in "_.:/-" c.

Definition _SAFE_REFERENCE (s : string) : bool := re_rep reference_char 1 128 s.

Definition _IDENTIFIER (s : string) : bool := re_rep (fun c => is_upper c || is_digit c) 1 255 s.

Module DocumentPersistenceStatus.
Variant t : Set := PERSISTED | REPLAY | QUARANTINE | CONFLICT.
#[global] Instance eq_dec : EqDecision t.
Proof. solve_decision. Defined.
Definition value (x : t) : string :=
  match x with
  | PERSISTED => "persisted" | REPLAY => "replay" | QUARANTINE => "quarantine" | CONFLICT => "conflict"
  end.
End DocumentPersistenceStatus.

Record FiscalIdentity : Type := MkFiscalIdentity {
  fi_official_key : option string; fi_external_id : option string; fi_number : option string;
  fi_series : option string; fi_issuer_tax_id : option string }.

Record IdentitySelection : Type := MkIdentitySelection { is_kind : string; is_value : string }.

Record DocumentInput : Type := MkDocumentInput {
  di_company_id : uuid_ref;
  di_family : string;
  di_role : string;
  di_category : string;
  di_source : string;
  di_flow : string;
  di_identity : FiscalIdentity;
  di_emitted_at : datetime;
  di_artifact_id : uuid_ref;
  di_origin_execution_ref : string;
  di_authorized_at : option datetime;
  di_situation : string;
  di_correlation_id : string;
  di_kind : string;
  di_parent_document_id : option uuid_ref;
  di_relationship_type : option string }.

Record DocumentPersistenceResult : Type := MkPersistenceResult {
  pr_status : DocumentPersistenceStatus.t;
  pr_document_id : option N;
  pr_event_id : option N;
  pr_evidence_id : option N;
  pr_reason_code : option string }.

Record EvidenceAttachmentResult : Type := MkAttachment {
  ea_status : DocumentPersistenceStatus.t; ea_evidence_id : N }.

Definition invalid {A} (msg : string) : result exn A := Err (InvalidDocumentInput msg).

(** ** Validation and identity: no database *)

Definition _validate_reference (value : string) : result exn string :=
  if _SAFE_REFERENCE value then Ok value else invalid "Document reference is invalid".

(** [value in {choice.value for choice in ...}] *)
Definition is_choice {A} (of_value : string -> option A) (s : string) : bool := is_some (of_value s).

Definition is_event_kind (kind : string) : bool := String.eqb kind "event" || String.eqb kind "substitution".

(** [derive_competence(emitted_at)] and the authorisation instant. *)
Definition validate_times (data : DocumentInput) : result exn unit :=
  if is_naive (di_emitted_at data) then invalid "Fiscal timestamps require timezone awareness"
  else match di_authorized_at data with
       | None => Ok tt
       | Some t =>
           if is_naive t then invalid "Fiscal timestamps require timezone awareness"
           else if Z.ltb (instant t) (instant (di_emitted_at data))
           then invalid "Authorization precedes emission" else Ok tt
       end.

Definition validate_parent (data : DocumentInput) : result exn unit :=
  if is_event_kind (di_kind data) then
    match di_parent_document_id data with
    | None => invalid "Event parent is required"
    | Some p =>
        if negb (is_some (uuid_of p)) then invalid "Event parent is invalid"
        else match di_relationship_type data with
             | Some r => if is_choice DocumentRelationship.of_value r then Ok tt
                         else invalid "Event relationship is unsupported"
             | None => invalid "Event relationship is unsupported"
             end
    end
  else if is_some (di_parent_document_id data) || is_some (di_relationship_type data)
  then invalid "Document parent relationship is unsupported"
  else Ok tt.

(** [data.validate()] *)
Definition validate (data : DocumentInput) : result exn unit :=
  if negb (is_some (uuid_of (di_company_id data)) && is_some (uuid_of (di_artifact_id data)))
  then invalid "Document references are invalid"
  else if negb (is_choice DocumentFamily.of_value (di_family data)) then invalid "Document family is unsupported"
  else if negb (String.eqb (di_kind data) "document" || is_event_kind (di_kind data))
  then invalid "Document kind is unsupported"
  else if negb (forallb _SAFE_REFERENCE [di_role data; di_category data; di_source data; di_flow data;
                                         di_origin_execution_ref data])
  then invalid "Document reference is invalid"
  else if str_nonempty (di_correlation_id data) && negb (_SAFE_REFERENCE (di_correlation_id data))
  then invalid "Document reference is invalid"
  else match validate_times data with
       | Err e => Err e
       | Ok _ =>
           if negb (is_choice DocumentSituation.of_value (di_situation data))
           then invalid "Document situation is unsupported"
           else validate_parent data
       end.

Definition _normalize_identifier (value label : string) : result exn string :=
  let normalized := sfilter is_alnum (upper value) in
  if _IDENTIFIER normalized then Ok normalized else invalid (label ++ " identity is invalid").

(** [if identity.x:] *)
Definition present (o : option string) : option string :=
  match o with Some s => if str_nonempty s then Some s else None | None => None end.

Definition insufficient : string := "Fiscal identity is insufficient".

Definition select_strongest_identity (identity : FiscalIdentity) : result exn IdentitySelection :=
  match present (fi_official_key identity) with
  | Some k =>
      match _normalize_identifier k "Official" with
      | Ok v => Ok (MkIdentitySelection "official_key" v) | Err e => Err e
      end
  | None =>
      match present (fi_external_id identity) with
      | Some k =>
          match _normalize_identifier k "External" with
          | Ok v => Ok (MkIdentitySelection "external_id" v) | Err e => Err e
          end
      | None =>
          match present (fi_number identity), present (fi_series identity), present (fi_issuer_tax_id identity) with
          | Some n, Some s, Some i =>
              match _normalize_identifier n "Number" with
              | Err e => Err e
              | Ok n' =>
                  match _normalize_identifier s "Series" with
                  | Err e => Err e
                  | Ok s' =>
                      match _normalize_identifier i "Issuer" with
                      | Err e => Err e
                      | Ok i' => Ok (MkIdentitySelection "number_series_issuer" (join "|" [n'; s'; i']))
                      end
                  end
              end
          | _, _, _ => invalid insufficient
          end
      end
  end.

Definition _identity_key (company_id : N) (data : DocumentInput) (selection : IdentitySelection) : result exn string :=
  let value := join "|" [uuid_str company_id; di_family data; di_role data; di_category data; di_source data;
                         di_flow data; is_kind selection; is_value selection] in
  if Nat.ltb 1024 (String.length value) then invalid "Fiscal identity context is too long" else Ok value.

Definition event_identity_key (parent_id : N) (data : DocumentInput) (selection : IdentitySelection) : result exn string :=
  let value := join "|" ["event"; uuid_str parent_id; di_family data; di_role data; di_category data; di_source data;
                         di_flow data; is_kind selection; is_value selection] in
  if Nat.ltb 1024 (String.length value) then invalid "Fiscal event identity context is too long" else Ok value.

(** Column widths. *)
Definition wide (n : nat) (s : string) : bool := Nat.leb (String.length s) n.

Definition document_fits (d : Document) : bool :=
  wide 8 (doc_family d) && wide 16 (doc_role d) && wide 32 (doc_category d) && wide 64 (doc_source d) &&
  wide 64 (doc_flow d) && wide 32 (doc_identity_kind d) && wide 255 (doc_normalized_identity d) &&
  wide 1024 (doc_identity_key d) && wide 16 (doc_situation d) && wide 128 (doc_origin_execution_ref d) &&
  wide 128 (doc_correlation_id d).

Definition event_fits (e : DocumentEvent) : bool :=
  wide 8 (de_family e) && wide 16 (de_role e) && wide 32 (de_category e) && wide 64 (de_source e) &&
  wide 64 (de_flow e) && wide 32 (de_identity_kind e) && wide 255 (de_normalized_identity e) &&
  wide 1024 (de_identity_key e) && wide 16 (de_situation e) && wide 16 (de_relationship_type e) &&
  wide 128 (de_origin_execution_ref e) && wide 128 (de_correlation_id e).

(** ** The service *)

Section service.
Context {B : Type} `{!External B}.

(** [timezone.localtime(emitted_at).date()], as a day number. *)
Definition derive_competence (emitted_at : datetime) : M B Z :=
  if is_naive emitted_at then throw (InvalidDocumentInput "Fiscal timestamps require timezone awareness")
  else ret (Z.div (instant emitted_at + local_offset (instant emitted_at)) (days 1)).

(** An artifact that may serve as original evidence. *)
Definition original_artifact (a : Artifact) : bool :=
  bool_decide (art_state a = ArtifactState.FINALIZED) && str_nonempty (art_digest a) && is_hex64 (art_digest a) &&
  match art_size_bytes a with Some n => Z.leb 0 n | None => false end.

Definition unavailable : exn := InvalidDocumentInput "Original artifact is unavailable".

Definition _artifact (artifact_id : uuid_ref) : M B Artifact :=
  let* id := of_option (uuid_of artifact_id) ValidationError in
  let* row := autocommit (query (fun d => artifacts d !! id)) in
  let* artifact := of_option row unavailable in
  require (original_artifact artifact) unavailable ;;;
  ret artifact.

Definition _artifact_size (artifact : Artifact) : M B Z := of_option (art_size_bytes artifact) unavailable.

Definition _audit (action : string) (result : DocumentPersistenceStatus.t) (entity_type : string)
    (entity_id : option N) (correlation_id : string) (reason_code : option string) (data : DocumentInput)
    (digest : option string) : M B unit :=
  append (MkAuditInput action entity_type (DocumentPersistenceStatus.value result) None "" None
            (match entity_id with Some i => uuid_str i | None => "" end)
            (opt_default "" reason_code) (str_or (di_correlation_id data) correlation_id)
            [("family", VStr (di_family data)); ("source", VStr (di_source data)); ("flow", VStr (di_flow data));
             ("status", VStr (DocumentPersistenceStatus.value result));
             ("artifact_digest_prefix", VStr (stake 16 (opt_default "" digest)))]) ;;;
  ret tt.

Definition create_document (d : Document) : M B unit :=
  require (document_fits d) DataError ;;;
  let* taken := query (fun x => exists_row (fun y => String.eqb (doc_identity_key y) (doc_identity_key d)) (documents x) ||
                                negb (is_some (companies x !! doc_company d))) in
  require (negb taken) IntegrityError ;;;
  write (fun x => x <| documents ::= put (doc_id d) d |>).

Definition create_evidence (document artifact : N) (digest : string) (size_bytes : Z) (conflicting : bool) : M B DocumentEvidence :=
  let* id := uuid4 in
  let* now := timezone_now in
  let e := MkDocumentEvidence id document artifact digest size_bytes conflicting now in
  let* taken := query (fun x => exists_row (fun y => N.eqb (ev_document y) document && N.eqb (ev_artifact y) artifact)
                                  (evidence x)) in
  require (negb taken) IntegrityError ;;;
  write (fun x => x <| evidence ::= put id e |>) ;;;
  ret e.

Definition create_event_row (e : DocumentEvent) : M B unit :=
  require (event_fits e) DataError ;;;
  let* taken := query (fun x => exists_row (fun y => String.eqb (de_identity_key y) (de_identity_key e)) (events x)) in
  require (negb taken) IntegrityError ;;;
  write (fun x => x <| events ::= put (de_id e) e |>).

Definition create_event_evidence (event artifact : N) (digest : string) (size_bytes : Z) (conflicting : bool) : M B DocumentEventEvidence :=
  let* id := uuid4 in
  let* now := timezone_now in
  let e := MkDocumentEventEvidence id event artifact digest size_bytes conflicting now in
  let* taken := query (fun x => exists_row (fun y => N.eqb (dee_event y) event && N.eqb (dee_artifact y) artifact)
                                  (event_evidence x)) in
  require (negb taken) IntegrityError ;;;
  write (fun x => x <| event_evidence ::= put id e |>) ;;;
  ret e.

Definition document_with_key (key : string) (d : DB) : option Document :=
  first_by (by_key (fun x => Z.of_N (doc_id x))) (select (fun x => String.eqb (doc_identity_key x) key) (documents d)).

Definition event_with_key (key : string) (d : DB) : option DocumentEvent :=
  first_by (by_key (fun x => Z.of_N (de_id x))) (select (fun x => String.eqb (de_identity_key x) key) (events d)).

Definition evidence_with_digest (document : N) (digest : string) (d : DB) : option DocumentEvidence :=
  first_by (by_key ev_created_at)
    (select (fun e => N.eqb (ev_document e) document && String.eqb (ev_digest e) digest) (evidence d)).

Definition event_evidence_with_digest (event : N) (digest : string) (d : DB) : option DocumentEventEvidence :=
  first_by (by_key dee_created_at)
    (select (fun e => N.eqb (dee_event e) event && String.eqb (dee_digest e) digest) (event_evidence d)).

(** [for attempt in range(2): try ... except IntegrityError: if attempt == 1: raise ...] *)
Definition two_attempts {A} (m : M B A) (msg : string) : M B A :=
  try_except m (fun e => match e with
    | IntegrityError =>
        try_except m (fun e => match e with
          | IntegrityError => throw (InvalidDocumentInput msg)
          | _ => throw e
          end)
    | _ => throw e
    end).

(** A document already known under the key: replay or conflict. *)
Definition known_document (data : DocumentInput) (artifact : Artifact) (size_bytes : Z) (identity_key : string)
    (existing : Document) : M B DocumentPersistenceResult :=
  let* found := query (evidence_with_digest (doc_id existing) (art_digest artifact)) in
  match found with
  | Some e =>
      _audit "document.replay" DocumentPersistenceStatus.REPLAY "document" (Some (doc_id existing))
        identity_key None data (Some (art_digest artifact)) ;;;
      ret (MkPersistenceResult DocumentPersistenceStatus.REPLAY (Some (doc_id existing)) None (Some (ev_id e)) None)
  | None =>
      let* e := create_evidence (doc_id existing) (art_id artifact) (art_digest artifact) size_bytes true in
      let* now := timezone_now in
      write (fun x => x <| documents ::= update_where (fun y => N.eqb (doc_id y) (doc_id existing))
                             (fun y => y <| doc_state := DocumentState.CONFLICT |> <| doc_updated_at := now |>) |>) ;;;
      _audit "document.conflict" DocumentPersistenceStatus.CONFLICT "document" (Some (doc_id existing))
        identity_key (Some "content_hash_mismatch") data (Some (art_digest artifact)) ;;;
      ret (MkPersistenceResult DocumentPersistenceStatus.CONFLICT (Some (doc_id existing)) None (Some (ev_id e))
             (Some "content_hash_mismatch"))
  end.

Definition new_document (id : N) (now competence : Z) (data : DocumentInput) (company_id : N)
    (selection : IdentitySelection) (identity_key : string) : Document :=
  MkDocument id company_id (di_family data) (di_role data) (di_category data) (di_source data) (di_flow data)
    (is_kind selection) (is_value selection) identity_key (instant (di_emitted_at data))
    (option_map instant (di_authorized_at data)) competence (di_situation data) DocumentState.PERSISTED
    (di_origin_execution_ref data) (di_correlation_id data) now now.

Definition _persist_document (data : DocumentInput) (company_id : N) (artifact : Artifact)
    (selection : IdentitySelection) : M B DocumentPersistenceResult :=
  let* identity_key := lift_result (_identity_key company_id data selection) in
  let* size_bytes := _artifact_size artifact in
  two_attempts
    (atomic (
       let* existing := query (document_with_key identity_key) in
       match existing with
       | Some existing => known_document data artifact size_bytes identity_key existing
       | None =>
           let* competence := derive_competence (di_emitted_at data) in
           let* id := uuid4 in
           let* now := timezone_now in
           create_document (new_document id now competence data company_id selection identity_key) ;;;
           let* e := create_evidence id (art_id artifact) (art_digest artifact) size_bytes false in
           _audit "document.persisted" DocumentPersistenceStatus.PERSISTED "document" (Some id)
             identity_key None data (Some (art_digest artifact)) ;;;
           ret (MkPersistenceResult DocumentPersistenceStatus.PERSISTED (Some id) None (Some (ev_id e)) None)
       end))
    "Document identity could not be persisted safely".

Definition quarantine (entity_type reason : string) (data : DocumentInput) (artifact : Artifact) : M B DocumentPersistenceResult :=
  _audit "document.quarantine" DocumentPersistenceStatus.QUARANTINE entity_type None "" (Some reason) data
    (Some (art_digest artifact)) ;;;
  ret (MkPersistenceResult DocumentPersistenceStatus.QUARANTINE None None None (Some reason)).

(** An event already known under the key. *)
Definition known_event (data : DocumentInput) (artifact : Artifact) (size_bytes : Z) (identity_key : string)
    (parent : N) (existing : DocumentEvent) : M B DocumentPersistenceResult :=
  let* found := query (event_evidence_with_digest (de_id existing) (art_digest artifact)) in
  match found with
  | Some e =>
      _audit "document.event.replay" DocumentPersistenceStatus.REPLAY "document_event" (Some (de_id existing))
        identity_key None data (Some (art_digest artifact)) ;;;
      ret (MkPersistenceResult DocumentPersistenceStatus.REPLAY (Some parent) (Some (de_id existing)) (Some (dee_id e)) None)
  | None =>
      let* e := create_event_evidence (de_id existing) (art_id artifact) (art_digest artifact) size_bytes true in
      write (fun x => x <| events ::= update_where (fun y => N.eqb (de_id y) (de_id existing))
                             (fun y => y <| de_state := DocumentState.CONFLICT |>) |>) ;;;
      _audit "document.event.conflict" DocumentPersistenceStatus.CONFLICT "document_event" (Some (de_id existing))
        identity_key (Some "content_hash_mismatch") data (Some (art_digest artifact)) ;;;
      ret (MkPersistenceResult DocumentPersistenceStatus.CONFLICT (Some parent) (Some (de_id existing)) (Some (dee_id e))
             (Some "content_hash_mismatch"))
  end.

(** The row [DocumentEvent.objects.create] writes: [role] keeps its default. *)
Definition new_event (id : N) (now : Z) (data : DocumentInput) (parent : N) (relationship : string)
    (selection : IdentitySelection) (identity_key : string) : DocumentEvent :=
  MkDocumentEvent id parent (di_family data) "evento" (di_category data) (di_source data) (di_flow data)
    (is_kind selection) (is_value selection) identity_key (instant (di_emitted_at data)) (di_situation data)
    relationship DocumentState.PERSISTED (di_origin_execution_ref data) (di_correlation_id data) now.

Definition _persist_event (data : DocumentInput) (company_id : N) (artifact : Artifact)
    (selection : IdentitySelection) : M B DocumentPersistenceResult :=
  let* parent_ref := of_option (di_parent_document_id data) AssertionError in
  let* relationship := of_option (di_relationship_type data) AssertionError in
  let* parent_id := of_option (uuid_of parent_ref) (ValueError "badly formed hexadecimal UUID string") in
  let* size_bytes := _artifact_size artifact in
  let* identity_key := lift_result (event_identity_key parent_id data selection) in
  two_attempts
    (atomic (
       let* parent := query (fun d => documents d !! parent_id) in
       match parent with
       | None => quarantine "event" "parent_missing" data artifact
       | Some parent =>
           if negb (N.eqb (doc_company parent) company_id) || negb (String.eqb (doc_family parent) (di_family data))
           then quarantine "event" "parent_incompatible" data artifact
           else
             let* existing := query (event_with_key identity_key) in
             match existing with
             | Some existing => known_event data artifact size_bytes identity_key (doc_id parent) existing
             | None =>
                 let* id := uuid4 in
                 let* now := timezone_now in
                 create_event_row (new_event id now data (doc_id parent) relationship selection identity_key) ;;;
                 let* e := create_event_evidence id (art_id artifact) (art_digest artifact) size_bytes false in
                 _audit "document.event.persisted" DocumentPersistenceStatus.PERSISTED "document_event" (Some id)
                   identity_key None data (Some (art_digest artifact)) ;;;
                 ret (MkPersistenceResult DocumentPersistenceStatus.PERSISTED (Some (doc_id parent)) (Some id)
                        (Some (dee_id e)) None)
             end
       end))
    "Document event could not be persisted safely".

Definition persist_document (data : DocumentInput) : M B DocumentPersistenceResult :=
  lift_result (validate data) ;;;
  let* company_id := of_option (uuid_of (di_company_id data)) (ValueError "badly formed hexadecimal UUID string") in
  let* artifact := _artifact (di_artifact_id data) in
  match select_strongest_identity (di_identity data) with
  | Err (InvalidDocumentInput msg) =>
      if String.eqb msg insufficient
      then quarantine (if String.eqb (di_kind data) "document" then "document" else "event")
             "identity_insufficient" data artifact
      else throw (InvalidDocumentInput msg)
  | Err e => throw e
  | Ok selection =>
      if is_event_kind (di_kind data) then _persist_event data company_id artifact selection
      else _persist_document data company_id artifact selection
  end.

Definition attach_document_evidence (document_id artifact_id : uuid_ref) : M B EvidenceAttachmentResult :=
  let* artifact := _artifact artifact_id in
  let* document_uuid := of_option (uuid_of document_id) (InvalidDocumentInput "Document reference is invalid") in
  atomic (
    let* row := query (fun d => documents d !! document_uuid) in
    let* document := of_option row (InvalidDocumentInput "Document is unavailable") in
    let* existing := query (fun d => first_by (by_key (fun e => Z.of_N (ev_id e)))
      (select (fun e => N.eqb (ev_document e) (doc_id document) && N.eqb (ev_artifact e) (art_id artifact)) (evidence d))) in
    match existing with
    | Some e => ret (MkAttachment DocumentPersistenceStatus.REPLAY (ev_id e))
    | None =>
        let* size_bytes := _artifact_size artifact in
        let* e := create_evidence (doc_id document) (art_id artifact) (art_digest artifact) size_bytes false in
        append (MkAuditInput "document.evidence_attached" "document"
                  (DocumentPersistenceStatus.value DocumentPersistenceStatus.PERSISTED) None "" None
                  (uuid_str (doc_id document)) "followup_evidence" (doc_correlation_id document)
                  [("family", VStr (doc_family document)); ("source", VStr (doc_source document));
                   ("flow", VStr (doc_flow document)); ("artifact_digest_prefix", VStr (stake 16 (art_digest artifact)))]) ;;;
        ret (MkAttachment DocumentPersistenceStatus.PERSISTED (ev_id e))
    end).

End service.

#[global] Arguments _audit : simpl never.
#[global] Arguments create_document : simpl never.
#[global] Arguments create_evidence : simpl never.
#[global] Arguments create_event_row : simpl never.
#[global] Arguments create_event_evidence : simpl never.
#[global] Arguments _persist_document : simpl never.
#[global] Arguments _persist_event : simpl never.
#[global] Arguments persist_document : simpl never.
#[global] Arguments attach_document_evidence : simpl never.
