(* ===== verification/DocumentFacts.v ===== *)
(** * What document persistence guarantees

    Identity normalisation, the decision table of [persist_document] and its
    effect on the tables, replay, all-or-nothing writes and the invariant of
    the document tables. *)

From Stdlib Require Import ZArith Ascii String Lia.
From stdpp Require Import base decidable list gmap strings.
From S2P Require Import Prelude PyStr Sha256 PyVal Models Redaction AuditTrail JobPolicies Documents.

Local Open Scope string_scope.

(** ** One audited decision *)

(** [w'] has one audit event more than [w], with this action and result, and
    differs in nothing else. *)
Definition audited {B} (action result correlation : string) (w w' : World B) : Prop :=
  audit_frame (db w) (db w') /\ same_env w w' /\
  exists e, audit_events (db w') = (audit_events (db w) ++ [e])%list /\
            ae_action e = action /\ ae_result e = result /\ ae_correlation_id e = correlation /\
            wide 128 correlation = true.

Section facts.
Context {B : Type} `{!External B}.
Implicit Types w : World B.

Lemma append_audited a w e w' : append a w = (Ok e, w') -> audited (ai_action a) (ai_result a) (ai_correlation_id a) w w'.
Proof.
  intros Ha. split; [by eapply append_frame|]. pose proof (append_fits _ _ _ _ Ha) as Hfit.
  apply append_run in Ha as [He (actor & row & _ & -> & (ip & context & ->)%stored_shape & ->)]. split; [done|]. eexists. split; [done|].
  unfold audit_row_fits in Hfit. by bools.
Qed.

Lemma audit_inv action result et ei ci rc data dg w u w' :
  _audit action result et ei ci rc data dg w = (Ok u, w') ->
  audited action (DocumentPersistenceStatus.value result) (str_or (di_correlation_id data) ci) w w'.
Proof. unfold _audit. intros H. invert_run. by eapply append_audited in H0. Qed.

Lemma audit_all_or_nothing action result et ei ci rc data dg :
  all_or_nothing (B:=B) (_audit action result et ei ci rc data dg).
Proof.
  unfold _audit. apply aon_then. intros w e w' [_ Ha]%append_run. exact Ha.
Qed.

Lemma frame_documents d d' : audit_frame d d' -> documents d' = documents d.
Proof. by intros (c & l & ->). Qed.
Lemma frame_evidence d d' : audit_frame d d' -> evidence d' = evidence d.
Proof. by intros (c & l & ->). Qed.
Lemma frame_events d d' : audit_frame d d' -> events d' = events d.
Proof. by intros (c & l & ->). Qed.
Lemma frame_event_evidence d d' : audit_frame d d' -> event_evidence d' = event_evidence d.
Proof. by intros (c & l & ->). Qed.
Lemma frame_artifacts d d' : audit_frame d d' -> artifacts d' = artifacts d.
Proof. by intros (c & l & ->). Qed.

(** ** Identities *)

Lemma upper_digit_fixed c :
  is_upper c || is_digit c = true -> upper_char c = String c EmptyString /\ is_alnum c = true.
Proof. destruct c as [[] [] [] [] [] [] [] []]; vm_compute; done. Qed.

(** Normalised identifiers: whatever its punctuation and case, an accepted
    identifier becomes one to 255 upper-case letters and digits, and normalising
    it again changes nothing, so that the identity of a document does not depend
    on how the source formatted it. *)
Theorem normalize_identifier_canonical (value label normalized : string) :
  _normalize_identifier value label = Ok normalized ->
  _IDENTIFIER normalized = true /\ forall label', _normalize_identifier normalized label' = Ok normalized.
Proof.
  unfold _normalize_identifier. destruct (_IDENTIFIER _) eqn:Hi; [|done]. intros [= Hn]. rewrite Hn in Hi.
  split; [done|]. intros label'.
  assert (sall (fun c => is_upper c || is_digit c) normalized = true) as Hall.
  { unfold _IDENTIFIER, re_rep in Hi. by bools. }
  assert (sfilter is_alnum (upper normalized) = normalized) as ->; [|by rewrite Hi].
  clear Hi Hn. induction normalized as [|c s IH]; [done|]. cbn [sall] in Hall. bools.
  destruct (upper_digit_fixed c H) as [Hu Ha]. cbn [upper]. rewrite Hu, append_cons, append_nil.
  cbn [sfilter]. by rewrite Ha, IH.
Qed.

(** ** The decision table *)

(** One audit event, with the status of the decision. *)
Definition recorded (r : DocumentPersistenceResult) (correlation : string) w w' : Prop :=
  exists e, audit_events (db w') = (audit_events (db w) ++ [e])%list /\
            ae_result e = DocumentPersistenceStatus.value (pr_status r) /\
            ae_correlation_id e = correlation /\ wide 128 correlation = true.

(** What a decision does to the document tables, by its status. *)
Definition decided (data : DocumentInput) (key : string) (artifact : Artifact) (r : DocumentPersistenceResult) w w' : Prop :=
  events (db w') = events (db w) /\ event_evidence (db w') = event_evidence (db w) /\
  artifacts (db w') = artifacts (db w) /\ env_grows w w' /\ pr_event_id r = None /\
  recorded r (str_or (di_correlation_id data) key) w w' /\
  match pr_status r with
  | DocumentPersistenceStatus.PERSISTED =>
      exists doc ev, document_with_key key (db w) = None /\
        documents (db w') = <[doc_id doc := doc]> (documents (db w)) /\
        evidence (db w') = <[ev_id ev := ev]> (evidence (db w)) /\
        doc_identity_key doc = key /\ doc_state doc = DocumentState.PERSISTED /\
        ev_document ev = doc_id doc /\ ev_artifact ev = art_id artifact /\ ev_digest ev = art_digest artifact /\
        ev_conflicting ev = false /\
        (next_uuid w <= doc_id doc)%N /\ (doc_id doc < ev_id ev)%N /\ (ev_id ev < next_uuid w')%N /\
        pr_document_id r = Some (doc_id doc) /\ pr_evidence_id r = Some (ev_id ev)
  | DocumentPersistenceStatus.REPLAY =>
      exists doc ev, document_with_key key (db w) = Some doc /\
        evidence_with_digest (doc_id doc) (art_digest artifact) (db w) = Some ev /\
        documents (db w') = documents (db w) /\ evidence (db w') = evidence (db w) /\
        pr_document_id r = Some (doc_id doc) /\ pr_evidence_id r = Some (ev_id ev)
  | DocumentPersistenceStatus.CONFLICT =>
      exists doc ev, document_with_key key (db w) = Some doc /\
        evidence_with_digest (doc_id doc) (art_digest artifact) (db w) = None /\
        documents (db w') = update_where (fun y => N.eqb (doc_id y) (doc_id doc))
          (fun y => y <| doc_state := DocumentState.CONFLICT |> <| doc_updated_at := clock w |>) (documents (db w)) /\
        evidence (db w') = <[ev_id ev := ev]> (evidence (db w)) /\
        ev_document ev = doc_id doc /\ ev_artifact ev = art_id artifact /\ ev_digest ev = art_digest artifact /\
        ev_conflicting ev = true /\ (next_uuid w <= ev_id ev)%N /\ (ev_id ev < next_uuid w')%N /\
        pr_document_id r = Some (doc_id doc) /\ pr_evidence_id r = Some (ev_id ev)
  | DocumentPersistenceStatus.QUARANTINE => False
  end.

Lemma env_audit action result et ei ci rc data dg : moves env_grows (_audit (B:=B) action result et ei ci rc data dg).
Proof. unfold _audit. env_tac. Qed.

Lemma create_evidence_inv doc art digest size conf w ev w' :
  create_evidence doc art digest size conf w = (Ok ev, w') ->
  ev = MkDocumentEvidence (next_uuid w) doc art digest size conf (clock w) /\
  w' = w <| next_uuid ::= N.succ |> <| db ::= fun d => d <| evidence ::= put (next_uuid w) ev |> |>.
Proof. unfold create_evidence. intros H. invert_db. done. Qed.

Lemma create_document_inv doc w u w' :
  create_document doc w = (Ok u, w') ->
  document_fits doc = true /\
  exists_row (fun y => String.eqb (doc_identity_key y) (doc_identity_key doc)) (documents (db w)) = false /\
  w' = w <| db ::= fun d => d <| documents ::= put (doc_id doc) doc |> |>.
Proof.
  unfold create_document. intros H. invert_db. bools. done.
Qed.

(** The audit record that ends a decision, in a run that returned. *)
Ltac audit_of Hf Henv Hu :=
  match goal with
  | H : _audit _ _ _ _ _ _ _ _ _ = (Ok _, _) |- _ =>
      pose proof (moves_run _ _ _ _ _ (env_audit _ _ _ _ _ _ _ _) H) as (? & ? & ? & Hu);
      pose proof (audit_inv _ _ _ _ _ _ _ _ _ _ _ H) as (Hf & Henv & (? & ? & ? & ? & ? & ?))
  end.

(** The transaction of [_persist_document]. *)
Lemma persist_known data artifact size key doc w r w' :
  document_with_key key (db w) = Some doc -> known_document data artifact size key doc w = (Ok r, w') ->
  decided data key artifact r w w'.
Proof.
  intros Hdoc. unfold known_document. intros H. invert_db.
  destruct (evidence_with_digest _ _ _) as [e|] eqn:He; invert_db.
  - audit_of Hf Henv Hu. unfold decided. cbn.
    rewrite (frame_events _ _ Hf), (frame_event_evidence _ _ Hf), (frame_artifacts _ _ Hf).
    do 3 (split; [done|]). split; [repeat split; cbn in *; try done; lia|]. split; [done|]. split; [by eexists|]. exists doc, e. rewrite (frame_documents _ _ Hf), (frame_evidence _ _ Hf). by repeat split.
  - match goal with H : create_evidence _ _ _ _ _ _ = _ |- _ => apply create_evidence_inv in H as [-> ->] end.
    audit_of Hf Henv Hu. unfold decided. cbn [pr_status pr_event_id].
    rewrite (frame_events _ _ Hf), (frame_event_evidence _ _ Hf), (frame_artifacts _ _ Hf).
    do 3 (split; [done|]). split; [repeat split; cbn in *; try done; lia|]. split; [done|]. split; [by eexists|]. exists doc, (MkDocumentEvidence (next_uuid w) (doc_id doc) (art_id artifact) (art_digest artifact) size true (clock w)).
    rewrite (frame_documents _ _ Hf), (frame_evidence _ _ Hf).
    cbn in Hu |- *. repeat split; try done; lia.
Qed.

Lemma persist_tx data company artifact selection key size w r w' :
  (let* existing := query (document_with_key key) in
   match existing with
   | Some existing => known_document data artifact size key existing
   | None =>
       let* competence := derive_competence (di_emitted_at data) in
       let* id := uuid4 in
       let* now := timezone_now in
       create_document (new_document id now competence data company selection key) ;;;
       let* e := create_evidence id (art_id artifact) (art_digest artifact) size false in
       _audit "document.persisted" DocumentPersistenceStatus.PERSISTED "document" (Some id)
         key None data (Some (art_digest artifact)) ;;;
       ret (MkPersistenceResult DocumentPersistenceStatus.PERSISTED (Some id) None (Some (ev_id e)) None)
   end) w = (Ok r, w') ->
  decided data key artifact r w w'.
Proof.
  intros H. invert_db. destruct (document_with_key key (db w)) as [doc|] eqn:Hdoc; [by eapply persist_known|].
  unfold derive_competence in H. destruct (is_naive _); [by invert_db|]. invert_db.
  match goal with H : create_document _ _ = _ |- _ => apply create_document_inv in H as (_ & _ & ->) end.
  match goal with H : create_evidence _ _ _ _ _ _ = _ |- _ => apply create_evidence_inv in H as [-> ->] end.
  audit_of Hf Henv Hu. unfold decided. cbn [pr_status pr_event_id].
  rewrite (frame_events _ _ Hf), (frame_event_evidence _ _ Hf), (frame_artifacts _ _ Hf).
  do 3 (split; [done|]). split; [repeat split; cbn in *; try done; lia|]. split; [done|]. split; [by eexists|].
  eexists (new_document (next_uuid w) (clock w) _ data company selection key),
    (MkDocumentEvidence (N.succ (next_uuid w)) (next_uuid w) (art_id artifact) (art_digest artifact) size false (clock w)).
  rewrite (frame_documents _ _ Hf), (frame_evidence _ _ Hf). cbn in Hu |- *.
  repeat split; try done; lia.
Qed.

Lemma two_attempts_inv {A} (m : M B A) msg w a w' :
  moves env_grows m -> all_or_nothing m -> two_attempts m msg w = (Ok a, w') ->
  exists w1, m w1 = (Ok a, w') /\ env_grows w w1 /\ db w1 = db w.
Proof.
  intros Henv Haon. unfold two_attempts. intros [H|(x & w1 & Hx & H)]%try_inv; [by exists w|].
  destruct x; try done. apply try_inv in H as [H|(y & w2 & Hy & H)]; [|by destruct y].
  exists w1. split; [done|]. split; [by eapply moves_run in Hx; [exact Hx|] | by eapply Haon].
Qed.

Lemma decided_from data key artifact r w w1 w' :
  env_grows w w1 -> db w1 = db w -> decided data key artifact r w1 w' -> decided data key artifact r w w'.
Proof.
  intros Henv Hdb (H1 & H2 & H3 & H4 & H5 & H7 & H6). unfold recorded in H7. rewrite Hdb in *. unfold decided.
  do 3 (split; [done|]). split; [by etrans|]. do 2 (split; [done|]).
  destruct Henv as (Hc & _ & _ & Hn).
  destruct (pr_status r); [| done | done |].
  - destruct H6 as (doc & ev & ? & ? & ? & ? & ? & ? & ? & ? & ? & ? & ? & ? & ? & ?).
    exists doc, ev. repeat split; try done. lia.
  - rewrite Hc in H6. destruct H6 as (doc & ev & ? & ? & ? & ? & ? & ? & ? & ? & ? & ? & ? & ?).
    exists doc, ev. repeat split; try done. lia.
Qed.

Lemma two_attempts_aon {A} (m : M B A) msg : all_or_nothing m -> all_or_nothing (two_attempts m msg).
Proof.
  intros Hm. unfold two_attempts. apply aon_try; [done|]. intros x. destruct x; try (by apply aon_readonly).
  apply aon_try; [done|]. intros y. by destruct y; apply aon_readonly.
Qed.

Lemma persist_all_or_nothing data : all_or_nothing (B:=B) (persist_document data).
Proof.
  unfold persist_document, _artifact. apply aon_bind; [apply readonly_lift|]. intros _.
  apply aon_bind; [apply readonly_of_option|]. intros company.
  apply aon_bind; [all_or_nothing_tac|]. intros artifact.
  assert (forall et reason, all_or_nothing (B:=B) (quarantine et reason data artifact)) as Hq.
  { intros et reason. unfold quarantine. apply aon_then, audit_all_or_nothing. }
  destruct (select_strongest_identity _) as [selection|[]]; try (by apply aon_readonly).
  - destruct (is_event_kind _).
    + unfold _persist_event, _artifact_size.
      do 5 (apply aon_bind; [all_or_nothing_tac|]; intros ?). apply two_attempts_aon, aon_atomic.
    + unfold _persist_document, _artifact_size.
      do 2 (apply aon_bind; [all_or_nothing_tac|]; intros ?). apply two_attempts_aon, aon_atomic.
  - destruct (String.eqb _ _); [apply Hq | by apply aon_readonly].
Qed.


Hint Resolve env_audit : env.

Lemma env_tx data company artifact selection key size :
  moves env_grows (atomic (B:=B) (
    let* existing := query (document_with_key key) in
    match existing with
    | Some existing => known_document data artifact size key existing
    | None =>
        let* competence := derive_competence (di_emitted_at data) in
        let* id := uuid4 in
        let* now := timezone_now in
        create_document (new_document id now competence data company selection key) ;;;
        let* e := create_evidence id (art_id artifact) (art_digest artifact) size false in
        _audit "document.persisted" DocumentPersistenceStatus.PERSISTED "document" (Some id)
          key None data (Some (art_digest artifact)) ;;;
        ret (MkPersistenceResult DocumentPersistenceStatus.PERSISTED (Some id) None (Some (ev_id e)) None)
    end)).
Proof. unfold known_document, derive_competence, create_document, create_evidence. env_tac. Qed.

Lemma artifact_of_inv ref w a w' :
  _artifact ref w = (Ok a, w') ->
  exists id, uuid_of ref = Some id /\ artifacts (db w) !! id = Some a /\ original_artifact a = true /\ w' = w.
Proof. unfold _artifact. intros H. invert_db. eauto. Qed.

(** A document that was not refused. *)
Lemma persist_decided data w r w' :
  di_kind data = "document" -> pr_status r <> DocumentPersistenceStatus.QUARANTINE ->
  persist_document data w = (Ok r, w') ->
  exists company aid artifact selection key,
    uuid_of (di_company_id data) = Some company /\ uuid_of (di_artifact_id data) = Some aid /\
    artifacts (db w) !! aid = Some artifact /\ original_artifact artifact = true /\
    select_strongest_identity (di_identity data) = Ok selection /\
    _identity_key company data selection = Ok key /\ decided data key artifact r w w'.
Proof.
  intros Hkind Hnq. unfold persist_document. intros H. invert_db.
  match goal with H : _artifact _ _ = _ |- _ => apply artifact_of_inv in H as (aid & Haid & Ha & Hoa & ->) end.
  destruct (select_strongest_identity _) as [selection|ex] eqn:Hsel.
  2: { exfalso. destruct ex; try (by invert_run). destruct (String.eqb _ _); [|by invert_run].
       unfold quarantine in H. invert_run. by apply Hnq. }
  rewrite Hkind in H. cbn in H. unfold _persist_document, _artifact_size in H. invert_run.
  apply two_attempts_inv in H as (w1 & H & Henv & Hdb); [|apply env_tx|apply aon_atomic].
  invert_db. apply persist_tx in H. eapply decided_from in H; [|done..]. naive_solver.
Qed.

Lemma quarantine_inv et reason data artifact w r w' :
  quarantine et reason data artifact w = (Ok r, w') ->
  audit_frame (db w) (db w') /\ pr_status r = DocumentPersistenceStatus.QUARANTINE /\ recorded r (str_or (di_correlation_id data) "") w w'.
Proof.
  unfold quarantine. intros H. invert_run. audit_of Hf Henv Hu. do 2 (split; [done|]). by eexists.
Qed.

(** Without a sufficient identity: quarantined. *)
Lemma persist_quarantined data w r w' :
  di_kind data = "document" -> pr_status r = DocumentPersistenceStatus.QUARANTINE ->
  persist_document data w = (Ok r, w') ->
  select_strongest_identity (di_identity data) = invalid insufficient /\
  audit_frame (db w) (db w') /\ recorded r (str_or (di_correlation_id data) "") w w'.
Proof.
  intros Hkind Hq. unfold persist_document. intros H. invert_db.
  match goal with H : _artifact _ _ = _ |- _ => apply artifact_of_inv in H as (aid & Haid & Ha & Hoa & ->) end.
  destruct (select_strongest_identity _) as [selection|ex] eqn:Hsel.
  - exfalso. rewrite Hkind in H. cbn in H. unfold _persist_document, _artifact_size in H. invert_run.
    apply two_attempts_inv in H as (w1 & H & Henv & Hdb); [|apply env_tx|apply aon_atomic].
    invert_db. apply persist_tx in H as (_ & _ & _ & _ & _ & _ & H). by rewrite Hq in H.
  - destruct ex; try (by invert_run). destruct (String.eqb_spec msg insufficient) as [->|]; [|by invert_run].
    apply quarantine_inv in H as (Hf & _ & Hr). by repeat split.
Qed.

End facts.

(** ** The document tables *)

Record docs_ok (d : DB) : Prop := {
  dok_keyed : keyed doc_id (documents d);
  dok_ev_keyed : keyed ev_id (evidence d);
  dok_key : forall i k a b, documents d !! i = Some a -> documents d !! k = Some b ->
    doc_identity_key a = doc_identity_key b -> i = k;
  dok_owner : forall i e, evidence d !! i = Some e -> is_Some (documents d !! ev_document e);
  dok_original : forall i a, documents d !! i = Some a ->
    exists k e, evidence d !! k = Some e /\ ev_document e = i /\ ev_conflicting e = false;
  dok_conflict : forall i a, documents d !! i = Some a ->
    (doc_state a = DocumentState.CONFLICT <->
     exists k e, evidence d !! k = Some e /\ ev_document e = i /\ ev_conflicting e = true) }.

Definition docs_inv {B} (w : World B) : Prop :=
  docs_ok (db w) /\
  (forall i, is_Some (documents (db w) !! i) -> (i < next_uuid w)%N) /\
  (forall i, is_Some (evidence (db w) !! i) -> (i < next_uuid w)%N).

Lemma document_with_key_some key d doc :
  docs_ok d -> document_with_key key d = Some doc ->
  documents d !! doc_id doc = Some doc /\ doc_identity_key doc = key.
Proof.
  intros Hok Hd. apply first_by_elem, elem_of_select in Hd as [Hk [i Hi]]. cbn in Hk.
  rewrite (dok_keyed _ Hok i doc Hi). split; [done|]. by apply String.eqb_eq.
Qed.

Lemma document_with_key_intro key d i doc :
  docs_ok d -> documents d !! i = Some doc -> doc_identity_key doc = key -> document_with_key key d = Some doc.
Proof.
  intros Hok Hi Hk. destruct (document_with_key key d) as [x|] eqn:Hx.
  - apply document_with_key_some in Hx as [Hx Hkx]; [|done].
    assert (doc_id x = i) as He by (eapply (dok_key _ Hok); [exact Hx|exact Hi|congruence]). rewrite He in Hx. congruence.
  - apply first_by_None in Hx.
    assert (doc ∈ select (fun y => String.eqb (doc_identity_key y) key) (documents d)) as Hin.
    { apply elem_of_select. split; [by apply String.eqb_eq | eauto]. }
    rewrite Hx in Hin. by apply not_elem_of_nil in Hin.
Qed.

Lemma document_with_key_None key d i doc :
  document_with_key key d = None -> documents d !! i = Some doc -> doc_identity_key doc <> key.
Proof.
  intros Hx Hi Hk. apply first_by_None in Hx.
  assert (doc ∈ select (fun y => String.eqb (doc_identity_key y) key) (documents d)) as Hin.
  { apply elem_of_select. split; [by apply String.eqb_eq | eauto]. }
  rewrite Hx in Hin. by apply not_elem_of_nil in Hin.
Qed.

Lemma evidence_with_digest_intro doc digest d i e :
  evidence d !! i = Some e -> ev_document e = doc -> ev_digest e = digest ->
  exists e', evidence_with_digest doc digest d = Some e'.
Proof.
  intros He Hd Hg. destruct (evidence_with_digest doc digest d) as [x|] eqn:Hx; [eauto|].
  apply first_by_None in Hx.
  assert (e ∈ select (fun e => N.eqb (ev_document e) doc && String.eqb (ev_digest e) digest) (evidence d)) as Hin.
  { apply elem_of_select. rewrite Hd, Hg, N.eqb_refl, String.eqb_refl. eauto. }
  rewrite Hx in Hin. by apply not_elem_of_nil in Hin.
Qed.

Section invariant.
Context {B : Type} `{!External B}.
Implicit Types w : World B.

(** Adding evidence to a document that is there. *)
Lemma docs_ok_add_evidence d i e :
  docs_ok d -> evidence d !! i = None -> ev_id e = i -> is_Some (documents d !! ev_document e) ->
  ev_conflicting e = false -> docs_ok (d <| evidence := <[i := e]> (evidence d) |>).
Proof.
  intros Hok Hn Hid Hdoc Hc. split; cbn.
  - apply Hok.
  - intros k x. rewrite lookup_insert. case_decide; [intros [= <-]; congruence | apply Hok].
  - apply Hok.
  - intros k x. rewrite lookup_insert. case_decide; [by intros [= <-] | apply Hok].
  - intros k a Ha. destruct (dok_original _ Hok k a Ha) as (l & x & Hx & Hrest). exists l, x.
    rewrite lookup_insert_ne; [done|]. intros Heq. subst. congruence.
  - intros k a Ha. rewrite (dok_conflict _ Hok k a Ha). split; intros (l & x & Hx & Hd & Hcf).
    + exists l, x. rewrite lookup_insert_ne; [done|]. intros Heq. subst. congruence.
    + rewrite lookup_insert in Hx. case_decide; [injection Hx as <-; congruence | eauto].
Qed.

(** Adding a document with its original evidence. *)
Lemma docs_ok_add_document d doc e :
  docs_ok d -> documents d !! doc_id doc = None -> evidence d !! ev_id e = None ->
  document_with_key (doc_identity_key doc) d = None -> doc_state doc = DocumentState.PERSISTED ->
  ev_document e = doc_id doc -> ev_conflicting e = false ->
  docs_ok (d <| documents := <[doc_id doc := doc]> (documents d) |> <| evidence := <[ev_id e := e]> (evidence d) |>).
Proof.
  intros Hok Hn Hne Hkey Hst Hdoc Hc. split; cbn.
  - intros k x. rewrite lookup_insert. case_decide; [intros [= <-]; congruence | apply Hok].
  - intros k x. rewrite lookup_insert. case_decide; [intros [= <-]; congruence | apply Hok].
  - intros k l x y. rewrite !lookup_insert. repeat case_decide; subst; try congruence.
    + intros [= <-] Hy He. exfalso. eapply document_with_key_None; [exact Hkey|exact Hy|done].
    + intros Hx [= <-] He. exfalso. by eapply document_with_key_None; [exact Hkey|exact Hx|].
    + apply Hok.
  - intros k x. rewrite lookup_insert. case_decide.
    + intros [= <-]. rewrite Hdoc, lookup_insert_eq. eauto.
    + intros Hx. destruct (dok_owner _ Hok k x Hx) as [y Hy].
      rewrite lookup_insert_ne; [eauto|]. intros He. rewrite <-He in Hy. congruence.
  - intros k a. rewrite lookup_insert. case_decide.
    + intros [= <-]. exists (ev_id e), e. split; [apply lookup_insert_eq|]. by subst.
    + intros Ha. destruct (dok_original _ Hok k a Ha) as (l & x & Hx & Hrest). exists l, x.
      rewrite lookup_insert_ne; [done|]. intros Heq. subst. congruence.
  - intros k a. rewrite lookup_insert. case_decide.
    + intros [= <-]. rewrite Hst. split; [done|]. intros (l & x & Hx & Hd & Hcf).
      rewrite lookup_insert in Hx. case_decide; [injection Hx as <-; congruence|].
      destruct (dok_owner _ Hok l x Hx) as [y Hy]. congruence.
    + intros Ha. rewrite (dok_conflict _ Hok k a Ha). split; intros (l & x & Hx & Hd & Hcf).
      * exists l, x. rewrite lookup_insert_ne; [done|]. intros Heq. subst. congruence.
      * rewrite lookup_insert in Hx. case_decide; [injection Hx as <-; congruence | eauto].
Qed.

(** Conflicting evidence turns its document, and only that one. *)
Lemma docs_ok_conflict d doc e now :
  docs_ok d -> documents d !! doc_id doc = Some doc -> evidence d !! ev_id e = None ->
  ev_document e = doc_id doc -> ev_conflicting e = true ->
  docs_ok (d <| documents := update_where (fun y => N.eqb (doc_id y) (doc_id doc))
                  (fun y => y <| doc_state := DocumentState.CONFLICT |> <| doc_updated_at := now |>) (documents d) |>
             <| evidence := <[ev_id e := e]> (evidence d) |>).
Proof.
  intros Hok Hin Hne Hdoc Hc. set (f := fun y => y <| doc_state := _ |> <| doc_updated_at := now |>).
  set (p := fun y => N.eqb (doc_id y) (doc_id doc)).
  assert (forall i a, update_where p f (documents d) !! i = Some a ->
    exists x, documents d !! i = Some x /\ a = if p x then f x else x) as Hup.
  { intros i a. rewrite lookup_update_where. destruct (documents d !! i) as [x|]; [|done]. intros [= <-]. eauto. }
  assert (forall x, doc_identity_key (if p x then f x else x) = doc_identity_key x) as Hkey by (intros x; by destruct (p x)).
  split; cbn.
  - apply by_id_update; [done | apply Hok].
  - intros k x. rewrite lookup_insert. case_decide; [intros [= <-]; congruence | apply Hok].
  - intros k l a b (x & Hx & ->)%Hup (y & Hy & ->)%Hup. rewrite !Hkey. by apply Hok.
  - intros k x. rewrite lookup_insert, lookup_update_where, fmap_is_Some. case_decide.
    + intros [= <-]. rewrite Hdoc. eauto.
    + apply Hok.
  - intros k a (x & Hx & ->)%Hup. destruct (dok_original _ Hok k x Hx) as (l & y & Hy & Hrest). exists l, y.
    rewrite lookup_insert_ne; [done|]. intros Heq. subst. congruence.
  - intros k a (x & Hx & ->)%Hup. pose proof (dok_keyed _ Hok k x Hx) as Hid.
    destruct (p x) eqn:Hp; unfold p in Hp.
    + apply N.eqb_eq in Hp. split; [intros _ | done]. exists (ev_id e), e. split; [apply lookup_insert_eq|]. split; [congruence | done].
    + apply N.eqb_neq in Hp. rewrite (dok_conflict _ Hok k x Hx). split; intros (l & y & Hy & Hd & Hcf).
      * exists l, y. rewrite lookup_insert_ne; [done|]. intros Heq. subst. congruence.
      * rewrite lookup_insert in Hy. case_decide; [injection Hy as <-; congruence | eauto].
Qed.

Lemma docs_ok_tables d d' :
  documents d' = documents d -> evidence d' = evidence d -> docs_ok d -> docs_ok d'.
Proof. intros Hd He [K1 K2 K3 K4 K5 K6]. split; rewrite ?Hd, ?He; assumption. Qed.

Lemma docs_ok_put_evidence d d' i e :
  docs_ok d -> documents d' = documents d -> evidence d' = <[i := e]> (evidence d) ->
  evidence d !! i = None -> ev_id e = i -> is_Some (documents d !! ev_document e) ->
  ev_conflicting e = false -> docs_ok d'.
Proof.
  intros Hok Hd He Hn Hid Hdoc Hc.
  apply (docs_ok_tables (d <| evidence := <[i := e]> (evidence d) |>)); [exact Hd|exact He|].
  by apply docs_ok_add_evidence.
Qed.

Lemma decided_inv data key artifact r w w' :
  docs_inv w -> decided data key artifact r w w' -> docs_inv w'.
Proof.
  intros (Hok & Hdl & Hel) (_ & _ & _ & (_ & _ & _ & Hn) & _ & _ & Hd).
  assert (forall i, (next_uuid w <= i)%N -> documents (db w) !! i = None) as Hdf.
  { intros i Hi. destruct (documents (db w) !! i) eqn:Hx; [|done].
    assert (i < next_uuid w)%N by (apply Hdl; eauto). lia. }
  assert (forall i, (next_uuid w <= i)%N -> evidence (db w) !! i = None) as Hef.
  { intros i Hi. destruct (evidence (db w) !! i) eqn:Hx; [|done].
    assert (i < next_uuid w)%N by (apply Hel; eauto). lia. }
  assert (forall {R} (t t' : gmap N R) k x, t' = <[k := x]> t -> (k < next_uuid w')%N ->
    (forall i, is_Some (t !! i) -> (i < next_uuid w)%N) -> forall i, is_Some (t' !! i) -> (i < next_uuid w')%N) as Hgrow.
  { intros R t t' k x -> Hk Ht i. rewrite lookup_insert. case_decide; [by subst|]. intros Hi. specialize (Ht i Hi). lia. }
  destruct (pr_status r).
  - destruct Hd as (doc & ev & Hkn & Hds & Hes & Hk & Hst & Hed & _ & _ & Hc & H1 & H2 & H3 & _).
    split; [|split; [eapply Hgrow; [exact Hds|lia|done] | eapply Hgrow; [exact Hes|lia|done]]].
    eapply docs_ok_tables; [| |apply (docs_ok_add_document (db w) doc ev)]; cbn; try done.
    + apply Hdf. lia.
    + apply Hef. lia.
    + by rewrite Hk.
  - destruct Hd as (doc & ev & _ & _ & Hds & Hes & _). split; [by eapply docs_ok_tables|].
    rewrite Hds, Hes. split; intros i Hi; [specialize (Hdl i Hi) | specialize (Hel i Hi)]; lia.
  - done.
  - destruct Hd as (doc & ev & Hkn & _ & Hds & Hes & Hed & _ & _ & Hc & H1 & H2 & _).
    apply document_with_key_some in Hkn as [Hin _]; [|done].
    split; [|split; [|eapply Hgrow; [exact Hes|lia|done]]].
    + eapply docs_ok_tables; [| |apply (docs_ok_conflict (db w) doc ev (clock w))]; cbn; try done. apply Hef. lia.
    + rewrite Hds. intros i. rewrite lookup_update_where, fmap_is_Some. intros Hi. specialize (Hdl i Hi). lia.
Qed.

End invariant.

Section properties.
Context {B : Type} `{!External B}.
Implicit Types w : World B.

Hint Resolve env_audit : env.

Lemma env_two_attempts {A} (m : M B A) msg : moves env_grows m -> moves env_grows (two_attempts m msg).
Proof. intros Hm. unfold two_attempts. env_tac; done. Qed.

Lemma env_persist data : moves env_grows (persist_document (B:=B) data).
Proof.
  unfold persist_document, _artifact, quarantine, _persist_event, _persist_document, _artifact_size.
  env_tac; apply env_two_attempts;
    unfold quarantine, known_event, known_document, derive_competence, create_document, create_evidence,
      create_event_row, create_event_evidence; env_tac.
Qed.

(** ** Events leave the documents alone *)

Definition docs_same w w' : Prop :=
  documents (db w') = documents (db w) /\ evidence (db w') = evidence (db w).

#[local] Instance docs_same_preorder : PreOrder docs_same.
Proof. split; [by intros w|]. intros a b c [H1 H2] [H3 H4]. split; congruence. Qed.

Lemma docs_same_atomic {A} (m : M B A) : moves docs_same m -> moves docs_same (atomic m).
Proof. apply moves_atomic; [apply _|]. done. Qed.

Lemma docs_same_audit action result et ei ci rc data dg : moves docs_same (_audit (B:=B) action result et ei ci rc data dg).
Proof.
  intros w. unfold _audit, bind. destruct (append _ w) as [r w'] eqn:Ha. apply append_frame in Ha.
  destruct r; (split; [exact (frame_documents _ _ Ha) | exact (frame_evidence _ _ Ha)]).
Qed.

Ltac same_tac := repeat match goal with
  | |- forall _, _ => intros ?
  | |- moves _ (bind _ _) => apply moves_bind; [apply _|..]
  | |- moves _ (try_except _ _) => apply moves_try; [apply _|..]
  | |- moves _ (atomic _) => apply docs_same_atomic
  | |- moves _ (autocommit _) => apply docs_same_atomic
  | |- moves _ (_audit _ _ _ _ _ _ _ _) => apply docs_same_audit
  | |- moves _ (match ?x with _ => _ end) => destruct x
  | |- moves _ (write _) => by intros w
  | |- moves _ uuid4 => by intros w
  | |- moves _ timezone_now => by intros w
  | |- moves _ (query _) => by intros w
  | |- moves _ (require ?b _) => by apply moves_pure; [apply _|]; destruct b
  | |- moves _ (of_option ?o _) => by apply moves_pure; [apply _|]; destruct o
  | |- moves _ (lift_result ?o) => by apply moves_pure; [apply _|]; destruct o
  | |- moves _ (ret _) => by intros w
  | |- moves _ (throw _) => by intros w
  end.

Lemma docs_same_quarantine et reason data artifact : moves docs_same (quarantine (B:=B) et reason data artifact).
Proof. unfold quarantine. same_tac. Qed.

Lemma docs_same_event data company artifact selection :
  moves docs_same (_persist_event (B:=B) data company artifact selection).
Proof.
  unfold _persist_event, _artifact_size, two_attempts, known_event, create_event_row, create_event_evidence, quarantine.
  same_tac.
Qed.

(** A document decision, or the tables of documents as they were. *)
Lemma persist_cases data w r w' :
  persist_document data w = (Ok r, w') ->
  docs_same w w' \/ exists key artifact, decided data key artifact r w w'.
Proof.
  unfold persist_document. intros H. invert_db.
  match goal with H : _artifact _ _ = _ |- _ => apply artifact_of_inv in H as (aid & Haid & Ha & Hoa & ->) end.
  destruct (select_strongest_identity _) as [selection|ex] eqn:Hsel.
  2: { destruct ex; try (by invert_run). destruct (String.eqb _ _); [|by invert_run].
       left. by eapply moves_run; [apply docs_same_quarantine|]. }
  destruct (is_event_kind _).
  - left. by eapply moves_run; [apply docs_same_event|].
  - right. unfold _persist_document, _artifact_size in H. invert_run.
    apply two_attempts_inv in H as (w1 & H & Henv & Hdb); [|apply env_tx|apply aon_atomic].
    invert_db. apply persist_tx in H. eapply decided_from in H; [|done..]. eauto.
Qed.

Lemma docs_inv_same w w' :
  docs_same w w' -> (next_uuid w <= next_uuid w')%N -> docs_inv w -> docs_inv w'.
Proof.
  intros [Hd He] Hn (Hok & Hdl & Hel). split; [by eapply docs_ok_tables|]. rewrite Hd, He.
  split; intros i Hi; [specialize (Hdl i Hi) | specialize (Hel i Hi)]; lia.
Qed.

Lemma persist_inv data w : docs_inv w -> docs_inv (persist_document data w).2.
Proof.
  intros Hinv. pose proof (env_persist data w) as (_ & _ & _ & Hn).
  destruct (persist_document data w) as [[r|ex] w'] eqn:Hp; cbn in Hn |- *.
  - apply persist_cases in Hp as [Hs|(key & artifact & Hd)]; [by eapply docs_inv_same | by eapply decided_inv].
  - apply persist_all_or_nothing in Hp. apply (docs_inv_same w); [|done|done]. unfold docs_same. by rewrite Hp.
Qed.

Lemma attach_inv document artifact w : docs_inv w -> docs_inv (attach_document_evidence document artifact w).2.
Proof.
  intros Hinv. assert (moves env_grows (attach_document_evidence (B:=B) document artifact)) as Henv.
  { unfold attach_document_evidence, _artifact, _artifact_size, create_evidence. env_tac. }
  assert (all_or_nothing (B:=B) (attach_document_evidence document artifact)) as Haon.
  { unfold attach_document_evidence, _artifact. all_or_nothing_tac. }
  specialize (Henv w) as (_ & _ & _ & Hn).
  destruct (attach_document_evidence document artifact w) as [[r|ex] w'] eqn:Hp; cbn in Hn |- *.
  2: { apply Haon in Hp. apply (docs_inv_same w); [|done|done]. unfold docs_same. by rewrite Hp. }
  unfold attach_document_evidence in Hp. invert_db.
  match goal with H : _artifact _ _ = _ |- _ => apply artifact_of_inv in H as (aid & Haid & Ha & Hoa & ->) end.
  invert_db. destruct (first_by _ _) as [e|]; invert_db; [done|].
  unfold _artifact_size in *. invert_db.
  match goal with H : create_evidence _ _ _ _ _ _ = _ |- _ => apply create_evidence_inv in H as [-> ->] end.
  match goal with H : append _ _ = _ |- _ =>
    pose proof (moves_run _ _ _ _ _ (env_append _) H) as (_ & _ & _ & Hu); apply append_frame in H as Hf end.
  pose proof Hinv as (Hok & Hdl & Hel). cbn beta in *.
  match goal with H : Some ?d = documents _ !! _ |- _ => symmetry in H; rename H into Hdoc; rename d into doc end.
  pose proof (frame_documents _ _ Hf) as Hds. pose proof (frame_evidence _ _ Hf) as Hes. cbn in Hds, Hes, Hn, Hu.
  split; [|split].
  - eapply docs_ok_put_evidence; [exact Hok|exact Hds|exact Hes|..]; cbn; try done.
    + destruct (evidence (db w) !! next_uuid w) eqn:Hx; [|done].
      assert (next_uuid w < next_uuid w)%N by (apply Hel; eauto). lia.
    + rewrite (dok_keyed _ Hok _ _ Hdoc). eauto.
  - rewrite Hds. intros i Hi. specialize (Hdl i Hi). lia.
  - rewrite Hes. intros i. unfold put. rewrite lookup_insert. case_decide; [subst; intros _|intros Hi; specialize (Hel i Hi)].
    + lia.
    + lia.
Qed.

End properties.

(** After a decision the document is known under the key, with evidence of the
    digest. *)
Lemma decided_known {B} data key artifact r (w w' : World B) :
  docs_inv w -> decided data key artifact r w w' -> docs_inv w' ->
  exists doc i e, document_with_key key (db w') = Some doc /\ pr_document_id r = Some (doc_id doc) /\
    evidence (db w') !! i = Some e /\ ev_document e = doc_id doc /\ ev_digest e = art_digest artifact.
Proof.
  intros Hinv (_ & _ & _ & _ & _ & _ & Hd) Hinv'. destruct (pr_status r).
  - destruct Hd as (doc & ev & _ & Hds & Hes & Hk & _ & Hed & _ & Hg & _ & _ & _ & _ & Hid & _).
    exists doc, (ev_id ev), ev. split; [|by rewrite Hes, lookup_insert_eq].
    eapply document_with_key_intro; [apply Hinv'|rewrite Hds; apply lookup_insert_eq|done].
  - destruct Hd as (doc & ev & Hdoc & Hev & Hds & Hes & Hid & _).
    apply first_by_elem, elem_of_select in Hev as [Hev [i Hi]]. bools.
    apply N.eqb_eq in H. apply String.eqb_eq in H0.
    exists doc, i, ev. apply document_with_key_some in Hdoc as [Hdoc Hk]; [|apply Hinv].
    split; [|by rewrite Hes].
    eapply document_with_key_intro; [apply Hinv'|rewrite Hds; exact Hdoc|done].
  - done.
  - destruct Hd as (doc & ev & Hdoc & _ & Hds & Hes & Hed & _ & Hg & _ & _ & _ & Hid & _).
    apply document_with_key_some in Hdoc as [Hdoc Hk]; [|apply Hinv].
    eexists (doc <| doc_state := DocumentState.CONFLICT |> <| doc_updated_at := clock w |>), (ev_id ev), ev.
    split; [|by rewrite Hes, lookup_insert_eq].
    eapply document_with_key_intro; [apply Hinv'| |exact Hk].
    rewrite Hds, lookup_update_where, Hdoc. cbn. by rewrite N.eqb_refl.
Qed.

(** ** The guarantees *)

Section guarantees.
Context {B : Type} `{!External B}.

(** The decision table of [persist_document] for a document.  It writes all or
    nothing: an exception leaves the database as it was, and so does the audit
    trail's refusal.  When it returns, exactly one audit event with the status
    was appended, events are untouched, and: without a sufficient fiscal identity
    it is quarantined and only the audit trail changed; a new identity key is
    persisted with its original evidence; a known key with evidence of the same
    digest is a replay that changes no document or evidence; a known key with
    another digest keeps the document's metadata, adds conflicting evidence and
    marks the document in conflict. *)
Theorem persist_document_decision (data : DocumentInput) (w w' : World B) (r : result exn DocumentPersistenceResult) :
  di_kind data = "document" -> persist_document data w = (r, w') ->
  match r with
  | Err _ => db w' = db w
  | Ok r =>
      match pr_status r with
      | DocumentPersistenceStatus.QUARANTINE =>
          select_strongest_identity (di_identity data) = invalid insufficient /\
          audit_frame (db w) (db w') /\ recorded r (di_correlation_id data) w w'
      | _ =>
          exists company aid artifact selection key,
            uuid_of (di_company_id data) = Some company /\ uuid_of (di_artifact_id data) = Some aid /\
            artifacts (db w) !! aid = Some artifact /\ original_artifact artifact = true /\
            select_strongest_identity (di_identity data) = Ok selection /\
            _identity_key company data selection = Ok key /\ decided data key artifact r w w'
      end
  end.
Proof.
  intros Hk Hp. destruct r as [r|e]; [|by apply persist_all_or_nothing in Hp].
  destruct (decide (pr_status r = DocumentPersistenceStatus.QUARANTINE)) as [Hq|Hq].
  - rewrite Hq. apply persist_quarantined in Hp as (H1 & H2 & H3); [|done..].
    do 2 (split; [done|]). by destruct (di_correlation_id data).
  - apply persist_decided in Hp; [|done..]. by destruct (pr_status r).
Qed.

(** The document tables stay well formed through any persistence of documents
    or events and any attachment of evidence, whether it returns or raises: rows
    sit under their identifiers, identity keys are unique, every evidence row
    belongs to a document, every document keeps non-conflicting original
    evidence, and a document is in conflict exactly when it has conflicting
    evidence. *)
Theorem documents_invariant (data : DocumentInput) (document artifact : uuid_ref) (w : World B) :
  docs_inv w ->
  docs_inv (persist_document data w).2 /\ docs_inv (attach_document_evidence document artifact w).2.
Proof. intros Hinv. split; [by apply persist_inv | by apply attach_inv]. Qed.

(** Persisting is idempotent: once a document was persisted, recognised or put
    in conflict, presenting the same input again - as long as documents,
    evidence and artifacts are as that call left them - can only answer a replay
    of the same document, and changes no document or evidence. *)
Theorem persist_document_replay (data : DocumentInput) (w w1 w2 w3 : World B) (r1 r2 : DocumentPersistenceResult) :
  docs_inv w -> di_kind data = "document" -> pr_status r1 <> DocumentPersistenceStatus.QUARANTINE ->
  persist_document data w = (Ok r1, w1) ->
  documents (db w2) = documents (db w1) -> evidence (db w2) = evidence (db w1) -> artifacts (db w2) = artifacts (db w1) ->
  persist_document data w2 = (Ok r2, w3) ->
  pr_status r2 = DocumentPersistenceStatus.REPLAY /\ pr_document_id r2 = pr_document_id r1 /\
  documents (db w3) = documents (db w2) /\ evidence (db w3) = evidence (db w2).
Proof.
  intros Hinv Hk Hq Hp Hds Hes Has Hp2.
  pose proof (persist_inv data w Hinv) as Hinv1. rewrite Hp in Hinv1. cbn in Hinv1.
  apply persist_decided in Hp as (company & aid & a & selection & key & Hc & Haid & Ha & Hoa & Hsel & Hkey & Hd); [|done..].
  assert (pr_status r2 <> DocumentPersistenceStatus.QUARANTINE) as Hq2.
  { intros Hq2. apply persist_quarantined in Hp2 as [Hp2 _]; [|done..]. rewrite Hsel in Hp2. done. }
  apply persist_decided in Hp2 as (company2 & aid2 & a2 & selection2 & key2 & Hc2 & Haid2 & Ha2 & _ & Hsel2 & Hkey2 & Hd2); [|done..].
  pose proof Hd as (_ & _ & Hart & _). rewrite Has, Hart in Ha2.
  assert (company2 = company) as -> by congruence. assert (aid2 = aid) as -> by congruence.
  assert (a2 = a) as -> by congruence. assert (selection2 = selection) as -> by congruence.
  assert (key2 = key) as -> by congruence.
  destruct (decided_known data key a r1 w w1 Hinv Hd Hinv1) as (doc & i & e & Hdoc & Hid & He & Hed & Heg).
  assert (docs_ok (db w2)) as Hok2 by (eapply docs_ok_tables; [exact Hds|exact Hes|apply Hinv1]).
  assert (document_with_key key (db w2) = Some doc) as Hw2.
  { apply document_with_key_some in Hdoc as [Hdin Hdk]; [|apply Hinv1].
    eapply document_with_key_intro; [exact Hok2|rewrite Hds; exact Hdin|exact Hdk]. }
  assert (exists e', evidence_with_digest (doc_id doc) (art_digest a) (db w2) = Some e') as [e' He'].
  { eapply evidence_with_digest_intro; [by rewrite Hes|done|done]. }
  destruct Hd2 as (_ & _ & _ & _ & _ & _ & Hd2). rewrite Hw2 in Hd2.
  destruct (pr_status r2).
  - by destruct Hd2 as (? & ? & Hx & _).
  - destruct Hd2 as (doc2 & ev2 & Hx & _ & Hds2 & Hes2 & Hid2 & _). injection Hx as <-. rewrite Hid2, Hid. done.
  - done.
  - destruct Hd2 as (doc2 & ev2 & Hx & Hn & _). injection Hx as <-. congruence.
Qed.

(** A document with a long identity cannot be persisted without a correlation
    reference: the audit record then carries the identity key as its correlation
    identifier, whose column holds 128 characters, while identity keys may have
    1024.  No such call ever returns anything but a quarantine, and the database
    stays as it was. *)
Theorem long_identity_unpersistable (data : DocumentInput) (w w' : World B) (r : result exn DocumentPersistenceResult)
    (company : N) (selection : IdentitySelection) (key : string) :
  di_kind data = "document" -> di_correlation_id data = "" -> uuid_of (di_company_id data) = Some company ->
  select_strongest_identity (di_identity data) = Ok selection ->
  _identity_key company data selection = Ok key -> (128 < String.length key)%nat ->
  persist_document data w = (r, w') -> is_ok r = false /\ db w' = db w.
Proof.
  intros Hk Hcorr Hc Hsel Hkey Hlen Hp. destruct r as [r|e]; [|by apply persist_all_or_nothing in Hp].
  exfalso. destruct (decide (pr_status r = DocumentPersistenceStatus.QUARANTINE)) as [Hq|Hq].
  - apply persist_quarantined in Hp as [Hp _]; [|done..]. rewrite Hsel in Hp. done.
  - apply persist_decided in Hp as (c2 & aid & a & s2 & k2 & Hc2 & _ & _ & _ & Hs2 & Hk2 & Hd); [|done..].
    assert (c2 = company) as -> by congruence. assert (s2 = selection) as -> by congruence.
    assert (k2 = key) as -> by congruence.
    destruct Hd as (_ & _ & _ & _ & _ & (e & _ & _ & _ & Hw) & _). rewrite Hcorr in Hw.
    unfold wide in Hw. apply Nat.leb_le in Hw. cbn [str_or] in Hw. lia.
Qed.

End guarantees.

(** ** A concrete run: persisted, replayed, in conflict *)

Definition doc_company_row : Company :=
  MkCompany 1 "11222333000181" "Empresa" CompanyStatus.ACTIVE None None None 1 0 0.

Definition original (id : N) (body : string) : Artifact :=
  MkArtifact id "fiscal_xml" ("nfe:" ++ body) "artifacts/x/v1" "sha256" (sha256 body) (Some (slen body))
    "application/xml" "application/xml" ArtifactState.FINALIZED 1 "" 0 (Some 0%Z) 0.

Definition doc_start : World MemoryBucket.t :=
  MemoryBucket.world (empty_db <| companies := {[1%N := doc_company_row]} |>
                        <| artifacts := <[2%N := original 2 "first"]> {[3%N := original 3 "second"]} |>) (seconds 5) 10.

Definition doc_input (artifact : N) (correlation : string) (source : string) : DocumentInput :=
  MkDocumentInput (RefUuid 1) "nfe" "emitente" "nfe_completa" source "nfe"
    (MkFiscalIdentity (Some "3525-0811.2223") None None None None) (Aware (seconds 5)) (RefUuid artifact) "exec:1" None
    "authorized" correlation "document" None None.

Definition persisted : result exn DocumentPersistenceResult * World MemoryBucket.t :=
  persist_document (doc_input 2 "c-1" "sefaz") doc_start.
Definition conflicted : result exn DocumentPersistenceResult * World MemoryBucket.t :=
  persist_document (doc_input 3 "c-1" "sefaz") persisted.2.

Definition some_result : DocumentPersistenceResult :=
  MkPersistenceResult DocumentPersistenceStatus.PERSISTED (Some 10%N) None (Some 11%N) None.

Lemma docs_inv_start : docs_inv doc_start.
Proof.
  split; [|split; intros i [x Hx]; vm_compute in Hx; done].
  split; intros ? ? Hx; vm_compute in Hx; done.
Qed.

Lemma normalize_identifier_canonical_witness :
  _normalize_identifier "3525-08.11 a" "Official" = Ok "35250811A" /\
  _IDENTIFIER "35250811A" = true /\ forall label', _normalize_identifier "35250811A" label' = Ok "35250811A".
Proof.
  split; [vm_compute; reflexivity|].
  apply (normalize_identifier_canonical "3525-08.11 a" "Official"). vm_compute. reflexivity.
Defined.

Lemma persist_document_decision_witness :
  pr_status some_result = DocumentPersistenceStatus.PERSISTED /\
  exists company aid artifact selection key,
    uuid_of (RefUuid 1) = Some company /\ uuid_of (RefUuid 2) = Some aid /\
    artifacts (db doc_start) !! aid = Some artifact /\ original_artifact artifact = true /\
    select_strongest_identity (di_identity (doc_input 2 "c-1" "sefaz")) = Ok selection /\
    _identity_key company (doc_input 2 "c-1" "sefaz") selection = Ok key /\
    decided (doc_input 2 "c-1" "sefaz") key artifact some_result doc_start persisted.2.
Proof.
  split; [reflexivity|].
  apply (persist_document_decision (doc_input 2 "c-1" "sefaz") doc_start persisted.2 (Ok some_result));
    [reflexivity | vm_compute; reflexivity].
Defined.

Lemma documents_invariant_witness :
  docs_inv (persist_document (doc_input 2 "c-1" "sefaz") doc_start).2 /\
  docs_inv (attach_document_evidence (RefUuid 10) (RefUuid 3) doc_start).2.
Proof.
  apply (documents_invariant (doc_input 2 "c-1" "sefaz") (RefUuid 10) (RefUuid 3) doc_start). exact docs_inv_start.
Defined.

Definition replayed : result exn DocumentPersistenceResult * World MemoryBucket.t :=
  persist_document (doc_input 2 "c-1" "sefaz") persisted.2.
Definition replay_result : DocumentPersistenceResult :=
  MkPersistenceResult DocumentPersistenceStatus.REPLAY (Some 10%N) None (Some 11%N) None.

Lemma persist_document_replay_witness :
  pr_status replay_result = DocumentPersistenceStatus.REPLAY /\
  pr_document_id replay_result = pr_document_id some_result /\
  documents (db replayed.2) = documents (db persisted.2) /\ evidence (db replayed.2) = evidence (db persisted.2).
Proof.
  apply (persist_document_replay (doc_input 2 "c-1" "sefaz") doc_start persisted.2 persisted.2 replayed.2
           some_result replay_result);
    [exact docs_inv_start | reflexivity | done | vm_compute; reflexivity | reflexivity | reflexivity | reflexivity
    | vm_compute; reflexivity].
Defined.

(** Different bytes under the identity. *)
Example conflict_detected :
  conflicted.1 = Ok (MkPersistenceResult DocumentPersistenceStatus.CONFLICT (Some 10%N) None (Some 13%N)
                       (Some "content_hash_mismatch")).
Proof. vm_compute. reflexivity. Qed.

Definition long_source : string :=
  "sefaz-ambiente-nacional-distribuicao-de-documentos-fiscais-sp".

Definition long_key : string :=
  "00000000-0000-0000-0000-000000000001|nfe|emitente|nfe_completa|" ++ long_source ++ "|nfe|official_key|352508112223".

Lemma long_identity_unpersistable_witness :
  is_ok (persist_document (doc_input 2 "" long_source) doc_start).1 = false /\
  db (persist_document (doc_input 2 "" long_source) doc_start).2 = db doc_start.
Proof.
  apply (long_identity_unpersistable (doc_input 2 "" long_source) doc_start
           (persist_document (doc_input 2 "" long_source) doc_start).2
           (persist_document (doc_input 2 "" long_source) doc_start).1 1
           (MkIdentitySelection "official_key" "352508112223") long_key);
    [reflexivity | reflexivity | vm_compute; reflexivity | vm_compute; reflexivity | vm_compute; reflexivity
    | vm_compute; lia | apply surjective_pairing].
Defined.
