(* ===== verification/Simulation.v ===== *)
(** * Fiscal adapter port and its simulator (adapters/simulation.py)

    The values an adapter exchanges with collection (request, unit, response)
    with their construction-time validation, the adapter protocol, the
    deterministic simulator as a state machine over its scenario, the generated
    scenarios, and the bridge to the generic job outcome. *)

From Stdlib Require Import ZArith Ascii String Lia.
From stdpp Require Import base decidable list gmap strings.
From S2P Require Import Prelude PyStr Sha256 PyVal Models JobEngine.

Local Open Scope string_scope.

Definition lower_word_char (extra : string) (c : ascii) : bool := is_lower c || is_digit c || char_in extra c.

Definition _SAFE_REFERENCE (s : string) : bool := re_head is_lower (lower_word_char "_.:/-") 1 127 s.

Definition _SAFE_CODE (s : string) : bool := re_head is_lower (lower_word_char "_.-") 0 63 s.

Definition _FORBIDDEN_REFERENCE (s : string) : bool :=
  search_ci ["http"; "soap"; "pfx"; "pem"; "token"; "credential"; "password"; "secret"; "private"; "production"] s.

Definition _FORBIDDEN_METADATA (s : string) : bool :=
  search_ci ["xml"; "pdf"; "pfx"; "pem"; "token"; "credential"; "password"; "secret"; "private"; "content"; "payload"] s.

Module FiscalFamily.
Variant t : Set := NFE | ADN.
#[global] Instance eq_dec : EqDecision t.
Proof. solve_decision. Defined.
Definition values : list t := [NFE; ADN].
Definition value (x : t) : string := match x with NFE => "nfe" | ADN => "adn" end.
Definition of_value (s : string) : option t := find_value value values s.
End FiscalFamily.

Module FiscalOutcome.
Variant t : Set :=
| SUCCESS | EMPTY | NO_COVERAGE | UNAVAILABLE | TIMEOUT | PARTIAL | COOLDOWN | BLOCKED | DUPLICATE | CONFLICT
| MALFORMED | UNKNOWN | EVENT_WITHOUT_PARENT | REPEATED_CURSOR.
#[global] Instance eq_dec : EqDecision t.
Proof. solve_decision. Defined.
Definition value (x : t) : string :=
  match x with
  | SUCCESS => "success" | EMPTY => "empty" | NO_COVERAGE => "no_coverage" | UNAVAILABLE => "unavailable"
  | TIMEOUT => "timeout" | PARTIAL => "partial" | COOLDOWN => "cooldown" | BLOCKED => "blocked"
  | DUPLICATE => "duplicate" | CONFLICT => "conflict" | MALFORMED => "malformed" | UNKNOWN => "unknown"
  | EVENT_WITHOUT_PARENT => "event_without_parent" | REPEATED_CURSOR => "repeated_cursor"
  end.
End FiscalOutcome.

Module Coverage.
Variant t : Set := AVAILABLE | NONE | UNKNOWN.
#[global] Instance eq_dec : EqDecision t.
Proof. solve_decision. Defined.
Definition value (x : t) : string :=
  match x with AVAILABLE => "available" | NONE => "none" | UNKNOWN => "unknown" end.
End Coverage.

Module ScenarioName.
Variant t : Set :=
| PAGINATED_SUCCESS | VALID_EMPTY | NO_COVERAGE | DUPLICATE_EQUAL_HASH | IDENTITY_CONFLICT | TIMEOUT | UNAVAILABLE
| COOLDOWN | PERMANENT_BLOCK | MALFORMED_PAYLOAD | UNKNOWN_OUTCOME | EVENT_WITHOUT_PARENT | REPEATED_CURSOR
| PARTIAL_RESULT | INTERRUPTION_RESTART | EVENT_WITH_PARENT | SUBSTITUTION.
#[global] Instance eq_dec : EqDecision t.
Proof. solve_decision. Defined.
Definition values : list t :=
  [PAGINATED_SUCCESS; VALID_EMPTY; NO_COVERAGE; DUPLICATE_EQUAL_HASH; IDENTITY_CONFLICT; TIMEOUT; UNAVAILABLE;
   COOLDOWN; PERMANENT_BLOCK; MALFORMED_PAYLOAD; UNKNOWN_OUTCOME; EVENT_WITHOUT_PARENT; REPEATED_CURSOR;
   PARTIAL_RESULT; INTERRUPTION_RESTART; EVENT_WITH_PARENT; SUBSTITUTION].
Definition value (x : t) : string :=
  match x with
  | PAGINATED_SUCCESS => "paginated_success" | VALID_EMPTY => "valid_empty" | NO_COVERAGE => "no_coverage"
  | DUPLICATE_EQUAL_HASH => "duplicate_equal_hash" | IDENTITY_CONFLICT => "identity_conflict" | TIMEOUT => "timeout"
  | UNAVAILABLE => "unavailable" | COOLDOWN => "cooldown" | PERMANENT_BLOCK => "permanent_block"
  | MALFORMED_PAYLOAD => "malformed_payload" | UNKNOWN_OUTCOME => "unknown_outcome"
  | EVENT_WITHOUT_PARENT => "event_without_parent" | REPEATED_CURSOR => "repeated_cursor"
  | PARTIAL_RESULT => "partial_result" | INTERRUPTION_RESTART => "interruption_restart"
  | EVENT_WITH_PARENT => "event_with_parent" | SUBSTITUTION => "substitution"
  end.
Definition of_value (s : string) : option t := find_value value values s.
End ScenarioName.

(** ** References and codes *)

Definition unsafe_reference (field_name : string) : result exn string :=
  Err (ValueError (field_name ++ " must be a safe reference")).

Definition _reference (field_name value : string) : result exn string :=
  if _SAFE_REFERENCE value && negb (_FORBIDDEN_REFERENCE value) then Ok value else unsafe_reference field_name.

(** The [is not None] guard in front of it. *)
Definition _reference_opt (field_name : string) (value : option string) : result exn string :=
  match value with Some v => _reference field_name v | None => Ok "" end.

Definition scenario_error {A} (msg : string) : result exn A := Err (ScenarioValidationError msg).

Definition _code (value : string) : result exn string :=
  if _SAFE_CODE value then Ok value else scenario_error "scenario error code is unsafe".

(** Checks in sequence; the first failure is raised. *)
Fixpoint checks (l : list (result exn string)) : result exn unit :=
  match l with
  | [] => Ok tt
  | Ok _ :: rest => checks rest
  | Err e :: _ => Err e
  end.

Definition check (ok : bool) (msg : string) : result exn string := if ok then Ok "" else scenario_error msg.

Definition naive_opt (t : option datetime) : bool := match t with Some t => is_naive t | None => false end.

(** ** Values *)

Record FiscalRequest : Type := MkFiscalRequest {
  rq_source : string;
  rq_family : FiscalFamily.t;
  rq_actor : string;
  rq_flow : string;
  rq_cursor : option string;
  rq_policy_reference : string;
  rq_certificate_handle : string;
  rq_correlation_id : string }.

(** [FiscalRequest(...)]: the value, or what [__post_init__] raises. *)
Definition request_post_init (r : FiscalRequest) : result exn FiscalRequest :=
  match checks [_reference "source" (rq_source r); _reference "actor" (rq_actor r); _reference "flow" (rq_flow r);
                _reference_opt "cursor" (rq_cursor r); _reference "policy_reference" (rq_policy_reference r);
                _reference "certificate_handle" (rq_certificate_handle r);
                _reference "correlation_id" (rq_correlation_id r)] with
  | Ok _ => Ok r
  | Err e => Err e
  end.

Record FiscalUnit : Type := MkFiscalUnit {
  fu_identity : string;
  fu_content_hash : string;
  fu_kind : string;
  fu_parent_identity : option string;
  fu_synthetic : bool;
  fu_occurred_at : option datetime }.

Definition unit_post_init (u : FiscalUnit) : result exn FiscalUnit :=
  match checks [_reference "identity" (fu_identity u);
                check (is_hex64 (fu_content_hash u)) "synthetic unit hash is invalid";
                _code (fu_kind u);
                _reference_opt "parent_identity" (fu_parent_identity u);
                check (negb (naive_opt (fu_occurred_at u))) "synthetic unit timestamp must be timezone-aware";
                check (fu_synthetic u) "only generated synthetic units are supported"] with
  | Ok _ => Ok u
  | Err e => Err e
  end.

Record FiscalResponse : Type := MkFiscalResponse {
  fr_outcome : FiscalOutcome.t;
  fr_units : list FiscalUnit;
  fr_next_cursor : option string;
  fr_next_nsu : option string;
  fr_coverage : Coverage.t;
  fr_cooldown_until : option datetime;
  fr_error_code : string;
  fr_safe_metadata : pydict }.

(** [isinstance(value, bool | int | str)] *)
Definition plain_value (v : pyval) : bool :=
  match v with VBool _ | VInt _ | VStr _ => true | _ => false end.

Definition safe_item (kv : string * pyval) : bool :=
  _SAFE_CODE kv.1 && negb (_FORBIDDEN_METADATA kv.1) && plain_value kv.2.

Definition response_post_init (r : FiscalResponse) : result exn FiscalResponse :=
  match checks [_reference_opt "next_cursor" (fr_next_cursor r);
                _reference_opt "next_nsu" (fr_next_nsu r);
                check (negb (is_some (fr_next_cursor r) && is_some (fr_next_nsu r)))
                  "response cannot contain both cursor and NSU";
                check (negb (naive_opt (fr_cooldown_until r))) "cooldown must be timezone-aware";
                check (negb (bool_decide (fr_outcome r = FiscalOutcome.COOLDOWN) && negb (is_some (fr_cooldown_until r))))
                  "cooldown must include a deadline";
                (if str_nonempty (fr_error_code r) then _code (fr_error_code r) else Ok "");
                check (forallb safe_item (fr_safe_metadata r)) "response metadata is unsafe"] with
  | Ok _ => Ok r
  | Err e => Err e
  end.

(** The dictionary every job outcome carries. *)
Definition job_result (r : FiscalResponse) : pydict :=
  [("outcome", VStr (FiscalOutcome.value (fr_outcome r)));
   ("unit_count", VInt (Z.of_nat (length (fr_units r))));
   ("next_cursor", vstr_opt (fr_next_cursor r));
   ("next_nsu", vstr_opt (fr_next_nsu r));
   ("coverage", VStr (Coverage.value (fr_coverage r)))].

Definition as_job_outcome (r : FiscalResponse) : HandlerOutcome :=
  match fr_outcome r with
  | FiscalOutcome.SUCCESS | FiscalOutcome.EMPTY | FiscalOutcome.DUPLICATE => outcome_success (job_result r)
  | FiscalOutcome.COOLDOWN =>
      outcome_cooldown (fr_cooldown_until r) (str_or (fr_error_code r) "synthetic_cooldown") (job_result r)
  | FiscalOutcome.BLOCKED => outcome_permanent (str_or (fr_error_code r) "synthetic_blocked") (job_result r)
  | FiscalOutcome.UNAVAILABLE | FiscalOutcome.TIMEOUT | FiscalOutcome.REPEATED_CURSOR =>
      outcome_temporary (str_or (fr_error_code r) (FiscalOutcome.value (fr_outcome r))) (job_result r)
  | _ => outcome_partial (str_or (fr_error_code r) (FiscalOutcome.value (fr_outcome r))) (job_result r)
  end.

(** ** Scenarios *)

Record ScenarioStep : Type := MkScenarioStep { ss_request_cursor : option string; ss_response : FiscalResponse }.

Record SyntheticScenario : Type := MkSyntheticScenario {
  sc_name : ScenarioName.t;
  sc_family : FiscalFamily.t;
  sc_seed : Z;
  sc_steps : list ScenarioStep }.

Definition scenario_post_init (s : SyntheticScenario) : result exn SyntheticScenario :=
  match checks (check (Z.leb 0 (sc_seed s)) "scenario seed is invalid"
                :: check (negb (bool_decide (sc_steps s = []))) "scenario must contain an ordered step sequence"
                :: map (fun step => _reference_opt "request_cursor" (ss_request_cursor step)) (sc_steps s)) with
  | Ok _ => Ok s
  | Err e => Err e
  end.

(** Sequencing of the constructors, each of which may raise. *)
Definition construct {A C} (m : result exn A) (k : A -> result exn C) : result exn C :=
  match m with Ok a => k a | Err e => Err e end.

Notation "'let?' x ':=' m 'in' k" := (construct m (fun x => k))
  (at level 10, x name, m at level 100, k at level 200) : nfx_scope.

(** [hashlib.sha256(f"nfx-synthetic-unit:{identity}".encode())] *)
Definition synthetic_marker (identity : string) : string := encode_utf8 ("nfx-synthetic-unit:" ++ identity).

Definition synthetic_identity (family : FiscalFamily.t) (seed : Z) (label : string) : string :=
  "synthetic:" ++ FiscalFamily.value family ++ ":" ++ str_of_Z seed ++ ":" ++ label.

(** The keyword [variant] is accepted and not used. *)
Definition _unit (family : FiscalFamily.t) (seed : Z) (label : string) (variant : Z) (kind : string)
    (parent : option string) : result exn FiscalUnit :=
  let identity := synthetic_identity family seed label in
  unit_post_init (MkFiscalUnit identity (sha256 (synthetic_marker identity)) kind parent true None).

Definition _response (outcome : FiscalOutcome.t) (units : list FiscalUnit) (next_cursor next_nsu : option string)
    (coverage : Coverage.t) (error_code : string) (cooldown_until : option datetime) : result exn FiscalResponse :=
  response_post_init
    (MkFiscalResponse outcome units next_cursor next_nsu coverage cooldown_until error_code [("generated", VBool true)]).

(** [_response(outcome, units=units, next_cursor=...)] or [next_nsu=...], by family. *)
Definition positioned (family : FiscalFamily.t) (outcome : FiscalOutcome.t) (units : list FiscalUnit)
    (position error_code : string) : result exn FiscalResponse :=
  match family with
  | FiscalFamily.NFE => _response outcome units (Some position) None Coverage.AVAILABLE error_code None
  | FiscalFamily.ADN => _response outcome units None (Some position) Coverage.AVAILABLE error_code None
  end.

(** A response carrying units only, and one that reports a failure of the source. *)
Definition with_units (outcome : FiscalOutcome.t) (units : list FiscalUnit) (error_code : string) : result exn FiscalResponse :=
  _response outcome units None None Coverage.AVAILABLE error_code None.

Definition failing (outcome : FiscalOutcome.t) (error_code : string) : result exn FiscalResponse :=
  _response outcome [] None None Coverage.UNKNOWN error_code None.

Definition one_step (m : result exn FiscalResponse) : result exn (list ScenarioStep) :=
  let? r := m in Ok [MkScenarioStep None r].

Definition two_steps (m1 : result exn FiscalResponse) (cursor : string) (m2 : result exn FiscalResponse) :
    result exn (list ScenarioStep) :=
  let? r1 := m1 in let? r2 := m2 in Ok [MkScenarioStep None r1; MkScenarioStep (Some cursor) r2].

(** [datetime(2030, 1, 1, tzinfo=UTC)] *)
Definition new_year_2030 : datetime := Aware (days 21915).

Definition scenario_steps (name : ScenarioName.t) (family : FiscalFamily.t) (seed : Z) (first second : FiscalUnit) :
    result exn (list ScenarioStep) :=
  let unit_of label kind parent := _unit family seed label 0 kind parent in
  match name with
  | ScenarioName.PAGINATED_SUCCESS =>
      let continuation := match family with FiscalFamily.NFE => "cursor-1" | FiscalFamily.ADN => "nsu-1" end in
      two_steps (positioned family FiscalOutcome.SUCCESS [first] continuation "") continuation
        (with_units FiscalOutcome.SUCCESS [second] "")
  | ScenarioName.INTERRUPTION_RESTART =>
      two_steps (_response FiscalOutcome.SUCCESS [first] (Some "cursor-restart") None Coverage.AVAILABLE "" None)
        "cursor-restart" (with_units FiscalOutcome.SUCCESS [second] "")
  | ScenarioName.VALID_EMPTY => one_step (with_units FiscalOutcome.EMPTY [] "")
  | ScenarioName.NO_COVERAGE =>
      one_step (_response FiscalOutcome.NO_COVERAGE [] None None Coverage.NONE "" None)
  | ScenarioName.DUPLICATE_EQUAL_HASH => one_step (with_units FiscalOutcome.DUPLICATE [first] "")
  | ScenarioName.IDENTITY_CONFLICT =>
      let? other := _unit family seed "first" 1 "document" None in
      one_step (with_units FiscalOutcome.CONFLICT [first; other] "identity_conflict")
  | ScenarioName.TIMEOUT => one_step (failing FiscalOutcome.TIMEOUT "source_timeout")
  | ScenarioName.UNAVAILABLE => one_step (failing FiscalOutcome.UNAVAILABLE "source_unavailable")
  | ScenarioName.COOLDOWN =>
      one_step (_response FiscalOutcome.COOLDOWN [] None None Coverage.UNKNOWN "official_cooldown" (Some new_year_2030))
  | ScenarioName.PERMANENT_BLOCK => one_step (failing FiscalOutcome.BLOCKED "authorization_blocked")
  | ScenarioName.MALFORMED_PAYLOAD => one_step (failing FiscalOutcome.MALFORMED "malformed_payload")
  | ScenarioName.UNKNOWN_OUTCOME => one_step (failing FiscalOutcome.UNKNOWN "unknown_response")
  | ScenarioName.EVENT_WITHOUT_PARENT =>
      let? event := unit_of "event" "event" (Some "synthetic:missing-parent") in
      one_step (with_units FiscalOutcome.EVENT_WITHOUT_PARENT [event] "event_parent_missing")
  | ScenarioName.EVENT_WITH_PARENT =>
      let? parent := unit_of "parent" "document" None in
      let? event := unit_of "event" "event" (Some (fu_identity parent)) in
      one_step (with_units FiscalOutcome.SUCCESS [parent; event] "")
  | ScenarioName.SUBSTITUTION =>
      let? parent := unit_of "parent" "document" None in
      let? substitution := unit_of "substitution" "substitution" (Some (fu_identity parent)) in
      one_step (with_units FiscalOutcome.SUCCESS [parent; substitution] "")
  | ScenarioName.REPEATED_CURSOR =>
      two_steps (positioned family FiscalOutcome.SUCCESS [first] "cursor-repeat" "") "cursor-repeat"
        (positioned family FiscalOutcome.REPEATED_CURSOR [] "cursor-repeat" "cursor_repeated")
  | ScenarioName.PARTIAL_RESULT =>
      one_step (positioned family FiscalOutcome.PARTIAL [first] "cursor-partial" "partial_result")
  end.

(** [name: ScenarioName | str] *)
Definition scenario_name (name : ScenarioName.t + string) : result exn ScenarioName.t :=
  match name with
  | inl n => Ok n
  | inr s => match ScenarioName.of_value s with
             | Some n => Ok n
             | None => scenario_error "unknown synthetic scenario"
             end
  end.

Definition build_scenario (name : ScenarioName.t + string) (family : FiscalFamily.t) (seed : Z) : result exn SyntheticScenario :=
  let? scenario := scenario_name name in
  if Z.ltb seed 0 then scenario_error "scenario seed is invalid"
  else
    let? first := _unit family seed "first" 0 "document" None in
    let? second := _unit family seed "second" 0 "document" None in
    let? steps := scenario_steps scenario family seed first second in
    scenario_post_init (MkSyntheticScenario scenario family seed steps).

(** ** The adapter and its simulator *)

(** The protocol: a family, and a stateful [collect]. *)
Class FiscalAdapter (A : Type) : Type := {
  adapter_family : A -> FiscalFamily.t;
  collect : FiscalRequest -> ST A exn FiscalResponse }.

Record TransportCall : Type := MkTransportCall {
  tc_family : FiscalFamily.t; tc_source : string; tc_flow : string; tc_cursor : option string; tc_correlation_id : string }.

(** [DeterministicFiscalSimulator] with its [FakeFiscalTransport]: [NFeSimulator]
    and [AdnSimulator] fix [sim_family]. *)
Record Simulator : Type := MkSimulator {
  sim_family : FiscalFamily.t;
  sim_scenario : SyntheticScenario;
  sim_calls : list TransportCall;
  sim_step_index : nat }.
#[export] Instance eta_Simulator : Eta Simulator := fun r =>
  MkSimulator (sim_family r) (sim_scenario r) (sim_calls r) (sim_step_index r).

Definition new_simulator (family : FiscalFamily.t) (scenario : SyntheticScenario) (calls : list TransportCall) :
    result exn Simulator :=
  if bool_decide (sc_family scenario = family) then Ok (MkSimulator family scenario calls 0)
  else scenario_error "scenario family does not match adapter".

Definition call_of (r : FiscalRequest) : TransportCall :=
  MkTransportCall (rq_family r) (rq_source r) (rq_flow r) (rq_cursor r) (rq_correlation_id r).

(** [FakeFiscalTransport.exchange] *)
Definition exchange (request : FiscalRequest) (response : unit -> FiscalResponse) : ST Simulator exn FiscalResponse :=
  modify (fun s => s <| sim_calls ::= fun calls => (calls ++ [call_of request])%list |>) ;;;
  ret (response tt).

Definition simulator_collect (request : FiscalRequest) : ST Simulator exn FiscalResponse :=
  let* s := gets (fun s => s) in
  require (bool_decide (rq_family request = sim_family s)) (ScenarioExecutionError "request family does not match adapter") ;;;
  let* step := of_option (sc_steps (sim_scenario s) !! sim_step_index s)
                 (ScenarioExecutionError "scenario has no remaining step") in
  require (bool_decide (rq_cursor request = ss_request_cursor step))
    (ScenarioExecutionError "request cursor does not match scenario step") ;;;
  modify (fun s => s <| sim_step_index ::= S |>) ;;;
  exchange request (fun _ => ss_response step).

#[export] Instance simulator_adapter : FiscalAdapter Simulator := {|
  adapter_family := sim_family; collect := simulator_collect |}.

(** ** The bridge to the job handlers *)

(** [payload["k"]], a string once [FiscalRequest] accepts it. *)
Definition payload_str (d : pydict) (k : string) : option string :=
  match dget d k with Some (VStr s) => Some s | _ => None end.

(** [payload.get("cursor")]: absent and [None] alike; the outer [None] is the [ValueError]. *)
Definition payload_cursor (d : pydict) : option (option string) :=
  match dget d "cursor" with
  | None | Some VNone => Some None
  | Some (VStr s) => Some (Some s)
  | Some _ => None
  end.

(** Every [KeyError], [TypeError] or [ValueError] here becomes the same error. *)
Definition request_of_payload (payload : pyval) : option FiscalRequest :=
  match payload with
  | VDict d =>
      match payload_str d "source", payload_str d "family", payload_str d "actor", payload_str d "flow",
            payload_cursor d, payload_str d "policy_reference", payload_str d "certificate_handle",
            payload_str d "correlation_id" with
      | Some source, Some family, Some actor, Some flow, Some cursor, Some policy, Some certificate, Some correlation =>
          match FiscalFamily.of_value family with
          | Some family =>
              match request_post_init (MkFiscalRequest source family actor flow cursor policy certificate correlation) with
              | Ok r => Some r
              | Err _ => None
              end
          | None => None
          end
      | _, _, _, _, _, _, _, _ => None
      end
  | _ => None
  end.

Definition make_simulator_handler {A} `{FiscalAdapter A} (job : Job) : ST A exn HandlerOutcome :=
  let* request := of_option (request_of_payload (job_payload job))
                    (ScenarioExecutionError "synthetic job context is invalid") in
  let* response := collect request in
  ret (as_job_outcome response).
