(* ===== verification/Ingestion.v ===== *)
(** * Page ingestion (collection/ingestion.py)

    One adapter response is one page: it is registered against the checkpoint of
    its scope, each unit is stored, persisted as a document and settled, and the
    page then advances the checkpoint, or is left for a retry. *)

From Stdlib Require Import ZArith Ascii String Lia.
From stdpp Require Import base decidable list gmap strings.
From S2P Require Import Prelude PyStr Sha256 PyVal Models Tables AuditTrail Artifacts Documents Simulation.

Local Open Scope string_scope.

Definition _REFERENCE (s : string) : bool :=
  re_rep (fun c => is_alpha c || is_digit c || char_in "_.:/-" c) 1 128 s.

(** [^[A-Za-z0-9_.:/-]{1,64}$], the check constraint of every [flow] column. *)
Definition flow_column (s : string) : bool :=
  re_rep (fun c => is_alpha c || is_digit c || char_in "_.:/-" c) 1 64 s.

Definition _FAMILY : list string := ["nfe"; "adn"; "nfse"].

(** [IngestionError] and the subclass for positions. *)
Definition ingestion_error {A} (msg : string) : result exn A := Err (IngestionError msg).

Module UnitOutcome.
Variant t : Set := PENDING | PERSISTED | REPLAY | QUARANTINE | CONFLICT | FAILED.
#[global] Instance eq_dec : EqDecision t.
Proof. solve_decision. Defined.
Definition values : list t := [PENDING; PERSISTED; REPLAY; QUARANTINE; CONFLICT; FAILED].
Definition value (x : t) : string :=
  match x with
  | PENDING => "pending" | PERSISTED => "persisted" | REPLAY => "replay" | QUARANTINE => "quarantine"
  | CONFLICT => "conflict" | FAILED => "failed"
  end.
End UnitOutcome.

(** [UnitOutcome(state)], and [treatment.value] in a state column. *)
Definition outcome_of_state (s : ReceivedUnitState.t) : UnitOutcome.t :=
  match s with
  | ReceivedUnitState.PENDING => UnitOutcome.PENDING
  | ReceivedUnitState.PERSISTED => UnitOutcome.PERSISTED
  | ReceivedUnitState.REPLAY => UnitOutcome.REPLAY
  | ReceivedUnitState.QUARANTINE => UnitOutcome.QUARANTINE
  | ReceivedUnitState.CONFLICT => UnitOutcome.CONFLICT
  | ReceivedUnitState.FAILED => UnitOutcome.FAILED
  end.

Definition state_of_outcome (o : UnitOutcome.t) : ReceivedUnitState.t :=
  match o with
  | UnitOutcome.PENDING => ReceivedUnitState.PENDING
  | UnitOutcome.PERSISTED => ReceivedUnitState.PERSISTED
  | UnitOutcome.REPLAY => ReceivedUnitState.REPLAY
  | UnitOutcome.QUARANTINE => ReceivedUnitState.QUARANTINE
  | UnitOutcome.CONFLICT => ReceivedUnitState.CONFLICT
  | UnitOutcome.FAILED => ReceivedUnitState.FAILED
  end.

(** [UnitOutcome(persisted.status.value)] *)
Definition outcome_of_status (s : DocumentPersistenceStatus.t) : UnitOutcome.t :=
  match s with
  | DocumentPersistenceStatus.PERSISTED => UnitOutcome.PERSISTED
  | DocumentPersistenceStatus.REPLAY => UnitOutcome.REPLAY
  | DocumentPersistenceStatus.QUARANTINE => UnitOutcome.QUARANTINE
  | DocumentPersistenceStatus.CONFLICT => UnitOutcome.CONFLICT
  end.

Definition INGESTION_TERMINAL_UNIT_STATES : list ReceivedUnitState.t :=
  [ReceivedUnitState.PERSISTED; ReceivedUnitState.REPLAY; ReceivedUnitState.QUARANTINE; ReceivedUnitState.CONFLICT].

(** [state in INGESTION_TERMINAL_UNIT_STATES] *)
Definition terminal (s : ReceivedUnitState.t) : bool := bool_decide (s ∈ INGESTION_TERMINAL_UNIT_STATES).

(** ** Requests and results *)

Record IngestionContext : Type := MkIngestionContext {
  ic_company_id : uuid_ref;
  ic_family : string;
  ic_flow : string;
  ic_source : string;
  ic_execution_ref : string;
  ic_correlation_id : string;
  ic_request_cursor : option string;
  ic_request_nsu : option string;
  ic_execution_id : option uuid_ref;
  ic_page_key : option string;
  ic_document_flow : option string }.

Definition reference_opt (o : option string) : bool := match o with Some s => _REFERENCE s | None => true end.

(** [context.validate()] *)
Definition validate (c : IngestionContext) : result exn unit :=
  if negb (is_some (uuid_of (ic_company_id c))) then ingestion_error "company reference is invalid"
  else if negb (str_in (ic_family c) _FAMILY) then ingestion_error "fiscal family is unsupported"
  else if negb (forallb _REFERENCE [ic_flow c; ic_source c; ic_execution_ref c; ic_correlation_id c])
  then ingestion_error "ingestion reference is invalid"
  else if is_some (ic_request_cursor c) && is_some (ic_request_nsu c)
  then ingestion_error "request cannot contain both cursor and NSU"
  else if negb (reference_opt (ic_request_cursor c) && reference_opt (ic_request_nsu c))
  then ingestion_error "request continuation is invalid"
  else if negb (reference_opt (ic_page_key c) && reference_opt (ic_document_flow c))
  then ingestion_error "ingestion operation reference is invalid"
  else Ok tt.

Record IngestionDocumentMetadata : Type := MkMetadata {
  md_emitted_at : datetime;
  md_identity : FiscalIdentity;
  md_role : string;
  md_category : string;
  md_authorized_at : option datetime;
  md_situation : string;
  md_parent_document_id : option uuid_ref;
  md_relationship_type : option string }.
#[export] Instance eta_IngestionDocumentMetadata : Eta IngestionDocumentMetadata := fun r =>
  MkMetadata (md_emitted_at r) (md_identity r) (md_role r) (md_category r) (md_authorized_at r) (md_situation r)
    (md_parent_document_id r) (md_relationship_type r).

Record IngestionResult : Type := MkIngestionResult {
  ir_page_id : N;
  ir_page_state : IngestionPageState.t;
  ir_unit_states : list UnitOutcome.t;
  ir_advanced : bool;
  ir_next_cursor : option string;
  ir_next_nsu : option string;
  ir_safe_reason : string;
  ir_outcome : IngestionOutcome.t;
  ir_recovery : IngestionRecovery.t }.

Record IngestionClassification : Type := MkClassification {
  cl_page_state : IngestionPageState.t;
  cl_outcome : IngestionOutcome.t;
  cl_recovery : IngestionRecovery.t;
  cl_reason : string;
  cl_can_advance : bool }.

(** The two injected callables; a metadata factory may read the clock. *)
Definition PayloadFactory : Type := FiscalUnit -> result exn (list pyval).
Definition DocumentMetadataFactory : Type := FiscalUnit -> IngestionContext -> Z -> result exn IngestionDocumentMetadata.

Definition synthetic_payload : PayloadFactory := fun unit =>
  let payload := synthetic_marker (fu_identity unit) in
  if String.eqb (sha256 payload) (fu_content_hash unit) then Ok [VBytes payload]
  else ingestion_error "synthetic unit hash does not match its reference".

Definition _document_family (family : string) : string :=
  DocumentFamily.value (if String.eqb family "nfe" then DocumentFamily.NFE else DocumentFamily.NFSE).

Definition _default_metadata : DocumentMetadataFactory := fun unit _ now =>
  Ok (MkMetadata (opt_default (Aware now) (fu_occurred_at unit))
        (MkFiscalIdentity None (Some (fu_identity unit)) None None None)
        "entrada" (fu_kind unit) None (DocumentSituation.value DocumentSituation.UNKNOWN) None
        (if String.eqb (fu_kind unit) "event" then Some (DocumentRelationship.value DocumentRelationship.EVENT)
         else if String.eqb (fu_kind unit) "substitution"
         then Some (DocumentRelationship.value DocumentRelationship.SUBSTITUTION) else None)).

Definition _safe_reason (value : string) : string := if _SAFE_CODE value then value else "ingestion_failure".

(** [_POSITION_NUMBER]: the digits at the end, after a separator or alone; [$]
    also matches before a final newline. *)
Definition _position_number (value : string) : option Z :=
  let reversed := match srev value with
                  | String c t => if N.eqb (code c) 10 then t else String c t
                  | EmptyString => EmptyString
                  end in
  let '(digits, before) := Url.span (fun c => negb (is_digit c)) reversed in
  if str_nonempty digits && match before with EmptyString => true | String c _ => char_in ":_-" c end
  then option_map Z.of_N (digits_value 10 0 (chars (srev digits))) else None.

(** ** Classification *)

Definition classify_page_response (response : FiscalResponse) : IngestionClassification :=
  let reason := _safe_reason (str_or (fr_error_code response) (FiscalOutcome.value (fr_outcome response))) in
  match fr_outcome response with
  | FiscalOutcome.SUCCESS | FiscalOutcome.DUPLICATE =>
      match fr_units response with
      | [] => MkClassification IngestionPageState.EMPTY IngestionOutcome.VALID_EMPTY IngestionRecovery.NONE
                "query_valid_empty" true
      | _ => MkClassification IngestionPageState.COMPLETE IngestionOutcome.SUCCESS IngestionRecovery.NONE "" true
      end
  | FiscalOutcome.EMPTY =>
      MkClassification IngestionPageState.EMPTY IngestionOutcome.VALID_EMPTY IngestionRecovery.NONE
        "query_valid_empty" true
  | FiscalOutcome.NO_COVERAGE =>
      MkClassification IngestionPageState.NO_COVERAGE IngestionOutcome.NO_COVERAGE IngestionRecovery.NONE reason false
  | FiscalOutcome.UNAVAILABLE =>
      MkClassification IngestionPageState.UNAVAILABLE IngestionOutcome.UNAVAILABLE IngestionRecovery.RETRY reason false
  | FiscalOutcome.TIMEOUT =>
      MkClassification IngestionPageState.RETRY IngestionOutcome.TEMPORARY_FAILURE IngestionRecovery.RETRY reason false
  | FiscalOutcome.REPEATED_CURSOR =>
      MkClassification IngestionPageState.RETRY IngestionOutcome.TEMPORARY_FAILURE IngestionRecovery.RECONCILE
        reason false
  | FiscalOutcome.COOLDOWN =>
      MkClassification IngestionPageState.COOLDOWN IngestionOutcome.COOLDOWN IngestionRecovery.COOLDOWN reason false
  | FiscalOutcome.BLOCKED =>
      MkClassification IngestionPageState.BLOCKED IngestionOutcome.PERMANENT_FAILURE IngestionRecovery.BLOCKED
        reason false
  | FiscalOutcome.PARTIAL =>
      MkClassification IngestionPageState.PARTIAL IngestionOutcome.PARTIAL IngestionRecovery.RETRY reason false
  | FiscalOutcome.EVENT_WITHOUT_PARENT =>
      MkClassification IngestionPageState.FAILED IngestionOutcome.QUARANTINE IngestionRecovery.QUARANTINE reason false
  | FiscalOutcome.MALFORMED =>
      MkClassification IngestionPageState.FAILED IngestionOutcome.MALFORMED IngestionRecovery.QUARANTINE reason false
  | FiscalOutcome.CONFLICT =>
      MkClassification IngestionPageState.FAILED IngestionOutcome.CONFLICT IngestionRecovery.CONFLICT_REVIEW
        reason false
  | FiscalOutcome.UNKNOWN =>
      MkClassification IngestionPageState.FAILED IngestionOutcome.UNKNOWN IngestionRecovery.RECONCILE
        "unknown_outcome" false
  end.

Definition pending_or_failed (o : UnitOutcome.t) : bool :=
  match o with UnitOutcome.PENDING | UnitOutcome.FAILED => true | _ => false end.

Definition classify_unit_treatments (unit_states : list UnitOutcome.t) : IngestionClassification :=
  if existsb pending_or_failed unit_states
  then MkClassification IngestionPageState.PARTIAL IngestionOutcome.PARTIAL IngestionRecovery.RETRY "unit_pending" false
  else if bool_decide (UnitOutcome.CONFLICT ∈ unit_states)
  then MkClassification IngestionPageState.COMPLETE IngestionOutcome.CONFLICT IngestionRecovery.CONFLICT_REVIEW
         "content_hash_mismatch" true
  else if bool_decide (UnitOutcome.QUARANTINE ∈ unit_states)
  then MkClassification IngestionPageState.COMPLETE IngestionOutcome.QUARANTINE IngestionRecovery.QUARANTINE
         "quarantined" true
  else MkClassification IngestionPageState.COMPLETE IngestionOutcome.SUCCESS IngestionRecovery.NONE "" true.

Definition _unit_classification (treatment : UnitOutcome.t) : IngestionOutcome.t * IngestionRecovery.t :=
  match treatment with
  | UnitOutcome.PERSISTED | UnitOutcome.REPLAY => (IngestionOutcome.SUCCESS, IngestionRecovery.NONE)
  | UnitOutcome.QUARANTINE => (IngestionOutcome.QUARANTINE, IngestionRecovery.QUARANTINE)
  | UnitOutcome.CONFLICT => (IngestionOutcome.CONFLICT, IngestionRecovery.CONFLICT_REVIEW)
  | UnitOutcome.PENDING | UnitOutcome.FAILED => (IngestionOutcome.TEMPORARY_FAILURE, IngestionRecovery.RETRY)
  end.

(** [response.outcome in _FAILURE_RESPONSE_OUTCOMES] *)
Definition failure_response (o : FiscalOutcome.t) : bool :=
  match o with
  | FiscalOutcome.NO_COVERAGE | FiscalOutcome.UNAVAILABLE | FiscalOutcome.TIMEOUT | FiscalOutcome.COOLDOWN
  | FiscalOutcome.BLOCKED | FiscalOutcome.CONFLICT | FiscalOutcome.MALFORMED | FiscalOutcome.EVENT_WITHOUT_PARENT
  | FiscalOutcome.REPEATED_CURSOR => true
  | FiscalOutcome.SUCCESS | FiscalOutcome.EMPTY | FiscalOutcome.PARTIAL | FiscalOutcome.DUPLICATE
  | FiscalOutcome.UNKNOWN => false
  end.

(** ** Queries and rows *)

(** The rows of one scope. *)
Definition checkpoint_of (company : N) (family flow : string) (c : IngestionCheckpoint) : bool :=
  N.eqb (cp_company c) company && String.eqb (cp_family c) family && String.eqb (cp_flow c) flow.

Definition page_of (company : N) (family flow page_key : string) (p : IngestionPage) : bool :=
  N.eqb (pg_company p) company && String.eqb (pg_family p) family && String.eqb (pg_flow p) flow &&
  String.eqb (pg_page_key p) page_key.

Definition page_units (page : N) (d : DB) : list ReceivedUnit :=
  select (fun u => N.eqb (un_page u) page) (units d).

Definition unit_of (page : N) (identity : string) (u : ReceivedUnit) : bool :=
  N.eqb (un_page u) page && String.eqb (un_identity u) identity.

Definition update_unit (id : N) (f : ReceivedUnit -> ReceivedUnit) (d : DB) : DB :=
  d <| units ::= update_where (fun u => N.eqb (un_id u) id) f |>.

Definition update_page (id : N) (f : IngestionPage -> IngestionPage) (d : DB) : DB :=
  d <| pages ::= update_where (fun p => N.eqb (pg_id p) id) f |>.

(** Check constraints and column widths of the rows created here; the other
    columns cannot overflow once the request and the response are valid. *)
Definition empty_str (s : string) : bool := negb (str_nonempty s).

Definition checkpoint_check (c : IngestionCheckpoint) : bool :=
  str_in (cp_family c) _FAMILY && (empty_str (cp_cursor c) || empty_str (cp_nsu c)) && flow_column (cp_flow c).

Definition page_check (p : IngestionPage) : bool :=
  str_in (pg_family p) _FAMILY && (empty_str (pg_request_cursor p) || empty_str (pg_request_nsu p)) &&
  (empty_str (pg_next_cursor p) || empty_str (pg_next_nsu p)) && flow_column (pg_flow p).

Definition unit_fits (u : ReceivedUnit) : bool := wide 16 (un_kind u) && wide 64 (un_flow u).

Definition unit_check (u : ReceivedUnit) : bool :=
  str_in (un_family u) _FAMILY && is_hex64 (un_content_hash u) && flow_column (un_flow u).

Definition new_checkpoint (id : N) (now : Z) (company : N) (family flow : string) : IngestionCheckpoint :=
  MkIngestionCheckpoint id company family flow "" "" None now now.

(** [context.page_key or (...)] *)
Definition page_key_of (c : IngestionContext) : string :=
  match present (ic_page_key c) with
  | Some k => k
  | None => match present (ic_request_cursor c) with
            | Some x => "cursor:" ++ x
            | None => match present (ic_request_nsu c) with Some x => "nsu:" ++ x | None => "initial" end
            end
  end.

(** [checkpoint.cursor if family == "nfe" else checkpoint.nsu] and its like. *)
Definition is_nfe (family : string) : bool := String.eqb family "nfe".
Definition position (c : IngestionCheckpoint) : string := if is_nfe (cp_family c) then cp_cursor c else cp_nsu c.
Definition requested_position (p : IngestionPage) : string :=
  if is_nfe (pg_family p) then pg_request_cursor p else pg_request_nsu p.
Definition next_position (p : IngestionPage) : string :=
  if is_nfe (pg_family p) then pg_next_cursor p else pg_next_nsu p.

Definition new_page (id : N) (now : Z) (company : N) (execution : option N) (c : IngestionContext)
    (r : FiscalResponse) (state : IngestionPageState.t) (outcome : IngestionOutcome.t)
    (recovery : IngestionRecovery.t) (safe_error : string) : IngestionPage :=
  MkIngestionPage id company execution (ic_family c) (ic_flow c) (page_key_of c)
    (opt_default "" (ic_request_cursor c)) (opt_default "" (ic_request_nsu c))
    (opt_default "" (fr_next_cursor r)) (opt_default "" (fr_next_nsu r))
    (FiscalOutcome.value (fr_outcome r)) (Coverage.value (fr_coverage r)) state outcome recovery safe_error
    (Z.of_nat (length (fr_units r))) None now now.

Definition new_unit (id : N) (now : Z) (page company : N) (c : IngestionContext) (u : FiscalUnit) : ReceivedUnit :=
  MkReceivedUnit id page company (ic_family c) (ic_flow c) (fu_identity u) (fu_kind u)
    (opt_default "" (fu_parent_identity u)) (fu_content_hash u) None None None ReceivedUnitState.PENDING
    IngestionOutcome.UNKNOWN IngestionRecovery.NONE "" 0 now None None now.

(** The states that [_finish_page] does not leave once an error is recorded. *)
Definition settled_error (p : IngestionPage) : bool :=
  match pg_state p with
  | IngestionPageState.FAILED | IngestionPageState.NO_COVERAGE | IngestionPageState.UNAVAILABLE
  | IngestionPageState.RETRY | IngestionPageState.COOLDOWN | IngestionPageState.BLOCKED =>
      str_nonempty (pg_safe_error p)
  | _ => false
  end.

Definition finished_state (s : IngestionPageState.t) : bool :=
  match s with IngestionPageState.COMPLETE | IngestionPageState.EMPTY => true | _ => false end.

Definition _can_resume_page (page : IngestionPage) (response : FiscalResponse) : bool :=
  if finished_state (pg_state page) then false
  else match pg_recovery page with
       | IngestionRecovery.RETRY | IngestionRecovery.RECONCILE | IngestionRecovery.NONE =>
           negb (String.eqb (pg_adapter_outcome page) (FiscalOutcome.value (fr_outcome response)))
       | _ => false
       end.

Definition retried_page (now : Z) (r : FiscalResponse) (p : IngestionPage) : IngestionPage :=
  let classification := classify_page_response r in
  p <| pg_adapter_outcome := FiscalOutcome.value (fr_outcome r) |> <| pg_coverage := Coverage.value (fr_coverage r) |>
    <| pg_next_cursor := opt_default "" (fr_next_cursor r) |> <| pg_next_nsu := opt_default "" (fr_next_nsu r) |>
    <| pg_state := IngestionPageState.PENDING |> <| pg_outcome := cl_outcome classification |>
    <| pg_recovery := cl_recovery classification |> <| pg_safe_error := "" |>
    <| pg_unit_count := Z.of_nat (length (fr_units r)) |> <| pg_finalized_at := None |> <| pg_updated_at := now |>.

Definition finished_unit (now : Z) (artifact : N) (treatment : UnitOutcome.t) (reason : string)
    (outcome : IngestionOutcome.t) (recovery : IngestionRecovery.t) (document event : option N)
    (u : ReceivedUnit) : ReceivedUnit :=
  u <| un_artifact := Some artifact |> <| un_state := state_of_outcome treatment |> <| un_outcome := outcome |>
    <| un_recovery := recovery |>
    <| un_safe_reason := if str_nonempty reason then _safe_reason reason else "" |>
    <| un_terminal_at := Some now |> <| un_updated_at := now |>
    <| un_document ::= fun old => match document with Some d => Some d | None => old end |>
    <| un_event ::= fun old => match event with Some e => Some e | None => old end |>.

Definition failed_unit (now : Z) (reason : string) (outcome : IngestionOutcome.t) (recovery : IngestionRecovery.t)
    (u : ReceivedUnit) : ReceivedUnit :=
  u <| un_state := ReceivedUnitState.FAILED |> <| un_outcome := outcome |> <| un_recovery := recovery |>
    <| un_safe_reason := _safe_reason reason |> <| un_updated_at := now |>.

(** [f"ingestion:{scope_hash}:{unit.content_hash}"] *)
Definition ingestion_key (c : IngestionContext) (u : FiscalUnit) : string :=
  let scope := join ":" [ref_str (ic_company_id c); ic_family c; ic_flow c; fu_identity u] in
  join ":" ["ingestion"; stake 32 (sha256 (encode_utf8 scope)); fu_content_hash u].

(** A unit of an earlier run that needs no further treatment. *)
Definition already_settled (received : ReceivedUnit) (u : FiscalUnit) : bool :=
  terminal (un_state received) && String.eqb (un_content_hash received) (fu_content_hash u) &&
  negb (bool_decide (un_state received = ReceivedUnitState.QUARANTINE) &&
        String.eqb (un_safe_reason received) "parent_missing").

Definition is_event_unit (u : FiscalUnit) : bool :=
  String.eqb (fu_kind u) "event" || String.eqb (fu_kind u) "substitution".

(** How a completed page meets its checkpoint: the page and the checkpoint to
    write, whether the position advanced, whether the page failed instead. *)
Record PositionDecision : Type := MkPositionDecision {
  pd_page : IngestionPage; pd_checkpoint : IngestionCheckpoint; pd_advanced : bool; pd_failed : bool }.

Definition position_failure (page : IngestionPage) (checkpoint : IngestionCheckpoint) (error : string) : PositionDecision :=
  MkPositionDecision (page <| pg_state := IngestionPageState.FAILED |> <| pg_safe_error := error |>) checkpoint false true.

Definition decreasing (requested next : string) : bool :=
  match _position_number requested, _position_number next with
  | Some r, Some n => Z.ltb n r
  | _, _ => false
  end.

Definition decide_position (state : IngestionPageState.t) (now : Z) (page : IngestionPage)
    (checkpoint : IngestionCheckpoint) : PositionDecision :=
  let requested := requested_position page in
  let closed := page <| pg_state := state |> <| pg_finalized_at := Some now |> in
  if is_nfe (pg_family page) then
    if empty_str (pg_next_cursor page) then MkPositionDecision closed checkpoint false false
    else if String.eqb (pg_next_cursor page) requested then position_failure page checkpoint "repeated_cursor"
    else MkPositionDecision page (checkpoint <| cp_cursor := pg_next_cursor page |>) (str_nonempty (pg_next_cursor page)) false
  else if empty_str requested && empty_str (pg_next_nsu page) then MkPositionDecision closed checkpoint false false
  else if String.eqb (pg_next_nsu page) requested then position_failure page checkpoint "repeated_nsu"
  else if decreasing requested (pg_next_nsu page) then position_failure page checkpoint "non_monotonic_nsu"
  else MkPositionDecision page (checkpoint <| cp_nsu := pg_next_nsu page |>) (str_nonempty (pg_next_nsu page)) false.

(** The durable units of a page are complete: the count, and each terminal. *)
Definition units_settled (page : IngestionPage) (states : list ReceivedUnitState.t) : bool :=
  Z.eqb (pg_unit_count page) (Z.of_nat (length states)) && forallb terminal states.

Definition finish_outcome (decision : PositionDecision) (outcome : IngestionOutcome.t) (recovery : IngestionRecovery.t) :
    IngestionOutcome.t * IngestionRecovery.t :=
  if pd_failed decision then (IngestionOutcome.TEMPORARY_FAILURE, IngestionRecovery.RECONCILE) else (outcome, recovery).

Definition is_failed (p : IngestionPage) : bool := bool_decide (pg_state p = IngestionPageState.FAILED).

(** ** [FiscalIngestionService] *)

Section service.
Context {B : Type} `{!External B} `{!ObjectStore B}.
Context (maximum_size : Z) (payload_factory : PayloadFactory) (metadata_factory : DocumentMetadataFactory).

Definition get_page (id : N) : M B IngestionPage :=
  let* row := autocommit (query (fun d => pages d !! id)) in of_option row DoesNotExist.

Definition page_audit (page : IngestionPage) (result reason : string) : M B unit :=
  append (MkAuditInput "ingestion.page" "ingestion_page" result None "" None (uuid_str (pg_id page)) reason
            ("ingestion:" ++ uuid_str (pg_id page))
            [("company_id", VStr (uuid_str (pg_company page))); ("family", VStr (pg_family page));
             ("flow", VStr (pg_flow page)); ("state", VStr (IngestionPageState.value (pg_state page)));
             ("unit_count", VInt (pg_unit_count page))]) ;;;
  ret tt.

Definition _result_for_page (page : IngestionPage) : M B IngestionResult :=
  let* states := autocommit (query (fun d =>
    map un_state (sort_by (by_key un_first_seen_at) (page_units (pg_id page) d)))) in
  ret (MkIngestionResult (pg_id page) (pg_state page) (map outcome_of_state states)
         (is_some (pg_finalized_at page)) (present (Some (pg_next_cursor page))) (present (Some (pg_next_nsu page)))
         (pg_safe_error page) (pg_outcome page) (pg_recovery page)).

Definition _validate_response_position (c : IngestionContext) (r : FiscalResponse) : result exn unit :=
  if is_nfe (ic_family c) && is_some (fr_next_nsu r)
  then Err (IngestionPositionError "NF-e response has an NSU continuation")
  else if negb (is_nfe (ic_family c)) && is_some (fr_next_cursor r)
  then Err (IngestionPositionError "ADN response has a cursor continuation")
  else Ok tt.

(** [IngestionCheckpoint.objects.select_for_update().get_or_create(...)] *)
Definition get_or_create_checkpoint (company : N) (family flow : string) : M B IngestionCheckpoint :=
  let* row := query (fun d => first_where cp_created_at (checkpoint_of company family flow) (checkpoints d)) in
  match row with
  | Some c => ret c
  | None =>
      let* id := uuid4 in
      let* now := timezone_now in
      let c := new_checkpoint id now company family flow in
      require (wide 64 flow) DataError ;;;
      require (checkpoint_check c) IntegrityError ;;;
      write (fun d => d <| checkpoints ::= put id c |>) ;;;
      ret c
  end.

(** [IngestionPage.objects.create(...)]; the foreign keys are checked at commit. *)
Definition create_page (build : N -> Z -> IngestionPage) : M B IngestionPage :=
  let* id := uuid4 in
  let* now := timezone_now in
  let p := build id now in
  require (wide 64 (pg_flow p)) DataError ;;;
  let* taken := query (fun d => exists_row (page_of (pg_company p) (pg_family p) (pg_flow p) (pg_page_key p)) (pages d)) in
  require (negb taken && page_check p) IntegrityError ;;;
  write (fun d => d <| pages ::= put (pg_id p) p |>) ;;;
  ret p.

Definition page_references (p : IngestionPage) : M B unit :=
  let* known := query (fun d => is_some (companies d !! pg_company p) &&
                                match pg_execution p with Some e => is_some (executions d !! e) | None => true end) in
  require known IntegrityError.

Definition parse_ref_opt (r : option uuid_ref) : M B (option N) :=
  match r with
  | None => ret None
  | Some r => let* id := of_option (uuid_of r) ValidationError in ret (Some id)
  end.

Definition _register_page (c : IngestionContext) (response : FiscalResponse) : M B (IngestionPage * bool) :=
  let* company := of_option (uuid_of (ic_company_id c)) ValidationError in
  let page_key := page_key_of c in
  let find := query (fun d => first_where pg_created_at (page_of company (ic_family c) (ic_flow c) page_key) (pages d)) in
  try_except
    (atomic (
       let* checkpoint := get_or_create_checkpoint company (ic_family c) (ic_flow c) in
       let* existing := find in
       match existing with
       | Some page => ret (page, false)
       | None =>
           let requested := opt_default "" (if is_nfe (ic_family c) then ic_request_cursor c else ic_request_nsu c) in
           let classification := classify_page_response response in
           let expected := position checkpoint in
           let '(state, outcome, recovery, safe_error) :=
             if String.eqb expected requested
             then (IngestionPageState.PENDING, cl_outcome classification, cl_recovery classification, "")
             else (IngestionPageState.FAILED, IngestionOutcome.TEMPORARY_FAILURE, IngestionRecovery.RECONCILE,
                   if str_nonempty requested then "stale_cursor" else "checkpoint_position_mismatch") in
           let* execution := parse_ref_opt (ic_execution_id c) in
           let* page := create_page (fun id now =>
             new_page id now company execution c response state outcome recovery safe_error) in
           (if String.eqb expected requested then ret tt else page_audit page "failed" safe_error) ;;;
           page_references page ;;;
           ret (page, true)
       end))
    (fun e => match e with
              | IntegrityError =>
                  let* row := autocommit find in
                  let* page := of_option row DoesNotExist in
                  ret (page, false)
              | _ => throw e
              end).

Definition _prepare_page_retry (page : IngestionPage) (response : FiscalResponse) : M B unit :=
  let* now := timezone_now in
  autocommit (write (update_page (pg_id page) (retried_page now response))).

(** [ReceivedUnit.objects.create(...)] of [get_or_create], with its page. *)
Definition create_unit (build : N -> Z -> ReceivedUnit) : M B ReceivedUnit :=
  let* id := uuid4 in
  let* now := timezone_now in
  let u := build id now in
  require (unit_fits u) DataError ;;;
  let* known := query (fun d => is_some (pages d !! un_page u)) in
  require (unit_check u && known) IntegrityError ;;;
  write (fun d => d <| units ::= put (un_id u) u |>) ;;;
  ret u.

(** The row lock of the last line is outside a transaction, which Django refuses. *)
Definition _register_unit (page : IngestionPage) (c : IngestionContext) (u : FiscalUnit) : M B ReceivedUnit :=
  let* company := of_option (uuid_of (ic_company_id c)) ValidationError in
  try_except
    (atomic (
       let* row := query (fun d => first_where un_first_seen_at (unit_of (pg_id page) (fu_identity u)) (units d)) in
       match row with
       | None => create_unit (fun id now => new_unit id now (pg_id page) company c u)
       | Some received =>
           if String.eqb (un_content_hash received) (fu_content_hash u) then ret received
           else
             let* now := timezone_now in
             let changed (r : ReceivedUnit) := r <| un_state := ReceivedUnitState.PENDING |>
                                               <| un_safe_reason := "content_hash_changed" |> <| un_updated_at := now |> in
             write (update_unit (un_id received) changed) ;;;
             ret (changed received)
       end))
    (fun e => match e with IntegrityError => throw TransactionManagementError | _ => throw e end).

Definition _finish_unit (received : ReceivedUnit) (artifact : Artifact) (treatment : UnitOutcome.t) (reason : string)
    (outcome : IngestionOutcome.t) (recovery : IngestionRecovery.t) (document event : option N) : M B unit :=
  let* now := timezone_now in
  autocommit (write (update_unit (un_id received)
    (finished_unit now (art_id artifact) treatment reason outcome recovery document event))).

Definition _fail_unit (received : ReceivedUnit) (reason : string) (outcome : IngestionOutcome.t)
    (recovery : IngestionRecovery.t) : M B unit :=
  let* now := timezone_now in
  autocommit (write (update_unit (un_id received) (failed_unit now reason outcome recovery))).

(** An artifact already linked to the unit and still good for it. *)
Definition linked_artifact (received : ReceivedUnit) (u : FiscalUnit) : M B (option Artifact) :=
  match un_artifact received with
  | None => ret None
  | Some id =>
      let* row := autocommit (query (fun d => artifacts d !! id)) in
      let* current := of_option row DoesNotExist in
      ret (if is_finalized current && String.eqb (art_digest current) (fu_content_hash u) then Some current else None)
  end.

Definition _ensure_artifact (received : ReceivedUnit) (c : IngestionContext) (u : FiscalUnit) : M B Artifact :=
  let* linked := linked_artifact received u in
  match linked with
  | Some current => ret current
  | None =>
      let logical_key := ingestion_key c u in
      let* row := autocommit (query (fun d =>
        first_where art_created_at (fun a => String.eqb (art_logical_key a) logical_key) (artifacts d))) in
      let* existing := match row with
                       | Some a => ret a
                       | None => begin "fiscal_original" logical_key "application/octet-stream"
                       end in
      let* stored := if is_finalized existing then ret existing
                     else let* chunks := lift_result (payload_factory u) in
                          transmit maximum_size (art_id existing) chunks in
      require (String.eqb (art_digest stored) (fu_content_hash u))
        (IngestionError "stored object digest does not match unit reference") ;;;
      let* now := timezone_now in
      autocommit (write (update_unit (un_id received)
        (fun r => r <| un_artifact := Some (art_id stored) |> <| un_updated_at := now |>))) ;;;
      ret stored
  end.

(** The rows [_process_unit] looks a parent up in. *)
Definition parent_unit (company : N) (c : IngestionContext) (u : FiscalUnit) (d : DB) : option ReceivedUnit :=
  first_where un_first_seen_at
    (fun x => N.eqb (un_company x) company && String.eqb (un_family x) (ic_family c) && String.eqb (un_flow x) (ic_flow c) &&
              String.eqb (un_identity x) (opt_default "" (fu_parent_identity u)) && is_some (un_document x))
    (units d).

Definition document_flow (c : IngestionContext) : string := opt_default (ic_flow c) (present (ic_document_flow c)).

Definition parent_document (company : N) (c : IngestionContext) (normalized_parent : string) (d : DB) : option Document :=
  first_where doc_created_at
    (fun x => N.eqb (doc_company x) company && String.eqb (doc_family x) (_document_family (ic_family c)) &&
              String.eqb (doc_flow x) (document_flow c) && String.eqb (doc_normalized_identity x) normalized_parent)
    (documents d).

(** The parent document of an event: the one a received unit became, or a
    document of the same flow under the normalised identity. *)
Definition find_parent (c : IngestionContext) (u : FiscalUnit) : M B (option N) :=
  let* company := of_option (uuid_of (ic_company_id c)) ValidationError in
  let* parent := autocommit (query (parent_unit company c u)) in
  match parent with
  | Some p => ret (un_document p)
  | None =>
      match present (fu_parent_identity u) with
      | None => ret None
      | Some parent_identity =>
          let normalized_parent :=
            match select_strongest_identity (MkFiscalIdentity None (Some parent_identity) None None None) with
            | Ok s => is_value s
            | Err _ => ""
            end in
          if str_nonempty normalized_parent
          then let* document := autocommit (query (parent_document company c normalized_parent)) in
               ret (option_map doc_id document)
          else ret None
      end
  end.

Definition document_input (c : IngestionContext) (u : FiscalUnit) (metadata : IngestionDocumentMetadata) (artifact : N) :
    DocumentInput :=
  MkDocumentInput (ic_company_id c) (_document_family (ic_family c)) (md_role metadata) (md_category metadata)
    (ic_source c) (document_flow c) (md_identity metadata) (md_emitted_at metadata) (RefUuid artifact)
    (ic_execution_ref c) (md_authorized_at metadata) (md_situation metadata) (ic_correlation_id c)
    (if is_event_unit u then "event" else "document") (md_parent_document_id metadata) (md_relationship_type metadata).

(** The second [try] of [_process_unit]: what the document service answered,
    or the unit's outcome when the body returned. *)
Definition persist_unit (received : ReceivedUnit) (c : IngestionContext) (u : FiscalUnit) (artifact : Artifact) :
    M B (UnitOutcome.t + DocumentPersistenceResult) :=
  let* now := timezone_now in
  let* metadata := lift_result (metadata_factory u c now) in
  let persist metadata :=
    let* persisted := persist_document (document_input c u metadata (art_id artifact)) in ret (inr persisted) in
  if is_event_unit u && negb (is_some (md_parent_document_id metadata)) then
    let* parent := find_parent c u in
    match parent with
    | None =>
        _finish_unit received artifact UnitOutcome.QUARANTINE "parent_missing" IngestionOutcome.QUARANTINE
          IngestionRecovery.QUARANTINE None None ;;;
        ret (inl UnitOutcome.QUARANTINE)
    | Some id => persist (metadata <| md_parent_document_id := Some (RefUuid id) |>)
    end
  else persist metadata.

Definition treat_unit (received : ReceivedUnit) (c : IngestionContext) (u : FiscalUnit) (artifact : Artifact) : M B UnitOutcome.t :=
  let* treated := try_except (persist_unit received c u artifact)
    (fun e => match e with
      | InvalidDocumentInput _ =>
          _finish_unit received artifact UnitOutcome.QUARANTINE "document_input_invalid" IngestionOutcome.MALFORMED
            IngestionRecovery.QUARANTINE None None ;;;
          ret (inl UnitOutcome.QUARANTINE)
      | _ =>
          _fail_unit received "document_persistence_unavailable" IngestionOutcome.TEMPORARY_FAILURE IngestionRecovery.RETRY ;;;
          ret (inl UnitOutcome.FAILED)
      end) in
  match treated with
  | inl outcome => ret outcome
  | inr persisted =>
      let outcome := outcome_of_status (pr_status persisted) in
      let '(unit_outcome, recovery) := _unit_classification outcome in
      _finish_unit received artifact outcome (opt_default "" (pr_reason_code persisted)) unit_outcome recovery
        (pr_document_id persisted) (pr_event_id persisted) ;;;
      ret outcome
  end.

Definition count_attempt (received : ReceivedUnit) : M B unit :=
  let* now := timezone_now in
  autocommit (write (update_unit (un_id received) (fun r =>
    r <| un_attempts := (un_attempts received + 1)%Z |> <| un_last_attempt_at := Some now |> <| un_updated_at := now |>))).

Definition _process_unit (received : ReceivedUnit) (c : IngestionContext) (u : FiscalUnit) : M B UnitOutcome.t :=
  if already_settled received u then ret (outcome_of_state (un_state received))
  else
    count_attempt received ;;;
    let* artifact := try_except (let* a := _ensure_artifact received c u in ret (Some a))
      (fun _ =>
         _fail_unit received "object_unavailable" IngestionOutcome.UNAVAILABLE IngestionRecovery.RETRY ;;;
         ret None) in
    match artifact with
    | None => ret UnitOutcome.FAILED
    | Some artifact => treat_unit received c u artifact
    end.

Definition save_page (page : IngestionPage) : M B unit :=
  let* now := timezone_now in
  write (fun d => d <| pages ::= put (pg_id page) (page <| pg_updated_at := now |>) |>).

Definition save_checkpoint (checkpoint : IngestionCheckpoint) : M B unit :=
  let* now := timezone_now in
  require (checkpoint_check checkpoint) IntegrityError ;;;
  write (fun d => d <| checkpoints ::= put (cp_id checkpoint) (checkpoint <| cp_updated_at := now |>) |>).

(** The end of [_finish_page]: the page is written with its outcome and audited. *)
Definition close_page (page : IngestionPage) (unit_states : list UnitOutcome.t) (advanced : bool)
    (persisted : IngestionOutcome.t * IngestionRecovery.t) : M B IngestionResult :=
  let page := page <| pg_outcome := persisted.1 |> <| pg_recovery := persisted.2 |> in
  save_page page ;;;
  page_audit page (if advanced then "advanced" else IngestionPageState.value (pg_state page)) (pg_safe_error page) ;;;
  ret (MkIngestionResult (pg_id page) (pg_state page) unit_states advanced (present (Some (pg_next_cursor page)))
         (present (Some (pg_next_nsu page))) (pg_safe_error page) (pg_outcome page) (pg_recovery page)).

(** The [COMPLETE]/[EMPTY] branch. *)
Definition complete_page (page : IngestionPage) (state : IngestionPageState.t) (unit_states : list UnitOutcome.t)
    (outcome : IngestionOutcome.t) (recovery : IngestionRecovery.t) : M B IngestionResult :=
  let* durable_states := query (fun d => map un_state (page_units (pg_id page) d)) in
  if negb (units_settled page durable_states) then
    let page := page <| pg_state := IngestionPageState.PARTIAL |> <| pg_outcome := IngestionOutcome.PARTIAL |>
                     <| pg_recovery := IngestionRecovery.RETRY |> <| pg_safe_error := "unit_pending" |> in
    save_page page ;;;
    _result_for_page page
  else
    let* row := query (fun d => first_where cp_created_at
                         (checkpoint_of (pg_company page) (pg_family page) (pg_flow page)) (checkpoints d)) in
    let* checkpoint := of_option row DoesNotExist in
    if negb (String.eqb (position checkpoint) (requested_position page)) then
      (* the computed outcome and recovery are not assigned to the page here *)
      let page := page <| pg_state := IngestionPageState.FAILED |> <| pg_safe_error := "stale_checkpoint" |> in
      save_page page ;;;
      _result_for_page page
    else
      let* now := timezone_now in
      let decision := decide_position state now page checkpoint in
      let persisted := finish_outcome decision outcome recovery in
      if is_failed (pd_page decision) then close_page (pd_page decision) unit_states (pd_advanced decision) persisted
      else
        save_checkpoint (pd_checkpoint decision <| cp_last_page := Some (pg_id page) |>) ;;;
        close_page (pd_page decision <| pg_state := state |> <| pg_finalized_at := Some now |>) unit_states
          (pd_advanced decision) persisted.

Definition _finish_page (page_id : N) (state : IngestionPageState.t) (unit_states : list UnitOutcome.t) (reason : string)
    (outcome : IngestionOutcome.t) (recovery : IngestionRecovery.t) : M B IngestionResult :=
  atomic (
    let* row := query (fun d => pages d !! page_id) in
    let* page := of_option row DoesNotExist in
    if settled_error page then _result_for_page page
    else if finished_state state then complete_page page state unit_states outcome recovery
    else
      close_page (page <| pg_state := state |>
                       <| pg_safe_error := if str_nonempty reason then _safe_reason reason else "" |>)
        unit_states false (outcome, recovery)).

Definition _finish_failed_page (page_id : N) (reason : string) : M B IngestionResult :=
  _finish_page page_id IngestionPageState.FAILED [] reason IngestionOutcome.UNKNOWN IngestionRecovery.RECONCILE.

(** The loop over the units of a response, and what it makes of the page. *)
Definition ingest_units (page : IngestionPage) (c : IngestionContext) (units : list FiscalUnit) : M B (list UnitOutcome.t) :=
  for_each units (fun unit => let* received := _register_unit page c unit in _process_unit received c unit).

Definition treated_classification (response : FiscalResponse) (unit_states : list UnitOutcome.t) : IngestionClassification :=
  if bool_decide (fr_outcome response = FiscalOutcome.PARTIAL)
  then MkClassification IngestionPageState.PARTIAL IngestionOutcome.PARTIAL IngestionRecovery.RETRY "partial_response" false
  else match fr_units response with
       | [] => classify_page_response response
       | _ => classify_unit_treatments unit_states
       end.

Definition finish_classified (page : IngestionPage) (k : IngestionClassification) (unit_states : list UnitOutcome.t) :
    M B IngestionResult :=
  _finish_page (pg_id page) (cl_page_state k) unit_states (cl_reason k) (cl_outcome k) (cl_recovery k).

(** [ingest] after the page is registered or taken up again. *)
Definition ingest_page_content (page : IngestionPage) (c : IngestionContext) (response : FiscalResponse) : M B IngestionResult :=
  if failure_response (fr_outcome response) then finish_classified page (classify_page_response response) []
  else
    let* unit_states := ingest_units page c (fr_units response) in
    let* page := get_page (pg_id page) in
    finish_classified page (treated_classification response unit_states) unit_states.

Definition ingest (c : IngestionContext) (response : FiscalResponse) : M B IngestionResult :=
  lift_result (validate c) ;;;
  lift_result (_validate_response_position c response) ;;;
  let* '(page, created) := _register_page c response in
  if created then
    if is_failed page then _result_for_page page else ingest_page_content page c response
  else if negb (_can_resume_page page response) then _result_for_page page
  else
    _prepare_page_retry page response ;;;
    let* page := get_page (pg_id page) in
    ingest_page_content page c response.

(** ** Reconciliation *)

Definition reconcilable (unit_id : option N) (u : ReceivedUnit) : bool :=
  (match un_state u with
   | ReceivedUnitState.PENDING | ReceivedUnitState.FAILED => true
   | ReceivedUnitState.QUARANTINE => String.eqb (un_safe_reason u) "parent_missing"
   | _ => false
   end) && match unit_id with Some i => N.eqb (un_id u) i | None => true end.

(** The candidates with their pages, by first sight. *)
Definition reconcile_candidates (unit_id : option N) (d : DB) : list (ReceivedUnit * IngestionPage) :=
  omap (fun u => option_map (pair u) (pages d !! un_page u))
    (sort_by (by_key un_first_seen_at) (select (reconcilable unit_id) (units d))).

(** [flow.removesuffix(":followup") if flow.endswith(":followup") else flow] *)
Definition base_flow (flow : string) : string :=
  if ends_with ":followup" flow then stake (String.length flow - 9) flow else flow.

Definition reconcile_context (u : ReceivedUnit) (page : IngestionPage) : IngestionContext :=
  MkIngestionContext (RefUuid (un_company u)) (un_family u) (un_flow u) "synthetic"
    ("execution:" ++ uuid_str (opt_default (pg_id page) (pg_execution page)))
    ("correlation:" ++ uuid_str (pg_id page))
    (present (Some (pg_request_cursor page))) (present (Some (pg_request_nsu page)))
    (option_map RefUuid (pg_execution page)) None (Some (base_flow (un_flow u))).

Definition _unit_from_record (u : ReceivedUnit) : result exn FiscalUnit :=
  unit_post_init (MkFiscalUnit (un_identity u) (un_content_hash u) (un_kind u) (present (Some (un_parent_identity u))) true None).

(** [_finish_page(page, EMPTY if not page.unit_count else COMPLETE, ...)] *)
Definition finish_reconciled (page : IngestionPage) (states : list ReceivedUnitState.t) : M B unit :=
  let unit_states := map outcome_of_state states in
  let k := classify_unit_treatments unit_states in
  let target := if Z.eqb (pg_unit_count page) 0 then IngestionPageState.EMPTY else IngestionPageState.COMPLETE in
  _finish_page (pg_id page) target unit_states "" (cl_outcome k) (cl_recovery k) ;;;
  ret tt.

Definition page_states (page : N) : M B (list ReceivedUnitState.t) :=
  autocommit (query (fun d => map un_state (page_units page d))).

Definition not_partial (page : IngestionPage) : bool :=
  negb (String.eqb (pg_adapter_outcome page) (FiscalOutcome.value FiscalOutcome.PARTIAL)).

Definition reconcile_unit (repaired : nat) (candidate : ReceivedUnit * IngestionPage) : M B nat :=
  let '(u, page) := candidate in
  let* unit := lift_result (_unit_from_record u) in
  let* result := _process_unit u (reconcile_context u page) unit in
  let* page := get_page (pg_id page) in
  let* states := page_states (pg_id page) in
  (if bool_decide (pg_state page = IngestionPageState.PARTIAL) && negb (bool_decide (states = [])) &&
      forallb terminal states && not_partial page
   then finish_reconciled page states else ret tt) ;;;
  ret (if bool_decide (result = UnitOutcome.FAILED) then repaired else S repaired).

Definition open_page (p : IngestionPage) : bool :=
  match pg_state p with IngestionPageState.PENDING | IngestionPageState.PARTIAL => true | _ => false end.

Definition reconcile_page (page : IngestionPage) : M B unit :=
  let* states := page_states (pg_id page) in
  if (Z.eqb (pg_unit_count page) 0 || Z.eqb (Z.of_nat (length states)) (pg_unit_count page)) &&
     forallb terminal states && not_partial page
  then finish_reconciled page states else ret tt.

Definition reconcile (unit_id : option uuid_ref) : M B nat :=
  let* unit_id := parse_ref_opt unit_id in
  let* candidates := autocommit (query (reconcile_candidates unit_id)) in
  let* repaired := fold_each candidates reconcile_unit 0%nat in
  let* open := autocommit (query (fun d => sort_by (by_key pg_created_at) (select open_page (pages d)))) in
  for_each open reconcile_page ;;;
  ret repaired.

End service.

(** The module-level ports, with their default factories. *)
Definition ingest_page {B} `{!External B} `{!ObjectStore B} (maximum_size : Z) (c : IngestionContext)
    (response : FiscalResponse) : M B IngestionResult :=
  ingest maximum_size synthetic_payload _default_metadata c response.

Definition reconcile_ingestion {B} `{!External B} `{!ObjectStore B} (maximum_size : Z) (unit_id : option uuid_ref) : M B nat :=
  reconcile maximum_size synthetic_payload _default_metadata unit_id.

#[global] Arguments get_page : simpl never.
#[global] Arguments page_audit : simpl never.
#[global] Arguments create_unit : simpl never.
#[global] Arguments _result_for_page : simpl never.
#[global] Arguments get_or_create_checkpoint : simpl never.
#[global] Arguments create_page : simpl never.
#[global] Arguments _register_page : simpl never.
#[global] Arguments _prepare_page_retry : simpl never.
#[global] Arguments _register_unit : simpl never.
#[global] Arguments _finish_unit : simpl never.
#[global] Arguments _fail_unit : simpl never.
#[global] Arguments _ensure_artifact : simpl never.
#[global] Arguments persist_unit : simpl never.
#[global] Arguments treat_unit : simpl never.
#[global] Arguments _process_unit : simpl never.
#[global] Arguments save_page : simpl never.
#[global] Arguments save_checkpoint : simpl never.
#[global] Arguments close_page : simpl never.
#[global] Arguments complete_page : simpl never.
#[global] Arguments _finish_page : simpl never.
#[global] Arguments ingest_units : simpl never.
#[global] Arguments ingest_page_content : simpl never.
#[global] Arguments ingest : simpl never.
#[global] Arguments reconcile : simpl never.
