(* ===== verification/IngestionFacts.v ===== *)
(** * Ingestion: the tables

    Frames of the services ingestion calls, the invariant of its tables and the
    proof that every operation keeps it, and what a page that is finished does to
    its checkpoint. *)

From Stdlib Require Import ZArith Ascii String Lia.
From stdpp Require Import base decidable list gmap strings relations.
From S2P Require Import Prelude PyStr Sha256 PyVal Models Tables AuditTrail Artifacts ArtifactFacts Documents Simulation Ingestion.

Local Open Scope string_scope.

(** ** Frames *)

(** The tables ingestion owns. *)
Definition ingestion_tables (d : DB) : gmap N IngestionCheckpoint * gmap N IngestionPage * gmap N ReceivedUnit :=
  (checkpoints d, pages d, units d).

Section frames.
Context {B : Type} `{!External B} `{!ObjectStore B} {laws : ObjectStoreLaws B}.

(** The artifact operations, through the frames of [ArtifactFacts]. *)
#[local] Hint Extern 1 (forall d g, _ = _) => reflexivity : frames.

Lemma keeps_audit {T} (f : DB -> T) action result et ei ci rc data dg :
  (forall d d', audit_frame d d' -> f d' = f d) -> moves (keeps f) (_audit (B:=B) action result et ei ci rc data dg).
Proof. intros Hf. unfold _audit. apply moves_bind; [apply _|by apply keeps_append|]. frame_tac. Qed.

#[local] Hint Extern 1 (moves (keeps _) (_audit _ _ _ _ _ _ _ _)) =>
  apply keeps_audit; intros ? ? (? & ? & ->); reflexivity : frames.

Lemma keeps_persist data : moves (keeps ingestion_tables) (persist_document (B:=B) data).
Proof.
  unfold persist_document, _artifact, quarantine, _persist_document, _persist_event, two_attempts, known_document,
    known_event, quarantine, _artifact_size, derive_competence, create_document, create_evidence, create_event_row,
    create_event_evidence.
  frame_tac.
Qed.

End frames.

(** ** Tables with a primary key and a unique constraint *)

(** ** The invariant of the ingestion tables *)

Definition cp_scope (c : IngestionCheckpoint) := (cp_company c, cp_family c, cp_flow c).
Definition pg_scope (p : IngestionPage) := (pg_company p, pg_family p, pg_flow p, pg_page_key p).
Definition un_scope (u : ReceivedUnit) := (un_page u, un_identity u).

(** One checkpoint per scope, one page per scope and key, one unit per page and
    identity, no unit without its page, a checkpoint never holds two positions. *)
Definition ingestion_ok (n : N) (d : DB) : Prop :=
  keyed cp_id cp_scope n (checkpoints d) /\ keyed pg_id pg_scope n (pages d) /\
  keyed un_id un_scope n (units d) /\
  (forall i u, units d !! i = Some u -> is_Some (pages d !! un_page u)) /\
  (forall i c, checkpoints d !! i = Some c -> checkpoint_check c = true).

Lemma ingestion_ok_mono n m d : (n <= m)%N -> ingestion_ok n d -> ingestion_ok m d.
Proof. intros Hnm (H1 & H2 & H3 & H4 & H5). unfold ingestion_ok. split_and!; [by eapply keyed_mono..|done|done]. Qed.

Definition ingestion_inv {B} (w : World B) : Prop := ingestion_ok (next_uuid w) (db w).

(** ** The checkpoint protocol *)

(** The position after a page: its continuation, which is not the position it
    was requested at and, for NSUs that end in numbers, not a smaller one; or
    the same position when there is nothing to continue with. *)
Definition continues (nfe : bool) (old next new : string) : Prop :=
  if nfe then (next = "" /\ new = old) \/ (next <> "" /\ next <> old /\ new = next)
  else (next = "" /\ old = "" /\ new = old) \/ (next <> old /\ decreasing old next = false /\ new = next).

Definition moved_by (page : IngestionPage) (c c' : IngestionCheckpoint) : Prop :=
  cp_id c' = cp_id c /\ cp_scope c' = cp_scope c /\ cp_scope c = (pg_company page, pg_family page, pg_flow page) /\
  position c = requested_position page /\ cp_last_page c' = Some (pg_id page) /\
  (if is_nfe (pg_family page) then cp_nsu c' = cp_nsu c else cp_cursor c' = cp_cursor c) /\
  continues (is_nfe (pg_family page)) (position c) (next_position page) (position c').

Section protocol.
Context {B : Type}.
Implicit Types w : World B.

Definition ingests w w' : Prop :=
  (next_uuid w <= next_uuid w')%N /\
  (ingestion_inv w -> ingestion_inv w').

#[global] Instance ingests_preorder : PreOrder ingests.
Proof.
  split.
  - intros w. by split; [lia|].
  - intros a b c [H1 H2] [G1 G2]. split; [lia|]. auto.
Qed.

#[global] Instance ingests_rolls_back : RollsBack ingests.
Proof. intros w w' [H _]. split; [done|]. intros Hw. unfold ingestion_inv in *. cbn. by eapply ingestion_ok_mono. Qed.

Lemma ingestion_inv_same w w' :
  ingestion_tables (db w') = ingestion_tables (db w) -> (next_uuid w <= next_uuid w')%N -> ingestion_inv w -> ingestion_inv w'.
Proof.
  intros [= Hc Hp Hu] Hn Hw. apply (ingestion_ok_mono _ _ _ Hn) in Hw. unfold ingestion_inv, ingestion_ok in *. by rewrite Hc, Hp, Hu.
Qed.

Lemma ingests_keeps w w' : keeps ingestion_tables w w' -> ingests w w'.
Proof. intros (Ht & _ & _ & Hn). split; [done|]. by apply ingestion_inv_same. Qed.

Lemma moves_ingests_keeps {A} (m : M B A) : moves (keeps ingestion_tables) m -> moves ingests m.
Proof. intros Hm w. apply ingests_keeps, Hm. Qed.

(** A change of rows that keeps their identity. *)
Lemma ingests_update_page id f :
  (forall p, pg_id (f p) = pg_id p /\ pg_scope (f p) = pg_scope p) -> moves ingests (write (update_page id f)).
Proof.
  intros Hf w. split; [cbn; lia|]. intros (H1 & H2 & H3 & H4 & H5).
  unfold ingestion_inv, ingestion_ok. cbn. split_and!; [done|by apply keyed_update|done| |done].
  intros i u Hi. rewrite lookup_update_where. destruct (H4 _ _ Hi) as [p ->]. by eexists.
Qed.

Lemma ingests_update_unit id f :
  (forall u, un_id (f u) = un_id u /\ un_scope (f u) = un_scope u) -> moves ingests (write (update_unit id f)).
Proof.
  intros Hf w. split; [cbn; lia|]. intros (H1 & H2 & H3 & H4 & H5).
  unfold ingestion_inv, ingestion_ok. cbn. split_and!; [done|done|by apply keyed_update| |done].
  intros i u. rewrite lookup_update_where. destruct (units (db w) !! i) as [u0|] eqn:Hi; [|done]. intros [= <-].
  destruct (N.eqb (un_id u0) id); [|by eapply H4]. destruct (Hf u0) as [_ [= -> _]]. by eapply H4.
Qed.

End protocol.

(** ** The operations follow the protocol *)

Section ingestion.
Context {B : Type} `{!External B} `{!ObjectStore B} {laws : ObjectStoreLaws B}.
Implicit Types w : World B.

Lemma checkpoint_of_scope company family flow c :
  checkpoint_of company family flow c = true <-> cp_scope c = (company, family, flow).
Proof.
  unfold checkpoint_of, cp_scope. rewrite !andb_true_iff, N.eqb_eq, !String.eqb_eq. split; [|by intros [= -> -> ->]].
  by intros [[-> ->] ->].
Qed.

Lemma page_of_scope company family flow page_key p :
  page_of company family flow page_key p = true <-> pg_scope p = (company, family, flow, page_key).
Proof.
  unfold page_of, pg_scope. rewrite !andb_true_iff, N.eqb_eq, !String.eqb_eq. split; [|by intros [= -> -> -> ->]].
  by intros [[[-> ->] ->] ->].
Qed.

Lemma unit_of_scope page unit_identity u : unit_of page unit_identity u = true <-> un_scope u = (page, unit_identity).
Proof.
  unfold unit_of, un_scope. rewrite andb_true_iff, N.eqb_eq, String.eqb_eq. split; [by intros [-> ->]|by intros [= -> ->]].
Qed.

Lemma ingests_open_checkpoint company family flow : moves ingests (get_or_create_checkpoint (B:=B) company family flow).
Proof.
  intros w. unfold get_or_create_checkpoint. apply moved_query.
  destruct (first_where _ _ _) as [c|] eqn:Hf; [reflexivity|]. exec.
  destruct (wide 64 flow); cbn; [|apply ingests_keeps; repeat split; cbn; lia].
  destruct (checkpoint_check _) eqn:Hk; cbn; [|apply ingests_keeps; repeat split; cbn; lia].
  split; [cbn; lia|]. intros (H1 & H2 & H3 & H4 & H5).
  assert (forall i x, checkpoints (db w) !! i = Some x -> cp_scope x <> (company, family, flow)) as Hnew.
  { intros i x Hi He%checkpoint_of_scope. by rewrite (first_where_None _ _ _ Hf _ _ Hi) in He. }
  unfold ingestion_inv, ingestion_ok. cbn. split_and!; [|by eapply keyed_mono; [|done]; lia..|done|].
  - by apply keyed_new.
  - intros i c. unfold put. rewrite lookup_insert_Some. intros [[_ <-]|[_ Hi]]; [done|eauto].
Qed.

Lemma ingests_create_page build :
  (forall id now, pg_id (build id now) = id) -> moves ingests (create_page (B:=B) build).
Proof.
  intros Hid w. specialize (Hid (next_uuid w) (clock w)). unfold create_page. exec.
  set (p := build (next_uuid w) (clock w)) in *.
  destruct (wide 64 (pg_flow p)); cbn; [|apply ingests_keeps; repeat split; cbn; lia].
  destruct (exists_row _ _) eqn:He; cbn; [apply ingests_keeps; repeat split; cbn; lia|].
  destruct (page_check p); cbn; [|apply ingests_keeps; repeat split; cbn; lia].
  rewrite exists_row_false in He.
  split; [cbn; lia|]. intros (H1 & H2 & H3 & H4 & H5).
  unfold ingestion_inv, ingestion_ok. cbn. split_and!; [by eapply keyed_mono; [|done]; lia| |by eapply keyed_mono; [|done]; lia| |done].
  - rewrite Hid. apply keyed_new; [done..|]. intros i s Hi Hs.
    specialize (He _ _ Hi). assert (page_of (pg_company p) (pg_family p) (pg_flow p) (pg_page_key p) s = true) by (by apply page_of_scope).
    congruence.
  - intros i u Hi. unfold put. destruct (decide (pg_id p = un_page u)) as [->|Hne]; [rewrite lookup_insert_eq; by eexists|].
    rewrite lookup_insert_ne by done. eauto.
Qed.

Lemma ingests_create_unit build w :
  (forall id now, un_id (build id now) = id) ->
  (forall i x id now, units (db w) !! i = Some x -> un_scope x <> un_scope (build id now)) ->
  ingests w (create_unit (B:=B) build w).2.
Proof.
  intros Hid Hnew. specialize (Hid (next_uuid w) (clock w)). unfold create_unit. exec.
  set (u := build (next_uuid w) (clock w)) in *.
  destruct (unit_fits u); cbn; [|apply ingests_keeps; repeat split; cbn; lia].
  destruct (unit_check u); cbn; [|apply ingests_keeps; repeat split; cbn; lia].
  destruct (is_some _) eqn:Hp; cbn; [|apply ingests_keeps; repeat split; cbn; lia].
  split; [cbn; lia|]. intros (H1 & H2 & H3 & H4 & H5).
  unfold ingestion_inv, ingestion_ok. cbn. split_and!; [by eapply keyed_mono; [|done]; lia..| | |done].
  - rewrite Hid. apply keyed_new; [done..|]. intros i s Hi. exact (Hnew _ _ _ _ Hi).
  - intros i x. unfold put. rewrite lookup_insert_Some. intros [[_ <-]|[_ Hi]]; [by apply is_some_true|eauto].
Qed.

Lemma keeps_page_audit {T} (f : DB -> T) p result reason :
  (forall d d', audit_frame d d' -> f d' = f d) -> moves (keeps f) (page_audit (B:=B) p result reason).
Proof. intros Hf. unfold page_audit. apply moves_bind; [apply _|by apply keeps_append|]. frame_tac. Qed.

Lemma ingests_page_audit p result reason : moves ingests (page_audit (B:=B) p result reason).
Proof. apply moves_ingests_keeps, keeps_page_audit. by intros d d' (? & ? & ->). Qed.

Lemma ingests_result p : moves ingests (_result_for_page (B:=B) p).
Proof. unfold _result_for_page. frame_tac. Qed.

Lemma ingests_uuid4 : moves ingests (uuid4 (B:=B)).
Proof. apply moves_ingests_keeps. frame_tac. Qed.

Lemma ingests_prepare page response : moves ingests (_prepare_page_retry (B:=B) page response).
Proof. unfold _prepare_page_retry. frame_tac. by apply ingests_update_page. Qed.

#[local] Hint Resolve ingests_open_checkpoint ingests_page_audit ingests_result ingests_uuid4 ingests_prepare : frames.

Lemma ingests_register_page c response : moves ingests (_register_page (B:=B) c response).
Proof.
  unfold _register_page, parse_ref_opt, page_references. cbv zeta. frame_tac; by apply ingests_create_page.
Qed.

Lemma ingests_register_unit page c u : moves ingests (_register_unit (B:=B) page c u).
Proof.
  unfold _register_unit. cbv zeta. apply moves_bind; [apply _|frame_tac|]. intros company.
  apply moves_try; [apply _| |frame_tac]. apply moves_transaction; [apply _..|]. intros w. apply moved_query.
  destruct (first_where _ _ _) as [r|] eqn:Hf.
  - match goal with |- ingests w (?m w).2 => enough (moves ingests m) as Hm by apply Hm end.
    frame_tac. by apply ingests_update_unit.
  - apply ingests_create_unit; [done|]. intros i x id now Hi Hx.
    change (un_scope (new_unit id now (pg_id page) company c u)) with (pg_id page, fu_identity u) in Hx.
    apply unit_of_scope in Hx. by rewrite (first_where_None _ _ _ Hf _ _ Hi) in Hx.
Qed.

(** *** Units *)

Lemma ingests_finish_unit r a o reason x y d e : moves ingests (_finish_unit (B:=B) r a o reason x y d e).
Proof. unfold _finish_unit. frame_tac. by apply ingests_update_unit. Qed.

Lemma ingests_fail_unit r reason x y : moves ingests (_fail_unit (B:=B) r reason x y).
Proof. unfold _fail_unit. frame_tac. by apply ingests_update_unit. Qed.

Lemma ingests_count_attempt r : moves ingests (count_attempt (B:=B) r).
Proof. unfold count_attempt. frame_tac. by apply ingests_update_unit. Qed.

Lemma ingests_begin a b c : moves ingests (begin (B:=B) a b c).
Proof. by apply moves_ingests_keeps, keeps_begin. Qed.

Lemma ingests_transmit limit id chunks : moves ingests (transmit (B:=B) limit id chunks).
Proof using laws. by apply moves_ingests_keeps, keeps_transmit. Qed.

Lemma ingests_persist data : moves ingests (persist_document (B:=B) data).
Proof. apply moves_ingests_keeps, keeps_persist. Qed.

#[local] Hint Resolve ingests_finish_unit ingests_fail_unit ingests_count_attempt ingests_begin ingests_transmit
  ingests_persist ingests_register_page ingests_register_unit : frames.

Context (limit : Z) (payloads : PayloadFactory) (metadata : DocumentMetadataFactory).

Lemma ingests_ensure_artifact r c u : moves ingests (_ensure_artifact (B:=B) limit payloads r c u).
Proof using laws. unfold _ensure_artifact, linked_artifact. cbv zeta. frame_tac; by apply ingests_update_unit. Qed.

Lemma ingests_find_parent c u : moves ingests (find_parent (B:=B) c u).
Proof. unfold find_parent. cbv zeta. frame_tac. Qed.

#[local] Hint Resolve ingests_find_parent : frames.

Lemma ingests_persist_unit r c u a : moves ingests (persist_unit (B:=B) metadata r c u a).
Proof.
  unfold persist_unit. apply moves_bind; [apply _|frame_tac|]. intros now.
  apply moves_bind; [apply _|frame_tac|]. intros md. cbv zeta.
  destruct (is_event_unit u && negb (is_some (md_parent_document_id md))); frame_tac.
Qed.

#[local] Hint Resolve ingests_persist_unit : frames.

Lemma ingests_treat_unit r c u a : moves ingests (treat_unit (B:=B) metadata r c u a).
Proof.
  unfold treat_unit. apply moves_bind; [apply _| |].
  - apply moves_try; [apply _|frame_tac|]. intros e. destruct e; frame_tac.
  - intros [o|p]; [frame_tac|]. cbv zeta. destruct (_unit_classification _). frame_tac.
Qed.

#[local] Hint Resolve ingests_ensure_artifact ingests_treat_unit : frames.

Lemma ingests_process_unit r c u : moves ingests (_process_unit (B:=B) limit payloads metadata r c u).
Proof using laws. unfold _process_unit. frame_tac. Qed.

(** *** Finishing a page *)

Definition same_page (p q : IngestionPage) : Prop := pg_id p = pg_id q /\ pg_scope p = pg_scope q.

Lemma ingestion_ok_put_page n d p p0 :
  ingestion_ok n d -> pages d !! pg_id p = Some p0 -> pg_scope p = pg_scope p0 ->
  ingestion_ok n (d <| pages ::= put (pg_id p) p |>).
Proof.
  intros (H1 & H2 & H3 & H4 & H5) Hp Hs. unfold ingestion_ok. cbn.
  split_and!; [done|by eapply keyed_same|done| |done].
  intros i u [q Hq]%H4. unfold put. destruct (decide (pg_id p = un_page u)) as [->|Hne];
    [rewrite lookup_insert_eq|rewrite lookup_insert_ne by done]; by eexists.
Qed.

(** The world after a page, or a checkpoint, is saved. *)
Definition touched_page (p : IngestionPage) w : IngestionPage := p <| pg_updated_at := clock w |>.
Definition page_saved (p : IngestionPage) w : World B :=
  w <| db ::= fun d => d <| pages ::= put (pg_id p) (touched_page p w) |> |>.

Definition touched_checkpoint (c : IngestionCheckpoint) w : IngestionCheckpoint := c <| cp_updated_at := clock w |>.
Definition checkpoint_saved (c : IngestionCheckpoint) w : World B :=
  w <| db ::= fun d => d <| checkpoints ::= put (cp_id c) (touched_checkpoint c w) |> |>.

Lemma save_page_run p w : save_page p w = (Ok tt, page_saved p w).
Proof. reflexivity. Qed.

Lemma save_checkpoint_run c w :
  save_checkpoint c w = if checkpoint_check c then (Ok tt, checkpoint_saved c w) else (Err IntegrityError, w).
Proof. unfold save_checkpoint. exec. by destruct (checkpoint_check c). Qed.

Lemma ingests_page_saved p p0 w :
  pages (db w) !! pg_id p = Some p0 -> pg_scope p = pg_scope p0 -> ingests w (page_saved p w).
Proof.
  intros Hp Hs. split; [cbn; lia|]. intros Hw.
  exact (ingestion_ok_put_page _ _ (touched_page p w) p0 Hw Hp Hs).
Qed.

Lemma ingests_close_page p l adv x p0 w :
  pages (db w) !! pg_id p = Some p0 -> pg_scope p = pg_scope p0 -> ingests w (close_page (B:=B) p l adv x w).2.
Proof.
  intros Hp Hs. unfold close_page. cbv zeta. apply moved_bind; [apply _| |frame_tac].
  rewrite save_page_run. by eapply ingests_page_saved.
Qed.

Lemma empty_str_true s : empty_str s = true -> s = "".
Proof. by destruct s. Qed.

Lemma empty_str_false s : empty_str s = false -> s <> "".
Proof. by destruct s. Qed.

(** What [decide_position] answers when the page does not fail. *)
Lemma decide_position_moves state now page c :
  cp_scope c = (pg_company page, pg_family page, pg_flow page) -> position c = requested_position page ->
  is_failed (pd_page (decide_position state now page c)) = false ->
  let c' := pd_checkpoint (decide_position state now page c) <| cp_last_page := Some (pg_id page) |> in
  moved_by page c c' /\ same_page (pd_page (decide_position state now page c)) page /\
  pg_unit_count (pd_page (decide_position state now page c)) = pg_unit_count page /\
  requested_position (pd_page (decide_position state now page c)) = requested_position page.
Proof.
  intros Hs Hp Hf. unfold moved_by, continues. rewrite Hp. unfold cp_scope in Hs. injection Hs as Hco Hfa Hfl.
  unfold cp_scope, position, next_position in *. revert Hf. unfold decide_position, requested_position, is_nfe in *.
  rewrite Hfa in *. destruct (String.eqb (pg_family page) "nfe") eqn:Hn.
  - destruct (empty_str (pg_next_cursor page)) eqn:He; [apply empty_str_true in He; rewrite He|apply empty_str_false in He].
    { intros _. cbn. rewrite ?Hfa, ?Hn. repeat split; try congruence; try by left. }
    destruct (String.eqb_spec (pg_next_cursor page) (pg_request_cursor page)) as [Hq|Hq]; [intros Hx; discriminate Hx|].
    intros _. cbn. rewrite ?Hfa, ?Hn. repeat split; try congruence; try (right; repeat split; congruence).
  - destruct (empty_str (pg_request_nsu page) && empty_str (pg_next_nsu page)) eqn:He.
    { apply andb_true_iff in He as [He1%empty_str_true He2%empty_str_true]. intros _. cbn. rewrite ?Hfa, ?Hn, He1, He2.
      repeat split; try congruence; try (left; repeat split; congruence). }
    destruct (String.eqb_spec (pg_next_nsu page) (pg_request_nsu page)) as [Hq|Hq]; [intros Hx; discriminate Hx|].
    destruct (decreasing _ _) eqn:Hd; [intros Hx; discriminate Hx|]. intros _. cbn. rewrite ?Hfa, ?Hn.
    repeat split; try congruence; try by right.
Qed.

Lemma ingests_intro w w' : (next_uuid w <= next_uuid w')%N -> (ingestion_inv w -> ingests w w') -> ingests w w'.
Proof. intros Hle H. split; [done|]. intros Hw. by apply (H Hw). Qed.

Lemma units_settled_count p q l : pg_unit_count p = pg_unit_count q -> units_settled p l = units_settled q l.
Proof. unfold units_settled. by intros ->. Qed.

(** The checkpoint and the page of a completed page, written one after the other. *)
Lemma finish_step page page' c c' w :
  ingestion_inv w -> pages (db w) !! pg_id page = Some page -> checkpoints (db w) !! cp_id c = Some c ->
  cp_id c' = cp_id c -> cp_scope c' = cp_scope c -> checkpoint_check c' = true -> same_page page' page ->
  ingests w (page_saved page' (checkpoint_saved c' w)).
Proof.
  intros (H1 & H2 & H3 & H4 & H5) Hp Hi Hid Hsc Hk [Hpid Hpsc]. set (c2 := touched_checkpoint c' w).
  split; [cbn; lia|]. intros _. unfold ingestion_inv, page_saved, checkpoint_saved.
  assert (ingestion_ok (next_uuid w) (db w <| checkpoints ::= put (cp_id c2) c2 |>)) as Hok.
  { unfold ingestion_ok. cbn. split_and!; [|done..|].
    - apply (keyed_same cp_id cp_scope _ _ c2 c); [done| |exact Hsc].
      change (checkpoints (db w) !! cp_id c' = Some c). by rewrite Hid.
    - intros j x. unfold put. rewrite lookup_insert_Some. intros [[_ <-]|[_ Hj]]; [exact Hk|eauto]. }
  apply (ingestion_ok_put_page _ _ (touched_page page' (checkpoint_saved c' w)) page Hok); [|exact Hpsc].
  cbn. by rewrite Hpid.
Qed.

(** The checkpoint a page finds. *)
Lemma found_checkpoint page d c n :
  ingestion_ok n d ->
  first_where cp_created_at (checkpoint_of (pg_company page) (pg_family page) (pg_flow page)) (checkpoints d) = Some c ->
  checkpoints d !! cp_id c = Some c /\ cp_scope c = (pg_company page, pg_family page, pg_flow page).
Proof.
  intros (H1 & _) [Hsc%checkpoint_of_scope [i Hi]]%first_where_Some. by destruct (proj1 H1 _ _ Hi) as [-> _].
Qed.

Lemma decide_position_page state now page c :
  exists s f e, pd_page (decide_position state now page c) =
    page <| pg_state := s |> <| pg_finalized_at := f |> <| pg_safe_error := e |>.
Proof.
  assert (exists s f e, page = page <| pg_state := s |> <| pg_finalized_at := f |> <| pg_safe_error := e |>) as Hsame.
  { exists (pg_state page), (pg_finalized_at page), (pg_safe_error page). by destruct page. }
  unfold decide_position, position_failure. cbv zeta. repeat case_goal; cbn [pd_page]; try exact Hsame;
    first [by exists state, (Some now), (pg_safe_error page)|eexists IngestionPageState.FAILED, (pg_finalized_at page), _; done].
Qed.

Lemma ingests_complete_page page state l x y w :
  pages (db w) !! pg_id page = Some page -> finished_state state = true ->
  ingests w (complete_page (B:=B) page state l x y w).2.
Proof.
  intros Hp Hst. apply ingests_intro.
  { assert (moves (keeps (fun _ => tt)) (complete_page (B:=B) page state l x y)) as Hk; [|apply (Hk w)].
    unfold complete_page, close_page, save_page, save_checkpoint, _result_for_page, page_audit. cbv zeta. frame_tac. }
  intros Hw. unfold complete_page. apply moved_query. cbv zeta.
  destruct (units_settled page _) eqn:Hu; cbn [negb].
  2: { apply moved_bind; [apply _| |frame_tac]. rewrite save_page_run. by eapply (ingests_page_saved _ page). }
  apply moved_query. destruct (first_where _ _ _) as [c|] eqn:Hc; [|reflexivity].
  eapply moved_ok; [reflexivity|].
  destruct (String.eqb_spec (position c) (requested_position page)) as [Hpos|_]; cbn [negb].
  2: { apply moved_bind; [apply _| |frame_tac]. rewrite save_page_run. by eapply (ingests_page_saved _ page). }
  eapply moved_ok; [reflexivity|]. set (d := decide_position state (clock w) page c).
  destruct (decide_position_page state (clock w) page c) as (s & f & e & Hd). fold d in Hd.
  assert (forall p', same_page p' page -> pages (db w) !! pg_id p' = Some page) as Hrow by (by intros p' [-> _]).
  destruct (is_failed (pd_page d)) eqn:Hf.
  { apply (ingests_close_page _ _ _ _ page); rewrite Hd; done. }
  unfold bind at 1. rewrite save_checkpoint_run.
  destruct (checkpoint_check _) eqn:Hk; [|reflexivity].
  unfold close_page. cbv zeta. eapply moved_bind; [apply _| |frame_tac]. rewrite save_page_run.
  destruct (found_checkpoint _ _ _ _ Hw Hc) as [Hrowc Hsc].
  destruct (decide_position_moves state (clock w) page c Hsc Hpos Hf) as ((Hm1 & Hm2 & _) & _). fold d in Hm1, Hm2.
  by apply (finish_step page _ c); rewrite ?Hd.
Qed.

Lemma ingests_finish_page id state l reason x y : moves ingests (_finish_page (B:=B) id state l reason x y).
Proof.
  unfold _finish_page. apply moves_transaction; [apply _..|]. intros w. apply ingests_intro.
  { match goal with |- (_ <= next_uuid (?m w).2)%N => assert (moves (keeps (fun _ => tt)) m) as Hk; [|apply (Hk w)] end.
    unfold complete_page, close_page, save_page, save_checkpoint, _result_for_page, page_audit. cbv zeta. frame_tac. }
  intros Hw. apply moved_query. destruct (pages (db w) !! id) as [page|] eqn:Hp; [|reflexivity].
  eapply moved_ok; [reflexivity|]. destruct (settled_error page); [apply ingests_result|].
  assert (pages (db w) !! pg_id page = Some page) as Hp' by (by destruct (proj1 (proj1 (proj2 Hw)) _ _ Hp) as [-> _]).
  destruct (finished_state state) eqn:Hs; [by apply ingests_complete_page|].
  by apply (ingests_close_page _ _ _ _ page).
Qed.

#[local] Hint Resolve ingests_process_unit ingests_finish_page : frames.

(** *** The two entry points *)

Lemma ingests_ingest c response : moves ingests (ingest (B:=B) limit payloads metadata c response).
Proof using laws.
  unfold ingest, ingest_page_content, ingest_units, finish_classified, get_page. cbv zeta. frame_tac.
Qed.

Lemma ingests_reconcile unit_id : moves ingests (reconcile (B:=B) limit payloads metadata unit_id).
Proof using laws.
  unfold reconcile, reconcile_unit, reconcile_page, finish_reconciled, page_states, get_page, parse_ref_opt. cbv zeta.
  frame_tac.
Qed.

End ingestion.
