(* ===== verification/IngestionGuarantees.v ===== *)
(** * Ingestion: the properties

    What a returned result says of the stored page and of the units, replays, the
    treatment of one unit, and the places where the code advances or closes a page
    its classification does not. *)

From Stdlib Require Import ZArith Ascii String Lia.
From stdpp Require Import base decidable list gmap strings relations.
From S2P Require Import Prelude PyStr Sha256 PyVal Models Tables AuditTrail Artifacts ArtifactFacts Documents Simulation Ingestion IngestionFacts.

Local Open Scope string_scope.

(** ** Results and pages *)

(** [res] reports the stored page [p]. *)
Definition describes (p : IngestionPage) (res : IngestionResult) : Prop :=
  ir_page_id res = pg_id p /\ ir_page_state res = pg_state p /\ ir_safe_reason res = pg_safe_error p /\
  ir_outcome res = pg_outcome p /\ ir_recovery res = pg_recovery p /\
  ir_next_cursor res = present (Some (pg_next_cursor p)) /\ ir_next_nsu res = present (Some (pg_next_nsu p)).

(** What a page records of the answer it was stored for. *)
Definition answer_of (p : IngestionPage) : string * string * string * string * Z :=
  (pg_adapter_outcome p, pg_coverage p, pg_next_cursor p, pg_next_nsu p, pg_unit_count p).

(** The same row, with the same answer. *)
Definition same_record (p q : IngestionPage) : Prop := same_page p q /\ answer_of p = answer_of q.

(** The page [p] records the response. *)
Definition records (response : FiscalResponse) (p : IngestionPage) : Prop :=
  pg_adapter_outcome p = FiscalOutcome.value (fr_outcome response) /\ pg_coverage p = Coverage.value (fr_coverage response) /\
  pg_next_cursor p = opt_default "" (fr_next_cursor response) /\ pg_next_nsu p = opt_default "" (fr_next_nsu response) /\
  pg_unit_count p = Z.of_nat (length (fr_units response)).

(** Each unit of the response has a row under the page. *)
Definition units_stored (response : FiscalResponse) (page : N) (d : DB) : Prop :=
  forall u, u ∈ fr_units response -> exists i x, units d !! i = Some x /\ un_page x = page /\ un_identity x = fu_identity u.

Section guarantees.
Context {B : Type} `{!External B} `{!ObjectStore B} {laws : ObjectStoreLaws B}.
Context (limit : Z) (payloads : PayloadFactory) (metadata : DocumentMetadataFactory).
Implicit Types w : World B.

Lemma result_inv p w res w' :
  _result_for_page (B:=B) p w = (Ok res, w') ->
  w' = w /\ describes p res /\ ir_advanced res = is_some (pg_finalized_at p) /\
  ir_unit_states res = map outcome_of_state (map un_state (sort_by (by_key un_first_seen_at) (page_units (pg_id p) (db w)))).
Proof. unfold _result_for_page. intros H. invert_db. by repeat split. Qed.

Lemma keeps_audit_pages p result reason : moves (keeps pages) (page_audit (B:=B) p result reason).
Proof. apply keeps_page_audit. by intros d d' (? & ? & ->). Qed.

Lemma close_page_inv p l adv x w res w' :
  close_page (B:=B) p l adv x w = (Ok res, w') ->
  exists p', pages (db w') !! pg_id p = Some p' /\ describes p' res /\ same_record p' p /\
    pg_state p' = pg_state p /\ pg_finalized_at p' = pg_finalized_at p /\
    ir_advanced res = adv /\ ir_unit_states res = l.
Proof.
  unfold close_page. cbv zeta. intros H. apply bind_inv in H as (u & w1 & Hs & H). rewrite save_page_run in Hs.
  injection Hs as _ <-. apply bind_inv in H as (u' & w2 & Ha & H). apply ret_inv in H as [-> ->].
  apply (moves_run _ _ _ _ _ (keeps_audit_pages _ _ _)) in Ha as (Hp & _).
  eexists. split; [rewrite Hp; apply lookup_insert_eq|]. by repeat split.
Qed.

Lemma save_result_inv p w res w' :
  bind (save_page (B:=B) p) (fun _ => _result_for_page p) w = (Ok res, w') ->
  exists p', pages (db w') !! pg_id p = Some p' /\ describes p' res /\ same_record p' p.
Proof.
  intros H. apply bind_inv in H as (u & w1 & Hs & H). rewrite save_page_run in Hs. injection Hs as _ <-.
  apply result_inv in H as (-> & Hd & _). exists (touched_page p w). split; [apply lookup_insert_eq|]. split; [exact Hd|done].
Qed.

Lemma finish_page_inv id page state l reason x y w res w' :
  pages (db w) !! id = Some page -> pg_id page = id ->
  _finish_page (B:=B) id state l reason x y w = (Ok res, w') ->
  exists p', pages (db w') !! id = Some p' /\ describes p' res /\ same_record p' page.
Proof.
  intros Hp <-. unfold _finish_page. intros H. apply atomic_inv in H as [_ H].
  apply bind_inv in H as (row & w1 & Hq & H). apply query_inv in Hq as [-> ->]. rewrite Hp in H.
  apply bind_inv in H as (q & w1 & Hq & H). apply of_option_inv in Hq as [[= <-] ->].
  destruct (settled_error page).
  { apply result_inv in H as (-> & Hd & _). by exists page. }
  destruct (finished_state state).
  - unfold complete_page in H. apply bind_inv in H as (states & w1 & Hq & H). apply query_inv in Hq as [-> ->].
    cbv zeta in H. destruct (units_settled _ _); cbn [negb] in H.
    2: { apply save_result_inv in H as (p' & ? & ? & ?). by exists p'. }
    invert_db. destruct (String.eqb (position _) _); cbn [negb] in H.
    2: { apply save_result_inv in H as (p' & ? & ? & ?). by exists p'. }
    invert_db. match type of H with context [decide_position ?a ?b ?c ?d] =>
      destruct (decide_position_page a b c d) as (s & f & e & Hd) end.
    destruct (is_failed _).
    + apply close_page_inv in H as (p' & Hl & Hde & Hsa & _). rewrite Hd in Hl, Hsa. by exists p'.
    + apply bind_inv in H as (u & w2 & _ & H). apply close_page_inv in H as (p' & Hl & Hde & Hsa & _).
      rewrite Hd in Hl, Hsa. by exists p'.
  - apply close_page_inv in H as (p' & Hl & Hde & Hsa & _). by exists p'.
Qed.

(** ** What the phases leave alone *)

Lemma keeps_part {S T A} (f : DB -> S) (g : S -> T) (m : M B A) : moves (keeps f) m -> moves (keeps (fun d => g (f d))) m.
Proof. intros Hm w. destruct (Hm w) as (H & ?). split; [by rewrite H|done]. Qed.

(** The page and checkpoint tables while the units of a page are treated. *)
Definition page_tables (d : DB) : gmap N IngestionCheckpoint * gmap N IngestionPage := (checkpoints d, pages d).

Lemma page_tables_of {A} (m : M B A) : moves (keeps ingestion_tables) m -> moves (keeps page_tables) m.
Proof. apply (keeps_part ingestion_tables (fun t => t.1)). Qed.

Lemma pages_keep_begin a b c : moves (keeps page_tables) (begin (B:=B) a b c).
Proof. by apply page_tables_of, keeps_begin. Qed.

Lemma pages_keep_transmit id chunks : moves (keeps page_tables) (transmit (B:=B) limit id chunks).
Proof using laws. by apply page_tables_of, keeps_transmit. Qed.

Lemma pages_keep_persist data : moves (keeps page_tables) (persist_document (B:=B) data).
Proof. apply page_tables_of, keeps_persist. Qed.

#[local] Hint Resolve pages_keep_begin pages_keep_transmit pages_keep_persist : frames.

Lemma pages_keep_find_parent c u : moves (keeps page_tables) (find_parent (B:=B) c u).
Proof. unfold find_parent. cbv zeta. frame_tac. Qed.

Lemma pages_keep_ensure r c u : moves (keeps page_tables) (_ensure_artifact (B:=B) limit payloads r c u).
Proof using laws. unfold _ensure_artifact, linked_artifact. cbv zeta. frame_tac. Qed.

Lemma pages_keep_finish_unit r a o reason x y d e : moves (keeps page_tables) (_finish_unit (B:=B) r a o reason x y d e).
Proof. unfold _finish_unit. frame_tac. Qed.

#[local] Hint Resolve pages_keep_find_parent pages_keep_ensure pages_keep_finish_unit : frames.

Lemma pages_keep_treat r c u a : moves (keeps page_tables) (treat_unit (B:=B) metadata r c u a).
Proof.
  unfold treat_unit, _fail_unit. apply moves_bind; [apply _| |].
  - apply moves_try; [apply _| |intros e; destruct e; frame_tac]. unfold persist_unit.
    apply moves_bind; [apply _|frame_tac|]. intros now. apply moves_bind; [apply _|frame_tac|]. intros md. cbv zeta.
    destruct (is_event_unit u && negb (is_some (md_parent_document_id md))); frame_tac.
  - intros [o|p]; [frame_tac|]. cbv zeta. destruct (_unit_classification _). frame_tac.
Qed.

#[local] Hint Resolve pages_keep_treat : frames.

Lemma pages_keep_units page c l : moves (keeps page_tables) (ingest_units (B:=B) limit payloads metadata page c l).
Proof using laws.
  unfold ingest_units, _process_unit, count_attempt, _fail_unit, _register_unit, create_unit. cbv zeta. frame_tac.
Qed.

(** ** Registration *)

(** The page was refused when it was registered: its position is not the checkpoint's. *)
Definition refused_position (p : IngestionPage) : Prop :=
  pg_state p = IngestionPageState.FAILED /\ (pg_safe_error p = "stale_cursor" \/ pg_safe_error p = "checkpoint_position_mismatch").

Lemma register_page_inv c response w page created w' :
  ingestion_inv w -> _register_page (B:=B) c response w = (Ok (page, created), w') ->
  exists company, uuid_of (ic_company_id c) = Some company /\ pages (db w') !! pg_id page = Some page /\
    pg_scope page = (company, ic_family c, ic_flow c, page_key_of c) /\
    (if created then records response page /\ finished_state (pg_state page) = false /\ (is_failed page = true -> refused_position page)
     else pages (db w) !! pg_id page = Some page).
Proof.
  intros Hw H. unfold _register_page in H. apply bind_inv in H as (company & w0 & Hq & H).
  apply of_option_inv in Hq as [Hc ->]. exists company. split; [done|]. cbv zeta in H.
  assert (forall n d p, ingestion_ok n d ->
    first_where pg_created_at (page_of company (ic_family c) (ic_flow c) (page_key_of c)) (pages d) = Some p ->
    pages d !! pg_id p = Some p /\ pg_scope p = (company, ic_family c, ic_flow c, page_key_of c)) as Hfind.
  { intros n d p (_ & Hp & _) Hf. apply first_where_Some in Hf as [Hs%page_of_scope [i Hi]].
    split; [|done]. by destruct (proj1 Hp _ _ Hi) as [-> _]. }
  apply try_inv in H as [H|(e & w1 & He & H)].
  - apply atomic_inv in H as [_ H]. apply bind_inv in H as (cp & w1 & Hcp & H).
    assert (ingestion_inv w1) as Hw1.
    { pose proof (moves_run _ _ _ _ _ (ingests_open_checkpoint company (ic_family c) (ic_flow c)) Hcp) as [_ Hi]. by apply Hi. }
    apply bind_inv in H as (row & w2 & Hq & H). apply query_inv in Hq as [-> ->].
    assert (pages (db w1) = pages (db w)) as Hpages.
    { assert (moves (keeps pages) (get_or_create_checkpoint (B:=B) company (ic_family c) (ic_flow c))) as Hk
        by (unfold get_or_create_checkpoint; frame_tac).
      by apply (moves_run _ _ _ _ _ Hk) in Hcp as [? _]. }
    destruct (first_where _ _ _) as [p|] eqn:Hf.
    { apply ret_inv in H as [[= -> ->] ->]. destruct (Hfind _ _ _ Hw1 Hf) as [H1 H2]. split; [done|]. split; [done|].
      by rewrite <-Hpages. }
    set (requested := opt_default "" (if is_nfe (ic_family c) then ic_request_cursor c else ic_request_nsu c)) in *.
    assert (forall state outcome recovery err, (if String.eqb (position cp) requested
       then (IngestionPageState.PENDING, cl_outcome (classify_page_response response), cl_recovery (classify_page_response response), "")
       else (IngestionPageState.FAILED, IngestionOutcome.TEMPORARY_FAILURE, IngestionRecovery.RECONCILE,
             if str_nonempty requested then "stale_cursor" else "checkpoint_position_mismatch")) = (state, outcome, recovery, err) ->
       finished_state state = false /\
       (state = IngestionPageState.FAILED -> err = "stale_cursor" \/ err = "checkpoint_position_mismatch")) as Herr.
    { intros * He. destruct (String.eqb _ _); injection He as <- _ _ <-; (split; [done|]); [done|].
      intros _. destruct (str_nonempty requested); [by left|by right]. }
    destruct (if String.eqb _ _ then _ else _) as [[[state outcome] recovery] err]. destruct (Herr _ _ _ _ eq_refl) as [Hopen Herr'].
    apply bind_inv in H as (ex & w2 & _ & H). apply bind_inv in H as (p & w3 & Hcr & H).
    apply bind_inv in H as (u1 & w4 & Ha & H). apply bind_inv in H as (u2 & w5 & Hr & H). apply ret_inv in H as [[= -> ->] ->].
    assert (pages (db w5) = pages (db w3)) as ->.
    { assert (pages (db w4) = pages (db w3)) as <-.
      - destruct (String.eqb _ _); [by apply ret_inv in Ha as [_ ->]|].
        by apply (moves_run _ _ _ _ _ (keeps_audit_pages _ _ _)) in Ha as (? & _).
      - unfold page_references in Hr. by invert_db. }
    unfold create_page in Hcr. invert_db. split; [apply lookup_insert_eq|]. split; [done|]. split; [done|]. split; [exact Hopen|].
    intros Hst%bool_decide_eq_true. split; [exact Hst|by apply Herr'].
  - apply atomic_rollback in He.
    destruct e; try (by destruct (throw_inv _ _ _ _ H)).
    apply bind_inv in H as (row & w2 & Hq & H). apply atomic_inv in Hq as [_ Hq]. apply query_inv in Hq as [-> ->].
    apply bind_inv in H as (p & w2 & Hq & H). apply of_option_inv in Hq as [Hf ->]. apply ret_inv in H as [[= -> ->] ->].
    rewrite He in *. destruct (Hfind _ _ _ Hw Hf). by split_and!.
Qed.

Lemma get_page_inv id w p w' : get_page (B:=B) id w = (Ok p, w') -> w' = w /\ pages (db w) !! id = Some p.
Proof. unfold get_page. intros H. by invert_db. Qed.

(** *** Units, once registered, stay *)

Definition scopes_kept w w' : Prop :=
  (next_uuid w <= next_uuid w')%N /\
  (ingestion_inv w -> ingestion_inv w' /\
   forall i r, units (db w) !! i = Some r -> exists r', units (db w') !! i = Some r' /\ un_scope r' = un_scope r).

#[local] Instance scopes_kept_preorder : PreOrder scopes_kept.
Proof.
  split.
  - intros w. split; [lia|]. intros Hw. split; [done|]. intros i r Hr. by exists r.
  - intros a b c [N1 H1] [N2 H2]. split; [lia|]. intros Ha. destruct (H1 Ha) as [Hb K1]. destruct (H2 Hb) as [Hc K2]. split; [done|].
    intros i r (r1 & Hr1 & S1)%K1. destruct (K2 _ _ Hr1) as (r2 & Hr2 & S2). exists r2. split; [done|congruence].
Qed.

#[local] Instance scopes_kept_rolls_back : RollsBack scopes_kept.
Proof.
  intros w w' [Hn _]. split; [done|]. intros Hw. split; [by eapply ingestion_ok_mono|]. intros i r Hr. by exists r.
Qed.

(** Nothing happens to the units. *)
Lemma scopes_same w w' : ingests w w' -> units (db w') = units (db w) -> scopes_kept w w'.
Proof. intros [Hn Hi] Hu. split; [done|]. intros Hw. split; [by apply Hi|]. intros i r Hr. rewrite Hu. by exists r. Qed.

Lemma scopes_tables {A} (m : M B A) : moves (keeps ingestion_tables) m -> moves scopes_kept m.
Proof. intros Hm w. pose proof (Hm w) as Hk. apply scopes_same; [by apply ingests_keeps|]. by destruct Hk as ([= _ _ ?] & _). Qed.

Lemma scopes_update id f :
  (forall u, un_id (f u) = un_id u /\ un_scope (f u) = un_scope u) -> moves scopes_kept (write (B:=B) (update_unit id f)).
Proof.
  intros Hf w. destruct (ingests_update_unit id f Hf w) as [Hn Hi]. split; [done|]. intros Hw. split; [by apply Hi|].
  intros i r Hr. cbn. rewrite lookup_update_where, Hr. cbn. eexists. split; [done|]. destruct (N.eqb _ _); [apply Hf|done].
Qed.

Lemma scopes_create build w :
  (forall id now, un_id (build id now) = id) ->
  (forall i x id now, units (db w) !! i = Some x -> un_scope x <> un_scope (build id now)) ->
  scopes_kept w (create_unit (B:=B) build w).2.
Proof.
  intros Hid Hnew. destruct (ingests_create_unit build w Hid Hnew) as [Hn Hi]. split; [done|]. intros Hw. split; [by apply Hi|].
  intros i r Hr. exists r. split; [|done]. revert Hr. unfold create_unit. exec. specialize (Hid (next_uuid w) (clock w)).
  destruct (unit_fits _); [|done]. cbn. destruct (unit_check _); [|done]. cbn. destruct (is_some _); [|done]. cbn.
  unfold put. rewrite Hid. destruct Hw as (_ & _ & Hu & _). apply keyed_fresh in Hu.
  intros Hr. rewrite lookup_insert_ne; [done|]. intros <-. congruence.
Qed.

Lemma scopes_register page c u : moves scopes_kept (_register_unit (B:=B) page c u).
Proof.
  unfold _register_unit. cbv zeta. apply moves_bind; [apply _|frame_tac|]. intros company.
  apply moves_try; [apply _| |frame_tac]. apply moves_transaction; [apply _..|]. intros w. apply moved_query.
  destruct (first_where _ _ _) as [r|] eqn:Hf.
  - match goal with |- scopes_kept w (?m w).2 => enough (moves scopes_kept m) as Hm by apply Hm end.
    frame_tac. by apply scopes_update.
  - apply scopes_create; [done|]. intros i x id now Hi Hx.
    change (un_scope (new_unit id now (pg_id page) company c u)) with (pg_id page, fu_identity u) in Hx.
    apply unit_of_scope in Hx. by rewrite (first_where_None _ _ _ Hf _ _ Hi) in Hx.
Qed.

Lemma scopes_begin a b c : moves scopes_kept (begin (B:=B) a b c).
Proof. by apply scopes_tables, keeps_begin. Qed.
Lemma scopes_transmit id chunks : moves scopes_kept (transmit (B:=B) limit id chunks).
Proof using laws. by apply scopes_tables, keeps_transmit. Qed.
Lemma scopes_persist data : moves scopes_kept (persist_document (B:=B) data).
Proof. apply scopes_tables, keeps_persist. Qed.
Lemma scopes_finish_unit r a o reason x y d e : moves scopes_kept (_finish_unit (B:=B) r a o reason x y d e).
Proof. unfold _finish_unit. frame_tac. by apply scopes_update. Qed.
Lemma scopes_fail_unit r reason x y : moves scopes_kept (_fail_unit (B:=B) r reason x y).
Proof. unfold _fail_unit. frame_tac. by apply scopes_update. Qed.
Lemma scopes_count r : moves scopes_kept (count_attempt (B:=B) r).
Proof. unfold count_attempt. frame_tac. by apply scopes_update. Qed.
Lemma scopes_find_parent c u : moves scopes_kept (find_parent (B:=B) c u).
Proof. unfold find_parent. cbv zeta. frame_tac. Qed.
#[local] Hint Resolve scopes_begin scopes_transmit scopes_persist scopes_finish_unit scopes_fail_unit scopes_count scopes_find_parent : frames.

Lemma scopes_process r c u : moves scopes_kept (_process_unit (B:=B) limit payloads metadata r c u).
Proof using laws.
  assert (moves scopes_kept (_ensure_artifact (B:=B) limit payloads r c u)) as Hens
    by (unfold _ensure_artifact, linked_artifact; cbv zeta; frame_tac; by apply scopes_update).
  assert (forall a, moves scopes_kept (persist_unit (B:=B) metadata r c u a)) as Hper.
  { intros a. unfold persist_unit. apply moves_bind; [apply _|frame_tac|]. intros now. apply moves_bind; [apply _|frame_tac|].
    intros md. cbv zeta. destruct (is_event_unit u && negb (is_some (md_parent_document_id md))); frame_tac. }
  assert (forall a, moves scopes_kept (treat_unit (B:=B) metadata r c u a)) as Htreat.
  { intros a. unfold treat_unit. apply moves_bind; [apply _| |].
    - apply moves_try; [apply _|apply Hper|]. intros e. destruct e; frame_tac.
    - intros [o|p]; [frame_tac|]. cbv zeta. destruct (_unit_classification _). frame_tac. }
  unfold _process_unit. frame_tac; apply Hens || apply Htreat.
Qed.

(** A registered unit has its row. *)
Lemma register_unit_row page c u w r w' :
  _register_unit (B:=B) page c u w = (Ok r, w') -> exists i x, units (db w') !! i = Some x /\ un_scope x = (pg_id page, fu_identity u).
Proof.
  unfold _register_unit. cbv zeta. intros H. apply bind_inv in H as (company & w0 & Hq & H). apply of_option_inv in Hq as [_ ->].
  apply try_inv in H as [H|(e & w1 & _ & H)]; [|by destruct e].
  apply atomic_inv in H as [_ H]. apply bind_inv in H as (row & w1 & Hq & H). apply query_inv in Hq as [-> ->].
  destruct (first_where _ _ _) as [x|] eqn:Hf.
  - apply first_where_Some in Hf as [Hs%unit_of_scope [i Hi]].
    destruct (String.eqb _ _); [apply ret_inv in H as [_ ->]; by exists i, x|].
    apply bind_inv in H as (now & w1 & Hq & H). apply now_inv in Hq as [-> ->]. invert_db.
    exists i. cbn. rewrite lookup_update_where, Hi. cbn. eexists. split; [done|]. by destruct (N.eqb _ _).
  - unfold create_unit in H. invert_db. eexists _, _. split; [apply lookup_insert_eq|done].
Qed.

Lemma ingest_units_rows page c l w states w' :
  ingestion_inv w -> ingest_units (B:=B) limit payloads metadata page c l w = (Ok states, w') ->
  forall u, u ∈ l -> exists i x, units (db w') !! i = Some x /\ un_scope x = (pg_id page, fu_identity u).
Proof using laws.
  unfold ingest_units. revert w states. induction l as [|u l IH]; intros w states Hw H v Hv; [by apply not_elem_of_nil in Hv|].
  cbn [for_each] in H. apply bind_inv in H as (o & w1 & Hhead & H). apply bind_inv in H as (rest & w2 & Htail & H).
  apply ret_inv in H as [-> ->]. apply bind_inv in Hhead as (r & w0 & Hr & Hp).
  destruct (moves_run _ _ _ _ _ (scopes_register page c u) Hr) as [_ K0]. destruct (K0 Hw) as [Hw0 _].
  destruct (moves_run _ _ _ _ _ (scopes_process r c u) Hp) as [_ K1]. destruct (K1 Hw0) as [Hw1 Kp].
  apply elem_of_cons in Hv as [->|Hv]; [|by eapply IH].
  destruct (register_unit_row _ _ _ _ _ _ Hr) as (i & x & Hi & Hs). destruct (Kp _ _ Hi) as (x1 & Hx1 & S1).
  assert (moves scopes_kept (ingest_units (B:=B) limit payloads metadata page c l)) as Hm.
  { unfold ingest_units. apply moves_for_each; [apply _|]. intros y. apply moves_bind; [apply _|apply scopes_register|].
    intros z. apply scopes_process. }
  destruct (moves_run _ _ _ _ _ Hm Htail) as [_ K2]. destruct (K2 Hw1) as [_ Kt]. destruct (Kt _ _ Hx1) as (x2 & Hx2 & S2).
  exists i, x2. split; [done|congruence].
Qed.

(** A page, once stored, is what the rest of [ingest] reports; and the units are there. *)
Lemma content_inv page c response w res w' :
  ingestion_inv w -> pages (db w) !! pg_id page = Some page ->
  ingest_page_content (B:=B) limit payloads metadata page c response w = (Ok res, w') ->
  (exists p', pages (db w') !! pg_id page = Some p' /\ describes p' res /\ same_record p' page) /\
  (failure_response (fr_outcome response) = true \/ units_stored response (pg_id page) (db w')).
Proof using laws.
  intros Hw Hp. unfold ingest_page_content, finish_classified.
  destruct (failure_response _); [intros H; split; [by eapply finish_page_inv|by left]|].
  intros H. apply bind_inv in H as (states & w1 & Hu & H). pose proof (ingest_units_rows _ _ _ _ _ _ Hw Hu) as Hrows.
  apply (moves_run _ _ _ _ _ (pages_keep_units _ _ _)) in Hu as ([= _ Hk] & _).
  apply bind_inv in H as (p & w2 & Hg & H). apply get_page_inv in Hg as [-> Hg].
  assert (p = page) as -> by congruence. split; [by eapply finish_page_inv|]. right.
  intros u (i & x & Hi & [= Hx1 Hx2])%Hrows. exists i, x. split; [|done].
  match type of H with ?m w1 = _ => assert (moves (keeps units) m) as Hm end.
  { unfold _finish_page, complete_page, close_page, save_page, save_checkpoint, _result_for_page, page_audit. cbv zeta. frame_tac. }
  apply (moves_run _ _ _ _ _ Hm) in H as [-> _]. done.
Qed.

Lemma prepare_inv page response w u w' :
  pages (db w) !! pg_id page = Some page -> _prepare_page_retry (B:=B) page response w = (Ok u, w') ->
  pages (db w') !! pg_id page = Some (retried_page (clock w) response page).
Proof.
  intros Hp. unfold _prepare_page_retry. intros H. invert_db. cbn. rewrite lookup_update_where, Hp. cbn.
  by rewrite N.eqb_refl.
Qed.

(** The page an answer is stored under: one that was there and is not taken up again,
    or one that records the answer, with a row for each of its units unless the
    answer reports a failure or the page was refused for its position. *)
Definition answer_stored (response : FiscalResponse) w w' (p : IngestionPage) : Prop :=
  (pages (db w) !! pg_id p = Some p /\ _can_resume_page p response = false) \/
  (records response p /\
   (failure_response (fr_outcome response) = true \/ units_stored response (pg_id p) (db w') \/ refused_position p)).

Lemma ingest_stored c response w res w' :
  ingestion_inv w -> ingest (B:=B) limit payloads metadata c response w = (Ok res, w') ->
  exists company p, uuid_of (ic_company_id c) = Some company /\ pages (db w') !! ir_page_id res = Some p /\
    pg_scope p = (company, ic_family c, ic_flow c, page_key_of c) /\ describes p res /\ answer_stored response w w' p.
Proof using laws.
  intros Hw. unfold ingest. intros H. apply bind_inv in H as (u1 & w1 & Hv & H). apply lift_inv in Hv as [_ ->].
  apply bind_inv in H as (u2 & w1 & Hv & H). apply lift_inv in Hv as [_ ->].
  apply bind_inv in H as ([page created] & w1 & Hr & H).
  destruct (register_page_inv _ _ _ _ _ _ Hw Hr) as (company & Hc & Hp & Hs & Hrec). exists company.
  assert (ingestion_inv w1) as Hw1 by (apply (moves_run _ _ _ _ _ (ingests_register_page c response)) in Hr as [_ Hi]; by apply Hi).
  enough (exists p, pages (db w') !! ir_page_id res = Some p /\
    pg_scope p = (company, ic_family c, ic_flow c, page_key_of c) /\ describes p res /\ answer_stored response w w' p) as (p & ?) by (by exists p).
  assert (forall q w0, ingestion_inv w0 -> pages (db w0) !! pg_id q = Some q -> pg_scope q = pg_scope page -> records response q ->
    ingest_page_content (B:=B) limit payloads metadata q c response w0 = (Ok res, w') ->
    exists p, pages (db w') !! ir_page_id res = Some p /\ pg_scope p = (company, ic_family c, ic_flow c, page_key_of c) /\
      describes p res /\ answer_stored response w w' p) as Hcon.
  { intros q w0 Hw0 Hq Hsq Hrq Hi. apply content_inv in Hi as [(p & Hl & Hd & [Hid Hsp] & Hans) Hun]; [|done..]. exists p.
    rewrite (proj1 Hd), Hid. split_and!; [done|congruence|done|]. right. split.
    - unfold records, answer_of in *. injection Hans as -> -> -> -> ->. exact Hrq.
    - rewrite Hid. destruct Hun as [Hun|Hun]; [by left|right; by left]. }
  destruct created.
  - destruct Hrec as (Hrec & _ & Href). destruct (is_failed page); [|by eapply Hcon].
    apply result_inv in H as (-> & Hd & _). exists page. rewrite (proj1 Hd). split_and!; try done. right. split; [done|]. right. right. by apply Href.
  - destruct (_can_resume_page page response) eqn:Hres; cbn [negb] in H.
    2: { apply result_inv in H as (-> & Hd & _). exists page. rewrite (proj1 Hd). split_and!; try done. by left. }
    apply bind_inv in H as (u3 & w2 & Hpr & H).
    assert (ingestion_inv w2) as Hw2 by (apply (moves_run _ _ _ _ _ (ingests_prepare page response)) in Hpr as [_ Hi]; by apply Hi).
    apply prepare_inv in Hpr; [|done].
    apply bind_inv in H as (q & w3 & Hg & H). apply get_page_inv in Hg as [-> Hg].
    assert (q = retried_page (clock w1) response page) as -> by congruence.
    by apply (Hcon (retried_page (clock w1) response page) w2).
Qed.

(** ** A page that may not be taken up again *)

(** The result [_result_for_page] reads off the tables. *)
Definition recorded_result (p : IngestionPage) (d : DB) : IngestionResult :=
  MkIngestionResult (pg_id p) (pg_state p)
    (map outcome_of_state (map un_state (sort_by (by_key un_first_seen_at) (page_units (pg_id p) d))))
    (is_some (pg_finalized_at p)) (present (Some (pg_next_cursor p))) (present (Some (pg_next_nsu p)))
    (pg_safe_error p) (pg_outcome p) (pg_recovery p).

Lemma result_run p w : online w = true -> _result_for_page (B:=B) p w = (Ok (recorded_result p (db w)), w).
Proof. intros Ho. unfold _result_for_page. unfold bind. by rewrite committed_query. Qed.

(** The only row of a unique scope is the one a query finds. *)
Lemma register_known c response w company i page j cp :
  ingestion_inv w -> online w = true -> uuid_of (ic_company_id c) = Some company ->
  pages (db w) !! i = Some page -> pg_scope page = (company, ic_family c, ic_flow c, page_key_of c) ->
  checkpoints (db w) !! j = Some cp -> cp_scope cp = (company, ic_family c, ic_flow c) ->
  _register_page (B:=B) c response w = (Ok (page, false), w).
Proof.
  intros (Hcs & Hps & _) Ho Hc Hi Hs Hj Hsc. unfold _register_page. rewrite (bind_ok _ _ w company w) by (by rewrite Hc).
  cbv zeta. unfold try_except, atomic. rewrite Ho. unfold get_or_create_checkpoint.
  assert (first_where cp_created_at (checkpoint_of company (ic_family c) (ic_flow c)) (checkpoints (db w)) = Some cp) as Hf.
  { eapply first_where_unique; [done|done|by apply checkpoint_of_scope|]. intros s Hp%checkpoint_of_scope. congruence. }
  assert (first_where pg_created_at (page_of company (ic_family c) (ic_flow c) (page_key_of c)) (pages (db w)) = Some page) as Hg.
  { eapply first_where_unique; [done|done|by apply page_of_scope|]. intros s Hp%page_of_scope. congruence. }
  unfold bind, query, gets. rewrite Hf. cbn [ret]. unfold ret. by rewrite Hg.
Qed.

(** ** Failing responses *)

(** Every checkpoint is as it was; a new one starts at no position. *)
Definition extends (d d' : DB) : Prop :=
  (forall i c, checkpoints d !! i = Some c -> checkpoints d' !! i = Some c) /\
  (forall i c, checkpoints d' !! i = Some c -> checkpoints d !! i = Some c \/ (cp_cursor c = "" /\ cp_nsu c = "")).

#[local] Instance extends_preorder : PreOrder extends.
Proof.
  split.
  - intros d. split; [done|by left].
  - intros a b c [H1 H2] [G1 G2]. split; [eauto|]. intros i x [Hx|?]%G2; [by apply H2|by right].
Qed.

Lemma extends_same d d' : checkpoints d' = checkpoints d -> extends d d'.
Proof. intros H. split; intros i c; rewrite H; [done|by left]. Qed.

Definition opens w w' : Prop := (next_uuid w <= next_uuid w')%N /\
  (ingestion_inv w -> ingestion_inv w' /\ extends (db w) (db w') /\ units (db w') = units (db w)).

#[local] Instance opens_preorder : PreOrder opens.
Proof.
  split.
  - intros w. split; [lia|]. intros Hw. split; [done|]. split; [apply extends_preorder|done].
  - intros a b c [H1 H2] [G1 G2]. split; [lia|]. intros Ha. destruct (H2 Ha) as (Hb & He & Hu).
    destruct (G2 Hb) as (Hc & Ge & Gu). split; [done|]. split; [by etrans|congruence].
Qed.

#[local] Instance opens_rolls_back : RollsBack opens.
Proof.
  intros w w' [H _]. split; [done|]. intros Hw. split; [by eapply ingestion_ok_mono|]. split; [apply extends_preorder|done].
Qed.

Lemma opens_ingests w w' :
  ingests w w' -> (ingestion_inv w -> extends (db w) (db w') /\ units (db w') = units (db w)) -> opens w w'.
Proof. intros [H1 H2] He. split; [done|]. intros Hw. split; [by apply H2|by apply He]. Qed.

Lemma opens_keeps {A} (m : M B A) : moves (keeps ingestion_tables) m -> moves opens m.
Proof.
  intros Hm w. pose proof (Hm w) as ([= Hc _ Hu] & _). apply opens_ingests; [by apply ingests_keeps|]. intros _.
  split; [by apply extends_same|done].
Qed.

(** An operation that follows the protocol and touches pages only. *)
Lemma opens_pages {A} (m : M B A) :
  moves ingests m -> moves (keeps (fun d => (checkpoints d, units d))) m -> moves opens m.
Proof.
  intros Hi Hk w. pose proof (Hk w) as ([= Hc Hu] & _). apply opens_ingests; [apply Hi|]. intros _.
  split; [by apply extends_same|done].
Qed.

Lemma opens_open_checkpoint company family flow : moves opens (get_or_create_checkpoint (B:=B) company family flow).
Proof.
  intros w. apply opens_ingests; [apply ingests_open_checkpoint|]. intros (Hc & _).
  unfold get_or_create_checkpoint. exec.
  destruct (first_where _ _ _); [by split; [apply extends_same|]|]. cbn.
  destruct (wide 64 flow); [|by split; [apply extends_same|]]. cbn.
  destruct (checkpoint_check _); [|by split; [apply extends_same|]]. cbn.
  split; [|done]. apply keyed_fresh in Hc. unfold put. split; cbn.
  - intros i c Hi. rewrite lookup_insert_ne; [done|]. intros <-. congruence.
  - intros i c. rewrite lookup_insert_Some. intros [[_ <-]|[_ Hi]]; [by right|by left].
Qed.

Lemma keeps_cu_audit p result reason : moves (keeps (fun d => (checkpoints d, units d))) (page_audit (B:=B) p result reason).
Proof. apply keeps_page_audit. by intros d d' (? & ? & ->). Qed.
#[local] Hint Resolve keeps_cu_audit : frames.

Lemma opens_create_page build : (forall id now, pg_id (build id now) = id) -> moves opens (create_page (B:=B) build).
Proof. intros Hb. apply opens_pages; [by apply ingests_create_page|]. unfold create_page. cbv zeta. frame_tac. Qed.

Lemma opens_audit p result reason : moves opens (page_audit (B:=B) p result reason).
Proof. apply opens_pages; [apply ingests_page_audit|frame_tac]. Qed.

Lemma opens_result p : moves opens (_result_for_page (B:=B) p).
Proof. unfold _result_for_page. frame_tac. Qed.

Lemma opens_prepare page response : moves opens (_prepare_page_retry (B:=B) page response).
Proof. apply opens_pages; [apply ingests_prepare|]. unfold _prepare_page_retry. frame_tac. Qed.

Lemma opens_uuid4 : moves opens (uuid4 (B:=B)).
Proof. apply opens_keeps. frame_tac. Qed.

(** Closing a page in a state other than [COMPLETE] or [EMPTY]. *)
Lemma opens_finish_open id state l reason x y :
  finished_state state = false -> moves opens (_finish_page (B:=B) id state l reason x y).
Proof.
  intros Hs. apply opens_pages; [apply ingests_finish_page|].
  unfold _finish_page. rewrite Hs. unfold close_page, save_page, _result_for_page. cbv zeta. frame_tac.
Qed.

#[local] Hint Resolve opens_open_checkpoint opens_audit opens_result opens_prepare opens_uuid4 : frames.

Lemma classify_failure response :
  failure_response (fr_outcome response) = true -> finished_state (cl_page_state (classify_page_response response)) = false.
Proof. unfold classify_page_response. by destruct (fr_outcome response). Qed.

Lemma opens_failure c response :
  failure_response (fr_outcome response) = true -> moves opens (ingest (B:=B) limit payloads metadata c response).
Proof.
  intros Hf. unfold ingest, ingest_page_content, finish_classified, get_page. rewrite Hf.
  apply classify_failure in Hf.
  unfold _register_page, page_references, parse_ref_opt. cbv zeta.
  frame_tac; try (by apply opens_create_page); by apply opens_finish_open.
Qed.

(** ** The treatment of one unit *)

Definition same_unit (r r' : ReceivedUnit) : Prop :=
  un_id r' = un_id r /\ un_scope r' = un_scope r /\ un_content_hash r' = un_content_hash r /\ un_attempts r' = un_attempts r.

(** The row of a unit stays, as the same unit; stored artifacts stay. *)
Definition unit_kept (id : N) w w' : Prop :=
  forall r, units (db w) !! id = Some r -> exists r', units (db w') !! id = Some r' /\ same_unit r r'.

#[local] Instance unit_kept_preorder id : PreOrder (unit_kept id).
Proof.
  split.
  - intros w r Hr. by exists r.
  - intros a b c H G r Hr. destruct (H r Hr) as (r1 & Hr1 & S1 & S2 & S3 & S4).
    destruct (G r1 Hr1) as (r2 & Hr2 & T1 & T2 & T3 & T4). exists r2. unfold same_unit. split; [done|].
    split_and!; congruence.
Qed.

#[local] Instance unit_kept_rolls_back id : RollsBack (unit_kept id).
Proof. intros w w' _ r Hr. by exists r. Qed.

Lemma kept_tables {A} id (m : M B A) : moves (keeps ingestion_tables) m -> moves (unit_kept id) m.
Proof. intros Hm w r Hr. pose proof (Hm w) as ([= _ _ Hu] & _). rewrite Hu. by exists r. Qed.

Lemma kept_update id i f : (forall r, same_unit r (f r)) -> moves (unit_kept id) (write (B:=B) (update_unit i f)).
Proof.
  intros Hf w r Hr. cbn. rewrite lookup_update_where, Hr. cbn. eexists. split; [done|]. destruct (N.eqb _ _); [apply Hf|done].
Qed.

Lemma kept_begin id a b c : moves (unit_kept id) (begin (B:=B) a b c).
Proof. by apply kept_tables, keeps_begin. Qed.
Lemma kept_transmit id i chunks : moves (unit_kept id) (transmit (B:=B) limit i chunks).
Proof using laws. by apply kept_tables, keeps_transmit. Qed.
Lemma kept_persist id data : moves (unit_kept id) (persist_document (B:=B) data).
Proof. apply kept_tables, keeps_persist. Qed.
Lemma kept_finish_unit id r a o reason x y d e : moves (unit_kept id) (_finish_unit (B:=B) r a o reason x y d e).
Proof. unfold _finish_unit. frame_tac. by apply kept_update. Qed.
Lemma kept_fail_unit id r reason x y : moves (unit_kept id) (_fail_unit (B:=B) r reason x y).
Proof. unfold _fail_unit. frame_tac. by apply kept_update. Qed.
Lemma kept_find_parent id c u : moves (unit_kept id) (find_parent (B:=B) c u).
Proof. unfold find_parent. cbv zeta. frame_tac. Qed.

#[local] Hint Resolve kept_begin kept_transmit kept_persist kept_finish_unit kept_fail_unit kept_find_parent : frames.

Lemma kept_ensure id r c u : moves (unit_kept id) (_ensure_artifact (B:=B) limit payloads r c u).
Proof using laws. unfold _ensure_artifact, linked_artifact. cbv zeta. frame_tac; by apply kept_update. Qed.

Lemma kept_persist_unit id r c u a : moves (unit_kept id) (persist_unit (B:=B) metadata r c u a).
Proof.
  unfold persist_unit. apply moves_bind; [apply _|frame_tac|]. intros now.
  apply moves_bind; [apply _|frame_tac|]. intros md. cbv zeta.
  destruct (is_event_unit u && negb (is_some (md_parent_document_id md))); frame_tac.
Qed.

(** What the last write of a treatment leaves. *)
Definition treated (a : option N) (o : UnitOutcome.t) (r r' : ReceivedUnit) : Prop :=
  same_unit r r' /\ un_state r' = state_of_outcome o /\
  match o with
  | UnitOutcome.FAILED => un_recovery r' = IngestionRecovery.RETRY
  | UnitOutcome.PENDING => False
  | _ => un_artifact r' = a /\ is_Some a
  end.

Lemma finish_unit_inv r r0 a o reason x y d e w u w' :
  units (db w) !! un_id r = Some r0 -> un_id r0 = un_id r ->
  _finish_unit (B:=B) r a o reason x y d e w = (Ok u, w') ->
  units (db w') !! un_id r = Some (finished_unit (clock w) (art_id a) o reason x y d e r0).
Proof.
  intros Hr Hid. unfold _finish_unit. intros H. invert_db. cbn. rewrite lookup_update_where, Hr. cbn.
  by rewrite Hid, N.eqb_refl.
Qed.

Lemma fail_unit_inv r r0 reason x y w u w' :
  units (db w) !! un_id r = Some r0 -> un_id r0 = un_id r -> _fail_unit (B:=B) r reason x y w = (Ok u, w') ->
  units (db w') !! un_id r = Some (failed_unit (clock w) reason x y r0).
Proof.
  intros Hr Hid. unfold _fail_unit. intros H. invert_db. cbn. rewrite lookup_update_where, Hr. cbn.
  by rewrite Hid, N.eqb_refl.
Qed.

Lemma same_unit_trans r1 r2 r3 : same_unit r1 r2 -> same_unit r2 r3 -> same_unit r1 r3.
Proof. intros (H1 & H2 & H3 & H4) (G1 & G2 & G3 & G4). unfold same_unit. split_and!; congruence. Qed.

Lemma treated_finished r0 r1 a o reason x y d e now :
  same_unit r0 r1 -> o <> UnitOutcome.FAILED -> o <> UnitOutcome.PENDING ->
  treated (Some a) o r0 (finished_unit now a o reason x y d e r1).
Proof.
  intros Hs Hf Hp. split; [by eapply same_unit_trans|]. split; [done|].
  destruct o; try done; by split.
Qed.

Lemma treated_failed r0 r1 a reason x now :
  same_unit r0 r1 -> treated a UnitOutcome.FAILED r0 (failed_unit now reason x IngestionRecovery.RETRY r1).
Proof. intros Hs. split; [by eapply same_unit_trans|]. by split. Qed.

Lemma persist_unit_early r0 r c u a w o w' :
  units (db w) !! un_id r = Some r0 -> un_id r0 = un_id r ->
  persist_unit (B:=B) metadata r c u a w = (Ok (inl o), w') ->
  exists r', units (db w') !! un_id r = Some r' /\ treated (Some (art_id a)) o r0 r'.
Proof.
  intros Hr Hid. unfold persist_unit. intros H. apply bind_inv in H as (now & w1 & Hq & H). apply now_inv in Hq as [-> ->].
  apply bind_inv in H as (md & w1 & Hq & H). apply lift_inv in Hq as [_ ->]. cbv zeta in H.
  assert (forall md w0, bind (persist_document (B:=B) (document_input c u md (art_id a)))
    (fun p => ret (inr p)) w0 = (Ok (inl o), w') -> False) as Hno.
  { intros md' w0 Hb. apply bind_inv in Hb as (p & w1 & _ & Hb). by apply ret_inv in Hb as [? _]. }
  destruct (is_event_unit u && negb (is_some (md_parent_document_id md))); [|by apply Hno in H].
  apply bind_inv in H as (parent & w1 & Hq & H). pose proof (moves_run _ _ _ _ _ (kept_find_parent (un_id r) c u) Hq _ Hr) as (r1 & Hr1 & Hs).
  destruct parent as [p|]; [by apply Hno in H|].
  apply bind_inv in H as (x & w2 & Hf & H). apply ret_inv in H as [[= ->] ->].
  eapply finish_unit_inv in Hf; [|exact Hr1|destruct Hs; congruence]. eexists. split; [exact Hf|]. by apply treated_finished.
Qed.

Lemma treat_inv r0 r c u a w o w' :
  units (db w) !! un_id r = Some r0 -> un_id r0 = un_id r ->
  treat_unit (B:=B) metadata r c u a w = (Ok o, w') ->
  exists r', units (db w') !! un_id r = Some r' /\ treated (Some (art_id a)) o r0 r'.
Proof.
  intros Hr Hid. unfold treat_unit. intros H. apply bind_inv in H as (t & w1 & Ht & H). apply try_inv in Ht as [Ht|(e & w2 & He & Ht)].
  - destruct t as [o'|p].
    + apply ret_inv in H as [-> ->]. by eapply persist_unit_early.
    + pose proof (moves_run _ _ _ _ _ (kept_persist_unit (un_id r) r c u a) Ht _ Hr) as (r1 & Hr1 & Hs).
      cbv zeta in H. destruct (_unit_classification _) as [x y]. apply bind_inv in H as (v & w3 & Hf & H).
      apply ret_inv in H as [-> ->]. eapply finish_unit_inv in Hf; [|exact Hr1|destruct Hs; congruence].
      eexists. split; [exact Hf|]. apply treated_finished; by destruct (pr_status p).
  - pose proof (moves_run _ _ _ _ _ (kept_persist_unit (un_id r) r c u a) He _ Hr) as (r1 & Hr1 & Hs).
    assert (exists r', units (db w1) !! un_id r = Some r' /\
      match t with inl o' => treated (Some (art_id a)) o' r0 r' | inr _ => False end) as (r' & Hr' & Htr).
    { assert (un_id r1 = un_id r) as Hid1 by (destruct Hs; congruence).
      destruct e; apply bind_inv in Ht as (v & w3 & Hf & Ht); apply ret_inv in Ht as [-> ->];
        lazymatch type of Hf with
        | _fail_unit _ _ _ _ _ = _ => eapply fail_unit_inv in Hf; [|exact Hr1|exact Hid1]; eexists; split; [exact Hf|by apply treated_failed]
        | _ => eapply finish_unit_inv in Hf; [|exact Hr1|exact Hid1]; eexists; split; [exact Hf|by apply treated_finished]
        end. }
    destruct t as [o'|p]; [|done]. apply ret_inv in H as [-> ->]. by exists r'.
Qed.

(** *** The original bytes come first *)

Lemma artifacts_keep_persist data : moves (keeps artifacts) (persist_document (B:=B) data).
Proof.
  unfold persist_document, _artifact, quarantine, _persist_document, _persist_event, two_attempts, known_document,
    known_event, quarantine, _artifact_size, derive_competence, create_document, create_evidence, create_event_row,
    create_event_evidence, _audit.
  frame_tac.
Qed.
#[local] Hint Resolve artifacts_keep_persist : frames.

Lemma artifacts_keep_treat r c u a : moves (keeps artifacts) (treat_unit (B:=B) metadata r c u a).
Proof.
  unfold treat_unit, persist_unit, find_parent, _finish_unit, _fail_unit. apply moves_bind; [apply _| |].
  - apply moves_try; [apply _| |intros e; destruct e; frame_tac].
    apply moves_bind; [apply _|frame_tac|]. intros now. apply moves_bind; [apply _|frame_tac|]. intros md. cbv zeta.
    destruct (is_event_unit u && negb (is_some (md_parent_document_id md))); frame_tac.
  - intros [o|p]; [frame_tac|]. cbv zeta. destruct (_unit_classification _). frame_tac.
Qed.

(** [a] is stored: the finalised row of the unit's content. *)
Definition stored (a : Artifact) (digest : string) w : Prop :=
  artifacts (db w) !! art_id a = Some a /\ is_finalized a = true /\ art_digest a = digest.

Lemma ensure_inv r c u w a w' :
  artifact_inv w -> _ensure_artifact (B:=B) limit payloads r c u w = (Ok a, w') -> stored a (fu_content_hash u) w'.
Proof using laws.
  intros Hinv. unfold _ensure_artifact. intros H. apply bind_inv in H as (linked & w1 & Hl & H).
  assert (w1 = w /\ match linked with Some x => stored x (fu_content_hash u) w | None => True end) as [-> Hst].
  { unfold linked_artifact in Hl. destruct (un_artifact r) as [i|]; [|by apply ret_inv in Hl as [-> ->]].
    apply bind_inv in Hl as (row & w2 & Hq & Hl). apply atomic_inv in Hq as [_ Hq]. apply query_inv in Hq as [-> ->].
    apply bind_inv in Hl as (q & w2 & Hq & Hl). apply of_option_inv in Hq as [Hq ->]. apply ret_inv in Hl as [-> ->].
    split; [done|]. destruct (is_finalized q && String.eqb (art_digest q) (fu_content_hash u)) eqn:Hf; [|done].
    apply andb_true_iff in Hf as [Hf Hd%String.eqb_eq]. split; [|done]. by rewrite (aok_keyed _ (proj1 Hinv) _ _ Hq). }
  destruct linked as [x|]; [by apply ret_inv in H as [-> ->]|]. cbv zeta in H.
  apply bind_inv in H as (row & w1 & Hq & H). apply atomic_inv in Hq as [Ho Hq]. apply query_inv in Hq as [-> ->].
  apply bind_inv in H as (existing & w1 & He & H).
  assert (artifact_inv w1 /\ online w1 = true /\ artifacts (db w1) !! art_id existing = Some existing) as (Hinv1 & Ho1 & Hex).
  { destruct (first_where _ _ _) as [q|] eqn:Hf.
    - apply ret_inv in He as [-> ->]. apply first_where_Some in Hf as [_ [i Hi]].
      split; [done|]. split; [done|]. by rewrite (aok_keyed _ (proj1 Hinv) _ _ Hi).
    - pose proof (inv_begin "fiscal_original" (ingestion_key c u) "application/octet-stream" w Hinv) as Hb. rewrite He in Hb.
      apply begin_inv in He as (? & ? & _). by split. }
  apply bind_inv in H as (s & w2 & Hs & H).
  assert (artifacts (db w2) !! art_id s = Some s /\ is_finalized s = true) as [Hs1 Hs2].
  { destruct (is_finalized existing) eqn:Hf; [apply ret_inv in Hs as [-> ->]; done|].
    apply bind_inv in Hs as (chunks & w3 & Hq & Hs). apply lift_inv in Hq as [_ ->].
    assert (is_pending existing = true) as Hp.
    { destruct (is_pending existing) eqn:Hp; [done|]. revert Hs. unfold transmit. intros Hs.
      apply bind_inv in Hs as (q & w4 & Hg & Hs). apply atomic_inv in Hg as [_ Hg]. rewrite get_artifact_run, Hex in Hg.
      injection Hg as <- <-. by rewrite Hp in Hs. }
    pose proof (transmit_holds limit (art_id existing) chunks existing w1 Hinv1 Ho1 Hex Hp) as Ht. rewrite Hs in Ht.
    destruct Ht as (body & _ & _ & Hf' & _ & _ & _ & -> & _). split; [apply lookup_insert_eq|done]. }
  apply bind_inv in H as (v & w3 & Hq & H). apply require_inv in Hq as [Hd%String.eqb_eq ->].
  apply bind_inv in H as (now & w3 & Hq & H). apply now_inv in Hq as [-> ->].
  apply bind_inv in H as (v' & w3 & Hq & H). apply atomic_inv in Hq as [_ Hq]. apply write_inv in Hq as ->.
  by apply ret_inv in H as [-> ->].
Qed.

Lemma treat_contract r c u w o w' :
  artifact_inv w -> units (db w) !! un_id r = Some r ->
  already_settled r u = false -> _process_unit (B:=B) limit payloads metadata r c u w = (Ok o, w') ->
  exists r', units (db w') !! un_id r = Some r' /\ un_id r' = un_id r /\ un_scope r' = un_scope r /\
    un_content_hash r' = un_content_hash r /\ un_attempts r' = (un_attempts r + 1)%Z /\
    un_state r' = state_of_outcome o /\
    (terminal (un_state r') = true ->
       exists a, un_artifact r' = Some (art_id a) /\ stored a (fu_content_hash u) w') /\
    (terminal (un_state r') = false -> o = UnitOutcome.FAILED /\ un_recovery r' = IngestionRecovery.RETRY).
Proof using laws.
  intros Hinv Hr Hset. unfold _process_unit. rewrite Hset. intros H.
  apply bind_inv in H as (v & w1 & Hc & H). unfold count_attempt in Hc. apply bind_inv in Hc as (now & w2 & Hq & Hc).
  apply now_inv in Hq as [-> ->]. apply atomic_inv in Hc as [_ Hc]. apply write_inv in Hc.
  set (r0 := r <| un_attempts := (un_attempts r + 1)%Z |> <| un_last_attempt_at := Some (clock w) |> <| un_updated_at := clock w |>).
  assert (units (db w1) !! un_id r = Some r0) as Hr0.
  { rewrite Hc. cbn. rewrite lookup_update_where, Hr. cbn. by rewrite N.eqb_refl. }
  assert (artifact_inv w1) as Hinv1 by (by rewrite Hc).
  assert (forall a r' w2, units (db w2) !! un_id r = Some r' -> treated (option_map art_id a) o r0 r' ->
    (forall x, a = Some x -> stored x (fu_content_hash u) w2) ->
    exists r', units (db w2) !! un_id r = Some r' /\ un_id r' = un_id r /\ un_scope r' = un_scope r /\
      un_content_hash r' = un_content_hash r /\ un_attempts r' = (un_attempts r + 1)%Z /\
      un_state r' = state_of_outcome o /\
      (terminal (un_state r') = true -> exists a, un_artifact r' = Some (art_id a) /\ stored a (fu_content_hash u) w2) /\
      (terminal (un_state r') = false -> o = UnitOutcome.FAILED /\ un_recovery r' = IngestionRecovery.RETRY)) as Hdone.
  { intros a r' w2 Hl ((S1 & S2 & S3 & S4) & St & Ho) Ha. exists r'. split; [done|]. rewrite St.
    split_and!; [done..| |].
    - intros Ht. destruct o; try done; destruct Ho as [Hau Hso]; (destruct a as [a|]; [|by destruct Hso]);
        exists a; split; try done; by apply Ha.
    - intros Ht. by destruct o. }
  apply bind_inv in H as (oa & w2 & He & H). apply try_inv in He as [He|(e & w3 & He & Hx)].
  - apply bind_inv in He as (a & w3 & He & Hq). apply ret_inv in Hq as [-> ->].
    pose proof (ensure_inv _ _ _ _ _ _ Hinv1 He) as (Ha1 & Ha2 & Ha3).
    pose proof (moves_run _ _ _ _ _ (kept_ensure (un_id r) r c u) He _ Hr0) as (r1 & Hr1 & Hs1).
    pose proof (moves_run _ _ _ _ _ (artifacts_keep_treat _ _ _ _) H) as (Hk & _).
    apply (treat_inv r1) in H as (r' & Hr' & Ht & Hrest); [|done|by destruct Hs1 as (-> & _)].
    eapply (Hdone (Some a) r'); [done| |].
    + split; [by eapply same_unit_trans|done].
    + intros x [= <-]. unfold stored. by rewrite Hk.
  - apply bind_inv in Hx as (v' & w4 & Hf & Hx). apply ret_inv in Hx as [-> ->]. apply ret_inv in H as [-> ->].
    assert (exists r1, units (db w3) !! un_id r = Some r1 /\ same_unit r0 r1) as (r1 & Hr1 & Hs1).
    {       pose proof (kept_ensure (un_id r) r c u w1 _ Hr0) as Hk. revert He. unfold bind.
      destruct (_ensure_artifact limit payloads r c u w1) as [[x|x] wx]; [done|]. by intros [= <- <-]. }
    eapply fail_unit_inv in Hf; [|exact Hr1|by destruct Hs1 as (-> & _)].
    eapply (Hdone None); [exact Hf|by apply treated_failed|done].
Qed.

(** *** Completing a page *)

Lemma complete_inv id page cp state l reason x y w res w' :
  pages (db w) !! id = Some page -> pg_id page = id -> settled_error page = false -> finished_state state = true ->
  units_settled page (map un_state (page_units id (db w))) = true ->
  first_where cp_created_at (checkpoint_of (pg_company page) (pg_family page) (pg_flow page)) (checkpoints (db w)) = Some cp ->
  position cp = requested_position page ->
  let d := decide_position state (clock w) page cp in
  is_failed (pd_page d) = false -> pd_failed d = false ->
  _finish_page (B:=B) id state l reason x y w = (Ok res, w') ->
  exists p', pages (db w') !! id = Some p' /\ pg_state p' = state /\ pg_outcome p' = x /\ pg_recovery p' = y /\
    ir_page_state res = state /\ ir_advanced res = pd_advanced d /\
    checkpoints (db w') !! cp_id cp =
      Some (pd_checkpoint d <| cp_last_page := Some id |> <| cp_updated_at := clock w |>).
Proof.
  intros Hp <- Hse Hst Hu Hc Hpos d Hf Hpf. unfold _finish_page. intros H. apply atomic_inv in H as [_ H].
  apply bind_inv in H as (row & w1 & Hq & H). apply query_inv in Hq as [-> ->]. rewrite Hp in H.
  apply bind_inv in H as (q & w1 & Hq & H). apply of_option_inv in Hq as [[= <-] ->]. rewrite Hse, Hst in H.
  unfold complete_page in H. apply bind_inv in H as (states & w1 & Hq & H). apply query_inv in Hq as [-> ->].
  cbv zeta in H. rewrite Hu in H. cbn [negb] in H. apply bind_inv in H as (row & w1 & Hq & H).
  apply query_inv in Hq as [-> ->]. rewrite Hc in H.
  apply bind_inv in H as (q & w1 & Hq & H). apply of_option_inv in Hq as [[= <-] ->].
  rewrite Hpos, String.eqb_refl in H. cbn [negb] in H.
  apply bind_inv in H as (now & w1 & Hq & H). apply now_inv in Hq as [-> ->]. fold d in H. rewrite Hf in H.
  apply bind_inv in H as (u & w1 & Hs & H). rewrite save_checkpoint_run in Hs. destruct (checkpoint_check _); [|done].
  injection Hs as _ <-. unfold close_page, finish_outcome in H. rewrite Hpf in H. cbv zeta in H.
  apply bind_inv in H as (u2 & w2 & Hs & H). rewrite save_page_run in Hs. injection Hs as _ <-.
  apply bind_inv in H as (u3 & w3 & Ha & H). apply ret_inv in H as [-> ->].
  pose proof (moves_run _ _ _ _ _ (keeps_audit_pages _ _ _) Ha) as (Hk & _).
  pose proof (moves_run _ _ _ _ _ (keeps_cu_audit _ _ _) Ha) as ([= Hk2 _] & _). rewrite Hk, Hk2.
  destruct (decide_position_page state (clock w) page cp) as (s & f & e & Hd). fold d in Hd. rewrite Hd.
  eexists. split; [apply lookup_insert_eq|]. split; [done|]. split; [done|]. split; [done|]. split; [done|]. split; [done|].
  assert (cp_id (pd_checkpoint d) = cp_id cp) as Hid.
  { unfold d, decide_position, position_failure. cbv zeta. by repeat case_goal. }
  cbn. unfold put. by rewrite Hid, lookup_insert_eq.
Qed.

(** ** Properties *)

(** A result of [ingest] reports the stored page of the requested position:
    the row exists under the result's identifier, belongs to the company, family,
    flow and page key of the request, and has the state, outcome, recovery, reason
    and continuation the result carries. *)
Theorem ingest_reports_page c response w res w' :
  ingestion_inv w -> ingest (B:=B) limit payloads metadata c response w = (Ok res, w') ->
  exists company p, uuid_of (ic_company_id c) = Some company /\ pages (db w') !! ir_page_id res = Some p /\
    pg_scope p = (company, ic_family c, ic_flow c, page_key_of c) /\ describes p res.
Proof using laws. intros Hw Hi. destruct (ingest_stored _ _ _ _ _ Hw Hi) as (company & p & H1 & H2 & H3 & H4 & _). by exists company, p. Qed.

(** A failing response never advances anything: when the source answers with
    no coverage, unavailability, a timeout, a cooldown, a block, a conflict, a
    malformed payload, an event without its parent or a repeated cursor, every
    checkpoint stays exactly as it was, a checkpoint opened for the scope has no
    position, and no unit is touched, whether the ingestion returns or raises. *)
Theorem failure_never_advances c response w :
  ingestion_inv w -> failure_response (fr_outcome response) = true ->
  let w' := (ingest (B:=B) limit payloads metadata c response w).2 in
  (forall i cp, checkpoints (db w) !! i = Some cp -> checkpoints (db w') !! i = Some cp) /\
  (forall i cp, checkpoints (db w') !! i = Some cp ->
     checkpoints (db w) !! i = Some cp \/ (cp_cursor cp = "" /\ cp_nsu cp = "")) /\
  units (db w') = units (db w).
Proof. intros Hw Hf. destruct (opens_failure c response Hf w) as [_ H]. destruct (H Hw) as (_ & [H1 H2] & H3). done. Qed.

(** A position that was answered is never ingested again: once its page is
    complete or empty (or waits for a cooldown, a block, a quarantine or a conflict
    review, or is offered the same outcome again), ingesting any response for the
    same position changes nothing and returns what was recorded, whatever new units
    the response carries. *)
Theorem settled_page_is_final c response w company i page j cp :
  ingestion_inv w -> online w = true -> uuid_of (ic_company_id c) = Some company ->
  validate c = Ok tt -> _validate_response_position c response = Ok tt ->
  pages (db w) !! i = Some page -> pg_scope page = (company, ic_family c, ic_flow c, page_key_of c) ->
  checkpoints (db w) !! j = Some cp -> cp_scope cp = (company, ic_family c, ic_flow c) ->
  _can_resume_page page response = false ->
  ingest (B:=B) limit payloads metadata c response w = (Ok (recorded_result page (db w)), w).
Proof.
  intros Hw Ho Hc Hv Hv' Hi Hs Hj Hsc Hre. unfold ingest. rewrite Hv, Hv'.
  pose proof (register_known c response w company i page j cp Hw Ho Hc Hi Hs Hj Hsc) as Hr.
  unfold bind, lift_result, ret. rewrite Hr, Hre. cbn [negb]. by apply result_run.
Qed.

(** C33 A unit is terminal only after its original is safe.  Treating a unit leaves
    it in the state returned, the same unit with one more attempt; when that state is
    terminal, the unit names an artifact that is finalised under the digest the
    response announced, and otherwise the unit failed and is up for a retry. *)
Theorem unit_settled_durably r c u w o w' :
  artifact_inv w -> units (db w) !! un_id r = Some r -> already_settled r u = false ->
  _process_unit (B:=B) limit payloads metadata r c u w = (Ok o, w') ->
  exists r', units (db w') !! un_id r = Some r' /\ un_id r' = un_id r /\ un_scope r' = un_scope r /\
    un_content_hash r' = un_content_hash r /\ un_attempts r' = (un_attempts r + 1)%Z /\
    un_state r' = state_of_outcome o /\
    (terminal (un_state r') = true ->
       exists a, un_artifact r' = Some (art_id a) /\ stored a (fu_content_hash u) w') /\
    (terminal (un_state r') = false -> o = UnitOutcome.FAILED /\ un_recovery r' = IngestionRecovery.RETRY).
Proof using laws. apply treat_contract. Qed.

(** Reconciliation closes a page the source never answered.  A page that was
    registered for a response without units, of any outcome but a partial one (no
    coverage, unavailable, a timeout, ...), and not finished before a crash, is
    closed by [reconcile] as [EMPTY] with outcome [SUCCESS] and nothing to recover. *)
Theorem reconcile_closes_unanswered page cp outcome w u w' :
  ingestion_inv w -> pages (db w) !! pg_id page = Some page ->
  pg_state page = IngestionPageState.PENDING -> pg_unit_count page = 0%Z -> page_units (pg_id page) (db w) = [] ->
  pg_adapter_outcome page = FiscalOutcome.value outcome -> outcome <> FiscalOutcome.PARTIAL ->
  checkpoints (db w) !! cp_id cp = Some cp -> cp_scope cp = (pg_company page, pg_family page, pg_flow page) ->
  position cp = requested_position page -> next_position page = "" ->
  is_nfe (pg_family page) = true \/ requested_position page = "" ->
  reconcile_page (B:=B) page w = (Ok u, w') ->
  exists p', pages (db w') !! pg_id page = Some p' /\ pg_state p' = IngestionPageState.EMPTY /\
    pg_outcome p' = IngestionOutcome.SUCCESS /\ pg_recovery p' = IngestionRecovery.NONE.
Proof.
  intros Hw Hp Hst Hn Hun Ho Hne Hc Hsc Hpos Hnext Hreq. unfold reconcile_page. intros H.
  apply bind_inv in H as (states & w1 & Hq & H). unfold page_states in Hq. apply atomic_inv in Hq as [_ Hq].
  apply query_inv in Hq as [-> ->]. rewrite Hun, Hn in H. cbn [map length Z.eqb orb andb forallb] in H.
  assert (not_partial page = true) as Hnp by (unfold not_partial; rewrite Ho; by destruct outcome).
  rewrite Hnp in H. unfold finish_reconciled in H. apply bind_inv in H as (res & w2 & Hf & H). apply ret_inv in H as [-> ->].
  rewrite Hn in Hf. cbn in Hf.
  assert (decide_position IngestionPageState.EMPTY (clock w) page cp =
    MkPositionDecision (page <| pg_state := IngestionPageState.EMPTY |> <| pg_finalized_at := Some (clock w) |>) cp false false) as Hd.
  { unfold decide_position, next_position in *. destruct (is_nfe (pg_family page)); [by rewrite Hnext|].
    destruct Hreq as [?|Hr]; [done|]. by rewrite Hr, Hnext. }
  eapply complete_inv in Hf; [|done|done|by unfold settled_error; rewrite Hst|done| | |exact Hpos|by rewrite Hd|by rewrite Hd].
  - destruct Hf as (p' & ? & ? & ? & ? & _). by exists p'.
  - unfold units_settled. by rewrite Hun, Hn.
  - eapply first_where_unique; [apply Hw|exact Hc|by apply checkpoint_of_scope|]. intros s Hs%checkpoint_of_scope. congruence.
Qed.

(** The last page of an NSU sequence rewinds its checkpoint.  When a page of a
    family other than NF-e was requested at a position and its response names no
    next NSU, finishing it sets the checkpoint's NSU to blank, the position before
    the first page, where for NF-e the cursor is kept. *)
Theorem blank_nsu_rewinds id page cp state l reason x y w res w' :
  ingestion_inv w -> pages (db w) !! id = Some page -> pg_id page = id ->
  settled_error page = false -> is_failed page = false -> finished_state state = true ->
  units_settled page (map un_state (page_units id (db w))) = true ->
  checkpoints (db w) !! cp_id cp = Some cp -> cp_scope cp = (pg_company page, pg_family page, pg_flow page) ->
  position cp = requested_position page -> requested_position page <> "" ->
  is_nfe (pg_family page) = false -> pg_next_nsu page = "" ->
  _finish_page (B:=B) id state l reason x y w = (Ok res, w') ->
  ir_page_state res = state /\ ir_advanced res = false /\
  exists cp', checkpoints (db w') !! cp_id cp = Some cp' /\ position cp' = "".
Proof.
  intros Hw Hp Hid Hse Hfa Hst Hu Hc Hsc Hpos Hreq Hn Hnext H.
  assert (decide_position state (clock w) page cp =
    MkPositionDecision page (cp <| cp_nsu := "" |>) false false) as Hd.
  { unfold decide_position. rewrite Hn, Hnext. destruct (requested_position page) as [|a s] eqn:Hr; [done|].
    unfold decreasing. cbn. by destruct (_position_number (String a s)). }
  eapply (complete_inv _ page cp) in H; try done; rewrite ?Hd; try done.
  - rewrite Hd in H. destruct H as (p' & _ & _ & _ & _ & H1 & H2 & H3). split; [done|]. split; [done|]. eexists. split; [exact H3|].
    unfold cp_scope in Hsc. injection Hsc as _ Hf _.
    change ((if is_nfe (cp_family cp) then cp_cursor cp else "") = ""). by rewrite Hf, Hn.
  - eapply first_where_unique; [apply Hw|exact Hc|by apply checkpoint_of_scope|]. intros s Hs%checkpoint_of_scope. congruence.
Qed.

End guarantees.

(** The classification of a response is consistent: a response that may advance
    is a success, a duplicate or an empty one and its page is complete or empty,
    every other response leaves a page that is neither, an empty page announces no
    units or was declared empty, and the reason is blank or a safe code. *)
Theorem classify_page_safe response :
  let k := classify_page_response response in
  cl_can_advance k = finished_state (cl_page_state k) /\
  (cl_can_advance k = true <-> fr_outcome response ∈ [FiscalOutcome.SUCCESS; FiscalOutcome.DUPLICATE; FiscalOutcome.EMPTY]) /\
  (failure_response (fr_outcome response) = true -> cl_can_advance k = false) /\
  (cl_page_state k = IngestionPageState.EMPTY -> fr_units response = [] \/ fr_outcome response = FiscalOutcome.EMPTY) /\
  (cl_can_advance k = true -> cl_recovery k = IngestionRecovery.NONE) /\
  (cl_reason k = "" \/ _SAFE_CODE (cl_reason k) = true).
Proof.
  assert (forall s, _safe_reason s = "" \/ _SAFE_CODE (_safe_reason s) = true) as Hr.
  { intros s. unfold _safe_reason. destruct (_SAFE_CODE s) eqn:Hs; by right. }
  destruct response as [o us nc nn cov cu err meta]. unfold classify_page_response. cbn [fr_outcome fr_units fr_error_code].
  destruct o, us; cbn [cl_can_advance cl_page_state cl_recovery cl_reason]; rewrite ?list_elem_of_In; cbn; split_and!;
    try done; try (by apply Hr); try (by left); try (by right); split; try done; intuition congruence.
Qed.

(** An unknown outcome with units advances.  The response matrix says an unknown
    outcome may not advance, but when its units are all treated the page is closed
    as complete all the same. *)
Theorem unknown_outcome_advances response unit_states :
  fr_outcome response = FiscalOutcome.UNKNOWN -> fr_units response <> [] ->
  forallb (fun o => negb (pending_or_failed o)) unit_states = true ->
  cl_can_advance (classify_page_response response) = false /\
  cl_can_advance (treated_classification response unit_states) = true /\
  cl_page_state (treated_classification response unit_states) = IngestionPageState.COMPLETE /\
  failure_response (fr_outcome response) = false.
Proof.
  intros Ho Hu Hs. unfold treated_classification. rewrite Ho. cbn.
  split; [unfold classify_page_response; by rewrite Ho|].
  destruct (fr_units response); [done|]. unfold classify_unit_treatments.
  assert (existsb pending_or_failed unit_states = false) as ->.
  { apply not_true_is_false. intros (x & Hx & Hp)%existsb_exists. rewrite forallb_forall in Hs.
    specialize (Hs x Hx). by rewrite Hp in Hs. }
  by repeat case_goal.
Qed.
