(* ===== verification/Certificates.v ===== *)
(** * Certificates (certificates/services.py)

    A PKCS#12 file is parsed, encrypted under a fresh data key that is itself
    wrapped by the master key, stored as an artifact and made the current
    certificate of its company; a worker opens it again for a short time.
    [cryptography] is a parameter: the PKCS#12 parser, AES-GCM, and what its
    key generator and [os.urandom] hand out.  The zeroing of buffers in memory
    is not modelled. *)

From Stdlib Require Import ZArith Ascii String Lia.
From stdpp Require Import base decidable list gmap strings.
From S2P Require Import Prelude PyStr Sha256 PyVal Models Tables AuditTrail Identity Artifacts Companies.

Local Open Scope string_scope.

Definition CERTIFICATE_MAX_SIZE_BYTES : Z := 5 * 1024 * 1024.
Definition CERTIFICATE_KEY_VERSION : Z := 1.
Definition GCM_NONCE_SIZE : nat := 12.
Definition _DATA_KEY_AAD : string := "nfx-certificate-data-key:v1:".
Definition _PFX_AAD : string := "nfx-certificate-pfx:v1:".
Definition _PASSWORD_AAD : string := "nfx-certificate-password:v1:".

(** ** The third-party cryptography *)

(** What the services read of an x509 certificate; the raw values of the
    extensions are given decoded. *)
Record X509 : Type := MkX509 {
  x_subject : list string; x_extensions : list string; x_not_before : Z; x_not_after : Z;
  x_fingerprint : string }.

(** [pkcs12.load_key_and_certificates]: an exception, or whether there is a
    private key, and the certificate. *)
Inductive pfx_reply : Type :=
| PfxError
| PfxLoaded (has_key : bool) (certificate : option X509).

(** [AESGCM(key).encrypt(nonce, data, aad)] and [decrypt]; [None] is an exception. *)
Class Cryptography : Type := {
  load_pfx : string -> string -> pfx_reply;
  aes_encrypt : string -> string -> string -> string -> option string;
  aes_decrypt : string -> string -> string -> string -> option string }.

(** AES-GCM gives back what was encrypted under the same key, nonce and
    associated data; the ciphertext is the data and a tag of sixteen bytes. *)
Class CryptographyLaws `{Cryptography} : Prop := {
  aes_opens : forall key nonce data aad sealed,
    aes_encrypt key nonce data aad = Some sealed -> aes_decrypt key nonce sealed aad = Some data;
  aes_tagged : forall key nonce data aad sealed,
    aes_encrypt key nonce data aad = Some sealed -> String.length sealed = (String.length data + 16)%nat }.

(** The random values one encryption draws, in order. *)
Record Entropy : Type := MkEntropy {
  en_data_key : string; en_key_nonce : string; en_pfx_nonce : string; en_password_nonce : string }.

(** [certificate_id.bytes] *)
Definition uuid_bytes (u : N) : string := of_chars (map ascii_of_N (fixed_digits 16 256 u)).

(** ** The envelope *)

Record EnvelopePayload : Type := MkEnvelopePayload {
  ep_encrypted_data_key : string; ep_data_key_nonce : string; ep_encrypted_password : string;
  ep_password_nonce : string; ep_encrypted_pfx : string }.

Section envelope.
Context `{Cryptography}.

(** [EnvelopeCipher(master_key)] *)
Definition EnvelopeCipher (master_key : string) : result exn string :=
  if Z.eqb (slen master_key) 32 then Ok master_key
  else Err (ValueError "A chave mestre de certificado deve ter 32 bytes.").

Definition cipher_error : exn := ValueError "AESGCM".

Definition seal (key nonce data aad : string) : result exn string :=
  match aes_encrypt key nonce data aad with Some c => Ok c | None => Err cipher_error end.

Definition encrypt (r : Entropy) (master_key : string) (certificate_id : N) (pfx password : string) : result exn EnvelopePayload :=
  let id := uuid_bytes certificate_id in
  check* wrapped_key := seal master_key (en_key_nonce r) (en_data_key r) (_DATA_KEY_AAD ++ id) in
  check* sealed_pfx := seal (en_data_key r) (en_pfx_nonce r) pfx (_PFX_AAD ++ id) in
  check* encrypted_password := seal (en_data_key r) (en_password_nonce r) (encode_utf8 password) (_PASSWORD_AAD ++ id) in
  Ok (MkEnvelopePayload wrapped_key (en_key_nonce r) encrypted_password (en_password_nonce r)
        (en_pfx_nonce r ++ sealed_pfx)).

Definition unseal (key nonce sealed aad : string) : result exn string :=
  match aes_decrypt key nonce sealed aad with Some d => Ok d | None => Err CertificateStorageFailure end.

Definition decrypt (master_key : string) (certificate_id : N) (p : EnvelopePayload) : result exn (string * string) :=
  if Nat.leb (String.length (ep_encrypted_pfx p)) GCM_NONCE_SIZE then Err CertificateStorageFailure else
  let id := uuid_bytes certificate_id in
  check* data_key := unseal master_key (ep_data_key_nonce p) (ep_encrypted_data_key p) (_DATA_KEY_AAD ++ id) in
  let pfx_nonce := stake GCM_NONCE_SIZE (ep_encrypted_pfx p) in
  let sealed := String.substring GCM_NONCE_SIZE (String.length (ep_encrypted_pfx p) - GCM_NONCE_SIZE) (ep_encrypted_pfx p) in
  check* pfx := unseal data_key pfx_nonce sealed (_PFX_AAD ++ id) in
  check* password := unseal data_key (ep_password_nonce p) (ep_encrypted_password p) (_PASSWORD_AAD ++ id) in
  Ok (pfx, password).

End envelope.

(** ** The CNPJ inside a certificate *)

(** [[.\-/\s]] *)
Definition cnpj_separator (c : ascii) : bool := cnpj_noise c.

(** [(?:\d[.\-/\s]?){n}(?!\d)] from the start of [s]: the digits, the last
    character consumed, and the rest.  The last separator is given back when a
    digit follows it. *)
Fixpoint cnpj_at (n : nat) (s : string) : option (string * ascii * string) :=
  match n, s with
  | S m, String c r =>
      if negb (is_digit c) then None else
      match m with
      | O =>
          match r with
          | String x r' =>
              if is_digit x then None
              else if cnpj_separator x
                   then match r' with
                        | String y _ => if is_digit y then Some (String c "", c, r) else Some (String c "", x, r')
                        | EmptyString => Some (String c "", x, r')
                        end
                   else Some (String c "", c, r)
          | EmptyString => Some (String c "", c, r)
          end
      | S _ =>
          let r := match r with String x r' => if cnpj_separator x then r' else r | EmptyString => r end in
          match cnpj_at m r with
          | Some (digits, last, rest) => Some (String c digits, last, rest)
          | None => None
          end
      end
  | _, _ => None
  end.

(** [_CNPJ_CANDIDATE.finditer(value)], reduced to the digits of each match;
    [prev] is the character before [s].  Each step consumes a character. *)
Fixpoint cnpj_matches (fuel : nat) (prev : option ascii) (s : string) : list string :=
  match fuel with
  | O => []
  | S n =>
      match s with
      | EmptyString => []
      | String c r =>
          let blocked := match prev with Some p => is_digit p | None => false end in
          match (if blocked then None else cnpj_at 14 s) with
          | Some (digits, last, rest) => digits :: cnpj_matches n (Some last) rest
          | None => cnpj_matches n (Some c) r
          end
      end
  end.

Definition _cnpj_candidates (value : string) : list string :=
  omap (fun digits => match normalize_cnpj digits with Ok n => Some n | Err _ => None end)
    (cnpj_matches (S (String.length value)) None value).

Definition _extract_certificate_cnpj (certificate : X509) : result exn string :=
  match remove_dups (flat_map _cnpj_candidates (x_subject certificate) ++ flat_map _cnpj_candidates (x_extensions certificate))%list with
  | [cnpj] => Ok cnpj
  | _ => Err CertificateCnpjMismatch
  end.

Record ParsedCertificate : Type := MkParsedCertificate {
  pc_fingerprint_sha256 : string; pc_certificate_cnpj : string; pc_not_before : Z; pc_not_after : Z }.

Definition parse_pfx `{Cryptography} (pfx password : string) (now : Z) : result exn ParsedCertificate :=
  if negb (str_nonempty password) then Err CertificateWrongPassword else
  match load_pfx pfx (encode_utf8 password) with
  | PfxError => Err CertificateWrongPassword
  | PfxLoaded false _ | PfxLoaded _ None => Err CertificateUnreadable
  | PfxLoaded true (Some c) =>
      if Z.leb (x_not_after c) now then Err CertificateExpired
      else if Z.ltb (x_not_after c) (x_not_before c) then Err CertificateUnreadable
      else check* cnpj := _extract_certificate_cnpj c in
           Ok (MkParsedCertificate (x_fingerprint c) cnpj (x_not_before c) (x_not_after c))
  end.

(** ** Status *)

Definition certificate_status (c : Certificate) (now : Z) : string :=
  match cert_state c with
  | CertificateState.CURRENT =>
      if Z.leb (cert_not_after c) now then "expirado"
      else if Z.ltb now (cert_not_before c) then "invalido"
      else if Z.leb (cert_not_after c) (now + days 30) then "proximo_vencimento"
      else "valido"
  | CertificateState.PENDING => "pendente"
  | CertificateState.REPLACED => "substituido"
  | CertificateState.STORAGE_FAILED => "falha_armazenamento"
  end.

(** [status in {"valido", "proximo_vencimento"}] *)
Definition usable (c : Certificate) (now : Z) : bool :=
  str_in (certificate_status c now) ["valido"; "proximo_vencimento"].

(** [max(0, ceil(seconds / 86400))], without the rounding of the float division. *)
Definition days_until_expiry (c : Certificate) (now : Z) : option Z :=
  if bool_decide (cert_state c = CertificateState.CURRENT)
  then Some (Z.max 0 (- ((now - cert_not_after c) / days 1)))
  else None.

Definition is_current (c : Certificate) : bool := bool_decide (cert_state c = CertificateState.CURRENT).

Definition current_of (company : N) (c : Certificate) : bool := N.eqb (cert_company c) company && is_current c.

(** A current certificate of another company under the same fingerprint. *)
Definition assigned_elsewhere (fingerprint : string) (company : N) (d : DB) : bool :=
  exists_row (fun c => String.eqb (cert_fingerprint_sha256 c) fingerprint && is_current c &&
                       negb (N.eqb (cert_company c) company)) (certificates d).

(** The partial unique constraints of nfx_certificate, and its check. *)
Definition certificate_conflict (c : Certificate) (d : DB) : bool :=
  is_current c &&
  exists_row (fun x => is_current x && negb (N.eqb (cert_id x) (cert_id c)) &&
                       (N.eqb (cert_company x) (cert_company c) ||
                        String.eqb (cert_fingerprint_sha256 x) (cert_fingerprint_sha256 c))) (certificates d).

Definition certificate_check (c : Certificate) : bool := Z.ltb (cert_not_before c) (cert_not_after c).

Definition certificate_width (c : Certificate) : bool :=
  Nat.leb (String.length (cert_fingerprint_sha256 c)) 64 && Nat.leb (String.length (cert_certificate_cnpj c)) 64.

Definition new_certificate (id : N) (now : Z) (company : N) (e : EnvelopePayload) (p : ParsedCertificate) : Certificate :=
  MkCertificate id company None (ep_encrypted_data_key e) (ep_data_key_nonce e) (ep_encrypted_password e)
    (ep_password_nonce e) (pc_fingerprint_sha256 p) (pc_certificate_cnpj p) (pc_not_before p) (pc_not_after p)
    CertificateState.PENDING CERTIFICATE_KEY_VERSION now None None now.

Definition replaced (now : Z) (c : Certificate) : Certificate :=
  c <| cert_state := CertificateState.REPLACED |> <| cert_replaced_at := Some now |>.

Definition activated (now : Z) (c : Certificate) : Certificate :=
  c <| cert_state := CertificateState.CURRENT |> <| cert_activated_at := Some now |> <| cert_updated_at := now |>.

Definition still_pending (id : N) (c : Certificate) : bool :=
  N.eqb (cert_id c) id && bool_decide (cert_state c = CertificateState.PENDING).

Definition failed (now : Z) (c : Certificate) : Certificate :=
  c <| cert_state := CertificateState.STORAGE_FAILED |> <| cert_updated_at := now |>.

Definition certificate_key (id : N) : string := "certificate:" ++ uuid_str id ++ ":pfx".

(** ** The services *)

Section services.
Context {B : Type} `{!ObjectStore B} `{!Cryptography}.

Definition _require_access (actor : SessionIdentity) : M B unit :=
  require (authorize (si_role actor) Action.ADMINISTER_CERTIFICATES None (Some (si_user_id actor)))
    CertificateAccessDenied.

Definition certificate_company (company_id : string) : M B Company :=
  let* id := of_option (parse_uuid company_id) ValidationError in
  let* row := query (fun d => companies d !! id) in
  of_option row CertificateNotFound.

Definition save_certificate (c : Certificate) : M B unit :=
  require (certificate_width c) DataError ;;;
  let* taken := query (certificate_conflict c) in
  require (negb taken && certificate_check c) IntegrityError ;;;
  write (fun d => d <| certificates ::= put (cert_id c) c |>).

Definition get_certificate (id : N) : M B Certificate :=
  let* row := query (fun d => certificates d !! id) in of_option row DoesNotExist.

Definition initial_of (company : N) (r : InitialCollectionRequest) : bool :=
  N.eqb (icr_company r) company && String.eqb (icr_kind r) "initial".

Definition _queue_initial_collection (company : Company) (certificate : N) : M B unit :=
  if negb (bool_decide (co_status company = CompanyStatus.ACTIVE)) || is_some (co_first_collection_at company)
  then ret tt
  else
    let* known := query (fun d => exists_row (initial_of (co_id company)) (initial_requests d)) in
    if known then ret tt
    else
      let* id := uuid4 in
      let* now := timezone_now in
      let key := "initial:" ++ uuid_str (co_id company) in
      let* taken := query (fun d => exists_row (fun r => String.eqb (icr_idempotency_key r) key) (initial_requests d)) in
      require (negb taken) IntegrityError ;;;
      write (fun d => d <| initial_requests ::= put id
        (MkInitialCollectionRequest id (co_id company) certificate "initial" InitialCollectionRequestState.QUEUED
           key now None "") |>).

(** The first transaction: the pending row and its pending artifact. *)
Definition register_certificate (company_id : string) (certificate_id : N) (e : EnvelopePayload) (p : ParsedCertificate) :
    M B Certificate :=
  atomic (
    let* company := certificate_company company_id in
    let* assigned := query (assigned_elsewhere (pc_fingerprint_sha256 p) (co_id company)) in
    require (negb assigned) CertificateAlreadyAssigned ;;;
    let* now := timezone_now in
    let c := new_certificate certificate_id now (co_id company) e p in
    save_certificate c ;;;
    let* artifact := begin "certificate-pfx" (certificate_key certificate_id) "application/octet-stream" in
    let c := c <| cert_artifact := Some (art_id artifact) |> <| cert_updated_at := now |> in
    save_certificate c ;;;
    ret c).

Definition certificate_store_limit : Z := CERTIFICATE_MAX_SIZE_BYTES + 64.

(** The upload: any failure is a storage failure. *)
Definition store_certificate (c : Certificate) (encrypted_pfx : string) : M B unit :=
  try_except
    (let* artifact := of_option (cert_artifact c) CertificateStorageFailure in
     let* _ := transmit certificate_store_limit artifact [VBytes encrypted_pfx] in
     ret tt)
    (fun _ => throw CertificateStorageFailure).

Definition certificate_audit (actor : SessionIdentity) (replacing : bool) (c : Certificate) (ip : string) : AuditInput :=
  MkAuditInput (if replacing then "certificate.replace" else "certificate.create") "certificate" "success"
    (Some (RefStr (si_user_id actor))) (si_role actor) (Some ip) (uuid_str (cert_id c)) "" ""
    [("company_id", VStr (uuid_str (cert_company c))); ("certificate_cnpj", VStr (cert_certificate_cnpj c));
     ("fingerprint_sha256", VStr (cert_fingerprint_sha256 c)); ("not_after", VStr (isoformat (cert_not_after c)));
     ("key_version", VInt (cert_key_version c))].

Definition other_current (company id : N) (c : Certificate) : bool :=
  current_of company c && negb (N.eqb (cert_id c) id).

(** The second transaction: the company's previous certificate is replaced. *)
Definition activate_certificate (actor : SessionIdentity) (company_id : string) (certificate_id : N) (fingerprint ip : string) :
    M B Certificate :=
  atomic (
    let* certificate := get_certificate certificate_id in
    let* id := of_option (parse_uuid company_id) ValidationError in
    let* row := query (fun d => companies d !! id) in
    let* company := of_option row DoesNotExist in
    let* assigned := query (assigned_elsewhere fingerprint (co_id company)) in
    require (negb assigned) CertificateAlreadyAssigned ;;;
    let* replacing := query (fun d => exists_row (other_current (co_id company) (cert_id certificate)) (certificates d)) in
    let* now := timezone_now in
    write (fun d => d <| certificates ::= update_where (other_current (co_id company) (cert_id certificate)) (replaced now) |>) ;;;
    let c := activated now certificate in
    save_certificate c ;;;
    _queue_initial_collection company (cert_id c) ;;;
    let* _ := append (certificate_audit actor replacing c ip) in
    ret c).

(** [update(state=STORAGE_FAILED)] of a certificate still pending. *)
Definition settle_failure (certificate_id : N) : M B unit :=
  let* now := timezone_now in
  autocommit (write (fun d => d <| certificates ::= update_where (still_pending certificate_id) (failed now) |>)).

(** Before the first transaction commits there is no row to settle, and the
    update of the handler matches none. *)
Definition add_certificate (actor : SessionIdentity) (company_id : string) (r : Entropy) (pfx password ip_address master_key : string)
    (now : option Z) : M B Certificate :=
  _require_access actor ;;;
  require (Z.leb (slen pfx) CERTIFICATE_MAX_SIZE_BYTES) CertificateTooLarge ;;;
  let* clock := timezone_now in
  let* parsed := lift_result (parse_pfx pfx password (opt_default clock now)) in
  let* company := autocommit (certificate_company company_id) in
  require (String.eqb (pc_certificate_cnpj parsed) (co_cnpj company)) CertificateCnpjMismatch ;;;
  let* certificate_id := uuid4 in
  let* key := lift_result (EnvelopeCipher master_key) in
  let* envelope := lift_result (encrypt r key certificate_id pfx password) in
  try_except
    (let* certificate := register_certificate company_id certificate_id envelope parsed in
     store_certificate certificate (ep_encrypted_pfx envelope) ;;;
     activate_certificate actor company_id certificate_id (pc_fingerprint_sha256 parsed) ip_address)
    (fun e =>
       if is_CertificateError e then settle_failure certificate_id ;;; throw e
       else match e with
            | IntegrityError => settle_failure certificate_id ;;; throw CertificateStorageFailure
            | _ => throw e
            end).

Definition can_collect (company_id : string) (now : option Z) : M B bool :=
  let* id := of_option (parse_uuid company_id) ValidationError in
  let* clock := timezone_now in
  let* row := autocommit (query (fun d => companies d !! id)) in
  match row with
  | Some c =>
      if bool_decide (co_status c = CompanyStatus.ACTIVE) then
        let* certificate := autocommit (query (fun d =>
          first_by (by_key (fun c => Z.of_N (cert_id c))) (select (current_of id) (certificates d)))) in
        ret (match certificate with Some c => usable c (opt_default clock now) | None => false end)
      else ret false
  | None => ret false
  end.

Record CertificateMaterial : Type := MkCertificateMaterial {
  cm_pfx : string; cm_password : string; cm_fingerprint_sha256 : string; cm_certificate_cnpj : string }.

Definition stored_envelope (c : Certificate) (encrypted_pfx : string) : EnvelopePayload :=
  MkEnvelopePayload (cert_encrypted_data_key c) (cert_data_key_nonce c) (cert_encrypted_password c)
    (cert_password_nonce c) encrypted_pfx.

(** What the context manager yields. *)
Definition certificate_material (certificate_id : uuid_ref) (master_key : string) : M B CertificateMaterial :=
  let* id := of_option (uuid_of certificate_id) ValidationError in
  let* certificate := autocommit (get_certificate id) in
  let* now := timezone_now in
  require (is_current certificate && usable certificate now)
    (CertificateError "Certificado nao esta habilitado para coleta.") ;;;
  let* artifact := of_option (cert_artifact certificate) CertificateStorageFailure in
  let* encrypted_pfx := open_verified artifact in
  let* key := lift_result (EnvelopeCipher master_key) in
  let* '(pfx, password) := lift_result (decrypt key (cert_id certificate) (stored_envelope certificate encrypted_pfx)) in
  ret (MkCertificateMaterial pfx password (cert_fingerprint_sha256 certificate) (cert_certificate_cnpj certificate)).

End services.

#[global] Arguments save_certificate : simpl never.
#[global] Arguments add_certificate : simpl never.
#[global] Arguments register_certificate : simpl never.
#[global] Arguments store_certificate : simpl never.
#[global] Arguments activate_certificate : simpl never.
#[global] Arguments certificate_material : simpl never.
#[global] Arguments _queue_initial_collection : simpl never.

(** ** The inventory *)

Definition CERTIFICATE_INVENTORY_FILTERS : list string := ["current"; "expired"; "expiring"].
Definition CERTIFICATE_INVENTORY_QUERY_KEYS : list string := ["filter"; "limit"; "cursor"].
Definition MAX_CERTIFICATE_INVENTORY_ROWS : Z := 100.

(** [CertificateInventoryCursor]: company, certificate. *)
Record CertificateInventoryCursor : Type := MkCertificateInventoryCursor { cic_company_id : N; cic_certificate_id : N }.

(** The property [payload]. *)
Definition cursor_payload (c : CertificateInventoryCursor) : string :=
  uuid_str (cic_company_id c) ++ ":" ++ uuid_str (cic_certificate_id c).

Record CertificateInventoryQuery : Type := MkCertificateInventoryQuery {
  ciq_filter_name : string; ciq_limit : Z; ciq_cursor : option CertificateInventoryCursor }.

Definition inventory_error {A} (msg : string) : result exn A := Err (CertificateInventoryQueryError msg).

Definition _inventory_query_single (q : Query) (key : string) : result exn pyval :=
  match _company_query_values q key with
  | [] => Ok VNone
  | [v] => Ok v
  | _ => inventory_error "certificate inventory parameter is repeated"
  end.

Definition inventory_filter (v : pyval) : result exn string :=
  match v with
  | VStr s => if str_in s CERTIFICATE_INVENTORY_FILTERS then Ok s else inventory_error "certificate inventory filter is invalid"
  | _ => inventory_error "certificate inventory filter is invalid"
  end.

Definition inventory_limit (v : pyval) : result exn Z :=
  match (match v with VNone => Some 50%Z | _ => int_of_value v end) with
  | Some limit => if Z.ltb limit 1 || Z.ltb MAX_CERTIFICATE_INVENTORY_ROWS limit
                  then inventory_error "certificate inventory limit is invalid" else Ok limit
  | None => inventory_error "certificate inventory limit is invalid"
  end.

Definition inventory_cursor (v : pyval) : result exn (option CertificateInventoryCursor) :=
  if none_or_empty v then Ok None else
  match v with
  | VStr s =>
      if Z.ltb 100 (slen s) then inventory_error "certificate inventory cursor is invalid" else
      match Url.split ":" s with
      | [a; b] => match parse_uuid a, parse_uuid b with
                  | Some company, Some certificate => Ok (Some (MkCertificateInventoryCursor company certificate))
                  | _, _ => inventory_error "certificate inventory cursor is invalid"
                  end
      | _ => inventory_error "certificate inventory cursor is invalid"
      end
  | _ => inventory_error "certificate inventory cursor is invalid"
  end.

Definition normalize_certificate_inventory_query (q : Query) : result exn CertificateInventoryQuery :=
  if negb (forallb (fun k => str_in k CERTIFICATE_INVENTORY_QUERY_KEYS) (query_keys q))
  then inventory_error "unsupported certificate inventory parameter"
  else
    check* filter_value := _inventory_query_single q "filter" in
    check* filter_name := inventory_filter filter_value in
    check* limit_value := _inventory_query_single q "limit" in
    check* limit := inventory_limit limit_value in
    check* cursor_value := _inventory_query_single q "cursor" in
    check* cursor := inventory_cursor cursor_value in
    Ok (MkCertificateInventoryQuery filter_name limit cursor).

(** The rows of a filter at an instant. *)
Definition inventory_matches (filter_name : string) (at_ : Z) (c : Certificate) : bool :=
  is_current c &&
  (if String.eqb filter_name "expired" then Z.leb (cert_not_after c) at_
   else if String.eqb filter_name "expiring"
   then Z.ltb at_ (cert_not_after c) && Z.leb (cert_not_after c) (at_ + days 30)
   else true).

(** [order_by("company_id", "id")] *)
Definition inventory_le (a b : Certificate) : bool :=
  if N.eqb (cert_company a) (cert_company b) then N.leb (cert_id a) (cert_id b)
  else N.ltb (cert_company a) (cert_company b).

Definition certificate_inventory_queryset (filter_name : string) (at_ : Z) (d : DB) : result exn (list Certificate) :=
  if str_in filter_name CERTIFICATE_INVENTORY_FILTERS
  then Ok (sort_by inventory_le (select (inventory_matches filter_name at_) (certificates d)))
  else inventory_error "certificate inventory filter is invalid".

Definition certificate_inventory_after_cursor (rows : list Certificate) (cursor : option CertificateInventoryCursor) : list Certificate :=
  match cursor with
  | None => rows
  | Some u => filter (fun c => (N.ltb (cic_company_id u) (cert_company c) ||
                                N.eqb (cert_company c) (cic_company_id u) && N.ltb (cic_certificate_id u) (cert_id c)) = true) rows
  end.

(** ** What the views serialise *)

Definition days_payload (c : Certificate) (now : Z) : pyval :=
  match days_until_expiry c now with Some d => VInt d | None => VNone end.

Definition certificate_payload (certificate : option Certificate) (now : Z) : pyval :=
  match certificate with
  | None => VNone
  | Some c => VDict
      [("id", VStr (uuid_str (cert_id c))); ("state", VStr (CertificateState.value (cert_state c)));
       ("status", VStr (certificate_status c now)); ("fingerprint_sha256", VStr (cert_fingerprint_sha256 c));
       ("certificate_cnpj", VStr (cert_certificate_cnpj c)); ("not_before", VStr (isoformat (cert_not_before c)));
       ("not_after", VStr (isoformat (cert_not_after c))); ("days_until_expiry", days_payload c now);
       ("key_version", VInt (cert_key_version c)); ("created_at", VStr (isoformat (cert_created_at c)));
       ("activated_at", match cert_activated_at c with Some t => VStr (isoformat t) | None => VNone end)]
  end.

Definition certificate_inventory_row (c : Certificate) (company : Company) (now : Z) : pyval :=
  VDict
    [("id", VStr (uuid_str (cert_id c)));
     ("company", VDict [("id", VStr (uuid_str (cert_company c))); ("cnpj", VStr (co_cnpj company));
                        ("legal_name", VStr (co_legal_name company))]);
     ("state", VStr (CertificateState.value (cert_state c))); ("status", VStr (certificate_status c now));
     ("not_before", VStr (isoformat (cert_not_before c))); ("not_after", VStr (isoformat (cert_not_after c)));
     ("days_until_expiry", days_payload c now)].
