(* ===== verification/CertificateFacts.v ===== *)
(** * What the certificate services guarantee

    The envelope opens to what was sealed; a company never loses its current
    certificate to a failed replacement; what was added is what a worker reads. *)

From Stdlib Require Import ZArith Ascii String Lia.
From stdpp Require Import base decidable list gmap strings relations.
From S2P Require Import Prelude PyStr Sha256 PyVal Models Tables AuditTrail Identity Artifacts ArtifactFacts Companies Certificates.

Local Open Scope string_scope.

(** ** The envelope *)

Lemma substring_all (s : string) : String.substring 0 (String.length s) s = s.
Proof. induction s as [|c s IH]; [done|]. cbn. by f_equal. Qed.

Lemma stake_append (a b : string) : stake (String.length a) (a ++ b) = a.
Proof.
  unfold stake. induction a as [|c a IH]; [by destruct b|]. rewrite append_cons. cbn. by f_equal.
Qed.

Lemma substring_append (a b : string) :
  String.substring (String.length a) (String.length (a ++ b) - String.length a) (a ++ b) = b.
Proof.
  rewrite length_append. replace (String.length a + String.length b - String.length a)%nat with (String.length b) by lia.
  induction a as [|c a IH]; [rewrite append_nil; apply substring_all|]. rewrite append_cons. exact IH.
Qed.

Section envelope.
Context {crypto : Cryptography} {laws : CryptographyLaws}.

Lemma seal_inv key nonce data aad c : seal key nonce data aad = Ok c -> aes_encrypt key nonce data aad = Some c.
Proof. unfold seal. destruct (aes_encrypt _ _ _ _); [by intros [= ->] | done]. Qed.

Lemma unseal_sealed key nonce data aad c : seal key nonce data aad = Ok c -> unseal key nonce c aad = Ok data.
Proof using laws. intros H%seal_inv. unfold unseal. by rewrite (aes_opens _ _ _ _ _ H). Qed.

Lemma decrypt_encrypted r master_key id pfx password e :
  encrypt r master_key id pfx password = Ok e -> String.length (en_pfx_nonce r) = GCM_NONCE_SIZE ->
  decrypt master_key id e = Ok (pfx, encode_utf8 password).
Proof using laws.
  unfold encrypt. intros (wrapped & Hw & H)%and_then_inv Hn. apply and_then_inv in H as (sealed & Hs & H).
  apply and_then_inv in H as (secret & Hp & [= <-]). unfold decrypt. cbn [ep_encrypted_pfx ep_data_key_nonce
    ep_encrypted_data_key ep_password_nonce ep_encrypted_password].
  assert (Nat.leb (String.length (en_pfx_nonce r ++ sealed)) GCM_NONCE_SIZE = false) as ->.
  { apply Nat.leb_gt. rewrite length_append, (aes_tagged _ _ _ _ _ (seal_inv _ _ _ _ _ Hs)). rewrite Hn. lia. }
  rewrite (unseal_sealed _ _ _ _ _ Hw). cbn [and_then]. rewrite <-Hn, stake_append, substring_append.
  rewrite (unseal_sealed _ _ _ _ _ Hs). cbn [and_then]. by rewrite (unseal_sealed _ _ _ _ _ Hp).
Qed.

(** A key that is not the wrapping key, or another certificate's identifier,
    opens nothing: the cipher refuses, and the caller sees a storage failure. *)
Lemma decrypt_refused master_key id e :
  (forall data, aes_decrypt master_key (ep_data_key_nonce e) (ep_encrypted_data_key e) (_DATA_KEY_AAD ++ uuid_bytes id) <> Some data) ->
  decrypt master_key id e = Err CertificateStorageFailure.
Proof.
  intros Hn. unfold decrypt. destruct (Nat.leb _ _); [done|]. unfold unseal.
  by destruct (aes_decrypt master_key _ _ _) as [d|] eqn:Hd; [destruct (Hn d)|].
Qed.
End envelope.

(** ** The certificate table *)

(** What one step may do to a certificate: a pending one is linked to its
    artifact, becomes current or fails; a current one is replaced.  Key material
    and identity never change. *)
Inductive certificate_step (c : Certificate) : Certificate -> Prop :=
| cert_linked a now : cert_state c = CertificateState.PENDING ->
    certificate_step c (c <| cert_artifact := Some a |> <| cert_updated_at := now |>)
| cert_activated now : cert_state c = CertificateState.PENDING -> certificate_step c (activated now c)
| cert_replaced now : cert_state c = CertificateState.CURRENT -> certificate_step c (replaced now c)
| cert_failed now : cert_state c = CertificateState.PENDING ->
    certificate_step c (failed now c).

(** One row per key; a company has at most one current certificate, and a
    fingerprint is current in at most one company. *)
Definition certificates_ok (n : N) (d : DB) : Prop :=
  keyed cert_id cert_id n (certificates d) /\
  (forall i j c x, certificates d !! i = Some c -> certificates d !! j = Some x -> is_current c = true -> is_current x = true ->
     cert_company c = cert_company x \/ cert_fingerprint_sha256 c = cert_fingerprint_sha256 x -> i = j).

Definition has_current (company : N) (d : DB) : Prop :=
  exists i c, certificates d !! i = Some c /\ current_of company c = true.

(** What an operation may do to a well-formed certificate table: rows move along
    [certificate_step], and a company that has a current certificate has one
    afterwards. *)
Definition certifies {B} (w w' : World B) : Prop :=
  (next_uuid w <= next_uuid w')%N /\ clock w' = clock w /\ online w' = online w /\
  (certificates_ok (next_uuid w) (db w) ->
   certificates_ok (next_uuid w') (db w') /\
   (forall i c, certificates (db w) !! i = Some c -> exists c', certificates (db w') !! i = Some c' /\ rtc certificate_step c c') /\
   (forall company, has_current company (db w) -> has_current company (db w'))).

Section table.
Context {B : Type} {store : ObjectStore B} {slaws : ObjectStoreLaws B} {crypto : Cryptography}.
Implicit Types w : World B.

Lemma certifies_still w w' : keeps certificates w w' -> certifies w w'.
Proof.
  intros (Hc & Hk & Ho & Hn). split_and!; [done..|]. intros [H1 H2]. unfold certificates_ok, has_current. rewrite Hc. split_and!.
  - by eapply keyed_mono.
  - done.
  - intros i c Hi. exists c. split; [done|reflexivity].
  - done.
Qed.

#[export] Instance certifies_preorder : PreOrder (certifies (B:=B)).
Proof.
  split.
  - intros w. apply certifies_still. reflexivity.
  - intros w1 w2 w3 (Hn & Hk & Ho & H12) (Hn' & Hk' & Ho' & H23). split_and!; [lia|congruence..|].
    intros Hok. destruct (H12 Hok) as (Hok2 & Hs & Hb). destruct (H23 Hok2) as (Hok3 & Hs' & Hb').
    split_and!; [done| |by auto].
    intros i c (c2 & Hi2 & Hr)%Hs. apply Hs' in Hi2 as (c3 & Hi3 & Hr3). exists c3. split; [done|]. by etrans.
Qed.

#[export] Instance certifies_rolls_back : RollsBack (certifies (B:=B)).
Proof. intros w w' (Hn & Hk & Ho & _). apply certifies_still. by split_and!. Qed.

(** The world after one of its certificates changed by one step. *)
Lemma certifies_put w i c c' :
  certificates (db w) !! i = Some c -> certificate_step c c' -> is_current c' = false -> is_current c = false ->
  certifies w (w <| db ::= fun d => d <| certificates ::= put i c' |> |>).
Proof.
  intros Hi Hs Hc' Hc. split_and!; [done..|]. intros [H1 H2]. cbn.
  assert (cert_id c' = cert_id c) as Hid by (by destruct Hs). destruct (proj1 H1 _ _ Hi) as [Hci Hlt].
  unfold certificates_ok, has_current, put. cbn. split_and!.
  - rewrite <-Hci, <-Hid. eapply keyed_same; [done|rewrite Hid, Hci; exact Hi|done].
  - intros j k x y. rewrite !lookup_insert_Some. intros [[<- <-]|[_ Hj]] [[<- <-]|[_ Hk]]; [done|congruence|congruence|by apply H2].
  - intros j x Hj. destruct (decide (i = j)) as [<-|Hne].
    + rewrite lookup_insert_eq. exists c'. split; [done|]. apply rtc_once. congruence.
    + rewrite lookup_insert_ne by done. exists x. split; [done|reflexivity].
  - intros company (j & x & Hj & Hx). exists j, x. split; [|done]. rewrite lookup_insert_ne; [done|].
    intros <-. unfold current_of in Hx. assert (x = c) as -> by congruence. rewrite Hc in Hx. by rewrite andb_false_r in Hx.
Qed.

Lemma certifies_new w id c :
  certificates (db w) !! id = None -> (id < next_uuid w)%N -> cert_id c = id -> is_current c = false ->
  certifies w (w <| db ::= fun d => d <| certificates ::= put id c |> |>).
Proof.
  intros Hn Hlt Hid Hc. split_and!; [done..|]. intros [H1 H2]. unfold certificates_ok, has_current, put. cbn. split_and!.
  - split.
    + intros i x. rewrite lookup_insert_Some. intros [[<- <-]|[_ Hi]]; [done|by apply H1].
    + intros i j x y. rewrite !lookup_insert_Some.
      intros [[<- <-]|[_ Hi]] [[<- <-]|[_ Hj]] He; [done| | |by eapply H1].
      * destruct (proj1 H1 _ _ Hj). congruence.
      * destruct (proj1 H1 _ _ Hi). congruence.
  - intros j k x y. rewrite !lookup_insert_Some. intros [[<- <-]|[_ Hj]] [[<- <-]|[_ Hk]]; [done|congruence|congruence|by apply H2].
  - intros i x Hi. exists x. split; [|reflexivity]. rewrite lookup_insert_ne; [done|]. intros <-. congruence.
  - intros company (j & x & Hj & Hx). exists j, x. split; [|done]. rewrite lookup_insert_ne; [done|]. intros <-. congruence.
Qed.

Lemma save_certificate_inv c w u w' :
  save_certificate (B:=B) c w = (Ok u, w') ->
  certificate_conflict c (db w) = false /\ w' = w <| db ::= fun d => d <| certificates ::= put (cert_id c) c |> |>.
Proof. unfold save_certificate. intros H. invert_db. bools. done. Qed.

Lemma certificate_company_inv ref w c w' :
  certificate_company (B:=B) ref w = (Ok c, w') -> w' = w /\ exists i, parse_uuid ref = Some i /\ companies (db w) !! i = Some c.
Proof. unfold certificate_company. intros H. invert_db. eauto. Qed.

(** The first transaction, committed. *)
Lemma register_inv company_id id e p w c w' :
  register_certificate (B:=B) company_id id e p w = (Ok c, w') ->
  exists i company a w1 w2,
    parse_uuid company_id = Some i /\ companies (db w) !! i = Some company /\
    let c0 := new_certificate id (clock w) (co_id company) e p in
    w1 = w <| db ::= fun d => d <| certificates ::= put id c0 |> |> /\
    begin "certificate-pfx" (certificate_key id) "application/octet-stream" w1 = (Ok a, w2) /\
    c = c0 <| cert_artifact := Some (art_id a) |> <| cert_updated_at := clock w |> /\
    w' = w2 <| db ::= fun d => d <| certificates ::= put id c |> |>.
Proof.
  unfold register_certificate. intros [_ H]%atomic_inv.
  apply bind_inv in H as (company & ? & (-> & i & Hp & Hi)%certificate_company_inv & H).
  apply bind_inv in H as (? & ? & [-> ->]%query_inv & H). apply bind_inv in H as (? & ? & [_ ->]%require_inv & H).
  apply bind_inv in H as (now & ? & [-> ->]%now_inv & H). apply bind_inv in H as (? & w1 & [_ Hw1]%save_certificate_inv & H).
  apply bind_inv in H as (a & w2 & Ha & H). apply bind_inv in H as (? & w3 & [_ Hw3]%save_certificate_inv & [-> ->]%ret_inv).
  exists i, company, a, w1, w2. by split_and!.
Qed.

Lemma certifies_register company_id id e p w c w' :
  certificates (db w) !! id = None -> (id < next_uuid w)%N ->
  register_certificate (B:=B) company_id id e p w = (Ok c, w') ->
  certifies w w' /\ certificates (db w') !! id = Some c /\ cert_id c = id /\ cert_state c = CertificateState.PENDING /\
  companies (db w') = companies (db w) /\
  (exists i company, parse_uuid company_id = Some i /\ companies (db w) !! i = Some company /\ cert_company c = co_id company).
Proof.
  intros Hn Hlt (i & company & a & w1 & w2 & Hp & Hi & Hw1 & Ha & Hc & Hw')%register_inv.
  set (c0 := new_certificate id (clock w) (co_id company) e p) in *.
  assert (keeps (fun d => (certificates d, companies d)) w1 w2) as Hk.
  { eapply (moves_run (keeps _)); [|exact Ha]. by apply keeps_begin. }
  destruct Hk as ([= Hcert Hco] & Hk & Ho & Hu).
  assert (certificates (db w2) !! id = Some c0) as Hc0.
  { rewrite Hcert, Hw1. cbn. unfold put. by rewrite lookup_insert_eq. }
  split_and!.
  - etrans; [apply (certifies_new w id c0); done|]. rewrite <-Hw1. etrans; [apply certifies_still; by split_and!|].
    rewrite Hw', Hc. by apply (certifies_put w2 id c0); [|constructor|..].
  - rewrite Hw'. cbn. unfold put. by rewrite lookup_insert_eq.
  - by rewrite Hc.
  - by rewrite Hc.
  - rewrite Hw'. cbn. by rewrite Hco, Hw1.
  - exists i, company. split_and!; [done..|by rewrite Hc].
Qed.

Lemma keeps_queue_initial {T} (f : DB -> T) company id :
  (forall d g, f (d <| initial_requests ::= g |>) = f d) -> moves (keeps f) (_queue_initial_collection (B:=B) company id).
Proof.
  intros Hf. unfold _queue_initial_collection. destruct (_ || _); [by frame_tac|].
  apply moves_bind; [apply _|by apply moves_pure; [apply _|]|]. intros known. destruct known; [by frame_tac|].
  do 3 (apply moves_bind; [apply _|by frame_tac|]; intros ?). apply moves_bind; [apply _|by frame_tac|]. intros _.
  apply keeps_write. intros d. apply Hf.
Qed.

(** The certificates once the previous one is replaced and the new one current. *)
Definition replacing (now : Z) (company : N) (c : Certificate) (t : gmap N Certificate) : gmap N Certificate :=
  update_where (other_current company (cert_id c)) (replaced now) t.

Lemma activate_inv actor company_id id fp ip w c c' w' :
  certificates (db w) !! id = Some c ->
  activate_certificate (B:=B) actor company_id id fp ip w = (Ok c', w') ->
  exists i company w1,
    parse_uuid company_id = Some i /\ companies (db w) !! i = Some company /\ c' = activated (clock w) c /\
    certificate_conflict c' (db w <| certificates ::= replacing (clock w) (co_id company) c |>) = false /\
    w1 = w <| db ::= fun d => d <| certificates ::= fun t => put (cert_id c) c' (replacing (clock w) (co_id company) c t) |> |> /\
    keeps (fun d => (certificates d, artifacts d)) w1 w' /\ bucket w' = bucket w.
Proof.
  intros Hc. unfold activate_certificate. intros [_ H]%atomic_inv.
  apply bind_inv in H as (c1 & ? & Hg & H). unfold get_certificate in Hg.
  apply bind_inv in Hg as (row & ? & [-> ->]%query_inv & [Hrow ->]%of_option_inv). rewrite Hc in Hrow. injection Hrow as <-.
  apply bind_inv in H as (i & ? & [Hi ->]%of_option_inv & H). apply bind_inv in H as (? & ? & [-> ->]%query_inv & H).
  apply bind_inv in H as (company & ? & [Hco ->]%of_option_inv & H). apply bind_inv in H as (? & ? & [-> ->]%query_inv & H).
  apply bind_inv in H as (? & ? & [_ ->]%require_inv & H). apply bind_inv in H as (rep & ? & [-> ->]%query_inv & H).
  apply bind_inv in H as (now & ? & [-> ->]%now_inv & H). apply bind_inv in H as (? & w0 & ->%write_inv & H).
  apply bind_inv in H as (? & w1 & [Hcf Hw1]%save_certificate_inv & H).
  apply bind_inv in H as (? & w2 & Hq & H). apply bind_inv in H as (e & w3 & Ha & [-> ->]%ret_inv).
  exists i, company, w1. split_and!; [done..| | |].
  - rewrite Hw1. by destruct w.
  - eapply (moves_run (keeps (fun d => (certificates d, artifacts d)))) in Hq; [|by apply keeps_queue_initial].
    eapply (moves_run (keeps (fun d => (certificates d, artifacts d)))) in Ha;
      [|apply keeps_append; intros ? ? (? & ? & ->); reflexivity]. by etrans.
  - assert (bucket w1 = bucket w) as Hb by (by rewrite Hw1).
    assert (moves env_grows (_queue_initial_collection (B:=B) company (cert_id (activated (clock w) c)))) as Hm
      by (unfold _queue_initial_collection; env_tac).
    eapply (moves_run env_grows) in Hq; [|exact Hm]. eapply (moves_run env_grows) in Ha; [|apply env_append].
    destruct Hq as (_ & _ & Hq & _), Ha as (_ & _ & Ha & _). congruence.
Qed.

Lemma certifies_activate actor company_id id fp ip w c c' w' :
  certificates (db w) !! id = Some c -> cert_id c = id -> cert_state c = CertificateState.PENDING ->
  (forall i company, parse_uuid company_id = Some i -> companies (db w) !! i = Some company -> cert_company c = co_id company) ->
  activate_certificate (B:=B) actor company_id id fp ip w = (Ok c', w') ->
  certifies w w' /\ certificates (db w') !! id = Some c' /\ c' = activated (clock w) c.
Proof.
  intros Hc Hid Hst Hown (i & company & w1 & Hi & Hco & -> & Hcf & Hw1 & Hk & _)%(activate_inv _ _ _ _ _ _ c); [|done].
  specialize (Hown _ _ Hi Hco). set (c' := activated (clock w) c) in *.
  assert (forall j x, j <> id -> certificates (db w1) !! j = Some x ->
    exists x0, certificates (db w) !! j = Some x0 /\
      x = if other_current (co_id company) (cert_id c) x0 then replaced (clock w) x0 else x0) as Hold.
  { intros j x Hne. rewrite Hw1. cbn. unfold put, replacing. rewrite Hid, lookup_insert_ne, lookup_update_where by done.
    destruct (certificates (db w) !! j) as [x0|]; [|done]. intros [= <-]. by exists x0. }
  assert (certificates (db w1) !! id = Some c') as Hnew by (rewrite Hw1; cbn; unfold put; by rewrite Hid, lookup_insert_eq).
  destruct Hk as ([= Hk _] & Hk2 & Hk3 & Hk4).
  split_and!; [|by rewrite Hk|done]. etrans; [|apply certifies_still; by split_and!].
  split_and!; [by rewrite Hw1..|]. intros [H1 H2].
  assert (forall j x, j <> id -> certificates (db w1) !! j = Some x -> is_current x = true ->
    cert_company x <> cert_company c /\ cert_fingerprint_sha256 x <> cert_fingerprint_sha256 c /\
    certificates (db w) !! j = Some x) as Hothers.
  { intros j x Hne Hj Hx. unfold certificate_conflict in Hcf. rewrite (eq_refl : is_current c' = true), andb_true_l, exists_row_false in Hcf.
    assert (replacing (clock w) (co_id company) c (certificates (db w)) !! j = Some x) as Hr.
    { revert Hj. rewrite Hw1. cbn. unfold put. by rewrite Hid, lookup_insert_ne. }
    specialize (Hcf _ _ Hr). rewrite Hx in Hcf.
    change (cert_id c') with (cert_id c) in Hcf. change (cert_company c') with (cert_company c) in Hcf.
    change (cert_fingerprint_sha256 c') with (cert_fingerprint_sha256 c) in Hcf. destruct (Hold _ _ Hne Hj) as (x0 & Hx0 & Heq).
    assert (cert_id x = j) as Hxj by (destruct (proj1 H1 _ _ Hx0) as [<- _]; rewrite Heq; by destruct (other_current _ _ _)).
    rewrite Hxj, Hid in Hcf. apply N.eqb_neq in Hne as Hne'. rewrite Hne' in Hcf. cbn in Hcf. apply orb_false_iff in Hcf as [Ha Hb].
    apply N.eqb_neq in Ha. apply String.eqb_neq in Hb. split_and!; [done..|].
    destruct (other_current _ _ _); [|congruence]. by rewrite Heq in Hx. }
  unfold certificates_ok. split_and!.
  - rewrite Hw1. cbn. unfold replacing. apply (keyed_same cert_id cert_id _ _ c' c).
    + eapply keyed_update; [|done]. by intros r.
    + rewrite lookup_update_where. unfold c'. cbn [cert_id activated upd]. rewrite Hid, Hc. cbn. unfold other_current.
      by rewrite Hid, N.eqb_refl, andb_false_r.
    + done.
  - intros j k x y Hj Hk' Hx Hy He. destruct (decide (j = id)) as [->|Hnj], (decide (k = id)) as [->|Hnk]; [done| | |].
    + assert (x = c') as -> by congruence. destruct (Hothers _ _ Hnk Hk' Hy) as (? & ? & _). cbn in He. destruct He; congruence.
    + assert (y = c') as -> by congruence. destruct (Hothers _ _ Hnj Hj Hx) as (? & ? & _). cbn in He. destruct He; congruence.
    + destruct (Hothers _ _ Hnj Hj Hx) as (_ & _ & Hj0), (Hothers _ _ Hnk Hk' Hy) as (_ & _ & Hk0). by eapply H2.
  - intros j x Hj. destruct (decide (j = id)) as [->|Hne].
    + exists c'. split; [done|]. assert (x = c) as -> by congruence. by apply rtc_once, cert_activated.
    + rewrite Hw1. cbn. unfold put, replacing. rewrite Hid, lookup_insert_ne, lookup_update_where, Hj by done. cbn.
      destruct (other_current _ _ x) eqn:Ho; eexists; (split; [reflexivity|]); [|reflexivity].
      apply rtc_once, cert_replaced. unfold other_current, current_of, is_current in Ho. bools. done.
  - intros k (j & x & Hj & Hx). destruct (decide (k = cert_company c)) as [->|Hne].
    + exists id, c'. split; [done|]. unfold current_of. cbn. by rewrite N.eqb_refl.
    + exists j, x. split; [|done]. assert (j <> id) as Hnj.
      { intros ->. unfold current_of, is_current in Hx. assert (x = c) as -> by congruence. bools. congruence. }
      rewrite Hw1. cbn. unfold put, replacing. rewrite Hid, lookup_insert_ne, lookup_update_where, Hj by done. cbn.
      unfold other_current. unfold current_of in Hx |- *. apply andb_true_iff in Hx as [Hx _]. apply N.eqb_eq in Hx.
      by rewrite (proj2 (N.eqb_neq (cert_company x) (co_id company))) by congruence.
Qed.

(** The current certificates are left as they are. *)
Definition spares w w' : Prop :=
  forall i c, certificates (db w) !! i = Some c -> is_current c = true -> certificates (db w') !! i = Some c.

Lemma spares_same w w' : certificates (db w') = certificates (db w) -> spares w w'.
Proof. by intros H i c Hi _; rewrite H. Qed.

Lemma settle_moves id w : certifies w (settle_failure (B:=B) id w).2 /\ spares w (settle_failure (B:=B) id w).2.
Proof.
  unfold settle_failure, autocommit, atomic. exec. destruct (online w) eqn:Ho; [|split; [reflexivity|by apply spares_same]]. cbn.
  set (p := still_pending id). set (f := failed (clock w)).
  assert (forall c, p c = true -> cert_state c = CertificateState.PENDING) as Hp by (intros c Hc; unfold p, still_pending in Hc; by bools).
  assert (forall c, is_current c = true -> p c = false) as Hcur.
  { intros c Hc. destruct (p c) eqn:Hpc; [|done]. apply Hp in Hpc. unfold is_current in Hc. bools. congruence. }
  split.
  - split; [cbn; lia|]. split; [reflexivity|]. split; [by rewrite Ho|]. intros [H1 H2]. unfold certificates_ok, has_current. cbn. split_and!.
    + apply keyed_update; [|done]. by intros r.
    + assert (forall j x, update_where p f (certificates (db w)) !! j = Some x -> is_current x = true -> certificates (db w) !! j = Some x) as Hb.
      { intros j x. rewrite lookup_update_where. destruct (certificates (db w) !! j) as [y|]; [|done]. cbn. intros [= <-].
        destruct (p y); [|done]. intros Hx. unfold is_current in Hx. bools. discriminate Hx. }
      intros j k x y Hj Hk Hx Hy. by apply H2; auto.
    + intros j x Hj. rewrite lookup_update_where, Hj. cbn. eexists. split; [reflexivity|].
      destruct (p x) eqn:Hpx; [|reflexivity]. apply rtc_once, cert_failed. by apply Hp.
    + intros company (j & x & Hj & Hx). exists j, x. split; [|done]. rewrite lookup_update_where, Hj. cbn.
      rewrite Hcur; [done|]. unfold current_of in Hx. by bools.
  - intros j x Hj Hx. cbn. rewrite lookup_update_where, Hj. cbn. by rewrite Hcur.
Qed.

Lemma keeps_store c sealed : moves (keeps (fun d => (certificates d, companies d))) (store_certificate (B:=B) c sealed).
Proof using slaws.
  unfold store_certificate. apply moves_try; [apply _| |intros; by apply moves_pure; [apply _|]].
  apply moves_bind; [apply _|by apply moves_pure; [apply _|]; destruct (cert_artifact c)|]. intros a.
  apply moves_bind; [apply _|by apply keeps_transmit|]. intros r. by apply moves_pure; [apply _|].
Qed.

Lemma env_keeps_rollback {A} (m : M B A) w e w' : moves env_grows m -> atomic m w = (Err e, w') -> keeps (fun d => d) w w'.
Proof.
  intros Hm Ha. pose proof (moves_run env_grows _ _ _ _ (env_atomic _ Hm) Ha) as (Hk & Ho & _ & Hu).
  split_and!; [by eapply atomic_rollback|done..].
Qed.

Definition registering (actor : SessionIdentity) (company_id : string) (id : N) (e : EnvelopePayload) (p : ParsedCertificate)
    (ip : string) : M B Certificate :=
  let* certificate := register_certificate company_id id e p in
  store_certificate certificate (ep_encrypted_pfx e) ;;;
  activate_certificate actor company_id id (pc_fingerprint_sha256 p) ip.

Lemma registering_moves actor company_id id e p ip w :
  certificates (db w) !! id = None -> (id < next_uuid w)%N ->
  match registering actor company_id id e p ip w with
  | (Ok c, w') =>
      certifies w w' /\ certificates (db w') !! id = Some c /\ is_current c = true /\ cert_id c = id /\
      cert_certificate_cnpj c = pc_certificate_cnpj p /\
      exists i company, parse_uuid company_id = Some i /\ companies (db w) !! i = Some company /\ cert_company c = co_id company
  | (Err _, w') => certifies w w' /\ spares w w'
  end.
Proof using slaws.
  intros Hn Hlt. unfold registering, bind at 1.
  destruct (register_certificate company_id id e p w) as [[c|x] w1] eqn:Hr.
  2: { assert (keeps (fun d => d) w w1) as (Hd & Hk & Ho & Hu).
       { unfold register_certificate in Hr. eapply env_keeps_rollback; [|exact Hr].
         unfold certificate_company, save_certificate, begin, put_artifact. env_tac. }
       split; [apply certifies_still; split_and!; [by rewrite Hd|done..]|apply spares_same; by rewrite Hd]. }
  destruct (certifies_register _ _ _ _ _ _ _ Hn Hlt Hr) as (Hm1 & Hc1 & Hid & Hst & Hco & i & company & Hp & Hi & Hown).
  assert (is_current c = false) as Hncur by (unfold is_current; by rewrite Hst).
  assert (spares w w1) as Hs1.
  { apply register_inv in Hr as (? & ? & a & w2 & w3 & _ & _ & Hw2 & Ha & _ & Hw1). intros j x' Hj Hx.
    assert (keeps certificates w2 w3) as (Hk & _) by (eapply (moves_run (keeps _)); [|exact Ha]; by apply keeps_begin).
    assert (j <> id) as Hne by congruence. rewrite Hw1. cbn. rewrite Hk, Hw2. cbn. unfold put. by rewrite !lookup_insert_ne. }
  unfold bind. destruct (store_certificate c (ep_encrypted_pfx e) w1) as [[u|x] w2] eqn:Hs.
  all: pose proof (moves_run (keeps _) _ _ _ _ (keeps_store c (ep_encrypted_pfx e)) Hs) as ([= Hk Hkc] & Hk2 & Hk3 & Hk4).
  2: { split; [etrans; [exact Hm1|apply certifies_still; by split_and!]|]. intros j y Hj Hy. rewrite Hk. by apply Hs1. }
  destruct (activate_certificate actor company_id id (pc_fingerprint_sha256 p) ip w2) as [[c'|x] w3] eqn:Ha.
  - destruct (certifies_activate actor company_id id (pc_fingerprint_sha256 p) ip w2 c c' w3) as (Hm3 & Hc3 & ->); [congruence|done|done| |done|].
    { intros i' company' Hp' Hi'. rewrite Hkc, Hco in Hi'. congruence. }
    apply register_inv in Hr as (? & ? & a & ? & ? & _ & _ & _ & _ & Hc & _).
    split_and!; [|done|done|done|by rewrite Hc|by exists i, company].
    etrans; [exact Hm1|]. etrans; [|exact Hm3]. apply certifies_still. by split_and!.
  - assert (keeps (fun d => d) w2 w3) as (Hd & Hd2 & Hd3 & Hd4).
    { unfold activate_certificate in Ha. eapply env_keeps_rollback; [|exact Ha].
      unfold get_certificate, save_certificate, _queue_initial_collection. env_tac. }
    split.
    + etrans; [exact Hm1|]. etrans; apply certifies_still; split_and!; (done || congruence || lia || by rewrite Hd).
    + intros j y Hj Hy. rewrite Hd, Hk. by apply Hs1.
Qed.

(** A call that stopped before it wrote anything. *)
Definition stopped {A} w (res : result exn A * World B) : Prop := keeps (fun d => d) w res.2 /\ is_ok res.1 = false.

(** A call that ran the two transactions for the next identifier, and settled
    their failure. *)
Definition attempted actor company_id r pfx password ip master_key w (res : result exn Certificate * World B) : Prop :=
  exists company i parsed e,
    parse_uuid company_id = Some i /\ companies (db w) !! i = Some company /\ pc_certificate_cnpj parsed = co_cnpj company /\
    EnvelopeCipher master_key = Ok master_key /\ encrypt r master_key (next_uuid w) pfx password = Ok e /\
    match registering actor company_id (next_uuid w) e parsed ip (w <| next_uuid ::= N.succ |>) with
    | (Ok c, w') => res = (Ok c, w')
    | (Err x, w') => is_ok res.1 = false /\ (res.2 = w' \/ res.2 = (settle_failure (B:=B) (next_uuid w) w').2)
    end.

Lemma stopped_or {A C} (m : M B A) (k : A -> M B C) w0 w (Q : result exn C * World B -> Prop) :
  keeps (fun d => d) w0 w -> moves (keeps (fun d => d)) m ->
  (forall a w1, m w = (Ok a, w1) -> keeps (fun d => d) w0 w1 -> stopped w0 (k a w1) \/ Q (k a w1)) ->
  stopped w0 (bind m k w) \/ Q (bind m k w).
Proof.
  intros Hw Hm Hk. specialize (Hm w). unfold bind. destruct (m w) as [[a|x] w1] eqn:He; cbn in Hm.
  - apply Hk; [done|]. by etrans.
  - left. split; [|done]. cbn. by etrans.
Qed.

Lemma add_certificate_cases actor company_id r pfx password ip master_key now w :
  let res := add_certificate (B:=B) actor company_id r pfx password ip master_key now w in
  stopped w res \/ attempted actor company_id r pfx password ip master_key w res.
Proof.
  cbn zeta. unfold add_certificate, _require_access.
  apply stopped_or; [done|frame_tac|]. intros ? ? [_ ->]%require_inv _.
  apply stopped_or; [done|frame_tac|]. intros ? ? [_ ->]%require_inv _.
  apply stopped_or; [done|frame_tac|]. intros ? ? [-> ->]%now_inv _.
  apply stopped_or; [done|frame_tac|]. intros parsed ? [_ ->]%lift_inv _.
  apply stopped_or; [done|unfold certificate_company; frame_tac|].
  intros company ? [_ (-> & i & Hp & Hi)%certificate_company_inv]%atomic_inv _.
  apply stopped_or; [done|frame_tac|]. intros ? ? [Hc%String.eqb_eq ->]%require_inv _.
  apply stopped_or; [done|frame_tac|]. intros ? ? [-> ->]%uuid4_inv Hw.
  apply stopped_or; [done|frame_tac|]. intros k ? [Hk ->]%lift_inv _.
  assert (k = master_key) as -> by (unfold EnvelopeCipher in Hk; destruct (Z.eqb _ _); congruence).
  apply stopped_or; [done|frame_tac|]. intros e ? [He ->]%lift_inv _. right.
  exists company, i, parsed, e. split_and!; [done..|]. unfold try_except.
  fold (registering actor company_id (next_uuid w) e parsed ip).
  destruct (registering _ _ _ _ _ _ _) as [[c|x] w']; [done|].
  assert (forall y, let res := (settle_failure (B:=B) (next_uuid w) ;;; throw (A:=Certificate) y) w' in
            is_ok res.1 = false /\ res.2 = (settle_failure (B:=B) (next_uuid w) w').2) as Hs.
  { intros y. unfold bind. by destruct (settle_failure _ _) as [[u|z] w2]. }
  destruct (is_CertificateError x); [|destruct x; try (split; [done|by left])]; edestruct Hs; eauto.
Qed.

(** C17 Adding a certificate, on every path, keeps the table well formed and moves
    its rows along [certificate_step].  It never leaves a company that had a
    current certificate without one; on success the new certificate is the only
    current one of its company and bears the company's CNPJ; after an error every
    current certificate is what it was. *)
Theorem add_certificate_safe actor company_id r pfx password ip master_key now w :
  certificates_ok (next_uuid w) (db w) ->
  let '(res, w') := add_certificate (B:=B) actor company_id r pfx password ip master_key now w in
  certificates_ok (next_uuid w') (db w') /\
  (forall i c, certificates (db w) !! i = Some c -> exists c', certificates (db w') !! i = Some c' /\ rtc certificate_step c c') /\
  (forall company, has_current company (db w) -> has_current company (db w')) /\
  match res with
  | Ok c =>
      certificates (db w') !! cert_id c = Some c /\
      (forall i x, certificates (db w') !! i = Some x -> current_of (cert_company c) x = true <-> i = cert_id c /\ x = c) /\
      exists i company, parse_uuid company_id = Some i /\ companies (db w) !! i = Some company /\
        cert_company c = co_id company /\ cert_certificate_cnpj c = co_cnpj company
  | Err _ => spares w w'
  end.
Proof using slaws.
  intros Hok. pose proof (add_certificate_cases actor company_id r pfx password ip master_key now w) as H. cbn zeta in H.
  destruct (add_certificate _ _ _ _ _ _ _ _ _) as [res w'].
  destruct H as [[Hk Hf]|(company & i & parsed & e & Hp & Hi & Hcnpj & _ & _ & H)]; cbn in *.
  - assert (certifies w w') as (_ & _ & _ & Hm) by (apply certifies_still; destruct Hk as (Hd & ? & ? & ?); split_and!; [by rewrite Hd|done..]).
    destruct res; [done|]. destruct (Hm Hok) as (? & ? & ?). split_and!; [done..|]. apply spares_same. by destruct Hk as (-> & _).
  - set (w1 := w <| next_uuid ::= N.succ |>) in *.
    assert (certifies w w1) as Hw1 by (apply certifies_still; split_and!; [done..|cbn; lia]).
    assert (certificates (db w1) !! next_uuid w = None) as Hn.
    { apply eq_None_not_Some. intros [x Hx]. destruct (proj1 (proj1 Hok) _ _ Hx). lia. }
    pose proof (registering_moves actor company_id (next_uuid w) e parsed ip w1 Hn ltac:(cbn; lia)) as Hr.
    destruct (registering _ _ _ _ _ _ _) as [[c|x] w2].
    + injection H as -> ->. destruct Hr as (Hm & Hc & Hcur & Hid & Hcp & i' & company' & Hp' & Hi' & Hco).
      assert (certifies w w2) as (_ & _ & _ & Hm') by (by etrans). destruct (Hm' Hok) as ([H1 H2] & Hs & Hh).
      rewrite Hid. split_and!; [done|done|done|done| |].
      * intros j x Hj. split.
        -- intros Hx. unfold current_of in Hx. apply andb_true_iff in Hx as [Hx1%N.eqb_eq Hx2]. assert (j = next_uuid w) as -> by (apply (H2 _ _ _ _ Hj Hc); auto).
           split; [done|congruence].
        -- intros [_ ->]. unfold current_of. rewrite N.eqb_refl. exact Hcur.
      * exists i', company'. assert (i' = i) as -> by congruence. assert (company' = company) as -> by (cbn in Hi'; congruence).
        by rewrite Hco, Hcp.
    + destruct Hr as [Hm Hs]. destruct H as [Hf [-> | ->]], res; try done.
      all: destruct (settle_moves (next_uuid w) w2) as [Hm2 Hs2].
      1: assert (certifies w w2) as (_ & _ & _ & Hm') by (by etrans).
      2: assert (certifies w (settle_failure (B:=B) (next_uuid w) w2).2) as (_ & _ & _ & Hm') by (etrans; [exact Hw1|]; by etrans).
      all: destruct (Hm' Hok) as (? & ? & ?); split_and!; [done..|].
      * exact Hs.
      * intros j y Hj Hy. apply Hs2; [|done]. by apply Hs.
Qed.

(** A registered certificate whose artifact was stored and which was activated:
    the worker opens exactly what was sealed for it. *)
Lemma registering_stores actor company_id id e p ip w c w' :
  artifact_inv w -> online w = true -> (forall i x, artifacts (db w) !! i = Some x -> art_logical_key x <> certificate_key id) ->
  certificates (db w) !! id = None -> (id < next_uuid w)%N ->
  registering actor company_id id e p ip w = (Ok c, w') ->
  exists a, cert_artifact c = Some a /\ open_verified a w' = (Ok (ep_encrypted_pfx e), w') /\
    stored_envelope c (ep_encrypted_pfx e) = e /\ cert_id c = id /\ online w' = true /\
    certificates (db w') !! id = Some c /\ cert_fingerprint_sha256 c = pc_fingerprint_sha256 p /\
    cert_certificate_cnpj c = pc_certificate_cnpj p /\ is_current c = true.
Proof using slaws.
  intros Hinv Ho Hfree Hn Hlt H. apply bind_inv in H as (c1 & w3 & Hr & H). apply bind_inv in H as (? & w4 & Hs & Ha).
  pose proof (certifies_register _ _ _ _ _ _ _ Hn Hlt Hr) as (_ & Hc3 & _ & Hst & _).
  apply register_inv in Hr as (i & company & a & w1 & w2 & Hp & Hi & Hw1 & Hb & Hc1 & Hw3).
  assert (artifact_inv w1) as Hinv1 by (by rewrite Hw1).
  assert (artifact_inv w2) as Hinv2.
  { pose proof (inv_begin "certificate-pfx" (certificate_key id) "application/octet-stream" w1 Hinv1) as Hk. by rewrite Hb in Hk. }
  assert (artifact_inv w3) as Hinv3 by (by rewrite Hw3).
  destruct (begin_inv _ _ _ _ _ _ Hb) as (Ho2 & Ha2 & Hpen & Hart & Hkey & Hbk).
  pose proof Hs as Hs0. unfold store_certificate in Hs. apply try_inv in Hs as [Hs|(? & ? & _ & Hs)]; [|by apply throw_inv in Hs].
  apply bind_inv in Hs as (k & ? & [Hk ->]%of_option_inv & Hs). rewrite Hc1 in Hk. injection Hk as <-.
  apply bind_inv in Hs as (r & ? & Ht & [_ <-]%ret_inv).
  assert (artifacts (db w3) !! art_id a = Some a) as Ha3 by (by rewrite Hw3).
  assert (online w3 = true) as Ho3 by (by rewrite Hw3).
  assert (key_owned a w3 = false) as Hown.
  { apply exists_row_false. intros j y Hj. rewrite Hw3 in Hj. cbn in Hj. rewrite Hart, Hw1 in Hj. cbn in Hj.
    unfold put in Hj. apply lookup_insert_Some in Hj as [[<- <-]|[_ Hj]]; [by rewrite N.eqb_refl, andb_false_r|].
    unfold finalized_key. rewrite Hkey. apply Hfree in Hj. apply String.eqb_neq in Hj. by rewrite Hj, ?andb_false_r. }
  pose proof (transmit_own certificate_store_limit (art_id a) _ a w3 r w4 Hinv3 Ho3 Ha3 Hpen Hown Ht) as Hid.
  pose proof (transmit_holds certificate_store_limit (art_id a) [VBytes (ep_encrypted_pfx e)] a w3 Hinv3 Ho3 Ha3 Hpen) as Hh.
  rewrite Ht in Hh. destruct Hh as (body & Hbody & _ & _ & _ & _ & _ & _ & Hread & _). specialize (Hread Hid).
  assert (body = ep_encrypted_pfx e) as -> by (cbn in Hbody; rewrite append_empty_r in Hbody; congruence).
  assert (certificates (db w4) !! id = Some c1 /\ online w4 = true) as [Hc4 Ho4].
  { pose proof (moves_run (keeps _) _ _ _ _ (keeps_store c1 (ep_encrypted_pfx e)) Hs0) as ([= Hk1 _] & _ & Hk2 & _).
    by rewrite Hk1, Hk2. }
  destruct (activate_inv _ _ _ _ _ _ _ _ _ Hc4 Ha) as (i5 & company5 & w5 & _ & _ & Hc & _ & Hw5 & ([= Hkc Hka] & _ & Hko & _) & Hkb).
  assert (online w' = true) as Ho' by (rewrite Hko, Hw5; done).
  exists (art_id a). rewrite Hc, Hc1. split; [done|]. split.
  { eapply open_verified_later; [exact Ho4|exact Ho'|exact Hkb| |exact Hread]. rewrite Hka, Hw5. done. }
  split; [by destruct e|]. split; [done|]. split; [done|]. split; [|done].
  rewrite Hkc, Hw5. cbn. rewrite Hc1. cbn. unfold put. by rewrite lookup_insert_eq, Hc, Hc1.
Qed.

(** C18 What was added is what a worker later reads.  A certificate that
    [add_certificate] accepted, opened with the same master key while it is
    usable, yields the PKCS#12 bytes and the password that were given: through
    both layers of encryption, the certificate row, the object storage and its
    integrity check.  The nonce has its twelve bytes and no artifact bears the
    new identifier's key. *)
Theorem added_certificate_readable {laws : CryptographyLaws} actor company_id r pfx password ip master_key now w c w' ref :
  artifact_inv w -> online w = true -> certificates_ok (next_uuid w) (db w) ->
  (forall i x, artifacts (db w) !! i = Some x -> art_logical_key x <> certificate_key (next_uuid w)) ->
  String.length (en_pfx_nonce r) = GCM_NONCE_SIZE ->
  add_certificate (B:=B) actor company_id r pfx password ip master_key now w = (Ok c, w') -> usable c (clock w') = true ->
  uuid_of ref = Some (cert_id c) ->
  certificate_material ref master_key w' =
  (Ok (MkCertificateMaterial pfx (encode_utf8 password) (cert_fingerprint_sha256 c) (cert_certificate_cnpj c)), w').
Proof using slaws.
  intros Hinv Ho Hok Hfree Hnonce Hadd Hus Href.
  pose proof (add_certificate_cases actor company_id r pfx password ip master_key now w) as H. cbn zeta in H.
  rewrite Hadd in H. destruct H as [[_ [=]]|(company & i & p & e & _ & _ & _ & Hkey & He & H)].
  destruct (registering _ _ _ _ _ _ _) as [[c1|x] w2] eqn:Hr; [|by destruct H as [[=] _]]. injection H as -> ->.
  assert (artifact_inv (w <| next_uuid ::= N.succ |>)) as Hinv1.
  { destruct Hinv as [H1 H2]. split; [done|]. intros j Hj%H2. cbn. lia. }
  assert (certificates (db w) !! next_uuid w = None) as Hn by (by eapply keyed_fresh, (proj1 Hok)).
  assert (next_uuid w < next_uuid (w <| next_uuid ::= N.succ |>))%N as Hlt by (cbn; lia).
  destruct (registering_stores _ _ _ _ _ _ _ _ _ Hinv1 Ho Hfree Hn Hlt Hr) as (a & Ha & Hopen & Hst & Hid & Ho' & Hrow & _ & _ & Hcur).
  assert (autocommit (get_certificate (B:=B) (cert_id c1)) w2 = (Ok c1, w2)) as Hget.
  { unfold get_certificate. rewrite autocommit_pure; exec; rewrite Hid, Hrow; [by rewrite Ho'|done]. }
  unfold certificate_material. rewrite Href. run. rewrite Hget. unfold timezone_now. run.
  rewrite Hcur, Hus, Ha. cbn [andb]. run. rewrite Hopen. run. rewrite Hkey. run. rewrite Hid, Hst, (decrypt_encrypted r _ _ pfx password); done.
Qed.
End table.
