(* ===== verification/CertificateRuns.v ===== *)
(** * A concrete run of the certificate services

    A cipher that appends a keyed tag and checks it, a company, and its first
    certificate; the theorems of [CertificateFacts] are applied to the run. *)

From Stdlib Require Import ZArith Ascii String Lia.
From stdpp Require Import base decidable list gmap strings relations.
From S2P Require Import Prelude PyStr Sha256 PyVal Models Tables AuditTrail Identity Artifacts ArtifactFacts Companies Certificates CertificateFacts.

Local Open Scope string_scope.

(** ** A cipher that meets the laws: the data in clear, then a tag of sixteen
    characters over key, nonce, data and associated data. *)

Definition toy_tag (key nonce data aad : string) : string :=
  stake 16 (sha256 (key ++ nonce ++ data ++ aad) ++ "0000000000000000").

Definition toy_encrypt (key nonce data aad : string) : option string := Some (data ++ toy_tag key nonce data aad).

Definition toy_decrypt (key nonce sealed aad : string) : option string :=
  let data := stake (String.length sealed - 16) sealed in
  if String.eqb sealed (data ++ toy_tag key nonce data aad) then Some data else None.

Definition demo_x509 : X509 := MkX509 ["CN=First Ltda:11222333000181"] [] (seconds 1) (days 365) "f00d".

#[export] Instance toy_cipher : Cryptography := {|
  load_pfx pfx password := if String.eqb password "secret" then PfxLoaded true (Some demo_x509) else PfxError;
  aes_encrypt := toy_encrypt;
  aes_decrypt := toy_decrypt |}.

Lemma length_tag key nonce data aad : String.length (toy_tag key nonce data aad) = 16%nat.
Proof. unfold toy_tag. apply length_stake. rewrite length_append. cbn. lia. Qed.

#[export] Instance toy_cipher_laws : CryptographyLaws.
Proof.
  split; intros key nonce data aad sealed [= <-]; cbn [aes_decrypt toy_cipher].
  - unfold toy_decrypt. rewrite length_append, length_tag.
    replace (String.length data + 16 - 16)%nat with (String.length data) by lia. rewrite stake_append.
    by rewrite String.eqb_refl.
  - by rewrite length_append, length_tag.
Qed.

(** ** The run *)

Definition key_admin : SessionIdentity := MkSessionIdentity (uuid_str 7) "admin@example.org" "Admin" "administrador".

Definition k_company : Company := new_company 3 (seconds 1) "11222333000181" "First Ltda".

Definition k_start : World MemoryBucket.t :=
  MemoryBucket.world (empty_db <| companies ::= put 3%N k_company |>) (seconds 5) 10.

Definition k_entropy : Entropy := MkEntropy "0123456789abcdef0123456789abcdef" "nonce0000001" "nonce0000002" "nonce0000003".
Definition k_master : string := "fedcba9876543210fedcba9876543210".

Definition adding (password : string) : M MemoryBucket.t Certificate :=
  add_certificate key_admin (uuid_str 3) k_entropy "PKCS12 bytes" password "10.0.0.1" k_master None.

Definition k_done : World MemoryBucket.t := (adding "secret" k_start).2.

Definition no_certificate : Certificate :=
  new_certificate 0 0 0 (MkEnvelopePayload "" "" "" "" "") (MkParsedCertificate "" "" 0 0).
Definition k_added : Certificate := match (adding "secret" k_start).1 with Ok c => c | Err _ => no_certificate end.

Lemma k_start_ok : certificates_ok (next_uuid k_start) (db k_start).
Proof. unfold certificates_ok, keyed. cbn -[lookup]. split_and!; intros *; rewrite ?lookup_empty; try done; by intros ? [=]. Qed.

Lemma k_start_inv : artifact_inv k_start.
Proof. by apply artifact_inv_empty. Qed.

(** Adding succeeds; the safety theorem applies, and so it does when a second
    upload fails on its password. *)
Lemma add_certificate_safe_witness :
  is_ok (adding "secret" k_start).1 = true /\
  certificates_ok (next_uuid k_done) (db k_done) /\ has_current 3 (db k_done) /\
  certificates_ok (next_uuid (adding "wrong" k_done).2) (db (adding "wrong" k_done).2) /\
  spares k_done (adding "wrong" k_done).2.
Proof.
  assert (Hok : is_ok (adding "secret" k_start).1 = true) by (vm_compute; reflexivity).
  assert (Herr : is_ok (adding "wrong" k_done).1 = false) by (vm_compute; reflexivity).
  pose proof (add_certificate_safe key_admin (uuid_str 3) k_entropy "PKCS12 bytes" "secret" "10.0.0.1" k_master None k_start k_start_ok) as H1.
  fold (adding "secret") in H1. unfold k_done in *.
  destruct (adding "secret" k_start) as [[c|x] w1]; [|discriminate Hok]. destruct H1 as (Hk1 & _ & _ & Hc & Hu & i & company & Hp & Hi & Hco & _).
  cbn [snd] in *.
  pose proof (add_certificate_safe key_admin (uuid_str 3) k_entropy "PKCS12 bytes" "wrong" "10.0.0.1" k_master None w1 Hk1) as H2.
  fold (adding "wrong") in H2. destruct (adding "wrong" w1) as [[c2|x2] w2]; [discriminate Herr|].
  destruct H2 as (Hk2 & _ & _ & Hs). cbn [snd].
  assert (cert_company c = 3%N) as H3.
  { assert (i = 3%N) as -> by (vm_compute in Hp; congruence). rewrite Hco. vm_compute in Hi. injection Hi as <-. reflexivity. }
  split; [reflexivity|]. split; [exact Hk1|]. split; [|split; [exact Hk2|exact Hs]].
  exists (cert_id c), c. split; [exact Hc|]. rewrite <-H3. by apply (Hu (cert_id c) c Hc).
Defined.

Lemma added_certificate_readable_witness :
  adding "secret" k_start = (Ok k_added, k_done) /\
  certificate_material (RefStr (uuid_str (cert_id k_added))) k_master k_done =
  (Ok (MkCertificateMaterial "PKCS12 bytes" "secret" "f00d" "11222333000181"), k_done).
Proof.
  assert (Hadd : adding "secret" k_start = (Ok k_added, k_done)) by (apply (ran (adding "secret" k_start) (Ok k_added)); vm_compute; reflexivity).
  split; [exact Hadd|].
  assert (Hm : certificate_material (RefStr (uuid_str (cert_id k_added))) k_master k_done =
    (Ok (MkCertificateMaterial "PKCS12 bytes" (encode_utf8 "secret") (cert_fingerprint_sha256 k_added) (cert_certificate_cnpj k_added)), k_done)).
  { apply (added_certificate_readable key_admin (uuid_str 3) k_entropy "PKCS12 bytes" "secret" "10.0.0.1" k_master None k_start k_added k_done);
      [exact k_start_inv|reflexivity|exact k_start_ok| |reflexivity|exact Hadd|vm_compute; reflexivity|vm_compute; reflexivity].
    intros i x. vm_compute. by destruct i. }
  rewrite Hm. vm_compute. reflexivity.
Defined.
