(* ===== verification/Collection.v ===== *)
(** * Collection requests (collection/services.py)

    A collection is requested for a company and a scope; each family gets an
    execution row and a durable job.  The job's handler, or the bridge from the
    ingestion port, reconciles the job's result into the execution and into the
    company's flow.  The scheduler turns the initial requests that certificates
    queued into collections.  That the requester is a row of the user table is not
    checked. *)

From Stdlib Require Import ZArith Ascii String Lia.
From stdpp Require Import base decidable list gmap strings.
From S2P Require Import Prelude PyStr PyVal Models AuditTrail Identity Companies JobPolicies JobEngine Artifacts Simulation Ingestion Certificates.

Local Open Scope string_scope.

(** ** Refusals: the class is told by its [code] *)

Definition InvalidCollectionScope (msg : string) : exn := CollectionError "invalid_scope" msg.
Definition CollectionAccessDenied (msg : string) : exn := CollectionError "access_denied" msg.
Definition CollectionCompanyInactive (msg : string) : exn := CollectionError "company_inactive" msg.
Definition CollectionFlowPaused (msg : string) : exn := CollectionError "flow_paused" msg.
Definition CollectionCertificateUnavailable (msg : string) : exn := CollectionError "certificate_unavailable" msg.
Definition CollectionPolicyUnavailable (msg : string) : exn := CollectionError "policy_unavailable" msg.
Definition CollectionCooldown (msg : string) : exn := CollectionError "cooldown_active" msg.
Definition CollectionBlocked (msg : string) : exn := CollectionError "collection_blocked" msg.
Definition CollectionRetryNotEligible (msg : string) : exn := CollectionError "retry_not_eligible" msg.

(** ** Executions *)

Definition ACTIVE_COLLECTION_STATES : list CollectionExecutionState.t :=
  [CollectionExecutionState.QUEUED; CollectionExecutionState.RUNNING; CollectionExecutionState.RETRYING;
   CollectionExecutionState.COOLDOWN; CollectionExecutionState.PARTIAL].

Definition is_active (e : CollectionExecution) : bool := bool_decide (ex_state e ∈ ACTIVE_COLLECTION_STATES).

(** The states [reconcile_collection_job] and the handler leave alone. *)
Definition is_settled (e : CollectionExecution) : bool :=
  match ex_state e with
  | CollectionExecutionState.CONCLUDED | CollectionExecutionState.EMPTY
  | CollectionExecutionState.BLOCKED | CollectionExecutionState.FAILED => true
  | _ => false
  end.

Definition same_flow (company : N) (family : FlowFamily.t) (e : CollectionExecution) : bool :=
  N.eqb (ex_company e) company && bool_decide (ex_family e = family).

Definition of_job (job : N) (e : CollectionExecution) : bool :=
  match ex_job e with Some j => N.eqb j job | None => false end.

(** The partial unique constraint on active executions, and the one-to-one job. *)
Definition execution_conflict (e : CollectionExecution) (d : DB) : bool :=
  exists_row (fun x => negb (N.eqb (ex_id x) (ex_id e)) &&
    (is_active e && is_active x && same_flow (ex_company e) (ex_family e) x ||
     match ex_job e with Some j => of_job j x | None => false end)) (executions d).

(** [^[A-Za-z0-9_.:/-]{1,128}$] *)
Definition correlation_check (s : string) : bool := re_rep adn_char 1 128 s.

Definition _families (scope : CollectionScope.t) : list FlowFamily.t :=
  match scope with
  | CollectionScope.COMPLETE => [FlowFamily.NFE; FlowFamily.NFSE]
  | CollectionScope.NFE => [FlowFamily.NFE]
  | CollectionScope.NFSE => [FlowFamily.NFSE]
  end.

Definition family_names (families : list FlowFamily.t) : string := join "," (map FlowFamily.value families).

Definition new_execution (id : N) (now : Z) (company : N) (family : FlowFamily.t) (scope : CollectionScope.t)
    (origin : CollectionOrigin.t) (requester : option string) (retry_of : option N) (policy : N) (correlation : string) :
    CollectionExecution :=
  MkCollectionExecution id company family scope origin requester retry_of None (Some policy)
    CollectionExecutionState.QUEUED IngestionOutcome.UNKNOWN IngestionRecovery.NONE correlation [] "" None None now now.

Record CollectionRequest : Type := MkCollectionRequest {
  cr_executions : list CollectionExecution; cr_duplicate : bool }.

Definition _now {B} (value : option datetime) : M B Z :=
  let* clock := timezone_now in
  match opt_default (Aware clock) value with
  | Aware t => ret t
  | Naive _ => throw (ValueError "now must be timezone-aware")
  end.

Definition _require_actor (origin : CollectionOrigin.t) (actor : option SessionIdentity) : result exn unit :=
  match origin, actor with
  | CollectionOrigin.AUTOMATIC, None => Ok tt
  | CollectionOrigin.AUTOMATIC, Some _ => Err (CollectionAccessDenied "automatic commands have no actor")
  | _, Some a =>
      if authorize (si_role a) Action.CONTROL_COLLECTIONS None (Some (si_user_id a)) then Ok tt
      else Err (CollectionAccessDenied "collection control access required")
  | _, None => Err (CollectionAccessDenied "collection control access required")
  end.

(** The fields of a flow once its execution is queued. *)
Definition flow_started (execution : N) (current now : Z) (f : CompanyFlow) : CompanyFlow :=
  f <| fl_active_execution := Some execution |>
    <| fl_collection_state := CollectionExecutionState.value CollectionExecutionState.QUEUED |>
    <| fl_last_attempt_at := Some current |> <| fl_next_scheduled_at := Some current |>
    <| fl_cooldown_until := None |> <| fl_safe_error := "" |> <| fl_blocked_reason := "" |> <| fl_updated_at := now |>.

Definition collection_job (e : CollectionExecution) (current : Z) (policy : JobPolicy) : Enqueue :=
  let company := uuid_str (ex_company e) in
  let family := FlowFamily.value (ex_family e) in
  MkEnqueue "collection.synthetic" ("company:" ++ company ++ ":flow:" ++ family)
    [("execution_id", VStr (uuid_str (ex_id e))); ("company_id", VStr company); ("family", VStr family);
     ("scope", VStr (CollectionScope.value (ex_requested_scope e)));
     ("origin", VStr (CollectionOrigin.value (ex_origin e))); ("outcome", VStr "valid_empty")]
    ("collection:" ++ uuid_str (ex_id e)) 0 (Some (Aware current)) (Some policy) None None.

(** ** Requesting *)

Section request.
Context {B : Type}.

Definition _audit (result : string) (company_id : string) (family : string) (actor : option SessionIdentity)
    (ip_address : string) (origin : CollectionOrigin.t) (reason correlation_id entity_id : string) : M B unit :=
  audit (MkAuditInput "collection.request" "collection_execution" result
           (option_map (fun a => RefStr (si_user_id a)) actor)
           (match actor with Some a => si_role a | None => "system" end) (Some ip_address)
           (str_or entity_id company_id) reason correlation_id
           [("company_id", VStr company_id); ("family", VStr family); ("origin", VStr (CollectionOrigin.value origin))]).

(** [order_by("-activated_at")]: the current certificate last activated, nulls first. *)
Definition activated_le (a b : Certificate) : bool :=
  match cert_activated_at a, cert_activated_at b with
  | Some x, Some y => Z.leb y x
  | None, _ => true
  | Some _, None => false
  end.

Definition _current_certificate (company : N) (now : Z) : M B Certificate :=
  let* row := query (fun d => first_by activated_le (select (current_of company) (certificates d))) in
  match row with
  | Some c => if usable c now then ret c else throw (CollectionCertificateUnavailable "certificate_unavailable")
  | None => throw (CollectionCertificateUnavailable "certificate_unavailable")
  end.

(** The execution a flow points to while it is active; a stale pointer is cleared
    in the row and in the object at hand. *)
Definition _active_execution (flow : CompanyFlow) : M B (option CollectionExecution * CompanyFlow) :=
  match fl_active_execution flow with
  | None => ret (None, flow)
  | Some id =>
      let* row := query (fun d => executions d !! id) in
      match row with
      | Some e =>
          if is_active e then ret (Some e, flow)
          else
            let* now := timezone_now in
            let flow := flow <| fl_active_execution := None |> <| fl_updated_at := now |> in
            save_flow flow ;;; ret (None, flow)
      | None =>
          let* now := timezone_now in
          let flow := flow <| fl_active_execution := None |> <| fl_updated_at := now |> in
          save_flow flow ;;; ret (None, flow)
      end
  end.

(** The flow of each family, as far as there is one: it is unique. *)
Definition find_flows (company : N) (families : list FlowFamily.t) (d : DB) : list CompanyFlow :=
  omap (fun family => hd_error (select (flow_of company family) (flows d))) families.

Fixpoint active_executions (fs : list CompanyFlow) : M B (list CollectionExecution * list CompanyFlow) :=
  match fs with
  | [] => ret ([], [])
  | flow :: rest =>
      let* '(active, flow) := _active_execution flow in
      let* '(existing, rest) := active_executions rest in
      ret (match active with Some e => e :: existing | None => existing end, flow :: rest)
  end.

Definition flow_policy (current : Z) (flow : CompanyFlow) : M B JobPolicy :=
  require (bool_decide (fl_state flow = FlowState.ENABLED)) (CollectionFlowPaused "flow_paused") ;;;
  require (negb (String.eqb (fl_collection_state flow) (CollectionExecutionState.value CollectionExecutionState.BLOCKED)))
    (CollectionBlocked (str_or (fl_blocked_reason flow) "collection_blocked")) ;;;
  require (match fl_cooldown_until flow with Some t => Z.leb t current | None => true end)
    (CollectionCooldown "cooldown_active") ;;;
  try_except (select_policy "synthetic" (FlowFamily.value (fl_family flow)) (Aware current))
    (fun e => match e with
              | PolicyNotFound => throw (CollectionPolicyUnavailable "policy_unavailable")
              | _ => throw e
              end).

Fixpoint flow_policies (current : Z) (fs : list CompanyFlow) : M B (list (CompanyFlow * JobPolicy)) :=
  match fs with
  | [] => ret []
  | flow :: rest =>
      let* policy := flow_policy current flow in
      let* rest := flow_policies current rest in
      ret ((flow, policy) :: rest)
  end.

(** The execution to retry: failed or partial, of a requested family. *)
Definition retry_target (origin : CollectionOrigin.t) (company : N) (families : list FlowFamily.t)
    (retry_execution_id : option uuid_ref) : M B (option CollectionExecution) :=
  if negb (bool_decide (origin = CollectionOrigin.RETRY)) then ret None else
  match retry_execution_id with
  | None => throw (CollectionRetryNotEligible "retry_reference_required")
  | Some ref =>
      let* id := of_option (uuid_of ref) ValidationError in
      let* row := query (fun d => executions d !! id) in
      match row with
      | Some e =>
          if N.eqb (ex_company e) company && bool_decide (ex_family e ∈ families) &&
             bool_decide (ex_state e ∈ [CollectionExecutionState.FAILED; CollectionExecutionState.PARTIAL])
          then ret (Some e) else throw (CollectionRetryNotEligible "retry_not_eligible")
      | None => throw (CollectionRetryNotEligible "retry_not_eligible")
      end
  end.

Definition save_execution (e : CollectionExecution) : M B unit :=
  let* taken := query (execution_conflict e) in
  require (negb taken && correlation_check (ex_correlation_id e)) IntegrityError ;;;
  write (fun d => d <| executions ::= put (ex_id e) e |>).

(** One family: the execution, its job, the flow. *)
Definition start_execution (company : N) (scope : CollectionScope.t) (origin : CollectionOrigin.t)
    (actor : option SessionIdentity) (retry_of : option CollectionExecution) (correlation : string) (current : Z)
    (flow : CompanyFlow) (policy : JobPolicy) : M B CollectionExecution :=
  let family := fl_family flow in
  require (match actor with Some a => is_some (parse_uuid (si_user_id a)) | None => true end) ValidationError ;;;
  let* id := uuid4 in
  let* now := timezone_now in
  let retried := match retry_of with
                 | Some r => if decide (ex_family r = family) then Some (ex_id r) else None
                 | None => None
                 end in
  let execution := new_execution id now company family scope origin (option_map si_user_id actor) retried
                     (pol_id policy) correlation in
  save_execution execution ;;;
  let* job := enqueue (collection_job execution current policy) in
  let execution := execution <| ex_job := Some (job_id job) |> <| ex_updated_at := now |> in
  save_execution execution ;;;
  save_flow (flow_started id current now flow) ;;;
  ret execution.

Fixpoint start_executions (company : N) (scope : CollectionScope.t) (origin : CollectionOrigin.t)
    (actor : option SessionIdentity) (retry_of : option CollectionExecution) (correlation : string) (current : Z)
    (fs : list (CompanyFlow * JobPolicy)) : M B (list CollectionExecution) :=
  match fs with
  | [] => ret []
  | (flow, policy) :: rest =>
      let* e := start_execution company scope origin actor retry_of correlation current flow policy in
      let* rest := start_executions company scope origin actor retry_of correlation current rest in
      ret (e :: rest)
  end.

Definition request_result (origin : CollectionOrigin.t) : string :=
  if bool_decide (origin = CollectionOrigin.RETRY) then "retry" else "requested".

(** The transaction of [request_collection]. *)
Definition request_in_transaction (company_id : uuid_ref) (scope : CollectionScope.t) (origin : CollectionOrigin.t)
    (actor : option SessionIdentity) (ip_address correlation : string) (current : Z)
    (retry_execution_id : option uuid_ref) : M B CollectionRequest :=
  let families := _families scope in
  let* id := of_option (uuid_of company_id) ValidationError in
  let* row := query (fun d => companies d !! id) in
  let* company := of_option row (CollectionCompanyInactive "company_not_found") in
  require (bool_decide (co_status company = CompanyStatus.ACTIVE)) (CollectionCompanyInactive "company_inactive") ;;;
  _current_certificate (co_id company) current ;;;
  let* fs := query (find_flows (co_id company) families) in
  require (Nat.eqb (length fs) (length families)) (CollectionFlowPaused "flow_unavailable") ;;;
  let* '(existing, fs) := active_executions fs in
  match existing with
  | _ :: _ =>
      _audit "duplicate" (uuid_str (co_id company)) (family_names families) actor ip_address origin "active_execution"
        correlation "" ;;;
      ret (MkCollectionRequest existing true)
  | [] =>
      let* fs := flow_policies current fs in
      let* retry_of := retry_target origin (co_id company) families retry_execution_id in
      let* created := start_executions (co_id company) scope origin actor retry_of correlation current fs in
      _audit (request_result origin) (uuid_str (co_id company)) (family_names families) actor ip_address origin ""
        correlation (match created with e :: _ => uuid_str (ex_id e) | [] => "" end) ;;;
      ret (MkCollectionRequest created false)
  end.

Definition request_collection (company_id : uuid_ref) (scope origin : string) (actor : option SessionIdentity)
    (ip_address : string) (now : option datetime) (retry_execution_id : option uuid_ref) : M B CollectionRequest :=
  let* selected_scope := of_option (CollectionScope.of_value scope) (InvalidCollectionScope "scope is invalid") in
  let* selected_origin := of_option (CollectionOrigin.of_value origin) (ValueError "origin") in
  lift_result (_require_actor selected_origin actor) ;;;
  let* current := _now now in
  let families := _families selected_scope in
  let* u := uuid4 in
  let correlation := "collection:" ++ uuid_str u in
  let rejected reason := _audit "rejected" (ref_str company_id) (family_names families) actor ip_address selected_origin
                           reason correlation "" in
  try_except
    (atomic (request_in_transaction company_id selected_scope selected_origin actor ip_address correlation current
               retry_execution_id))
    (fun e => match e with
              | CollectionError code _ => rejected code ;;; throw e
              | IntegrityError => rejected "concurrent_request" ;;; throw (CollectionError "collection_error" "concurrent_request")
              | _ => throw e
              end).

End request.

(** ** Reconciling a job's result *)

Definition SUMMARY_KEYS : list string :=
  ["query_valid"; "unit_count"; "coverage"; "next_cursor"; "next_nsu"; "ingestion_outcome"; "ingestion_recovery";
   "ingestion_reason"].

Definition is_scalar (v : pyval) : bool := match v with VBool _ | VInt _ | VStr _ => true | _ => false end.

Definition _safe_summary (result : pydict) : pydict :=
  omap (fun key => match assoc key result with
                   | Some v => if is_scalar v then Some (key, v) else None
                   | None => None
                   end) SUMMARY_KEYS.

(** [summary.get("unit_count", 0) == 0] *)
Definition no_units (summary : pydict) : bool :=
  match assoc "unit_count" summary with
  | None | Some (VInt 0) | Some (VBool false) => true
  | _ => false
  end.

(** [summary.get("query_valid") is True] *)
Definition query_valid (summary : pydict) : bool :=
  match assoc "query_valid" summary with Some (VBool true) => true | _ => false end.

(** The text of a summary value, where an enumeration may hold it: no number or
    boolean prints as one of its members. *)
Definition summary_text (key : string) (summary : pydict) : option string :=
  match assoc key summary with Some (VStr s) => Some s | _ => None end.

Definition reconciled_outcome (kind : option JobOutcomeKind.t) (summary : pydict) : IngestionOutcome.t :=
  match summary_text "ingestion_outcome" summary ≫= IngestionOutcome.of_value with
  | Some o => o
  | None =>
      match kind with
      | Some JobOutcomeKind.SUCCESS => if no_units summary then IngestionOutcome.VALID_EMPTY else IngestionOutcome.SUCCESS
      | Some JobOutcomeKind.PARTIAL => IngestionOutcome.PARTIAL
      | Some JobOutcomeKind.COOLDOWN => IngestionOutcome.COOLDOWN
      | Some JobOutcomeKind.PERMANENT => IngestionOutcome.PERMANENT_FAILURE
      | _ => IngestionOutcome.TEMPORARY_FAILURE
      end
  end.

Definition reconciled_recovery (kind : option JobOutcomeKind.t) (summary : pydict) : IngestionRecovery.t :=
  match summary_text "ingestion_recovery" summary ≫= IngestionRecovery.of_value with
  | Some r => r
  | None =>
      match kind with
      | Some JobOutcomeKind.COOLDOWN => IngestionRecovery.COOLDOWN
      | Some JobOutcomeKind.PERMANENT => IngestionRecovery.BLOCKED
      | Some JobOutcomeKind.PARTIAL | Some JobOutcomeKind.TEMPORARY => IngestionRecovery.RETRY
      | _ => IngestionRecovery.NONE
      end
  end.

(** The branches: the state, the error code, and whether the execution ends. *)
Definition verdict (kind : option JobOutcomeKind.t) (summary : pydict) (exhausted : bool) :
    CollectionExecutionState.t * string * bool :=
  match kind with
  | Some JobOutcomeKind.SUCCESS =>
      (if query_valid summary && no_units summary then CollectionExecutionState.EMPTY else CollectionExecutionState.CONCLUDED,
       "", true)
  | Some JobOutcomeKind.COOLDOWN =>
      if exhausted then (CollectionExecutionState.BLOCKED, "retry_exhausted", true)
      else (CollectionExecutionState.COOLDOWN, "official_cooldown", false)
  | Some JobOutcomeKind.PERMANENT => (CollectionExecutionState.BLOCKED, "permanent_failure", true)
  | Some JobOutcomeKind.PARTIAL =>
      if exhausted then (CollectionExecutionState.BLOCKED, "retry_exhausted", true)
      else (CollectionExecutionState.PARTIAL, "partial_result", false)
  | _ =>
      if exhausted then (CollectionExecutionState.BLOCKED, "retry_exhausted", true)
      else (CollectionExecutionState.RETRYING, "temporary_failure", false)
  end.

Definition reconciled_execution (kind : option JobOutcomeKind.t) (summary : pydict) (exhausted : bool) (current now : Z)
    (e : CollectionExecution) : CollectionExecution :=
  let '(state, safe_error, terminal) := verdict kind summary exhausted in
  e <| ex_safe_summary := summary |> <| ex_safe_error := safe_error |>
    <| ex_outcome := reconciled_outcome kind summary |> <| ex_recovery := reconciled_recovery kind summary |>
    <| ex_started_at := Some (opt_default current (ex_started_at e)) |> <| ex_state := state |>
    <| ex_finished_at := if terminal then Some current else ex_finished_at e |> <| ex_updated_at := now |>.

Definition reconciled_flow (kind : option JobOutcomeKind.t) (summary : pydict) (exhausted : bool) (current now : Z)
    (f : CompanyFlow) : CompanyFlow :=
  let '(state, safe_error, terminal) := verdict kind summary exhausted in
  let f := f <| fl_last_attempt_at := Some (opt_default current (fl_last_attempt_at f)) |>
             <| fl_collection_state := CollectionExecutionState.value state |> <| fl_safe_error := safe_error |>
             <| fl_active_execution := if terminal then None else fl_active_execution f |> <| fl_updated_at := now |> in
  match state with
  | CollectionExecutionState.EMPTY | CollectionExecutionState.CONCLUDED =>
      f <| fl_last_success_at := Some current |> <| fl_next_scheduled_at := None |> <| fl_cooldown_until := None |>
        <| fl_blocked_reason := "" |>
  | CollectionExecutionState.BLOCKED => f <| fl_blocked_reason := safe_error |>
  | CollectionExecutionState.COOLDOWN =>
      f <| fl_cooldown_until := Some (current + seconds 3600)%Z |> <| fl_next_scheduled_at := Some (current + seconds 3600)%Z |>
  | _ => f
  end.

(** [exhausted]: the attempts exceed what the policy of the execution allows. *)
Definition attempts_exhausted (j : Job) (e : CollectionExecution) (d : DB) : bool :=
  match ex_effective_policy e ≫= fun p => policies d !! p with
  | Some p => Z.ltb (pol_retry_limit p) (job_attempt_count j)
  | None => false
  end.

Section reconcile.
Context {B : Type}.

(** [CollectionExecution.objects.get(job=job)] *)
Definition get_execution (job : N) : M B CollectionExecution :=
  let* found := query (fun d => select (of_job job) (executions d)) in
  match found with
  | [e] => ret e
  | [] => throw DoesNotExist
  | _ => throw MultipleObjectsReturned
  end.

Definition reconcile_collection_job (job : Job) (outcome : string) (result : option pydict) (now : option datetime) :
    M B CollectionExecution :=
  let* current := _now now in
  let summary := _safe_summary (opt_default [] result) in
  atomic (
    let* execution := get_execution (job_id job) in
    let* flow := get_flow (ex_company execution) (ex_family execution) in
    if is_settled execution then ret execution
    else
      let kind := JobOutcomeKind.of_value outcome in
      let* exhausted := query (attempts_exhausted job execution) in
      let* now := timezone_now in
      let execution := reconciled_execution kind summary exhausted current now execution in
      save_execution execution ;;;
      save_flow (reconciled_flow kind summary exhausted current now flow) ;;;
      ret execution).

(** [str(job.payload.get("outcome", "valid_empty"))]; only texts are told apart. *)
Definition payload_outcome (payload : pyval) : M B string :=
  match payload with
  | VDict d => ret (match assoc "outcome" d with
                    | None => "valid_empty"
                    | Some (VStr s) => s
                    | Some _ => ""
                    end)
  | _ => throw TypeError
  end.

(** The synthetic result a payload asks for. *)
Definition classified_outcome (outcome : string) (now : Z) : HandlerOutcome :=
  if String.eqb outcome "blocked" then outcome_permanent "permanent_failure" []
  else if String.eqb outcome "cooldown" then outcome_cooldown (Some (Aware (now + seconds 3600)%Z)) "official_cooldown" []
  else if str_in outcome ["temporary"; "failed"] then outcome_temporary "temporary_failure" []
  else if String.eqb outcome "partial" then outcome_partial "partial_result" [("unit_count", VInt 1)]
  else outcome_success [("query_valid", VBool true); ("unit_count", VInt 0); ("coverage", VStr "available")].

Definition collection_handler : handler B := fun job =>
  let* execution := autocommit (get_execution (job_id job)) in
  if is_settled execution then ret (Outcome (outcome_success (ex_safe_summary execution)))
  else
    let* outcome := payload_outcome (job_payload job) in
    let* now := timezone_now in
    let classified := classified_outcome outcome now in
    reconcile_collection_job job (ho_kind classified) (Some (ho_result classified)) None ;;;
    ret (Outcome classified).

Definition ensure_collection_handler (r : registry B) : result exn (registry B) :=
  register_handler "collection.synthetic" collection_handler r.

(** ** The initial requests of new certificates *)

(** The refusals that leave a request in the queue. *)
Definition keeps_waiting (code : string) : bool := str_in code ["policy_unavailable"; "cooldown_active"; "flow_paused"].

Definition settle_request (id : N) (state : InitialCollectionRequestState.t) (safe_error : string) (current : Z) : M B unit :=
  autocommit (write (fun d => d <| initial_requests ::= update_where (fun r => N.eqb (icr_id r) id)
    (fun r => r <| icr_state := state |> <| icr_safe_error := safe_error |> <| icr_processed_at := Some current |>) |>)).

Definition queued_request (r : InitialCollectionRequest) : bool :=
  bool_decide (icr_state r = InitialCollectionRequestState.QUEUED).

Definition queued_requests (d : DB) : list InitialCollectionRequest :=
  take 100 (sort_by (by_key icr_created_at) (select queued_request (initial_requests d))).

(** What came of one request: kept, blocked under a code, or consumed. *)
Inductive handoff_result : Type := Kept | Refused (code : string) | Consumed (request : CollectionRequest).

Definition process_handoff (current : Z) (handoff : InitialCollectionRequest) : M B bool :=
  let* result :=
    try_except
      (let* r := request_collection (RefUuid (icr_company handoff)) (CollectionScope.value CollectionScope.COMPLETE)
                   (CollectionOrigin.value CollectionOrigin.AUTOMATIC) None "" (Some (Aware current)) None in
       ret (Consumed r))
      (fun e => match e with
                | CollectionError code _ => ret (if keeps_waiting code then Kept else Refused code)
                | _ => throw e
                end) in
  match result with
  | Kept => ret false
  | Refused code => settle_request (icr_id handoff) InitialCollectionRequestState.BLOCKED code current ;;; ret false
  | Consumed r =>
      settle_request (icr_id handoff) InitialCollectionRequestState.CONSUMED "" current ;;;
      ret (negb (cr_duplicate r))
  end.

Definition process_initial_collection_requests (now : option datetime) : M B nat :=
  let* current := _now now in
  let* handoffs := autocommit (query queued_requests) in
  fold_each handoffs (fun processed handoff =>
    let* started := process_handoff current handoff in
    ret (if started then S processed else processed)) 0%nat.

End reconcile.

#[global] Arguments save_execution : simpl never.
#[global] Arguments start_execution : simpl never.
#[global] Arguments request_in_transaction : simpl never.
#[global] Arguments request_collection : simpl never.
#[global] Arguments reconcile_collection_job : simpl never.
#[global] Arguments process_handoff : simpl never.

(** ** From the ingestion port (collection/ingestion.py) *)

Definition job_outcome_of (o : IngestionOutcome.t) : JobOutcomeKind.t :=
  match o with
  | IngestionOutcome.SUCCESS | IngestionOutcome.VALID_EMPTY => JobOutcomeKind.SUCCESS
  | IngestionOutcome.COOLDOWN => JobOutcomeKind.COOLDOWN
  | IngestionOutcome.PERMANENT_FAILURE => JobOutcomeKind.PERMANENT
  | IngestionOutcome.PARTIAL => JobOutcomeKind.PARTIAL
  | _ => JobOutcomeKind.TEMPORARY
  end.

Definition opt_str (o : option string) : pyval := match o with Some s => VStr s | None => VNone end.

Definition execution_context (e : CollectionExecution) (flow source : string) (request_cursor request_nsu : option string) :
    IngestionContext :=
  MkIngestionContext (RefUuid (ex_company e)) (match ex_family e with FlowFamily.NFE => "nfe" | _ => "adn" end) flow source
    ("execution:" ++ uuid_str (ex_id e)) (ex_correlation_id e) request_cursor request_nsu (Some (RefUuid (ex_id e))) None None.

Definition ingestion_summary (result : IngestionResult) (response : FiscalResponse) : pydict :=
  [("query_valid", VBool true); ("unit_count", VInt (Z.of_nat (length (ir_unit_states result))));
   ("next_cursor", opt_str (ir_next_cursor result)); ("next_nsu", opt_str (ir_next_nsu result));
   ("coverage", VStr (Coverage.value (fr_coverage response)));
   ("ingestion_outcome", VStr (IngestionOutcome.value (ir_outcome result)));
   ("ingestion_recovery", VStr (IngestionRecovery.value (ir_recovery result)));
   ("ingestion_reason", VStr (ir_safe_reason result))].

Definition ingest_collection_response {B} `{!External B} `{!ObjectStore B} (maximum_size : Z)
    (payload_factory : PayloadFactory) (metadata_factory : DocumentMetadataFactory) (execution : CollectionExecution)
    (response : FiscalResponse) (flow source : string) (request_cursor request_nsu : option string) : M B IngestionResult :=
  let* result := ingest maximum_size payload_factory metadata_factory
                   (execution_context execution flow source request_cursor request_nsu) response in
  match ex_job execution with
  | None => ret result
  | Some id =>
      let* row := autocommit (query (fun d => jobs d !! id)) in
      let* job := of_option row DoesNotExist in
      reconcile_collection_job job (JobOutcomeKind.value (job_outcome_of (ir_outcome result)))
        (Some (ingestion_summary result response)) None ;;;
      ret result
  end.

(** ** The dashboard's list *)

Definition COLLECTION_DASHBOARD_STATE_FILTERS : list (string * option CollectionExecutionState.t) :=
  [("recent", None); ("running", Some CollectionExecutionState.RUNNING); ("failed", Some CollectionExecutionState.FAILED);
   ("blocked", Some CollectionExecutionState.BLOCKED); ("partial", Some CollectionExecutionState.PARTIAL)].

Definition COLLECTION_EXECUTION_QUERY_KEYS : list string := ["from"; "to"; "state"].
Definition MAX_COLLECTION_EXECUTION_QUERY_DAYS : Z := 366.
Definition MAX_COLLECTION_EXECUTION_QUERY_ROWS : nat := 50.
Definition _SAFE_EXECUTION_ERRORS : list string :=
  ["official_cooldown"; "partial_result"; "permanent_failure"; "retry_exhausted"; "temporary_failure"].

(** [CollectionExecutionFilter]: dates are day numbers. *)
Record CollectionExecutionFilter : Type := MkCollectionExecutionFilter {
  cef_start : Z; cef_end : Z; cef_state : string; cef_model_state : option CollectionExecutionState.t }.

Definition boundary : string := "[from,to)".

Definition query_error {A} (msg : string) : result exn A := Err (CollectionExecutionQueryError msg).

Definition _query_value (q : Query) (key : string) : result exn pyval :=
  match q with
  | QueryDict p => match opt_default [] (assoc key p) with
                   | [] => Ok VNone
                   | [v] => Ok v
                   | _ => query_error "query parameter is repeated"
                   end
  | PlainDict p => Ok (opt_default VNone (assoc key p))
  end.

Definition _query_date (q : Query) (key : string) : result exn Z :=
  check* value := _query_value q key in
  match value with
  | VStr (String _ _ as s) =>
      match date_fromisoformat s with Some d => Ok d | None => query_error "query date is invalid" end
  | _ => query_error "query date is required"
  end.

Definition normalize_collection_execution_filter (q : Query) : result exn CollectionExecutionFilter :=
  if negb (forallb (fun k => str_in k COLLECTION_EXECUTION_QUERY_KEYS) (query_keys q))
  then query_error "unsupported query parameter"
  else
    check* start := _query_date q "from" in
    check* end_ := _query_date q "to" in
    check* state := _query_value q "state" in
    match state with
    | VStr s =>
        match assoc s COLLECTION_DASHBOARD_STATE_FILTERS with
        | None => query_error "execution state is invalid"
        | Some model_state =>
            if Z.ltb (end_ - start) 1 || Z.ltb MAX_COLLECTION_EXECUTION_QUERY_DAYS (end_ - start)
            then query_error "query period is outside the allowed range"
            else Ok (MkCollectionExecutionFilter start end_ s model_state)
        end
    | _ => query_error "execution state is invalid"
    end.

Definition _safe_execution_error (value : string) : string := if str_in value _SAFE_EXECUTION_ERRORS then value else "".

Definition opt_isoformat (o : option Z) : pyval := match o with Some t => VStr (isoformat t) | None => VNone end.

Definition collection_execution_summary (e : CollectionExecution) (company_name : string) : pyval :=
  VDict
    [("id", VStr (uuid_str (ex_id e))); ("company_id", VStr (uuid_str (ex_company e)));
     ("company_name", VStr company_name); ("family", VStr (FlowFamily.value (ex_family e)));
     ("requested_scope", VStr (CollectionScope.value (ex_requested_scope e)));
     ("state", VStr (CollectionExecutionState.value (ex_state e))); ("outcome", VStr (IngestionOutcome.value (ex_outcome e)));
     ("recovery", VStr (IngestionRecovery.value (ex_recovery e)));
     ("safe_error", VStr (_safe_execution_error (ex_safe_error e))); ("created_at", VStr (isoformat (ex_created_at e)));
     ("started_at", opt_isoformat (ex_started_at e)); ("finished_at", opt_isoformat (ex_finished_at e))].

(** The later creation first, then the greater identifier. *)
Definition newest_first (a b : CollectionExecution) : bool :=
  if Z.eqb (ex_created_at a) (ex_created_at b) then N.leb (ex_id b) (ex_id a) else Z.ltb (ex_created_at b) (ex_created_at a).

(** [midnight] is the instant a civil day begins in the current time zone. *)
Section listing.
Context (midnight : Z -> Z).

Definition _collection_execution_bounds (start end_ : Z) : Z * Z := (midnight start, midnight end_).

Definition execution_matches (start end_ : Z) (model_state : option CollectionExecutionState.t) (e : CollectionExecution) : bool :=
  let '(start_at, end_at) := _collection_execution_bounds start end_ in
  Z.leb start_at (ex_created_at e) && Z.ltb (ex_created_at e) end_at &&
  match model_state with Some s => bool_decide (ex_state e = s) | None => true end.

Definition collection_execution_queryset (start end_ : Z) (state : option string) (d : DB) :
    result exn (list CollectionExecution) :=
  match state with
  | None => Ok (select (execution_matches start end_ None) (executions d))
  | Some s =>
      match assoc s COLLECTION_DASHBOARD_STATE_FILTERS with
      | Some model_state => Ok (select (execution_matches start end_ model_state) (executions d))
      | None => query_error "execution state is invalid"
      end
  end.

Definition company_name (d : DB) (e : CollectionExecution) : string :=
  match companies d !! ex_company e with Some c => co_legal_name c | None => "" end.

Definition list_collection_execution_summaries (f : CollectionExecutionFilter) (d : DB) : result exn pyval :=
  check* queryset := collection_execution_queryset (cef_start f) (cef_end f) (Some (cef_state f)) d in
  let rows := take (S MAX_COLLECTION_EXECUTION_QUERY_ROWS) (sort_by newest_first queryset) in
  Ok (VDict
    [("read_only", VBool true);
     ("filter", VDict [("from", VStr (date_isoformat (cef_start f))); ("to", VStr (date_isoformat (cef_end f)));
                       ("state", VStr (cef_state f))]);
     ("boundary", VStr boundary); ("total", VInt (Z.of_nat (length queryset)));
     ("limit", VInt (Z.of_nat MAX_COLLECTION_EXECUTION_QUERY_ROWS));
     ("truncated", VBool (Nat.ltb MAX_COLLECTION_EXECUTION_QUERY_ROWS (length rows)));
     ("executions", VList (map (fun e => collection_execution_summary e (company_name d e))
                             (take MAX_COLLECTION_EXECUTION_QUERY_ROWS rows)))]).

End listing.
