(* ===== verification/CollectionFacts.v ===== *)
(** * The tables of collection requests

    The invariant of executions and flows - one active execution per company and
    family, told to its flow - and how each kind of write keeps it; the life cycle
    an execution follows; and what starting the executions of a request leaves. *)

From Stdlib Require Import ZArith Ascii String Lia.
From stdpp Require Import base decidable list gmap strings relations.
From S2P Require Import Prelude PyStr PyVal Models AuditTrail Identity Companies CompanyFacts JobPolicies JobEngine JobLifecycle JobGuarantees Tables Certificates Collection.

Local Open Scope string_scope.

(** ** The tables of executions and flows *)

Definition ex_scope (e : CollectionExecution) : N * FlowFamily.t := (ex_company e, ex_family e).

(** Executions under their own keys, at most one active per company and family,
    jobs not shared; every active execution is the one its flow points to,
    and a flow points to executions of its own scope only; no execution is ever running or failed. *)
Record collection_ok (n : N) (d : DB) : Prop := {
  col_executions : keyed ex_id ex_id n (executions d);
  col_flows : keyed fl_id fl_scope n (flows d);
  col_active : forall i j e x, executions d !! i = Some e -> executions d !! j = Some x ->
    is_active e = true -> is_active x = true -> ex_scope e = ex_scope x -> i = j;
  col_jobs : forall i j e x k, executions d !! i = Some e -> executions d !! j = Some x ->
    ex_job e = Some k -> ex_job x = Some k -> i = j;
  col_pointed : forall j f i, flows d !! j = Some f -> fl_active_execution f = Some i -> (i < n)%N /\
    forall e, executions d !! i = Some e -> ex_scope e = fl_scope f;
  col_told : forall i e, executions d !! i = Some e -> is_active e = true ->
    exists j f, flows d !! j = Some f /\ fl_scope f = ex_scope e /\ fl_active_execution f = Some i;
  col_states : forall i e, executions d !! i = Some e ->
    ex_state e <> CollectionExecutionState.RUNNING /\ ex_state e <> CollectionExecutionState.FAILED /\
    correlation_check (ex_correlation_id e) = true }.

(** What one attempt may do to an execution: end it, once, or leave it waiting
    for another attempt.  Who asked for what never changes. *)
Definition same_request (e e' : CollectionExecution) : Prop :=
  ex_id e' = ex_id e /\ ex_scope e' = ex_scope e /\ ex_requested_scope e' = ex_requested_scope e /\
  ex_origin e' = ex_origin e /\ ex_requester e' = ex_requester e /\ ex_retry_of e' = ex_retry_of e /\
  ex_job e' = ex_job e /\ ex_effective_policy e' = ex_effective_policy e /\
  ex_correlation_id e' = ex_correlation_id e /\ ex_created_at e' = ex_created_at e.

Inductive execution_step (e e' : CollectionExecution) : Prop :=
| attempt_ends : is_active e = true -> same_request e e' -> is_some (ex_started_at e') = true ->
    ex_state e' ∈ [CollectionExecutionState.CONCLUDED; CollectionExecutionState.EMPTY; CollectionExecutionState.BLOCKED] ->
    is_some (ex_finished_at e') = true ->
    (ex_safe_error e' = "" <-> ex_state e' <> CollectionExecutionState.BLOCKED) -> execution_step e e'
| attempt_waits : is_active e = true -> same_request e e' -> is_some (ex_started_at e') = true ->
    ex_state e' ∈ [CollectionExecutionState.RETRYING; CollectionExecutionState.COOLDOWN; CollectionExecutionState.PARTIAL] ->
    ex_finished_at e' = ex_finished_at e -> ex_safe_error e' <> "" -> execution_step e e'.

(** The tables together: sound jobs, sound executions and flows. *)
Definition collection_inv {B} (w : World B) : Prop := job_inv w /\ collection_ok (next_uuid w) (db w).

(** Executions are never lost and move along their life cycle. *)
Definition moved_on (d d' : DB) : Prop :=
  forall i e, executions d !! i = Some e -> exists e', executions d' !! i = Some e' /\ rtc execution_step e e'.

(** What an operation may do to well-formed tables. *)
Definition collects {B} (w w' : World B) : Prop :=
  (next_uuid w <= next_uuid w')%N /\ clock w' = clock w /\ online w' = online w /\
  (collection_inv w -> collection_inv w' /\ moved_on (db w) (db w')).

#[export] Instance moved_on_preorder : PreOrder moved_on.
Proof.
  split; [intros d i e Hi; exists e; split; [done|reflexivity]|].
  intros d1 d2 d3 H12 H23 i e (e2 & Hi2 & Hr)%H12. apply H23 in Hi2 as (e3 & Hi3 & Hr3). exists e3. split; [done|]. by etrans.
Qed.

Lemma moved_on_same d d' : executions d' = executions d -> moved_on d d'.
Proof. intros He i e Hi. exists e. rewrite He. split; [done|reflexivity]. Qed.

Lemma settled_inactive e : is_settled e = negb (is_active e).
Proof. unfold is_settled, is_active. by destruct (ex_state e). Qed.

Lemma same_flow_scope company family e : same_flow company family e = true <-> ex_scope e = (company, family).
Proof.
  unfold same_flow, ex_scope. rewrite andb_true_iff, N.eqb_eq, bool_decide_eq_true. split; [by intros [-> ->]|by intros [= -> ->]].
Qed.

Lemma flow_of_scope company family f : flow_of company family f = true <-> fl_scope f = (company, family).
Proof.
  unfold flow_of, fl_scope. rewrite andb_true_iff, N.eqb_eq, bool_decide_eq_true. split; [by intros [-> ->]|by intros [= -> ->]].
Qed.

Lemma of_job_spec job e : of_job job e = true <-> ex_job e = Some job.
Proof. unfold of_job. destruct (ex_job e); [rewrite N.eqb_eq|]; split; congruence. Qed.

(** What an accepted execution does not collide with. *)
Lemma no_conflict e d :
  execution_conflict e d = false -> forall i x, executions d !! i = Some x -> ex_id x <> ex_id e ->
  (is_active e = true -> is_active x = true -> ex_scope x <> ex_scope e) /\
  (forall k, ex_job e = Some k -> ex_job x <> Some k).
Proof.
  intros Hc i x Hi Hne. unfold execution_conflict in Hc. rewrite exists_row_false in Hc. specialize (Hc i x Hi).
  apply N.eqb_neq in Hne. rewrite Hne in Hc. cbn [negb andb] in Hc. apply orb_false_iff in Hc as [H1 H2]. split.
  - intros He Hx Hs. rewrite He, Hx in H1. cbn [andb] in H1.
    assert (same_flow (ex_company e) (ex_family e) x = true) by (by apply same_flow_scope). congruence.
  - intros k Hk Hx. rewrite Hk in H2. assert (of_job k x = true) by (by apply of_job_spec). congruence.
Qed.

Section tables.
Implicit Types (d : DB) (e x : CollectionExecution) (f g : CompanyFlow).

Lemma collection_ok_mono n m d : (n <= m)%N -> collection_ok n d -> collection_ok m d.
Proof.
  intros Hnm [H1 H2 H3 H4 H7 H5 H6]. split; try first [done|by eapply keyed_mono].
  intros j f i Hj Hp. destruct (H7 j f i Hj Hp). split; [lia|done].
Qed.

Lemma collection_ok_same n d d' :
  executions d' = executions d -> flows d' = flows d -> collection_ok n d -> collection_ok n d'.
Proof. intros He Hf [H1 H2 H3 H4 H7 H5 H6]. split; rewrite ?He, ?Hf; done. Qed.

(** A flow may be changed within its scope, its pointer dropped where no execution
    is active. *)
Lemma collection_ok_flow n d f g :
  collection_ok n d -> flows d !! fl_id f = Some f -> fl_id g = fl_id f -> fl_scope g = fl_scope f ->
  fl_active_execution g = fl_active_execution f \/ fl_active_execution g = None /\
    (forall i e, executions d !! i = Some e -> is_active e = true -> ex_scope e = fl_scope f -> False) ->
  collection_ok n (d <| flows ::= put (fl_id g) g |>).
Proof.
  intros [H1 H2 H3 H4 H7 H5 H6] Hf Hid Hs Hp.
  split; cbn; [done|eapply keyed_same; [done|by rewrite Hid|done]|done|done| | |done].
  - intros j h i. unfold put. rewrite lookup_insert_Some. intros [[<- <-]|[_ Hj]]; [|by eapply H7]. rewrite Hs.
    intros Hi. apply (H7 _ _ i Hf). destruct Hp as [Hp|[Hp _]]; congruence.
  - intros i e Hi Ha. destruct (H5 i e Hi Ha) as (j & h & Hj & Hh & Hpi).
    destruct (decide (fl_id g = j)) as [<-|Hne]; [|exists j, h; split; [by unfold put; rewrite lookup_insert_ne|done]].
    rewrite Hid, Hf in Hj. injection Hj as <-. exists (fl_id g), g. unfold put. rewrite lookup_insert_eq.
    split; [done|]. split; [congruence|]. destruct Hp as [Hp|[_ Hnone]]; [congruence|]. by destruct (Hnone i e Hi Ha).
Qed.

(** An execution and its flow change together. *)
Lemma collection_ok_attempt n d i e e' f f' :
  collection_ok n d -> executions d !! i = Some e -> flows d !! fl_id f = Some f -> fl_scope f = ex_scope e ->
  is_active e = true -> ex_id e' = i -> ex_scope e' = ex_scope e -> ex_job e' = ex_job e ->
  ex_correlation_id e' = ex_correlation_id e -> ex_state e' <> CollectionExecutionState.RUNNING ->
  ex_state e' <> CollectionExecutionState.FAILED -> fl_id f' = fl_id f -> fl_scope f' = fl_scope f ->
  fl_active_execution f' = (if is_active e' then fl_active_execution f else None) ->
  collection_ok n (d <| executions ::= put (ex_id e') e' |> <| flows ::= put (fl_id f') f' |>).
Proof.
  intros [H1 H2 H3 H4 H7 H5 H6] Hi Hf Hfs Ha Hid Hs Hj Hc Hr Hfl Hid' Hs' Hact.
  assert (ex_id e = i) as Hei by (by destruct (proj1 H1 _ _ Hi)).
  assert (forall j x, put (ex_id e') e' (executions d) !! j = Some x ->
            j = i /\ x = e' \/ j <> i /\ executions d !! j = Some x) as Hcase.
  { intros j x. unfold put. rewrite Hid, lookup_insert_Some. intros [[<- <-]|[? ?]]; [by left|right; by split]. }
  assert (forall j x, executions d !! j = Some x -> is_active x = true -> ex_scope x = ex_scope e -> j = i) as Honly
    by (intros j x Hjx Hx Hsx; by apply (H3 _ _ _ _ Hjx Hi)).
  split; cbn.
  - rewrite Hid. rewrite <-Hei. rewrite <-Hei in Hi. assert (ex_id e' = ex_id e) as He' by congruence. rewrite <-He'.
    eapply keyed_same; [done|rewrite He'; exact Hi|done].
  - eapply keyed_same; [done|by rewrite Hid'|done].
  - intros j k x y [[-> ->]|[Hjn Hjx]]%Hcase [[-> ->]|[Hkn Hky]]%Hcase Hx Hy Hxy; [done| | |by eapply H3].
    + exfalso. apply Hkn, (Honly k y); congruence.
    + exfalso. apply Hjn, (Honly j x); congruence.
  - intros j k x y z [[-> ->]|[Hjn Hjx]]%Hcase [[-> ->]|[Hkn Hky]]%Hcase Hx Hy; [done| | |by eapply H4].
    + symmetry. eapply H4; [exact Hky|exact Hi|exact Hy|congruence].
    + eapply H4; [exact Hjx|exact Hi|exact Hx|congruence].
  - assert (forall h k, fl_active_execution h = Some k -> fl_scope h = fl_scope f -> (k < n)%N /\
      (forall x, executions d !! k = Some x -> ex_scope x = fl_scope f) ->
      (k < n)%N /\ (forall x, put (ex_id e') e' (executions d) !! k = Some x -> ex_scope x = fl_scope h)) as Hp.
    { intros h k Hk Hh [Hkn Hsc]. split; [done|]. rewrite Hh. intros x [[-> ->]|[_ Hkx]]%Hcase; [congruence|by apply Hsc]. }
    intros j h k. unfold put at 1. rewrite lookup_insert_Some. intros [[<- <-]|[_ Hjh]] Hk.
    + apply Hp; [done..|]. rewrite Hact in Hk. destruct (is_active e'); [by eapply H7|done].
    + destruct (H7 j h k Hjh Hk) as [Hkn Hsc]. split; [done|]. intros x [[-> ->]|[_ Hkx]]%Hcase; [rewrite Hs; by apply Hsc|by apply Hsc].
  - intros j x [[-> ->]|[Hjn Hjx]]%Hcase Hx.
    + destruct (H5 i e Hi Ha) as (k & g & Hk & Hg & Hp). exists (fl_id f'), f'. unfold put. rewrite lookup_insert_eq.
      split; [done|]. split; [congruence|]. rewrite Hact, Hx.
      assert (k = fl_id f) as -> by (eapply (proj2 H2); [exact Hk|exact Hf|congruence]). congruence.
    + destruct (H5 j x Hjx Hx) as (k & g & Hk & Hg & Hp). exists k, g. split; [|done]. unfold put. rewrite lookup_insert_ne; [done|].
      intros <-. apply Hjn, (Honly j x); [done..|]. rewrite Hid', Hf in Hk. congruence.
  - intros j x [[-> ->]|[Hjn Hjx]]%Hcase; [|by eapply H6]. split; [done|]. split; [done|]. rewrite Hc. by apply (H6 i e).
Qed.

(** A new active execution whose scope had none, told to its flow. *)
Lemma collection_ok_start n m d i e f f' :
  collection_ok n d -> (n <= i)%N -> (i < m)%N -> ex_id e = i -> flows d !! fl_id f = Some f -> fl_scope f = ex_scope e ->
  (forall j x, executions d !! j = Some x -> is_active x = true -> ex_scope x <> ex_scope e) ->
  (forall j x k, executions d !! j = Some x -> ex_job e = Some k -> ex_job x <> Some k) ->
  ex_state e = CollectionExecutionState.QUEUED -> correlation_check (ex_correlation_id e) = true ->
  fl_id f' = fl_id f -> fl_scope f' = fl_scope f -> fl_active_execution f' = Some i ->
  collection_ok m (d <| executions ::= put i e |> <| flows ::= put (fl_id f') f' |>).
Proof.
  intros [H1 H2 H3 H4 H7 H5 H6] Hni Him Hid Hf Hfs Hnone Hjobs Hst Hc Hid' Hs' Hact.
  assert (executions d !! i = None) as Hfresh.
  { destruct (executions d !! i) as [x|] eqn:Hx; [|done]. destruct (proj1 H1 _ _ Hx). lia. }
  assert (forall j x, put i e (executions d) !! j = Some x -> j = i /\ x = e \/ j <> i /\ executions d !! j = Some x) as Hcase.
  { intros j x. unfold put. rewrite lookup_insert_Some. intros [[<- <-]|[? ?]]; [by left|right; by split]. }
  split; cbn.
  - split.
    + intros j x [[-> ->]|[_ Hj]]%Hcase; [done|]. destruct (proj1 H1 _ _ Hj). split; [done|lia].
    + intros j k x y [[-> ->]|[Hjn Hj]]%Hcase [[-> ->]|[Hkn Hk]]%Hcase He; [done| | |by eapply (proj2 H1)].
      * destruct (proj1 H1 _ _ Hk). congruence.
      * destruct (proj1 H1 _ _ Hj). congruence.
  - eapply keyed_same; [by eapply keyed_mono; [|exact H2]; lia|by rewrite Hid'|done].
  - intros j k x y [[-> ->]|[Hjn Hj]]%Hcase [[-> ->]|[Hkn Hk]]%Hcase Hx Hy Hxy; [done| | |by eapply H3].
    + by destruct (Hnone _ _ Hk Hy).
    + by destruct (Hnone _ _ Hj Hx).
  - intros j k x y z [[-> ->]|[Hjn Hj]]%Hcase [[-> ->]|[Hkn Hk]]%Hcase Hx Hy; [done| | |by eapply H4].
    + by destruct (Hjobs _ _ _ Hk Hx).
    + by destruct (Hjobs _ _ _ Hj Hy).
  - intros j h k. unfold put at 1. rewrite lookup_insert_Some. intros [[<- <-]|[_ Hjh]] Hk.
    + assert (k = i) as -> by congruence. split; [done|]. intros x [[_ ->]|[? _]]%Hcase; [congruence|done].
    + destruct (H7 j h k Hjh Hk) as [Hkn Hsc]. split; [lia|]. intros x [[-> _]|[_ Hkx]]%Hcase; [lia|by apply Hsc].
  - intros j x [[-> ->]|[Hjn Hj]]%Hcase Hx.
    + exists (fl_id f'), f'. unfold put. rewrite lookup_insert_eq. split; [done|]. split; [congruence|done].
    + destruct (H5 j x Hj Hx) as (k & g & Hk & Hg & Hp). exists k, g. split; [|done]. unfold put. rewrite lookup_insert_ne; [done|].
      intros <-. apply (Hnone j x Hj Hx). rewrite Hid', Hf in Hk. congruence.
  - intros j x [[-> ->]|[Hjn Hj]]%Hcase; [|by eapply H6]. by rewrite Hst.
Qed.

(** Pointing to the same execution, nobody else's flow does. *)
Lemma told_flow n d i e f :
  collection_ok n d -> executions d !! i = Some e -> is_active e = true -> flows d !! fl_id f = Some f ->
  fl_scope f = ex_scope e -> fl_active_execution f = Some i.
Proof.
  intros Hok Hi Ha Hf Hs. destruct (col_told _ _ Hok i e Hi Ha) as (j & g & Hj & Hg & Hp).
  assert (j = fl_id f) as -> by (eapply (proj2 (col_flows _ _ Hok)); [exact Hj|exact Hf|congruence]). congruence.
Qed.
End tables.

(** ** Frames *)

Section frames.
Context {B : Type}.
Implicit Types w : World B.

Lemma keeps_audited {T} (f : DB -> T) a :
  (forall d d', audit_frame d d' -> f d' = f d) -> moves (keeps f) (audit (B:=B) a).
Proof.
  intros Hf. unfold audit. apply moves_bind; [apply _|by apply keeps_append|]. intros ?. by apply moves_pure; [apply _|].
Qed.

(** The job an enqueue returns is queued or running under the key asked for; the
    jobs there were stay as they are. *)
Lemma enqueue_ok r w j w' :
  job_inv w -> enqueue r w = (Ok j, w') ->
  jobs (db w') !! job_id j = Some j /\ active_with_key (en_idempotency_key r) j = true /\
  (forall i x, jobs (db w) !! i = Some x -> jobs (db w') !! i = Some x) /\ job_inv w'.
Proof.
  intros Hinv He. assert (job_inv w') as Hinv'.
  { pose proof (run_op_inv (MkJobEngine 1 (fun x => x)) (OpEnqueue r) w ltac:(done) Hinv) as H.
    cbn [run_op] in H. unfold bind in H. by rewrite He in H. }
  destruct (enqueue_effect r w) as [[x Hx]|(safe & due & policy & _ & _ & _ & _ & Hx)]; rewrite Hx in He; [done|].
  rewrite enqueue_tries_S in He by (by apply fresh_uuid). destruct (online w) eqn:Ho; [|done].
  destruct (active_row (en_idempotency_key r) w) as [y|] eqn:Hy.
  { injection He as -> <-. apply first_by_elem, elem_of_select in Hy as [Ha [k Hk]].
    rewrite (tok_keyed _ (proj1 Hinv) k j Hk). by split_and!. }
  destruct (row_fits r) eqn:Hf; [|done]. destruct (key_taken (en_idempotency_key r) w) eqn:Ht.
  - pose proof (enqueue_tries_taken r safe (instant due) policy w Hinv Ho Hy Hf Ht) as H.
    rewrite enqueue_tries_S, Ho, Hy, Hf, Ht in H by (by apply fresh_uuid). congruence.
  - injection He as <- <-. cbn. unfold put, active_with_key. cbn. rewrite lookup_insert_eq, String.eqb_refl.
    split_and!; [done|done| |done]. intros i x Hi. rewrite lookup_insert_ne; [done|]. intros <-.
    pose proof (fresh_uuid w Hinv). congruence.
Qed.

Lemma job_inv_kept w w' : keeps jobs w w' -> job_inv w -> job_inv w'.
Proof.
  intros (Hj & Hk & _ & Hn) (H1 & H2 & H3). unfold job_inv. rewrite Hj, Hk. split_and!; [done| |done].
  intros i Hi. specialize (H2 i Hi). lia.
Qed.

(** The tables of this component, and the rest of the collection's. *)
Definition collection_tables (d : DB) := (executions d, flows d, jobs d).

Lemma collection_inv_kept w w' : keeps collection_tables w w' -> collection_inv w -> collection_inv w'.
Proof.
  intros ([= He Hf Hj] & Hk & Ho & Hn) [H1 H2]. split; [eapply job_inv_kept; [|exact H1]; by split_and!|].
  eapply collection_ok_same; [done..|]. by eapply collection_ok_mono.
Qed.

Lemma collects_still w w' : keeps collection_tables w w' -> collects w w'.
Proof.
  intros H. pose proof H as ([= He Hf Hj] & Hk & Ho & Hn). split_and!; [done..|]. intros Hok.
  split; [by eapply collection_inv_kept|by apply moved_on_same].
Qed.

#[export] Instance collects_preorder : PreOrder (collects (B:=B)).
Proof.
  split.
  - intros w. apply collects_still. reflexivity.
  - intros w1 w2 w3 (Hn & Hk & Ho & H12) (Hn' & Hk' & Ho' & H23). split_and!; [lia|congruence..|].
    intros Hok. destruct (H12 Hok) as [Hok2 Hs]. destruct (H23 Hok2) as [Hok3 Hs']. split; [done|by etrans].
Qed.

#[export] Instance collects_rolls_back : RollsBack (collects (B:=B)).
Proof. intros w w' (Hn & Hk & Ho & _). apply collects_still. by split_and!. Qed.

Lemma collects_keeping {A} (m : M B A) : moves (keeps collection_tables) m -> moves collects m.
Proof. intros Hm w. apply collects_still, Hm. Qed.
End frames.

#[export] Hint Extern 1 (moves (keeps _) (audit _)) =>
  apply keeps_audited; intros ? ? (? & ? & ->); reflexivity : frames.
#[export] Hint Extern 1 (moves (keeps _) (enqueue _)) => apply keeps_enqueue; intros; reflexivity : frames.

(** ** Active executions *)

Section request.
Context {B : Type}.
Implicit Types w : World B.

(** Rows of one company, each in the table, each once. *)
Definition current_flows (company : N) (d : DB) (fs : list CompanyFlow) : Prop :=
  NoDup (map fl_id fs) /\ forall f, f ∈ fs -> flows d !! fl_id f = Some f /\ fl_company f = company.

(** No active execution in the scope of any of them. *)
Definition idle (d : DB) (fs : list CompanyFlow) : Prop :=
  forall f i e, f ∈ fs -> executions d !! i = Some e -> is_active e = true -> ex_scope e <> fl_scope f.

Lemma length_omap_le {A C} (f : A -> option C) (l : list A) : (length (omap f l) <= length l)%nat.
Proof. induction l as [|x l IH]; cbn; [lia|]. destruct (f x); cbn; lia. Qed.

Lemma find_flows_current n company families d :
  collection_ok n d -> NoDup families ->
  current_flows company d (find_flows company families d) /\
  (forall f, f ∈ find_flows company families d -> fl_family f ∈ families) /\
  (length (find_flows company families d) = length families -> map fl_family (find_flows company families d) = families).
Proof.
  intros Hok. unfold current_flows, find_flows.
  assert (forall fam f, hd_error (select (flow_of company fam) (flows d)) = Some f ->
            flows d !! fl_id f = Some f /\ fl_company f = company /\ fl_family f = fam) as Hone.
  { intros fam f Hf. assert (f ∈ select (flow_of company fam) (flows d)) as Hin by (destruct (select _ _); [done|]; injection Hf as ->; left).
    apply elem_of_select in Hin as [[= -> ->]%flow_of_scope [i Hi]].
    destruct (proj1 (col_flows _ _ Hok) _ _ Hi) as [-> _]. by split_and!. }
  induction families as [|fam families IH]; intros Hnd; [split_and!; [constructor|intros ? []%elem_of_nil..|done]|].
  apply NoDup_cons in Hnd as [Hfam Hnd]. destruct (IH Hnd) as ((IH1 & IH2) & IH3 & IH4). cbn [omap list_omap].
  destruct (hd_error _) as [f|] eqn:Hf.
  - destruct (Hone _ _ Hf) as (Hrow & Hco & Hfm). split_and!.
    + cbn [map]. constructor; [|done]. intros (g & Hg & Hin)%list_elem_of_fmap. destruct (IH2 g Hin) as [Hg2 _].
      rewrite <-Hg, Hrow in Hg2. injection Hg2 as <-. apply IH3 in Hin. congruence.
    + intros g [->|Hg]%elem_of_cons; [done|by apply IH2].
    + intros g [->|Hg]%elem_of_cons; [rewrite Hfm; left|right; by apply IH3].
    + cbn. intros [= Hl]. by rewrite Hfm, IH4.
  - split_and!; [done|done|intros g Hg; right; by apply IH3|].
    cbn [length]. intros Hl. pose proof (length_omap_le (fun fam => hd_error (select (flow_of company fam) (flows d))) families). lia.
Qed.

(** The flow once its stale pointer is cleared. *)
Definition forgotten (now : Z) (f : CompanyFlow) : CompanyFlow :=
  f <| fl_active_execution := None |> <| fl_updated_at := now |>.

Lemma active_execution_ok f w o f' w' :
  collection_ok (next_uuid w) (db w) -> flows (db w) !! fl_id f = Some f -> _active_execution f w = (Ok (o, f'), w') ->
  (w' = w /\ f' = f /\ exists e, o = Some e /\ executions (db w) !! ex_id e = Some e /\ is_active e = true /\ ex_scope e = fl_scope f) \/
  (w' = w /\ f' = f /\ o = None /\ fl_active_execution f = None) \/
  (w' = w <| db ::= fun d => d <| flows ::= put (fl_id f') f' |> |> /\ f' = forgotten (clock w) f /\ o = None /\
   collection_ok (next_uuid w) (db w')).
Proof.
  intros Hok Hf. unfold _active_execution. destruct (fl_active_execution f) as [id|] eqn:Hp; intros H;
    [|invert_run; simplify_eq; right; left; by split_and!].
  apply bind_inv in H as (row & ? & [-> ->]%query_inv & H).
  assert ((forall e, executions (db w) !! id = Some e -> is_active e = false) ->
          collection_ok (next_uuid w) (db w <| flows ::= put (fl_id (forgotten (clock w) f)) (forgotten (clock w) f) |>)) as Hclear.
  { intros Hstale. apply (collection_ok_flow _ _ f (forgotten (clock w) f)); [done..|]. right. split; [done|]. intros i e Hi Ha Hs.
    rewrite (told_flow _ _ i e f Hok Hi Ha Hf (eq_sym Hs)) in Hp. injection Hp as ->. specialize (Hstale e Hi). congruence. }
  destruct (executions (db w) !! id) as [e|] eqn:He; [destruct (is_active e) eqn:Ha|].
  - invert_run. simplify_eq. left. split_and!; [done..|]. exists e. split_and!; [done| |done|].
    + destruct (proj1 (col_executions _ _ Hok) _ _ He) as [-> _]. done.
    + by eapply (col_pointed _ _ Hok).
  - apply bind_inv in H as (now & ? & [-> ->]%now_inv & H). apply bind_inv in H as (u & ? & ->%write_inv & [[= -> ->] ->]%ret_inv).
    right; right. split_and!; [done..|]. apply Hclear. intros x [= <-]. done.
  - apply bind_inv in H as (now & ? & [-> ->]%now_inv & H). apply bind_inv in H as (u & ? & ->%write_inv & [[= -> ->] ->]%ret_inv).
    right; right. split_and!; [done..|]. by apply Hclear.
Qed.

(** What reading the active executions leaves: the flows at hand are still their
    rows, under the same keys; no other row moved. *)
Record looked_up (company : N) (fs : list CompanyFlow) (w : World B) (fs' : list CompanyFlow) (w' : World B) : Prop := {
  look_keeps : keeps (fun d => (executions d, jobs d, policies d, companies d, certificates d)) w w';
  look_clock : next_uuid w' = next_uuid w;
  look_ok : collection_ok (next_uuid w) (db w');
  look_current : current_flows company (db w') fs';
  look_ids : map fl_id fs' = map fl_id fs;
  look_scopes : map fl_scope fs' = map fl_scope fs;
  look_others : forall i, i ∉ map fl_id fs -> flows (db w') !! i = flows (db w) !! i }.

Lemma active_executions_ok company fs w es fs' w' :
  collection_ok (next_uuid w) (db w) -> current_flows company (db w) fs ->
  active_executions fs w = (Ok (es, fs'), w') ->
  looked_up company fs w fs' w' /\
  (forall e, e ∈ es -> executions (db w) !! ex_id e = Some e /\ is_active e = true /\ ex_scope e ∈ map fl_scope fs) /\
  (es = [] -> forall f, f ∈ fs' -> fl_active_execution f = None).
Proof.
  revert w es fs' w'. induction fs as [|f fs IH]; intros w es fs' w' Hok [Hnd Hin] H.
  - cbn in H. invert_run. simplify_eq. split_and!; [|intros ? []%elem_of_nil|intros _ ? []%elem_of_nil].
    by split.
  - cbn [active_executions] in H. apply bind_inv in H as ([o f1] & w1 & Ha & H).
    apply bind_inv in H as ([es1 fs1] & w2 & Hr & [[= -> ->] ->]%ret_inv).
    destruct (Hin f ltac:(left)) as [Hrow Hco]. cbn [map] in Hnd. apply NoDup_cons in Hnd as [Hfresh Hnd].
    assert (forall g, g ∈ fs -> fl_id f <> fl_id g) as Hne.
    { intros g Hg Heq. apply Hfresh. rewrite Heq. by apply list_elem_of_fmap_2. }
    assert (next_uuid w1 = next_uuid w /\ collection_ok (next_uuid w1) (db w1) /\
            keeps (fun d => (executions d, jobs d, policies d, companies d, certificates d)) w w1 /\
            fl_id f1 = fl_id f /\ fl_scope f1 = fl_scope f /\ flows (db w1) !! fl_id f1 = Some f1 /\
            (forall i, i <> fl_id f -> flows (db w1) !! i = flows (db w) !! i) /\
            (forall e, o = Some e -> executions (db w) !! ex_id e = Some e /\ is_active e = true /\ ex_scope e = fl_scope f) /\
            (o = None -> fl_active_execution f1 = None)) as (Hn1 & Hok1 & Hk1 & Hid1 & Hs1 & Hrow1 & Hoth1 & Ho1 & Hnone1).
    { destruct (active_execution_ok f w o f1 w1 Hok Hrow Ha) as [(-> & -> & e & -> & He)|[(-> & -> & -> & Hp)|(-> & -> & -> & Hc)]].
      - split_and!; [done|done|reflexivity|done|done|done|done|by intros ? [= <-]|done].
      - split_and!; [done|done|reflexivity|done..].
      - split_and!; [done|done|split_and!; [done..|cbn; lia]|done|done| | |done|done]; cbn; unfold put.
        + by rewrite lookup_insert_eq.
        + intros i Hi. by rewrite lookup_insert_ne by done. }
    destruct (IH w1 es1 fs1 w2 Hok1) as ([Hk2 Hn2 Hok2 Hc2 Hid2 Hs2 Hoth2] & He2 & Hnone2); [|done|].
    { split; [done|]. intros g Hg. rewrite Hoth1 by (apply not_eq_sym; by apply Hne). apply Hin. by right. }
    assert (executions (db w1) = executions (db w)) as Hex1 by (by destruct Hk1 as ([=] & _)).
    split_and!; [split|..].
    + by etrans.
    + congruence.
    + by rewrite Hn1 in Hok2.
    + split; [cbn [map]; rewrite Hid2, Hid1; by constructor|]. intros g [->|Hg]%elem_of_cons; [|by apply Hc2].
      rewrite Hid1, Hoth2 by done. rewrite <-Hid1. split; [done|]. injection Hs1. congruence.
    + cbn [map]. congruence.
    + cbn [map]. congruence.
    + cbn [map]. intros i [Hi1 Hi2]%not_elem_of_cons. rewrite Hoth2 by done. by apply Hoth1.
    + assert (forall e, e ∈ es1 -> executions (db w) !! ex_id e = Some e /\ is_active e = true /\ ex_scope e ∈ map fl_scope (f :: fs)) as Hrest.
      { rewrite <-Hex1. intros e He. destruct (He2 e He) as (? & ? & ?). split_and!; [done..|cbn; by right]. }
      intros e He. destruct o as [e0|]; [|by apply Hrest]. apply elem_of_cons in He as [->|He]; [|by apply Hrest].
      destruct (Ho1 e0 eq_refl) as (? & ? & Hs0). split_and!; [done..|]. rewrite Hs0. cbn. left.
    + destruct o as [e0|]; [done|]. intros -> g [->|Hg]%elem_of_cons; [by apply Hnone1|by apply Hnone2].
Qed.

(** Where no flow points to an execution, none is active. *)
Lemma pointing_nowhere n company fs d :
  collection_ok n d -> current_flows company d fs -> (forall f, f ∈ fs -> fl_active_execution f = None) -> idle d fs.
Proof.
  intros Hok [_ Hin] Hnone f i e Hf Hi Ha Hs. destruct (Hin f Hf) as [Hrow _].
  pose proof (told_flow n d i e f Hok Hi Ha Hrow (eq_sym Hs)) as Hp. rewrite (Hnone f Hf) in Hp. done.
Qed.

(** ** Starting *)

(** A flow free for a new execution. *)
Definition free_flow (company : N) (f : CompanyFlow) (d : DB) : Prop :=
  flows d !! fl_id f = Some f /\ fl_company f = company /\
  forall i e, executions d !! i = Some e -> is_active e = true -> ex_scope e <> fl_scope f.

(** An execution as it was asked for, its job and its flow. *)
Record started (company : N) (scope : CollectionScope.t) (origin : CollectionOrigin.t) (actor : option SessionIdentity)
    (correlation : string) (current now : Z) (f : CompanyFlow) (policy : JobPolicy) (d : DB) (e : CollectionExecution) : Prop := {
  st_row : executions d !! ex_id e = Some e;
  st_scope : ex_scope e = (company, fl_family f);
  st_request : ex_requested_scope e = scope /\ ex_origin e = origin /\ ex_requester e = option_map si_user_id actor /\
    ex_correlation_id e = correlation;
  st_policy : ex_effective_policy e = Some (pol_id policy);
  st_state : ex_state e = CollectionExecutionState.QUEUED /\ ex_created_at e = now /\ ex_started_at e = None /\
    ex_finished_at e = None;
  st_job : exists j, ex_job e = Some (job_id j) /\ jobs d !! job_id j = Some j /\
    active_with_key ("collection:" ++ uuid_str (ex_id e)) j = true;
  st_flow : flows d !! fl_id f = Some (flow_started (ex_id e) current now f) }.

Lemma save_execution_inv e w u w' :
  save_execution (B:=B) e w = (Ok u, w') ->
  execution_conflict e (db w) = false /\ correlation_check (ex_correlation_id e) = true /\
  w' = w <| db ::= fun d => d <| executions ::= put (ex_id e) e |> |>.
Proof. unfold save_execution. intros H. invert_db. bools. by split_and!. Qed.

Lemma start_execution_ok company scope origin actor retry_of correlation current f policy w e w' :
  collection_inv w -> free_flow company f (db w) ->
  start_execution company scope origin actor retry_of correlation current f policy w = (Ok e, w') ->
  collection_inv w' /\ keeps (fun d => (policies d, companies d, certificates d)) w w' /\ ex_id e = next_uuid w /\
  executions (db w') = put (ex_id e) e (executions (db w)) /\
  flows (db w') = put (fl_id f) (flow_started (ex_id e) current (clock w) f) (flows (db w)) /\
  (forall i x, jobs (db w) !! i = Some x -> jobs (db w') !! i = Some x) /\
  started company scope origin actor correlation current (clock w) f policy (db w') e.
Proof.
  intros [Hinv Hok] (Hf & Hco & Hfree). unfold start_execution. intros H.
  apply bind_inv in H as (? & ? & [_ ->]%require_inv & H). apply bind_inv in H as (id & w1 & [= <- <-] & H).
  apply bind_inv in H as (now & ? & [-> ->]%now_inv & H). cbn zeta in H.
  match type of H with context [save_execution ?x] => set (e0 := x) in * end.
  apply bind_inv in H as (? & w2 & (Hc0 & Hcorr & ->)%save_execution_inv & H).
  apply bind_inv in H as (j & w3 & He & H).
  apply bind_inv in H as (? & w4 & (Hc1 & _ & ->)%save_execution_inv & H).
  apply bind_inv in H as (? & w5 & ->%write_inv & [-> ->]%ret_inv).
  match type of Hc1 with execution_conflict ?x _ = _ => set (e1 := x) in * end.
  match type of He with enqueue _ ?x = _ => set (w2 := x) in He end.
  assert (job_inv w2) as Hinv2 by (eapply job_inv_kept; [|exact Hinv]; unfold w2; split_and!; [done..|cbn; lia]).
  destruct (enqueue_ok _ _ _ _ Hinv2 He) as (Hj & Hkey & Hjobs & Hinv3).
  assert (keeps (fun d => (executions d, flows d, policies d, companies d, certificates d)) w2 w3)
    as ([= Hex Hfl Hpol Hcos Hcert] & Hk & Ho & Hn).
  { eapply (moves_run (keeps _)); [|exact He]. frame_tac. }
  cbn in Hex, Hfl, Hpol, Hcos, Hcert, Hk, Ho, Hn.
  assert (keeps jobs w3 (w3 <| db ::= fun d => d <| executions ::= put (ex_id e1) e1 |> |>
    <| db ::= fun d => d <| flows ::= put (fl_id f) (flow_started (next_uuid w) current (clock w) f) |> |>)) as Hkj by done.
  assert (forall d, d = put (next_uuid w) e1 (executions (db w3)) -> d = put (next_uuid w) e1 (executions (db w))) as Hput.
  { intros d ->. unfold put. rewrite Hex. unfold put. by rewrite insert_insert_eq. }
  split_and!; [split; [by eapply job_inv_kept|]|split_and!; cbn; try congruence; lia|done|by apply Hput| |done|].
  - eapply (collection_ok_same _ (db w <| executions ::= put (next_uuid w) e1 |>
             <| flows ::= put (fl_id (flow_started (next_uuid w) current (clock w) f)) (flow_started (next_uuid w) current (clock w) f) |>)).
    + cbn. by apply Hput.
    + cbn. by rewrite Hfl.
    + apply (collection_ok_start (next_uuid w) _ _ _ e1 f); try done; [cbn; lia|unfold fl_scope, ex_scope; cbn; congruence| |].
      * intros i y Hi Hy Hs. apply (Hfree i y Hi Hy). rewrite Hs. unfold fl_scope, ex_scope. cbn. congruence.
      * intros i y k Hi Hk1. destruct (proj1 (col_executions _ _ Hok) _ _ Hi) as [Hy Hlt].
        assert (executions (db w3) !! i = Some y) as Hi3 by (rewrite Hex; unfold put; cbn; rewrite lookup_insert_ne; [done|lia]).
        apply (no_conflict e1 (db w3) Hc1 i y Hi3); [cbn; lia|done].
  - cbn. by rewrite Hfl.
  - split; cbn.
    + unfold put. by rewrite lookup_insert_eq.
    + done.
    + done.
    + done.
    + done.
    + exists j. by split_and!.
    + unfold put. by rewrite lookup_insert_eq.
Qed.
Lemma started_kept company scope origin actor correlation current now f policy d d' e :
  (forall i x, executions d !! i = Some x -> executions d' !! i = Some x) ->
  (forall i x, jobs d !! i = Some x -> jobs d' !! i = Some x) -> flows d' !! fl_id f = flows d !! fl_id f ->
  started company scope origin actor correlation current now f policy d e ->
  started company scope origin actor correlation current now f policy d' e.
Proof.
  intros He Hj Hf [H1 H2 H3 H4 H5 (j & H6 & H7 & H8) H9]. split; try done; [by apply He| |congruence].
  exists j. split_and!; [done|by apply Hj|done].
Qed.

(** What starting one execution per flow leaves: the rows there were, and one
    started execution per flow. *)
Record all_started (company : N) (scope : CollectionScope.t) (origin : CollectionOrigin.t) (actor : option SessionIdentity)
    (correlation : string) (current : Z) (fs : list (CompanyFlow * JobPolicy)) (w : World B)
    (es : list CollectionExecution) (w' : World B) : Prop := {
  al_inv : collection_inv w';
  al_keeps : keeps (fun d => (policies d, companies d, certificates d)) w w';
  al_started : Forall2 (fun fp e => started company scope origin actor correlation current (clock w) fp.1 fp.2 (db w') e) fs es;
  al_new : forall e, e ∈ es -> executions (db w) !! ex_id e = None;
  al_executions : forall i x, executions (db w) !! i = Some x -> executions (db w') !! i = Some x;
  al_only : forall i x, executions (db w') !! i = Some x -> executions (db w) !! i = Some x \/ x ∈ es;
  al_jobs : forall i x, jobs (db w) !! i = Some x -> jobs (db w') !! i = Some x;
  al_flows : forall i, i ∉ map (fun fp => fl_id fp.1) fs -> flows (db w') !! i = flows (db w) !! i }.

Lemma start_executions_ok company scope origin actor retry_of correlation current fs w es w' :
  collection_inv w -> NoDup (map (fun fp : CompanyFlow * JobPolicy => fl_id fp.1) fs) ->
  (forall fp, fp ∈ fs -> free_flow company fp.1 (db w)) ->
  start_executions company scope origin actor retry_of correlation current fs w = (Ok es, w') ->
  all_started company scope origin actor correlation current fs w es w'.
Proof.
  revert w es. induction fs as [|[f policy] fs IH]; intros w es Hinv Hnd Hfree H.
  - cbn in H. invert_run. split; try done; [intros ? []%elem_of_nil|by left].
  - cbn [start_executions] in H. apply bind_inv in H as (e & w1 & He & H). apply bind_inv in H as (es1 & w2 & Hes & [-> ->]%ret_inv).
    cbn [map fst] in Hnd. apply NoDup_cons in Hnd as [Hne Hnd].
    assert (forall fp, fp ∈ fs -> fl_id f <> fl_id fp.1) as Hdiff.
    { intros fp Hfp Heq. apply Hne. rewrite Heq. by apply (list_elem_of_fmap_2 (fun fp : CompanyFlow * JobPolicy => fl_id fp.1)). }
    destruct (Hfree (f, policy) ltac:(left)) as (Hrow & Hco & Hnone). cbn [fst] in *.
    destruct (start_execution_ok company scope origin actor retry_of correlation current f policy w e w1 Hinv
      ltac:(by split_and!) He) as (Hinv1 & Hk1 & Hid & Hex1 & Hfl1 & Hj1 & Hst).
    assert (executions (db w) !! ex_id e = None) as Hfresh.
    { rewrite Hid. apply (keyed_fresh ex_id ex_id). apply (col_executions _ _ (proj2 Hinv)). }
    assert (forall i x, executions (db w) !! i = Some x -> executions (db w1) !! i = Some x) as Hkeep.
    { intros i x Hi. rewrite Hex1. unfold put. rewrite lookup_insert_ne; [done|intros Heq; congruence]. }
    destruct (IH w1 es1 Hinv1 Hnd) as [H1 H2 H3 H4 H5 H6 H7 H8]; [|exact Hes|].
    { intros fp Hfp. destruct (Hfree fp ltac:(by right)) as (Hr & Hc & Hn). split_and!; [|done|].
      - rewrite Hfl1. unfold put. by rewrite lookup_insert_ne by by apply Hdiff.
      - intros i x. rewrite Hex1. unfold put. rewrite lookup_insert_Some. intros [[_ <-]|[_ Hi]]; [|by eapply Hn].
        intros _ Hs. apply (Hdiff fp Hfp). eapply (proj2 (col_flows _ _ (proj2 Hinv))); [exact Hrow|exact Hr|].
        rewrite <-Hs, (st_scope _ _ _ _ _ _ _ _ _ _ _ Hst), <-Hco. done. }
    assert (clock w1 = clock w) as Hck by apply Hk1.
    split; [done|by etrans| | | | | |].
    + constructor; [|by rewrite <-Hck]. cbn [fst snd]. eapply started_kept; [exact H5|exact H7| |done]. by apply H8.
    + intros x [->|Hx]%elem_of_cons; [done|]. apply H4 in Hx. rewrite Hex1 in Hx. unfold put in Hx.
      by apply lookup_insert_None in Hx as [? _].
    + intros i x Hi. by apply H5, Hkeep.
    + intros i x [Hi|Hx]%H6; [|right; by right]. rewrite Hex1 in Hi. unfold put in Hi.
      apply lookup_insert_Some in Hi as [[_ <-]|[_ Hi]]; [right; left|by left].
    + intros i x Hi. by apply H7, Hj1.
    + cbn [map fst]. intros i [Hi1 Hi2]%not_elem_of_cons. rewrite H8 by done. rewrite Hfl1. unfold put.
      by rewrite lookup_insert_ne by done.
Qed.
End request.
