(* ===== verification/CollectionGuarantees.v ===== *)
(** * What collection requests guarantee: the theorems

    The contract of a request, the life cycle of executions under any sequence of
    operations, and the agreement of an execution with its job. *)

From Stdlib Require Import ZArith Ascii String Lia.
From stdpp Require Import base decidable list gmap strings relations.
From S2P Require Import Prelude PyStr PyVal Models AuditTrail Identity Companies CompanyFacts JobPolicies JobEngine JobLifecycle JobGuarantees Tables Certificates Collection CollectionFacts.

Local Open Scope string_scope.

(** A closed, decidable proposition: evaluate its decision. *)
Ltac by_deciding := apply (bool_decide_unpack _); vm_compute; exact I.

Section request.
Context {B : Type}.
Implicit Types w : World B.

(** ** Checks before starting *)

Lemma current_certificate_inv company now w c w' :
  _current_certificate (B:=B) company now w = (Ok c, w') ->
  w' = w /\ usable c now = true /\ exists i, certificates (db w) !! i = Some c /\ current_of company c = true.
Proof.
  unfold _current_certificate. intros H. apply bind_inv in H as (row & ? & [-> ->]%query_inv & H).
  destruct (first_by _ _) as [c'|] eqn:Hf; [|done]. destruct (usable c' now) eqn:Hu; [|done]. apply ret_inv in H as [-> ->].
  apply first_by_elem, elem_of_select in Hf as [Hc [i Hi]]. split_and!; [done..|by exists i].
Qed.

(** What makes a flow ready: enabled, not blocked, its cooldown over, and the
    policy in force. *)
Definition ready (current : Z) (d : DB) (f : CompanyFlow) (p : JobPolicy) : Prop :=
  fl_state f = FlowState.ENABLED /\
  fl_collection_state f <> CollectionExecutionState.value CollectionExecutionState.BLOCKED /\
  (forall t, fl_cooldown_until f = Some t -> (t <= current)%Z) /\
  select_policy_in "synthetic" (FlowFamily.value (fl_family f)) (Aware current) d = Ok p.

Lemma flow_policy_inv current f w p w' :
  flow_policy (B:=B) current f w = (Ok p, w') -> w' = w /\ ready current (db w) f p.
Proof.
  unfold flow_policy. intros H. apply bind_inv in H as (? & ? & [H1 ->]%require_inv & H).
  apply bind_inv in H as (? & ? & [H2 ->]%require_inv & H). apply bind_inv in H as (? & ? & [H3 ->]%require_inv & H).
  apply try_inv in H as [H|(e & w1 & _ & H)]; [|by destruct e].
  unfold select_policy in H. apply bind_inv in H as (r & ? & [-> ->]%query_inv & [Hp ->]%lift_inv).
  bools. split; [done|]. split_and!; [done| | |done].
  - by apply String.eqb_neq.
  - intros t Ht. rewrite Ht in H3. by bools.
Qed.

Lemma flow_policies_inv current fs w fps w' :
  flow_policies (B:=B) current fs w = (Ok fps, w') ->
  w' = w /\ map fst fps = fs /\ forall fp, fp ∈ fps -> ready current (db w) fp.1 fp.2.
Proof.
  revert fps. induction fs as [|f fs IH]; intros fps H.
  - apply ret_inv in H as [-> ->]. split_and!; [done..|by intros ? ?%not_elem_of_nil].
  - cbn [flow_policies] in H. apply bind_inv in H as (p & ? & [-> Hp]%flow_policy_inv & H).
    apply bind_inv in H as (rest & ? & Hr & [-> ->]%ret_inv). destruct (IH _ Hr) as (-> & Hm & Hall).
    split_and!; [done|by cbn; rewrite Hm|]. intros fp [->|Hin]%elem_of_cons; [done|by apply Hall].
Qed.

Lemma retry_target_inv origin company families ref w r w' :
  retry_target (B:=B) origin company families ref w = (Ok r, w') ->
  w' = w /\ (origin = CollectionOrigin.RETRY -> exists e, r = Some e /\ ex_company e = company /\ ex_family e ∈ families /\
    ex_state e ∈ [CollectionExecutionState.FAILED; CollectionExecutionState.PARTIAL] /\ exists i, executions (db w) !! i = Some e).
Proof.
  unfold retry_target. case_bool_decide as Ho; cbn [negb]; intros H; [|by apply ret_inv in H as [-> ->]].
  destruct ref as [ref|]; [|done]. apply bind_inv in H as (id & ? & [_ ->]%of_option_inv & H).
  apply bind_inv in H as (row & ? & [-> ->]%query_inv & H). destruct (executions (db w) !! id) as [e|] eqn:He; [|done].
  destruct (_ && _ && _) eqn:Hc; [|done]. apply ret_inv in H as [-> ->]. split; [done|]. intros _. bools. apply N.eqb_eq in H.
  exists e. split_and!; [done..|by exists id].
Qed.

(** ** The transaction *)

(** The execution queued for one family, its job and its flow afterwards. *)
Record queued_for (company : N) (scope : CollectionScope.t) (origin : CollectionOrigin.t) (actor : option SessionIdentity)
    (current : Z) (d d' : DB) (family : FlowFamily.t) (e : CollectionExecution) : Prop := {
  qf_new : executions d !! ex_id e = None;
  qf_row : executions d' !! ex_id e = Some e;
  qf_scope : ex_scope e = (company, family);
  qf_request : ex_requested_scope e = scope /\ ex_origin e = origin /\ ex_requester e = option_map si_user_id actor;
  qf_state : ex_state e = CollectionExecutionState.QUEUED /\ ex_started_at e = None /\ ex_finished_at e = None;
  qf_policy : exists p, select_policy_in "synthetic" (FlowFamily.value family) (Aware current) d = Ok p /\
    ex_effective_policy e = Some (pol_id p);
  qf_job : exists j, ex_job e = Some (job_id j) /\ jobs d' !! job_id j = Some j /\
    active_with_key ("collection:" ++ uuid_str (ex_id e)) j = true;
  qf_flow : exists f, flows d' !! fl_id f = Some f /\ fl_scope f = (company, family) /\
    fl_active_execution f = Some (ex_id e) /\ fl_next_scheduled_at f = Some current /\ fl_cooldown_until f = None }.

(** Nothing active for any of the families. *)
Definition none_active (company : N) (families : list FlowFamily.t) (d : DB) : Prop :=
  forall i e, executions d !! i = Some e -> is_active e = true -> ex_company e = company -> ex_family e ∉ families.

(** What an accepted request did. *)
Definition accepted (company : N) (scope : CollectionScope.t) (origin : CollectionOrigin.t) (actor : option SessionIdentity)
    (current : Z) (r : CollectionRequest) w w' : Prop :=
  if cr_duplicate r then
    cr_executions r <> [] /\
    (forall e, e ∈ cr_executions r -> executions (db w) !! ex_id e = Some e /\ is_active e = true /\
      ex_company e = company /\ ex_family e ∈ _families scope) /\
    keeps (fun d => (executions d, jobs d)) w w'
  else
    none_active company (_families scope) (db w) /\
    Forall2 (queued_for company scope origin actor current (db w) (db w')) (_families scope) (cr_executions r) /\
    (forall i x, executions (db w) !! i = Some x -> executions (db w') !! i = Some x) /\
    (forall i x, executions (db w') !! i = Some x -> executions (db w) !! i = Some x \/ x ∈ cr_executions r) /\
    (forall i x, jobs (db w) !! i = Some x -> jobs (db w') !! i = Some x).

(** The company may collect: it is active and its certificate usable. *)
Definition may_collect (company_id : uuid_ref) (current : Z) (company : Company) (d : DB) : Prop :=
  (exists i, uuid_of company_id = Some i /\ companies d !! i = Some company) /\ co_status company = CompanyStatus.ACTIVE /\
  exists i c, certificates d !! i = Some c /\ current_of (co_id company) c = true /\ usable c current = true.

Lemma families_nodup scope : NoDup (_families scope).
Proof. destruct scope; by_deciding. Qed.

Lemma families_nonempty scope : _families scope <> [].
Proof. by destruct scope. Qed.

Lemma scope_of_company company fs :
  (forall f, f ∈ fs -> fl_company f = company) -> map fl_scope fs = map (pair company) (map fl_family fs).
Proof.
  induction fs as [|f fs IH]; intros H; [done|]. cbn. rewrite IH by (intros g Hg; apply H; by right).
  f_equal. unfold fl_scope. by rewrite (H f) by left.
Qed.

(** The flows and policies a fresh request starts with. *)
Definition starts_from (company : N) (scope : CollectionScope.t) (current : Z) (d : DB) (fps : list (CompanyFlow * JobPolicy)) : Prop :=
  NoDup (map (fun fp : CompanyFlow * JobPolicy => fl_id fp.1) fps) /\
  map (fun fp : CompanyFlow * JobPolicy => fl_scope fp.1) fps = map (pair company) (_families scope) /\
  (forall fp, fp ∈ fps -> free_flow company fp.1 d) /\ (forall fp, fp ∈ fps -> ready current d fp.1 fp.2).

(** Reading the flows: either some are busy, or all are free and ready. *)
Lemma looked_up_free company scope current w0 w1 fs fps :
  collection_ok (next_uuid w1) (db w1) -> looked_up company fs w0 (map fst fps) w1 ->
  map fl_family fs = _families scope -> (forall f, f ∈ fs -> fl_company f = company) ->
  idle (db w1) (map fst fps) -> (forall fp, fp ∈ fps -> ready current (db w1) fp.1 fp.2) ->
  starts_from company scope current (db w1) fps /\ none_active company (_families scope) (db w1).
Proof.
  intros Hok [Hk Hn Hlok Hcur Hids Hscopes Hoth] Hfam Hco Hidle Hready.
  assert (map (fun fp : CompanyFlow * JobPolicy => fl_scope fp.1) fps = map (pair company) (_families scope)) as Hm.
  { rewrite <-Hfam, <-scope_of_company by done. rewrite <-Hscopes. by rewrite map_map. }
  assert (map (fun fp : CompanyFlow * JobPolicy => fl_id fp.1) fps = map fl_id (map fst fps)) as Hi by (by rewrite map_map).
  destruct Hcur as [Hnd Hin]. split; [split_and!; [by rewrite Hi|done| |done]|].
  - intros fp Hfp. assert (fp.1 ∈ map fst fps) as Hf by (by apply list_elem_of_fmap_2). destruct (Hin _ Hf) as [Hr Hc].
    split_and!; [done..|]. intros i e Hie Ha. by apply (Hidle _ i e Hf).
  - intros i e Hie Ha Hc Hf. assert ((company, ex_family e) ∈ map (fun fp : CompanyFlow * JobPolicy => fl_scope fp.1) fps) as Hs.
    { rewrite Hm. by apply list_elem_of_fmap_2. }
    apply list_elem_of_fmap in Hs as (fp & Hs & Hfp). apply (Hidle fp.1 i e); [by apply list_elem_of_fmap_2|done..|].
    rewrite <-Hs. unfold ex_scope. by rewrite Hc.
Qed.

Lemma queued_for_started company scope origin actor correlation current now d d' f p e family :
  started company scope origin actor correlation current now f p d' e -> executions d !! ex_id e = None ->
  fl_scope f = (company, family) -> ready current d f p -> queued_for company scope origin actor current d d' family e.
Proof.
  intros [H1 H2 (H3 & H4 & H5 & _) H6 (H7 & _ & H8 & H9) H10 H11] Hnew [= Hco Hfam] (_ & _ & _ & Hp). rewrite Hfam in *.
  split; try done; [by exists p|]. exists (flow_started (ex_id e) current now f). split_and!; try done.
  unfold fl_scope. cbn. congruence.
Qed.

Lemma none_active_same company families d d' :
  executions d' = executions d -> none_active company families d' -> none_active company families d.
Proof. intros He H i e. rewrite <-He. apply H. Qed.

(** From the world the flows were read in to the world after the audit event. *)
Lemma accepted_started company scope origin actor correlation current r fps es w w1 w2 w' :
  keeps (fun d => (executions d, jobs d, policies d, companies d, certificates d)) w w1 ->
  starts_from company scope current (db w1) fps -> none_active company (_families scope) (db w1) ->
  all_started company scope origin actor correlation current fps w1 es w2 -> keeps collection_tables w2 w' ->
  r = MkCollectionRequest es false -> accepted company scope origin actor current r w w'.
Proof.
  intros ([= He1 Hj1 Hp1 _ _] & _) (Hnd & Hsc & _ & Hr) Hnone Hal ([= He2 Hf2 Hj2] & _) ->.
  unfold accepted. cbn [cr_duplicate cr_executions].
  pose proof (al_started _ _ _ _ _ _ _ _ _ _ Hal) as Hst. pose proof (al_new _ _ _ _ _ _ _ _ _ _ Hal) as Hnew.
  rewrite He2, Hj2. rewrite <-He1, <-Hj1. split_and!; [by eapply none_active_same| |apply Hal..].
  clear Hnd Hal Hnone. revert Hsc. generalize (_families scope) as families.
  induction Hst as [|fp e fps es Hhd Hst IH]; intros families Hsc; [by destruct families|].
  destruct families as [|family families]; [done|]. injection Hsc as Hfs Hco Hrest. constructor.
  - eapply queued_for_started.
    + eapply (started_kept _ _ _ _ _ _ _ _ _ (db w2)); [by intros i x; rewrite He2|by intros i x; rewrite Hj2|by rewrite Hf2|exact Hhd].
    + rewrite <-He1. apply Hnew. left.
    + unfold fl_scope. congruence.
    + destruct (Hr fp ltac:(left)) as (? & ? & ? & Hp). split_and!; [done..|].
      unfold select_policy_in in *. by rewrite <-Hp1.
  - apply IH; [by intros fp' Hfp; apply Hr; right|intros e' He'; apply Hnew; by right|done].
Qed.

Lemma request_in_transaction_ok company_id scope origin actor ip correlation current retry w r w' :
  collection_inv w -> request_in_transaction company_id scope origin actor ip correlation current retry w = (Ok r, w') ->
  exists company, may_collect company_id current company (db w) /\
    accepted (co_id company) scope origin actor current r w w' /\ collection_inv w' /\
    (cr_duplicate r = false -> origin <> CollectionOrigin.RETRY).
Proof.
  intros Hinv. unfold request_in_transaction. intros H. cbn zeta in H.
  apply bind_inv in H as (id & ? & [Hid ->]%of_option_inv & H). apply bind_inv in H as (row & ? & [-> ->]%query_inv & H).
  apply bind_inv in H as (company & ? & [Hco ->]%of_option_inv & H). apply bind_inv in H as (? & ? & [Hst ->]%require_inv & H).
  apply bind_inv in H as (c & ? & (-> & Hu & i & Hc & Hcur)%current_certificate_inv & H).
  apply bind_inv in H as (fs & ? & [-> ->]%query_inv & H). apply bind_inv in H as (? & ? & [Hlen ->]%require_inv & H).
  apply bind_inv in H as ([es fs] & w1 & Ha & H).
  exists company. split; [split_and!; [by exists id|by bools|by exists i, c]|].
  apply Nat.eqb_eq in Hlen.
  destruct (find_flows_current _ (co_id company) (_families scope) (db w) (proj2 Hinv) (families_nodup scope)) as (Hcf & _ & Hfam).
  specialize (Hfam Hlen).
  destruct (active_executions_ok (co_id company) _ _ _ _ _ (proj2 Hinv) Hcf Ha) as (Hl & Hes & Hnone).
  assert (collection_inv w1) as Hinv1.
  { destruct Hl as [Hk Hn Hok _ _ _ _]. split; [|by rewrite Hn]. eapply job_inv_kept; [|apply Hinv].
    destruct Hk as ([=] & ? & ? & ?). by split_and!. }
  destruct es as [|e0 es].
  - apply bind_inv in H as (fps & ? & (-> & Hfps & Hready)%flow_policies_inv & H).
    apply bind_inv in H as (rt & ? & [-> Hretry]%retry_target_inv & H).
    apply bind_inv in H as (created & w2 & Hs & H). apply bind_inv in H as (u & w3 & Hau & [-> ->]%ret_inv).
    rewrite <-Hfps in Hl, Hnone.
    destruct (looked_up_free (co_id company) scope current w w1 _ fps (proj2 Hinv1) Hl Hfam) as [Hfrom Hna];
      [intros f Hf; by apply Hcf|eapply pointing_nowhere; [apply Hinv1|apply Hl|by apply Hnone]|done|].
    pose proof (start_executions_ok _ _ _ _ _ _ _ fps w1 created w2 Hinv1 (proj1 Hfrom) ltac:(apply Hfrom) Hs) as Hal.
    assert (keeps collection_tables w2 w3) as Hk3 by (eapply (moves_run (keeps _)); [|exact Hau]; unfold _audit; frame_tac).
    split_and!; [eapply accepted_started; [apply Hl|exact Hfrom|exact Hna|exact Hal|exact Hk3|done]| |].
    + eapply collection_inv_kept; [exact Hk3|]. apply Hal.
    + intros _ (e & _ & He1 & He2 & He3 & j & Hj)%Hretry. destruct (col_states _ _ (proj2 Hinv1) j e Hj) as (_ & Hf & _).
      assert (is_active e = true) as Hact.
      { apply elem_of_cons in He3 as [He3|He3%list_elem_of_singleton]; [done|]. unfold is_active. by rewrite He3. }
      by apply (Hna j e Hj Hact He1).
  - apply bind_inv in H as (u & w3 & Hau & [-> ->]%ret_inv).
    assert (keeps collection_tables w1 w3) as Hk3 by (eapply (moves_run (keeps _)); [|exact Hau]; unfold _audit; frame_tac).
    split_and!; [|by eapply collection_inv_kept|done]. unfold accepted. cbn [cr_duplicate cr_executions].
    split_and!; [done| |].
    + intros e (H1 & H2 & H3)%Hes. rewrite (scope_of_company (co_id company)) in H3 by (intros f Hf; by apply Hcf).
      apply list_elem_of_fmap in H3 as (fam & [= Hc1 Hc2] & Hin). rewrite Hc1, Hc2, <-Hfam. by split_and!.
    + destruct Hl as [([=] & Hk1 & Hk2 & Hk4) _ _ _ _ _ _], Hk3 as ([=] & ? & ? & ?). split_and!; [cbn; congruence|congruence..|lia].
Qed.

(** ** The request *)

(** Whatever the transaction did, time and the connection stayed. *)
Lemma transaction_moves company_id scope origin actor ip correlation current retry :
  moves (keeps (fun _ => tt)) (request_in_transaction (B:=B) company_id scope origin actor ip correlation current retry).
Proof.
  assert (forall fs, moves (keeps (fun _ => tt)) (active_executions (B:=B) fs)) as H1.
  { induction fs as [|f fs IH]; cbn [active_executions]; unfold _active_execution, save_flow; frame_tac; apply IH. }
  assert (forall fs, moves (keeps (fun _ => tt)) (flow_policies (B:=B) current fs)) as H2.
  { induction fs as [|f fs IH]; cbn [flow_policies]; unfold flow_policy, select_policy; frame_tac; apply IH. }
  assert (forall company rt fs, moves (keeps (fun _ => tt)) (start_executions (B:=B) company scope origin actor rt correlation current fs)) as H3.
  { intros company rt. induction fs as [|[f p] fs IH]; cbn [start_executions]; [frame_tac|].
    unfold start_execution, save_execution, save_flow. frame_tac; apply IH. }
  unfold request_in_transaction, _current_certificate, retry_target, _audit. frame_tac; solve [apply H1|apply H2|apply H3].
Qed.

Lemma rolled_back {A} (m : M B A) w e w' :
  moves (keeps (fun _ => tt)) m -> atomic m w = (Err e, w') -> keeps (fun d => d) w w'.
Proof.
  intros Hm Ha. unfold atomic in Ha. specialize (Hm w). destruct (online w); [|injection Ha as _ <-; reflexivity].
  destruct (m w) as [[a|x] w1]; [done|]. injection Ha as _ <-. destruct Hm as (_ & Hk & Ho & Hn). by split_and!.
Qed.

Lemma now_inv_or (now : option datetime) w r w' :
  _now (B:=B) now w = (r, w') -> w' = w.
Proof. unfold _now, timezone_now. run. destruct (opt_default (Aware (clock w)) now); intros H; by inversion H. Qed.

Lemma accepted_from company scope origin actor current r w0 w w' :
  db w = db w0 -> keeps (fun d => d) w0 w -> accepted company scope origin actor current r w w' ->
  accepted company scope origin actor current r w0 w'.
Proof.
  unfold accepted. intros He Hk. rewrite He. destruct (cr_duplicate r); [|done]. intros (H1 & H2 & H3). split_and!; [done..|].
  etrans; [|exact H3]. destruct Hk as (_ & ? & ? & ?). split_and!; [by rewrite He|done..].
Qed.

(** What a request answers and leaves behind, in every case. *)
Lemma request_collection_ok company_id scope origin actor ip now retry w :
  collection_inv w ->
  match request_collection (B:=B) company_id scope origin actor ip now retry w with
  | (Ok r, w') => exists selected from company current,
      CollectionScope.of_value scope = Some selected /\ CollectionOrigin.of_value origin = Some from /\
      _require_actor from actor = Ok tt /\ _now now w = (Ok current, w) /\ may_collect company_id current company (db w) /\
      accepted (co_id company) selected from actor current r w w' /\ collection_inv w' /\
      (cr_duplicate r = false -> from <> CollectionOrigin.RETRY)
  | (Err _, w') => keeps collection_tables w w'
  end.
Proof.
  intros Hinv. unfold request_collection.
  assert (keeps collection_tables w w) as Hself by reflexivity.
  destruct (CollectionScope.of_value scope) as [selected|]; [|exact Hself].
  destruct (CollectionOrigin.of_value origin) as [from|]; [|exact Hself].
  cbn [of_option]. unfold bind at 1. cbn [ret]. unfold bind at 1. cbn [ret].
  destruct (_require_actor from actor) as [[]|x] eqn:Hact; [|exact Hself].
  cbn [lift_result]. unfold bind at 1. cbn [ret].
  unfold bind at 1. destruct (_now now w) as [r0 w0] eqn:Hnow. pose proof (now_inv_or _ _ _ _ Hnow) as ->.
  destruct r0 as [current|x]; [|exact Hself]. cbn zeta. unfold bind at 1. cbn [uuid4].
  set (w0 := w <| next_uuid ::= N.succ |>). assert (keeps (fun d => d) w w0) as Hk0 by (split_and!; [done..|cbn; lia]).
  assert (collection_inv w0) as Hinv0 by (eapply collection_inv_kept; [|exact Hinv]; split_and!; [done..|cbn; lia]).
  unfold try_except. destruct (atomic _ w0) as [[r|e] w1] eqn:Ha.
  - apply atomic_inv in Ha as [_ Ha].
    destruct (request_in_transaction_ok _ _ _ _ _ _ _ _ w0 r w1 Hinv0 Ha) as (company & Hmay & Hacc & Hinv1 & Hr).
    exists selected, from, company, current. split_and!; [done|done|done|done|exact Hmay|by apply (accepted_from _ _ _ _ _ _ w w0 w1)|done|done].
  - pose proof (rolled_back _ _ _ _ (transaction_moves _ _ _ _ _ _ _ _) Ha) as Hk1.
    assert (keeps collection_tables w w1) as Hk.
    { etrans; [|destruct Hk1 as (He & ? & ? & ?); split_and!; [by rewrite He|done..]]. split_and!; [done..|cbn; lia]. }
    assert (forall reason c x res w3, bind (_audit (B:=B) "rejected" (ref_str company_id) (family_names (_families selected)) actor ip from
        reason c "") (fun _ => throw (A:=CollectionRequest) x) w1 = (res, w3) -> is_ok res = false /\ keeps collection_tables w w3) as Hrej.
    { intros reason c x w2 w3 H. unfold bind in H.
      assert (moves (keeps collection_tables) (_audit (B:=B) "rejected" (ref_str company_id) (family_names (_families selected)) actor ip from
        reason c "")) as Hm by (unfold _audit; frame_tac). specialize (Hm w1).
      destruct (_audit _ _ _ _ _ _ _ _ _ _) as [[u|y] w4]; injection H as <- <-; (split; [done|by etrans]). }
    destruct e; try exact Hk; (destruct (bind _ _ w1) as [[r|y] w2] eqn:Hb; destruct (Hrej _ _ _ _ _ Hb); done).
Qed.
End request.

(** ** Reconciling *)

Section reconcile.
Context {B : Type}.
Implicit Types w : World B.

Lemma get_execution_inv job w e w' :
  get_execution (B:=B) job w = (Ok e, w') -> w' = w /\ ex_job e = Some job /\ exists i, executions (db w) !! i = Some e.
Proof.
  unfold get_execution. intros H. apply bind_inv in H as (found & ? & [-> ->]%query_inv & H).
  destruct (select _ _) as [|x [|y l]] eqn:Hs; [done| |done]. apply ret_inv in H as [-> ->].
  assert (x ∈ select (of_job job) (executions (db w))) as [Hj Hi]%elem_of_select by (rewrite Hs; left).
  by apply of_job_spec in Hj.
Qed.

Lemma flow_row_inv company family w f w' :
  get_flow (B:=B) company family w = (Ok f, w') ->
  w' = w /\ fl_scope f = (company, family) /\ exists i, flows (db w) !! i = Some f.
Proof.
  unfold get_flow. intros H. apply bind_inv in H as (found & ? & [-> ->]%query_inv & H).
  destruct (select _ _) as [|x [|y l]] eqn:Hs; [done| |done]. apply ret_inv in H as [-> ->].
  assert (x ∈ select (flow_of company family) (flows (db w))) as [Hj Hi]%elem_of_select by (rewrite Hs; left).
  by apply flow_of_scope in Hj.
Qed.

(** What a reconciliation that returns did. *)
Lemma reconcile_inv job outcome result now w e' w' :
  reconcile_collection_job (B:=B) job outcome result now w = (Ok e', w') ->
  exists e f i j current, _now now w = (Ok current, w) /\ ex_job e = Some (job_id job) /\ executions (db w) !! i = Some e /\
    flows (db w) !! j = Some f /\ fl_scope f = ex_scope e /\
    if is_settled e then e' = e /\ w' = w
    else
      let kind := JobOutcomeKind.of_value outcome in
      let summary := _safe_summary (opt_default [] result) in
      let exhausted := attempts_exhausted job e (db w) in
      let f' := reconciled_flow kind summary exhausted current (clock w) f in
      e' = reconciled_execution kind summary exhausted current (clock w) e /\
      w' = w <| db ::= fun d => d <| executions ::= put (ex_id e') e' |> <| flows ::= put (fl_id f') f' |> |>.
Proof.
  unfold reconcile_collection_job. intros H. apply bind_inv in H as (current & w0 & Hn & H).
  pose proof (now_inv_or _ _ _ _ Hn) as ->. cbn zeta in H. apply atomic_inv in H as [_ H].
  apply bind_inv in H as (e & ? & (-> & Hj & i & Hi)%get_execution_inv & H).
  apply bind_inv in H as (f & ? & (-> & Hs & j & Hf)%flow_row_inv & H).
  exists e, f, i, j, current. split_and!; [done..|]. destruct (is_settled e); [by apply ret_inv in H|].
  apply bind_inv in H as (ex & ? & [-> ->]%query_inv & H). apply bind_inv in H as (t & ? & [-> ->]%now_inv & H).
  apply bind_inv in H as (? & ? & (_ & _ & ->)%save_execution_inv & H). apply bind_inv in H as (? & ? & ->%write_inv & [-> ->]%ret_inv).
  split; [done|]. by destruct w.
Qed.

Lemma collects_atomic {A} (m : M B A) :
  moves (keeps (fun _ => tt)) m -> (forall w a w', m w = (Ok a, w') -> collects w w') -> moves collects (atomic m).
Proof.
  intros Hm Hok w. destruct (atomic m w) as [[a|e] w'] eqn:Ha; cbn.
  - apply atomic_inv in Ha as [_ Ha]. by eapply Hok.
  - apply collects_still. destruct (rolled_back _ _ _ _ Hm Ha) as (Hd & ? & ? & ?). split_and!; [by rewrite Hd|done..].
Qed.

(** One attempt, as a step of the execution. *)
Lemma reconciled_step kind summary exhausted current now e :
  is_active e = true -> execution_step e (reconciled_execution kind summary exhausted current now e).
Proof.
  intros Ha. unfold reconciled_execution. destruct (verdict kind summary exhausted) as [[state err] terminal] eqn:Hv.
  assert ((terminal = true /\ state ∈ [CollectionExecutionState.CONCLUDED; CollectionExecutionState.EMPTY; CollectionExecutionState.BLOCKED] /\
           (err = "" <-> state <> CollectionExecutionState.BLOCKED)) \/
          (terminal = false /\ state ∈ [CollectionExecutionState.RETRYING; CollectionExecutionState.COOLDOWN; CollectionExecutionState.PARTIAL] /\
           err <> "")) as Hcase.
  { unfold verdict in Hv. destruct kind as [[]|]; try destruct exhausted; try destruct (query_valid summary && no_units summary);
      injection Hv as <- <- <-; first [right; split_and!; [done|by_deciding|done]|left; split_and!; [done|by_deciding|by split]]. }
  destruct Hcase as [(-> & Hst & Herr)|(-> & Hst & Herr)]; [apply attempt_ends|apply attempt_waits]; done.
Qed.

Lemma reconciled_flow_frame kind summary exhausted current now e f :
  let e' := reconciled_execution kind summary exhausted current now e in
  let f' := reconciled_flow kind summary exhausted current now f in
  fl_id f' = fl_id f /\ fl_scope f' = fl_scope f /\
  fl_active_execution f' = (if is_active e' then fl_active_execution f else None) /\
  fl_collection_state f' = CollectionExecutionState.value (ex_state e') /\ fl_safe_error f' = ex_safe_error e'.
Proof.
  unfold reconciled_execution, reconciled_flow, is_active, verdict. cbn zeta.
  destruct kind as [[]|]; try destruct exhausted; try destruct (query_valid summary && no_units summary); by split_and!.
Qed.

Lemma step_request e e' : execution_step e e' -> same_request e e' /\ ex_state e' <> CollectionExecutionState.RUNNING /\
  ex_state e' <> CollectionExecutionState.FAILED.
Proof. intros [_ Hr _ Hs _ _|_ Hr _ Hs _ _]; (split; [done|]); split; intros He; rewrite He in Hs; by apply (bool_decide_pack _) in Hs. Qed.

Lemma collects_reconcile job outcome result now : moves collects (reconcile_collection_job (B:=B) job outcome result now).
Proof.
  intros w. destruct (reconcile_collection_job job outcome result now w) as [[e'|x] w'] eqn:Hr; cbn.
  - destruct (reconcile_inv _ _ _ _ _ _ _ Hr) as (e & f & i & j & current & _ & Hj & Hi & Hf & Hs & H).
    destruct (is_settled e) eqn:Hset; [destruct H as [_ ->]; reflexivity|]. cbn zeta in H. destruct H as [He' ->].
    set (f' := reconciled_flow _ _ _ _ _ f). rewrite settled_inactive in Hset. apply negb_false_iff in Hset as Ha.
    pose proof (reconciled_step (JobOutcomeKind.of_value outcome) (_safe_summary (opt_default [] result))
      (attempts_exhausted job e (db w)) current (clock w) e Ha) as Hstep. rewrite <-He' in Hstep.
    destruct (reconciled_flow_frame (JobOutcomeKind.of_value outcome) (_safe_summary (opt_default [] result))
      (attempts_exhausted job e (db w)) current (clock w) e f) as (Hfi & Hfs & Hfa & _). rewrite <-He' in Hfa. fold f' in Hfi, Hfs, Hfa.
    destruct (step_request _ _ Hstep) as ((H1 & H2 & _ & _ & _ & _ & H3 & _ & H4 & _) & H5 & H6).
    split_and!; [cbn; lia|done..|]. intros [Hinv Hok]. destruct (proj1 (col_executions _ _ Hok) _ _ Hi) as [Hei Hlt].
    destruct (proj1 (col_flows _ _ Hok) _ _ Hf) as [Hfj _]. rewrite <-Hfj in Hf. split; [split|].
    + eapply job_inv_kept; [|exact Hinv]. split_and!; [done..|cbn; lia].
    + cbn. eapply (collection_ok_attempt _ _ i e e' f f'); try done; congruence.
    + intros k x Hk. cbn. unfold put. rewrite H1, Hei. destruct (decide (i = k)) as [<-|Hne].
      * rewrite lookup_insert_eq. exists e'. split; [done|]. assert (x = e) as -> by congruence. by apply rtc_once.
      * rewrite lookup_insert_ne by done. exists x. split; [done|reflexivity].
  - apply collects_still. revert Hr. unfold reconcile_collection_job, bind at 1. destruct (_now now w) as [r0 w0] eqn:Hn.
    pose proof (now_inv_or _ _ _ _ Hn) as ->. destruct r0 as [current|y]; [|by intros [= _ <-]].
    intros (Hd & ? & ? & ?)%rolled_back; [split_and!; [by rewrite Hd|done..]|].
    unfold get_execution, get_flow, save_execution, save_flow. frame_tac.
Qed.
End reconcile.

#[export] Hint Resolve collects_reconcile : frames.
#[export] Hint Extern 2 (moves collects (audit _)) => apply collects_keeping; frame_tac : frames.

(** ** Every operation *)

Section commands.
Context {B : Type} (engine : JobEngine).
Implicit Types w : World B.

Lemma request_moves company_id scope origin actor ip now retry :
  moves (keeps (fun _ => tt)) (request_collection (B:=B) company_id scope origin actor ip now retry).
Proof.
  unfold request_collection, _now, _audit. frame_tac; try apply transaction_moves; intros w; split_and!; try done; cbn; lia.
Qed.

Lemma collects_request company_id scope origin actor ip now retry :
  moves collects (request_collection (B:=B) company_id scope origin actor ip now retry).
Proof.
  intros w. pose proof (request_moves company_id scope origin actor ip now retry w) as (_ & Hk & Ho & Hn).
  split_and!; [done..|]. intros Hinv. pose proof (request_collection_ok company_id scope origin actor ip now retry w Hinv) as H.
  destruct (request_collection _ _ _ _ _ _ _ w) as [[r|x] w']; cbn in *.
  - destruct H as (selected & from & company & current & _ & _ & _ & _ & _ & Hacc & Hinv' & _). split; [done|].
    unfold accepted in Hacc. destruct (cr_duplicate r).
    + destruct Hacc as (_ & _ & [= He _] & _). by apply moved_on_same.
    + destruct Hacc as (_ & _ & Hkeep & _). intros i e Hi. exists e. split; [by apply Hkeep|reflexivity].
  - split; [by eapply collection_inv_kept|]. apply moved_on_same. by destruct H as ([=] & _).
Qed.

Lemma collects_handler job : moves collects (collection_handler (B:=B) job).
Proof.
  unfold collection_handler, payload_outcome. frame_tac.
  apply collects_keeping. unfold get_execution. frame_tac.
Qed.

Lemma collects_settle id st err current : moves collects (settle_request (B:=B) id st err current).
Proof. apply collects_keeping. unfold settle_request. frame_tac. Qed.

Lemma collects_initial now : moves collects (process_initial_collection_requests (B:=B) now).
Proof.
  assert (forall current handoff, moves collects (process_handoff (B:=B) current handoff)) as Hp.
  { intros current handoff. unfold process_handoff. frame_tac; first [apply collects_request|apply collects_settle]. }
  unfold process_initial_collection_requests, _now. frame_tac.
Qed.

Lemma collects_set_flow actor id family st ip : moves collects (set_flow_state (B:=B) actor id family st ip).
Proof.
  unfold set_flow_state, _require_company_access. apply moves_bind; [apply _|frame_tac|intros _].
  apply moves_bind; [apply _|frame_tac|intros fam]. apply moves_bind; [apply _|frame_tac|intros s].
  apply collects_atomic; [unfold _company, get_flow, save_flow; frame_tac|].
  intros w f w' H. apply bind_inv in H as (c & w1 & Hc & H). assert (w1 = w) as -> by (unfold _company in Hc; by invert_db).
  apply bind_inv in H as (? & ? & [_ ->]%require_inv & H).
  apply bind_inv in H as (f0 & ? & (-> & Hs & j & Hf)%flow_row_inv & H). apply bind_inv in H as (now & ? & [-> ->]%now_inv & H).
  cbn zeta in H. apply bind_inv in H as (? & w2 & Hw2%write_inv & H). apply bind_inv in H as (? & w3 & Ha & [-> ->]%ret_inv).
  etrans; [|eapply (moves_run collects); [|exact Ha]; frame_tac]. rewrite Hw2.
  split_and!; [cbn; lia|done..|]. intros [Hinv Hok]. split; [split|by apply moved_on_same].
  - eapply job_inv_kept; [|exact Hinv]. split_and!; [done..|cbn; lia].
  - destruct (proj1 (col_flows _ _ Hok) _ _ Hf) as [Hj _]. rewrite <-Hj in Hf. set (g := f0 <| fl_state := s |> <| fl_updated_at := clock w |>).
    change (collection_ok (next_uuid w) (db w <| flows ::= put (fl_id g) g |>)). apply (collection_ok_flow _ _ f0 g); [done..|by left].
Qed.

(** The operations that touch executions, flows or jobs. *)
Inductive CollectionCommand : Type :=
| CmdRequest (company_id : uuid_ref) (scope origin : string) (actor : option SessionIdentity) (ip : string)
    (now : option datetime) (retry : option uuid_ref)
| CmdReconcile (job : Job) (outcome : string) (result : option pydict) (now : option datetime)
| CmdHandle (job : Job)
| CmdInitial (now : option datetime)
| CmdSetFlow (actor : SessionIdentity) (company_id family state ip : string)
| CmdEngine (op : Op).

Definition run_collection (c : CollectionCommand) (w : World B) : World B :=
  match c with
  | CmdRequest company_id scope origin actor ip now retry => (request_collection company_id scope origin actor ip now retry w).2
  | CmdReconcile job outcome result now => (reconcile_collection_job job outcome result now w).2
  | CmdHandle job => (collection_handler job w).2
  | CmdInitial now => (process_initial_collection_requests now w).2
  | CmdSetFlow actor company_id family state ip => (set_flow_state actor company_id family state ip w).2
  | CmdEngine op => (run_op engine op w).2
  end.

(** Operations, passing time, a lost or restored connection. *)
Inductive collection_step : relation (World B) :=
| step_command c w : collection_step w (run_collection c w)
| step_time w t : (clock w <= t)%Z -> collection_step w (w <| clock := t |>)
| step_connection w b : collection_step w (w <| online := b |>).

Lemma command_ok c w :
  (0 < lease_duration engine)%Z -> collection_inv w ->
  collection_inv (run_collection c w) /\ moved_on (db w) (db (run_collection c w)).
Proof.
  intros Hd Hinv. destruct c; cbn [run_collection].
  - by apply collects_request.
  - by apply collects_reconcile.
  - by apply collects_handler.
  - by apply collects_initial.
  - by apply collects_set_flow.
  - destruct Hinv as [Hj Hok]. pose proof (run_op_inv engine op w Hd Hj) as Hj'.
    destruct Hj as (Ht & Hlt & _). destruct (run_op_step engine op w Hd (tok_keyed _ Ht) Hlt) as ((_ & _ & _ & Hn & Hdb) & _).
    assert (executions (db (run_op engine op w).2) = executions (db w)) as He by (by rewrite Hdb).
    assert (flows (db (run_op engine op w).2) = flows (db w)) as Hf by (by rewrite Hdb).
    split; [split; [done|]|by apply moved_on_same].
    eapply collection_ok_same; [exact He|exact Hf|]. by eapply collection_ok_mono.
Qed.

Lemma collection_step_ok w w' :
  (0 < lease_duration engine)%Z -> collection_step w w' -> collection_inv w -> collection_inv w' /\ moved_on (db w) (db w').
Proof.
  intros Hd [c x|x t Ht|x b] Hinv; [by apply command_ok|..]; (split; [|by apply moved_on_same]); destruct Hinv as [(H1 & H2 & H3) Hok].
  - split; [|done]. split_and!; [done..|]. intros i j Hj u Hu. specialize (H3 i j Hj u Hu). cbn. lia.
  - by split.
Qed.
End commands.

(** ** A job and its execution agree *)

Section agreement.
Context {B : Type} (engine : JobEngine).
Implicit Types w : World B.

Lemma select_only {R} (p : R -> bool) (t : gmap N R) i r :
  t !! i = Some r -> p r = true -> (forall j s, t !! j = Some s -> p s = true -> j = i) -> select p t = [r].
Proof.
  intros Hi Hp Hu. apply Permutation_singleton_r. rewrite (select_delete _ _ _ _ Hi Hp). apply perm_skip.
  destruct (select p (delete i t)) as [|x l] eqn:Hf; [done|]. exfalso.
  assert (x ∈ select p (delete i t)) as [Hx [j Hj]]%elem_of_select by (rewrite Hf; left).
  apply lookup_delete_Some in Hj as [Hne Hj]. by apply Hne, eq_sym, (Hu j x).
Qed.

(** The execution of a job, and the flow of an active execution, are found. *)
Lemma get_execution_found w i e job :
  collection_ok (next_uuid w) (db w) -> executions (db w) !! i = Some e -> ex_job e = Some job ->
  get_execution (B:=B) job w = (Ok e, w).
Proof.
  intros Hok Hi Hj. unfold get_execution, bind, query, gets. rewrite (select_only _ _ i e Hi); [done|by apply of_job_spec|].
  intros k x Hk Hx%of_job_spec. by eapply (col_jobs _ _ Hok).
Qed.

Lemma get_flow_found w i e :
  collection_ok (next_uuid w) (db w) -> executions (db w) !! i = Some e -> is_active e = true ->
  exists f, get_flow (B:=B) (ex_company e) (ex_family e) w = (Ok f, w) /\ flows (db w) !! fl_id f = Some f /\ fl_scope f = ex_scope e.
Proof.
  intros Hok Hi Ha. destruct (col_told _ _ Hok i e Hi Ha) as (j & f & Hf & Hs & _). exists f.
  destruct (proj1 (col_flows _ _ Hok) _ _ Hf) as [Hid _]. split_and!; [|by rewrite Hid|done].
  unfold get_flow, bind, query, gets. rewrite (select_only _ _ j f Hf); [done|by apply flow_of_scope|].
  intros k g Hk Hg%flow_of_scope. eapply (proj2 (col_flows _ _ Hok)); [exact Hk|exact Hf|]. by rewrite Hg.
Qed.

(** Saving an execution under its own job and scope meets no conflict. *)
Lemma no_conflict_same w i e e' :
  collection_ok (next_uuid w) (db w) -> executions (db w) !! i = Some e -> is_active e = true -> same_request e e' ->
  execution_conflict e' (db w) = false.
Proof.
  intros Hok Hi Ha (H1 & H2 & _ & _ & _ & _ & H3 & _). unfold execution_conflict. apply exists_row_false. intros j x Hj.
  destruct (proj1 (col_executions _ _ Hok) _ _ Hi) as [Hei _], (proj1 (col_executions _ _ Hok) _ _ Hj) as [Hxj _].
  rewrite H1, Hei, Hxj. destruct (N.eqb_spec j i) as [->|Hne]; [done|]. cbn [negb andb]. apply orb_false_iff. split.
  - destruct (is_active e'), (is_active x) eqn:Hx; cbn [andb]; try done.
    destruct (same_flow _ _ x) eqn:Hs; [|done]. apply same_flow_scope in Hs. exfalso.
    apply Hne. eapply (col_active _ _ Hok); [exact Hj|exact Hi|done|done|]. rewrite Hs. exact H2.
  - rewrite H3. destruct (ex_job e) as [k|] eqn:Hk; [|done]. destruct (of_job k x) eqn:Hx; [|done].
    apply of_job_spec in Hx. exfalso. apply Hne. by eapply (col_jobs _ _ Hok).
Qed.

(** A reconciliation of an active execution returns. *)
Lemma reconcile_returns job outcome result w i e :
  collection_inv w -> online w = true -> executions (db w) !! i = Some e -> ex_job e = Some (job_id job) -> is_active e = true ->
  exists f, flows (db w) !! fl_id f = Some f /\ fl_scope f = ex_scope e /\
    let kind := JobOutcomeKind.of_value outcome in
    let summary := _safe_summary (opt_default [] result) in
    let exhausted := attempts_exhausted job e (db w) in
    let e' := reconciled_execution kind summary exhausted (clock w) (clock w) e in
    let f' := reconciled_flow kind summary exhausted (clock w) (clock w) f in
    reconcile_collection_job (B:=B) job outcome result None w =
      (Ok e', w <| db ::= fun d => d <| executions ::= put (ex_id e') e' |> <| flows ::= put (fl_id f') f' |> |>).
Proof.
  intros [Hj Hok] Ho Hi Hje Ha. destruct (get_flow_found w i e Hok Hi Ha) as (f & Hg & Hf & Hs). exists f. split; [done|]. split; [done|].
  cbn zeta. set (e' := reconciled_execution _ _ _ _ _ e). set (f' := reconciled_flow _ _ _ _ _ f).
  assert (execution_step e e') as Hst by (by apply reconciled_step).
  destruct (step_request _ _ Hst) as [Hreq _]. pose proof (no_conflict_same w i e e' Hok Hi Ha Hreq) as Hc.
  assert (correlation_check (ex_correlation_id e') = true) as Hcc.
  { destruct Hreq as (_ & _ & _ & _ & _ & _ & _ & _ & -> & _). by apply (col_states _ _ Hok i e). }
  unfold reconcile_collection_job, atomic. unfold bind at 1. cbn [_now]. unfold _now, timezone_now, bind, gets, ret. cbn [opt_default].
  rewrite Ho. rewrite (get_execution_found w i e (job_id job) Hok Hi Hje). cbn beta iota. rewrite Hg. cbn beta iota.
  rewrite settled_inactive, Ha. cbn [negb]. unfold query, gets. fold e' f'.
  unfold save_execution, save_flow, bind, query, gets, require, write, modify, ret. fold e'. rewrite Hc, Hcc. cbn [negb andb].
  fold e' f'. by destruct w.
Qed.

(** The job's state that goes with an execution's. *)
Definition matching (state : CollectionExecutionState.t) (job : JobState.t) : Prop :=
  match state with
  | CollectionExecutionState.CONCLUDED | CollectionExecutionState.EMPTY => job = JobState.COMPLETED
  | CollectionExecutionState.BLOCKED => job = JobState.BLOCKED
  | CollectionExecutionState.RETRYING | CollectionExecutionState.COOLDOWN | CollectionExecutionState.PARTIAL => job = JobState.QUEUED
  | CollectionExecutionState.QUEUED | CollectionExecutionState.RUNNING | CollectionExecutionState.FAILED => False
  end.

(** The handler's results are of a known kind, safe, and a cooldown lies ahead. *)
Lemma classified_known outcome now :
  let c := classified_outcome outcome now in
  exists kind, JobOutcomeKind.of_value (ho_kind c) = Some kind /\
    _validate_safe_value "result" (VDict (ho_result c)) = Ok (VDict (ho_result c)) /\
    (kind = JobOutcomeKind.COOLDOWN -> ho_cooldown_until c = Some (Aware (now + seconds 3600)%Z)).
Proof.
  unfold classified_outcome. destruct (String.eqb outcome "blocked"); [by eexists|].
  destruct (String.eqb outcome "cooldown"); [by eexists|]. destruct (str_in outcome _); [by eexists|].
  destruct (String.eqb outcome "partial"); by eexists.
Qed.

(** Both sides of an attempt read the same classification the same way. *)
Lemma verdict_matches kind summary o safe code p now j :
  (kind = JobOutcomeKind.COOLDOWN -> exists t, ho_cooldown_until o = Some (Aware t) /\ (now < t)%Z) ->
  exists fields, finalize_fields engine kind o safe code (Some p) now j = Ok fields /\
    matching (verdict (Some kind) summary (Z.ltb (pol_retry_limit p) (job_attempt_count j))).1.1 (job_state (fields j)).
Proof.
  intros Hcd. unfold finalize_fields, verdict, _cooldown_due. destruct kind.
  - eexists. split; [reflexivity|]. by destruct (query_valid summary && no_units summary).
  - destruct (Z.ltb _ _); by eexists.
  - destruct (Z.ltb _ _); [by eexists|]. destruct (Hcd eq_refl) as (t & -> & Ht). destruct (Z.leb_spec t now); [lia|]. by eexists.
  - by eexists.
  - destruct (Z.ltb _ _); by eexists.
Qed.

Lemma reconciled_state kind summary exhausted current now e :
  ex_state (reconciled_execution kind summary exhausted current now e) = (verdict kind summary exhausted).1.1.
Proof. unfold reconciled_execution. by destruct (verdict kind summary exhausted) as [[state err] terminal]. Qed.

(** The handler on an active execution. *)
Lemma handler_returns w i e j d :
  collection_inv w -> online w = true -> executions (db w) !! i = Some e -> ex_job e = Some (job_id j) -> is_active e = true ->
  job_payload j = VDict d ->
  exists outcome f, let c := classified_outcome outcome (clock w) in
    let kind := JobOutcomeKind.of_value (ho_kind c) in
    let exhausted := attempts_exhausted j e (db w) in
    let e' := reconciled_execution kind (_safe_summary (ho_result c)) exhausted (clock w) (clock w) e in
    let f' := reconciled_flow kind (_safe_summary (ho_result c)) exhausted (clock w) (clock w) f in
    flows (db w) !! fl_id f = Some f /\ fl_scope f = ex_scope e /\
    collection_handler (B:=B) j w =
      (Ok (Outcome c), w <| db ::= fun d => d <| executions ::= put (ex_id e') e' |> <| flows ::= put (fl_id f') f' |> |>).
Proof.
  intros Hinv Ho Hi Hj Ha Hp.
  set (outcome := match assoc "outcome" d with None => "valid_empty" | Some (VStr s) => s | Some _ => "" end).
  set (c := classified_outcome outcome (clock w)).
  destruct (reconcile_returns j (ho_kind c) (Some (ho_result c)) w i e Hinv Ho Hi Hj Ha) as (f & Hf & Hs & Hr).
  exists outcome, f. cbn zeta. split; [done|]. split; [done|].
  unfold collection_handler, autocommit, atomic. unfold bind at 1. rewrite Ho, (get_execution_found w i e _ (proj2 Hinv) Hi Hj).
  cbn beta iota. rewrite settled_inactive, Ha, Hp. cbn [negb]. unfold payload_outcome, timezone_now, bind, gets, ret. fold outcome c.
  by rewrite Hr.
Qed.
End agreement.

(** C19 Collections follow their life cycle: over any sequence of requests,
    reconciliations, handler runs, scheduler passes, flow changes and job engine
    operations, in any order and with any arguments, with time passing and the
    connection lost in between - whether each returns or raises - there is at
    most one active execution per company and family, no two share a job, each
    active one is the one its flow points to, no execution is lost, and each
    moves only as an attempt may: ending once (concluded, empty, blocked) or
    waiting for another attempt. *)
Theorem collections_follow_lifecycle {B} (engine : JobEngine) (w w' : World B) :
  (0 < lease_duration engine)%Z -> collection_inv w -> rtc (collection_step engine) w w' ->
  collection_inv w' /\ moved_on (db w) (db w').
Proof.
  intros Hd Hinv Hr. induction Hr as [x|x y z Hxy _ IH]; [by split|].
  destruct (collection_step_ok engine x y Hd Hxy Hinv) as [Hy H1]. destruct (IH Hy) as [Hz H2]. split; [done|by etrans].
Qed.

(** C26 Requesting a collection: the request is refused without a trace in
    executions, flows or jobs; or it finds executions still active for the
    company's requested families and returns exactly such rows, starting nothing;
    or none was active and it queues one new execution per family, in order, with
    the policy in force, its own job under its own key, and its flow pointing to
    it - for an active company with a usable current certificate, and an actor
    allowed to. *)
Theorem request_collection_contract {B} company_id scope origin actor ip now retry (w : World B) :
  collection_inv w ->
  match request_collection company_id scope origin actor ip now retry w with
  | (Ok r, w') => exists selected from company current,
      CollectionScope.of_value scope = Some selected /\ CollectionOrigin.of_value origin = Some from /\
      _require_actor from actor = Ok tt /\ _now now w = (Ok current, w) /\ may_collect company_id current company (db w) /\
      accepted (co_id company) selected from actor current r w w' /\ collection_inv w'
  | (Err _, w') => keeps collection_tables w w'
  end.
Proof.
  intros Hinv. pose proof (request_collection_ok company_id scope origin actor ip now retry w Hinv) as H.
  destruct (request_collection _ _ _ _ _ _ _ w) as [[r|x] w']; [|done].
  destruct H as (selected & from & company & current & H1 & H2 & H3 & H4 & H5 & H6 & H7 & _).
  exists selected, from, company, current. by split_and!.
Qed.

(** A retry never starts: on well-formed tables a request of origin "retry" is
    refused or answered with the executions still active, because no execution is
    ever failed and a partial one is still active. *)
Theorem retry_never_starts {B} company_id scope actor ip now retry (w w' : World B) r :
  collection_inv w ->
  request_collection company_id scope "retry" actor ip now retry w = (Ok r, w') -> cr_duplicate r = true.
Proof.
  intros Hinv Hr. pose proof (request_collection_ok company_id scope "retry" actor ip now retry w Hinv) as H. rewrite Hr in H.
  destruct H as (selected & from & company & current & _ & Hfrom & _ & _ & _ & _ & _ & Hd).
  destruct (cr_duplicate r); [done|]. exfalso. injection Hfrom as <-. by apply Hd.
Qed.

(** C25 After an attempt on an active execution the job and the execution agree: when
    a worker runs the collection handler on a job whose unexpired lease it holds, for
    an execution that is still active and has the job's policy, the attempt returns, the execution takes one step of its life
    cycle, its flow shows its state, and the job ends in the matching state -
    completed with a concluded or empty execution, blocked with a blocked one,
    queued again exactly when the execution waits for another attempt. It says
    nothing of an execution settled before the attempt: there the handler answers
    at once with a success, whatever state the execution was settled in. *)
Theorem attempt_agrees {B} (engine : JobEngine) handlers owner (w : World B) i e j d p policy :
  collection_inv w -> online w = true -> executions (db w) !! i = Some e -> ex_job e = Some (job_id j) -> is_active e = true ->
  jobs (db w) !! job_id j = Some j -> lease_held (clock w) owner j = true ->
  get_handler (job_job_type j) handlers = Some collection_handler -> job_payload j = VDict d ->
  ex_effective_policy e = Some p -> job_effective_policy j = Some p -> policies (db w) !! p = Some policy ->
  exists e' f' j' w', run_handler engine handlers owner j w = (Ok tt, w') /\
    executions (db w') !! i = Some e' /\ execution_step e e' /\
    flows (db w') !! fl_id f' = Some f' /\ fl_scope f' = ex_scope e /\
    fl_collection_state f' = CollectionExecutionState.value (ex_state e') /\
    jobs (db w') !! job_id j = Some j' /\ matching (ex_state e') (job_state j').
Proof.
  intros Hinv Ho Hi Hje Ha Hj Hl Hh Hp Hep Hjp Hpol.
  destruct (handler_returns w i e j d Hinv Ho Hi Hje Ha Hp) as (outcome & f & Hf & Hs & Hr). cbn zeta in Hr.
  destruct (classified_known outcome (clock w)) as (kind & Hk & Hsafe & Hcd). cbn zeta in Hk, Hsafe, Hcd. rewrite Hk in Hr.
  set (c := classified_outcome outcome (clock w)) in *. set (exhausted := attempts_exhausted j e (db w)) in *.
  assert (exhausted = Z.ltb (pol_retry_limit policy) (job_attempt_count j)) as Hex
    by (unfold exhausted, attempts_exhausted; rewrite Hep; cbn; by rewrite Hpol).
  set (e' := reconciled_execution _ _ _ _ _ e) in Hr. set (f' := reconciled_flow _ _ _ _ _ f) in Hr.
  match type of Hr with _ = (_, ?x) => set (w1 := x) in Hr end.
  destruct (verdict_matches engine kind (_safe_summary (ho_result c)) c (VDict (ho_result c))
    (_safe_error_code (str_or (ho_error_code c) (ho_kind c))) policy (clock w) j) as (fields & Hfields & Hm).
  { intros Hc. exists (clock w + seconds 3600)%Z. split; [by apply Hcd|]. unfold seconds, second. lia. }
  pose proof (finalize_held engine (job_id j) owner c kind (VDict (ho_result c)) j w1 Ho Hj Hl Hk Hsafe) as Hfin.
  rewrite Hjp in Hfin. cbn [mbind option_bind] in Hfin. change (policies (db w1)) with (policies (db w)) in Hfin.
  change (clock w1) with (clock w) in Hfin. rewrite Hpol, Hfields in Hfin. cbn zeta in Hfin.
  assert (execution_step e e') as Hstep by (by apply reconciled_step).
  destruct (step_request _ _ Hstep) as ((Hid & _) & _). destruct (proj1 (col_executions _ _ (proj2 Hinv)) _ _ Hi) as [Hei _].
  destruct (reconciled_flow_frame (Some kind) (_safe_summary (ho_result c)) exhausted (clock w) (clock w) e f) as (_ & Hfs & _ & Hst & _).
  exists e', f', (fields j <| job_updated_at := clock w |>), (with_jobs (put (job_id j) (fields j <| job_updated_at := clock w |>) (jobs (db w))) w1).
  split_and!.
  - unfold run_handler. rewrite Hh. unfold try_except, bind, ret. rewrite Hr. cbn beta iota. by rewrite Hfin.
  - cbn. unfold put. by rewrite Hid, Hei, lookup_insert_eq.
  - done.
  - cbn. unfold put. by rewrite lookup_insert_eq.
  - by rewrite <-Hs.
  - done.
  - cbn. unfold put. by rewrite lookup_insert_eq.
  - unfold e'. rewrite reconciled_state, Hex. exact Hm.
Qed.
