(* ===== verification/CollectionRuns.v ===== *)
(** * A concrete run of the collection services

    A company with a current certificate, two enabled flows and a policy; both
    families are requested, requested again, and one job is worked off; the
    theorems of [CollectionGuarantees] are applied along the run. *)

From Stdlib Require Import ZArith Ascii String Lia.
From stdpp Require Import base decidable list gmap strings relations.
From S2P Require Import Prelude PyStr PyVal Models AuditTrail Identity Companies CompanyFacts JobPolicies JobEngine JobLifecycle JobGuarantees Tables Certificates Collection CollectionFacts CollectionGuarantees.

Local Open Scope string_scope.

Definition col_engine : JobEngine := MkJobEngine (seconds 30) (fun _ => 0%Z).
Definition col_admin : SessionIdentity := MkSessionIdentity (uuid_str 7) "admin@example.org" "Admin" "administrador".

Definition col_company : Company := new_company 3 (seconds 1) "11222333000181" "First Ltda" <| co_status := CompanyStatus.ACTIVE |>.
Definition col_certificate : Certificate :=
  activated (seconds 2) (new_certificate 4 (seconds 1) 3 (MkEnvelopePayload "" "" "" "" "")
    (MkParsedCertificate "f00d" "11222333000181" 0 (days 365))).
Definition col_flow (id : N) (family : FlowFamily.t) : CompanyFlow :=
  new_flow id (seconds 1) 3 family.

Definition col_start : World unit :=
  MkWorld (empty_db <| companies := {[3%N := col_company]} |> <| certificates := {[4%N := col_certificate]} |>
             <| flows := {[5%N := col_flow 5 FlowFamily.NFE; 6%N := col_flow 6 FlowFamily.NFSE]} |>
             <| policies := {[9%N := sample_policy 9 "*" "*"]} |>) (seconds 5) 10 true verbatim tt.

Definition col_request (origin : string) : M unit CollectionRequest :=
  request_collection (RefStr (uuid_str 3)) "completa" origin (Some col_admin) "10.0.0.1" None None.

Definition no_answer : CollectionRequest := MkCollectionRequest [] true.
Definition col_answer : CollectionRequest :=
  Eval vm_compute in match (col_request "manual" col_start).1 with Ok r => r | Err _ => no_answer end.
Definition col_queued : World unit := Eval vm_compute in (col_request "manual" col_start).2.
Definition col_claimed : World unit := Eval vm_compute in (run_op col_engine (OpClaim ∅ "worker-a") col_queued).2.
Definition col_again : CollectionRequest :=
  match (col_request "retry" col_claimed).1 with Ok r => r | Err _ => no_answer end.

Definition no_execution : CollectionExecution :=
  new_execution 0 0 0 FlowFamily.NFE CollectionScope.NFE CollectionOrigin.MANUAL None None 0 "".
Definition no_job : Job := new_job 0 0 (collection_job no_execution 0 (sample_policy 0 "*" "*")) VNone 0 None.
Definition taken_execution : CollectionExecution := Eval vm_compute in opt_default no_execution (executions (db col_claimed) !! 13%N).
Definition taken_job : Job := Eval vm_compute in opt_default no_job (jobs (db col_claimed) !! 14%N).
Definition taken_payload : pydict := Eval vm_compute in match job_payload taken_job with VDict d => d | _ => [] end.

Definition col_handlers : registry unit := <["collection.synthetic" := collection_handler]> ∅.

Lemma col_registered : ensure_collection_handler (B:=unit) ∅ = Ok col_handlers.
Proof. reflexivity. Qed.

Lemma col_handled : get_handler (job_job_type taken_job) col_handlers = Some collection_handler.
Proof. unfold get_handler, col_handlers, registry. apply lookup_insert_eq. Qed.

Lemma col_run : col_request "manual" col_start = (Ok col_answer, col_queued).
Proof. vm_compute. reflexivity. Qed.

Lemma col_claim : run_op col_engine (OpClaim ∅ "worker-a") col_queued = (Ok tt, col_claimed).
Proof. vm_compute. reflexivity. Qed.

Lemma col_lease : (0 < lease_duration col_engine)%Z.
Proof. reflexivity. Qed.

Lemma two_flows i f :
  flows (db col_start) !! i = Some f -> i = 5%N /\ f = col_flow 5 FlowFamily.NFE \/ i = 6%N /\ f = col_flow 6 FlowFamily.NFSE.
Proof.
  cbn -[lookup]. rewrite lookup_insert_Some, lookup_singleton_Some. intros [[<- <-]|[_ [<- <-]]]; [by left|by right].
Qed.

Lemma col_start_ok : collection_inv col_start.
Proof.
  split; [by apply job_inv_empty|].
  assert (forall i e, executions (db col_start) !! i = Some e -> False) as Hnone by (intros i e; cbn; by rewrite lookup_empty).
  split; try (intros; exfalso; by eapply Hnone); [split; intros; exfalso; by eapply Hnone|split|].
  - intros i f [[-> ->]|[-> ->]]%two_flows; cbn; split; done || lia.
  - intros i j f g [[-> ->]|[-> ->]]%two_flows [[-> ->]|[-> ->]]%two_flows; done.
  - intros j f i [[-> ->]|[-> ->]]%two_flows; done.
Qed.

Lemma col_queued_ok : collection_inv col_queued.
Proof.
  pose proof (command_ok col_engine (CmdRequest (RefStr (uuid_str 3)) "completa" "manual" (Some col_admin) "10.0.0.1" None None)
    col_start col_lease col_start_ok) as [H _]. cbn [run_collection] in H. fold (col_request "manual") in H. by rewrite col_run in H.
Qed.

Lemma col_claimed_ok : collection_inv col_claimed.
Proof.
  pose proof (command_ok col_engine (CmdEngine (OpClaim ∅ "worker-a")) col_queued col_lease col_queued_ok) as [H _].
  cbn [run_collection] in H. by rewrite col_claim in H.
Qed.

(** Requested, claimed: the invariant holds, and what was queued is still there. *)
Lemma collections_follow_lifecycle_witness :
  rtc (collection_step col_engine) col_start col_claimed /\
  collection_inv col_claimed /\ moved_on (db col_start) (db col_claimed).
Proof.
  assert (Hr : rtc (collection_step col_engine) col_start col_claimed).
  { apply (rtc_l _ _ col_queued); [|apply (rtc_l _ _ col_claimed); [|apply rtc_refl]].
    - replace col_queued with (run_collection col_engine
        (CmdRequest (RefStr (uuid_str 3)) "completa" "manual" (Some col_admin) "10.0.0.1" None None) col_start); [constructor|].
      cbn [run_collection]. fold (col_request "manual"). by rewrite col_run.
    - replace col_claimed with (run_collection col_engine (CmdEngine (OpClaim ∅ "worker-a")) col_queued); [constructor|].
      cbn [run_collection]. by rewrite col_claim. }
  split; [exact Hr|]. exact (collections_follow_lifecycle col_engine col_start col_claimed col_lease col_start_ok Hr).
Defined.

Lemma request_collection_contract_witness :
  cr_duplicate col_answer = false /\ map ex_family (cr_executions col_answer) = [FlowFamily.NFE; FlowFamily.NFSE] /\
  exists company current, may_collect (RefStr (uuid_str 3)) current company (db col_start) /\
    accepted (co_id company) CollectionScope.COMPLETE CollectionOrigin.MANUAL (Some col_admin) current col_answer col_start col_queued.
Proof.
  pose proof (request_collection_contract (RefStr (uuid_str 3)) "completa" "manual" (Some col_admin) "10.0.0.1" None None
    col_start col_start_ok) as H. fold (col_request "manual") in H. rewrite col_run in H.
  destruct H as (selected & from & company & current & H1 & H2 & _ & _ & H5 & H6 & _).
  split; [reflexivity|]. split; [reflexivity|]. exists company, current. injection H1 as <-. injection H2 as <-. split; [exact H5|exact H6].
Defined.

Lemma retry_never_starts_witness :
  is_ok (col_request "retry" col_claimed).1 = true /\ cr_duplicate col_again = true.
Proof.
  assert (Hok : (col_request "retry" col_claimed).1 = Ok col_again) by (vm_compute; reflexivity).
  split; [by rewrite Hok|].
  exact (retry_never_starts (RefStr (uuid_str 3)) "completa" (Some col_admin) "10.0.0.1" None None col_claimed
    (col_request "retry" col_claimed).2 col_again col_claimed_ok (ran _ _ Hok)).
Defined.

Lemma attempt_agrees_witness :
  ex_state taken_execution = CollectionExecutionState.QUEUED /\
  exists e' f' j' w', run_handler col_engine col_handlers "worker-a" taken_job col_claimed = (Ok tt, w') /\
    executions (db w') !! 13%N = Some e' /\ execution_step taken_execution e' /\
    flows (db w') !! fl_id f' = Some f' /\ fl_scope f' = ex_scope taken_execution /\
    fl_collection_state f' = CollectionExecutionState.value (ex_state e') /\
    jobs (db w') !! job_id taken_job = Some j' /\ matching (ex_state e') (job_state j').
Proof.
  split; [reflexivity|].
  apply (attempt_agrees col_engine col_handlers "worker-a" col_claimed 13%N taken_execution taken_job taken_payload 9%N (sample_policy 9 "*" "*"));
    [exact col_claimed_ok|reflexivity|reflexivity|reflexivity|reflexivity|reflexivity|reflexivity|exact col_handled|reflexivity|reflexivity|reflexivity|reflexivity].
Defined.
