(* ===== verification/Sessions.v ===== *)
(** * Users and sessions (identity/services.py, identity/models.py)

    Login behind a throttle per account and address, sessions found again by the
    digest of their token and dropped when idle, revoked or outdated, and the
    administration of users.  Django's password hasher and its e-mail validator
    are parameters, as are the salt and the token the generator hands out; the
    advisory lock of the bootstrap only serialises, and the log line of an event
    is not modelled.  The database's own syntax of addresses is not checked. *)

From Stdlib Require Import ZArith Ascii String Lia.
From stdpp Require Import base decidable list gmap strings.
From S2P Require Import Prelude PyStr Sha256 PyVal Models AuditTrail Identity Companies JobPolicies JobEngine.

Local Open Scope string_scope.

(** ** Third-party code *)

Class PasswordHasher : Type := {
  make_password : string -> string -> string;  (** salt, password *)
  check_password : string -> string -> bool;   (** password, encoded *)
  valid_email : string -> bool }.

(** What is documented of them: a password checks against its own encoding. *)
Class PasswordHasherLaws `{PasswordHasher} : Prop := {
  check_made : forall salt password, check_password password (make_password salt password) = true }.

(** ** Digests ([hashlib], [hmac]) *)

(** The bytes a hexadecimal digest spells. *)
Fixpoint unhex (s : string) : string :=
  match s with
  | String a (String b r) =>
      match digit_value a, digit_value b with
      | Some x, Some y => String (chr (16 * x + y)) (unhex r)
      | _, _ => EmptyString
      end
  | _ => EmptyString
  end.

(** [hmac.new(key, message, sha256).hexdigest()] *)
Definition hmac_sha256 (key message : string) : string :=
  let key := if Nat.ltb 64 (String.length key) then unhex (sha256 key) else key in
  let block := (map code (chars key) ++ repeat 0%N (64 - String.length key))%list in
  let pad x := of_chars (map (fun c => chr (N.lxor c x)) block) in
  sha256 (pad 92%N ++ unhex (sha256 (pad 54%N ++ message))).

(** RFC 4231, test case 2. *)
Example hmac_rfc4231 :
  hmac_sha256 "Jefe" "what do ya want for nothing?" = "5bdcc146bf60754e6a042426089575c75a003f089d2739839dec58b964ec3843".
Proof. vm_compute. reflexivity. Qed.

Definition _digest (value : string) : string := sha256 (encode_utf8 value).

(** ** E-mail addresses *)

(** [str.casefold]: U+00DF becomes two letters; U+00B5, whose folding lies above
    U+00FF, is left as it is. *)
Definition casefold_char (c : ascii) : string :=
  if (code c =? 223)%N then "ss"
  else if is_upper c || in_range 192 214 c || in_range 216 222 c then String (chr (code c + 32)) EmptyString
  else String c EmptyString.

Fixpoint casefold (s : string) : string :=
  match s with EmptyString => EmptyString | String c r => casefold_char c ++ casefold r end.

Definition normalize_email (email : string) : string := casefold (strip email).

Definition admin_error {A} (msg : string) : result exn A := Err (UserAdministrationError msg).

(** An argument that may be any object: [isinstance(value, str)]. *)
Definition _validated_email `{PasswordHasher} (email : pyval) : result exn string :=
  match email with
  | VStr s => let normalized := normalize_email s in
              if valid_email normalized then Ok normalized else admin_error "Invalid email"
  | _ => admin_error "Invalid email"
  end.

Definition _require_administrator (actor : SessionIdentity) : result exn unit :=
  if String.eqb (si_role actor) (Role.value Role.ADMINISTRATOR) then Ok tt
  else admin_error "Administrator access required".

Definition _validated_reason (reason : pyval) : result exn string :=
  match reason with
  | VStr s => if str_nonempty (strip s) then Ok (strip s) else admin_error "A reason is required"
  | _ => admin_error "A reason is required"
  end.

(** ** Rows *)

Definition SESSION_IDLE_TIMEOUT : Z := (30 * 60 * 1000000)%Z.
Definition BOOTSTRAP_ADMIN_EMAIL : string := "guilherme.duarte@inovssc.com.br".

Definition user_fits (u : User) : bool :=
  width 254 (us_email u) && width 200 (us_name u) && width 255 (us_password_hash u) &&
  positive_integer (us_revocation_version u) && positive_integer (us_version u).

Definition email_taken (u : User) (d : DB) : bool :=
  exists_row (fun x => String.eqb (us_email x) (us_email u) && negb (N.eqb (us_id x) (us_id u))) (users d).

Definition new_user (id : N) (now : Z) (email name : string) (role : Role.t) (password_hash : string) : User :=
  MkUser id email name role password_hash true 1 1 now now.

Definition identity_of (u : User) : SessionIdentity :=
  MkSessionIdentity (uuid_str (us_id u)) (us_email u) (us_name u) (Role.value (us_role u)).

(** [User.objects.filter(email=email).first()]: ordered by the key. *)
Definition user_with_email (email : string) (d : DB) : option User :=
  first_by (by_key (fun u => Z.of_N (us_id u))) (select (fun u => String.eqb (us_email u) email) (users d)).

Definition session_with_token (token_hash : string) (d : DB) : option IdentitySession :=
  first_by (by_key (fun s => Z.of_N (se_id s))) (select (fun s => String.eqb (se_token_hash s) token_hash) (sessions d)).

Definition session_fits (s : IdentitySession) : bool :=
  width 64 (se_token_hash s) && width 64 (se_user_agent_hash s) && positive_integer (se_revocation_version s).

Definition session_check (s : IdentitySession) : bool := Z.leb (se_created_at s) (se_expires_at s).

Definition token_taken (s : IdentitySession) (d : DB) : bool :=
  exists_row (fun x => String.eqb (se_token_hash x) (se_token_hash s) && negb (N.eqb (se_id x) (se_id s))) (sessions d).

(** [min(2 ** min(failures - 1, 8), 300)] seconds *)
Definition login_delay (failures : Z) : Z := Z.min (2 ^ Z.min (failures - 1) 8) 300.

(** The session a login creates. *)
Definition login_session (id : N) (token user_agent : string) (user : User) (ip_address : string) (now : Z) : IdentitySession :=
  MkIdentitySession id (_digest token) (us_id user) (us_revocation_version user) now now (now + SESSION_IDLE_TIMEOUT)%Z None
    (ip_or_None (Some ip_address)) (if str_nonempty user_agent then _digest user_agent else "").

Section identity.
Context {B : Type} `{PasswordHasher} (secret_key : string).

Definition _subject_hash (email ip_address : string) : string :=
  hmac_sha256 (encode_utf8 secret_key) (encode_utf8 (normalize_email email ++ String (chr 0) ip_address)).

Definition _event (event result : string) (actor : option User) (actor_role : string) (ip_address : option string) : M B unit :=
  append (MkAuditInput ("auth." ++ event) "identity" result (option_map (fun u => RefStr (uuid_str (us_id u))) actor)
            actor_role ip_address (match actor with Some u => uuid_str (us_id u) | None => "anonymous" end) "" "" []) ;;;
  ret tt.

Definition save_user (u : User) : M B unit :=
  require (user_fits u) DataError ;;;
  let* taken := query (email_taken u) in
  require (negb taken) IntegrityError ;;;
  write (fun d => d <| users ::= put (us_id u) u |>).

Definition insert_user (email name : string) (role : Role.t) (password_hash : string) : M B User :=
  let* id := uuid4 in
  let* now := timezone_now in
  let user := new_user id now email name role password_hash in
  save_user user ;;;
  ret user.

Definition bootstrap_first_administrator (password salt : string) : M B (User * bool) :=
  try_except
    (atomic (
      let* any := query (fun d => exists_row (fun _ => true) (users d)) in
      if any then
        let* existing := query (user_with_email BOOTSTRAP_ADMIN_EMAIL) in
        let* user := of_option existing (RuntimeError "Bootstrap is only permitted on an empty user base") in
        ret (user, false)
      else
        let* user := insert_user BOOTSTRAP_ADMIN_EMAIL "Guilherme Duarte" Role.ADMINISTRATOR (make_password salt password) in
        ret (user, true)))
    (fun e => match e with
              | IntegrityError =>
                  let* existing := autocommit (query (user_with_email BOOTSTRAP_ADMIN_EMAIL)) in
                  let* user := of_option existing (RuntimeError "Bootstrap could not be completed safely") in
                  ret (user, false)
              | _ => throw e
              end).

(** ** Login *)

(** [get_or_create] on the throttle of a subject. *)
Definition throttle_of (subject_hash : string) (now : Z) : M B LoginThrottle :=
  let* row := query (fun d => throttles d !! subject_hash) in
  match row with
  | Some throttle => ret throttle
  | None =>
      let throttle := MkLoginThrottle subject_hash 0 now now in
      write (fun d => d <| throttles ::= <[subject_hash := throttle]> |>) ;;; ret throttle
  end.

(** [filter(subject_hash=...).update(failures=..., next_allowed_at=...)] *)
Definition set_throttle (subject_hash : string) (failures next_allowed_at : Z) : M B unit :=
  require (positive_integer failures) DataError ;;;
  write (fun d => d <| throttles ::= alter (fun t => t <| th_failures := failures |> <| th_next_allowed_at := next_allowed_at |>) subject_hash |>).

(** [IdentitySession.objects.create]; the address is what its [inet] column makes of it. *)
Definition insert_session (token user_agent : string) (user : User) (ip_address : string) (now : Z) : M B unit :=
  let* id := uuid4 in
  let session := login_session id token user_agent user ip_address now in
  let* c := gets columns in
  let* ip := match se_ip_address session with
             | Some s => let* stored := of_option (inet c s) DataError in ret (Some stored)
             | None => ret None
             end in
  let session := session <| se_ip_address := ip |> in
  require (session_fits session) DataError ;;;
  let* taken := query (token_taken session) in
  require (negb taken && session_check session) IntegrityError ;;;
  write (fun d => d <| sessions ::= put id session |>).

(** [token] is what [secrets.token_urlsafe] returns. *)
Definition authenticate (email password ip_address user_agent token : string) :
    M B (option string * option SessionIdentity) :=
  atomic (
    let* now := timezone_now in
    let subject_hash := _subject_hash email ip_address in
    let* throttle := throttle_of subject_hash now in
    if Z.ltb now (th_next_allowed_at throttle) then
      _event "login_failure" "rate_limited" None "" (Some ip_address) ;;; ret (None, None)
    else
      let* found := query (user_with_email (normalize_email email)) in
      match match found with
            | Some user => if us_active user && check_password password (us_password_hash user) then Some user else None
            | None => None
            end with
      | None =>
          let failures := (th_failures throttle + 1)%Z in
          set_throttle subject_hash failures (now + seconds (login_delay failures))%Z ;;;
          _event "login_failure" "denied" None "" (Some ip_address) ;;;
          ret (None, None)
      | Some user =>
          set_throttle subject_hash 0 now ;;;
          insert_session token user_agent user ip_address now ;;;
          _event "login_success" "success" (Some user) (Role.value (us_role user)) (Some ip_address) ;;;
          ret (Some token, Some (identity_of user))
      end).

(** ** Sessions *)

(** The session of a token and its user ([select_related], the key is not null). *)
Definition found_session (token : string) (d : DB) : option (IdentitySession * User) :=
  match session_with_token (_digest token) d with
  | Some s => option_map (pair s) (users d !! se_user s)
  | None => None
  end.

Definition revoke_row (id : N) (now : Z) (d : DB) : DB :=
  d <| sessions ::= update_where (fun s => N.eqb (se_id s) id && negb (is_some (se_revoked_at s)))
                      (fun s => s <| se_revoked_at := Some now |>) |>.

(** The conditional update of a live session. *)
Definition touchable (id : N) (version now : Z) (d : DB) (s : IdentitySession) : bool :=
  N.eqb (se_id s) id && negb (is_some (se_revoked_at s)) && Z.ltb now (se_expires_at s) &&
  match users d !! se_user s with
  | Some u => us_active u && Z.eqb (us_revocation_version u) version
  | None => false
  end.

Definition touch_row (id : N) (version now : Z) (d : DB) : DB :=
  d <| sessions ::= update_where (touchable id version now d)
        (fun s => s <| se_last_activity_at := now |> <| se_expires_at := (now + SESSION_IDLE_TIMEOUT)%Z |>) |>.

Definition resolve_session (token : option string) (touch : bool) : M B (option SessionIdentity) :=
  match token with
  | None | Some EmptyString => ret None
  | Some token =>
      let* now := timezone_now in
      let* found := autocommit (query (found_session token)) in
      match found with
      | None => ret None
      | Some (session, user) =>
          if is_some (se_revoked_at session) || negb (us_active user) then ret None
          else if Z.leb (se_expires_at session) now || negb (Z.eqb (se_revocation_version session) (us_revocation_version user)) then
            autocommit (write (revoke_row (se_id session) now)) ;;;
            _event "session_expired" "expired" (Some user) "" (se_ip_address session) ;;;
            ret None
          else if touch then
            let* updated := autocommit (query (fun d => exists_row (touchable (se_id session) (se_revocation_version session) now d) (sessions d))) in
            autocommit (write (touch_row (se_id session) (se_revocation_version session) now)) ;;;
            ret (if updated then Some (identity_of user) else None)
          else ret (Some (identity_of user))
      end
  end.

Definition revoke_session (token : option string) : M B unit :=
  match token with
  | None | Some EmptyString => ret tt
  | Some token =>
      let* now := timezone_now in
      atomic (
        let* found := query (found_session token) in
        match found with
        | Some (session, user) =>
            if is_some (se_revoked_at session) then ret tt
            else
              write (revoke_row (se_id session) now) ;;;
              _event "logout" "success" (Some user) (Role.value (us_role user)) (se_ip_address session)
        | None => ret tt
        end)
  end.

(** ** Administration of users *)

Definition _user_context (user : User) : pydict :=
  [("name", VStr (us_name user)); ("email", VStr (us_email user)); ("role", VStr (Role.value (us_role user)));
   ("active", VBool (us_active user))].

Definition _assert_version (user : User) (version : Z) : M B unit :=
  require (Z.eqb (us_version user) version) UserVersionConflict.

Definition active_administrator (u : User) : bool :=
  match us_role u with Role.ADMINISTRATOR => us_active u | _ => false end.

(** The key of the only row of a list. *)
Definition only_user (id : N) (l : list User) : bool :=
  match l with [u] => N.eqb (us_id u) id | _ => false end.

Definition _assert_not_last_administrator (user : User) (loses_administrator : bool) : M B unit :=
  if negb loses_administrator || negb (active_administrator user) then ret tt
  else
    let* active_admins := query (fun d => select active_administrator (users d)) in
    require (negb (only_user (us_id user) active_admins)) LastAdministrator.

Definition _admin_event (action : string) (actor : SessionIdentity) (target : User) (ip_address : string)
    (before : option pydict) (reason : string) : M B unit :=
  append (MkAuditInput action "user" "success" (Some (RefStr (si_user_id actor))) (si_role actor) (Some ip_address)
            (uuid_str (us_id target)) reason ""
            (("after", VDict (_user_context target)) ::
             match before with Some b => [("before", VDict b)] | None => [] end)) ;;;
  ret tt.

(** [User.objects.select_for_update().get(id=user_id)] *)
Definition get_user (user_id : string) : M B User :=
  let* id := of_option (parse_uuid user_id) ValidationError in
  let* row := query (fun d => users d !! id) in
  of_option row DoesNotExist.

(** The [except] clauses of the handlers. *)
Definition not_found {A} (e : exn) : M B A :=
  match e with DoesNotExist => throw (UserAdministrationError "User not found") | _ => throw e end.

Definition duplicate {A} (e : exn) : M B A :=
  match e with IntegrityError => throw DuplicateUserEmail | _ => throw e end.

Definition admin_require (b : bool) (msg : string) : M B unit := require b (UserAdministrationError msg).

Definition create_user (actor : SessionIdentity) (name : string) (email : pyval) (role password ip_address salt : string) :
    M B User :=
  lift_result (_require_administrator actor) ;;;
  let* normalized_email := lift_result (_validated_email email) in
  admin_require (str_nonempty (strip name) && str_nonempty normalized_email && str_nonempty password &&
                 is_some (Role.of_value role)) "Invalid user data" ;;;
  let* role := of_option (Role.of_value role) (UserAdministrationError "Invalid user data") in
  try_except
    (atomic (
      let* user := insert_user normalized_email (strip name) role (make_password salt password) in
      _admin_event "user.create" actor user ip_address None "" ;;;
      ret user))
    duplicate.

(** The part the handlers of an existing user share: the row is locked, changed
    as a whole, and the change is recorded with what it replaced. *)
Definition saved (user : User) (action : string) (actor : SessionIdentity) (ip_address : string) (before : pydict)
    (reason : string) : M B User :=
  let* now := timezone_now in
  let user := user <| us_updated_at := now |> in
  save_user user ;;;
  _admin_event action actor user ip_address (Some before) reason ;;;
  ret user.

Definition update_user (actor : SessionIdentity) (user_id : string) (version : Z) (name : string) (email : pyval)
    (ip_address : string) : M B User :=
  lift_result (_require_administrator actor) ;;;
  let* normalized_email := lift_result (_validated_email email) in
  admin_require (str_nonempty (strip name) && str_nonempty normalized_email) "Invalid user data" ;;;
  try_except
    (atomic (
      let* user := get_user user_id in
      _assert_version user version ;;;
      saved (user <| us_name := strip name |> <| us_email := normalized_email |> <| us_version ::= Z.succ |>)
        "user.update" actor ip_address (_user_context user) ""))
    (fun e => match e with DoesNotExist => not_found e | _ => duplicate e end).

Definition change_user_role (actor : SessionIdentity) (user_id : string) (version : Z) (role : string) (reason : pyval)
    (ip_address : string) : M B User :=
  lift_result (_require_administrator actor) ;;;
  let* role := of_option (Role.of_value role) (UserAdministrationError "Invalid role") in
  let* reason := lift_result (_validated_reason reason) in
  atomic (
    let* user := try_except (get_user user_id) not_found in
    _assert_version user version ;;;
    _assert_not_last_administrator user (negb (bool_decide (role = Role.ADMINISTRATOR))) ;;;
    saved (user <| us_role := role |> <| us_version ::= Z.succ |>)
      "user.role_change" actor ip_address (_user_context user) reason).

(** A new password outdates every session of the user. *)
Definition with_password (encoded : string) (user : User) : User :=
  user <| us_password_hash := encoded |> <| us_revocation_version ::= Z.succ |> <| us_version ::= Z.succ |>.

Definition reset_user_password (actor : SessionIdentity) (user_id : string) (version : Z) (password : string)
    (reason : pyval) (ip_address salt : string) : M B User :=
  lift_result (_require_administrator actor) ;;;
  admin_require (str_nonempty password) "Invalid password" ;;;
  let* reason := lift_result (_validated_reason reason) in
  atomic (
    let* user := try_except (get_user user_id) not_found in
    _assert_version user version ;;;
    saved (with_password (make_password salt password) user)
      "user.password_reset" actor ip_address (_user_context user) reason).

(** [get(id=actor.user_id, active=True)] *)
Definition get_active_user (user_id : string) : M B User :=
  let* user := get_user user_id in
  require (us_active user) DoesNotExist ;;;
  ret user.

Definition change_own_password (actor : SessionIdentity) (current_password password : pyval) (ip_address salt : string) :
    M B unit :=
  match current_password, password with
  | VStr current_password, VStr password =>
      admin_require (str_nonempty password) "Invalid password" ;;;
      atomic (
        let* user := try_except (get_active_user (si_user_id actor)) not_found in
        admin_require (check_password current_password (us_password_hash user)) "Invalid current password" ;;;
        saved (with_password (make_password salt password) user)
          "user.password_change" actor ip_address (_user_context user) "" ;;;
        ret tt)
  | _, _ => throw (UserAdministrationError "Invalid password")
  end.

Definition with_active (active : bool) (user : User) : User :=
  user <| us_active := active |> <| us_version ::= Z.succ |>
       <| us_revocation_version ::= if active then id else Z.succ |>.

(** A reason given to an activation is passed on as it is: any text. *)
Definition set_user_active (actor : SessionIdentity) (user_id : string) (version : Z) (active : pyval) (reason : string)
    (ip_address : string) : M B User :=
  lift_result (_require_administrator actor) ;;;
  match active with
  | VBool active =>
      let* reason := if active then ret reason else lift_result (_validated_reason (VStr reason)) in
      atomic (
        let* user := try_except (get_user user_id) not_found in
        _assert_version user version ;;;
        _assert_not_last_administrator user (negb active) ;;;
        saved (with_active active user) (if active then "user.activate" else "user.deactivate") actor ip_address
          (_user_context user) reason)
  | _ => throw (UserAdministrationError "Invalid state")
  end.

End identity.
