(* ===== verification/SessionFacts.v ===== *)
(** * What the sessions and the administration of users keep

    The invariant of the identity tables, how each kind of write keeps it, and
    how an operation may move them: users are never lost and their versions only
    grow, sessions are never lost and what is over stays over, and there is
    always an active administrator. *)

From Stdlib Require Import ZArith Ascii String Lia.
From stdpp Require Import base decidable list gmap strings.
From S2P Require Import Prelude PyStr Sha256 PyVal Models AuditTrail Identity Companies JobPolicies JobEngine Tables Sessions.

Local Open Scope string_scope.

(** ** The invariant *)

Definition governed (d : DB) : Prop := exists i u, users d !! i = Some u /\ active_administrator u = true.

(** A session is not newer than its user, and older than a user who is not
    active. *)
Definition session_of (s : IdentitySession) (u : User) : Prop :=
  (se_revocation_version s <= us_revocation_version u)%Z /\
  (us_active u = false -> se_revocation_version s < us_revocation_version u)%Z.

(** What holds of one row of nfx_identity_session. *)
Definition session_row (now : Z) (s : IdentitySession) : Prop :=
  session_fits s = true /\ (se_created_at s <= se_last_activity_at s <= now)%Z /\
  se_expires_at s = (se_last_activity_at s + SESSION_IDLE_TIMEOUT)%Z.

Record identity_ok (n : N) (now : Z) (d : DB) : Prop := MkIdentityOk {
  id_users : keyed us_id us_email n (users d);
  id_fits : forall i u, users d !! i = Some u -> user_fits u = true;
  id_sessions : keyed se_id se_token_hash n (sessions d);
  id_rows : forall i s, sessions d !! i = Some s -> session_row now s;
  id_owner : forall i s, sessions d !! i = Some s -> exists u, users d !! se_user s = Some u /\ session_of s u }.

Definition identity_inv {B} (w : World B) : Prop := identity_ok (next_uuid w) (clock w) (db w).

Lemma identity_ok_mono n m now t d : (n <= m)%N -> (now <= t)%Z -> identity_ok n now d -> identity_ok m t d.
Proof.
  intros Hn Ht [H1 H2 H3 H4 H5]. split; [by eapply keyed_mono|done|by eapply keyed_mono| |done].
  intros i s Hi. destruct (H4 i s Hi) as (? & ? & ?). split_and!; (done || lia).
Qed.

Lemma identity_ok_same n now d d' : users d' = users d -> sessions d' = sessions d -> identity_ok n now d -> identity_ok n now d'.
Proof. intros Hu Hs [H1 H2 H3 H4 H5]. split; rewrite ?Hu, ?Hs; done. Qed.

(** The row meets the check constraint of the table. *)
Lemma session_row_check now s : session_row now s -> session_check s = true.
Proof. intros (_ & H1 & H2). unfold session_check. rewrite H2. unfold SESSION_IDLE_TIMEOUT. apply Z.leb_le. lia. Qed.

(** ** How the tables move *)

(** A user's versions only grow; every change is a new version. *)
Definition user_moves (u u' : User) : Prop :=
  us_id u' = us_id u /\ us_created_at u' = us_created_at u /\ (us_revocation_version u <= us_revocation_version u')%Z /\
  (u' = u \/ (us_version u < us_version u')%Z) /\
  (us_revocation_version u' = us_revocation_version u ->
   us_password_hash u' = us_password_hash u /\ (us_active u = true -> us_active u' = true)).

(** A session keeps its token and its user; revoked or expired, it stays so. *)
Definition session_moves (now : Z) (s s' : IdentitySession) : Prop :=
  se_token_hash s' = se_token_hash s /\ se_user s' = se_user s /\ se_revocation_version s' = se_revocation_version s /\
  se_created_at s' = se_created_at s /\ (forall t, se_revoked_at s = Some t -> se_revoked_at s' = Some t) /\
  (se_expires_at s <= now -> se_expires_at s' = se_expires_at s)%Z.

Record identity_moves (now : Z) (d d' : DB) : Prop := MkIdentityMoves {
  im_users : forall i u, users d !! i = Some u -> exists u', users d' !! i = Some u' /\ user_moves u u';
  im_sessions : forall i s, sessions d !! i = Some s -> exists s', sessions d' !! i = Some s' /\ session_moves now s s';
  im_governed : governed d -> governed d' }.

#[export] Instance user_moves_preorder : PreOrder user_moves.
Proof.
  split.
  - intros u. split_and!; [done..|lia|by left|done].
  - intros a b c (H1 & H2 & H3 & H4 & H5) (G1 & G2 & G3 & G4 & G5). split_and!; [congruence|congruence|lia| |].
    + destruct H4 as [->|H4], G4 as [->|G4]; [by left|right; lia..].
    + intros He. destruct H5 as [H5 H6]; [lia|]. destruct G5 as [G5 G6]; [lia|]. split; [congruence|]. auto.
Qed.

#[export] Instance session_moves_preorder now : PreOrder (session_moves now).
Proof.
  split.
  - by intros s.
  - intros a b c (H1 & H2 & H3 & H4 & H5 & H6) (G1 & G2 & G3 & G4 & G5 & G6). split_and!; try congruence; [by eauto|].
    intros He. rewrite <-(H6 He). apply G6. rewrite (H6 He). done.
Qed.

#[export] Instance identity_moves_preorder now : PreOrder (identity_moves now).
Proof.
  split.
  - intros d. split; [intros i u Hi; by exists u|intros i s Hi; by exists s|done].
  - intros a b c [H1 H2 H3] [G1 G2 G3]. split; [| |auto].
    + intros i u (u1 & Hi & Hm)%H1. destruct (G1 _ _ Hi) as (u2 & Hi2 & Hm2). exists u2. split; [done|by etrans].
    + intros i s (s1 & Hi & Hm)%H2. destruct (G2 _ _ Hi) as (s2 & Hi2 & Hm2). exists s2. split; [done|by etrans].
Qed.

Lemma identity_moves_same now d d' : users d' = users d -> sessions d' = sessions d -> identity_moves now d d'.
Proof.
  intros Hu Hs. split; rewrite ?Hu, ?Hs; [intros i u Hi; by exists u|intros i s Hi; by exists s|].
  unfold governed. by rewrite Hu.
Qed.

(** Later, what was expired is expired still. *)
Lemma identity_moves_later now t d d' : (now <= t)%Z -> identity_moves t d d' -> identity_moves now d d'.
Proof.
  intros Ht [H1 H2 H3]. split; [done| |done]. intros i s (s' & Hi & K1 & K2 & K3 & K4 & K5 & K6)%H2.
  exists s'. split; [done|]. split_and!; [done..|]. intros He. apply K6. lia.
Qed.

Section moving.
Context {B : Type}.
Implicit Types w : World B.

Definition identifies w w' : Prop :=
  clock w' = clock w /\ online w' = online w /\ (next_uuid w <= next_uuid w')%N /\
  (identity_inv w -> identity_inv w' /\ identity_moves (clock w) (db w) (db w')).

#[export] Instance identifies_preorder : PreOrder identifies.
Proof.
  split.
  - intros w. split_and!; [done..|lia|by split].
  - intros a b c (H1 & H2 & H3 & H4) (G1 & G2 & G3 & G4). split_and!; [congruence..|lia|].
    intros [Hb Hm]%H4. destruct (G4 Hb) as [Hc Hm']. split; [done|]. rewrite H1 in Hm'. by etrans.
Qed.

#[export] Instance identifies_rolls_back : RollsBack identifies.
Proof.
  intros w w' (H1 & H2 & H3 & _). split_and!; [done..|]. intros Hw. split; [|cbn; reflexivity].
  unfold identity_inv. cbn. rewrite H1. eapply identity_ok_mono; [exact H3|reflexivity|exact Hw].
Qed.

Definition identity_tables (d : DB) := (users d, sessions d).

Lemma identifies_keeping w w' : keeps identity_tables w w' -> identifies w w'.
Proof.
  intros ([= Hu Hs] & H1 & H2 & H3). split_and!; [done..|]. intros Hw. split; [|by apply identity_moves_same].
  unfold identity_inv in *. rewrite H1. eapply identity_ok_same; [done..|]. eapply identity_ok_mono; [exact H3|reflexivity|done].
Qed.

Lemma identifies_kept {A} (m : M B A) : moves (keeps identity_tables) m -> moves identifies m.
Proof. intros Hm w. apply identifies_keeping, Hm. Qed.

Lemma identifies_append a : moves identifies (append (B:=B) a).
Proof. apply identifies_kept. frame_tac. Qed.

Lemma identifies_uuid4 : moves identifies (uuid4 (B:=B)).
Proof. apply identifies_kept. frame_tac. Qed.

(** ** The writes *)

Lemma email_free u d : email_taken u d = false ->
  forall i x, users d !! i = Some x -> us_email x = us_email u -> us_id x = us_id u.
Proof.
  unfold email_taken. rewrite exists_row_false. intros H i x Hi He. specialize (H i x Hi).
  rewrite He, String.eqb_refl in H. cbn in H. apply negb_false_iff in H. by apply N.eqb_eq.
Qed.

(** A new user, before any session of theirs. *)
Lemma identifies_new_user w u :
  us_id u = next_uuid w -> user_fits u = true -> email_taken u (db w) = false ->
  identifies w (w <| next_uuid ::= N.succ |> <| db ::= fun d => d <| users ::= put (us_id u) u |> |>).
Proof.
  intros Hid Hfit He. split_and!; [done..|cbn; lia|]. intros [H1 H2 H3 H4 H5]. pose proof (keyed_fresh _ _ _ _ H1) as Hf.
  pose proof (email_free _ _ He) as Hfree. rewrite Hid in *. split; [split; cbn; [| |by eapply keyed_mono; [|done]; lia|done|]|split; cbn; [| |]].
  - apply keyed_new; [done..|]. intros i x Hi Hx. specialize (Hfree i x Hi Hx). destruct (proj1 H1 i x Hi). lia.
  - unfold put. intros i x. rewrite lookup_insert_Some. intros [[_ <-]|[_ Hi]]; [done|by eapply H2].
  - intros i s (x & Hx & Hs)%H5. exists x. split; [|done]. unfold put. rewrite lookup_insert_ne; [done|]. congruence.
  - intros i x Hi. exists x. split; [|reflexivity]. unfold put. rewrite lookup_insert_ne; [done|]. intros <-. congruence.
  - intros i s Hi. by exists s.
  - intros (i & x & Hi & Ha). exists i, x. split; [|done]. cbn. unfold put. rewrite lookup_insert_ne; [done|]. intros <-. congruence.
Qed.

(** Another administrator is active. *)
Definition another_administrator (id : N) (d : DB) : Prop :=
  exists j v, j <> id /\ users d !! j = Some v /\ active_administrator v = true.

(** A new version of a user. *)
Lemma identifies_user w u u' :
  users (db w) !! us_id u' = Some u -> user_fits u' = true -> email_taken u' (db w) = false -> user_moves u u' ->
  (active_administrator u = true -> active_administrator u' = true \/ another_administrator (us_id u') (db w)) ->
  identifies w (w <| db ::= fun d => d <| users ::= put (us_id u') u' |> |>).
Proof.
  intros Hu Hfit He Hm Hgov. split_and!; [done..|cbn; lia|]. intros [H1 H2 H3 H4 H5]. pose proof (email_free _ _ He) as Hfree.
  assert (identity_moves (clock w) (db w) (db w <| users ::= put (us_id u') u' |>)) as Hmv.
  { split; cbn; unfold put.
    - intros i x Hi. destruct (decide (i = us_id u')) as [->|Hne].
      + exists u'. rewrite lookup_insert_eq. split; [done|]. by simplify_eq.
      + exists x. rewrite lookup_insert_ne by done. by split.
    - intros i s Hi. by exists s.
    - intros (i & x & Hi & Ha). destruct (decide (i = us_id u')) as [->|Hne].
      + simplify_eq. destruct (Hgov Ha) as [H|(j & v & Hj & Hv & Hav)]; [exists (us_id u'), u'|exists j, v]; (split; [|done]); cbn.
        * by rewrite lookup_insert_eq.
        * by rewrite lookup_insert_ne.
      + exists i, x. split; [|done]. cbn. by rewrite lookup_insert_ne. }
  split; [|exact Hmv]. split; cbn; [| |done|done|]; unfold put.
  - split; [intros i x; rewrite lookup_insert_Some; intros [[<- <-]|[_ Hi]]; [split; [done|by destruct (proj1 H1 _ _ Hu)]|by apply (proj1 H1)]|].
    intros i j x y. rewrite !lookup_insert_Some. intros [[<- <-]|[Hi Hx]] [[<- <-]|[Hj Hy]] Hk; [done|..].
    + destruct (proj1 H1 _ _ Hy) as [<- _]. by rewrite (Hfree _ _ Hy (eq_sym Hk)).
    + destruct (proj1 H1 _ _ Hx) as [<- _]. by rewrite (Hfree _ _ Hx Hk).
    + by eapply (proj2 H1).
  - intros i x. rewrite lookup_insert_Some. intros [[_ <-]|[_ Hi]]; [done|by eapply H2].
  - intros i s (x & Hx & Hs)%H5. destruct (im_users _ _ _ Hmv _ _ Hx) as (x' & Hx' & Hmx). exists x'. split; [done|].
    destruct Hmx as (_ & _ & K1 & _ & K2). destruct Hs as [K3 K4]. split; [lia|]. intros Hn.
    destruct (decide (us_revocation_version x' = us_revocation_version x)) as [E|E]; [|lia].
    destruct (K2 E) as [_ K5]. rewrite E. apply K4. destruct (us_active x); [|done]. by rewrite K5 in Hn.
Qed.

(** A new session of an active user. *)
Lemma identifies_session w s u :
  se_id s = next_uuid w -> session_row (clock w) s -> token_taken s (db w) = false -> users (db w) !! se_user s = Some u ->
  session_of s u ->
  identifies w (w <| next_uuid ::= N.succ |> <| db ::= fun d => d <| sessions ::= put (se_id s) s |> |>).
Proof.
  intros Hid Hrow Ht Hu Hs. split_and!; [done..|cbn; lia|]. intros [H1 H2 H3 H4 H5]. pose proof (keyed_fresh _ _ _ _ H3) as Hf.
  rewrite Hid in *. split; [split; cbn; [by eapply keyed_mono; [|done]; lia|done|..]|split; cbn; [| |]].
  - apply keyed_new; [done..|]. unfold token_taken in Ht. rewrite exists_row_false in Ht. intros i x Hi Hx.
    specialize (Ht i x Hi). rewrite Hx, String.eqb_refl, Hid in Ht. cbn in Ht. apply negb_false_iff, N.eqb_eq in Ht.
    destruct (proj1 H3 i x Hi). lia.
  - unfold put. intros i x. rewrite lookup_insert_Some. intros [[_ <-]|[_ Hi]]; [done|by eapply H4].
  - unfold put. intros i x. rewrite lookup_insert_Some. intros [[_ <-]|[_ Hi]]; [by exists u|by eapply H5].
  - intros i x Hi. by exists x.
  - intros i x Hi. exists x. split; [|reflexivity]. unfold put. rewrite lookup_insert_ne; [done|]. intros <-. congruence.
  - done.
Qed.

(** Sessions changed in place. *)
Lemma identifies_sessions w p f :
  (forall s, p s = true -> se_id (f s) = se_id s /\ session_moves (clock w) s (f s)) ->
  (forall s, p s = true -> session_row (clock w) s -> session_row (clock w) (f s)) ->
  identifies w (w <| db ::= fun d => d <| sessions ::= update_where p f |> |>).
Proof.
  intros Hf Hr. split_and!; [done..|cbn; lia|]. intros [H1 H2 H3 H4 H5]. set (g := fun s => if p s then f s else s).
  assert (forall s, se_id (g s) = se_id s /\ session_moves (clock w) s (g s)) as Hg.
  { intros s. unfold g. destruct (p s) eqn:Hp; [by apply Hf|done]. }
  assert (forall i s, update_where p f (sessions (db w)) !! i = Some s -> exists s0, sessions (db w) !! i = Some s0 /\ s = g s0) as Hi.
  { intros i s. rewrite lookup_update_where, fmap_Some. done. }
  split; [split; cbn; [done|done| | |]|split; cbn; [| |]].
  - split.
    + intros i s (s0 & H & ->)%Hi. destruct (Hg s0) as [-> _]. by apply (proj1 H3).
    + intros i j s t (s0 & Hs & ->)%Hi (t0 & Ht & ->)%Hi. destruct (Hg s0) as (_ & -> & _), (Hg t0) as (_ & -> & _).
      by apply (proj2 H3).
  - intros i s (s0 & H & ->)%Hi. unfold g. destruct (p s0) eqn:Hp; [|by eapply H4]. apply Hr; [done|]. by eapply H4.
  - intros i s (s0 & H & ->)%Hi. destruct (Hg s0) as (_ & _ & Hu & Hv & _). unfold session_of. rewrite Hu, Hv. by eapply H5.
  - intros i u Hu. by exists u.
  - intros i s Hs. exists (g s). rewrite lookup_update_where, Hs. split; [done|]. apply Hg.
  - done.
Qed.

End moving.

#[export] Hint Resolve identifies_append identifies_uuid4 : frames.

(** ** The operations *)

Section operations.
Context {B : Type} `{PasswordHasher} (secret_key : string).
Implicit Types w : World B.

Lemma save_user_inv u w r w' :
  save_user (B:=B) u w = (Ok r, w') ->
  user_fits u = true /\ email_taken u (db w) = false /\ w' = w <| db ::= fun d => d <| users ::= put (us_id u) u |> |>.
Proof. unfold save_user. intros Hs. invert_db. by bools. Qed.

(** Saving moves the tables by its write, or not at all. *)
Lemma save_user_moves (R : relation (World B)) `{!PreOrder R} u w :
  (user_fits u = true -> email_taken u (db w) = false -> R w (w <| db ::= fun d => d <| users ::= put (us_id u) u |> |>)) ->
  R w (save_user (B:=B) u w).2.
Proof.
  intros Hw. unfold save_user. unfold bind, query, gets, require, write, modify, ret, throw.
  destruct (user_fits u); cbn; [|reflexivity]. destruct (email_taken u (db w)); cbn; [reflexivity|by apply Hw].
Qed.

Lemma identifies_event event result actor role ip : moves identifies (_event (B:=B) event result actor role ip).
Proof. apply identifies_kept. unfold _event. frame_tac. Qed.

Lemma identifies_admin_event action actor target ip before reason :
  moves identifies (_admin_event (B:=B) action actor target ip before reason).
Proof. apply identifies_kept. unfold _admin_event. frame_tac. Qed.

Hint Resolve identifies_event identifies_admin_event : frames.

Lemma identifies_insert email name role encoded : moves identifies (insert_user (B:=B) email name role encoded).
Proof.
  intros w. unfold insert_user. unfold bind at 1. cbn [uuid4]. unfold uuid4. unfold bind at 1, timezone_now, gets at 1.
  set (w1 := w <| next_uuid ::= N.succ |>). set (u := new_user _ _ _ _ _ _). cbn zeta. fold u.
  apply moved_bind; [apply _| |intros; frame_tac].
  unfold save_user, bind, query, gets, require, write, modify, ret, throw.
  assert (identifies w w1) as Hw1 by apply identifies_uuid4.
  destruct (user_fits u) eqn:Hf; cbn; [|done]. destruct (email_taken u _) eqn:He; cbn; [done|].
  by apply (identifies_new_user w u).
Qed.

Lemma identifies_bootstrap password salt : moves identifies (bootstrap_first_administrator (B:=B) password salt).
Proof. unfold bootstrap_first_administrator. frame_tac. apply identifies_insert. Qed.

Lemma identifies_create actor name email role password ip salt :
  moves identifies (create_user (B:=B) actor name email role password ip salt).
Proof. unfold create_user, admin_require, duplicate. frame_tac. apply identifies_insert. Qed.

Lemma get_user_inv user_id w u w' :
  get_user (B:=B) user_id w = (Ok u, w') -> w' = w /\ exists i, parse_uuid user_id = Some i /\ users (db w) !! i = Some u.
Proof. unfold get_user. intros Hg. invert_db. split; [done|]. eauto. Qed.

Lemma get_user_still user_id w : (get_user (B:=B) user_id w).2 = w.
Proof. unfold get_user, of_option. destruct (parse_uuid user_id) as [i|]; [|done]. cbn. by destruct (users (db w) !! i). Qed.

(** A change of a locked row: enough that the new version goes with the old. *)
Lemma identifies_saved w u action actor ip before reason u0 :
  users (db w) !! us_id u = Some u0 -> user_moves u0 (u <| us_updated_at := clock w |>) ->
  (active_administrator u0 = true -> active_administrator u = true \/ another_administrator (us_id u) (db w)) ->
  identifies w (saved (B:=B) u action actor ip before reason w).2.
Proof.
  intros Hu Hm Ha. unfold saved. apply moved_now. apply moved_bind; [apply _| |frame_tac].
  apply save_user_moves; [apply _|]. intros Hf He. by apply (identifies_user w u0).
Qed.

(** The guard of the last administrator. *)
Lemma not_last_inv u loses w r w' :
  _assert_not_last_administrator (B:=B) u loses w = (Ok r, w') ->
  w' = w /\ (identity_inv w -> users (db w) !! us_id u = Some u -> loses = true -> active_administrator u = true ->
             another_administrator (us_id u) (db w)).
Proof.
  unfold _assert_not_last_administrator. intros Ha.
  destruct loses; cbn [negb orb] in Ha; [|invert_db; split; [done|intros; discriminate]].
  destruct (active_administrator u) eqn:Hadm; cbn [negb] in Ha; [|invert_db; split; [done|intros; discriminate]].
  invert_db. split; [done|]. intros [[Hk _] _ _ _ _] Hu _ _.
  pose proof (select_delete _ _ _ _ Hu Hadm) as Hp.
  destruct (select active_administrator (delete (us_id u) (users (db w)))) as [|v l] eqn:Hl.
  - apply Permutation_singleton_r in Hp. rewrite Hp in *. cbn in *. by rewrite N.eqb_refl in *.
  - assert (v ∈ select active_administrator (delete (us_id u) (users (db w)))) as [Hv [j Hj]]%elem_of_select by (rewrite Hl; left).
    apply lookup_delete_Some in Hj as [Hne Hj]. by exists j, v.
Qed.

(** After a locked read: what is known of the row, and the world is the same. *)
Lemma moved_user {C} (R : relation (World B)) (m : M B User) (k : User -> M B C) w0 w :
  R w0 w -> (m w).2 = w ->
  (forall u, m w = (Ok u, w) -> R w0 (k u w).2) -> R w0 (bind m k w).2.
Proof. intros Hw Hs Hk. unfold bind. destruct (m w) as [[u|e] w1]; cbn in Hs; subst; [by apply Hk|exact Hw]. Qed.

Lemma not_found_still {A} e w : (not_found (B:=B) (A:=A) e w).2 = w.
Proof. by destruct e. Qed.

Lemma found_still (m : M B User) w : (m w).2 = w -> (try_except m (not_found (B:=B)) w).2 = w.
Proof.
  intros Hm. unfold try_except. destruct (m w) as [[u|e] w1]; cbn in *; subst; [done|apply not_found_still].
Qed.

Lemma found_inv (m : M B User) w u w' : try_except m (not_found (B:=B)) w = (Ok u, w') -> m w = (Ok u, w').
Proof. intros [Hm|(e & w1 & _ & He)]%try_inv; [done|]. by destruct e. Qed.

Lemma get_active_user_still user_id w : (get_active_user (B:=B) user_id w).2 = w.
Proof.
  unfold get_active_user, bind. pose proof (get_user_still user_id w) as Hs.
  destruct (get_user user_id w) as [[u|e] w1]; cbn in *; subst; [|done]. by destruct (us_active u).
Qed.

Lemma get_active_user_inv user_id w u w' :
  get_active_user (B:=B) user_id w = (Ok u, w') -> get_user user_id w = (Ok u, w') /\ us_active u = true.
Proof. unfold get_active_user. intros Hg. invert_run. split; [|done]. done. Qed.

Lemma user_row w i u : identity_inv w -> users (db w) !! i = Some u -> us_id u = i.
Proof. intros [[Hk _] _ _ _ _] Hi. by destruct (Hk _ _ Hi). Qed.

(** [identifies] assumes the invariant of its first world. *)
Lemma identifies_given w w' : (identity_inv w -> identifies w w') -> keeps (fun _ => tt) w w' -> identifies w w'.
Proof.
  intros Hi (_ & H1 & H2 & H3). split_and!; [done..|]. intros Hw. destruct (Hi Hw) as (_ & _ & _ & Hk). by apply Hk.
Qed.

(** The transactions that change one locked user. *)
Lemma identifies_change {C} (m : M B User) (k : User -> M B C) user_id w :
  (m w).2 = w -> (forall u, m w = (Ok u, w) -> get_user (B:=B) user_id w = (Ok u, w)) ->
  moves (keeps (fun _ => tt)) (bind m k) ->
  (forall u, identity_inv w -> users (db w) !! us_id u = Some u -> m w = (Ok u, w) -> identifies w (k u w).2) ->
  identifies w (bind m k w).2.
Proof.
  intros Hs Hg Hb Hk. apply identifies_given; [|apply Hb]. intros Hinv. apply moved_user; [reflexivity|done|].
  intros u Hu. destruct (get_user_inv _ _ _ _ (Hg _ Hu)) as (_ & i & _ & Hi). apply Hk; [done| |done].
  by rewrite (user_row _ _ _ Hinv Hi).
Qed.

Lemma keeps_nothing_saved u action actor ip before reason :
  moves (keeps (fun _ => tt)) (saved (B:=B) u action actor ip before reason).
Proof. unfold saved, save_user, _admin_event. frame_tac. Qed.

Hint Resolve keeps_nothing_saved : frames.

(** Walk up to the transaction of an operation. *)
Ltac to_transaction :=
  repeat lazymatch goal with
  | |- forall _, _ => intros ?
  | |- moves _ (bind _ _) => apply moves_bind; [apply _|..]
  | |- moves _ (try_except _ _) => apply moves_try; [apply _|..]
  | |- moves _ (match ?x with _ => _ end) => destruct x
  | |- moves _ (atomic _) => fail
  | |- _ => solve [frame_tac]
  end; apply moves_transaction; [apply _..|].

Lemma user_version_moves u u' :
  us_id u' = us_id u -> us_created_at u' = us_created_at u -> us_version u' = Z.succ (us_version u) ->
  (us_revocation_version u' = Z.succ (us_revocation_version u) \/
   us_revocation_version u' = us_revocation_version u /\ us_password_hash u' = us_password_hash u /\ us_active u' = us_active u) ->
  user_moves u u'.
Proof.
  intros H1 H2 H3 H4. split_and!; [done..| | |].
  - destruct H4 as [->|(-> & _)]; lia.
  - right. lia.
  - intros He. destruct H4 as [H4|(_ & H4 & H5)]; [lia|]. split; [done|]. by rewrite H5.
Qed.

Lemma identifies_update actor user_id version name email ip :
  moves identifies (update_user (B:=B) actor user_id version name email ip).
Proof.
  unfold update_user, admin_require, duplicate, not_found. to_transaction. intros w.
  apply (identifies_change _ _ user_id); [apply get_user_still|done| |].
  - unfold get_user, _assert_version. frame_tac.
  - intros u Hinv Hu _. unfold _assert_version. apply moved_require; [reflexivity|]. intros _. eapply identifies_saved; [exact Hu| |].
    + apply user_version_moves; [done..|by right].
    + intros Ha. by left.
Qed.

Lemma identifies_role actor user_id version role reason ip :
  moves identifies (change_user_role (B:=B) actor user_id version role reason ip).
Proof.
  unfold change_user_role. apply moves_bind; [apply _|frame_tac|intros _]. apply moves_bind; [apply _|frame_tac|intros r]. to_transaction. intros w.
  apply (identifies_change _ _ user_id); [apply found_still, get_user_still|intros u; apply found_inv| |].
  - unfold get_user, _assert_version, _assert_not_last_administrator, not_found. frame_tac.
  - intros u Hinv Hu _. unfold _assert_version. apply moved_require; [reflexivity|]. intros _.
    unfold bind at 1. destruct (_assert_not_last_administrator u _ w) as [[x|e] w1] eqn:Hl.
    2: { cbn. eapply (moves_run identifies); [|exact Hl]. apply identifies_kept. unfold _assert_not_last_administrator. frame_tac. }
    destruct (not_last_inv _ _ _ _ _ Hl) as [-> Hanother]. eapply identifies_saved; [exact Hu| |].
    + apply user_version_moves; [done..|by right].
    + intros Ha. unfold active_administrator in *. cbn. destruct (decide (r = Role.ADMINISTRATOR)) as [->|Hne].
      * left. by destruct (us_role u).
      * right. apply Hanother; [done..| |done]. by rewrite bool_decide_eq_false_2.
Qed.

Lemma identifies_password u encoded action actor ip before reason w :
  users (db w) !! us_id u = Some u ->
  identifies w (saved (B:=B) (with_password encoded u) action actor ip before reason w).2.
Proof.
  intros Hu. eapply identifies_saved; [exact Hu| |].
  - apply user_version_moves; [done..|by left].
  - intros Ha. by left.
Qed.

Lemma identifies_reset actor user_id version password reason ip salt :
  moves identifies (reset_user_password (B:=B) actor user_id version password reason ip salt).
Proof.
  unfold reset_user_password, admin_require. to_transaction. intros w.
  apply (identifies_change _ _ user_id); [apply found_still, get_user_still|intros u; apply found_inv| |].
  - unfold get_user, _assert_version, not_found. frame_tac.
  - intros u Hinv Hu _. unfold _assert_version. apply moved_require; [reflexivity|]. intros _. by apply identifies_password.
Qed.

Lemma identifies_own actor current password ip salt :
  moves identifies (change_own_password (B:=B) actor current password ip salt).
Proof.
  unfold change_own_password, admin_require. to_transaction. intros w.
  apply (identifies_change _ _ (si_user_id actor)); [apply found_still, get_active_user_still| | |].
  - intros u Hu%found_inv. by apply get_active_user_inv in Hu as [? _].
  - unfold get_active_user, get_user, not_found. frame_tac.
  - intros u Hinv Hu _. apply moved_require; [reflexivity|]. intros _. apply moved_bind; [apply _|by apply identifies_password|].
    frame_tac.
Qed.

Lemma identifies_active actor user_id version active reason ip :
  moves identifies (set_user_active (B:=B) actor user_id version active reason ip).
Proof.
  unfold set_user_active. apply moves_bind; [apply _|frame_tac|intros _]. destruct active as [|active| | | | | | | | |]; try by frame_tac.
  apply moves_bind; [apply _|destruct active; frame_tac|intros r]. apply moves_transaction; [apply _..|]. intros w.
  apply (identifies_change _ _ user_id); [apply found_still, get_user_still|intros u; apply found_inv| |].
  - unfold get_user, _assert_version, _assert_not_last_administrator, not_found. frame_tac.
  - intros u Hinv Hu _. unfold _assert_version. apply moved_require; [reflexivity|]. intros _.
    unfold bind at 1. destruct (_assert_not_last_administrator u _ w) as [[x|e] w1] eqn:Hl.
    2: { cbn. eapply (moves_run identifies); [|exact Hl]. apply identifies_kept. unfold _assert_not_last_administrator. frame_tac. }
    destruct (not_last_inv _ _ _ _ _ Hl) as [-> Hanother]. eapply identifies_saved; [exact Hu| |].
    + split_and!; cbn; [done..| | |]; destruct active; cbn; [lia|lia|right; lia|right; lia|done|intros; lia].
    + intros Ha. destruct active; [left|right; by apply Hanother].
      unfold active_administrator in *. cbn. by destruct (us_role u).
Qed.

(** ** Logins and sessions *)

Lemma user_with_email_inv email d u :
  user_with_email email d = Some u -> us_email u = email /\ exists i, users d !! i = Some u.
Proof. unfold user_with_email. intros [He Hi]%first_by_elem%elem_of_select. by apply String.eqb_eq in He. Qed.

Lemma session_with_token_inv token_hash d s :
  session_with_token token_hash d = Some s -> se_token_hash s = token_hash /\ exists i, sessions d !! i = Some s.
Proof. unfold session_with_token. intros [He Hi]%first_by_elem%elem_of_select. by apply String.eqb_eq in He. Qed.

(** Throttles are not the sessions'. *)
Lemma keeps_throttle_of subject now : moves (keeps identity_tables) (throttle_of (B:=B) subject now).
Proof. unfold throttle_of. frame_tac. Qed.

Lemma keeps_set_throttle subject failures next : moves (keeps identity_tables) (set_throttle (B:=B) subject failures next).
Proof. unfold set_throttle. frame_tac. Qed.

Hint Resolve keeps_throttle_of keeps_set_throttle : frames.

Lemma insert_session_cases token user_agent user ip w :
  let w1 := w <| next_uuid ::= N.succ |> in
  (exists stored, let s := login_session (next_uuid w) token user_agent user ip (clock w) <| se_ip_address := stored |> in
   session_fits s = true /\ token_taken s (db w) = false /\
   insert_session (B:=B) token user_agent user ip (clock w) w = (Ok tt, w1 <| db ::= fun d => d <| sessions ::= put (se_id s) s |> |>)) \/
  exists e, insert_session (B:=B) token user_agent user ip (clock w) w = (Err e, w1).
Proof.
  intros w1. unfold insert_session, uuid4, query, write, bind, gets, require, modify, of_option, ret, throw. cbv zeta.
  cbn beta iota. fold w1. change (clock w1) with (clock w). set (s0 := login_session _ _ _ _ _ _).
  assert (forall stored, session_check (s0 <| se_ip_address := stored |>) = true) as Hc
    by (intros ?; apply Z.leb_le; cbn; unfold SESSION_IDLE_TIMEOUT; lia).
  destruct (se_ip_address s0) as [a|]; cbn beta iota.
  - destruct (inet _ a) as [b|]; cbn beta iota; [|right; by exists DataError].
    destruct (session_fits _) eqn:Hf; cbn beta iota; [|right; by exists DataError].
    destruct (token_taken _ _) eqn:Ht; cbn [negb andb]; [right; by exists IntegrityError|]. rewrite Hc. left. by exists (Some b).
  - destruct (session_fits _) eqn:Hf; cbn beta iota; [|right; by exists DataError].
    destruct (token_taken _ _) eqn:Ht; cbn [negb andb]; [right; by exists IntegrityError|]. rewrite Hc. left. by exists None.
Qed.

Lemma identifies_insert_session token user_agent user ip w i :
  identity_inv w -> users (db w) !! i = Some user -> us_active user = true ->
  identifies w (insert_session (B:=B) token user_agent user ip (clock w) w).2.
Proof.
  intros Hinv Hi Ha. destruct (insert_session_cases token user_agent user ip w) as [(stored & Hf & Ht & ->)|[e ->]];
    [|apply (identifies_uuid4 w)]. cbn [snd].
  assert (us_id user = i) as Hid by (by eapply user_row). subst i.
  apply (identifies_session w (login_session (next_uuid w) token user_agent user ip (clock w) <| se_ip_address := stored |>) user); [done| |done|done|].
  - split_and!; [done|cbn; lia..|done].
  - split; cbn; [lia|]. by rewrite Ha.
Qed.

Lemma set_throttle_inv subject failures next w r w' :
  set_throttle (B:=B) subject failures next w = (Ok r, w') ->
  w' = w <| db ::= fun d => d <| throttles ::= alter (fun t => t <| th_failures := failures |> <| th_next_allowed_at := next |>) subject |> |>.
Proof. unfold set_throttle. intros Hs. by invert_db. Qed.

Lemma identifies_authenticate email password ip user_agent token :
  moves identifies (authenticate (B:=B) secret_key email password ip user_agent token).
Proof.
  unfold authenticate. apply moves_transaction; [apply _..|]. intros w0. apply moved_now.
  unfold bind at 1. destruct (throttle_of _ _ w0) as [[throttle|e] w] eqn:Hth.
  2: { cbn. apply identifies_keeping. eapply (moves_run (keeps identity_tables)); [|exact Hth]. frame_tac. }
  assert (keeps identity_tables w0 w) as Hk by (eapply (moves_run (keeps identity_tables)); [|exact Hth]; frame_tac).
  assert (clock w0 = clock w) as Hc by (by destruct Hk as (_ & -> & _)).
  etrans; [by apply identifies_keeping|]. clear Hth Hk. rewrite !Hc.
  destruct (Z.ltb (clock w) (th_next_allowed_at throttle)).
  { apply moved_bind; [apply _|apply identifies_event|frame_tac]. }
  apply moved_query. destruct (user_with_email (normalize_email email) (db w)) as [user|] eqn:Hu.
  2: { apply moved_bind; [apply _|apply identifies_kept; frame_tac|]. frame_tac. }
  destruct (us_active user && check_password password (us_password_hash user)) eqn:Ha.
  2: { apply moved_bind; [apply _|apply identifies_kept; frame_tac|]. frame_tac. }
  apply identifies_given; [|match goal with |- _ _ (?m w).2 => assert (moves (keeps (fun _ => tt)) m) as Hm; [|apply Hm] end;
                            unfold insert_session, set_throttle, _event; frame_tac].
  intros Hinv. unfold bind at 1. destruct (set_throttle _ 0 (clock w) w) as [[x|e] w1] eqn:Ht.
  2: { cbn. apply identifies_keeping. eapply (moves_run (keeps identity_tables)); [|exact Ht]. frame_tac. }
  apply set_throttle_inv in Ht as ->. cbn beta iota. set (w1 := w <| db ::= _ |>).
  assert (identifies w w1) as H1 by (by apply identifies_keeping; split_and!; [done..|cbn; lia]).
  etrans; [exact H1|]. apply moved_bind; [apply _| |frame_tac].
  apply andb_true_iff in Ha as [Ha _]. apply user_with_email_inv in Hu as [_ [i Hi]].
  apply (identifies_insert_session token user_agent user ip w1 i); [|done..]. by apply H1.
Qed.

Lemma identifies_revoke_row id now w :
  identifies w (w <| db ::= revoke_row id now |>).
Proof.
  apply identifies_sessions.
  - intros s Hp. bools. destruct (se_revoked_at s) eqn:Hr; [done|]. split; [done|]. split_and!; [done..|by rewrite Hr|done].
  - intros [] _ Hs. exact Hs.
Qed.

Lemma identifies_touch_row id version w :
  identifies w (w <| db ::= touch_row id version (clock w) |>).
Proof.
  change (touch_row id version (clock w)) with (fun d => d <| sessions ::= update_where (touchable id version (clock w) d)
        (fun s => s <| se_last_activity_at := clock w |> <| se_expires_at := (clock w + SESSION_IDLE_TIMEOUT)%Z |>) |>).
  apply (identifies_sessions w (touchable id version (clock w) (db w))).
  - intros s Hp. unfold touchable in Hp. bools. split; [done|]. split_and!; [done..|]. cbn. lia.
  - intros s Hp (K1 & K2 & K3). split; [done|]. split; cbn; [lia|done].
Qed.

Lemma identifies_resolve token touch : moves identifies (resolve_session (B:=B) token touch).
Proof.
  assert (forall id now, moves identifies (autocommit (write (B:=B) (revoke_row id now)))) as Hr.
  { intros id now. apply moves_transaction; [apply _..|]. intros w. apply identifies_revoke_row. }
  unfold resolve_session. destruct token as [[|c t]|]; [by frame_tac| |by frame_tac]. intros w. apply moved_now.
  apply moved_autoquery; [reflexivity|]. destruct (found_session _ (db w)) as [[session user]|]; [|reflexivity].
  destruct (is_some (se_revoked_at session) || negb (us_active user)); [reflexivity|].
  destruct (_ || _); [apply moved_bind; [apply _|apply Hr|frame_tac]|]. destruct touch; [|reflexivity].
  apply moved_autoquery; [reflexivity|]. apply moved_bind; [apply _| |frame_tac].
  unfold autocommit, atomic. destruct (online w); [|reflexivity]. apply (identifies_touch_row (se_id session) _ w).
Qed.

Lemma identifies_revoke token : moves identifies (revoke_session (B:=B) token).
Proof.
  unfold revoke_session. frame_tac. intros w. apply identifies_revoke_row.
Qed.

End operations.
