(* ===== verification/SessionGuarantees.v ===== *)
(** * What logins, sessions and the administration of users guarantee

    Any sequence of operations, with the rest of the system and time passing in
    between, keeps the identity tables well formed and an administrator active;
    a session that has ended never identifies anyone again; a live one does, for
    thirty minutes after its last use; and guessing a password is slow. *)

From Stdlib Require Import ZArith Ascii String List Lia.
From stdpp Require Import base decidable list gmap strings relations.
From S2P Require Import Prelude PyStr Sha256 PyVal Models AuditTrail Identity Companies JobPolicies JobEngine Tables Sessions SessionFacts.

Local Open Scope string_scope.

(** ** Any sequence of operations *)

Section commands.
Context {B : Type} `{PasswordHasher} (secret_key : string).
Implicit Types w : World B.

Inductive IdentityCommand : Type :=
| CmdBootstrap (password salt : string)
| CmdLogin (email password ip user_agent token : string)
| CmdResolve (token : option string) (touch : bool)
| CmdLogout (token : option string)
| CmdCreateUser (actor : SessionIdentity) (name : string) (email : pyval) (role password ip salt : string)
| CmdUpdateUser (actor : SessionIdentity) (user_id : string) (version : Z) (name : string) (email : pyval) (ip : string)
| CmdChangeRole (actor : SessionIdentity) (user_id : string) (version : Z) (role : string) (reason : pyval) (ip : string)
| CmdReset (actor : SessionIdentity) (user_id : string) (version : Z) (password : string) (reason : pyval) (ip salt : string)
| CmdOwnPassword (actor : SessionIdentity) (current password : pyval) (ip salt : string)
| CmdSetActive (actor : SessionIdentity) (user_id : string) (version : Z) (active : pyval) (reason ip : string).

Definition run_identity (c : IdentityCommand) w : World B :=
  match c with
  | CmdBootstrap p s => (bootstrap_first_administrator p s w).2
  | CmdLogin e p ip ua t => (authenticate secret_key e p ip ua t w).2
  | CmdResolve t b => (resolve_session t b w).2
  | CmdLogout t => (revoke_session t w).2
  | CmdCreateUser a n e r p ip s => (create_user a n e r p ip s w).2
  | CmdUpdateUser a i v n e ip => (update_user a i v n e ip w).2
  | CmdChangeRole a i v r re ip => (change_user_role a i v r re ip w).2
  | CmdReset a i v p re ip s => (reset_user_password a i v p re ip s w).2
  | CmdOwnPassword a c p ip s => (change_own_password a c p ip s w).2
  | CmdSetActive a i v b re ip => (set_user_active a i v b re ip w).2
  end.

(** An operation, or anything that leaves the identity tables alone: the other
    components, passing time, a lost connection. *)
Inductive identity_step : relation (World B) :=
| step_identity c w : identity_step w (run_identity c w)
| step_elsewhere w w' :
    identity_tables (db w') = identity_tables (db w) -> throttles (db w') = throttles (db w) ->
    (next_uuid w <= next_uuid w')%N -> (clock w <= clock w')%Z -> identity_step w w'.

Lemma identifies_command c w : identifies w (run_identity c w).
Proof.
  destruct c; [apply identifies_bootstrap|apply identifies_authenticate|apply identifies_resolve|apply identifies_revoke|
    apply identifies_create|apply identifies_update|apply identifies_role|apply identifies_reset|apply identifies_own|
    apply identifies_active].
Qed.

Definition identity_after w w' : Prop :=
  identity_inv w' /\ identity_moves (clock w) (db w) (db w') /\ (clock w <= clock w')%Z.

Lemma identity_step_ok w w' : identity_step w w' -> identity_inv w -> identity_after w w'.
Proof.
  intros [c x|x y [= Hu Hs] _ Hn Hc] Hinv.
  - destruct (identifies_command c x) as (Hc & _ & _ & Hk). destruct (Hk Hinv). split_and!; [done..|]. by rewrite Hc.
  - split_and!; [|by apply identity_moves_same|done]. eapply identity_ok_same; [done..|].
    by eapply identity_ok_mono.
Qed.

Lemma identity_after_refl w : identity_inv w -> identity_after w w.
Proof. intros Hw. split_and!; [done|reflexivity|lia]. Qed.

Lemma identity_after_trans w0 w1 w2 : identity_after w0 w1 -> identity_after w1 w2 -> identity_after w0 w2.
Proof.
  intros (_ & H1 & H2) (G1 & G2 & G3). split_and!; [done| |lia]. etrans; [exact H1|]. by eapply identity_moves_later.
Qed.

Lemma identity_steps_ok w w' : rtc identity_step w w' -> identity_inv w -> identity_after w w'.
Proof.
  induction 1 as [x|x y z Hxy _ IH]; intros Hinv; [by apply identity_after_refl|].
  pose proof (identity_step_ok x y Hxy Hinv) as Hy. eapply identity_after_trans; [exact Hy|]. apply IH, Hy.
Qed.

(** ** Finding a session *)

Lemma session_found w i s :
  identity_inv w -> sessions (db w) !! i = Some s -> session_with_token (se_token_hash s) (db w) = Some s.
Proof.
  intros Hinv Hi. unfold session_with_token.
  apply (first_where_unique se_id se_token_hash (fun s => Z.of_N (se_id s)) (next_uuid w) _ _ i); [apply Hinv|done|by apply String.eqb_refl|].
  intros x Hx. by apply String.eqb_eq.
Qed.

Lemma session_and_user_found w token s :
  identity_inv w -> session_with_token (_digest token) (db w) = Some s ->
  exists u, users (db w) !! se_user s = Some u /\ session_of s u /\ found_session token (db w) = Some (s, u).
Proof.
  intros Hinv Hs. destruct (session_with_token_inv _ _ _ Hs) as (_ & i & Hi). destruct (id_owner _ _ _ Hinv _ _ Hi) as (u & Hu & Hsu).
  exists u. split_and!; [done..|]. unfold found_session. by rewrite Hs, Hu.
Qed.

(** ** Ended sessions *)

(** Revoked, expired, or older than its user. *)
Definition ended (now : Z) (d : DB) (s : IdentitySession) : Prop :=
  is_some (se_revoked_at s) = true \/ (se_expires_at s <= now)%Z \/
  exists u, users d !! se_user s = Some u /\ (se_revocation_version s < us_revocation_version u)%Z.

Definition token_ended (token : string) w : Prop :=
  exists i s, sessions (db w) !! i = Some s /\ se_token_hash s = _digest token /\ ended (clock w) (db w) s.

Lemma token_ended_later token w w' : token_ended token w -> identity_after w w' -> token_ended token w'.
Proof.
  intros (i & s & Hi & Ht & He) (Hinv & Hm & Hc). destruct (im_sessions _ _ _ Hm _ _ Hi) as (s' & Hi' & K1 & K2 & K3 & _ & K5 & K6).
  exists i, s'. split_and!; [done|congruence|]. unfold ended. rewrite K2, K3. destruct He as [Hr|[Hx|(u & Hu & Hlt)]].
  - left. destruct (se_revoked_at s) as [t|]; [|done]. by rewrite (K5 t eq_refl).
  - right. left. rewrite (K6 Hx). lia.
  - right. right. destruct (im_users _ _ _ Hm _ _ Hu) as (u' & Hu' & _ & _ & Hle & _). exists u'. split; [done|lia].
Qed.

(** It identifies no one. *)
Lemma ended_unresolved token w touch i : identity_inv w -> token_ended token w -> (resolve_session (Some token) touch w).1 <> Ok (Some i).
Proof.
  intros Hinv (k & s & Hk & Ht & He). unfold resolve_session. destruct token as [|c t]; [done|]. set (token := String c t) in *.
  pose proof (session_found _ _ _ Hinv Hk) as Hs. rewrite Ht in Hs.
  destruct (session_and_user_found _ _ _ Hinv Hs) as (u & Hu & _ & Hf).
  unfold bind at 1, timezone_now, gets at 1. unfold bind at 1, autocommit at 1, atomic at 1.
  destruct (online w); [|done]. unfold query at 1, gets at 1. rewrite Hf.
  destruct (is_some (se_revoked_at s)) eqn:Hr; [done|]. destruct (us_active u); [cbn [negb orb]|done].
  assert (Z.leb (se_expires_at s) (clock w) || negb (Z.eqb (se_revocation_version s) (us_revocation_version u)) = true) as ->.
  { destruct He as [He|[He|(u' & Hu' & Hlt)]]; [congruence|apply orb_true_iff; left; by apply Z.leb_le|].
    simplify_eq. apply orb_true_iff. right. apply negb_true_iff, Z.eqb_neq. lia. }
  unfold bind. repeat case_match; try done; simplify_eq; done.
Qed.

(** ** What ends a session *)

(** A user whose revocation version has grown. *)
Definition outdates (id : N) w w' : Prop :=
  sessions (db w') = sessions (db w) /\ clock w' = clock w /\
  exists u u', users (db w) !! id = Some u /\ users (db w') !! id = Some u' /\
    us_revocation_version u' = Z.succ (us_revocation_version u).

Lemma saved_inv u action actor ip before reason w u' w' :
  saved (B:=B) u action actor ip before reason w = (Ok u', w') ->
  u' = u <| us_updated_at := clock w |> /\ users (db w') !! us_id u = Some u' /\ sessions (db w') = sessions (db w) /\ clock w' = clock w.
Proof.
  unfold saved. intros Hs. apply bind_inv in Hs as (now & ? & [-> ->]%now_inv & Hs). cbn zeta in Hs.
  apply bind_inv in Hs as (? & w1 & (_ & _ & ->)%save_user_inv & Hs). apply bind_inv in Hs as (? & w2 & He & [-> ->]%ret_inv).
  assert (moves (keeps identity_tables) (_admin_event (B:=B) action actor (u <| us_updated_at := clock w |>) ip (Some before) reason)) as Hm
    by (unfold _admin_event; frame_tac).
  destruct (moves_run _ _ _ _ _ Hm He) as ([= Hu Hk] & Hc & _). split; [done|]. rewrite Hu, Hk, Hc. split; [|done].
  cbn. unfold put. by rewrite lookup_insert_eq.
Qed.

(** The locked row is the one of its own key. *)
Lemma changed_inv (m : M B User) (k : User -> M B User) user_id w u' w' :
  identity_inv w -> (forall u w1, m w = (Ok u, w1) -> get_user (B:=B) user_id w = (Ok u, w1)) -> bind m k w = (Ok u', w') ->
  exists u, users (db w) !! us_id u = Some u /\ parse_uuid user_id = Some (us_id u) /\ k u w = (Ok u', w').
Proof.
  intros Hinv Hg Hb. apply bind_inv in Hb as (u & w1 & (-> & i & Hp & Hi)%Hg%get_user_inv & Hk).
  exists u. by rewrite (user_row _ _ _ Hinv Hi).
Qed.

Lemma outdates_saved u u1 action actor ip before reason w u' w' :
  users (db w) !! us_id u = Some u -> us_id u1 = us_id u -> us_revocation_version u1 = Z.succ (us_revocation_version u) ->
  saved (B:=B) u1 action actor ip before reason w = (Ok u', w') -> outdates (us_id u') w w'.
Proof.
  intros Hu Hid Hv (-> & Hu' & Hs & Hc)%saved_inv. cbn [us_id upd]. rewrite Hid in *. split_and!; [done..|]. by eexists _, _.
Qed.

Lemma outdates_reset actor id version password reason ip salt w u w' :
  identity_inv w -> reset_user_password (B:=B) actor id version password reason ip salt w = (Ok u, w') -> outdates (us_id u) w w'.
Proof.
  intros Hinv Hr. unfold reset_user_password, admin_require in Hr. apply bind_inv in Hr as (? & ? & [_ ->]%lift_inv & Hr).
  apply bind_inv in Hr as (? & ? & [_ ->]%require_inv & Hr). apply bind_inv in Hr as (? & ? & [_ ->]%lift_inv & Hr).
  apply atomic_inv in Hr as [_ Hr]. apply (changed_inv _ _ id) in Hr as (u0 & Hu0 & _ & Hr); [|done|by intros ? ? ?%found_inv].
  apply bind_inv in Hr as (? & ? & [_ ->]%require_inv & Hr). by apply (outdates_saved u0) in Hr.
Qed.

Lemma outdates_deactivation actor id version reason ip w u w' :
  identity_inv w -> set_user_active (B:=B) actor id version (VBool false) reason ip w = (Ok u, w') -> outdates (us_id u) w w'.
Proof.
  intros Hinv Hr. unfold set_user_active in Hr. apply bind_inv in Hr as (? & ? & [_ ->]%lift_inv & Hr).
  apply bind_inv in Hr as (? & ? & [_ ->]%lift_inv & Hr).
  apply atomic_inv in Hr as [_ Hr]. apply (changed_inv _ _ id) in Hr as (u0 & Hu0 & _ & Hr); [|done|by intros ? ? ?%found_inv].
  apply bind_inv in Hr as (? & ? & [_ ->]%require_inv & Hr).
  apply bind_inv in Hr as (? & ? & [-> _]%not_last_inv & Hr). by apply (outdates_saved u0) in Hr.
Qed.

Lemma outdates_own actor current password ip salt w w' :
  identity_inv w -> change_own_password (B:=B) actor current password ip salt w = (Ok tt, w') ->
  exists id, parse_uuid (si_user_id actor) = Some id /\ outdates id w w'.
Proof.
  intros Hinv Hr. unfold change_own_password, admin_require in Hr. destruct current as [| | | |current| | | | | |]; try done.
  destruct password as [| | | |password| | | | | |]; try done. apply bind_inv in Hr as (? & ? & [_ ->]%require_inv & Hr).
  apply atomic_inv in Hr as [_ Hr].
  apply bind_inv in Hr as (u & ? & [(-> & i & Hp & Hi)%get_user_inv _]%found_inv%get_active_user_inv & Hr).
  exists i. split; [done|]. pose proof (user_row _ _ _ Hinv Hi) as Hid. rewrite <-Hid in Hi |- *.
  apply bind_inv in Hr as (? & ? & [_ ->]%require_inv & Hr). apply bind_inv in Hr as (u' & ? & Hr & [_ ->]%ret_inv).
  pose proof (saved_inv _ _ _ _ _ _ _ _ _ Hr) as (-> & _).
  by apply (outdates_saved u) in Hr.
Qed.

(** The operations that end the session [s] of a token, and idleness. *)
Inductive ends (token : string) (s : IdentitySession) w : World B -> Prop :=
| ends_logout w' : revoke_session (Some token) w = (Ok tt, w') -> ends token s w w'
| ends_reset actor id version password reason ip salt u w' :
    reset_user_password actor id version password reason ip salt w = (Ok u, w') -> us_id u = se_user s -> ends token s w w'
| ends_own_change actor current password ip salt w' :
    change_own_password actor current password ip salt w = (Ok tt, w') -> parse_uuid (si_user_id actor) = Some (se_user s) ->
    ends token s w w'
| ends_deactivation actor id version reason ip u w' :
    set_user_active actor id version (VBool false) reason ip w = (Ok u, w') -> us_id u = se_user s -> ends token s w w'
| ends_idle : (se_last_activity_at s + SESSION_IDLE_TIMEOUT <= clock w)%Z -> ends token s w w.

Lemma outdated_ended token s w w' :
  identity_inv w -> session_with_token (_digest token) (db w) = Some s -> outdates (se_user s) w w' -> token_ended token w'.
Proof.
  intros Hinv Hs (Hk & Hc & u & u' & Hu & Hu' & Hv). destruct (session_with_token_inv _ _ _ Hs) as (Ht & i & Hi).
  exists i, s. rewrite Hk. split_and!; [done..|]. right. right. exists u'. split; [done|].
  destruct (id_owner _ _ _ Hinv _ _ Hi) as (u0 & Hu0 & Hle & _). simplify_eq. lia.
Qed.

Lemma logout_ended token s w w' :
  identity_inv w -> session_with_token (_digest token) (db w) = Some s -> token <> "" ->
  revoke_session (B:=B) (Some token) w = (Ok tt, w') -> token_ended token w'.
Proof.
  intros Hinv Hs Hne Hr. destruct token as [|c t]; [done|]. unfold revoke_session in Hr. set (token := String c t) in *.
  destruct (session_and_user_found _ _ _ Hinv Hs) as (u & _ & _ & Hf). destruct (session_with_token_inv _ _ _ Hs) as (Ht & i & Hi).
  apply bind_inv in Hr as (now & ? & [-> ->]%now_inv & Hr). apply atomic_inv in Hr as [_ Hr].
  apply bind_inv in Hr as (found & ? & [-> ->]%query_inv & Hr). rewrite Hf in Hr. destruct (is_some (se_revoked_at s)) eqn:Hrev.
  - invert_run. exists i, s. split_and!; [done..|]. by left.
  - apply bind_inv in Hr as (? & w1 & ->%write_inv & Hr).
    assert (moves (keeps identity_tables) (_event (B:=B) "logout" "success" (Some u) (Role.value (us_role u)) (se_ip_address s))) as Hm
      by (unfold _event; frame_tac).
    destruct (moves_run _ _ _ _ _ Hm Hr) as ([= _ Hk] & _).
    exists i, (s <| se_revoked_at := Some (clock w) |>). rewrite Hk. split; [|split; [done|by left]].
    cbn. rewrite lookup_update_where, Hi. cbn. by rewrite N.eqb_refl, Hrev.
Qed.

Lemma ends_ended token s w w' :
  identity_inv w -> session_with_token (_digest token) (db w) = Some s -> token <> "" -> ends token s w w' -> token_ended token w'.
Proof.
  intros Hinv Hs Hne [w1 Hr|? ? ? ? ? ? ? u w1 Hr He|? ? ? ? ? w1 Hr Hp|? ? ? ? ? u w1 Hr He|Hx].
  - by eapply logout_ended.
  - eapply outdated_ended; [done..|]. rewrite <-He. by eapply outdates_reset.
  - apply outdates_own in Hr as (id & Hp' & Ho); [|done]. eapply outdated_ended; [done..|]. congruence.
  - eapply outdated_ended; [done..|]. rewrite <-He. by eapply outdates_deactivation.
  - destruct (session_with_token_inv _ _ _ Hs) as (Ht & i & Hi). exists i, s. split_and!; [done..|]. right. left.
    destruct (id_rows _ _ _ Hinv _ _ Hi) as (_ & _ & ->). done.
Qed.

Lemma ends_step token s w w' : ends token s w w' -> rtc identity_step w w'.
Proof.
  intros [w1 Hr|? ? ? ? ? ? ? u w1 Hr He|? ? ? ? ? w1 Hr Hp|? ? ? ? ? u w1 Hr He|Hx]; [..|reflexivity]; apply rtc_once.
  - replace w1 with (run_identity (CmdLogout (Some token)) w) by (unfold run_identity; by rewrite Hr). constructor.
  - match type of Hr with reset_user_password ?a ?b ?c ?d ?e ?f ?g _ = _ =>
      replace w1 with (run_identity (CmdReset a b c d e f g) w) by (unfold run_identity; by rewrite Hr) end. constructor.
  - match type of Hr with change_own_password ?a ?b ?c ?d ?e _ = _ =>
      replace w1 with (run_identity (CmdOwnPassword a b c d e) w) by (unfold run_identity; by rewrite Hr) end. constructor.
  - match type of Hr with set_user_active ?a ?b ?c ?d ?e ?f _ = _ =>
      replace w1 with (run_identity (CmdSetActive a b c d e f) w) by (unfold run_identity; by rewrite Hr) end. constructor.
Qed.
End commands.

(** C9 A session that has ended never identifies anyone again: once its user has
    logged out, has had their password reset, has changed it or has been
    deactivated, or once it has been idle for thirty minutes, no operation in any
    order - a new login, a reactivation, another use of the same token -, no time
    passing and no lost connection makes its token resolve. *)
Theorem ended_session_never_resolves {B} `{PasswordHasher} (secret_key token : string) s (w w1 w2 : World B) touch i :
  identity_inv w -> session_with_token (_digest token) (db w) = Some s -> token <> "" ->
  ends token s w w1 -> rtc (identity_step secret_key) w1 w2 ->
  (resolve_session (Some token) touch w2).1 <> Ok (Some i).
Proof.
  intros Hinv Hs Hne He Hr. pose proof (ends_ended _ _ _ _ Hinv Hs Hne He) as Hend.
  destruct (identity_steps_ok secret_key _ _ (ends_step secret_key _ _ _ _ He) Hinv) as [Hinv1 _].
  pose proof (identity_steps_ok secret_key _ _ Hr Hinv1) as Hafter. apply ended_unresolved; [apply Hafter|].
  by eapply token_ended_later.
Qed.

(** C35 The identity tables stay well formed through any sequence of operations:
    keys and e-mail addresses and token digests are unique, every row fits its
    columns and its check constraint, every session belongs to a user and is not
    newer than them, and expires thirty minutes after its last use; and rows only
    move forward - versions grow, a session keeps its user, nothing is lost. *)
Theorem identity_tables_well_formed {B} `{PasswordHasher} (secret_key : string) (w w' : World B) :
  identity_inv w -> rtc (identity_step secret_key) w w' ->
  identity_inv w' /\ identity_moves (clock w) (db w) (db w') /\
  (forall i s, sessions (db w') !! i = Some s -> session_check s = true).
Proof.
  intros Hinv Hr. destruct (identity_steps_ok _ _ _ Hr Hinv) as (Hinv' & Hm & _). split_and!; [done..|].
  intros i s Hi. eapply session_row_check. by apply (id_rows _ _ _ Hinv' i).
Qed.

(** ** The last administrator *)

Section administrators.
Context {B : Type} `{PasswordHasher} (secret_key : string).
Implicit Types w : World B.

Lemma bootstrap_governs password salt w u w' :
  bootstrap_first_administrator (B:=B) password salt w = (Ok (u, true), w') -> governed (db w').
Proof.
  intros Hb. unfold bootstrap_first_administrator in Hb. apply try_inv in Hb as [Hb|(e & w1 & _ & Hb)].
  - apply atomic_inv in Hb as [_ Hb]. apply bind_inv in Hb as (any & ? & [-> ->]%query_inv & Hb).
    destruct (exists_row _ _); [by invert_db|]. apply bind_inv in Hb as (x & w1 & Hi & [[= ->] ->]%ret_inv).
    unfold insert_user in Hi. apply bind_inv in Hi as (id & ? & [-> ->]%uuid4_inv & Hi).
    apply bind_inv in Hi as (now & ? & [-> ->]%now_inv & Hi). cbn zeta in Hi.
    apply bind_inv in Hi as (? & ? & (_ & _ & ->)%save_user_inv & [-> ->]%ret_inv).
    eexists _, _. split; [cbn; unfold put; by rewrite lookup_insert_eq|done].
  - destruct e; try done. by invert_db.
Qed.

(** The one active administrator. *)
Definition last_administrator (u : User) w : Prop :=
  users (db w) !! us_id u = Some u /\ select active_administrator (users (db w)) = [u].

Lemma last_is_active u w : last_administrator u w -> active_administrator u = true.
Proof. intros [_ Hs]. assert (u ∈ select active_administrator (users (db w))) as [? _]%elem_of_select by (rewrite Hs; left). done. Qed.

Lemma last_kept u w : last_administrator u w -> _assert_not_last_administrator (B:=B) u true w = (Err LastAdministrator, w).
Proof.
  intros Hl. unfold _assert_not_last_administrator. rewrite (last_is_active _ _ Hl). cbn [negb orb].
  unfold bind, query, gets. destruct Hl as [_ ->]. cbn. by rewrite N.eqb_refl.
Qed.

(** Both transactions that may lose an administrator, up to the guard. *)
Lemma last_refused u user_id (k : User -> M B User) w :
  online w = true -> parse_uuid user_id = Some (us_id u) -> last_administrator u w ->
  atomic (bind (try_except (get_user user_id) (not_found (B:=B))) (fun user =>
            _assert_version user (us_version u) ;;; (_assert_not_last_administrator user true ;;; k user))) w
  = (Err LastAdministrator, w).
Proof.
  intros Ho Hp Hl. unfold atomic. rewrite Ho. unfold bind at 1, try_except, get_user. unfold bind at 1 2. rewrite Hp. cbn [of_option ret].
  unfold query, gets. destruct Hl as [Hu Hs] eqn:E. rewrite Hu. cbn [of_option ret]. unfold _assert_version, require, ret, of_option.
  unfold bind at 1. rewrite Z.eqb_refl. unfold bind. rewrite (last_kept _ _ Hl). by destruct w.
Qed.

End administrators.

(** C31 There is always an active administrator: once there is one - the bootstrap
    creates it - any sequence of operations keeps one; and the last one can be
    neither demoted nor deactivated, the attempt leaves no trace. *)
Theorem administrator_remains {B} `{PasswordHasher} (secret_key : string) (w w' : World B) :
  identity_inv w -> rtc (identity_step secret_key) w w' ->
  (governed (db w) \/ exists password salt u w0, bootstrap_first_administrator password salt w0 = (Ok (u, true), w)) ->
  governed (db w') /\
  (forall u actor user_id ip reason role text, last_administrator u w' -> online w' = true ->
     _require_administrator actor = Ok tt -> parse_uuid user_id = Some (us_id u) -> _validated_reason reason = Ok text ->
     Role.of_value role <> None -> role <> Role.value Role.ADMINISTRATOR ->
     change_user_role actor user_id (us_version u) role reason ip w' = (Err LastAdministrator, w')) /\
  (forall u actor user_id ip reason text, last_administrator u w' -> online w' = true ->
     _require_administrator actor = Ok tt -> parse_uuid user_id = Some (us_id u) -> _validated_reason (VStr reason) = Ok text ->
     set_user_active actor user_id (us_version u) (VBool false) reason ip w' = (Err LastAdministrator, w')).
Proof.
  intros Hinv Hr Hg. split; [|split].
  - destruct (identity_steps_ok _ _ _ Hr Hinv) as (_ & Hm & _). apply (im_governed _ _ _ Hm).
    destruct Hg as [Hg|(password & salt & u & w0 & Hb)]; [done|]. by eapply bootstrap_governs.
  - intros u actor user_id ip reason role text Hl Ho Ha Hp Ht Hrole Hne. unfold change_user_role. rewrite Ha, Ht.
    destruct (Role.of_value role) as [r|] eqn:Hv; [|done]. unfold lift_result, of_option. unfold bind at 1, ret at 1.
    unfold bind at 1, ret at 1. unfold bind at 1, ret at 1. rewrite (bool_decide_eq_false_2 (r = Role.ADMINISTRATOR)).
    + by apply (last_refused u user_id (fun _ => _)).
    + intros ->. apply Hne. apply find_some in Hv as [_ Hv]. symmetry. by apply String.eqb_eq.
  - intros u actor user_id ip reason text Hl Ho Ha Hp Ht. unfold set_user_active. rewrite Ha, Ht. unfold lift_result.
    unfold bind at 1, ret at 1. unfold bind at 1, ret at 1. by apply (last_refused u user_id (fun _ => _)).
Qed.

(** ** Resolving a token *)

Section resolution.
Context {B : Type} `{PasswordHasher}.
Implicit Types w : World B.

(** A session that identifies its user now. *)
Definition live (now : Z) (s : IdentitySession) (u : User) : bool :=
  negb (is_some (se_revoked_at s)) && us_active u && Z.ltb now (se_expires_at s) &&
  Z.eqb (se_revocation_version s) (us_revocation_version u).

Definition live_session (token : string) w : option (IdentitySession * User) :=
  match found_session token (db w) with
  | Some (s, u) => if live (clock w) s u then Some (s, u) else None
  | None => None
  end.

Definition refreshed (now : Z) (s : IdentitySession) : IdentitySession :=
  s <| se_last_activity_at := now |> <| se_expires_at := (now + SESSION_IDLE_TIMEOUT)%Z |>.

(** A conditional update that matches one row. *)
Lemma update_one {R} (p : R -> bool) (f : R -> R) (t : gmap N R) i r :
  t !! i = Some r -> p r = true -> (forall j s, t !! j = Some s -> p s = true -> j = i) -> update_where p f t = <[i := f r]> t.
Proof.
  intros Hi Hp Hu. apply map_eq. intros j. rewrite lookup_update_where. destruct (decide (i = j)) as [<-|Hne].
  - rewrite Hi, lookup_insert_eq. cbn. by rewrite Hp.
  - rewrite lookup_insert_ne by done. destruct (t !! j) as [s|] eqn:Hj; [|done]. cbn. destruct (p s) eqn:Hs; [|done].
    by destruct Hne; symmetry; eapply Hu.
Qed.

Lemma keyed_only {w} (p : IdentitySession -> bool) s i j x :
  identity_inv w -> sessions (db w) !! i = Some s -> (forall x, p x = true -> se_id x = se_id s) ->
  sessions (db w) !! j = Some x -> p x = true -> j = i.
Proof.
  intros Hinv Hi Hp Hj Hx. destruct (proj1 (id_sessions _ _ _ Hinv) _ _ Hi) as [<- _], (proj1 (id_sessions _ _ _ Hinv) _ _ Hj) as [<- _].
  by apply Hp.
Qed.

Lemma touchable_live s u now d :
  users d !! se_user s = Some u -> touchable (se_id s) (us_revocation_version u) now d s =
  (negb (is_some (se_revoked_at s)) && Z.ltb now (se_expires_at s) && us_active u).
Proof. intros Hu. unfold touchable. rewrite Hu, N.eqb_refl, Z.eqb_refl. cbn. by rewrite andb_true_r. Qed.

(** The event of an expiry answers nobody and touches no identity. *)
Definition expiry (s : IdentitySession) (u : User) : M B (option SessionIdentity) :=
  _event "session_expired" "expired" (Some u) "" (se_ip_address s) ;;; ret None.

Lemma expires_nobody w s u i : (expiry s u w).1 <> Ok (Some i).
Proof. unfold expiry, bind. by destruct (_event _ _ _ _ _ w) as [[?|?] ?]. Qed.

Lemma expires_still w s u : users (db (expiry s u w).2) = users (db w) /\ sessions (db (expiry s u w).2) = sessions (db w).
Proof.
  assert (moves (keeps users) (expiry s u) /\ moves (keeps sessions) (expiry s u)) as [Hu Hs] by (split; unfold expiry, _event; frame_tac).
  destruct (Hu w) as [Hku _], (Hs w) as [Hks _]. by split.
Qed.

(** The tests of [resolve_session], on what it found. *)
Lemma resolve_found token touch w :
  online w = true -> token <> "" ->
  resolve_session (B:=B) (Some token) touch w =
  match found_session token (db w) with
  | None => (Ok None, w)
  | Some (s, u) =>
      if is_some (se_revoked_at s) || negb (us_active u) then (Ok None, w)
      else if Z.leb (se_expires_at s) (clock w) || negb (Z.eqb (se_revocation_version s) (us_revocation_version u)) then
        expiry s u (w <| db ::= revoke_row (se_id s) (clock w) |>)
      else if touch then
        (Ok (if exists_row (touchable (se_id s) (se_revocation_version s) (clock w) (db w)) (sessions (db w))
             then Some (identity_of u) else None),
         w <| db ::= touch_row (se_id s) (se_revocation_version s) (clock w) |>)
      else (Ok (Some (identity_of u)), w)
  end.
Proof.
  intros Ho Hne. destruct token as [|c t]; [done|]. unfold resolve_session. unfold bind at 1, timezone_now, gets at 1.
  unfold bind at 1, autocommit at 1, atomic at 1. rewrite Ho. unfold query at 1, gets at 1.
  destruct (found_session _ (db w)) as [[s u]|]; [|done]. destruct (_ || negb (us_active u)); [done|].
  destruct (_ || _).
  - unfold bind at 1, autocommit at 1, atomic at 1. rewrite Ho. unfold expiry. reflexivity.
  - destruct touch; [|done]. unfold bind, autocommit, atomic. rewrite Ho. unfold query, gets, write, modify. cbn beta iota. by rewrite Ho.
Qed.

Lemma resolve_offline token touch w :
  online w = false -> token <> "" -> resolve_session (B:=B) (Some token) touch w = (Err OperationalError, w).
Proof.
  intros Ho Hne. destruct token as [|c t]; [done|]. unfold resolve_session. unfold bind at 1, timezone_now, gets at 1.
  unfold bind, autocommit, atomic. by rewrite Ho.
Qed.

(** Found by its key, under the lock of its own row. *)
Lemma revoke_one s i w :
  identity_inv w -> sessions (db w) !! i = Some s -> is_some (se_revoked_at s) = false ->
  sessions (revoke_row (se_id s) (clock w) (db w)) = put (se_id s) (s <| se_revoked_at := Some (clock w) |>) (sessions (db w)).
Proof.
  intros Hinv Hi Hr. destruct (proj1 (id_sessions _ _ _ Hinv) _ _ Hi) as [<- _]. unfold put.
  apply (update_one _ (fun s => s <| se_revoked_at := Some (clock w) |>) _ _ s); [done|by rewrite N.eqb_refl, Hr|].
  intros j x. apply (keyed_only (fun x => N.eqb (se_id x) (se_id s) && negb (is_some (se_revoked_at x))) s); [done..|].
  intros y Hy. bools. by apply N.eqb_eq.
Qed.

Lemma found_row token w s u :
  found_session token (db w) = Some (s, u) ->
  session_with_token (_digest token) (db w) = Some s /\ users (db w) !! se_user s = Some u /\ exists i, sessions (db w) !! i = Some s.
Proof.
  unfold found_session. destruct (session_with_token _ (db w)) as [x|] eqn:Hs; [|done].
  destruct (users (db w) !! se_user x) as [y|] eqn:Hu; [|done]. intros [= <- <-]. apply session_with_token_inv in Hs as Hi. tauto.
Qed.

(** What a live session's token resolves to, and what that leaves. *)
Lemma resolve_live token touch w s u :
  identity_inv w -> online w = true -> token <> "" -> live_session token w = Some (s, u) ->
  resolve_session (B:=B) (Some token) touch w =
  (Ok (Some (identity_of u)), if touch then w <| db ::= fun d => d <| sessions ::= put (se_id s) (refreshed (clock w) s) |> |> else w).
Proof.
  intros Hinv Ho Hne Hl. rewrite resolve_found by done. unfold live_session in Hl.
  destruct (found_session token (db w)) as [[s' u']|] eqn:Hf; [|done]. destruct (live _ s' u') eqn:Hlive; simplify_eq.
  destruct (found_row _ _ _ _ Hf) as (_ & Hu & i & Hi). pose proof (proj1 (id_sessions _ _ _ Hinv) _ _ Hi) as [Hid _].
  pose proof (touchable_live s u (clock w) (db w) Hu) as Ht. unfold live in Hlive.
  destruct (is_some (se_revoked_at s)), (us_active u), (Z.ltb_spec (clock w) (se_expires_at s)); try done.
  cbn [negb andb orb] in *. rewrite Hlive. apply Z.eqb_eq in Hlive. rewrite Hlive.
  destruct (Z.leb_spec (se_expires_at s) (clock w)) as [|_]; [lia|]. destruct touch; [|done]. cbn [negb orb].
  assert (exists_row (touchable (se_id s) (us_revocation_version u) (clock w) (db w)) (sessions (db w)) = true) as ->
    by (apply exists_row_true; eauto).
  f_equal. change (w <| db ::= touch_row (se_id s) (us_revocation_version u) (clock w) |>) with
    (w <| db ::= fun d => d <| sessions ::= update_where (touchable (se_id s) (us_revocation_version u) (clock w) d) (refreshed (clock w)) |> |>).
  cbn. erewrite (update_one _ _ _ i s Hi Ht).
  - unfold put. by rewrite Hid.
  - intros j x. eapply (keyed_only (touchable _ _ _ _)); [done..|]. intros y Hy. unfold touchable in Hy. bools. by apply N.eqb_eq.
Qed.

(** What any other token leaves. *)
Definition only_revokes (token : string) w w' : Prop :=
  users (db w') = users (db w) /\
  (sessions (db w') = sessions (db w) \/
   exists s, session_with_token (_digest token) (db w) = Some s /\ ended (clock w) (db w) s /\
     sessions (db w') = put (se_id s) (s <| se_revoked_at := Some (clock w) |>) (sessions (db w))).

Lemma resolve_other token touch w :
  identity_inv w -> live_session token w = None ->
  (forall i, (resolve_session (B:=B) (Some token) touch w).1 <> Ok (Some i)) /\
  only_revokes token w (resolve_session (B:=B) (Some token) touch w).2.
Proof.
  intros Hinv Hl. destruct (decide (token = "")) as [->|Hne]; [by split; [|split; [|left]]|].
  destruct (online w) eqn:Ho.
  2: { rewrite resolve_offline by done. by split; [|split; [|left]]. }
  rewrite resolve_found by done. unfold live_session in Hl.
  destruct (found_session token (db w)) as [[s u]|] eqn:Hf; [|by split; [|split; [|left]]].
  destruct (live _ s u) eqn:Hlive; [done|]. unfold live in Hlive. destruct (found_row _ _ _ _ Hf) as (Hs & Hu & i & Hi).
  destruct (is_some (se_revoked_at s)) eqn:Hr; [by split; [|split; [|left]]|]. destruct (us_active u); [|by split; [|split; [|left]]].
  cbn [negb andb orb] in *.
  assert (Z.leb (se_expires_at s) (clock w) || negb (Z.eqb (se_revocation_version s) (us_revocation_version u)) = true /\
          ended (clock w) (db w) s) as [-> He].
  { destruct (Z.ltb_spec (clock w) (se_expires_at s)), (Z.leb_spec (se_expires_at s) (clock w)); try lia; cbn in *.
    - rewrite Hlive. split; [done|]. right. right. exists u. split; [done|]. apply Z.eqb_neq in Hlive.
      destruct (id_owner _ _ _ Hinv _ _ Hi) as (u' & Hu' & Hle & _). simplify_eq. lia.
    - split; [done|]. right. by left. }
  split; [apply expires_nobody|]. destruct (expires_still (w <| db ::= revoke_row (se_id s) (clock w) |>) s u) as [Hu1 Hs1].
  split; [exact Hu1|]. right. exists s. split; [done|]. split; [done|]. rewrite Hs1. by apply (revoke_one s i w).

Qed.
End resolution.

(** Resolving a token, exactly: when the session of its digest is not revoked, not
    expired and of its user's present version, and the user is active, the answer
    is that user, and the session lives thirty minutes more from now (unless it
    is only looked at, which changes nothing); in every other case nobody is
    identified, and the only change to users and sessions is that a session found
    expired or outdated is revoked. *)
Theorem resolve_session_exact {B} `{PasswordHasher} token touch (w : World B) :
  identity_inv w -> online w = true -> token <> "" ->
  match live_session token w with
  | Some (s, u) =>
      resolve_session (Some token) touch w =
        (Ok (Some (identity_of u)), if touch then w <| db ::= fun d => d <| sessions ::= put (se_id s) (refreshed (clock w) s) |> |> else w)
  | None =>
      (forall i, (resolve_session (Some token) touch w).1 <> Ok (Some i)) /\
      only_revokes token w (resolve_session (Some token) touch w).2
  end.
Proof.
  intros Hinv Ho Hne. destruct (live_session token w) as [[s u]|] eqn:Hl; [by apply resolve_live|by apply resolve_other].
Qed.

(** ** From a password to a session *)

Section login.
Context {B : Type} `{PasswordHasher} (secret_key : string).
Implicit Types w : World B.

Lemma created_user actor name email role password ip salt w u w' :
  create_user (B:=B) actor name email role password ip salt w = (Ok u, w') ->
  users (db w') !! us_id u = Some u /\ us_active u = true /\ us_password_hash u = make_password salt password.
Proof.
  unfold create_user, admin_require. intros Hc. apply bind_inv in Hc as (? & ? & [_ ->]%lift_inv & Hc).
  apply bind_inv in Hc as (e & ? & [_ ->]%lift_inv & Hc). apply bind_inv in Hc as (? & ? & [_ ->]%require_inv & Hc).
  apply bind_inv in Hc as (r & ? & [_ ->]%of_option_inv & Hc). apply try_inv in Hc as [Hc|(ex & w1 & _ & Hc)]; [|by destruct ex].
  apply atomic_inv in Hc as [_ Hc]. apply bind_inv in Hc as (v & w2 & Hi & Hc). unfold insert_user in Hi.
  apply bind_inv in Hi as (id & ? & [-> ->]%uuid4_inv & Hi). apply bind_inv in Hi as (now & ? & [-> ->]%now_inv & Hi).
  cbn zeta in Hi. apply bind_inv in Hi as (? & ? & (_ & _ & ->)%save_user_inv & [-> ->]%ret_inv).
  apply bind_inv in Hc as (? & w3 & He & [-> ->]%ret_inv). apply (moves_run (keeps users)) in He as [-> _]; [|unfold _admin_event; frame_tac].
  split; [|by split]. cbn. unfold put. by rewrite lookup_insert_eq.
Qed.

Lemma user_found w i u : identity_inv w -> users (db w) !! i = Some u -> user_with_email (us_email u) (db w) = Some u.
Proof.
  intros Hinv Hi. unfold user_with_email.
  apply (first_where_unique us_id us_email (fun s => Z.of_N (us_id s)) (next_uuid w) _ _ i); [apply Hinv|done|by apply String.eqb_refl|].
  intros x Hx. by apply String.eqb_eq.
Qed.

(** No delay is pending for the subject. *)
Definition allowed (email ip_address : string) w : Prop :=
  forall t, throttles (db w) !! _subject_hash secret_key email ip_address = Some t -> (th_next_allowed_at t <= clock w)%Z.

Lemma throttle_of_inv subject w t w' :
  throttle_of (B:=B) subject (clock w) w = (Ok t, w') ->
  keeps identity_tables w w' /\
  (throttles (db w) !! subject = Some t /\ w' = w \/
   throttles (db w) !! subject = None /\ t = MkLoginThrottle subject 0 (clock w) (clock w) /\
   w' = w <| db ::= fun d => d <| throttles ::= <[subject := t]> |> |>).
Proof.
  unfold throttle_of. intros Ht. apply bind_inv in Ht as (row & ? & [-> ->]%query_inv & Ht).
  destruct (throttles (db w) !! subject) as [x|] eqn:Hx; invert_db.
  - split; [reflexivity|]. by left.
  - split; [split_and!; try done; cbn; lia|]. by right.
Qed.

(** What a login that returns went through. *)
Lemma authenticate_accepted email password ip user_agent token w i u r w' :
  identity_inv w -> users (db w) !! i = Some u -> us_active u = true -> check_password password (us_password_hash u) = true ->
  normalize_email email = us_email u -> allowed email ip w ->
  authenticate (B:=B) secret_key email password ip user_agent token w = (Ok r, w') ->
  r = (Some token, Some (identity_of u)) /\ clock w' = clock w /\ online w' = true /\
  users (db w') !! i = Some u /\
  exists stored, sessions (db w') !! next_uuid w = Some (login_session (next_uuid w) token user_agent u ip (clock w) <| se_ip_address := stored |>).
Proof.
  intros Hinv Hi Ha Hp He Hall Hr. apply atomic_inv in Hr as [Ho Hr]. apply bind_inv in Hr as (now & ? & [-> ->]%now_inv & Hr).
  apply bind_inv in Hr as (throttle & w1 & Ht & Hr). apply throttle_of_inv in Ht as [([= Hu1 Hs1] & Hc1 & Ho1 & _) Ht].
  assert (next_uuid w1 = next_uuid w) as Hn1 by (by destruct Ht as [[_ ->]|(_ & _ & ->)]).
  destruct (Z.ltb_spec (clock w) (th_next_allowed_at throttle)) as [Hlt|_].
  { exfalso. destruct Ht as [[Ht _]|(_ & -> & _)]; [specialize (Hall _ Ht); lia|cbn in Hlt; lia]. }
  apply bind_inv in Hr as (found & ? & [-> ->]%query_inv & Hr).
  assert (user_with_email (normalize_email email) (db w1) = Some u) as Hf.
  { rewrite He. pose proof (user_found _ _ _ Hinv Hi) as Hf. unfold user_with_email in *. by rewrite Hu1. }
  rewrite Hf, Ha, Hp in Hr. cbn [andb] in Hr. apply bind_inv in Hr as (? & w2 & ->%set_throttle_inv & Hr).
  apply bind_inv in Hr as (? & w3 & Hs & Hr). set (w2 := w1 <| db ::= _ |>) in Hs. change (clock w) with (clock w) in Hs.
  rewrite <-Hc1 in Hs. change (clock w1) with (clock w2) in Hs.
  destruct (insert_session_cases token user_agent u ip w2) as [(stored & _ & _ & Hs')|[e Hs']]; rewrite Hs' in Hs; [|done].
  injection Hs as _ <-. apply bind_inv in Hr as (? & w4 & Hev & [-> ->]%ret_inv).
  apply (moves_run (keeps identity_tables)) in Hev as (Hk & Hc & Hon & _); [|unfold _event; frame_tac].
  split; [done|]. rewrite Hc, Hon. split; [exact Hc1|]. split; [by rewrite <-Ho, <-Ho1|].
  pose proof (f_equal fst Hk) as Hku. pose proof (f_equal snd Hk) as Hks. cbn [identity_tables fst snd] in Hku, Hks. rewrite Hku, Hks. split.
  - cbn. by rewrite Hu1.
  - exists stored. cbn. unfold put. by rewrite Hn1, Hc1, lookup_insert_eq.
Qed.

(** The session of a login is live. *)
Lemma login_live token user_agent w w' i u ip stored :
  identity_inv w' -> us_active u = true -> clock w' = clock w -> users (db w') !! i = Some u ->
  sessions (db w') !! next_uuid w = Some (login_session (next_uuid w) token user_agent u ip (clock w) <| se_ip_address := stored |>) ->
  live_session token w' = Some (login_session (next_uuid w) token user_agent u ip (clock w) <| se_ip_address := stored |>, u).
Proof.
  intros Hinv Ha Hc Hu Hs. unfold live_session, found_session. set (s := login_session _ _ _ _ _ _ <| se_ip_address := stored |>) in *.
  pose proof (session_found _ _ _ Hinv Hs) as Hf. change (se_token_hash s) with (_digest token) in Hf. rewrite Hf.
  change (se_user s) with (us_id u). rewrite (user_row _ _ _ Hinv Hu), Hu. cbn [option_map]. unfold live. rewrite Ha, Hc.
  change (se_revocation_version s) with (us_revocation_version u). rewrite Z.eqb_refl, andb_true_r.
  change (se_expires_at s) with (clock w + SESSION_IDLE_TIMEOUT)%Z. unfold SESSION_IDLE_TIMEOUT.
  destruct (Z.ltb_spec (clock w) (clock w + 30 * 60 * 1000000)); [done|lia].
Qed.
End login.

(** The password an account was created with logs its user in, however the
    address is spelt, for as long as the account's revocation version has not
    changed - whatever else was done in between - and no delay is pending; and
    the token it hands out resolves to that user, unless the login could not be
    recorded and nothing happened. *)
Theorem created_account_logs_in {B} `{PasswordHasher, !PasswordHasherLaws} (secret_key : string)
    actor name email role password ip salt (w0 w1 w : World B) u u' typed ip' user_agent token :
  identity_inv w0 -> create_user actor name email role password ip salt w0 = (Ok u, w1) -> rtc (identity_step secret_key) w1 w ->
  users (db w) !! us_id u = Some u' -> us_revocation_version u' = us_revocation_version u ->
  normalize_email typed = us_email u' -> allowed secret_key typed ip' w -> token <> "" ->
  match authenticate secret_key typed password ip' user_agent token w with
  | (Ok r, w') => r = (Some token, Some (identity_of u')) /\
      resolve_session (Some token) false w' = (Ok (Some (identity_of u')), w')
  | (Err _, w') => db w' = db w
  end.
Proof.
  intros Hinv Hc Hr Hu Hv He Hall Hne. destruct (created_user _ _ _ _ _ _ _ _ _ _ Hc) as (Hu1 & Ha & Hh).
  pose proof (moves_run identifies _ _ _ _ (identifies_create actor name email role password ip salt) Hc) as (_ & _ & _ & Hk).
  destruct (Hk Hinv) as [Hinv1 _]. destruct (identity_steps_ok _ _ _ Hr Hinv1) as (Hinvw & Hm & _).
  destruct (im_users _ _ _ Hm _ _ Hu1) as (x & Hx & _ & _ & _ & _ & Hsame). simplify_eq. destruct (Hsame Hv) as [Hh' Ha'].
  assert (check_password password (us_password_hash u') = true) as Hp by (rewrite Hh', Hh; apply check_made). specialize (Ha' Ha).
  destruct (authenticate _ _ _ _ _ _ w) as [[r|e] w'] eqn:Hauth; [|by eapply atomic_rollback].
  destruct (authenticate_accepted _ _ _ _ _ _ _ _ _ _ _ Hinvw Hu Ha' Hp He Hall Hauth) as (-> & Hcl & Ho & Hu2 & stored & Hs2). split; [done|].
  pose proof (moves_run identifies _ _ _ _ (identifies_authenticate secret_key typed password ip' user_agent token) Hauth) as (_ & _ & _ & Hk2).
  destruct (Hk2 Hinvw) as [Hinv2 _]. by rewrite (resolve_live token false w' _ _ Hinv2 Ho Hne (login_live _ _ _ _ _ _ _ _ Hinv2 Ha' Hcl Hu2 Hs2)).
Qed.

(** ** Guessing a password *)

Section guessing.
Context {B : Type} `{PasswordHasher} (secret_key : string).
Implicit Types w : World B.

Definition failures (subject : string) w : Z :=
  match throttles (db w) !! subject with Some t => th_failures t | None => 0 end.

Lemma keeps_other_throttle k subject now : k <> subject -> moves (keeps (fun d => throttles d !! k)) (throttle_of (B:=B) subject now).
Proof.
  intros Hk. unfold throttle_of. apply moves_bind; [apply _|frame_tac|]. intros [t|]; [frame_tac|].
  apply moves_bind; [apply _| |frame_tac]. apply keeps_write. intros d. cbn. by rewrite lookup_insert_ne.
Qed.

Lemma keeps_other_set k subject n next : k <> subject -> moves (keeps (fun d => throttles d !! k)) (set_throttle (B:=B) subject n next).
Proof.
  intros Hk. unfold set_throttle. apply moves_bind; [apply _|frame_tac|]. intros _. apply keeps_write. intros d. cbn.
  by rewrite lookup_alter_ne.
Qed.

Lemma keeps_other_login k email password ip user_agent token :
  k <> _subject_hash secret_key email ip ->
  moves (keeps (fun d => throttles d !! k)) (authenticate (B:=B) secret_key email password ip user_agent token).
Proof.
  intros Hk. pose proof (fun now => keeps_other_throttle k _ now Hk). pose proof (fun n next => keeps_other_set k _ n next Hk).
  unfold authenticate, insert_session, _event. frame_tac; auto.
Qed.

(** An operation that is not a login of this account from this address. *)
Definition other_command (email ip : string) (c : IdentityCommand) : Prop :=
  match c with
  | CmdLogin e _ i _ _ => _subject_hash secret_key e i <> _subject_hash secret_key email ip
  | _ => True
  end.

Lemma other_keeps k email ip c w :
  k = _subject_hash secret_key email ip -> other_command email ip c -> keeps (fun d => throttles d !! k) w (run_identity secret_key c w).
Proof.
  intros -> Hc. destruct c; cbn [run_identity].
  2: { by apply keeps_other_login. }
  all: match goal with |- keeps ?f ?x (?m ?x).2 => assert (moves (keeps f) m) as Hm; [|apply Hm] end.
  all: unfold bootstrap_first_administrator, resolve_session, revoke_session, create_user, insert_user, update_user, change_user_role,
    reset_user_password, change_own_password, set_user_active, saved, get_active_user, get_user, _assert_version,
    _assert_not_last_administrator, admin_require, not_found, duplicate, save_user, _event, _admin_event; frame_tac.
Qed.

(** [n] attempts at one account from one address, each answered that the
    password was wrong; in between, attempts answered that it is too early or not
    answered at all, and everything else the system does. *)
Inductive guessing (email ip : string) : nat -> World B -> World B -> Prop :=
| guess_start w : guessing email ip 0 w w
| guess_wrong n w w1 w2 password user_agent token :
    guessing email ip n w w1 -> allowed secret_key email ip w1 ->
    authenticate secret_key email password ip user_agent token w1 = (Ok (None, None), w2) -> guessing email ip (S n) w w2
| guess_early n w w1 w2 password user_agent token :
    guessing email ip n w w1 -> ~ allowed secret_key email ip w1 ->
    authenticate secret_key email password ip user_agent token w1 = (Ok (None, None), w2) -> guessing email ip n w w2
| guess_unanswered n w w1 w2 password user_agent token e :
    guessing email ip n w w1 -> authenticate secret_key email password ip user_agent token w1 = (Err e, w2) ->
    guessing email ip n w w2
| guess_command n w w1 c : guessing email ip n w w1 -> other_command email ip c -> guessing email ip n w (run_identity secret_key c w1)
| guess_elsewhere n w w1 w2 :
    guessing email ip n w w1 -> throttles (db w2) = throttles (db w1) -> (clock w1 <= clock w2)%Z -> guessing email ip n w w2.

(** What an answered failure leaves in the throttle. *)
Lemma answered email password ip user_agent token w w' :
  let k := _subject_hash secret_key email ip in
  authenticate (B:=B) secret_key email password ip user_agent token w = (Ok (None, None), w') ->
  clock w' = clock w /\
  (allowed secret_key email ip w ->
   exists t, throttles (db w') !! k = Some t /\ th_failures t = (failures k w + 1)%Z /\
     th_next_allowed_at t = (clock w + seconds (login_delay (failures k w + 1)))%Z) /\
  (~ allowed secret_key email ip w -> throttles (db w') !! k = throttles (db w) !! k).
Proof.
  intros k Hr. apply atomic_inv in Hr as [_ Hr]. apply bind_inv in Hr as (now & ? & [-> ->]%now_inv & Hr). cbn zeta in Hr. fold k in Hr.
  apply bind_inv in Hr as (t & w1 & Ht & Hr). apply throttle_of_inv in Ht as [(_ & Hc1 & _) Ht].
  assert (throttles (db w1) !! k = Some t /\ th_failures t = failures k w /\
          (allowed secret_key email ip w <-> (th_next_allowed_at t <= clock w)%Z) /\
          (throttles (db w1) !! k = throttles (db w) !! k \/ allowed secret_key email ip w)) as (Hrow & Hf & Hall & Hsame).
  { unfold failures, allowed. fold k. destruct Ht as [[Ht ->]|(Hn & -> & ->)].
    - rewrite Ht. split_and!; [done..| |by left]. split; [auto|]. intros Hle x [= <-]. done.
    - rewrite Hn. cbn. rewrite lookup_insert_eq. split_and!; [done..| |by right]. split; [lia|done]. }
  assert (forall role ip' who res e (w2 w3 : World B) u, _event (B:=B) e res who role ip' w2 = (Ok u, w3) ->
            throttles (db w3) = throttles (db w2) /\ clock w3 = clock w2) as Hev.
  { intros role ip' who res e w2 w3 u He. apply (moves_run (keeps throttles)) in He as (? & ? & _); [done|unfold _event; frame_tac]. }
  destruct (Z.ltb_spec (clock w) (th_next_allowed_at t)) as [Hlt|Hge].
  { apply bind_inv in Hr as (? & w2 & [Ht2 Hc2]%Hev & [_ ->]%ret_inv). split_and!; [congruence|intros Ha; pose proof (proj1 Hall Ha); lia|].
    intros Hn. rewrite Ht2. destruct Hsame as [|Ha]; [done|]. by destruct Hn. }
  apply bind_inv in Hr as (found & ? & [-> ->]%query_inv & Hr). destruct (match user_with_email _ _ with Some _ => _ | None => _ end) as [u|].
  { exfalso. apply bind_inv in Hr as (? & w2 & _ & Hr). apply bind_inv in Hr as (? & w3 & _ & Hr).
    by apply bind_inv in Hr as (? & w4 & _ & [[=] _]%ret_inv). }
  apply bind_inv in Hr as (? & w2 & ->%set_throttle_inv & Hr). apply bind_inv in Hr as (? & w3 & [Ht3 Hc3]%Hev & [_ ->]%ret_inv).
  rewrite Hc3, Ht3. split_and!; [exact Hc1| |intros Hn; destruct Hn; by apply (proj2 Hall)].
  intros _. eexists. split; [cbn; rewrite lookup_alter_eq, Hrow; cbn; reflexivity|]. cbn. by rewrite Hf.
Qed.

(** ** The delays add up *)

(** The seconds the first [n] failures delay, in all. *)
Fixpoint total_delay (n : nat) : Z :=
  match n with O => 0 | S m => total_delay m + login_delay (Z.of_nat n) end%Z.

Lemma login_delay_mono a b : (1 <= a <= b)%Z -> (login_delay a <= login_delay b)%Z.
Proof.
  intros Hab. unfold login_delay. apply Z.min_le_compat_r. apply Z.pow_le_mono_r; [lia|]. apply Z.min_le_compat_r. lia.
Qed.

Lemma login_delay_bounds a : (1 <= a)%Z -> (1 <= login_delay a <= 256)%Z /\ (9 <= a -> login_delay a = 256)%Z.
Proof.
  intros Ha. unfold login_delay.
  assert (1 <= 2 ^ Z.min (a - 1) 8 <= 2 ^ 8)%Z as Hp.
  { split; [|apply Z.pow_le_mono_r; lia]. change 1%Z with (2 ^ 0)%Z at 1. apply Z.pow_le_mono_r; lia. }
  change (2 ^ 8)%Z with 256%Z in Hp. split; [lia|]. intros H9. replace (Z.min (a - 1) 8) with 8%Z by lia. reflexivity.
Qed.

Lemma total_delay_bound n : (256 * (Z.of_nat n - 8) <= total_delay n)%Z /\ (0 <= total_delay n)%Z.
Proof.
  induction n as [|n [IH1 IH2]]; [by cbn; lia|]. change (total_delay (S n)) with (total_delay n + login_delay (Z.of_nat (S n)))%Z.
  destruct (login_delay_bounds (Z.of_nat (S n)) ltac:(lia)) as [Hb H9]. destruct (decide (9 <= Z.of_nat (S n))%Z) as [H8|H8]; [rewrite (H9 H8)|]; lia.
Qed.

(** The invariant of a guesser: [n] failures have been counted, and the next
    attempt waits until their delays have passed. *)
Definition waited (email ip : string) n w0 w : Prop :=
  let k := _subject_hash secret_key email ip in
  failures k w = (failures k w0 + Z.of_nat n)%Z /\ (clock w0 <= clock w)%Z /\
  match n with
  | O => True
  | S m => (clock w0 + seconds (total_delay m) <= clock w)%Z /\
           exists t, throttles (db w) !! k = Some t /\ (clock w0 + seconds (total_delay n) <= th_next_allowed_at t)%Z
  end.

Lemma waited_later email ip n w0 w w' :
  waited email ip n w0 w -> throttles (db w') !! _subject_hash secret_key email ip = throttles (db w) !! _subject_hash secret_key email ip ->
  (clock w <= clock w')%Z -> waited email ip n w0 w'.
Proof.
  intros (H1 & H2 & H3) Hk Hc. unfold waited, failures in *. rewrite Hk. split; [exact H1|]. split; [lia|].
  destruct n as [|m]; [done|]. destruct H3 as [H3 H4]. split; [lia|done].
Qed.

Lemma seconds_add a b : seconds (a + b) = (seconds a + seconds b)%Z.
Proof. unfold seconds. lia. Qed.

Lemma guessing_waits email ip n w0 w :
  (0 <= failures (_subject_hash secret_key email ip) w0)%Z -> guessing email ip n w0 w -> waited email ip n w0 w.
Proof.
  intros H0. set (k := _subject_hash secret_key email ip) in *.
  induction 1 as [w|n w w1 w2 password ua token _ IH Hall Ha|n w w1 w2 password ua token _ IH Hall Ha|
    n w w1 w2 password ua token e _ IH Ha|n w w1 c _ IH Hc|n w w1 w2 _ IH Ht Hc]; try specialize (IH H0).
  - split_and!; [lia|lia|done].
  - destruct (answered _ _ _ _ _ _ _ Ha) as (Hc & Hw & _). fold k in Hw. destruct (Hw Hall) as (t & Ht & Hf & Hn).
    destruct IH as (I1 & I2 & I3). fold k in I1. assert (failures k w2 = th_failures t) as Hf2 by (unfold failures; by rewrite Ht). unfold waited. fold k. rewrite Hf2, Hf.
    split_and!; [lia|lia|..].
    + destruct n as [|m]; [cbn; unfold seconds; lia|]. destruct I3 as [_ (t1 & Ht1 & Hle)]. specialize (Hall t1 Ht1). lia.
    + exists t. split; [done|]. rewrite Hn. change (total_delay (S n)) with (total_delay n + login_delay (Z.of_nat (S n)))%Z. rewrite seconds_add, I1.
      assert (login_delay (Z.of_nat (S n)) <= login_delay (failures k w + Z.of_nat n + 1))%Z as Hd by (apply login_delay_mono; lia).
      assert (clock w + seconds (total_delay n) <= clock w1)%Z as Hprev.
      { destruct n as [|m]; [cbn; unfold seconds; lia|]. destruct I3 as [_ (t1 & Ht1 & Hle)]. specialize (Hall t1 Ht1). lia. }
      unfold seconds, second in *. nia.
  - destruct (answered _ _ _ _ _ _ _ Ha) as (Hc & _ & Hw). eapply waited_later; [exact IH|by apply Hw|lia].
  - pose proof (atomic_rollback (B:=B) _ _ _ _ Ha) as Hd.
    pose proof (moves_run identifies _ _ _ _ (identifies_authenticate secret_key email password ip ua token) Ha) as (Hc & _).
    eapply waited_later; [exact IH|by rewrite Hd|lia].
  - destruct (other_keeps k email ip c w1 eq_refl Hc) as (Hk & Hcl & _). eapply waited_later; [exact IH|exact Hk|lia].
  - eapply waited_later; [exact IH|by rewrite Ht|done].
Qed.
End guessing.

(** C34 Guessing is slow: a guesser who has been told [n] times that a password of one
    account is wrong, from one address, has waited the sum of the first [n - 1]
    delays (1, 2, 4, ... up to 256 seconds), so that all but nine of the answers
    took at least 256 seconds each - as long as no login of that account from that
    address succeeds in between, for a success sets its failures back to none.
    In between there may be attempts answered that it is too early, attempts not
    answered at all, logins of other accounts or from other addresses, and every
    other operation of the identity service. *)
Theorem guessing_is_slow {B} `{PasswordHasher} (secret_key email ip : string) n (w w' : World B) :
  (0 <= failures (_subject_hash secret_key email ip) w)%Z -> guessing secret_key email ip n w w' ->
  (clock w + seconds (total_delay (n - 1)) <= clock w')%Z /\
  (256 * (Z.of_nat n - 9) <= total_delay (n - 1))%Z.
Proof.
  intros H0 Hg. destruct (guessing_waits _ _ _ _ _ _ H0 Hg) as (_ & Hc & Hw). destruct n as [|m]; cbn [Nat.sub].
  - cbn. unfold seconds. lia.
  - rewrite Nat.sub_0_r. destruct Hw as [Hw _]. destruct (total_delay_bound m). split; lia.
Qed.
