(* ===== verification/SessionRuns.v ===== *)
(** * A concrete run of the identity services

    A hasher that only prefixes a password, the bootstrap, a login, a second
    account; the theorems of [SessionGuarantees] are applied along the run. *)

From Stdlib Require Import ZArith Ascii String Lia.
From stdpp Require Import base decidable list gmap strings relations.
From S2P Require Import Prelude PyStr Sha256 PyVal Models AuditTrail Identity Companies JobPolicies JobEngine Tables Sessions SessionFacts SessionGuarantees.

Local Open Scope string_scope.

#[export] Instance plain_hasher : PasswordHasher := {|
  make_password _ password := "plain$" ++ password;
  check_password password encoded := String.eqb encoded ("plain$" ++ password);
  valid_email := contains "@" |}.

#[export] Instance plain_hasher_laws : PasswordHasherLaws.
Proof. split. intros salt password. apply String.eqb_refl. Qed.

Definition s_key : string := "secret key".
Definition s_token : string := "token".

(** ** The run *)

Definition s_start : World unit := MkWorld empty_db (seconds 100) 1 true verbatim tt.

Lemma s_start_inv : identity_inv s_start.
Proof. split; [split| |split|..]; intros *; cbn; by rewrite lookup_empty. Qed.

Definition s_bootstrap : M unit (User * bool) := bootstrap_first_administrator "first password" "salt".
Definition s_boot : World unit := Eval vm_compute in (s_bootstrap s_start).2.

(** The administrator's row, key 1, and identity. *)
Definition s_root : User := Eval vm_compute in match users (db s_boot) !! 1%N with Some u => u | None => new_user 0 0 "" "" Role.VIEWER "" end.
Definition s_admin : SessionIdentity := Eval vm_compute in identity_of s_root.

Definition s_login : M unit (option string * option SessionIdentity) :=
  authenticate s_key " Guilherme.Duarte@inovssc.com.br" "first password" "10.0.0.1" "" s_token.
Definition s_logged : World unit := Eval vm_compute in (s_login s_boot).2.

Lemma s_boot_run : s_bootstrap s_start = (Ok (s_root, true), s_boot).
Proof. vm_compute. reflexivity. Qed.

Lemma s_logged_run : s_login s_boot = (Ok (Some s_token, Some s_admin), s_logged).
Proof. vm_compute. reflexivity. Qed.

Definition s_commands : list IdentityCommand :=
  [CmdBootstrap "first password" "salt";
   CmdLogin " Guilherme.Duarte@inovssc.com.br" "first password" "10.0.0.1" "" s_token].

Lemma s_booted : rtc (identity_step s_key) s_start s_boot.
Proof. apply rtc_once. replace s_boot with (run_identity s_key (CmdBootstrap "first password" "salt") s_start); [constructor|].
  unfold run_identity. by rewrite (s_boot_run : bootstrap_first_administrator _ _ _ = _). Qed.

Lemma s_login_step : identity_step s_key s_boot s_logged.
Proof.
  replace s_logged with (run_identity s_key (CmdLogin " Guilherme.Duarte@inovssc.com.br" "first password" "10.0.0.1" "" s_token) s_boot);
    [constructor|].
  unfold run_identity. by rewrite (s_logged_run : authenticate _ _ _ _ _ _ _ = _).
Qed.

Lemma s_boot_inv : identity_inv s_boot.
Proof. apply (identity_steps_ok s_key _ _ s_booted s_start_inv). Qed.

Lemma s_logged_inv : identity_inv s_logged.
Proof. apply (identity_step_ok s_key _ _ s_login_step s_boot_inv). Qed.

Lemma identity_tables_well_formed_witness :
  length (rows (sessions (db s_logged))) = 1%nat /\ identity_inv s_logged.
Proof.
  split; [vm_compute; reflexivity|]. apply (identity_tables_well_formed s_key s_start s_logged s_start_inv).
  eapply rtc_r; [exact s_booted|exact s_login_step].
Defined.

Lemma administrator_remains_witness :
  governed (db s_logged) /\
  set_user_active s_admin (uuid_str 1) 1 (VBool false) "left" "10.0.0.1" s_logged = (Err LastAdministrator, s_logged).
Proof.
  destruct (administrator_remains s_key s_boot s_logged s_boot_inv (rtc_once _ _ s_login_step)) as (Hg & _ & Hl);
    [right; exists "first password", "salt", s_root, s_start; exact s_boot_run|].
  split; [exact Hg|]. apply (Hl s_root s_admin (uuid_str 1) "10.0.0.1" "left" "left"); [split|..]; vm_compute; reflexivity.
Defined.

(** The session of the token, and the world ten minutes later. *)
Definition s_session : IdentitySession := Eval vm_compute in match session_with_token (_digest s_token) (db s_logged) with
  | Some s => s | None => login_session 0 "" "" s_root "" 0 end.
Definition s_later : World unit := Eval vm_compute in s_logged <| clock := seconds 700 |>.

Lemma s_later_step : identity_step s_key s_logged s_later.
Proof. apply (step_elsewhere s_key s_logged s_later); [reflexivity|reflexivity|apply N.le_refl|apply Z.leb_le; reflexivity]. Qed.

Lemma s_later_inv : identity_inv s_later.
Proof. apply (identity_step_ok s_key _ _ s_later_step s_logged_inv). Qed.

Lemma resolve_session_exact_witness :
  (resolve_session (Some s_token) true s_later).1 = Ok (Some s_admin) /\
  option_map se_expires_at (sessions (db (resolve_session (Some s_token) true s_later).2) !! 2%N) = Some (seconds 2500).
Proof.
  pose proof (resolve_session_exact s_token true s_later s_later_inv eq_refl ltac:(discriminate)) as H.
  assert (live_session s_token s_later = Some (s_session, s_root)) as Hl by (vm_compute; reflexivity).
  rewrite Hl in H. rewrite H. split; vm_compute; reflexivity.
Defined.

(** Logged out; the token is tried again. *)
Definition s_out : World unit := Eval vm_compute in (revoke_session (Some s_token) s_later).2.

Lemma ended_session_never_resolves_witness :
  (resolve_session (Some s_token) true s_logged).1 = Ok (Some s_admin) /\
  (resolve_session (Some s_token) true s_out).1 <> Ok (Some s_admin).
Proof.
  split; [vm_compute; reflexivity|].
  apply (ended_session_never_resolves s_key s_token s_session s_later s_out s_out true s_admin s_later_inv);
    [vm_compute; reflexivity|discriminate|apply ends_logout; vm_compute; reflexivity|reflexivity].
Defined.

(** A second account, and its first login. *)
Definition s_creating : M unit User :=
  create_user s_admin "Ana" (VStr "Ana@Example.org") "operador" "hunter2" "10.0.0.1" "salt".
Definition s_second : World unit := Eval vm_compute in (s_creating s_later).2.
Definition s_ana : User := Eval vm_compute in match (s_creating s_later).1 with Ok u => u | Err _ => s_root end.
Definition s_token2 : string := "second token".
Definition s_login2 : M unit (option string * option SessionIdentity) :=
  authenticate s_key "ANA@example.org " "hunter2" "10.0.0.2" "" s_token2.
Definition s_logged2 : World unit := Eval vm_compute in (s_login2 s_second).2.

Lemma created_account_logs_in_witness :
  us_email s_ana = "ana@example.org" /\ resolve_session (Some s_token2) false s_logged2 = (Ok (Some (identity_of s_ana)), s_logged2).
Proof.
  split; [reflexivity|].
  pose proof (created_account_logs_in s_key s_admin "Ana" (VStr "Ana@Example.org") "operador" "hunter2" "10.0.0.1" "salt" s_later s_second s_second
    s_ana s_ana "ANA@example.org " "10.0.0.2" "" s_token2 s_later_inv) as H.
  assert (authenticate s_key "ANA@example.org " "hunter2" "10.0.0.2" "" s_token2 s_second = (Ok (Some s_token2, Some (identity_of s_ana)), s_logged2)) as Hr
    by (vm_compute; reflexivity).
  rewrite Hr in H. apply H; [vm_compute; reflexivity|reflexivity|vm_compute; reflexivity|reflexivity|vm_compute; reflexivity| |discriminate].
  intros t Ht. exfalso. revert Ht. vm_compute. discriminate.
Defined.

(** Two wrong passwords; the second answer is a second later. *)
Definition s_guess (password : string) : M unit (option string * option SessionIdentity) :=
  authenticate s_key "x@y" password "10.0.0.9" "" s_token.
Definition s_wrong : World unit := Eval vm_compute in (s_guess "a" s_start).2.
Definition s_waited : World unit := Eval vm_compute in s_wrong <| clock := seconds 101 |>.
Definition s_wrong2 : World unit := Eval vm_compute in (s_guess "b" s_waited).2.

Lemma s_wrong_run : s_guess "a" s_start = (Ok (None, None), s_wrong).
Proof. vm_compute. reflexivity. Qed.

Lemma s_wrong2_run : s_guess "b" s_waited = (Ok (None, None), s_wrong2).
Proof. vm_compute. reflexivity. Qed.

Lemma s_start_allowed : allowed s_key "x@y" "10.0.0.9" s_start.
Proof. intros t. cbn [s_start db empty_db throttles]. by rewrite lookup_empty. Qed.

Definition s_next : option Z := Eval vm_compute in option_map th_next_allowed_at (throttles (db s_waited) !! _subject_hash s_key "x@y" "10.0.0.9").

Lemma s_waited_allowed : allowed s_key "x@y" "10.0.0.9" s_waited.
Proof.
  intros t Ht. assert (option_map th_next_allowed_at (throttles (db s_waited) !! _subject_hash s_key "x@y" "10.0.0.9") = s_next) as Hn
    by (vm_compute; reflexivity).
  rewrite Ht in Hn. injection Hn as ->. apply Z.leb_le. reflexivity.
Qed.

Lemma guessing_is_slow_witness : (seconds 101 <= clock s_wrong2)%Z.
Proof.
  assert (guessing s_key "x@y" "10.0.0.9" 1 s_start s_wrong) as H1
    by exact (guess_wrong s_key _ _ 0 _ _ _ "a" "" s_token (guess_start s_key _ _ s_start) s_start_allowed s_wrong_run).
  assert (guessing s_key "x@y" "10.0.0.9" 1 s_start s_waited) as H2
    by (apply (guess_elsewhere s_key _ _ 1 _ s_wrong s_waited H1); [reflexivity|apply Z.leb_le; reflexivity]).
  assert (guessing s_key "x@y" "10.0.0.9" 2 s_start s_wrong2) as H3
    by exact (guess_wrong s_key _ _ 1 _ _ _ "b" "" s_token H2 s_waited_allowed s_wrong2_run).
  destruct (guessing_is_slow s_key "x@y" "10.0.0.9" 2 s_start s_wrong2) as [H _]; [vm_compute; discriminate|exact H3|exact H].
Defined.
