(* ===== verification/Retention.v ===== *)
(** * Retention of documents (retention/services.py)

    When a document may be deleted: the date its retention ends, whether its
    evidence is in order, the digest that binds a deletion to what was previewed,
    and the bounded list and preview the API serves.  A date is a day number; an
    instant's day is the one in America/Sao_Paulo.  Django's signer is a
    parameter, and so is the order in which PostgreSQL returns rows nobody
    ordered. *)

From Stdlib Require Import ZArith Ascii String Lia.
From stdpp Require Import base decidable list gmap strings.
From S2P Require Import Prelude PyStr Sha256 PyVal Models AuditTrail Identity Companies.

Local Open Scope string_scope.

(** ** Third-party code *)

(** [django.core.signing.Signer] under the cursor's salt; [None] is
    [BadSignature]. *)
Class Signer : Type := { sign : string -> string; unsign : string -> option string }.

Class SignerLaws `{Signer} : Prop := {
  unsign_signed : forall s, unsign (sign s) = Some s;
  signed_nonempty : forall s, sign s <> "" }.

(** The order of rows without [order_by]: it may depend on the whole database. *)
Class Heap : Type := heap_order : forall R : Type, DB -> list R -> list R.

Class HeapLaws `{Heap} : Prop := { heap_permutes : forall R d (l : list R), heap_order R d l ≡ₚ l }.

(** ** Constants *)

Definition RULE_VERSION : string := "retention-v1".
Definition _MAX_LIMIT : Z := 100.
Definition _MAX_SCAN : nat := 5000.
Definition _ALLOWED_KEYS : list string :=
  ["company_id"; "family"; "state"; "eligible_from"; "eligible_to"; "as_of"; "limit"; "cursor"; "scope_hash"].
Definition NFE_FAMILY : string := "nfe".
Definition NFSE_FAMILY : string := "nfse".
Definition _FAMILIES : list string := [NFE_FAMILY; NFSE_FAMILY].

(** [RetentionState] *)
Module RetentionState.
Variant t : Set := RETAINED | ELIGIBLE | NON_EXECUTABLE.
#[global] Instance eq_dec : EqDecision t.
Proof. solve_decision. Defined.
Definition values : list t := [RETAINED; ELIGIBLE; NON_EXECUTABLE].
Definition value (x : t) : string :=
  match x with RETAINED => "retained" | ELIGIBLE => "eligible" | NON_EXECUTABLE => "non_executable" end.
Definition of_value (s : string) : option t := find_value value values s.
End RetentionState.

(** The members of [_SAFE_TEXT]. *)
Definition _SAFE_TEXT (c : ascii) : bool := is_alpha c || is_digit c || char_in "_.:/-" c.

Record RetentionParams : Type := MkRetentionParams {
  rp_company_id : option N; rp_family : option string; rp_state : option RetentionState.t;
  rp_eligible_from : option Z; rp_eligible_to : option Z; rp_as_of : option Z; rp_limit : Z; rp_cursor : option N }.

Record RetentionDecision : Type := MkRetentionDecision {
  rd_state : RetentionState.t; rd_reason_code : string; rd_rule_version : string; rd_basis_date : option Z;
  rd_eligibility_date : option Z; rd_calculated_on : Z }.

(** ** The query string *)

Definition params_error {A} (msg : string) : result exn A := Err (InvalidRetentionParams msg).

Definition _single (query : Query) (key : string) : result exn pyval :=
  match query with
  | QueryDict p =>
      match opt_default [] (assoc key p) with
      | [] => Ok VNone
      | [v] => Ok v
      | _ => params_error "parameter is repeated"
      end
  | PlainDict p =>
      match assoc key p with
      | None => Ok VNone
      | Some (VList [v]) | Some (VTuple [v]) => Ok v
      | Some (VList _) | Some (VTuple _) => params_error "parameter is repeated"
      | Some v => Ok v
      end
  end.

Definition _date (value : pyval) : result exn (option Z) :=
  if none_or_empty value then Ok None else
  match value with
  | VStr s => match date_fromisoformat s with Some d => Ok (Some d) | None => params_error "date is invalid" end
  | _ => params_error "date is invalid"
  end.

Definition _uuid (value : pyval) : result exn (option N) :=
  if none_or_empty value then Ok None else
  match value with
  | VStr s => match parse_uuid s with Some u => Ok (Some u) | None => params_error "identifier is invalid" end
  | _ => params_error "identifier is invalid"
  end.

(** NFKC on Latin-1, as far as its result may be a safe character. *)
Definition nfkc_char (c : ascii) : ascii :=
  let n := code c in
  if N.eqb n 160 then " "%char else if N.eqb n 170 then "a"%char else if N.eqb n 186 then "o"%char
  else if N.eqb n 178 then "2"%char else if N.eqb n 179 then "3"%char else if N.eqb n 185 then "1"%char else c.

Definition _safe_reference (value : pyval) : result exn (option string) :=
  match value with
  | VNone => Ok None
  | VStr s =>
      let normalized := strip (of_chars (map nfkc_char (chars s))) in
      if str_nonempty normalized && Z.leb (slen normalized) 64 && sall _SAFE_TEXT normalized
      then Ok (Some normalized) else params_error "parameter is invalid"
  | _ => params_error "parameter is invalid"
  end.

Section cursors.
Context `{Signer}.

Definition cursor_for (value : N) : string := sign (uuid_str value).

Definition _cursor (value : pyval) : result exn (option N) :=
  if none_or_empty value then Ok None else
  match value with
  | VStr s => match option_map parse_uuid (unsign s) with
              | Some (Some u) => Ok (Some u)
              | _ => params_error "cursor is invalid"
              end
  | _ => params_error "cursor is invalid"
  end.

Definition retention_limit (value : pyval) : result exn Z :=
  if none_or_empty value then Ok 50%Z else
  match int_of_value value with
  | Some limit => if Z.leb 1 limit && Z.leb limit _MAX_LIMIT then Ok limit else params_error "limit is invalid"
  | None => params_error "limit is invalid"
  end.

Definition retention_family (value : option string) : result exn (option string) :=
  match value with
  | Some family => if str_in family _FAMILIES then Ok value else params_error "family is invalid"
  | None => Ok None
  end.

Definition retention_state (value : option string) : result exn (option RetentionState.t) :=
  match value with
  | Some s => match RetentionState.of_value s with Some st => Ok (Some st) | None => params_error "state is invalid" end
  | None => Ok None
  end.

Definition parse_retention_params (query : Query) : result exn RetentionParams :=
  if negb (forallb (fun k => str_in k _ALLOWED_KEYS) (query_keys query)) then params_error "unsupported filter" else
  check* family := _single query "family" in
  check* family := _safe_reference family in
  check* family := retention_family family in
  check* state := _single query "state" in
  check* state := _safe_reference state in
  check* state := retention_state state in
  check* limit := _single query "limit" in
  check* limit := retention_limit limit in
  check* eligible_from := _single query "eligible_from" in
  check* eligible_from := _date eligible_from in
  check* eligible_to := _single query "eligible_to" in
  check* eligible_to := _date eligible_to in
  if match eligible_from, eligible_to with Some a, Some b => Z.ltb b a | _, _ => false end
  then params_error "date interval is invalid" else
  check* company_id := _single query "company_id" in
  check* company_id := _uuid company_id in
  check* as_of := _single query "as_of" in
  check* as_of := _date as_of in
  check* cursor := _single query "cursor" in
  check* cursor := _cursor cursor in
  Ok (MkRetentionParams company_id family state eligible_from eligible_to as_of limit cursor).

End cursors.

(** ** Dates *)

(** The day of an aware instant, in local time. *)
Definition _civil_date {B} `{!External B} (value : Z) : Z := Z.div (value + local_offset value) (days 1).

(** The [ValueError] of [date()]. *)
Definition out_of_range (year : Z) : string := "year " ++ str_of_Z year ++ " is out of range".

Definition new_date (y m d : Z) : result string Z :=
  match date_of y m d with Some day => Ok day | None => Err (out_of_range y) end.

Definition _add_months (value months : Z) : result string Z :=
  let '(y, m, d) := civil_of_day value in
  let month_index := (y * 12 + m - 1 + months)%Z in
  let year := (month_index / 12)%Z in
  let month := (month_index mod 12 + 1)%Z in
  new_date year month (Z.min d (days_in_month year month)).

Definition calculate_eligibility_date {B} `{!External B} (family : string) (emitted_at authorized_at : option Z) :
    result string Z :=
  if String.eqb family NFE_FAMILY then
    match authorized_at with
    | Some t => _add_months (_civil_date t) 132
    | None => Err "authorization_date_missing"
    end
  else if String.eqb family NFSE_FAMILY then
    match emitted_at with
    | Some t => let '(y, _, _) := civil_of_day (_civil_date t) in new_date (y + 6) 1 1
    | None => Err "emission_date_missing"
    end
  else Err "unsupported_family".

(** ** A document with what it refers to

    Foreign keys are not null and protected, so the rows are there. *)

Record LoadedDocument : Type := MkLoadedDocument {
  ld_document : Document;
  ld_evidence : list (DocumentEvidence * Artifact);
  ld_events : list (DocumentEvent * list (DocumentEventEvidence * Artifact));
  ld_renders : list (DocumentRender * Artifact * option Artifact) }.

Definition with_artifact {R} (artifact : R -> N) (d : DB) (l : list R) : list (R * Artifact) :=
  omap (fun r => option_map (pair r) (artifacts d !! artifact r)) l.

Definition with_render_artifacts (d : DB) (l : list DocumentRender) : list (DocumentRender * Artifact * option Artifact) :=
  omap (fun r => match artifacts d !! rn_source_artifact r with
                 | Some s => Some (r, s, match rn_artifact r with Some a => artifacts d !! a | None => None end)
                 | None => None
                 end) l.

(** [order_by("created_at", "id")] and [order_by("occurred_at", "id")] *)
Definition by_time {R} (time : R -> Z) (id : R -> N) (a b : R) : bool :=
  Z.ltb (time a) (time b) || Z.eqb (time a) (time b) && N.leb (id a) (id b).

Section loading.
Context `{Heap}.

Definition evidence_of (id : N) (d : DB) : list DocumentEvidence := select (fun e => N.eqb (ev_document e) id) (evidence d).
Definition events_of (id : N) (d : DB) : list DocumentEvent := select (fun e => N.eqb (de_parent_document e) id) (events d).
Definition event_evidence_of (id : N) (d : DB) : list DocumentEventEvidence :=
  select (fun e => N.eqb (dee_event e) id) (event_evidence d).
Definition renders_of (id : N) (d : DB) : list DocumentRender := select (fun r => N.eqb (rn_document r) id) (renders d).

(** A document of [_retention_queryset]: evidence and events are ordered, renders
    are not. *)
Definition load_ordered (d : DB) (document : Document) : LoadedDocument :=
  MkLoadedDocument document
    (with_artifact ev_artifact d (sort_by (by_time ev_created_at ev_id) (evidence_of (doc_id document) d)))
    (map (fun e => (e, with_artifact dee_artifact d (sort_by (by_time dee_created_at dee_id) (event_evidence_of (de_id e) d))))
       (sort_by (by_time de_occurred_at de_id) (events_of (doc_id document) d)))
    (with_render_artifacts d (heap_order _ d (renders_of (doc_id document) d))).

(** A document loaded without any order. *)
Definition load_unordered (d : DB) (document : Document) : LoadedDocument :=
  MkLoadedDocument document
    (with_artifact ev_artifact d (heap_order _ d (evidence_of (doc_id document) d)))
    (map (fun e => (e, with_artifact dee_artifact d (heap_order _ d (event_evidence_of (de_id e) d))))
       (heap_order _ d (events_of (doc_id document) d)))
    (with_render_artifacts d (heap_order _ d (renders_of (doc_id document) d))).
End loading.

(** ** The decision *)

(** One evidence row of a document or of an event, as the checks see it. *)
Record evidence_view : Type := MkEvidenceView { vw_conflicting : bool; vw_digest : string; vw_size_bytes : Z; vw_artifact : Artifact }.

Definition view_evidence (r : DocumentEvidence * Artifact) : evidence_view :=
  MkEvidenceView (ev_conflicting r.1) (ev_digest r.1) (ev_size_bytes r.1) r.2.
Definition view_event_evidence (r : DocumentEventEvidence * Artifact) : evidence_view :=
  MkEvidenceView (dee_conflicting r.1) (dee_digest r.1) (dee_size_bytes r.1) r.2.

Definition finalized (a : Artifact) : bool := match art_state a with ArtifactState.FINALIZED => true | _ => false end.

Definition _artifact_available (row : evidence_view) : bool :=
  let artifact := vw_artifact row in
  negb (vw_conflicting row) && finalized artifact && String.eqb (art_digest artifact) (vw_digest row) &&
  bool_decide (art_size_bytes artifact = Some (vw_size_bytes row)) && negb (str_nonempty (art_safe_error artifact)).

(** The first reason a list of checks gives. *)
Fixpoint first_reason {A} (reason : A -> option string) (l : list A) : option string :=
  match l with
  | [] => None
  | x :: r => match reason x with Some s => Some s | None => first_reason reason r end
  end.

Definition row_reason (row : evidence_view) : option string :=
  if vw_conflicting row then Some "evidence_conflict"
  else if str_nonempty (art_safe_error (vw_artifact row)) then Some "evidence_malformed"
  else if negb (finalized (vw_artifact row)) then Some "evidence_unavailable"
  else if negb (_artifact_available row) then Some "evidence_changed"
  else None.

Definition event_row_reason (row : evidence_view) : option string :=
  if vw_conflicting row then Some "event_evidence_conflict"
  else if str_nonempty (art_safe_error (vw_artifact row)) then Some "event_evidence_malformed"
  else if negb (_artifact_available row) then Some "event_evidence_unavailable"
  else None.

Definition event_reason (event : DocumentEvent * list (DocumentEventEvidence * Artifact)) : option string :=
  match event.2 with
  | [] => Some "event_evidence_missing"
  | rows => first_reason event_row_reason (map view_event_evidence rows)
  end.

Definition persisted (document : Document) : bool :=
  match doc_state document with DocumentState.PERSISTED => true | _ => false end.

Definition _evidence_reason (document : LoadedDocument) : option string :=
  if negb (persisted (ld_document document)) then Some "document_conflict"
  else match ld_evidence document with
       | [] => Some "evidence_missing"
       | rows => match first_reason row_reason (map view_evidence rows) with
                 | Some s => Some s
                 | None => first_reason event_reason (ld_events document)
                 end
       end.

Section decision.
Context {B : Type} `{!External B}.

(** [document.authorized_at if family is NF-e else document.emitted_at] *)
Definition basis_of (document : Document) : option Z :=
  if String.eqb (doc_family document) NFE_FAMILY then doc_authorized_at document else Some (doc_emitted_at document).

Definition decision_for_document (document : LoadedDocument) (as_of : option Z) (today : Z) : RetentionDecision :=
  let doc := ld_document document in
  let calculated_on := opt_default today as_of in
  let basis := option_map (_civil_date (B:=B)) (basis_of doc) in
  match calculate_eligibility_date (B:=B) (doc_family doc) (Some (doc_emitted_at doc)) (doc_authorized_at doc) with
  | Err reason => MkRetentionDecision RetentionState.NON_EXECUTABLE reason RULE_VERSION basis None calculated_on
  | Ok eligibility_date =>
      match _evidence_reason document with
      | Some reason =>
          MkRetentionDecision RetentionState.NON_EXECUTABLE reason RULE_VERSION basis (Some eligibility_date) calculated_on
      | None =>
          let due := Z.leb eligibility_date calculated_on in
          MkRetentionDecision (if due then RetentionState.ELIGIBLE else RetentionState.RETAINED)
            (if due then "retention_complete" else "within_retention_period") RULE_VERSION basis (Some eligibility_date) calculated_on
      end
  end.
End decision.

(** ** The scope of a deletion *)

(** [json.dumps] with [ensure_ascii]: outside the strings there is only ASCII, so
    the rest is escaped in place. *)
Definition ascii_char (c : ascii) : string :=
  if N.ltb (code c) 127 then String c EmptyString else String backslash (String "u" (fixed_str 4 16 (code c))).

Fixpoint ascii_only (s : string) : string :=
  match s with EmptyString => EmptyString | String c r => ascii_char c ++ ascii_only r end.

Definition vint_opt (o : option Z) : pyval := match o with Some z => VInt z | None => VNone end.

Definition content_type_of (a : Artifact) : string := str_or (art_detected_mime_type a) (art_declared_mime_type a).

Definition _evidence_scope (id : N) (row : evidence_view) : pyval :=
  let artifact := vw_artifact row in
  VDict [("id", VStr (uuid_str id)); ("artifact_id", VStr (uuid_str (art_id artifact))); ("digest", VStr (vw_digest row));
         ("size_bytes", VInt (vw_size_bytes row)); ("conflicting", VBool (vw_conflicting row));
         ("state", VStr (ArtifactState.value (art_state artifact))); ("artifact_digest", VStr (art_digest artifact));
         ("artifact_size_bytes", vint_opt (art_size_bytes artifact)); ("version", VInt (art_version artifact));
         ("content_type", VStr (content_type_of artifact))].

Definition artifact_scope (a : Artifact) : pydict :=
  [("digest", VStr (art_digest a)); ("size_bytes", vint_opt (art_size_bytes a)); ("version", VInt (art_version a));
   ("state", VStr (ArtifactState.value (art_state a)))].

Definition event_scope (event : DocumentEvent * list (DocumentEventEvidence * Artifact)) : pyval :=
  let '(e, rows) := event in
  VDict [("id", VStr (uuid_str (de_id e))); ("family", VStr (de_family e)); ("category", VStr (de_category e));
         ("occurred_at", VStr (isoformat (de_occurred_at e))); ("relationship_type", VStr (de_relationship_type e));
         ("evidence", VList (map (fun r => _evidence_scope (dee_id r.1) (view_event_evidence r)) rows))].

Definition render_scope (render : DocumentRender * Artifact * option Artifact) : pyval :=
  let '(r, source, artifact) := render in
  VDict [("id", VStr (uuid_str (rn_id r))); ("source_artifact_id", VStr (uuid_str (rn_source_artifact r)));
         ("source_digest", VStr (rn_source_digest r)); ("source_artifact", VDict (artifact_scope source));
         ("renderer_id", VStr (rn_renderer_id r)); ("renderer_version", VStr (rn_renderer_version r));
         ("state", VStr (DocumentRenderState.value (rn_state r)));
         ("artifact", match artifact with
                      | Some a => VDict (("id", VStr (uuid_str (art_id a))) :: artifact_scope a)
                      | None => VNone
                      end)].

Definition _scope_data (document : LoadedDocument) : pydict :=
  let doc := ld_document document in
  [("document_id", VStr (uuid_str (doc_id doc))); ("document_state", VStr (DocumentState.value (doc_state doc)));
   ("family", VStr (doc_family doc));
   ("evidence", VList (map (fun r => _evidence_scope (ev_id r.1) (view_evidence r)) (ld_evidence document)));
   ("events", VList (map event_scope (ld_events document))); ("renders", VList (map render_scope (ld_renders document)))].

Definition scope_hash (document : LoadedDocument) : string :=
  sha256 (encode_utf8 (ascii_only (json_dumps (VDict (_scope_data document))))).

(** ** Payloads *)

Definition date_payload (o : option Z) : pyval := match o with Some d => VStr (date_isoformat d) | None => VNone end.

Definition _decision_payload (decision : RetentionDecision) : pydict :=
  [("state", VStr (RetentionState.value (rd_state decision))); ("reason_code", VStr (rd_reason_code decision));
   ("rule_version", VStr (rd_rule_version decision)); ("basis_date", date_payload (rd_basis_date decision));
   ("eligibility_date", date_payload (rd_eligibility_date decision));
   ("calculated_on", VStr (date_isoformat (rd_calculated_on decision)))].

Definition availability (available : bool) : pyval := VStr (if available then "available" else "unavailable").

Definition _artifact_payload (id : N) (row : evidence_view) : pyval :=
  let artifact := vw_artifact row in
  VDict [("id", VStr (uuid_str id)); ("artifact_id", VStr (uuid_str (art_id artifact)));
         ("digest_prefix", VStr (stake 16 (vw_digest row))); ("size_bytes", VInt (vw_size_bytes row));
         ("content_type", VStr (content_type_of artifact)); ("availability", availability (_artifact_available row))].

Definition render_artifact_payload (a : Artifact) : pyval :=
  VDict [("id", VStr (uuid_str (art_id a))); ("digest_prefix", VStr (stake 16 (art_digest a)));
         ("size_bytes", vint_opt (art_size_bytes a)); ("version", VInt (art_version a));
         ("availability", availability (finalized a && negb (str_nonempty (art_safe_error a))))].

Definition event_payload (event : DocumentEvent * list (DocumentEventEvidence * Artifact)) : pyval :=
  let '(e, rows) := event in
  VDict [("id", VStr (uuid_str (de_id e))); ("family", VStr (de_family e)); ("category", VStr (de_category e));
         ("occurred_at", VStr (isoformat (de_occurred_at e))); ("relationship_type", VStr (de_relationship_type e));
         ("evidence", VList (map (fun r => _artifact_payload (dee_id r.1) (view_event_evidence r)) rows))].

Definition render_payload (render : DocumentRender * Artifact * option Artifact) : pyval :=
  let '(r, source, artifact) := render in
  VDict [("id", VStr (uuid_str (rn_id r))); ("renderer_id", VStr (rn_renderer_id r));
         ("renderer_version", VStr (rn_renderer_version r)); ("state", VStr (DocumentRenderState.value (rn_state r)));
         ("source_digest", VStr (rn_source_digest r)); ("source_artifact", render_artifact_payload source);
         ("artifact", match artifact with Some a => render_artifact_payload a | None => VNone end)].

Section queries.
Context {B : Type} `{!External B, !Heap, !Signer}.

(** [retention_item], with the document it was computed from. *)
Record RetentionItem : Type := MkRetentionItem {
  ri_document : Document; ri_decision : RetentionDecision; ri_scope_hash : string }.

Definition retention_item (document : LoadedDocument) (as_of : option Z) (today : Z) : RetentionItem :=
  MkRetentionItem (ld_document document) (decision_for_document (B:=B) document as_of today) (scope_hash document).

Definition retention_item_payload (item : RetentionItem) : pydict :=
  let doc := ri_document item in
  let id := uuid_str (doc_id doc) in
  [("id", VStr id); ("company_id", VStr (uuid_str (doc_company doc))); ("family", VStr (doc_family doc));
   ("category", VStr (doc_category doc)); ("flow", VStr (doc_flow doc))] ++
  _decision_payload (ri_decision item) ++
  [("scope_hash", VStr (ri_scope_hash item)); ("detail_url", VStr ("/api/retention/documents/" ++ id));
   ("preview_url", VStr ("/api/retention/documents/" ++ id ++ "/preview"))].

(** The documents of [_retention_queryset], filtered; ordered by id. *)
Definition retention_filter (params : RetentionParams) (document : Document) : bool :=
  match rp_company_id params with Some c => N.eqb (doc_company document) c | None => true end &&
  match rp_family params with Some f => String.eqb (doc_family document) f | None => true end &&
  match rp_cursor params with Some c => N.ltb c (doc_id document) | None => true end.

Definition by_id (a b : Document) : bool := N.leb (doc_id a) (doc_id b).

Definition retention_candidates (params : RetentionParams) (d : DB) : list Document :=
  sort_by by_id (select (retention_filter params) (documents d)).

Definition _matches (item : RetentionItem) (params : RetentionParams) : bool :=
  let date := rd_eligibility_date (ri_decision item) in
  match rp_state params with Some st => bool_decide (rd_state (ri_decision item) = st) | None => true end &&
  match rp_eligible_from params with Some from => match date with Some x => Z.leb from x | None => false end | None => true end &&
  match rp_eligible_to params with Some to_ => match date with Some x => Z.leb x to_ | None => false end | None => true end.

Definition item_of (params : RetentionParams) (today : Z) (d : DB) (document : Document) : RetentionItem :=
  retention_item (load_ordered d document) (rp_as_of params) today.

Record RetentionPage : Type := MkRetentionPage { rpg_documents : list RetentionItem; rpg_next_cursor : option string }.

(** The page of [list_retention_documents]; [today] is [timezone.localdate()]. *)
Definition retention_page (params : RetentionParams) (today : Z) (d : DB) : RetentionPage :=
  let all := retention_candidates params d in
  let candidates := firstn _MAX_SCAN all in
  let matches := filter (fun i => _matches i params = true) (map (item_of params today d) candidates) in
  let limit := Z.to_nat (rp_limit params) in
  if Nat.ltb limit (length matches) then
    MkRetentionPage (firstn limit matches)
      (option_map (fun i => cursor_for (doc_id (ri_document i))) (nth_error matches (limit - 1)))
  else
    MkRetentionPage matches
      (if Nat.ltb _MAX_SCAN (length all) then option_map (fun x => cursor_for (doc_id x)) (last candidates) else None).

(** [timezone.localdate()] *)
Definition localdate : M B Z := let* now := timezone_now in ret (_civil_date (B:=B) now).

Definition list_retention_documents (params : RetentionParams) : M B pydict :=
  let* today := localdate in
  let* page := autocommit (query (retention_page params today)) in
  ret [("documents", VList (map (fun i => VDict (retention_item_payload i)) (rpg_documents page)));
       ("next_cursor", vstr_opt (rpg_next_cursor page));
       ("as_of", VStr (date_isoformat (opt_default today (rp_as_of params)))); ("rule_version", VStr RULE_VERSION)].

(** [_retention_queryset().filter(pk=...).first()] *)
Definition ordered_document (document_id : N) (d : DB) : option LoadedDocument :=
  option_map (load_ordered d) (documents d !! document_id).

Definition retention_detail (document_id : N) (as_of : option Z) : M B (option pydict) :=
  let* today := localdate in
  let* document := autocommit (query (ordered_document document_id)) in
  ret (option_map (fun doc =>
    [("document", VDict (retention_item_payload (retention_item doc as_of today)));
     ("decision", VDict (_decision_payload (decision_for_document (B:=B) doc as_of today)));
     ("preview_url", VStr ("/api/retention/documents/" ++ uuid_str (doc_id (ld_document doc)) ++ "/preview"))]) document).

(** Strings are Latin-1 here; 233 is e acute, 227 a tilde. *)
Definition latin (n : N) : string := String (ascii_of_N n) EmptyString.
Definition PREVIEW_MESSAGE : string := "A pr" ++ latin 233 ++ "via n" ++ latin 227 ++ "o autoriza exclus" ++ latin 227 ++ "o.".

Definition preview_document (doc : Document) : pydict :=
  [("id", VStr (uuid_str (doc_id doc))); ("company_id", VStr (uuid_str (doc_company doc))); ("family", VStr (doc_family doc));
   ("category", VStr (doc_category doc)); ("flow", VStr (doc_flow doc)); ("emitted_at", VStr (isoformat (doc_emitted_at doc)));
   ("authorized_at", match doc_authorized_at doc with Some t => VStr (isoformat t) | None => VNone end)].

(** The payload, and whether the scope the client expected has changed. *)
Definition retention_preview (document_id : N) (as_of : option Z) (expected_scope_hash : option string) :
    M B (option pydict * bool) :=
  let* today := localdate in
  let* document := autocommit (query (ordered_document document_id)) in
  match document with
  | None => ret (None, false)
  | Some doc =>
      let current_hash := scope_hash doc in
      if match expected_scope_hash with Some h => negb (String.eqb h current_hash) | None => false end then
        ret (Some [("reason_code", VStr "scope_changed"); ("scope_hash", VStr current_hash)], true)
      else
        ret (Some
          [("document", VDict (preview_document (ld_document doc)));
           ("decision", VDict (_decision_payload (decision_for_document (B:=B) doc as_of today)));
           ("scope", VDict [("hash", VStr current_hash); ("version", VStr "scope-v1")]);
           ("evidence", VList (map (fun r => _artifact_payload (ev_id r.1) (view_evidence r)) (ld_evidence doc)));
           ("events", VList (map event_payload (ld_events doc))); ("renders", VList (map render_payload (ld_renders doc)));
           ("deletion", VDict [("authorized", VBool false); ("message", VStr PREVIEW_MESSAGE)])], false)
  end.

End queries.
