(* ===== verification/RetentionFacts.v ===== *)
(** * What the retention rules guarantee

    The date a document's retention ends against the rule it stands for, the
    decision exactly, and the pages of the list. *)

From Stdlib Require Import ZArith Ascii String Lia.
From stdpp Require Import base decidable list gmap strings sorting.
From S2P Require Import Prelude PyStr Sha256 PyVal Calendar Models Tables AuditTrail Identity Companies Retention.

Local Open Scope string_scope.

(** ** The date *)

Section dates.
Context {B : Type} `{!External B}.

Lemma date_of_valid y m d : (1 <= y <= 9999)%Z -> (1 <= m <= 12)%Z -> (1 <= d <= days_in_month y m)%Z -> date_of y m d = Some (day_of_civil y m d).
Proof. intros Hy Hm Hd. unfold date_of, within. repeat case_match; bools; try done; lia. Qed.

Lemma days_in_month_bounds y m : (28 <= days_in_month y m <= 31)%Z.
Proof. unfold days_in_month. repeat case_match; lia. Qed.

Lemma add_eleven_years v y m d :
  civil_of_day v = (y, m, d) ->
  _add_months v 132 = new_date (y + 11) m (Z.min d (days_in_month (y + 11) m)).
Proof.
  intros Hv. destruct (civil_spec _ _ _ _ Hv) as (Hm & _). unfold _add_months. rewrite Hv.
  replace ((y * 12 + m - 1 + 132) / 12)%Z with (y + 11)%Z by (Z.to_euclidean_division_equations; lia).
  by replace ((y * 12 + m - 1 + 132) mod 12 + 1)%Z with m by (Z.to_euclidean_division_equations; lia).
Qed.

(** The rule for NF-e: the same day eleven years later, or the last of its month. *)
Definition nfe_rule (v day : Z) : Prop :=
  exists y m d, civil_of_day v = (y, m, d) /\ day = day_of_civil (y + 11) m (Z.min d (days_in_month (y + 11) m)) /\
    (4015 <= day - v <= 4018)%Z.

(** The rule for NFS-e: the first of January of the sixth year. *)
Definition nfse_rule (v day : Z) : Prop :=
  exists y m d, civil_of_day v = (y, m, d) /\ day = day_of_civil (y + 6) 1 1 /\ (1826 <= day - v <= 2192)%Z.

Lemma nfe_date v y m d :
  civil_of_day v = (y, m, d) -> (1 <= y + 11 <= 9999)%Z -> exists day, _add_months v 132 = Ok day /\ nfe_rule v day.
Proof.
  intros Hv Hy. destruct (civil_spec _ _ _ _ Hv) as (Hm & Hd & <-). rewrite (add_eleven_years _ _ _ _ Hv). unfold new_date.
  pose proof (days_in_month_bounds (y + 11) m). rewrite date_of_valid by lia. eexists. split; [done|]. exists y, m, d.
  split; [done|]. split; [done|]. by apply eleven_years.
Qed.

Lemma nfse_date v y m d :
  civil_of_day v = (y, m, d) -> (1 <= y + 6 <= 9999)%Z -> exists day, new_date (y + 6) 1 1 = Ok day /\ nfse_rule v day.
Proof.
  intros Hv Hy. destruct (civil_spec _ _ _ _ Hv) as (Hm & Hd & <-). unfold new_date.
  rewrite date_of_valid by (done || lia). eexists. split; [done|]. exists y, m, d. split; [done|]. split; [done|]. by apply sixth_january.
Qed.

Lemma year_out_of_range y m d : ~ (1 <= y <= 9999)%Z -> date_of y m d = None.
Proof. intros Hy. unfold date_of, within. destruct (Z.leb_spec 1 y), (Z.leb_spec y 9999); try done; lia. Qed.
End dates.

(** C16 The end of retention is the rule's: an NF-e may go on the same day eleven
    years after its authorization (the last of February for a leap day), so 4015
    to 4018 days later; an NFS-e on the first of January of the sixth year after
    its emission, so at least 1826 days later - days and years being those of
    America/Sao_Paulo; and there is such a date for every year the calendar
    reaches, with the reason named when there is none. *)
Theorem eligibility_follows_rule {B} `{!External B} (emitted t : Z) (authorized : option Z) :
  let v := _civil_date (B:=B) t in
  let '(y, _, _) := civil_of_day v in
  (if decide (1 <= y + 11 <= 9999)%Z
   then exists day, calculate_eligibility_date (B:=B) NFE_FAMILY (Some emitted) (Some t) = Ok day /\ nfe_rule v day
   else calculate_eligibility_date (B:=B) NFE_FAMILY (Some emitted) (Some t) = Err (out_of_range (y + 11))) /\
  (if decide (1 <= y + 6 <= 9999)%Z
   then exists day, calculate_eligibility_date (B:=B) NFSE_FAMILY (Some t) authorized = Ok day /\ nfse_rule v day
   else calculate_eligibility_date (B:=B) NFSE_FAMILY (Some t) authorized = Err (out_of_range (y + 6))) /\
  calculate_eligibility_date (B:=B) NFE_FAMILY (Some emitted) None = Err "authorization_date_missing".
Proof.
  intros v. destruct (civil_of_day v) as [[y m] d] eqn:Hv. unfold calculate_eligibility_date. fold v. rewrite Hv.
  cbn [String.eqb NFE_FAMILY NFSE_FAMILY Ascii.eqb Bool.eqb]. split; [|split; [|done]]; case_decide as Hy.
  - by apply (nfe_date v y m d).
  - rewrite (add_eleven_years _ _ _ _ Hv). unfold new_date. by rewrite year_out_of_range.
  - by apply (nfse_date v y m d).
  - unfold new_date. by rewrite year_out_of_range.
Qed.

(** When the retention of a document ends, or why it never does. *)
Variant retention_end {B} `{!External B} (doc : Document) : result string Z -> Prop :=
| end_nfe t day :
    doc_family doc = NFE_FAMILY -> doc_authorized_at doc = Some t -> nfe_rule (_civil_date (B:=B) t) day ->
    (1 <= (civil_of_day (_civil_date (B:=B) t)).1.1 + 11 <= 9999)%Z -> retention_end doc (Ok day)
| end_nfe_too_far t :
    doc_family doc = NFE_FAMILY -> doc_authorized_at doc = Some t ->
    let year := ((civil_of_day (_civil_date (B:=B) t)).1.1 + 11)%Z in ~ (1 <= year <= 9999)%Z ->
    retention_end doc (Err (out_of_range year))
| end_nfe_unauthorized :
    doc_family doc = NFE_FAMILY -> doc_authorized_at doc = None -> retention_end doc (Err "authorization_date_missing")
| end_nfse day :
    doc_family doc = NFSE_FAMILY -> nfse_rule (_civil_date (B:=B) (doc_emitted_at doc)) day ->
    (1 <= (civil_of_day (_civil_date (B:=B) (doc_emitted_at doc))).1.1 + 6 <= 9999)%Z -> retention_end doc (Ok day)
| end_nfse_too_far :
    doc_family doc = NFSE_FAMILY ->
    let year := ((civil_of_day (_civil_date (B:=B) (doc_emitted_at doc))).1.1 + 6)%Z in ~ (1 <= year <= 9999)%Z ->
    retention_end doc (Err (out_of_range year))
| end_other_family :
    doc_family doc <> NFE_FAMILY -> doc_family doc <> NFSE_FAMILY -> retention_end doc (Err "unsupported_family").

Lemma nfe_rule_unique v day day' : nfe_rule v day -> nfe_rule v day' -> day = day'.
Proof. intros (y & m & d & Hv & -> & _) (y' & m' & d' & Hv' & -> & _). congruence. Qed.

Lemma nfse_rule_unique v day day' : nfse_rule v day -> nfse_rule v day' -> day = day'.
Proof. intros (y & m & d & Hv & -> & _) (y' & m' & d' & Hv' & -> & _). congruence. Qed.

Lemma retention_end_calculated {B} `{!External B} doc :
  retention_end (B:=B) doc (calculate_eligibility_date (B:=B) (doc_family doc) (Some (doc_emitted_at doc)) (doc_authorized_at doc)).
Proof.
  unfold calculate_eligibility_date. destruct (String.eqb_spec (doc_family doc) NFE_FAMILY) as [Hf|Hn].
  - destruct (doc_authorized_at doc) as [t|] eqn:Ha; [|by apply end_nfe_unauthorized]. set (v := _civil_date t).
    destruct (civil_of_day v) as [[y m] d] eqn:Hv. assert (y = (civil_of_day v).1.1) as Hy by (by rewrite Hv).
    destruct (decide (1 <= y + 11 <= 9999)%Z) as [Hr|Hr].
    + destruct (nfe_date v y m d Hv Hr) as (day & -> & Hrule). apply (end_nfe doc t); [done..|]. fold v. by rewrite <-Hy.
    + rewrite (add_eleven_years _ _ _ _ Hv). unfold new_date. rewrite year_out_of_range by done. rewrite Hy in Hr |- *.
      by apply (end_nfe_too_far doc t).
  - destruct (String.eqb_spec (doc_family doc) NFSE_FAMILY) as [Hf|Hn2]; [|by apply end_other_family].
    set (v := _civil_date (doc_emitted_at doc)). destruct (civil_of_day v) as [[y m] d] eqn:Hv.
    assert (y = (civil_of_day v).1.1) as Hy by (by rewrite Hv). destruct (decide (1 <= y + 6 <= 9999)%Z) as [Hr|Hr].
    + destruct (nfse_date v y m d Hv Hr) as (day & -> & Hrule). apply end_nfse; [done..|]. fold v. by rewrite <-Hy.
    + unfold new_date. rewrite year_out_of_range by done. rewrite Hy in Hr |- *. by apply end_nfse_too_far.
Qed.

(** A document has one end of retention. *)
Lemma retention_end_unique {B} `{!External B} doc r r' : retention_end (B:=B) doc r -> retention_end (B:=B) doc r' -> r = r'.
Proof.
  assert (NFE_FAMILY <> NFSE_FAMILY) as Hne by done. unfold not in Hne.
  intros [] []; simplify_eq; try congruence; try lia; f_equal; (by eapply nfe_rule_unique) || (by eapply nfse_rule_unique).
Qed.

(** ** The decision *)

(** A piece of evidence in order: free of conflicts, finalised, without an error,
    and with the digest and the size that were recorded. *)
Record sound (r : evidence_view) : Prop := MkSound {
  so_conflict : vw_conflicting r = false;
  so_error : art_safe_error (vw_artifact r) = "";
  so_state : art_state (vw_artifact r) = ArtifactState.FINALIZED;
  so_digest : art_digest (vw_artifact r) = vw_digest r;
  so_size : art_size_bytes (vw_artifact r) = Some (vw_size_bytes r) }.

(** What is wrong with a piece of a document's evidence, and the code it is given. *)
Variant evidence_fault (r : evidence_view) : string -> Prop :=
| fault_conflict : vw_conflicting r = true -> evidence_fault r "evidence_conflict"
| fault_malformed :
    vw_conflicting r = false -> art_safe_error (vw_artifact r) <> "" -> evidence_fault r "evidence_malformed"
| fault_unavailable :
    vw_conflicting r = false -> art_safe_error (vw_artifact r) = "" -> art_state (vw_artifact r) <> ArtifactState.FINALIZED ->
    evidence_fault r "evidence_unavailable"
| fault_changed :
    vw_conflicting r = false -> art_safe_error (vw_artifact r) = "" -> art_state (vw_artifact r) = ArtifactState.FINALIZED ->
    art_digest (vw_artifact r) <> vw_digest r \/ art_size_bytes (vw_artifact r) <> Some (vw_size_bytes r) ->
    evidence_fault r "evidence_changed".

(** The same for a piece of an event's evidence: unavailable and changed are one code. *)
Variant event_row_fault (r : evidence_view) : string -> Prop :=
| event_conflict : vw_conflicting r = true -> event_row_fault r "event_evidence_conflict"
| event_malformed :
    vw_conflicting r = false -> art_safe_error (vw_artifact r) <> "" -> event_row_fault r "event_evidence_malformed"
| event_unavailable :
    vw_conflicting r = false -> art_safe_error (vw_artifact r) = "" ->
    art_state (vw_artifact r) <> ArtifactState.FINALIZED \/ art_digest (vw_artifact r) <> vw_digest r \/
    art_size_bytes (vw_artifact r) <> Some (vw_size_bytes r) ->
    event_row_fault r "event_evidence_unavailable".

(** The code of the first element with a fault. *)
Definition first_fault {A} (fault : A -> string -> Prop) (l : list A) (s : string) : Prop :=
  exists before x after, l = (before ++ x :: after)%list /\ fault x s /\ forall y t, y ∈ before -> ~ fault y t.

Definition event_fault (e : DocumentEvent * list (DocumentEventEvidence * Artifact)) (s : string) : Prop :=
  (e.2 = [] /\ s = "event_evidence_missing") \/ first_fault (fun r => event_row_fault (view_event_evidence r)) e.2 s.

(** What is wrong with a document: its state, no evidence at all, its first faulty
    piece of evidence, or else its first faulty event. *)
Variant document_fault (document : LoadedDocument) : string -> Prop :=
| fault_state : doc_state (ld_document document) <> DocumentState.PERSISTED -> document_fault document "document_conflict"
| fault_no_evidence :
    doc_state (ld_document document) = DocumentState.PERSISTED -> ld_evidence document = [] ->
    document_fault document "evidence_missing"
| fault_evidence s :
    doc_state (ld_document document) = DocumentState.PERSISTED -> ld_evidence document <> [] ->
    first_fault (fun r => evidence_fault (view_evidence r)) (ld_evidence document) s -> document_fault document s
| fault_event s :
    doc_state (ld_document document) = DocumentState.PERSISTED -> ld_evidence document <> [] ->
    (forall r, r ∈ ld_evidence document -> sound (view_evidence r)) ->
    first_fault event_fault (ld_events document) s -> document_fault document s.

(** A document with nothing wrong. *)
Record intact (document : LoadedDocument) : Prop := MkIntact {
  in_persisted : doc_state (ld_document document) = DocumentState.PERSISTED;
  in_some : ld_evidence document <> [];
  in_evidence : forall r, r ∈ ld_evidence document -> sound (view_evidence r);
  in_events : forall e, e ∈ ld_events document -> e.2 <> [] /\ forall r, r ∈ e.2 -> sound (view_event_evidence r) }.

(** The decision of a document on a day. *)
Variant decided {B} `{!External B} (document : LoadedDocument) (today : Z) : RetentionState.t -> string -> option Z -> Prop :=
| decided_never reason :
    retention_end (B:=B) (ld_document document) (Err reason) ->
    decided document today RetentionState.NON_EXECUTABLE reason None
| decided_faulty day reason :
    retention_end (B:=B) (ld_document document) (Ok day) -> document_fault document reason ->
    decided document today RetentionState.NON_EXECUTABLE reason (Some day)
| decided_retained day :
    retention_end (B:=B) (ld_document document) (Ok day) -> intact document -> (today < day)%Z ->
    decided document today RetentionState.RETAINED "within_retention_period" (Some day)
| decided_eligible day :
    retention_end (B:=B) (ld_document document) (Ok day) -> intact document -> (day <= today)%Z ->
    decided document today RetentionState.ELIGIBLE "retention_complete" (Some day).

Lemma in_the_middle {A} (x : A) before after : x ∈ (before ++ x :: after)%list.
Proof. apply elem_of_app. right. left. Qed.

(** A check that gives each fault its code gives a list its first one. *)
Lemma first_reason_exact {A V} (view : A -> V) (reason : V -> option string) (fault : A -> string -> Prop) (ok : A -> Prop) l :
  (forall x, match reason (view x) with Some s => fault x s | None => ok x end) -> (forall x s, ok x -> ~ fault x s) ->
  match first_reason reason (map view l) with
  | Some s => first_fault fault l s
  | None => forall x, x ∈ l -> ok x
  end.
Proof.
  intros Hr Hok. induction l as [|y l IH]; cbn; [by intros x ?%not_elem_of_nil|]. specialize (Hr y).
  destruct (reason (view y)) as [s|].
  - exists [], y, l. split; [done|]. split; [done|]. by intros x t ?%not_elem_of_nil.
  - destruct (first_reason reason _) as [s|].
    + destruct IH as (before & x & after & -> & Hx & Hb). exists (y :: before), x, after. split; [done|]. split; [done|].
      intros z t [->|Hz]%elem_of_cons; [by apply Hok|by eapply Hb].
    + intros x [->|Hx]%elem_of_cons; [done|by apply IH].
Qed.

Lemma nonempty_spec s : str_nonempty s = true <-> s <> "".
Proof. by destruct s. Qed.

Lemma finalized_spec a : finalized a = true <-> art_state a = ArtifactState.FINALIZED.
Proof. unfold finalized. by destruct (art_state a). Qed.

Lemma empty_spec s : str_nonempty s = false <-> s = "".
Proof. by destruct s. Qed.

Lemma available_spec r : _artifact_available r = true <-> sound r.
Proof.
  unfold _artifact_available. rewrite !andb_true_iff, !negb_true_iff, finalized_spec, String.eqb_eq, bool_decide_eq_true, empty_spec.
  split; [by intros [[[[? ?] ?] ?] ?]|by intros []].
Qed.

Lemma row_reason_exact r : match row_reason r with Some s => evidence_fault r s | None => sound r end.
Proof.
  unfold row_reason. destruct (vw_conflicting r) eqn:Hc; [by constructor|].
  destruct (str_nonempty _) eqn:He; [apply nonempty_spec in He; by constructor|].
  assert (art_safe_error (vw_artifact r) = "") as He' by (by destruct (art_safe_error _)).
  destruct (finalized _) eqn:Hf; cbn [negb].
  2: { apply fault_unavailable; [done..|]. rewrite <-finalized_spec. by rewrite Hf. }
  apply finalized_spec in Hf. destruct (_artifact_available r) eqn:Ha; cbn [negb]; [by apply available_spec|].
  apply fault_changed; [done..|].
  destruct (decide (art_digest (vw_artifact r) = vw_digest r)) as [Hd|]; [|by left].
  right. intros Hs. assert (sound r) as ?%available_spec by done. congruence.
Qed.

Lemma event_row_reason_exact r : match event_row_reason r with Some s => event_row_fault r s | None => sound r end.
Proof.
  unfold event_row_reason. destruct (vw_conflicting r) eqn:Hc; [by constructor|].
  destruct (str_nonempty _) eqn:He; [apply nonempty_spec in He; by constructor|].
  assert (art_safe_error (vw_artifact r) = "") as He' by (by destruct (art_safe_error _)).
  destruct (_artifact_available r) eqn:Ha; cbn [negb]; [by apply available_spec|]. apply event_unavailable; [done..|].
  destruct (decide (art_state (vw_artifact r) = ArtifactState.FINALIZED)) as [Hf|]; [|by left].
  destruct (decide (art_digest (vw_artifact r) = vw_digest r)) as [Hd|]; [|right; by left].
  right. right. intros Hs. assert (sound r) as ?%available_spec by done. congruence.
Qed.

Lemma sound_no_fault r s : sound r -> ~ evidence_fault r s.
Proof. intros [] []; intuition congruence. Qed.

Lemma sound_no_event_fault r s : sound r -> ~ event_row_fault r s.
Proof. intros [] []; intuition congruence. Qed.

Definition event_sound (e : DocumentEvent * list (DocumentEventEvidence * Artifact)) : Prop :=
  e.2 <> [] /\ forall r, r ∈ e.2 -> sound (view_event_evidence r).

Lemma event_reason_exact e : match event_reason e with Some s => event_fault e s | None => event_sound e end.
Proof.
  unfold event_reason, event_fault, event_sound. destruct (e.2) as [|x l]; [by left|].
  pose proof (first_reason_exact view_event_evidence event_row_reason (fun r => event_row_fault (view_event_evidence r))
    (fun r => sound (view_event_evidence r)) (x :: l) (fun r => event_row_reason_exact _) (fun r s => sound_no_event_fault _ s)) as H.
  destruct (first_reason _ _) as [s|]; [by right|by split].
Qed.

Lemma event_sound_no_fault e s : event_sound e -> ~ event_fault e s.
Proof.
  intros [Hne Hs] [[? _]|(before & x & after & He & Hx & _)]; [done|]. eapply sound_no_event_fault; [|exact Hx].
  apply Hs. rewrite He. apply in_the_middle.
Qed.

Lemma evidence_reason_exact document : match _evidence_reason document with Some s => document_fault document s | None => intact document end.
Proof.
  unfold _evidence_reason. assert (persisted (ld_document document) = true <-> doc_state (ld_document document) = DocumentState.PERSISTED) as Hp
    by (unfold persisted; by destruct (doc_state _)).
  destruct (persisted _); cbn [negb]; [|apply fault_state; rewrite <-Hp; done]. destruct Hp as [Hp _]. specialize (Hp eq_refl).
  destruct (ld_evidence document) as [|r0 rows] eqn:He; [by apply fault_no_evidence|]. rewrite <-He.
  assert (ld_evidence document <> []) as Hne by congruence.
  pose proof (first_reason_exact view_evidence row_reason (fun r => evidence_fault (view_evidence r)) (fun r => sound (view_evidence r))
    (ld_evidence document) (fun r => row_reason_exact _) (fun r s => sound_no_fault _ s)) as H1.
  destruct (first_reason row_reason _) as [s|]; [by apply fault_evidence|].
  pose proof (first_reason_exact id event_reason event_fault event_sound (ld_events document) event_reason_exact event_sound_no_fault) as H2.
  rewrite map_id in H2. destruct (first_reason event_reason _) as [s|]; [by apply fault_event|]. by split.
Qed.

Lemma faulty_unsound document s :
  first_fault (fun r => evidence_fault (view_evidence r)) (ld_evidence document) s ->
  ~ forall r, r ∈ ld_evidence document -> sound (view_evidence r).
Proof. intros (b & x & a & Hl & Hx & _) H. eapply sound_no_fault; [|exact Hx]. apply H. rewrite Hl. apply in_the_middle. Qed.

Lemma faulty_event document s :
  first_fault event_fault (ld_events document) s -> ~ forall e, e ∈ ld_events document -> event_sound e.
Proof. intros (b & x & a & Hl & Hx & _) H. eapply event_sound_no_fault; [|exact Hx]. apply H. rewrite Hl. apply in_the_middle. Qed.

Lemma intact_no_fault document s : intact document -> ~ document_fault document s.
Proof.
  intros [Hp Hne He Hev] Hf. destruct Hf as [| |s _ _ Hf|s _ _ _ Hf]; [done..|by eapply faulty_unsound|by eapply faulty_event].
Qed.

(** The codes are determined. *)
Lemma evidence_fault_unique r s s' : evidence_fault r s -> evidence_fault r s' -> s = s'.
Proof. intros [] []; done || congruence || naive_solver. Qed.

Lemma event_row_fault_unique r s s' : event_row_fault r s -> event_row_fault r s' -> s = s'.
Proof. intros [] []; done || congruence || naive_solver. Qed.

Lemma first_fault_unique {A} (fault : A -> string -> Prop) l s s' :
  (forall x t t', fault x t -> fault x t' -> t = t') -> first_fault fault l s -> first_fault fault l s' -> s = s'.
Proof.
  intros Hu (b & x & a & -> & Hx & Hb) (b' & x' & a' & He & Hx' & Hb').
  apply app_eq_inv in He as [(k & -> & He)|(k & -> & He)]; destruct k as [|z k]; injection He as -> ?; try by eapply Hu.
  - exfalso. eapply Hb; [apply in_the_middle|exact Hx'].
  - exfalso. eapply Hb'; [apply in_the_middle|exact Hx].
Qed.

Lemma event_fault_unique e s s' : event_fault e s -> event_fault e s' -> s = s'.
Proof.
  intros [[He ->]|H] [[He' ->]|H']; [done|..].
  - destruct H' as (b & ? & ? & Hl & _). rewrite He in Hl. by destruct b.
  - destruct H as (b & ? & ? & Hl & _). rewrite He' in Hl. by destruct b.
  - eapply first_fault_unique; [|exact H|exact H']. intros r. apply event_row_fault_unique.
Qed.

Lemma document_fault_unique document s s' : document_fault document s -> document_fault document s' -> s = s'.
Proof.
  intros H H'. destruct H as [| |s Hp Hne Hf|s Hp Hne Hs Hf], H' as [| |s' Hp' Hne' Hf'|s' Hp' Hne' Hs' Hf']; try done.
  - eapply first_fault_unique; [|exact Hf|exact Hf']. intros r. apply evidence_fault_unique.
  - by apply faulty_unsound in Hf.
  - by apply faulty_unsound in Hf'.
  - eapply first_fault_unique; [|exact Hf|exact Hf']. apply event_fault_unique.
Qed.

(** The table decides a document in one way only. *)
Lemma decided_unique {B} `{!External B} document today st st' s s' day day' :
  decided (B:=B) document today st s day -> decided (B:=B) document today st' s' day' -> st = st' /\ s = s' /\ day = day'.
Proof.
  assert (forall r r', retention_end (B:=B) (ld_document document) r -> retention_end (B:=B) (ld_document document) r' -> r = r') as Hu
    by (intros r r'; apply retention_end_unique).
  intros [r H1|d r H1 F|d H1 I L|d H1 I L] [r' H1'|d' r' H1' F'|d' H1' I' L'|d' H1' I' L'];
    pose proof (Hu _ _ H1 H1') as Heq; simplify_eq; try done; try lia; try by apply intact_no_fault in F'||apply intact_no_fault in F.
  split_and!; [done| |done]. by eapply document_fault_unique.
Qed.

Lemma calculated_on_day {B} `{!External B} document as_of today :
  rd_calculated_on (decision_for_document (B:=B) document as_of today) = opt_default today as_of.
Proof. unfold decision_for_document. by repeat case_match. Qed.

(** C29 The decision is the table's, reason codes included: a document whose
    retention has no end cannot be deleted, for the reason the rule gives; one that
    is not persisted, has no evidence, or has evidence - its own, or that of an
    event - that is missing, in conflict, malformed, unavailable or changed cannot
    either, and the code names the first such fault; one in order is retained until
    the day its retention ends and eligible from that day on. The table decides
    every document in one way only, so a document is eligible exactly when it is
    intact and its retention has ended. *)
Theorem decision_exact {B} `{!External B} (document : LoadedDocument) (as_of : option Z) (today : Z) :
  let decision := decision_for_document (B:=B) document as_of today in
  rd_calculated_on decision = opt_default today as_of /\ rd_rule_version decision = RULE_VERSION /\
  rd_basis_date decision = option_map (_civil_date (B:=B)) (basis_of (ld_document document)) /\
  (forall state reason day, decided (B:=B) document (rd_calculated_on decision) state reason day <->
     state = rd_state decision /\ reason = rd_reason_code decision /\ day = rd_eligibility_date decision).
Proof.
  intros decision. split; [by apply calculated_on_day|]. split; [subst decision; unfold decision_for_document; by repeat case_match|].
  split; [subst decision; unfold decision_for_document; by repeat case_match|].
  assert (decided (B:=B) document (rd_calculated_on decision) (rd_state decision) (rd_reason_code decision) (rd_eligibility_date decision)) as Hd.
  - subst decision. rewrite (calculated_on_day document as_of today). unfold decision_for_document.
    pose proof (retention_end_calculated (B:=B) (ld_document document)) as He. pose proof (evidence_reason_exact document) as Hr.
    destruct (calculate_eligibility_date _ _ _) as [day|reason]; [|by apply decided_never].
    destruct (_evidence_reason document) as [s|]; [by apply decided_faulty|].
    destruct (Z.leb_spec day (opt_default today as_of)); [by apply decided_eligible|by apply decided_retained].
  - intros state reason day. split; [intros H; by apply (decided_unique document _ _ _ _ _ _ _ H Hd)|by intros (-> & -> & ->)].
Qed.

(** ** The pages of the list *)

(** The first matches of a list are the matches of one of its prefixes. *)
Lemma filter_prefix {A} (p : A -> bool) (l : list A) n x :
  filter (fun a => p a = true) l !! n = Some x ->
  exists k, l !! k = Some x /\ take (S n) (filter (fun a => p a = true) l) = filter (fun a => p a = true) (take (S k) l).
Proof.
  revert n. induction l as [|y l IH]; intros n; [done|]. rewrite filter_cons. case_decide as Hy.
  - destruct n as [|n]; cbn [lookup list_lookup].
    + intros [= ->]. exists 0%nat. split; [done|]. rewrite !firstn_cons, !take_0, filter_cons_True by done. done.
    + intros (k & Hk & He)%IH. exists (S k). split; [done|]. rewrite !firstn_cons, filter_cons_True by done. by rewrite <-He.
  - intros (k & Hk & He)%IH. exists (S k). split; [done|]. rewrite (firstn_cons (S k)), filter_cons_False by done. done.
Qed.

Section pages.
Context {B : Type} `{!External B, !Heap, !Signer} {laws : SignerLaws}.
Implicit Types (params : RetentionParams) (d : DB).

Definition with_cursor params (c : option N) : RetentionParams :=
  MkRetentionParams (rp_company_id params) (rp_family params) (rp_state params) (rp_eligible_from params) (rp_eligible_to params)
    (rp_as_of params) (rp_limit params) c.

(** A client that follows [next_cursor] until there is none. *)
Fixpoint walk_retention (fuel : nat) params (today : Z) d : option (list RetentionItem) :=
  match fuel with
  | O => None
  | S n =>
      let page := retention_page (B:=B) params today d in
      match rpg_next_cursor page with
      | None => Some (rpg_documents page)
      | Some s => match _cursor (VStr s) with
                  | Ok c => option_map (app (rpg_documents page)) (walk_retention n (with_cursor params c) today d)
                  | Err _ => None
                  end
      end
  end.

(** Identifiers are UUIDs. *)
Definition documents_stored d : Prop := stored doc_id (documents d) /\ forall i x, documents d !! i = Some x -> (i < 2 ^ 128)%N.

(** Every document the query matches, computed on one day. *)
Definition retention_items params (today : Z) d : list RetentionItem :=
  filter (fun i => _matches i params = true) (map (item_of (B:=B) params today d) (retention_candidates params d)).

Lemma candidates_sorted params d : documents_stored d -> StronglySorted (id_lt doc_id) (retention_candidates params d).
Proof. intros [Hd _]. by apply (ordered_rows doc_id). Qed.

Lemma candidates_after params d n x :
  documents_stored d -> retention_candidates params d !! n = Some x ->
  retention_candidates (with_cursor params (Some (doc_id x))) d = drop (S n) (retention_candidates params d).
Proof.
  intros Hd Hx. rewrite <-(drop_after doc_id _ n x (candidates_sorted params d Hd) Hx).
  set (p := fun doc => match rp_company_id params with Some c => N.eqb (doc_company doc) c | None => true end &&
                       match rp_family params with Some f => String.eqb (doc_family doc) f | None => true end).
  assert (forall c, retention_candidates (with_cursor params c) d =
            filter (fun r => match c with Some c => N.ltb c (doc_id r) | None => true end = true) (sort_by by_id (select p (documents d)))) as Hq.
  { intros c. by apply (query_after doc_id p (fun r => match c with Some c => N.ltb c (doc_id r) | None => true end)), Hd. }
  assert (with_cursor params (rp_cursor params) = params) as Hp by (by destruct params).
  pose proof (Hq (rp_cursor params)) as Hq0. rewrite Hp in Hq0. rewrite Hq0, Hq, list_filter_filter.
  apply list_filter_iff. intros r. rewrite Hq0 in Hx. apply list_elem_of_lookup_2, list_elem_of_filter in Hx as [Hx _].
  destruct (rp_cursor params) as [c|]; [|tauto]. rewrite !N.ltb_lt in *. lia.
Qed.

Lemma read_cursor x d : documents_stored d -> x ∈ rows (documents d) -> _cursor (VStr (cursor_for (doc_id x))) = Ok (Some (doc_id x)).
Proof using laws.
  intros [Hd Hlt] [i Hi]%elem_of_rows. unfold _cursor, cursor_for.
  destruct (none_or_empty (VStr (sign (uuid_str (doc_id x))))) eqn:He.
  - exfalso. by destruct (sign (uuid_str (doc_id x))) eqn:Hs; [destruct (signed_nonempty _ Hs)|].
  - rewrite unsign_signed. cbn [option_map]. rewrite parse_uuid_str; [done|]. rewrite (Hd _ _ Hi). by eapply Hlt.
Qed.

Lemma items_cursor params c today d :
  retention_items (with_cursor params c) today d =
  filter (fun i => _matches i params = true) (map (item_of (B:=B) params today d) (retention_candidates (with_cursor params c) d)).
Proof. done. Qed.

Lemma item_document params today d x : ri_document (item_of (B:=B) params today d x) = x.
Proof. done. Qed.

(** One page: the matches of the candidates up to some row; the next cursor names
    that row, and starts from exactly what is left. *)
Lemma retention_page_step params today d :
  documents_stored d -> (1 <= rp_limit params)%Z ->
  let page := retention_page (B:=B) params today d in
  let all := retention_candidates params d in
  (rpg_next_cursor page = None /\ rpg_documents page = retention_items params today d) \/
  (exists k x, all !! k = Some x /\ rpg_next_cursor page = Some (cursor_for (doc_id x)) /\
     rpg_documents page = filter (fun i => _matches i params = true) (map (item_of (B:=B) params today d) (take (S k) all))).
Proof.
  intros Hd Hl page all. subst page. unfold retention_page. fold all. assert (1 <= _MAX_SCAN)%nat as Hmax by (unfold _MAX_SCAN; lia).
  set (item := item_of (B:=B) params today d). generalize dependent _MAX_SCAN. intros scan Hscan.
  set (matches := filter (fun i => _matches i params = true) (map item (firstn scan all))).
  set (limit := Z.to_nat (rp_limit params)). assert (1 <= limit)%nat as Hlim by lia. destruct (Nat.ltb_spec limit (length matches)) as [Hlt|Hge].
  - right. destruct (lookup_lt_is_Some_2 matches (limit - 1)) as [i Hi]; [lia|].
    destruct (filter_prefix _ _ _ _ Hi) as (k & Hk & Htake). rewrite list_lookup_fmap in Hk.
    destruct (take scan all !! k) as [x|] eqn:Hx; [|done]. injection Hk as <-. apply lookup_take_Some in Hx as [Hx Hks].
    exists k, x. cbn [rpg_next_cursor rpg_documents]. split; [done|]. split.
    + rewrite nth_error_lookup_at, Hi. done.
    + replace limit with (S (limit - 1)) by lia. unfold matches. rewrite Htake. rewrite <-fmap_take, take_take. do 3 f_equal. lia.
  - cbn [rpg_next_cursor rpg_documents]. destruct (Nat.ltb_spec scan (length all)) as [Hs|Hs].
    + right. destruct (lookup_lt_is_Some_2 all (scan - 1)) as [x Hx]; [lia|]. exists (scan - 1)%nat, x. split; [done|]. split.
      * assert (last (take scan all) = Some x) as ->; [|done]. rewrite last_lookup, length_take, lookup_take by lia.
        rewrite decide_True by lia. rewrite <-Hx. f_equal. lia.
      * unfold matches. by replace (S (scan - 1)) with scan by lia.
    + left. split; [done|]. unfold matches, retention_items. by rewrite take_ge.
Qed.
End pages.

(** C30 Following [next_cursor] ends and lists every matching document once, in the
    order of their identifiers: the pages put together are all the matches of
    the day, whatever the page size, and although a page scans no more than
    5000 documents and may come back short or empty. *)
Theorem walk_retention_complete {B} `{!External B, !Heap, !Signer, !SignerLaws} (params : RetentionParams) today d (fuel : nat) :
  documents_stored d -> (1 <= rp_limit params)%Z -> (length (retention_candidates params d) < fuel)%nat ->
  walk_retention (B:=B) fuel params today d = Some (retention_items (B:=B) params today d) /\
  NoDup (map (fun i => doc_id (ri_document i)) (retention_items (B:=B) params today d)) /\
  (forall x, retention_filter params x = true -> (exists i, documents d !! i = Some x) ->
   _matches (item_of (B:=B) params today d x) params = true -> item_of (B:=B) params today d x ∈ retention_items (B:=B) params today d).
Proof.
  intros Hd Hl Hfuel. split_and!.
  - revert params Hl Hfuel. induction fuel as [|fuel IH]; intros params Hl Hfuel; [lia|]. cbn [walk_retention].
    destruct (retention_page_step (B:=B) params today d Hd Hl) as [[-> ->]|(k & x & Hx & -> & ->)]; [done|].
    assert (x ∈ rows (documents d)) as Hin.
    { apply list_elem_of_lookup_2 in Hx. unfold retention_candidates in Hx. rewrite sort_by_perm in Hx.
      apply elem_of_select in Hx as [_ Hx]. by apply elem_of_rows. }
    rewrite (read_cursor x d Hd Hin). pose proof (candidates_after params d k x Hd Hx) as Hrest.
    rewrite IH; [|done|].
    + cbn [option_map]. f_equal. rewrite items_cursor, Hrest. unfold retention_items. rewrite <-filter_app, <-map_app. by rewrite take_drop.
    + rewrite Hrest, length_drop. apply lookup_lt_Some in Hx. lia.
  - unfold retention_items. set (l := retention_candidates params d).
    assert (StronglySorted (id_lt doc_id) l) as Hs by (by apply candidates_sorted). clearbody l. clear Hfuel.
    induction Hs as [|x l Hs IH Hx]; cbn [map]; [constructor|]. rewrite filter_cons. case_decide; [|done]. cbn [map]. constructor; [|done].
    rewrite Forall_forall in Hx. unfold id_lt in Hx. rewrite list_elem_of_fmap. intros (i & Hi & Hin).
    apply list_elem_of_filter in Hin as [_ (y & -> & Hy)%list_elem_of_fmap]. specialize (Hx y Hy). rewrite !item_document in Hi. lia.
  - intros x Hf Hx Hm. unfold retention_items. apply list_elem_of_filter. split; [done|]. apply list_elem_of_fmap. exists x.
    split; [done|]. unfold retention_candidates. rewrite sort_by_perm. by apply elem_of_select.
Qed.
