(* ===== verification/Deletion.v ===== *)
(** * Deletion of documents (retention/deletion.py, retention/models.py)

    An administrator asks for the deletion of the document they previewed; the
    operation enumerates what will go, a job deletes the objects one by one, each
    a checkpoint, and then the rows in one transaction.  Whatever goes wrong is
    recorded on the operation, which can be resumed.  The protected foreign keys
    are the database's: deleting a row that another refers to raises
    [ProtectedError].  Counters are not modelled. *)

From Stdlib Require Import ZArith Ascii String Lia.
From stdpp Require Import base decidable list gmap strings.
From S2P Require Import Prelude PyStr Sha256 PyVal Models AuditTrail Identity Companies JobPolicies JobEngine Tables Artifacts Retention.

Local Open Scope string_scope.

(** ** Refusals: the class is told by its [code] *)

Definition DeletionAccessDenied (msg : string) : exn := DeletionError "access_denied" msg.
Definition DeletionNotFound (msg : string) : exn := DeletionError "not_found" msg.
Definition DeletionInvalid (msg : string) : exn := DeletionError "invalid_request" msg.
Definition DeletionStaleScope (msg : string) : exn := DeletionError "scope_changed" msg.
Definition DeletionConflict (msg : string) : exn := DeletionError "operation_active" msg.
Definition DeletionAuditFailure (msg : string) : exn := DeletionError "audit_unavailable" msg.

Definition SCOPE_VERSION : string := "scope-v1".
Definition DELETION_JOB_TYPE : string := "retention.delete".

(** [_SAFE_CODE.fullmatch] *)
Definition _SAFE_CODE (s : string) : bool := re_head is_lower (fun c => is_lower c || is_digit c || char_in "_.-" c) 0 63 s.

(** [DeletionNotEligible(code)] *)
Definition not_eligible (code : string) : exn := DeletionNotEligible (if _SAFE_CODE code then code else "not_eligible").

Definition active_operation_state (s : DeletionOperationState.t) : bool :=
  match s with
  | DeletionOperationState.PENDING | DeletionOperationState.EXECUTING | DeletionOperationState.RECOVERY_REQUIRED => true
  | _ => false
  end.

Record DeletionRequestResult : Type := MkDeletionRequestResult { dr_operation : DeletionOperation; dr_duplicate : bool }.

Definition confirmation_for (document_id : N) (scope_hash_value : string) : string :=
  "EXCLUIR:" ++ uuid_str document_id ++ ":" ++ scope_hash_value.

Definition _scope_hash (value : pyval) : result exn string :=
  match value with
  | VStr s => if is_hex64 s then Ok s else Err (DeletionInvalid "scope_hash is invalid")
  | _ => Err (DeletionInvalid "scope_hash is invalid")
  end.

Definition _reason (value : pyval) : result exn string :=
  match value with
  | VStr s => let normalized := strip s in
              if Z.leb 1 (slen normalized) && Z.leb (slen normalized) 1000 then Ok normalized else Err (DeletionInvalid "reason is invalid")
  | _ => Err (DeletionInvalid "reason is invalid")
  end.

Definition _actor_uuid (actor : SessionIdentity) : result exn N :=
  match parse_uuid (si_user_id actor) with
  | Some u => Ok u
  | None => Err (DeletionAccessDenied "session is invalid")
  end.

(** ** Rows *)

(** nfx_delete_active_target_uq *)
Definition operation_conflict (o : DeletionOperation) (d : DB) : bool :=
  active_operation_state (op_state o) &&
  exists_row (fun x => negb (N.eqb (op_id x) (op_id o)) && N.eqb (op_target_document_id x) (op_target_document_id o) &&
                       active_operation_state (op_state x)) (deletions d).

Definition operation_check (o : DeletionOperation) : bool :=
  is_hex64 (op_scope_hash o) && String.eqb (op_scope_version o) SCOPE_VERSION && str_nonempty (op_reason o).

Definition operation_fits (o : DeletionOperation) : bool :=
  width 64 (op_scope_hash o) && width 32 (op_scope_version o) && width 1000 (op_reason o) && width 128 (op_correlation_id o) &&
  width 32 (op_current_step o) && width 64 (op_safe_error o) && width 64 (op_result_code o).

Definition item_check (i : DeletionItem) : bool :=
  match di_expected_size_bytes i with Some n => Z.leb 0 n | None => true end &&
  match di_expected_version i with Some n => Z.ltb 0 n | None => true end &&
  (negb (str_nonempty (di_digest_prefix i)) || re_rep is_lower_hex 16 16 (di_digest_prefix i)).

(** nfx_delete_item_target_uq *)
Definition item_taken (i : DeletionItem) (d : DB) : bool :=
  exists_row (fun x => N.eqb (di_operation x) (di_operation i) && bool_decide (di_kind x = di_kind i) &&
                       N.eqb (di_target_id x) (di_target_id i)) (deletion_items d).

Definition items_of (operation : N) (d : DB) : list DeletionItem := select (fun i => N.eqb (di_operation i) operation) (deletion_items d).

Definition is_artifact_item (i : DeletionItem) : bool := match di_kind i with DeletionItemKind.ARTIFACT => true | _ => false end.
Definition item_completed (i : DeletionItem) : bool := match di_state i with DeletionItemState.COMPLETED => true | _ => false end.

Definition new_operation (id : N) (now : Z) (document actor : N) (hash reason correlation : string) : DeletionOperation :=
  MkDeletionOperation id document (Some actor) None hash SCOPE_VERSION reason correlation DeletionOperationState.PENDING "requested"
    [("scope_version", VStr SCOPE_VERSION)] "" "" now None None now.

Definition new_item (id : N) (now : Z) (operation : N) (kind : DeletionItemKind.t) (target : N) (artifact : option Artifact) : DeletionItem :=
  MkDeletionItem id operation kind target (option_map art_id artifact)
    match artifact with Some a => stake 16 (art_digest a) | None => "" end
    match artifact with Some a => art_size_bytes a | None => None end (option_map art_version artifact)
    DeletionItemState.PENDING 0 "" now now None.

(** What [_enumerate_items] goes through, in its order: the artifacts last, once
    each, ordered by identifier. *)
Definition loaded_artifacts (document : LoadedDocument) : list Artifact :=
  map snd (ld_evidence document) ++ concat (map (fun e => map snd e.2) (ld_events document)) ++
  concat (map (fun r => r.1.2 :: match r.2 with Some a => [a] | None => [] end) (ld_renders document)).

Definition artifact_by_id (document : LoadedDocument) : gmap N Artifact :=
  list_to_map (map (fun a => (art_id a, a)) (loaded_artifacts document)).

Definition deletion_set (document : LoadedDocument) : list (DeletionItemKind.t * N * option Artifact) :=
  [(DeletionItemKind.DOCUMENT, doc_id (ld_document document), None)] ++
  map (fun r => (DeletionItemKind.EVIDENCE, ev_id r.1, Some r.2)) (ld_evidence document) ++
  concat (map (fun e => (DeletionItemKind.EVENT, de_id e.1, None) ::
                        map (fun r => (DeletionItemKind.EVENT_EVIDENCE, dee_id r.1, Some r.2)) e.2) (ld_events document)) ++
  map (fun r => (DeletionItemKind.RENDER, rn_id r.1.1, None)) (ld_renders document) ++
  map (fun a => (DeletionItemKind.ARTIFACT, art_id a, Some a)) (sort_by (id_le art_id) (rows (artifact_by_id document))).

(** ** The protected foreign keys *)

(** A row of another table that refers to the event, the document. *)
Definition event_protected (id : N) (d : DB) : bool :=
  exists_row (fun u => bool_decide (un_event u = Some id)) (units d) ||
  exists_row (fun e => N.eqb (dee_event e) id) (event_evidence d).

Definition document_protected (id : N) (d : DB) : bool :=
  exists_row (fun u => bool_decide (un_document u = Some id)) (units d) ||
  exists_row (fun e => N.eqb (ev_document e) id) (evidence d) ||
  exists_row (fun r => N.eqb (rn_document r) id) (renders d) ||
  exists_row (fun e => N.eqb (de_parent_document e) id) (events d) ||
  exists_row (fun x => bool_decide (mf_document x = Some id)) (manifestations d) ||
  exists_row (fun x => bool_decide (xi_document x = Some id)) (export_items d).

(** [QuerySet.delete] *)
Definition delete_where {R} (p : R -> bool) (t : gmap N R) : gmap N R := filter (fun kv => p kv.2 = false) t.

(** An event of the document that is attached to it by its parent. *)
Definition event_of (document : N) (d : DB) (e : DocumentEventEvidence) : bool :=
  match events d !! dee_event e with Some x => N.eqb (de_parent_document x) document | None => false end.

Section service.
Context {B : Type} `{!External B, !Heap}.

(** [UUID(str(document_id))] with its [except] clause, and the document with all
    it refers to. *)
Definition _load_document (document_id : N) : M B LoadedDocument :=
  let* row := query (fun d => option_map (load_unordered d) (documents d !! document_id)) in
  of_option row (DeletionNotFound "document is unavailable").

(** The actor's present role is read through the foreign key. *)
Definition _audit (operation : DeletionOperation) (result action code : string) : M B unit :=
  let* role :=
    match op_actor operation with
    | Some actor => let* row := autocommit (query (fun d => users d !! actor)) in
                    let* user := of_option row DoesNotExist in ret (Role.value (us_role user))
    | None => ret ""
    end in
  try_except
    (append (MkAuditInput action "document" result (option_map RefUuid (op_actor operation)) role None
               (uuid_str (op_target_document_id operation)) (op_reason operation) (op_correlation_id operation)
               [("operation_id", VStr (uuid_str (op_id operation))); ("scope_version", VStr (op_scope_version operation));
                ("scope_hash_prefix", VStr (stake 16 (op_scope_hash operation))); ("step", VStr (op_current_step operation));
                ("code", VStr code)]) ;;; ret tt)
    (fun e => match e with AuditUnavailable => throw (DeletionAuditFailure "audit is unavailable") | _ => throw e end).

Definition get_operation (id : N) : M B DeletionOperation :=
  let* row := query (fun d => deletions d !! id) in
  of_option row DoesNotExist.

(** [save], with the constraints it may meet. *)
Definition save_operation (o : DeletionOperation) : M B unit :=
  require (operation_fits o) DataError ;;;
  let* taken := query (operation_conflict o) in
  require (negb taken && operation_check o) IntegrityError ;;;
  write (fun d => d <| deletions ::= put (op_id o) o |>).

Definition _append_item (operation : N) (kind : DeletionItemKind.t) (target : N) (artifact : option Artifact) : M B unit :=
  let* id := uuid4 in
  let* now := timezone_now in
  let item := new_item id now operation kind target artifact in
  require (match di_expected_version item with Some v => positive_integer v | None => true end) DataError ;;;
  let* taken := query (item_taken item) in
  require (negb taken && item_check item) IntegrityError ;;;
  write (fun d => d <| deletion_items ::= put id item |>).

(** The number of items created. *)
Definition _enumerate_items (operation : N) (document : LoadedDocument) : M B Z :=
  for_each (deletion_set document) (fun t => _append_item operation t.1.1 t.1.2 t.2) ;;;
  ret (Z.of_nat (length (deletion_set document))).

(** [get_or_create] of version 1, in force since 2020. *)
Definition POLICY_START : Z := (days (day_of_civil 2020 1 1))%Z.

Definition deletion_policy_row (id : N) (now : Z) : JobPolicy :=
  MkJobPolicy id "retention" "deletion" 1 POLICY_START None 3 1 60 0 0 now now.

Definition of_deletion_policy (p : JobPolicy) : bool :=
  String.eqb (pol_source_scope p) "retention" && String.eqb (pol_flow_scope p) "deletion" && Z.eqb (pol_version p) 1.

Definition _deletion_policy (at_ : Z) : M B JobPolicy :=
  let* existing := query (fun d => first_by (by_key (fun p => Z.of_N (pol_id p))) (select of_deletion_policy (policies d))) in
  let* policy :=
    match existing with
    | Some p => ret p
    | None =>
        let* id := uuid4 in
        let* now := timezone_now in
        let policy := deletion_policy_row id now in
        save_policy policy ;;;
        ret policy
    end in
  require (Z.leb (pol_valid_from policy) at_) (DeletionError "deletion_error" "deletion policy is unavailable") ;;;
  ret policy.

Definition deletion_job (operation : DeletionOperation) (key : string) (policy : JobPolicy) : Enqueue :=
  MkEnqueue DELETION_JOB_TYPE ("document:" ++ uuid_str (op_target_document_id operation))
    [("operation_id", VStr (uuid_str (op_id operation)))] key 0 None (Some policy) None None.

(** [Job.objects.filter(id=operation.job_id, state__in=...).first()] *)
Definition active_job_of (operation : DeletionOperation) (d : DB) : option Job :=
  match op_job operation with
  | Some j => match jobs d !! j with
              | Some job => if active_state (job_state job) then Some job else None
              | None => None
              end
  | None => None
  end.

(** [_enqueue]: the operation as it stands afterwards. *)
Definition _enqueue (operation : DeletionOperation) (resume : bool) : M B DeletionOperation :=
  let* current := timezone_now in
  let* active_job := query (active_job_of operation) in
  match active_job with
  | Some job => ret operation
  | None =>
      let key := "deletion:" ++ uuid_str (op_id operation) in
      let* key := if resume then let* u := uuid4 in ret (key ++ ":resume:" ++ uuid_hex u) else ret key in
      let* policy := _deletion_policy current in
      let* job := enqueue (deletion_job operation key policy) in
      let* now := timezone_now in
      let operation := operation <| op_job := Some (job_id job) |> <| op_updated_at := now |> in
      save_operation operation ;;;
      ret operation
  end.

(** ** Requesting *)

Definition active_for (document : N) (o : DeletionOperation) : bool :=
  N.eqb (op_target_document_id o) document && active_operation_state (op_state o).

Definition is_eligible (decision : RetentionDecision) : bool :=
  match rd_state decision with RetentionState.ELIGIBLE => true | _ => false end.

(** The [create] with its items, the audit event and the job. *)
Definition create_operation (document : LoadedDocument) (actor : N) (reason correlation : string) : M B DeletionOperation :=
  let* id := uuid4 in
  let* now := timezone_now in
  let operation := new_operation id now (doc_id (ld_document document)) actor (scope_hash document) reason correlation in
  save_operation operation ;;;
  let* count := _enumerate_items id document in
  let* artifact_items := query (fun d => length (List.filter is_artifact_item (items_of id d))) in
  let* now := timezone_now in
  let operation := operation
    <| op_checkpoint := [("total_items", VInt count); ("artifact_items", VInt (Z.of_nat artifact_items))] |>
    <| op_updated_at := now |> in
  save_operation operation ;;;
  _audit operation "requested" "document.delete" "" ;;;
  _enqueue operation false.

Definition request_locked (document_id actor : N) (requested_hash confirmation reason correlation : string) :
    M B DeletionRequestResult :=
  let* locked_document := query (fun d => documents d !! document_id) in
  require (is_some locked_document) (DeletionNotFound "document is unavailable") ;;;
  let* current_document := _load_document document_id in
  let current_hash := scope_hash current_document in
  require (String.eqb current_hash requested_hash) (DeletionStaleScope "preview scope changed") ;;;
  require (String.eqb confirmation (confirmation_for document_id current_hash)) (DeletionInvalid "confirmation is invalid") ;;;
  let* existing := query (fun d => first_where (fun o => Z.of_N (op_id o)) (active_for document_id) (deletions d)) in
  match existing with
  | Some o =>
      require (String.eqb (op_scope_hash o) requested_hash) (DeletionConflict "another deletion is active") ;;;
      ret (MkDeletionRequestResult o true)
  | None =>
      let* today := localdate in
      let decision := decision_for_document (B:=B) current_document None today in
      require (is_eligible decision) (not_eligible (rd_reason_code decision)) ;;;
      let* operation := create_operation current_document actor reason correlation in
      ret (MkDeletionRequestResult operation false)
  end.

(** [for attempt in range(2)] around the transaction. *)
Fixpoint request_tries {A} (tries : nat) (m : M B A) : M B A :=
  match tries with
  | O => throw (DeletionConflict "another deletion is active")
  | S n => try_except (atomic m) (fun e => match e with IntegrityError => request_tries n m | _ => throw e end)
  end.

Definition deletion_correlation (document_id : N) (requested_hash : string) : string :=
  stake 32 (sha256 ("deletion:" ++ uuid_str document_id ++ ":" ++ requested_hash)).

Definition administrator (actor : SessionIdentity) : bool := String.eqb (si_role actor) (Role.value Role.ADMINISTRATOR).

Definition request_deletion (actor : SessionIdentity) (document_id : uuid_ref)
    (scope_hash_value scope_version confirmation reason : pyval) : M B DeletionRequestResult :=
  require (administrator actor) (DeletionAccessDenied "administrator access required") ;;;
  let* document_uuid := of_option (uuid_of document_id) (ValueError "badly formed hexadecimal UUID string") in
  let* requested_hash := lift_result (_scope_hash scope_hash_value) in
  require (match scope_version with VStr s => String.eqb s SCOPE_VERSION | _ => false end)
    (DeletionInvalid "scope_version is invalid") ;;;
  let* normalized_reason := lift_result (_reason reason) in
  let* confirmation := match confirmation with VStr s => ret s | _ => throw (DeletionInvalid "confirmation is invalid") end in
  let* actor_uuid := lift_result (_actor_uuid actor) in
  request_tries 2
    (request_locked document_uuid actor_uuid requested_hash confirmation normalized_reason
       (deletion_correlation document_uuid requested_hash)).

(** ** Resuming *)

Definition resumed (now : Z) (o : DeletionOperation) : DeletionOperation :=
  o <| op_state := DeletionOperationState.PENDING |> <| op_safe_error := "" |> <| op_current_step := "resume_requested" |>
    <| op_updated_at := now |>.

Definition completed_operation (o : DeletionOperation) : bool :=
  match op_state o with DeletionOperationState.COMPLETED => true | _ => false end.

(** The operation, and whether it was already completed. *)
Definition resume_locked (id : N) : M B (DeletionOperation * bool) :=
  let* row := query (fun d => deletions d !! id) in
  let* operation := of_option row (DeletionNotFound "operation is unavailable") in
  if completed_operation operation then ret (operation, true) else
    let* now := timezone_now in
    let operation := resumed now operation in
    save_operation operation ;;;
    _audit operation "recovery_requested" "document.delete" "" ;;;
    let* operation := _enqueue operation true in
    ret (operation, false).

Definition resume_deletion (actor : SessionIdentity) (operation_id : uuid_ref) : M B DeletionOperation :=
  require (administrator actor) (DeletionAccessDenied "administrator access required") ;;;
  let* id := of_option (uuid_of operation_id) (DeletionNotFound "operation is unavailable") in
  let* '(operation, completed) := atomic (resume_locked id) in
  if completed then ret operation else autocommit (get_operation id).

(** ** Executing *)

Definition recovery (s : DeletionOperationState.t) : bool :=
  match s with DeletionOperationState.RECOVERY_REQUIRED => true | _ => false end.

Definition marked_item (state : DeletionOperationState.t) (code : string) (now : Z) (i : DeletionItem) : DeletionItem :=
  i <| di_state := if recovery state then DeletionItemState.RECOVERY_REQUIRED else DeletionItemState.FAILED |>
    <| di_safe_error := code |> <| di_updated_at := now |>.

Definition marked (state : DeletionOperationState.t) (code : string) (now : Z) (o : DeletionOperation) : DeletionOperation :=
  o <| op_state := state |> <| op_current_step := if recovery state then "recovery" else "failed" |> <| op_safe_error := code |>
    <| op_result_code := if recovery state then "recovery_required" else "failed" |> <| op_updated_at := now |>.

Definition is_audit_failure (e : exn) : bool :=
  match e with DeletionError code _ => String.eqb code "audit_unavailable" | _ => false end.

(** The [update] of one item. *)
Definition update_item (id : N) (f : DeletionItem -> DeletionItem) : M B unit :=
  write (fun d => d <| deletion_items ::= alter f id |>).

Definition _mark_outcome (operation_id : N) (state : DeletionOperationState.t) (code : string) (item_id : option N) :
    M B DeletionOperation :=
  let* current := timezone_now in
  let* operation :=
    atomic (
      match item_id with
      | Some i => require (width 64 code) DataError ;;; update_item i (marked_item state code current)
      | None => ret tt
      end ;;;
      let* operation := get_operation operation_id in
      let* now := timezone_now in
      save_operation (marked state code now operation) ;;;
      ret (marked state code now operation)) in
  try_except (_audit operation (DeletionOperationState.value state) "document.delete" code)
    (fun e => if is_audit_failure e then ret tt else throw e) ;;;
  ret operation.

Definition claimed_item (now : Z) (i : DeletionItem) : DeletionItem :=
  i <| di_state := DeletionItemState.RUNNING |> <| di_attempts := (di_attempts i + 1)%Z |> <| di_updated_at := now |>.

Definition get_item (id : N) : M B DeletionItem :=
  let* row := query (fun d => deletion_items d !! id) in of_option row DoesNotExist.

Definition _claim_item (item_id : N) : M B (option DeletionItem) :=
  let* claimed :=
    atomic (
      let* row := query (fun d => deletion_items d !! item_id) in
      match row with
      | Some item =>
          if item_completed item then ret false else
            let* now := timezone_now in
            require (positive_integer (di_attempts item + 1)) DataError ;;;
            update_item item_id (claimed_item now) ;;;
            ret true
      | None => ret false
      end) in
  if claimed then let* item := autocommit (get_item item_id) in ret (Some item) else ret None.

Definition completed_item (now : Z) (i : DeletionItem) : DeletionItem :=
  i <| di_state := DeletionItemState.COMPLETED |> <| di_safe_error := "" |> <| di_completed_at := Some now |>
    <| di_updated_at := now |>.

(** What the [except] clauses record of a failed object deletion. *)
Definition artifact_problem (e : exn) : option string :=
  match e with
  | ArtifactDeletionMissing => Some "artifact_missing"
  | ArtifactDeletionDivergent => Some "artifact_divergent"
  | ArtifactDeletionFailed => Some "storage_delete_failed"
  | _ => None
  end.

Definition _process_artifact (operation : DeletionOperation) (item : DeletionItem) : M B (option DeletionOperation) :=
  let* row := _claim_item (di_id item) in
  match row with
  | None => ret None
  | Some claimed =>
      match di_artifact_id claimed, di_expected_size_bytes claimed, di_expected_version claimed with
      | Some artifact, Some size, Some version =>
          let* problem :=
            try_except (delete_for_deletion artifact (di_digest_prefix claimed) size version ;;; ret None)
              (fun e => match artifact_problem e with Some code => ret (Some code) | None => throw e end) in
          match problem with
          | Some code =>
              let* o := _mark_outcome (op_id operation) DeletionOperationState.RECOVERY_REQUIRED code (Some (di_id claimed)) in
              ret (Some o)
          | None =>
              let* now := timezone_now in
              atomic (update_item (di_id claimed) (completed_item now)) ;;;
              ret None
          end
      | _, _, _ =>
          let* o := _mark_outcome (op_id operation) DeletionOperationState.RECOVERY_REQUIRED "artifact_metadata_missing"
                      (Some (di_id claimed)) in
          ret (Some o)
      end
  end.

(** ** The relational part *)

(** The [update]s that let go of the document, its events and its artifacts. *)
Definition detach_units (document : N) (event_ids artifact_ids : list N) (u : ReceivedUnit) : ReceivedUnit :=
  let cleared {A} (p : A -> bool) (o : option A) := match o with Some x => if p x then None else o | None => None end in
  u <| un_document ::= cleared (N.eqb document) |> <| un_event ::= cleared (fun e => bool_decide (e ∈ event_ids)) |>
    <| un_artifact ::= cleared (fun a => bool_decide (a ∈ artifact_ids)) |>.

Definition refers_to (o : option N) (document : N) : bool := bool_decide (o = Some document).

Definition excluded (now : Z) (x : ExportItem) : ExportItem :=
  x <| xi_document := None |> <| xi_artifact := None |> <| xi_state := ExportItemState.EXCLUDED |>
    <| xi_safe_error := "document_deleted" |> <| xi_updated_at := now |>.

Definition detach (document : N) (event_ids artifact_ids : list N) (now : Z) (d : DB) : DB :=
  d <| units ::= fmap (detach_units document event_ids artifact_ids) |>
    <| manifestations ::= update_where (fun m => refers_to (mf_document m) document) (fun m => m <| mf_document := None |>) |>
    <| export_items ::= update_where (fun x => refers_to (xi_document x) document) (excluded now) |>
    <| event_evidence ::= delete_where (event_of document d) |>
    <| evidence ::= delete_where (fun e => N.eqb (ev_document e) document) |>
    <| renders ::= delete_where (fun r => N.eqb (rn_document r) document) |>.

(** [DocumentEvent.objects.filter(parent_document_id=...).delete()] *)
Definition delete_events (document : N) : M B unit :=
  let* blocked := query (fun d => existsb (fun e => event_protected (de_id e) d) (events_of document d)) in
  require (negb blocked) ProtectedError ;;;
  write (fun d => d <| events ::= delete_where (fun e => N.eqb (de_parent_document e) document) |>).

(** [Document.objects.filter(pk=...).delete()], and the check of its count. *)
Definition delete_document (document : N) : M B unit :=
  let* row := query (fun d => documents d !! document) in
  require (is_some row) (DeletionError "deletion_error" "document is unavailable") ;;;
  let* blocked := query (document_protected document) in
  require (negb blocked) ProtectedError ;;;
  write (fun d => d <| documents ::= base.delete document |>).

(** [Artifact.objects.filter(pk=artifact_id).delete()] *)
Definition delete_artifact (artifact : N) : M B unit :=
  let* blocked := query (fun d => is_some (artifacts d !! artifact) && artifact_referenced artifact d) in
  require (negb blocked) ProtectedError ;;;
  write (fun d => d <| artifacts ::= base.delete artifact |>).

Definition event_ids_of (items : list DeletionItem) : list N :=
  omap (fun i => match di_kind i with DeletionItemKind.EVENT => Some (di_target_id i) | _ => None end) items.

(** A set in the source. *)
Definition artifact_ids_of (items : list DeletionItem) : list N :=
  remove_dups (omap (fun i => if is_artifact_item i then di_artifact_id i else None) items).

Definition incomplete (i : DeletionItem) : bool := is_artifact_item i && negb (item_completed i).

Definition completed (items artifact_ids : nat) (now : Z) (o : DeletionOperation) : DeletionOperation :=
  o <| op_state := DeletionOperationState.COMPLETED |> <| op_current_step := "completed" |> <| op_safe_error := "" |>
    <| op_result_code := "completed" |> <| op_completed_at := Some now |>
    <| op_checkpoint := [("total_items", VInt (Z.of_nat items)); ("completed_items", VInt (Z.of_nat items));
                         ("artifact_items", VInt (Z.of_nat artifact_ids))] |>
    <| op_updated_at := now |>.

Definition finalize_locked (operation_id : N) : M B DeletionOperation :=
  let* operation := get_operation operation_id in
  let* items := query (items_of operation_id) in
  require (negb (existsb incomplete items)) (DeletionError "deletion_error" "deletion checkpoints are incomplete") ;;;
  let document := op_target_document_id operation in
  let artifact_ids := artifact_ids_of items in
  let* now := timezone_now in
  write (detach document (event_ids_of items) artifact_ids now) ;;;
  delete_events document ;;;
  delete_document document ;;;
  for_each artifact_ids delete_artifact ;;;
  let* now := timezone_now in
  write (fun d => d <| deletion_items ::= update_where (fun i => N.eqb (di_operation i) operation_id) (completed_item now) |>) ;;;
  let operation := completed (length items) (length artifact_ids) now operation in
  save_operation operation ;;;
  _audit operation "completed" "document.delete" "completed" ;;;
  ret operation.

Definition _finalize_relational (operation_id : N) : M B DeletionOperation := atomic (finalize_locked operation_id).

(** ** The execution *)

Definition executing (now : Z) (o : DeletionOperation) : DeletionOperation :=
  o <| op_state := DeletionOperationState.EXECUTING |> <| op_started_at := Some (opt_default now (op_started_at o)) |>
    <| op_current_step := "revalidate" |> <| op_updated_at := now |>.

(** The first block: the operation, and whether it was already completed. *)
Definition begin_execution (id : N) : M B (DeletionOperation * bool) :=
  atomic (
    let* row := query (fun d => deletions d !! id) in
    let* operation := of_option row (DeletionNotFound "operation is unavailable") in
    if completed_operation operation then ret (operation, true) else
      let* now := timezone_now in
      save_operation (executing now operation) ;;;
      ret (executing now operation, false)).

Definition at_artifact (now : Z) (o : DeletionOperation) : DeletionOperation :=
  o <| op_current_step := "artifact" |> <| op_updated_at := now |>.

(** The loop over the items, then the relational part. *)
Fixpoint process_items (id : N) (items : list DeletionItem) : M B DeletionOperation :=
  match items with
  | [] => _finalize_relational id
  | item :: rest =>
      if negb (is_artifact_item item) then process_items id rest else
        let* now := timezone_now in
        atomic (write (fun d => d <| deletions ::= alter (at_artifact now) id |>)) ;;;
        let* operation := autocommit (get_operation id) in
        let* outcome := _process_artifact operation item in
        match outcome with Some o => ret o | None => process_items id rest end
  end.

Definition ordered_items (id : N) (d : DB) : list DeletionItem := sort_by (by_time di_created_at di_id) (items_of id d).

(** The body of the [try]. *)
Definition execute_body (operation : DeletionOperation) : M B DeletionOperation :=
  let id := op_id operation in
  let* document := autocommit (_load_document (op_target_document_id operation)) in
  if negb (String.eqb (scope_hash document) (op_scope_hash operation)) then
    _mark_outcome id DeletionOperationState.FAILED "scope_changed" None
  else
    let* today := localdate in
    let decision := decision_for_document (B:=B) document None today in
    if negb (is_eligible decision) then _mark_outcome id DeletionOperationState.FAILED (rd_reason_code decision) None
    else
      let* items := autocommit (query (ordered_items id)) in
      process_items id items.

(** Its [except] clauses. *)
Definition execution_failure (e : exn) : DeletionOperationState.t * string :=
  match e with
  | ProtectedError | DeletionNotEligible _ => (DeletionOperationState.RECOVERY_REQUIRED, "relational_cleanup_blocked")
  | DeletionError _ _ =>
      (DeletionOperationState.RECOVERY_REQUIRED, if is_audit_failure e then "audit_unavailable" else "relational_cleanup_blocked")
  | _ => (DeletionOperationState.FAILED, "deletion_failed")
  end.

Definition execute_deletion (operation_id : uuid_ref) : M B DeletionOperation :=
  let* id := of_option (uuid_of operation_id) (DeletionNotFound "operation is unavailable") in
  let* '(operation, completed) := begin_execution id in
  if completed then ret operation else
    try_except (execute_body operation)
      (fun e => _mark_outcome id (execution_failure e).1 (execution_failure e).2 None).

(** ** The job handler *)

Definition handler_result_of (o : DeletionOperation) : pydict :=
  [("operation_id", VStr (uuid_str (op_id o))); ("state", VStr (DeletionOperationState.value (op_state o)))].

Definition deletion_outcome (o : DeletionOperation) : HandlerOutcome :=
  match op_state o with
  | DeletionOperationState.COMPLETED => outcome_success (handler_result_of o ++ [("result_code", VStr (op_result_code o))])%list
  | DeletionOperationState.RECOVERY_REQUIRED => outcome_partial (str_or (op_safe_error o) "recovery_required") (handler_result_of o)
  | _ => outcome_permanent (str_or (op_safe_error o) "deletion_failed") (handler_result_of o)
  end.

Definition execute_outcome (operation_id : string) : M B HandlerOutcome :=
  try_except (let* operation := execute_deletion (RefStr operation_id) in ret (deletion_outcome operation))
    (fun e => match e with
              | DeletionError code _ => if String.eqb code "not_found" then ret (outcome_permanent "operation_missing" []) else throw e
              | _ => throw e
              end).

Definition deletion_handler (job : Job) : M B handler_result :=
  match job_payload job with
  | VDict payload =>
      match assoc "operation_id" payload with
      | Some (VStr operation_id) => let* outcome := execute_outcome operation_id in ret (Outcome outcome)
      | _ => ret (Outcome (outcome_permanent "invalid_operation" []))
      end
  | _ => throw TypeError
  end.

Definition ensure_deletion_handler (r : registry B) : result exn (registry B) :=
  register_handler DELETION_JOB_TYPE deletion_handler r.

(** ** The payload *)

(** [x or None] *)
Definition vstr_or_none (s : string) : pyval := if str_nonempty s then VStr s else VNone.

Definition item_payload (i : DeletionItem) : pyval :=
  VDict [("id", VStr (uuid_str (di_id i))); ("kind", VStr (DeletionItemKind.value (di_kind i)));
         ("target_id", VStr (uuid_str (di_target_id i))); ("artifact_id", vstr_opt (option_map uuid_str (di_artifact_id i)));
         ("digest_prefix", vstr_or_none (di_digest_prefix i)); ("size_bytes", vint_opt (di_expected_size_bytes i));
         ("version", vint_opt (di_expected_version i)); ("state", VStr (DeletionItemState.value (di_state i)));
         ("attempts", VInt (di_attempts i)); ("safe_error", vstr_or_none (di_safe_error i))].

Definition vtime_opt (o : option Z) : pyval := vstr_opt (option_map isoformat o).

Definition operation_payload (o : DeletionOperation) : M B pydict :=
  let* items := autocommit (query (ordered_items (op_id o))) in
  ret
    [("id", VStr (uuid_str (op_id o))); ("target_document_id", VStr (uuid_str (op_target_document_id o)));
     ("state", VStr (DeletionOperationState.value (op_state o)));
     ("scope", VDict [("hash", VStr (op_scope_hash o)); ("version", VStr (op_scope_version o))]); ("reason", VStr (op_reason o));
     ("actor_id", vstr_opt (option_map uuid_str (op_actor o))); ("current_step", vstr_or_none (op_current_step o));
     ("safe_error", vstr_or_none (op_safe_error o)); ("result_code", vstr_or_none (op_result_code o));
     ("requested_at", VStr (isoformat (op_requested_at o))); ("started_at", vtime_opt (op_started_at o));
     ("completed_at", vtime_opt (op_completed_at o)); ("checkpoint", VDict (op_checkpoint o));
     ("items", VList (map item_payload items))].

End service.
