(* ===== verification/DeletionFacts.v ===== *)
(** * The life of a deletion operation

    An abstract description of the two tables of a deletion: the steps an
    operation goes through, what the rows promise at any time, and that every
    piece of the service stays within the description. *)

From Stdlib Require Import ZArith Ascii String Lia.
From stdpp Require Import base decidable list gmap strings relations.
From S2P Require Import Prelude PyStr Sha256 PyVal AuditTrail Identity Companies JobPolicies JobEngine JobLifecycle JobGuarantees Tables Artifacts ArtifactFacts Models Retention Deletion.

Local Open Scope string_scope.

(** ** The abstract life cycle *)

Definition is_executing (o : DeletionOperation) : bool :=
  match op_state o with DeletionOperationState.EXECUTING => true | _ => false end.
Definition is_pending_operation (o : DeletionOperation) : bool :=
  match op_state o with DeletionOperationState.PENDING => true | _ => false end.

(** An execution has begun, and has not completed. *)
Definition begun (o : DeletionOperation) : bool :=
  match op_state o with
  | DeletionOperationState.EXECUTING | DeletionOperationState.RECOVERY_REQUIRED | DeletionOperationState.FAILED => true
  | _ => false
  end.

Inductive deletion_step (o : DeletionOperation) : DeletionOperation -> Prop :=
| step_checkpoint c now : is_pending_operation o = true ->
    deletion_step o (o <| op_checkpoint := c |> <| op_updated_at := now |>)
| step_job job now : is_pending_operation o = true ->
    deletion_step o (o <| op_job := Some job |> <| op_updated_at := now |>)
| step_resume now : completed_operation o = false -> deletion_step o (resumed now o)
| step_begin now : completed_operation o = false -> deletion_step o (executing now o)
| step_artifact now : is_executing o = true -> deletion_step o (at_artifact now o)
| step_fail state code now : begun o = true ->
    state = DeletionOperationState.FAILED \/ state = DeletionOperationState.RECOVERY_REQUIRED ->
    deletion_step o (marked state code now o)
| step_complete items artifacts now : is_executing o = true -> deletion_step o (completed items artifacts now o).

(** What an administrator asked for. *)
Definition same_intent (o o' : DeletionOperation) : Prop :=
  op_id o' = op_id o /\ op_target_document_id o' = op_target_document_id o /\ op_actor o' = op_actor o /\
  op_scope_hash o' = op_scope_hash o /\ op_scope_version o' = op_scope_version o /\ op_reason o' = op_reason o /\
  op_correlation_id o' = op_correlation_id o /\ op_requested_at o' = op_requested_at o.

#[export] Instance same_intent_preorder : PreOrder same_intent.
Proof.
  split; [by intros o|]. intros a b c (?&?&?&?&?&?&?&?) (?&?&?&?&?&?&?&?). unfold same_intent. split_and!; congruence.
Qed.

Lemma step_intent o o' : deletion_step o o' -> same_intent o o'.
Proof. by intros []. Qed.

Lemma step_open o o' : deletion_step o o' -> completed_operation o = false.
Proof.
  unfold completed_operation. intros [? ? H|? ? H|? H|? H|? H|? ? ? H _|? ? ? H];
    unfold is_pending_operation, completed_operation, is_executing, begun in H; by destruct (op_state o).
Qed.

Lemma life_intent o o' : rtc deletion_step o o' -> same_intent o o'.
Proof. induction 1; [done|]. etrans; [by eapply step_intent | done]. Qed.

(** A completed operation does not move. *)
Lemma life_final o o' : rtc deletion_step o o' -> completed_operation o = true -> o' = o.
Proof. intros [|x y z Hs _] Hc; [done|]. apply step_open in Hs. congruence. Qed.

Definition same_target (i i' : DeletionItem) : Prop :=
  di_id i' = di_id i /\ di_operation i' = di_operation i /\ di_kind i' = di_kind i /\ di_target_id i' = di_target_id i /\
  di_artifact_id i' = di_artifact_id i /\ di_digest_prefix i' = di_digest_prefix i /\
  di_expected_size_bytes i' = di_expected_size_bytes i /\ di_expected_version i' = di_expected_version i /\
  di_created_at i' = di_created_at i.

#[export] Instance same_target_preorder : PreOrder same_target.
Proof.
  split; [by intros o|]. intros a b c (?&?&?&?&?&?&?&?&?) (?&?&?&?&?&?&?&?&?). unfold same_target. split_and!; congruence.
Qed.

(** ** The tables *)

Definition deletion_tables (d : DB) : gmap N DeletionOperation * gmap N DeletionItem := (deletions d, deletion_items d).

(** What completion promises of the operation's own row. *)
Definition sealed (o : DeletionOperation) : Prop :=
  completed_operation o = true -> is_some (op_completed_at o) = true /\ op_safe_error o = "" /\ op_result_code o = "completed".

Record deletion_ok (n : N) (d : DB) : Prop := {
  del_operations : keyed op_id op_id n (deletions d);
  del_items : keyed di_id di_id n (deletion_items d);
  del_active : forall i j o x, deletions d !! i = Some o -> deletions d !! j = Some x ->
    active_operation_state (op_state o) = true -> active_operation_state (op_state x) = true ->
    op_target_document_id o = op_target_document_id x -> i = j;
  del_checked : forall i o, deletions d !! i = Some o -> operation_check o = true /\ sealed o;
  del_owner : forall j x, deletion_items d !! j = Some x -> is_Some (deletions d !! di_operation x);
  del_done : forall i o j x, deletions d !! i = Some o -> completed_operation o = true ->
    deletion_items d !! j = Some x -> di_operation x = i -> item_completed x = true }.

(** How the tables may move, [n] bounding the identifiers of what is new. *)
Record deletion_moves (n : N) (d d' : DB) : Prop := {
  mv_known : forall i o, deletions d !! i = Some o -> exists o', deletions d' !! i = Some o' /\ rtc deletion_step o o';
  mv_new : forall i o', deletions d' !! i = Some o' -> deletions d !! i = None ->
    (n <= i)%N /\ exists id now document actor hash reason correlation,
      rtc deletion_step (new_operation id now document actor hash reason correlation) o';
  mv_items : forall j x, deletion_items d !! j = Some x -> exists x', deletion_items d' !! j = Some x' /\ same_target x x' /\
    (forall o, deletions d !! di_operation x = Some o -> completed_operation o = true -> x' = x);
  mv_new_items : forall j x', deletion_items d' !! j = Some x' -> deletion_items d !! j = None -> (n <= di_operation x')%N }.

#[export] Instance deletion_moves_preorder n : PreOrder (deletion_moves n).
Proof.
  split.
  - intros d. split; [eauto using rtc_refl|congruence|intros j x Hj; exists x; by split_and!|congruence].
  - intros a b c [K1 N1 I1 M1] [K2 N2 I2 M2]. split.
    + intros i o (o1 & H1 & S1)%K1. destruct (K2 _ _ H1) as (o2 & H2 & S2). exists o2. split; [done|]. by etrans.
    + intros i o' Hc Ha. destruct (deletions b !! i) as [o1|] eqn:Hb; [|by apply N2].
      destruct (N1 _ _ Hb Ha) as (Hn & id & now & doc & act & h & r & cor & Hs). split; [done|].
      destruct (K2 _ _ Hb) as (o2 & H2 & S2). replace o' with o2 by congruence. exists id, now, doc, act, h, r, cor. by etrans.
    + intros j x Hj. destruct (I1 _ _ Hj) as (x1 & H1 & T1 & C1). destruct (I2 _ _ H1) as (x2 & H2 & T2 & C2).
      exists x2. split; [done|]. split; [by etrans|]. intros o Ho Hc. rewrite <-(C1 o Ho Hc).
      destruct (K1 _ _ Ho) as (o1 & Ho1 & S1). apply (C2 o1).
      * destruct T1 as (_ & -> & _). done.
      * by rewrite (life_final _ _ S1 Hc).
    + intros j x' Hc Ha. destruct (deletion_items b !! j) as [x1|] eqn:Hb; [|by apply (M2 j)].
      destruct (I2 _ _ Hb) as (x2 & H2 & (_ & T2 & _) & _). replace x' with x2 by congruence. rewrite T2. by eapply M1.
Qed.

Lemma deletion_moves_same n d d' : deletion_tables d' = deletion_tables d -> deletion_moves n d d'.
Proof.
  intros [= H1 H2]. split; rewrite ?H1, ?H2; [eauto using rtc_refl|congruence|intros j x Hj; exists x; by split_and!|congruence].
Qed.

Lemma deletion_ok_mono n m d : (n <= m)%N -> deletion_ok n d -> deletion_ok m d.
Proof. intros Hnm [H1 H2 H3 H4 H5 H6]. split; try done; by eapply keyed_mono. Qed.

Lemma deletion_ok_same n d d' : deletion_tables d' = deletion_tables d -> deletion_ok n d -> deletion_ok n d'.
Proof. intros [= H1 H2] [? ? ? ? ? ?]. split; rewrite ?H1, ?H2; done. Qed.

(** *** Writing an operation *)

Lemma no_operation_conflict o d :
  operation_conflict o d = false -> active_operation_state (op_state o) = true ->
  forall i x, deletions d !! i = Some x -> op_id x <> op_id o -> active_operation_state (op_state x) = true ->
  op_target_document_id x <> op_target_document_id o.
Proof.
  unfold operation_conflict. intros Hc Ho i x Hi Hne Ha Ht. rewrite Ho in Hc. cbn [andb] in Hc.
  rewrite exists_row_false in Hc. specialize (Hc i x Hi). apply N.eqb_neq in Hne. by rewrite Hne, Ht, N.eqb_refl, Ha in Hc.
Qed.

(** The row under [op_id o] becomes [o], or is new. *)
Lemma deletion_ok_put n d o :
  deletion_ok n d -> (op_id o < n)%N -> operation_conflict o d = false -> operation_check o = true -> sealed o ->
  (completed_operation o = true -> forall j x, deletion_items d !! j = Some x -> di_operation x = op_id o -> item_completed x = true) ->
  deletion_ok n (d <| deletions ::= put (op_id o) o |>).
Proof.
  intros [H1 H2 H3 H4 H5 H6] Hlt Hc Hck Hse Hdone. pose proof (no_operation_conflict _ _ Hc) as Hno.
  assert (forall i x, deletions d !! i = Some x -> i = op_id x) as Hid by (intros i x Hi; symmetry; by apply H1).
  split; cbn; unfold put.
  - split.
    + intros i r. rewrite lookup_insert_Some. intros [[<- <-]|[_ Hi]]; [done|by apply H1].
    + intros i j r s. rewrite !lookup_insert_Some. intros [[<- <-]|[? Hi]] [[<- <-]|[? Hj]]; [done| | |by eapply H1].
      * intros He. by rewrite (Hid _ _ Hj).
      * intros He. by rewrite (Hid _ _ Hi).
  - done.
  - intros i j r s. rewrite !lookup_insert_Some. intros [[<- <-]|[Hi Hri]] [[<- <-]|[Hj Hrj]] Ha Hb Ht; [done| | |by eapply H3].
    + destruct (Hno Ha j s Hrj) as []; [|done|by rewrite Ht]. by rewrite <-(Hid _ _ Hrj).
    + destruct (Hno Hb i r Hri) as []; [|done|done]. by rewrite <-(Hid _ _ Hri).
  - intros i r. rewrite lookup_insert_Some. intros [[<- <-]|[_ Hi]]; [done|eauto].
  - intros j x Hj. rewrite lookup_insert_is_Some. destruct (decide (op_id o = di_operation x)); [by left | right; split; eauto].
  - intros i r j x. rewrite lookup_insert_Some. intros [[<- <-]|[_ Hi]]; eauto.
Qed.

Lemma stored_no_conflict n d o : deletion_ok n d -> deletions d !! op_id o = Some o -> operation_conflict o d = false.
Proof.
  intros Hok Ho. unfold operation_conflict. destruct (active_operation_state (op_state o)) eqn:Ha; [|done]. cbn [andb].
  apply exists_row_false. intros i x Hi. destruct (N.eqb_spec (op_id x) (op_id o)) as [|Hne]; [done|]. cbn [negb andb].
  destruct (N.eqb_spec (op_target_document_id x) (op_target_document_id o)) as [Ht|]; [|done]. cbn [andb].
  destruct (active_operation_state (op_state x)) eqn:Hb; [|done]. destruct Hne.
  rewrite <-(del_active _ _ Hok i (op_id o) x o) by done. by destruct (proj1 (del_operations _ _ Hok) _ _ Hi).
Qed.

Lemma deletion_moves_put n d o0 o :
  deletions d !! op_id o = Some o0 -> rtc deletion_step o0 o -> deletion_moves n d (d <| deletions ::= put (op_id o) o |>).
Proof.
  intros Ho Hs. split; cbn; unfold put.
  - intros i r Hi. destruct (decide (op_id o = i)) as [<-|Hne].
    + exists o. rewrite lookup_insert_eq. split; [done|]. congruence.
    + exists r. rewrite lookup_insert_ne by done. eauto using rtc_refl.
  - intros i r. rewrite lookup_insert_Some. intros [[<- <-]|[_ Hi]]; congruence.
  - intros j x Hj. exists x. by split_and!.
  - congruence.
Qed.

(** *** Writing items *)

(** The rows of [p] change within their targets; none belongs to a completed
    operation. *)
Lemma deletion_items_update n d (g : gmap N DeletionItem -> gmap N DeletionItem) :
  (forall j, g (deletion_items d) !! j = None <-> deletion_items d !! j = None) ->
  (forall j x, deletion_items d !! j = Some x -> exists x', g (deletion_items d) !! j = Some x' /\ same_target x x' /\
     (forall o, deletions d !! di_operation x = Some o -> completed_operation o = true -> x' = x)) ->
  deletion_moves n d (d <| deletion_items ::= g |>) /\
  forall m, deletion_ok m d -> deletion_ok m (d <| deletion_items ::= g |>).
Proof.
  intros Hnone Hg.
  assert (forall j x', g (deletion_items d) !! j = Some x' -> exists x, deletion_items d !! j = Some x /\ same_target x x' /\
     (forall o, deletions d !! di_operation x = Some o -> completed_operation o = true -> x' = x)) as Hback.
  { intros j x' Hj. destruct (deletion_items d !! j) as [x|] eqn:Hx; [|apply Hnone in Hx; congruence].
    destruct (Hg _ _ Hx) as (y & Hy & Ht). exists x. by replace x' with y by congruence. }
  split.
  - split; cbn; [eauto using rtc_refl|congruence|done|]. intros j x' Hj Hn. apply Hnone in Hn. congruence.
  - intros m [H1 H2 H3 H4 H5 H6]. split; cbn; [done| |done|done| |].
    + split; [|intros i j r s]; [intros i r (x & Hx & (Hid & _) & _)%Hback; rewrite Hid; by apply H2|].
      intros (x & Hx & (Hi & _) & _)%Hback (y & Hy & (Hj & _) & _)%Hback. rewrite Hi, Hj. by eapply H2.
    + intros j x' (x & Hx & (_ & -> & _) & _)%Hback. eauto.
    + intros i o j x' Hi Hc (x & Hx & (_ & Hop & _) & He)%Hback Ho. rewrite Hop in Ho. subst i. rewrite (He o Hi Hc). eauto.
Qed.

(** A new item of an operation that is not completed. *)
Lemma deletion_ok_new_item n d x :
  deletion_ok n d -> deletion_items d !! di_id x = None -> (di_id x < n)%N -> is_Some (deletions d !! di_operation x) ->
  (forall o, deletions d !! di_operation x = Some o -> completed_operation o = false) ->
  deletion_ok n (d <| deletion_items ::= put (di_id x) x |>).
Proof.
  intros [H1 H2 H3 H4 H5 H6] Hnew Hlt How Hopen. split; cbn; unfold put; [done| |done|done| |].
  - split.
    + intros i r. rewrite lookup_insert_Some. intros [[<- <-]|[_ Hi]]; [done|by apply H2].
    + intros i j r s. rewrite !lookup_insert_Some. intros [[<- <-]|[? Hi]] [[<- <-]|[? Hj]]; [done| | |by eapply H2].
      * intros He. destruct H2 as [Hk _]. destruct (Hk _ _ Hj) as [Hj' _]. congruence.
      * intros He. destruct H2 as [Hk _]. destruct (Hk _ _ Hi) as [Hi' _]. congruence.
  - intros j r. rewrite lookup_insert_Some. intros [[<- <-]|[_ Hj]]; eauto.
  - intros i o j r Hi Hc. rewrite lookup_insert_Some. intros [[<- <-]|[_ Hj]] Ho; [|eauto].
    subst i. rewrite (Hopen o Hi) in Hc. done.
Qed.

Lemma deletion_moves_new_item n d x :
  deletion_items d !! di_id x = None -> (n <= di_operation x)%N -> deletion_moves n d (d <| deletion_items ::= put (di_id x) x |>).
Proof.
  intros Hnew Hn. split; cbn; unfold put; [eauto using rtc_refl|congruence| |].
  - intros j r Hj. exists r. rewrite lookup_insert_ne by congruence. by split_and!.
  - intros j r. rewrite lookup_insert_Some. intros [[<- <-]|[_ Hj]]; [done|congruence].
Qed.

(** ** Walking the service

    [reaches n P m Q]: from well-formed tables in [P], [m] moves the tables by
    [deletion_moves n], leaves them well-formed, and in [Q] of its outcome. *)

Definition tables : Type := gmap N DeletionOperation * gmap N DeletionItem.

Section walk.
Context {B : Type}.
Implicit Types (w : World B) (P : tables -> Prop).

Definition deletion_inv w : Prop := deletion_ok (next_uuid w) (db w).

Definition reaches {A} (n : N) P (m : M B A) (Q : result exn A -> tables -> Prop) : Prop := forall w,
  deletion_inv w -> (n <= next_uuid w)%N -> P (deletion_tables (db w)) ->
  (next_uuid w <= next_uuid (m w).2)%N /\ deletion_inv (m w).2 /\ deletion_moves n (db w) (db (m w).2) /\
  Q (m w).1 (deletion_tables (db (m w).2)).

Lemma reaches_conseq {A} n P P' (m : M B A) (Q Q' : result exn A -> tables -> Prop) :
  reaches n P' m Q' -> (forall t, P t -> P' t) -> (forall r t, Q' r t -> Q r t) -> reaches n P m Q.
Proof. intros Hm HP HQ w Hw Hn Hp. destruct (Hm w Hw Hn (HP _ Hp)) as (? & ? & ? & ?). by split_and!; auto. Qed.

Lemma reaches_pre {A} n P P' (m : M B A) (Q : result exn A -> tables -> Prop) :
  reaches n P' m Q -> (forall t, P t -> P' t) -> reaches n P m Q.
Proof. intros Hm HP. by eapply reaches_conseq. Qed.

Lemma reaches_bind {A C} n P (m : M B A) (k : A -> M B C) (Q : result exn A -> tables -> Prop) (R : result exn C -> tables -> Prop) :
  reaches n P m Q -> (forall e t, Q (Err e) t -> R (Err e) t) -> (forall a, reaches n (Q (Ok a)) (k a) R) ->
  reaches n P (bind m k) R.
Proof.
  intros Hm He Hk w Hw Hn Hp. unfold bind. destruct (Hm w Hw Hn Hp) as (H1 & H2 & H3 & H4).
  destruct (m w) as [[a|e] w1]; cbn [fst snd] in *; [|by split_and!; auto].
  destruct (Hk a w1 H2 ltac:(lia) H4) as (G1 & G2 & G3 & G4). split_and!; [lia|done|by etrans|done].
Qed.

Lemma reaches_try {A} n P (m : M B A) (h : exn -> M B A) (Q R : result exn A -> tables -> Prop) :
  reaches n P m Q -> (forall a t, Q (Ok a) t -> R (Ok a) t) -> (forall e, reaches n (Q (Err e)) (h e) R) ->
  reaches n P (try_except m h) R.
Proof.
  intros Hm Ha Hh w Hw Hn Hp. unfold try_except. destruct (Hm w Hw Hn Hp) as (H1 & H2 & H3 & H4).
  destruct (m w) as [[a|e] w1]; cbn [fst snd] in *; [by split_and!; auto|].
  destruct (Hh e w1 H2 ltac:(lia) H4) as (G1 & G2 & G3 & G4). split_and!; [lia|done|by etrans|done].
Qed.

(** A transaction that raises is back where it started. *)
Lemma reaches_atomic {A} n P (m : M B A) (Q : result exn A -> tables -> Prop) :
  reaches n P m (fun r t => match r with Ok _ => Q r t | Err _ => True end) -> (forall e t, P t -> Q (Err e) t) ->
  reaches n P (atomic m) Q.
Proof.
  intros Hm He w Hw Hn Hp. unfold atomic. destruct (online w); cbn [fst snd]; [|by split_and!; auto].
  destruct (Hm w Hw Hn Hp) as (H1 & H2 & H3 & H4). destruct (m w) as [[a|e] w1]; cbn [fst snd] in *; [by split_and!|].
  split_and!; [done|by apply (deletion_ok_mono (next_uuid w))|done|by apply He].
Qed.

(** What does not touch the tables. *)
Lemma reaches_kept {A} n P (m : M B A) : moves (keeps deletion_tables) m -> reaches n P m (fun _ => P).
Proof.
  intros Hm w Hw Hn Hp. destruct (Hm w) as (Ht & _ & _ & Hu). split_and!; [done| |by apply deletion_moves_same|by rewrite Ht].
  apply (deletion_ok_same _ (db w)); [done|]. by apply (deletion_ok_mono (next_uuid w)).
Qed.

Lemma reaches_then {A C} n P (m : M B A) (k : A -> M B C) (R : result exn C -> tables -> Prop) :
  moves (keeps deletion_tables) m -> (forall e t, P t -> R (Err e) t) -> (forall a, reaches n P (k a) R) ->
  reaches n P (bind m k) R.
Proof. intros Hm He Hk. eapply reaches_bind; [by apply reaches_kept|done|done]. Qed.

(** A fact the tables imply. *)
Lemma reaches_fact {A} (F : Prop) n P (m : M B A) (Q : result exn A -> tables -> Prop) :
  (forall t, P t -> F) -> (F -> reaches n P m Q) -> reaches n P m Q.
Proof. intros Hf Hm w Hw Hn Hp. by apply (Hm (Hf _ Hp)). Qed.

(** A fact the query's database implies when it is well-formed. *)
Lemma reaches_keyed {A} (F : Prop) n P d (m : M B A) (Q : result exn A -> tables -> Prop) :
  (forall k, deletion_ok k d -> (n <= k)%N -> F) -> (F -> reaches n (fun t => P t /\ t = deletion_tables d) m Q) ->
  reaches n (fun t => P t /\ t = deletion_tables d) m Q.
Proof.
  intros Hf Hm w Hw Hn Hp. assert F as HF; [|by apply Hm]. apply (Hf (next_uuid w)); [|done].
  apply (deletion_ok_same _ (db w)); [|done]. symmetry. apply Hp.
Qed.

(** A test, with what it says; a query of the tables, with what it found. *)
Lemma reaches_require {C} n P b e (k : unit -> M B C) (R : result exn C -> tables -> Prop) :
  (forall t, P t -> R (Err e) t) -> (b = true -> reaches n P (k tt) R) -> reaches n P (bind (require b e) k) R.
Proof. intros He Hk. destruct b; [by apply Hk|]. intros w Hw Hn Hp. cbn. by split_and!; auto. Qed.

Lemma reaches_query {A C} n P (f : DB -> A) (k : A -> M B C) (R : result exn C -> tables -> Prop) :
  (forall d, reaches n (fun t => P t /\ t = deletion_tables d) (k (f d)) R) -> reaches n P (bind (query f) k) R.
Proof. intros Hk w Hw Hn Hp. by apply (Hk (db w)). Qed.

Lemma reaches_ret {A} n P (a : A) (Q : result exn A -> tables -> Prop) : (forall t, P t -> Q (Ok a) t) -> reaches n P (ret a) Q.
Proof. intros Hq w Hw Hn Hp. cbn. by split_and!; auto. Qed.

Lemma reaches_throw {A} n P e (Q : result exn A -> tables -> Prop) : (forall t, P t -> Q (Err e) t) -> reaches n P (throw e) Q.
Proof. intros Hq w Hw Hn Hp. cbn. by split_and!; auto. Qed.

Lemma reaches_option {A C} n P (o : option A) e (k : A -> M B C) (R : result exn C -> tables -> Prop) :
  (forall t, P t -> R (Err e) t) -> (forall a, o = Some a -> reaches n P (k a) R) -> reaches n P (bind (of_option o e) k) R.
Proof. intros He Hk. destruct o; [by apply Hk|]. intros w Hw Hn Hp. cbn. by split_and!; auto. Qed.

(** *** The writes *)

Lemma save_operation_reaches n P (Q : result exn unit -> tables -> Prop) o o0 :
  (forall t, P t -> t.1 !! op_id o = Some o0) -> deletion_step o0 o -> sealed o ->
  (forall t, P t -> completed_operation o = true ->
     forall j x, t.2 !! j = Some x -> di_operation x = op_id o -> item_completed x = true) ->
  (forall t, P t -> Q (Ok tt) (put (op_id o) o t.1, t.2)) -> (forall e t, P t -> Q (Err e) t) ->
  reaches n P (save_operation (B:=B) o) Q.
Proof.
  intros Hrow Hs Hse Hdone Hq He. unfold save_operation. apply reaches_require; [auto|]. intros _.
  apply reaches_query. intros d. apply reaches_require; [intros t [Ht _]; auto|]. intros Hc. bools.
  intros w Hw Hn [Hp Hd]. cbn. pose proof (Hrow _ Hp) as Ho. cbn in Ho.
  split_and!; [done| | |exact (Hq _ Hp)].
  - apply deletion_ok_put; [done| | |done|done|].
    + destruct Hw as [[Hk _] _ _ _ _ _]. by apply Hk in Ho as [_ Ho].
    + assert (operation_conflict o (db w) = operation_conflict o d) as -> by (unfold operation_conflict; by injection Hd as -> _).
      by destruct (operation_conflict o d).
    + intros Hco j x Hj. exact (Hdone _ Hp Hco j x Hj).
  - eapply deletion_moves_put; [done|]. by apply rtc_once.
Qed.

(** An item of [l] changes within its target; its operation is not completed. *)
Lemma update_item_reaches n P (Q : result exn unit -> tables -> Prop) id f :
  (forall x, same_target x (f x)) ->
  (forall t x, P t -> t.2 !! id = Some x -> exists o, t.1 !! di_operation x = Some o /\ completed_operation o = false) ->
  (forall t, P t -> Q (Ok tt) (t.1, alter f id t.2)) -> reaches n P (update_item (B:=B) id f) Q.
Proof.
  intros Hf Hopen Hq w Hw Hn Hp. cbn.
  destruct (deletion_items_update n (db w) (alter f id)) as [Hmv Hok].
  - intros j. by rewrite lookup_alter_None.
  - intros j x Hj. destruct (decide (id = j)) as [<-|Hne].
    + exists (f x). rewrite lookup_alter_eq, Hj. split; [done|]. split; [apply Hf|]. intros o Ho Hc.
      destruct (Hopen _ x Hp Hj) as (o' & Ho' & Hc'). cbn in Ho'. congruence.
    + exists x. rewrite lookup_alter_ne by done. by split_and!.
  - split_and!; [done|by apply Hok|done|exact (Hq _ Hp)].
Qed.

Lemma get_operation_reaches n P id :
  reaches n P (get_operation (B:=B) id) (fun r t => P t /\ match r with Ok o => t.1 !! id = Some o | Err _ => True end).
Proof.
  apply reaches_query. intros d. destruct (deletions d !! id) as [o|] eqn:Ho.
  - apply reaches_ret. intros t [Hp ->]. by split.
  - apply reaches_throw. intros t [Hp _]. by split.
Qed.

(** The operation's row, in a state of [st]. *)
Definition mine (st : DeletionOperation -> bool) (id : N) (t : tables) : Prop :=
  exists o, t.1 !! id = Some o /\ op_id o = id /\ st o = true.

(** The rows behind the items an execution goes through. *)
Definition owns (l : list DeletionItem) (id : N) (t : tables) : Prop :=
  forall x, x ∈ l -> exists i, t.2 !! di_id x = Some i /\ same_target x i /\ di_operation x = id.

Lemma mine_weaken (st st' : DeletionOperation -> bool) id t :
  (forall o, st o = true -> st' o = true) -> mine st id t -> mine st' id t.
Proof. intros H (o & ? & ? & ?). exists o. by split_and!; auto. Qed.

Lemma executing_begun o : is_executing o = true -> begun o = true.
Proof. unfold is_executing, begun. by destruct (op_state o). Qed.

Lemma begun_open o : begun o = true -> completed_operation o = false.
Proof. unfold begun, completed_operation. by destruct (op_state o). Qed.

Lemma mine_put st id t o : st o = true -> op_id o = id -> mine st id (put id o t.1, t.2).
Proof. intros Ho Hid. exists o. cbn. unfold put. by rewrite lookup_insert_eq. Qed.

Lemma owns_alter l id t j f : (forall x, same_target x (f x)) -> owns l id t -> owns l id (t.1, alter f j t.2).
Proof.
  intros Hf Ho x Hx. destruct (Ho x Hx) as (i & Hi & Ht & Hop). cbn. destruct (decide (j = di_id x)) as [->|Hne].
  - exists (f i). rewrite lookup_alter_eq, Hi. split; [done|]. split; [|done]. etrans; [done|apply Hf].
  - exists i. by rewrite lookup_alter_ne.
Qed.

(** An item of the list belongs to the operation. *)
Lemma owns_open st l id t j x : (forall o, st o = true -> completed_operation o = false) ->
  mine st id t -> owns l id t -> t.2 !! j = Some x -> (exists y, y ∈ l /\ di_id y = j) ->
  exists o, t.1 !! di_operation x = Some o /\ completed_operation o = false.
Proof.
  intros Hst (o & Ho & _ & Hs) Hl Hj (y & Hy & <-). destruct (Hl y Hy) as (i & Hi & Ht & Hop).
  replace x with i by congruence. destruct Ht as (_ & -> & _). rewrite Hop. eauto.
Qed.

Lemma keeps_audit_deletion o result action code : moves (keeps deletion_tables) (_audit (B:=B) o result action code).
Proof. unfold _audit. frame_tac. Qed.

Lemma marked_target s code now x : same_target x (marked_item s code now x).
Proof. done. Qed.

(** The operation handed back is the row; otherwise it is still open. *)
Definition stored_result (id : N) (r : result exn DeletionOperation) (t : tables) : Prop :=
  match r with Ok o => t.1 !! id = Some o /\ op_id o = id | Err _ => mine begun id t end.

(** Marking a failure: the operation ends failed or in recovery. *)
Lemma mark_outcome_reaches n l id s code item :
  s = DeletionOperationState.FAILED \/ s = DeletionOperationState.RECOVERY_REQUIRED ->
  (forall j, item = Some j -> exists y, y ∈ l /\ di_id y = j) ->
  reaches n (fun t => mine begun id t /\ owns l id t) (_mark_outcome (B:=B) id s code item) (stored_result id).
Proof.
  intros Hs Hitem. unfold _mark_outcome. apply reaches_then; [frame_tac|by intros ? ? []|]. intros current.
  eapply (reaches_bind _ _ _ _ (fun r t => stored_result id r t /\ mine begun id t)); [|by intros ? ? []|].
  - apply reaches_atomic; [|by intros ? ? []].
    eapply (reaches_bind _ _ _ _ (fun _ t => mine begun id t)); [|done|].
    + destruct item as [j|]; [|by apply reaches_ret; intros ? []].
      apply reaches_require; [by intros ? []|]. intros _. apply update_item_reaches; [done| |].
      * intros t x [Hm Ho] Hx. eapply owns_open; eauto using begun_open.
      * by intros t [Hm _].
    + intros []. eapply reaches_bind; [apply get_operation_reaches|by intros ? ? []|]. intros o.
      apply reaches_then; [frame_tac|by intros ? ? []|]. intros now.
      apply (reaches_fact (op_id o = id /\ begun o = true)).
      { intros t [(o' & Ho & Hid & Hb) Ho']. by replace o with o' by congruence. }
      intros [Hid Hb].
      eapply (reaches_bind _ _ _ _ (fun r t => match r with Ok _ => t.1 !! id = Some (marked s code now o) | Err _ => True end));
        [|done|].
      * eapply save_operation_reaches.
        -- intros t [_ Ht]. change (op_id (marked s code now o)) with (op_id o). rewrite Hid. exact Ht.
        -- by apply step_fail.
        -- intros Hc. unfold completed_operation in Hc. destruct Hs as [-> | ->]; done.
        -- intros t _ Hc. unfold completed_operation in Hc. destruct Hs as [-> | ->]; done.
        -- intros t _. cbn. rewrite Hid. unfold put. by rewrite lookup_insert_eq.
        -- done.
      * intros []. apply reaches_ret. intros t Ht. split; [by split|]. exists (marked s code now o). split_and!; [done..|].
        unfold begun. destruct Hs as [-> | ->]; done.
  - intros o. apply reaches_then; [|by intros ? ? []|by intros []; apply reaches_ret; intros ? []].
    apply moves_try; [apply _|apply keeps_audit_deletion|]. intros e. destruct (is_audit_failure e); frame_tac.
Qed.

(** *** The pieces of an execution *)

Definition busy (l : list DeletionItem) (id : N) (t : tables) : Prop := mine is_executing id t /\ owns l id t.

Lemma busy_begun l id t : busy l id t -> mine begun id t.
Proof. intros [Hm _]. eapply mine_weaken; [|done]. apply executing_begun. Qed.

Lemma busy_marks l id t : busy l id t -> mine begun id t /\ owns l id t.
Proof. intros Hb. split; [by eapply busy_begun | apply Hb]. Qed.

Lemma busy_alter l id t j f : (forall x, same_target x (f x)) -> busy l id t -> busy l id (t.1, alter f j t.2).
Proof. intros Hf [Hm Ho]. split; [done | by apply owns_alter]. Qed.

Lemma busy_item_reaches n l id y f : y ∈ l -> (forall x, same_target x (f x)) ->
  reaches n (busy l id) (update_item (B:=B) (di_id y) f) (fun _ => busy l id).
Proof.
  intros Hy Hf. apply update_item_reaches; [done| |by intros; apply busy_alter].
  intros t x [Hm Ho] Hx. eapply owns_open; [|done..|by exists y]. intros o He. by apply begun_open, executing_begun.
Qed.

Lemma claim_item_reaches n l id y : y ∈ l ->
  reaches n (busy l id) (_claim_item (B:=B) (di_id y))
    (fun r t => busy l id t /\ match r with Ok (Some c) => di_id c = di_id y | _ => True end).
Proof.
  intros Hy. unfold _claim_item. eapply (reaches_bind _ _ _ _ (fun _ => busy l id)); [|by intros|].
  - apply reaches_atomic; [|done]. apply reaches_query. intros d. destruct (deletion_items d !! di_id y) as [x|].
    + destruct (item_completed x); [by apply reaches_ret; intros ? []|].
      apply reaches_then; [frame_tac|done|]. intros now. apply reaches_require; [done|]. intros _.
      eapply (reaches_bind _ _ _ _ (fun _ => busy l id)); [|done|intros ?; by apply reaches_ret].
      apply (reaches_pre _ _ (busy l id)); [by apply busy_item_reaches|by intros ? []].
    + by apply reaches_ret; intros ? [].
  - intros []; [|by apply reaches_ret].
    eapply (reaches_bind _ _ _ _ (fun r t => busy l id t /\ match r with Ok c => di_id c = di_id y | _ => True end));
      [|by intros ? ? []|intros c; by apply reaches_ret].
    apply reaches_atomic; [|done]. apply reaches_query. intros d. apply reaches_conseq with
      (P' := fun t => busy l id t /\ t = deletion_tables d)
      (Q' := fun r t => busy l id t /\ match r with Ok c => di_id c = di_id y | _ => True end); [|done|by intros []].
    destruct (deletion_items d !! di_id y) as [x|] eqn:Hx; [|by apply reaches_throw; intros ? []].
    apply reaches_ret. intros t [Hb ->]. split; [done|]. destruct (proj2 Hb y Hy) as (i & Hi & [Ht _] & _).
    cbn in Hi. congruence.
Qed.

Context `{!External B} {laws : ExternalLaws B}.

Lemma process_artifact_reaches n l id y o : y ∈ l -> op_id o = id ->
  reaches n (busy l id) (_process_artifact (B:=B) o y)
    (fun r t => match r with Ok None => busy l id t | Ok (Some o') => stored_result id (Ok o') t | Err _ => mine begun id t end).
Proof using laws.
  intros Hy Hid. unfold _process_artifact.
  eapply reaches_bind; [by apply claim_item_reaches|by intros e t []; eapply busy_begun|].
  intros [c|]; [|by apply reaches_ret; intros ? []].
  apply (reaches_fact (di_id c = di_id y)); [by intros t []|]. intros Hc.
  assert (forall code, reaches n (busy l id)
    (let* o' := _mark_outcome (op_id o) DeletionOperationState.RECOVERY_REQUIRED code (Some (di_id c)) in ret (Some o'))
    (fun r t => match r with Ok None => busy l id t | Ok (Some o') => stored_result id (Ok o') t | Err _ => mine begun id t end)) as Hmark.
  { intros code. rewrite Hid. eapply (reaches_bind _ _ _ _ (stored_result id)); [|done|intros ?; by apply reaches_ret].
    eapply reaches_conseq; [apply (mark_outcome_reaches n l); [by right|]|apply busy_marks|done].
    intros j [= <-]. exists y. by split. }
  apply (reaches_pre _ _ (busy l id)); [|by intros ? []].
  destruct (di_artifact_id c) as [a|]; [|by apply Hmark].
  destruct (di_expected_size_bytes c) as [size|]; [|by apply Hmark].
  destruct (di_expected_version c) as [version|]; [|by apply Hmark].
  eapply (reaches_bind _ _ _ _ (fun _ => busy l id)); [|intros e t; apply busy_begun|].
  - apply reaches_kept. apply moves_try; [apply _| |frame_tac].
    apply moves_bind; [apply _|by apply keeps_delete_for_deletion|frame_tac].
  - intros [code|]; [apply Hmark|]. apply reaches_then; [frame_tac|intros e t; apply busy_begun|]. intros now.
    eapply (reaches_bind _ _ _ _ (fun _ => busy l id)); [|intros e t; apply busy_begun|intros ?; by apply reaches_ret].
    apply reaches_atomic; [|done]. rewrite Hc. eapply reaches_conseq; [by apply busy_item_reaches|done|by intros []].
Qed.

(** The writes of the relational part, apart from those to the two tables. *)
Lemma keeps_relational_writes document l events now :
  moves (keeps deletion_tables) (write (B:=B) (detach document events l now)) /\
  moves (keeps deletion_tables) (delete_events (B:=B) document) /\
  moves (keeps deletion_tables) (delete_document (B:=B) document) /\
  moves (keeps deletion_tables) (for_each l (delete_artifact (B:=B))).
Proof. unfold delete_events, delete_document, delete_artifact. split_and!; frame_tac. Qed.

Lemma complete_items_reaches n id now :
  reaches n (mine is_executing id)
    (write (B:=B) (fun d => d <| deletion_items ::= update_where (fun i => N.eqb (di_operation i) id) (completed_item now) |>))
    (fun _ t => mine is_executing id t /\ forall j x, t.2 !! j = Some x -> di_operation x = id -> item_completed x = true).
Proof.
  intros w Hw Hn Hm. pose proof Hm as (o & Ho & Hid & He). cbn in Ho. cbn.
  destruct (deletion_items_update n (db w) (update_where (fun i => N.eqb (di_operation i) id) (completed_item now))) as [Hmv Hok].
  - intros j. rewrite lookup_update_where. by destruct (deletion_items (db w) !! j).
  - intros j x Hj. rewrite lookup_update_where, Hj. cbn. destruct (N.eqb_spec (di_operation x) id) as [Heq|_].
    + eexists. split; [done|]. split; [done|]. intros o' Ho'. rewrite Heq, Ho in Ho'. injection Ho' as <-.
      by rewrite (begun_open _ (executing_begun _ He)).
    + exists x. by split_and!.
  - split_and!; [done|by apply Hok|done| |].
    + exists o. by split_and!.
    + intros j x. cbn. rewrite lookup_update_where. destruct (deletion_items (db w) !! j) as [y|]; [|done]. cbn.
      intros [= <-]. destruct (N.eqb_spec (di_operation y) id); [done|]. by intros.
Qed.

Lemma finalize_reaches n id :
  reaches n (mine is_executing id) (_finalize_relational (B:=B) id)
    (fun r t => match r with Ok _ => stored_result id r t | Err _ => mine is_executing id t end).
Proof.
  unfold _finalize_relational. apply reaches_atomic; [|done]. unfold finalize_locked.
  eapply reaches_bind; [apply get_operation_reaches|done|]. intros o.
  apply (reaches_fact (op_id o = id /\ is_executing o = true)).
  { intros t [(o' & Ho & Hid & Hb) Ho']. by replace o with o' by congruence. }
  intros [Hid He]. apply reaches_then; [frame_tac|done|]. intros items. apply reaches_require; [done|]. intros _. cbv zeta.
  destruct (keeps_relational_writes (op_target_document_id o) (artifact_ids_of items) (event_ids_of items) 0) as (_ & K2 & K3 & K4).
  apply reaches_then; [frame_tac|done|]. intros now.
  apply reaches_then; [apply keeps_relational_writes; exact []|done|]. intros _.
  do 3 (apply reaches_then; [done|done|]; intros _). clear now. apply reaches_then; [frame_tac|done|]. intros now.
  assert (forall t, mine is_executing id t /\ t.1 !! id = Some o -> mine is_executing id t) as Hmine by (by intros t []).
  eapply (reaches_bind _ _ _ _ (fun _ t => (mine is_executing id t /\ t.1 !! id = Some o) /\
    forall j x, t.2 !! j = Some x -> di_operation x = id -> item_completed x = true)); [|done|].
  - intros w Hw Hn [Hm Ho]. destruct (complete_items_reaches n id now w Hw Hn Hm) as (H1 & H2 & H3 & H4 & H5).
    by split_and!.
  - intros _. match goal with |- reaches _ _ (bind (save_operation ?o') _) _ => set (o1 := o') end.
    eapply (reaches_bind _ _ _ _ (fun r t => match r with Ok _ => t.1 !! id = Some o1 | Err _ => True end)); [|done|].
    + eapply save_operation_reaches; [| |done| | |done].
      * intros t [[_ Ht] _]. change (op_id o1) with (op_id o). rewrite Hid. exact Ht.
      * by apply step_complete.
      * intros t [_ Ht] _ j x Hj Hx. apply (Ht j x Hj). rewrite Hx. exact Hid.
      * intros t _. cbn. rewrite Hid. unfold put. by rewrite lookup_insert_eq.
    + intros _. apply reaches_then; [apply keeps_audit_deletion|done|]. intros _. by apply reaches_ret.
Qed.

Lemma at_artifact_reaches n l id now :
  reaches n (busy l id) (write (B:=B) (fun d => d <| deletions ::= alter (at_artifact now) id |>)) (fun _ => busy l id).
Proof.
  intros w Hw Hn [(o & Ho & Hid & He) Hl]. cbn in Ho.
  assert (alter (at_artifact now) id (deletions (db w)) = put id (at_artifact now o) (deletions (db w))) as Ha.
  { unfold put. apply map_eq. intros i. destruct (decide (id = i)) as [<-|Hne].
    - by rewrite lookup_alter_eq, Ho, lookup_insert_eq.
    - by rewrite lookup_alter_ne, lookup_insert_ne. }
  cbn. unfold deletion_inv, busy. cbn. rewrite Ha. subst id. split_and!; [done| | | |done].
  - apply (deletion_ok_put _ _ (at_artifact now o)); [done| | | | |].
    + by apply (del_operations _ _ Hw) in Ho as [_ Ho].
    + exact (stored_no_conflict _ _ _ Hw Ho).
    + by apply (del_checked _ _ Hw) in Ho as [Ho _].
    + intros Hc. unfold completed_operation, is_executing in *. cbn in Hc. by destruct (op_state o).
    + intros Hc. unfold completed_operation, is_executing in *. cbn in Hc. by destruct (op_state o).
  - apply (deletion_moves_put _ _ o (at_artifact now o)); [done|]. apply rtc_once. by apply step_artifact.
  - exists (at_artifact now o). cbn. unfold put. by rewrite lookup_insert_eq.
Qed.

Lemma process_items_reaches n l id rest : (forall x, x ∈ rest -> x ∈ l) ->
  reaches n (busy l id) (process_items (B:=B) id rest) (stored_result id).
Proof using laws.
  induction rest as [|y rest IH]; intros Hl; cbn [process_items].
  - eapply reaches_conseq; [apply finalize_reaches|by intros t []|]. intros [o|e] t; [done|].
    apply mine_weaken, executing_begun.
  - destruct (is_artifact_item y); cbn [negb]; [|by apply IH; intros x Hx; apply Hl; right].
    apply reaches_then; [frame_tac|intros e t; apply busy_begun|]. intros now.
    eapply (reaches_bind _ _ _ _ (fun _ => busy l id)); [|intros e t; apply busy_begun|intros []].
    { apply reaches_atomic; [|done]. eapply reaches_conseq; [apply at_artifact_reaches|done|by intros []]. }
    eapply (reaches_bind _ _ _ _ (fun r t => busy l id t /\ match r with Ok o => t.1 !! id = Some o | Err _ => True end));
      [|intros e t []; by eapply busy_begun|intros o].
    { apply reaches_atomic; [|by split]. eapply reaches_conseq; [apply get_operation_reaches|done|by intros []]. }
    apply (reaches_fact (op_id o = id)).
    { intros t [[(o' & Ho & Hid & _) _] Ho']. congruence. }
    intros Hid. apply (reaches_pre _ _ (busy l id)); [|by intros t []].
    eapply reaches_bind; [apply (process_artifact_reaches n l id y o); [apply Hl; left | done]|done|].
    intros [o'|]; [by apply reaches_ret|]. apply IH. intros x Hx. apply Hl. by right.
Qed.

Context `{!Heap}.

Lemma keeps_load id : moves (keeps deletion_tables) (_load_document (B:=B) id).
Proof. unfold _load_document. frame_tac. Qed.

Lemma ordered_items_owned id d x : x ∈ ordered_items id d -> exists j, deletion_items d !! j = Some x /\ di_operation x = id.
Proof.
  unfold ordered_items. intros Hx. rewrite sort_by_perm in Hx.
  unfold items_of in Hx. apply elem_of_select in Hx as [Hop [j Hj]]. exists j. split; [done|]. by apply N.eqb_eq.
Qed.

Lemma execute_body_reaches n o :
  reaches n (mine is_executing (op_id o)) (execute_body (B:=B) o) (stored_result (op_id o)).
Proof using laws.
  assert (forall e t, mine is_executing (op_id o) t ->
    stored_result (op_id o) (Err e) t) as Hm.
  { intros e t. apply mine_weaken, executing_begun. }
  assert (forall code, reaches n (mine is_executing (op_id o)) (_mark_outcome (B:=B) (op_id o) DeletionOperationState.FAILED code None)
    (stored_result (op_id o))) as Hmark.
  { intros code. eapply reaches_pre; [apply (mark_outcome_reaches n []); [by left|done]|].
    intros t Ht. split; [by eapply mine_weaken; [apply executing_begun|]|]. intros x Hx. by apply not_elem_of_nil in Hx. }
  unfold execute_body. cbv zeta. apply reaches_then; [apply moves_transaction; [apply _..|apply keeps_load]|exact Hm|].
  intros document. destruct (negb _); [apply Hmark|]. apply reaches_then; [unfold localdate; frame_tac|exact Hm|].
  intros today. destruct (negb _); [apply Hmark|].
  eapply (reaches_bind _ _ _ _ (fun r t => match r with Ok l => busy l (op_id o) t | Err _ => mine is_executing (op_id o) t end)).
  - apply reaches_atomic; [|done]. intros w Hw Hn Ht. cbn. split_and!; [done|done|reflexivity|]. split; [exact Ht|]. intros x Hx.
    destruct (ordered_items_owned _ _ _ Hx) as (j & Hj & Hop). exists x. cbn.
    by rewrite (proj1 (proj1 (del_items _ _ Hw) _ _ Hj)).
  - intros e t. apply mine_weaken, executing_begun.
  - intros items. by apply process_items_reaches.
Qed.

(** ** The commands *)

Lemma begin_execution_reaches n id :
  reaches n (fun _ => True) (begin_execution (B:=B) id)
    (fun r t => match r with
                | Ok (o, false) => op_id o = id /\ mine is_executing id t
                | Ok (o, true) => t.1 !! id = Some o /\ op_id o = id
                | Err _ => True
                end).
Proof.
  unfold begin_execution. apply reaches_atomic; [|done]. apply reaches_query. intros d.
  apply reaches_option; [done|]. intros o Ho. destruct (completed_operation o) eqn:Hc.
  { apply (reaches_keyed (op_id o = id)); [intros m Hok _; by apply (proj1 (del_operations _ _ Hok))|intros Hid].
    apply reaches_ret. by intros t [_ ->]. }
  apply reaches_then; [frame_tac|done|]. intros now.
  apply (reaches_keyed (op_id o = id)); [intros m Hok _|intros Hid].
  { by apply (proj1 (del_operations _ _ Hok)). }
  eapply (reaches_bind _ _ _ _ (fun r t => match r with Ok _ => mine is_executing id t | _ => True end)); [|done|].
  - eapply save_operation_reaches.
    + intros t [_ ->]. cbn. change (op_id (executing now o)) with (op_id o). rewrite Hid. exact Ho.
    + by apply step_begin.
    + done.
    + done.
    + intros t _. change (op_id (executing now o)) with (op_id o). rewrite Hid. by apply mine_put.
    + done.
  - intros []. apply reaches_ret. intros t Ht. by split.
Qed.

Lemma execution_failure_state e :
  (execution_failure e).1 = DeletionOperationState.FAILED \/ (execution_failure e).1 = DeletionOperationState.RECOVERY_REQUIRED.
Proof. destruct e; cbn; auto. Qed.

(** An execution returns the operation's row. *)
Lemma execute_deletion_returns n id : reaches n (fun _ => True) (execute_deletion (B:=B) id)
  (fun r t => match r with Ok o => uuid_of id = Some (op_id o) /\ t.1 !! op_id o = Some o | Err _ => True end).
Proof using laws.
  unfold execute_deletion. apply reaches_option; [done|]. intros u Hu.
  eapply reaches_bind; [apply begin_execution_reaches|done|]. intros [o [|]].
  - apply reaches_ret. intros t [Ho <-]. by split.
  - apply (reaches_fact (op_id o = u)); [by intros t []|]. intros <-.
    apply (reaches_pre _ _ (mine is_executing (op_id o))); [|by intros t []].
    eapply reaches_conseq; [|done|].
    + eapply reaches_try; [apply execute_body_reaches| |]; [by intros|]. intros e.
      eapply reaches_pre; [apply (mark_outcome_reaches n []); [apply execution_failure_state|done]|].
      intros t Ht. split; [done|]. intros x Hx. by apply not_elem_of_nil in Hx.
    + intros [o'|] t; [|done]. intros [Ho' Hid]. by rewrite Hu, Hid.
Qed.

Lemma execute_deletion_reaches n id : reaches n (fun _ => True) (execute_deletion (B:=B) id) (fun _ _ => True).
Proof using laws. eapply reaches_conseq; [apply execute_deletion_returns|done|done]. Qed.

(** The row of a pending operation, as the object in hand has it. *)
Definition in_hand (o : DeletionOperation) (t : tables) : Prop := t.1 !! op_id o = Some o.

Lemma keeps_deletion_policy at_ : moves (keeps deletion_tables) (_deletion_policy (B:=B) at_).
Proof. unfold _deletion_policy, save_policy. frame_tac. Qed.

Lemma enqueue_reaches n o resume : is_pending_operation o = true ->
  reaches n (in_hand o) (_enqueue (B:=B) o resume) (fun _ _ => True).
Proof.
  intros Hp. unfold _enqueue. apply reaches_then; [frame_tac|done|]. intros current.
  apply reaches_then; [frame_tac|done|]. intros [job|]; [by apply reaches_ret|]. cbv zeta.
  apply reaches_then; [destruct resume; frame_tac|done|]. intros key. apply reaches_then; [apply keeps_deletion_policy|done|].
  intros policy. apply reaches_then; [by apply keeps_enqueue|done|]. intros job. apply reaches_then; [frame_tac|done|]. intros now.
  eapply (reaches_bind _ _ _ _ (fun _ _ => True)); [|done|by intros ?; apply reaches_ret].
  eapply save_operation_reaches; [by intros t Ht|by apply step_job|..|done|done].
  - intros Hc. unfold completed_operation, is_pending_operation in *. cbn in Hc. by destruct (op_state o).
  - intros t _ Hc. unfold completed_operation, is_pending_operation in *. cbn in Hc. by destruct (op_state o).
Qed.

Lemma resume_deletion_reaches n actor id : reaches n (fun _ => True) (resume_deletion (B:=B) actor id) (fun _ _ => True).
Proof.
  unfold resume_deletion. apply reaches_require; [done|]. intros _. apply reaches_option; [done|]. intros u _.
  eapply (reaches_bind _ _ _ _ (fun _ _ => True)); [|done|].
  2: { intros [o [|]]; [by apply reaches_ret|]. apply reaches_kept. unfold get_operation. frame_tac. }
  apply reaches_atomic; [|done]. unfold resume_locked. apply reaches_query. intros d. apply reaches_option; [done|].
  intros o Ho. destruct (completed_operation o) eqn:Hc; [by apply reaches_ret|]. apply reaches_then; [frame_tac|done|].
  intros now. apply (reaches_keyed (op_id o = u)); [intros m Hok _|intros <-].
  { by apply (proj1 (del_operations _ _ Hok)). }
  eapply (reaches_bind _ _ _ _ (fun r t => match r with Ok _ => in_hand (resumed now o) t | Err _ => True end)); [|done|].
  - eapply save_operation_reaches; [|by apply step_resume|done..| |done].
    + intros t [_ ->]. exact Ho.
    + intros t _. unfold in_hand. cbn. unfold put. by rewrite lookup_insert_eq.
  - intros []. apply reaches_then; [apply keeps_audit_deletion|done|]. intros _.
    eapply (reaches_bind _ _ _ _ (fun _ _ => True)); [by apply enqueue_reaches|done|]. intros ?. by apply reaches_ret.
Qed.

(** *** Creating an operation *)

Lemma save_operation_run (o : DeletionOperation) w :
  (exists e, save_operation (B:=B) o w = (Err e, w)) \/
  save_operation (B:=B) o w = (Ok tt, w <| db ::= fun d => d <| deletions ::= put (op_id o) o |> |>) /\
    operation_conflict o (db w) = false /\ operation_check o = true.
Proof.
  unfold save_operation. exec. destruct (operation_fits o); cbn; [|by left; eexists].
  destruct (operation_conflict o (db w)); cbn; [by left; eexists|]. destruct (operation_check o); cbn; [by right|by left; eexists].
Qed.

Lemma new_operation_reaches {A} n document actor hash reason correlation
    (k : N -> Z -> M B A) (R : result exn A -> tables -> Prop) :
  (forall e t, R (Err e) t) ->
  (forall id now, (n <= id)%N -> reaches n (in_hand (new_operation id now document actor hash reason correlation)) (k id now) R) ->
  reaches n (fun _ => True)
    (let* id := uuid4 in let* now := timezone_now in
     save_operation (new_operation id now document actor hash reason correlation) ;;; k id now) R.
Proof.
  intros He Hk w Hw Hn _. set (w1 := w <| next_uuid ::= N.succ |>).
  set (o := new_operation (next_uuid w) (clock w) document actor hash reason correlation).
  match goal with |- context [bind uuid4 ?f w] =>
    change (bind uuid4 f w) with (bind (save_operation o) (fun _ => k (next_uuid w) (clock w)) w1) end.
  assert (deletion_inv w1) as Hw1 by (apply (deletion_ok_mono (next_uuid w)); [cbn; lia|exact Hw]).
  assert (deletions (db w) !! next_uuid w = None) as Hnew by (eapply keyed_fresh; apply (del_operations _ _ Hw)).
  unfold bind. destruct (save_operation_run o w1) as [[e ->]|(-> & Hc & Hck)]; cbn [fst snd].
  { split_and!; [cbn; lia|done|reflexivity|apply He]. }
  set (w2 := w1 <| db ::= _ |>).
  assert (deletion_inv w2) as Hw2.
  { apply (deletion_ok_put _ _ o); [exact Hw1|cbn; lia|done..]. }
  assert (deletion_moves n (db w) (db w2)) as Hmv.
  { split; cbn; unfold put.
    - intros i x Hi. exists x. rewrite lookup_insert_ne by congruence. eauto using rtc_refl.
    - intros i x. rewrite lookup_insert_Some. intros [[<- <-]|[_ Hi]] Hno; [|congruence]. split; [done|].
      exists (next_uuid w), (clock w), document, actor, hash, reason, correlation. reflexivity.
    - intros j x Hj. exists x. by split_and!.
    - congruence. }
  destruct (Hk (next_uuid w) (clock w) Hn w2 Hw2) as (G1 & G2 & G3 & G4).
  - cbn. lia.
  - unfold in_hand. cbn. unfold put. by rewrite lookup_insert_eq.
  - split_and!; [cbn in G1; lia|done|by etrans|done].
Qed.

Lemma append_item_reaches n o kind target artifact : (n <= op_id o)%N -> completed_operation o = false ->
  reaches n (in_hand o) (_append_item (B:=B) (op_id o) kind target artifact) (fun _ => in_hand o).
Proof.
  intros Hn0 Hopen w Hw Hn Ho. set (w1 := w <| next_uuid ::= N.succ |>).
  set (x := new_item (next_uuid w) (clock w) (op_id o) kind target artifact).
  assert (deletion_inv w1) as Hw1 by (apply (deletion_ok_mono (next_uuid w)); [cbn; lia|exact Hw]).
  assert (deletion_items (db w) !! next_uuid w = None) as Hnew by (eapply keyed_fresh; apply (del_items _ _ Hw)).
  assert ((next_uuid w <= next_uuid w1)%N /\ deletion_inv w1 /\ deletion_moves n (db w) (db w1) /\
    in_hand o (deletion_tables (db w1))) as Hfail by (split_and!; [cbn; lia|done|reflexivity|done]).
  unfold _append_item. exec. fold x.
  do 2 (match goal with |- context [if ?b then _ else _] => destruct b end; cbn; [|exact Hfail]).
  split_and!; [lia| | |exact Ho].
  - apply (deletion_ok_new_item _ _ x); [exact Hw1|done|cbn; lia|by exists o|].
    intros o' Ho'. cbn in Ho'. unfold in_hand in Ho. cbn in Ho. congruence.
  - by apply (deletion_moves_new_item n (db w) x).
Qed.

Lemma for_each_reaches {A C} n P (xs : list A) (f : A -> M B C) :
  (forall x, reaches n P (f x) (fun _ => P)) -> reaches n P (for_each xs f) (fun _ => P).
Proof.
  intros Hf. induction xs as [|x xs IH]; cbn [for_each]; [by apply reaches_ret|].
  eapply (reaches_bind _ _ _ _ (fun _ => P)); [apply Hf|done|]. intros c.
  eapply (reaches_bind _ _ _ _ (fun _ => P)); [apply IH|done|]. intros cs. by apply reaches_ret.
Qed.

Lemma create_operation_reaches n document actor reason correlation :
  reaches n (fun _ => True) (create_operation (B:=B) document actor reason correlation) (fun _ _ => True).
Proof.
  unfold create_operation. apply new_operation_reaches; [done|]. intros id now Hid.
  set (o := new_operation _ _ _ _ _ _ _).
  eapply (reaches_bind _ _ _ _ (fun _ => in_hand o)); [|done|].
  { unfold _enumerate_items. eapply (reaches_bind _ _ _ _ (fun _ => in_hand o)); [|done|intros ?; by apply reaches_ret].
    apply for_each_reaches. intros x. by apply (append_item_reaches n o). }
  intros count. apply reaches_then; [frame_tac|done|]. intros artifact_items. apply reaches_then; [frame_tac|done|].
  intros later. cbv zeta.
  match goal with |- reaches _ _ (bind (save_operation ?o') _) _ => set (o1 := o') end.
  eapply (reaches_bind _ _ _ _ (fun r t => match r with Ok _ => in_hand o1 t | Err _ => True end)); [|done|].
  - eapply save_operation_reaches; [by intros t Ht|by apply step_checkpoint|done|done| |done].
    intros t _. unfold in_hand. cbn. unfold put. by rewrite lookup_insert_eq.
  - intros []. apply reaches_then; [apply keeps_audit_deletion|done|]. intros _. by apply enqueue_reaches.
Qed.

Lemma request_deletion_reaches n actor id hash version confirmation reason :
  reaches n (fun _ => True) (request_deletion (B:=B) actor id hash version confirmation reason) (fun _ _ => True).
Proof.
  unfold request_deletion. apply reaches_require; [done|]. intros _. apply reaches_option; [done|]. intros u _.
  apply reaches_then; [frame_tac|done|]. intros h. apply reaches_require; [done|]. intros _.
  apply reaches_then; [frame_tac|done|]. intros r. apply reaches_then; [frame_tac|done|]. intros c.
  apply reaches_then; [frame_tac|done|]. intros a. generalize (deletion_correlation u h) as cor. intros cor.
  assert (reaches n (fun _ => True) (request_locked (B:=B) u a h c r cor) (fun _ _ => True)) as Hlocked.
  { unfold request_locked. apply reaches_then; [frame_tac|done|]. intros row. apply reaches_require; [done|]. intros _.
    apply reaches_then; [apply keeps_load|done|]. intros document. cbv zeta.
    do 2 (apply reaches_require; [done|]; intros _). apply reaches_then; [frame_tac|done|]. intros [o|].
    - apply reaches_require; [done|]. intros _. by apply reaches_ret.
    - apply reaches_then; [unfold localdate; frame_tac|done|]. intros today. apply reaches_require; [done|]. intros _.
      eapply (reaches_bind _ _ _ _ (fun _ _ => True)); [apply create_operation_reaches|done|]. intros ?. by apply reaches_ret. }
  generalize 2%nat as tries. induction tries as [|tries IH]; cbn [request_tries]; [by apply reaches_throw|].
  eapply (reaches_try _ _ _ _ (fun _ _ => True)); [|done|].
  - apply reaches_atomic; [|done]. eapply reaches_conseq; [exact Hlocked|done|]. by intros [].
  - intros []; first [exact IH | by apply reaches_throw].
Qed.

End walk.
