(* ===== verification/DeletionGuarantees.v ===== *)
(** * Guarantees of document deletion

    The protocol any sequence of commands follows, what a completed operation has
    removed, when a document may disappear at all, what a request records, and
    the operations that can never complete. *)

From Stdlib Require Import ZArith Ascii String Lia.
From stdpp Require Import base decidable list gmap strings relations.
From S2P Require Import Prelude PyStr Sha256 PyVal AuditTrail Identity Companies JobPolicies JobEngine JobLifecycle JobGuarantees Tables Artifacts ArtifactFacts Models Retention Deletion DeletionFacts.

Local Open Scope string_scope.

Section guarantees.
Context {B : Type} `{!External B} {heap : Heap} {laws : ExternalLaws B}.
Implicit Types (w : World B) (o : DeletionOperation).

(** ** The protocol *)

(** What may happen to the world: the three commands, the job handler, and
    anything else that leaves the two tables alone - other components, the
    passing of time, the connection, the bucket. *)
Inductive deletion_event : relation (World B) :=
| by_request actor id hash version confirmation reason w :
    deletion_event w (request_deletion actor id hash version confirmation reason w).2
| by_resume actor id w : deletion_event w (resume_deletion actor id w).2
| by_execution id w : deletion_event w (execute_deletion id w).2
| by_job job w : deletion_event w (deletion_handler job w).2
| by_others w w' : deletion_tables (db w') = deletion_tables (db w) -> (next_uuid w <= next_uuid w')%N -> deletion_event w w'.

Lemma handler_reaches n job : reaches n (fun _ => True) (deletion_handler (B:=B) job) (fun _ _ => True).
Proof using laws.
  unfold deletion_handler, execute_outcome. destruct (job_payload job) eqn:Hp; try by apply reaches_throw.
  destruct (assoc _ _) as [[]|]; try by apply reaches_ret.
  eapply (reaches_bind _ _ _ _ (fun _ _ => True)); [|done|intros ?; by apply reaches_ret].
  eapply (reaches_try _ _ _ _ (fun _ _ => True)); [|done|].
  - eapply (reaches_bind _ _ _ _ (fun _ _ => True)); [by apply execute_deletion_reaches|done|intros ?; by apply reaches_ret].
  - intros []; try by apply reaches_throw. destruct (String.eqb _ _); [by apply reaches_ret|by apply reaches_throw].
Qed.

Lemma event_moves n w w' : deletion_event w w' -> deletion_inv w -> (n <= next_uuid w)%N ->
  (next_uuid w <= next_uuid w')%N /\ deletion_inv w' /\ deletion_moves n (db w) (db w').
Proof using laws.
  intros He Hw Hn.
  assert (forall A (m : M B A), reaches n (fun _ => True) m (fun _ _ => True) ->
    (next_uuid w <= next_uuid (m w).2)%N /\ deletion_inv (m w).2 /\ deletion_moves n (db w) (db (m w).2)) as Hr.
  { intros A m Hm. destruct (Hm w Hw Hn I) as (? & ? & ? & _). by split_and!. }
  destruct He; [apply Hr, request_deletion_reaches|apply Hr, resume_deletion_reaches|by apply Hr, execute_deletion_reaches|
    by apply Hr, handler_reaches|].
  split_and!; [done| |by apply deletion_moves_same]. eapply deletion_ok_same; [done|]. by eapply deletion_ok_mono.
Qed.

Lemma events_move n w w' : rtc deletion_event w w' -> deletion_inv w -> (n <= next_uuid w)%N ->
  (next_uuid w <= next_uuid w')%N /\ deletion_inv w' /\ deletion_moves n (db w) (db w').
Proof using laws.
  induction 1 as [w|w1 w2 w3 He _ IH]; intros Hw Hn; [by split_and!|].
  destruct (event_moves n w1 w2 He Hw Hn) as (H1 & H2 & H3). destruct (IH H2 ltac:(lia)) as (G1 & G2 & G3).
  split_and!; [lia|done|by etrans].
Qed.

(** C4 Whatever the commands, in any order and with anything else happening in
    between, the tables of deletions stay well-formed - at most one active
    operation per document, every item of a completed operation completed - and
    every operation goes on from where it was by the steps of the life cycle,
    with the intent it was requested with; a completed operation and its items
    never change again; and the set of items of an operation is fixed when it is
    requested. *)
Theorem deletion_protocol w w' : deletion_inv w -> rtc deletion_event w w' ->
  deletion_inv w' /\
  (forall i o, deletions (db w) !! i = Some o -> exists o', deletions (db w') !! i = Some o' /\
     rtc deletion_step o o' /\ same_intent o o' /\ (completed_operation o = true -> o' = o)) /\
  (forall j x, deletion_items (db w) !! j = Some x -> exists x', deletion_items (db w') !! j = Some x' /\ same_target x x' /\
     (forall o, deletions (db w) !! di_operation x = Some o -> completed_operation o = true -> x' = x)) /\
  (forall j x', deletion_items (db w') !! j = Some x' -> is_Some (deletions (db w) !! di_operation x') ->
     is_Some (deletion_items (db w) !! j)).
Proof using laws.
  intros Hw He. destruct (events_move (next_uuid w) w w' He Hw (N.le_refl _)) as (_ & Hw' & [Hk _ Hi Hm]).
  split; [done|]. split; [|split; [done|]].
  - intros i o (o' & Ho' & Hs)%Hk. exists o'. split_and!; [done|done|by apply life_intent|by apply life_final].
  - intros j x' Hj [o Ho]. destruct (deletion_items (db w) !! j) eqn:Hx; [done|]. specialize (Hm _ _ Hj Hx).
    apply (proj1 (del_operations _ _ Hw)) in Ho. lia.
Qed.

(** ** The relational part *)

Lemma lookup_delete_where {R} (p : R -> bool) (t : gmap N R) i r :
  delete_where p t !! i = Some r <-> t !! i = Some r /\ p r = false.
Proof. unfold delete_where. rewrite map_lookup_filter_Some. done. Qed.

(** The database but for the trail, and one more event in it. *)
Definition unaudited (d : DB) : DB := d <| audit_chain := None |> <| audit_events := [] |>.

Definition reported (o : DeletionOperation) (result : string) (d d' : DB) : Prop :=
  exists e, audit_events d' = (audit_events d ++ [e])%list /\ ae_action e = "document.delete" /\ ae_entity_type e = "document" /\
    ae_entity_id e = uuid_str (op_target_document_id o) /\ ae_result e = result /\
    ae_correlation_id e = op_correlation_id o /\ ae_reason e = strip (op_reason o).

Lemma audit_reports o result code w u w' :
  _audit (B:=B) o result "document.delete" code w = (Ok u, w') -> unaudited (db w') = unaudited (db w) /\ reported o result (db w) (db w').
Proof using Type.
  unfold _audit. intros H. apply bind_inv in H as (role & w1 & Hrole & H).
  assert (db w1 = db w) as Hdb.
  { destruct (op_actor o); [|by invert_db]. by invert_db. }
  apply try_inv in H as [H|(e & w2 & _ & H)]; [|by destruct e].
  apply bind_inv in H as (e & w2 & Ha & H). apply ret_inv in H as [_ ->].
  apply append_run in Ha as [_ (actor & row & _ & -> & (ip & context & ->)%stored_shape & ->)]. rewrite Hdb. split; [done|]. eexists. split; [reflexivity|done].
Qed.

(** What the completion of an operation does to the tables. *)
Definition without_artifacts (ids : list N) (t : gmap N Artifact) : gmap N Artifact := foldl (fun t a => base.delete a t) t ids.

Definition relationally_removed (id : N) (o : DeletionOperation) (items : list DeletionItem) (now : Z) (d : DB) : DB :=
  let document := op_target_document_id o in
  let artifact_ids := artifact_ids_of items in
  detach document (event_ids_of items) artifact_ids now d
    <| events ::= delete_where (fun e => N.eqb (de_parent_document e) document) |> <| documents ::= base.delete document |>
    <| artifacts ::= without_artifacts artifact_ids |>
    <| deletion_items ::= update_where (fun i => N.eqb (di_operation i) id) (completed_item now) |>
    <| deletions ::= put (op_id o) (completed (length items) (length artifact_ids) now o) |>.

(** One write: the database, and the clock. *)
Definition wrote (f : DB -> DB) w w' : Prop := db w' = f (db w) /\ clock w' = clock w.

Lemma write_wrote f w u w' : write f w = (Ok u, w') -> wrote f w w'.
Proof using Type. by intros ->%write_inv. Qed.

Lemma delete_artifacts_wrote ids w r w' : for_each ids (delete_artifact (B:=B)) w = (Ok r, w') ->
  wrote (fun d => d <| artifacts ::= without_artifacts ids |>) w w' /\
  forall a, a ∈ ids -> is_Some (artifacts (db w) !! a) -> artifact_referenced a (db w) = false.
Proof using Type.
  revert w r. induction ids as [|a ids IH]; intros w r H; cbn [for_each] in H.
  { apply ret_inv in H as [_ ->]. split; [by split; [destruct w as [[]]|]|]. intros a Ha. by apply not_elem_of_nil in Ha. }
  apply bind_inv in H as (u & w1 & Ha & H). apply bind_inv in H as (r' & w2 & Hr & H). apply ret_inv in H as [_ ->].
  unfold delete_artifact in Ha. invert_db. destruct (IH _ _ Hr) as [[Hdb Hck] Hrest].
  split; [by split; [rewrite Hdb|]|]. intros b Hb [x Hx]. destruct (decide (b = a)) as [->|Hne].
  - match goal with H : negb _ = true |- _ => rewrite Hx in H; cbn in H; by destruct (artifact_referenced a (db w)) end.
  - apply elem_of_cons in Hb as [->|Hb]; [done|]. change (artifact_referenced b (db w))
      with (artifact_referenced b (db w <| artifacts ::= base.delete a |>)). apply Hrest; [done|].
    cbn. rewrite lookup_delete_ne by done. eauto.
Qed.

Lemma lookup_without ids t a : a ∈ ids -> without_artifacts ids t !! a = None.
Proof using Type.
  unfold without_artifacts. revert t. induction ids as [|b ids IH]; intros t Ha; [by apply not_elem_of_nil in Ha|]. cbn.
  destruct (decide (a ∈ ids)) as [Hin|Hout]; [by apply IH|]. apply elem_of_cons in Ha as [->|]; [|done].
  assert (forall t : gmap N Artifact, t !! b = None -> foldl (fun t a => base.delete a t) t ids !! b = None) as Hn; [|apply Hn, lookup_delete_eq].
  clear. induction ids as [|c ids IH]; intros t Ht; [done|]. cbn. apply IH. by apply lookup_delete_None; right.
Qed.

(** The protections do not read the tables written last. *)
Lemma protected_blind document d f1 f2 f3 f4 :
  document_protected document (unaudited (d <| documents ::= f1 |> <| artifacts ::= f2 |> <| deletion_items ::= f3 |>
    <| deletions ::= f4 |>)) = document_protected document d.
Proof using Type. reflexivity. Qed.

Lemma referenced_blind a d f1 f2 f3 :
  artifact_referenced a (unaudited (d <| artifacts ::= f1 |> <| deletion_items ::= f2 |> <| deletions ::= f3 |>)) =
  artifact_referenced a d.
Proof using Type. reflexivity. Qed.

Lemma delete_events_wrote document w u w' : delete_events (B:=B) document w = (Ok u, w') ->
  wrote (fun d => d <| events ::= delete_where (fun e => N.eqb (de_parent_document e) document) |>) w w'.
Proof using Type. unfold delete_events. intros H. by invert_db. Qed.

Lemma delete_document_wrote document w u w' : delete_document (B:=B) document w = (Ok u, w') ->
  wrote (fun d => d <| documents ::= base.delete document |>) w w' /\
  is_Some (documents (db w) !! document) /\ document_protected document (db w) = false.
Proof using Type.
  unfold delete_document. intros H. invert_db. bools. split_and!; [done| |done].
  match goal with H : is_some ?o = true |- _ => destruct o; [eauto|done] end.
Qed.

Lemma save_operation_wrote o w u w' : save_operation (B:=B) o w = (Ok u, w') ->
  wrote (fun d => d <| deletions ::= put (op_id o) o |>) w w'.
Proof using Type. intros H. destruct (save_operation_run o w) as [[e He]|(He & _)]; rewrite He in H; [done|]. by injection H as _ <-. Qed.

(** The run of a completion, step by step. *)
Lemma finalize_steps id w o' w' : finalize_locked (B:=B) id w = (Ok o', w') ->
  exists o, deletions (db w) !! id = Some o /\
    let document := op_target_document_id o in
    let items := items_of id (db w) in
    let d1 := detach document (event_ids_of items) (artifact_ids_of items) (clock w) (db w)
                <| events ::= delete_where (fun e => N.eqb (de_parent_document e) document) |> in
    existsb incomplete items = false /\ is_Some (documents d1 !! document) /\ document_protected document d1 = false /\
    (forall a, a ∈ artifact_ids_of items -> is_Some (artifacts d1 !! a) ->
       artifact_referenced a (d1 <| documents ::= base.delete document |>) = false) /\
    o' = completed (length items) (length (artifact_ids_of items)) (clock w) o /\
    exists w1, unaudited (db w') = unaudited (relationally_removed id o items (clock w) (db w)) /\
      audit_events (db w1) = audit_events (db w) /\ reported o "completed" (db w1) (db w').
Proof using Type.
  unfold finalize_locked, get_operation. intros Hf.
  apply bind_inv in Hf as (o & w0 & Ho & Hf). apply bind_inv in Ho as (row & w1 & Hrow & Ho).
  apply query_inv in Hrow as [-> ->]. apply of_option_inv in Ho as [Ho ->].
  apply bind_inv in Hf as (items & w1 & Hi & Hf). apply query_inv in Hi as [-> ->].
  apply bind_inv in Hf as (u1 & w1 & Hi & Hf). apply require_inv in Hi as [Hinc ->]. apply negb_true_iff in Hinc.
  apply bind_inv in Hf as (now & w1 & Hi & Hf). apply now_inv in Hi as [-> ->].
  apply bind_inv in Hf as (u2 & w1 & Hi & Hf). apply write_wrote in Hi as [H1 C1].
  apply bind_inv in Hf as (u3 & w2 & Hi & Hf). apply delete_events_wrote in Hi as [H2 C2]. rewrite H1 in H2.
  apply bind_inv in Hf as (u4 & w3 & Hi & Hf). apply delete_document_wrote in Hi as ([H3 C3] & Hthere & Hprot).
  apply bind_inv in Hf as (u5 & w4 & Hi & Hf). apply delete_artifacts_wrote in Hi as ([H4 C4] & Hfree).
  apply bind_inv in Hf as (now & w5 & Hi & Hf). apply now_inv in Hi as [-> ->].
  apply bind_inv in Hf as (u6 & w5 & Hi & Hf). apply write_wrote in Hi as [H5 _]. cbv zeta in Hf.
  assert (clock w4 = clock w) as Hck by congruence. rewrite Hck in Hf, H5.
  apply bind_inv in Hf as (u7 & w6 & Hi & Hf). apply save_operation_wrote in Hi as [H6 _].
  apply bind_inv in Hf as (u8 & w7 & Hi & Hf). apply audit_reports in Hi as [Hsame Hrep]. apply ret_inv in Hf as [-> ->].
  exists o. split; [done|]. cbv zeta. rewrite <-H2. split_and!; [done|done|done| |done|].
  - intros a Ha Hs. rewrite H3 in Hfree. by apply Hfree.
  - exists w6. split_and!; [|by rewrite H6, H5, H4, H3, H2|exact Hrep].
    rewrite Hsame. f_equal. rewrite H6, H5, H4, H3, H2. reflexivity.
Qed.

(** ** When a document may disappear *)

(** What a document is loaded from. *)
Definition document_sources (d : DB) := (documents d, evidence d, events d, event_evidence d, renders d, artifacts d).

Lemma keeps_sources_mark id s code item : moves (keeps document_sources) (_mark_outcome (B:=B) id s code item).
Proof using Type. unfold _mark_outcome, _audit, get_operation, save_operation, update_item. frame_tac. Qed.

Lemma keeps_sources_process o y : moves (keeps document_sources) (_process_artifact (B:=B) o y).
Proof using laws.
  unfold _process_artifact. apply moves_bind; [apply _| |].
  - unfold _claim_item, get_item, update_item. frame_tac.
  - intros [c|]; [|frame_tac]. destruct (di_artifact_id c); [|apply moves_bind; [apply _|apply keeps_sources_mark|frame_tac]].
    destruct (di_expected_size_bytes c); [|apply moves_bind; [apply _|apply keeps_sources_mark|frame_tac]].
    destruct (di_expected_version c); [|apply moves_bind; [apply _|apply keeps_sources_mark|frame_tac]].
    apply moves_bind; [apply _| |].
    + apply moves_try; [apply _|apply moves_bind; [apply _|by apply keeps_delete_for_deletion|frame_tac]|frame_tac].
    + intros [code|]; [apply moves_bind; [apply _|apply keeps_sources_mark|frame_tac]|]. unfold update_item. frame_tac.
Qed.

(** Only the last step deletes a document, and then the operation is completed. *)
Definition deletes_only (r : result exn DeletionOperation) w w' : Prop :=
  documents (db w') = documents (db w) \/
  exists o, r = Ok o /\ completed_operation o = true /\ documents (db w') = base.delete (op_target_document_id o) (documents (db w)).

Lemma deletes_only_after r w w1 w' : document_sources (db w1) = document_sources (db w) -> deletes_only r w1 w' -> deletes_only r w w'.
Proof using Type. unfold deletes_only. by intros [= -> _ _ _ _ _]. Qed.

Lemma kept_sources {A} (m : M B A) w r w' : moves (keeps document_sources) m -> m w = (r, w') ->
  document_sources (db w') = document_sources (db w).
Proof using Type. intros Hm Hr. by destruct (moves_run _ _ _ _ _ Hm Hr) as [H _]. Qed.

Lemma kept_documents {A} (m : M B A) w r w' : moves (keeps document_sources) m -> m w = (r, w') -> documents (db w') = documents (db w).
Proof using Type. intros Hm Hr. by pose proof (kept_sources _ _ _ _ Hm Hr) as [= -> _ _ _ _ _]. Qed.

Lemma finalize_deletes_only id w r w' : _finalize_relational (B:=B) id w = (r, w') -> deletes_only r w w'.
Proof using Type.
  intros Hf. destruct r as [o'|e]; [|left; by rewrite (atomic_rollback _ _ _ _ Hf)].
  apply atomic_inv in Hf as [_ Hf].
  destruct (finalize_steps _ _ _ _ Hf) as (o & _ & _ & _ & _ & _ & -> & w1 & Hsame & _). right. eexists. split; [reflexivity|].
  split; [done|]. change (documents (db w')) with (documents (unaudited (db w'))). by rewrite Hsame.
Qed.

Lemma deletes_only_bind {A} (m : M B A) k w r w' : moves (keeps document_sources) m -> bind m k w = (r, w') ->
  (forall a w1, document_sources (db w1) = document_sources (db w) -> k a w1 = (r, w') -> deletes_only r w1 w') -> deletes_only r w w'.
Proof using Type.
  intros Hm Hr Hk. unfold bind in Hr. destruct (m w) as [[a|e] w1] eqn:Hw; pose proof (kept_sources _ _ _ _ Hm Hw) as Hs.
  - eapply deletes_only_after; [exact Hs|]. by eapply Hk.
  - injection Hr as <- <-. left. by injection Hs.
Qed.

Lemma process_items_deletes_only id items w r w' : process_items (B:=B) id items w = (r, w') -> deletes_only r w w'.
Proof using laws.
  revert w. induction items as [|y items IH]; intros w; cbn [process_items]; [apply finalize_deletes_only|].
  destruct (negb _); [apply IH|]. intros Hr.
  eapply deletes_only_bind; [|exact Hr|]; [frame_tac|]. intros now w1 _ Hr1.
  eapply deletes_only_bind; [|exact Hr1|]; [frame_tac|]. intros [] w2 _ Hr2.
  eapply deletes_only_bind; [|exact Hr2|]; [unfold get_operation; frame_tac|]. intros o w3 _ Hr3.
  eapply deletes_only_bind; [|exact Hr3|]; [apply keeps_sources_process|]. intros [o'|] w4 _ Hr4; [|by apply IH].
  injection Hr4 as <- <-. by left.
Qed.

(** A run that deletes a document found it eligible, with the scope it was
    asked for. *)
Lemma execute_body_due o w r w' i doc :
  execute_body (B:=B) o w = (r, w') -> documents (db w) !! i = Some doc -> documents (db w') !! i = None ->
  exists o', r = Ok o' /\ completed_operation o' = true /\ op_target_document_id o' = i /\
    forall doc', documents (db w) !! op_target_document_id o = Some doc' ->
      scope_hash (load_unordered (db w) doc') = op_scope_hash o /\
      is_eligible (decision_for_document (B:=B) (load_unordered (db w) doc') None (_civil_date (B:=B) (clock w))) = true.
Proof using laws.
  intros Hr Hi Hgone.
  assert (documents (db w') = documents (db w) -> False) as Hchanged by (intros He; rewrite He in Hgone; congruence).
  unfold execute_body in Hr. cbv zeta in Hr. unfold bind in Hr at 1.
  destruct (autocommit (_load_document _) w) as [[document|e] w1] eqn:Hload.
  2:{ injection Hr as <- <-. destruct Hchanged. eapply kept_documents; [|exact Hload]. unfold _load_document. frame_tac. }
  apply atomic_inv in Hload as [_ Hload]. unfold _load_document in Hload. invert_db.
  match goal with H : Some document = _ |- _ => rename H into Hdoc end.
  destruct (String.eqb (scope_hash document) (op_scope_hash o)) eqn:Hhash; cbn [negb] in Hr.
  2:{ destruct Hchanged. eapply kept_documents; [apply keeps_sources_mark|exact Hr]. }
  unfold localdate in Hr. unfold bind at 1 2, timezone_now, gets, ret in Hr. cbn beta iota in Hr.
  destruct (is_eligible _) eqn:He; cbn [negb] in Hr.
  2:{ destruct Hchanged. eapply kept_documents; [apply keeps_sources_mark|exact Hr]. }
  assert (deletes_only r w w') as [Hsame|(o' & -> & Hc & Hd)].
  { eapply deletes_only_bind; [|exact Hr|]; [frame_tac|]. intros items w2 _ Hr2. by eapply process_items_deletes_only. }
  { by destruct Hchanged. }
  exists o'. split_and!; [done|done| |].
  - rewrite Hd, lookup_delete_None in Hgone. destruct Hgone as [Hgone|]; [done|congruence].
  - intros doc' Hdoc'. rewrite Hdoc' in Hdoc. cbn in Hdoc. injection Hdoc as <-. split; [by apply String.eqb_eq|exact He].
Qed.

Lemma begin_execution_inv u w o w1 : begin_execution (B:=B) u w = (Ok (o, false), w1) ->
  exists o0, deletions (db w) !! u = Some o0 /\ completed_operation o0 = false /\ o = executing (clock w) o0.
Proof using Type.
  intros [_ Hb]%atomic_inv. apply bind_inv in Hb as (row & w2 & Hq & Hb). apply query_inv in Hq as [-> ->].
  apply bind_inv in Hb as (o0 & w2 & Hq & Hb). apply of_option_inv in Hq as [Hrow ->]. exists o0.
  destruct (completed_operation o0) eqn:Hc; [by invert_db|]. apply bind_inv in Hb as (now & w2 & Hq & Hb).
  apply now_inv in Hq as [-> ->]. apply bind_inv in Hb as (x & w2 & _ & Hb). apply ret_inv in Hb as [[= ->] _]. by split_and!.
Qed.

(** C3 A document only disappears by the execution of a deletion an
    administrator asked for, and that execution completed: in the rows as they
    were when it began, the document's scope had the hash the operation was
    requested with and the document was eligible on the day. *)
Theorem document_deleted_when_due (operation_id : uuid_ref) w (i : N) (doc : Document) :
  let r := execute_deletion (B:=B) operation_id w in
  deletion_inv w -> documents (db w) !! i = Some doc -> documents (db r.2) !! i = None ->
  exists o o' d, uuid_of operation_id = Some (op_id o) /\ deletions (db w) !! op_id o = Some o /\
    op_target_document_id o = i /\ completed_operation o = false /\
    document_sources d = document_sources (db w) /\ scope_hash (load_unordered d doc) = op_scope_hash o /\
    rd_state (decision_for_document (B:=B) (load_unordered d doc) None (_civil_date (B:=B) (clock w))) = RetentionState.ELIGIBLE /\
    r.1 = Ok o' /\ deletions (db r.2) !! op_id o = Some o' /\ op_state o' = DeletionOperationState.COMPLETED.
Proof using laws.
  cbv zeta. intros Hw Hi Hgone.
  destruct (execute_deletion_returns (next_uuid w) operation_id w Hw (N.le_refl _) I) as (_ & _ & Hmv & Hret).
  assert (documents (db (execute_deletion operation_id w).2) = documents (db w) -> False) as Hchanged
    by (intros He; rewrite He in Hgone; congruence).
  destruct (execute_deletion operation_id w) as [r w'] eqn:Hr. cbn [fst snd] in *.
  unfold execute_deletion in Hr. destruct (uuid_of operation_id) as [u|]; [|by injection Hr as <- <-; destruct Hchanged].
  cbn [of_option] in Hr. unfold bind at 1, ret at 1 in Hr. unfold bind in Hr.
  assert (moves (keeps document_sources) (begin_execution (B:=B) u)) as Hkeep by (unfold begin_execution, save_operation; frame_tac).
  destruct (begin_execution u w) as [[[o c]|e] w1] eqn:Hb.
  2:{ injection Hr as <- <-. destruct Hchanged. by eapply kept_documents. }
  destruct (moves_run _ _ _ _ _ Hkeep Hb) as (Hsrc & Hck & _).
  assert (documents (db w1) = documents (db w)) as Hd1 by (by injection Hsrc).
  destruct c; [by injection Hr as <- <-; destruct Hchanged|].
  destruct (begin_execution_inv _ _ _ _ Hb) as (o0 & Ho0 & Hopen & ->).
  rewrite <-Hd1 in Hi. unfold try_except in Hr. destruct (execute_body _ w1) as [x w2] eqn:He.
  assert (documents (db w') = documents (db w2)) as Hd2.
  { destruct x as [x|e]; [by injection Hr as <- <-|]. eapply kept_documents; [|exact Hr]. apply keeps_sources_mark. }
  rewrite Hd2 in Hgone. destruct (execute_body_due _ _ _ _ _ _ He Hi Hgone) as (o' & -> & Hc' & Htarget & Hdue).
  injection Hr as <- <-. destruct Hret as [Hu Ho']. injection Hu as ->. cbn in Ho'.
  destruct (mv_known _ _ _ Hmv _ _ Ho0) as (o1 & Ho1 & Hlife). assert (o1 = o') as -> by congruence.
  pose proof (life_intent _ _ Hlife) as (Hid & Htg & _).
  assert (op_target_document_id o0 = i) as Hi0 by congruence. cbn in Hdue. rewrite Hi0 in Hdue.
  destruct (Hdue _ Hi) as [Hhash Helig]. exists o0, o', (db w1). rewrite <-Hid, <-Hck.
  split_and!; [done|done|done|done|done|done| |done|done|].
  - unfold is_eligible in Helig. by destruct (rd_state _).
  - unfold completed_operation in Hc'. by destruct (op_state o').
Qed.

(** ** Operations that can never complete *)

(** Item [x0] of operation [u] is an artifact that was not deleted by it, and
    whose object is not in the bucket; whatever row the artifact has names
    [key]. *)
Record lost_checkpoint (u : N) (x0 : DeletionItem) (key : string) w : Prop := {
  lost_kind : is_artifact_item x0 = true;
  lost_operation : di_operation x0 = u;
  lost_keyed : forall j x, deletion_items (db w) !! j = Some x -> di_id x = j;
  lost_item : exists x, deletion_items (db w) !! di_id x0 = Some x /\ same_target x0 x /\ item_completed x = false;
  lost_row : forall a art, di_artifact_id x0 = Some a -> artifacts (db w) !! a = Some art -> art_object_key art = key;
  lost_object : (head key w).1 = Ok None }.

Section lost.
Context (u : N) (x0 : DeletionItem) (key : string).
#[local] Abbreviation stuck := (lost_checkpoint u x0 key).

Definition item_rows (d : DB) := (deletion_items d, artifacts d).

Lemma stuck_same w w' : item_rows (db w') = item_rows (db w) -> bucket w' = bucket w -> stuck w -> stuck w'.
Proof using laws.
  intros [= Hi Ha] Hb [H1 H2 Hk H3 H4 H5]. split; [done|done|by rewrite Hi|by rewrite Hi|intros a art; rewrite Ha; by apply H4|].
  by rewrite (head_local key w' w).
Qed.

Lemma stuck_kept {A} (m : M B A) : moves (keeps item_rows) m -> moves env_grows m -> preserves stuck m.
Proof using laws. intros Hm He w. destruct (Hm w) as (Ht & _). destruct (He w) as (_ & _ & Hb & _). by apply stuck_same. Qed.

Lemma stuck_atomic {A} (m : M B A) : preserves stuck m -> preserves stuck (atomic m).
Proof using laws.
  apply preserves_atomic. intros w w' [H1 H2 Hk H3 H4 _] [_ _ _ _ _ H5]. split; [done..|].
  by rewrite (head_local key _ w').
Qed.

Lemma stuck_update id f : (forall x, same_target x (f x)) -> (forall x, item_completed (f x) = true -> id <> di_id x0) ->
  preserves stuck (update_item (B:=B) id f).
Proof using laws.
  intros Hf Hc w [H1 H2 Hk (x & Hx & Ht & Hn) H4 H5]. cbn. split; [done|done| | |done|by rewrite (head_local key _ w)].
  { intros j y. cbn. destruct (decide (id = j)) as [<-|Hne]; [|rewrite lookup_alter_ne by done; apply Hk].
    rewrite lookup_alter_eq. destruct (deletion_items (db w) !! id) as [z|] eqn:Hz; [|done]. intros [= <-].
    destruct (Hf z) as [-> _]. by apply Hk. }
  cbn. destruct (decide (id = di_id x0)) as [->|Hne].
  - exists (f x). rewrite lookup_alter_eq, Hx. split; [done|]. split; [by etrans|].
    destruct (item_completed (f x)) eqn:He; [by apply Hc in He|done].
  - exists x. by rewrite lookup_alter_ne.
Qed.

Lemma stuck_save o : preserves stuck (save_operation (B:=B) o).
Proof using laws. apply stuck_kept; unfold save_operation; [frame_tac|env_tac]. Qed.

Lemma stuck_audit o result action code : preserves stuck (_audit (B:=B) o result action code).
Proof using laws. apply stuck_kept; unfold _audit; [frame_tac|env_tac]. Qed.

Lemma stuck_now : preserves stuck timezone_now.
Proof using Type. by intros w. Qed.

Lemma stuck_query {A} (f : DB -> A) : preserves stuck (query f).
Proof using Type. by intros w. Qed.

Hint Resolve stuck_atomic stuck_save stuck_audit stuck_now stuck_query : nfx.

Lemma stuck_mark id s code item : preserves stuck (_mark_outcome (B:=B) id s code item).
Proof using laws.
  unfold _mark_outcome, get_operation, autocommit. apply preserves_bind; [auto with nfx|]. intros current.
  apply preserves_bind; [|intros o; preserve; by destruct (is_audit_failure _)]. apply stuck_atomic.
  apply preserves_bind; [|intros ?; preserve].
  destruct item as [j|]; [|auto with nfx]. apply preserves_bind; [auto with nfx|]. intros ?.
  apply stuck_update; [done|]. intros x Hx. unfold item_completed in Hx. cbn in Hx. by destruct (recovery s).
Qed.

Lemma stuck_claim id : preserves stuck (_claim_item (B:=B) id).
Proof using laws.
  unfold _claim_item, get_item, autocommit. apply preserves_bind.
  - apply stuck_atomic. preserve. by apply stuck_update.
  - intros []; [|apply preserves_ret]. apply preserves_bind; [apply stuck_atomic; preserve|intros ?; apply preserves_ret].
Qed.

(** The object of the item is not deleted a second time, and no deletion brings
    it back. *)
Lemma stuck_delete a prefix size version : preserves stuck (delete_for_deletion (B:=B) a prefix size version).
Proof using laws.
  intros w Hw. pose proof Hw as [H1 H2 Hk H3 H4 H5].
  destruct (delete_for_deletion_guarded a prefix size version w) as (Hdb & _ & _).
  split; [done|done|by rewrite Hdb|by rewrite Hdb|by rewrite Hdb|].
  unfold delete_for_deletion, atomic. destruct (online w); [|done].
  assert (forall w', (head key w').1 = Ok None -> (head key (w' <| db := db w |>)).1 = Ok None) as Hroll
    by (intros w' <-; by apply head_local).
  unfold bind, query, gets, require, try_except. destruct (artifacts (db w) !! a) as [art|]; [|by apply Hroll].
  destruct (_ && _); cbn beta iota zeta; [|by apply Hroll]. unfold ret, throw; cbn beta iota zeta.
  pose proof (head_pure (art_object_key art) w) as Hp.
  destruct (head (art_object_key art) w) as [[[m|]|e] w1]; cbn in Hp; subst w1; [|by apply Hroll..].
  destruct (same_content art m); [|by apply Hroll]. cbn beta iota zeta.
  pose proof (delete_missing (art_object_key art) key w H5) as Hd.
  destruct (delete (art_object_key art) w) as [[[]|e] w2]; cbn in *; [done|by apply Hroll].
Qed.

Lemma stuck_undeletable w a prefix size version : stuck w -> di_artifact_id x0 = Some a ->
  (delete_for_deletion (B:=B) a prefix size version w).1 <> Ok tt.
Proof using laws.
  intros [_ _ _ _ H4 H5] Ha Hok. destruct (delete_for_deletion_guarded a prefix size version w) as (_ & Hd & _).
  destruct (Hd Hok) as (art & m & Hart & _ & _ & _ & _ & Hh & _). specialize (H4 _ _ Ha Hart). subst key. by rewrite Hh in H5.
Qed.

Lemma claimed_row id w c w' : _claim_item (B:=B) id w = (Ok (Some c), w') -> deletion_items (db w') !! id = Some c.
Proof using Type.
  intros Hc. unfold _claim_item in Hc. apply bind_inv in Hc as ([] & w1 & _ & Hc); [|by apply ret_inv in Hc as [? _]].
  unfold get_item in Hc. invert_db. by match goal with H : Some _ = _ !! _ |- _ => rewrite <-H end.
Qed.

Lemma stuck_process o y w : stuck w -> stuck (_process_artifact (B:=B) o y w).2.
Proof using laws.
  intros Hw. unfold _process_artifact. unfold bind at 1. pose proof (stuck_claim (di_id y) w Hw) as Hw1.
  destruct (_claim_item (di_id y) w) as [[[c|]|e] w1] eqn:Hc; cbn [snd] in Hw1; [|done|done].
  apply claimed_row in Hc.
  assert (forall code, stuck ((let* o' := _mark_outcome (op_id o) DeletionOperationState.RECOVERY_REQUIRED code (Some (di_id c)) in
                               ret (Some o')) w1).2) as Hmark.
  { intros code. apply preserves_bind; [apply stuck_mark|intros ?; apply preserves_ret|done]. }
  destruct (di_artifact_id c) as [a|] eqn:Ha; [|apply Hmark].
  destruct (di_expected_size_bytes c) as [size|]; [|apply Hmark]. destruct (di_expected_version c) as [version|]; [|apply Hmark].
  pose proof (stuck_delete a (di_digest_prefix c) size version w1 Hw1) as Hw2.
  unfold bind at 1, try_except, bind at 1.
  destruct (delete_for_deletion a (di_digest_prefix c) size version w1) as [[[]|e] w2] eqn:Hd; cbn [snd] in Hw2.
  - unfold ret at 1. cbn beta iota. assert (di_id c <> di_id x0) as Hne.
    { intros Hid. pose proof Hw1 as [_ _ Hk (x1 & Hx1 & (_ & _ & _ & _ & Ht & _) & _) _ _].
      assert (x1 = c) as -> by (rewrite (Hk _ _ Hc) in Hid; congruence).
      apply (stuck_undeletable w1 a (di_digest_prefix c) size version Hw1); [congruence|by rewrite Hd]. }
    apply preserves_bind; [apply stuck_now|intros now|done]. apply preserves_bind; [|intros ?; apply preserves_ret].
    by apply stuck_atomic, stuck_update.
  - destruct (artifact_problem e) as [code|]; [|done]. unfold ret at 1. cbn beta iota.
    apply preserves_bind; [apply stuck_mark|intros ?; apply preserves_ret|done].
Qed.

Lemma stuck_finalize w : stuck w -> exists e w', _finalize_relational (B:=B) u w = (Err e, w') /\ stuck w'.
Proof using laws.
  intros Hw. pose proof (stuck_atomic (finalize_locked u)) as Hat.
  destruct (_finalize_relational u w) as [[o|e] w'] eqn:Hf.
  - apply atomic_inv in Hf as [_ Hf]. destruct (finalize_steps _ _ _ _ Hf) as (o0 & _ & Hinc & _).
    destruct Hw as [H1 H2 Hk (x & Hx & Ht & Hn) _ _]. exfalso.
    assert (existsb incomplete (items_of u (db w)) = true) as He; [|by rewrite He in Hinc].
    apply existsb_exists. exists x. destruct Ht as (_ & Hop & Hkind & _). split.
    + apply list_elem_of_In. unfold items_of. apply elem_of_select. split; [|eauto]. apply N.eqb_eq. congruence.
    + unfold incomplete. rewrite Hn. cbn. rewrite andb_true_r. unfold is_artifact_item in *. by rewrite Hkind.
  - exists e, w'. split; [done|]. pose proof (atomic_rollback _ _ _ _ Hf) as Hdb.
    assert (bucket w' = bucket w) as Hb.
    { assert (moves env_grows (_finalize_relational (B:=B) u)) as Hm.
      { unfold _finalize_relational, finalize_locked, get_operation, save_operation, _audit, delete_events, delete_document,
          delete_artifact. env_tac. }
      by destruct (moves_run _ _ _ _ _ Hm Hf) as (_ & _ & Hb & _). }
    apply (stuck_same w); [by rewrite Hdb|done|done].
Qed.

(** What such an execution returns is not completed. *)
Definition open_result (r : result exn DeletionOperation) : Prop := forall o, r = Ok o -> completed_operation o = false.

Lemma open_mark id s code item w : s = DeletionOperationState.FAILED \/ s = DeletionOperationState.RECOVERY_REQUIRED ->
  open_result (_mark_outcome (B:=B) id s code item w).1.
Proof using Type.
  intros Hs o Ho. destruct (_mark_outcome id s code item w) as [r w'] eqn:Hr. cbn in Ho. subst r.
  unfold _mark_outcome in Hr. apply bind_inv in Hr as (now & w1 & _ & Hr). apply bind_inv in Hr as (o1 & w2 & Ho1 & Hr).
  apply bind_inv in Hr as (x & w3 & _ & Hr). apply ret_inv in Hr as [-> _]. apply atomic_inv in Ho1 as [_ Ho1].
  apply bind_inv in Ho1 as (y & w4 & _ & Ho1). apply bind_inv in Ho1 as (o2 & w5 & _ & Ho1).
  apply bind_inv in Ho1 as (z & w6 & _ & Ho1). apply bind_inv in Ho1 as (v & w7 & _ & Ho1). apply ret_inv in Ho1 as [-> _].
  unfold completed_operation. destruct Hs as [-> | ->]; done.
Qed.

Lemma open_process o y w r w' o' : _process_artifact (B:=B) o y w = (r, w') -> r = Ok (Some o') -> completed_operation o' = false.
Proof using Type.
  intros Hr ->. unfold _process_artifact in Hr. apply bind_inv in Hr as ([c|] & w1 & _ & Hr); [|by apply ret_inv in Hr as [? _]].
  assert (forall code w2, (let* o1 := _mark_outcome (op_id o) DeletionOperationState.RECOVERY_REQUIRED code (Some (di_id c)) in
    ret (Some o1)) w2 = (Ok (Some o'), w') -> completed_operation o' = false) as Hmark.
  { intros code w2 H2. apply bind_inv in H2 as (o1 & w3 & H2 & H3). apply ret_inv in H3 as [[= ->] _].
    eapply open_mark; [by right|]. by rewrite H2. }
  destruct (di_artifact_id c); [|by eapply Hmark]. destruct (di_expected_size_bytes c); [|by eapply Hmark].
  destruct (di_expected_version c); [|by eapply Hmark].
  apply bind_inv in Hr as ([code|] & w2 & _ & Hr); [by eapply Hmark|].
  apply bind_inv in Hr as (? & ? & _ & Hr). apply bind_inv in Hr as (? & ? & _ & Hr). by apply ret_inv in Hr as [? _].
Qed.

Lemma stuck_process_items items w : stuck w ->
  stuck (process_items (B:=B) u items w).2 /\ open_result (process_items (B:=B) u items w).1.
Proof using laws.
  revert w. induction items as [|y items IH]; intros w Hw; cbn [process_items].
  { destruct (stuck_finalize w Hw) as (e & w' & -> & Hw'). by split. }
  destruct (negb _); [by apply IH|]. unfold bind at 1 5, timezone_now, gets. cbn beta iota.
  assert (preserves stuck (atomic (write (B:=B) (fun d => d <| deletions ::= alter (at_artifact (clock w)) u |>)))) as Hstep
    by (apply stuck_kept; [frame_tac|env_tac]).
  assert (preserves stuck (autocommit (get_operation (B:=B) u))) as Hget
    by (apply stuck_kept; unfold get_operation; [frame_tac|env_tac]).
  specialize (Hstep w Hw). unfold bind at 1 4.
  destruct (atomic (write _) w) as [[[]|e] w1]; cbn [fst snd] in *; [|by split].
  specialize (Hget w1 Hstep). unfold bind at 1 3.
  destruct (autocommit _ w1) as [[o|e] w2]; cbn [fst snd] in *; [|by split].
  pose proof (stuck_process o y w2 Hget) as Hp. unfold bind.
  destruct (_process_artifact o y w2) as [[[o'|]|e] w3] eqn:Hr; cbn [fst snd] in *; [|by apply IH|by split].
  split; [done|]. intros o1 [= <-]. by eapply open_process.
Qed.
Lemma execute_body_stuck o w r w' : op_id o = u -> stuck w -> execute_body (B:=B) o w = (r, w') ->
  stuck w' /\ documents (db w') = documents (db w).
Proof using laws.
  intros Hid Hw Hr. unfold execute_body in Hr. cbv zeta in Hr. rewrite Hid in Hr.
  assert (moves (keeps item_rows) (autocommit (_load_document (B:=B) (op_target_document_id o))) /\
    moves env_grows (autocommit (_load_document (B:=B) (op_target_document_id o))) /\
    moves (keeps document_sources) (autocommit (_load_document (B:=B) (op_target_document_id o)))) as (K1 & K2 & K3)
    by (unfold _load_document; split_and!; [frame_tac|env_tac|frame_tac]).
  pose proof (stuck_kept _ K1 K2 w Hw) as Hw1. unfold bind in Hr at 1.
  destruct (autocommit (_load_document _) w) as [[document|e] w1] eqn:Hload; cbn [snd] in Hw1.
  2:{ injection Hr as <- <-. split; [done|]. by eapply kept_documents. }
  rewrite <-(kept_documents _ _ _ _ K3 Hload). clear Hload K1 K2 K3.
  assert (forall code, _mark_outcome u DeletionOperationState.FAILED code None w1 = (r, w') ->
    stuck w' /\ documents (db w') = documents (db w1)) as Hmark.
  { intros code Hm. pose proof (stuck_mark u DeletionOperationState.FAILED code None w1 Hw1) as Hm1. rewrite Hm in Hm1.
    split; [done|]. eapply kept_documents; [apply keeps_sources_mark|exact Hm]. }
  destruct (negb _); [by eapply Hmark|]. unfold localdate in Hr. unfold bind at 1 2, timezone_now, gets, ret in Hr. cbn beta iota in Hr.
  destruct (negb _); [by eapply Hmark|]. unfold bind, autocommit, atomic, query, gets in Hr.
  destruct (online w1); [|by injection Hr as <- <-]. destruct (stuck_process_items (ordered_items u (db w1)) w1 Hw1) as [Hs Hopen].
  rewrite Hr in Hs, Hopen. split; [done|].
  destruct (process_items_deletes_only _ _ _ _ _ Hr) as [Hd|(o' & -> & Hc & _)]; [done|]. by rewrite (Hopen o' eq_refl) in Hc.
Qed.

Lemma execute_stuck operation_id w : uuid_of operation_id = Some u -> deletion_inv w -> stuck w ->
  stuck (execute_deletion (B:=B) operation_id w).2 /\ documents (db (execute_deletion (B:=B) operation_id w).2) = documents (db w).
Proof using laws.
  intros Hu Hinv Hw. destruct (execute_deletion operation_id w) as [r w'] eqn:Hr. cbn [snd].
  unfold execute_deletion in Hr. rewrite Hu in Hr. cbn [of_option] in Hr. unfold bind at 1, ret at 1 in Hr. unfold bind in Hr.
  assert (moves (keeps item_rows) (begin_execution (B:=B) u) /\ moves env_grows (begin_execution (B:=B) u) /\
    moves (keeps document_sources) (begin_execution (B:=B) u)) as (K1 & K2 & K3)
    by (unfold begin_execution, save_operation; split_and!; [frame_tac|env_tac|frame_tac]).
  pose proof (stuck_kept _ K1 K2 w Hw) as Hw1.
  destruct (begin_execution u w) as [[[o c]|e] w1] eqn:Hb; cbn [snd] in Hw1;
    [|injection Hr as <- <-; split; [done|exact (kept_documents _ _ _ _ K3 Hb)]].
  rewrite <-(kept_documents _ _ _ _ K3 Hb). destruct c; [by injection Hr as <- <-|].
  destruct (begin_execution_inv _ _ _ _ Hb) as (o0 & Ho0 & _ & ->).
  assert (op_id (executing (clock w) o0) = u) as Hid by exact (proj1 (proj1 (del_operations _ _ Hinv) _ _ Ho0)).
  unfold try_except in Hr. destruct (execute_body _ w1) as [[x|e] w2] eqn:He; (apply execute_body_stuck in He as [Hw2 Hd2]; [|exact Hid|exact Hw1]);
    [by injection Hr as <- <-|].
  rewrite <-Hd2. pose proof (stuck_mark u (execution_failure e).1 (execution_failure e).2 None w2 Hw2) as Hm.
  rewrite Hr in Hm. split; [done|]. eapply kept_documents; [apply keeps_sources_mark|exact Hr].
Qed.

Lemma resume_stuck actor operation_id w : stuck w ->
  stuck (resume_deletion (B:=B) actor operation_id w).2 /\ documents (db (resume_deletion (B:=B) actor operation_id w).2) = documents (db w).
Proof using laws.
  assert (forall (T : Type) (f : DB -> T), (forall d g, f (d <| deletions ::= g |>) = f d) -> (forall d g, f (d <| jobs ::= g |>) = f d) ->
    (forall d g, f (d <| policies ::= g |>) = f d) -> (forall d d', audit_frame d d' -> f d' = f d) ->
    moves (keeps f) (resume_deletion (B:=B) actor operation_id)) as Hkeep.
  { intros T f H1 H2 H3 H4. unfold resume_deletion, resume_locked, _enqueue, _deletion_policy, save_policy, save_operation, _audit,
      get_operation. frame_tac; solve [by apply keeps_write | by apply keeps_enqueue | by apply keeps_append]. }
  intros Hw. split.
  - assert (moves env_grows (resume_deletion (B:=B) actor operation_id)) as He.
    { unfold resume_deletion, resume_locked, _enqueue, _deletion_policy, save_policy, save_operation, _audit, get_operation. env_tac. }
    refine (stuck_kept _ _ He w Hw). apply Hkeep; try reflexivity. by intros ? ? (? & ? & ->).
  - destruct (resume_deletion actor operation_id w) as [r w'] eqn:Hr. eapply kept_documents; [|exact Hr].
    apply Hkeep; try reflexivity. by intros ? ? (? & ? & ->).
Qed.

(** A further attempt at the operation: an administrator resumes it, a job runs
    it. *)
Inductive attempt_again : relation (World B) :=
| again_resumed actor id w : attempt_again w (resume_deletion actor id w).2
| again_executed id w : uuid_of id = Some u -> attempt_again w (execute_deletion id w).2.

(** C40 A deletion whose checkpoint was lost never completes: when the object of an
    artifact item is gone from the bucket but the item was not recorded as
    completed - the process stopped between the two - no number of executions
    and resumptions completes the operation or deletes the document. *)
Theorem lost_object_blocks_deletion w w' :
  deletion_inv w -> stuck w -> rtc attempt_again w w' ->
  documents (db w') = documents (db w) /\ stuck w' /\
  exists o, deletions (db w') !! u = Some o /\ completed_operation o = false.
Proof using laws.
  intros Hinv Hw Hr. induction Hr as [w|w1 w2 w3 Hstep _ IH].
  - split; [done|]. split; [done|]. destruct Hw as [H1 H2 Hk (x & Hx & (_ & Hop & _) & Hn) _ _].
    destruct (del_owner _ _ Hinv _ _ Hx) as [o Ho]. rewrite Hop, H2 in Ho. exists o. split; [done|].
    destruct (completed_operation o) eqn:Hc; [|done]. rewrite (del_done _ _ Hinv _ _ _ _ Ho Hc Hx) in Hn; [done|congruence].
  - assert (deletion_inv w2) as Hinv2.
    { destruct Hstep as [actor id w|id w _].
      - by destruct (resume_deletion_reaches (next_uuid w) actor id w Hinv (N.le_refl _) I) as (_ & ? & _).
      - by destruct (execute_deletion_reaches (next_uuid w) id w Hinv (N.le_refl _) I) as (_ & ? & _). }
    assert (stuck w2 /\ documents (db w2) = documents (db w1)) as [Hw2 <-].
    { destruct Hstep as [actor id w|id w Hu]; [by apply resume_stuck|by apply execute_stuck]. }
    by apply IH.
Qed.
End lost.

(** ** What a request records *)

Lemma append_item_run operation kind target artifact w r w' : _append_item (B:=B) operation kind target artifact w = (Ok r, w') ->
  w' = w <| next_uuid ::= N.succ |> <| db ::= fun d => d <| deletion_items ::=
         put (next_uuid w) (new_item (next_uuid w) (clock w) operation kind target artifact) |> |>.
Proof using Type. unfold _append_item. intros Hr. by invert_db. Qed.

(** The rows of an enumeration: one per element, under fresh identifiers. *)
Lemma enumerated operation (l : list (DeletionItemKind.t * N * option Artifact)) w r w' :
  for_each l (fun t => _append_item (B:=B) operation t.1.1 t.1.2 t.2) w = (Ok r, w') ->
  (forall j, (next_uuid w <= j)%N -> deletion_items (db w) !! j = None) ->
  clock w' = clock w /\ deletions (db w') = deletions (db w) /\
  forall j x, deletion_items (db w') !! j = Some x <-> deletion_items (db w) !! j = Some x \/
    exists k t, l !! k = Some t /\ j = (next_uuid w + N.of_nat k)%N /\ x = new_item j (clock w) operation t.1.1 t.1.2 t.2.
Proof using Type.
  revert w r. induction l as [|t l IH]; intros w r Hr Hfresh; cbn [for_each] in Hr.
  { apply ret_inv in Hr as [_ ->]. split_and!; [done..|]. intros j x. split; [by left|]. intros [?|(k & t & Hk & _)]; [done|].
    by rewrite lookup_nil in Hk. }
  apply bind_inv in Hr as (u & w1 & Hu & Hr). apply bind_inv in Hr as (r' & w2 & Hr & H2). apply ret_inv in H2 as [_ ->].
  apply append_item_run in Hu as ->. destruct (IH _ _ Hr) as (Hc & Hd & Hrows).
  { intros j Hj. cbn in Hj |- *. unfold put. rewrite lookup_insert_ne by lia. apply Hfresh. lia. }
  split; [done|]. split; [done|]. intros j x. rewrite Hrows. cbn. unfold put. rewrite lookup_insert_Some. split.
  - intros [[[<- <-]|[Hne Hj]]|(k & t' & Hk & -> & ->)]; [right; exists 0%nat, t; by rewrite N.add_0_r|by left|].
    right. exists (S k), t'. split_and!; [done|lia|done].
  - intros [Hj|([|k] & t' & Hk & -> & ->)].
    + left. right. split; [|done]. intros <-. rewrite Hfresh in Hj; [done|lia].
    + left. left. cbn in Hk. injection Hk as ->. by rewrite N.add_0_r.
    + right. exists k, t'. split_and!; [done|lia|do 2 f_equal; lia].
Qed.

Lemma request_tries_inv {A} tries (m : M B A) w r w' : moves env_grows m -> request_tries tries m w = (Ok r, w') ->
  exists w1, db w1 = db w /\ clock w1 = clock w /\ (next_uuid w <= next_uuid w1)%N /\ m w1 = (Ok r, w').
Proof using Type.
  intros Hm. revert w. induction tries as [|tries IH]; intros w Hr; cbn [request_tries] in Hr; [done|].
  apply try_inv in Hr as [Hr|(e & w1 & Hf & Hr)].
  - apply atomic_inv in Hr as [_ Hr]. exists w. split_and!; [done|done|lia|done].
  - destruct (moves_run _ _ _ _ _ (env_atomic _ Hm) Hf) as (Hc & _ & _ & Hn). pose proof (atomic_rollback _ _ _ _ Hf) as Hdb.
    destruct e; try done. destruct (IH _ Hr) as (w2 & H1 & H2 & H3 & H4). exists w2. split_and!; [congruence|congruence|lia|done].
Qed.

(** The operation [_enqueue] hands back is the one it was given, with its job;
    nothing else of the two tables changes. *)
Lemma enqueued o resume w o' w' : _enqueue (B:=B) o resume w = (Ok o', w') ->
  deletion_items (db w') = deletion_items (db w) /\
  (active_job_of o (db w) = None -> exists job now, o' = o <| op_job := Some job |> <| op_updated_at := now |> /\
     deletions (db w') = put (op_id o) o' (deletions (db w))).
Proof using Type.
  intros Hr. split.
  - assert (moves (keeps deletion_items) (_enqueue (B:=B) o resume)) as Hm.
    { unfold _enqueue, _deletion_policy, save_policy, save_operation. frame_tac; by apply keeps_enqueue. }
    by destruct (moves_run _ _ _ _ _ Hm Hr) as [H _].
  - intros Hnone. unfold _enqueue in Hr. apply bind_inv in Hr as (current & w1 & H1 & Hr). apply now_inv in H1 as [-> ->].
    apply bind_inv in Hr as (aj & w1 & H1 & Hr). apply query_inv in H1 as [-> ->]. rewrite Hnone in Hr. cbv zeta in Hr.
    apply bind_inv in Hr as (key & w1 & Hk & Hr). apply bind_inv in Hr as (policy & w2 & Hp & Hr).
    apply bind_inv in Hr as (job & w3 & Hj & Hr). apply bind_inv in Hr as (now & w4 & Hn & Hr). apply now_inv in Hn as [-> ->].
    apply bind_inv in Hr as (u & w4 & Hs & Hr). apply ret_inv in Hr as [-> ->]. apply save_operation_wrote in Hs as [Hs _].
    exists (job_id job), (clock w3). split; [done|]. rewrite Hs. cbn. f_equal.
    assert (deletions (db w1) = deletions (db w)) as <- by (destruct resume; by invert_db).
    assert (deletions (db w2) = deletions (db w1)) as <-.
    { assert (moves (keeps deletions) (_deletion_policy (B:=B) (clock w))) as Hm by (unfold _deletion_policy, save_policy; frame_tac).
      by destruct (moves_run _ _ _ _ _ Hm Hp) as [H _]. }
    assert (moves (keeps deletions) (enqueue (B:=B) (deletion_job o key policy))) as Hm by (by apply keeps_enqueue).
    by destruct (moves_run _ _ _ _ _ Hm Hj) as [H _].
Qed.

(** What was recorded of a request: the operation and the items of the deletion
    set, nothing else in the two tables. *)
Lemma created document actor reason correlation w o w' :
  deletion_inv w -> create_operation (B:=B) document actor reason correlation w = (Ok o, w') ->
  exists id job checkpoint later, (next_uuid w <= id)%N /\
    o = new_operation id (clock w) (doc_id (ld_document document)) actor (scope_hash document) reason correlation
          <| op_checkpoint := checkpoint |> <| op_job := Some job |> <| op_updated_at := later |> /\
    deletions (db w') = put id o (deletions (db w)) /\
    (forall j x, deletion_items (db w') !! j = Some x <-> deletion_items (db w) !! j = Some x \/
       exists k t, deletion_set document !! k = Some t /\ x = new_item j (clock w) id t.1.1 t.1.2 t.2 /\
         j = (N.succ (next_uuid w) + N.of_nat k)%N) /\
    (forall x, deletions (db w) !! op_id x = Some x -> op_target_document_id x = doc_id (ld_document document) ->
       active_operation_state (op_state x) = false).
Proof using Type.
  intros Hinv Hr. unfold create_operation in Hr. apply bind_inv in Hr as (id & w1 & H1 & Hr). apply uuid4_inv in H1 as [-> ->].
  apply bind_inv in Hr as (now & w1 & H1 & Hr). apply now_inv in H1 as [-> ->]. cbv zeta in Hr.
  change (clock (w <| next_uuid ::= N.succ |>)) with (clock w) in Hr.
  set (o1 := new_operation _ _ _ _ _ _ _) in Hr. apply bind_inv in Hr as (u & w1 & H1 & Hr).
  destruct (save_operation_run o1 (w <| next_uuid ::= N.succ |>)) as [[e He]|(He & Hconf & _)]; rewrite He in H1; [done|].
  assert (w1 = w <| next_uuid ::= N.succ |> <| db ::= fun d => d <| deletions ::= put (op_id o1) o1 |> |>) as -> by congruence.
  apply bind_inv in Hr as (count & w2 & H2 & Hr). unfold _enumerate_items in H2. apply bind_inv in H2 as (l & w2' & H2 & H2').
  apply ret_inv in H2' as [_ ->]. apply enumerated in H2 as (Hck & Hd & Hrows).
  2:{ intros j Hj. cbn in Hj |- *. destruct (deletion_items (db w) !! j) eqn:Hx; [|done].
      apply (proj1 (del_items _ _ Hinv)) in Hx. lia. }
  apply bind_inv in Hr as (ai & w3 & H3 & Hr). apply query_inv in H3 as [_ ->].
  apply bind_inv in Hr as (later & w3 & H3 & Hr). apply now_inv in H3 as [-> ->]. cbv zeta in Hr.
  apply bind_inv in Hr as (u3 & w3 & H3 & Hr). apply save_operation_wrote in H3 as [H3 _].
  apply bind_inv in Hr as (u4 & w4 & H4 & Hr). pose proof (audit_reports _ _ _ _ _ _ H4) as [Haud _].
  pose proof (f_equal deletions Haud) as Ha1. pose proof (f_equal deletion_items Haud) as Ha2. cbn in Ha1, Ha2.
  destruct (enqueued _ _ _ _ _ Hr) as [Hi Hj]. destruct Hj as (job & now & -> & Hput); [done|].
  eexists (next_uuid w), job, _, now. split; [lia|]. split; [reflexivity|]. split; [|split].
  - rewrite Hput, Ha1, H3. cbn. rewrite Hd. unfold put. cbn. by rewrite !insert_insert_eq.
  - intros j x. rewrite Hi, Ha2, H3. cbn. rewrite Hrows. cbn. split.
    + intros [?|(k & t & ? & -> & ->)]; [by left|right; by exists k, t].
    + intros [?|(k & t & ? & -> & ->)]; [by left|right; by exists k, t].
  - intros x Hx Ht. destruct (active_operation_state (op_state x)) eqn:Hact; [|done]. exfalso.
    refine (no_operation_conflict _ _ Hconf eq_refl _ _ Hx _ Hact Ht). intros Heq.
    apply (proj1 (del_operations _ _ Hinv)) in Hx. cbn in Heq. lia.
Qed.
Lemma env_request_locked u a h c r cor : moves env_grows (request_locked (B:=B) u a h c r cor).
Proof using Type.
  unfold request_locked, _load_document, localdate, create_operation, _enumerate_items, _append_item, _audit, _enqueue,
    _deletion_policy, save_policy, save_operation. env_tac.
Qed.

(** An operation as it has just been requested. *)
Record just_requested (document : LoadedDocument) (actor : N) (reason : string) (o : DeletionOperation) : Prop := {
  rq_target : op_target_document_id o = doc_id (ld_document document);
  rq_actor : op_actor o = Some actor;
  rq_hash : op_scope_hash o = scope_hash document;
  rq_version : op_scope_version o = SCOPE_VERSION;
  rq_reason : op_reason o = reason;
  rq_pending : op_state o = DeletionOperationState.PENDING;
  rq_job : is_some (op_job o) = true }.

(** A request either leaves the database as it was or is answered for the very
    document that was previewed: an administrator asked, the hash, the version
    and the confirmation phrase are those of the document as it is now.  Then it
    is either the operation already active for the document, with the same
    scope, and nothing changes; or the document is eligible today, no operation
    was active for it, and one pending operation with its job is recorded,
    with exactly one pending item for every row and artifact of the deletion set. *)
Theorem request_recorded (actor : SessionIdentity) (id : uuid_ref) (hash version confirmation reason : pyval) w :
  deletion_inv w -> keyed doc_id doc_id (next_uuid w) (documents (db w)) ->
  match request_deletion (B:=B) actor id hash version confirmation reason w with
  | (Err _, w') => db w' = db w
  | (Ok r, w') =>
      administrator actor = true /\ exists u doc, uuid_of id = Some u /\ documents (db w) !! u = Some doc /\
      let document := load_unordered (db w) doc in
      let o := dr_operation r in
      hash = VStr (scope_hash document) /\ version = VStr SCOPE_VERSION /\
      confirmation = VStr (confirmation_for u (scope_hash document)) /\
      if dr_duplicate r then
        db w' = db w /\ deletions (db w) !! op_id o = Some o /\ active_for u o = true /\ op_scope_hash o = scope_hash document
      else
        is_eligible (decision_for_document (B:=B) document None (_civil_date (B:=B) (clock w))) = true /\
        (forall i x, deletions (db w) !! i = Some x -> active_for u x = false) /\
        (exists a text, reason = VStr text /\ parse_uuid (si_user_id actor) = Some a /\ just_requested document a (strip text) o) /\
        deletions (db w') = put (op_id o) o (deletions (db w)) /\ deletions (db w) !! op_id o = None /\
        (forall j x, deletion_items (db w') !! j = Some x -> di_operation x = op_id o ->
           exists t, t ∈ deletion_set document /\ x = new_item j (clock w) (op_id o) t.1.1 t.1.2 t.2) /\
        (forall t, t ∈ deletion_set document ->
           exists j, deletion_items (db w') !! j = Some (new_item j (clock w) (op_id o) t.1.1 t.1.2 t.2))
  end.
Proof using Type.
  intros Hinv Hdocs. destruct (request_deletion actor id hash version confirmation reason w) as [[r|e] w'] eqn:Hr.
  2:{ assert (all_or_nothing (request_deletion (B:=B) actor id hash version confirmation reason)) as Haon; [|by eapply Haon].
      assert (forall A n (m : M B A), all_or_nothing (request_tries n m)) as Ht.
      { intros A n m. induction n as [|n IH]; cbn [request_tries]; [by intros ? ? ? [= _ <-]|].
        apply aon_try; [apply aon_atomic|]. intros []; try exact IH; by intros ? ? ? [= _ <-]. }
      unfold request_deletion. all_or_nothing_tac; apply Ht. }
  unfold request_deletion in Hr. apply bind_inv in Hr as (x1 & w1 & H1 & Hr). apply require_inv in H1 as [Hadm ->].
  apply bind_inv in Hr as (u & w1 & H1 & Hr). apply of_option_inv in H1 as [Hu ->].
  apply bind_inv in Hr as (h & w1 & H1 & Hr). apply lift_inv in H1 as [Hh ->].
  apply bind_inv in Hr as (x2 & w1 & H1 & Hr). apply require_inv in H1 as [Hv ->].
  apply bind_inv in Hr as (text & w1 & H1 & Hr). apply lift_inv in H1 as [Htext ->].
  apply bind_inv in Hr as (c & w1 & H1 & Hr). destruct confirmation as [| | | |phrase| | | | | |]; try done. apply ret_inv in H1 as [-> ->].
  apply bind_inv in Hr as (a & w1 & H1 & Hr). apply lift_inv in H1 as [Hactor ->].
  apply request_tries_inv in Hr as (w1 & Hdb & Hck & Hn & Hr); [|apply env_request_locked].
  split; [done|]. exists u. unfold request_locked in Hr. apply bind_inv in Hr as (row & w2 & H1 & Hr). apply query_inv in H1 as [-> ->].
  apply bind_inv in Hr as (x3 & w2 & H1 & Hr). apply require_inv in H1 as [Hthere ->]. rewrite Hdb in Hthere.
  destruct (documents (db w) !! u) as [doc|] eqn:Hdoc; [|done]. exists doc. split; [done|]. split; [done|].
  apply bind_inv in Hr as (document & w2 & H1 & Hr). unfold _load_document in H1.
  apply bind_inv in H1 as (row & w3 & H2 & H1). apply query_inv in H2 as [-> ->]. apply of_option_inv in H1 as [H1 ->].
  rewrite Hdb, Hdoc in H1. cbn in H1. injection H1 as <-. cbv zeta in Hr |- *.
  set (document := load_unordered (db w) doc) in *.
  apply bind_inv in Hr as (x4 & w2 & H1 & Hr). apply require_inv in H1 as [Hhash ->]. apply String.eqb_eq in Hhash.
  apply bind_inv in Hr as (x5 & w2 & H1 & Hr). apply require_inv in H1 as [Hphrase ->]. apply String.eqb_eq in Hphrase.
  assert (hash = VStr (scope_hash document)) as ->.
  { unfold _scope_hash in Hh. destruct hash; try done. destruct (is_hex64 _); [|done]. congruence. }
  assert (version = VStr SCOPE_VERSION) as ->.
  { destruct version; try done. apply String.eqb_eq in Hv. by subst. }
  split; [done|]. split; [done|]. split; [by f_equal|].
  apply bind_inv in Hr as (existing & w2 & H1 & Hr). apply query_inv in H1 as [-> ->]. rewrite Hdb in Hr.
  destruct (first_where _ _ _) as [o|] eqn:Hex.
  - apply first_where_Some in Hex as [Hact [i Hi]]. apply bind_inv in Hr as (x6 & w2 & H1 & Hr).
    apply require_inv in H1 as [Hoh ->]. apply String.eqb_eq in Hoh. apply ret_inv in Hr as [-> ->]. cbn.
    split_and!; [done| |done|congruence]. destruct (proj1 (del_operations _ _ Hinv) _ _ Hi) as [-> _]. done.
  - unfold localdate in Hr. apply bind_inv in Hr as (today & w2 & H1 & Hr). apply bind_inv in H1 as (now & w3 & H2 & H1).
    apply now_inv in H2 as [-> ->]. apply ret_inv in H1 as [-> ->].
    apply bind_inv in Hr as (x6 & w2 & H1 & Hr). apply require_inv in H1 as [Helig ->].
    apply bind_inv in Hr as (o & w2 & Ho & Hr). apply ret_inv in Hr as [-> ->]. cbn [dr_duplicate dr_operation].
    assert (deletion_inv w1) as Hinv1 by (unfold deletion_inv; rewrite Hdb; by apply (deletion_ok_mono (next_uuid w))).
    destruct (created _ _ _ _ _ _ _ Hinv1 Ho) as (oid & job & cp & later & Hid & -> & Hput & Hrows & _).
    assert (doc_id doc = u) as Hdid by (by apply (proj1 Hdocs)).
    rewrite <-Hck. split_and!; [exact Helig| | |by rewrite Hput, Hdb| | |].
    + intros i x Hi. by apply (first_where_None _ _ _ Hex i x Hi).
    + unfold _actor_uuid in Hactor. destruct (parse_uuid _) as [a'|]; [|done]. injection Hactor as ->.
      unfold _reason in Htext. destruct reason as [| | | |s'| | | | | |]; try done. destruct (_ && _); [|done]. injection Htext as <-.
      exists a, s'. split_and!; [done|done|by split].
    + cbn. destruct (deletions (db w) !! oid) eqn:Hx; [|done]. apply (proj1 (del_operations _ _ Hinv)) in Hx. lia.
    + intros j x Hj Hop. apply Hrows in Hj as [Hj|(k & t & Hk & -> & _)].
      * rewrite Hdb in Hj. destruct (del_owner _ _ Hinv _ _ Hj) as [o' Ho']. rewrite Hop in Ho'.
        apply (proj1 (del_operations _ _ Hinv)) in Ho'. cbn in Ho'. lia.
      * exists t. split; [|done]. by eapply list_elem_of_lookup_2.
    + intros t [k Hk]%list_elem_of_lookup. eexists. apply Hrows. right. exists k, t. by split_and!.
Qed.
End guarantees.
