(* ===== verification/DeletionCompletion.v ===== *)
(** * What the completion of a deletion does

    The change a completed operation makes, table by table and without the code's
    own definitions: which rows go, which are rewritten and how, and that nothing
    else moves. *)

From Stdlib Require Import ZArith Ascii String Lia.
From stdpp Require Import base decidable list gmap strings relations.
From S2P Require Import Prelude PyStr Sha256 PyVal AuditTrail Identity Companies JobPolicies JobEngine JobLifecycle JobGuarantees Tables Artifacts ArtifactFacts Models Retention Deletion DeletionFacts DeletionGuarantees.

Local Open Scope string_scope.

(** ** Changes of a table *)

(** The rows of which [p] holds are gone, the others as they were. *)
Definition removed {R} (p : R -> Prop) (t t' : gmap N R) : Prop :=
  forall i, match t !! i with
            | Some r => (p r /\ t' !! i = None) \/ (~ p r /\ t' !! i = Some r)
            | None => t' !! i = None
            end.

(** No row comes or goes, and each becomes one it is related to. *)
Definition rewritten {R} (f : relation R) (t t' : gmap N R) : Prop :=
  forall i, match t !! i, t' !! i with
            | Some r, Some r' => f r r'
            | None, None => True
            | _, _ => False
            end.

(** A reference is cleared when [p] holds of what it names. *)
Definition cleared (p : N -> Prop) (o o' : option N) : Prop :=
  (o' = None /\ exists x, o = Some x /\ p x) \/ (o' = o /\ forall x, o = Some x -> ~ p x).

Lemma removed_delete_where {R} (b : R -> bool) (p : R -> Prop) (t : gmap N R) :
  (forall r, b r = true <-> p r) -> removed p t (delete_where b t).
Proof.
  intros Hb i. destruct (t !! i) as [r|] eqn:Hi.
  - destruct (b r) eqn:Hr; [left|right].
    + split; [by apply Hb|]. destruct (delete_where b t !! i) eqn:He; [|done]. apply lookup_delete_where in He as [? ?]. congruence.
    + split; [by rewrite <-Hb, Hr|]. by apply lookup_delete_where.
  - destruct (delete_where b t !! i) eqn:He; [|done]. apply lookup_delete_where in He as [? ?]. congruence.
Qed.

Lemma rewritten_update_where {R} (b : R -> bool) (g : R -> R) (f : relation R) (t : gmap N R) :
  (forall r, f r (if b r then g r else r)) -> rewritten f t (update_where b g t).
Proof. intros Hf i. rewrite lookup_update_where. destruct (t !! i) as [r|]; cbn; [apply Hf|done]. Qed.

Lemma rewritten_fmap {R} (g : R -> R) (f : relation R) (t : gmap N R) : (forall r, f r (g r)) -> rewritten f t (g <$> t).
Proof. intros Hf i. rewrite lookup_fmap. destruct (t !! i) as [r|]; cbn; [apply Hf|done]. Qed.

Lemma cleared_if (b : N -> bool) (p : N -> Prop) (o : option N) :
  (forall x, b x = true <-> p x) -> cleared p o (match o with Some x => if b x then None else o | None => None end).
Proof.
  intros Hb. destruct o as [x|]; [|by right]. destruct (b x) eqn:Hx.
  - left. split; [done|]. exists x. by rewrite <-Hb.
  - right. split; [done|]. intros y [= ->]. by rewrite <-Hb, Hx.
Qed.

(** ** The change *)

(** What the items of operation [id] name. *)
Definition names_event (id : N) (d : DB) (e : N) : Prop :=
  exists j y, deletion_items d !! j = Some y /\ di_operation y = id /\ di_kind y = DeletionItemKind.EVENT /\ di_target_id y = e.

Definition names_artifact (id : N) (d : DB) (a : N) : Prop :=
  exists j y, deletion_items d !! j = Some y /\ di_operation y = id /\ di_kind y = DeletionItemKind.ARTIFACT /\ di_artifact_id y = Some a.

(** A received unit stays, without its references to what is deleted. *)
Record unit_released (id document : N) (d : DB) (u u' : ReceivedUnit) : Prop := MkUnitReleased {
  ur_same : u' = u <| un_document := un_document u' |> <| un_event := un_event u' |> <| un_artifact := un_artifact u' |>;
  ur_document : cleared (eq document) (un_document u) (un_document u');
  ur_event : cleared (names_event id d) (un_event u) (un_event u');
  ur_artifact : cleared (names_artifact id d) (un_artifact u) (un_artifact u') }.

Definition manifestation_released (document : N) (m m' : NFeManifestation) : Prop :=
  m' = m <| mf_document := mf_document m' |> /\ cleared (eq document) (mf_document m) (mf_document m').

Definition export_item_excluded (document : N) (now : Z) (x x' : ExportItem) : Prop :=
  (xi_document x = Some document /\
   x' = x <| xi_document := None |> <| xi_artifact := None |> <| xi_state := ExportItemState.EXCLUDED |>
          <| xi_safe_error := "document_deleted" |> <| xi_updated_at := now |>) \/
  (xi_document x <> Some document /\ x' = x).

Definition item_finished (id : N) (now : Z) (y y' : DeletionItem) : Prop :=
  (di_operation y = id /\
   y' = y <| di_state := DeletionItemState.COMPLETED |> <| di_safe_error := "" |> <| di_completed_at := Some now |> <| di_updated_at := now |>) \/
  (di_operation y <> id /\ y' = y).

(** The operation, with the number of its items and of the artifacts they name. *)
Definition operation_finished (id : N) (now : Z) (d : DB) (o o' : DeletionOperation) : Prop :=
  exists artifacts, NoDup artifacts /\ (forall a, a ∈ artifacts <-> names_artifact id d a) /\
    let items := Z.of_nat (size (filter (fun '(_, y) => di_operation y = id) (deletion_items d))) in
    o' = o <| op_state := DeletionOperationState.COMPLETED |> <| op_current_step := "completed" |> <| op_safe_error := "" |>
           <| op_result_code := "completed" |> <| op_completed_at := Some now |> <| op_updated_at := now |>
           <| op_checkpoint := [("total_items", VInt items); ("completed_items", VInt items);
                                ("artifact_items", VInt (Z.of_nat (length artifacts)))] |>.

(** The tables a completion does not touch. *)
Definition other_tables (d : DB) :=
  (policies d, jobs d, companies d, flows d, adn_coverage d, enrichment d, certificates d, initial_requests d, executions d,
   checkpoints d, pages d, exports d, users d, sessions d, throttles d).

Record document_erased (id : N) (o o' : DeletionOperation) (now : Z) (d d' : DB) : Prop := MkErased {
  er_documents : documents d' = base.delete (op_target_document_id o) (documents d);
  er_evidence : removed (fun e => ev_document e = op_target_document_id o) (evidence d) (evidence d');
  er_events : removed (fun e => de_parent_document e = op_target_document_id o) (events d) (events d');
  er_event_evidence :
    removed (fun e => exists x, events d !! dee_event e = Some x /\ de_parent_document x = op_target_document_id o)
      (event_evidence d) (event_evidence d');
  er_renders : removed (fun r => rn_document r = op_target_document_id o) (renders d) (renders d');
  er_artifacts : forall a, (names_artifact id d a /\ artifacts d' !! a = None) \/ (~ names_artifact id d a /\ artifacts d' !! a = artifacts d !! a);
  er_units : rewritten (unit_released id (op_target_document_id o) d) (units d) (units d');
  er_manifestations : rewritten (manifestation_released (op_target_document_id o)) (manifestations d) (manifestations d');
  er_export_items : rewritten (export_item_excluded (op_target_document_id o) now) (export_items d) (export_items d');
  er_items : rewritten (item_finished id now) (deletion_items d) (deletion_items d');
  er_operation : deletions d' = <[op_id o := o']> (deletions d);
  er_others : other_tables d' = other_tables d }.

(** ** The code makes that change *)

Lemma event_ids_named id d e : e ∈ event_ids_of (items_of id d) <-> names_event id d e.
Proof.
  unfold event_ids_of, names_event. rewrite list_elem_of_omap. split.
  - intros (y & (Ho & j & Hj)%elem_of_select & He). apply N.eqb_eq in Ho. exists j, y. destruct (di_kind y); naive_solver.
  - intros (j & y & Hj & Ho & Hk & He). exists y. split; [|by rewrite Hk, He]. apply elem_of_select. split; [by apply N.eqb_eq|eauto].
Qed.

Lemma artifact_ids_named id d a : a ∈ artifact_ids_of (items_of id d) <-> names_artifact id d a.
Proof.
  unfold artifact_ids_of, names_artifact. rewrite elem_of_remove_dups, list_elem_of_omap. split.
  - intros (y & (Ho & j & Hj)%elem_of_select & He). apply N.eqb_eq in Ho. exists j, y. unfold is_artifact_item in He.
    destruct (di_kind y); naive_solver.
  - intros (j & y & Hj & Ho & Hk & He). exists y. split; [|by unfold is_artifact_item; rewrite Hk].
    apply elem_of_select. split; [by apply N.eqb_eq|eauto].
Qed.

Lemma filter_seconds {K R} (p : R -> Prop) `{!forall r, Decision (p r)} (l : list (K * R)) :
  filter p l.*2 = (filter (fun '(_, r) => p r) l).*2.
Proof.
  induction l as [|[k r] l IH]; [done|]. rewrite fmap_cons, !filter_cons. cbn [snd]. rewrite IH. by do 2 case_decide.
Qed.

Lemma items_counted id d : length (items_of id d) = size (filter (fun '(_, y) => di_operation y = id) (deletion_items d)).
Proof.
  unfold items_of, select, rows. generalize (deletion_items d) as t. intros t. rewrite <-length_map_to_list, map_filter_alt, map_to_list_to_map.
  - rewrite filter_seconds, length_fmap. apply f_equal, list_filter_iff. intros [k y]. by rewrite N.eqb_eq.
  - eapply sublist_NoDup; [apply (NoDup_fst_map_to_list t)|]. apply fmap_sublist, sublist_filter.
Qed.

Lemma unit_let_go id document d u :
  unit_released id document d u (detach_units document (event_ids_of (items_of id d)) (artifact_ids_of (items_of id d)) u).
Proof.
  split; cbn.
  - by destruct u.
  - apply cleared_if. intros x. by rewrite N.eqb_eq.
  - apply cleared_if. intros x. rewrite bool_decide_eq_true. apply event_ids_named.
  - apply cleared_if. intros x. rewrite bool_decide_eq_true. apply artifact_ids_named.
Qed.

Lemma manifestation_let_go document (m : NFeManifestation) :
  manifestation_released document m (if refers_to (mf_document m) document then m <| mf_document := None |> else m).
Proof.
  unfold refers_to, manifestation_released. case_bool_decide as Hm.
  - split; [by destruct m|]. left. by split; [|exists document].
  - split; [by destruct m|]. right. split; [done|]. intros x Hx <-. congruence.
Qed.

Lemma export_item_let_go document now (x : ExportItem) :
  export_item_excluded document now x (if refers_to (xi_document x) document then excluded now x else x).
Proof. unfold refers_to. case_bool_decide; [by left|by right]. Qed.

Lemma item_completes id now (y : DeletionItem) : item_finished id now y (if N.eqb (di_operation y) id then completed_item now y else y).
Proof. destruct (N.eqb_spec (di_operation y) id); [by left|by right]. Qed.

Lemma without_not_named ids t a : a ∉ ids -> without_artifacts ids t !! a = t !! a.
Proof.
  unfold without_artifacts. revert t. induction ids as [|b ids IH]; intros t Ha; [done|]. apply not_elem_of_cons in Ha as [Hab Ha]. cbn.
  rewrite IH by done. by rewrite lookup_delete_ne.
Qed.

Lemma names_artifact_dec id d a : Decision (names_artifact id d a).
Proof.
  destruct (decide (a ∈ artifact_ids_of (items_of id d))) as [H|H]; [left|right]; by rewrite <-artifact_ids_named.
Qed.

Lemma erased_by_the_code id o now d :
  document_erased id o (completed (length (items_of id d)) (length (artifact_ids_of (items_of id d))) now o) now d
    (relationally_removed id o (items_of id d) now d).
Proof.
  unfold relationally_removed, detach. split; cbn -[delete_where update_where detach_units event_of].
  - done.
  - apply removed_delete_where. intros r. apply N.eqb_eq.
  - apply removed_delete_where. intros r. apply N.eqb_eq.
  - apply removed_delete_where. intros r. unfold event_of. destruct (events d !! dee_event r) as [x|]; [|split; [done|by intros (? & ? & _)]].
    rewrite N.eqb_eq. split; [by exists x|by intros (? & [= <-] & ?)].
  - apply removed_delete_where. intros r. apply N.eqb_eq.
  - intros a. destruct (names_artifact_dec id d a) as [Ha|Ha]; [left|right]; (split; [done|]).
    + apply lookup_without. by apply artifact_ids_named.
    + apply without_not_named. by rewrite artifact_ids_named.
  - apply rewritten_fmap. intros u. apply unit_let_go.
  - apply rewritten_update_where. intros m. apply manifestation_let_go.
  - apply rewritten_update_where. intros x. apply export_item_let_go.
  - apply rewritten_update_where. intros y. apply item_completes.
  - done.
  - done.
Qed.

Lemma finished_by_the_code id now d o :
  operation_finished id now d o (completed (length (items_of id d)) (length (artifact_ids_of (items_of id d))) now o).
Proof.
  exists (artifact_ids_of (items_of id d)). split; [apply NoDup_remove_dups|]. split; [apply artifact_ids_named|].
  cbv zeta. by rewrite <-items_counted.
Qed.

(** The trail is the only other thing a completion writes. *)
Lemma erased_unaudited id o o' now d d1 d2 :
  unaudited d1 = unaudited d2 -> document_erased id o o' now d d2 -> document_erased id o o' now d d1.
Proof.
  intros Hd [H1 H2 H3 H4 H5 H6 H7 H8 H9 H10 H11 H12]. destruct d1, d2. unfold unaudited in Hd. cbn in Hd. injection Hd as -> -> -> -> -> -> -> -> -> -> -> -> -> -> -> -> -> -> -> -> -> -> -> -> -> ->.
  by split.
Qed.

Section completion.
Context {B : Type} `{!External B} {heap : Heap}.
Implicit Types (w : World B).

(** C15 Completing an operation is one exact change of the database, or none. It
    happens only when every artifact item's checkpoint is completed and the
    document is there. Then the document goes, with its evidence, its events and
    theirs, its renders, and the artifacts the operation's items name; received
    units stay, without their references to the document, the events and the
    artifacts named; manifestations stay, without the document; export items of the
    document stay, excluded; the operation's items and the operation itself are
    completed, with the number of items and artifacts; no other row of any table
    comes, goes or changes, except for one event of the trail. No row is left that
    refers to the document, and none that refers to a deleted artifact. On any error
    the database is as it was. *)
Theorem completion_exact (id : N) w :
  match _finalize_relational (B:=B) id w with
  | (Err _, w') => db w' = db w
  | (Ok o', w') =>
      exists o, deletions (db w) !! id = Some o /\
        (forall j y, deletion_items (db w) !! j = Some y -> di_operation y = id -> di_kind y = DeletionItemKind.ARTIFACT ->
           di_state y = DeletionItemState.COMPLETED) /\
        is_Some (documents (db w) !! op_target_document_id o) /\
        operation_finished id (clock w) (db w) o o' /\
        document_erased id o o' (clock w) (db w) (db w') /\
        document_protected (op_target_document_id o) (db w') = false /\
        (forall a, names_artifact id (db w) a -> is_Some (artifacts (db w) !! a) -> artifact_referenced a (db w') = false) /\
        reported o "completed" (db w) (db w')
  end.
Proof using Type.
  destruct (_finalize_relational id w) as [[o'|e] w'] eqn:Hf; [|by eapply atomic_rollback].
  apply atomic_inv in Hf as [_ Hf].
  destruct (finalize_steps _ _ _ _ Hf) as (o & Ho & Hinc & Hthere & Hprot & Hfree & -> & w1 & Hsame & Hev & Hrep).
  exists o. split; [done|]. split_and!; [|done|apply finished_by_the_code| | | |].
  - intros j y Hj Hy Hk. destruct (di_state y) eqn:Hs; try done.
    all: assert (existsb incomplete (items_of id (db w)) = true) as Hex; [|by rewrite Hex in Hinc].
    all: apply existsb_exists; exists y; split; [apply list_elem_of_In, elem_of_select; split; [by apply N.eqb_eq|eauto]|].
    all: unfold incomplete, is_artifact_item, item_completed; by rewrite Hk, Hs.
  - eapply erased_unaudited; [exact Hsame|]. apply erased_by_the_code.
  - change (document_protected (op_target_document_id o) (db w')) with (document_protected (op_target_document_id o) (unaudited (db w'))).
    rewrite Hsame. unfold relationally_removed. by rewrite protected_blind.
  - intros a Ha Hs. change (artifact_referenced a (db w')) with (artifact_referenced a (unaudited (db w'))). rewrite Hsame.
    unfold relationally_removed. rewrite referenced_blind. apply (Hfree a); [by apply artifact_ids_named|exact Hs].
  - destruct Hrep as (e & He & Hrest). exists e. by rewrite He, Hev.
Qed.
End completion.
