(* ===== verification/DeletionEffects.v ===== *)
(** * What a deletion does to the other components

    The commands of controlled deletion, seen from outside: documents only go,
    received units and manifestations only lose references to what went, renders go
    with their documents, pages and checkpoints of the ingestion are not touched. *)

From Stdlib Require Import ZArith Ascii String Lia.
From stdpp Require Import base decidable list gmap strings relations.
From S2P Require Import Prelude PyStr Sha256 PyVal AuditTrail Identity Companies JobPolicies JobEngine JobLifecycle JobGuarantees Tables Artifacts ArtifactFacts Models Retention Deletion DeletionFacts DeletionGuarantees DeletionCompletion.

Local Open Scope string_scope.

(** ** The effect *)

(** The document [i] was there, and is gone. *)
Definition went (i : N) (d d' : DB) : Prop := is_Some (documents d !! i) /\ documents d' !! i = None.

(** A manifestation is as it was, or has lost a document that went. *)
Definition manifestation_kept (d d' : DB) (m m' : NFeManifestation) : Prop :=
  m' = m \/ (m' = m <| mf_document := None |> /\ exists i, mf_document m = Some i /\ went i d d').

(** A unit is as it was, but for what it refers to. *)
Definition dereferenced (u u' : ReceivedUnit) : Prop :=
  u' = u <| un_document := un_document u' |> <| un_event := un_event u' |> <| un_artifact := un_artifact u' |>.

(** A render is as it was, or went with its document. *)
Definition renders_kept (d d' : DB) : Prop :=
  forall i, match renders d !! i with
            | Some r => renders d' !! i = Some r \/ (renders d' !! i = None /\ went (rn_document r) d d')
            | None => renders d' !! i = None
            end.

Record deletion_effect (d d' : DB) : Prop := MkDeletionEffect {
  ef_documents : forall i x, documents d' !! i = Some x -> documents d !! i = Some x;
  ef_manifestations : rewritten (manifestation_kept d d') (manifestations d) (manifestations d');
  ef_units : rewritten dereferenced (units d) (units d');
  ef_renders : renders_kept d d';
  ef_pages : pages d' = pages d;
  ef_checkpoints : checkpoints d' = checkpoints d }.

Lemma went_mono_l i d1 d2 d3 : deletion_effect d1 d2 -> went i d2 d3 -> went i d1 d3.
Proof. intros Hd [[x Hx] Hn]. split; [|done]. exists x. by apply (ef_documents _ _ Hd). Qed.

Lemma went_mono_r i d1 d2 d3 : deletion_effect d2 d3 -> went i d1 d2 -> went i d1 d3.
Proof.
  intros Hd [Hs Hn]. split; [done|]. destruct (documents d3 !! i) as [x|] eqn:Hx; [|done].
  apply (ef_documents _ _ Hd) in Hx. congruence.
Qed.

Lemma dereferenced_refl u : dereferenced u u.
Proof. by destruct u. Qed.

Lemma dereferenced_trans u1 u2 u3 : dereferenced u1 u2 -> dereferenced u2 u3 -> dereferenced u1 u3.
Proof. unfold dereferenced. intros H1 ->. rewrite H1. by destruct u1. Qed.

Lemma rewritten_trans {R} (f g h : relation R) (t1 t2 t3 : gmap N R) :
  (forall x y z, f x y -> g y z -> h x z) -> rewritten f t1 t2 -> rewritten g t2 t3 -> rewritten h t1 t3.
Proof.
  intros Hc H1 H2 i. specialize (H1 i). specialize (H2 i). repeat case_match; try done. by eapply Hc.
Qed.

Lemma rewritten_weaken {R} (f h : relation R) (t1 t2 : gmap N R) : (forall x y, f x y -> h x y) -> rewritten f t1 t2 -> rewritten h t1 t2.
Proof. intros Hf H i. specialize (H i). repeat case_match; try done. by apply Hf. Qed.

Lemma rewritten_refl {R} (f : relation R) (t : gmap N R) : (forall x, f x x) -> rewritten f t t.
Proof. intros Hf i. destruct (t !! i); auto. Qed.

#[export] Instance deletion_effect_preorder : PreOrder deletion_effect.
Proof.
  split.
  - intros d. split; try done.
    + apply rewritten_refl. by left.
    + apply rewritten_refl, dereferenced_refl.
    + intros i. destruct (renders d !! i); [by left|done].
  - intros d1 d2 d3 H1 H2. split.
    + intros i x Hx. by apply (ef_documents _ _ H1), (ef_documents _ _ H2).
    + eapply rewritten_trans; [|apply (ef_manifestations _ _ H1)|apply (ef_manifestations _ _ H2)].
      intros x y z [->|(-> & i & Hi & Hg)] [->|(-> & j & Hj & Hg')].
      * by left.
      * right. split; [done|]. exists j. split; [done|]. by eapply went_mono_l.
      * right. split; [done|]. exists i. split; [done|]. by eapply went_mono_r.
      * done.
    + eapply rewritten_trans; [apply dereferenced_trans|apply (ef_units _ _ H1)|apply (ef_units _ _ H2)].
    + intros i. pose proof (ef_renders _ _ H1 i) as G1. pose proof (ef_renders _ _ H2 i) as G2.
      destruct (renders d1 !! i) as [r|].
      * destruct G1 as [G1|[G1 Hw]]; rewrite G1 in G2.
        -- destruct G2 as [G2|[G2 Hw]]; [by left|right]. split; [done|]. by eapply went_mono_l.
        -- right. split; [done|]. by eapply went_mono_r.
      * by rewrite G1 in G2.
    + rewrite (ef_pages _ _ H2). apply (ef_pages _ _ H1).
    + rewrite (ef_checkpoints _ _ H2). apply (ef_checkpoints _ _ H1).
Qed.

(** ** The commands *)

Section effects.
Context {B : Type} `{!External B} {heap : Heap} {laws : ExternalLaws B}.
Implicit Types (w : World B).

Variant DeletionCommand : Type :=
| DeletionRequest (actor : SessionIdentity) (document_id : uuid_ref) (scope_hash_value scope_version confirmation reason : pyval)
| DeletionResume (actor : SessionIdentity) (operation_id : uuid_ref)
| DeletionExecution (operation_id : uuid_ref)
| DeletionJob (job : Job).

Definition run_deletion (c : DeletionCommand) w : World B :=
  match c with
  | DeletionRequest actor id hash version confirmation reason => (request_deletion actor id hash version confirmation reason w).2
  | DeletionResume actor id => (resume_deletion actor id w).2
  | DeletionExecution id => (execute_deletion id w).2
  | DeletionJob job => (deletion_handler job w).2
  end.

(** The effect, along a run. *)
Definition affects w w' : Prop := deletion_effect (db w) (db w') /\ (next_uuid w <= next_uuid w')%N.

#[export] Instance affects_preorder : PreOrder affects.
Proof. split; [by split|]. intros a b c [H1 H2] [H3 H4]. split; [by etrans|lia]. Qed.

#[export] Instance affects_rolls_back : RollsBack affects.
Proof. intros w w' [_ Hn]. by split. Qed.

Definition outside_tables (d : DB) := (document_sources d, manifestations d, units d, pages d, checkpoints d).

Lemma affects_keeping w w' : keeps outside_tables w w' -> affects w w'.
Proof.
  intros (He & _ & _ & Hn). split; [|done]. unfold outside_tables, document_sources in He. injection He as H1 H2 H3 H4 H5 H6 H7 H8 H9 H10.
  split.
  - intros i x. by rewrite H1.
  - rewrite H7. apply rewritten_refl. by left.
  - rewrite H8. apply rewritten_refl, dereferenced_refl.
  - intros i. rewrite H5. destruct (renders (db w) !! i); [by left|done].
  - done.
  - done.
Qed.

Lemma affects_kept {A} (m : M B A) : moves (keeps outside_tables) m -> moves affects m.
Proof. intros Hm w. by apply affects_keeping. Qed.

Lemma erased_effect id o o' now d d' :
  document_erased id o o' now d d' -> is_Some (documents d !! op_target_document_id o) -> deletion_effect d d'.
Proof.
  intros He Hs.
  assert (went (op_target_document_id o) d d') as Hw by (split; [done|]; rewrite (er_documents _ _ _ _ _ _ He); apply lookup_delete_eq).
  split.
  - intros i x. rewrite (er_documents _ _ _ _ _ _ He). by intros [_ ?]%lookup_delete_Some.
  - eapply rewritten_weaken; [|apply (er_manifestations _ _ _ _ _ _ He)]. intros y z [Hz [[Hn (i & Hi & <-)]|[Hsame _]]].
    + right. split; [by rewrite Hz, Hn|]. by eexists.
    + left. rewrite Hz, Hsame. by destruct y.
  - eapply rewritten_weaken; [|apply (er_units _ _ _ _ _ _ He)]. intros y z Hu. apply (ur_same _ _ _ _ _ Hu).
  - intros i. pose proof (er_renders _ _ _ _ _ _ He i) as H. destruct (renders d !! i) as [r|]; [|done].
    destruct H as [[Hd ?]|[_ ?]]; [right; by rewrite Hd|by left].
  - pose proof (er_others _ _ _ _ _ _ He) as Ho. unfold other_tables in Ho. congruence.
  - pose proof (er_others _ _ _ _ _ _ He) as Ho. unfold other_tables in Ho. congruence.
Qed.

Lemma affects_finalize id : moves affects (_finalize_relational (B:=B) id).
Proof using Type.
  intros w. destruct (_finalize_relational id w) as [[o'|e] w'] eqn:Hf; cbn [snd].
  - pose proof Hf as Hrun. apply atomic_inv in Hf as [_ Hf].
    destruct (finalize_steps _ _ _ _ Hf) as (o & _ & _ & Hthere & _ & _ & _ & w1 & Hsame & _). split.
    + eapply erased_effect; [eapply erased_unaudited; [exact Hsame|apply erased_by_the_code]|exact Hthere].
    + assert (moves env_grows (_finalize_relational (B:=B) id)) as He
        by (unfold _finalize_relational, finalize_locked, get_operation, delete_events, delete_document, delete_artifact, save_operation, _audit; env_tac).
      by destruct (moves_run _ _ _ _ _ He Hrun) as (_ & _ & _ & ?).
  - split; [by rewrite (atomic_rollback _ _ _ _ Hf)|].
    assert (moves env_grows (_finalize_relational (B:=B) id)) as He
      by (unfold _finalize_relational, finalize_locked, get_operation, delete_events, delete_document, delete_artifact, save_operation, _audit; env_tac).
    by destruct (moves_run _ _ _ _ _ He Hf) as (_ & _ & _ & ?).
Qed.

Lemma outside_mark id s code item : moves affects (_mark_outcome (B:=B) id s code item).
Proof using Type. apply affects_kept. unfold _mark_outcome, _audit, get_operation, save_operation, update_item. frame_tac. Qed.

Lemma outside_process o y : moves affects (_process_artifact (B:=B) o y).
Proof using laws.
  unfold _process_artifact. apply moves_bind; [apply _| |].
  - apply affects_kept. unfold _claim_item, get_item, update_item. frame_tac.
  - intros [c|]; [|by apply moves_pure; [apply _|]].
    destruct (di_artifact_id c), (di_expected_size_bytes c), (di_expected_version c);
      try (apply moves_bind; [apply _|apply outside_mark|intros ?; by apply moves_pure; [apply _|]]).
    apply moves_bind; [apply _| |].
    + apply affects_kept, moves_try; [apply _|apply moves_bind; [apply _|by apply keeps_delete_for_deletion|frame_tac]|frame_tac].
    + intros [code|]; [apply moves_bind; [apply _|apply outside_mark|intros ?; by apply moves_pure; [apply _|]]|].
      apply affects_kept. unfold update_item. frame_tac.
Qed.

Lemma affects_items id items : moves affects (process_items (B:=B) id items).
Proof using laws.
  induction items as [|y items IH]; cbn [process_items]; [apply affects_finalize|]. destruct (negb _); [apply IH|].
  apply moves_bind; [apply _|apply affects_kept; frame_tac|intros now].
  apply moves_bind; [apply _|apply affects_kept; frame_tac|intros _].
  apply moves_bind; [apply _|apply affects_kept; unfold get_operation; frame_tac|intros o].
  apply moves_bind; [apply _|apply outside_process|]. intros [o'|]; [by apply moves_pure; [apply _|]|exact IH].
Qed.

Lemma affects_execution id : moves affects (execute_deletion (B:=B) id).
Proof using laws.
  unfold execute_deletion. apply moves_bind; [apply _|by apply moves_pure; [apply _|]; destruct (uuid_of id)|intros u].
  apply moves_bind; [apply _|apply affects_kept; unfold begin_execution, save_operation; frame_tac|intros [o c]].
  destruct c; [by apply moves_pure; [apply _|]|]. apply moves_try; [apply _| |intros e; apply outside_mark].
  unfold execute_body. apply moves_bind; [apply _|apply affects_kept; unfold _load_document; frame_tac|intros document].
  destruct (negb _); [apply outside_mark|].
  apply moves_bind; [apply _|apply affects_kept; unfold localdate; frame_tac|intros day].
  destruct (negb _); [apply outside_mark|].
  apply moves_bind; [apply _|apply affects_kept; frame_tac|intros items]. apply affects_items.
Qed.

Lemma outside_save o : moves (keeps outside_tables) (save_operation (B:=B) o).
Proof using Type. unfold save_operation. frame_tac. Qed.

Lemma outside_enqueue r : moves (keeps outside_tables) (enqueue (B:=B) r).
Proof using Type. by apply keeps_enqueue. Qed.

(** Every command has the effect, whatever it answers. *)
Lemma affects_command c w : affects w (run_deletion c w).
Proof using laws.
  destruct c as [actor id hash version confirmation reason|actor id|id|job]; cbn [run_deletion].
  - assert (moves (keeps outside_tables) (request_deletion (B:=B) actor id hash version confirmation reason)) as Hm; [|by apply affects_kept].
    unfold request_deletion, request_tries, request_locked, _load_document, localdate, create_operation, _enumerate_items,
      _append_item, _audit, _enqueue, _deletion_policy, save_policy. frame_tac; apply outside_save || apply outside_enqueue.
  - assert (moves (keeps outside_tables) (resume_deletion (B:=B) actor id)) as Hm; [|by apply affects_kept].
    unfold resume_deletion, resume_locked, _enqueue, _deletion_policy, save_policy, _audit, get_operation.
    frame_tac; apply outside_save || apply outside_enqueue.
  - apply affects_execution.
  - assert (moves affects (deletion_handler (B:=B) job)) as Hm; [|apply Hm]. unfold deletion_handler, execute_outcome.
    destruct (job_payload job); try by apply moves_pure; [apply _|].
    destruct (assoc _ _) as [[]|]; try by apply moves_pure; [apply _|].
    apply moves_bind; [apply _| |intros ?; by apply moves_pure; [apply _|]].
    apply moves_try; [apply _| |intros e].
    { apply moves_bind; [apply _|apply affects_execution|]. intros o. by apply moves_pure; [apply _|]. }
    destruct e; try by apply moves_pure; [apply _|]. destruct (String.eqb _ _); (apply moves_pure; [apply _|done]).
Qed.
End effects.
