(* ===== verification/IngestionProtocol.v ===== *)
(** * The checkpoint protocol

    What any interleaving of ingestion, reconciliation, controlled deletion and
    other components does to the tables of the ingestion, read off the tables
    before and after: finished pages are final and complete, and a checkpoint has
    walked from where it was to where it is along finished pages that are there. *)

From Stdlib Require Import ZArith Ascii String Lia.
From stdpp Require Import base decidable list gmap strings relations.
From S2P Require Import Prelude PyStr Sha256 PyVal Models Tables AuditTrail Artifacts ArtifactFacts Documents Simulation Ingestion IngestionFacts IngestionGuarantees Retention Deletion DeletionCompletion DeletionEffects.

Local Open Scope string_scope.

(** ** What the tables promise *)

Abbreviation finished p := (finished_state (pg_state p) = true).
Abbreviation not_finished p := (finished_state (pg_state p) = false).

(** A finished page: closed, with a row for every unit it announced, each of which
    has been treated to the end. *)
Record page_complete (d : DB) (p : IngestionPage) : Prop := MkComplete {
  cm_closed : is_Some (pg_finalized_at p);
  cm_count : pg_unit_count p = Z.of_nat (length (page_units (pg_id p) d));
  cm_treated : forall i u, units d !! i = Some u -> un_page u = pg_id p -> is_Some (un_terminal_at u) }.

Record treated_ok (d : DB) : Prop := MkTreatedOk {
  to_units : forall i u, units d !! i = Some u -> terminal (un_state u) = true -> is_Some (un_terminal_at u);
  to_pages : forall i p, pages d !! i = Some p -> finished p -> page_complete d p }.

Definition protocol_inv {B} (w : World B) : Prop := ingestion_inv w /\ treated_ok (db w).

(** ** What happens to them *)

(** A walk of the scope along pages: each was requested at the position reached so
    far, and continues it. *)
Inductive walk (scope : N * string * string) : string -> list IngestionPage -> string -> Prop :=
| walk_here a : walk scope a [] a
| walk_on a b c p l :
    (pg_company p, pg_family p, pg_flow p) = scope -> requested_position p = a ->
    continues (is_nfe (pg_family p)) a (next_position p) b -> walk scope b l c -> walk scope a (p :: l) c.

(** From the position [a] to [b] along distinct pages that were finished between [d] and [d']. *)
Definition walked (d d' : DB) (scope : N * string * string) (a b : string) : Prop :=
  exists l, walk scope a l b /\ NoDup (pg_id <$> l) /\
    forall p, p ∈ l -> pages d' !! pg_id p = Some p /\ finished p /\ forall p0, pages d !! pg_id p = Some p0 -> not_finished p0.

Record progress (d d' : DB) : Prop := MkProgress {
  pg_final : forall i p, pages d !! i = Some p -> finished p -> pages d' !! i = Some p;
  pg_kept : forall i p, pages d !! i = Some p -> exists p', pages d' !! i = Some p' /\ pg_scope p' = pg_scope p /\
    pg_request_cursor p' = pg_request_cursor p /\ pg_request_nsu p' = pg_request_nsu p;
  pg_units : forall i u, units d !! i = Some u -> exists u', units d' !! i = Some u' /\ un_scope u' = un_scope u /\
    (is_Some (un_terminal_at u) -> is_Some (un_terminal_at u'));
  pg_moved : forall i c, checkpoints d !! i = Some c -> exists c', checkpoints d' !! i = Some c' /\ cp_scope c' = cp_scope c /\
    walked d d' (cp_scope c) (position c) (position c');
  pg_opened : forall i c', checkpoints d' !! i = Some c' -> checkpoints d !! i = None -> walked d d' (cp_scope c') "" (position c') }.

Lemma walk_app scope a l b l' c : walk scope a l b -> walk scope b l' c -> walk scope a (l ++ l')%list c.
Proof. induction 1; [done|]. intros Hc. cbn. eapply walk_on; eauto. Qed.

Lemma walked_here d d' scope a : walked d d' scope a a.
Proof. exists []. split; [apply walk_here|]. split; [apply NoDup_nil_2|]. by intros p ?%not_elem_of_nil. Qed.

Definition keeps_finished (d d' : DB) : Prop := forall i p, pages d !! i = Some p -> finished p -> pages d' !! i = Some p.

Lemma walked_trans d1 d2 d3 scope a b c :
  keeps_finished d1 d2 -> keeps_finished d2 d3 -> walked d1 d2 scope a b -> walked d2 d3 scope b c -> walked d1 d3 scope a c.
Proof.
  intros F1 F2 (l1 & W1 & N1 & P1) (l2 & W2 & N2 & P2). exists (l1 ++ l2)%list. split; [by eapply walk_app|]. split.
  - rewrite fmap_app. apply NoDup_app. split; [done|]. split; [|done].
    intros i (p & -> & Hp)%list_elem_of_fmap (q & Hi & Hq)%list_elem_of_fmap.
    destruct (P1 _ Hp) as (Hpd & Hpf & _). destruct (P2 _ Hq) as (_ & _ & Hu). rewrite <-Hi in Hu. specialize (Hu _ Hpd). congruence.
  - intros p [Hp|Hp]%elem_of_app.
    + destruct (P1 _ Hp) as (Hpd & Hpf & Hu). split; [by apply F2|done].
    + destruct (P2 _ Hp) as (Hpd & Hpf & Hu). split_and!; [done|done|]. intros p0 Hp0.
      destruct (finished_state (pg_state p0)) eqn:Hf; [|done]. pose proof (F1 _ _ Hp0 Hf) as Hd. by rewrite (Hu _ Hd) in Hf.
Qed.

#[export] Instance progress_preorder : PreOrder progress.
Proof.
  split.
  - intros d. split; try done.
    + intros i p Hi. by exists p.
    + intros i u Hi. by exists u.
    + intros i c Hi. exists c. split_and!; try done. apply walked_here.
    + intros i c Hi. by rewrite Hi.
  - intros d1 d2 d3 H G. split.
    + intros i p Hi Hf. apply (pg_final _ _ G); [|done]. by apply (pg_final _ _ H).
    + intros i p Hi. destruct (pg_kept _ _ H _ _ Hi) as (p1 & Hp1 & S1 & C1 & N1).
      destruct (pg_kept _ _ G _ _ Hp1) as (p2 & Hp2 & S2 & C2 & N2). exists p2. split_and!; congruence.
    + intros i u Hi. destruct (pg_units _ _ H _ _ Hi) as (u1 & Hu1 & S1 & T1).
      destruct (pg_units _ _ G _ _ Hu1) as (u2 & Hu2 & S2 & T2). exists u2. split_and!; [done|congruence|auto].
    + intros i c Hi. destruct (pg_moved _ _ H _ _ Hi) as (c1 & Hc1 & S1 & W1).
      destruct (pg_moved _ _ G _ _ Hc1) as (c2 & Hc2 & S2 & W2). exists c2. split; [done|]. split; [congruence|].
      rewrite S1 in W2. exact (walked_trans _ _ _ _ _ _ _ (pg_final _ _ H) (pg_final _ _ G) W1 W2).
    + intros i c Hi Hnone. destruct (checkpoints d2 !! i) as [c1|] eqn:Hc1.
      * destruct (pg_moved _ _ G _ _ Hc1) as (c2 & Hc2 & S2 & W2). assert (c2 = c) as -> by congruence.
        rewrite S2. exact (walked_trans _ _ _ _ _ _ _ (pg_final _ _ H) (pg_final _ _ G) (pg_opened _ _ H _ _ Hc1 Hnone) W2).
      * exact (walked_trans _ _ _ _ _ _ _ (pg_final _ _ H) (pg_final _ _ G) (walked_here _ _ _ _) (pg_opened _ _ G _ _ Hi Hc1)).
Qed.

(** ** Counting the units of a page *)

Lemma count_ext {R} (p : R -> bool) (t t' : gmap N R) :
  (forall i, (exists r, t !! i = Some r /\ p r = true) <-> (exists r, t' !! i = Some r /\ p r = true)) ->
  length (select p t) = length (select p t').
Proof.
  assert (forall s : gmap N R, length (select p s) = size (dom (filter (fun '(_, r) => p r = true) s))) as Hsize.
  { intros s. rewrite size_dom. unfold select, rows. rewrite filter_seconds, length_fmap, <-length_map_to_list, map_filter_alt, map_to_list_to_map; [done|].
    eapply sublist_NoDup; [apply (NoDup_fst_map_to_list s)|]. apply fmap_sublist, sublist_filter. }
  intros He. rewrite !Hsize. f_equal. apply set_eq. intros i. rewrite !elem_of_dom.
  assert (forall s : gmap N R, is_Some (filter (fun '(_, r) => p r = true) s !! i) <-> exists r, s !! i = Some r /\ p r = true) as Hi.
  { intros s. split; [intros [r [? ?]%map_lookup_filter_Some]; by exists r|]. intros (r & Hr & Hp). exists r. by apply map_lookup_filter_Some. }
  by rewrite !Hi.
Qed.

Lemma page_units_ext page d d' :
  (forall i, (exists u, units d !! i = Some u /\ un_page u = page) <-> (exists u, units d' !! i = Some u /\ un_page u = page)) ->
  length (page_units page d) = length (page_units page d').
Proof. intros He. apply count_ext. intros i. setoid_rewrite N.eqb_eq. apply He. Qed.

(** ** Changes of the tables *)

(** What a unit may become. *)
Definition unit_step (u u' : ReceivedUnit) : Prop :=
  un_scope u' = un_scope u /\ (is_Some (un_terminal_at u) -> is_Some (un_terminal_at u')) /\
  (terminal (un_state u') = true -> is_Some (un_terminal_at u') \/ terminal (un_state u) = true).

Lemma unit_step_refl u : unit_step u u.
Proof. split_and!; auto. Qed.

Lemma complete_ext d d' p :
  (forall i, (exists u, units d !! i = Some u /\ un_page u = pg_id p) <-> (exists u, units d' !! i = Some u /\ un_page u = pg_id p)) ->
  (forall i u', units d' !! i = Some u' -> un_page u' = pg_id p ->
    exists u, units d !! i = Some u /\ un_page u = pg_id p /\ (is_Some (un_terminal_at u) -> is_Some (un_terminal_at u'))) ->
  page_complete d p -> page_complete d' p.
Proof.
  intros He Ht [H1 H2 H3]. split; [done| |].
  - rewrite H2. f_equal. by apply page_units_ext.
  - intros i u' Hi Hp. destruct (Ht _ _ Hi Hp) as (u & Hu & Hpu & Hs). eauto.
Qed.

(** Units are rewritten. *)
Lemma units_rewritten d d' :
  pages d' = pages d -> checkpoints d' = checkpoints d -> rewritten unit_step (units d) (units d') ->
  treated_ok d -> treated_ok d' /\ progress d d'.
Proof.
  intros Hp Hc Hu [T1 T2].
  assert (forall i u', units d' !! i = Some u' -> exists u, units d !! i = Some u /\ unit_step u u') as Hback.
  { intros i u' Hi. specialize (Hu i). rewrite Hi in Hu. destruct (units d !! i) as [u|]; [by exists u|done]. }
  assert (forall i u, units d !! i = Some u -> exists u', units d' !! i = Some u' /\ unit_step u u') as Hforth.
  { intros i u Hi. specialize (Hu i). rewrite Hi in Hu. destruct (units d' !! i) as [u'|]; [by exists u'|done]. }
  split; split.
  - intros i u' Hi Ht. destruct (Hback _ _ Hi) as (u & Hu0 & _ & S1 & S2). destruct (S2 Ht) as [?|?]; [done|]. eauto.
  - intros i p Hi Hf. rewrite Hp in Hi. eapply complete_ext; [| |by eapply T2].
    + intros j. split.
      * intros (u & Hj & Hpu). destruct (Hforth _ _ Hj) as (u' & Hj' & [= Hs _] & _). exists u'. split; [done|congruence].
      * intros (u' & Hj' & Hpu). destruct (Hback _ _ Hj') as (u & Hj & [= Hs _] & _). exists u. split; [done|congruence].
    + intros j u' Hj Hpu. destruct (Hback _ _ Hj) as (u & Hj' & [= Hs _] & S1 & _). exists u. split_and!; [done|congruence|done].
  - intros i p Hi _. by rewrite Hp.
  - intros i p Hi. exists p. by rewrite Hp.
  - intros i u Hi. destruct (Hforth _ _ Hi) as (u' & Hu' & S0 & S1 & _). by exists u'.
  - intros i c Hi. exists c. rewrite Hc. split_and!; try done. apply walked_here.
  - intros i c Hi. rewrite <-Hc. congruence.
Qed.

(** A page is written that is not finished, before or after; or a new one. *)
Lemma page_put d d' id p' :
  units d' = units d -> checkpoints d' = checkpoints d -> pages d' = <[id := p']> (pages d) -> not_finished p' ->
  (forall p, pages d !! id = Some p -> not_finished p /\ pg_scope p' = pg_scope p /\ pg_request_cursor p' = pg_request_cursor p /\
     pg_request_nsu p' = pg_request_nsu p) ->
  treated_ok d -> treated_ok d' /\ progress d d'.
Proof.
  intros Hu Hc Hp Hopen Hold [T1 T2]. split; split.
  - by rewrite Hu.
  - intros i p. rewrite Hp, lookup_insert_Some. intros [[<- <-]|[_ Hi]] Hf; [congruence|].
    eapply complete_ext; [..|by eapply T2]; rewrite Hu; [done|]. intros j u' Hj Hpu. by exists u'.
  - intros i p Hi Hf. rewrite Hp, lookup_insert_ne; [done|]. intros <-. destruct (Hold _ Hi) as [? _]. congruence.
  - intros i p Hi. rewrite Hp. destruct (decide (id = i)) as [<-|Hne].
    + exists p'. rewrite lookup_insert_eq. by destruct (Hold _ Hi) as (_ & ? & ? & ?).
    + exists p. by rewrite lookup_insert_ne.
  - intros i u Hi. exists u. by rewrite Hu.
  - intros i c Hi. exists c. rewrite Hc. split_and!; try done. apply walked_here.
  - intros i c Hi. rewrite <-Hc. congruence.
Qed.

(** A unit is registered under a page that is not finished. *)
Lemma unit_put d d' k u :
  pages d' = pages d -> checkpoints d' = checkpoints d -> units d !! k = None -> units d' = <[k := u]> (units d) ->
  terminal (un_state u) = false -> (forall i p, pages d !! i = Some p -> finished p -> pg_id p <> un_page u) ->
  treated_ok d -> treated_ok d' /\ progress d d'.
Proof.
  intros Hp Hc Hk Hu Hs Hopen [T1 T2]. split; split.
  - intros i x. rewrite Hu, lookup_insert_Some. intros [[_ <-]|[_ Hi]] Ht; [congruence|eauto].
  - intros i p Hi Hf. rewrite Hp in Hi. pose proof (Hopen _ _ Hi Hf) as Hne. eapply complete_ext; [| |by eapply T2].
    + intros j. rewrite Hu. split.
      * intros (x & Hj & Hx). exists x. rewrite lookup_insert_ne; [done|]. intros <-. congruence.
      * intros (x & Hj & Hx). apply lookup_insert_Some in Hj as [[_ <-]|[_ Hj]]; [congruence|by exists x].
    + intros j x Hj Hx. rewrite Hu in Hj. apply lookup_insert_Some in Hj as [[_ <-]|[_ Hj]]; [congruence|by exists x].
  - intros i p Hi _. by rewrite Hp.
  - intros i p Hi. exists p. by rewrite Hp.
  - intros i x Hi. exists x. rewrite Hu, lookup_insert_ne; [done|]. intros <-. congruence.
  - intros i c Hi. exists c. rewrite Hc. split_and!; try done. apply walked_here.
  - intros i c Hi. rewrite <-Hc. congruence.
Qed.

(** A scope opens without a position. *)
Lemma checkpoint_put d d' k c :
  pages d' = pages d -> units d' = units d -> checkpoints d !! k = None -> checkpoints d' = <[k := c]> (checkpoints d) ->
  position c = "" -> treated_ok d -> treated_ok d' /\ progress d d'.
Proof.
  intros Hp Hu Hk Hc Hpos [T1 T2]. split; split.
  - by rewrite Hu.
  - intros i p Hi Hf. rewrite Hp in Hi. eapply complete_ext; [..|by eapply T2]; rewrite Hu; [done|]. intros j x Hj Hx. by exists x.
  - intros i p Hi _. by rewrite Hp.
  - intros i p Hi. exists p. by rewrite Hp.
  - intros i u Hi. exists u. by rewrite Hu.
  - intros i x Hi. exists x. rewrite Hc, lookup_insert_ne; [|intros <-; congruence]. split_and!; try done. apply walked_here.
  - intros i x. rewrite Hc, lookup_insert_Some. intros [[_ <-]|[_ Hi]]; [|congruence]. intros _. rewrite Hpos. apply walked_here.
Qed.

(** A page is finished and moves its checkpoint. *)
Lemma page_finished d d' p p' c c' :
  units d' = units d -> pages d !! pg_id p' = Some p -> not_finished p -> pages d' = <[pg_id p' := p']> (pages d) ->
  finished p' -> page_complete d p' -> pg_scope p' = pg_scope p -> pg_request_cursor p' = pg_request_cursor p ->
  pg_request_nsu p' = pg_request_nsu p -> checkpoints d !! cp_id c = Some c -> checkpoints d' = <[cp_id c := c']> (checkpoints d) ->
  moved_by p' c c' -> treated_ok d -> treated_ok d' /\ progress d d'.
Proof.
  intros Hu Hp Hopen Hp' Hf Hcm Hs Hrc Hrn Hc Hc' (Hid & Hsc & Hscope & Hpos & _ & _ & Hcont) [T1 T2].
  assert (forall q, page_complete d q -> page_complete d' q) as Hcomplete.
  { intros q Hq. eapply complete_ext; [..|exact Hq]; rewrite Hu; [done|]. intros j x Hj Hx. by exists x. }
  split; split.
  - by rewrite Hu.
  - intros i q. rewrite Hp', lookup_insert_Some. intros [[_ <-]|[_ Hi]] Hq; apply Hcomplete; [done|by eapply T2].
  - intros i q Hi Hq. rewrite Hp', lookup_insert_ne; [done|]. intros <-. congruence.
  - intros i q Hi. rewrite Hp'. destruct (decide (pg_id p' = i)) as [<-|Hne].
    + exists p'. rewrite lookup_insert_eq. assert (q = p) as -> by congruence. done.
    + exists q. by rewrite lookup_insert_ne.
  - intros i u Hi. exists u. by rewrite Hu.
  - intros i x Hi. rewrite Hc'. destruct (decide (cp_id c = i)) as [<-|Hne].
    + assert (x = c) as -> by congruence. exists c'. rewrite lookup_insert_eq. split; [done|]. split; [done|].
      exists [p']. split; [eapply walk_on; [by rewrite Hscope|by rewrite Hpos|exact Hcont|apply walk_here]|].
      split; [apply NoDup_singleton|]. intros q ->%list_elem_of_singleton. split; [by rewrite Hp', lookup_insert_eq|].
      split; [done|]. intros p0 Hp0. assert (p0 = p) as -> by congruence. done.
    + exists x. rewrite lookup_insert_ne by done. split_and!; try done. apply walked_here.
  - intros i x. rewrite Hc', lookup_insert_Some. intros [[<- _]|[_ Hi]]; congruence.
Qed.

(** ** The operations *)

Section protocol.
Context {B : Type} `{!External B} `{!ObjectStore B} {laws : ObjectStoreLaws B}.
Implicit Types w : World B.

Definition proceeds w w' : Prop :=
  (next_uuid w <= next_uuid w')%N /\ (protocol_inv w -> protocol_inv w' /\ progress (db w) (db w')).

#[local] Instance proceeds_preorder : PreOrder proceeds.
Proof.
  split.
  - intros w. split; [lia|]. by split.
  - intros a b c [N1 H1] [N2 H2]. split; [lia|]. intros Ha. destruct (H1 Ha) as [Hb P1]. destruct (H2 Hb) as [Hc P2].
    split; [done|]. by etrans.
Qed.

#[local] Instance proceeds_rolls_back : RollsBack proceeds.
Proof. intros w w' [Hn _]. split; [done|]. intros [Hw Ht]. split; [|done]. split; [by eapply ingestion_ok_mono|done]. Qed.

(** An operation that keeps the tables well formed, and what it does to them. *)
Lemma proceeds_tables w w' :
  ingests w w' -> (protocol_inv w -> treated_ok (db w') /\ progress (db w) (db w')) -> proceeds w w'.
Proof. intros [Hn Hi] Ht. split; [done|]. intros Hw. destruct (Ht Hw) as [H1 H2]. split; [|done]. split; [apply Hi, Hw|done]. Qed.

Lemma proceeds_assuming w w' : (next_uuid w <= next_uuid w')%N -> (protocol_inv w -> proceeds w w') -> proceeds w w'.
Proof. intros Hn H. split; [done|]. intros Hw. by apply (H Hw). Qed.

Lemma same_tables d d' : ingestion_tables d' = ingestion_tables d -> treated_ok d -> treated_ok d' /\ progress d d'.
Proof.
  intros [= Hc Hp Hu] Ht. apply units_rewritten; try done. rewrite Hu. intros i. destruct (units d !! i); [apply unit_step_refl|done].
Qed.

Lemma proceeds_keeps {A} (m : M B A) : moves (keeps ingestion_tables) m -> moves proceeds m.
Proof.
  intros Hm w. pose proof (Hm w) as Hk. apply proceeds_tables; [by apply ingests_keeps|]. intros [_ Ht].
  apply same_tables; [apply Hk|done].
Qed.

(** Units. *)
Definition benign (f : ReceivedUnit -> ReceivedUnit) : Prop := forall u, un_id (f u) = un_id u /\ unit_step u (f u).

#[local] Ltac benign_tac :=
  intros ?; split; [done|]; split; [done|]; split; [intros ?; first [done|by eexists]|];
  intros ?; first [by right|done|left; by eexists].

Lemma proceeds_update_unit id f : benign f -> moves proceeds (write (B:=B) (update_unit id f)).
Proof.
  intros Hf w. apply proceeds_tables; [apply ingests_update_unit; intros u; destruct (Hf u) as (? & ? & _); done|].
  intros [_ Ht]. apply units_rewritten; try done. apply rewritten_update_where. intros u.
  destruct (N.eqb _ _); [apply Hf|apply unit_step_refl].
Qed.

Lemma proceeds_begin a b c : moves proceeds (begin (B:=B) a b c).
Proof. by apply proceeds_keeps, keeps_begin. Qed.
Lemma proceeds_transmit limit id chunks : moves proceeds (transmit (B:=B) limit id chunks).
Proof using laws. by apply proceeds_keeps, keeps_transmit. Qed.
Lemma proceeds_persist data : moves proceeds (persist_document (B:=B) data).
Proof. apply proceeds_keeps, keeps_persist. Qed.
Lemma proceeds_audit p result reason : moves proceeds (page_audit (B:=B) p result reason).
Proof. apply proceeds_keeps, keeps_page_audit. by intros d d' (? & ? & ->). Qed.
Lemma proceeds_result p : moves proceeds (_result_for_page (B:=B) p).
Proof. apply proceeds_keeps. unfold _result_for_page. frame_tac. Qed.
Lemma proceeds_uuid4 : moves proceeds (uuid4 (B:=B)).
Proof. apply proceeds_keeps. frame_tac. Qed.

#[local] Hint Resolve proceeds_begin proceeds_transmit proceeds_persist proceeds_audit proceeds_result proceeds_uuid4 : frames.

Lemma proceeds_finish_unit r a o reason x y d e : moves proceeds (_finish_unit (B:=B) r a o reason x y d e).
Proof. unfold _finish_unit. frame_tac. apply proceeds_update_unit. benign_tac. Qed.

Lemma proceeds_fail_unit r reason x y : moves proceeds (_fail_unit (B:=B) r reason x y).
Proof. unfold _fail_unit. frame_tac. apply proceeds_update_unit. benign_tac. Qed.

Lemma proceeds_count r : moves proceeds (count_attempt (B:=B) r).
Proof. unfold count_attempt. frame_tac. apply proceeds_update_unit. benign_tac. Qed.

Lemma proceeds_find_parent c u : moves proceeds (find_parent (B:=B) c u).
Proof. unfold find_parent. cbv zeta. frame_tac. Qed.

#[local] Hint Resolve proceeds_finish_unit proceeds_fail_unit proceeds_count proceeds_find_parent : frames.

Context (limit : Z) (payloads : PayloadFactory) (metadata : DocumentMetadataFactory).

Lemma proceeds_ensure r c u : moves proceeds (_ensure_artifact (B:=B) limit payloads r c u).
Proof using laws.
  unfold _ensure_artifact, linked_artifact. cbv zeta. frame_tac. apply proceeds_update_unit. benign_tac.
Qed.

Lemma proceeds_persist_unit r c u a : moves proceeds (persist_unit (B:=B) metadata r c u a).
Proof.
  unfold persist_unit. apply moves_bind; [apply _|frame_tac|]. intros now. apply moves_bind; [apply _|frame_tac|]. intros md. cbv zeta.
  destruct (is_event_unit u && negb (is_some (md_parent_document_id md))); frame_tac.
Qed.

#[local] Hint Resolve proceeds_ensure proceeds_persist_unit : frames.

Lemma proceeds_treat r c u a : moves proceeds (treat_unit (B:=B) metadata r c u a).
Proof.
  unfold treat_unit. apply moves_bind; [apply _| |].
  - apply moves_try; [apply _|frame_tac|]. intros e. destruct e; frame_tac.
  - intros [o|p]; [frame_tac|]. cbv zeta. destruct (_unit_classification _). frame_tac.
Qed.

#[local] Hint Resolve proceeds_treat : frames.

Lemma proceeds_process r c u : moves proceeds (_process_unit (B:=B) limit payloads metadata r c u).
Proof using laws. unfold _process_unit. frame_tac. Qed.

(** *** Registration *)

Lemma proceeds_open_checkpoint company family flow : moves proceeds (get_or_create_checkpoint (B:=B) company family flow).
Proof.
  intros w. apply proceeds_tables; [apply ingests_open_checkpoint|]. intros [(Hc & _) Ht].
  unfold get_or_create_checkpoint. exec. destruct (first_where _ _ _); [by split|]. cbn.
  destruct (wide 64 flow); [|by split]. cbn. destruct (checkpoint_check _); [|by split]. cbn.
  apply (checkpoint_put _ _ (next_uuid w) (new_checkpoint (next_uuid w) (clock w) company family flow)); try done.
  - by apply keyed_fresh in Hc.
  - unfold position. by destruct (is_nfe _).
Qed.

Lemma proceeds_create_page build :
  (forall id now, pg_id (build id now) = id /\ not_finished (build id now)) -> moves proceeds (create_page (B:=B) build).
Proof.
  intros Hb w. apply proceeds_tables; [by apply ingests_create_page; intros; apply Hb|]. intros [(_ & Hp & _) Ht].
  destruct (Hb (next_uuid w) (clock w)) as [Hid Hopen]. unfold create_page. exec. set (p := build _ _) in *.
  destruct (wide 64 _); [|by split]. cbn. destruct (exists_row _ _); [by split|]. cbn. destruct (page_check p); [|by split]. cbn.
  apply (page_put _ _ (pg_id p) p); try done. intros q. rewrite Hid. apply keyed_fresh in Hp. by rewrite Hp.
Qed.

Lemma proceeds_register_page c response : moves proceeds (_register_page (B:=B) c response).
Proof.
  unfold _register_page. apply moves_bind; [apply _|frame_tac|]. intros company. cbv zeta.
  apply moves_try; [apply _| |frame_tac]. apply moves_transaction; [apply _..|].
  apply moves_bind; [apply _|apply proceeds_open_checkpoint|]. intros cp. apply moves_bind; [apply _|frame_tac|].
  intros [p|]; [frame_tac|]. unfold parse_ref_opt, page_references.
  destruct (String.eqb (position cp) _); frame_tac; by apply proceeds_create_page.
Qed.

Lemma bind_of_some {A A'} (x : A) e (k : A -> M B A') w : bind (of_option (Some x) e) k w = k x w.
Proof. reflexivity. Qed.

Lemma proceeds_register_unit page c u w :
  pages (db w) !! pg_id page = Some page -> not_finished page -> proceeds w (_register_unit (B:=B) page c u w).2.
Proof.
  intros Hpage Hopen. apply proceeds_tables; [apply ingests_register_unit|]. intros [(_ & Hps & Hus & _) Ht].
  destruct (_register_unit page c u w) as [r w'] eqn:Hr. cbn [snd]. revert Hr. unfold _register_unit.
  destruct (uuid_of _) as [company|]; [|by intros [= <- <-]]. rewrite bind_of_some. cbv zeta. unfold try_except, atomic.
  destruct (online w); [|by intros [= <- <-]]. unfold bind at 1, query at 1, gets. destruct (first_where _ _ _) as [old|] eqn:Hf.
  - destruct (String.eqb _ _); [by intros [= <- <-]|]. exec. intros [= <- <-]. apply units_rewritten; try done.
    apply rewritten_update_where. intros x. destruct (N.eqb _ _); [by split; [|split]|apply unit_step_refl].
  - unfold create_unit. exec. destruct (unit_fits _); [|by intros [= <- <-]]. cbn. destruct (unit_check _); [|by intros [= <- <-]]. cbn.
    destruct (is_some _); [|by intros [= <- <-]]. cbn. intros [= <- <-].
    apply (unit_put _ _ (next_uuid w) (new_unit (next_uuid w) (clock w) (pg_id page) company c u)); try done.
    + by apply keyed_fresh in Hus.
    + intros i p Hi Hfin He. destruct (proj1 Hps _ _ Hi) as [Hid _]. cbn in He. rewrite <-Hid, He in Hi. congruence.
Qed.

(** Pages stay while their units are registered and treated. *)
Lemma pages_keep_one page c u w :
  pages (db (bind (_register_unit (B:=B) page c u) (fun r => _process_unit limit payloads metadata r c u) w).2) = pages (db w).
Proof using laws.
  pose proof (pages_keep_units limit payloads metadata page c [u] w) as ([= _ Hp] & _). unfold ingest_units in Hp. cbn [for_each] in Hp.
  unfold bind at 1 in Hp. destruct (bind _ _ w) as [[o|e] w1]; exact Hp.
Qed.

Lemma proceeds_units page c l w :
  pages (db w) !! pg_id page = Some page -> not_finished page -> proceeds w (ingest_units (B:=B) limit payloads metadata page c l w).2.
Proof using laws.
  unfold ingest_units. revert w. induction l as [|u l IH]; intros w Hp Hopen; [done|].
  set (head := fun u => bind (_register_unit page c u) _) in *.
  assert (proceeds w (head u w).2) as Hhead.
  { unfold head, bind. pose proof (proceeds_register_unit page c u w Hp Hopen) as Hr.
    destruct (_register_unit page c u w) as [[r|e] w1]; [|exact Hr]. etrans; [exact Hr|apply proceeds_process]. }
  pose proof (pages_keep_one page c u w) as Hk. change (pages (db (head u w).2) = pages (db w)) in Hk.
  change (for_each (u :: l) head) with (bind (head u) (fun a => bind (for_each l head) (fun bs => ret (a :: bs)))). unfold bind at 1.
  destruct (head u w) as [[o|e] w1]; cbn [snd] in *; [|exact Hhead]. etrans; [exact Hhead|]. rewrite <-Hk in Hp.
  specialize (IH w1 Hp Hopen). unfold bind. destruct (for_each l head w1) as [[rest|e] w2]; exact IH.
Qed.

(** *** Finishing a page *)

(** The row [p0] may become [p]: the same request, and not finished. *)
Definition still_open (p p0 : IngestionPage) : Prop :=
  same_page p p0 /\ pg_request_cursor p = pg_request_cursor p0 /\ pg_request_nsu p = pg_request_nsu p0 /\ not_finished p.

Lemma proceeds_page_saved p p0 w :
  pages (db w) !! pg_id p = Some p0 -> not_finished p0 -> still_open p p0 -> proceeds w (page_saved p w).
Proof.
  intros Hp Hopen ([Hid Hs] & Hc & Hn & Hu). apply proceeds_tables; [by eapply ingests_page_saved|]. intros [_ Ht].
  apply (page_put _ _ (pg_id p) (touched_page p w)); try done. intros q Hq. assert (q = p0) as -> by congruence. done.
Qed.

Lemma proceeds_close_page p l adv x p0 w :
  pages (db w) !! pg_id p = Some p0 -> not_finished p0 -> still_open p p0 -> proceeds w (close_page (B:=B) p l adv x w).2.
Proof.
  intros Hp Hopen Hs. unfold close_page. cbv zeta. apply moved_bind; [apply _| |frame_tac].
  rewrite save_page_run. by eapply (proceeds_page_saved _ p0).
Qed.

Lemma settled_complete page p' d l :
  treated_ok d -> page_units (pg_id page) d = l -> units_settled page (map un_state l) = true ->
  pg_id p' = pg_id page -> pg_unit_count p' = pg_unit_count page -> is_Some (pg_finalized_at p') -> page_complete d p'.
Proof.
  intros [T1 _] Hl [Hn%Z.eqb_eq Ha]%andb_true_iff Hid Hc Hf. rewrite length_map, <-Hl in Hn. split; [done|congruence|].
  intros i u Hi Hu. apply (T1 i u Hi). rewrite forallb_forall in Ha. apply Ha, in_map. rewrite <-Hl, <-list_elem_of_In.
  apply elem_of_select. split; [|by exists i]. apply N.eqb_eq. congruence.
Qed.

Lemma finishing_grows {A} (m : M B A) : moves (keeps (fun _ => tt)) m -> forall w, (next_uuid w <= next_uuid (m w).2)%N.
Proof. intros Hm w. apply (Hm w). Qed.

#[local] Ltac finishing_tac :=
  apply finishing_grows;
  unfold reconcile_page, get_page, page_states, finish_reconciled, _finish_page, complete_page, close_page, save_page, save_checkpoint,
    _result_for_page, page_audit;
  cbv zeta; frame_tac.

Lemma proceeds_complete_page page state l x y w :
  pages (db w) !! pg_id page = Some page -> not_finished page -> finished_state state = true ->
  proceeds w (complete_page (B:=B) page state l x y w).2.
Proof.
  intros Hp Hopen Hst. apply proceeds_assuming.
  { finishing_tac. }
  intros [Hw Ht]. unfold complete_page. apply moved_query. cbv zeta.
  destruct (units_settled page _) eqn:Hu; cbn [negb].
  2: { apply moved_bind; [apply _| |frame_tac]. rewrite save_page_run. by eapply (proceeds_page_saved _ page). }
  apply moved_query. destruct (first_where _ _ _) as [c|] eqn:Hc; [|reflexivity].
  eapply moved_ok; [reflexivity|].
  destruct (String.eqb_spec (position c) (requested_position page)) as [Hpos|_]; cbn [negb].
  2: { apply moved_bind; [apply _| |frame_tac]. rewrite save_page_run. by eapply (proceeds_page_saved _ page). }
  eapply moved_ok; [reflexivity|]. set (d := decide_position state (clock w) page c).
  destruct (decide_position_page state (clock w) page c) as (s & f & e & Hd). fold d in Hd.
  destruct (is_failed (pd_page d)) eqn:Hf.
  { apply (proceeds_close_page _ _ _ _ page); rewrite ?Hd; try done. split_and!; try done.
    rewrite Hd in Hf. apply bool_decide_eq_true in Hf. cbn in Hf |- *. by rewrite Hf. }
  unfold bind at 1. rewrite save_checkpoint_run.
  destruct (checkpoint_check _) eqn:Hk; [|reflexivity].
  unfold close_page. cbv zeta. eapply moved_bind; [apply _| |frame_tac]. rewrite save_page_run.
  destruct (found_checkpoint _ _ _ _ Hw Hc) as [Hrowc Hsc].
  destruct (decide_position_moves state (clock w) page c Hsc Hpos Hf) as (Hm & _). fold d in Hm.
  apply proceeds_tables; [destruct Hm as (? & ? & _); by apply (finish_step page _ c); rewrite ?Hd|]. intros _.
  set (p' := touched_page (pd_page d <| pg_state := state |> <| pg_finalized_at := Some (clock w) |>
                             <| pg_outcome := (finish_outcome d x y).1 |> <| pg_recovery := (finish_outcome d x y).2 |>) w).
  assert (same_page p' page /\ pg_unit_count p' = pg_unit_count page /\ pg_request_cursor p' = pg_request_cursor page /\
          pg_request_nsu p' = pg_request_nsu page) as ([Hid Hs] & Hn & Hrc & Hrn) by (subst p'; by rewrite Hd).
  set (c' := touched_checkpoint (pd_checkpoint d <| cp_last_page := Some (pg_id page) |>) w).
  assert (moved_by p' c c') as Hm'.
  { destruct Hm as (M1 & M2 & M3 & M4 & M5 & M6 & M7). subst p'. unfold moved_by. rewrite Hd. by split_and!. }
  apply (page_finished _ _ page p' c c'); try done.
  - by rewrite Hid.
  - by eapply settled_complete.
  - change (put (cp_id c') c' (checkpoints (db w)) = <[cp_id c := c']> (checkpoints (db w))). by destruct Hm' as (-> & _).
Qed.

Lemma moved_transaction {A} (R : relation (World B)) `{!PreOrder R, !RollsBack R} (m : M B A) w :
  R w (m w).2 -> R w (atomic m w).2.
Proof.
  intros Hm. unfold atomic. destruct (online w); [|reflexivity]. destruct (m w) as [[a|e] w1]; [done|]. by apply rolls_back.
Qed.

Lemma stored_row w id p : ingestion_inv w -> pages (db w) !! id = Some p -> pg_id p = id.
Proof. intros (_ & [Hk _] & _) Hp. by destruct (Hk _ _ Hp). Qed.

Lemma proceeds_finish_page id state l reason x y w :
  (forall p, pages (db w) !! id = Some p -> not_finished p) -> proceeds w (_finish_page (B:=B) id state l reason x y w).2.
Proof.
  intros Hopen. apply proceeds_assuming.
  { finishing_tac. }
  intros [Hw _]. unfold _finish_page. apply moved_transaction; [apply _..|].
  apply moved_query. destruct (pages (db w) !! id) as [page|] eqn:Hp; [|reflexivity].
  eapply moved_ok; [reflexivity|]. destruct (settled_error page); [apply proceeds_result|].
  pose proof (stored_row _ _ _ Hw Hp) as <-. specialize (Hopen _ eq_refl).
  destruct (finished_state state) eqn:Hs; [by apply proceeds_complete_page|].
  by apply (proceeds_close_page _ _ _ _ page).
Qed.

(** Finishing one page leaves the others as they are. *)
Definition others_kept (id : N) w w' : Prop := forall j, j <> id -> pages (db w') !! j = pages (db w) !! j.

#[local] Instance others_kept_preorder id : PreOrder (others_kept id).
Proof. split; [done|]. intros a b c H1 H2 j Hj. by rewrite (H2 _ Hj), (H1 _ Hj). Qed.

#[local] Instance others_kept_rolls_back id : RollsBack (others_kept id).
Proof. by intros w w' _. Qed.

Lemma others_keep {A} id (m : M B A) : moves (keeps pages) m -> moves (others_kept id) m.
Proof. intros Hm w j _. by destruct (Hm w) as (-> & _). Qed.

Lemma others_save id p : pg_id p = id -> moves (others_kept id) (save_page (B:=B) p).
Proof. intros <- w j Hj. rewrite save_page_run. cbn. unfold put. by rewrite lookup_insert_ne. Qed.

Lemma others_audit id p result reason : moves (others_kept id) (page_audit (B:=B) p result reason).
Proof. apply others_keep, keeps_audit_pages. Qed.

Lemma others_result id p : moves (others_kept id) (_result_for_page (B:=B) p).
Proof. apply others_keep. unfold _result_for_page. frame_tac. Qed.

Lemma others_checkpoint id c : moves (others_kept id) (save_checkpoint (B:=B) c).
Proof. apply others_keep. unfold save_checkpoint. frame_tac. Qed.

#[local] Hint Resolve others_audit others_result others_checkpoint : frames.

Lemma others_close id p l adv x : pg_id p = id -> moves (others_kept id) (close_page (B:=B) p l adv x).
Proof.
  intros Hid. unfold close_page. cbv zeta. apply moves_bind; [apply _|by apply others_save|frame_tac].
Qed.

Lemma others_finish id state l reason x y w :
  ingestion_inv w -> others_kept id w (_finish_page (B:=B) id state l reason x y w).2.
Proof.
  intros Hw. unfold _finish_page. apply moved_transaction; [apply _..|].
  apply moved_query. destruct (pages (db w) !! id) as [page|] eqn:Hp; [|reflexivity].
  eapply moved_ok; [reflexivity|]. pose proof (stored_row _ _ _ Hw Hp) as Hid.
  destruct (settled_error page); [apply others_result|]. destruct (finished_state state); [|by apply others_close].
  unfold complete_page. cbv zeta. apply moved_query. destruct (negb _).
  { apply moved_bind; [apply _|by apply others_save|frame_tac]. }
  apply moved_query. destruct (first_where _ _ _) as [c|]; [|reflexivity]. eapply moved_ok; [reflexivity|].
  destruct (negb _).
  { apply moved_bind; [apply _|by apply others_save|frame_tac]. }
  apply moved_now. destruct (decide_position_page state (clock w) page c) as (s & f & e & Hd).
  destruct (is_failed _); [apply others_close; by rewrite Hd|].
  apply moved_bind; [apply _|apply others_checkpoint|]. intros _. apply others_close. by rewrite Hd.
Qed.

(** *** The two entry points *)

Lemma moved_page {C} (R : relation (World B)) `{!PreOrder R} id (k : IngestionPage -> M B C) w :
  (forall p, pages (db w) !! id = Some p -> R w (k p w).2) -> R w (bind (get_page id) k w).2.
Proof.
  intros Hk. unfold get_page, bind, autocommit, atomic, query, gets, of_option. destruct (online w); [|reflexivity].
  destruct (pages (db w) !! id) as [p|]; [by apply Hk|reflexivity].
Qed.

Lemma moved_step {A C} (R : relation (World B)) `{!PreOrder R} (m : M B A) (k : A -> M B C) w :
  R w (m w).2 -> (forall a w', m w = (Ok a, w') -> R w' (k a w').2) -> R w (bind m k w).2.
Proof.
  intros Hm Hk. unfold bind. destruct (m w) as [[a|e] w1]; cbn in *; [|done]. etrans; [exact Hm|by apply Hk].
Qed.

Lemma proceeds_content page c response w :
  pages (db w) !! pg_id page = Some page -> not_finished page ->
  proceeds w (ingest_page_content (B:=B) limit payloads metadata page c response w).2.
Proof using laws.
  intros Hp Hopen. unfold ingest_page_content, finish_classified. destruct (failure_response _).
  { apply proceeds_finish_page. intros q Hq. congruence. }
  apply moved_step; [apply _|by apply proceeds_units|]. intros states w1 Hu.
  apply (moves_run _ _ _ _ _ (pages_keep_units limit payloads metadata page c (fr_units response))) in Hu as ([= _ Hk] & _).
  rewrite <-Hk in Hp.
  apply moved_page; [apply _|]. intros q Hq. assert (q = page) as -> by congruence. apply proceeds_finish_page. intros x Hx. congruence.
Qed.

Lemma proceeds_prepare page response w :
  pages (db w) !! pg_id page = Some page -> not_finished page -> proceeds w (_prepare_page_retry (B:=B) page response w).2.
Proof.
  intros Hp Hopen. apply proceeds_tables; [apply ingests_prepare|]. intros [Hw Ht].
  destruct (_prepare_page_retry page response w) as [r w'] eqn:Hr. cbn [snd]. revert Hr. unfold _prepare_page_retry, autocommit, atomic.
  exec. destruct (online w); [|by intros [= <- <-]]. cbn. intros [= <- <-].
  apply (page_put _ _ (pg_id page) (retried_page (clock w) response page)); try done.
  - cbn. apply map_eq. intros i. rewrite lookup_update_where. destruct (decide (pg_id page = i)) as [<-|Hne].
    + rewrite lookup_insert_eq, Hp. cbn. by rewrite N.eqb_refl.
    + rewrite lookup_insert_ne by done. destruct (pages (db w) !! i) as [q|] eqn:Hq; [|done].
      pose proof (stored_row _ _ _ Hw Hq) as <-. cbn. by rewrite (proj2 (N.eqb_neq _ _) (not_eq_sym Hne)).
  - intros q Hq. assert (q = page) as -> by congruence. done.
Qed.

Lemma proceeds_ingest c response : moves proceeds (ingest (B:=B) limit payloads metadata c response).
Proof using laws.
  intros w. apply proceeds_assuming; [apply (ingests_ingest limit payloads metadata c response w)|]. intros Hw.
  unfold ingest. apply moved_lift; [reflexivity|intros _ _]. apply moved_lift; [reflexivity|intros _ _].
  apply moved_step; [apply _|apply proceeds_register_page|]. intros [page created] w1 Hreg.
  destruct (register_page_inv _ _ _ _ _ _ (proj1 Hw) Hreg) as (company & _ & Hp & _ & Hrec).
  destruct created.
  { destruct Hrec as (_ & Hopen & _). destruct (is_failed page); [apply proceeds_result|]. by apply proceeds_content. }
  destruct (_can_resume_page page response) eqn:Hcan; cbn [negb]; [|apply proceeds_result].
  assert (not_finished page) as Hopen by (unfold _can_resume_page in Hcan; by destruct (finished_state (pg_state page))).
  apply moved_step; [apply _|by apply proceeds_prepare|]. intros u w2 Hprep.
  eapply prepare_inv in Hprep; [|exact Hp]. apply moved_page; [apply _|]. intros q Hq.
  assert (q = retried_page (clock w1) response page) as -> by congruence. by apply proceeds_content.
Qed.

Lemma proceeds_page_states id : moves proceeds (page_states (B:=B) id).
Proof. apply proceeds_keeps. unfold page_states. frame_tac. Qed.

Lemma proceeds_reconciled p states w :
  ingestion_inv w -> (forall q, pages (db w) !! pg_id p = Some q -> not_finished q) ->
  proceeds w (finish_reconciled (B:=B) p states w).2 /\ others_kept (pg_id p) w (finish_reconciled (B:=B) p states w).2.
Proof.
  intros Hw Hopen. unfold finish_reconciled.
  split; (apply moved_bind; [apply _| |frame_tac]); [by apply proceeds_finish_page|by apply others_finish].
Qed.

Lemma proceeds_reconcile_unit n candidate : moves proceeds (reconcile_unit (B:=B) limit payloads metadata n candidate).
Proof using laws.
  destruct candidate as [u page]. unfold reconcile_unit. apply moves_bind; [apply _|frame_tac|]. intros unit.
  apply moves_bind; [apply _|apply proceeds_process|]. intros outcome w. apply proceeds_assuming.
  { finishing_tac. }
  intros [Hw _]. apply moved_page; [apply _|]. intros p Hp. pose proof (stored_row _ _ _ Hw Hp) as Hid. rewrite <-Hid in Hp.
  apply moved_step; [apply _|apply proceeds_page_states|]. intros states w1 Hs.
  apply atomic_inv in Hs as [_ Hs]. apply query_inv in Hs as [-> ->].
  apply moved_bind; [apply _| |frame_tac]. destruct (_ && _) eqn:Hc; [|reflexivity]. rewrite !andb_true_iff in Hc.
  destruct Hc as [[[Hst%bool_decide_eq_true _] _] _]. apply proceeds_reconciled; [done|]. intros q Hq.
  assert (q = p) as -> by congruence. by rewrite Hst.
Qed.

(** One page of the list reconciliation closes: the others stay as they are. *)
Lemma proceeds_reconcile_page p w :
  ingestion_inv w -> (forall q, pages (db w) !! pg_id p = Some q -> not_finished q) ->
  proceeds w (reconcile_page (B:=B) p w).2 /\ others_kept (pg_id p) w (reconcile_page (B:=B) p w).2.
Proof.
  intros Hw Hopen. unfold reconcile_page.
  split; (apply moved_step; [apply _| |]).
  - apply proceeds_page_states.
  - intros states w1 Hs. apply atomic_inv in Hs as [_ Hs]. apply query_inv in Hs as [-> ->].
    destruct (_ && _); [by apply proceeds_reconciled|reflexivity].
  - apply others_keep. unfold page_states. frame_tac.
  - intros states w1 Hs. apply atomic_inv in Hs as [_ Hs]. apply query_inv in Hs as [-> ->].
    destruct (_ && _); [by apply proceeds_reconciled|reflexivity].
Qed.

Lemma proceeds_reconcile_pages l w :
  NoDup (pg_id <$> l) -> (forall p, p ∈ l -> pages (db w) !! pg_id p = Some p /\ not_finished p) ->
  proceeds w (for_each l (reconcile_page (B:=B)) w).2.
Proof.
  revert w. induction l as [|p l IH]; intros w Hnd Hl; [done|]. cbn in Hnd. apply NoDup_cons in Hnd as [Hne Hnd].
  apply proceeds_assuming.
  { finishing_tac. }
  intros [Hw _]. destruct (Hl p) as [Hp Hopen]; [by left|].
  assert (forall q, pages (db w) !! pg_id p = Some q -> not_finished q) as Hrow by (intros q Hq; congruence).
  destruct (proceeds_reconcile_page p w Hw Hrow) as [Hhead Hothers].
  change (for_each (p :: l) (reconcile_page (B:=B))) with
    (bind (reconcile_page (B:=B) p) (fun a => bind (for_each l reconcile_page) (fun bs => ret (a :: bs)))).
  apply moved_step; [apply _|exact Hhead|]. intros a w1 Hr. rewrite Hr in Hothers. cbn in Hothers.
  apply moved_bind; [apply _| |frame_tac]. apply IH; [done|]. intros q Hq. destruct (Hl q) as [Hi Hu]; [by right|].
  split; [|done]. rewrite Hothers; [done|]. intros He. apply Hne. rewrite <-He. by apply list_elem_of_fmap_2.
Qed.

Lemma proceeds_reconcile unit_id : moves proceeds (reconcile (B:=B) limit payloads metadata unit_id).
Proof using laws.
  unfold reconcile. apply moves_bind; [apply _|unfold parse_ref_opt; frame_tac|intros u].
  apply moves_bind; [apply _|frame_tac|intros candidates]. apply moves_bind; [apply _|apply moves_fold_each; [apply _|]; intros; apply proceeds_reconcile_unit|].
  intros n w. apply proceeds_assuming.
  { finishing_tac. }
  intros [Hw _]. apply moved_autoquery; [reflexivity|]. apply moved_bind; [apply _| |frame_tac].
  apply proceeds_reconcile_pages.
  - destruct Hw as (_ & [Hk _] & _).
    assert (forall i r, pages (db w) !! i = Some r -> pg_id r = i) as Hst by (intros i r Hi; by destruct (Hk _ _ Hi)).
    apply (NoDup_fmap_2_strong pg_id).
    + intros p q. rewrite !sort_by_perm. intros [_ [i Hi]]%elem_of_select [_ [j Hj]]%elem_of_select He.
      rewrite (Hst _ _ Hi), (Hst _ _ Hj) in He. congruence.
    + rewrite sort_by_perm. unfold select. by apply NoDup_filter, (NoDup_rows pg_id).
  - intros p. rewrite sort_by_perm. intros [Ho [i Hi]]%elem_of_select. rewrite (stored_row _ _ _ Hw Hi). split; [done|].
    unfold open_page in Ho. by destruct (pg_state p).
Qed.

(** *** Interleavings *)

Variant IngestionOp : Type :=
| Ingest (c : IngestionContext) (response : FiscalResponse)
| Reconcile (unit_id : option uuid_ref).

Definition run_ingestion (op : IngestionOp) w : World B :=
  match op with
  | Ingest c response => (ingest limit payloads metadata c response w).2
  | Reconcile unit_id => (reconcile limit payloads metadata unit_id w).2
  end.

Lemma proceeds_run op w : proceeds w (run_ingestion op w).
Proof using laws. destruct op as [c response|unit_id]; [apply proceeds_ingest|apply proceeds_reconcile]. Qed.

Context {heap : Heap} {external : ExternalLaws B}.

(** One step: an ingestion or a reconciliation, a command of controlled deletion,
    or anything else that leaves pages and checkpoints alone and takes at most
    references from the units. *)
Inductive protocol_step : World B -> World B -> Prop :=
| by_ingestion op w : protocol_step w (run_ingestion op w)
| by_deletion c w : protocol_step w (run_deletion c w)
| by_others w w' :
    checkpoints (db w') = checkpoints (db w) -> pages (db w') = pages (db w) ->
    rewritten dereferenced (units (db w)) (units (db w')) -> (next_uuid w <= next_uuid w')%N -> protocol_step w w'.

Lemma dereferenced_step u u' : dereferenced u u' -> unit_step u u'.
Proof. unfold dereferenced, unit_step. intros ->. split_and!; auto. Qed.

Lemma ingestion_dereferenced w w' :
  checkpoints (db w') = checkpoints (db w) -> pages (db w') = pages (db w) ->
  rewritten dereferenced (units (db w)) (units (db w')) -> (next_uuid w <= next_uuid w')%N -> ingestion_inv w -> ingestion_inv w'.
Proof.
  intros Hc Hp Hu Hn Hw. apply (ingestion_ok_mono _ _ _ Hn) in Hw as (H1 & H2 & [H3 H4] & H5 & H6).
  assert (forall i u', units (db w') !! i = Some u' -> exists u, units (db w) !! i = Some u /\ un_id u' = un_id u /\ un_scope u' = un_scope u) as Hback.
  { intros i u' Hi. specialize (Hu i). rewrite Hi in Hu. destruct (units (db w) !! i) as [u|]; [|done]. exists u. by rewrite Hu. }
  unfold ingestion_inv, ingestion_ok. rewrite Hc, Hp. split_and!; [done|done| |..].
  - split.
    + intros i u' (u & Hi & -> & _)%Hback. by apply H3.
    + intros i j u' x' (u & Hi & _ & ->)%Hback (x & Hj & _ & ->)%Hback. by apply H4.
  - intros i u' (u & Hi & _ & [= -> _])%Hback. by eapply H5.
  - done.
Qed.

Lemma proceeds_step w w' : protocol_step w w' -> proceeds w w'.
Proof using laws external.
  assert (forall x y, checkpoints (db y) = checkpoints (db x) -> pages (db y) = pages (db x) ->
    rewritten dereferenced (units (db x)) (units (db y)) -> (next_uuid x <= next_uuid y)%N -> proceeds x y) as Hothers.
  { intros x y Hc Hp Hu Hn. apply proceeds_tables; [split; [done|by apply ingestion_dereferenced]|]. intros [_ Ht].
    apply units_rewritten; try done. eapply rewritten_weaken; [apply dereferenced_step|done]. }
  intros [op x|c x|x y Hc Hp Hu Hn]; [apply proceeds_run| |by apply Hothers].
  destruct (affects_command c x) as [He Hn].
  apply Hothers; [apply (ef_checkpoints _ _ He)|apply (ef_pages _ _ He)|apply (ef_units _ _ He)|done].
Qed.

(** C1 The ingestion protocol, along every interleaving of ingestions, reconciliations, commands of controlled deletion and
    operations that leave pages, checkpoints and the treatment of units alone, each run to its end.  From well-formed
    tables (one checkpoint per scope, one page per scope and key, one unit per page and identity) in which every terminal
    unit was treated to the end and every finished page is complete, the tables stay so: a finished page has exactly the
    unit rows it announced, each treated to the end.  A finished page never changes; no page, unit or checkpoint
    disappears, changes its scope or, once treated, becomes untreated.  And a checkpoint is where a walk along distinct
    pages, all finished in between and there in the final tables, has taken it from where it was (or from the start, if
    it was opened in between): each page was requested at the position reached so far, and continues it: never with the same
    position, nor with a smaller number where both end in one; a page without a continuation leaves a cursor where it is, and
    takes an NSU back to the start. *)
Theorem ingestion_follows_protocol w w' :
  protocol_inv w -> rtc protocol_step w w' -> protocol_inv w' /\ progress (db w) (db w').
Proof using laws external.
  intros Hw Hr. enough (proceeds w w') as [_ H] by by apply H.
  clear Hw. induction Hr as [w|w w1 w2 Hs _ IH]; [done|]. etrans; [by apply proceeds_step|exact IH].
Qed.

End protocol.
