(* ===== verification/IngestionRuns.v ===== *)
(** * A concrete run of ingestion

    One company over the S3 adapter and an in-memory bucket: an NF-e page is
    ingested, an empty position, an unavailable source, an ADN sequence; each
    theorem of [IngestionGuarantees] is applied along the run. *)

From Stdlib Require Import ZArith Ascii String Lia.
From stdpp Require Import base decidable list gmap strings relations.
From S2P Require Import Prelude PyStr Sha256 PyVal Models Tables Artifacts ArtifactFacts Documents Simulation Ingestion IngestionFacts IngestionGuarantees Retention Deletion DeletionCompletion DeletionEffects IngestionProtocol.

Local Open Scope string_scope.

Definition limit : Z := DEFAULT_MAX_SIZE_BYTES.

Definition acme : Company := MkCompany 1 "12345678000195" "ACME" CompanyStatus.ACTIVE None None None 1 0 0.

Definition i_start : World MemoryBucket.t :=
  MemoryBucket.world (empty_db <| companies := {[ 1%N := acme ]} |>) (seconds 5) 100.

Definition at_cursor (cursor : option string) : IngestionContext :=
  MkIngestionContext (RefUuid 1) "nfe" "received" "synthetic" "execution:a" "correlation:a" cursor None None None None.

Definition at_nsu (nsu : option string) : IngestionContext :=
  MkIngestionContext (RefUuid 1) "adn" "received" "synthetic" "execution:a" "correlation:a" None nsu None None None.

Definition unit_7 : FiscalUnit :=
  MkFiscalUnit "synthetic:nfe:7:first" (sha256 (synthetic_marker "synthetic:nfe:7:first")) "document" None true None.

Definition answer (outcome : FiscalOutcome.t) (units : list FiscalUnit) (cursor nsu : option string) : FiscalResponse :=
  MkFiscalResponse outcome units cursor nsu Coverage.AVAILABLE None "" [].

Abbreviation run_ingest := (ingest (B:=MemoryBucket.t) limit synthetic_payload _default_metadata).

Definition i_first : World MemoryBucket.t :=
  (run_ingest (at_cursor None) (answer FiscalOutcome.SUCCESS [unit_7] (Some "cursor-1") None) i_start).2.

Definition i_empty : World MemoryBucket.t :=
  (run_ingest (at_cursor None) (answer FiscalOutcome.EMPTY [] None None) i_start).2.

Lemma i_start_inv : ingestion_inv i_start.
Proof.
  unfold ingestion_inv, ingestion_ok, keyed. cbn -[lookup].
  split_and!; intros *; rewrite ?lookup_empty; try done; by intros ? [=].
Qed.

Lemma i_inv c r w : ingestion_inv w -> ingestion_inv (run_ingest c r w).2.
Proof.
  intros Hw. destruct (ingests_ingest limit synthetic_payload _default_metadata c r w) as [_ H].
  exact (H Hw).
Qed.

Lemma i_first_inv : ingestion_inv i_first.
Proof. apply i_inv, i_start_inv. Qed.

Lemma i_empty_inv : ingestion_inv i_empty.
Proof. apply i_inv, i_start_inv. Qed.

(** The rows of the run, by their keys. *)
Definition no_page : IngestionPage :=
  new_page 0 0 0 None (at_cursor None) (answer FiscalOutcome.EMPTY [] None None) IngestionPageState.PENDING
    IngestionOutcome.UNKNOWN IngestionRecovery.NONE "".
Definition no_checkpoint : IngestionCheckpoint := new_checkpoint 0 0 0 "" "".
Definition page_at (id : N) (w : World MemoryBucket.t) : IngestionPage := opt_default no_page (pages (db w) !! id).
Definition checkpoint_at (id : N) (w : World MemoryBucket.t) : IngestionCheckpoint :=
  opt_default no_checkpoint (checkpoints (db w) !! id).

(** The same run as steps of the protocol, with a command of controlled deletion
    (of an operation that is not there) and a second of waiting behind it. *)
#[local] Instance i_heap : Heap := fun _ _ l => l.

Definition i_deleted : World MemoryBucket.t := run_deletion (DeletionExecution (RefUuid 7)) i_first.
Definition i_later : World MemoryBucket.t := i_deleted <| clock ::= Z.add (seconds 1) |>.

Lemma i_start_protocol : protocol_inv i_start.
Proof. split; [exact i_start_inv|]. split; intros i x; cbn -[lookup]; by rewrite lookup_empty. Qed.

Definition i_op : IngestionOp := Ingest (at_cursor None) (answer FiscalOutcome.SUCCESS [unit_7] (Some "cursor-1") None).

Lemma i_first_run : i_first = run_ingestion limit synthetic_payload _default_metadata i_op i_start.
Proof. unfold i_first, i_op, run_ingestion. reflexivity. Qed.

Lemma i_wait w : protocol_step limit synthetic_payload _default_metadata w (w <| clock ::= Z.add (seconds 1) |>).
Proof. apply by_others; [done|done| |reflexivity]. apply rewritten_refl, dereferenced_refl. Qed.

Lemma i_steps : rtc (protocol_step limit synthetic_payload _default_metadata) i_start i_later.
Proof.
  apply (rtc_l _ _ i_first); [rewrite i_first_run; apply by_ingestion|].
  apply (rtc_l _ _ i_deleted); [apply by_deletion|]. apply rtc_once, i_wait.
Qed.

(** Along the run the checkpoint has walked from the start to [cursor-1], along one
    page, which is there and complete. *)
Lemma ingestion_follows_protocol_witness :
  position (checkpoint_at 100 i_later) = "cursor-1" /\
  exists l, walk (1%N, "nfe", "received") "" l "cursor-1" /\ forall p, p ∈ l -> page_complete (db i_later) p.
Proof.
  split; [vm_compute; reflexivity|].
  destruct (ingestion_follows_protocol limit synthetic_payload _default_metadata i_start i_later i_start_protocol i_steps)
    as [[_ Ht] Hp].
  assert (checkpoints (db i_later) !! 100%N = Some (checkpoint_at 100 i_later)) as Hc by (vm_compute; reflexivity).
  destruct (pg_opened _ _ Hp 100 (checkpoint_at 100 i_later) Hc) as (l & Hw & _ & Hl); [vm_compute; reflexivity|].
  exists l. split.
  - assert (cp_scope (checkpoint_at 100 i_later) = (1%N, "nfe", "received")) as Hs by (vm_compute; reflexivity).
    assert (position (checkpoint_at 100 i_later) = "cursor-1") as Hpos by (vm_compute; reflexivity).
    rewrite Hs, Hpos in Hw. exact Hw.
  - intros p Hin. destruct (Hl p Hin) as (Hd & Hf & _). exact (to_pages _ Ht _ _ Hd Hf).
Defined.

Definition first_result : IngestionResult :=
  MkIngestionResult 101 IngestionPageState.COMPLETE [UnitOutcome.PERSISTED] true (Some "cursor-1") None ""
    IngestionOutcome.SUCCESS IngestionRecovery.NONE.

Lemma ingest_reports_page_witness :
  exists company p, uuid_of (ic_company_id (at_cursor None)) = Some company /\
    pages (db i_first) !! ir_page_id first_result = Some p /\
    pg_scope p = (company, "nfe", "received", "initial") /\ describes p first_result.
Proof.
  apply (ingest_reports_page limit synthetic_payload _default_metadata (at_cursor None)
    (answer FiscalOutcome.SUCCESS [unit_7] (Some "cursor-1") None) i_start first_result i_first i_start_inv).
  unfold i_first. apply ran. vm_compute. reflexivity.
Defined.

Lemma failure_never_advances_witness :
  let w' := (run_ingest (at_cursor (Some "cursor-1")) (answer FiscalOutcome.TIMEOUT [] None None) i_first).2 in
  map (fun p => pg_state p) (rows (pages (db w'))) <> map (fun p => pg_state p) (rows (pages (db i_first))) /\
  (forall i cp, checkpoints (db i_first) !! i = Some cp -> checkpoints (db w') !! i = Some cp) /\
  units (db w') = units (db i_first).
Proof.
  cbv zeta. split; [vm_compute; discriminate|].
  destruct (failure_never_advances limit synthetic_payload _default_metadata (at_cursor (Some "cursor-1"))
    (answer FiscalOutcome.TIMEOUT [] None None) i_first i_first_inv eq_refl) as (H1 & _ & H3).
  split; [exact H1|exact H3].
Defined.

(** The empty first position swallows the units of a later answer. *)
Lemma settled_page_is_final_witness :
  run_ingest (at_cursor None) (answer FiscalOutcome.SUCCESS [unit_7] (Some "cursor-1") None) i_empty =
  (Ok (recorded_result (page_at 101 i_empty) (db i_empty)), i_empty) /\
  ir_page_state (recorded_result (page_at 101 i_empty) (db i_empty)) = IngestionPageState.EMPTY.
Proof.
  split; [|vm_compute; reflexivity].
  apply (settled_page_is_final limit synthetic_payload _default_metadata (at_cursor None)
    (answer FiscalOutcome.SUCCESS [unit_7] (Some "cursor-1") None) i_empty 1 101 (page_at 101 i_empty)
    100 (checkpoint_at 100 i_empty) i_empty_inv); vm_compute; reflexivity.
Defined.

(** A unit registered and not yet treated. *)
Definition i_registered : World MemoryBucket.t :=
  match _register_page (at_cursor None) (answer FiscalOutcome.SUCCESS [unit_7] (Some "cursor-1") None) i_start with
  | (Ok (page, _), w) => (_register_unit page (at_cursor None) unit_7 w).2
  | (Err _, w) => w
  end.

Definition no_unit : ReceivedUnit := new_unit 0 0 0 0 (at_cursor None) unit_7.
Definition unit_at (id : N) (w : World MemoryBucket.t) : ReceivedUnit := opt_default no_unit (units (db w) !! id).

Definition i_treated : World MemoryBucket.t :=
  (_process_unit limit synthetic_payload _default_metadata (unit_at 102 i_registered) (at_cursor None) unit_7 i_registered).2.

Lemma unit_settled_durably_witness :
  exists r', units (db i_treated) !! 102%N = Some r' /\ un_state r' = ReceivedUnitState.PERSISTED /\
    exists a, un_artifact r' = Some (art_id a) /\ stored a (fu_content_hash unit_7) i_treated.
Proof.
  destruct (unit_settled_durably limit synthetic_payload _default_metadata (unit_at 102 i_registered) (at_cursor None) unit_7
    i_registered UnitOutcome.PERSISTED i_treated) as (r' & Hr & Hid & _ & _ & _ & Hs & Ha & _).
  - apply artifact_inv_empty. vm_compute. reflexivity.
  - vm_compute. reflexivity.
  - vm_compute. reflexivity.
  - unfold i_treated. apply ran. vm_compute. reflexivity.
  - exists r'. split; [exact Hr|]. split; [exact Hs|]. apply Ha. rewrite Hs. vm_compute. reflexivity.
Defined.

(** The source was unavailable and the worker stopped before the page was closed. *)
Definition i_unanswered : World MemoryBucket.t :=
  (_register_page (at_cursor None) (answer FiscalOutcome.UNAVAILABLE [] None None) i_start).2.

Lemma i_unanswered_inv : ingestion_inv i_unanswered.
Proof.
  destruct (ingests_register_page (at_cursor None) (answer FiscalOutcome.UNAVAILABLE [] None None) i_start) as [_ H].
  exact (H i_start_inv).
Qed.

Lemma reconcile_closes_unanswered_witness :
  pg_adapter_outcome (page_at 101 i_unanswered) = "unavailable" /\
  exists p', pages (db (reconcile_page (page_at 101 i_unanswered) i_unanswered).2) !! 101%N = Some p' /\
    pg_state p' = IngestionPageState.EMPTY /\ pg_outcome p' = IngestionOutcome.SUCCESS /\
    pg_recovery p' = IngestionRecovery.NONE.
Proof.
  split; [vm_compute; reflexivity|].
  apply (reconcile_closes_unanswered (page_at 101 i_unanswered) (checkpoint_at 100 i_unanswered) FiscalOutcome.UNAVAILABLE
    i_unanswered tt (reconcile_page (page_at 101 i_unanswered) i_unanswered).2 i_unanswered_inv);
    first [discriminate|apply ran; vm_compute; reflexivity|left; vm_compute; reflexivity|vm_compute; reflexivity].
Defined.

(** An NSU sequence: a first page up to [nsu-10], then an empty last page. *)
Definition i_adn : World MemoryBucket.t :=
  (run_ingest (at_nsu None) (answer FiscalOutcome.SUCCESS [unit_7] None (Some "nsu-10")) i_start).2.

Definition i_adn_last : World MemoryBucket.t :=
  (_register_page (at_nsu (Some "nsu-10")) (answer FiscalOutcome.EMPTY [] None None) i_adn).2.

Lemma i_adn_last_inv : ingestion_inv i_adn_last.
Proof.
  destruct (ingests_register_page (at_nsu (Some "nsu-10")) (answer FiscalOutcome.EMPTY [] None None) i_adn) as [_ H].
  exact (H (i_inv _ _ _ i_start_inv)).
Qed.

Definition i_rewound : World MemoryBucket.t :=
  (_finish_page 108 IngestionPageState.EMPTY [] "" IngestionOutcome.VALID_EMPTY IngestionRecovery.NONE i_adn_last).2.

Definition last_result : IngestionResult :=
  MkIngestionResult 108 IngestionPageState.EMPTY [] false None None "" IngestionOutcome.VALID_EMPTY IngestionRecovery.NONE.

Lemma blank_nsu_rewinds_witness :
  position (checkpoint_at 100 i_adn_last) = "nsu-10" /\
  exists cp', checkpoints (db i_rewound) !! cp_id (checkpoint_at 100 i_adn_last) = Some cp' /\ position cp' = "".
Proof.
  split; [vm_compute; reflexivity|].
  destruct (blank_nsu_rewinds 108 (page_at 108 i_adn_last) (checkpoint_at 100 i_adn_last) IngestionPageState.EMPTY [] ""
    IngestionOutcome.VALID_EMPTY IngestionRecovery.NONE i_adn_last last_result i_rewound i_adn_last_inv) as (_ & _ & H);
    lazymatch goal with
    | |- _finish_page _ _ _ _ _ _ _ = _ => unfold i_rewound; apply ran; vm_compute; reflexivity
    | |- _ <> _ => vm_compute; discriminate
    | |- exists _, _ => exact H
    | _ => vm_compute; reflexivity
    end.
Defined.

(** An unknown outcome moves the checkpoint of its scope. *)
Definition unknown_answer : FiscalResponse := answer FiscalOutcome.UNKNOWN [unit_7] (Some "cursor-9") None.

Lemma unknown_outcome_advances_witness :
  map (fun c => cp_cursor c) (rows (checkpoints (db (run_ingest (at_cursor None) unknown_answer i_start).2))) = ["cursor-9"] /\
  cl_can_advance (classify_page_response unknown_answer) = false /\
  cl_can_advance (treated_classification unknown_answer [UnitOutcome.PERSISTED]) = true.
Proof.
  split; [vm_compute; reflexivity|].
  destruct (unknown_outcome_advances unknown_answer [UnitOutcome.PERSISTED]) as (H1 & H2 & _);
    [reflexivity|discriminate|reflexivity|]. by split.
Defined.
