(* ===== verification/DeletionRuns.v ===== *)
(** * A concrete deletion

    An NFS-e of 1970 with one stored XML: an administrator asks for its deletion,
    the job runs, the document is gone; and the same operation after its object
    was lost.  The theorems of [RetentionFacts] and [DeletionGuarantees] are
    applied along the run. *)

From Stdlib Require Import ZArith Ascii String Lia.
From stdpp Require Import base decidable list gmap strings relations.
From S2P Require Import Prelude PyStr Sha256 PyVal AuditTrail Identity Companies JobPolicies JobEngine Tables Artifacts ArtifactFacts Models Retention RetentionFacts Deletion DeletionFacts DeletionGuarantees DeletionCompletion.

Local Open Scope string_scope.

(** ** Third-party code, made concrete *)

#[local] Instance marking_signer : Signer := {|
  sign s := String "s"%char s;
  unsign s := match s with String _ r => Some r | EmptyString => None end |}.

#[local] Instance marking_signer_laws : SignerLaws.
Proof. by split. Qed.

#[local] Instance key_order : Heap := fun _ _ l => l.

(** ** The database *)

Definition xml : string := "<nfse>7</nfse>".
Definition xml_digest : string := Eval vm_compute in sha256 xml.
Definition today : Z := (days 18400)%Z.

Definition d_artifact : Artifact :=
  MkArtifact 5 "fiscal_xml" "nfse:7" (object_key_of 5) SHA256 xml_digest (Some 14%Z) "application/xml" "application/xml"
    ArtifactState.FINALIZED 1 "" 0 (Some 0%Z) 0.

Definition d_document : Document :=
  MkDocument 7 2 "nfse" "issued" "nfse" "adn" "nfse" "nfse_key" "7" "nfse:7" 0 None 0 "authorized" DocumentState.PERSISTED "" "c7" 0 0.

Definition d_user : User := MkUser 1 "ana@example.com" "Ana" Role.ADMINISTRATOR "" true 0 0 0 0.

Definition d_db : DB :=
  empty_db <| users := {[ 1%N := d_user ]} |> <| artifacts := {[ 5%N := d_artifact ]} |> <| documents := {[ 7%N := d_document ]} |>
    <| evidence := {[ 8%N := MkDocumentEvidence 8 7 5 xml_digest 14 false 0 ]} |>.

Definition d_bucket : MemoryBucket.t :=
  {[ object_key_of 5 := MemoryBucket.MkObject xml "application/xml" xml_digest ]}.

Definition d_start : World MemoryBucket.t := MkWorld d_db today 20 true verbatim d_bucket.

Definition ana : SessionIdentity := MkSessionIdentity (uuid_str 1) "ana@example.com" "Ana" (Role.value Role.ADMINISTRATOR).

Definition d_hash : string := Eval vm_compute in scope_hash (load_unordered d_db d_document).

Definition asked : result exn DeletionRequestResult * World MemoryBucket.t :=
  Eval vm_compute in
    request_deletion ana (RefStr (uuid_str 7)) (VStr d_hash) (VStr SCOPE_VERSION) (VStr (confirmation_for 7 d_hash)) (VStr "prazo") d_start.

Definition w_asked : World MemoryBucket.t := Eval vm_compute in asked.2.

Lemma asked_run :
  request_deletion ana (RefStr (uuid_str 7)) (VStr d_hash) (VStr SCOPE_VERSION) (VStr (confirmation_for 7 d_hash)) (VStr "prazo") d_start =
  asked.
Proof. vm_compute. reflexivity. Qed.

Lemma start_inv : deletion_inv d_start.
Proof. by split. Qed.

Lemma start_documents : keyed doc_id doc_id (next_uuid d_start) (documents (db d_start)).
Proof.
  split.
  - intros i r. cbn. rewrite lookup_singleton_Some. by intros [<- <-].
  - intros i j r s. cbn. rewrite !lookup_singleton_Some. by intros [<- _] [<- _].
Qed.

Lemma asked_inv : deletion_inv w_asked.
Proof.
  pose proof (request_deletion_reaches 0 ana (RefStr (uuid_str 7)) (VStr d_hash) (VStr SCOPE_VERSION)
    (VStr (confirmation_for 7 d_hash)) (VStr "prazo") d_start start_inv ltac:(done) I) as (_ & H & _).
  rewrite asked_run in H. exact H.
Qed.

(** The job runs. *)
Definition executed : result exn DeletionOperation * World MemoryBucket.t :=
  Eval vm_compute in execute_deletion (RefStr (uuid_str 20)) w_asked.

Lemma executed_run : execute_deletion (RefStr (uuid_str 20)) w_asked = executed.
Proof. vm_compute. reflexivity. Qed.

Lemma document_there : documents (db w_asked) !! 7%N = Some d_document.
Proof. vm_compute. reflexivity. Qed.

Lemma document_gone : documents (db (execute_deletion (RefStr (uuid_str 20)) w_asked).2) !! 7%N = None.
Proof. rewrite executed_run. vm_compute. reflexivity. Qed.

Lemma request_recorded_witness :
  is_ok asked.1 = true /\
  match request_deletion ana (RefStr (uuid_str 7)) (VStr d_hash) (VStr SCOPE_VERSION) (VStr (confirmation_for 7 d_hash)) (VStr "prazo") d_start with
  | (Err _, w') => db w' = db d_start
  | (Ok r, _) => administrator ana = true
  end.
Proof.
  split; [reflexivity|].
  pose proof (request_recorded ana (RefStr (uuid_str 7)) (VStr d_hash) (VStr SCOPE_VERSION) (VStr (confirmation_for 7 d_hash))
    (VStr "prazo") d_start start_inv start_documents) as H.
  destruct (request_deletion _ _ _ _ _ _ _) as [[r|e] w']; [exact (proj1 H)|exact H].
Defined.

Lemma document_deleted_when_due_witness :
  let r := execute_deletion (RefStr (uuid_str 20)) w_asked in
  documents (db w_asked) !! 7%N = Some d_document /\ documents (db r.2) !! 7%N = None /\
  exists o o' d, uuid_of (RefStr (uuid_str 20)) = Some (op_id o) /\ deletions (db w_asked) !! op_id o = Some o /\
    op_target_document_id o = 7%N /\ completed_operation o = false /\
    document_sources d = document_sources (db w_asked) /\ scope_hash (load_unordered d d_document) = op_scope_hash o /\
    rd_state (decision_for_document (B:=MemoryBucket.t) (load_unordered d d_document) None
      (_civil_date (B:=MemoryBucket.t) (clock w_asked))) = RetentionState.ELIGIBLE /\
    r.1 = Ok o' /\ deletions (db r.2) !! op_id o = Some o' /\ op_state o' = DeletionOperationState.COMPLETED.
Proof.
  split; [exact document_there|]. split; [exact document_gone|].
  exact (document_deleted_when_due (RefStr (uuid_str 20)) w_asked 7 d_document asked_inv document_there document_gone).
Defined.

Lemma deletion_protocol_witness :
  is_Some (deletions (db (execute_deletion (RefStr (uuid_str 20)) w_asked).2) !! 20%N) /\
  deletion_inv (execute_deletion (RefStr (uuid_str 20)) w_asked).2.
Proof.
  split; [rewrite executed_run; vm_compute; eauto|].
  apply (deletion_protocol w_asked); [exact asked_inv|]. apply rtc_once. apply by_execution.
Defined.

(** The process stops after the object's deletion, before the checkpoint. *)
Definition w_lost : World MemoryBucket.t := w_asked <| bucket := ∅ |>.

Definition d_item : DeletionItem := Eval vm_compute in
  match deletion_items (db w_asked) !! 23%N with Some x => x | None => new_item 0 0 0 DeletionItemKind.DOCUMENT 0 None end.

Lemma lost_item_row : deletion_items (db w_lost) !! 23%N = Some d_item.
Proof. vm_compute. reflexivity. Qed.

Lemma lost_artifact_row : artifacts (db w_lost) !! 5%N = Some d_artifact.
Proof. vm_compute. reflexivity. Qed.

Lemma run_lost : lost_checkpoint 20 d_item (object_key_of 5) w_lost.
Proof.
  split; [done|done| | | |done].
  - intros j x Hj. by apply (proj1 (del_items _ _ asked_inv)) in Hj as [? _].
  - exists d_item. split; [exact lost_item_row|]. split; reflexivity.
  - intros a art [= <-]. rewrite lost_artifact_row. by intros [= <-].
Qed.

Lemma lost_object_blocks_deletion_witness :
  lost_checkpoint 20 d_item (object_key_of 5) w_lost /\
  documents (db (execute_deletion (RefStr (uuid_str 20)) (resume_deletion ana (RefStr (uuid_str 20)) w_lost).2).2) = documents (db w_lost).
Proof.
  split; [exact run_lost|].
  apply (lost_object_blocks_deletion 20 d_item (object_key_of 5) w_lost); [exact asked_inv|exact run_lost|].
  eapply rtc_l; [apply again_resumed|]. apply rtc_once. apply again_executed. vm_compute. reflexivity.
Defined.

(** ** A completion

    The checkpoint of the object is there; a manifestation and an export item name
    the document, another manifestation names another one. *)
Definition d_manifestation (id : N) (document : N) : NFeManifestation :=
  MkNFeManifestation id 2 (Some document) document "nfe" "science" "adn" "" "" "c" "r" "k" NFeManifestationState.ACCEPTED "accepted" "" [] None
    None 0 None 0.

Definition w_ready : World MemoryBucket.t := Eval vm_compute in
  w_asked <| db ::= fun d => d
    <| deletion_items ::= alter (fun x => x <| di_state := DeletionItemState.COMPLETED |>) 23%N |>
    <| manifestations := {[ 30%N := d_manifestation 30 7; 31%N := d_manifestation 31 9 ]} |> |>.

Definition finished_run : result exn DeletionOperation * World MemoryBucket.t := Eval vm_compute in _finalize_relational 20 w_ready.

Lemma ready_run : _finalize_relational 20 w_ready = finished_run.
Proof. vm_compute. reflexivity. Qed.

Lemma completion_exact_witness :
  option_map mf_document (manifestations (db finished_run.2) !! 30%N) = Some None /\
  option_map mf_document (manifestations (db finished_run.2) !! 31%N) = Some (Some 9%N) /\
  match finished_run with
  | (Ok o', w') => exists o, deletions (db w_ready) !! 20%N = Some o /\ document_erased 20 o o' (clock w_ready) (db w_ready) (db w')
  | (Err _, _) => False
  end.
Proof.
  split; [vm_compute; reflexivity|]. split; [vm_compute; reflexivity|].
  pose proof (completion_exact (B:=MemoryBucket.t) 20 w_ready) as H. rewrite ready_run in H.
  destruct H as (o & Ho & _ & _ & _ & He & _). by exists o.
Defined.

(** ** The list of retention *)

Definition all_params : RetentionParams := MkRetentionParams None None None None None None 1 None.

Lemma documents_in_store : documents_stored d_db.
Proof.
  split.
  - intros i r. cbn. rewrite lookup_singleton_Some. by intros [<- <-].
  - intros i x. cbn. rewrite lookup_singleton_Some. by intros [<- _].
Qed.

Lemma walk_retention_complete_witness :
  length (retention_candidates all_params d_db) = 1%nat /\
  walk_retention (B:=MemoryBucket.t) 2 all_params (_civil_date (B:=MemoryBucket.t) today) d_db =
    Some (retention_items (B:=MemoryBucket.t) all_params (_civil_date (B:=MemoryBucket.t) today) d_db).
Proof.
  split; [vm_compute; reflexivity|].
  apply (walk_retention_complete (B:=MemoryBucket.t) all_params (_civil_date (B:=MemoryBucket.t) today) d_db 2);
    [exact documents_in_store|done|vm_compute; lia].
Defined.
