(* ===== verification/NFeDistribution.v ===== *)
(** * NF-e distribution (adapters/nfe.py, to line 431)

    The semantic boundary in front of a fiscal transport: a request names a
    company, a flow and a position in that flow; the transport's page is
    interpreted or refused; and the interpreted page is handed to ingestion.
    [NFeDistributionSimulator] keeps one history per flow and replays what it has
    answered.  The audit callback is one that records what it is given. *)

From Stdlib Require Import ZArith Ascii String Lia.
From stdpp Require Import base decidable list gmap strings.
From S2P Require Import Prelude PyStr PyVal Models Memory Artifacts Simulation Ingestion.

Local Open Scope string_scope.

Definition nfe_error {A} (msg : string) : result exn A := Err (NFeDistributionError msg).

Module NFeFlow.
Variant t : Set := RECEIVED | ISSUED.
#[global] Instance eq_dec : EqDecision t.
Proof. solve_decision. Defined.
Definition values : list t := [RECEIVED; ISSUED].
Definition value (x : t) : string := match x with RECEIVED => "received" | ISSUED => "issued" end.
Definition of_value (s : string) : option t := find_value value values s.
Lemma nfe_flow_roundtrip x : of_value (value x) = Some x.
Proof. by destruct x. Qed.
#[global] Instance countable : Countable t := inj_countable value of_value nfe_flow_roundtrip.
End NFeFlow.

(** A member of the enumeration is a [str]. *)
Definition _flow (value : pyval) : result exn NFeFlow.t :=
  match value with
  | VStr s => match NFeFlow.of_value s with Some f => Ok f | None => nfe_error "NF-e flow is unsupported" end
  | _ => nfe_error "NF-e flow is unsupported"
  end.

(** [_SAFE_REFERENCE] and the forbidden words are those of the adapter port. *)
Definition _reference (name : string) (value : pyval) : result exn string :=
  match value with
  | VStr s => if _SAFE_REFERENCE s && negb (_FORBIDDEN_REFERENCE s) then Ok s else nfe_error ("NF-e " ++ name ++ " is invalid")
  | _ => nfe_error ("NF-e " ++ name ++ " is invalid")
  end.

Definition _code (value : string) : string :=
  if str_nonempty value && _SAFE_CODE value then value else "nfe_distribution_failure".

(** ** Values *)

Record NFePosition : Type := MkNFePosition { np_flow : NFeFlow.t; np_value : string; np_family : FiscalFamily.t }.

Definition new_position (flow value : pyval) (family : FiscalFamily.t) : result exn NFePosition :=
  check* normalized_flow := _flow flow in
  if negb (bool_decide (family = FiscalFamily.NFE)) then nfe_error "NF-e position family is invalid" else
  check* value := _reference "position" value in
  Ok (MkNFePosition normalized_flow value family).

Record NFeDistributionPolicy : Type := MkNFeDistributionPolicy {
  ny_source : string; ny_max_page_units : Z; ny_default_page_units : Z; ny_version : string }.

(** An [int] that is no [bool]. *)
Definition plain_int (v : pyval) : option Z := match v with VInt z => Some z | _ => None end.

Definition new_policy (source max_page_units default_page_units version : pyval) : result exn NFeDistributionPolicy :=
  check* source := _reference "source" source in
  match plain_int max_page_units, plain_int default_page_units with
  | Some limit, Some default =>
      if Z.leb 1 default && Z.leb default limit && Z.leb limit 100 then
        check* version := _reference "policy version" version in
        Ok (MkNFeDistributionPolicy source limit default version)
      else nfe_error "NF-e page policy is invalid"
  | _, _ => nfe_error "NF-e page policy is invalid"
  end.

Definition default_policy : NFeDistributionPolicy := MkNFeDistributionPolicy "synthetic" 100 50 "nfe-synthetic-v1".

Record NFeDistributionRequest : Type := MkNFeDistributionRequest {
  nq_company_id : N; nq_flow : NFeFlow.t; nq_source : string; nq_actor : string; nq_policy_reference : string;
  nq_certificate_handle : string; nq_correlation_id : string; nq_position : option NFePosition; nq_page_limit : Z;
  nq_execution_ref : string }.

Definition new_request (company_id : uuid_ref) (flow source actor policy_reference certificate_handle correlation_id : pyval)
    (position : option NFePosition) (page_limit execution_ref : pyval) : result exn NFeDistributionRequest :=
  match uuid_of company_id with
  | None => nfe_error "NF-e company reference is invalid"
  | Some company =>
      check* normalized_flow := _flow flow in
      check* source := _reference "source" source in
      check* actor := _reference "actor" actor in
      check* policy_reference := _reference "policy reference" policy_reference in
      check* certificate_handle := _reference "certificate handle" certificate_handle in
      check* correlation_id := _reference "correlation" correlation_id in
      check* execution_ref := _reference "execution" execution_ref in
      if match position with Some p => negb (bool_decide (np_flow p = normalized_flow)) | None => false end
      then nfe_error "NF-e position flow does not match request"
      else match plain_int page_limit with
           | Some limit =>
               Ok (MkNFeDistributionRequest company normalized_flow source actor policy_reference certificate_handle
                     correlation_id position limit execution_ref)
           | None => nfe_error "NF-e page limit is invalid"
           end
  end.

(** [policy.validate(request)] *)
Definition validate (policy : NFeDistributionPolicy) (request : NFeDistributionRequest) : result exn unit :=
  if negb (String.eqb (nq_source request) (ny_source policy)) then nfe_error "NF-e source is not allowed by policy"
  else if negb (Z.leb 1 (nq_page_limit request) && Z.leb (nq_page_limit request) (ny_max_page_units policy))
  then nfe_error "NF-e page limit is out of bounds"
  else Ok tt.

Record NFeDistributionResult : Type := MkNFeDistributionResult {
  nr_flow : NFeFlow.t; nr_outcome : FiscalOutcome.t; nr_units : list FiscalUnit; nr_continuation : option NFePosition;
  nr_coverage : Coverage.t; nr_consumed : Z; nr_cooldown_until : option datetime; nr_safe_reason : string; nr_page_limit : Z }.

Definition new_result (flow : NFeFlow.t) (outcome : FiscalOutcome.t) (units : list FiscalUnit)
    (continuation : option NFePosition) (coverage : Coverage.t) (consumed : Z) (cooldown_until : option datetime)
    (safe_reason : string) (page_limit : Z) : result exn NFeDistributionResult :=
  if match continuation with Some p => negb (bool_decide (np_flow p = flow)) | None => false end
  then nfe_error "NF-e continuation flow is invalid"
  else if negb (Z.eqb consumed (Z.of_nat (length units))) || Z.ltb consumed 0
  then nfe_error "NF-e consumption is invalid"
  else Ok (MkNFeDistributionResult flow outcome units continuation coverage consumed cooldown_until (_code safe_reason) page_limit).

Definition succeeded (o : FiscalOutcome.t) : bool :=
  match o with FiscalOutcome.SUCCESS | FiscalOutcome.EMPTY => true | _ => false end.

Definition as_fiscal_response (r : NFeDistributionResult) : result exn FiscalResponse :=
  response_post_init
    (MkFiscalResponse (nr_outcome r) (nr_units r) (option_map np_value (nr_continuation r)) None (nr_coverage r)
       (nr_cooldown_until r) (if succeeded (nr_outcome r) then "" else nr_safe_reason r)
       [("flow", VStr (NFeFlow.value (nr_flow r))); ("consumed", VInt (nr_consumed r)); ("page_limit", VInt (nr_page_limit r))]).

(** [NFeDistributionAudit(...).as_dict()] *)
Definition audit_dict (event flow outcome reason cursor_prefix : string) (unit_count : Z) : pydict :=
  [("event", VStr event); ("flow", VStr flow); ("outcome", VStr outcome); ("reason", VStr reason);
   ("cursor_prefix", VStr cursor_prefix); ("unit_count", VInt unit_count)].

Record NFeDistributionMetrics : Type := MkNFeDistributionMetrics {
  nm_pages : Z; nm_units : Z; nm_cooldowns : Z; nm_outcomes : Counter; nm_pages_by_flow : Counter }.

Definition new_metrics : NFeDistributionMetrics := MkNFeDistributionMetrics 0 0 0 ∅ ∅.

Definition is_cooldown (o : FiscalOutcome.t) : bool := match o with FiscalOutcome.COOLDOWN => true | _ => false end.

Definition record (flow : NFeFlow.t) (r : NFeDistributionResult) (m : NFeDistributionMetrics) : NFeDistributionMetrics :=
  MkNFeDistributionMetrics (nm_pages m + 1) (nm_units m + nr_consumed r)
    (nm_cooldowns m + if is_cooldown (nr_outcome r) then 1 else 0)
    (bump (FiscalOutcome.value (nr_outcome r)) (nm_outcomes m)) (bump (NFeFlow.value flow) (nm_pages_by_flow m)).

(** ** The adapter

    Its methods change the transport, the metrics and what the audit callback
    has recorded; the policy and whether there is a callback are fixed. *)

Record Channel (A : Type) : Type := MkChannel { nc_transport : A; nc_metrics : NFeDistributionMetrics; nc_log : list pydict }.
Arguments MkChannel {A}.
Arguments nc_transport {A}.
Arguments nc_metrics {A}.
Arguments nc_log {A}.

Section adapter.
Context {A : Type} `{FiscalAdapter A} (policy : NFeDistributionPolicy) (audited : bool).

Definition new_adapter (transport : A) (metrics : NFeDistributionMetrics) : result exn (Channel A) :=
  if bool_decide (adapter_family transport = FiscalFamily.NFE) then Ok (MkChannel transport metrics [])
  else nfe_error "NF-e transport family is invalid".

Definition position_value (request : NFeDistributionRequest) : string :=
  match nq_position request with Some p => np_value p | None => "" end.

Definition _emit (event : string) (request : NFeDistributionRequest) (result : option NFeDistributionResult) (reason : string) :
    ST (Channel A) exn unit :=
  let payload := audit_dict event (NFeFlow.value (nq_flow request))
                   match result with Some r => FiscalOutcome.value (nr_outcome r) | None => "" end (_code reason)
                   (stake 16 (position_value request)) match result with Some r => nr_consumed r | None => 0 end in
  modify (fun c => if audited then MkChannel (nc_transport c) (nc_metrics c) (nc_log c ++ [payload])%list else c).

Definition _interpret (request : NFeDistributionRequest) (raw : FiscalResponse) : result exn NFeDistributionResult :=
  if Z.ltb (nq_page_limit request) (Z.of_nat (length (fr_units raw))) then nfe_error "NF-e response exceeds page limit"
  else if is_some (fr_next_nsu raw) then nfe_error "NF-e response has an unsupported NSU position"
  else
    check* continuation :=
      match fr_next_cursor raw with
      | Some cursor => match new_position (VStr (NFeFlow.value (nq_flow request))) (VStr cursor) FiscalFamily.NFE with
                       | Ok p => Ok (Some p)
                       | Err e => Err e
                       end
      | None => Ok None
      end in
    new_result (nq_flow request) (fr_outcome raw) (fr_units raw) continuation (fr_coverage raw)
      (Z.of_nat (length (fr_units raw))) (fr_cooldown_until raw)
      (str_or (fr_error_code raw) (FiscalOutcome.value (fr_outcome raw))) (nq_page_limit request).

Definition fiscal_request (request : NFeDistributionRequest) : FiscalRequest :=
  MkFiscalRequest (nq_source request) FiscalFamily.NFE (nq_actor request) (NFeFlow.value (nq_flow request))
    (option_map np_value (nq_position request)) (nq_policy_reference request) (nq_certificate_handle request)
    (nq_correlation_id request).

(** [self.transport.collect(...)] *)
Definition exchange (request : FiscalRequest) : ST (Channel A) exn FiscalResponse := fun c =>
  let '(r, t) := collect request (nc_transport c) in (r, MkChannel t (nc_metrics c) (nc_log c)).

Definition attempt (request : NFeDistributionRequest) : ST (Channel A) exn NFeDistributionResult :=
  let* fiscal := lift_result (request_post_init (fiscal_request request)) in
  let* raw := exchange fiscal in
  lift_result (_interpret request raw).

Definition distribute (request : NFeDistributionRequest) : ST (Channel A) exn NFeDistributionResult :=
  lift_result (validate policy request) ;;;
  _emit "started" request None "" ;;;
  let* result :=
    try_except (attempt request)
      (fun e => match e with
                | NFeDistributionError _ => _emit "rejected" request None "invalid_envelope" ;;; throw e
                | _ => _emit "rejected" request None "adapter_failure" ;;;
                       throw (NFeDistributionError "NF-e adapter request failed")
                end) in
  modify (fun c => MkChannel (nc_transport c) (record (nq_flow request) result (nc_metrics c)) (nc_log c)) ;;;
  _emit "completed" request (Some result) (nr_safe_reason result) ;;;
  ret result.

Definition ingestion_context (request : NFeDistributionRequest) : IngestionContext :=
  MkIngestionContext (RefUuid (nq_company_id request)) "nfe" (NFeFlow.value (nq_flow request)) (nq_source request)
    (nq_execution_ref request) (nq_correlation_id request) (option_map np_value (nq_position request)) None None None None.

(** The adapter is kept in memory while ingestion works on the database. *)
Definition ingest {B} `{!External B, !ObjectStore B, !Holds B (Channel A)} (maximum_size : Z)
    (payload_factory : option PayloadFactory) (metadata_factory : option DocumentMetadataFactory)
    (request : NFeDistributionRequest) : M B IngestionResult :=
  let* result := in_memory (distribute request) in
  let* response := lift_result (as_fiscal_response result) in
  Ingestion.ingest maximum_size (opt_default synthetic_payload payload_factory)
    (opt_default _default_metadata metadata_factory) (ingestion_context request) response.

End adapter.

(** ** The simulator: a history per flow *)

Record NFeDistributionSimulator : Type := MkNFeDistributionSimulator {
  ns_received : Simulator; ns_issued : Simulator; ns_metrics : NFeDistributionMetrics; ns_log : list pydict;
  ns_replays : gmap (NFeFlow.t * string * string) NFeDistributionResult }.

Definition new_distribution_simulator (scenario : SyntheticScenario) : result exn NFeDistributionSimulator :=
  if bool_decide (sc_family scenario = FiscalFamily.NFE) then
    check* received := new_simulator FiscalFamily.NFE scenario [] in
    check* issued := new_simulator FiscalFamily.NFE scenario [] in
    Ok (MkNFeDistributionSimulator received issued new_metrics [] ∅)
  else nfe_error "NF-e scenario family is invalid".

Definition transport_of (flow : NFeFlow.t) (s : NFeDistributionSimulator) : Simulator :=
  match flow with NFeFlow.RECEIVED => ns_received s | NFeFlow.ISSUED => ns_issued s end.

(** A method of [self._adapters[flow]]: the metrics and the callback are shared. *)
Definition on_adapter {X} (flow : NFeFlow.t) (m : ST (Channel Simulator) exn X) : ST NFeDistributionSimulator exn X := fun s =>
  let '(r, c) := m (MkChannel (transport_of flow s) (ns_metrics s) (ns_log s)) in
  (r, MkNFeDistributionSimulator
        (match flow with NFeFlow.RECEIVED => nc_transport c | NFeFlow.ISSUED => ns_received s end)
        (match flow with NFeFlow.ISSUED => nc_transport c | NFeFlow.RECEIVED => ns_issued s end)
        (nc_metrics c) (nc_log c) (ns_replays s)).

Definition replay_key (request : NFeDistributionRequest) : NFeFlow.t * string * string :=
  (nq_flow request, position_value request, nq_correlation_id request).

Definition simulator_distribute (policy : NFeDistributionPolicy) (audited : bool) (request : NFeDistributionRequest) :
    ST NFeDistributionSimulator exn NFeDistributionResult :=
  let* cached := gets (fun s => ns_replays s !! replay_key request) in
  match cached with
  | Some r => ret r
  | None =>
      let* r := on_adapter (nq_flow request) (distribute policy audited request) in
      modify (fun s => MkNFeDistributionSimulator (ns_received s) (ns_issued s) (ns_metrics s) (ns_log s)
                         (<[replay_key request := r]> (ns_replays s))) ;;;
      ret r
  end.

(** [simulator.ingest]: past the replays, through the flow's adapter. *)
Definition simulator_ingest {B} `{!External B, !ObjectStore B, !Holds B NFeDistributionSimulator} (policy : NFeDistributionPolicy)
    (audited : bool) (maximum_size : Z) (payload_factory : option PayloadFactory)
    (metadata_factory : option DocumentMetadataFactory) (request : NFeDistributionRequest) : M B IngestionResult :=
  let* result := in_memory (on_adapter (nq_flow request) (distribute policy audited request)) in
  let* response := lift_result (as_fiscal_response result) in
  Ingestion.ingest maximum_size (opt_default synthetic_payload payload_factory)
    (opt_default _default_metadata metadata_factory) (ingestion_context request) response.

Definition calls (flow : pyval) (s : NFeDistributionSimulator) : result exn (list TransportCall) :=
  check* f := _flow flow in Ok (sim_calls (transport_of f s)).

Definition metrics_snapshot (s : NFeDistributionSimulator) : NFeDistributionMetrics := ns_metrics s.
