(* ===== verification/NFeDistributionFacts.v ===== *)
(** * NF-e distribution: the page contract, and one history per flow

    The adapter against the machine that only talks to the transport ([page]);
    the simulator against a family of such machines, one per flow, each with the
    answers it replays. *)

From Stdlib Require Import ZArith Ascii String Lia.
From stdpp Require Import base decidable list gmap strings.
From S2P Require Import Prelude PyStr PyVal Models Memory AuditTrail Artifacts ArtifactFacts Simulation Ingestion IngestionFacts IngestionGuarantees NFeDistribution.

Local Open Scope string_scope.

(** ** The adapter without its metrics and its trail *)

Definition rejected (e : exn) : exn :=
  match e with NFeDistributionError _ => e | _ => NFeDistributionError "NF-e adapter request failed" end.

Definition page_attempt {A} `{FiscalAdapter A} (q : NFeDistributionRequest) : ST A exn NFeDistributionResult :=
  let* fiscal := lift_result (request_post_init (fiscal_request q)) in
  let* raw := collect fiscal in
  lift_result (_interpret q raw).

Definition page {A} `{FiscalAdapter A} (policy : NFeDistributionPolicy) (q : NFeDistributionRequest) :
    ST A exn NFeDistributionResult :=
  lift_result (validate policy q) ;;;
  try_except (page_attempt q) (fun e => throw (rejected e)).

Definition event_name (d : pydict) : option pyval := dget d "event".

Definition trail (l : list string) : list (option pyval) := map (fun s => Some (VStr s)) l.

Section adapter.
Context {A : Type} `{FiscalAdapter A} (policy : NFeDistributionPolicy) (audited : bool).
Implicit Types (q : NFeDistributionRequest) (c : Channel A).

Lemma attempt_page q c :
  attempt q c = ((page_attempt q (nc_transport c)).1, MkChannel (page_attempt q (nc_transport c)).2 (nc_metrics c) (nc_log c)).
Proof.
  unfold attempt, page_attempt, bind, lift_result, exchange.
  destruct (request_post_init _) as [f|e]; cbn; [|by destruct c].
  destruct (collect f (nc_transport c)) as [[raw|e] t]; cbn; [|done]. by destruct (_interpret q raw).
Qed.

Lemma new_result_error flow o us k cov n cd why lim e : new_result flow o us k cov n cd why lim = Err e -> exists msg, e = NFeDistributionError msg.
Proof. unfold new_result. destruct (_ : bool); [intros [= <-]; by eexists|]. destruct (_ || _); [|done]. intros [= <-]; by eexists. Qed.

(** What [distribute] does, told by [page]. *)
Lemma distribute_run q c :
  exists log, distribute policy audited q c =
    ((page policy q (nc_transport c)).1,
     MkChannel (page policy q (nc_transport c)).2
       match (page policy q (nc_transport c)).1 with Ok r => record (nq_flow q) r (nc_metrics c) | Err _ => nc_metrics c end
       (nc_log c ++ log)) /\
    map event_name log =
      if audited && is_ok (validate policy q)
      then trail ["started"; if is_ok (page policy q (nc_transport c)).1 then "completed" else "rejected"] else [].
Proof.
  unfold distribute, page. unfold bind at 1 4 5 6 7 8. destruct (validate policy q) as [[]|e] eqn:Hv; cbn.
  2: { exists []. rewrite app_nil_r, andb_false_r. by destruct c. }
  unfold bind, try_except. rewrite attempt_page.
  set (c0 := if audited then _ else c).
  assert (nc_transport c0 = nc_transport c) as -> by (unfold c0; by destruct audited).
  assert (nc_metrics c0 = nc_metrics c) as -> by (unfold c0; by destruct audited).
  destruct (page_attempt q (nc_transport c)) as [[r|e] t]; cbn.
  - unfold c0. destruct audited; cbn.
    + eexists [_; _]. rewrite <- (app_assoc (nc_log c)). by split.
    + exists []. by rewrite app_nil_r.
  - destruct e; cbn; unfold c0; destruct audited; cbn;
      (eexists [_; _]; rewrite <- (app_assoc (nc_log c)); by split) || (exists []; by rewrite app_nil_r).
Qed.
End adapter.

Section contract.
Context {A : Type} `{FiscalAdapter A} (policy : NFeDistributionPolicy).
Implicit Types (q : NFeDistributionRequest).

(** What the transport's answer and the page made of it have in common. *)
Definition page_of_response q (raw : FiscalResponse) (r : NFeDistributionResult) : Prop :=
  nr_flow r = nq_flow q /\ nr_outcome r = fr_outcome raw /\ nr_units r = fr_units raw /\ nr_coverage r = fr_coverage raw /\
  nr_cooldown_until r = fr_cooldown_until raw /\ nr_page_limit r = nq_page_limit q /\
  nr_consumed r = Z.of_nat (length (fr_units raw)) /\ (nr_consumed r <= nq_page_limit q)%Z /\ fr_next_nsu raw = None /\
  nr_continuation r = option_map (fun p => MkNFePosition (nq_flow q) p FiscalFamily.NFE) (fr_next_cursor raw) /\
  _SAFE_CODE (nr_safe_reason r) = true /\
  (forall p, fr_next_cursor raw = Some p -> _SAFE_REFERENCE p && negb (_FORBIDDEN_REFERENCE p) = true).

Lemma code_safe s : _SAFE_CODE (_code s) = true.
Proof. unfold _code. destruct (_ && _) eqn:H0; [|reflexivity]. by apply andb_prop in H0 as [_ ?]. Qed.

Lemma flow_of_value f : _flow (VStr (NFeFlow.value f)) = Ok f.
Proof. by destruct f. Qed.

Lemma position_run f p : new_position (VStr (NFeFlow.value f)) (VStr p) FiscalFamily.NFE =
  if _SAFE_REFERENCE p && negb (_FORBIDDEN_REFERENCE p) then Ok (MkNFePosition f p FiscalFamily.NFE)
  else nfe_error "NF-e position is invalid".
Proof. unfold new_position. rewrite flow_of_value. cbn [and_then]. unfold _reference. by destruct (_ && _). Qed.

Lemma interpret_inv q raw r : _interpret q raw = Ok r -> page_of_response q raw r.
Proof.
  unfold _interpret. destruct (Z.ltb_spec (nq_page_limit q) (Z.of_nat (length (fr_units raw)))); [done|].
  destruct (fr_next_nsu raw) eqn:Hn; [done|]. cbn [is_some].
  assert (forall k, new_result (nq_flow q) (fr_outcome raw) (fr_units raw) k (fr_coverage raw)
      (Z.of_nat (length (fr_units raw))) (fr_cooldown_until raw)
      (str_or (fr_error_code raw) (FiscalOutcome.value (fr_outcome raw))) (nq_page_limit q) = Ok r ->
    k = option_map (fun p => MkNFePosition (nq_flow q) p FiscalFamily.NFE) (fr_next_cursor raw) ->
    (forall p, fr_next_cursor raw = Some p -> _SAFE_REFERENCE p && negb (_FORBIDDEN_REFERENCE p) = true) ->
    page_of_response q raw r) as Hfinish.
  { intros k. unfold new_result. destruct (match k with Some _ => _ | None => _ end); [done|].
    destruct (_ || _); [done|]. intros [= <-] -> Hp. unfold page_of_response; cbn. split_and!; try done. apply code_safe. }
  destruct (fr_next_cursor raw) as [p|].
  - rewrite position_run. destruct (_ && _) eqn:Hs; cbn [and_then nfe_error]; [|done].
    intros Hr. eapply Hfinish; [exact Hr|done|]. by intros ? [= <-].
  - cbn [and_then]. intros Hr. by eapply Hfinish.
Qed.

Lemma page_inv q t r t' : page policy q t = (Ok r, t') ->
  exists raw, validate policy q = Ok tt /\ request_post_init (fiscal_request q) = Ok (fiscal_request q) /\
    collect (fiscal_request q) t = (Ok raw, t') /\ _interpret q raw = Ok r.
Proof.
  assert (forall f f', request_post_init f = Ok f' -> f' = f) as Hsame.
  { intros f f'. unfold request_post_init. destruct (checks _); [|done]. by intros [= <-]. }
  unfold page, page_attempt, bind, try_except, lift_result. destruct (validate policy q) as [[]|]; [|done]. cbn [ret].
  destruct (request_post_init _) as [f|] eqn:Hf; [|done]. cbn [ret]. pose proof (Hsame _ _ Hf) as ->.
  destruct (collect _ t) as [[raw|e] t1]; [|done]. destruct (_interpret q raw) eqn:Hi; [|done]. intros [= <- <-]. by exists raw.
Qed.

Lemma page_error q t e t' : page policy q t = (Err e, t') -> exists msg, e = NFeDistributionError msg.
Proof.
  unfold page, bind, try_except, lift_result, validate.
  destruct (_ : bool); [intros [= <- _]; by eexists|]. destruct (_ : bool); [intros [= <- _]; by eexists|]. cbn.
  destruct (page_attempt q t) as [[r|e0] t0]; cbn; [done|]. intros [= <- _]. unfold rejected. destruct e0; by eexists.
Qed.

Lemma validate_inv q : validate policy q = Ok tt ->
  nq_source q = ny_source policy /\ (1 <= nq_page_limit q <= ny_max_page_units policy)%Z.
Proof.
  unfold validate. destruct (String.eqb_spec (nq_source q) (ny_source policy)); cbn; [|done].
  destruct (_ && _) eqn:Hl; cbn; [|done]. intros _. apply andb_prop in Hl as [H1%Z.leb_le H2%Z.leb_le]. done.
Qed.

(** A page the adapter returns is the transport's answer to one exchange with the request's own scope:
    the same units, outcome, coverage and deadline, never more units than the request and the policy allow,
    a continuation only in the request's flow; the metrics count it once.  An error is always the adapter's own
    class and leaves the metrics alone.  With a callback, each accepted request leaves exactly two audit events. *)
Theorem nfe_page_contract (audited : bool) q (c : Channel A) res c' :
  distribute policy audited q c = (res, c') ->
  (exists log, nc_log c' = (nc_log c ++ log)%list /\
     map event_name log = if audited && is_ok (validate policy q)
                          then trail ["started"; if is_ok res then "completed" else "rejected"] else []) /\
  match res with
  | Ok r => exists raw, collect (fiscal_request q) (nc_transport c) = (Ok raw, nc_transport c') /\ page_of_response q raw r /\
              nq_source q = ny_source policy /\ (nr_consumed r <= nq_page_limit q <= ny_max_page_units policy)%Z /\
              nc_metrics c' = record (nq_flow q) r (nc_metrics c)
  | Err e => (exists msg, e = NFeDistributionError msg) /\ nc_metrics c' = nc_metrics c
  end.
Proof.
  destruct (distribute_run policy audited q c) as (log & Hd & Hlog). rewrite Hd. intros [= <- <-].
  split; [exists log; by split|]. cbn. destruct (page policy q (nc_transport c)) as [[r|e] t'] eqn:Hp; cbn.
  - destruct (page_inv _ _ _ _ Hp) as (raw & Hv & _ & Hc & Hi). exists raw.
    destruct (validate_inv q Hv). pose proof (interpret_inv q raw r Hi) as Hr. split_and!; try done; try lia. apply Hr.
  - split; [by eapply page_error|done].
Qed.
End contract.

(** ** One history per flow *)

Record FlowHistory : Type := MkFlowHistory {
  fh_transport : Simulator; fh_replays : gmap (string * string) NFeDistributionResult }.

Definition new_flow_history (scenario : SyntheticScenario) : FlowHistory :=
  MkFlowHistory (MkSimulator FiscalFamily.NFE scenario [] 0) ∅.

(** One flow, served alone. *)
Definition flow_page (policy : NFeDistributionPolicy) (q : NFeDistributionRequest) : ST FlowHistory exn NFeDistributionResult := fun h =>
  match fh_replays h !! (position_value q, nq_correlation_id q) with
  | Some r => (Ok r, h)
  | None => match page policy q (fh_transport h) with
            | (Ok r, t) => (Ok r, MkFlowHistory t (<[(position_value q, nq_correlation_id q) := r]> (fh_replays h)))
            | (Err e, t) => (Err e, MkFlowHistory t (fh_replays h))
            end
  end.

Definition sees_flow (f : NFeFlow.t) (s : NFeDistributionSimulator) (h : FlowHistory) : Prop :=
  transport_of f s = fh_transport h /\ forall p c, ns_replays s !! (f, p, c) = fh_replays h !! (p, c).

Section simulator.
Context (policy : NFeDistributionPolicy) (audited : bool).
Implicit Types (q : NFeDistributionRequest) (s : NFeDistributionSimulator).

Lemma simulator_known policy' audited' q s r :
  ns_replays s !! replay_key q = Some r -> simulator_distribute policy' audited' q s = (Ok r, s).
Proof. intros Hr. unfold simulator_distribute, bind, gets. by rewrite Hr. Qed.

(** An unanswered request: [page] on the flow's transport, the other flow as it was. *)
Lemma simulator_new q s : ns_replays s !! replay_key q = None ->
  exists s', simulator_distribute policy audited q s = ((page policy q (transport_of (nq_flow q) s)).1, s') /\
    transport_of (nq_flow q) s' = (page policy q (transport_of (nq_flow q) s)).2 /\
    (forall f, f <> nq_flow q -> transport_of f s' = transport_of f s) /\
    ns_replays s' = match (page policy q (transport_of (nq_flow q) s)).1 with
                    | Ok r => <[replay_key q := r]> (ns_replays s) | Err _ => ns_replays s end.
Proof.
  intros Hr. unfold simulator_distribute, bind, gets, on_adapter, modify, ret. rewrite Hr.
  destruct (distribute_run policy audited q (MkChannel (transport_of (nq_flow q) s) (ns_metrics s) (ns_log s)))
    as (log & Hd & _). rewrite Hd. cbn [nc_transport nc_metrics nc_log].
  destruct (page policy q (transport_of (nq_flow q) s)) as [[r|e] t]; cbn [fst snd];
    eexists; (split; [reflexivity|]); destruct (nq_flow q); (split; [reflexivity|]);
    (split; [by intros []|reflexivity]).
Qed.

#[export] Instance flow_histories : Histories nq_flow (simulator_distribute policy audited) (flow_page policy) sees_flow.
Proof.
  split.
  - intros q s h [Ht Hr]. unfold flow_page. pose proof (Hr (position_value q) (nq_correlation_id q)) as Hk.
    change (_, _, _) with (replay_key q) in Hk. destruct (ns_replays s !! replay_key q) as [r|] eqn:Hs; rewrite <- Hk.
    + by rewrite (simulator_known policy audited q s r Hs).
    + destruct (simulator_new q s Hs) as (s' & Hd & Ht' & _ & Hr'). rewrite Hd, <- Ht. cbn [fst snd].
      destruct (page policy q (transport_of (nq_flow q) s)) as [[r|e] t]; cbn in *; (split; [done|]);
        (split; [done|]); intros p c; rewrite Hr'; cbn; [|apply Hr].
      destruct (decide ((p, c) = (position_value q, nq_correlation_id q))) as [[= -> ->]|Hn].
      * unfold replay_key. by rewrite !lookup_insert_eq.
      * rewrite !lookup_insert_ne; [apply Hr|congruence|]. unfold replay_key. congruence.
  - intros q k s h Hk [Ht Hr]. destruct (ns_replays s !! replay_key q) as [r|] eqn:Hs.
    { by rewrite (simulator_known policy audited q s r Hs). }
    destruct (simulator_new q s Hs) as (s' & Hd & _ & Ho & Hr'). rewrite Hd. cbn [snd]. split.
    + rewrite Ho by done. exact Ht.
    + intros p c. rewrite Hr'. destruct (_.1); [|apply Hr]. rewrite lookup_insert_ne; [apply Hr|]. unfold replay_key. congruence.
Qed.

(** C21 The simulator shares one object, one set of metrics and one audit callback between the two flows, yet what it
    answers to the requests of a flow is what a simulator of that flow alone would answer to them, in the same
    order, whatever the other flow asked in between: a position, a failure or a replay of one flow never shows in
    the other. *)
Theorem nfe_flows_independent scenario s f qs :
  new_distribution_simulator scenario = Ok s ->
  answers_of nq_flow (simulator_distribute policy audited) f qs s =
  (answers (flow_page policy) (filter (fun q => nq_flow q = f) qs) (new_flow_history scenario)).1.
Proof.
  unfold new_distribution_simulator, new_simulator. case_bool_decide as Hf; [|done]. cbn [and_then]. intros [= <-].
  apply (answers_of_histories _ _ (flow_page policy) sees_flow). split; [by destruct f|done].
Qed.

#[export] Instance distribution_replays :
  Replaying (simulator_distribute policy audited) replay_key (fun s k => ns_replays s !! k).
Proof.
  split; [apply simulator_known|]. intros q s k Hk. destruct (simulator_new q s Hk) as (s' & Hd & _ & _ & Hr').
  rewrite Hd. cbn [fst snd]. rewrite Hr'. destruct (_.1); [|done].
  by destruct (decide (k = replay_key q)) as [->|Hn]; [apply lookup_insert_eq|apply lookup_insert_ne].
Qed.

(** An answer is final: once a request has been answered, any request of the same flow, position and correlation
    gets that page back, whatever was asked in between and under whatever policy, without an exchange, a metric or
    an audit event. *)
Theorem nfe_replay_is_final q s r s' qs q' policy' audited' :
  simulator_distribute policy audited q s = (Ok r, s') -> replay_key q' = replay_key q ->
  let w := (answers (simulator_distribute policy audited) qs s').2 in
  simulator_distribute policy' audited' q' w = (Ok r, w).
Proof.
  intros Hd Hk w. apply simulator_known. rewrite Hk. exact (replay_answered _ replay_key _ q s r s' qs Hd).
Qed.
End simulator.

(** ** What is handed to ingestion *)

Lemma safe_reference_is_reference s : _SAFE_REFERENCE s = true -> _REFERENCE s = true.
Proof.
  unfold _SAFE_REFERENCE, _REFERENCE, re_head, re_rep. destruct s as [|h s]; [done|].
  rewrite !andb_true_iff, !Nat.leb_le. intros (Hh & (Ha & Hl) & Hu). cbn [sall String.length].
  rewrite andb_true_iff. split_and!; try lia.
  - unfold is_alpha. rewrite Hh. by rewrite ?orb_true_r.
  - revert Ha. apply sall_impl. intros c. unfold lower_word_char, is_alpha.
    destruct (is_lower c), (is_digit c), (char_in "_.:/-" c); by rewrite ?orb_true_r.
Qed.

Lemma base_reference_inv name s x : Simulation._reference name s = Ok x -> _REFERENCE s = true.
Proof.
  unfold Simulation._reference. destruct (_ && _) eqn:Hs; [|done]. intros _. apply andb_prop in Hs as [Hs _].
  by apply safe_reference_is_reference.
Qed.

Lemma checks_cons_inv r l : checks (r :: l) = Ok tt -> (exists x, r = Ok x) /\ checks l = Ok tt.
Proof. destruct r as [x|]; cbn; [|done]. by eauto. Qed.

Lemma post_init_inv q f : request_post_init q = Ok f ->
  _REFERENCE (rq_source q) = true /\ _REFERENCE (rq_flow q) = true /\ _REFERENCE (rq_correlation_id q) = true /\
  reference_opt (rq_cursor q) = true /\ _REFERENCE (rq_actor q) = true.
Proof.
  unfold request_post_init. destruct (checks _) as [[]|] eqn:Hc; [|done]. intros _.
  repeat (apply checks_cons_inv in Hc as [[? ?] Hc]). split_and!; try by eapply base_reference_inv.
  unfold reference_opt. destruct (rq_cursor q); [by eapply base_reference_inv|done].
Qed.

(** A response with the error code and the metadata of the adapter in the place of the transport's. *)
Lemma response_rebuilt raw err meta : response_post_init raw = Ok raw -> (err = "" \/ _SAFE_CODE err = true) ->
  forallb safe_item meta = true ->
  let r := MkFiscalResponse (fr_outcome raw) (fr_units raw) (fr_next_cursor raw) (fr_next_nsu raw) (fr_coverage raw)
             (fr_cooldown_until raw) err meta in
  response_post_init r = Ok r.
Proof.
  unfold response_post_init. destruct (checks _) as [[]|] eqn:Hc; [|done]. intros _ Herr Hmeta.
  repeat (apply checks_cons_inv in Hc as [[? ?] Hc]).
  cbn [fr_next_cursor fr_next_nsu fr_outcome fr_cooldown_until fr_error_code fr_safe_metadata checks].
  repeat match goal with H : _ = Ok _ |- _ => rewrite H; clear H end. rewrite Hmeta. cbn [check checks].
  destruct Herr as [->|Herr]; [done|]. destruct (str_nonempty err); [|done]. unfold Simulation._code. by rewrite Herr.
Qed.

Lemma new_request_inv company flow source actor pol cert corr pos limit ref q :
  new_request company flow source actor pol cert corr pos limit ref = Ok q ->
  uuid_of (RefUuid (nq_company_id q)) = Some (nq_company_id q) /\ _REFERENCE (nq_execution_ref q) = true.
Proof.
  unfold new_request. destruct (uuid_of company) as [i|] eqn:Hc; [|done]. intros Hq.
  repeat (apply and_then_inv in Hq as (? & ? & Hq)).
  destruct (match pos with Some _ => _ | None => _ end); [done|]. destruct (plain_int limit); [|done].
  injection Hq as <-. cbn [nq_company_id nq_execution_ref]. split.
  { apply uuid_of_uuid. by apply (parse_uuid_lt (ref_str company)). }
  match goal with H : _reference "execution" ref = Ok ?x |- _ => revert H end.
  unfold _reference. destruct ref; try done. destruct (_SAFE_REFERENCE s && _) eqn:Hs; [|done]. intros [= <-].
  apply andb_prop in Hs as [Hs _]. by apply safe_reference_is_reference.
Qed.

(** Whatever page the adapter accepts, ingestion's own boundary accepts: the page converts to a fiscal response with
    its units, outcome, coverage and position, the request to a valid ingestion context, and the continuation is of
    the kind the family allows.  So no page is lost between the two checks. *)
Theorem nfe_page_reaches_ingestion {A} `{FiscalAdapter A} (policy : NFeDistributionPolicy) (audited : bool)
    company flow source actor pol cert corr pos limit ref q (c : Channel A) r c' :
  (forall fq raw t', collect fq (nc_transport c) = (Ok raw, t') -> response_post_init raw = Ok raw) ->
  new_request company flow source actor pol cert corr pos limit ref = Ok q ->
  distribute policy audited q c = (Ok r, c') ->
  exists response, as_fiscal_response r = Ok response /\ fr_units response = nr_units r /\
    fr_outcome response = nr_outcome r /\ fr_coverage response = nr_coverage r /\
    fr_next_cursor response = option_map np_value (nr_continuation r) /\
    Ingestion.validate (ingestion_context q) = Ok tt /\ _validate_response_position (ingestion_context q) response = Ok tt.
Proof.
  intros Hvalid Hnew Hd. destruct (distribute_run policy audited q c) as (log & Hrun & _). rewrite Hrun in Hd.
  destruct (page policy q (nc_transport c)) as [r0 t'] eqn:Hp. cbn in Hd. injection Hd as -> _.
  destruct (page_inv policy q _ _ _ Hp) as (raw & _ & Hpost & Hc & Hi). apply interpret_inv in Hi.
  destruct Hi as (Hflow & Ho & Hu & Hcov & Hcd & _ & _ & _ & Hnsu & Hk & Hcode & _).
  pose proof (response_rebuilt raw (if succeeded (nr_outcome r) then "" else nr_safe_reason r)
    [("flow", VStr (NFeFlow.value (nr_flow r))); ("consumed", VInt (nr_consumed r)); ("page_limit", VInt (nr_page_limit r))]
    (Hvalid _ _ _ Hc) ltac:(destruct (succeeded _); auto) eq_refl) as Hresp.
  assert (option_map np_value (nr_continuation r) = fr_next_cursor raw) as Hnext.
  { rewrite Hk. by destruct (fr_next_cursor raw). }
  cbn zeta in Hresp. unfold as_fiscal_response. rewrite Ho, Hnsu in Hresp. rewrite Hnext, Ho, Hu, Hcov, Hcd, Hresp.
  eexists. split; [reflexivity|]. cbn [fr_units fr_outcome fr_coverage fr_next_cursor]. split_and!; try done.
  - destruct (post_init_inv _ _ Hpost) as (H1 & H2 & H3 & H4 & _). cbn [fiscal_request rq_source rq_flow rq_correlation_id rq_cursor] in H1, H2, H3, H4.
    unfold Ingestion.validate, ingestion_context. cbn [ic_company_id ic_family ic_flow ic_source ic_execution_ref ic_correlation_id
      ic_request_cursor ic_request_nsu ic_page_key ic_document_flow].
    replace (str_in "nfe" _FAMILY) with true by reflexivity. cbn [forallb negb].
    destruct (new_request_inv _ _ _ _ _ _ _ _ _ _ _ Hnew) as [Hid Href]. rewrite Hid, H1, H2, H3, Href. cbn [andb negb is_some]. rewrite H4. rewrite andb_false_r.
    reflexivity.
Qed.

Lemma response_converted r x : as_fiscal_response r = Ok x ->
  fr_outcome x = nr_outcome r /\ fr_units x = nr_units r /\ fr_coverage x = nr_coverage r /\
  fr_next_cursor x = option_map np_value (nr_continuation r) /\ fr_next_nsu x = None.
Proof. unfold as_fiscal_response, response_post_init. destruct (checks _); [|done]. by intros [= <-]. Qed.

(** The transport's answer is the response handed to ingestion, position and units included. *)
Definition same_answer (raw response : FiscalResponse) : Prop :=
  fr_outcome response = fr_outcome raw /\ fr_units response = fr_units raw /\ fr_coverage response = fr_coverage raw /\
  fr_next_cursor response = fr_next_cursor raw /\ fr_next_nsu response = fr_next_nsu raw.

(** C20 End to end: when [ingest] of the adapter returns, the transport was asked
    exactly once, at the request's position - from then on it is in the state that
    one exchange left, and only the database is worked on -; its answer passed the
    adapter's checks and is the response handed to ingestion; and the database has the
    page of that position, under the company, the family and the flow of the request,
    as the result reports it: either a page that was there before and may not be
    taken up again, or one that records the answer - outcome, coverage, continuation
    and number of units - and has a row for every unit of it, unless the answer
    reports a failure or the page was refused because its position is not the
    checkpoint's. *)
Theorem nfe_ingest_stores_the_page {A B} `{FiscalAdapter A, External B, !ObjectStore B, !ObjectStoreLaws B, Holds B (Channel A), !HoldsLaws B (Channel A)}
    (policy : NFeDistributionPolicy) (audited : bool) (limit : Z) payloads metadata q (w : World B) res w' :
  ingestion_inv w -> ingest (A:=A) policy audited limit payloads metadata q w = (Ok res, w') ->
  exists raw r t w1 response company p,
    collect (fiscal_request q) (nc_transport (held (bucket w) : Channel A)) = (Ok raw, t) /\ page_of_response q raw r /\
    rq_cursor (fiscal_request q) = option_map np_value (nq_position q) /\
    db w1 = db w /\ nc_transport (held (bucket w1) : Channel A) = t /\ same_answer raw response /\
    Ingestion.ingest limit (opt_default synthetic_payload payloads) (opt_default _default_metadata metadata)
      (ingestion_context q) response w1 = (Ok res, w') /\
    uuid_of (RefUuid (nq_company_id q)) = Some company /\ pages (db w') !! ir_page_id res = Some p /\
    pg_scope p = (company, "nfe", NFeFlow.value (nq_flow q), page_key_of (ingestion_context q)) /\ describes p res /\
    ((pages (db w) !! pg_id p = Some p /\ _can_resume_page p response = false) \/
     (records raw p /\
      (failure_response (fr_outcome raw) = true \/ units_stored raw (pg_id p) (db w') \/ refused_position p))).
Proof.
  intros Hw Hi. unfold ingest in Hi. apply bind_inv in Hi as (r & w1 & Hm & Hi).
  apply bind_inv in Hi as (response & w2 & Hr & Hi). apply lift_inv in Hr as [Hresp ->].
  unfold in_memory in Hm. destruct (distribute_run policy audited q (held (bucket w) : Channel A)) as (log & Hd & _).
  rewrite Hd in Hm. destruct (page policy q _) as [r0 t] eqn:Hp. cbn in Hm. injection Hm as -> Hw1.
  destruct (page_inv policy q _ _ _ Hp) as (raw & _ & _ & Hc & Hin).
  assert (ingestion_inv w1) as Hw1' by (rewrite <- Hw1; exact Hw). assert (db w1 = db w) as Hdb by (by rewrite <- Hw1).
  destruct (ingest_stored _ _ _ _ _ _ _ _ Hw1' Hi) as (company & p & Hu & Hpg & Hs & Hdesc & Hst).
  pose proof (interpret_inv _ _ _ Hin) as Hpage. destruct (response_converted _ _ Hresp) as (C1 & C2 & C3 & C4 & C5).
  assert (same_answer raw response) as Hsame.
  { destruct Hpage as (_ & P1 & P2 & P3 & _ & _ & _ & _ & P4 & P5 & _). unfold same_answer. rewrite C1, C2, C3, C4, C5, P4, P5. split_and!; try done.
    by destruct (fr_next_cursor raw). }
  exists raw, r, t, w1, response, company, p. split_and!; try done; try apply Hsame; [rewrite <-Hw1; cbn; by rewrite held_hold|].
  destruct Hsame as (S1 & S2 & S3 & S4 & S5). unfold answer_stored, records, units_stored in *. by rewrite S1, S2, S3, S4, S5, Hdb in Hst.
Qed.
