(* ===== verification/AdnDistribution.v ===== *)
(** * ADN distribution (adapters/adn.py)

    The semantic boundary in front of the NFS-e distribution: positions (NSU) are
    scoped to one actor and flow, units must be of a known kind, the coverage the
    source reports is recorded before the page is handed to ingestion.  The
    simulator keeps one history per actor and flow.  The audit callback is one
    that records what it is given. *)

From Stdlib Require Import ZArith Ascii String Lia.
From stdpp Require Import base decidable list gmap strings.
From S2P Require Import Prelude PyStr PyVal Models Memory AuditTrail Identity Companies Artifacts Documents Simulation Ingestion NFeDistribution.

Local Open Scope string_scope.

Definition adn_error {A} (msg : string) : result exn A := Err (AdnDistributionError msg).

Definition _ADN_UNIT_KINDS : list string := ["document"; "event"; "substitution"].

(** The Portuguese names are aliases of the two members. *)
Module AdnFlow.
Variant t : Set := TAKEN | PROVIDED.
#[global] Instance eq_dec : EqDecision t.
Proof. solve_decision. Defined.
Definition values : list t := [TAKEN; PROVIDED].
Definition value (x : t) : string := match x with TAKEN => "taken" | PROVIDED => "provided" end.
Definition of_value (s : string) : option t := find_value value values s.
Lemma adn_flow_roundtrip x : of_value (value x) = Some x.
Proof. by destruct x. Qed.
#[global] Instance countable : Countable t := inj_countable value of_value adn_flow_roundtrip.
End AdnFlow.

Definition _flow (value : pyval) : result exn AdnFlow.t :=
  match value with
  | VStr s => match AdnFlow.of_value s with Some f => Ok f | None => adn_error "ADN flow is unsupported" end
  | _ => adn_error "ADN flow is unsupported"
  end.

Definition _reference (name : string) (value : pyval) : result exn string :=
  match value with
  | VStr s => if _SAFE_REFERENCE s && negb (_FORBIDDEN_REFERENCE s) then Ok s else adn_error ("ADN " ++ name ++ " is invalid")
  | _ => adn_error ("ADN " ++ name ++ " is invalid")
  end.

Definition _code (value : string) : string :=
  if str_nonempty value && _SAFE_CODE value then value else "adn_distribution_failure".

(** ** Values *)

Record AdnPosition : Type := MkAdnPosition { ap_actor : string; ap_flow : AdnFlow.t; ap_value : string; ap_family : FiscalFamily.t }.

Definition new_position (actor flow value : pyval) (family : FiscalFamily.t) : result exn AdnPosition :=
  check* normalized_flow := _flow flow in
  if negb (bool_decide (family = FiscalFamily.ADN)) then adn_error "ADN position family is invalid" else
  check* actor := _reference "actor" actor in
  check* value := _reference "NSU" value in
  Ok (MkAdnPosition actor normalized_flow value family).

Record AdnDistributionPolicy : Type := MkAdnDistributionPolicy {
  ay_source : string; ay_max_page_units : Z; ay_default_page_units : Z; ay_version : string }.

Definition new_policy (source max_page_units default_page_units version : pyval) : result exn AdnDistributionPolicy :=
  check* source := _reference "source" source in
  match plain_int max_page_units, plain_int default_page_units with
  | Some limit, Some default =>
      if Z.leb 1 default && Z.leb default limit && Z.leb limit 100 then
        check* version := _reference "policy version" version in
        Ok (MkAdnDistributionPolicy source limit default version)
      else adn_error "ADN page policy is invalid"
  | _, _ => adn_error "ADN page policy is invalid"
  end.

Definition default_policy : AdnDistributionPolicy := MkAdnDistributionPolicy "synthetic" 100 50 "adn-synthetic-v1".

Record AdnDistributionRequest : Type := MkAdnDistributionRequest {
  aq_company_id : N; aq_actor : string; aq_flow : AdnFlow.t; aq_source : string; aq_policy_reference : string;
  aq_certificate_handle : string; aq_correlation_id : string; aq_position : option AdnPosition; aq_page_limit : Z;
  aq_execution_ref : string }.

Definition new_request (company_id : uuid_ref) (actor flow source policy_reference certificate_handle correlation_id : pyval)
    (position : option AdnPosition) (page_limit execution_ref : pyval) : result exn AdnDistributionRequest :=
  match uuid_of company_id with
  | None => adn_error "ADN company reference is invalid"
  | Some company =>
      check* normalized_flow := _flow flow in
      check* actor := _reference "actor" actor in
      check* source := _reference "source" source in
      check* policy_reference := _reference "policy reference" policy_reference in
      check* certificate_handle := _reference "certificate handle" certificate_handle in
      check* correlation_id := _reference "correlation" correlation_id in
      check* execution_ref := _reference "execution" execution_ref in
      if match position with
         | Some p => negb (String.eqb (ap_actor p) actor && bool_decide (ap_flow p = normalized_flow))
         | None => false
         end
      then adn_error "ADN position scope does not match request"
      else match plain_int page_limit with
           | Some limit =>
               Ok (MkAdnDistributionRequest company actor normalized_flow source policy_reference certificate_handle
                     correlation_id position limit execution_ref)
           | None => adn_error "ADN page limit is invalid"
           end
  end.

(** [policy.validate(request)] *)
Definition validate (policy : AdnDistributionPolicy) (request : AdnDistributionRequest) : result exn unit :=
  if negb (String.eqb (aq_source request) (ay_source policy)) then adn_error "ADN source is not allowed by policy"
  else if negb (Z.leb 1 (aq_page_limit request) && Z.leb (aq_page_limit request) (ay_max_page_units policy))
  then adn_error "ADN page limit is out of bounds"
  else Ok tt.

Record AdnDistributionResult : Type := MkAdnDistributionResult {
  ar_actor : string; ar_flow : AdnFlow.t; ar_outcome : FiscalOutcome.t; ar_units : list FiscalUnit;
  ar_continuation : option AdnPosition; ar_coverage : Coverage.t; ar_consumed : Z; ar_cooldown_until : option datetime;
  ar_safe_reason : string; ar_page_limit : Z }.

Definition new_result (actor : string) (flow : AdnFlow.t) (outcome : FiscalOutcome.t) (units : list FiscalUnit)
    (continuation : option AdnPosition) (coverage : Coverage.t) (consumed : Z) (cooldown_until : option datetime)
    (safe_reason : string) (page_limit : Z) : result exn AdnDistributionResult :=
  if match continuation with
     | Some p => negb (String.eqb (ap_actor p) actor && bool_decide (ap_flow p = flow))
     | None => false
     end
  then adn_error "ADN continuation scope is invalid"
  else if negb (Z.eqb consumed (Z.of_nat (length units))) || Z.ltb consumed 0
  then adn_error "ADN consumption is invalid"
  else Ok (MkAdnDistributionResult actor flow outcome units continuation coverage consumed cooldown_until (_code safe_reason) page_limit).

Definition as_fiscal_response (r : AdnDistributionResult) : result exn FiscalResponse :=
  response_post_init
    (MkFiscalResponse (ar_outcome r) (ar_units r) None (option_map ap_value (ar_continuation r)) (ar_coverage r)
       (ar_cooldown_until r) (if succeeded (ar_outcome r) then "" else ar_safe_reason r)
       [("actor", VStr (ar_actor r)); ("flow", VStr (AdnFlow.value (ar_flow r))); ("consumed", VInt (ar_consumed r));
        ("page_limit", VInt (ar_page_limit r))]).

(** [AdnDistributionAudit(...).as_dict()] *)
Definition audit_dict (event actor flow outcome reason nsu_prefix : string) (unit_count : Z) : pydict :=
  [("event", VStr event); ("actor", VStr actor); ("flow", VStr flow); ("outcome", VStr outcome); ("reason", VStr reason);
   ("nsu_prefix", VStr nsu_prefix); ("unit_count", VInt unit_count)].

Record AdnDistributionMetrics : Type := MkAdnDistributionMetrics {
  am_pages : Z; am_units : Z; am_cooldowns : Z; am_outcomes : Counter; am_pages_by_scope : Counter }.

Definition new_metrics : AdnDistributionMetrics := MkAdnDistributionMetrics 0 0 0 ∅ ∅.

Definition scope_name (actor : string) (flow : AdnFlow.t) : string := actor ++ ":" ++ AdnFlow.value flow.

Definition record (r : AdnDistributionResult) (m : AdnDistributionMetrics) : AdnDistributionMetrics :=
  MkAdnDistributionMetrics (am_pages m + 1) (am_units m + ar_consumed r)
    (am_cooldowns m + if is_cooldown (ar_outcome r) then 1 else 0)
    (bump (FiscalOutcome.value (ar_outcome r)) (am_outcomes m)) (bump (scope_name (ar_actor r) (ar_flow r)) (am_pages_by_scope m)).

(** ** The adapter *)

Record Channel (A : Type) : Type := MkChannel { ac_transport : A; ac_metrics : AdnDistributionMetrics; ac_log : list pydict }.
Arguments MkChannel {A}.
Arguments ac_transport {A}.
Arguments ac_metrics {A}.
Arguments ac_log {A}.

(** [record_adn_coverage(company_id=, source=, status=, policy_version=, evidence_reference=)] *)
Definition CoverageRecorder (B : Type) : Type := uuid_ref -> string -> string -> string -> string -> M B unit.

Definition default_recorder {B} : CoverageRecorder B := fun company source status version evidence =>
  record_adn_coverage company source status version evidence None ;;; ret tt.

(** The metadata of a unit when the caller brings no factory. *)
Definition adn_metadata (flow : AdnFlow.t) : DocumentMetadataFactory := fun unit _ now =>
  Ok (MkMetadata (Aware now) (MkFiscalIdentity None (Some (fu_identity unit)) None None None)
        (match flow with AdnFlow.TAKEN => "tomada" | AdnFlow.PROVIDED => "prestada" end) (fu_kind unit) None
        (DocumentSituation.value DocumentSituation.UNKNOWN) None
        (if String.eqb (fu_kind unit) "event" then Some (DocumentRelationship.value DocumentRelationship.EVENT)
         else if String.eqb (fu_kind unit) "substitution"
         then Some (DocumentRelationship.value DocumentRelationship.SUBSTITUTION) else None)).

Definition ingestion_context (request : AdnDistributionRequest) : IngestionContext :=
  MkIngestionContext (RefUuid (aq_company_id request)) "adn" (scope_name (aq_actor request) (aq_flow request))
    (aq_source request) (aq_execution_ref request) (aq_correlation_id request) None
    (option_map ap_value (aq_position request)) None None None.

Section adapter.
Context {A : Type} `{FiscalAdapter A} (policy : AdnDistributionPolicy) (audited : bool).

Definition new_adapter (transport : A) (metrics : AdnDistributionMetrics) : result exn (Channel A) :=
  if bool_decide (adapter_family transport = FiscalFamily.ADN) then Ok (MkChannel transport metrics [])
  else adn_error "ADN transport family is invalid".

Definition position_value (request : AdnDistributionRequest) : string :=
  match aq_position request with Some p => ap_value p | None => "" end.

Definition _emit (event : string) (request : AdnDistributionRequest) (result : option AdnDistributionResult) (reason : string) :
    ST (Channel A) exn unit :=
  let payload := audit_dict event (aq_actor request) (AdnFlow.value (aq_flow request))
                   match result with Some r => FiscalOutcome.value (ar_outcome r) | None => "" end (_code reason)
                   (stake 16 (position_value request)) match result with Some r => ar_consumed r | None => 0 end in
  modify (fun c => if audited then MkChannel (ac_transport c) (ac_metrics c) (ac_log c ++ [payload])%list else c).

Definition _interpret (request : AdnDistributionRequest) (raw : FiscalResponse) : result exn AdnDistributionResult :=
  if Z.ltb (aq_page_limit request) (Z.of_nat (length (fr_units raw))) then adn_error "ADN response exceeds page limit"
  else if is_some (fr_next_cursor raw) then adn_error "ADN response has an unsupported cursor"
  else if existsb (fun u => negb (str_in (fu_kind u) _ADN_UNIT_KINDS)) (fr_units raw) then adn_error "ADN unit kind is unsupported"
  else
    check* continuation :=
      match fr_next_nsu raw with
      | Some nsu => match new_position (VStr (aq_actor request)) (VStr (AdnFlow.value (aq_flow request))) (VStr nsu) FiscalFamily.ADN with
                    | Ok p => Ok (Some p)
                    | Err e => Err e
                    end
      | None => Ok None
      end in
    new_result (aq_actor request) (aq_flow request) (fr_outcome raw) (fr_units raw) continuation (fr_coverage raw)
      (Z.of_nat (length (fr_units raw))) (fr_cooldown_until raw)
      (str_or (fr_error_code raw) (FiscalOutcome.value (fr_outcome raw))) (aq_page_limit request).

Definition fiscal_request (request : AdnDistributionRequest) : FiscalRequest :=
  MkFiscalRequest (aq_source request) FiscalFamily.ADN (aq_actor request) (AdnFlow.value (aq_flow request))
    (option_map ap_value (aq_position request)) (aq_policy_reference request) (aq_certificate_handle request)
    (aq_correlation_id request).

(** [self.transport.collect(...)] *)
Definition exchange (request : FiscalRequest) : ST (Channel A) exn FiscalResponse := fun c =>
  let '(r, t) := collect request (ac_transport c) in (r, MkChannel t (ac_metrics c) (ac_log c)).

Definition attempt (request : AdnDistributionRequest) : ST (Channel A) exn AdnDistributionResult :=
  let* fiscal := lift_result (request_post_init (fiscal_request request)) in
  let* raw := exchange fiscal in
  lift_result (_interpret request raw).

Definition distribute (request : AdnDistributionRequest) : ST (Channel A) exn AdnDistributionResult :=
  lift_result (validate policy request) ;;;
  _emit "started" request None "" ;;;
  let* result :=
    try_except (attempt request)
      (fun e => match e with
                | AdnDistributionError _ => _emit "rejected" request None "invalid_envelope" ;;; throw e
                | _ => _emit "rejected" request None "adapter_failure" ;;;
                       throw (AdnDistributionError "ADN adapter request failed")
                end) in
  modify (fun c => MkChannel (ac_transport c) (record result (ac_metrics c)) (ac_log c)) ;;;
  _emit "completed" request (Some result) (ar_safe_reason result) ;;;
  ret result.
End adapter.

(** What [ingest] does with a distributed page. *)
Definition ingest_result {B} `{!External B, !ObjectStore B} (policy : AdnDistributionPolicy) (recorder : option (CoverageRecorder B))
    (maximum_size : Z) (payload_factory : option PayloadFactory) (metadata_factory : option DocumentMetadataFactory)
    (request : AdnDistributionRequest) (result : AdnDistributionResult) : M B IngestionResult :=
  opt_default default_recorder recorder (RefUuid (aq_company_id request)) (aq_source request) (Coverage.value (ar_coverage result))
    (ay_version policy) ("coverage:" ++ scope_name (aq_actor request) (aq_flow request)) ;;;
  let* response := lift_result (as_fiscal_response result) in
  Ingestion.ingest maximum_size (opt_default synthetic_payload payload_factory)
    (opt_default (adn_metadata (aq_flow request)) metadata_factory) (ingestion_context request) response.

Definition ingest {A B} `{FiscalAdapter A, !External B, !ObjectStore B, !Holds B (Channel A)} (policy : AdnDistributionPolicy)
    (audited : bool) (recorder : option (CoverageRecorder B)) (maximum_size : Z) (payload_factory : option PayloadFactory)
    (metadata_factory : option DocumentMetadataFactory) (request : AdnDistributionRequest) : M B IngestionResult :=
  let* result := in_memory (distribute policy audited request) in
  ingest_result policy recorder maximum_size payload_factory metadata_factory request result.

(** ** The simulator: a history per actor and flow *)

Record AdnDistributionSimulator : Type := MkAdnDistributionSimulator {
  as_scenario : SyntheticScenario; as_adapters : gmap (string * AdnFlow.t) Simulator; as_metrics : AdnDistributionMetrics;
  as_log : list pydict; as_replays : gmap (string * AdnFlow.t * string * string) AdnDistributionResult }.

Definition new_distribution_simulator (scenario : SyntheticScenario) : result exn AdnDistributionSimulator :=
  if bool_decide (sc_family scenario = FiscalFamily.ADN) then Ok (MkAdnDistributionSimulator scenario ∅ new_metrics [] ∅)
  else adn_error "ADN scenario family is invalid".

Definition adapter_key (request : AdnDistributionRequest) : string * AdnFlow.t := (aq_actor request, aq_flow request).

(** [self._adapter(request)] *)
Definition _adapter (request : AdnDistributionRequest) : ST AdnDistributionSimulator exn Simulator :=
  let* adapter := gets (fun s => as_adapters s !! adapter_key request) in
  match adapter with
  | Some a => ret a
  | None =>
      let* scenario := gets as_scenario in
      let* a := lift_result (new_simulator FiscalFamily.ADN scenario []) in
      modify (fun s => MkAdnDistributionSimulator (as_scenario s) (<[adapter_key request := a]> (as_adapters s)) (as_metrics s)
                         (as_log s) (as_replays s)) ;;;
      ret a
  end.

(** A method of that adapter: the metrics and the callback are shared. *)
Definition on_adapter {X} (request : AdnDistributionRequest) (m : ST (Channel Simulator) exn X) :
    ST AdnDistributionSimulator exn X :=
  let* adapter := _adapter request in
  fun s => let '(r, c) := m (MkChannel adapter (as_metrics s) (as_log s)) in
           (r, MkAdnDistributionSimulator (as_scenario s) (<[adapter_key request := ac_transport c]> (as_adapters s)) (ac_metrics c)
                 (ac_log c) (as_replays s)).

Definition replay_key (request : AdnDistributionRequest) : string * AdnFlow.t * string * string :=
  (aq_actor request, aq_flow request, position_value request, aq_correlation_id request).

Definition simulator_distribute (policy : AdnDistributionPolicy) (audited : bool) (request : AdnDistributionRequest) :
    ST AdnDistributionSimulator exn AdnDistributionResult :=
  let* cached := gets (fun s => as_replays s !! replay_key request) in
  match cached with
  | Some r => ret r
  | None =>
      let* r := on_adapter request (distribute policy audited request) in
      modify (fun s => MkAdnDistributionSimulator (as_scenario s) (as_adapters s) (as_metrics s) (as_log s)
                         (<[replay_key request := r]> (as_replays s))) ;;;
      ret r
  end.

Definition simulator_ingest {B} `{!External B, !ObjectStore B, !Holds B AdnDistributionSimulator} (policy : AdnDistributionPolicy)
    (audited : bool) (recorder : option (CoverageRecorder B)) (maximum_size : Z) (payload_factory : option PayloadFactory)
    (metadata_factory : option DocumentMetadataFactory) (request : AdnDistributionRequest) : M B IngestionResult :=
  let* result := in_memory (on_adapter request (distribute policy audited request)) in
  ingest_result policy recorder maximum_size payload_factory metadata_factory request result.

Definition calls (actor : string) (flow : pyval) (s : AdnDistributionSimulator) : result exn (list TransportCall) :=
  check* f := _flow flow in
  match as_adapters s !! (actor, f) with Some a => Ok (sim_calls a) | None => Err (KeyError actor) end.

Definition metrics_snapshot (s : AdnDistributionSimulator) : AdnDistributionMetrics := as_metrics s.
