(* ===== verification/AdnDistributionFacts.v ===== *)
(** * ADN distribution: the page contract, and one history per actor and flow

    The NFS-e boundary, stated as the NF-e one: the adapter against the machine
    that only talks to the transport ([page]); the simulator against a family of
    such machines, here one per actor and flow, made when first asked. *)

From Stdlib Require Import ZArith Ascii String Lia.
From stdpp Require Import base decidable list gmap strings.
From S2P Require Import Prelude PyStr PyVal Models Memory AuditTrail Simulation Ingestion NFeDistribution NFeDistributionFacts AdnDistribution.

Local Open Scope string_scope.

(** ** The adapter without its metrics and its trail *)

Definition rejected (e : exn) : exn :=
  match e with AdnDistributionError _ => e | _ => AdnDistributionError "ADN adapter request failed" end.

Definition page_attempt {A} `{FiscalAdapter A} (q : AdnDistributionRequest) : ST A exn AdnDistributionResult :=
  let* fiscal := lift_result (request_post_init (fiscal_request q)) in
  let* raw := collect fiscal in
  lift_result (_interpret q raw).

Definition page {A} `{FiscalAdapter A} (policy : AdnDistributionPolicy) (q : AdnDistributionRequest) :
    ST A exn AdnDistributionResult :=
  lift_result (validate policy q) ;;;
  try_except (page_attempt q) (fun e => throw (rejected e)).

Section adapter.
Context {A : Type} `{FiscalAdapter A} (policy : AdnDistributionPolicy) (audited : bool).
Implicit Types (q : AdnDistributionRequest) (c : Channel A).

Lemma adn_attempt_page q c :
  attempt q c = ((page_attempt q (ac_transport c)).1, MkChannel (page_attempt q (ac_transport c)).2 (ac_metrics c) (ac_log c)).
Proof.
  unfold attempt, page_attempt, bind, lift_result, exchange.
  destruct (request_post_init _) as [f|e]; cbn; [|by destruct c].
  destruct (collect f (ac_transport c)) as [[raw|e] t]; cbn; [|done]. by destruct (_interpret q raw).
Qed.

Lemma adn_new_result_error actor flow o us k cov n cd why lim e : new_result actor flow o us k cov n cd why lim = Err e -> exists msg, e = AdnDistributionError msg.
Proof. unfold new_result. destruct (_ : bool); [intros [= <-]; by eexists|]. destruct (_ || _); [|done]. intros [= <-]; by eexists. Qed.

(** What [distribute] does, told by [page]. *)
Lemma adn_distribute_run q c :
  exists log, distribute policy audited q c =
    ((page policy q (ac_transport c)).1,
     MkChannel (page policy q (ac_transport c)).2
       match (page policy q (ac_transport c)).1 with Ok r => record r (ac_metrics c) | Err _ => ac_metrics c end
       (ac_log c ++ log)) /\
    map event_name log =
      if audited && is_ok (validate policy q)
      then trail ["started"; if is_ok (page policy q (ac_transport c)).1 then "completed" else "rejected"] else [].
Proof.
  unfold distribute, page. unfold bind at 1 4 5 6 7 8. destruct (validate policy q) as [[]|e] eqn:Hv; cbn.
  2: { exists []. rewrite app_nil_r, andb_false_r. by destruct c. }
  unfold bind, try_except. rewrite adn_attempt_page.
  set (c0 := if audited then _ else c).
  assert (ac_transport c0 = ac_transport c) as -> by (unfold c0; by destruct audited).
  assert (ac_metrics c0 = ac_metrics c) as -> by (unfold c0; by destruct audited).
  destruct (page_attempt q (ac_transport c)) as [[r|e] t]; cbn.
  - unfold c0. destruct audited; cbn.
    + eexists [_; _]. rewrite <- (app_assoc (ac_log c)). by split.
    + exists []. by rewrite app_nil_r.
  - destruct e; cbn; unfold c0; destruct audited; cbn;
      (eexists [_; _]; rewrite <- (app_assoc (ac_log c)); by split) || (exists []; by rewrite app_nil_r).
Qed.
End adapter.

Section contract.
Context {A : Type} `{FiscalAdapter A} (policy : AdnDistributionPolicy).
Implicit Types (q : AdnDistributionRequest).

(** What the transport's answer and the page made of it have in common. *)
Definition page_of_response q (raw : FiscalResponse) (r : AdnDistributionResult) : Prop :=
  ar_actor r = aq_actor q /\ ar_flow r = aq_flow q /\ ar_outcome r = fr_outcome raw /\ ar_units r = fr_units raw /\
  ar_coverage r = fr_coverage raw /\ ar_cooldown_until r = fr_cooldown_until raw /\ ar_page_limit r = aq_page_limit q /\
  ar_consumed r = Z.of_nat (length (fr_units raw)) /\ (ar_consumed r <= aq_page_limit q)%Z /\ fr_next_cursor raw = None /\
  Forall (fun u => fu_kind u ∈ _ADN_UNIT_KINDS) (ar_units r) /\
  ar_continuation r = option_map (fun p => MkAdnPosition (aq_actor q) (aq_flow q) p FiscalFamily.ADN) (fr_next_nsu raw) /\
  _SAFE_CODE (ar_safe_reason r) = true /\
  (forall p, fr_next_nsu raw = Some p -> _SAFE_REFERENCE p && negb (_FORBIDDEN_REFERENCE p) = true).

Lemma adn_code_safe s : _SAFE_CODE (_code s) = true.
Proof. unfold _code. destruct (_ && _) eqn:H0; [|reflexivity]. by apply andb_prop in H0 as [_ ?]. Qed.

Lemma adn_flow_of_value f : _flow (VStr (AdnFlow.value f)) = Ok f.
Proof. by destruct f. Qed.

Lemma adn_position_run actor f p : new_position (VStr actor) (VStr (AdnFlow.value f)) (VStr p) FiscalFamily.ADN =
  if _SAFE_REFERENCE actor && negb (_FORBIDDEN_REFERENCE actor) then
    if _SAFE_REFERENCE p && negb (_FORBIDDEN_REFERENCE p) then Ok (MkAdnPosition actor f p FiscalFamily.ADN)
    else adn_error "ADN NSU is invalid"
  else adn_error "ADN actor is invalid".
Proof.
  unfold new_position. rewrite adn_flow_of_value. cbn [and_then]. unfold _reference.
  destruct (_SAFE_REFERENCE actor && _); [|done]. cbn. by destruct (_SAFE_REFERENCE p && _).
Qed.

Lemma kinds_known l : existsb (fun u => negb (str_in (fu_kind u) _ADN_UNIT_KINDS)) l = false ->
  Forall (fun u => fu_kind u ∈ _ADN_UNIT_KINDS) l.
Proof.
  induction l as [|u l IH]; [constructor|]. cbn [existsb]. intros [Hu Hl]%orb_false_iff. constructor; [|by apply IH].
  apply negb_false_iff in Hu. unfold str_in in Hu. apply existsb_exists in Hu as (x & Hx & Heq).
  apply String.eqb_eq in Heq as ->. by apply list_elem_of_In.
Qed.

Lemma adn_interpret_inv q raw r : _interpret q raw = Ok r -> page_of_response q raw r.
Proof.
  unfold _interpret. destruct (Z.ltb_spec (aq_page_limit q) (Z.of_nat (length (fr_units raw)))); [done|].
  destruct (fr_next_cursor raw) eqn:Hn; [done|]. cbn [is_some].
  destruct (existsb _ _) eqn:Hkinds; [done|]. apply kinds_known in Hkinds.
  assert (forall k, new_result (aq_actor q) (aq_flow q) (fr_outcome raw) (fr_units raw) k (fr_coverage raw)
      (Z.of_nat (length (fr_units raw))) (fr_cooldown_until raw)
      (str_or (fr_error_code raw) (FiscalOutcome.value (fr_outcome raw))) (aq_page_limit q) = Ok r ->
    k = option_map (fun p => MkAdnPosition (aq_actor q) (aq_flow q) p FiscalFamily.ADN) (fr_next_nsu raw) ->
    (forall p, fr_next_nsu raw = Some p -> _SAFE_REFERENCE p && negb (_FORBIDDEN_REFERENCE p) = true) ->
    page_of_response q raw r) as Hfinish.
  { intros k. unfold new_result. destruct (match k with Some _ => _ | None => _ end); [done|].
    destruct (_ || _); [done|]. intros [= <-] -> Hp. unfold page_of_response; cbn. split_and!; try done. apply adn_code_safe. }
  destruct (fr_next_nsu raw) as [p|].
  - rewrite adn_position_run. destruct (_SAFE_REFERENCE (aq_actor q) && _); [|done].
    destruct (_SAFE_REFERENCE p && _) eqn:Hs; cbn [and_then adn_error]; [|done].
    intros Hr. eapply Hfinish; [exact Hr|done|]. by intros ? [= <-].
  - cbn [and_then]. intros Hr. by eapply Hfinish.
Qed.

Lemma adn_page_inv q t r t' : page policy q t = (Ok r, t') ->
  exists raw, validate policy q = Ok tt /\ request_post_init (fiscal_request q) = Ok (fiscal_request q) /\
    collect (fiscal_request q) t = (Ok raw, t') /\ _interpret q raw = Ok r.
Proof.
  assert (forall f f', request_post_init f = Ok f' -> f' = f) as Hsame.
  { intros f f'. unfold request_post_init. destruct (checks _); [|done]. by intros [= <-]. }
  unfold page, page_attempt, bind, try_except, lift_result. destruct (validate policy q) as [[]|]; [|done]. cbn [ret].
  destruct (request_post_init _) as [f|] eqn:Hf; [|done]. cbn [ret]. pose proof (Hsame _ _ Hf) as ->.
  destruct (collect _ t) as [[raw|e] t1]; [|done]. destruct (_interpret q raw) eqn:Hi; [|done]. intros [= <- <-]. by exists raw.
Qed.

Lemma adn_page_error q t e t' : page policy q t = (Err e, t') -> exists msg, e = AdnDistributionError msg.
Proof.
  unfold page, bind, try_except, lift_result, validate.
  destruct (_ : bool); [intros [= <- _]; by eexists|]. destruct (_ : bool); [intros [= <- _]; by eexists|]. cbn.
  destruct (page_attempt q t) as [[r|e0] t0]; cbn; [done|]. intros [= <- _]. unfold rejected. destruct e0; by eexists.
Qed.

Lemma adn_validate_inv q : validate policy q = Ok tt ->
  aq_source q = ay_source policy /\ (1 <= aq_page_limit q <= ay_max_page_units policy)%Z.
Proof.
  unfold validate. destruct (String.eqb_spec (aq_source q) (ay_source policy)); cbn; [|done].
  destruct (_ && _) eqn:Hl; cbn; [|done]. intros _. apply andb_prop in Hl as [H1%Z.leb_le H2%Z.leb_le]. done.
Qed.

(** An NFS-e page the adapter returns is the transport's answer to one exchange with the request's own actor and
    flow: the same units, every one of a known kind and no more than request and policy allow, the same outcome,
    coverage and deadline, a continuation only in the request's actor and flow; the metrics count it once.  An error
    is always the adapter's own class and leaves the metrics alone; the audit trail has two events per accepted request. *)
Theorem adn_page_contract (audited : bool) q (c : Channel A) res c' :
  distribute policy audited q c = (res, c') ->
  (exists log, ac_log c' = (ac_log c ++ log)%list /\
     map event_name log = if audited && is_ok (validate policy q)
                          then trail ["started"; if is_ok res then "completed" else "rejected"] else []) /\
  match res with
  | Ok r => exists raw, collect (fiscal_request q) (ac_transport c) = (Ok raw, ac_transport c') /\ page_of_response q raw r /\
              aq_source q = ay_source policy /\ (ar_consumed r <= aq_page_limit q <= ay_max_page_units policy)%Z /\
              ac_metrics c' = record r (ac_metrics c)
  | Err e => (exists msg, e = AdnDistributionError msg) /\ ac_metrics c' = ac_metrics c
  end.
Proof.
  destruct (adn_distribute_run policy audited q c) as (log & Hd & Hlog). rewrite Hd. intros [= <- <-].
  split; [exists log; by split|]. cbn. destruct (page policy q (ac_transport c)) as [[r|e] t'] eqn:Hp; cbn.
  - destruct (adn_page_inv _ _ _ _ Hp) as (raw & Hv & _ & Hc & Hi). exists raw.
    destruct (adn_validate_inv q Hv). pose proof (adn_interpret_inv q raw r Hi) as Hr. split_and!; try done; try lia. apply Hr.
  - split; [by eapply adn_page_error|done].
Qed.
End contract.

(** ** One history per actor and flow *)

Record ScopeHistory : Type := MkScopeHistory {
  sh_transport : Simulator; sh_replays : gmap (string * string) AdnDistributionResult }.

Definition fresh_transport (scenario : SyntheticScenario) : Simulator := MkSimulator FiscalFamily.ADN scenario [] 0.

Definition new_scope_history (scenario : SyntheticScenario) : ScopeHistory := MkScopeHistory (fresh_transport scenario) ∅.

(** One actor's flow, served alone. *)
Definition scope_page (policy : AdnDistributionPolicy) (q : AdnDistributionRequest) : ST ScopeHistory exn AdnDistributionResult := fun h =>
  match sh_replays h !! (position_value q, aq_correlation_id q) with
  | Some r => (Ok r, h)
  | None => match page policy q (sh_transport h) with
            | (Ok r, t) => (Ok r, MkScopeHistory t (<[(position_value q, aq_correlation_id q) := r]> (sh_replays h)))
            | (Err e, t) => (Err e, MkScopeHistory t (sh_replays h))
            end
  end.

(** The transport of a scope, whether it has been made yet or not. *)
Definition transport_seen (k : string * AdnFlow.t) (s : AdnDistributionSimulator) : Simulator :=
  opt_default (fresh_transport (as_scenario s)) (as_adapters s !! k).

Definition sees_scope (k : string * AdnFlow.t) (s : AdnDistributionSimulator) (h : ScopeHistory) : Prop :=
  sc_family (as_scenario s) = FiscalFamily.ADN /\ transport_seen k s = sh_transport h /\
    forall p c, as_replays s !! (k.1, k.2, p, c) = sh_replays h !! (p, c).

Section simulator.
Context (policy : AdnDistributionPolicy) (audited : bool).
Implicit Types (q : AdnDistributionRequest) (s : AdnDistributionSimulator).

Lemma adn_simulator_known policy' audited' q s r :
  as_replays s !! replay_key q = Some r -> simulator_distribute policy' audited' q s = (Ok r, s).
Proof. intros Hr. unfold simulator_distribute, bind, gets. by rewrite Hr. Qed.

Lemma adapter_run q s : sc_family (as_scenario s) = FiscalFamily.ADN ->
  exists s', _adapter q s = (Ok (transport_seen (adapter_key q) s), s') /\ as_scenario s' = as_scenario s /\
    as_replays s' = as_replays s /\ (forall k, transport_seen k s' = transport_seen k s).
Proof.
  intros Hf. unfold _adapter, bind, gets, transport_seen, lift_result, new_simulator, modify, ret.
  destruct (as_adapters s !! adapter_key q) as [a|] eqn:Ha; [by exists s|].
  rewrite bool_decide_eq_true_2 by done. eexists. split; [reflexivity|]. cbn [as_scenario as_replays as_adapters]. split_and!; try done.
  intros k. destruct (decide (k = adapter_key q)) as [->|Hn].
  - by rewrite lookup_insert_eq, Ha.
  - by rewrite lookup_insert_ne.
Qed.

(** An unanswered request: [page] on the scope's transport, the others as they were. *)
Lemma adn_simulator_new q s : sc_family (as_scenario s) = FiscalFamily.ADN -> as_replays s !! replay_key q = None ->
  exists s', simulator_distribute policy audited q s = ((page policy q (transport_seen (adapter_key q) s)).1, s') /\
    as_scenario s' = as_scenario s /\
    transport_seen (adapter_key q) s' = (page policy q (transport_seen (adapter_key q) s)).2 /\
    (forall k, k <> adapter_key q -> transport_seen k s' = transport_seen k s) /\
    as_replays s' = match (page policy q (transport_seen (adapter_key q) s)).1 with
                    | Ok r => <[replay_key q := r]> (as_replays s) | Err _ => as_replays s end.
Proof.
  intros Hf Hr. unfold simulator_distribute, bind, gets, on_adapter, modify, ret. rewrite Hr.
  destruct (adapter_run q s Hf) as (s1 & Ha & Hsc & Hrp & Hseen). unfold bind. rewrite Ha.
  destruct (adn_distribute_run policy audited q (MkChannel (transport_seen (adapter_key q) s) (as_metrics s1) (as_log s1)))
    as (log & Hd & _). rewrite Hd. cbn [ac_transport ac_metrics ac_log].
  destruct (page policy q (transport_seen (adapter_key q) s)) as [[r|e] t]; cbn [fst snd];
    eexists; (split; [reflexivity|]); cbn [as_scenario as_replays as_adapters]; rewrite Hrp; split_and!; try done;
    try (unfold transport_seen; cbn [as_scenario as_adapters]; by rewrite lookup_insert_eq);
    intros k Hk; rewrite <- Hseen; unfold transport_seen; cbn [as_scenario as_adapters]; by rewrite lookup_insert_ne.
Qed.

#[export] Instance scope_histories : Histories adapter_key (simulator_distribute policy audited) (scope_page policy) sees_scope.
Proof.
  split.
  - intros q s h (Hf & Ht & Hr). unfold scope_page. pose proof (Hr (position_value q) (aq_correlation_id q)) as Hk.
    change (_, _, _, _) with (replay_key q) in Hk. destruct (as_replays s !! replay_key q) as [r|] eqn:Hs; rewrite <- Hk.
    + by rewrite (adn_simulator_known policy audited q s r Hs).
    + destruct (adn_simulator_new q s Hf Hs) as (s' & Hd & Hsc & Ht' & _ & Hr'). rewrite Hd, <- Ht. cbn [fst snd].
      destruct (page policy q (transport_seen (adapter_key q) s)) as [[r|e] t]; cbn [fst snd] in *;
        (split; [done|]); (split; [congruence|]); (split; [done|]); intros p c; rewrite Hr'; [|apply Hr].
      cbn [sh_replays]. destruct (decide ((p, c) = (position_value q, aq_correlation_id q))) as [[= -> ->]|Hn].
      * change (_, _, _, _) with (replay_key q). by rewrite !lookup_insert_eq.
      * rewrite !lookup_insert_ne; [apply Hr|congruence|]. unfold replay_key. cbn. congruence.
  - intros q k s h Hk (Hf & Ht & Hr). destruct (as_replays s !! replay_key q) as [r|] eqn:Hs.
    { by rewrite (adn_simulator_known policy audited q s r Hs). }
    destruct (adn_simulator_new q s Hf Hs) as (s' & Hd & Hsc & _ & Ho & Hr'). rewrite Hd. cbn [snd]. split_and!.
    + congruence.
    + rewrite Ho by done. exact Ht.
    + intros p c. rewrite Hr'. destruct (page policy q _).1; [|apply Hr]. rewrite lookup_insert_ne; [apply Hr|].
      unfold replay_key. destruct k; cbn. unfold adapter_key in Hk. congruence.
Qed.

(** C24 One ADN simulator serves every actor and both flows, and makes the adapter of a pair when it is first asked for
    it; what it answers to the requests of a pair is what an adapter of that pair alone answers to them, in the same
    order, whatever other actors and flows asked in between: no NSU, failure or replay crosses from one to another. *)
Theorem adn_scopes_independent scenario s k qs :
  new_distribution_simulator scenario = Ok s ->
  answers_of adapter_key (simulator_distribute policy audited) k qs s =
  (answers (scope_page policy) (filter (fun q => adapter_key q = k) qs) (new_scope_history scenario)).1.
Proof.
  unfold new_distribution_simulator. case_bool_decide as Hf; [|done]. intros [= <-].
  by apply (answers_of_histories _ _ (scope_page policy) sees_scope).
Qed.

End simulator.

(** ** What is handed to ingestion *)

Lemma adn_new_request_inv company actor flow source pol cert corr pos limit ref q :
  new_request company actor flow source pol cert corr pos limit ref = Ok q ->
  uuid_of (RefUuid (aq_company_id q)) = Some (aq_company_id q) /\ _REFERENCE (aq_execution_ref q) = true.
Proof.
  unfold new_request. destruct (uuid_of company) as [i|] eqn:Hc; [|done]. intros Hq.
  repeat (apply and_then_inv in Hq as (? & ? & Hq)).
  destruct (match pos with Some _ => _ | None => _ end); [done|]. destruct (plain_int limit); [|done].
  injection Hq as <-. cbn [aq_company_id aq_execution_ref]. split.
  { apply uuid_of_uuid. by apply (parse_uuid_lt (ref_str company)). }
  match goal with H : _reference "execution" ref = Ok ?x |- _ => revert H end.
  unfold _reference. destruct ref; try done. destruct (_SAFE_REFERENCE s && _) eqn:Hs; [|done]. intros [= <-].
  apply andb_prop in Hs as [Hs _]. by apply safe_reference_is_reference.
Qed.

(** The characters of an actor and its flow are those of a reference; only the length can be too much. *)
Lemma scope_name_bounds actor f n : _REFERENCE actor = true ->
  re_rep (fun c => is_alpha c || is_digit c || char_in "_.:/-" c) 1 n (scope_name actor f) =
  Nat.leb (String.length (scope_name actor f)) n.
Proof.
  unfold _REFERENCE, re_rep. rewrite !andb_true_iff, !Nat.leb_le. intros [[Ha _] _]. unfold scope_name.
  rewrite sall_app, Ha. replace (sall _ (":" ++ AdnFlow.value f)) with true by (by destruct f). cbn [andb].
  replace (Nat.leb 1 _) with true; [done|]. symmetry. apply Nat.leb_le. rewrite !length_append. change (String.length ":") with 1%nat. lia.
Qed.

(** C28 Whatever page the adapter accepts converts to a fiscal response that ingestion's own boundary accepts, with the
    units, outcome, coverage and NSU of the page.  The context is accepted exactly when actor and flow together have
    at most 128 characters, and its rows can be stored exactly when they have at most 64, although the adapter takes
    actors of up to 128. *)
Theorem adn_page_reaches_ingestion {A} `{FiscalAdapter A} (policy : AdnDistributionPolicy) (audited : bool)
    company actor flow source pol cert corr pos limit ref q (c : Channel A) r c' :
  (forall fq raw t', collect fq (ac_transport c) = (Ok raw, t') -> response_post_init raw = Ok raw) ->
  new_request company actor flow source pol cert corr pos limit ref = Ok q ->
  distribute policy audited q c = (Ok r, c') ->
  (exists response, as_fiscal_response r = Ok response /\ fr_units response = ar_units r /\
    fr_outcome response = ar_outcome r /\ fr_coverage response = ar_coverage r /\
    fr_next_nsu response = option_map ap_value (ar_continuation r) /\
    _validate_response_position (ingestion_context q) response = Ok tt) /\
  let width := String.length (scope_name (aq_actor q) (aq_flow q)) in
  (Ingestion.validate (ingestion_context q) = Ok tt <-> (width <= 128)%nat) /\
  (flow_column (ic_flow (ingestion_context q)) = true <-> (width <= 64)%nat).
Proof.
  intros Hvalid Hnew Hd. destruct (adn_distribute_run policy audited q c) as (log & Hrun & _). rewrite Hrun in Hd.
  destruct (page policy q (ac_transport c)) as [r0 t'] eqn:Hp. cbn in Hd. injection Hd as -> _.
  destruct (adn_page_inv policy q _ _ _ Hp) as (raw & _ & Hpost & Hc & Hi). apply adn_interpret_inv in Hi.
  destruct Hi as (Hactor & Hflow & Ho & Hu & Hcov & Hcd & _ & _ & _ & Hcur & _ & Hk & Hcode & _).
  destruct (post_init_inv _ _ Hpost) as (H1 & H2 & H3 & H4 & H5).
  cbn [fiscal_request rq_source rq_flow rq_correlation_id rq_actor rq_cursor] in H1, H2, H3, H4, H5. split.
  - pose proof (response_rebuilt raw (if succeeded (ar_outcome r) then "" else ar_safe_reason r)
      [("actor", VStr (ar_actor r)); ("flow", VStr (AdnFlow.value (ar_flow r))); ("consumed", VInt (ar_consumed r));
       ("page_limit", VInt (ar_page_limit r))]
      (Hvalid _ _ _ Hc) ltac:(destruct (succeeded _); auto) eq_refl) as Hresp.
    assert (option_map ap_value (ar_continuation r) = fr_next_nsu raw) as Hnext.
    { rewrite Hk. by destruct (fr_next_nsu raw). }
    cbn zeta in Hresp. unfold as_fiscal_response. rewrite Ho, Hcur in Hresp. rewrite Hnext, Ho, Hu, Hcov, Hcd, Hresp.
    eexists. split; [reflexivity|]. by split_and!.
  - destruct (adn_new_request_inv _ _ _ _ _ _ _ _ _ _ _ Hnew) as [Hid Href].
    cbn zeta. unfold flow_column, ingestion_context. cbn [ic_flow]. rewrite (scope_name_bounds _ _ 64 H5), Nat.leb_le.
    split; [|done]. unfold Ingestion.validate. cbn [ic_company_id ic_family ic_flow ic_source ic_execution_ref ic_correlation_id
      ic_request_cursor ic_request_nsu ic_page_key ic_document_flow]. rewrite Hid.
    replace (str_in "adn" _FAMILY) with true by reflexivity. cbn [forallb negb is_some].
    rewrite H1, H3, Href. unfold _REFERENCE at 1. rewrite (scope_name_bounds _ _ 128 H5).
    rewrite H4, <- Nat.leb_le. by destruct (Nat.leb _ 128).
Qed.
