(* ===== verification/DistributionRuns.v ===== *)
(** * Concrete runs of the two distribution adapters

    A paginated scenario over the simulators, with an audit callback; each theorem
    of [NFeDistributionFacts] and [AdnDistributionFacts] is applied along the run. *)

From Stdlib Require Import ZArith Ascii String Lia.
From stdpp Require Import base decidable list gmap strings.
From S2P Require Import Prelude PyStr PyVal Models Memory Tables AuditTrail Artifacts ArtifactFacts Simulation Ingestion IngestionFacts IngestionGuarantees NFeDistribution NFeDistributionFacts AdnDistribution AdnDistributionFacts.

Local Open Scope string_scope.

(** The value of a constructor that does not raise here. *)
Definition got {A} (d : A) (r : result exn A) : A := match r with Ok a => a | Err _ => d end.

Definition no_scenario : SyntheticScenario := MkSyntheticScenario ScenarioName.TIMEOUT FiscalFamily.NFE 0 [].

Definition nfe_pages : SyntheticScenario :=
  Eval vm_compute in got no_scenario (build_scenario (inl ScenarioName.PAGINATED_SUCCESS) FiscalFamily.NFE 7).
Definition adn_pages : SyntheticScenario :=
  Eval vm_compute in got no_scenario (build_scenario (inl ScenarioName.PAGINATED_SUCCESS) FiscalFamily.ADN 7).

(** A transport answers what its scenario holds, and those responses are valid. *)
Lemma scripted_responses (t : Simulator) :
  Forall (fun step => response_post_init (ss_response step) = Ok (ss_response step)) (sc_steps (sim_scenario t)) ->
  forall fq raw t', collect fq t = (Ok raw, t') -> response_post_init raw = Ok raw.
Proof.
  intros Hs fq raw t' Hc. cbn in Hc. unfold simulator_collect in Hc. unfold bind, gets, require, of_option, modify, exchange in Hc.
  destruct (bool_decide _); [|done]. cbn in Hc. destruct (sc_steps (sim_scenario t) !! sim_step_index t) as [step|] eqn:Hstep; [|done].
  unfold ret at 1 in Hc. destruct (bool_decide (rq_cursor _ = _)); [|done]. cbn in Hc. injection Hc as <- _. by apply (Forall_lookup_1 _ _ _ _ Hs Hstep).
Qed.

(** ** NF-e *)

Definition nfe_request (flow correlation : string) (cursor : option string) : result exn NFeDistributionRequest :=
  check* f := NFeDistribution._flow (VStr flow) in
  NFeDistribution.new_request (RefUuid 1) (VStr flow) (VStr "synthetic") (VStr "actor:one") (VStr "policy:one") (VStr "handle:one")
    (VStr correlation) (option_map (fun v => MkNFePosition f v FiscalFamily.NFE) cursor) (VInt 50) (VStr "execution:a").

Definition no_request : NFeDistributionRequest := MkNFeDistributionRequest 0 NFeFlow.RECEIVED "" "" "" "" "" None 0 "".
Definition received_first : NFeDistributionRequest := Eval vm_compute in got no_request (nfe_request "received" "corr:1" None).
Definition received_next : NFeDistributionRequest := Eval vm_compute in got no_request (nfe_request "received" "corr:2" (Some "cursor-1")).
Definition issued_first : NFeDistributionRequest := Eval vm_compute in got no_request (nfe_request "issued" "corr:3" None).

Definition nfe_transport : Simulator := MkSimulator FiscalFamily.NFE nfe_pages [] 0.
Definition nfe_channel : NFeDistribution.Channel Simulator := NFeDistribution.MkChannel nfe_transport NFeDistribution.new_metrics [].

Definition no_page_result : NFeDistributionResult :=
  MkNFeDistributionResult NFeFlow.RECEIVED FiscalOutcome.EMPTY [] None Coverage.NONE 0 None "" 0.
Definition first_page : NFeDistributionResult :=
  Eval vm_compute in got no_page_result (NFeDistribution.distribute NFeDistribution.default_policy true received_first nfe_channel).1.
Definition after_first : NFeDistribution.Channel Simulator :=
  Eval vm_compute in (NFeDistribution.distribute NFeDistribution.default_policy true received_first nfe_channel).2.

Lemma first_page_run :
  NFeDistribution.distribute NFeDistribution.default_policy true received_first nfe_channel = (Ok first_page, after_first).
Proof. vm_compute. reflexivity. Qed.

Lemma nfe_page_contract_witness :
  (nr_consumed first_page, option_map np_value (nr_continuation first_page)) = (1%Z, Some "cursor-1") /\
  exists raw, collect (NFeDistribution.fiscal_request received_first) nfe_transport = (Ok raw, NFeDistribution.nc_transport after_first) /\
    NFeDistributionFacts.page_of_response received_first raw first_page.
Proof.
  split; [vm_compute; reflexivity|].
  destruct (nfe_page_contract NFeDistribution.default_policy true received_first nfe_channel (Ok first_page) after_first first_page_run)
    as [_ (raw & H1 & H2 & _)]. exists raw. split; [exact H1|exact H2].
Defined.

Definition nfe_simulator : NFeDistributionSimulator :=
  MkNFeDistributionSimulator nfe_transport nfe_transport NFeDistribution.new_metrics [] ∅.

(** Two flows interleaved; each is served as if it were alone. *)
Lemma nfe_flows_independent_witness :
  map is_ok (answers_of nq_flow (NFeDistribution.simulator_distribute NFeDistribution.default_policy true) NFeFlow.RECEIVED
    [received_first; issued_first; received_next] nfe_simulator) = [true; true] /\
  answers_of nq_flow (NFeDistribution.simulator_distribute NFeDistribution.default_policy true) NFeFlow.RECEIVED
    [received_first; issued_first; received_next] nfe_simulator =
  (answers (flow_page NFeDistribution.default_policy)
     (filter (fun q => nq_flow q = NFeFlow.RECEIVED) [received_first; issued_first; received_next]) (new_flow_history nfe_pages)).1.
Proof.
  split; [vm_compute; reflexivity|].
  apply (nfe_flows_independent NFeDistribution.default_policy true nfe_pages nfe_simulator NFeFlow.RECEIVED
    [received_first; issued_first; received_next]). vm_compute. reflexivity.
Defined.

Definition nfe_answered : NFeDistributionSimulator :=
  Eval vm_compute in (NFeDistribution.simulator_distribute NFeDistribution.default_policy true received_first nfe_simulator).2.

Lemma nfe_replay_is_final_witness :
  let w := (answers (NFeDistribution.simulator_distribute NFeDistribution.default_policy true) [received_next; issued_first] nfe_answered).2 in
  length (sim_calls (ns_received w)) = 2%nat /\
  NFeDistribution.simulator_distribute NFeDistribution.default_policy false received_first w = (Ok first_page, w).
Proof.
  cbv zeta. split; [vm_compute; reflexivity|].
  apply (nfe_replay_is_final NFeDistribution.default_policy true received_first nfe_simulator first_page nfe_answered
    [received_next; issued_first] received_first NFeDistribution.default_policy false); vm_compute; reflexivity.
Defined.

Lemma nfe_scripted : Forall (fun step => response_post_init (ss_response step) = Ok (ss_response step)) (sc_steps nfe_pages).
Proof. unfold nfe_pages. cbn [sc_steps]. repeat (apply Forall_cons_2; [vm_compute; reflexivity|]). apply Forall_nil_2. Qed.

Lemma nfe_page_reaches_ingestion_witness :
  exists response, NFeDistribution.as_fiscal_response first_page = Ok response /\ fr_next_cursor response = Some "cursor-1" /\
    Ingestion.validate (NFeDistribution.ingestion_context received_first) = Ok tt.
Proof.
  destruct (nfe_page_reaches_ingestion NFeDistribution.default_policy true (RefUuid 1) (VStr "received") (VStr "synthetic")
    (VStr "actor:one") (VStr "policy:one") (VStr "handle:one") (VStr "corr:1") None (VInt 50) (VStr "execution:a")
    received_first nfe_channel first_page after_first) as (response & H1 & _ & _ & _ & H2 & H3 & _).
  - apply scripted_responses. exact nfe_scripted.
  - vm_compute. reflexivity.
  - exact first_page_run.
  - exists response. split; [exact H1|]. split; [rewrite H2; vm_compute; reflexivity|exact H3].
Defined.

Definition d_acme : Company := MkCompany 1 "12345678000195" "ACME" CompanyStatus.ACTIVE None None None 1 0 0.

Abbreviation nfe_world := (World (MemoryBucket.t * NFeDistribution.Channel Simulator)).

(** The in-memory bucket of [MemoryBucket], with the adapter next to it. *)
Definition nfe_start : nfe_world :=
  let w := MemoryBucket.world (empty_db <| companies := {[ 1%N := d_acme ]} |>) (seconds 5) 100 in
  MkWorld (db w) (clock w) (next_uuid w) (online w) (columns w) (bucket w, nfe_channel).

Definition nfe_run : result exn IngestionResult * nfe_world :=
  NFeDistribution.ingest NFeDistribution.default_policy true DEFAULT_MAX_SIZE_BYTES None None received_first nfe_start.

Definition nfe_stored : nfe_world := nfe_run.2.

Definition nfe_result : IngestionResult :=
  MkIngestionResult 101 IngestionPageState.COMPLETE [UnitOutcome.PERSISTED] true (Some "cursor-1") None ""
    IngestionOutcome.SUCCESS IngestionRecovery.NONE.

Lemma nfe_start_inv : ingestion_inv nfe_start.
Proof.
  unfold ingestion_inv, ingestion_ok, keyed. cbn -[lookup].
  split_and!; intros *; rewrite ?lookup_empty; try done; by intros ? [=].
Qed.

Lemma nfe_ingest_stores_the_page_witness :
  exists company p, uuid_of (RefUuid 1) = Some company /\ pages (db nfe_stored) !! 101%N = Some p /\
    pg_scope p = (company, "nfe", "received", "initial") /\ describes p nfe_result /\
    exists raw, records raw p /\ fr_units raw <> [] /\ units_stored raw (pg_id p) (db nfe_stored).
Proof.
  destruct (nfe_ingest_stores_the_page NFeDistribution.default_policy true DEFAULT_MAX_SIZE_BYTES None None received_first
    nfe_start nfe_result nfe_stored nfe_start_inv) as (raw & r & t & w1 & response & company & p & Hraw & _ & _ & _ & _ & _ & _ & Hc & Hp & Hs & Hd & Hst).
  - unfold nfe_stored. apply ran. vm_compute. reflexivity.
  - exists company, p. split; [exact Hc|]. split; [exact Hp|]. split; [exact Hs|]. split; [exact Hd|]. exists raw.
    revert Hraw. vm_compute (collect _ _). intros [= <- _]. destruct Hst as [[Hold _]|[Hrec [Hf|[Hun|[Href _]]]]].
    + vm_compute in Hold. discriminate Hold.
    + split; [exact Hrec|]. vm_compute in Hf. discriminate Hf.
    + split; [exact Hrec|]. split; [discriminate|exact Hun].
    + destruct Hd as (_ & Hstate & _). rewrite Href in Hstate. discriminate Hstate.
Defined.

(** ** ADN *)

Definition adn_request (actor flow correlation : string) (nsu : option string) : result exn AdnDistributionRequest :=
  check* f := AdnDistribution._flow (VStr flow) in
  AdnDistribution.new_request (RefUuid 1) (VStr actor) (VStr flow) (VStr "synthetic") (VStr "policy:one") (VStr "handle:one")
    (VStr correlation) (option_map (fun v => MkAdnPosition actor f v FiscalFamily.ADN) nsu) (VInt 50) (VStr "execution:a").

Definition no_adn_request : AdnDistributionRequest := MkAdnDistributionRequest 0 "" AdnFlow.TAKEN "" "" "" "" None 0 "".
Definition taken_first : AdnDistributionRequest := Eval vm_compute in got no_adn_request (adn_request "actor:one" "taken" "corr:1" None).
Definition taken_next : AdnDistributionRequest :=
  Eval vm_compute in got no_adn_request (adn_request "actor:one" "taken" "corr:2" (Some "nsu-1")).
Definition other_first : AdnDistributionRequest := Eval vm_compute in got no_adn_request (adn_request "actor:two" "taken" "corr:3" None).

(** An actor of 70 characters. *)
Definition long_actor : string := "actor:aaaaaaaaaaaaaaaaaaaaaaaaaaaaaaaaaaaaaaaaaaaaaaaaaaaaaaaaaaaaaaaaaaa".
Definition long_first : AdnDistributionRequest := Eval vm_compute in got no_adn_request (adn_request long_actor "taken" "corr:4" None).

Definition adn_transport : Simulator := MkSimulator FiscalFamily.ADN adn_pages [] 0.
Definition adn_channel : AdnDistribution.Channel Simulator := AdnDistribution.MkChannel adn_transport AdnDistribution.new_metrics [].

Definition no_adn_page : AdnDistributionResult :=
  MkAdnDistributionResult "" AdnFlow.TAKEN FiscalOutcome.EMPTY [] None Coverage.NONE 0 None "" 0.
Definition adn_page : AdnDistributionResult :=
  Eval vm_compute in got no_adn_page (AdnDistribution.distribute AdnDistribution.default_policy true taken_first adn_channel).1.
Definition adn_after : AdnDistribution.Channel Simulator :=
  Eval vm_compute in (AdnDistribution.distribute AdnDistribution.default_policy true taken_first adn_channel).2.

Lemma adn_page_contract_witness :
  (ar_consumed adn_page, option_map ap_value (ar_continuation adn_page)) = (1%Z, Some "nsu-1") /\
  exists raw, collect (AdnDistribution.fiscal_request taken_first) adn_transport = (Ok raw, AdnDistribution.ac_transport adn_after) /\
    AdnDistributionFacts.page_of_response taken_first raw adn_page.
Proof.
  split; [vm_compute; reflexivity|].
  destruct (adn_page_contract AdnDistribution.default_policy true taken_first adn_channel (Ok adn_page) adn_after)
    as [_ (raw & H1 & H2 & _)]; [vm_compute; reflexivity|]. exists raw. split; [exact H1|exact H2].
Defined.

Definition adn_simulator : AdnDistributionSimulator := MkAdnDistributionSimulator adn_pages ∅ AdnDistribution.new_metrics [] ∅.

(** Two actors interleaved; each is served as if it were alone. *)
Lemma adn_scopes_independent_witness :
  map is_ok (answers_of adapter_key (AdnDistribution.simulator_distribute AdnDistribution.default_policy true)
    ("actor:one", AdnFlow.TAKEN) [taken_first; other_first; taken_next] adn_simulator) = [true; true] /\
  answers_of adapter_key (AdnDistribution.simulator_distribute AdnDistribution.default_policy true)
    ("actor:one", AdnFlow.TAKEN) [taken_first; other_first; taken_next] adn_simulator =
  (answers (scope_page AdnDistribution.default_policy)
     (filter (fun q => adapter_key q = ("actor:one", AdnFlow.TAKEN)) [taken_first; other_first; taken_next])
     (new_scope_history adn_pages)).1.
Proof.
  split; [vm_compute; reflexivity|].
  apply (adn_scopes_independent AdnDistribution.default_policy true adn_pages adn_simulator ("actor:one", AdnFlow.TAKEN)
    [taken_first; other_first; taken_next]). vm_compute. reflexivity.
Defined.

Definition long_page : AdnDistributionResult :=
  Eval vm_compute in got no_adn_page (AdnDistribution.distribute AdnDistribution.default_policy true long_first adn_channel).1.
Definition long_after : AdnDistribution.Channel Simulator :=
  Eval vm_compute in (AdnDistribution.distribute AdnDistribution.default_policy true long_first adn_channel).2.

(** The adapter accepts the long actor and ingestion's check accepts the context, but no row can hold its flow. *)
Lemma adn_scripted : Forall (fun step => response_post_init (ss_response step) = Ok (ss_response step)) (sc_steps adn_pages).
Proof. unfold adn_pages. cbn [sc_steps]. repeat (apply Forall_cons_2; [vm_compute; reflexivity|]). apply Forall_nil_2. Qed.

Lemma adn_page_reaches_ingestion_witness :
  Ingestion.validate (AdnDistribution.ingestion_context long_first) = Ok tt /\
  flow_column (ic_flow (AdnDistribution.ingestion_context long_first)) = false.
Proof.
  destruct (adn_page_reaches_ingestion AdnDistribution.default_policy true (RefUuid 1) (VStr long_actor) (VStr "taken")
    (VStr "synthetic") (VStr "policy:one") (VStr "handle:one") (VStr "corr:4") None (VInt 50) (VStr "execution:a")
    long_first adn_channel long_page long_after) as (_ & H1 & H2).
  - apply scripted_responses. exact adn_scripted.
  - vm_compute. reflexivity.
  - vm_compute. reflexivity.
  - split.
    + apply (proj2 H1). vm_compute. lia.
    + apply not_true_is_false. intros Hf. apply (proj1 H2) in Hf. vm_compute in Hf. lia.
Defined.
