(* ===== verification/FollowUp.v ===== *)
(** * NF-e follow-up values and simulators (adapters/nfe.py, lines 434 to 1152)

    What follows a distributed NF-e: the Ciencia (science of operation), the
    complete XML it permits, the document's events, and manifestations.  Here are
    the requests and results with their construction-time validation, the
    scenarios, the deterministic simulators as state machines that answer each
    reference once, and the adapters in front of them.  The audit callbacks are
    ones that record what they are given; messages are written without accents. *)

From Stdlib Require Import ZArith Ascii String Lia.
From stdpp Require Import base decidable list gmap strings.
From S2P Require Import Prelude PyStr Sha256 PyVal Models Memory JobEngine Simulation NFeDistribution.

Local Open Scope string_scope.

Definition followup_error {A} (msg : string) : result exn A := Err (NFeFollowUpError msg).

Module NFeFollowUpOutcome.
Variant t : Set := PERMITTED | DENIED | UNAVAILABLE | RETRY | COOLDOWN | BLOCKED | MALFORMED | UNKNOWN.
Definition value (x : t) : string :=
  match x with
  | PERMITTED => "permitted" | DENIED => "denied" | UNAVAILABLE => "unavailable" | RETRY => "retry" | COOLDOWN => "cooldown"
  | BLOCKED => "blocked" | MALFORMED => "malformed" | UNKNOWN => "unknown"
  end.
End NFeFollowUpOutcome.

Module NFeFollowUpScenarioName.
Variant t : Set :=
| PERMITTED | DENIED | UNAVAILABLE | TIMEOUT | COOLDOWN | BLOCKED | MALFORMED | UNKNOWN | EVENT_WITH_PARENT
| EVENT_WITHOUT_PARENT | EVENT_CONFLICT.
#[global] Instance eq_dec : EqDecision t.
Proof. solve_decision. Defined.
Definition values : list t :=
  [PERMITTED; DENIED; UNAVAILABLE; TIMEOUT; COOLDOWN; BLOCKED; MALFORMED; UNKNOWN; EVENT_WITH_PARENT; EVENT_WITHOUT_PARENT;
   EVENT_CONFLICT].
Definition value (x : t) : string :=
  match x with
  | PERMITTED => "permitted" | DENIED => "denied" | UNAVAILABLE => "unavailable" | TIMEOUT => "timeout"
  | COOLDOWN => "cooldown" | BLOCKED => "blocked" | MALFORMED => "malformed" | UNKNOWN => "unknown"
  | EVENT_WITH_PARENT => "event_with_parent" | EVENT_WITHOUT_PARENT => "event_without_parent"
  | EVENT_CONFLICT => "event_conflict"
  end.
Definition of_value (s : string) : option t := find_value value values s.
End NFeFollowUpScenarioName.

Module NFeManifestationType.
Variant t : Set := SCIENCE_OF_OPERATION.
#[global] Instance eq_dec : EqDecision t.
Proof. solve_decision. Defined.
Definition value (x : t) : string := match x with SCIENCE_OF_OPERATION => "science_of_operation" end.
Definition of_value (s : string) : option t := find_value value [SCIENCE_OF_OPERATION] s.
Lemma manifestation_type_roundtrip x : of_value (value x) = Some x.
Proof. by destruct x. Qed.
#[global] Instance countable : Countable t := inj_countable value of_value manifestation_type_roundtrip.
End NFeManifestationType.

Module NFeManifestationScenarioName.
Variant t : Set := ACCEPTED | DENIED | UNAVAILABLE | TIMEOUT | COOLDOWN | BLOCKED | MALFORMED | UNKNOWN | CONFLICT.
Definition values : list t := [ACCEPTED; DENIED; UNAVAILABLE; TIMEOUT; COOLDOWN; BLOCKED; MALFORMED; UNKNOWN; CONFLICT].
Definition value (x : t) : string :=
  match x with
  | ACCEPTED => "accepted" | DENIED => "denied" | UNAVAILABLE => "unavailable" | TIMEOUT => "timeout"
  | COOLDOWN => "cooldown" | BLOCKED => "blocked" | MALFORMED => "malformed" | UNKNOWN => "unknown" | CONFLICT => "conflict"
  end.
Definition of_value (s : string) : option t := find_value value values s.
End NFeManifestationScenarioName.

Definition _MAX_FOLLOWUP_PAYLOAD : Z := 10 * 1024 * 1024.
Definition _XML_CONTENT_TYPES : list string := ["application/xml"; "text/xml"].

(** ** References *)

(** [str(value)], as far as it may be a UUID: a UUID object is a [VOther]. *)
Definition text_of (value : pyval) : string :=
  match value with VStr s | VOther s => s | VInt z => str_of_Z z | _ => "" end.

Definition _document_id (value : pyval) : result exn N :=
  match parse_uuid (text_of value) with Some u => Ok u | None => followup_error "NF-e document reference is invalid" end.

(** [_FOLLOWUP_REFERENCE] is the adapter port's [_SAFE_REFERENCE]. *)
Definition _followup_reference (name : string) (value : pyval) : result exn string :=
  match value with
  | VStr s => if _SAFE_REFERENCE s && negb (_FORBIDDEN_REFERENCE s) then Ok s
              else followup_error ("NF-e " ++ name ++ " is invalid")
  | _ => followup_error ("NF-e " ++ name ++ " is invalid")
  end.

(** ** Requests and results *)

Record NFeScienceRequest : Type := MkNFeScienceRequest {
  sq_company_id : N; sq_document_id : N; sq_flow : NFeFlow.t; sq_source : string; sq_actor : string;
  sq_policy_reference : string; sq_certificate_handle : string; sq_correlation_id : string; sq_intent : string }.

Definition new_science_request (company_id document_id flow source actor policy_reference certificate_handle correlation_id
    intent : pyval) : result exn NFeScienceRequest :=
  check* company := _document_id company_id in
  check* document := _document_id document_id in
  check* flow := _flow flow in
  check* source := _followup_reference "source" source in
  check* actor := _followup_reference "actor" actor in
  check* policy := _followup_reference "policy reference" policy_reference in
  check* certificate := _followup_reference "certificate handle" certificate_handle in
  check* correlation := _followup_reference "correlation" correlation_id in
  check* intent := _followup_reference "intent" intent in
  Ok (MkNFeScienceRequest company document flow source actor policy certificate correlation intent).

Record NFeScienceResult : Type := MkNFeScienceResult {
  sr_document_id : N; sr_flow : NFeFlow.t; sr_outcome : FiscalOutcome.t; sr_retrieval_permitted : bool;
  sr_correlation_id : string; sr_safe_reason : string; sr_cooldown_until : option datetime }.

Definition fiscal_success (o : FiscalOutcome.t) : bool := match o with FiscalOutcome.SUCCESS => true | _ => false end.

Definition new_science_result (document_id : N) (flow : NFeFlow.t) (outcome : FiscalOutcome.t) (retrieval_permitted : bool)
    (correlation_id safe_reason : string) (cooldown_until : option datetime) : result exn NFeScienceResult :=
  check* correlation := _followup_reference "correlation" (VStr correlation_id) in
  if retrieval_permitted && negb (fiscal_success outcome) then followup_error "NF-e Ciencia permission is inconsistent" else
  Ok (MkNFeScienceResult document_id flow outcome retrieval_permitted correlation
        (_code (str_or safe_reason (FiscalOutcome.value outcome))) cooldown_until).

Definition science_result (r : NFeScienceResult) : pydict :=
  [("document_id", VStr (uuid_str (sr_document_id r))); ("flow", VStr (NFeFlow.value (sr_flow r)));
   ("outcome", VStr (FiscalOutcome.value (sr_outcome r))); ("retrieval_permitted", VBool (sr_retrieval_permitted r))].

Definition science_job_outcome (r : NFeScienceResult) : HandlerOutcome :=
  match sr_outcome r with
  | FiscalOutcome.SUCCESS => outcome_success (science_result r)
  | FiscalOutcome.COOLDOWN => outcome_cooldown (sr_cooldown_until r) (sr_safe_reason r) (science_result r)
  | FiscalOutcome.UNAVAILABLE | FiscalOutcome.TIMEOUT => outcome_temporary (sr_safe_reason r) (science_result r)
  | FiscalOutcome.BLOCKED => outcome_permanent (sr_safe_reason r) (science_result r)
  | _ => outcome_partial (sr_safe_reason r) (science_result r)
  end.

Record NFeCompleteXmlRequest : Type := MkNFeCompleteXmlRequest {
  xq_company_id : N; xq_document_id : N; xq_flow : NFeFlow.t; xq_source : string; xq_actor : string;
  xq_policy_reference : string; xq_certificate_handle : string; xq_correlation_id : string; xq_science_correlation_id : string }.

Definition new_xml_request (company_id document_id flow source actor policy_reference certificate_handle correlation_id
    science_correlation_id : pyval) : result exn NFeCompleteXmlRequest :=
  check* company := _document_id company_id in
  check* document := _document_id document_id in
  check* flow := _flow flow in
  check* source := _followup_reference "source" source in
  check* actor := _followup_reference "actor" actor in
  check* policy := _followup_reference "policy reference" policy_reference in
  check* certificate := _followup_reference "certificate handle" certificate_handle in
  check* correlation := _followup_reference "correlation" correlation_id in
  check* science := _followup_reference "science correlation" science_correlation_id in
  Ok (MkNFeCompleteXmlRequest company document flow source actor policy certificate correlation science).

Record NFeCompleteXmlResponse : Type := MkNFeCompleteXmlResponse {
  xr_original_payload : string; xr_xml_payload : string; xr_content_type : string; xr_original_content_type : string }.

Definition followup_size (payload : string) : bool := Z.leb 1 (slen payload) && Z.leb (slen payload) _MAX_FOLLOWUP_PAYLOAD.

Definition new_xml_response (original_payload xml_payload content_type original_content_type : string) :
    result exn NFeCompleteXmlResponse :=
  if negb (followup_size original_payload) then followup_error "NF-e original response exceeds its limit"
  else if negb (followup_size xml_payload) then followup_error "NF-e XML exceeds its limit"
  else if negb (existsb (String.eqb content_type) _XML_CONTENT_TYPES) then followup_error "NF-e XML content type is invalid"
  else if negb (String.eqb original_content_type "application/octet-stream")
  then followup_error "NF-e original content type is invalid"
  else Ok (MkNFeCompleteXmlResponse original_payload xml_payload content_type original_content_type).

Record NFeEventRequest : Type := MkNFeEventRequest {
  eq_company_id : N; eq_parent_document_id : N; eq_flow : NFeFlow.t; eq_source : string; eq_actor : string;
  eq_policy_reference : string; eq_certificate_handle : string; eq_correlation_id : string }.

Definition new_event_request (company_id parent_document_id flow source actor policy_reference certificate_handle
    correlation_id : pyval) : result exn NFeEventRequest :=
  check* company := _document_id company_id in
  check* parent := _document_id parent_document_id in
  check* flow := _flow flow in
  check* source := _followup_reference "source" source in
  check* actor := _followup_reference "actor" actor in
  check* policy := _followup_reference "policy reference" policy_reference in
  check* certificate := _followup_reference "certificate handle" certificate_handle in
  check* correlation := _followup_reference "correlation" correlation_id in
  Ok (MkNFeEventRequest company parent flow source actor policy certificate correlation).

(** ** Manifestations *)

Record NFeManifestationRequest : Type := MkNFeManifestationRequest {
  mq_company_id : N; mq_document_id : N; mq_flow : NFeFlow.t; mq_manifestation_type : NFeManifestationType.t;
  mq_source : string; mq_actor : string; mq_policy_reference : string; mq_certificate_handle : string;
  mq_correlation_id : string; mq_idempotency_reference : string }.

Definition _manifestation_type (value : pyval) : result exn NFeManifestationType.t :=
  match value with
  | VStr s => match NFeManifestationType.of_value s with
              | Some t => Ok t
              | None => followup_error "NF-e manifestation type is unsupported"
              end
  | _ => followup_error "NF-e manifestation type is unsupported"
  end.

Definition new_manifestation_request (company_id document_id flow manifestation_type source actor policy_reference
    certificate_handle correlation_id idempotency_reference : pyval) : result exn NFeManifestationRequest :=
  check* company := _document_id company_id in
  check* document := _document_id document_id in
  check* flow := _flow flow in
  check* manifestation_type := _manifestation_type manifestation_type in
  check* source := _followup_reference "source" source in
  check* actor := _followup_reference "actor" actor in
  check* policy := _followup_reference "policy reference" policy_reference in
  check* certificate := _followup_reference "certificate handle" certificate_handle in
  check* correlation := _followup_reference "correlation" correlation_id in
  check* idempotency := _followup_reference "idempotency reference" idempotency_reference in
  if negb (String.eqb source "synthetic") then followup_error "NF-e manifestation source is not simulator-only" else
  Ok (MkNFeManifestationRequest company document flow manifestation_type source actor policy certificate correlation idempotency).

Record NFeManifestationResult : Type := MkNFeManifestationResult {
  mr_company_id : N; mr_document_id : N; mr_flow : NFeFlow.t; mr_manifestation_type : NFeManifestationType.t;
  mr_outcome : FiscalOutcome.t; mr_result_code : string; mr_correlation_id : string; mr_submitted_at : datetime;
  mr_cooldown_until : option datetime }.

Definition new_manifestation_result (company document : N) (flow : NFeFlow.t) (manifestation_type : NFeManifestationType.t)
    (outcome : FiscalOutcome.t) (result_code correlation_id : string) (submitted_at : datetime)
    (cooldown_until : option datetime) : result exn NFeManifestationResult :=
  check* result_code := _followup_reference "result code" (VStr result_code) in
  check* correlation := _followup_reference "correlation" (VStr correlation_id) in
  if is_naive submitted_at then followup_error "NF-e manifestation timestamp is invalid"
  else if is_cooldown outcome && negb (is_some cooldown_until) then followup_error "NF-e manifestation cooldown is missing"
  else Ok (MkNFeManifestationResult company document flow manifestation_type outcome result_code correlation submitted_at cooldown_until).

(** [as_job_outcome], with the manifestation's row when there is one. *)
Definition manifestation_result (manifestation_id : option N) (r : NFeManifestationResult) : pydict :=
  [("document_id", VStr (uuid_str (mr_document_id r))); ("flow", VStr (NFeFlow.value (mr_flow r)));
   ("manifestation_type", VStr (NFeManifestationType.value (mr_manifestation_type r)));
   ("outcome", VStr (FiscalOutcome.value (mr_outcome r))); ("result_code", VStr (mr_result_code r));
   ("correlation_id", VStr (mr_correlation_id r))] ++
  match manifestation_id with Some i => [("manifestation_id", VStr (uuid_str i))] | None => [] end.

Definition manifestation_job_outcome (manifestation_id : option N) (r : NFeManifestationResult) : HandlerOutcome :=
  let result := manifestation_result manifestation_id r in
  match mr_outcome r with
  | FiscalOutcome.SUCCESS => outcome_success result
  | FiscalOutcome.COOLDOWN => outcome_cooldown (mr_cooldown_until r) (mr_result_code r) result
  | FiscalOutcome.UNAVAILABLE | FiscalOutcome.TIMEOUT => outcome_temporary (mr_result_code r) result
  | FiscalOutcome.BLOCKED => outcome_permanent (mr_result_code r) result
  | _ => outcome_partial (mr_result_code r) result
  end.

Record NFeManifestationScenario : Type := MkNFeManifestationScenario {
  ms_name : NFeManifestationScenarioName.t; ms_outcome : FiscalOutcome.t; ms_result_code : string; ms_cooldown_until : option datetime }.

Definition manifestation_outcome (name : NFeManifestationScenarioName.t) : FiscalOutcome.t * string :=
  match name with
  | NFeManifestationScenarioName.ACCEPTED => (FiscalOutcome.SUCCESS, "accepted")
  | NFeManifestationScenarioName.DENIED => (FiscalOutcome.BLOCKED, "denied")
  | NFeManifestationScenarioName.UNAVAILABLE => (FiscalOutcome.UNAVAILABLE, "unavailable")
  | NFeManifestationScenarioName.TIMEOUT => (FiscalOutcome.TIMEOUT, "timeout")
  | NFeManifestationScenarioName.COOLDOWN => (FiscalOutcome.COOLDOWN, "cooldown")
  | NFeManifestationScenarioName.BLOCKED => (FiscalOutcome.BLOCKED, "blocked")
  | NFeManifestationScenarioName.MALFORMED => (FiscalOutcome.MALFORMED, "malformed")
  | NFeManifestationScenarioName.UNKNOWN => (FiscalOutcome.UNKNOWN, "unknown")
  | NFeManifestationScenarioName.CONFLICT => (FiscalOutcome.CONFLICT, "conflict")
  end.

Definition build_nfe_manifestation_scenario (name : string) : result exn NFeManifestationScenario :=
  match NFeManifestationScenarioName.of_value name with
  | None => followup_error "unknown NF-e manifestation scenario"
  | Some selected =>
      let '(outcome, result_code) := manifestation_outcome selected in
      Ok (MkNFeManifestationScenario selected outcome result_code (if is_cooldown outcome then Some new_year_2030 else None))
  end.

Record NFeManifestationMetrics : Type := MkNFeManifestationMetrics { mm_manifestations : Z; mm_outcomes : Counter; mm_by_flow : Counter }.

Definition new_manifestation_metrics : NFeManifestationMetrics := MkNFeManifestationMetrics 0 ∅ ∅.

Definition record_manifestation (r : NFeManifestationResult) (m : NFeManifestationMetrics) : NFeManifestationMetrics :=
  MkNFeManifestationMetrics (mm_manifestations m + 1) (bump (FiscalOutcome.value (mr_outcome r)) (mm_outcomes m))
    (bump (NFeFlow.value (mr_flow r)) (mm_by_flow m)).

Record NFeManifestationSimulator : Type := MkNFeManifestationSimulator {
  mz_scenario : NFeManifestationScenario;
  mz_results : gmap (N * N * NFeFlow.t * NFeManifestationType.t * string) NFeManifestationResult; mz_calls : list string }.

Definition new_manifestation_simulator (scenario : NFeManifestationScenario) : NFeManifestationSimulator :=
  MkNFeManifestationSimulator scenario ∅ [].

Definition manifestation_key (q : NFeManifestationRequest) : N * N * NFeFlow.t * NFeManifestationType.t * string :=
  (mq_company_id q, mq_document_id q, mq_flow q, mq_manifestation_type q, mq_idempotency_reference q).

(** [simulator.manifest(request)] at [now]: the side effect happens once per key. *)
Definition simulator_manifest (now : Z) (q : NFeManifestationRequest) : ST NFeManifestationSimulator exn NFeManifestationResult :=
  let* known := gets (fun s => mz_results s !! manifestation_key q) in
  match known with
  | Some r => ret r
  | None =>
      let* scenario := gets mz_scenario in
      let* r := lift_result (new_manifestation_result (mq_company_id q) (mq_document_id q) (mq_flow q) (mq_manifestation_type q)
                  (ms_outcome scenario) (ms_result_code scenario) (mq_correlation_id q) (Aware now) (ms_cooldown_until scenario)) in
      modify (fun s => MkNFeManifestationSimulator (mz_scenario s) (<[manifestation_key q := r]> (mz_results s))
                         (mz_calls s ++ ["manifestation"])%list) ;;;
      ret r
  end.

(** The adapter: the simulator, the metrics, what the callback recorded. *)
Record ManifestationChannel : Type := MkManifestationChannel {
  mc_transport : NFeManifestationSimulator; mc_metrics : NFeManifestationMetrics; mc_log : list pydict }.

Definition emit_manifestation (event : string) (q : NFeManifestationRequest) (r : option NFeManifestationResult) :
    ST ManifestationChannel exn unit :=
  let payload := [("event", VStr event); ("flow", VStr (NFeFlow.value (mq_flow q)));
                  ("outcome", VStr match r with Some r => FiscalOutcome.value (mr_outcome r) | None => "" end);
                  ("reason", VStr match r with Some r => mr_result_code r | None => "" end)] in
  modify (fun c => MkManifestationChannel (mc_transport c) (mc_metrics c) (mc_log c ++ [payload])%list).

Definition manifest (now : Z) (q : NFeManifestationRequest) : ST ManifestationChannel exn NFeManifestationResult :=
  emit_manifestation "manifestation_started" q None ;;;
  let* r := fun c => let '(r, s) := simulator_manifest now q (mc_transport c) in
                     (r, MkManifestationChannel s (mc_metrics c) (mc_log c)) in
  require (N.eqb (mr_company_id r) (mq_company_id q) && N.eqb (mr_document_id r) (mq_document_id q) &&
           bool_decide (mr_flow r = mq_flow q) && bool_decide (mr_manifestation_type r = mq_manifestation_type q))
    (NFeFollowUpError "NF-e manifestation identity is inconsistent") ;;;
  modify (fun c => MkManifestationChannel (mc_transport c) (record_manifestation r (mc_metrics c)) (mc_log c)) ;;;
  emit_manifestation "manifestation_completed" q (Some r) ;;;
  ret r.

(** ** The Ciencia, the complete XML and the events *)

Record NFeFollowUpScenario : Type := MkNFeFollowUpScenario {
  fs_name : NFeFollowUpScenarioName.t; fs_science_outcome : FiscalOutcome.t; fs_retrieval_permitted : bool;
  fs_complete_xml : option NFeCompleteXmlResponse; fs_event_response : FiscalResponse }.

Definition new_followup_scenario (name : NFeFollowUpScenarioName.t) (science_outcome : FiscalOutcome.t)
    (retrieval_permitted : bool) (complete_xml : option NFeCompleteXmlResponse) (event_response : FiscalResponse) :
    result exn NFeFollowUpScenario :=
  if negb (Bool.eqb retrieval_permitted (fiscal_success science_outcome))
  then followup_error "NF-e follow-up scenario permission is inconsistent"
  else if retrieval_permitted && negb (is_some complete_xml) then followup_error "permitted scenario must provide complete XML"
  else if is_some (fr_next_cursor event_response) || is_some (fr_next_nsu event_response)
  then followup_error "NF-e event response cannot advance distribution position"
  else Ok (MkNFeFollowUpScenario name science_outcome retrieval_permitted complete_xml event_response).

Record NFeFollowUpCall : Type := MkNFeFollowUpCall { fc_operation : string; fc_flow : NFeFlow.t; fc_correlation_id : string }.

(** [datetime(2026, 8, 10, 12, 0, tzinfo=UTC)] *)
Definition august_2026 : datetime := Aware (days (day_of_civil 2026 8 10) + hours 12).

Definition _followup_unit (seed : Z) (label kind : string) (parent : option string) : result exn FiscalUnit :=
  let identity := "synthetic:nfe:" ++ str_of_Z seed ++ ":" ++ label in
  unit_post_init (MkFiscalUnit identity (sha256 (synthetic_marker identity)) kind parent true (Some august_2026)).

Definition successful (name : NFeFollowUpScenarioName.t) : bool :=
  match name with
  | NFeFollowUpScenarioName.PERMITTED | NFeFollowUpScenarioName.EVENT_WITH_PARENT
  | NFeFollowUpScenarioName.EVENT_WITHOUT_PARENT | NFeFollowUpScenarioName.EVENT_CONFLICT => true
  | _ => false
  end.

Definition science_outcome_of (name : NFeFollowUpScenarioName.t) : FiscalOutcome.t :=
  match name with
  | NFeFollowUpScenarioName.DENIED | NFeFollowUpScenarioName.BLOCKED => FiscalOutcome.BLOCKED
  | NFeFollowUpScenarioName.UNAVAILABLE => FiscalOutcome.UNAVAILABLE
  | NFeFollowUpScenarioName.TIMEOUT => FiscalOutcome.TIMEOUT
  | NFeFollowUpScenarioName.COOLDOWN => FiscalOutcome.COOLDOWN
  | NFeFollowUpScenarioName.MALFORMED => FiscalOutcome.MALFORMED
  | NFeFollowUpScenarioName.UNKNOWN => FiscalOutcome.UNKNOWN
  | _ => FiscalOutcome.SUCCESS
  end.

Definition synthetic_xml : string := "<nfeProc><synthetic>nfe</synthetic></nfeProc>".

Definition scenario_xml (name : NFeFollowUpScenarioName.t) (seed : Z) : result exn (option NFeCompleteXmlResponse) :=
  if successful name then
    check* xml := new_xml_response ("synthetic-nfe-original:" ++ str_of_Z seed) synthetic_xml "application/xml"
                    "application/octet-stream" in
    Ok (Some xml)
  else Ok None.

Definition scenario_units (name : NFeFollowUpScenarioName.t) (seed : Z) : result exn (list FiscalUnit) :=
  let parent label := Some ("synthetic:nfe:" ++ str_of_Z seed ++ ":" ++ label) in
  match name with
  | NFeFollowUpScenarioName.EVENT_WITH_PARENT => check* u := _followup_unit seed "event" "event" (parent "first") in Ok [u]
  | NFeFollowUpScenarioName.EVENT_WITHOUT_PARENT => check* u := _followup_unit seed "event" "event" (parent "missing") in Ok [u]
  | NFeFollowUpScenarioName.EVENT_CONFLICT => check* u := _followup_unit seed "event-conflict" "event" (parent "first") in Ok [u]
  | _ => Ok []
  end.

Definition build_nfe_followup_scenario (name : string) (seed : Z) : result exn NFeFollowUpScenario :=
  match NFeFollowUpScenarioName.of_value name with
  | None => followup_error "unknown NF-e follow-up scenario"
  | Some selected =>
      if Z.ltb seed 0 then followup_error "NF-e follow-up seed is invalid" else
      check* xml := scenario_xml selected seed in
      check* units := scenario_units selected seed in
      check* events := response_post_init
                         (MkFiscalResponse (match units with [] => FiscalOutcome.EMPTY | _ => FiscalOutcome.SUCCESS end) units None None
                            Coverage.AVAILABLE None "" [("generated", VBool true)]) in
      new_followup_scenario selected (science_outcome_of selected) (successful selected) xml events
  end.

Record NFeFollowUpSimulator : Type := MkNFeFollowUpSimulator {
  fz_scenario : NFeFollowUpScenario; fz_science : gmap (N * NFeFlow.t * string) NFeScienceResult;
  fz_xml : gmap (N * NFeFlow.t * string) NFeCompleteXmlResponse; fz_events : gmap (NFeFlow.t * string) FiscalResponse;
  fz_calls : list NFeFollowUpCall }.
#[export] Instance eta_NFeFollowUpSimulator : Eta NFeFollowUpSimulator := fun r =>
  MkNFeFollowUpSimulator (fz_scenario r) (fz_science r) (fz_xml r) (fz_events r) (fz_calls r).

Definition new_followup_simulator (scenario : NFeFollowUpScenario) : NFeFollowUpSimulator :=
  MkNFeFollowUpSimulator scenario ∅ ∅ ∅ [].

Definition called (operation : string) (flow : NFeFlow.t) (correlation_id : string) (s : NFeFollowUpSimulator) : NFeFollowUpSimulator :=
  s <| fz_calls ::= fun l => (l ++ [MkNFeFollowUpCall operation flow correlation_id])%list |>.

Definition simulator_science (q : NFeScienceRequest) : ST NFeFollowUpSimulator exn NFeScienceResult :=
  let key := (sq_document_id q, sq_flow q, sq_correlation_id q) in
  let* known := gets (fun s => fz_science s !! key) in
  match known with
  | Some r => ret r
  | None =>
      let* scenario := gets fz_scenario in
      let outcome := fs_science_outcome scenario in
      let* r := lift_result (new_science_result (sq_document_id q) (sq_flow q) outcome (fs_retrieval_permitted scenario)
                  (sq_correlation_id q) (FiscalOutcome.value outcome) (if is_cooldown outcome then Some new_year_2030 else None)) in
      modify (fun s => called "science" (sq_flow q) (sq_correlation_id q) (s <| fz_science ::= <[key := r]> |>)) ;;;
      ret r
  end.

Definition permitted (key : N * NFeFlow.t * string) (s : NFeFollowUpSimulator) : bool :=
  match fz_science s !! key with Some r => sr_retrieval_permitted r | None => false end.

Definition simulator_complete_xml (q : NFeCompleteXmlRequest) : ST NFeFollowUpSimulator exn NFeCompleteXmlResponse :=
  let key := (xq_document_id q, xq_flow q, xq_science_correlation_id q) in
  let* allowed := gets (permitted key) in
  require allowed (NFeFollowUpError "complete XML requires permitted Ciencia") ;;;
  let* scenario := gets fz_scenario in
  let* xml := of_option (fs_complete_xml scenario) (NFeFollowUpError "complete XML is unavailable") in
  let* known := gets (fun s => fz_xml s !! key) in
  match known with
  | Some r => ret r
  | None =>
      modify (fun s => called "complete_xml" (xq_flow q) (xq_correlation_id q) (s <| fz_xml ::= <[key := xml]> |>)) ;;;
      ret xml
  end.

Definition simulator_events (q : NFeEventRequest) : ST NFeFollowUpSimulator exn FiscalResponse :=
  let key := (eq_flow q, eq_correlation_id q) in
  let* known := gets (fun s => fz_events s !! key) in
  match known with
  | Some r => ret r
  | None =>
      let* response := gets (fun s => fs_event_response (fz_scenario s)) in
      modify (fun s => called "events" (eq_flow q) (eq_correlation_id q) (s <| fz_events ::= <[key := response]> |>)) ;;;
      ret response
  end.

(** ** The adapter: the simulator and what the callback recorded *)

Record FollowUpChannel : Type := MkFollowUpChannel { fl_transport : NFeFollowUpSimulator; fl_log : list pydict }.

Definition _audit (event : string) (flow : NFeFlow.t) (outcome reason : string) : ST FollowUpChannel exn unit :=
  let payload := [("event", VStr event); ("flow", VStr (NFeFlow.value flow)); ("outcome", VStr outcome);
                  ("reason", VStr (_code reason))] in
  modify (fun c => MkFollowUpChannel (fl_transport c) (fl_log c ++ [payload])%list).

(** A method of [self.transport]. *)
Definition on_transport {A} (m : ST NFeFollowUpSimulator exn A) : ST FollowUpChannel exn A := fun c =>
  let '(r, s) := m (fl_transport c) in (r, MkFollowUpChannel s (fl_log c)).

Definition science (q : NFeScienceRequest) : ST FollowUpChannel exn NFeScienceResult :=
  _audit "science_started" (sq_flow q) "" "" ;;;
  let* r := on_transport (simulator_science q) in
  require (N.eqb (sr_document_id r) (sq_document_id q) && bool_decide (sr_flow r = sq_flow q))
    (NFeFollowUpError "NF-e Ciencia identity is inconsistent") ;;;
  _audit "science_completed" (sq_flow q) (FiscalOutcome.value (sr_outcome r)) (sr_safe_reason r) ;;;
  ret r.

Definition complete_xml (q : NFeCompleteXmlRequest) : ST FollowUpChannel exn NFeCompleteXmlResponse :=
  let* response := on_transport (simulator_complete_xml q) in
  _audit "xml_completed" (xq_flow q) (FiscalOutcome.value FiscalOutcome.SUCCESS) "" ;;;
  ret response.

Definition followup_events (q : NFeEventRequest) : ST FollowUpChannel exn FiscalResponse :=
  let* response := on_transport (simulator_events q) in
  _audit "events_completed" (eq_flow q) (FiscalOutcome.value (fr_outcome response)) "" ;;;
  ret response.

(** ** The complete XML *)

(** [ElementTree.fromstring], over expat: the root's tag, or [None] when it raises
    [ParseError] or [ValueError]. *)
Class XmlParser : Type := xml_root : string -> option string.

Definition upper_ascii (c : ascii) : ascii := if is_lower c then chr (code c - 32) else c.

Definition unsafe_declaration (xml : string) : bool :=
  existsb (fun marker => contains marker (smap upper_ascii xml)) ["<!DOCTYPE"; "<!ENTITY"; "SYSTEM"; "PUBLIC"].

(** [tag.rsplit("}", 1)[-1]] *)
Definition local_tag (tag : string) : string := List.last (Url.split "}"%char tag) "".

Definition _validate_followup_xml `{XmlParser} (response : NFeCompleteXmlResponse) : result exn unit :=
  if unsafe_declaration (xr_xml_payload response) then followup_error "NF-e XML parser rejected unsafe declarations"
  else match xml_root (xr_xml_payload response) with
       | None => followup_error "NF-e XML is malformed"
       | Some tag => if existsb (String.eqb (local_tag tag)) ["nfeProc"; "NFe"; "procNFe"] then Ok tt
                     else followup_error "NF-e XML root is unsupported"
       end.
