(* ===== verification/FollowUpService.v ===== *)
(** * The NF-e follow-up service (adapters/nfe.py, from line 1155)

    Authorization, the job handlers and the persistence around the adapters of
    [FollowUp]: the Ciencia as a job that queues the complete XML's job, the XML
    and the original response kept as evidence of the document, events handed to
    ingestion, and manifestations with their durable row.  The adapters are
    objects the process keeps in memory; the store of the service is one of the
    given maximum size.  Messages are written without accents. *)

From Stdlib Require Import ZArith Ascii String Lia.
From stdpp Require Import base decidable list gmap strings.
From S2P Require Import Prelude PyStr Sha256 PyVal Memory AuditTrail Identity Companies JobPolicies JobEngine Models Tables Artifacts Documents Simulation Ingestion Certificates NFeDistribution FollowUp.

Local Open Scope string_scope.

(** What the service holds: its follow-up adapter, and the manifestation adapter
    once it is configured. *)
Record FollowUpMemory : Type := MkFollowUpMemory {
  fm_followup : FollowUpChannel; fm_manifestation : option ManifestationChannel }.

(** [NFeFollowUpService.from_runtime()] *)
Definition from_runtime : result exn FollowUpMemory :=
  check* scenario := build_nfe_followup_scenario "permitted" 1 in
  Ok (MkFollowUpMemory (MkFollowUpChannel (new_followup_simulator scenario) []) None).

Definition configure_manifestation (adapter : ManifestationChannel) (m : FollowUpMemory) : FollowUpMemory :=
  MkFollowUpMemory (fm_followup m) (Some adapter).

Definition on_followup {A} (m : ST FollowUpChannel exn A) : ST FollowUpMemory exn A := fun s =>
  let '(r, c) := m (fm_followup s) in (r, MkFollowUpMemory c (fm_manifestation s)).

(** [self.manifestation_adapter], and a method of it. *)
Definition on_manifestation {A} (m : ST ManifestationChannel exn A) : ST FollowUpMemory exn A := fun s =>
  match fm_manifestation s with
  | None => (Err (NFeFollowUpError "NF-e manifestation adapter is not configured"), s)
  | Some c => let '(r, c) := m c in (r, MkFollowUpMemory (fm_followup s) (Some c))
  end.

(** ** Payloads *)

(** [payload[k]] *)
Definition item (payload : pyval) (k : string) : result exn pyval :=
  match payload with
  | VDict d => match dget d k with Some v => Ok v | None => Err (KeyError k) end
  | _ => Err TypeError
  end.

(** A value compared with a UUID column: [None] is [None]. *)
Definition uuid_lookup (v : pyval) : result exn (option N) :=
  match v with
  | VNone => Ok None
  | VStr s => match parse_uuid s with Some u => Ok (Some u) | None => Err ValidationError end
  | VInt z => if Z.leb 0 z && Z.ltb z (2 ^ 128) then Ok (Some (Z.to_N z)) else Err ValidationError
  | VBool b => Ok (Some (if b then 1%N else 0%N))
  | _ => Err ValidationError
  end.

Definition nfe_document (id company : N) (flow : NFeFlow.t) (d : Document) : bool :=
  N.eqb (doc_id d) id && N.eqb (doc_company d) company &&
  String.eqb (doc_family d) (DocumentFamily.value DocumentFamily.NFE) && String.eqb (doc_flow d) (NFeFlow.value flow).

Definition active_company (id : N) (c : Company) : bool :=
  N.eqb (co_id c) id && bool_decide (co_status c = CompanyStatus.ACTIVE).

(** [order_by("-activated_at")], nulls first. *)
Definition activated_le (a b : Certificate) : bool :=
  match cert_activated_at a, cert_activated_at b with
  | Some x, Some y => Z.leb y x
  | None, _ => true
  | Some _, None => false
  end.

(** ** Rows of nfx_nfe_manifestation *)

Definition manifestation_with_key (key : string) (m : NFeManifestation) : bool := String.eqb (mf_idempotency_key m) key.

Definition manifestation_fits (m : NFeManifestation) : bool :=
  wide 16 (mf_flow m) && wide 32 (mf_manifestation_type m) && wide 64 (mf_source m) && wide 128 (mf_policy_reference m) &&
  wide 128 (mf_certificate_reference m) && wide 128 (mf_correlation_id m) && wide 128 (mf_idempotency_reference m) &&
  wide 255 (mf_idempotency_key m) && wide 32 (mf_outcome m) && wide 64 (mf_result_code m).

Definition manifestation_check (m : NFeManifestation) : bool :=
  str_in (mf_flow m) ["received"; "issued"] && String.eqb (mf_manifestation_type m) "science_of_operation" &&
  flow_column (mf_source m) && _REFERENCE (mf_idempotency_reference m).

(** The job of a manifestation is its own. *)
Definition manifestation_job_taken (id job : N) (d : DB) : bool :=
  exists_row (fun m => negb (N.eqb (mf_id m) id) && bool_decide (mf_job m = Some job)) (manifestations d).

Definition new_manifestation (id : N) (now : Z) (q : NFeManifestationRequest) (key : string) : NFeManifestation :=
  MkNFeManifestation id (mq_company_id q) None (mq_document_id q) (NFeFlow.value (mq_flow q))
    (NFeManifestationType.value (mq_manifestation_type q)) (mq_source q) (mq_policy_reference q) (mq_certificate_handle q)
    (mq_correlation_id q) (mq_idempotency_reference q) key NFeManifestationState.QUEUED "" "" [] None None now None now.

(** The fields [_save_manifestation_state] writes. *)
Definition settled_manifestation (now : Z) (state : NFeManifestationState.t) (outcome result_code : string) (values : pydict)
    (document : option N) (submitted_at : option Z) (m : NFeManifestation) : NFeManifestation :=
  m <| mf_document ::= fun old => match document with Some d => Some d | None => old end |> <| mf_state := state |>
    <| mf_outcome := outcome |> <| mf_result_code := result_code |> <| mf_safe_result := values |>
    <| mf_submitted_at := submitted_at |> <| mf_completed_at := Some now |> <| mf_updated_at := now |>.

(** The states [handle_manifestation_job] does not leave. *)
Definition refused_manifestation (s : NFeManifestationState.t) : bool :=
  match s with
  | NFeManifestationState.DENIED | NFeManifestationState.BLOCKED | NFeManifestationState.QUARANTINED
  | NFeManifestationState.CONFLICT => true
  | _ => false
  end.

(** The state an outcome is recorded as. *)
Definition state_of_manifestation (r : NFeManifestationResult) : NFeManifestationState.t :=
  match mr_outcome r with
  | FiscalOutcome.SUCCESS => NFeManifestationState.ACCEPTED
  | FiscalOutcome.COOLDOWN => NFeManifestationState.COOLDOWN
  | FiscalOutcome.UNAVAILABLE | FiscalOutcome.TIMEOUT => NFeManifestationState.RETRY
  | FiscalOutcome.BLOCKED =>
      if String.eqb (mr_result_code r) "denied" then NFeManifestationState.DENIED else NFeManifestationState.BLOCKED
  | FiscalOutcome.CONFLICT => NFeManifestationState.CONFLICT
  | _ => NFeManifestationState.QUARANTINED
  end.

(** What the handler answers for it. *)
Definition settled_outcome (state : NFeManifestationState.t) (r : NFeManifestationResult) (safe_result : pydict) : HandlerOutcome :=
  match state with
  | NFeManifestationState.ACCEPTED => outcome_success safe_result
  | NFeManifestationState.COOLDOWN => outcome_cooldown (mr_cooldown_until r) (mr_result_code r) safe_result
  | NFeManifestationState.RETRY => outcome_temporary (mr_result_code r) safe_result
  | NFeManifestationState.QUARANTINED => outcome_partial (mr_result_code r) safe_result
  | _ => outcome_permanent (mr_result_code r) safe_result
  end.

(** The dictionary kept in the row and answered to the worker. *)
Definition manifestation_safe_result (id : N) (r : NFeManifestationResult) : pydict :=
  [("manifestation_id", VStr (uuid_str id)); ("document_id", VStr (uuid_str (mr_document_id r)));
   ("flow", VStr (NFeFlow.value (mr_flow r))); ("manifestation_type", VStr (NFeManifestationType.value (mr_manifestation_type r)));
   ("outcome", VStr (FiscalOutcome.value (mr_outcome r))); ("result_code", VStr (mr_result_code r));
   ("correlation_id", VStr (mr_correlation_id r)); ("submitted_at", VStr (isoformat (instant (mr_submitted_at r))))].

Definition manifestation_idempotency_key (q : NFeManifestationRequest) : string :=
  "nfe:manifestation:" ++ uuid_str (mq_company_id q) ++ ":" ++ uuid_str (mq_document_id q) ++ ":" ++ NFeFlow.value (mq_flow q) ++
  ":" ++ NFeManifestationType.value (mq_manifestation_type q) ++ ":" ++ mq_idempotency_reference q.

(** ** Requests read back from a job's payload *)

Definition science_of_payload (p : pyval) : result exn NFeScienceRequest :=
  check* company := item p "company_id" in
  check* document := item p "document_id" in
  check* flow := item p "flow" in
  check* source := item p "source" in
  check* actor := item p "actor" in
  check* policy := item p "policy_reference" in
  check* certificate := item p "certificate_handle" in
  check* correlation := item p "correlation_id" in
  check* intent := item p "intent" in
  new_science_request company document flow source actor policy certificate correlation intent.

Definition xml_of_payload (p : pyval) : result exn NFeCompleteXmlRequest :=
  check* company := item p "company_id" in
  check* document := item p "document_id" in
  check* flow := item p "flow" in
  check* source := item p "source" in
  check* actor := item p "actor" in
  check* policy := item p "policy_reference" in
  check* certificate := item p "certificate_handle" in
  check* correlation := item p "correlation_id" in
  check* science := item p "science_correlation_id" in
  new_xml_request company document flow source actor policy certificate correlation science.

Definition manifestation_of_payload (p : pyval) : result exn NFeManifestationRequest :=
  check* company := item p "company_id" in
  check* document := item p "document_id" in
  check* flow := item p "flow" in
  check* kind := item p "manifestation_type" in
  check* source := item p "source" in
  check* actor := item p "actor" in
  check* policy := item p "policy_reference" in
  check* certificate := item p "certificate_handle" in
  check* correlation := item p "correlation_id" in
  check* idempotency := item p "idempotency_reference" in
  new_manifestation_request company document flow kind source actor policy certificate correlation idempotency.

(** The request for the complete XML after a permitted Ciencia. *)
Definition xml_after_science (q : NFeScienceRequest) : result exn NFeCompleteXmlRequest :=
  new_xml_request (VOther (uuid_str (sq_company_id q))) (VOther (uuid_str (sq_document_id q))) (VStr (NFeFlow.value (sq_flow q)))
    (VStr (sq_source q)) (VStr (sq_actor q)) (VStr (sq_policy_reference q)) (VStr (sq_certificate_handle q))
    (VStr ("xml:" ++ sq_correlation_id q)) (VStr (sq_correlation_id q)).

(** ** Jobs *)

Definition science_job (q : NFeScienceRequest) (actor_id : string) (now : Z) (policy : JobPolicy) : Enqueue :=
  MkEnqueue "nfe.science" ("document:" ++ uuid_str (sq_document_id q))
    [("operation", VStr "science"); ("company_id", VStr (uuid_str (sq_company_id q)));
     ("document_id", VStr (uuid_str (sq_document_id q))); ("flow", VStr (NFeFlow.value (sq_flow q)));
     ("source", VStr (sq_source q)); ("actor", VStr (sq_actor q)); ("actor_id", VStr actor_id);
     ("policy_reference", VStr (sq_policy_reference q)); ("certificate_handle", VStr (sq_certificate_handle q));
     ("correlation_id", VStr (sq_correlation_id q)); ("intent", VStr (sq_intent q))]
    ("nfe:science:" ++ uuid_str (sq_document_id q) ++ ":" ++ sq_intent q ++ ":" ++ sq_correlation_id q)
    0 (Some (Aware now)) (Some policy) None None.

Definition xml_job (q : NFeScienceRequest) (x : NFeCompleteXmlRequest) (science_job : N) (policy : option JobPolicy) : Enqueue :=
  MkEnqueue "nfe.complete_xml" ("document:" ++ uuid_str (sq_document_id q))
    [("operation", VStr "complete_xml"); ("company_id", VStr (uuid_str (xq_company_id x)));
     ("document_id", VStr (uuid_str (xq_document_id x))); ("flow", VStr (NFeFlow.value (xq_flow x)));
     ("source", VStr (xq_source x)); ("actor", VStr (xq_actor x)); ("policy_reference", VStr (xq_policy_reference x));
     ("certificate_handle", VStr (xq_certificate_handle x)); ("correlation_id", VStr (xq_correlation_id x));
     ("science_correlation_id", VStr (xq_science_correlation_id x)); ("science_job_id", VStr (uuid_str science_job))]
    ("nfe:xml:" ++ uuid_str (sq_document_id q) ++ ":" ++ sq_correlation_id q) 0 None policy None None.

Definition manifestation_job (q : NFeManifestationRequest) (id : N) (actor_id : string) (now : Z) (policy : JobPolicy) : Enqueue :=
  MkEnqueue "nfe.manifestation" ("document:" ++ uuid_str (mq_document_id q))
    [("operation", VStr "manifestation"); ("manifestation_id", VStr (uuid_str id));
     ("company_id", VStr (uuid_str (mq_company_id q))); ("document_id", VStr (uuid_str (mq_document_id q)));
     ("flow", VStr (NFeFlow.value (mq_flow q))); ("manifestation_type", VStr (NFeManifestationType.value (mq_manifestation_type q)));
     ("source", VStr (mq_source q)); ("actor", VStr (mq_actor q)); ("actor_id", VStr actor_id);
     ("policy_reference", VStr (mq_policy_reference q)); ("certificate_handle", VStr (mq_certificate_handle q));
     ("correlation_id", VStr (mq_correlation_id q)); ("idempotency_reference", VStr (mq_idempotency_reference q))]
    (manifestation_idempotency_key q) 0 (Some (Aware now)) (Some policy) None None.

(** A completed job that permitted the retrieval: [safe_result] is a mapping once
    the engine has stored it. *)
Definition science_permitted (j : Job) : bool :=
  bool_decide (job_state j = JobState.COMPLETED) &&
  match job_safe_result j with
  | Some (VDict d) => match dget d "retrieval_permitted" with Some v => truthy v | None => false end
  | _ => false
  end.

(** The metadata of an event's unit. *)
Definition event_metadata : DocumentMetadataFactory := fun unit _ now =>
  let substitution := String.eqb (fu_kind unit) "substitution" in
  Ok (MkMetadata (opt_default (Aware now) (fu_occurred_at unit)) (MkFiscalIdentity None (Some (fu_identity unit)) None None None)
        "evento" (if substitution then "substituicao" else "evento") None (DocumentSituation.value DocumentSituation.UNKNOWN) None
        (Some (if substitution then "substitution" else "event"))).

Definition event_context (q : NFeEventRequest) : IngestionContext :=
  let flow := NFeFlow.value (eq_flow q) in
  MkIngestionContext (RefUuid (eq_company_id q)) "nfe" (flow ++ ":followup") (eq_source q) ("execution:" ++ eq_correlation_id q)
    (eq_correlation_id q) None None None (Some ("followup:" ++ eq_correlation_id q)) (Some flow).

Definition is_followup_error (e : exn) : bool := match e with NFeFollowUpError _ => true | _ => false end.

Section service.
Context {B : Type} `{!External B, !ObjectStore B, !Holds B FollowUpMemory, !XmlParser} (maximum_size : Z).

Definition followup_require (ok : bool) (msg : string) : M B unit := require ok (NFeFollowUpError msg).

Definition artifact_with_key (logical_key : string) : M B (option Artifact) :=
  autocommit (query (fun d => first_where art_created_at (fun a => String.eqb (art_logical_key a) logical_key) (artifacts d))).

Definition _ensure_followup_artifact (logical_class logical_key content_type payload : string) : M B Artifact :=
  let* existing := artifact_with_key logical_key in
  let* artifact :=
    match existing with
    | Some a => ret a
    | None =>
        try_except (begin logical_class logical_key content_type)
          (fun _ => let* again := artifact_with_key logical_key in
                    of_option again (NFeFollowUpError "NF-e evidence registration failed"))
    end in
  let* artifact :=
    if is_finalized artifact then ret artifact
    else try_except (transmit maximum_size (art_id artifact) [VBytes payload])
           (fun _ => let* refreshed := autocommit (get_artifact (art_id artifact)) in
                     followup_require (is_finalized refreshed) "NF-e evidence storage failed" ;;;
                     ret refreshed) in
  followup_require (String.eqb (art_digest artifact) (sha256 payload)) "NF-e evidence integrity conflict" ;;;
  ret artifact.

(** The certificate both validations ask for. *)
Definition usable_certificate (company : N) : M B unit :=
  let* row := autocommit (query (fun d => first_by activated_le (select (current_of company) (certificates d)))) in
  let* now := timezone_now in
  followup_require (match row with Some c => usable c now | None => false end) "certificate is unavailable".

Definition _validate_document_context (company document : N) (flow : NFeFlow.t) : M B unit :=
  let* active := autocommit (query (fun d => exists_row (active_company company) (companies d))) in
  followup_require active "company is inactive" ;;;
  let* known := autocommit (query (fun d => exists_row (nfe_document document company flow) (documents d))) in
  followup_require known "NF-e document is unavailable" ;;;
  usable_certificate company.

Definition may_control (actor : option SessionIdentity) : bool :=
  match actor with
  | Some a => authorize (si_role a) Action.CONTROL_COLLECTIONS None (Some (si_user_id a))
  | None => false
  end.

Definition effective_policy (policy : option JobPolicy) (source : string) (at_ : Z) : M B JobPolicy :=
  match policy with Some p => ret p | None => autocommit (select_policy source "nfe" (Aware at_)) end.

Definition enqueue_science (q : NFeScienceRequest) (actor : option SessionIdentity) (policy : option JobPolicy) : M B Job :=
  followup_require (may_control actor) "follow-up control access required" ;;;
  let* a := of_option actor (NFeFollowUpError "follow-up control access required") in
  followup_require (is_some (Role.of_value (si_role a))) "actor is invalid" ;;;
  _validate_document_context (sq_company_id q) (sq_document_id q) (sq_flow q) ;;;
  let* now := timezone_now in
  let* policy := effective_policy policy (sq_source q) now in
  enqueue (science_job q (si_user_id a) now policy).

(** [job.effective_policy] *)
Definition policy_of_job (job : Job) : M B (option JobPolicy) :=
  autocommit (query (fun d => job_effective_policy job ≫= fun p => policies d !! p)).

(** The [try] of a handler: [NFeFollowUpError] is answered, the rest goes on. *)
Definition or_rejected {A} (m : M B A) (error_code : string) (k : A -> M B handler_result) : M B handler_result :=
  let* r := try_except (let* a := m in ret (Some a)) (fun e => if is_followup_error e then ret None else throw e) in
  match r with Some a => k a | None => ret (Outcome (outcome_permanent error_code [])) end.

Definition handle_science_job (job : Job) : M B handler_result :=
  let* q := lift_result (science_of_payload (job_payload job)) in
  or_rejected
    (_validate_document_context (sq_company_id q) (sq_document_id q) (sq_flow q) ;;; in_memory (on_followup (science q)))
    "followup_rejected"
    (fun r =>
       let classified := science_job_outcome r in
       if sr_retrieval_permitted r && String.eqb (ho_kind classified) (JobOutcomeKind.value JobOutcomeKind.SUCCESS) then
         let* x := lift_result (xml_after_science q) in
         let* policy := policy_of_job job in
         let* queued := enqueue (xml_job q x (job_id job) policy) in
         ret (Outcome (outcome_success (dset (ho_result classified) "followup_job_id" (VStr (uuid_str (job_id queued))))))
       else ret (Outcome classified)).

(** The [try] of [handle_xml_job]: the document's two pieces of evidence. *)
Definition keep_complete_xml (q : NFeCompleteXmlRequest) : M B (Artifact * EvidenceAttachmentResult) :=
  _validate_document_context (xq_company_id q) (xq_document_id q) (xq_flow q) ;;;
  let* response := in_memory (on_followup (complete_xml q)) in
  let key kind := "nfe:" ++ uuid_str (xq_document_id q) ++ ":" ++ kind ++ ":" ++ xq_science_correlation_id q in
  let* original := _ensure_followup_artifact "fiscal_original" (key "original") (xr_original_content_type response)
                     (xr_original_payload response) in
  attach_document_evidence (RefUuid (xq_document_id q)) (RefUuid (art_id original)) ;;;
  lift_result (_validate_followup_xml response) ;;;
  let* xml := _ensure_followup_artifact "fiscal_xml" (key "xml") (xr_content_type response) (xr_xml_payload response) in
  let* evidence := attach_document_evidence (RefUuid (xq_document_id q)) (RefUuid (art_id xml)) in
  ret (original, evidence).

Definition handle_xml_job (job : Job) : M B handler_result :=
  let* science_id := lift_result (item (job_payload job) "science_job_id") in
  let* science_id := lift_result (uuid_lookup science_id) in
  let* science := autocommit (query (fun d => science_id ≫= fun i => jobs d !! i)) in
  if negb (match science with Some j => science_permitted j | None => false end) then
    ret (Outcome (outcome_permanent "science_required" []))
  else
    let* q := lift_result (xml_of_payload (job_payload job)) in
    or_rejected (keep_complete_xml q) "xml_rejected"
      (fun kept => ret (Outcome (outcome_success
         [("document_id", VStr (uuid_str (xq_document_id q))); ("complete_evidence_id", VStr (uuid_str (ea_evidence_id kept.2)));
          ("original_evidence_id", VStr (uuid_str (art_id kept.1)))]))).

Definition ingest_events (q : NFeEventRequest) : M B IngestionResult :=
  _validate_document_context (eq_company_id q) (eq_parent_document_id q) (eq_flow q) ;;;
  let* response := in_memory (on_followup (followup_events q)) in
  Ingestion.ingest maximum_size synthetic_payload event_metadata (event_context q) response.

(** ** Manifestations *)

Definition _validate_manifestation_company (q : NFeManifestationRequest) : M B unit :=
  let* active := autocommit (query (fun d => exists_row (active_company (mq_company_id q)) (companies d))) in
  followup_require active "company is inactive" ;;;
  let* flow := autocommit (query (fun d => first_where (fun f => Z.of_N (fl_id f)) (flow_of (mq_company_id q) FlowFamily.NFE) (flows d))) in
  followup_require (match flow with Some f => bool_decide (fl_state f = FlowState.ENABLED) | None => false end)
    "NF-e flow is unavailable" ;;;
  usable_certificate (mq_company_id q).

(** The document, or why it is none. *)
Definition _manifestation_parent (q : NFeManifestationRequest) : M B (Document + string) :=
  let* row := autocommit (query (fun d => documents d !! mq_document_id q)) in
  match row with
  | None => ret (inr "parent_missing")
  | Some document => ret (if nfe_document (doc_id document) (mq_company_id q) (mq_flow q) document then inl document
                          else inr "parent_incompatible")
  end.

Definition get_job_row (id : N) : M B Job := let* row := query (fun d => jobs d !! id) in of_option row DoesNotExist.

(** The block of [enqueue_manifestation]. *)
Definition create_manifestation (q : NFeManifestationRequest) (actor_id : string) (policy : JobPolicy) : M B Job :=
  let key := manifestation_idempotency_key q in
  let* existing := query (fun d => first_where (fun m => Z.of_N (mf_id m)) (manifestation_with_key key) (manifestations d)) in
  match existing with
  | Some m => match mf_job m with
              | None => throw (NFeFollowUpError "manifestation record is incomplete")
              | Some j => get_job_row j
              end
  | None =>
      let* id := uuid4 in
      let* now := timezone_now in
      let m := new_manifestation id now q key in
      require (manifestation_fits m) DataError ;;;
      require (manifestation_check m) IntegrityError ;;;
      write (fun d => d <| manifestations ::= put id m |>) ;;;
      let* now := timezone_now in
      let* job := enqueue (manifestation_job q id actor_id now policy) in
      let* taken := query (manifestation_job_taken id (job_id job)) in
      require (negb taken) IntegrityError ;;;
      let* now := timezone_now in
      write (fun d => d <| manifestations ::= put id (m <| mf_job := Some (job_id job) |> <| mf_updated_at := now |>) |>) ;;;
      ret job
  end.

Definition enqueue_manifestation (q : NFeManifestationRequest) (actor : option SessionIdentity) (policy : option JobPolicy) : M B Job :=
  followup_require (may_control actor) "manifestation control access required" ;;;
  let* a := of_option actor (NFeFollowUpError "manifestation control access required") in
  _validate_manifestation_company q ;;;
  let* now := timezone_now in
  let* policy := effective_policy policy (mq_source q) now in
  atomic (create_manifestation q (si_user_id a) policy).

Definition _save_manifestation_state (m : NFeManifestation) (state : NFeManifestationState.t) (values : pydict)
    (outcome result_code : string) (document : option N) (submitted_at : option Z) : M B unit :=
  atomic (
    let* now := timezone_now in
    let settled := settled_manifestation now state outcome result_code values document submitted_at in
    require (manifestation_fits (settled m)) DataError ;;;
    write (fun d => d <| manifestations ::= alter settled (mf_id m) |>) ;;;
    append (MkAuditInput "nfe.manifestation" "nfe_manifestation" (NFeManifestationState.value state) None "" None
              (uuid_str (mf_id m)) result_code (mf_correlation_id m)
              [("company_id", VStr (uuid_str (mf_company m))); ("document_id", VStr (uuid_str (mf_target_document_id m)));
               ("flow", VStr (mf_flow m)); ("manifestation_type", VStr (mf_manifestation_type m)); ("outcome", VStr outcome)]) ;;;
    ret tt).

(** The body of the [try] of [handle_manifestation_job]. *)
Definition submit_manifestation (m : NFeManifestation) (q : NFeManifestationRequest) : M B HandlerOutcome :=
  _validate_manifestation_company q ;;;
  let* parent := _manifestation_parent q in
  match parent with
  | inr reason =>
      let values := [("document_id", VStr (uuid_str (mq_document_id q))); ("flow", VStr (NFeFlow.value (mq_flow q)));
                     ("state", VStr (NFeManifestationState.value NFeManifestationState.QUARANTINED))] in
      _save_manifestation_state m NFeManifestationState.QUARANTINED values "quarantined" reason None None ;;;
      ret (outcome_permanent reason values)
  | inl document =>
      let* now := timezone_now in
      let* r := in_memory (on_manifestation (manifest now q)) in
      let safe_result := manifestation_safe_result (mf_id m) r in
      let state := state_of_manifestation r in
      _save_manifestation_state m state safe_result (FiscalOutcome.value (mr_outcome r)) (mr_result_code r)
        (Some (doc_id document)) (Some (instant (mr_submitted_at r))) ;;;
      ret (settled_outcome state r safe_result)
  end.

Definition handle_manifestation_job (job : Job) : M B handler_result :=
  let* id := lift_result (item (job_payload job) "manifestation_id") in
  let* id := lift_result (uuid_lookup id) in
  let* row := autocommit (query (fun d => id ≫= fun i => manifestations d !! i)) in
  let* m := of_option row DoesNotExist in
  if bool_decide (mf_state m = NFeManifestationState.ACCEPTED) then ret (Outcome (outcome_success (mf_safe_result m)))
  else if refused_manifestation (mf_state m) then
    ret (Outcome (outcome_permanent (str_or (mf_result_code m) (NFeManifestationState.value (mf_state m))) (mf_safe_result m)))
  else
    let* q := lift_result (manifestation_of_payload (job_payload job)) in
    let* outcome :=
      try_except (submit_manifestation m q)
        (fun e =>
           if is_followup_error e then
             let values := [("manifestation_id", VStr (uuid_str (mf_id m))); ("state", VStr "blocked")] in
             _save_manifestation_state m NFeManifestationState.BLOCKED values "blocked" "manifestation_rejected" None None ;;;
             ret (outcome_permanent "manifestation_rejected" values)
           else throw e) in
    ret (Outcome outcome).

(** [ensure_nfe_followup_handler(service)]: the service's memory, and the registry. *)
Definition ensure_nfe_followup_handler (service : option FollowUpMemory) (r : registry B) : result exn (FollowUpMemory * registry B) :=
  check* configured := match service with Some m => Ok m | None => from_runtime end in
  check* r := register_handler "nfe.science" handle_science_job r in
  check* r := register_handler "nfe.complete_xml" handle_xml_job r in
  check* configured :=
    match fm_manifestation configured with
    | Some _ => Ok configured
    | None =>
        check* scenario := build_nfe_manifestation_scenario "accepted" in
        Ok (configure_manifestation
              (MkManifestationChannel (new_manifestation_simulator scenario) new_manifestation_metrics []) configured)
    end in
  check* r := register_handler "nfe.manifestation" handle_manifestation_job r in
  Ok (configured, r).

End service.

#[global] Arguments _ensure_followup_artifact : simpl never.
#[global] Arguments _validate_document_context : simpl never.
#[global] Arguments _validate_manifestation_company : simpl never.
#[global] Arguments _save_manifestation_state : simpl never.
#[global] Arguments keep_complete_xml : simpl never.
#[global] Arguments submit_manifestation : simpl never.
#[global] Arguments create_manifestation : simpl never.
