(* ===== verification/FollowUpFacts.v ===== *)
(** * The life of a manifestation

    An abstract description of nfx_nfe_manifestation: what a row promises, how it
    may move, and that every operation of the follow-up service stays within the
    description; the other operations leave the table alone. *)

From Stdlib Require Import ZArith Ascii String Lia.
From stdpp Require Import base decidable list gmap strings relations.
From S2P Require Import Prelude PyStr Sha256 PyVal Memory AuditTrail Identity Companies JobPolicies JobEngine JobLifecycle JobGuarantees Models Tables Artifacts ArtifactFacts Documents Simulation Ingestion IngestionFacts Certificates CollectionFacts NFeDistribution FollowUp FollowUpService.

Local Open Scope string_scope.

(** ** The abstract life cycle *)

(** The states a manifestation does not leave. *)
Definition settled (m : NFeManifestation) : bool :=
  match mf_state m with
  | NFeManifestationState.QUEUED | NFeManifestationState.RETRY | NFeManifestationState.COOLDOWN => false
  | _ => true
  end.

Lemma settled_states m :
  settled m = bool_decide (mf_state m = NFeManifestationState.ACCEPTED) || refused_manifestation (mf_state m).
Proof. unfold settled. by destruct (mf_state m). Qed.

(** What was asked for, and the job that does it. *)
Definition same_order (m m' : NFeManifestation) : Prop :=
  mf_id m' = mf_id m /\ mf_company m' = mf_company m /\ mf_target_document_id m' = mf_target_document_id m /\
  mf_flow m' = mf_flow m /\ mf_manifestation_type m' = mf_manifestation_type m /\ mf_source m' = mf_source m /\
  mf_policy_reference m' = mf_policy_reference m /\ mf_certificate_reference m' = mf_certificate_reference m /\
  mf_correlation_id m' = mf_correlation_id m /\ mf_idempotency_reference m' = mf_idempotency_reference m /\
  mf_idempotency_key m' = mf_idempotency_key m /\ mf_job m' = mf_job m /\ mf_requested_at m' = mf_requested_at m.

#[export] Instance same_order_preorder : PreOrder same_order.
Proof.
  split; [by intros o|]. intros a b c (?&?&?&?&?&?&?&?&?&?&?&?&?) (?&?&?&?&?&?&?&?&?&?&?&?&?).
  unfold same_order. split_and!; congruence.
Qed.

(** One row per idempotency key, each with a job of its own. *)
Record manifestation_ok (n : N) (d : DB) : Prop := {
  mo_keyed : keyed mf_id mf_idempotency_key n (manifestations d);
  mo_job : forall i m, manifestations d !! i = Some m -> is_Some (mf_job m);
  mo_jobs : forall i j m x, manifestations d !! i = Some m -> manifestations d !! j = Some x -> mf_job m = mf_job x -> i = j }.

Definition manifestation_inv {B} (w : World B) : Prop := manifestation_ok (next_uuid w) (db w).

(** Rows stay, keep their order, and stop moving once settled. *)
Definition manifestation_moves (d d' : DB) : Prop := forall i m, manifestations d !! i = Some m ->
  exists m', manifestations d' !! i = Some m' /\ same_order m m' /\ (settled m = true -> m' = m).

#[export] Instance manifestation_moves_preorder : PreOrder manifestation_moves.
Proof.
  split.
  - intros d i m Hm. by exists m.
  - intros a b c H1 H2 i m Hm. destruct (H1 i m Hm) as (m1 & Hm1 & S1 & F1). destruct (H2 i m1 Hm1) as (m2 & Hm2 & S2 & F2).
    exists m2. split; [done|]. split; [by etrans|]. intros Hf. rewrite <-(F1 Hf). apply F2. by rewrite (F1 Hf).
Qed.

Lemma manifestation_ok_mono n k d : (n <= k)%N -> manifestation_ok n d -> manifestation_ok k d.
Proof. intros Hnk [H1 H2 H3]. split; try done. by eapply keyed_mono. Qed.

(** The relation every operation stays within. *)
Definition manifests {B} (w w' : World B) : Prop :=
  (next_uuid w <= next_uuid w')%N /\
  (manifestation_inv w -> manifestation_inv w' /\ manifestation_moves (db w) (db w')).

#[export] Instance manifests_preorder {B} : PreOrder (manifests (B:=B)).
Proof.
  split.
  - intros w. split; [lia|]. by intros H.
  - intros a b c [N1 H1] [N2 H2]. split; [lia|]. intros Ha. destruct (H1 Ha) as [Hb M1]. destruct (H2 Hb) as [Hc M2].
    split; [done|]. by etrans.
Qed.

#[export] Instance manifests_rolls_back {B} : RollsBack (manifests (B:=B)).
Proof.
  intros w w' [Hn _]. split; [done|]. intros Hw. split; [|done]. by eapply manifestation_ok_mono.
Qed.

Lemma manifests_same {B} (w w' : World B) :
  (next_uuid w <= next_uuid w')%N -> manifestations (db w') = manifestations (db w) -> manifests w w'.
Proof.
  intros Hn Hm. split; [done|]. intros [H1 H2 H3]. split.
  - split; rewrite Hm; try done. by eapply keyed_mono.
  - intros i m Hi. exists m. by rewrite Hm.
Qed.

Lemma manifests_keeps {B A} (m : M B A) : moves (keeps manifestations) m -> moves manifests m.
Proof. intros Hm w. destruct (Hm w) as (H1 & _ & _ & H2). by apply manifests_same. Qed.

(** A row rewritten without touching its order. *)
Lemma manifests_alter {B} (w w' : World B) m f :
  (next_uuid w <= next_uuid w')%N -> manifestations (db w) !! mf_id m = Some m -> settled m = false -> same_order m (f m) ->
  manifestations (db w') = alter f (mf_id m) (manifestations (db w)) -> manifests w w'.
Proof.
  intros Hn Hm Hopen Hsame Ht. split; [done|]. intros [H1 H2 H3].
  assert (manifestations (db w') = put (mf_id (f m)) (f m) (manifestations (db w))) as Ht'.
  { rewrite Ht. destruct Hsame as (-> & _). unfold put. apply map_eq. intros i. destruct (decide (mf_id m = i)) as [<-|Hi].
    - by rewrite lookup_alter_eq, Hm, lookup_insert_eq.
    - by rewrite lookup_alter_ne, lookup_insert_ne. }
  pose proof Hsame as (Hid & _ & _ & _ & _ & _ & _ & _ & _ & _ & Hkey & Hjob & _).
  assert (manifestation_moves (db w) (db w')) as Hmoves.
  { intros i x Hi. rewrite Ht', Hid. unfold put. destruct (decide (mf_id m = i)) as [<-|Hne].
    - rewrite lookup_insert_eq. replace x with m by congruence. exists (f m). split_and!; [done..|]. congruence.
    - rewrite lookup_insert_ne by done. by exists x. }
  split; [|done]. split.
  - rewrite Ht'. eapply keyed_mono; [exact Hn|]. eapply keyed_same; [done| |]; [rewrite Hid; exact Hm|congruence].
  - intros i x. rewrite Ht', Hid. unfold put. rewrite lookup_insert_Some. intros [[<- <-]|[_ Hi]]; [|eauto].
    rewrite Hjob. eauto.
  - intros i j x y. rewrite Ht', Hid. unfold put. rewrite !lookup_insert_Some.
    intros [[<- <-]|[_ Hi]] [[<- <-]|[_ Hj]] He; [done|apply (H3 _ _ _ _ Hm Hj); congruence|
      apply (H3 _ _ _ _ Hi Hm); congruence|eauto].
Qed.

(** A row added under a fresh identifier. *)
Lemma manifests_put {B} (w w' : World B) m :
  (next_uuid w < next_uuid w')%N -> mf_id m = next_uuid w -> is_Some (mf_job m) ->
  (forall i x, manifestations (db w) !! i = Some x -> mf_idempotency_key x <> mf_idempotency_key m /\ mf_job x <> mf_job m) ->
  manifestations (db w') = put (mf_id m) m (manifestations (db w)) -> manifests w w'.
Proof.
  intros Hn Hid Hjob Hnew Ht. split; [lia|]. intros [H1 H2 H3]. rewrite Hid in Ht.
  pose proof (keyed_fresh _ _ _ _ H1) as Hfresh. split; [split|].
  - rewrite Ht. eapply keyed_mono; [|eapply keyed_new; [exact H1|done|]]; [lia|]. intros i x Hi. by apply (Hnew i).
  - intros i x. rewrite Ht. unfold put. rewrite lookup_insert_Some. intros [[<- <-]|[_ Hi]]; [done|eauto].
  - intros i j x y. rewrite Ht. unfold put. rewrite !lookup_insert_Some.
    intros [[<- <-]|[_ Hi]] [[<- <-]|[_ Hj]] He; [done|by destruct (Hnew j y Hj)|by destruct (Hnew i x Hi)|eauto].
  - intros i x Hi. exists x. rewrite Ht. unfold put. rewrite lookup_insert_ne; [done|]. congruence.
Qed.

(** ** Frames: the operations that leave the table alone *)

#[local] Hint Extern 1 (forall d g, _ = _) => reflexivity : frames.

Lemma mkeeps_append {B} a : moves (keeps manifestations) (append (B:=B) a).
Proof. apply keeps_append. by intros d d' (? & ? & ->). Qed.

Lemma mkeeps_enqueue {B} r : moves (keeps manifestations) (enqueue (B:=B) r).
Proof. by apply keeps_enqueue. Qed.

Lemma mkeeps_audit {B} action result et ei ci rc data dg :
  moves (keeps manifestations) (Documents._audit (B:=B) action result et ei ci rc data dg).
Proof. unfold Documents._audit. apply moves_bind; [apply _|apply mkeeps_append|frame_tac]. Qed.

#[local] Hint Resolve mkeeps_append mkeeps_enqueue mkeeps_audit : frames.

Section frames.
Context {B : Type} `{!External B, !ObjectStore B} {laws : ObjectStoreLaws B} `{!Holds B FollowUpMemory} `{!XmlParser}.
Context (limit : Z).

Lemma keeps_in_memory {T A} (f : DB -> T) (m : ST FollowUpMemory exn A) : moves (keeps f) (in_memory (B:=B) m).
Proof. intros w. destruct (in_memory_only m w) as [b ->]. by split_and!. Qed.

#[local] Hint Resolve keeps_in_memory : frames.

Lemma mkeeps_certificate company : moves (keeps manifestations) (usable_certificate (B:=B) company).
Proof. unfold usable_certificate, followup_require. frame_tac. Qed.

#[local] Hint Resolve mkeeps_certificate : frames.

Lemma mkeeps_context company document flow : moves (keeps manifestations) (_validate_document_context (B:=B) company document flow).
Proof. unfold _validate_document_context, followup_require. frame_tac. Qed.

Lemma mkeeps_company q : moves (keeps manifestations) (_validate_manifestation_company (B:=B) q).
Proof. unfold _validate_manifestation_company, followup_require. frame_tac. Qed.

Lemma mkeeps_ensure a b c d : moves (keeps manifestations) (_ensure_followup_artifact (B:=B) limit a b c d).
Proof using laws. unfold _ensure_followup_artifact, artifact_with_key, get_artifact, followup_require. frame_tac. Qed.

Lemma mkeeps_attach a b : moves (keeps manifestations) (attach_document_evidence (B:=B) a b).
Proof. unfold attach_document_evidence, _artifact, _artifact_size, create_evidence. frame_tac. Qed.

#[local] Hint Resolve mkeeps_context mkeeps_company mkeeps_ensure mkeeps_attach : frames.

Lemma mkeeps_keep q : moves (keeps manifestations) (keep_complete_xml (B:=B) limit q).
Proof using laws. unfold keep_complete_xml. frame_tac. Qed.

#[local] Hint Resolve mkeeps_keep : frames.

Lemma mkeeps_science job : moves (keeps manifestations) (handle_science_job (B:=B) job).
Proof. unfold handle_science_job, or_rejected, policy_of_job. frame_tac. Qed.

Lemma mkeeps_xml job : moves (keeps manifestations) (handle_xml_job (B:=B) limit job).
Proof using laws. unfold handle_xml_job, or_rejected. frame_tac. Qed.

Lemma mkeeps_persist data : moves (keeps manifestations) (persist_document (B:=B) data).
Proof.
  unfold persist_document, _artifact, quarantine, _persist_document, _persist_event, two_attempts, known_document,
    known_event, quarantine, _artifact_size, derive_competence, create_document, create_evidence, create_event_row,
    create_event_evidence.
  frame_tac.
Qed.

Lemma mkeeps_page_audit p result reason : moves (keeps manifestations) (page_audit (B:=B) p result reason).
Proof. unfold page_audit. frame_tac. Qed.

#[local] Hint Resolve mkeeps_persist mkeeps_page_audit : frames.

Lemma mkeeps_finish_page id state l reason x y : moves (keeps manifestations) (_finish_page (B:=B) id state l reason x y).
Proof.
  unfold _finish_page, complete_page, close_page, save_page, save_checkpoint, _result_for_page. cbv zeta. frame_tac.
Qed.

Lemma mkeeps_register_page c response : moves (keeps manifestations) (_register_page (B:=B) c response).
Proof.
  unfold _register_page, parse_ref_opt, page_references, get_or_create_checkpoint, create_page. cbv zeta. frame_tac.
Qed.

Lemma mkeeps_process_unit payloads metadata r c u :
  moves (keeps manifestations) (_process_unit (B:=B) limit payloads metadata r c u).
Proof using laws.
  unfold _process_unit, count_attempt, _ensure_artifact, linked_artifact, treat_unit, persist_unit, find_parent, _finish_unit,
    _fail_unit. cbv zeta. frame_tac.
Qed.

Lemma mkeeps_register_unit page c u : moves (keeps manifestations) (_register_unit (B:=B) page c u).
Proof. unfold _register_unit, create_unit. cbv zeta. frame_tac. Qed.

#[local] Hint Resolve mkeeps_finish_page mkeeps_register_page mkeeps_process_unit mkeeps_register_unit : frames.

Lemma mkeeps_events q : moves (keeps manifestations) (ingest_events (B:=B) limit q).
Proof using laws.
  unfold ingest_events, Ingestion.ingest, ingest_page_content, ingest_units, finish_classified, get_page, _prepare_page_retry,
    _result_for_page. cbv zeta. frame_tac.
Qed.

Lemma mkeeps_enqueue_science q a p : moves (keeps manifestations) (enqueue_science (B:=B) q a p).
Proof. unfold enqueue_science, followup_require, effective_policy, select_policy. frame_tac. Qed.

#[local] Hint Resolve mkeeps_science mkeeps_xml mkeeps_enqueue_science mkeeps_events mkeeps_process_unit : frames.

(** ** The writes *)

(** A save either raises, the database being as before, or writes the one row. *)
Lemma save_inv m state values outcome code document sub w r w' :
  _save_manifestation_state (B:=B) m state values outcome code document sub w = (r, w') ->
  (next_uuid w <= next_uuid w')%N /\
  match r with
  | Ok _ => manifestations (db w') =
      alter (settled_manifestation (clock w) state outcome code values document sub) (mf_id m) (manifestations (db w))
  | Err _ => db w' = db w
  end.
Proof.
  intros Hs. assert (moves (keeps (fun _ => tt)) (_save_manifestation_state (B:=B) m state values outcome code document sub)) as Hk.
  { unfold _save_manifestation_state. frame_tac. }
  specialize (Hk w). rewrite Hs in Hk. destruct Hk as (_ & _ & _ & Hn). split; [exact Hn|].
  unfold _save_manifestation_state in Hs. destruct r as [u|e]; [|by eapply atomic_rollback].
  apply atomic_inv in Hs as [_ Hs]. invert_db.
  match goal with H : append ?a ?w1 = _ |- _ => pose proof (mkeeps_append a w1) as Ha; rewrite H in Ha end.
  destruct Ha as [Ha _]. exact Ha.
Qed.

(** ** What the worker is told, and what the row says *)

Definition told (m : NFeManifestation) (o : HandlerOutcome) : Prop :=
  ho_result o = mf_safe_result m /\
  match mf_state m with
  | NFeManifestationState.QUEUED => False
  | NFeManifestationState.ACCEPTED => ho_kind o = "success"
  | NFeManifestationState.COOLDOWN => ho_kind o = "cooldown"
  | NFeManifestationState.RETRY => ho_kind o = "temporary"
  | _ => ho_kind o = "permanent" \/ ho_kind o = "partial"
  end.

Lemma settled_order now state outcome code values document sub m :
  same_order m (settled_manifestation now state outcome code values document sub m).
Proof. by unfold same_order. Qed.

(** A row written once, the rest of the table as it was. *)
Definition row_written (m m' : NFeManifestation) (w w' : World B) : Prop :=
  exists f, (forall x, same_order x (f x)) /\ f m = m' /\
    manifestations (db w') = alter f (mf_id m) (manifestations (db w)).

Lemma save_written m state values outcome code document sub w u w' :
  _save_manifestation_state (B:=B) m state values outcome code document sub w = (Ok u, w') ->
  row_written m (settled_manifestation (clock w) state outcome code values document sub m) w w'.
Proof. intros [_ Hs]%save_inv. eexists. split; [intros x; apply settled_order|]. by split. Qed.

Lemma told_settled now r id document sub m :
  told (settled_manifestation now (state_of_manifestation r) (FiscalOutcome.value (mr_outcome r)) (mr_result_code r)
          (manifestation_safe_result id r) document sub m)
       (settled_outcome (state_of_manifestation r) r (manifestation_safe_result id r)).
Proof.
  unfold told, settled_manifestation, settled_outcome. cbn [mf_state mf_safe_result].
  unfold state_of_manifestation. destruct (mr_outcome r); cbn; try (by auto). destruct (String.eqb _ _); cbn; auto.
Qed.

Lemma row_written_from m m' w0 w w' : manifestations (db w) = manifestations (db w0) -> row_written m m' w w' -> row_written m m' w0 w'.
Proof. intros He (f & H1 & H2 & H3). exists f. by rewrite <-He. Qed.

Lemma submit_inv m q w r w' :
  submit_manifestation (B:=B) m q w = (r, w') ->
  (next_uuid w <= next_uuid w')%N /\
  match r with
  | Ok o => exists m', row_written m m' w w' /\ told m' o
  | Err _ => manifestations (db w') = manifestations (db w)
  end.
Proof.
  assert (forall A (p : M B A) w1 a w2, moves (keeps manifestations) p -> p w1 = (a, w2) ->
    (next_uuid w1 <= next_uuid w2)%N /\ manifestations (db w2) = manifestations (db w1)) as Hkeep.
  { intros A p w1 a w2 Hp Hr. specialize (Hp w1). rewrite Hr in Hp. by destruct Hp as (? & _ & _ & ?). }
  unfold submit_manifestation, bind.
  destruct (_validate_manifestation_company q w) as [[u|e] w1] eqn:H1;
    apply Hkeep in H1 as [N1 M1]; try apply mkeeps_company; [|by intros [= <- <-]].
  destruct (_manifestation_parent q w1) as [[p|e] w2] eqn:H2;
    (apply Hkeep in H2 as [N2 M2]; [|unfold _manifestation_parent; frame_tac]);
    [|intros [= <- <-]; split; [lia|congruence]].
  destruct p as [document|reason].
  - unfold timezone_now, gets. destruct (in_memory _ w2) as [[a|e] w3] eqn:H3;
      (apply Hkeep in H3 as [N3 M3]; [|apply keeps_in_memory]); [|intros [= <- <-]; split; [lia|congruence]].
    destruct (_save_manifestation_state m _ _ _ _ _ _ w3) as [[u'|e] w4] eqn:Hs; pose proof (save_inv _ _ _ _ _ _ _ _ _ _ Hs) as [N4 H4];
      intros [= <- <-]; (split; [lia|]); [|cbn in H4; congruence].
    eexists. split; [|apply told_settled]. eapply row_written_from; [|by eapply save_written]. congruence.
  - destruct (_save_manifestation_state m _ _ _ _ _ _ w2) as [[u'|e] w4] eqn:Hs; pose proof (save_inv _ _ _ _ _ _ _ _ _ _ Hs) as [N4 H4];
      intros [= <- <-]; (split; [lia|]); [|cbn in H4; congruence].
    eexists. split; [eapply row_written_from; [|by eapply save_written]; congruence|]. split; [done|]. by left.
Qed.

(** The row a manifestation job names. *)
Definition job_manifestation (job : Job) (w : World B) : option NFeManifestation :=
  match and_then (item (job_payload job) "manifestation_id") uuid_lookup with
  | Ok (Some i) => manifestations (db w) !! i
  | _ => None
  end.

Lemma handle_inv job w r w' : handle_manifestation_job (B:=B) job w = (r, w') ->
  (next_uuid w <= next_uuid w')%N /\
  match r with
  | Ok (Outcome o) => exists m m', job_manifestation job w = Some m /\ told m' o /\
      if settled m then w' = w /\ m' = m else row_written m m' w w'
  | Ok (Mapping _) => False
  | Err _ => manifestations (db w') = manifestations (db w)
  end.
Proof.
  assert (forall w1 : World B, (next_uuid w1 <= next_uuid w1)%N /\ manifestations (db w1) = manifestations (db w1)) as Hsame
    by (split; [lia|done]).
  unfold handle_manifestation_job, job_manifestation, bind, lift_result.
  destruct (item (job_payload job) "manifestation_id") as [v|e]; cbn [and_then]; [|intros [= <- <-]; by apply Hsame].
  cbn [ret]. destruct (uuid_lookup v) as [i|e]; [|intros [= <- <-]; by apply Hsame].
  cbn [ret]. unfold autocommit, atomic. destruct (online w) eqn:Hon; [|intros [= <- <-]; by apply Hsame].
  unfold query, gets. destruct i as [i|]; cbn [mbind option_bind]; [|intros [= <- <-]; by apply Hsame].
  destruct (manifestations (db w) !! i) as [m|]; cbn [of_option ret]; [|intros [= <- <-]; by apply Hsame].
  case_bool_decide as Hacc.
  { intros [= <- <-]. split; [lia|]. exists m, m. rewrite settled_states, bool_decide_eq_true_2 by done. cbn.
    split; [done|]. split; [|done]. split; [done|]. by rewrite Hacc. }
  destruct (refused_manifestation (mf_state m)) eqn:Href.
  { intros [= <- <-]. split; [lia|]. exists m, m. rewrite settled_states, Href, orb_true_r.
    split; [done|]. split; [|done]. split; [done|]. destruct (mf_state m); try done; by left. }
  assert (settled m = false) as Hopen by (by rewrite settled_states, bool_decide_eq_false_2, Href).
  destruct (manifestation_of_payload (job_payload job)) as [q|e]; [|intros [= <- <-]; by apply Hsame].
  cbn [ret]. unfold try_except. destruct (submit_manifestation m q w) as [[o|e] w1] eqn:Hs; apply submit_inv in Hs as [N1 H1].
  { intros [= <- <-]. split; [done|]. destruct H1 as (m' & Hw & Ht). exists m, m'. by rewrite Hopen. }
  destruct (is_followup_error e); [|by intros [= <- <-]]. unfold bind.
  destruct (_save_manifestation_state m _ _ _ _ _ _ w1) as [[u|x] w2] eqn:Hs; pose proof (save_inv _ _ _ _ _ _ _ _ _ _ Hs) as [N2 H2];
    intros [= <- <-]; (split; [lia|]); [|cbn in H2; congruence].
  eexists m, _. rewrite Hopen. split; [done|].
  split; [|eapply row_written_from; [|by eapply save_written]; congruence]. split; [done|]. by left.
Qed.

Lemma row_written_manifests m m' w w' :
  (next_uuid w <= next_uuid w')%N -> manifestations (db w) !! mf_id m = Some m -> settled m = false ->
  row_written m m' w w' -> manifests w w'.
Proof. intros Hn Hm Ho (f & Hf & _ & Ht). by apply (manifests_alter w w' m f). Qed.

Lemma job_manifestation_row job w m : manifestation_inv w -> job_manifestation job w = Some m ->
  manifestations (db w) !! mf_id m = Some m.
Proof.
  unfold job_manifestation. intros Hw. destruct (and_then _ _) as [[i|]|]; [|done..]. intros Hm.
  by destruct (proj1 (mo_keyed _ _ Hw) _ _ Hm) as [-> _].
Qed.

Lemma manifests_handle job : moves manifests (handle_manifestation_job (B:=B) job).
Proof.
  intros w. destruct (handle_manifestation_job job w) as [r w'] eqn:Hh. apply handle_inv in Hh as [Hn Hr]. cbn [snd].
  split; [exact Hn|]. intros Hw. apply (fun h : manifests w w' => proj2 h Hw).
  destruct r as [[o|?]|e]; [|done|by apply manifests_same].
  destruct Hr as (m & m' & Hm & _ & Hc). apply job_manifestation_row in Hm; [|done].
  destruct (settled m) eqn:Ho; [by destruct Hc as [-> _]|by eapply row_written_manifests].
Qed.

(** *** Creation *)

Lemma job_free_new id job d : manifestation_job_taken id job d = false ->
  forall i x, manifestations d !! i = Some x -> mf_id x <> id -> mf_job x <> Some job.
Proof.
  unfold manifestation_job_taken. intros Hf i x Hi Hn Hj. rewrite exists_row_false in Hf. specialize (Hf i x Hi). cbn in Hf.
  rewrite bool_decide_eq_true_2 in Hf by done. apply N.eqb_neq in Hn. by rewrite Hn in Hf.
Qed.

(** What a creation that returns has done. *)
Lemma create_inv q actor policy w job w' : manifestation_inv w -> create_manifestation (B:=B) q actor policy w = (Ok job, w') ->
  (next_uuid w <= next_uuid w')%N /\
  ((exists m i, manifestations (db w) !! i = Some m /\ mf_idempotency_key m = manifestation_idempotency_key q /\
      exists j, mf_job m = Some j /\ jobs (db w) !! j = Some job /\ w' = w) \/
   (exists m, (next_uuid w < next_uuid w')%N /\ mf_id m = next_uuid w /\ mf_job m = Some (job_id job) /\
      mf_state m = NFeManifestationState.QUEUED /\ mf_idempotency_key m = manifestation_idempotency_key q /\
      (job_inv w -> jobs (db w') !! job_id job = Some job) /\
      (forall i x, manifestations (db w) !! i = Some x -> mf_idempotency_key x <> mf_idempotency_key m /\ mf_job x <> mf_job m) /\
      manifestations (db w') = put (mf_id m) m (manifestations (db w)))).
Proof.
  intros Hw. unfold create_manifestation. intros Hc. apply bind_inv in Hc as (row & w1 & Hq & Hc).
  apply query_inv in Hq as [-> ->]. destruct (first_where _ _ _) as [m|] eqn:Hf.
  - apply first_where_Some in Hf as [Hk [i Hi]]. apply String.eqb_eq in Hk.
    destruct (mf_job m) as [j|] eqn:Hj; [|discriminate Hc]. unfold get_job_row in Hc. invert_db. split; [lia|]. left. exists m, i. eauto 10.
  - pose proof (first_where_None _ _ _ Hf) as Hnew. invert_db.
    match goal with Hq : enqueue ?r ?w1 = (Ok ?j, ?w2) |- _ => pose proof (mkeeps_enqueue r w1) as He; rewrite Hq in He end.
    destruct He as (Hm & _ & _ & Hn). cbn [snd] in *. cbn in Hn.
    match goal with Ht : negb _ = true |- _ => apply negb_true_iff in Ht; pose proof (job_free_new _ _ _ Ht) as Hfree end.
    cbn in Hm. split; [cbn; lia|]. right.
    match goal with Hq : enqueue _ _ = (Ok ?j, ?w2) |- _ =>
      exists (new_manifestation (next_uuid w) (clock w) q (manifestation_idempotency_key q)
                <| mf_job := Some (job_id j) |> <| mf_updated_at := clock w2 |>) end.
    split; [cbn; lia|]. split; [reflexivity|]. split; [reflexivity|].
    split; [reflexivity|]. split; [reflexivity|]. split; [|split].
    + intros Hj. cbn. match goal with Hq : enqueue ?r ?w1 = _ |- _ => assert (job_inv w1) as Hj1 end.
      { apply (job_inv_kept w); [|done]. split_and!; try done. cbn. lia. }
      match goal with Hq : enqueue ?r ?w1 = _ |- _ => by destruct (enqueue_ok _ _ _ _ Hj1 Hq) as [? _] end.
    + intros i x Hi. cbn. split.
      * intros Hk. specialize (Hnew i x Hi). unfold manifestation_with_key in Hnew. by rewrite Hk, String.eqb_refl in Hnew.
      * pose proof (keyed_fresh _ _ _ _ (mo_keyed _ _ Hw)) as Hfresh. destruct (proj1 (mo_keyed _ _ Hw) _ _ Hi) as [Hid Hlt].
        apply (Hfree i); [|lia]. rewrite Hm. unfold put. by rewrite lookup_insert_ne by lia.
    + cbn. rewrite Hm. unfold put. apply insert_insert_eq.
Qed.

(** What the checks say when they pass; they only read. *)
Lemma company_passed q w u w' : _validate_manifestation_company (B:=B) q w = (Ok u, w') -> w' = w.
Proof. unfold _validate_manifestation_company, usable_certificate, followup_require. intros. by invert_db. Qed.

Lemma context_passed company document flow w u w' : _validate_document_context (B:=B) company document flow w = (Ok u, w') ->
  w' = w /\ exists_row (active_company company) (companies (db w)) = true /\
  exists_row (nfe_document document company flow) (documents (db w)) = true.
Proof. unfold _validate_document_context, usable_certificate, followup_require. intros. by invert_db. Qed.

Lemma policy_passed policy source at_ w p w' : effective_policy (B:=B) policy source at_ w = (Ok p, w') -> w' = w.
Proof. unfold effective_policy, select_policy. destruct policy; intros; by invert_db. Qed.

Lemma manifests_create q actor policy : moves manifests (atomic (create_manifestation (B:=B) q actor policy)).
Proof.
  intros w. assert (moves (keeps (fun _ => tt)) (create_manifestation (B:=B) q actor policy)) as Hk.
  { unfold create_manifestation, get_job_row. cbv zeta. frame_tac; by apply keeps_enqueue. }
  specialize (Hk w). unfold atomic. destruct (online w); [|reflexivity].
  destruct (create_manifestation q actor policy w) as [[job|e] w'] eqn:Hc; cbn [snd] in *; destruct Hk as (_ & _ & _ & Hn).
  - split; [exact Hn|]. intros Hw. destruct (create_inv _ _ _ _ _ _ Hw Hc) as [_ [(m & i & _ & _ & j & _ & _ & ->)|
      (m & Hlt & Hid & Hjob & _ & _ & _ & Hnew & Ht)]]; [by split|].
    apply (fun h : manifests w w' => proj2 h Hw). apply (manifests_put w w' m); done || by rewrite Hjob.
  - apply manifests_same; [exact Hn|done].
Qed.

Lemma manifests_enqueue q a p : moves manifests (enqueue_manifestation (B:=B) q a p).
Proof.
  assert (forall A C (m : M B A) (k : A -> M B C), moves (keeps manifestations) m -> (forall x, moves manifests (k x)) ->
    moves manifests (bind m k)) as Hb by (intros; apply moves_bind; [apply _|by apply manifests_keeps|done]).
  unfold enqueue_manifestation, followup_require, effective_policy, select_policy.
  apply Hb; [frame_tac|intros _]. apply Hb; [frame_tac|intros x]. apply Hb; [apply mkeeps_company|intros _].
  apply Hb; [frame_tac|intros now]. apply Hb; [frame_tac|intros policy]. apply manifests_create.
Qed.
End frames.
