(* ===== verification/FollowUpGuarantees.v ===== *)
(** * NF-e follow-up: the properties

    The life of the manifestations along any interleaving of the service's
    operations, the idempotence of their creation, what a manifestation job
    answers and records, and what it takes to keep a complete XML. *)

From Stdlib Require Import ZArith Ascii String Lia.
From stdpp Require Import base decidable list gmap strings relations.
From S2P Require Import Prelude PyStr Sha256 PyVal Memory AuditTrail Identity Companies JobPolicies JobEngine JobLifecycle JobGuarantees Models Tables Artifacts ArtifactFacts Documents DocumentFacts Simulation Ingestion Certificates CollectionFacts Retention Deletion DeletionCompletion DeletionEffects NFeDistribution FollowUp FollowUpService FollowUpFacts.

Local Open Scope string_scope.

Section guarantees.
Context {B : Type} `{!External B, !ObjectStore B} {laws : ObjectStoreLaws B} `{!Holds B FollowUpMemory} `{!XmlParser}.
Context {heap : Heap} {external : ExternalLaws B} (limit : Z).
Implicit Types w : World B.

(** ** Every interleaving *)

Inductive FollowUpOp : Type :=
| EnqueueScience (q : NFeScienceRequest) (actor : option SessionIdentity) (policy : option JobPolicy)
| EnqueueManifestation (q : NFeManifestationRequest) (actor : option SessionIdentity) (policy : option JobPolicy)
| ScienceJob (job : Job)
| XmlJob (job : Job)
| ManifestationJob (job : Job)
| IngestEvents (q : NFeEventRequest).

Definition run_followup (op : FollowUpOp) w : World B :=
  match op with
  | EnqueueScience q a p => (enqueue_science q a p w).2
  | EnqueueManifestation q a p => (enqueue_manifestation q a p w).2
  | ScienceJob job => (handle_science_job job w).2
  | XmlJob job => (handle_xml_job limit job w).2
  | ManifestationJob job => (handle_manifestation_job job w).2
  | IngestEvents q => (ingest_events limit q w).2
  end.

(** An operation of the service, a command of controlled deletion, or anything that
    leaves its rows alone. *)
Inductive followup_step : World B -> World B -> Prop :=
| is_followup op w : followup_step w (run_followup op w)
| is_deletion c w : followup_step w (run_deletion c w)
| is_elsewhere w w' : manifestations (db w') = manifestations (db w) -> (next_uuid w <= next_uuid w')%N -> followup_step w w'.

Lemma manifests_operation op w : manifests w (run_followup op w).
Proof using laws.
  destruct op as [q a p|q a p|job|job|job|q]; cbn [run_followup].
  - apply (manifests_keeps _ (mkeeps_enqueue_science q a p)).
  - apply manifests_enqueue.
  - apply (manifests_keeps _ (mkeeps_science job)).
  - apply (manifests_keeps _ (mkeeps_xml limit job)).
  - apply manifests_handle.
  - apply (manifests_keeps _ (mkeeps_events limit q)).
Qed.

(** A deletion takes the document from a manifestation, and nothing else. *)
Lemma released_ok w w' : affects w w' -> manifestation_inv w -> manifestation_inv w'.
Proof.
  intros [He Hn] [[Hk Hu] Hj Hd]. pose proof (ef_manifestations _ _ He) as Hm.
  assert (forall i m', manifestations (db w') !! i = Some m' -> exists m, manifestations (db w) !! i = Some m /\ same_order m m') as Hback.
  { intros i m' Hi. specialize (Hm i). rewrite Hi in Hm. destruct (manifestations (db w) !! i) as [m|]; [|done].
    exists m. split; [done|]. destruct Hm as [->|[-> _]]; [reflexivity|by split_and!]. }
  split; [split|..].
  - intros i m' (m & Hi & Hs)%Hback. destruct (Hk _ _ Hi) as [Hid Hlt]. destruct Hs as (-> & _). split; [done|lia].
  - intros i j m' x' (m & Hi & Hs)%Hback (x & Hx & Hs')%Hback. destruct Hs as (_ & _ & _ & _ & _ & _ & _ & _ & _ & _ & -> & _).
    destruct Hs' as (_ & _ & _ & _ & _ & _ & _ & _ & _ & _ & -> & _). by apply Hu.
  - intros i m' (m & Hi & Hs)%Hback. destruct Hs as (_ & _ & _ & _ & _ & _ & _ & _ & _ & _ & _ & -> & _). by eapply Hj.
  - intros i j m' x' (m & Hi & Hs)%Hback (x & Hx & Hs')%Hback. destruct Hs as (_ & _ & _ & _ & _ & _ & _ & _ & _ & _ & _ & -> & _).
    destruct Hs' as (_ & _ & _ & _ & _ & _ & _ & _ & _ & _ & _ & -> & _). by apply Hd.
Qed.

(** Between [w] and [w'] a command of controlled deletion removed the document [i]. *)
Definition deleted_between (i : N) w w' : Prop :=
  exists w1 c, rtc followup_step w w1 /\ went i (db w1) (db (run_deletion c w1)) /\ rtc followup_step (run_deletion c w1) w'.

Lemma deleted_later i w w1 w2 : deleted_between i w w1 -> followup_step w1 w2 -> deleted_between i w w2.
Proof. intros (w0 & c & H1 & Hg & H2) Hs. exists w0, c. split; [done|]. split; [done|]. by eapply rtc_r. Qed.

(** What becomes of a row: its order stays, and once settled it only loses its
    document, when that one is deleted. *)
Definition row_life w w' (m m' : NFeManifestation) : Prop :=
  same_order m m' /\
  (settled m = true -> m' = m \/ (m' = m <| mf_document := None |> /\ exists i, mf_document m = Some i /\ deleted_between i w w')).

(** One more step, of a row that is already what [row_life] says. *)
Lemma row_life_step w w1 w2 m m1 m2 :
  row_life w w1 m m1 -> followup_step w1 w2 -> same_order m1 m2 ->
  (settled m1 = true -> m2 = m1 \/ (m2 = m1 <| mf_document := None |> /\
     exists i, mf_document m1 = Some i /\ deleted_between i w w2)) ->
  row_life w w2 m m2.
Proof.
  intros [S1 F1] Hs S2 F2. split; [by etrans|]. intros Hf. destruct (F1 Hf) as [->|(-> & i & Hi & Hg)]; [by apply F2|].
  right. assert (m2 = m <| mf_document := None |>) as -> by (destruct (F2 Hf) as [->|[-> _]]; done).
  split; [done|]. exists i. split; [done|]. by eapply deleted_later.
Qed.

Lemma followup_life w w' :
  rtc followup_step w w' -> manifestation_inv w ->
  manifestation_inv w' /\ forall i m, manifestations (db w) !! i = Some m ->
    exists m', manifestations (db w') !! i = Some m' /\ row_life w w' m m'.
Proof using laws external.
  intros Hr Hw. revert w' Hr. apply (rtc_ind_r (fun w' => manifestation_inv w' /\ forall i m, manifestations (db w) !! i = Some m ->
    exists m', manifestations (db w') !! i = Some m' /\ row_life w w' m m') w).
  { split; [done|]. intros i m Hi. exists m. split; [done|]. split; [reflexivity|by left]. }
  intros w1 w2 Hr Hs [Hw1 IH].
  assert (forall m m1 m2, row_life w w1 m m1 -> same_order m1 m2 -> (settled m1 = true -> m2 = m1) -> row_life w w2 m m2) as Hplain.
  { intros m m1 m2 Hl Ho Hf. eapply row_life_step; [exact Hl|exact Hs|exact Ho|]. intros Hset. left. by apply Hf. }
  assert (manifests w1 w2 -> manifestation_inv w2 /\ forall i m, manifestations (db w) !! i = Some m ->
    exists m', manifestations (db w2) !! i = Some m' /\ row_life w w2 m m') as Hown.
  { intros [_ Hm]. destruct (Hm Hw1) as [Hw2 Hmv]. split; [done|]. intros i m (m1 & H1 & Hl)%IH.
    destruct (Hmv _ _ H1) as (m2 & H2 & Ho & Hf). exists m2. split; [done|]. by eapply Hplain. }
  inversion Hs as [op x|c x|x y Ht Hn]; subst; [by apply Hown, manifests_operation| |by apply Hown, manifests_same].
  pose proof (affects_command c w1) as Ha. split; [by eapply released_ok|]. intros i m (m1 & H1 & Hl)%IH.
  pose proof (ef_manifestations _ _ (proj1 Ha) i) as Hi. rewrite H1 in Hi.
  destruct (manifestations (db (run_deletion c w1)) !! i) as [m2|]; [|done]. exists m2. split; [done|].
  destruct Hi as [->|(-> & k & Hk & Hg)]; [by eapply Hplain|]. eapply row_life_step; [exact Hl|exact Hs|by split_and!|].
  intros _. right. split; [done|]. exists k. split; [done|]. exists w1, c. split; [done|]. split; [done|reflexivity].
Qed.

(** C6 Along every interleaving of enqueues, science, XML and manifestation jobs, event ingestion, commands of controlled
    deletion and whatever else leaves the table alone: there is one manifestation per idempotency key, each with a job of
    its own; no row disappears or changes what was asked for; and a manifestation that was accepted, denied, blocked,
    quarantined or in conflict stays exactly as it is, except that it loses its document when a deletion in between
    removed that document. *)
Theorem manifestation_life w w' :
  manifestation_inv w -> rtc followup_step w w' ->
  manifestation_inv w' /\
  forall i m, manifestations (db w) !! i = Some m -> exists m', manifestations (db w') !! i = Some m' /\ same_order m m' /\
    (settled m = true ->
     m' = m \/ (m' = m <| mf_document := None |> /\ exists document, mf_document m = Some document /\ deleted_between document w w')).
Proof using laws external. intros Hw Hs. by apply followup_life. Qed.

(** ** Creation is idempotent *)

(** An enqueue that returns: the row of its key, and the row's job. *)
Lemma enqueue_manifestation_inv q a p w job w' :
  manifestation_inv w -> enqueue_manifestation (B:=B) q a p w = (Ok job, w') ->
  exists actor policy, create_manifestation (B:=B) q actor policy w = (Ok job, w').
Proof.
  intros Hw. unfold enqueue_manifestation. intros He.
  apply bind_inv in He as (u1 & w1 & H1 & He). apply require_inv in H1 as [_ ->].
  apply bind_inv in He as (s & w1 & H1 & He). apply of_option_inv in H1 as [_ ->].
  apply bind_inv in He as (u2 & w1 & ->%company_passed & He).
  apply bind_inv in He as (now & w1 & H1 & He). apply now_inv in H1 as [-> ->].
  apply bind_inv in He as (policy & w1 & ->%policy_passed & He). apply atomic_inv in He as [_ He]. eauto.
Qed.

(** C14 Enqueueing is idempotent for good: when a manifestation was enqueued, and after any interleaving of operations one
    with the same company, document, flow, type and reference is enqueued again, by whoever, the second call answers
    with the job of the first and changes nothing in the database; there is one row for the two. *)
Theorem manifestation_enqueue_idempotent q a p w job w1 w2 q' a' p' job' w3 :
  manifestation_inv w -> job_inv w ->
  enqueue_manifestation (B:=B) q a p w = (Ok job, w1) -> rtc followup_step w1 w2 ->
  manifestation_idempotency_key q' = manifestation_idempotency_key q ->
  enqueue_manifestation (B:=B) q' a' p' w2 = (Ok job', w3) ->
  w3 = w2 /\ exists i m m' j,
    manifestations (db w1) !! i = Some m /\ mf_idempotency_key m = manifestation_idempotency_key q /\ mf_job m = Some j /\
    jobs (db w1) !! j = Some job /\
    manifestations (db w2) !! i = Some m' /\ same_order m m' /\ jobs (db w2) !! j = Some job' /\
    (forall k x, manifestations (db w2) !! k = Some x -> mf_idempotency_key x = manifestation_idempotency_key q -> k = i).
Proof using laws external.
  intros Hw Hj He1 Hs Hkey He2.
  pose proof (manifests_enqueue q a p w) as [_ Hm1]. rewrite He1 in Hm1. destruct (Hm1 Hw) as [Hw1 _]. cbn [snd] in Hw1.
  destruct (followup_life _ _ Hs Hw1) as [Hw2 Hmoves].
  apply enqueue_manifestation_inv in He1 as (actor & policy & Hc1); [|done].
  apply enqueue_manifestation_inv in He2 as (actor' & policy' & Hc2); [|done].
  assert (exists i m j, manifestations (db w1) !! i = Some m /\ mf_idempotency_key m = manifestation_idempotency_key q /\
    mf_job m = Some j /\ jobs (db w1) !! j = Some job) as (i & m & j & Hi & Hk & Hmj & Hjob).
  { destruct (create_inv _ _ _ _ _ _ Hw Hc1) as [_ [(m & i & Hi & Hk & j & Hmj & Hjob & ->)|
      (m & _ & _ & Hmj & _ & Hk & Hjob & _ & Ht)]]; [by exists i, m, j|].
    exists (mf_id m), m, (job_id job). rewrite Ht. unfold put. rewrite lookup_insert_eq. split_and!; try done. by apply Hjob. }
  destruct (Hmoves i m Hi) as (m' & Hi' & Hsame & _).
  pose proof Hsame as (_ & _ & _ & _ & _ & _ & _ & _ & _ & _ & Hk' & Hj' & _).
  assert (forall k x, manifestations (db w2) !! k = Some x -> mf_idempotency_key x = manifestation_idempotency_key q -> k = i) as Huniq.
  { intros k x Hx Hxk. apply (proj2 (mo_keyed _ _ Hw2) k i x m' Hx Hi'). congruence. }
  destruct (create_inv _ _ _ _ _ _ Hw2 Hc2) as [_ [(x & k & Hx & Hxk & j' & Hxj & Hjob' & ->)|
    (x & _ & _ & _ & _ & Hxk & _ & Hnew & _)]].
  - split; [done|]. rewrite Hkey in Hxk. pose proof (Huniq k x Hx Hxk) as ->.
    exists i, m, m', j. split_and!; try done. replace j with j' by congruence. done.
  - destruct (Hnew i m' Hi') as [Hne _]. congruence.
Qed.

(** ** What a manifestation job answers and records *)

(** C22 A manifestation job that returns says what the row says: the answer carries the recorded result, it is a success
    exactly when the row is accepted, a cooldown or a temporary failure exactly when the row waits for another try, and
    a permanent or partial failure when the row is settled otherwise; a row that was settled before answers without
    any change of the world. *)
Theorem manifestation_answer_recorded job w r w' :
  manifestation_inv w -> handle_manifestation_job (B:=B) job w = (Ok r, w') ->
  exists o m m', r = Outcome o /\ job_manifestation job w = Some m /\ job_manifestation job w' = Some m' /\
    same_order m m' /\ told m' o /\ (settled m = true -> w' = w).
Proof.
  intros Hw Hh. apply handle_inv in Hh as [_ Hr]. destruct r as [o|?]; [|done].
  destruct Hr as (m & m' & Hm & Ht & Hc). exists o, m, m'. split; [done|]. split; [done|].
  destruct (settled m); [by destruct Hc as [-> ->]|]. destruct Hc as (f & Hf & <- & Htab).
  pose proof (job_manifestation_row job w m Hw Hm) as Hrow. split_and!; try done.
  unfold job_manifestation in *. destruct (and_then _ _) as [[i|]|]; [|done..]. rewrite Htab.
  destruct (proj1 (mo_keyed _ _ Hw) _ _ Hm) as [-> _]. by rewrite lookup_alter_eq, Hm.
Qed.

(** ** The complete XML *)

(** [a] is the finalised row of exactly these bytes. *)
Definition holds_payload (a : Artifact) (payload : string) w : Prop :=
  artifacts (db w) !! art_id a = Some a /\ is_finalized a = true /\ art_digest a = sha256 payload.

Lemma artifact_query_inv key w o w' : artifact_inv w -> artifact_with_key (B:=B) key w = (Ok o, w') ->
  w' = w /\ online w = true /\ match o with Some a => artifacts (db w) !! art_id a = Some a | None => True end.
Proof.
  intros Hw. unfold artifact_with_key. intros Hq. apply atomic_inv in Hq as [Ho Hq]. apply query_inv in Hq as [-> ->].
  split_and!; try done. destruct (first_where _ _ _) as [a|] eqn:Hf; [|done].
  apply first_where_Some in Hf as [_ [i Hi]]. by rewrite (aok_keyed _ (proj1 Hw) _ _ Hi).
Qed.

(** The artifact handed back holds the payload, found again or stored now. *)
Lemma ensure_followup_inv class key ct payload w a w' :
  artifact_inv w -> _ensure_followup_artifact (B:=B) limit class key ct payload w = (Ok a, w') ->
  holds_payload a payload w' /\ artifact_inv w'.
Proof using laws.
  intros Hw. unfold _ensure_followup_artifact. intros He. apply bind_inv in He as (existing & w1 & Hq & He).
  apply (artifact_query_inv _ _ _ _ Hw) in Hq as (-> & Hon & Hex). apply bind_inv in He as (a1 & w1 & H1 & He).
  assert (artifact_inv w1 /\ online w1 = true /\ artifacts (db w1) !! art_id a1 = Some a1) as (Hw1 & Ho1 & Ha1).
  { destruct existing as [x|]; [by apply ret_inv in H1 as [-> ->]|].
    pose proof (inv_begin class key ct w Hw) as Hb. unfold try_except in H1.
    destruct (begin class key ct w) as [[x|e] w2] eqn:Hbeg; cbn in Hb.
    - injection H1 as <- <-. apply begin_inv in Hbeg as (? & ? & _). by split.
    - apply bind_inv in H1 as (again & w3 & Hq & H1). apply (artifact_query_inv _ _ _ _ Hb) in Hq as (-> & Ho2 & Hag).
      apply of_option_inv in H1 as [-> ->]. by split. }
  apply bind_inv in He as (a2 & w2 & H2 & He).
  assert (artifact_inv w2 /\ artifacts (db w2) !! art_id a2 = Some a2 /\ is_finalized a2 = true) as (Hw2 & Ha2 & Hf2).
  { destruct (is_finalized a1) eqn:Hf; [by apply ret_inv in H2 as [-> ->]|]. unfold try_except in H2.
    pose proof (inv_transmit limit (art_id a1) [VBytes payload] w1 Hw1) as Hi.
    destruct (transmit limit (art_id a1) [VBytes payload] w1) as [[x|e] w3] eqn:Ht; cbn in Hi.
    - injection H2 as <- <-. split; [exact Hi|]. destruct (is_pending a1) eqn:Hp.
      + pose proof (transmit_holds limit (art_id a1) [VBytes payload] a1 w1 Hw1 Ho1 Ha1 Hp) as Hh. rewrite Ht in Hh.
        destruct Hh as (body & _ & _ & Hfx & _ & _ & _ & -> & _). split; [apply lookup_insert_eq|done].
      + unfold transmit in Ht. apply bind_inv in Ht as (y & w4 & Hg & Ht). apply atomic_inv in Hg as [_ Hg].
        rewrite get_artifact_run, Ha1 in Hg. injection Hg as <- <-. by rewrite Hp in Ht.
    - apply bind_inv in H2 as (y & w4 & Hg & H2). apply atomic_inv in Hg as [_ Hg]. rewrite get_artifact_run in Hg.
      destruct (artifacts (db w3) !! art_id a1) as [z|] eqn:Hz; [|done]. injection Hg as <- <-.
      apply bind_inv in H2 as (u & w4 & Hq & H2). apply require_inv in Hq as [Hf' ->]. apply ret_inv in H2 as [-> ->].
      split; [exact Hi|]. by rewrite (aok_keyed _ (proj1 Hi) _ _ Hz). }
  apply bind_inv in He as (u & w3 & Hq & He). apply require_inv in Hq as [Hd%String.eqb_eq ->]. apply ret_inv in He as [-> ->].
  by split.
Qed.

(** [document] has a row of evidence for [artifact]. *)
Definition evidence_for (document artifact : N) w : Prop :=
  exists i e, evidence (db w) !! i = Some e /\ ev_document e = document /\ ev_artifact e = artifact.

Lemma attach_evidence_inv document artifact w r w' :
  artifact_inv w -> attach_document_evidence (B:=B) document artifact w = (Ok r, w') ->
  exists d a doc, uuid_of document = Some d /\ uuid_of artifact = Some a /\ documents (db w') !! d = Some doc /\
    evidence_for (doc_id doc) a w' /\ artifacts (db w') = artifacts (db w) /\ artifact_inv w'.
Proof.
  intros Hw He. assert (moves (keeps artifacts) (attach_document_evidence (B:=B) document artifact)) as Hk.
  { unfold attach_document_evidence, _artifact, _artifact_size, create_evidence. frame_tac. }
  assert (moves (keeps documents) (attach_document_evidence (B:=B) document artifact)) as Hkd.
  { unfold attach_document_evidence, _artifact, _artifact_size, create_evidence. frame_tac. }
  specialize (Hk w). rewrite He in Hk. destruct Hk as (Hka & _ & _ & Hkn). cbn [snd] in Hka, Hkn.
  specialize (Hkd w). rewrite He in Hkd. destruct Hkd as (Hkd & _). cbn [snd] in Hkd.
  assert (artifact_inv w') as Hw'.
  { destruct Hw as [H1 H2]. split; rewrite Hka; [done|]. intros i Hi. specialize (H2 i Hi). lia. }
  unfold attach_document_evidence in He. apply bind_inv in He as (a & w1 & Ha & He).
  apply artifact_of_inv in Ha as (aid & Haid & Ha & _ & ->). apply bind_inv in He as (d & w1 & Hd & He).
  apply of_option_inv in Hd as [Hd ->]. apply atomic_inv in He as [_ He].
  apply bind_inv in He as (row & w1 & Hq & He). apply query_inv in Hq as [-> ->].
  apply bind_inv in He as (doc & w1 & Hdoc & He). apply of_option_inv in Hdoc as [Hdoc ->].
  apply bind_inv in He as (known & w1 & Hq & He). apply query_inv in Hq as [-> ->].
  exists d, aid, doc. rewrite Hkd. pose proof (aok_keyed _ (proj1 Hw) _ _ Ha) as Hid. split_and!; try done.
  destruct (first_by _ _) as [e|] eqn:Hf.
  - apply ret_inv in He as [_ ->]. apply first_by_elem, elem_of_select in Hf as [Hp [i Hi]].
    apply andb_prop in Hp as [H1%N.eqb_eq H2%N.eqb_eq]. exists i, e. split_and!; [done..|congruence].
  - unfold _artifact_size in He. invert_db.
    match goal with Hc : create_evidence _ _ _ _ _ _ = _ |- _ => apply create_evidence_inv in Hc as [-> ->] end.
    match goal with Hc : append _ _ = _ |- _ => apply append_frame in Hc as Hfr end.
    pose proof (frame_evidence _ _ Hfr) as Hes. cbn in Hes. eexists _, _. rewrite Hes. split; [apply lookup_insert_eq|].
    by split.
Qed.

(** The memory permits what its history of science requests permits. *)
Lemma complete_xml_memory q w response w' :
  in_memory (B:=B) (on_followup (complete_xml q)) w = (Ok response, w') ->
  permitted (xq_document_id q, xq_flow q, xq_science_correlation_id q) (fl_transport (fm_followup (held (bucket w)))) = true /\
  db w' = db w /\ next_uuid w' = next_uuid w.
Proof.
  intros Hm. destruct (in_memory_only (on_followup (complete_xml q)) w) as [b Hb]. rewrite Hm in Hb. cbn in Hb. subst w'.
  split; [|done]. pose proof (in_memory_result (on_followup (complete_xml q)) w) as Hr. rewrite Hm in Hr. cbn [fst] in Hr.
  unfold on_followup, complete_xml, bind, on_transport, simulator_complete_xml, gets, require in Hr.
  set (mem := fl_transport _) in *. unfold bind in Hr. by destruct (permitted _ mem).
Qed.

Lemma keep_complete_xml_inv q w original kept w' :
  artifact_inv w -> keep_complete_xml (B:=B) limit q w = (Ok (original, kept), w') ->
  exists response xml doc a,
    exists_row (nfe_document (xq_document_id q) (xq_company_id q) (xq_flow q)) (documents (db w)) = true /\
    permitted (xq_document_id q, xq_flow q, xq_science_correlation_id q) (fl_transport (fm_followup (held (bucket w)))) = true /\
    _validate_followup_xml response = Ok tt /\ holds_payload xml (xr_xml_payload response) w' /\
    uuid_of (RefUuid (art_id xml)) = Some a /\
    (exists d, uuid_of (RefUuid (xq_document_id q)) = Some d /\ documents (db w') !! d = Some doc) /\ evidence_for (doc_id doc) a w'.
Proof using laws.
  intros Hw. unfold keep_complete_xml. intros Hk. apply bind_inv in Hk as (u & w1 & (-> & _ & Hdoc)%context_passed & Hk).
  apply bind_inv in Hk as (response & w1 & (Hp & Hdb & Hnext)%complete_xml_memory & Hk). cbv zeta in Hk.
  assert (artifact_inv w1) as Hw1 by (unfold artifact_inv; by rewrite Hdb, Hnext).
  apply bind_inv in Hk as (o & w2 & [Ho Hw2]%ensure_followup_inv & Hk); [|done].
  apply bind_inv in Hk as (r1 & w3 & Hat & Hk). apply attach_evidence_inv in Hat as (_ & _ & _ & _ & _ & _ & _ & _ & Hw3); [|done].
  apply bind_inv in Hk as (v & w4 & Hv & Hk). apply lift_inv in Hv as [Hv ->]. destruct v.
  apply bind_inv in Hk as (xml & w4 & [Hx Hw4]%ensure_followup_inv & Hk); [|done].
  apply bind_inv in Hk as (r2 & w5 & Hat & Hk).
  apply attach_evidence_inv in Hat as (d & a & doc & Hd & Ha & Hrow & Hev & Hart & _); [|done].
  apply ret_inv in Hk as [[= <- <-] ->]. exists response, xml, doc, a. split_and!; try done; [|by exists d].
  destruct Hx as (H1 & H2 & H3). split_and!; try done. by rewrite Hart.
Qed.

(** The science job an XML job names. *)
Definition named_science (job : Job) w : option Job :=
  match and_then (item (job_payload job) "science_job_id") uuid_lookup with
  | Ok (Some i) => jobs (db w) !! i
  | _ => None
  end.

(** A science job that ended well and said the XML may be retrieved. *)
Definition gave_permission (j : Job) : Prop :=
  job_state j = JobState.COMPLETED /\
  exists d v, job_safe_result j = Some (VDict d) /\ dget d "retrieval_permitted" = Some v /\ truthy v = true.

Lemma science_permitted_spec j : science_permitted j = true <-> gave_permission j.
Proof.
  unfold science_permitted, gave_permission. rewrite andb_true_iff, bool_decide_eq_true. split.
  - intros [H1 H2]. split; [done|]. destruct (job_safe_result j) as [v|]; [|done]. destruct v; try done.
    destruct (dget _ "retrieval_permitted") as [v|] eqn:Hd; [|done]. by eexists _, v.
  - intros (H1 & d & v & -> & -> & H3). done.
Qed.

(** C5 No complete XML without its Ciencia: when the XML job's science job is missing, unfinished or did not permit the
    retrieval, the job is refused for good and nothing changes.  When it succeeds, that job had completed with a
    permission, the process itself remembered a permission for the same document, flow and correlation, the document was
    an NF-e of that company and flow, the XML passed the validation, and the document has evidence of a finalised artifact
    holding exactly those bytes. *)
Theorem complete_xml_needs_science job w r w' :
  artifact_inv w -> handle_xml_job (B:=B) limit job w = (Ok r, w') ->
  (exists j q, named_science job w = Some j /\ gave_permission j /\ xml_of_payload (job_payload job) = Ok q /\
     (r = Outcome (outcome_permanent "xml_rejected" []) \/
       exists original kept response xml doc a,
         r = Outcome (outcome_success [("document_id", VStr (uuid_str (xq_document_id q)));
               ("complete_evidence_id", VStr (uuid_str (ea_evidence_id kept))); ("original_evidence_id", VStr (uuid_str (art_id original)))]) /\
         exists_row (nfe_document (xq_document_id q) (xq_company_id q) (xq_flow q)) (documents (db w)) = true /\
         permitted (xq_document_id q, xq_flow q, xq_science_correlation_id q) (fl_transport (fm_followup (held (bucket w)))) = true /\
         _validate_followup_xml response = Ok tt /\ holds_payload xml (xr_xml_payload response) w' /\
         uuid_of (RefUuid (art_id xml)) = Some a /\
         (exists d, uuid_of (RefUuid (xq_document_id q)) = Some d /\ documents (db w') !! d = Some doc) /\
         evidence_for (doc_id doc) a w')) \/
  ((forall j, named_science job w = Some j -> ~ gave_permission j) /\
   r = Outcome (outcome_permanent "science_required" []) /\ w' = w).
Proof using laws.
  intros Hw. unfold handle_xml_job, named_science. intros Hh. apply bind_inv in Hh as (v & w1 & Hi & Hh).
  apply lift_inv in Hi as [-> ->]. apply bind_inv in Hh as (i & w1 & Hi & Hh). apply lift_inv in Hi as [Hi ->].
  cbn [and_then]. rewrite Hi. apply bind_inv in Hh as (science & w1 & Hq & Hh).
  apply atomic_inv in Hq as [_ Hq]. apply query_inv in Hq as [-> ->].
  assert ((match i with Some i0 => jobs (db w) !! i0 | None => None end) = (i ≫= fun i0 => jobs (db w) !! i0)) as -> by (by destruct i).
  destruct (i ≫= fun i0 => jobs (db w) !! i0) as [j|].
  2: { apply ret_inv in Hh as [-> ->]. right. by split_and!. }
  destruct (science_permitted j) eqn:Hp; cbn [negb] in Hh.
  2: { apply ret_inv in Hh as [-> ->]. right. split_and!; [|done..]. intros ? [= <-] Hg%science_permitted_spec. congruence. }
  left. apply bind_inv in Hh as (q & w1 & Hx & Hh). apply lift_inv in Hx as [Hx ->].
  exists j, q. split; [done|]. split; [by apply science_permitted_spec|]. split; [done|].
  unfold or_rejected in Hh. apply bind_inv in Hh as (kept & w2 & Hk & Hh). unfold try_except, bind, ret in Hk.
  destruct (keep_complete_xml limit q w) as [[[original ev]|e] w3] eqn:Hkeep.
  - injection Hk as <- <-. apply ret_inv in Hh as [-> ->]. right.
    destruct (keep_complete_xml_inv _ _ _ _ _ Hw Hkeep) as (response & xml & doc & a & Hall). by exists original, ev, response, xml, doc, a.
  - destruct (is_followup_error e); [|discriminate Hk]. injection Hk as <- <-. apply ret_inv in Hh as [-> _]. by left.
Qed.

(** ** The Ciencia *)

Definition science_key (q : NFeScienceRequest) : N * NFeFlow.t * string := (sq_document_id q, sq_flow q, sq_correlation_id q).

(** What the process remembers of science. *)
Definition science_memory w : gmap (N * NFeFlow.t * string) NFeScienceResult := fz_science (fl_transport (fm_followup (held (bucket w)))).

Lemma simulator_science_inv q s r s' : simulator_science q s = (Ok r, s') -> fz_science s' !! science_key q = Some r.
Proof.
  unfold simulator_science. intros Hs. apply bind_inv in Hs as (known & s1 & Hg & Hs). apply gets_inv in Hg as [-> ->].
  destruct (fz_science s !! _) as [r0|] eqn:Hk; [by apply ret_inv in Hs as [-> ->]|].
  apply bind_inv in Hs as (sc & s1 & Hg & Hs). apply gets_inv in Hg as [-> ->].
  apply bind_inv in Hs as (r1 & s1 & Hg & Hs). apply lift_inv in Hg as [_ ->].
  apply bind_inv in Hs as (u & s1 & Hg & Hs). apply modify_inv in Hg as ->. apply ret_inv in Hs as [-> ->].
  cbn. apply lookup_insert_eq.
Qed.

Lemma science_memory_inv `{!HoldsLaws B FollowUpMemory} q w r w' :
  in_memory (B:=B) (on_followup (science q)) w = (Ok r, w') ->
  db w' = db w /\ next_uuid w' = next_uuid w /\ clock w' = clock w /\ science_memory w' !! science_key q = Some r /\
  sr_document_id r = sq_document_id q /\ sr_flow r = sq_flow q.
Proof.
  unfold in_memory, on_followup, science_memory. destruct (science q (fm_followup (held (bucket w)))) as [x c] eqn:Hs.
  intros [= -> <-]. cbn [db next_uuid clock bucket upd]. split_and!; try done; cbn; rewrite ?held_hold; cbn [fm_followup].
  all: unfold science in Hs; apply bind_inv in Hs as (u & c1 & _ & Hs); apply bind_inv in Hs as (r1 & c2 & Ht & Hs);
    apply bind_inv in Hs as (u2 & c3 & Hr & Hs); apply require_inv in Hr as [[H1%N.eqb_eq H2%bool_decide_eq_true_1]%andb_prop ->];
    apply bind_inv in Hs as (u3 & c4 & Ha & Hs); apply ret_inv in Hs as [-> ->]; try done.
  apply modify_inv in Ha as ->. cbn [fl_transport]. unfold on_transport in Ht.
  destruct (simulator_science q (fl_transport c1)) as [r2 s2] eqn:Hsim. injection Ht as -> <-. cbn [fl_transport].
  by eapply simulator_science_inv.
Qed.

Lemma policy_of_job_inv job w p w' : policy_of_job (B:=B) job w = (Ok p, w') -> w' = w.
Proof. unfold policy_of_job. intros. by invert_db. Qed.

(** C23 A Ciencia job asks once per document, flow and correlation, and remembers the answer.  Exactly when the answer is a
    success that permits the retrieval, it queues the job of the complete XML, active under the key of this Ciencia and
    naming this job, and reports it; any other answer is reported as classified and queues nothing. *)
Theorem science_job_queues_xml `{!HoldsLaws B FollowUpMemory} job w r w' :
  job_inv w -> handle_science_job (B:=B) job w = (Ok r, w') ->
  exists q, science_of_payload (job_payload job) = Ok q /\
    ((r = Outcome (outcome_permanent "followup_rejected" []) /\ jobs (db w') = jobs (db w)) \/
     exists s, sr_document_id s = sq_document_id q /\ sr_flow s = sq_flow q /\ science_memory w' !! science_key q = Some s /\
       if sr_retrieval_permitted s && fiscal_success (sr_outcome s) then
         exists x policy queued, xml_after_science q = Ok x /\
           jobs (db w') !! job_id queued = Some queued /\
           active_with_key (en_idempotency_key (xml_job q x (job_id job) policy)) queued = true /\
           (forall i j, jobs (db w) !! i = Some j -> jobs (db w') !! i = Some j) /\
           r = Outcome (outcome_success (dset (science_result s) "followup_job_id" (VStr (uuid_str (job_id queued)))))
       else jobs (db w') = jobs (db w) /\ r = Outcome (science_job_outcome s)).
Proof.
  intros Hj. unfold handle_science_job. intros Hh. apply bind_inv in Hh as (q & w1 & Hq & Hh). apply lift_inv in Hq as [Hq ->].
  exists q. split; [done|]. unfold or_rejected in Hh. apply bind_inv in Hh as (o & w1 & Ho & Hh).
  unfold try_except in Ho. unfold bind at 1 in Ho. destruct (bind _ _ w) as [[s|e] w2] eqn:Hs.
  2: { assert (moves (keeps jobs) (_validate_document_context (B:=B) (sq_company_id q) (sq_document_id q) (sq_flow q) ;;;
         in_memory (on_followup (science q)))) as Hk.
       { apply moves_bind; [apply _| |intros _; apply keeps_in_memory].
         unfold _validate_document_context, usable_certificate, followup_require. frame_tac. }
       specialize (Hk w). rewrite Hs in Hk. destruct Hk as [Hk _]. cbn [snd] in Hk.
       destruct (is_followup_error e); [|discriminate Ho]. injection Ho as <- <-. apply ret_inv in Hh as [-> ->]. by left. }
  injection Ho as <- <-. apply bind_inv in Hs as (u & w1 & (-> & _)%context_passed & Hs).
  apply science_memory_inv in Hs as (Hdb & Hnext & Hclock & Hmem & Hdoc & Hflow). right. exists s. split_and!; [done..| |].
  - destruct (_ && _) in Hh; [|by apply ret_inv in Hh as [_ ->]].
    apply bind_inv in Hh as (x & w3 & Hx & Hh). apply lift_inv in Hx as [_ ->].
    apply bind_inv in Hh as (p & w3 & ->%policy_of_job_inv & Hh). apply bind_inv in Hh as (queued & w3 & He & Hh).
    apply ret_inv in Hh as [_ ->]. pose proof (env_enqueue (xml_job q x (job_id job) p) w2) as Hv. rewrite He in Hv.
    destruct Hv as (_ & _ & Hb & _). cbn [snd] in Hb. unfold science_memory in *. by rewrite Hb.
  - assert (String.eqb (ho_kind (science_job_outcome s)) (JobOutcomeKind.value JobOutcomeKind.SUCCESS) = fiscal_success (sr_outcome s)) as Hkind.
    { unfold science_job_outcome. by destruct (sr_outcome s). }
    rewrite Hkind in Hh. destruct (sr_retrieval_permitted s && fiscal_success (sr_outcome s)) eqn:Hp.
    + apply bind_inv in Hh as (x & w3 & Hx & Hh). apply lift_inv in Hx as [Hx ->].
      apply bind_inv in Hh as (p & w3 & ->%policy_of_job_inv & Hh). apply bind_inv in Hh as (queued & w3 & He & Hh).
      apply ret_inv in Hh as [-> ->]. exists x, p, queued. split; [done|].
      assert (job_inv w2) as Hj2.
      { destruct Hj as (H1 & H2 & H3). unfold job_inv. rewrite Hdb, Hnext, Hclock. by split_and!. }
      destruct (enqueue_ok _ _ _ _ Hj2 He) as (H1 & H2 & H3 & _). split_and!; [done..| |].
      * intros i j Hi. apply H3. by rewrite Hdb.
      * apply andb_prop in Hp as [_ Hp]. unfold science_job_outcome. by destruct (sr_outcome s).
    + apply ret_inv in Hh as [-> ->]. by rewrite Hdb.
Qed.
End guarantees.
