(* ===== verification/FollowUpRuns.v ===== *)
(** * A concrete run of the NF-e follow-up

    One company, one NF-e document, a current certificate and a policy, over the
    in-memory bucket with the permitted scenario next to it: a Ciencia, the complete
    XML it permits, and a manifestation worked off and asked for again; each theorem
    of [FollowUpGuarantees] is applied along the run. *)

From Stdlib Require Import ZArith Ascii String Lia.
From stdpp Require Import base decidable list gmap strings relations.
From S2P Require Import Prelude PyStr Sha256 PyVal Memory AuditTrail Identity Companies CompanyFacts JobPolicies JobEngine JobLifecycle JobGuarantees Models Tables Artifacts ArtifactFacts Documents Simulation Ingestion Certificates Retention Deletion DeletionCompletion DeletionEffects NFeDistribution FollowUp FollowUpService FollowUpFacts FollowUpGuarantees.

Local Open Scope string_scope.

(** A parser that knows one document. *)
#[export] Instance toy_xml : XmlParser := fun xml => if String.eqb xml synthetic_xml then Some "{http://nfe}nfeProc" else None.

Abbreviation bucket_and_memory := (MemoryBucket.t * FollowUpMemory)%type.

Definition nf_admin : SessionIdentity := MkSessionIdentity (uuid_str 7) "admin@example.org" "Admin" "administrador".
Definition nf_company : Company := new_company 3 (seconds 1) "11222333000181" "First Ltda" <| co_status := CompanyStatus.ACTIVE |>.
Definition nf_certificate : Certificate :=
  activated (seconds 2) (new_certificate 4 (seconds 1) 3 (MkEnvelopePayload "" "" "" "" "")
    (MkParsedCertificate "f00d" "11222333000181" 0 (days 365))).
Definition nf_document : Document :=
  MkDocument 5 3 "nfe" "destinatario" "nfe" "synthetic" "received" "access_key" "key" "key" 0 None 0 "autorizado"
    DocumentState.PERSISTED "execution:a" "correlation:a" 0 0.

Definition nf_memory : FollowUpMemory :=
  Eval vm_compute in match from_runtime, build_nfe_manifestation_scenario "accepted" with
  | Ok m, Ok s => configure_manifestation (MkManifestationChannel (new_manifestation_simulator s) new_manifestation_metrics []) m
  | _, _ => MkFollowUpMemory (MkFollowUpChannel (new_followup_simulator
              (MkNFeFollowUpScenario NFeFollowUpScenarioName.DENIED FiscalOutcome.BLOCKED false None
                 (MkFiscalResponse FiscalOutcome.EMPTY [] None None Coverage.NONE None "" []))) []) None
  end.

Definition nf_start : World bucket_and_memory :=
  MkWorld (empty_db <| companies := {[3%N := nf_company]} |> <| certificates := {[4%N := nf_certificate]} |>
             <| documents := {[5%N := nf_document]} |> <| flows := {[6%N := new_flow 6 (seconds 1) 3 FlowFamily.NFE]} |>
             <| policies := {[9%N := sample_policy 9 "*" "*"]} |>)
    (seconds 5) 10 true verbatim (∅, nf_memory).

#[local] Instance nf_heap : Heap := fun _ _ l => l.

(** ** A manifestation *)

Definition nf_order : NFeManifestationRequest :=
  MkNFeManifestationRequest 3 5 NFeFlow.RECEIVED NFeManifestationType.SCIENCE_OF_OPERATION "synthetic" "actor:one" "policy:one"
    "handle:one" "corr:1" "ref:1".

Definition ordering (w : World bucket_and_memory) : result exn Job * World bucket_and_memory :=
  enqueue_manifestation nf_order (Some nf_admin) None w.

Definition nf_no_job : Job :=
  new_job 0 0 (MkEnqueue "" "" [] "" 0 None None None None) VNone 0 None.
Definition answered_job (r : result exn Job) : Job := match r with Ok j => j | Err _ => nf_no_job end.

Definition nf_job : Job := Eval vm_compute in answered_job (ordering nf_start).1.
Definition nf_ordered : World bucket_and_memory := Eval vm_compute in (ordering nf_start).2.
Definition nf_done : World bucket_and_memory := Eval vm_compute in (handle_manifestation_job nf_job nf_ordered).2.

Definition nf_no_outcome : HandlerOutcome := outcome_permanent "" [].
Definition nf_outcome : HandlerOutcome :=
  Eval vm_compute in match (handle_manifestation_job nf_job nf_ordered).1 with Ok (Outcome o) => o | _ => nf_no_outcome end.

Lemma nf_start_inv : manifestation_inv nf_start.
Proof.
  split; unfold keyed; cbn -[lookup]; [split|..]; intros *; rewrite ?lookup_empty; try done; by intros ? [=].
Qed.

Lemma nf_start_jobs : job_inv nf_start.
Proof. by apply job_inv_empty. Qed.

Lemma ordering_run : ordering nf_start = (Ok nf_job, nf_ordered).
Proof. vm_compute. reflexivity. Qed.

Lemma handling_run : handle_manifestation_job nf_job nf_ordered = (Ok (Outcome nf_outcome), nf_done).
Proof. vm_compute. reflexivity. Qed.

Lemma nf_ordered_inv : manifestation_inv nf_ordered.
Proof.
  pose proof (manifests_enqueue nf_order (Some nf_admin) None nf_start) as [_ H]. fold (ordering nf_start) in H.
  rewrite ordering_run in H. exact (proj1 (H nf_start_inv)).
Qed.

Lemma nf_steps : rtc (followup_step 1000) nf_ordered nf_done.
Proof.
  apply rtc_once. replace nf_done with (run_followup 1000 (ManifestationJob nf_job) nf_ordered).
  - apply is_followup.
  - cbn [run_followup]. by rewrite handling_run.
Qed.

(** Fifty years later the document may go: one finalised artifact is its evidence. *)
Definition nf_xml : string := "<nfe>5</nfe>".
Definition nf_digest : string := Eval vm_compute in sha256 nf_xml.
Definition nf_old : World bucket_and_memory := Eval vm_compute in
  nf_done <| clock := (days 18400)%Z |> <| bucket ::= fun b => ({[ object_key_of 9 := MemoryBucket.MkObject nf_xml "application/xml" nf_digest ]}, b.2) |>
    <| db ::= fun d => d <| users := {[ 7%N := MkUser 7 "admin@example.org" "Admin" Role.ADMINISTRATOR "" true 0 0 0 0 ]} |>
         <| documents := {[ 5%N := nf_document <| doc_authorized_at := Some 0%Z |> ]} |>
         <| evidence := {[ 8%N := MkDocumentEvidence 8 5 9 nf_digest (slen nf_xml) false 0 ]} |>
         <| artifacts := {[ 9%N := MkArtifact 9 "fiscal_xml" "nfe:5" (object_key_of 9) SHA256 nf_digest (Some (slen nf_xml)) "application/xml"
              "application/xml" ArtifactState.FINALIZED 1 "" 0 (Some 0%Z) 0 ]} |> |>.

Definition nf_hash : string := Eval vm_compute in
  match documents (db nf_old) !! 5%N with Some doc => scope_hash (load_unordered (db nf_old) doc) | None => "" end.
Definition nf_request : DeletionCommand :=
  DeletionRequest nf_admin (RefStr (uuid_str 5)) (VStr nf_hash) (VStr SCOPE_VERSION) (VStr (confirmation_for 5 nf_hash)) (VStr "prazo").
Definition nf_pending : World bucket_and_memory := Eval vm_compute in run_deletion nf_request nf_old.
Definition nf_execution : DeletionCommand := Eval vm_compute in
  DeletionExecution (RefStr (uuid_str (match rows (deletions (db nf_pending)) with o :: _ => op_id o | [] => 0%N end))).
Definition nf_erased : World bucket_and_memory := Eval vm_compute in run_deletion nf_execution nf_pending.

Lemma nf_pending_run : run_deletion nf_request nf_old = nf_pending.
Proof. vm_compute. reflexivity. Qed.

Lemma nf_erased_run : run_deletion nf_execution nf_pending = nf_erased.
Proof. vm_compute. reflexivity. Qed.

Lemma nf_done_inv : manifestation_inv nf_done.
Proof. apply (followup_life 1000 nf_ordered nf_done nf_steps nf_ordered_inv). Qed.

Lemma nf_erasing : rtc (followup_step 1000) nf_done nf_erased.
Proof.
  eapply rtc_l; [apply (is_elsewhere 1000 nf_done nf_old); [reflexivity|apply N.leb_le; vm_compute; reflexivity]|].
  apply (rtc_l _ _ nf_pending); [rewrite <-nf_pending_run; apply is_deletion|]. apply rtc_once. rewrite <-nf_erased_run. apply is_deletion.
Qed.

Definition nf_manifestation : NFeManifestation := Eval vm_compute in
  match rows (manifestations (db nf_done)) with
  | m :: _ => m
  | [] => MkNFeManifestation 0 0 None 0 "" "" "" "" "" "" "" "" NFeManifestationState.QUEUED "" "" [] None None 0 None 0
  end.

Lemma nf_manifestation_row : manifestations (db nf_done) !! mf_id nf_manifestation = Some nf_manifestation.
Proof. vm_compute. reflexivity. Qed.

(** The accepted manifestation outlives its document. *)
Lemma manifestation_life_witness :
  settled nf_manifestation = true /\ map mf_document (rows (manifestations (db nf_erased))) = [None] /\ manifestation_inv nf_erased /\
  exists m', manifestations (db nf_erased) !! mf_id nf_manifestation = Some m' /\ same_order nf_manifestation m' /\
    (m' = nf_manifestation \/ (m' = nf_manifestation <| mf_document := None |> /\
       exists document, mf_document nf_manifestation = Some document /\ deleted_between 1000 document nf_done nf_erased)).
Proof.
  split; [vm_compute; reflexivity|]. split; [vm_compute; reflexivity|].
  destruct (manifestation_life 1000 nf_done nf_erased nf_done_inv nf_erasing) as [H1 H2]. split; [exact H1|].
  destruct (H2 _ _ nf_manifestation_row) as (m' & Hm & Ho & Hs). exists m'. split; [exact Hm|]. split; [exact Ho|].
  apply Hs. vm_compute. reflexivity.
Defined.

Lemma manifestation_enqueue_idempotent_witness :
  ordering nf_done = (Ok nf_job, nf_done) /\
  exists i m m' j, manifestations (db nf_ordered) !! i = Some m /\ mf_job m = Some j /\ jobs (db nf_ordered) !! j = Some nf_job /\
    manifestations (db nf_done) !! i = Some m' /\ same_order m m' /\ jobs (db nf_done) !! j = Some nf_job.
Proof.
  assert (ordering nf_done = (Ok nf_job, nf_done)) as Hagain by (vm_compute; reflexivity). split; [exact Hagain|].
  destruct (manifestation_enqueue_idempotent 1000 nf_order (Some nf_admin) None nf_start nf_job nf_ordered nf_done nf_order
    (Some nf_admin) None nf_job nf_done nf_start_inv nf_start_jobs ordering_run nf_steps eq_refl Hagain)
    as (_ & i & m & m' & j & H1 & _ & H2 & H3 & H4 & H5 & H6 & _).
  exists i, m, m', j. split; [exact H1|]. split; [exact H2|]. split; [exact H3|]. split; [exact H4|]. split; [exact H5|exact H6].
Defined.

Lemma manifestation_answer_recorded_witness :
  ho_kind nf_outcome = "success" /\
  exists m m', job_manifestation nf_job nf_ordered = Some m /\ job_manifestation nf_job nf_done = Some m' /\
    same_order m m' /\ told m' nf_outcome.
Proof.
  split; [vm_compute; reflexivity|].
  destruct (manifestation_answer_recorded nf_job nf_ordered (Outcome nf_outcome) nf_done nf_ordered_inv handling_run)
    as (o & m & m' & Ho & H1 & H2 & H3 & H4 & _).
  injection Ho as <-. exists m, m'. split; [exact H1|]. split; [exact H2|]. split; [exact H3|exact H4].
Defined.

(** ** A Ciencia, and the complete XML it permits *)

Definition nf_science : NFeScienceRequest :=
  MkNFeScienceRequest 3 5 NFeFlow.RECEIVED "synthetic" "actor:one" "policy:one" "handle:one" "corr:2" "intent:one".

Definition science_row : Job :=
  Eval vm_compute in answered_job (enqueue_science nf_science (Some nf_admin) None nf_start).1.
Definition science_queued : World bucket_and_memory :=
  Eval vm_compute in (enqueue_science nf_science (Some nf_admin) None nf_start).2.
Definition science_asked : World bucket_and_memory := Eval vm_compute in (handle_science_job science_row science_queued).2.
Definition science_answer : HandlerOutcome :=
  Eval vm_compute in match (handle_science_job science_row science_queued).1 with Ok (Outcome o) => o | _ => nf_no_outcome end.

Lemma science_run : handle_science_job science_row science_queued = (Ok (Outcome science_answer), science_asked).
Proof. vm_compute. reflexivity. Qed.

Lemma science_queued_jobs : job_inv science_queued.
Proof.
  assert (enqueue_science nf_science (Some nf_admin) None nf_start = (Ok science_row, science_queued)) as He by (vm_compute; reflexivity).
  unfold enqueue_science in He. apply bind_inv in He as (u & w1 & H1 & He). apply require_inv in H1 as [_ ->].
  apply bind_inv in He as (a & w1 & H1 & He). apply of_option_inv in H1 as [_ ->].
  apply bind_inv in He as (u2 & w1 & H1 & He). apply require_inv in H1 as [_ ->].
  apply bind_inv in He as (u3 & w1 & (-> & _)%context_passed & He). apply bind_inv in He as (now & w1 & H1 & He). apply now_inv in H1 as [-> ->].
  apply bind_inv in He as (p & w1 & ->%policy_passed & He). by destruct (CollectionFacts.enqueue_ok _ _ _ _ nf_start_jobs He) as (_ & _ & _ & ?).
Qed.

Lemma science_job_queues_xml_witness :
  map job_job_type (rows (jobs (db science_asked))) = ["nfe.science"; "nfe.complete_xml"] /\
  exists q s, science_of_payload (job_payload science_row) = Ok q /\ science_memory science_asked !! science_key q = Some s.
Proof.
  split; [vm_compute; reflexivity|].
  destruct (science_job_queues_xml science_row science_queued (Outcome science_answer) science_asked science_queued_jobs science_run)
    as (q & Hq & [[H _]|(s & _ & _ & Hm & _)]).
  - discriminate H.
  - exists q, s. split; [exact Hq|exact Hm].
Defined.

(** The worker has stored the answer of the science job. *)
Definition science_settled (j : Job) : Job :=
  j <| job_state := JobState.COMPLETED |> <| job_safe_result := Some (VDict (ho_result science_answer)) |>.
Definition science_closed : World bucket_and_memory :=
  Eval vm_compute in science_asked <| db ::= fun d => d <| jobs ::= alter science_settled (job_id science_row) |> |>.
Definition xml_row : Job := Eval vm_compute in opt_default nf_no_job (jobs (db science_asked) !! 11%N).
Definition xml_kept : World bucket_and_memory := Eval vm_compute in (handle_xml_job 100000 xml_row science_closed).2.
Definition xml_answer : HandlerOutcome :=
  Eval vm_compute in match (handle_xml_job 100000 xml_row science_closed).1 with Ok (Outcome o) => o | _ => nf_no_outcome end.

Lemma xml_run : handle_xml_job 100000 xml_row science_closed = (Ok (Outcome xml_answer), xml_kept).
Proof. vm_compute. reflexivity. Qed.

(** With the permission the XML is kept; without it the job is refused and nothing changes. *)
Lemma complete_xml_needs_science_witness :
  ho_kind xml_answer = "success" /\
  (exists response xml doc a, _validate_followup_xml response = Ok tt /\ holds_payload xml (xr_xml_payload response) xml_kept /\
     evidence_for (doc_id doc) a xml_kept) /\
  (handle_xml_job 100000 xml_row science_asked).2 = science_asked.
Proof.
  split; [vm_compute; reflexivity|]. split.
  - assert (artifact_inv science_closed) as Hinv by (by apply artifact_inv_empty).
    pose proof (complete_xml_needs_science 100000 xml_row science_closed (Outcome xml_answer) xml_kept Hinv xml_run) as Ht.
    destruct Ht as [(j & q & _ & _ & _ & [Ht|(o & k & response & xml & doc & a & _ & _ & _ & H1 & H2 & _ & _ & H3)])|(_ & Ht & _)];
      [discriminate Ht| |discriminate Ht].
    exists response, xml, doc, a. split; [exact H1|]. split; [exact H2|exact H3].
  - assert (artifact_inv science_asked) as Hinv by (by apply artifact_inv_empty).
    assert (handle_xml_job 100000 xml_row science_asked =
      (Ok (Outcome (outcome_permanent "science_required" [])), (handle_xml_job 100000 xml_row science_asked).2)) as Hrun
      by (apply ran; vm_compute; reflexivity).
    pose proof (complete_xml_needs_science 100000 xml_row science_asked _ _ Hinv Hrun) as Ht.
    destruct Ht as [(j & q & _ & _ & _ & [Ht|(o & k & response & xml & doc & a & Ht & _)])|(_ & _ & Ht)];
      [discriminate Ht|discriminate Ht|exact Ht].
Defined.
