(* ===== verification/Rendering.v ===== *)
(** * PDF renderings of documents (documents/rendering.py)

    The XML of a document's evidence rendered to a DANFE or DANFSe by the pinned
    library, as a durable row, a job and a derived artifact.  The library, the
    XML parser and its serializer are parameters; an element is what ElementTree
    gives.  The process-local counters are not modelled. *)

From Stdlib Require Import ZArith Ascii String Lia.
From stdpp Require Import base decidable list gmap strings.
From S2P Require Import Prelude PyStr PyVal PyDecimal Sha256 AuditTrail Identity Companies JobPolicies JobEngine Models Tables Artifacts Retention.

Local Open Scope string_scope.

(** ** Constants *)

Definition RENDERER_ID : string := "brazilfiscalreport".
Definition PINNED_RENDERER_VERSION : string := "1.0.1".
Definition PDF_MIME_TYPE : string := "application/pdf".
Definition PDF_RENDER_JOB_TYPE : string := "document.render_pdf".
Definition MAX_SOURCE_XML_BYTES : Z := 10 * 1024 * 1024.
Definition MAX_PDF_BYTES : Z := 50 * 1024 * 1024.
Definition XML_TYPES : list string := ["application/xml"; "text/xml"].

(** [_SAFE_CODE.fullmatch] *)
Definition _SAFE_CODE (s : string) : bool := re_head is_lower (fun c => is_lower c || is_digit c || char_in "_.-" c) 0 63 s.

(** documents/models.py: [PdfRepresentation] *)
Module PdfRepresentation.
Variant t : Set := DANFE | DANFSE.
#[global] Instance eq_dec : EqDecision t.
Proof. solve_decision. Defined.
Definition values : list t := [DANFE; DANFSE].
Definition value (x : t) : string := match x with DANFE => "danfe" | DANFSE => "danfse" end.
Definition of_value (s : string) : option t := find_value value values s.

(** [None] is the [ValueError]. *)
Definition for_family (family : string) : option t :=
  if String.eqb family (DocumentFamily.value DocumentFamily.NFE) then Some DANFE
  else if String.eqb family (DocumentFamily.value DocumentFamily.NFSE) then Some DANFSE else None.
End PdfRepresentation.

(** [RenderResultState] *)
Module RenderResultState.
Variant t : Set := UNAVAILABLE | PENDING | AVAILABLE | FAILED | UNSUPPORTED.
#[global] Instance eq_dec : EqDecision t.
Proof. solve_decision. Defined.
Definition value (x : t) : string :=
  match x with
  | UNAVAILABLE => "unavailable" | PENDING => "pending" | AVAILABLE => "available" | FAILED => "failed"
  | UNSUPPORTED => "unsupported"
  end.
End RenderResultState.

(** ** Third-party code *)

(** [xml.etree.ElementTree.Element] *)
Inductive element : Type :=
| Element (tag : string) (attrib : list (string * string)) (text tail : option string) (children : list element).

Definition tag_of (e : element) : string := match e with Element tag _ _ _ _ => tag end.
Definition text_of (e : element) : option string := match e with Element _ _ text _ _ => text end.
Definition children_of (e : element) : list element := match e with Element _ _ _ _ children => children end.
Definition with_text (text : option string) (e : element) : element :=
  match e with Element tag attrib _ tail children => Element tag attrib text tail children end.

(** defusedxml over expat; [None] is [ParseError] or [ValueError]. *)
Class XmlTree : Type := { fromstring : string -> option element; tostring : element -> string }.

(** BrazilFiscalReport: the installed version; the constructor and [output()] of
    its two generators, [None] when they raise. *)
Class PdfLibrary : Type := {
  installed : option string;
  danfe : pyval -> bool -> option pyval;
  danfse : string -> bool -> bool -> option pyval }.

(** ** The XML *)

(** [str.lower] *)
Definition lower_char (c : ascii) : ascii :=
  if is_upper c || in_range 192 214 c || in_range 216 222 c then chr (code c + 32) else c.

Definition _local_name (tag : string) : string := smap lower_char (List.last (Url.split "}"%char tag) "").

Definition unsupported {A} (code : string) : result exn A := Err (RenderUnsupported code).

Section xml.
Context `{XmlTree}.

Definition _parse_xml (xml : pyval) : result exn element :=
  match (match xml with VStr s => Some (encode_utf8 s) | VBytes b => Some b | _ => None end) with
  | Some encoded =>
      if str_nonempty encoded && Z.leb (slen encoded) MAX_SOURCE_XML_BYTES then
        match fromstring encoded with Some root => Ok root | None => unsupported "source_xml_invalid" end
      else unsupported "source_size_invalid"
  | None => unsupported "source_size_invalid"
  end.

Definition _validate_representation_xml (xml : pyval) (representation : PdfRepresentation.t) : result exn unit :=
  check* root := _parse_xml xml in
  let name := _local_name (tag_of root) in
  match representation with
  | PdfRepresentation.DANFE => if str_in name ["nfe"; "nfeproc"] then Ok tt else unsupported "nfe_layout_unsupported"
  | PdfRepresentation.DANFSE => if str_in name ["nfse"; "nfseproc"] then Ok tt else unsupported "nfse_layout_unsupported"
  end.

(** *** The PIS/COFINS retention rule *)

Definition name_of (e : element) : string := _local_name (tag_of e).

(** [str(child.text or default).strip()] *)
Definition stripped_text (default : string) (e : element) : string := strip (str_or (opt_default "" (text_of e)) default).

Definition retention_type (children : list element) : string :=
  match List.find (fun child => String.eqb (name_of child) "tpretpiscofins") children with
  | Some child => stripped_text "" child
  | None => ""
  end.

(** [values[name] = value] *)
Fixpoint put_value (name : string) (value : decimal) (values : list (string * decimal)) : list (string * decimal) :=
  match values with
  | [] => [(name, value)]
  | (k, v) :: rest => if String.eqb k name then (k, value) :: rest else (k, v) :: put_value name value rest
  end.

Definition retained_name (name : string) : bool := str_in name ["vretcsll"; "vpis"; "vcofins"].

Fixpoint retained_values (children : list element) (values : list (string * decimal)) : result exn (list (string * decimal)) :=
  match children with
  | [] => Ok values
  | child :: rest =>
      if retained_name (name_of child) then
        match decimal_of_str (str_or (stripped_text "0" child) "0") with
        | Some value => retained_values rest (put_value (name_of child) value values)
        | None => unsupported "source_xml_invalid"
        end
      else retained_values rest values
  end.

(** The text a child is left with. *)
Definition presented_text (values : list (string * decimal)) (child : element) : result exn (option string) :=
  if String.eqb (name_of child) "vretcsll" then
    match decimal_sum (map snd values) with Some total => Ok (Some (format_2f total)) | None => Err ArithmeticError end
  else if str_in (name_of child) ["vpis"; "vcofins"] then Ok (Some "0.00")
  else Ok (text_of child).

Fixpoint presented_texts (values : list (string * decimal)) (children : list element) : result exn (list (option string)) :=
  match children with
  | [] => Ok []
  | child :: rest =>
      check* text := presented_text values child in
      check* texts := presented_texts values rest in
      Ok (text :: texts)
  end.

(** The loop body for one element, on the texts of its children. *)
Definition children_texts (tag : string) (children : list element) : result exn (list (option string)) :=
  if String.eqb (_local_name tag) "tribfed" && String.eqb (retention_type children) "1" then
    check* values := retained_values children [] in
    presented_texts values children
  else Ok (map text_of children).

(** [root.iter()] visits an element before its children; only texts change. *)
Fixpoint presented (e : element) : result exn element :=
  match e with
  | Element tag attrib text tail children =>
      check* texts := children_texts tag children in
      check* children :=
        (fix go (children : list element) (texts : list (option string)) : result exn (list element) :=
           match children, texts with
           | child :: rest, text :: texts =>
               check* child := presented child in
               check* rest := go rest texts in
               Ok (with_text text child :: rest)
           | _, _ => Ok []
           end) children texts in
      Ok (Element tag attrib text tail children)
  end.

Definition _normalize_danfse_xml (xml : pyval) : result exn string :=
  check* root := _parse_xml xml in
  check* root := presented root in
  Ok (tostring root).

(** *** The situation shown *)

(** [root.iter()] *)
Fixpoint iter (e : element) : list element :=
  e :: (fix go (children : list element) : list element :=
          match children with [] => [] | child :: rest => (iter child ++ go rest)%list end) (children_of e).

(** The names the XML's situation is looked up under. *)
Definition SITUATION_NAMES : list string := ["cStat"; "tpSituacao"].

Definition situation_values (root : element) : list string :=
  map (stripped_text "") (List.filter (fun child => str_in (name_of child) SITUATION_NAMES) (iter root)).

Definition cancelled_document (document : Document) : bool :=
  String.eqb (doc_situation document) (DocumentSituation.value DocumentSituation.CANCELLED).

(** (cancelled, replaced) *)
Definition _situation_flags (xml : pyval) (document : Document) : result exn (bool * bool) :=
  check* root := _parse_xml xml in
  let values := situation_values root in
  let among codes := existsb (fun v => str_in v codes) values in
  Ok (cancelled_document document || among ["101"; "135"; "136"],
      among ["101"; "102"] && negb (cancelled_document document)).

End xml.

(** ** The library *)

Record RendererMetadata : Type := MkRendererMetadata {
  rm_renderer_id : string; rm_version : string; rm_representations : list PdfRepresentation.t }.

Section library.
Context `{XmlTree, PdfLibrary}.

Definition renderer_metadata : result exn RendererMetadata :=
  match installed with
  | None => Err (RenderUnavailable "renderer_unavailable")
  | Some version =>
      if String.eqb version PINNED_RENDERER_VERSION
      then Ok (MkRendererMetadata RENDERER_ID version [PdfRepresentation.DANFE; PdfRepresentation.DANFSE])
      else Err (RenderUnavailable "renderer_version_mismatch")
  end.

(** [s[-n:]] *)
Definition slast (n : nat) (s : string) : string := String.substring (String.length s - n) n s.

Definition temporary {A} (code : string) : result exn A := Err (RenderTemporaryFailure code).

(** What the generator of a representation gives; an exception that is not the
    module's own is [renderer_failed]. *)
Definition generated (xml : pyval) (selected : PdfRepresentation.t) (cancelled replaced : bool) : result exn pyval :=
  let raised (o : option pyval) := match o with Some v => Ok v | None => temporary "renderer_failed" end in
  match selected with
  | PdfRepresentation.DANFE => raised (danfe xml cancelled)
  | PdfRepresentation.DANFSE =>
      match _normalize_danfse_xml xml with
      | Ok normalized => raised (danfse normalized cancelled replaced)
      | Err (RenderUnsupported code) => unsupported code
      | Err _ => temporary "renderer_failed"
      end
  end.

Definition render_pdf_bytes (xml : pyval) (representation : string) (cancelled replaced : bool) : result exn string :=
  check* metadata := renderer_metadata in
  match PdfRepresentation.of_value representation with
  | None => unsupported "representation_unsupported"
  | Some selected =>
      if negb (bool_decide (selected ∈ rm_representations metadata)) then unsupported "representation_unsupported" else
      check* _ := _validate_representation_xml xml selected in
      check* output := generated xml selected cancelled replaced in
      match output with
      | VBytes payload =>
          if Z.ltb MAX_PDF_BYTES (slen payload) then temporary "pdf_size_limit"
          else if negb (starts_with "%PDF-" payload) || negb (contains "%%EOF" (slast 4096 payload))
          then temporary "pdf_integrity_invalid"
          else Ok payload
      | _ => temporary "renderer_empty_output"
      end
  end.

End library.

Definition _safe_code (value : string) : string := if _SAFE_CODE value then value else "render_failed".

(** ** Rows *)

Definition xml_artifact (a : Artifact) : bool :=
  str_in (art_detected_mime_type a) XML_TYPES || str_in (art_declared_mime_type a) XML_TYPES.

(** An evidence row whose artifact is finalised, of its digest and size, and XML. *)
Definition verified_evidence (r : DocumentEvidence * Artifact) : bool :=
  negb (ev_conflicting r.1) && String.eqb (ev_digest r.1) (art_digest r.2) &&
  bool_decide (art_size_bytes r.2 = Some (ev_size_bytes r.1)) && finalized r.2 && xml_artifact r.2.

Definition evidence_with_artifacts (p : DocumentEvidence -> bool) (d : DB) : list (DocumentEvidence * Artifact) :=
  with_artifact ev_artifact d (select p (evidence d)).

Definition _verified_source (document : N) (d : DB) : option (DocumentEvidence * Artifact) :=
  first_by (fun a b => by_time ev_created_at ev_id a.1 b.1)
    (List.filter verified_evidence (evidence_with_artifacts (fun e => N.eqb (ev_document e) document) d)).

(** The evidence a render was requested from, while it still is as it was. *)
Definition render_source (render : DocumentRender) (d : DB) : option (DocumentEvidence * Artifact) :=
  first_by (fun a b => N.leb (ev_id a.1) (ev_id b.1))
    (List.filter (fun r => negb (ev_conflicting r.1) && bool_decide (art_size_bytes r.2 = Some (ev_size_bytes r.1)) &&
                           finalized r.2 && xml_artifact r.2)
       (evidence_with_artifacts (fun e => N.eqb (ev_document e) (rn_document render) &&
          N.eqb (ev_artifact e) (rn_source_artifact render) && String.eqb (ev_digest e) (rn_source_digest render)) d)).

Definition same_identity (document : N) (representation version : string) (r : DocumentRender) : bool :=
  N.eqb (rn_document r) document && String.eqb (rn_pdf_type r) representation &&
  String.eqb (rn_representation r) representation && String.eqb (rn_renderer_id r) RENDERER_ID &&
  String.eqb (rn_renderer_version r) version.

Definition by_pk {R} (id : R -> N) (r : R) : Z := Z.of_N (id r).

Definition _identity_render (document : N) (representation version : string) (d : DB) : option DocumentRender :=
  first_where (by_pk rn_id) (same_identity document representation version) (renders d).

(** [render.artifact] *)
Definition artifact_of_render (d : DB) (r : DocumentRender) : option Artifact := rn_artifact r ≫= fun a => artifacts d !! a.

Definition _render_artifact_is_valid (render : DocumentRender) (artifact : option Artifact) : bool :=
  match artifact with
  | Some a =>
      finalized a && String.eqb (art_digest a) (rn_digest render) && bool_decide (art_size_bytes a = rn_size_bytes render) &&
      String.eqb (art_declared_mime_type a) PDF_MIME_TYPE && String.eqb (art_detected_mime_type a) PDF_MIME_TYPE &&
      String.eqb (rn_mime_type render) PDF_MIME_TYPE
  | None => false
  end.

Definition render_finalized (r : DocumentRender) : bool :=
  match rn_state r with DocumentRenderState.FINALIZED => true | _ => false end.

(** A finalised rendering whose artifact still is what it says. *)
Definition render_valid (d : DB) (r : DocumentRender) : bool :=
  render_finalized r && _render_artifact_is_valid r (artifact_of_render d r).

Definition _render_artifact_is_valid_metadata (artifact : Artifact) (payload : string) : bool :=
  finalized artifact && String.eqb (art_digest artifact) (sha256 payload) &&
  bool_decide (art_size_bytes artifact = Some (slen payload)) && String.eqb (art_declared_mime_type artifact) PDF_MIME_TYPE &&
  String.eqb (art_detected_mime_type artifact) PDF_MIME_TYPE.

(** ** The service *)

Record RenderRequestResult : Type := MkRenderRequestResult {
  rr_render : option DocumentRender; rr_state : string; rr_safe_error : string; rr_reused : bool; rr_queued : bool }.

Definition not_rendered (state : RenderResultState.t) (safe_error : string) : RenderRequestResult :=
  MkRenderRequestResult None (RenderResultState.value state) safe_error false false.

(** The row [request_render] creates; every column has a fixed width it fits. *)
Definition new_render (id correlation document : N) (source : DocumentEvidence * Artifact) (representation version : string)
    (created : Z) : DocumentRender :=
  MkDocumentRender id document (art_id source.2) None representation representation RENDERER_ID version (ev_digest source.1) ""
    None PDF_MIME_TYPE DocumentRenderState.PENDING "" [] ("render:" ++ uuid_str correlation) None created created None.

Definition diverged (now : Z) (r : DocumentRender) : DocumentRender :=
  r <| rn_state := DocumentRenderState.DIVERGENT |> <| rn_safe_error := "artifact_unavailable" |> <| rn_updated_at := now |>.

(** A row asked for again: pending, with no artifact. *)
Definition pending_again (now : Z) (source : DocumentEvidence * Artifact) (r : DocumentRender) : DocumentRender :=
  r <| rn_source_artifact := art_id source.2 |> <| rn_source_digest := ev_digest source.1 |>
    <| rn_state := DocumentRenderState.PENDING |> <| rn_safe_error := "" |> <| rn_safe_result := [] |> <| rn_artifact := None |>
    <| rn_digest := "" |> <| rn_size_bytes := None |> <| rn_finalized_at := None |> <| rn_updated_at := now |>.

Definition failed_render (now : Z) (code : string) (r : DocumentRender) : DocumentRender :=
  r <| rn_state := DocumentRenderState.FAILED |> <| rn_safe_error := _safe_code code |> <| rn_safe_result := [] |>
    <| rn_updated_at := now |>.

Definition stored_render (now : Z) (artifact : Artifact) (r : DocumentRender) : DocumentRender :=
  r <| rn_artifact := Some (art_id artifact) |> <| rn_digest := art_digest artifact |> <| rn_size_bytes := art_size_bytes artifact |>
    <| rn_mime_type := PDF_MIME_TYPE |> <| rn_state := DocumentRenderState.FINALIZED |> <| rn_safe_error := "" |>
    <| rn_safe_result := [("renderer_id", VStr RENDERER_ID); ("renderer_version", VStr (rn_renderer_version r));
                          ("representation", VStr (rn_representation r));
                          ("size_bytes", VInt (opt_default 0%Z (art_size_bytes artifact))); ("mime_type", VStr PDF_MIME_TYPE)] |>
    <| rn_finalized_at := Some now |> <| rn_updated_at := now |>.

(** The retry policy used when none is published: 2020-01-01. *)
Definition fallback_policy (id : N) (now : Z) (family : string) : JobPolicy :=
  MkJobPolicy id RENDERER_ID family 1 (days 18262) None 3 1 60 0 0 now now.

Definition fallback_scope (family : string) (p : JobPolicy) : bool :=
  String.eqb (pol_source_scope p) RENDERER_ID && String.eqb (pol_flow_scope p) family && Z.eqb (pol_version p) 1.

Definition render_job (render : DocumentRender) (document : N) (source : DocumentEvidence * Artifact) (representation version : string)
    (actor_id : string) (current : Z) (policy : JobPolicy) : Enqueue :=
  MkEnqueue PDF_RENDER_JOB_TYPE ("render:" ++ uuid_str (rn_id render))
    [("render_id", VStr (uuid_str (rn_id render))); ("document_id", VStr (uuid_str document));
     ("source_artifact_id", VStr (uuid_str (ev_artifact source.1))); ("representation", VStr representation);
     ("renderer_version", VStr version); ("actor_id", VStr actor_id)]
    ("render:" ++ uuid_str (rn_id render)) 0 (Some (Aware current)) (Some policy) None None.

(** [str(render.id) if render is not None else str(document_id or "")] *)
Definition entity_of (render : option DocumentRender) (document_id : option uuid_ref) : string :=
  match render with
  | Some r => uuid_str (rn_id r)
  | None => match document_id with Some d => ref_str d | None => "" end
  end.

Definition render_audit (action result : string) (actor : option SessionIdentity) (render : option DocumentRender)
    (document_id : option uuid_ref) (representation renderer_version reason : string) : AuditInput :=
  MkAuditInput action "document_render" result (option_map (fun a => RefStr (si_user_id a)) actor)
    (match actor with Some a => si_role a | None => "system" end) None (entity_of render document_id) reason
    (match render with Some r => rn_correlation_id r | None => "" end)
    [("representation", VStr (stake 16 representation)); ("renderer_id", VStr RENDERER_ID);
     ("renderer_version", VStr (stake 32 renderer_version)); ("result", VStr (stake 32 result))].

Section service.
Context {B : Type} `{!External B, !ObjectStore B, !XmlTree, !PdfLibrary}.

Definition _audit (a : AuditInput) : M B unit := append a ;;; ret tt.

Definition _ensure_policy (family : string) (at_ : Z) : M B JobPolicy :=
  try_except (autocommit (select_policy RENDERER_ID family (Aware at_)))
    (fun e => match e with
              | PolicyNotFound =>
                  let* existing := autocommit (query (fun d => first_where (by_pk pol_id) (fallback_scope family) (policies d))) in
                  match existing with
                  | Some p => ret p
                  | None =>
                      let* id := uuid4 in
                      let* now := timezone_now in
                      atomic (save_policy (fallback_policy id now family)) ;;;
                      ret (fallback_policy id now family)
                  end
              | _ => throw e
              end).

Definition save_render (r : DocumentRender) : M B unit := write (fun d => d <| renders ::= put (rn_id r) r |>).

(** [DocumentRender.objects.create] under the identity's unique constraint. *)
Definition create_render (document : N) (source : DocumentEvidence * Artifact) (representation version : string) : M B DocumentRender :=
  let* correlation := uuid4 in
  let* id := uuid4 in
  let* now := timezone_now in
  let* taken := query (fun d => exists_row (same_identity document representation version) (renders d)) in
  require (negb taken) IntegrityError ;;;
  let r := new_render id correlation document source representation version now in
  save_render r ;;;
  ret r.

(** [render.job = job; render.save()]: a job belongs to one rendering. *)
Definition give_job (r : DocumentRender) (job : Job) : M B DocumentRender :=
  let* taken := query (fun d => exists_row (fun x => negb (N.eqb (rn_id x) (rn_id r)) && bool_decide (rn_job x = Some (job_id job)))
                                  (renders d)) in
  require (negb taken) IntegrityError ;;;
  let* now := timezone_now in
  let r := r <| rn_job := Some (job_id job) |> <| rn_updated_at := now |> in
  save_render r ;;;
  ret r.

(** The rendering queued inside the transaction, new or again. *)
Definition queue_render (actor : SessionIdentity) (document : Document) (source : DocumentEvidence * Artifact)
    (existing : option DocumentRender) (representation version : string) (regenerate : bool) (current : Z) : M B RenderRequestResult :=
  let* render :=
    match existing with
    | None => create_render (doc_id document) source representation version
    | Some r =>
        let* now := timezone_now in
        let r := pending_again now source r in
        save_render r ;;;
        ret r
    end in
  let* policy := _ensure_policy (doc_family document) current in
  let* job := enqueue (render_job render (doc_id document) source representation version (si_user_id actor) current policy) in
  let* render := give_job render job in
  _audit (render_audit (if regenerate then "document.render.regeneration" else "document.render.request") "queued" (Some actor)
            (Some render) None representation version "") ;;;
  ret (MkRenderRequestResult (Some render) (RenderResultState.value RenderResultState.PENDING) "" false true).

(** The transaction: reuse what is finalised and intact, queue the rest. *)
Definition request_locked (actor : SessionIdentity) (document_id : N) (representation version : string) (regenerate : bool)
    (current : Z) : M B RenderRequestResult :=
  let* row := query (fun d => documents d !! document_id) in
  let* document := of_option row DoesNotExist in
  let* source := query (_verified_source document_id) in
  match source with
  | None => ret (not_rendered RenderResultState.UNAVAILABLE "source_unavailable")
  | Some source =>
      let* existing := query (_identity_render document_id representation version) in
      let* d := query (fun d => d) in
      match existing with
      | Some r =>
          if render_finalized r then
            if _render_artifact_is_valid r (artifact_of_render d r) then
              _audit (render_audit "document.render.reuse" "reused" (Some actor) (Some r) None representation version "") ;;;
              ret (MkRenderRequestResult (Some r) (RenderResultState.value RenderResultState.AVAILABLE) "" true false)
            else
              let* now := timezone_now in
              save_render (diverged now r) ;;;
              queue_render actor document source (Some (diverged now r)) representation version regenerate current
          else queue_render actor document source (Some r) representation version regenerate current
      | None => queue_render actor document source None representation version regenerate current
      end
  end.

(** The [try] around it: the query of its [except] clause locks rows outside a
    transaction, which Django refuses. *)
Definition request_in_transaction (actor : SessionIdentity) (document_id : N) (representation version : string) (regenerate : bool)
    (current : Z) : M B RenderRequestResult :=
  try_except (atomic (request_locked actor document_id representation version regenerate current))
    (fun e => match e with IntegrityError => throw TransactionManagementError | _ => throw e end).

(** The representation asked for, or the one of the document's family. *)
Definition requested_representation (representation : option string) (document : Document) : option PdfRepresentation.t :=
  match representation with
  | Some s => PdfRepresentation.of_value s
  | None => PdfRepresentation.for_family (doc_family document)
  end.

Definition request_render (actor : SessionIdentity) (document_id : uuid_ref) (representation : option string) (regenerate : bool)
    (now : option datetime) : M B RenderRequestResult :=
  if negb (authorize (si_role actor) Action.READ_DOCUMENTS None (Some (si_user_id actor))) then
    _audit (render_audit "document.render.denied" "denied" (Some actor) None (Some document_id) "" "" "access_denied") ;;;
    throw RenderAccessDenied
  else
    let* document_uuid := of_option (uuid_of document_id) (RenderUnsupported "document_reference_invalid") in
    let* clock := timezone_now in
    let current := opt_default (Aware clock) now in
    require (is_aware current) (ValueError "now must be timezone-aware") ;;;
    let* row := autocommit (query (fun d => documents d !! document_uuid)) in
    match row with
    | None => ret (not_rendered RenderResultState.UNAVAILABLE "document_not_found")
    | Some document =>
        let audit result representation version reason :=
          _audit (render_audit "document.render.request" result (Some actor) None (Some (RefUuid (doc_id document))) representation
                    version reason) in
        match renderer_metadata with
        | Err _ =>
            audit "unavailable" "" "" "renderer_unavailable" ;;;
            ret (not_rendered RenderResultState.UNAVAILABLE "renderer_unavailable")
        | Ok metadata =>
            match requested_representation representation document with
            | None =>
                audit "unsupported" "" "" "representation_unsupported" ;;;
                ret (not_rendered RenderResultState.UNSUPPORTED "representation_unsupported")
            | Some selected =>
                let* expected := of_option (PdfRepresentation.for_family (doc_family document))
                                   (ValueError "document family is unsupported") in
                let chosen := PdfRepresentation.value selected in
                if negb (bool_decide (selected = expected)) then
                  audit "unsupported" chosen (rm_version metadata) "family_representation_mismatch" ;;;
                  ret (not_rendered RenderResultState.UNSUPPORTED "family_representation_mismatch")
                else
                  let* source := autocommit (query (_verified_source (doc_id document))) in
                  match source with
                  | None =>
                      audit "unavailable" chosen (rm_version metadata) "source_unavailable" ;;;
                      ret (not_rendered RenderResultState.UNAVAILABLE "source_unavailable")
                  | Some _ =>
                      request_in_transaction actor (doc_id document) chosen (rm_version metadata) regenerate (instant current)
                  end
            end
        end
    end.

(** ** The job *)

Definition get_render (id : N) : M B DocumentRender :=
  let* row := query (fun d => renders d !! id) in of_option row DoesNotExist.

Definition _failure_state (render_id : N) (code : string) (actor : option SessionIdentity) : M B unit :=
  autocommit (get_render render_id) ;;;
  atomic (
    let* render := get_render render_id in
    if render_finalized render then ret tt else
      let* now := timezone_now in
      let render := failed_render now code render in
      save_render render ;;;
      _audit (render_audit "document.render.failure" "failed" actor (Some render) None (rn_representation render)
                (rn_renderer_version render) (_safe_code code))).

(** A rendering with its document, as the job first reads them. *)
Definition loaded_render (id : N) (d : DB) : option (DocumentRender * Document * bool) :=
  match renders d !! id with
  | Some r => option_map (fun doc => (r, doc, render_valid d r)) (documents d !! rn_document r)
  | None => None
  end.

Definition finalized_result (r : DocumentRender) : pydict :=
  [("state", VStr (DocumentRenderState.value DocumentRenderState.FINALIZED)); ("renderer_version", VStr (rn_renderer_version r))].

(** Whether the requester may still read documents. *)
Definition still_authorized (actor_id : option string) : M B bool :=
  match actor_id with
  | None | Some EmptyString => ret true
  | Some s =>
      let* id := of_option (parse_uuid s) ValidationError in
      let* user := autocommit (query (fun d => users d !! id)) in
      ret (match user with
           | Some u => us_active u && authorize (Role.value (us_role u)) Action.READ_DOCUMENTS None (Some (uuid_str (us_id u)))
           | None => false
           end)
  end.

(** The last transaction of the job. *)
Definition finalize_render (render : DocumentRender) (artifact : Artifact) : M B HandlerOutcome :=
  let* reused :=
    atomic (
      let* locked := get_render (rn_id render) in
      let* d := query (fun d => d) in
      if render_valid d locked then ret (Some locked) else
        let* now := timezone_now in
        let locked := stored_render now artifact locked in
        save_render locked ;;;
        _audit (render_audit "document.render.success" "success" None (Some locked) None (rn_representation locked)
                  (rn_renderer_version locked) "") ;;;
        ret None) in
  ret (outcome_success
         (match reused with
          | Some locked => finalized_result locked
          | None => finalized_result render ++ [("representation", VStr (rn_representation render))]
          end)%list).

(** The PDF of a rendering, from its verified source. *)
Definition rendered_payload (render : DocumentRender) (document : Document) : M B string :=
  let* metadata := lift_result renderer_metadata in
  let* representation := of_option (PdfRepresentation.of_value (rn_representation render))
                           (ValueError "representation is unsupported") in
  require (String.eqb (rm_version metadata) (rn_renderer_version render)) (RenderUnavailable "renderer_version_mismatch") ;;;
  let* evidence := autocommit (query (render_source render)) in
  let* source := of_option evidence (RenderTemporaryFailure "source_unavailable") in
  require (String.eqb (art_digest source.2) (rn_source_digest render)) (RenderTemporaryFailure "source_unavailable") ;;;
  let* source_xml := read_verified (art_id source.2) in
  let* '(cancelled, replaced) := lift_result (_situation_flags (VBytes source_xml) document) in
  lift_result (render_pdf_bytes (VBytes source_xml) (PdfRepresentation.value representation) cancelled replaced).

(** The body of the [try]. *)
Definition render_and_store (render : DocumentRender) (document : Document) : M B HandlerOutcome :=
  let* payload := rendered_payload render document in
  let* artifact := begin "document_derived_pdf" ("render:" ++ uuid_str (rn_id render)) PDF_MIME_TYPE in
  let* artifact := transmit MAX_PDF_BYTES (art_id artifact) [VBytes payload] in
  require (_render_artifact_is_valid_metadata artifact payload) (RenderTemporaryFailure "pdf_storage_integrity") ;;;
  finalize_render render artifact.

Definition unsupported_render (now : Z) (r : DocumentRender) : DocumentRender :=
  r <| rn_state := DocumentRenderState.UNSUPPORTED |> <| rn_safe_error := _safe_code "unsupported_document" |>
    <| rn_updated_at := now |>.

(** A failure that is recorded, unless recording it fails. *)
Definition recorded_failure (id : N) (code answered : string) : M B HandlerOutcome :=
  try_except (_failure_state id code None ;;; ret (outcome_temporary answered []))
    (fun _ => ret (outcome_temporary "render_audit_unavailable" [])).

(** Its [except] clauses. *)
Definition render_failed (id : N) (e : exn) : M B HandlerOutcome :=
  match e with
  | RenderUnsupported _ =>
      _failure_state id "unsupported_document" None ;;;
      let* now := timezone_now in
      autocommit (write (fun d => d <| renders ::= alter (unsupported_render now) id |>)) ;;;
      ret (outcome_success [("state", VStr (DocumentRenderState.value DocumentRenderState.UNSUPPORTED))])
  | ArtifactNotReadable => recorded_failure id "artifact_unavailable" (_safe_code "artifact_unavailable")
  | RenderUnavailable _ => recorded_failure id "renderer_unavailable" (_safe_code "renderer_unavailable")
  | RenderTemporaryFailure _ => recorded_failure id "render_temporary_failure" (_safe_code "render_temporary_failure")
  | _ => recorded_failure id "renderer_failed" "renderer_failed"
  end.

Definition render_pdf_job (render_id : string) (actor_id : option string) : M B HandlerOutcome :=
  match parse_uuid render_id with
  | None => ret (outcome_permanent "render_reference_invalid" [])
  | Some id =>
      let* row := autocommit (query (loaded_render id)) in
      match row with
      | None => ret (outcome_permanent "render_reference_missing" [])
      | Some (render, document, valid) =>
          if valid then ret (outcome_success (finalized_result render)) else
            let* allowed := still_authorized actor_id in
            if negb allowed then
              _failure_state id "authorization_revoked" None ;;;
              ret (outcome_permanent "authorization_revoked" [])
            else try_except (render_and_store render document) (render_failed id)
      end
  end.

(** [str(v)] of a payload's value; of a list, a dictionary or a float, some text
    that is no identifier either. *)
Definition payload_str (v : option pyval) : string :=
  match v with
  | None | Some VNone => "None"
  | Some (VStr s) | Some (VOther s) => s
  | Some (VInt z) => str_of_Z z
  | Some (VBool b) => if b then "True" else "False"
  | Some v => json_dumps v
  end.

Definition render_handler (job : Job) : M B handler_result :=
  match job_payload job with
  | VDict payload =>
      let actor := dget payload "actor_id" in
      let* outcome := render_pdf_job (payload_str (dget payload "render_id"))
                        (if match actor with Some v => truthy v | None => false end then Some (payload_str actor) else None) in
      ret (Outcome outcome)
  | _ => throw TypeError
  end.

Definition ensure_render_handler (r : registry B) : result exn (registry B) := register_handler PDF_RENDER_JOB_TYPE render_handler r.

(** ** The payload *)

Definition current_render (document : Document) (representation : PdfRepresentation.t) (d : DB) : option DocumentRender :=
  match renderer_metadata with
  | Ok metadata => _identity_render (doc_id document) (PdfRepresentation.value representation) (rm_version metadata) d
  | Err _ => None
  end.

(** The state a row is shown in. *)
Definition shown_state (available : bool) (r : DocumentRender) : RenderResultState.t :=
  if available then RenderResultState.AVAILABLE else
  match rn_state r with
  | DocumentRenderState.PENDING => RenderResultState.PENDING
  | DocumentRenderState.FAILED | DocumentRenderState.MISSING | DocumentRenderState.DIVERGENT => RenderResultState.FAILED
  | _ => RenderResultState.UNSUPPORTED
  end.

Definition vstate (s : RenderResultState.t) : pyval := VStr (RenderResultState.value s).

(** [render_payload(document)]; the representation is the family's. *)
Definition render_payload (document : Document) (d : DB) : pydict :=
  let request_url := VStr ("/api/documents/" ++ uuid_str (doc_id document) ++ "/pdf/render") in
  match renderer_metadata, PdfRepresentation.for_family (doc_family document) with
  | Ok metadata, Some selected =>
      match current_render document selected d with
      | None =>
          [("state", vstate RenderResultState.UNAVAILABLE); ("renderer_id", VStr (rm_renderer_id metadata));
           ("renderer_version", VStr (rm_version metadata)); ("representation", VStr (PdfRepresentation.value selected));
           ("pdf_type", VStr (PdfRepresentation.value selected)); ("request_url", request_url); ("download_url", VNone)]
      | Some r =>
          let available := render_valid d r in
          let when_available v := if available then v else VNone in
          [("id", VStr (uuid_str (rn_id r))); ("state", vstate (shown_state available r));
           ("safe_error", if available then VNone else VStr (str_or (rn_safe_error r) "render_unavailable"));
           ("renderer_id", VStr (rn_renderer_id r)); ("renderer_version", VStr (rn_renderer_version r));
           ("representation", VStr (rn_representation r)); ("pdf_type", VStr (rn_pdf_type r));
           ("digest_prefix", when_available (VStr (stake 16 (rn_digest r))));
           ("size_bytes", when_available (vint_opt (rn_size_bytes r))); ("content_type", when_available (VStr PDF_MIME_TYPE));
           ("request_url", request_url);
           ("download_url", when_available (VStr ("/api/documents/" ++ uuid_str (doc_id document) ++ "/pdf")))]
      end
  | _, _ =>
      [("state", vstate RenderResultState.UNAVAILABLE); ("safe_error", VStr "renderer_unavailable");
       ("renderer_id", VStr RENDERER_ID); ("renderer_version", VStr PINNED_RENDERER_VERSION); ("representation", VNone);
       ("pdf_type", VNone); ("request_url", request_url); ("download_url", VNone)]
  end.

End service.
