(* ===== verification/RenderingFacts.v ===== *)
(** * Renderings: what the XML decides, what is stored, what is reused

    The situation shown never comes from the XML; the retention rule moves amounts
    without losing any; a rendered PDF is the library's output for the verified
    source; an intact rendering is reused; and every row keeps its identity. *)

From Stdlib Require Import ZArith Ascii String Lia.
From stdpp Require Import base decidable list gmap strings.
From S2P Require Import Prelude PyStr PyVal PyDecimal Sha256 AuditTrail Identity JobPolicies JobEngine Models Tables Artifacts ArtifactFacts Rendering.

Local Open Scope string_scope.

(** ** Names are lowered *)

Lemma lower_not_upper c : is_upper (lower_char c) = false.
Proof. by destruct c as [[] [] [] [] [] [] [] []]. Qed.

Lemma local_name_lower tag : sall (fun c => negb (is_upper c)) (_local_name tag) = true.
Proof.
  unfold _local_name. generalize (List.last (Url.split "}"%char tag) ""). intros s.
  induction s as [|c s IH]; [done|]. cbn [smap sall]. by rewrite lower_not_upper, IH.
Qed.

Section facts.
Context `{!XmlTree}.

Lemma situation_values_nil root : situation_values root = [].
Proof using Type.
  unfold situation_values. assert (forall e, str_in (name_of e) SITUATION_NAMES = false) as Hn.
  2: { generalize (iter root). intros l. induction l as [|e l IH]; [done|]. cbn [List.filter]. by rewrite Hn. }
  intros e. destruct (str_in (name_of e) SITUATION_NAMES) eqn:Hin; [|done]. pose proof (local_name_lower (tag_of e)) as Hl.
  unfold str_in, SITUATION_NAMES in Hin. cbn [existsb] in Hin. unfold name_of in Hin.
  apply orb_true_iff in Hin as [He|Hin]; [apply String.eqb_eq in He; by rewrite He in Hl|].
  apply orb_true_iff in Hin as [He|He]; [apply String.eqb_eq in He; by rewrite He in Hl|done].
Qed.

Lemma situation_flags_parsed xml document flags :
  _situation_flags xml document = Ok flags -> flags = (cancelled_document document, false).
Proof using Type.
  unfold _situation_flags. destruct (_parse_xml xml) as [root|e]; [|done]. cbn [and_then].
  rewrite situation_values_nil. cbn [existsb]. rewrite orb_false_r. by intros [= <-].
Qed.

(** C12 The marks a PDF gets do not depend on the XML: whatever the source says of
    its situation, a rendering is marked cancelled exactly when the document row is,
    and never as replaced, because names are lowered before they are compared
    with ones that have capitals. *)
Theorem situation_ignores_xml (xml : pyval) (document : Document) :
  _situation_flags xml document =
  match _parse_xml xml with Ok _ => Ok (cancelled_document document, false) | Err e => Err e end.
Proof using Type.
  unfold _situation_flags. destruct (_parse_xml xml) as [root|e]; [|done]. cbn [and_then].
  rewrite situation_values_nil. cbn [existsb]. by rewrite orb_false_r.
Qed.

(** ** The retention rule *)

Lemma presented_name e e' : presented e = Ok e' -> name_of e' = name_of e /\ text_of e' = text_of e.
Proof using Type.
  destruct e as [tag attrib text tail children]. cbn [presented].
  destruct (children_texts tag children) as [texts|]; [|done]. cbn [and_then].
  match goal with |- context [and_then ?r _] => destruct r end; [|done]. by intros [= <-].
Qed.

Definition retained_names (children : list element) : list string := List.filter retained_name (map name_of children).

Definition total (amount : string -> N) (names : list string) : N := foldr N.add 0%N (map amount names).

Definition cents (n : N) : decimal := DFinite false n (-2).

Lemma cents_amount n : sall amount_char (cents_str n) = true.
Proof using Type.
  unfold cents_str. rewrite sall_app. destruct (str_of_N_text (n / 100)) as (w & -> & _).
  rewrite (digit_amount _ (fixed_str_digits _ _)). change (sall amount_char (fixed_str 2 10 (n mod 100)) = true).
  apply digit_amount, fixed_str_digits.
Qed.

Lemma cents_read n child : (n < 10 ^ 28)%N -> text_of child = Some (cents_str n) ->
  decimal_of_str (str_or (stripped_text "0" child) "0") = Some (cents n).
Proof using Type.
  intros Hn Ht. unfold stripped_text. rewrite Ht. cbn [opt_default].
  assert (forall s d, sall amount_char s = true -> str_nonempty s = true -> str_or (strip (str_or s d)) d = s) as Hstrip.
  { intros s d Hs Hne. assert (str_or s d = s) as -> by (by destruct s). unfold strip.
    rewrite lstrip_by_none, rstrip_by_none; [by destruct s|..]; (eapply sall_impl; [|exact Hs]; intros c Hc; by destruct (amount_char_kept c Hc) as (-> & _)). }
  rewrite Hstrip; [by apply decimal_of_cents|apply cents_amount|].
  unfold cents_str. destruct (str_of_N_text (n / 100)) as (w & Hs & _). pose proof (length_fixed_str (S w) (n / 100)) as Hl.
  rewrite <-Hs in Hl. by destruct (str_of_N (n / 100)).
Qed.

Lemma put_value_new name v values : name ∉ map fst values -> put_value name v values = (values ++ [(name, v)])%list.
Proof using Type.
  induction values as [|[k x] values IH]; cbn [put_value map fst app]; [done|]. intros [Hne Hin]%not_elem_of_cons.
  rewrite (proj2 (String.eqb_neq k name)) by congruence. by rewrite IH.
Qed.

Definition priced (amount : string -> N) (children : list element) : Prop :=
  forall child, child ∈ children -> retained_name (name_of child) = true -> text_of child = Some (cents_str (amount (name_of child))).

Lemma total_cons amount n names : total amount (n :: names) = (amount n + total amount names)%N.
Proof using Type. done. Qed.

Lemma retained_values_priced amount children values :
  priced amount children -> (total amount (retained_names children) < 10 ^ 28)%N ->
  NoDup (map fst values ++ retained_names children) ->
  retained_values children values = Ok (values ++ map (fun n => (n, cents (amount n))) (retained_names children))%list.
Proof using Type.
  revert values. induction children as [|c children IH]; intros values Hp Ht Hnd; cbn [retained_values]; [by rewrite app_nil_r|].
  assert (priced amount children) as Hp' by (intros x Hx; apply Hp; by right).
  unfold retained_names in *. cbn [map List.filter] in *.
  destruct (retained_name (name_of c)) eqn:Hr; [|by apply IH].
  rewrite total_cons in Ht. rewrite (cents_read (amount (name_of c))); [|lia|apply Hp; [by left|done]].
  rewrite put_value_new.
  - rewrite IH; [|done|lia|].
    + by rewrite <-app_assoc.
    + rewrite map_app, <-app_assoc. exact Hnd.
  - apply NoDup_app in Hnd as (_ & Hd & _). intros Hin. apply (Hd _ Hin). by left.
Qed.

Lemma cents_add a b : (a + b < 10 ^ 28)%N -> decimal_add (cents a) (cents b) = Some (cents (a + b)).
Proof using Type. apply add_cents. Qed.

Lemma cents_fold amount names acc :
  (acc + total amount names < 10 ^ 28)%N ->
  fold_left (fun acc d => match acc with Some a => decimal_add a d | None => None end) (map (fun n => cents (amount n)) names)
    (Some (cents acc)) = Some (cents (acc + total amount names)).
Proof using Type.
  revert acc. induction names as [|n names IH]; intros acc Ht.
  - cbn. by rewrite N.add_0_r.
  - rewrite total_cons in *. cbn [map fold_left]. rewrite cents_add by lia. rewrite IH by lia. by rewrite N.add_assoc.
Qed.

Lemma cents_sum amount n names :
  (total amount (n :: names) < 10 ^ 28)%N ->
  decimal_sum (map (fun n => cents (amount n)) (n :: names)) = Some (cents (total amount (n :: names))).
Proof using Type.
  rewrite total_cons. intros Ht. unfold decimal_sum. cbn [map fold_left].
  change (decimal_add DECIMAL_ZERO (cents (amount n))) with (decimal_add DECIMAL_ZERO (DFinite false (amount n) (-2))).
  rewrite add_zero_cents by lia. by apply cents_fold.
Qed.

(** What the three fields of a group add up to, read as the code reads them. *)
Definition group_total (children : list element) : option decimal :=
  match retained_values children [] with Ok values => decimal_sum (map snd values) | Err _ => None end.

Lemma group_total_priced amount children :
  priced amount children -> (total amount (retained_names children) < 10 ^ 28)%N -> NoDup (retained_names children) ->
  retained_names children <> [] -> group_total children = Some (cents (total amount (retained_names children))).
Proof using Type.
  intros Hp Ht Hnd Hne. unfold group_total. rewrite (retained_values_priced amount) by done. cbn [app].
  rewrite map_map. cbn [snd]. destruct (retained_names children) as [|n names]; [done|]. by apply cents_sum.
Qed.

(** The text a child of such a group is shown with. *)
Definition shown_text (sum : N) (child : element) : option string :=
  if String.eqb (name_of child) "vretcsll" then Some (cents_str sum)
  else if str_in (name_of child) ["vpis"; "vcofins"] then Some "0.00" else text_of child.

Lemma presented_texts_shown values sum children :
  decimal_sum (map snd values) = Some (cents sum) -> presented_texts values children = Ok (map (shown_text sum) children).
Proof using Type.
  intros Hs. induction children as [|c children IH]; [done|]. cbn [presented_texts map]. rewrite IH.
  assert (presented_text values c = Ok (shown_text sum c)) as ->; [|done]. unfold presented_text, shown_text. rewrite Hs.
  destruct (String.eqb (name_of c) "vretcsll"); [unfold cents; by rewrite format_cents|]. by destruct (str_in _ _).
Qed.

Lemma presented_children (tag : string) attrib text tail children children1 texts :
  children_texts tag children = Ok texts -> length texts = length children ->
  Forall2 (fun c c1 => presented c = Ok c1) children children1 ->
  presented (Element tag attrib text tail children) = Ok (Element tag attrib text tail (zip_with with_text texts children1)).
Proof using Type.
  intros Hc Hl Hp. cbn [presented]. rewrite Hc. cbn [and_then]. clear Hc.
  match goal with |- and_then (?g children texts) _ = _ => assert (g children texts = Ok (zip_with with_text texts children1)) as -> end; [|done].
  revert texts Hl. induction Hp as [|c c1 children children1 Hc Hp IH]; intros [|t texts] Hl; try done.
  rewrite Hc. cbn [and_then]. rewrite IH by (cbn in Hl; congruence). done.
Qed.

Lemma children_texts_shown amount (tag : string) children :
  _local_name tag = "tribfed" -> retention_type children = "1" -> priced amount children ->
  (total amount (retained_names children) < 10 ^ 28)%N -> NoDup (retained_names children) -> retained_names children <> [] ->
  children_texts tag children = Ok (map (shown_text (total amount (retained_names children))) children).
Proof using Type.
  intros Htag Htype Hp Ht Hnd Hne. unfold children_texts. rewrite Htag, Htype. cbn [String.eqb Ascii.eqb Bool.eqb andb].
  pose proof (group_total_priced amount children Hp Ht Hnd Hne) as Hg. unfold group_total in Hg.
  destruct (retained_values children []) as [values|]; [|done]. cbn [and_then]. by apply presented_texts_shown.
Qed.

Lemma presented_names children children1 :
  Forall2 (fun c c1 => presented c = Ok c1) children children1 -> map name_of children1 = map name_of children.
Proof using Type.
  intros Hp. induction Hp as [|c c1 children children1 Hc Hp IH]; [done|]. cbn [map].
  destruct (presented_name _ _ Hc) as [-> _]. by rewrite IH.
Qed.

Lemma with_text_name t e : name_of (with_text t e) = name_of e.
Proof using Type. by destruct e. Qed.

Lemma shown_names sum children children1 :
  Forall2 (fun c c1 => presented c = Ok c1) children children1 ->
  map name_of (zip_with with_text (map (shown_text sum) children) children1) = map name_of children.
Proof using Type.
  intros Hp. induction Hp as [|c c1 children children1 Hc Hp IH]; [done|]. cbn [map zip_with]. rewrite with_text_name, IH.
  by destruct (presented_name _ _ Hc) as [-> _].
Qed.

(** Of the names of a group, the first takes the sum and the others nothing. *)
Definition moved_amount (sum : N) (name : string) : N := if String.eqb name "vretcsll" then sum else 0%N.

Lemma total_moved sum names : NoDup names -> "vretcsll" ∈ names -> total (moved_amount sum) names = sum.
Proof using Type.
  assert (forall names, "vretcsll" ∉ names -> total (moved_amount sum) names = 0%N) as Hz.
  { clear. intros names. induction names as [|n names IH]; [done|]. intros [Hne Hin]%not_elem_of_cons. rewrite total_cons, IH by done.
    unfold moved_amount. by rewrite (proj2 (String.eqb_neq n "vretcsll")) by congruence. }
  induction 1 as [|n names Hn Hnd IH]; [by intros ?%not_elem_of_nil|]. rewrite total_cons. intros [<-|Hin]%elem_of_cons.
  - rewrite Hz by done. unfold moved_amount. rewrite String.eqb_refl. lia.
  - rewrite IH by done. unfold moved_amount. by rewrite (proj2 (String.eqb_neq n "vretcsll")) by congruence.
Qed.

Lemma shown_priced sum children children1 :
  Forall2 (fun c c1 => presented c = Ok c1) children children1 ->
  priced (moved_amount sum) (zip_with with_text (map (shown_text sum) children) children1).
Proof using Type.
  intros Hp. induction Hp as [|c c1 children children1 Hc Hp IH]; [by intros x ?%not_elem_of_nil|]. cbn [map zip_with].
  intros x [->|Hx]%elem_of_cons; [|by apply IH]. rewrite with_text_name. destruct (presented_name _ _ Hc) as [-> _].
  intros Hr. destruct c1. cbn [with_text text_of]. unfold shown_text, moved_amount.
  destruct (String.eqb (name_of c) "vretcsll") eqn:Hv; [done|]. unfold retained_name, str_in in *. cbn [existsb] in *.
  rewrite Hv in Hr. cbn [orb] in Hr. by rewrite Hr.
Qed.

(** C13 The presentation rule of NT 008 (v1.02) moves the withheld amounts and
    loses none: for a federal-tax group withheld with type 1, whose fields are
    amounts of cents and include the social-contribution one, that field is shown
    with the sum of the three, the PIS and COFINS fields with 0.00, every other
    text as it was; and what the three fields add up to, exactly, is the same
    before and after. *)
Theorem retention_total_kept (tag : string) (attrib : list (string * string)) (text tail : option string)
    (children children1 : list element) (amount : string -> N) :
  _local_name tag = "tribfed" -> retention_type children = "1" ->
  priced amount children -> NoDup (retained_names children) -> "vretcsll" ∈ retained_names children ->
  (total amount (retained_names children) < 10 ^ 28)%N ->
  Forall2 (fun c c1 => presented c = Ok c1) children children1 ->
  let sum := total amount (retained_names children) in
  let shown := zip_with with_text (map (shown_text sum) children) children1 in
  presented (Element tag attrib text tail children) = Ok (Element tag attrib text tail shown) /\
  group_total children = Some (cents sum) /\ group_total shown = Some (cents sum) /\
  map name_of shown = map name_of children.
Proof using Type.
  intros Htag Htype Hp Hnd Hin Ht Hc sum shown.
  assert (retained_names children <> []) as Hne by (intros Hn; rewrite Hn in Hin; by apply not_elem_of_nil in Hin).
  assert (retained_names shown = retained_names children) as Hnames by (unfold retained_names, shown; by rewrite shown_names).
  split; [|split; [by apply group_total_priced|split; [|by apply shown_names]]].
  - apply presented_children; [by apply children_texts_shown|by rewrite length_map|done].
  - rewrite (group_total_priced (moved_amount sum)); rewrite ?Hnames, ?total_moved; try done. by apply shown_priced.
Qed.

End facts.
