(* ===== verification/RenderingGuarantees.v ===== *)
(** * Renderings: rows, jobs and stored PDFs

    How each operation moves the table of renderings; that a rendering is the
    library's output for the verified source; that an intact one is reused. *)

From Stdlib Require Import ZArith Ascii String Lia.
From stdpp Require Import base decidable list gmap strings relations.
From S2P Require Import Prelude PyStr PyVal PyDecimal Sha256 AuditTrail Identity JobPolicies JobEngine JobLifecycle JobGuarantees Models Tables Artifacts ArtifactFacts Retention Deletion DeletionCompletion DeletionEffects Rendering RenderingFacts.

Local Open Scope string_scope.

(** ** The table *)

Definition identity_of (r : DocumentRender) : N * string * string * string * string :=
  (rn_document r, rn_pdf_type r, rn_representation r, rn_renderer_id r, rn_renderer_version r).

(** One row per identity, a job with one row, and a finalised row names its artifact. *)
Record render_ok (n : N) (d : DB) : Prop := {
  ro_keyed : keyed rn_id identity_of n (renders d);
  ro_jobs : forall i j r s x, renders d !! i = Some r -> renders d !! j = Some s -> rn_job r = Some x -> rn_job s = Some x -> i = j;
  ro_artifact : forall i r, renders d !! i = Some r -> render_finalized r = true -> is_Some (rn_artifact r) }.

Definition render_inv {B} (w : World B) : Prop := render_ok (next_uuid w) (db w).

(** Rows stay, with their identity and correlation. *)
Definition render_moves (d d' : DB) : Prop := forall i r, renders d !! i = Some r ->
  exists r', renders d' !! i = Some r' /\ identity_of r' = identity_of r /\ rn_correlation_id r' = rn_correlation_id r.

#[export] Instance render_moves_preorder : PreOrder render_moves.
Proof.
  split.
  - intros d i r Hr. by exists r.
  - intros a b c H1 H2 i r Hr. destruct (H1 i r Hr) as (r1 & Hr1 & I1 & C1). destruct (H2 i r1 Hr1) as (r2 & Hr2 & I2 & C2).
    exists r2. split_and!; congruence.
Qed.

Lemma render_ok_mono n k d : (n <= k)%N -> render_ok n d -> render_ok k d.
Proof. intros Hnk [H1 H2 H3]. split; try done. by eapply keyed_mono. Qed.

(** The relation every operation stays within. *)
Definition rendering {B} (w w' : World B) : Prop :=
  (next_uuid w <= next_uuid w')%N /\ (render_inv w -> render_inv w' /\ render_moves (db w) (db w')).

#[export] Instance rendering_preorder {B} : PreOrder (rendering (B:=B)).
Proof.
  split.
  - intros w. split; [lia|]. by intros H.
  - intros a b c [N1 H1] [N2 H2]. split; [lia|]. intros Ha. destruct (H1 Ha) as [Hb M1]. destruct (H2 Hb) as [Hc M2].
    split; [done|]. by etrans.
Qed.

#[export] Instance rendering_rolls_back {B} : RollsBack (rendering (B:=B)).
Proof. intros w w' [Hn _]. split; [done|]. intros Hw. split; [|done]. by eapply render_ok_mono. Qed.

Lemma rendering_same {B} (w w' : World B) :
  (next_uuid w <= next_uuid w')%N -> renders (db w') = renders (db w) -> rendering w w'.
Proof.
  intros Hn Hm. split; [done|]. intros [H1 H2 H3]. split.
  - split; rewrite Hm; try done. by eapply keyed_mono.
  - intros i r Hi. exists r. by rewrite Hm.
Qed.

Lemma rendering_keeps {B A} (m : M B A) : moves (keeps renders) m -> moves rendering m.
Proof. intros Hm w. destruct (Hm w) as (H1 & _ & _ & H2). by apply rendering_same. Qed.

(** What a written row must respect. *)
Definition respects (r r' : DocumentRender) : Prop :=
  rn_id r' = rn_id r /\ identity_of r' = identity_of r /\ rn_correlation_id r' = rn_correlation_id r.

Definition job_free (t : gmap N DocumentRender) (r : DocumentRender) : Prop :=
  forall i s x, t !! i = Some s -> i <> rn_id r -> rn_job r = Some x -> rn_job s <> Some x.

(** A row rewritten. *)
Lemma rendering_put {B} (w w' : World B) r r' :
  (next_uuid w <= next_uuid w')%N -> renders (db w) !! rn_id r = Some r -> respects r r' ->
  (rn_job r' = rn_job r \/ job_free (renders (db w)) r') -> (render_finalized r' = true -> is_Some (rn_artifact r')) ->
  renders (db w') = put (rn_id r') r' (renders (db w)) -> rendering w w'.
Proof.
  intros Hn Hr (Hid & Hident & Hcorr) Hjob Hart Ht. split; [done|]. intros [H1 H2 H3]. split; [split|].
  - rewrite Ht. eapply keyed_mono; [exact Hn|]. eapply keyed_same; [done|rewrite Hid; exact Hr|done].
  - assert (forall j s x, renders (db w) !! j = Some s -> rn_id r' <> j -> rn_job r' = Some x -> rn_job s <> Some x) as Hfree.
    { intros j s x Hj Hne Hx Hs. destruct Hjob as [Hjob|Hjob]; [|by apply (Hjob j s x Hj)].
      apply Hne. rewrite Hid. apply (H2 _ _ r s x Hr Hj); congruence. }
    intros i j s t x. rewrite Ht. unfold put. rewrite !lookup_insert_Some.
    intros [[<- <-]|[Hi1 Hi]] [[<- <-]|[Hj1 Hj]] Hs Hx; [done|by destruct (Hfree _ _ _ Hj Hj1 Hs)|by destruct (Hfree _ _ _ Hi Hi1 Hx)|eauto].
  - intros i s. rewrite Ht. unfold put. rewrite lookup_insert_Some. intros [[<- <-]|[_ Hi]]; eauto.
  - intros i s Hi. rewrite Ht. unfold put. destruct (decide (rn_id r' = i)) as [<-|Hne].
    + rewrite lookup_insert_eq. exists r'. split; [done|]. rewrite Hid in Hi. replace s with r by congruence. done.
    + rewrite lookup_insert_ne by done. by exists s.
Qed.

(** A row added under a fresh identifier. *)
Lemma rendering_new {B} (w w' : World B) r :
  (next_uuid w <= rn_id r)%N -> (rn_id r < next_uuid w')%N -> job_free (renders (db w)) r ->
  (forall i s, renders (db w) !! i = Some s -> identity_of s <> identity_of r) -> render_finalized r = false ->
  renders (db w') = put (rn_id r) r (renders (db w)) -> rendering w w'.
Proof.
  intros Hlo Hhi Hjob Hnew Hopen Ht. split; [lia|]. intros [H1 H2 H3].
  assert (renders (db w) !! rn_id r = None) as Hfresh.
  { destruct (renders (db w) !! rn_id r) as [s|] eqn:Hs; [|done]. destruct (proj1 H1 _ _ Hs). lia. }
  split; [split|].
  - rewrite Ht. eapply keyed_mono; [|eapply keyed_new; [eapply keyed_mono; [exact Hlo|exact H1]|done|done]]. lia.
  - intros i j s t x. rewrite Ht. unfold put. rewrite !lookup_insert_Some.
    intros [[<- <-]|[Hi1 Hi]] [[<- <-]|[Hj1 Hj]] Hs Hx; [done|by destruct (Hjob _ _ x Hj)|by destruct (Hjob _ _ x Hi)|eauto].
  - intros i s. rewrite Ht. unfold put. rewrite lookup_insert_Some. intros [[<- <-]|[_ Hi]]; [congruence|eauto].
  - intros i s Hi. exists s. rewrite Ht. unfold put. rewrite lookup_insert_ne; [done|]. congruence.
Qed.

(** ** Operations that leave the table alone *)

Lemma rkeeps_enqueue {B} r : moves (keeps renders) (enqueue (B:=B) r).
Proof. by apply keeps_enqueue. Qed.

#[local] Hint Resolve rkeeps_enqueue : frames.

Section service.
Context {B : Type} `{!External B, !ObjectStore B} {laws : ObjectStoreLaws B} `{!XmlTree, !PdfLibrary}.
Context {heap : Heap} {external : ExternalLaws B}.
Implicit Types w : World B.

Lemma rkeeps_audit a : moves (keeps renders) (_audit (B:=B) a).
Proof. unfold _audit. frame_tac. Qed.

Lemma rkeeps_policy family at_ : moves (keeps renders) (_ensure_policy (B:=B) family at_).
Proof. unfold _ensure_policy, select_policy, save_policy. frame_tac. Qed.

#[local] Hint Resolve rkeeps_audit rkeeps_policy : frames.

Lemma kept_run {A} (m : M B A) w r w' : moves (keeps renders) m -> m w = (r, w') ->
  renders (db w') = renders (db w) /\ (next_uuid w <= next_uuid w')%N.
Proof using Type. intros Hm Hr. specialize (Hm w). rewrite Hr in Hm. by destruct Hm as (? & _ & _ & ?). Qed.

Lemma job_taken_free r x (t : gmap N DocumentRender) :
  exists_row (fun s => negb (N.eqb (rn_id s) (rn_id r)) && bool_decide (rn_job s = Some x)) t = false ->
  (forall i s, t !! i = Some s -> rn_id s = i) -> forall i s, t !! i = Some s -> i <> rn_id r -> rn_job s <> Some x.
Proof.
  rewrite exists_row_false. intros Hm Hid i s Hi Hne Hs. specialize (Hm i s Hi). rewrite (Hid i s Hi) in Hm.
  rewrite (proj2 (N.eqb_neq i (rn_id r)) Hne), bool_decide_eq_true_2 in Hm by done. done.
Qed.

(** ** Queueing *)

(** A row queued: pending, without an artifact, with a job of its own. *)
Definition queued_row (t : gmap N DocumentRender) (r : DocumentRender) : Prop :=
  rn_state r = DocumentRenderState.PENDING /\ rn_artifact r = None /\ is_Some (rn_job r) /\ job_free t r.

Lemma give_job_inv r job w r' w' : render_inv w -> renders (db w) !! rn_id r = Some r -> give_job (B:=B) r job w = (Ok r', w') ->
  r' = r <| rn_job := Some (job_id job) |> <| rn_updated_at := clock w |> /\ job_free (renders (db w)) r' /\
  renders (db w') = put (rn_id r) r' (renders (db w)) /\ next_uuid w' = next_uuid w.
Proof.
  intros Hw Hr. unfold give_job, save_render. intros Hm. invert_db. bools. split; [done|]. split; [|done].
  intros i s x Hi Hne [= <-]. eapply job_taken_free; [done| |exact Hi|exact Hne].
  intros j y Hj. by destruct (proj1 (ro_keyed _ _ Hw) _ _ Hj).
Qed.

Lemma same_identity_spec document representation version r :
  same_identity document representation version r = true <->
  identity_of r = (document, representation, representation, RENDERER_ID, version).
Proof.
  unfold same_identity, identity_of. rewrite !andb_true_iff, N.eqb_eq, !String.eqb_eq. split; [intros [[[[-> ->] ->] ->] ->]; done|].
  by intros [= -> -> -> -> ->].
Qed.

Lemma create_render_inv document source representation version w r w' :
  create_render (B:=B) document source representation version w = (Ok r, w') ->
  rn_id r = N.succ (next_uuid w) /\ next_uuid w' = N.succ (N.succ (next_uuid w)) /\ rn_job r = None /\
  identity_of r = (document, representation, representation, RENDERER_ID, version) /\
  rn_state r = DocumentRenderState.PENDING /\ rn_artifact r = None /\
  (forall i s, renders (db w) !! i = Some s -> identity_of s <> identity_of r) /\
  renders (db w') = put (rn_id r) r (renders (db w)).
Proof.
  unfold create_render, save_render. intros Hm. invert_db. bools. do 6 (split; [done|]). split; [|done].
  intros i s Hi Hs. rewrite exists_row_false in *.
  match goal with Hm : forall i r, _ -> same_identity _ _ _ r = false |- _ => specialize (Hm i s Hi) end.
  enough (same_identity document representation version s = true) by congruence. by apply same_identity_spec.
Qed.

(** What [queue_render] leaves: one row written, new or the one found. *)
Lemma queue_render_inv actor document source existing representation version regenerate current w res w' :
  render_inv w ->
  (forall r, existing = Some r -> exists r0, renders (db w) !! rn_id r0 = Some r0 /\ respects r0 r /\ rn_job r = rn_job r0) ->
  queue_render (B:=B) actor document source existing representation version regenerate current w = (Ok res, w') ->
  rendering w w' /\ exists r, rr_render res = Some r /\ rr_reused res = false /\ renders (db w') !! rn_id r = Some r /\
    rn_state r = DocumentRenderState.PENDING /\ is_Some (rn_job r).
Proof.
  intros Hw Hex. unfold queue_render. intros Hm.
  apply bind_inv in Hm as (r1 & w1 & H1 & Hm). apply bind_inv in Hm as (policy & w2 & H2 & Hm).
  apply bind_inv in Hm as (job & w3 & H3 & Hm). apply bind_inv in Hm as (r2 & w4 & H4 & Hm).
  apply bind_inv in Hm as (u & w5 & H5 & Hm). apply ret_inv in Hm as [-> ->].
  apply kept_run in H2 as [E2 N2]; [|apply rkeeps_policy]. apply kept_run in H3 as [E3 N3]; [|apply rkeeps_enqueue].
  apply kept_run in H5 as [E5 N5]; [|apply rkeeps_audit].
  assert (rendering w w1 /\ renders (db w1) !! rn_id r1 = Some r1 /\ rn_state r1 = DocumentRenderState.PENDING /\ rn_artifact r1 = None)
    as (Hf1 & Hr1 & Hs1 & Ha1).
  { destruct existing as [r|].
    - destruct (Hex r eq_refl) as (r0 & Hr0 & Hresp & Hjob). unfold save_render in H1. invert_db. cbn.
      split; [|split; [by unfold put; rewrite lookup_insert_eq|done]].
      destruct Hresp as (Hid & Hident & Hcorr).
      eapply (rendering_put _ _ r0 (pending_again (clock w) source r)); [cbn; lia|done|by split_and!|by left|done|done].
    - apply create_render_inv in H1 as (Hid & Hn & Hjob & Hident & Hst & Hart & Hnew & Ht).
      split; [|split; [rewrite Ht; apply lookup_insert_eq|done]].
      eapply rendering_new; [| | |exact Hnew| |exact Ht]; try lia.
      + intros i s x _ _ Hx. congruence.
      + unfold render_finalized. by rewrite Hst. }
  pose proof (proj2 Hf1 Hw) as [Hw1 _].
  assert (rendering w1 w3) as Hf3 by (apply rendering_same; [lia|congruence]).
  pose proof (proj2 Hf3 Hw1) as [Hw3 _].
  assert (renders (db w3) !! rn_id r1 = Some r1) as Hr3 by congruence.
  destruct (give_job_inv _ _ _ _ _ Hw3 Hr3 H4) as (-> & Hfree & Ht4 & N4).
  assert (rendering w3 w4) as Hf4.
  { eapply (rendering_put _ _ r1 (r1 <| rn_job := Some (job_id job) |> <| rn_updated_at := clock w3 |>)); [lia|done|done|by right|cbn; unfold render_finalized; cbn; by rewrite Hs1|exact Ht4]. }
  assert (rendering w4 w5) as Hf5 by (apply rendering_same; [lia|congruence]).
  split; [by etrans; [exact Hf1|etrans; [exact Hf3|etrans; [exact Hf4|exact Hf5]]]|].
  eexists. split; [done|]. split; [done|]. split; [|split; [exact Hs1|by eexists]]. rewrite E5, Ht4. apply lookup_insert_eq.
Qed.
(** ** The request *)

Lemma identity_render_inv w document representation version r : render_inv w ->
  _identity_render document representation version (db w) = Some r ->
  renders (db w) !! rn_id r = Some r /\ identity_of r = (document, representation, representation, RENDERER_ID, version).
Proof.
  intros Hw Hf. apply first_where_Some in Hf as [Hs [i Hi]]. destruct (proj1 (ro_keyed _ _ Hw) _ _ Hi) as [-> _].
  split; [done|by apply same_identity_spec].
Qed.

Lemma rendering_diverged w r now : render_inv w -> renders (db w) !! rn_id r = Some r ->
  rendering w (w <| db ::= fun d => d <| renders ::= put (rn_id r) (diverged now r) |> |>).
Proof. intros Hw Hr. eapply (rendering_put _ _ r (diverged now r)); [cbn; lia|done|by split_and!|by left|done|done]. Qed.

(** The answer of the transaction, and how the table moved. *)
Definition answered (d d' : DB) (res : RenderRequestResult) : Prop :=
  match rr_render res with
  | None => renders d' = renders d
  | Some r => renders d' !! rn_id r = Some r /\
      if rr_reused res then renders d' = renders d /\ render_valid d r = true
      else rn_state r = DocumentRenderState.PENDING /\ is_Some (rn_job r)
  end.

Lemma request_locked_inv actor document representation version regenerate current w res w' :
  render_inv w -> request_locked (B:=B) actor document representation version regenerate current w = (Ok res, w') ->
  rendering w w' /\ answered (db w) (db w') res.
Proof.
  intros Hw. unfold request_locked. intros Hm.
  apply bind_inv in Hm as (row & w1 & H1 & Hm). apply query_inv in H1 as [-> ->].
  apply bind_inv in Hm as (doc & w1 & H1 & Hm). apply of_option_inv in H1 as [Hdoc ->].
  apply bind_inv in Hm as (source & w1 & H1 & Hm). apply query_inv in H1 as [-> ->].
  destruct (_verified_source document (db w)) as [source|]; [|apply ret_inv in Hm as [-> ->]; by split].
  apply bind_inv in Hm as (existing & w1 & H1 & Hm). apply query_inv in H1 as [-> ->].
  apply bind_inv in Hm as (d & w1 & H1 & Hm). apply query_inv in H1 as [-> ->].
  assert (forall wx ex, rendering w wx -> render_inv wx ->
    (forall r, ex = Some r -> exists r0, renders (db wx) !! rn_id r0 = Some r0 /\ respects r0 r /\ rn_job r = rn_job r0) ->
    queue_render actor doc source ex representation version regenerate current wx = (Ok res, w') ->
    rendering w w' /\ answered (db w) (db w') res) as Hqueue.
  { intros wx ex Hx Hwx Hex Hq. apply queue_render_inv in Hq as [Hq (r & Hr & Hnew & Hrow & Hst & Hj)]; [|done..].
    split; [by etrans|]. unfold answered. by rewrite Hr, Hnew. }
  destruct (_identity_render document representation version (db w)) as [r|] eqn:Hex; [|by eapply (Hqueue w None)].
  apply identity_render_inv in Hex as [Hr _]; [|done].
  destruct (render_finalized r) eqn:Hfin.
  - destruct (_render_artifact_is_valid r (artifact_of_render (db w) r)) eqn:Hvalid.
    + apply bind_inv in Hm as (u & w1 & H1 & Hm). apply ret_inv in Hm as [-> ->].
      apply kept_run in H1 as [E1 N1]; [|apply rkeeps_audit]. split; [by apply rendering_same|]. unfold answered. cbn.
      rewrite E1. split_and!; [done..|]. unfold render_valid. by rewrite Hfin.
    + apply bind_inv in Hm as (now & w1 & H1 & Hm). apply now_inv in H1 as [-> ->].
      apply bind_inv in Hm as (u & w1 & H1 & Hm). apply write_inv in H1 as ->.
      pose proof (rendering_diverged w r (clock w) Hw Hr) as Hd.
      eapply (Hqueue _ (Some (diverged (clock w) r)) Hd (proj1 (proj2 Hd Hw))); [|exact Hm].
      intros r0 [= <-]. exists (diverged (clock w) r). cbn. unfold put. by rewrite lookup_insert_eq.
  - eapply (Hqueue w (Some r)); [done|done| |exact Hm]. intros r0 [= <-]. by exists r.
Qed.

Lemma rendering_request_locked actor document representation version regenerate current :
  moves rendering (atomic (request_locked (B:=B) actor document representation version regenerate current)).
Proof.
  intros w. assert (moves env_grows (request_locked (B:=B) actor document representation version regenerate current)) as Henv.
  { unfold request_locked, queue_render, create_render, give_job, save_render, _ensure_policy, select_policy, save_policy, _audit. env_tac. }
  unfold atomic. destruct (online w); [|done]. specialize (Henv w).
  destruct (request_locked _ _ _ _ _ _ w) as [[res|e] w'] eqn:Hr; destruct Henv as (_ & _ & _ & Hn); cbn in Hn.
  - split; [done|]. intros Hw. by destruct (request_locked_inv _ _ _ _ _ _ _ _ _ Hw Hr) as [[_ Hf] _]; apply Hf.
  - by apply rendering_same.
Qed.

Lemma rendering_transaction actor document representation version regenerate current :
  moves rendering (request_in_transaction (B:=B) actor document representation version regenerate current).
Proof.
  unfold request_in_transaction. apply moves_try; [apply _|apply rendering_request_locked|]. intros e. destruct e; frame_tac.
Qed.

Lemma rendering_audit a : moves rendering (_audit (B:=B) a).
Proof. apply rendering_keeps, rkeeps_audit. Qed.

#[local] Hint Resolve rendering_audit rendering_transaction : frames.

Lemma rendering_request actor document_id representation regenerate now :
  moves rendering (request_render (B:=B) actor document_id representation regenerate now).
Proof. unfold request_render. cbv zeta. frame_tac. Qed.

(** ** The job *)

(** Reading a row and writing it back, inside a transaction. *)
Lemma rendering_rewrite {A} id (f : Z -> DocumentRender -> DocumentRender) (k : DocumentRender -> M B A) w r now :
  render_inv w -> renders (db w) !! id = Some r -> respects r (f now r) -> rn_job (f now r) = rn_job r ->
  (render_finalized (f now r) = true -> is_Some (rn_artifact (f now r))) -> (forall x, moves rendering (k x)) ->
  rendering w (bind (save_render (B:=B) (f now r)) (fun _ => k (f now r)) w).2.
Proof.
  intros Hw Hr Hresp Hjob Hart Hk. eapply moved_ok; [reflexivity|]. etrans; [|apply Hk].
  assert (rn_id r = id) as <- by (by destruct (proj1 (ro_keyed _ _ Hw) _ _ Hr)).
  eapply (rendering_put _ _ r (f now r)); [cbn; lia|done|done|by left|done|done].
Qed.

Lemma rendering_given w (w' : World B) : (next_uuid w <= next_uuid w')%N -> (render_inv w -> rendering w w') -> rendering w w'.
Proof. intros Hn Hm. split; [done|]. intros Hw. by apply Hm. Qed.

Lemma rendering_failure id code actor : moves rendering (_failure_state (B:=B) id code actor).
Proof.
  unfold _failure_state. apply moves_bind; [apply _|unfold get_render; frame_tac|]. intros _.
  apply moves_transaction; [apply _..|]. intros w. apply rendering_given.
  { assert (forall m : M B unit, moves env_grows m -> (next_uuid w <= next_uuid (m w).2)%N) as He by (intros m Hm; by destruct (Hm w) as (_ & _ & _ & ?)).
    apply He. unfold get_render, save_render, _audit. env_tac. }
  intros Hw. unfold get_render. rewrite bind_assoc. apply moved_query. apply moved_option; [done|]. intros r Hr.
  destruct (render_finalized r); [done|]. apply moved_now. cbv zeta.
  apply (rendering_rewrite id (fun now => failed_render now code) (fun x => _audit (render_audit "document.render.failure" "failed" actor (Some x) None (rn_representation x) (rn_renderer_version x) (_safe_code code))) w r (clock w)); try done.
  intros x. apply rendering_audit.
Qed.

Lemma rendering_unsupported id now : moves rendering (write (B:=B) (fun d => d <| renders ::= alter (unsupported_render now) id |>)).
Proof.
  intros w. apply rendering_given; [cbn; lia|]. intros Hw. destruct (renders (db w) !! id) as [r|] eqn:Hr.
  - assert (rn_id r = id) as <- by (by destruct (proj1 (ro_keyed _ _ Hw) _ _ Hr)).
    eapply (rendering_put _ _ r (unsupported_render now r)); [cbn; lia|done|done|by left|done|].
    cbn. unfold put. apply map_eq. intros i. destruct (decide (rn_id r = i)) as [<-|Hne].
    + by rewrite lookup_alter_eq, Hr, lookup_insert_eq.
    + by rewrite lookup_alter_ne, lookup_insert_ne.
  - apply rendering_same; [cbn; lia|]. cbn. apply map_eq. intros i. destruct (decide (id = i)) as [<-|Hne].
    + by rewrite lookup_alter_eq, Hr.
    + by rewrite lookup_alter_ne.
Qed.

Lemma rkeeps_read id : moves (keeps renders) (read_verified (B:=B) id).
Proof using laws.
  unfold read_verified, get_artifact. frame_tac. apply keeps_store_read.
Qed.

Lemma rkeeps_payload r doc : moves (keeps renders) (rendered_payload (B:=B) r doc).
Proof using laws. unfold rendered_payload. frame_tac. apply rkeeps_read. Qed.

Lemma rendering_payload r doc : moves rendering (rendered_payload (B:=B) r doc).
Proof using laws. apply rendering_keeps, rkeeps_payload. Qed.

Lemma rendering_begin a b c : moves rendering (begin (B:=B) a b c).
Proof. apply rendering_keeps, keeps_begin. done. Qed.

Lemma rendering_transmit limit id chunks : moves rendering (transmit (B:=B) limit id chunks).
Proof using laws. apply rendering_keeps, keeps_transmit. done. Qed.

#[local] Hint Resolve rendering_failure rendering_unsupported rendering_payload rendering_begin rendering_transmit : frames.

(** The last transaction, from its start to its end. *)
Lemma finalize_inv r artifact w o w' :
  finalize_render (B:=B) r artifact w = (Ok o, w') ->
  online w = true /\ online w' = true /\ bucket w' = bucket w /\ artifacts (db w') = artifacts (db w) /\
  exists locked, renders (db w) !! rn_id r = Some locked /\
    (render_valid (db w) locked = true /\ w' = w /\ o = outcome_success (finalized_result locked) \/
     renders (db w') = put (rn_id locked) (stored_render (clock w) artifact locked) (renders (db w)) /\
     o = outcome_success (finalized_result r ++ [("representation", VStr (rn_representation r))])%list).
Proof.
  unfold finalize_render. intros Hm. apply bind_inv in Hm as (reused & w1 & H1 & Hm). apply ret_inv in Hm as [-> ->].
  apply atomic_inv in H1 as [Ho H1]. unfold get_render in H1. rewrite bind_assoc in H1.
  apply bind_inv in H1 as (row & w2 & H2 & H1). apply query_inv in H2 as [-> ->].
  apply bind_inv in H1 as (locked & w2 & H2 & H1). apply of_option_inv in H2 as [Hrow ->].
  apply bind_inv in H1 as (d & w2 & H2 & H1). apply query_inv in H2 as [-> ->].
  destruct (render_valid (db w) locked) eqn:Hv.
  - apply ret_inv in H1 as [-> ->]. split_and!; [done..|]. exists locked. split; [done|by left].
  - apply bind_inv in H1 as (now & w2 & H2 & H1). apply now_inv in H2 as [-> ->]. cbv zeta in H1.
    apply bind_inv in H1 as (u & w2 & H2 & H1). unfold save_render in H2. apply write_inv in H2 as ->.
    apply bind_inv in H1 as (u2 & w3 & H2 & H1). apply ret_inv in H1 as [-> ->]. unfold _audit in H2.
    apply bind_inv in H2 as (ev & w4 & Ha & H2). apply ret_inv in H2 as [_ ->].
    match type of Ha with append ?a ?w0 = _ => pose proof (keeps_append artifacts a ltac:(by intros ? ? (? & ? & ->)) w0) as Hk1;
      pose proof (keeps_append renders a ltac:(by intros ? ? (? & ? & ->)) w0) as Hk2; pose proof (env_append a w0) as He;
      rewrite Ha in Hk1, Hk2, He end.
    destruct Hk1 as (Hk1 & _ & Hon & _), Hk2 as (Hk2 & _), He as (_ & _ & Hb & _). cbn in Hk1, Hk2, Hb, Hon.
    split_and!; [done|congruence|done|done|]. exists locked. split; [done|]. right. by split.
Qed.

Lemma rendering_finalize r artifact : moves rendering (finalize_render (B:=B) r artifact).
Proof.
  unfold finalize_render. apply moves_bind; [apply _| |frame_tac]. apply moves_transaction; [apply _..|].
  intros w. apply rendering_given.
  { assert (forall m : M B (option DocumentRender), moves env_grows m -> (next_uuid w <= next_uuid (m w).2)%N) as He by (intros m Hm; by destruct (Hm w) as (_ & _ & _ & ?)).
    apply He. unfold get_render, save_render, _audit. env_tac. }
  intros Hw. unfold get_render. rewrite bind_assoc. apply moved_query. apply moved_option; [done|]. intros locked Hl.
  apply moved_query. destruct (render_valid (db w) locked); [done|]. apply moved_now. cbv zeta.
  apply (rendering_rewrite (rn_id r) (fun now => stored_render now artifact)
    (fun x => _audit (render_audit "document.render.success" "success" None (Some x) None (rn_representation x) (rn_renderer_version x) "") ;;; ret None)
    w locked (clock w)); try done.
  intros x. frame_tac.
Qed.

#[local] Hint Resolve rendering_finalize : frames.

Lemma rendering_recorded id code answered : moves rendering (recorded_failure (B:=B) id code answered).
Proof. unfold recorded_failure. frame_tac. Qed.

#[local] Hint Resolve rendering_recorded : frames.

Lemma rendering_failed id e : moves rendering (render_failed (B:=B) id e).
Proof. unfold render_failed. destruct e; frame_tac. Qed.

#[local] Hint Resolve rendering_failed : frames.

Lemma rendering_job render_id actor : moves rendering (render_pdf_job (B:=B) render_id actor).
Proof using laws. unfold render_pdf_job, render_and_store, still_authorized. frame_tac. Qed.

(** ** Every interleaving *)

Inductive RenderOp : Type :=
| RequestRender (actor : SessionIdentity) (document_id : uuid_ref) (representation : option string) (regenerate : bool)
    (now : option datetime)
| RenderJob (job : Job).

Definition run_render (op : RenderOp) w : World B :=
  match op with
  | RequestRender actor document_id representation regenerate now =>
      (request_render actor document_id representation regenerate now w).2
  | RenderJob job => (render_handler job w).2
  end.

(** An operation of the service, a command of controlled deletion, or anything that
    leaves its rows alone. *)
Inductive render_step : World B -> World B -> Prop :=
| is_render op w : render_step w (run_render op w)
| render_deletion c w : render_step w (run_deletion c w)
| is_other w w' : renders (db w') = renders (db w) -> (next_uuid w <= next_uuid w')%N -> render_step w w'.

Lemma rendering_operation op w : rendering w (run_render op w).
Proof using laws.
  destruct op as [a b c d e|job]; cbn [run_render].
  - apply rendering_request.
  - unfold render_handler. destruct (job_payload job); try done. cbv zeta.
    apply (moves_bind rendering); [apply rendering_job|]. intros o. frame_tac.
Qed.

(** Between [w] and [w'] a command of controlled deletion removed the document [i]. *)
Definition removed_between (i : N) w w' : Prop :=
  exists w1 c, rtc render_step w w1 /\ went i (db w1) (db (run_deletion c w1)) /\ rtc render_step (run_deletion c w1) w'.

Lemma removed_later i w w1 w2 : removed_between i w w1 -> render_step w1 w2 -> removed_between i w w2.
Proof. intros (w0 & c & H1 & Hg & H2) Hs. exists w0, c. split; [done|]. split; [done|]. by eapply rtc_r. Qed.

(** A deletion takes renderings away, and changes none. *)
Lemma deletion_render_ok w w' : affects w w' -> render_inv w -> render_inv w'.
Proof.
  intros [He Hn] [[Hk Hu] Hj Ha].
  assert (forall i r, renders (db w') !! i = Some r -> renders (db w) !! i = Some r) as Hback.
  { intros i r Hi. pose proof (ef_renders _ _ He i) as Hr. destruct (renders (db w) !! i) as [x|]; [|congruence].
    destruct Hr as [Hr|[Hr _]]; congruence. }
  split; [split|..].
  - intros i r Hi%Hback. destruct (Hk _ _ Hi). split; [done|lia].
  - intros i j r x Hi%Hback Hx%Hback. by eapply Hu.
  - intros i j r x y Hi%Hback Hx%Hback. by eapply Hj.
  - intros i r Hi%Hback. by eapply Ha.
Qed.

(** What becomes of a row: it stays, unless its document is deleted. *)
Definition render_life (i : N) (r : DocumentRender) w w' : Prop :=
  (exists r', renders (db w') !! i = Some r' /\ identity_of r' = identity_of r /\ rn_correlation_id r' = rn_correlation_id r) \/
  removed_between (rn_document r) w w'.

Lemma renders_live w w' :
  rtc render_step w w' -> render_inv w -> render_inv w' /\ forall i r, renders (db w) !! i = Some r -> render_life i r w w'.
Proof using laws external.
  intros Hr Hw. revert w' Hr.
  apply (rtc_ind_r (fun w' => render_inv w' /\ forall i r, renders (db w) !! i = Some r -> render_life i r w w') w).
  { split; [done|]. intros i r Hi. left. by exists r. }
  intros w1 w2 Hr Hs [Hw1 IH].
  assert (rendering w1 w2 -> render_inv w2 /\ forall i r, renders (db w) !! i = Some r -> render_life i r w w2) as Hown.
  { intros [_ Hm]. destruct (Hm Hw1) as [Hw2 Hmv]. split; [done|].
    intros i r [(r1 & H1 & I1 & C1)|Hg]%IH; [|right; by eapply removed_later].
    destruct (Hmv _ _ H1) as (r2 & H2 & I2 & C2). left. exists r2. split_and!; congruence. }
  inversion Hs as [op x|c x|x y Ht Hn]; subst; [by apply Hown, rendering_operation| |by apply Hown, rendering_same].
  pose proof (affects_command c w1) as Ha. split; [by eapply deletion_render_ok|].
  intros i r [(r1 & H1 & I1 & C1)|Hg]%IH; [|right; by eapply removed_later].
  pose proof (ef_renders _ _ (proj1 Ha) i) as Hi. rewrite H1 in Hi. destruct Hi as [Hi|[_ Hg]].
  - left. by exists r1.
  - right. assert (rn_document r1 = rn_document r) as <- by (unfold identity_of in I1; congruence).
    exists w1, c. split; [done|]. split; [done|reflexivity].
Qed.

(** C8 Along every interleaving of requests, render jobs, commands of controlled
    deletion and whatever else leaves the table alone: there is one rendering per
    document, representation, renderer and version; a job belongs to one
    rendering; a finalised one names its artifact; and a row keeps its identity
    and its correlation, and stays, unless a deletion in between removed its
    document. *)
Theorem renders_life w w' :
  renders (db w) = ∅ -> rtc render_step w w' -> forall w'', rtc render_step w' w'' ->
  render_ok (next_uuid w') (db w') /\
  forall i r, renders (db w') !! i = Some r ->
    (exists r', renders (db w'') !! i = Some r' /\ identity_of r' = identity_of r /\ rn_correlation_id r' = rn_correlation_id r) \/
    removed_between (rn_document r) w' w''.
Proof using laws external.
  intros Hempty H1 w'' H2.
  assert (render_inv w) as Hw by (split; rewrite Hempty; [split|..]; intros ? *; rewrite ?lookup_empty; done).
  destruct (renders_live _ _ H1 Hw) as [Hw' _]. split; [exact Hw'|]. by apply renders_live.
Qed.

(** ** What is stored *)

(** A verified read later, over the same rows and the same bucket. *)
Lemma read_verified_later id body w w' :
  online w = true -> online w' = true -> bucket w' = bucket w -> artifacts (db w') = artifacts (db w) ->
  read_verified id w = (Ok body, w) -> read_verified id w' = (Ok body, w').
Proof using laws.
  intros Ho Ho' Hb Ha. rewrite !read_verified_run by done. rewrite Ha. destruct (artifacts (db w) !! id) as [a|]; [|by intros [=]].
  destruct (is_finalized a); [|by intros [=]]. rewrite (read_local (art_object_key a) w' w) by done. by intros [= ->].
Qed.

Lemma first_by_filtered {A} le (p : A -> bool) l x : first_by le (List.filter p l) = Some x -> p x = true /\ x ∈ l.
Proof. intros Hf%first_by_elem. rewrite list_elem_of_In, filter_In, <-list_elem_of_In in Hf. tauto. Qed.

Lemma with_artifacts_elem (p : DocumentEvidence -> bool) d e a :
  (e, a) ∈ evidence_with_artifacts p d -> p e = true /\ (exists i, evidence d !! i = Some e) /\ artifacts d !! ev_artifact e = Some a.
Proof.
  unfold evidence_with_artifacts, with_artifact. rewrite list_elem_of_omap. intros (x & Hx & Ho).
  destruct (artifacts d !! ev_artifact x) as [y|] eqn:Ha; [|done]. cbn in Ho. injection Ho as -> ->.
  apply elem_of_select in Hx as [Hp Hi]. by split_and!.
Qed.

(** The verified source of a rendering: evidence of its document that is not in
    conflict, of the recorded artifact and digest, and its bytes. *)
Definition source_of (r : DocumentRender) w (source : string) : Prop :=
  exists i e, evidence (db w) !! i = Some e /\ ev_document e = rn_document r /\ ev_artifact e = rn_source_artifact r /\
    ev_conflicting e = false /\ ev_digest e = rn_source_digest r /\ sha256 source = rn_source_digest r /\
    read_verified (rn_source_artifact r) w = (Ok source, w).

Lemma rendered_payload_inv r doc w payload w' :
  artifact_inv w -> rendered_payload (B:=B) r doc w = (Ok payload, w') ->
  w' = w /\ online w = true /\ exists source, source_of r w source /\
    render_pdf_bytes (VBytes source) (rn_representation r) (cancelled_document doc) false = Ok payload.
Proof using laws.
  intros [Hok _]. unfold rendered_payload. intros Hm.
  apply bind_inv in Hm as (metadata & w1 & H1 & Hm). apply lift_inv in H1 as [Hmeta ->].
  apply bind_inv in Hm as (selected & w1 & H1 & Hm). apply of_option_inv in H1 as [Hrep ->].
  apply bind_inv in Hm as (u & w1 & H1 & Hm). apply require_inv in H1 as [_ ->].
  apply bind_inv in Hm as (ev & w1 & H1 & Hm). apply atomic_inv in H1 as [Ho H1]. apply query_inv in H1 as [-> ->].
  apply bind_inv in Hm as ([e a] & w1 & H1 & Hm). apply of_option_inv in H1 as [Hsrc ->]. cbn [snd] in Hm.
  apply bind_inv in Hm as (u1 & w1 & H1 & Hm). apply require_inv in H1 as [Hdig%String.eqb_eq ->].
  apply bind_inv in Hm as (source & w1 & H1 & Hm). apply bind_inv in Hm as ([c rep] & w2 & H2 & Hm).
  apply lift_inv in H2 as [Hflags ->]. apply lift_inv in Hm as [Hpdf ->].
  apply first_by_filtered in Hsrc as [Hp Hin]. apply with_artifacts_elem in Hin as (Hsel & [i Hi] & Ha). bools. cbn [fst snd] in *.
  assert (art_id a = ev_artifact e) as Hid by (by destruct (aok_keyed _ Hok _ _ Ha)).
  rewrite read_verified_run in H1 by done. injection H1 as Hread <-.
  repeat match goal with Hx : N.eqb _ _ = true |- _ => apply N.eqb_eq in Hx | Hx : String.eqb _ _ = true |- _ => apply String.eqb_eq in Hx end.
  split; [done|]. split; [done|]. exists source. split.
  - exists i, e. assert (artifacts (db w) !! rn_source_artifact r = Some a) as Ha' by congruence.
    assert (art_id a = rn_source_artifact r) as Hid' by congruence.
    rewrite read_verified_run by done. rewrite Hid' in Hread. rewrite Hread. split_and!; try done.
    rewrite Ha' in Hread. destruct (is_finalized a); [|done]. destruct (read _ w).1 as [[b|]|x]; [|done..].
    destruct (payload_matches a b) eqn:Hpm; [|done]. injection Hread as ->. unfold payload_matches in Hpm. bools.
    match goal with Hx : String.eqb (sha256 _) _ = true |- _ => apply String.eqb_eq in Hx end. congruence.
  - apply situation_flags_parsed in Hflags as [= -> ->]. replace (rn_representation r) with (PdfRepresentation.value selected); [done|].
    unfold PdfRepresentation.of_value, find_value in Hrep. apply List.find_some in Hrep as [_ Hrep]. by apply String.eqb_eq in Hrep.
Qed.

(** The key a rendering's PDF is stored under has no finalised artifact yet. *)
Definition key_unused (r : DocumentRender) w : Prop :=
  forall k a, artifacts (db w) !! k = Some a -> finalized_key ("render:" ++ uuid_str (rn_id r)) a = false.

Lemma render_and_store_inv r doc w o w' :
  artifact_inv w -> render_and_store (B:=B) r doc w = (Ok o, w') ->
  exists payload artifact source w2, source_of r w source /\
    render_pdf_bytes (VBytes source) (rn_representation r) (cancelled_document doc) false = Ok payload /\
    renders (db w2) = renders (db w) /\ clock w2 = clock w /\ online w2 = true /\
    artifacts (db w2) !! art_id artifact = Some artifact /\ _render_artifact_is_valid_metadata artifact payload = true /\
    (key_unused r w -> read_verified (art_id artifact) w2 = (Ok payload, w2)) /\
    finalize_render r artifact w2 = (Ok o, w').
Proof using laws.
  intros Hw. unfold render_and_store. intros Hm. apply bind_inv in Hm as (payload & w1 & H1 & Hm).
  apply rendered_payload_inv in H1 as (-> & Ho & source & Hsource & Hpdf); [|done].
  apply bind_inv in Hm as (a & w1 & H1 & Hm). pose proof (inv_begin "document_derived_pdf" ("render:" ++ uuid_str (rn_id r)) PDF_MIME_TYPE w Hw) as Hw1.
  pose proof (keeps_begin renders ltac:(done) "document_derived_pdf" ("render:" ++ uuid_str (rn_id r)) PDF_MIME_TYPE w) as (Hr1 & Hc1 & _).
  rewrite H1 in Hw1, Hr1, Hc1. cbn [snd] in Hw1, Hr1, Hc1. apply begin_inv in H1 as (Ho1 & Ha1 & Hp1 & Ht1 & Hk1 & _).
  apply bind_inv in Hm as (artifact & w2 & H2 & Hm).
  pose proof (transmit_holds MAX_PDF_BYTES (art_id a) [VBytes payload] a w1 Hw1 Ho1 Ha1 Hp1) as Ht. rewrite H2 in Ht.
  pose proof (keeps_transmit renders ltac:(done) MAX_PDF_BYTES (art_id a) [VBytes payload] w1) as (Hr2 & Hc2 & Ho2 & _).
  rewrite H2 in Hr2, Hc2, Ho2. cbn [snd] in Hr2, Hc2, Ho2.
  destruct Ht as (body & Hbody & _ & _ & _ & _ & _ & Htab & Hread & _). cbn in Hbody. rewrite append_end in Hbody. injection Hbody as <-.
  apply bind_inv in Hm as (u & w3 & H3 & Hm). apply require_inv in H3 as [Hvalid ->].
  exists payload, artifact, source, w2. split_and!; [done|done|congruence|congruence|congruence|rewrite Htab; apply lookup_insert_eq|done| |done].
  intros Hunused. assert (art_id artifact = art_id a) as Hid; [|rewrite Hid; by apply Hread].
  eapply (transmit_own MAX_PDF_BYTES (art_id a) [VBytes payload] a w1); [exact Hw1|exact Ho1|exact Ha1|exact Hp1| |exact H2].
  unfold key_owned. apply exists_row_false. intros k x Hx. rewrite Ht1 in Hx. unfold put in Hx. apply lookup_insert_Some in Hx as [[_ <-]|[_ Hx]].
  - rewrite N.eqb_refl. cbn. by rewrite andb_false_r.
  - rewrite Hk1, (Hunused k x Hx). done.
Qed.

(** What the job answers when it rendered. *)
Definition rendered_answer (r : DocumentRender) : HandlerOutcome :=
  outcome_success (finalized_result r ++ [("representation", VStr (rn_representation r))])%list.

Lemma failure_not_rendered id e w r w' : render_failed (B:=B) id e w = (Ok (rendered_answer r), w') -> False.
Proof.
  assert (forall code answered, recorded_failure (B:=B) id code answered w = (Ok (rendered_answer r), w') -> False) as Hrec.
  { intros code answered Hm. unfold recorded_failure in Hm. apply try_inv in Hm as [Hm|(x & w1 & _ & Hm)].
    - apply bind_inv in Hm as (u & w1 & _ & Hm). by apply ret_inv in Hm as [Hm _].
    - by apply ret_inv in Hm as [Hm _]. }
  unfold render_failed. destruct e; try apply Hrec. intros Hm. apply bind_inv in Hm as (u & w1 & _ & Hm).
  apply bind_inv in Hm as (now & w2 & _ & Hm). apply bind_inv in Hm as (u2 & w3 & _ & Hm). by apply ret_inv in Hm as [Hm _].
Qed.

(** C7 A PDF served is the library's output for the source that was verified:
    when the job answers that it rendered, the document has evidence, not in
    conflict, of the artifact and digest the rendering was requested for; its
    bytes were read back with that SHA-256; the payload is what the pinned library
    gave for them; the row is finalised with the payload's digest and size and
    valid; and, unless an artifact was already finalised for this rendering, the
    stored object reads back as exactly the payload. *)
Theorem rendered_pdf_faithful render_id actor_id i r doc w w' :
  artifact_inv w -> render_inv w -> parse_uuid render_id = Some i ->
  renders (db w) !! i = Some r -> documents (db w) !! rn_document r = Some doc ->
  render_pdf_job render_id actor_id w = (Ok (rendered_answer r), w') ->
  exists source payload a r',
    source_of r w source /\
    render_pdf_bytes (VBytes source) (rn_representation r) (cancelled_document doc) false = Ok payload /\
    renders (db w') !! i = Some r' /\ identity_of r' = identity_of r /\ render_valid (db w') r' = true /\
    rn_artifact r' = Some a /\ rn_digest r' = sha256 payload /\ rn_size_bytes r' = Some (slen payload) /\
    (key_unused r w -> read_verified a w' = (Ok payload, w')).
Proof using laws.
  intros Hart Hw Hid Hr Hdoc. unfold render_pdf_job. rewrite Hid. intros Hm.
  assert (rn_id r = i) as Hri by (by destruct (proj1 (ro_keyed _ _ Hw) _ _ Hr)).
  apply bind_inv in Hm as (row & w1 & H1 & Hm). apply atomic_inv in H1 as [Ho H1]. apply query_inv in H1 as [-> ->].
  unfold loaded_render in Hm. rewrite Hr, Hdoc in Hm. cbn [option_map] in Hm.
  destruct (render_valid (db w) r) eqn:Hvalid; [by apply ret_inv in Hm as [Hm _]|].
  apply bind_inv in Hm as (allowed & w1 & H1 & Hm).
  assert (w1 = w) as ->.
  { unfold still_authorized in H1. destruct actor_id as [[|c s]|]; [by apply ret_inv in H1 as [_ ->]| |by apply ret_inv in H1 as [_ ->]].
    apply bind_inv in H1 as (u & w2 & H2 & H1). apply of_option_inv in H2 as [_ ->].
    apply bind_inv in H1 as (x & w2 & H2 & H1). apply atomic_inv in H2 as [_ H2]. apply query_inv in H2 as [_ ->]. by apply ret_inv in H1 as [_ ->]. }
  destruct allowed; cbn [negb] in Hm; [|apply bind_inv in Hm as (u & w1 & _ & Hm); by apply ret_inv in Hm as [Hm _]].
  apply try_inv in Hm as [Hm|(e & w1 & _ & Hm)]; [|by apply failure_not_rendered in Hm].
  apply render_and_store_inv in Hm as (payload & artifact & source & w2 & Hsource & Hpdf & Hr2 & Hc2 & Ho2 & Ha2 & Hmeta & Hread & Hm); [|done].
  apply finalize_inv in Hm as (_ & Ho' & Hb' & Ha' & locked & Hl & [(_ & _ & He)|[Ht _]]); [done|].
  rewrite Hr2, Hri in Hl. assert (locked = r) as -> by congruence.
  unfold _render_artifact_is_valid_metadata in Hmeta. bools.
  repeat match goal with Hx : String.eqb _ _ = true |- _ => apply String.eqb_eq in Hx end.
  exists source, payload, (art_id artifact), (stored_render (clock w2) artifact r). split_and!; [done|done| |done| |done|done|done|].
  - rewrite Ht, <-Hri. apply lookup_insert_eq.
  - unfold render_valid, artifact_of_render. cbn. rewrite Ha', Ha2. cbn. rewrite String.eqb_refl, bool_decide_eq_true_2 by done.
    match goal with Hx : finalized artifact = true |- _ => rewrite Hx end. cbn.
    repeat match goal with Hx : _ = PDF_MIME_TYPE |- _ => rewrite Hx end. done.
  - intros Hunused. by apply (read_verified_later _ _ w2); [..|apply Hread].
Qed.

(** ** What is reused *)

Lemma autoread {A C} (f : DB -> A) (k : A -> M B C) w : online w = true -> bind (autocommit (query f)) k w = k (f (db w)) w.
Proof. intros Ho. apply bind_ok. unfold autocommit, atomic. by rewrite Ho. Qed.

(** An intact rendering of a document. *)
Record intact (document : Document) (r : DocumentRender) w : Prop := {
  it_document : documents (db w) !! doc_id document = Some document;
  it_row : renders (db w) !! rn_id r = Some r;
  it_of : rn_document r = doc_id document;
  it_valid : render_valid (db w) r = true }.

Lemma intact_job document r w actor_id : online w = true -> intact document r w -> (rn_id r < 2 ^ 128)%N ->
  render_pdf_job (B:=B) (uuid_str (rn_id r)) actor_id w = (Ok (outcome_success (finalized_result r)), w).
Proof.
  intros Ho [Hdoc Hrow Hof Hvalid] Hlt. unfold render_pdf_job. rewrite parse_uuid_str by done. rewrite autoread by done.
  unfold loaded_render. rewrite Hrow, Hof, Hdoc. cbn [option_map]. by rewrite Hvalid.
Qed.

Lemma request_locked_reuse actor document representation version regenerate current r w :
  documents (db w) !! document = Some r.1 -> is_Some (_verified_source document (db w)) ->
  _identity_render document representation version (db w) = Some r.2 -> render_valid (db w) r.2 = true ->
  request_locked (B:=B) actor document representation version regenerate current w =
  bind (_audit (render_audit "document.render.reuse" "reused" (Some actor) (Some r.2) None representation version ""))
    (fun _ => ret (MkRenderRequestResult (Some r.2) "available" "" true false)) w.
Proof.
  intros Hdoc [source Hs] Hid Hvalid. unfold request_locked. apply andb_true_iff in Hvalid as [Hf Hv].
  rewrite (bind_ok _ _ w (Some r.1) w) by (unfold query, gets; by rewrite Hdoc).
  rewrite (bind_ok _ _ w r.1 w) by done. rewrite (bind_ok _ _ w (Some source) w) by (unfold query, gets; by rewrite Hs).
  cbv iota. rewrite (bind_ok _ _ w (Some r.2) w) by (unfold query, gets; by rewrite Hid).
  rewrite (bind_ok _ _ w (db w) w) by done. cbv iota. by rewrite Hf, Hv.
Qed.

(** C11 What is finalised and intact is reused: a request for it, regenerating or
    not, answers with the very row and queues nothing - the audit event is the
    only change, or the request raises and the database is as it was - and its
    job answers at once, without touching anything. *)
Theorem intact_render_reused actor document_id document representation selected metadata r regenerate w res w' actor_id :
  online w = true -> intact document r w -> (rn_id r < 2 ^ 128)%N ->
  authorize (si_role actor) Action.READ_DOCUMENTS None (Some (si_user_id actor)) = true ->
  uuid_of document_id = Some (doc_id document) -> renderer_metadata = Ok metadata ->
  requested_representation representation document = Some selected ->
  PdfRepresentation.for_family (doc_family document) = Some selected ->
  is_Some (_verified_source (doc_id document) (db w)) ->
  _identity_render (doc_id document) (PdfRepresentation.value selected) (rm_version metadata) (db w) = Some r ->
  request_render actor document_id representation regenerate None w = (res, w') ->
  match res with
  | Ok a => a = MkRenderRequestResult (Some r) "available" "" true false /\ audit_frame (db w) (db w')
  | Err _ => db w' = db w
  end /\
  render_pdf_job (uuid_str (rn_id r)) actor_id w' = (Ok (outcome_success (finalized_result r)), w').
Proof.
  intros Ho Hin Hlt Hauth Huuid Hmeta Hrep Hfam [source Hs] Hid Hreq.
  assert (match res with
          | Ok a => a = MkRenderRequestResult (Some r) "available" "" true false /\ audit_frame (db w) (db w')
          | Err _ => db w' = db w
          end /\ online w' = true) as [Hres Ho'].
  2: { split; [exact Hres|]. apply (intact_job document); [done| |done]. destruct Hin as [H1 H2 H3 H4].
       assert (documents (db w') = documents (db w) /\ renders (db w') = renders (db w) /\ artifacts (db w') = artifacts (db w)) as (E1 & E2 & E3).
       { destruct res as [a|e]; [destruct Hres as [_ (? & ? & ->)]|rewrite Hres]; done. }
       split; [by rewrite E1|by rewrite E2|done|]. unfold render_valid, artifact_of_render in *. by rewrite E3. }
  revert Hreq. unfold request_render. rewrite Hauth. cbn [negb]. rewrite (bind_ok _ _ w (doc_id document) w) by (by rewrite Huuid).
  rewrite (bind_ok _ _ w (clock w) w) by done. cbv zeta. cbn [opt_default is_aware is_naive negb].
  rewrite (bind_ok _ _ w tt w) by done. rewrite autoread by done. rewrite (it_document _ _ _ Hin). cbv iota. rewrite Hmeta. cbv iota.
  rewrite Hrep. cbv iota. rewrite (bind_ok _ _ w selected w) by (by rewrite Hfam). rewrite bool_decide_eq_true_2 by done. cbn [negb].
  rewrite autoread by done. rewrite Hs. cbv iota. unfold request_in_transaction, try_except, atomic. rewrite Ho.
  rewrite (request_locked_reuse _ _ _ _ _ _ (document, r)); [|apply (it_document _ _ _ Hin)|by eexists|exact Hid|apply (it_valid _ _ _ Hin)].
  cbn [snd]. unfold _audit. rewrite bind_assoc. unfold bind.
  set (a := render_audit _ _ _ _ _ _ _ _). pose proof (append_frame a w) as Hf. pose proof (env_append a w) as (_ & He & _).
  destruct (append a w) as [[ev|e] w1]; cbn in He; cbn.
  - intros [= <- <-]. split; [|congruence]. split; [done|]. by eapply Hf.
  - assert (online (w1 <| db := db w |>) = true) as Hw1 by (cbn; congruence). destruct e; intros [= <- <-]; by split.
Qed.

End service.
