(* ===== verification/RenderingRuns.v ===== *)
(** * A concrete run of the renderer

    One NFS-e with its XML stored in the in-memory bucket, a parser that knows
    that XML, and a library that answers a fixed PDF: requested, rendered, and
    requested again; each theorem of [RenderingFacts] and [RenderingGuarantees] is
    applied along the run. *)

From Stdlib Require Import ZArith Ascii String Lia.
From stdpp Require Import base decidable list gmap strings relations.
From S2P Require Import Prelude PyStr PyVal PyDecimal Sha256 AuditTrail Identity JobPolicies JobEngine Models Tables Artifacts ArtifactFacts Retention Deletion DeletionCompletion DeletionEffects Rendering RenderingFacts RenderingGuarantees.

Local Open Scope string_scope.

(** ** A federal-tax group *)

Definition leaf (tag text : string) : element := Element ("{http://nfse}" ++ tag) [] (Some text) None [].

Definition tax_fields : list element :=
  [leaf "tpRetPisCofins" "1"; leaf "vRetCSLL" "10.00"; leaf "vPis" "6.50"; leaf "vCofins" "30.25"; leaf "vRetIRRF" "15.00"].

Definition tax_group : element := Element "{http://nfse}tribFed" [] None None tax_fields.
Definition nfse_root : element := Element "{http://nfse}NFSe" [] None None [leaf "cStat" "101"; tax_group].
Definition nfse_xml : string := "<NFSe xmlns='http://nfse'>...</NFSe>".

Definition tax_amount (name : string) : N :=
  if String.eqb name "vretcsll" then 1000 else if String.eqb name "vpis" then 650 else if String.eqb name "vcofins" then 3025 else 0.

Lemma tax_priced : priced tax_amount tax_fields.
Proof.
  intros child Hin Hr. unfold tax_fields in Hin. repeat (apply elem_of_cons in Hin as [->|Hin]; [try done|]). by apply not_elem_of_nil in Hin.
Qed.

Definition shown_group : option element := Eval vm_compute in match presented tax_group with Ok e => Some e | Err _ => None end.

(** 10.00, 6.50 and 30.25 become 46.75, 0.00 and 0.00. *)
Lemma retention_total_kept_witness :
  option_map (fun e => map text_of (children_of e)) shown_group = Some [Some "1"; Some "46.75"; Some "0.00"; Some "0.00"; Some "15.00"] /\
  group_total tax_fields = Some (cents 4675) /\
  exists shown, presented tax_group = Ok (Element "{http://nfse}tribFed" [] None None shown) /\ group_total shown = Some (cents 4675).
Proof.
  split; [vm_compute; reflexivity|].
  assert (Forall2 (fun c c1 => presented c = Ok c1) tax_fields tax_fields) as Hleaf by (repeat constructor).
  destruct (retention_total_kept "{http://nfse}tribFed" [] None None tax_fields tax_fields tax_amount) as (H1 & H2 & H3 & _).
  - vm_compute. reflexivity.
  - vm_compute. reflexivity.
  - exact tax_priced.
  - change (retained_names tax_fields) with ["vretcsll"; "vpis"; "vcofins"]. apply (bool_decide_eq_true_1 (NoDup _)). vm_compute. reflexivity.
  - change (retained_names tax_fields) with ["vretcsll"; "vpis"; "vcofins"]. by left.
  - vm_compute. reflexivity.
  - exact Hleaf.
  - split; [exact H2|]. eexists. split; [exact H1|exact H3].
Defined.

(** ** The world *)

#[export] Instance toy_tree : XmlTree :=
  {| fromstring := fun xml => if String.eqb xml nfse_xml then Some nfse_root else None; tostring := fun _ => "<NFSe/>" |}.

#[export] Instance toy_library : PdfLibrary :=
  {| installed := Some PINNED_RENDERER_VERSION; danfe := fun _ _ => None;
     danfse := fun _ cancelled _ => Some (VBytes (if cancelled then "%PDF-1.4 cancelled %%EOF" else "%PDF-1.4 plain %%EOF")) |}.

Definition rg_empty : World MemoryBucket.t := MemoryBucket.world empty_db (days 20000) 10.
Definition rg_begun : World MemoryBucket.t := Eval vm_compute in (begin "fiscal_original" "original:1" "application/xml" rg_empty).2.
Definition rg_stored : World MemoryBucket.t := Eval vm_compute in (transmit 1000 10 [VBytes nfse_xml] rg_begun).2.

Definition rg_document : Document :=
  MkDocument 5 3 "nfse" "prestados" "prestada" "synthetic" "provided" "nfse" "key" "key" 0 None 0 "cancelled"
    DocumentState.PERSISTED "execution:a" "correlation:a" 0 0.
Definition rg_evidence : DocumentEvidence := Eval vm_compute in MkDocumentEvidence 6 5 10 (sha256 nfse_xml) (slen nfse_xml) false 0.
Definition rg_actor : SessionIdentity := MkSessionIdentity (uuid_str 7) "viewer@example.org" "Viewer" "visualizador".

Definition rg_start : World MemoryBucket.t :=
  Eval vm_compute in
    MkWorld (db rg_stored <| documents := {[5%N := rg_document]} |> <| evidence := {[6%N := rg_evidence]} |>)
      (clock rg_stored) (next_uuid rg_stored) (online rg_stored) (columns rg_stored) (bucket rg_stored).

Definition rg_request (w : World MemoryBucket.t) : result exn RenderRequestResult * World MemoryBucket.t :=
  request_render rg_actor (RefStr (uuid_str 5)) None false None w.

Definition rg_requested : World MemoryBucket.t := Eval vm_compute in (rg_request rg_start).2.
Definition rg_row : option DocumentRender := Eval vm_compute in List.hd_error (rows (renders (db rg_requested))).
Definition rg_render : DocumentRender := Eval vm_compute in match rg_row with Some r => r | None => new_render 0 0 0 (rg_evidence, new_artifact 0 0 "" "" "") "" "" 0 end.

Definition rg_job (w : World MemoryBucket.t) : result exn HandlerOutcome * World MemoryBucket.t :=
  render_pdf_job (uuid_str (rn_id rg_render)) None w.
Definition rg_done : World MemoryBucket.t := Eval vm_compute in (rg_job rg_requested).2.

Example rg_states : map rn_state (rows (renders (db rg_done))) = [DocumentRenderState.FINALIZED].
Proof. vm_compute. reflexivity. Qed.

(** ** The invariants along the run *)

Lemma rg_request_run : (rg_request rg_start).2 = rg_requested.
Proof. vm_compute. reflexivity. Qed.

Lemma rg_job_run : rg_job rg_requested = (Ok (rendered_answer rg_render), rg_done).
Proof. vm_compute. reflexivity. Qed.

Lemma rg_render_row : renders (db rg_requested) !! 12%N = Some rg_render.
Proof. vm_compute. reflexivity. Qed.

Lemma rg_begin_run : (begin "fiscal_original" "original:1" "application/xml" rg_empty).2 = rg_begun.
Proof. vm_compute. reflexivity. Qed.

Lemma rg_transmit_run : (transmit 1000 10 [VBytes nfse_xml] rg_begun).2 = rg_stored.
Proof. vm_compute. reflexivity. Qed.

Lemma rg_stored_inv : artifact_inv rg_stored.
Proof.
  rewrite <-rg_transmit_run. apply inv_transmit. rewrite <-rg_begin_run. apply inv_begin. by apply artifact_inv_empty.
Qed.

Lemma rg_requested_inv : artifact_inv rg_requested.
Proof.
  pose proof rg_stored_inv as [H1 H2]. assert (artifacts (db rg_requested) = artifacts (db rg_stored)) as E by (vm_compute; reflexivity).
  split; rewrite E; [exact H1|]. intros i Hi. specialize (H2 i Hi).
  assert (next_uuid rg_stored <= next_uuid rg_requested)%N as Hle by (vm_compute; discriminate). lia.
Qed.

Lemma rg_start_renders : renders (db rg_start) = ∅.
Proof. vm_compute. reflexivity. Qed.

Lemma rg_requested_renders : render_inv rg_requested.
Proof.
  rewrite <-rg_request_run. pose proof (rendering_request rg_actor (RefStr (uuid_str 5)) None false None rg_start) as [_ H].
  apply H. split; rewrite rg_start_renders; [split|..]; intros ? *; rewrite ?lookup_empty; done.
Qed.

Definition rg_render_job : Job :=
  new_job 14 (days 20000) (MkEnqueue "document" "render_pdf" [("render_id", VStr (uuid_str 12))] "render:12" 0 None None None None) VNone 0 None.

#[local] Instance rg_heap : Heap := fun _ _ l => l.

(** Years later an administrator has the document deleted, its renderings with it. *)
Definition rg_administrator : SessionIdentity := MkSessionIdentity (uuid_str 8) "ana@example.org" "Ana" "administrador".
Definition rg_old : World MemoryBucket.t := Eval vm_compute in
  rg_requested <| clock := (days 40000)%Z |>
    <| db ::= fun d => d <| users := {[ 8%N := MkUser 8 "ana@example.org" "Ana" Role.ADMINISTRATOR "" true 0 0 0 0 ]} |> |>.
Definition rg_hash : string := Eval vm_compute in
  match documents (db rg_old) !! 5%N with Some doc => scope_hash (load_unordered (db rg_old) doc) | None => "" end.
Definition rg_erasure : DeletionCommand :=
  DeletionRequest rg_administrator (RefStr (uuid_str 5)) (VStr rg_hash) (VStr SCOPE_VERSION) (VStr (confirmation_for 5 rg_hash)) (VStr "prazo").
Definition rg_pending : World MemoryBucket.t := Eval vm_compute in run_deletion rg_erasure rg_old.
Definition rg_execution : DeletionCommand := Eval vm_compute in
  DeletionExecution (RefStr (uuid_str (match rows (deletions (db rg_pending)) with o :: _ => op_id o | [] => 0%N end))).
Definition rg_erased : World MemoryBucket.t := Eval vm_compute in run_deletion rg_execution rg_pending.

Lemma rg_pending_run : run_deletion rg_erasure rg_old = rg_pending.
Proof. vm_compute. reflexivity. Qed.

Lemma rg_erased_run : run_deletion rg_execution rg_pending = rg_erased.
Proof. vm_compute. reflexivity. Qed.

Lemma rg_erasing : rtc render_step rg_requested rg_erased.
Proof.
  apply (rtc_l _ _ rg_old); [apply is_other; [reflexivity|apply N.leb_le; vm_compute; reflexivity]|].
  apply (rtc_l _ _ rg_pending); [rewrite <-rg_pending_run; apply render_deletion|].
  apply rtc_once. rewrite <-rg_erased_run. apply render_deletion.
Qed.

(** The request, then the job: the row stays; the request, then the deletion of the document: it goes. *)
Lemma renders_life_witness :
  render_ok (next_uuid rg_requested) (db rg_requested) /\ renders (db rg_erased) = ∅ /\ removed_between 5 rg_requested rg_erased /\
  (exists r', renders (db (run_render (RenderJob rg_render_job) rg_requested)) !! 12%N = Some r' /\ identity_of r' = identity_of rg_render \/
     removed_between 5 rg_requested (run_render (RenderJob rg_render_job) rg_requested)).
Proof.
  assert (rtc render_step rg_start rg_requested) as Hs.
  { rewrite <-rg_request_run. apply rtc_once. exact (is_render (RequestRender rg_actor (RefStr (uuid_str 5)) None false None) rg_start). }
  assert (renders (db rg_erased) = ∅) as Hgone by (vm_compute; reflexivity).
  destruct (renders_life rg_start rg_requested rg_start_renders Hs rg_erased rg_erasing) as [H1 H2].
  split; [exact H1|]. split; [exact Hgone|]. split.
  - destruct (H2 _ _ rg_render_row) as [(r' & Hr & _)|Hg]; [rewrite Hgone, lookup_empty in Hr; discriminate Hr|exact Hg].
  - assert (rtc render_step rg_requested (run_render (RenderJob rg_render_job) rg_requested)) as Hjob
      by (apply rtc_once; exact (is_render (RenderJob rg_render_job) rg_requested)).
    destruct (renders_life rg_start rg_requested rg_start_renders Hs _ Hjob) as [_ H3].
    destruct (H3 _ _ rg_render_row) as [(r' & Hr & Hi & _)|Hg]; [|exists rg_render; right; exact Hg]. exists r'. left. split; [exact Hr|exact Hi].
Defined.

(** The stored PDF of the cancelled document reads back as the library gave it. *)
Lemma rendered_pdf_faithful_witness :
  map rn_state (rows (renders (db rg_done))) = [DocumentRenderState.FINALIZED] /\
  exists source payload a r', source_of rg_render rg_requested source /\
    render_pdf_bytes (VBytes source) "danfse" true false = Ok payload /\
    renders (db rg_done) !! 12%N = Some r' /\ rn_artifact r' = Some a /\ rn_digest r' = sha256 payload /\
    read_verified a rg_done = (Ok payload, rg_done).
Proof.
  split; [vm_compute; reflexivity|].
  destruct (rendered_pdf_faithful (uuid_str (rn_id rg_render)) None 12 rg_render rg_document rg_requested rg_done
    rg_requested_inv rg_requested_renders) as (source & payload & a & r' & H1 & H2 & H3 & _ & _ & H4 & H5 & _ & H6).
  - vm_compute. reflexivity.
  - exact rg_render_row.
  - vm_compute. reflexivity.
  - exact rg_job_run.
  - exists source, payload, a, r'. split_and!; [exact H1|exact H2|exact H3|exact H4|exact H5|]. apply H6.
    intros k x Hx. assert (map_Forall (fun _ x => finalized_key ("render:" ++ uuid_str (rn_id rg_render)) x = false) (artifacts (db rg_requested))) as Hall
      by (apply (bool_decide_eq_true_1 (map_Forall _ _)); vm_compute; reflexivity).
    by apply (Hall k x).
Defined.

Definition rg_final : DocumentRender :=
  Eval vm_compute in match List.hd_error (rows (renders (db rg_done))) with Some r => r | None => rg_render end.
Definition rg_metadata : RendererMetadata :=
  Eval vm_compute in match renderer_metadata with Ok m => m | Err _ => MkRendererMetadata "" "" [] end.
Definition rg_again : World MemoryBucket.t := Eval vm_compute in (rg_request rg_done).2.
Definition rg_reused : RenderRequestResult := MkRenderRequestResult (Some rg_final) "available" "" true false.

Lemma rg_again_run : rg_request rg_done = (Ok rg_reused, rg_again).
Proof. vm_compute. reflexivity. Qed.

(** Asked for again, the finalised rendering is answered and its job does nothing. *)
Lemma intact_render_reused_witness :
  rg_request rg_done = (Ok rg_reused, rg_again) /\ audit_frame (db rg_done) (db rg_again) /\
  render_pdf_job (uuid_str (rn_id rg_final)) None rg_again = (Ok (outcome_success (finalized_result rg_final)), rg_again).
Proof.
  split; [exact rg_again_run|].
  destruct (intact_render_reused rg_actor (RefStr (uuid_str 5)) rg_document None PdfRepresentation.DANFSE rg_metadata rg_final false
    rg_done (Ok rg_reused) rg_again None) as [[_ H1] H2].
  - vm_compute. reflexivity.
  - split; vm_compute; reflexivity.
  - vm_compute. reflexivity.
  - vm_compute. reflexivity.
  - vm_compute. reflexivity.
  - vm_compute. reflexivity.
  - vm_compute. reflexivity.
  - vm_compute. reflexivity.
  - vm_compute. by eexists.
  - vm_compute. reflexivity.
  - exact rg_again_run.
  - split; [exact H1|exact H2].
Defined.
